(* ===== verification/_CoqProject ===== *)
-Q . S2P
Prelude.v
Scan.v
LogEvent.v
Regex.v
LogLine.v
Inhibit.v
InhibitFacts.v
InhibitRelease.v
Device.v
DeviceFacts.v
Session.v
SessionFacts.v
SessionPolicy.v
SessionRuns.v
VtMonitor.v
VtMonitorFacts.v
VtMonitorRuns.v
Console.v
Seat.v
SeatFacts.v
SeatActivation.v
SeatSessions.v
SeatRuns.v
Hooks.v
Leader.v
Collect.v
LeaderFacts.v
Power.v
PowerFacts.v
PowerPolicy.v
PowerRuns.v
Manager.v
ManagerIds.v
ManagerFacts.v
ManagerOps.v
ManagerLogins.v
ManagerRefines.v
ManagerPolicy.v
SessionNew.v
ManagerRuns.v
FileMonitor.v
FileMonitorFacts.v
FileMonitorPolicy.v
TtyIdle.v
TtyIdleFacts.v
TtyIdlePolicy.v
TtyIdleRuns.v
EventLogger.v
EventLoggerFacts.v
EventLoggerPolicy.v
History.v
HistoryFacts.v
HistoryPolicy.v
LogPipeline.v
ProcFs.v
ProcFsFacts.v
ProcFsPolicy.v
Database.v
DatabaseFacts.v
DatabasePolicy.v
KeyFileText.v
UdevAcl.v
UdevAclFacts.v
UdevAclPolicy.v
AclText.v
UdevAclRuns.v
Job.v
RuntimeDir.v
Connector.v
ConnectorFacts.v
ConnectorPolicy.v
PamConnector.v
PamPolicy.v
LaunchSession.v
ConnectorRuns.v
ConsoleFd.v
ProcessGroup.v
SystemLog.v
X11Tools.v
LibConsoleKit.v
