(* ===== verification/Prelude.v ===== *)
(** * ConsoleKit2 in Rocq

    ConsoleKit2 is a daemon that tracks login sessions: which sessions there are,
    on which seat and virtual terminal (VT), which one is active, who may use the
    seat's input and graphics devices, who holds inhibitor locks; and it logs
    these events.  This library models the daemon's core (the C files under
    src/src/) and proves what makes each part correct.

    ** The parts and their files

    - This file: programs ([prog], state passing with abort), weakest
      preconditions [wp] (total), [wlp] (partial) and [wpt] (total under a
      condition), [outcome] for ways to go
      wrong, machine integers [u32], [u64], [i32], [i64], strings, decimal
      numbers; the hint databases [ck] and [ck_int].
    - [Scan]: number conversions of printf, strtoul and sscanf.
    - [LogEvent], ck-log-event.c and .h: the event records on a heap, deep copy
      ([ck_log_event_copy]) and free.  The allocator is the class [Allocator].
    - [Regex]: the part of GRegex the log parser uses, as the class [GRegex], with
      a backtracking matcher as instance.
    - [LogLine], ck-log-event.c: printing events to log lines and parsing them.
    - [Inhibit], [InhibitFacts], [InhibitRelease]: ck-inhibit.c and
      ck-inhibit-manager.c, the locks, their pipes, the counters, and the signals
      that run the manager's handler inside a lock's operation.
    - [Device], [DeviceFacts]: ck-device-udev.c, devices whose descriptors the
      daemon opens, revokes and hands out.  The kernel and udev are the class [OS].
    - [Session], [SessionFacts], [SessionPolicy], [SessionRuns]: ck-session.c, the
      controller, the devices it took, the pause handshake, the VT handover, locking
      and hints.  The generated D-Bus skeleton is the class [Skeleton], the bus and
      the user database the class [Env].
    - [VtMonitor], [VtMonitorFacts], [VtMonitorRuns]: ck-vt-monitor.c, the watch
      threads, the event queue and the idle callback, as interleaved steps.
    - [Console]: the console names of ck-sysdeps-linux.c.
    - [Seat], [SeatFacts], [SeatActivation]: ck-seat.c, and Activate of ck-session.c:
      the table of sessions, the active session, activation.  A seat reaches
      sessions through the class [SessionOps] with the laws [SessionLaws].
    - [SeatSessions], [SeatRuns]: the sessions of [Session] implement that class;
      concrete runs of a seat.
    - [Hooks]: ck-run-programs.c and the environment that ck-session.c gives to
      the hook programs of a session (the one of a seat is in [Seat]); its Module
      [Wait]: the wait for a program, as interleaved steps of the main loop.
    - [Leader], [LeaderFacts]: ck-session-leader.c, the parameters of the caller and
      the reading of the job's output.  [Collect]: ck-collect-session-info.c, the
      job; processes and the helper programs are the class [Processes].
    - [Power], [PowerFacts], [PowerPolicy], [PowerRuns]: the system actions of
      ck-manager.c (restart, stop, sleep), their authorization, their locks and
      delays; the state is the record [power].
    - [Manager]: the rest of ck-manager.c, the tables of seats, sessions and
      leaders, opening and closing sessions, the system idle hint, the queries;
      the state is the record [registry], the sessions are reached through the
      class [ManagedSessions] with the laws [ManagedLaws].  [ManagerIds] has the
      serial numbers, [ManagerFacts] and [ManagerOps] what the operations keep,
      [ManagerLogins] the specification of logins and the invariant of leaders,
      [ManagerRefines] the refinement and the reachable states, [ManagerPolicy]
      the theorems, [ManagerRuns] concrete runs and witnesses.
    - [SessionNew]: creation, setters and dump of ck-session.c; the sessions of
      [Session] implement [ManagedSessions].
    - [FileMonitor], [FileMonitorFacts], [FileMonitorPolicy]: ck-file-monitor-inotify.c,
      the watches and the clients' notifications on a heap, the bytes of the kernel,
      the queues and their idle callbacks.  inotify is the class [Inotify].
      [TtyIdle], [TtyIdleFacts], [TtyIdlePolicy]: its client, ck-tty-idle-monitor.c;
      [TtyIdleRuns]: concrete runs of both.
    - [EventLogger], [EventLoggerFacts], [EventLoggerPolicy]: ck-event-logger.c, the
      queue of events, the writer thread and the log file, as interleaved steps.
    - [History], [HistoryFacts], [HistoryPolicy]: ck-history.c (src/tools), the
      reading of the log files and the reports.  The files, the users and the time
      are the class [System], sorting and hash tables the class [GLib].
      [LogPipeline]: the logger and the tool together, and concrete runs.
    - [ProcFs], [ProcFsFacts], [ProcFsPolicy]: ck-sysdeps-linux.c, what the daemon
      reads of a process (status line, environment, login session), the swap
      space and the VT switches.  /proc, /sys and /dev are the class [Proc]; it
      implements the class [Processes] of [Collect].
    - [Database], [DatabaseFacts], [DatabasePolicy]: ck_manager_dump of ck-manager.c,
      the key file of everything the manager knows and its writing.  GKeyFile is
      the class [KeyFiles] ([KeyFileText]: an instance), the sessions' part the
      class [DumpedSessions].  [UdevAcl], [UdevAclFacts], [UdevAclPolicy]: its
      reader, udev-acl.c (src/tools), which also gets the seats' hook environment.
      libacl is the class [LibAcl] ([AclText]: an instance); [UdevAclRuns] has the
      concrete runs of both.
    - [Job]: ck-job.c, a program and the reading of its two channels, as
      interleaved wakeups of the main loop.  What the process and waitpid do is an
      argument of each step.
    - [RuntimeDir]: the users' runtime directories of ck-sysdeps-unix.c, their
      mounts (ck-sysdeps-linux.c) and ck-remove-directory.c (src/tools), on trees
      of files.  What a user may do with a file is the class [Permissions] with the
      laws [PermissionLaws], the rest of the system the class [RunHost].
      [ConsoleFd]: the rest of that file, descriptors of consoles; the kernel is the
      class [ConsoleKernel].
    - [ProcessGroup]: ck-process-group.c; cgmanager is the class [CgManager].
    - [X11Tools]: ck-get-x11-server-pid.c and ck-get-x11-display-device.c (src/tools),
      and what the job of [Collect] makes of their output.
    - [SystemLog]: ck-log-system-start.c, -restart.c and -stop.c (src/tools), which
      write to the log that [History] reads.

    - [Connector], [ConnectorFacts], [ConnectorPolicy]: ck-connector.c (src/libck-connector),
      the library a login program opens its session with.  libdbus and the daemon
      behind it are the class [Bus] with the laws [BusLaws].  Its users:
      [PamConnector], [PamPolicy], the PAM module pam-ck-connector.c;
      [LaunchSession], ck-launch-session.c (src/tools).  [ConnectorRuns] has a small
      daemon and the concrete runs of the three.
    - [LibConsoleKit]: libconsolekit.c and sd-compat.c (src/libconsolekit), what
      programs ask the daemon.  The bus is the class [Remote].  Its Module
      [ListSessions]: list-sessions.c (src/tools), on the same bus.

    The manager opens a session for a leader, whose job tells what the session is,
    puts it on a seat and closes it.  A seat follows the VT monitor and switches
    its sessions; a session that is switched switches its devices.  The inhibit
    locks block and delay the manager's system actions.  The functions keep their C names; a record
    is the private struct of the C file, with one setter per group of fields.

    ** What is proved

    - Access: when a session is not active, or has no controller, no description
      the daemon opened for it gives access to a device, also no duplicate a
      client kept; nothing leaks and no operation follows a dangling pointer
      ([SessionFacts], [DeviceFacts]).  The same rests on all kernel requests
      succeeding, which is a hypothesis where it is needed; and that an operation
      returns, on no console being found closing for ever ([console_settles]).
    - Policy: who may take control, answer the pause handshake, set hints
      ([SessionPolicy]).
    - Seats: the active session is the oldest one on the active console; with one
      session per console no other is ever marked active ([SeatFacts]).
    - The manager: every request within the bounds of [input_ok], in every state that
      such requests reach, is served to its end and does to the logins what
      [login_step] allows; the tables agree, also after activations and VT changes;
      the system idle hint is exact; ids are fresh ([ManagerPolicy], [ManagerIds]).
      When a session counts as local, also wrongly ([ManagerPolicy], [ManagerRuns]).
    - System actions refine an abstract machine, each call is answered once, an
      announced action was authorized and is performed ([PowerPolicy]).
    - Sessions are what their parameters say ([SessionNew]); their hook environment
      fits its array except in one case ([Hooks]); what the job prints is read back
      ([LeaderFacts]).
    - Inhibitors: a held lock is counted, a hang-up releases it with bounded
      recursion ([InhibitFacts]), and what exactly it releases ([InhibitRelease]).
    - Logging: deep copies share nothing and are freed exactly; printed lines parse
      back ([LogEvent], [LogLine]); no event is lost on the way to the file, and a
      shutdown writes all of them ([EventLoggerPolicy]); what was written is read
      again ([LogPipeline]), the early end of the reading loses nothing, and the
      reports say what the events say ([HistoryPolicy]).
    - File monitors: no request reads freed memory as long as callbacks remove no
      notification that is being served, and every event of the kernel reaches the
      callbacks it should, if these leave the monitor alone
      ([FileMonitorPolicy]); the tty idle monitor does remove its own, and else
      says idle exactly when it should ([TtyIdlePolicy]).
    - Devices outside the daemon's hands: the access lists of the tagged devices
      follow the active sessions, at every change of a seat ([UdevAclPolicy]), if
      the database says what the manager knows, which it does unless an earlier
      dump failed ([DatabasePolicy], [UdevAclRuns]).
    - Processes: a status line the kernel prints is read back whatever the command
      is called, the copy of an environment says of each variable what a single
      lookup says, a login session is found when there is one, and the job that
      collects what a session is works on these readings ([ProcFsPolicy]) and on
      what its helpers print ([X11Tools]).
    - Jobs: whatever the interleaving a job waits for its process once, after the end
      of both its channels, and completes once if that wait returns; and when its
      output counts as whole although it is not ([Job]).  What a runtime directory
      is with the first session, what is left of it after the last, and when it is
      gone ([RuntimeDir]).
      The search for a console leaves nothing open and ends, but cannot fail
      ([ConsoleFd]); a hook program's record is freed once and the wait for it ends
      ([Hooks], Module [Wait]); a session's group is found again ([ProcessGroup]).
    - Logins: the parameters of a caller reach the session leader, each in its type;
      a connector that goes leaves nothing if it opened once ([ConnectorPolicy]); a
      login that succeeds has the session PAM describes, and a process has one login,
      also if that failed ([PamPolicy]); what the launcher loses ([LaunchSession]).
      Every question of the client library is one its interface declares, and gets
      a value or an error, with one exception; the list of the sessions shows them
      all, unless one is closed meanwhile ([LibConsoleKit]).
    - Interleavings: no VT event is lost, pending work ends, the polling build
      converges ([VtMonitorFacts]).
    - Where the code does not do what it means to, a theorem says exactly what it
      does instead (the runs of [InhibitRelease], [SessionRuns], [VtMonitorRuns],
      [SeatRuns], [LogPipeline] and the error theorems of the other files).

    ** Bounds and fuel

    [close_named_pipe] calls itself through a signal; its depth is bounded by the
    fuel [close_fuel], two levels, proved enough by [hangup_releases].  The loops
    that draw an id repeat once more than there are ids in use, proved enough by
    [generate_session_id_fresh]; the loop that draws a cookie gets its draws as an
    argument.  [input_ok] of [ManagerRefines] bounds the sessions ever asked for
    (below 2^31 - 1) and the seats (below 2^31).  The loop over the lines of a log
    file has the number of its bytes as fuel, which is always enough
    ([stream_loop_spec]); the one over the names of rotated files has fuel as an
    argument, enough if there is a number without a file ([reading_terminates]).
    The loops that open a console or a log again have fuel above the number of
    times the kernel refuses for a while ([ConsoleFd], [SystemLog]); the one in a
    session has the fuel [console_fuel] of [OS], enough if [console_settles], and
    without it the operation has no result.
    The loop over an environment block has the length of the text as fuel; each
    round takes at least one character of it.
    All other recursion is structural.  Numbers that C keeps in machine words are integers
    wrapped by [u32] and the like.  Reachability has no bound.

    ** Not modelled

    Memory of GObjects is modelled where an operation can free what it still
    uses (inhibitors, devices, method calls, sessions, seats and leaders);
    otherwise references are left out.  While a hook program runs,
    ck_run_programs serves the main loop; the requests of that time are modelled
    as coming after the operation.  Between two steps of
    the event logger any time may pass, but the look at the log file and the
    opening of a new one are one step.  A descriptor of a closed log is not taken
    over by another file.  A print to the log that fails leaves no part of its
    line.  The parsing of the history tool's options is GLib's; the
    model starts from what they parsed to.  The dump of the database is written
    as one step; of the manager its set-up on the bus is left.  In the trees of
    [RuntimeDir] a link is a file, and a path has no mount below it.  Of the system
    dependencies the security context of SELinux is left.  In the
    connector a failed check of libdbus on a string is a failed call, and the
    strings it does not free are left out.  The login monitor of the BSD build of
    sd-compat.c is left, and so are the platform ports other than Linux, which ask
    another kernel the same. *)

From Stdlib Require Ascii.
From stdpp Require Export base tactics numbers list gmap strings pretty.
From stdpp Require Import fin_maps.
Export Stdlib.Strings.Ascii (ascii(..), N_of_ascii).
Export (notations) Stdlib.Strings.Ascii.

Declare Scope ck_scope.
Delimit Scope ck_scope with ck.

(** ** Programs: state passing with abort

    [prog S A] is a computation over the state [S] that either aborts the
    process ([None]: a failed [g_assert], [g_assert_not_reached], or a memory
    error that C leaves undefined; in a session also a loop that does not end) or
    returns a value and the next state. *)

Definition prog (S A : Type) : Type := S → option (A * S).

Definition prog_abort {S A} : prog S A := λ _, None.
Definition prog_get {S} : prog S S := λ s, Some (s, s).
Definition prog_put {S} (s : S) : prog S unit := λ _, Some (tt, s).
Definition prog_modify {S} (f : S → S) : prog S unit := λ s, Some (tt, f s).
Definition prog_gets {S A} (f : S → A) : prog S A := λ s, Some (f s, s).

Definition prog_mret {S A} (a : A) : prog S A := λ s, Some (a, s).
Definition prog_mbind {S A B} (f : A → prog S B) (m : prog S A) : prog S B :=
  λ s, match m s with Some (a, s') => f a s' | None => None end.

#[export] Instance prog_ret_inst {S} : MRet (prog S) := λ A, prog_mret.
#[export] Instance prog_bind_inst {S} : MBind (prog S) := λ A B, prog_mbind.

(** [unfold_prog] exposes the state transformer behind a program. *)
Ltac unfold_prog :=
  unfold mbind, mret, prog_bind_inst, prog_ret_inst, prog_mbind, prog_mret,
    prog_get, prog_put, prog_modify, prog_gets, prog_abort in *.

(** Weakest preconditions: the program does not abort and its result satisfies [Q]. *)
Definition wp {S A} (m : prog S A) (Q : A → S → Prop) (s : S) : Prop :=
  match m s with Some (a, s') => Q a s' | None => False end.

Lemma wp_mono {S A} (m : prog S A) (Q R : A → S → Prop) s :
  wp m Q s → (∀ a s', Q a s' → R a s') → wp m R s.
Proof. unfold wp. destruct (m s) as [[a s']|]; auto. Qed.
Lemma wp_bind {S A B} (m : prog S A) (f : A → prog S B) Q s :
  wp m (λ a s', wp (f a) Q s') s → wp (m ≫= f) Q s.
Proof. unfold wp, mbind, prog_bind_inst, prog_mbind. by destruct (m s) as [[a s']|]. Qed.
Lemma wp_ret {S A} (a : A) (Q : A → S → Prop) s : Q a s → wp (mret a) Q s.
Proof. done. Qed.
Lemma wp_gets {S A} (f : S → A) (Q : A → S → Prop) s : Q (f s) s → wp (prog_gets f) Q s.
Proof. done. Qed.
Lemma wp_modify {S} (f : S → S) (Q : unit → S → Prop) s : Q tt (f s) → wp (prog_modify f) Q s.
Proof. done. Qed.
Lemma wp_elim {S A} (m : prog S A) Q s :
  wp m Q s → ∃ a s', m s = Some (a, s') ∧ Q a s'.
Proof. unfold wp. destruct (m s) as [[a s']|]; [eauto|done]. Qed.

(** The same when the program may fail to return, but only unless [T]. *)
Definition wpt (T : Prop) {S A} (m : prog S A) (Q : A → S → Prop) (s : S) : Prop :=
  match m s with Some (a, s') => Q a s' | None => ¬ T end.

Lemma wp_wpt {T S A} (m : prog S A) Q s : wp m Q s → wpt T m Q s.
Proof. unfold wp, wpt. by destruct (m s) as [[a s']|]. Qed.
Lemma wpt_wp {T : Prop} {S A} (m : prog S A) Q s : T → wpt T m Q s → wp m Q s.
Proof. unfold wp, wpt. destruct (m s) as [[a s']|]; auto. Qed.
Lemma wpt_mono {T S A} (m : prog S A) (Q R : A → S → Prop) s :
  wpt T m Q s → (∀ a s', Q a s' → R a s') → wpt T m R s.
Proof. unfold wpt. destruct (m s) as [[a s']|]; auto. Qed.
Lemma wpt_bind {T S A B} (m : prog S A) (f : A → prog S B) Q s :
  wpt T m (λ a s', wpt T (f a) Q s') s → wpt T (m ≫= f) Q s.
Proof. unfold wpt, mbind, prog_bind_inst, prog_mbind. by destruct (m s) as [[a s']|]. Qed.
Lemma wpt_elim {T S A} (m : prog S A) Q s a s' : wpt T m Q s → m s = Some (a, s') → Q a s'.
Proof. unfold wpt. intros H E. by rewrite E in H. Qed.

(** The loop [for (itr = l; itr != NULL; itr = itr->next) f (itr->data)]. *)
Fixpoint for_each {S A} (f : A → prog S unit) (l : list A) : prog S unit :=
  match l with
  | [] => mret tt
  | x :: l => f x ;; for_each f l
  end.

(** Loop rule: [I done todo] holds between iterations. *)
Lemma wp_for_each {S A} (f : A → prog S unit) (I : list A → S → Prop) l s :
  (∀ x todo s, x :: todo `suffix_of` l → I (x :: todo) s → wp (f x) (λ _ s', I todo s') s) →
  I l s → wp (for_each f l) (λ _ s', I [] s') s.
Proof.
  intros Hf. assert (∀ todo s, todo `suffix_of` l → I todo s →
    wp (for_each f todo) (λ _ s', I [] s') s) as Hall.
  { induction todo as [|x todo IH]; intros t Hsuf Ht; [done|]. apply wp_bind.
    eapply wp_mono; [by apply Hf|]. intros [] t' Ht'. apply IH; [|done].
    etrans; [|done]. by apply suffix_cons_r. }
  by apply Hall.
Qed.

(** The liberal form: if the program does not abort, its result satisfies [Q]. *)
Definition wlp {S A} (m : prog S A) (Q : A → S → Prop) (s : S) : Prop :=
  match m s with Some (a, s') => Q a s' | None => True end.

Lemma wp_wlp {S A} (m : prog S A) Q s : wp m Q s → wlp m Q s.
Proof. unfold wp, wlp. by destruct (m s) as [[a s']|]. Qed.
Lemma wlp_mono {S A} (m : prog S A) (Q R : A → S → Prop) s :
  wlp m Q s → (∀ a s', Q a s' → R a s') → wlp m R s.
Proof. unfold wlp. destruct (m s) as [[a s']|]; auto. Qed.
Lemma wlp_bind {S A B} (m : prog S A) (f : A → prog S B) Q s :
  wlp m (λ a s', wlp (f a) Q s') s → wlp (m ≫= f) Q s.
Proof. unfold wlp, mbind, prog_bind_inst, prog_mbind. by destruct (m s) as [[a s']|]. Qed.
Lemma wlp_elim {S A} (m : prog S A) Q s a s' : wlp m Q s → m s = Some (a, s') → Q a s'.
Proof. unfold wlp. intros H E. by rewrite E in H. Qed.
Lemma wlp_for_each {S A} (f : A → prog S unit) (I : S → Prop) l s :
  (∀ x s, x ∈ l → I s → wlp (f x) (λ _ s', I s') s) → I s → wlp (for_each f l) (λ _ s', I s') s.
Proof.
  revert s. induction l as [|x l IH]; intros s Hf Hs; [done|]. apply wlp_bind.
  eapply wlp_mono; [apply Hf; [left|done]|]. intros [] s' Hs'. apply IH; [|done].
  intros y t Hy. apply Hf. by right.
Qed.

(** ** Outcomes: a value, or the way a computation goes wrong

    [OutOfFuel] is the model's own failure (a theorem shows that enough fuel
    avoids it), [UseAfterFree] a read of freed memory, [Aborted] a [g_error]
    or a failed assertion. *)

Inductive fault := OutOfFuel | UseAfterFree | Aborted.

Inductive outcome (A : Type) :=
| Done (a : A)
| Fault (f : fault).
Arguments Done {A} a.
Arguments Fault {A} f.

#[export] Instance outcome_ret : MRet outcome := λ A, Done.
#[export] Instance outcome_bind : MBind outcome := λ A B f m,
  match m with Done a => f a | Fault e => Fault e end.

(** A [char *] that may be NULL. *)
Abbreviation cstr := (option string).

(** ** Hash tables

    The order in which a hash table with string keys is walked: any, and it may
    change with every change of the table, which [tick] counts. *)
Class HashOrder := {
  hash_order : ∀ {A}, nat → gmap string A → list (string * A);
  hash_order_perm : ∀ A (tick : nat) (m : gmap string A), hash_order tick m ≡ₚ map_to_list m
}.

Lemma elem_of_hash_order `{HashOrder} {A} tick (m : gmap string A) k v :
  (k, v) ∈ hash_order tick m ↔ m !! k = Some v.
Proof. by rewrite hash_order_perm, elem_of_map_to_list. Qed.
Lemma hash_order_nodup `{HashOrder} {A} tick (m : gmap string A) : NoDup (hash_order tick m).*1.
Proof. rewrite hash_order_perm. apply NoDup_fst_map_to_list. Qed.
Lemma hash_order_length `{HashOrder} {A} tick (m : gmap string A) : length (hash_order tick m) = size m.
Proof. by rewrite hash_order_perm, length_map_to_list. Qed.

(** ** Machine integers *)

Definition u32 (z : Z) : Z := (z mod 2 ^ 32)%Z.
Definition u64 (z : Z) : Z := (z mod 2 ^ 64)%Z.
Definition i32 (z : Z) : Z := ((z + 2 ^ 31) mod 2 ^ 32 - 2 ^ 31)%Z.
Definition i64 (z : Z) : Z := ((z + 2 ^ 63) mod 2 ^ 64 - 2 ^ 63)%Z.

Lemma u32_small z : (0 ≤ z < 2 ^ 32)%Z → u32 z = z.
Proof. intros. by apply Z.mod_small. Qed.
Lemma u64_small z : (0 ≤ z < 2 ^ 64)%Z → u64 z = z.
Proof. intros. by apply Z.mod_small. Qed.
Lemma i32_small z : (- 2 ^ 31 ≤ z < 2 ^ 31)%Z → i32 z = z.
Proof. intros. unfold i32. rewrite Z.mod_small; lia. Qed.
Lemma i64_small z : (- 2 ^ 63 ≤ z < 2 ^ 63)%Z → i64 z = z.
Proof. intros. unfold i64. rewrite Z.mod_small; lia. Qed.
Lemma u32_range z : (0 ≤ u32 z < 2 ^ 32)%Z.
Proof. apply Z.mod_pos_bound. lia. Qed.

Lemma u64_range z : (0 ≤ u64 z < 2 ^ 64)%Z.
Proof. apply Z.mod_pos_bound. lia. Qed.
Lemma i32_range z : (- 2 ^ 31 ≤ i32 z < 2 ^ 31)%Z.
Proof. unfold i32. pose proof (Z.mod_pos_bound (z + 2 ^ 31) (2 ^ 32) ltac:(lia)). lia. Qed.
Lemma u32_i32 z : u32 (i32 z) = u32 z.
Proof. unfold u32, i32. rewrite Zminus_mod, Zmod_mod, <- Zminus_mod. f_equal. lia. Qed.

(** ** Values of errno *)

Definition EINTR : Z := 4.
Definition EIO : Z := 5.
Definition EACCES : Z := 13.

(** ** Strings *)

Abbreviation ascii_eqb := Stdlib.Strings.Ascii.eqb.
#[global] Arguments Stdlib.Strings.Ascii.eqb : simpl never.
Abbreviation ascii_eqb_refl := Stdlib.Strings.Ascii.eqb_refl.
Abbreviation ascii_eqb_spec := Stdlib.Strings.Ascii.eqb_spec.

Fixpoint sall (p : ascii → bool) (s : string) : bool :=
  match s with
  | EmptyString => true
  | String c s => p c && sall p s
  end.

(** [shead p s] says that [s] starts with a character of the class [p]. *)
Definition shead (p : ascii → bool) (s : string) : bool :=
  match s with EmptyString => false | String c _ => p c end.

(** The longest prefix of [s] in the class [p], and the rest. *)
Fixpoint sspan (p : ascii → bool) (s : string) : string * string :=
  match s with
  | EmptyString => ("", "")
  | String c s' =>
      if p c then let '(a, b) := sspan p s' in (String c a, b) else ("", s)
  end.

(** [strip_prefix l s]: [s] without its prefix [l], if it has it. *)
Fixpoint strip_prefix (l s : string) : option string :=
  match l, s with
  | EmptyString, _ => Some s
  | String a l, String b s => if ascii_eqb a b then strip_prefix l s else None
  | String _ _, EmptyString => None
  end.

(** The first characters, and the others. *)
Fixpoint stake (n : nat) (s : string) : string :=
  match n, s with S n, String c s => String c (stake n s) | _, _ => "" end.
Fixpoint sdrop (n : nat) (s : string) : string :=
  match n, s with S n, String _ s => sdrop n s | _, _ => s end.

(** A string in C ends at the first NUL. *)
Fixpoint c_string (s : string) : string :=
  match s with
  | EmptyString => ""
  | String c s => if ascii_eqb c "000"%char then "" else String c (c_string s)
  end.

(** [g_str_has_suffix]. *)
Fixpoint g_str_has_suffix (s suffix : string) : bool :=
  String.eqb s suffix || match s with EmptyString => false | String _ s => g_str_has_suffix s suffix end.

(** What follows the first occurrence of [l] in [s]. *)
Fixpoint after_first (l s : string) : option string :=
  match strip_prefix l s with
  | Some r => Some r
  | None => match s with EmptyString => None | String _ s => after_first l s end
  end.

Lemma sapp_assoc s1 s2 s3 : (s1 +:+ s2) +:+ s3 = s1 +:+ (s2 +:+ s3).
Proof. induction s1 as [|c s1 IH]; [done|]. unfold String.append; simpl. by f_equal. Qed.
Lemma sapp_nil_r s : s +:+ "" = s.
Proof. induction s as [|c s IH]; [done|]. unfold String.append; simpl. by f_equal. Qed.
Lemma sapp_cons c s1 s2 : String c s1 +:+ s2 = String c (s1 +:+ s2).
Proof. done. Qed.
Lemma sapp_nil_l s : "" +:+ s = s.
Proof. done. Qed.
Lemma slength_app s1 s2 :
  String.length (s1 +:+ s2) = String.length s1 + String.length s2.
Proof. induction s1 as [|c s1 IH]; [done|]. rewrite sapp_cons. simpl. by rewrite IH. Qed.
Lemma sapp_inj_l s1 s2 s3 : s1 +:+ s2 = s1 +:+ s3 → s2 = s3.
Proof. apply (inj (String.append s1)). Qed.

Lemma sall_app p s1 s2 : sall p (s1 +:+ s2) = sall p s1 && sall p s2.
Proof.
  induction s1 as [|c s1 IH]; [done|]. rewrite sapp_cons. simpl.
  by rewrite IH, andb_assoc.
Qed.

Lemma sall_impl (p q : ascii → bool) s :
  (∀ c, p c → q c) → sall p s → sall q s.
Proof.
  intros Hpq. induction s as [|c s IH]; simpl; [done|].
  rewrite !andb_True. intros [??]; split; auto.
Qed.

(** The character does not occur. *)
Definition no_char (c : ascii) (s : string) : Prop := sall (λ d, negb (ascii_eqb d c)) s.

Lemma no_char_app c s1 s2 : no_char c (s1 +:+ s2) ↔ no_char c s1 ∧ no_char c s2.
Proof. unfold no_char. rewrite sall_app, andb_True. done. Qed.
Lemma c_string_id s : sall (λ c, negb (ascii_eqb c "000"%char)) s → c_string s = s.
Proof.
  induction s as [|c s IH]; [done|]. simpl. intros [Hc Hs]%andb_True. destruct (ascii_eqb c "000"%char); [done|]. by rewrite IH.
Qed.

Lemma strip_prefix_app l s : strip_prefix l (l +:+ s) = Some s.
Proof.
  induction l as [|c l IH]; [done|]. rewrite sapp_cons. simpl.
  by rewrite ascii_eqb_refl.
Qed.
Lemma strip_prefix_Some l s r : strip_prefix l s = Some r → s = l +:+ r.
Proof.
  revert s. induction l as [|c l IH]; intros s; [by intros [= ->]|].
  destruct s as [|d s]; simpl; [done|].
  destruct (ascii_eqb_spec c d) as [->|]; [|done].
  intros ->%IH. by rewrite sapp_cons.
Qed.

Lemma after_first_Some l s r :
  after_first l s = Some r → ∃ pre, s = pre +:+ (l +:+ r).
Proof.
  induction s as [|c s IH]; simpl.
  - destruct (strip_prefix l "") eqn:E; intros; simplify_eq.
    exists "". by apply strip_prefix_Some in E.
  - destruct (strip_prefix l (String c s)) as [r'|] eqn:E.
    + intros; simplify_eq. exists "". by apply strip_prefix_Some in E.
    + intros Hr. destruct (IH Hr) as (pre & Hs). exists (String c pre). by rewrite Hs.
Qed.

(** [after_first] finds the separator right after a prefix none of whose
    positions starts an occurrence. *)
Lemma after_first_app l pre r :
  (∀ a b, pre = a +:+ b → b ≠ "" → strip_prefix l (b +:+ (l +:+ r)) = None) →
  after_first l (pre +:+ (l +:+ r)) = Some r.
Proof.
  induction pre as [|c pre IH]; intros Hno.
  - rewrite sapp_nil_l. destruct (l +:+ r) eqn:E; simpl.
    + rewrite <- E. by rewrite strip_prefix_app.
    + rewrite <- E. by rewrite strip_prefix_app.
  - rewrite sapp_cons. simpl.
    rewrite <- sapp_cons, (Hno "" (String c pre)) by done.
    apply IH. intros a b -> Hb. apply (Hno (String c a) b); done.
Qed.

Lemma sspan_app p v s :
  sall p v → shead p s = false → sspan p (v +:+ s) = (v, s).
Proof.
  induction v as [|c v IH]; simpl.
  - destruct s as [|d s]; simpl; [done|]. intros _ ->. done.
  - rewrite andb_True. intros [Hc Hv] Hs.
    destruct (p c); [|done]. by rewrite IH.
Qed.

Lemma sspan_spec p s v r : sspan p s = (v, r) →
  s = v +:+ r ∧ sall p v ∧ shead p r = false.
Proof.
  revert v r. induction s as [|c s IH]; simpl; intros v r Hs.
  - by simplify_eq.
  - destruct (p c) eqn:Hc.
    + destruct (sspan p s) as [a b] eqn:E. simplify_eq.
      destruct (IH _ _ eq_refl) as (-> & ? & ?).
      rewrite sapp_cons. split_and!; [done| |done]. simpl. by rewrite Hc.
    + simplify_eq. by rewrite sapp_nil_l.
Qed.

(** ** Character classes *)

Definition in_range (lo hi c : ascii) : bool :=
  (N.leb (N_of_ascii lo) (N_of_ascii c)) && (N.leb (N_of_ascii c) (N_of_ascii hi)).
Definition is_digit (c : ascii) : bool := in_range "0"%char "9"%char c.
Definition is_lower (c : ascii) : bool := in_range "a"%char "z"%char c.
Definition is_upper (c : ascii) : bool := in_range "A"%char "Z"%char c.
Definition is_alpha (c : ascii) : bool := is_lower c || is_upper c.
Definition is_alnum (c : ascii) : bool := is_alpha c || is_digit c.
(** [isspace] of the C locale. *)
Definition is_space (c : ascii) : bool :=
  ascii_eqb c " "%char || in_range "009"%char "013"%char c.

(** ** Decimal numbers: [strtoul]-style digit values *)

Definition digit_value (c : ascii) : N := (N_of_ascii c - N_of_ascii "0"%char)%N.

Fixpoint digits_value (acc : N) (s : string) : N :=
  match s with
  | EmptyString => acc
  | String c s => digits_value (10 * acc + digit_value c) s
  end.

Lemma pretty_N_char_digit x : is_digit (pretty_N_char (x `mod` 10)).
Proof.
  assert (x `mod` 10 < 10)%N as Hx by (apply N.mod_lt; done).
  destruct (x `mod` 10)%N as [|p]; [done|]. by repeat (destruct p as [p|p|]; try done).
Qed.

Lemma pretty_N_char_value x : digit_value (pretty_N_char (x `mod` 10)) = (x `mod` 10)%N.
Proof.
  assert (x `mod` 10 < 10)%N as Hx by (apply N.mod_lt; done).
  destruct (x `mod` 10)%N as [|p]; [done|]. by repeat (destruct p as [p|p|]; try done).
Qed.

Lemma pretty_N_go_app (x : N) s : pretty_N_go x s = pretty_N_go x "" +:+ s.
Proof.
  revert s. induction (N.lt_wf_0 x) as [x _ IH]; intros s.
  destruct (decide (x = 0))%N as [->|Hx]; [done|].
  rewrite !(pretty_N_go_step x) by lia.
  assert (x `div` 10 < x)%N as Hlt by (apply N.div_lt; lia).
  rewrite (IH _ Hlt (String _ s)), (IH _ Hlt (String _ "")).
  by rewrite sapp_assoc.
Qed.

Lemma digits_value_app acc s1 s2 :
  digits_value acc (s1 +:+ s2) = digits_value (digits_value acc s1) s2.
Proof. revert acc. induction s1; intros acc; [done|]. rewrite sapp_cons. simpl. auto. Qed.

Lemma pretty_N_go_value (x : N) :
  sall is_digit (pretty_N_go x "") ∧ digits_value 0 (pretty_N_go x "") = x.
Proof.
  induction (N.lt_wf_0 x) as [x _ IH].
  destruct (decide (x = 0))%N as [->|Hx]; [done|].
  rewrite (pretty_N_go_step x), pretty_N_go_app by lia.
  destruct (IH (x `div` 10)%N) as [H1 H2]; [apply N.div_lt; lia|].
  rewrite sall_app, andb_True, digits_value_app, H2. simpl.
  rewrite pretty_N_char_value, andb_true_r.
  split; [split; [done|apply pretty_N_char_digit]|].
  pose proof (N.div_mod x 10). lia.
Qed.

Lemma pretty_N_unfold (x : N) : pretty x = (if decide (x = 0)%N then "0" else pretty_N_go x "").
Proof. done. Qed.

Lemma pretty_N_digits (x : N) : sall is_digit (pretty x).
Proof. rewrite pretty_N_unfold. case_decide; [done|]. apply pretty_N_go_value. Qed.
Lemma pretty_N_value (x : N) : digits_value 0 (pretty x) = x.
Proof. rewrite pretty_N_unfold. case_decide; [by subst|]. apply pretty_N_go_value. Qed.
Lemma pretty_N_nonempty (x : N) : pretty x ≠ "".
Proof.
  rewrite pretty_N_unfold. case_decide; [done|]. intros Hx.
  pose proof (proj2 (pretty_N_go_value x)) as Hv. rewrite Hx in Hv. simpl in Hv. lia.
Qed.

Create HintDb ck.
Create Rewrite HintDb ck_int.
#[export] Hint Resolve pretty_N_digits pretty_N_nonempty : ck.
#[export] Hint Rewrite u32_small u64_small i32_small i64_small using lia : ck_int.
