(* ===== verification/Scan.v ===== *)
(** * Numbers in C strings: the conversions of [printf], [strtoul] and [sscanf].

    What the C library does, as the log lines and the console names use it. *)

From S2P Require Import Prelude.

(** ** Printing *)

(** [p ? p : ""]. *)
Definition or_empty (p : cstr) : string := default "" p.

Definition fmt_unsigned (z : Z) : string := pretty (Z.to_N z).
Definition fmt_int (z : Z) : string := pretty z.

(** ** Scanning: strtoul and sscanf *)

Definition skip_space (s : string) : string := (sspan is_space s).2.

(** The value of [strtoul] on a sign and a digit string (base 10, 64 bits):
    saturated to [ULONG_MAX], negated modulo 2^64 after a minus sign. *)
Definition strtoul_value (minus : bool) (digits : string) : Z :=
  let v := Z.of_N (digits_value 0 digits) in
  if Z.leb (2 ^ 64) v then (2 ^ 64 - 1)%Z else u64 (if minus then - v else v)%Z.

Definition scan_sign (s : string) : bool * string :=
  match s with
  | String c s' =>
      if ascii_eqb c "-"%char then (true, s')
      else if ascii_eqb c "+"%char then (false, s') else (false, s)
  | EmptyString => (false, s)
  end.

(** The unsigned conversions of [sscanf]: [None] is a matching failure. *)
Definition scan_unsigned (s : string) : option (Z * string) :=
  let '(minus, s1) := scan_sign (skip_space s) in
  let '(digits, rest) := sspan is_digit s1 in
  if String.eqb digits "" then None else Some (strtoul_value minus digits, rest).

(** [strtoul]: the value and the end pointer; no digits leaves the end pointer
    at the start. *)
Definition strtoul (s : string) : Z * string :=
  match scan_unsigned s with Some r => r | None => (0%Z, s) end.

(** [strtol] in base 10 with a 64-bit long: the value, saturated, and whether
    it set [errno] to ERANGE. *)
Definition strtol (s : string) : Z * bool :=
  let '(minus, s1) := scan_sign (skip_space s) in
  let v := Z.of_N (digits_value 0 (sspan is_digit s1).1) in
  let v := if (minus : bool) then (- v)%Z else v in
  if Z.ltb (2 ^ 63 - 1) v then ((2 ^ 63 - 1)%Z, true)
  else if Z.ltb v (- 2 ^ 63) then ((- 2 ^ 63)%Z, true)
  else (v, false).

(** ** Scanning lemmas *)

Lemma digit_not_space c : is_digit c → is_space c = false ∧ c ≠ "-"%char ∧ c ≠ "+"%char.
Proof. by destruct c as [[] [] [] [] [] [] [] []]. Qed.

Lemma scan_unsigned_digits d rest :
  sall is_digit d → d ≠ "" → shead is_digit rest = false →
  scan_unsigned (d +:+ rest) = Some (strtoul_value false d, rest).
Proof.
  intros Hd Hne Hrest. unfold scan_unsigned, skip_space.
  destruct d as [|c d]; [done|]. pose proof Hd as [Hc _]%andb_True.
  destruct (digit_not_space c Hc) as (Hs & Hm & Hp).
  rewrite sapp_cons. cbn [sspan]. rewrite Hs. cbn [snd scan_sign].
  destruct (ascii_eqb_spec c "-"%char); [done|]. destruct (ascii_eqb_spec c "+"%char); [done|].
  by rewrite <- sapp_cons, (sspan_app is_digit).
Qed.

Lemma fmt_unsigned_digits z : sall is_digit (fmt_unsigned z).
Proof. apply pretty_N_digits. Qed.
Lemma fmt_unsigned_nonempty z : fmt_unsigned z ≠ "".
Proof. apply pretty_N_nonempty. Qed.

Lemma strtoul_value_fmt z :
  (0 ≤ z < 2 ^ 64)%Z → strtoul_value false (fmt_unsigned z) = z.
Proof.
  intros Hz. unfold strtoul_value, fmt_unsigned. rewrite pretty_N_value, Z2N.id by lia.
  destruct (Z.leb_spec (2 ^ 64) z); [lia|]. by apply u64_small.
Qed.

Lemma strtol_fmt z : (0 ≤ z < 2 ^ 63)%Z → strtol (fmt_unsigned z) = (z, false).
Proof.
  intros Hz. unfold strtol, skip_space.
  pose proof (fmt_unsigned_digits z) as Hd. pose proof (fmt_unsigned_nonempty z) as Hne.
  assert (digits_value 0 (fmt_unsigned z) = Z.to_N z) as Hv by apply pretty_N_value.
  destruct (fmt_unsigned z) as [|c d] eqn:E; [done|]. pose proof Hd as [Hc _]%andb_True.
  destruct (digit_not_space c Hc) as (Hs & Hm & Hp). cbn [sspan]. rewrite Hs. cbn [snd scan_sign].
  destruct (ascii_eqb_spec c "-"%char); [done|]. destruct (ascii_eqb_spec c "+"%char); [done|].
  rewrite <- (sapp_nil_r (String c d)), (sspan_app is_digit) by done. cbn [fst]. rewrite Hv, Z2N.id by lia.
  destruct (Z.ltb_spec (2 ^ 63 - 1) z); [lia|]. by destruct (Z.ltb_spec z (- 2 ^ 63)); [lia|].
Qed.

Lemma fmt_int_nonneg z : (0 ≤ z)%Z → fmt_int z = fmt_unsigned z.
Proof. by destruct z. Qed.
Lemma strtol_int z : (- 2 ^ 63 ≤ z < 2 ^ 63)%Z → strtol (fmt_int z) = (z, false).
Proof.
  intros Hz. destruct (Z.leb_spec 0 z) as [H0|Hneg]; [rewrite fmt_int_nonneg by done; apply strtol_fmt; lia|].
  destruct z as [|p|p]; try lia. unfold strtol, skip_space.
  change (fmt_int (Z.neg p)) with (String "-" (pretty (N.pos p))). cbn [sspan fst snd].
  change (is_space "-"%char) with false. cbn [snd scan_sign]. rewrite ascii_eqb_refl. cbn [fst snd].
  assert (sspan is_digit (pretty (N.pos p)) = (pretty (N.pos p), "")) as ->.
  { rewrite <- (sapp_nil_r (pretty (N.pos p))) at 1. by apply sspan_app; [apply pretty_N_digits|]. }
  cbn [fst]. rewrite pretty_N_value. simpl Z.of_N.
  destruct (Z.ltb_spec (2 ^ 63 - 1) (- Z.pos p)); [lia|]. by destruct (Z.ltb_spec (- Z.pos p) (- 2 ^ 63)); [lia|].
Qed.
