(* ===== verification/LogEvent.v ===== *)
(** * Event-log records: [src/ck-log-event.h] and the copy/free half of
    [src/ck-log-event.c].

    The record types are parameterised by the representation [P] of a
    [char *]: [option positive] (a heap pointer) for the ownership part of
    this file, [option string] (the pointed-to text, [None] for NULL) for the
    log-line part in [LogLine].  The C union and its tag [type] are one
    inductive type [CkLogUnion]; [type_of] recovers the tag. *)

From S2P Require Import Prelude.

(** ** The data of ck-log-event.h *)

Inductive CkLogEventType :=
| CK_LOG_EVENT_NONE
| CK_LOG_EVENT_START
| CK_LOG_EVENT_STOP
| CK_LOG_EVENT_SYSTEM_START
| CK_LOG_EVENT_SYSTEM_STOP
| CK_LOG_EVENT_SYSTEM_RESTART
| CK_LOG_EVENT_SYSTEM_SUSPEND
| CK_LOG_EVENT_SYSTEM_HIBERNATE
| CK_LOG_EVENT_SYSTEM_RUNLEVEL_CHANGED
| CK_LOG_EVENT_SEAT_ADDED
| CK_LOG_EVENT_SEAT_REMOVED
| CK_LOG_EVENT_SEAT_SESSION_ADDED
| CK_LOG_EVENT_SEAT_SESSION_REMOVED
| CK_LOG_EVENT_SEAT_DEVICE_ADDED
| CK_LOG_EVENT_SEAT_DEVICE_REMOVED
| CK_LOG_EVENT_SEAT_ACTIVE_SESSION_CHANGED.

#[export] Instance CkLogEventType_eq_dec : EqDecision CkLogEventType.
Proof. solve_decision. Defined.

Record GTimeVal := { tv_sec : Z; tv_usec : Z }.

(** [CkLogSystemStartEvent]. *)
Record CkLogSystemStartEvent (P : Type) := {
  kernel_release : P;
  boot_arguments : P
}.

(** [CkLogSeatAddedEvent] and [CkLogSeatRemovedEvent] have the same fields. *)
Record CkLogSeatEvent (P : Type) := {
  se_seat_id : P;
  se_seat_kind : Z
}.

(** [CkLogSeatSessionAddedEvent] and [CkLogSeatSessionRemovedEvent] have the
    same fields. *)
Record CkLogSeatSessionEvent (P : Type) := {
  ss_seat_id : P;
  ss_session_id : P;
  ss_session_type : P;
  ss_session_x11_display : P;
  ss_session_x11_display_device : P;
  ss_session_display_device : P;
  ss_session_remote_host_name : P;
  ss_session_is_local : bool;
  ss_session_unix_user : Z;
  ss_session_creation_time : P
}.

(** [CkLogSeatActiveSessionChangedEvent]. *)
Record CkLogSeatActiveSessionChangedEvent (P : Type) := {
  sa_seat_id : P;
  sa_session_id : P
}.

(** [CkLogSeatDeviceAddedEvent] and [CkLogSeatDeviceRemovedEvent]. *)
Record CkLogSeatDeviceEvent (P : Type) := {
  sd_seat_id : P;
  sd_device_type : P;
  sd_device_id : P
}.

Arguments kernel_release {P} _.
Arguments boot_arguments {P} _.
Arguments se_seat_id {P} _.
Arguments se_seat_kind {P} _.
Arguments ss_seat_id {P} _.
Arguments ss_session_id {P} _.
Arguments ss_session_type {P} _.
Arguments ss_session_x11_display {P} _.
Arguments ss_session_x11_display_device {P} _.
Arguments ss_session_display_device {P} _.
Arguments ss_session_remote_host_name {P} _.
Arguments ss_session_is_local {P} _.
Arguments ss_session_unix_user {P} _.
Arguments ss_session_creation_time {P} _.
Arguments sa_seat_id {P} _.
Arguments sa_session_id {P} _.
Arguments sd_seat_id {P} _.
Arguments sd_device_type {P} _.
Arguments sd_device_id {P} _.
Arguments Build_CkLogSystemStartEvent {P} _ _.
Arguments Build_CkLogSeatEvent {P} _ _.
Arguments Build_CkLogSeatSessionEvent {P} _ _ _ _ _ _ _ _ _ _.
Arguments Build_CkLogSeatActiveSessionChangedEvent {P} _ _.
Arguments Build_CkLogSeatDeviceEvent {P} _ _ _.

(** The union [event] of [CkLogEvent] together with the tag [type]. *)
Inductive CkLogUnion (P : Type) :=
| EvNone
| EvStart
| EvStop
| EvRunlevelChanged
| EvSystemStart (e : CkLogSystemStartEvent P)
| EvSystemStop
| EvSystemRestart
| EvSystemSuspend
| EvSystemHibernate
| EvSeatAdded (e : CkLogSeatEvent P)
| EvSeatRemoved (e : CkLogSeatEvent P)
| EvSeatSessionAdded (e : CkLogSeatSessionEvent P)
| EvSeatSessionRemoved (e : CkLogSeatSessionEvent P)
| EvSeatDeviceAdded (e : CkLogSeatDeviceEvent P)
| EvSeatDeviceRemoved (e : CkLogSeatDeviceEvent P)
| EvSeatActiveSessionChanged (e : CkLogSeatActiveSessionChangedEvent P).

Arguments EvNone {P}.
Arguments EvStart {P}.
Arguments EvStop {P}.
Arguments EvRunlevelChanged {P}.
Arguments EvSystemStart {P} e.
Arguments EvSystemStop {P}.
Arguments EvSystemRestart {P}.
Arguments EvSystemSuspend {P}.
Arguments EvSystemHibernate {P}.
Arguments EvSeatAdded {P} e.
Arguments EvSeatRemoved {P} e.
Arguments EvSeatSessionAdded {P} e.
Arguments EvSeatSessionRemoved {P} e.
Arguments EvSeatDeviceAdded {P} e.
Arguments EvSeatDeviceRemoved {P} e.
Arguments EvSeatActiveSessionChanged {P} e.

Record CkLogEvent (P : Type) := {
  event : CkLogUnion P;
  timestamp : GTimeVal
}.
Arguments event {P} _.
Arguments timestamp {P} _.
Arguments Build_CkLogEvent {P} _ _.

Definition type_of {P} (u : CkLogUnion P) : CkLogEventType :=
  match u with
  | EvNone => CK_LOG_EVENT_NONE
  | EvStart => CK_LOG_EVENT_START
  | EvStop => CK_LOG_EVENT_STOP
  | EvRunlevelChanged => CK_LOG_EVENT_SYSTEM_RUNLEVEL_CHANGED
  | EvSystemStart _ => CK_LOG_EVENT_SYSTEM_START
  | EvSystemStop => CK_LOG_EVENT_SYSTEM_STOP
  | EvSystemRestart => CK_LOG_EVENT_SYSTEM_RESTART
  | EvSystemSuspend => CK_LOG_EVENT_SYSTEM_SUSPEND
  | EvSystemHibernate => CK_LOG_EVENT_SYSTEM_HIBERNATE
  | EvSeatAdded _ => CK_LOG_EVENT_SEAT_ADDED
  | EvSeatRemoved _ => CK_LOG_EVENT_SEAT_REMOVED
  | EvSeatSessionAdded _ => CK_LOG_EVENT_SEAT_SESSION_ADDED
  | EvSeatSessionRemoved _ => CK_LOG_EVENT_SEAT_SESSION_REMOVED
  | EvSeatDeviceAdded _ => CK_LOG_EVENT_SEAT_DEVICE_ADDED
  | EvSeatDeviceRemoved _ => CK_LOG_EVENT_SEAT_DEVICE_REMOVED
  | EvSeatActiveSessionChanged _ => CK_LOG_EVENT_SEAT_ACTIVE_SESSION_CHANGED
  end.

(** The tags every [switch] of ck-log-event.c handles; the others fall into
    [g_assert_not_reached]. *)
Definition loggable {P} (u : CkLogUnion P) : bool :=
  match u with
  | EvNone | EvStart | EvStop | EvRunlevelChanged => false
  | _ => true
  end.

(** ** The heap: strings and event structs *)

Definition ptr : Type := option positive.

Inductive block :=
| BStr (s : string)
| BEvent (e : CkLogEvent ptr).

Abbreviation heap := (gmap positive block).

(** The text behind a pointer; NULL and dangling pointers have none. *)
Definition deref (h : heap) (p : ptr) : option string :=
  match p with
  | Some l => match h !! l with Some (BStr s) => Some s | _ => None end
  | None => None
  end.

(** A pointer that is NULL or points to a live string. *)
Definition valid (h : heap) (p : ptr) : Prop :=
  match p with
  | Some l => ∃ s, h !! l = Some (BStr s)
  | None => True
  end.

(** The string pointers an event owns, in the order ck-log-event.c copies and
    frees them, and the event with its pointers replaced. *)
Definition owned {P} (u : CkLogUnion P) : list P :=
  match u with
  | EvSystemStart e => [kernel_release e; boot_arguments e]
  | EvSeatAdded e | EvSeatRemoved e => [se_seat_id e]
  | EvSeatSessionAdded e | EvSeatSessionRemoved e =>
      [ss_seat_id e; ss_session_id e; ss_session_type e; ss_session_x11_display e;
       ss_session_x11_display_device e; ss_session_display_device e;
       ss_session_remote_host_name e; ss_session_creation_time e]
  | EvSeatDeviceAdded e | EvSeatDeviceRemoved e =>
      [sd_seat_id e; sd_device_id e; sd_device_type e]
  | EvSeatActiveSessionChanged e => [sa_seat_id e; sa_session_id e]
  | _ => []
  end.

Definition refill_session {P Q} (e : CkLogSeatSessionEvent P) (qs : list Q) :
    option (CkLogSeatSessionEvent Q) :=
  match qs with
  | [a; b; c; d; x; f; g; i] =>
      Some (Build_CkLogSeatSessionEvent a b c d x f g (ss_session_is_local e)
              (ss_session_unix_user e) i)
  | _ => None
  end.

Definition refill {P Q} (u : CkLogUnion P) (qs : list Q) : option (CkLogUnion Q) :=
  match u, qs with
  | EvNone, [] => Some EvNone
  | EvStart, [] => Some EvStart
  | EvStop, [] => Some EvStop
  | EvRunlevelChanged, [] => Some EvRunlevelChanged
  | EvSystemStop, [] => Some EvSystemStop
  | EvSystemRestart, [] => Some EvSystemRestart
  | EvSystemSuspend, [] => Some EvSystemSuspend
  | EvSystemHibernate, [] => Some EvSystemHibernate
  | EvSystemStart e, [a; b] => Some (EvSystemStart (Build_CkLogSystemStartEvent a b))
  | EvSeatAdded e, [a] => Some (EvSeatAdded (Build_CkLogSeatEvent a (se_seat_kind e)))
  | EvSeatRemoved e, [a] => Some (EvSeatRemoved (Build_CkLogSeatEvent a (se_seat_kind e)))
  | EvSeatSessionAdded e, _ => EvSeatSessionAdded <$> refill_session e qs
  | EvSeatSessionRemoved e, _ => EvSeatSessionRemoved <$> refill_session e qs
  | EvSeatDeviceAdded e, [a; b; c] =>
      Some (EvSeatDeviceAdded (Build_CkLogSeatDeviceEvent a c b))
  | EvSeatDeviceRemoved e, [a; b; c] =>
      Some (EvSeatDeviceRemoved (Build_CkLogSeatDeviceEvent a c b))
  | EvSeatActiveSessionChanged e, [a; b] =>
      Some (EvSeatActiveSessionChanged (Build_CkLogSeatActiveSessionChangedEvent a b))
  | _, _ => None
  end.

(** What an event in the heap says: its scalars and the text of its strings. *)
Definition event_value (h : heap) (u : CkLogUnion ptr) : option (CkLogUnion (option string)) :=
  refill u (deref h <$> owned u).

(** ** g_strdup, g_new0 and g_free

    The allocator is a parameter; all that is used of it is that a new block
    does not overlap a live one. *)

Class Allocator := {
  malloc : heap → positive;
  malloc_fresh : ∀ h, h !! malloc h = None
}.

Section copy_free.
Context `{Allocator}.

Definition g_strdup (p : ptr) : prog heap ptr := λ h,
  match p with
  | None => Some (None, h)
  | Some l =>
      match h !! l with
      | Some (BStr s) => let l' := malloc h in Some (Some l', <[l' := BStr s]> h)
      | _ => None
      end
  end.

(** Freeing a block that is not live is undefined. *)
Definition g_free (p : ptr) : prog heap unit := λ h,
  match p with
  | None => Some (tt, h)
  | Some l => match h !! l with Some _ => Some (tt, delete l h) | None => None end
  end.

Definition g_new0_event : prog heap positive := λ h,
  let l := malloc h in
  Some (l, <[l := BEvent (Build_CkLogEvent EvNone {| tv_sec := 0; tv_usec := 0 |})]> h).

Definition read_event (l : positive) : prog heap (CkLogEvent ptr) := λ h,
  match h !! l with Some (BEvent e) => Some (e, h) | _ => None end.
Definition write_event (l : positive) (e : CkLogEvent ptr) : prog heap unit := λ h,
  match h !! l with Some (BEvent _) => Some (tt, <[l := BEvent e]> h) | _ => None end.

Definition event_seat_added_copy (e : CkLogSeatEvent ptr) : prog heap (CkLogSeatEvent ptr) :=
  seat_id ← g_strdup (se_seat_id e);
  mret {| se_seat_id := seat_id; se_seat_kind := se_seat_kind e |}.

Definition event_seat_removed_copy (e : CkLogSeatEvent ptr) : prog heap (CkLogSeatEvent ptr) :=
  seat_id ← g_strdup (se_seat_id e);
  mret {| se_seat_id := seat_id; se_seat_kind := se_seat_kind e |}.

Definition event_system_start_copy (e : CkLogSystemStartEvent ptr) :
    prog heap (CkLogSystemStartEvent ptr) :=
  release ← g_strdup (kernel_release e);
  arguments ← g_strdup (boot_arguments e);
  mret {| kernel_release := release; boot_arguments := arguments |}.

Definition event_seat_session_added_copy (e : CkLogSeatSessionEvent ptr) :
    prog heap (CkLogSeatSessionEvent ptr) :=
  seat_id ← g_strdup (ss_seat_id e);
  session_id ← g_strdup (ss_session_id e);
  session_type ← g_strdup (ss_session_type e);
  x11_display ← g_strdup (ss_session_x11_display e);
  x11_display_device ← g_strdup (ss_session_x11_display_device e);
  display_device ← g_strdup (ss_session_display_device e);
  remote_host_name ← g_strdup (ss_session_remote_host_name e);
  creation_time ← g_strdup (ss_session_creation_time e);
  mret {| ss_seat_id := seat_id; ss_session_id := session_id;
          ss_session_type := session_type; ss_session_x11_display := x11_display;
          ss_session_x11_display_device := x11_display_device;
          ss_session_display_device := display_device;
          ss_session_remote_host_name := remote_host_name;
          ss_session_is_local := ss_session_is_local e;
          ss_session_unix_user := ss_session_unix_user e;
          ss_session_creation_time := creation_time |}.

Definition event_seat_session_removed_copy (e : CkLogSeatSessionEvent ptr) :
    prog heap (CkLogSeatSessionEvent ptr) :=
  seat_id ← g_strdup (ss_seat_id e);
  session_id ← g_strdup (ss_session_id e);
  session_type ← g_strdup (ss_session_type e);
  x11_display ← g_strdup (ss_session_x11_display e);
  x11_display_device ← g_strdup (ss_session_x11_display_device e);
  display_device ← g_strdup (ss_session_display_device e);
  remote_host_name ← g_strdup (ss_session_remote_host_name e);
  creation_time ← g_strdup (ss_session_creation_time e);
  mret {| ss_seat_id := seat_id; ss_session_id := session_id;
          ss_session_type := session_type; ss_session_x11_display := x11_display;
          ss_session_x11_display_device := x11_display_device;
          ss_session_display_device := display_device;
          ss_session_remote_host_name := remote_host_name;
          ss_session_is_local := ss_session_is_local e;
          ss_session_unix_user := ss_session_unix_user e;
          ss_session_creation_time := creation_time |}.

Definition event_seat_active_session_changed_copy (e : CkLogSeatActiveSessionChangedEvent ptr) :
    prog heap (CkLogSeatActiveSessionChangedEvent ptr) :=
  seat_id ← g_strdup (sa_seat_id e);
  session_id ← g_strdup (sa_session_id e);
  mret {| sa_seat_id := seat_id; sa_session_id := session_id |}.

Definition event_seat_device_added_copy (e : CkLogSeatDeviceEvent ptr) :
    prog heap (CkLogSeatDeviceEvent ptr) :=
  seat_id ← g_strdup (sd_seat_id e);
  device_id ← g_strdup (sd_device_id e);
  device_type ← g_strdup (sd_device_type e);
  mret {| sd_seat_id := seat_id; sd_device_type := device_type; sd_device_id := device_id |}.

Definition event_seat_device_removed_copy (e : CkLogSeatDeviceEvent ptr) :
    prog heap (CkLogSeatDeviceEvent ptr) :=
  seat_id ← g_strdup (sd_seat_id e);
  device_id ← g_strdup (sd_device_id e);
  device_type ← g_strdup (sd_device_type e);
  mret {| sd_seat_id := seat_id; sd_device_type := device_type; sd_device_id := device_id |}.

(** The [switch] of [ck_log_event_copy]. *)
Definition copy_union (u : CkLogUnion ptr) : prog heap (CkLogUnion ptr) :=
  match u with
  | EvSeatAdded e => c ← event_seat_added_copy e; mret (EvSeatAdded c)
  | EvSeatRemoved e => c ← event_seat_removed_copy e; mret (EvSeatRemoved c)
  | EvSystemStop => mret EvSystemStop
  | EvSystemRestart => mret EvSystemRestart
  | EvSystemStart e => c ← event_system_start_copy e; mret (EvSystemStart c)
  | EvSystemSuspend => mret EvSystemSuspend
  | EvSystemHibernate => mret EvSystemHibernate
  | EvSeatSessionAdded e => c ← event_seat_session_added_copy e; mret (EvSeatSessionAdded c)
  | EvSeatSessionRemoved e => c ← event_seat_session_removed_copy e; mret (EvSeatSessionRemoved c)
  | EvSeatDeviceAdded e => c ← event_seat_device_added_copy e; mret (EvSeatDeviceAdded c)
  | EvSeatDeviceRemoved e => c ← event_seat_device_removed_copy e; mret (EvSeatDeviceRemoved c)
  | EvSeatActiveSessionChanged e =>
      c ← event_seat_active_session_changed_copy e; mret (EvSeatActiveSessionChanged c)
  | EvNone | EvStart | EvStop | EvRunlevelChanged => prog_abort
  end.

Definition ck_log_event_copy (ev : ptr) : prog heap ptr :=
  match ev with
  | None => mret None
  | Some l =>
      e ← read_event l;
      event_copy ← g_new0_event;
      u ← copy_union (event e);
      _ ← write_event event_copy {| event := u; timestamp := timestamp e |};
      mret (Some event_copy)
  end.

Definition event_seat_added_free (e : CkLogSeatEvent ptr) : prog heap unit :=
  g_free (se_seat_id e).
Definition event_seat_removed_free (e : CkLogSeatEvent ptr) : prog heap unit :=
  g_free (se_seat_id e).
Definition event_system_start_free (e : CkLogSystemStartEvent ptr) : prog heap unit :=
  _ ← g_free (kernel_release e);
  g_free (boot_arguments e).
Definition event_seat_session_added_free (e : CkLogSeatSessionEvent ptr) : prog heap unit :=
  _ ← g_free (ss_seat_id e);
  _ ← g_free (ss_session_id e);
  _ ← g_free (ss_session_type e);
  _ ← g_free (ss_session_x11_display e);
  _ ← g_free (ss_session_x11_display_device e);
  _ ← g_free (ss_session_display_device e);
  _ ← g_free (ss_session_remote_host_name e);
  g_free (ss_session_creation_time e).
Definition event_seat_session_removed_free (e : CkLogSeatSessionEvent ptr) : prog heap unit :=
  _ ← g_free (ss_seat_id e);
  _ ← g_free (ss_session_id e);
  _ ← g_free (ss_session_type e);
  _ ← g_free (ss_session_x11_display e);
  _ ← g_free (ss_session_x11_display_device e);
  _ ← g_free (ss_session_display_device e);
  _ ← g_free (ss_session_remote_host_name e);
  g_free (ss_session_creation_time e).
Definition event_seat_active_session_changed_free (e : CkLogSeatActiveSessionChangedEvent ptr) :
    prog heap unit :=
  _ ← g_free (sa_seat_id e);
  g_free (sa_session_id e).
Definition event_seat_device_added_free (e : CkLogSeatDeviceEvent ptr) : prog heap unit :=
  _ ← g_free (sd_seat_id e);
  _ ← g_free (sd_device_id e);
  g_free (sd_device_type e).
Definition event_seat_device_removed_free (e : CkLogSeatDeviceEvent ptr) : prog heap unit :=
  _ ← g_free (sd_seat_id e);
  _ ← g_free (sd_device_id e);
  g_free (sd_device_type e).

(** The [switch] of [ck_log_event_free]. *)
Definition free_union (u : CkLogUnion ptr) : prog heap unit :=
  match u with
  | EvSeatAdded e => event_seat_added_free e
  | EvSeatRemoved e => event_seat_removed_free e
  | EvSystemStop | EvSystemRestart => mret tt
  | EvSystemStart e => event_system_start_free e
  | EvSystemSuspend | EvSystemHibernate => mret tt
  | EvSeatSessionAdded e => event_seat_session_added_free e
  | EvSeatSessionRemoved e => event_seat_session_removed_free e
  | EvSeatDeviceAdded e => event_seat_device_added_free e
  | EvSeatDeviceRemoved e => event_seat_device_removed_free e
  | EvSeatActiveSessionChanged e => event_seat_active_session_changed_free e
  | EvNone | EvStart | EvStop | EvRunlevelChanged => prog_abort
  end.

Definition ck_log_event_free (l : positive) : prog heap unit :=
  e ← read_event l;
  _ ← free_union (event e);
  g_free (Some l).

(** ** Copying and freeing a list of strings *)

Fixpoint strdups (ps : list ptr) : prog heap (list ptr) :=
  match ps with
  | [] => mret []
  | p :: ps => q ← g_strdup p; qs ← strdups ps; mret (q :: qs)
  end.

Fixpoint frees (ps : list ptr) : prog heap unit :=
  match ps with
  | [] => mret tt
  | p :: ps => _ ← g_free p; frees ps
  end.

Lemma copy_union_strdups u h :
  loggable u →
  copy_union u h =
  match strdups (owned u) h with
  | Some (qs, h') => (λ v, (v, h')) <$> refill u qs
  | None => None
  end.
Proof.
  intros Hu. destruct u as [ | | | |[]| | | | |[]|[]|[]|[]|[]|[]|[]]; try done; simpl;
    unfold event_seat_added_copy, event_seat_removed_copy, event_system_start_copy,
      event_seat_session_added_copy, event_seat_session_removed_copy,
      event_seat_active_session_changed_copy, event_seat_device_added_copy,
      event_seat_device_removed_copy; unfold_prog; simpl;
    repeat (match goal with
            | |- context [g_strdup ?p ?h] => destruct (g_strdup p h) as [[??]|]
            end; simpl; try done).
Qed.

Lemma free_union_frees u h : loggable u → free_union u h = frees (owned u) h.
Proof.
  intros Hu. destruct u as [ | | | |[]| | | | |[]|[]|[]|[]|[]|[]|[]]; try done; simpl;
    unfold event_seat_added_free, event_seat_removed_free, event_system_start_free,
      event_seat_session_added_free, event_seat_session_removed_free,
      event_seat_active_session_changed_free, event_seat_device_added_free,
      event_seat_device_removed_free; unfold_prog; simpl;
    repeat (match goal with
            | |- context [g_free ?p ?h] => destruct (g_free p h) as [[[]?]|]
            end; simpl; try done).
Qed.

(** The new blocks [n] a sequence of copies adds: disjoint from the old heap,
    and freeing the copies removes exactly them, whatever else is live. *)
Lemma strdups_spec ps h :
  Forall (valid h) ps →
  ∃ qs n, strdups ps h = Some (qs, n ∪ h) ∧ n ##ₘ h ∧
    deref (n ∪ h) <$> qs = deref h <$> ps ∧ length qs = length ps ∧
    (∀ m, Some m ∈ qs → h !! m = None) ∧
    (∀ hh, n ##ₘ hh → deref (n ∪ hh) <$> qs = deref h <$> ps ∧
       frees qs (n ∪ hh) = Some (tt, hh)).
Proof.
  revert h. induction ps as [|p ps IH]; intros h Hps.
  - exists [], ∅. rewrite (left_id_L ∅ (∪)).
    split_and!; try done; [apply map_disjoint_empty_l|set_solver|].
    intros hh _. by rewrite (left_id_L ∅ (∪)).
  - inversion Hps as [|?? Hp Hps']; subst. destruct p as [l|].
    + destruct Hp as [s Hs]. set (l' := malloc h).
      assert (h !! l' = None) as Hl' by apply malloc_fresh.
      assert (Forall (valid (<[l':=BStr s]> h)) ps) as Hv.
      { eapply Forall_impl; [exact Hps'|]. intros [m|]; simpl; [|done].
        intros [t Ht]. exists t. rewrite lookup_insert_ne; [done|congruence]. }
      destruct (IH _ Hv) as (qs & n & Hrun & Hdisj & Hder & Hlen & Hnew & Hfree).
      assert (n !! l' = None) as Hn.
      { eapply map_disjoint_Some_r; [exact Hdisj|]. apply lookup_insert_eq. }
      assert (deref (<[l':=BStr s]> h) <$> ps = deref h <$> ps) as Hsame.
      { clear -Hps' Hl'. induction Hps' as [|[m|] qs Hm ? IH']; simpl; [done| |by f_equal].
        f_equal; [|done]. destruct Hm as [t Ht].
        rewrite lookup_insert_ne; [done|congruence]. }
      exists (Some l' :: qs), (<[l':=BStr s]> n). split_and!.
      * simpl. unfold_prog. simpl. rewrite Hs. simpl. fold l'. rewrite Hrun.
        by rewrite <- insert_union_l, insert_union_r.
      * apply map_disjoint_insert_l_2; [done|].
        by eapply map_disjoint_insert_r.
      * rewrite !fmap_cons. f_equal.
        -- simpl. by rewrite <- insert_union_l, lookup_insert_eq, Hs.
        -- rewrite <- insert_union_l, insert_union_r by done. by rewrite Hder, Hsame.
      * simpl. by rewrite Hlen.
      * intros m [[= ->]|Hm]%elem_of_cons; [done|].
        apply Hnew in Hm. by apply lookup_insert_None in Hm as [? _].
      * intros hh Hhh. apply map_disjoint_insert_l in Hhh as [Hhl Hhh].
        assert (n ##ₘ <[l':=BStr s]> hh) as Hd2 by by apply map_disjoint_insert_r_2.
        destruct (Hfree _ Hd2) as [Hd3 _]. destruct (Hfree _ Hhh) as [_ Hf3].
        split.
        -- rewrite !fmap_cons. f_equal.
           ++ simpl. rewrite <- insert_union_l, lookup_insert_eq. by rewrite Hs.
           ++ rewrite <- insert_union_l, insert_union_r by done. by rewrite Hd3, Hsame.
        -- simpl. unfold_prog. simpl. rewrite <- insert_union_l, lookup_insert_eq.
           rewrite delete_insert_id; [done|]. by rewrite lookup_union_None.
    + destruct (IH _ Hps') as (qs & n & Hrun & Hdisj & Hder & Hlen & Hnew & Hfree).
      exists (None :: qs), n. split_and!; try done.
      * simpl. unfold_prog. simpl. by rewrite Hrun.
      * rewrite !fmap_cons. by rewrite Hder.
      * simpl. by rewrite Hlen.
      * intros m [?|?]%elem_of_cons; [done|auto].
      * intros hh Hhh. destruct (Hfree hh Hhh) as [Hd Hf]. split; [by rewrite !fmap_cons, Hd|].
        simpl. unfold_prog. simpl. done.
Qed.

Lemma refill_owned {P Q} (u : CkLogUnion P) (qs : list Q) :
  length qs = length (owned u) →
  ∃ v, refill u qs = Some v ∧ owned v = qs ∧ type_of v = type_of u ∧
    loggable v = loggable u ∧
    (∀ R (rs : list R), refill v rs = refill u rs).
Proof.
  destruct u as [ | | | |[]| | | | |[]|[]|[]|[]|[]|[]|[]]; simpl; intros Hlen;
    repeat (destruct qs as [|? qs]; simpl in Hlen; try lia);
    eexists; (split; [reflexivity|]); done.
Qed.

Lemma valid_insert_fresh h b p : valid h p → valid (<[malloc h := b]> h) p.
Proof.
  destruct p as [l|]; simpl; [|done]. intros [s Hs]. exists s.
  rewrite lookup_insert_ne; [done|]. intros <-. by rewrite malloc_fresh in Hs.
Qed.

Lemma deref_insert_fresh h b p : valid h p → deref (<[malloc h := b]> h) p = deref h p.
Proof.
  destruct p as [l|]; simpl; [|done]. intros [s Hs].
  rewrite lookup_insert_ne; [done|]. intros <-. by rewrite malloc_fresh in Hs.
Qed.

(** [ck_log_event_copy] of a live event with a switch-handled type makes a
    deep copy: the original heap is untouched, the copy is a new struct with
    the same tag, timestamp, scalars and string contents, it shares no string
    with anything live before the call, and [ck_log_event_free] of the copy
    frees exactly what the copy allocated (no leak, no double free). *)
Theorem ck_log_event_copy_free h l e :
  h !! l = Some (BEvent e) → loggable (event e) → Forall (valid h) (owned (event e)) →
  ∃ l' u h', ck_log_event_copy (Some l) h = Some (Some l', h') ∧
    h ⊆ h' ∧ h !! l' = None ∧
    h' !! l' = Some (BEvent {| event := u; timestamp := timestamp e |}) ∧
    type_of u = type_of (event e) ∧
    event_value h' u = event_value h (event e) ∧
    (∀ m, Some m ∈ owned u → h !! m = None ∧ m ≠ l') ∧
    ck_log_event_free l' h' = Some (tt, h).
Proof.
  intros Hl Hlog Hval. set (l' := malloc h).
  assert (h !! l' = None) as Hl' by apply malloc_fresh.
  set (h1 := <[l' := BEvent {| event := EvNone; timestamp := {| tv_sec := 0; tv_usec := 0 |} |}]> h).
  assert (Forall (valid h1) (owned (event e))) as Hval1
    by (eapply Forall_impl; [exact Hval|]; intros p; apply valid_insert_fresh).
  assert (deref h1 <$> owned (event e) = deref h <$> owned (event e)) as Hsame.
  { clear -Hval. induction Hval as [|p ps Hp _ IH]; [done|].
    rewrite !fmap_cons, IH. f_equal. by apply deref_insert_fresh. }
  destruct (strdups_spec _ _ Hval1) as (qs & n & Hrun & Hdis & Hder & Hlen & Hnew & Hfree).
  destruct (refill_owned (event e) qs Hlen) as (u & Hu & Howned & Hty & Hlogu & Hrefill).
  apply map_disjoint_insert_r in Hdis as [Hnl' Hdis].
  set (ev := {| event := u; timestamp := timestamp e |}).
  assert (n ##ₘ <[l' := BEvent ev]> h) as Hdis' by by apply map_disjoint_insert_r_2.
  destruct (Hfree _ Hdis') as [Hder' Hfr].
  assert (<[l' := BEvent ev]> (n ∪ h1) = n ∪ <[l' := BEvent ev]> h) as Hw.
  { rewrite insert_union_r by done. unfold h1. by rewrite insert_insert_eq. }
  exists l', u, (n ∪ <[l' := BEvent ev]> h). split_and!; try done.
  - unfold ck_log_event_copy, read_event, g_new0_event, write_event. unfold_prog.
    rewrite Hl. fold l' h1. rewrite copy_union_strdups, Hrun, Hu by done. simpl.
    rewrite lookup_union_r by done. unfold h1 at 1. rewrite lookup_insert_eq.
    fold ev. by rewrite Hw.
  - eapply map_subseteq_spec. intros i x Hi.
    rewrite lookup_union_r by (by apply (map_disjoint_Some_r n h i x)).
    rewrite lookup_insert_ne; [done|congruence].
  - by rewrite lookup_union_r, lookup_insert_eq.
  - unfold event_value. by rewrite Howned, Hder', Hsame, Hrefill.
  - intros m Hm. rewrite Howned in Hm. apply Hnew in Hm.
    apply lookup_insert_None in Hm as [??]. done.
  - unfold ck_log_event_free, read_event. unfold_prog.
    rewrite lookup_union_r, lookup_insert_eq by done. simpl.
    rewrite free_union_frees, Howned, Hfr by (by rewrite Hlogu).
    simpl. by rewrite lookup_insert_eq, delete_insert_id.
Qed.
End copy_free.

(** ** A concrete allocator and a concrete run *)

#[export] Program Instance first_fit : Allocator := {| malloc h := fresh (dom h) |}.
Next Obligation. intros h. apply not_elem_of_dom. apply is_fresh. Qed.

Definition sample_heap : heap :=
  list_to_map [(1%positive, BStr "Seat1"); (2%positive, BStr "Session1");
    (3%positive, BEvent {| event := EvSeatActiveSessionChanged
        {| sa_seat_id := Some 1%positive; sa_session_id := Some 2%positive |};
      timestamp := {| tv_sec := 5; tv_usec := 7 |} |})].

Lemma ck_log_event_copy_free_witness :
  ∃ l' u h', ck_log_event_copy (Some 3%positive) sample_heap = Some (Some l', h') ∧
    sample_heap ⊆ h' ∧ ck_log_event_free l' h' = Some (tt, sample_heap) ∧
    event_value h' u = event_value sample_heap (EvSeatActiveSessionChanged
        {| sa_seat_id := Some 1%positive; sa_session_id := Some 2%positive |}).
Proof.
  destruct (ck_log_event_copy_free sample_heap 3%positive
    {| event := EvSeatActiveSessionChanged
        {| sa_seat_id := Some 1%positive; sa_session_id := Some 2%positive |};
      timestamp := {| tv_sec := 5; tv_usec := 7 |} |})
    as (l' & u & h' & H1 & H2 & H3 & H4 & H5 & H6 & H7 & H8).
  - reflexivity.
  - exact I.
  - simpl. repeat constructor; [exists "Seat1"|exists "Session1"]; reflexivity.
  - exists l', u, h'. split; [exact H1|]. split; [exact H2|]. split; [exact H8|exact H6].
Defined.
