(* ===== verification/Regex.v ===== *)
(** * The regular expressions of [src/ck-log-event.c] and the GRegex interface.

    ck-log-event.c builds its patterns from literals, named greedy runs
    of a character class (one or more, or zero or more, characters) and
    optional groups.  GRegex itself is not part of the repository: it is the class
    [GRegex], whose laws are the documented leftmost, greedy, backtracking
    search on such patterns.  [backtracking] is a concrete matcher that
    satisfies the laws. *)

From S2P Require Import Prelude.

(** ** Patterns *)

Inductive re_item :=
| RLit (l : string)
| RGroup (name : string) (cls : ascii → bool) (least : nat).

Inductive re_part :=
| RItem (i : re_item)
| ROpt (its : list re_item).

Definition regex : Type := list re_part.
Definition captures : Type := list (string * string).

(** The named groups of an optional part that did not take part in the match:
    fetched as the empty string. *)
Fixpoint blanks (its : list re_item) : captures :=
  match its with
  | [] => []
  | RLit _ :: its => blanks its
  | RGroup nm _ _ :: its => (nm, "") :: blanks its
  end.

Fixpoint item_names (its : list re_item) : list string :=
  match its with
  | [] => []
  | RLit _ :: its => item_names its
  | RGroup nm _ _ :: its => nm :: item_names its
  end.

Fixpoint re_names (r : regex) : list string :=
  match r with
  | [] => []
  | RItem i :: r => item_names [i] ++ re_names r
  | ROpt its :: r => item_names its ++ re_names r
  end.

(** [g_match_info_fetch_named]: NULL for a name that is not in the pattern. *)
Fixpoint g_match_info_fetch_named (c : captures) (name : string) : option string :=
  match c with
  | [] => None
  | (nm, v) :: c =>
      if String.eqb nm name then Some v else g_match_info_fetch_named c name
  end.

(** ** Matching at the start of the subject *)

(** [re_match r s c]: [r] can match a prefix of [s] with captures [c]. *)
Inductive re_match : regex → string → captures → Prop :=
| M_nil s : re_match [] s []
| M_lit l r s c : re_match r s c → re_match (RItem (RLit l) :: r) (l +:+ s) c
| M_group nm p least r v s c :
    sall p v → least ≤ String.length v → re_match r s c →
    re_match (RItem (RGroup nm p least) :: r) (v +:+ s) ((nm, v) :: c)
| M_opt_in its r s c : re_match (map RItem its ++ r) s c → re_match (ROpt its :: r) s c
| M_opt_out its r s c : re_match r s c → re_match (ROpt its :: r) s (blanks its ++ c).

(** [re_first r s c]: the match that a greedy backtracking search prefers:
    a longer run is tried before a shorter one, and taking an optional group
    before skipping it. *)
Inductive re_first : regex → string → captures → Prop :=
| F_nil s : re_first [] s []
| F_lit l r s c : re_first r s c → re_first (RItem (RLit l) :: r) (l +:+ s) c
| F_group nm p least r v s c :
    sall p v → least ≤ String.length v → re_first r s c →
    (∀ w s' c', w ≠ "" → s = w +:+ s' → sall p w → ¬ re_match r s' c') →
    re_first (RItem (RGroup nm p least) :: r) (v +:+ s) ((nm, v) :: c)
| F_opt_in its r s c : re_first (map RItem its ++ r) s c → re_first (ROpt its :: r) s c
| F_opt_out its r s c :
    (∀ c', ¬ re_match (map RItem its ++ r) s c') → re_first r s c →
    re_first (ROpt its :: r) s (blanks its ++ c).

(** 7-bit text: always valid UTF-8, which GRegex requires of its subject. *)
Definition is_ascii7 (c : ascii) : bool := N.ltb (N_of_ascii c) 128.

(** ** The interface *)

Class GRegex := {
  g_regex_match : regex → string → option captures;
  g_regex_first r s c :
    sall is_ascii7 s → re_first r s c → g_regex_match r s = Some c;
  g_regex_sound r s c :
    g_regex_match r s = Some c → ∃ pre s', s = pre +:+ s' ∧ re_match r s' c;
  g_regex_complete r s :
    sall is_ascii7 s → g_regex_match r s = None →
    ∀ pre s' c, s = pre +:+ s' → ¬ re_match r s' c
}.

(** ** A matcher that satisfies it *)

Fixpoint run_group (nm : string) (p : ascii → bool) (least : nat)
    (k : string → option captures) (v s : string) : option captures :=
  let here :=
    if Nat.leb least (String.length v) then (λ c, (nm, v) :: c) <$> k s else None in
  match s with
  | EmptyString => here
  | String a s' =>
      if p a
      then match run_group nm p least k (v +:+ String a "") s' with
           | Some c => Some c
           | None => here
           end
      else here
  end.

Definition run_item (i : re_item) (k : string → option captures) (s : string) :
    option captures :=
  match i with
  | RLit l => match strip_prefix l s with Some s' => k s' | None => None end
  | RGroup nm p least => run_group nm p least k "" s
  end.

Fixpoint run_items (its : list re_item) (k : string → option captures) (s : string) :
    option captures :=
  match its with
  | [] => k s
  | i :: its => run_item i (run_items its k) s
  end.

Fixpoint run (r : regex) (s : string) : option captures :=
  match r with
  | [] => Some []
  | RItem i :: r => run_item i (run r) s
  | ROpt its :: r =>
      match run_items its (run r) s with
      | Some c => Some c
      | None => (λ c, blanks its ++ c) <$> run r s
      end
  end.

Fixpoint re_search (r : regex) (s : string) : option captures :=
  match run r s with
  | Some c => Some c
  | None => match s with EmptyString => None | String _ s => re_search r s end
  end.

Lemma run_items_run its r s : run_items its (run r) s = run (map RItem its ++ r) s.
Proof.
  revert s. induction its as [|i its IH]; intros s; [done|]. simpl.
  destruct i as [l|nm p least]; simpl.
  - destruct (strip_prefix l s); [apply IH|done].
  - generalize "". revert s. fix go 1. intros s v. destruct s as [|a s]; simpl.
    + by rewrite IH.
    + destruct (p a); rewrite IH; [|done]. by rewrite go.
Qed.

Lemma run_group_sound nm p least k v s c :
  run_group nm p least k v s = Some c →
  ∃ w s' c', s = w +:+ s' ∧ sall p w ∧ least ≤ String.length (v +:+ w) ∧
    k s' = Some c' ∧ c = (nm, v +:+ w) :: c'.
Proof.
  revert v c. induction s as [|a s IH]; intros v c Hrun.
  all: assert (∀ s0, (if Nat.leb least (String.length v) then (λ c, (nm, v) :: c) <$> k s0
      else None) = Some c → ∃ w s' c', s0 = w +:+ s' ∧ sall p w ∧
      least ≤ String.length (v +:+ w) ∧ k s' = Some c' ∧ c = (nm, v +:+ w) :: c') as Hhere.
  1,3: intros s0; destruct (Nat.leb_spec least (String.length v)); [|done];
    intros (c' & Hk & ->)%fmap_Some; exists "", s0, c'; by rewrite sapp_nil_r.
  - by apply Hhere.
  - simpl in Hrun. destruct (p a) eqn:Hp; [|by apply Hhere].
    destruct (run_group nm p least k (v +:+ String a "") s) as [c1|] eqn:E; [|by apply Hhere].
    simplify_eq. destruct (IH _ _ E) as (w & s' & c' & -> & Hw & Hlen & Hk & ->).
    exists (String a w), s', c'. rewrite sapp_assoc in *.
    split_and!; try done. simpl. by rewrite Hp.
Qed.

Lemma run_group_complete nm p least k v w s c' :
  sall p w → least ≤ String.length (v +:+ w) → k s = Some c' →
  run_group nm p least k v (w +:+ s) ≠ None.
Proof.
  revert v. induction w as [|a w IH]; intros v Hw Hlen Hk.
  - rewrite sapp_nil_l, sapp_nil_r in *.
    apply Nat.leb_le in Hlen. destruct s as [|a s]; simpl; rewrite Hlen, Hk; [done|].
    destruct (p a); [|done]. by destruct (run_group _ _ _ _ _ _).
  - rewrite sapp_cons. simpl in *. apply andb_True in Hw as [Ha Hw].
    destruct (p a); [|done].
    destruct (run_group _ _ _ _ _ _) eqn:E; [done|].
    exfalso. revert E. apply IH; [done| |done]. by rewrite sapp_assoc.
Qed.

Lemma run_group_first nm p least k v w s c' :
  sall p w → least ≤ String.length (v +:+ w) → k s = Some c' →
  (∀ w' s', w' ≠ "" → s = w' +:+ s' → sall p w' → k s' = None) →
  run_group nm p least k v (w +:+ s) = Some ((nm, v +:+ w) :: c').
Proof.
  revert v. induction w as [|a w IH]; intros v Hw Hlen Hk Hno.
  - rewrite sapp_nil_l, sapp_nil_r in *.
    apply Nat.leb_le in Hlen. destruct s as [|a s]; simpl; rewrite Hlen, Hk; [done|].
    destruct (p a) eqn:Hp; [|done].
    destruct (run_group _ _ _ _ _ _) eqn:E; [|done].
    apply run_group_sound in E as (w & s' & c2 & -> & Hw' & _ & Hk' & _).
    rewrite (Hno (String a w) s') in Hk'; [done..|]. simpl. by rewrite Hp.
  - rewrite sapp_cons. simpl in *. apply andb_True in Hw as [Ha Hw].
    destruct (p a); [|done].
    rewrite IH, sapp_assoc; try done. by rewrite sapp_assoc.
Qed.

Lemma run_sound r s c : run r s = Some c → re_match r s c.
Proof.
  assert (∀ r, (∀ s c, run r s = Some c → re_match r s c) →
    ∀ i s c, run (RItem i :: r) s = Some c → re_match (RItem i :: r) s c) as Hitem.
  { clear. intros r IH [l|nm p least] s c; simpl.
    - destruct (strip_prefix l s) eqn:E; [|done]. apply strip_prefix_Some in E as ->.
      intros. constructor. auto.
    - intros (w & s' & c' & -> & ? & ? & ? & ->)%run_group_sound.
      rewrite sapp_nil_l in *. constructor; auto. }
  revert s c. induction r as [|[i|its] r IH]; intros s c.
  - intros [= <-]. constructor.
  - apply Hitem, IH.
  - simpl. destruct (run_items its (run r) s) as [c1|] eqn:E.
    + intros [= <-]. apply M_opt_in. rewrite run_items_run in E. revert s c1 E.
      induction its as [|i its IHis]; simpl; [apply IH|]. by apply Hitem.
    + intros (c' & ? & ->)%fmap_Some. apply M_opt_out. auto.
Qed.

Lemma run_complete r s c : re_match r s c → run r s ≠ None.
Proof.
  induction 1 as [| | nm p least r v s c Hv Hlen _ IH| its r s c _ IH|its r s c _ IH];
    simpl; try done.
  - by rewrite strip_prefix_app.
  - destruct (run r s) as [c'|] eqn:E; [|done]. by eapply run_group_complete.
  - rewrite run_items_run. by destruct (run (map RItem its ++ r) s).
  - destruct (run_items its (run r) s); [done|]. by destruct (run r s).
Qed.

Lemma run_first r s c : re_first r s c → run r s = Some c.
Proof.
  induction 1 as [| | nm p least r v s c Hv Hlen _ IH Hno| its r s c _ IH|its r s c Hno _ IH];
    simpl; try done.
  - by rewrite strip_prefix_app.
  - rewrite (run_group_first nm p least (run r) "" v s c); try done.
    intros w s' Hw -> Hp. destruct (run r s') as [c1|] eqn:E; [|done].
    apply run_sound in E. by destruct (Hno w s' c1).
  - by rewrite run_items_run, IH.
  - rewrite run_items_run, IH. destruct (run (map RItem its ++ r) s) as [c1|] eqn:E; [|done].
    apply run_sound in E. by destruct (Hno c1).
Qed.

#[export] Program Instance backtracking : GRegex := {| g_regex_match := re_search |}.
Next Obligation.
  intros r s c _ Hf. apply run_first in Hf. by destruct s; simpl; rewrite Hf.
Qed.
Next Obligation.
  intros r s. induction s as [|a s IH]; intros c; simpl.
  - destruct (run r "") eqn:E; [|done]. intros [= <-]. exists "", "".
    split; [done|]. by apply run_sound.
  - destruct (run r (String a s)) eqn:E.
    + intros [= <-]. exists "", (String a s). split; [done|]. by apply run_sound.
    + intros (pre & s' & -> & Hm)%IH. by exists (String a pre), s'.
Qed.
Next Obligation.
  intros r s _. induction s as [|a s IH]; simpl.
  - destruct (run r "") eqn:E; [done|]. intros _ pre s' c Hs Hm.
    destruct pre; [|done]. rewrite sapp_nil_l in Hs. subst. by apply run_complete in Hm.
  - destruct (run r (String a s)) eqn:E; [done|]. intros Hn pre s' c Hs Hm.
    destruct pre as [|b pre].
    + rewrite sapp_nil_l in Hs. subst. by apply run_complete in Hm.
    + rewrite sapp_cons in Hs. simplify_eq. by eapply (IH Hn).
Qed.

(** ** Lemmas for clients of the interface *)

(** A run delimited by a character outside its class is matched whole. *)
Lemma F_group_delim nm p least r v s c :
  sall p v → least ≤ String.length v → shead p s = false → re_first r s c →
  re_first (RItem (RGroup nm p least) :: r) (v +:+ s) ((nm, v) :: c).
Proof.
  intros ??? ?. constructor; [done..|].
  intros w s' c' Hw -> Hp. destruct w as [|a w]; [done|].
  rewrite sapp_cons in *. simpl in *. destruct (p a); done.
Qed.

Lemma re_match_names r s c : re_match r s c → c.*1 = re_names r.
Proof.
  assert (∀ its, (blanks its).*1 = item_names its) as Hb.
  { induction its as [|[l|nm p least] its IH]; [done..|].
    cbn [blanks item_names]. by rewrite fmap_cons, IH. }
  assert (∀ its r, re_names (map RItem its ++ r) = item_names its ++ re_names r) as Hn.
  { intros its r'. induction its as [|[l|nm p least] its IH]; simpl; [done..|]. by rewrite IH. }
  induction 1 as [| |nm p least r v s c ?? _ IH|its r s c _ IH|its r s c _ IH]; try done;
    rewrite ?fmap_cons, ?fmap_app; cbn [re_names]; rewrite IH.
  - done.
  - by rewrite Hn.
  - by rewrite Hb.
Qed.

Lemma fetch_named_None c name :
  name ∉ c.*1 → g_match_info_fetch_named c name = None.
Proof.
  induction c as [|[nm v] c IH]; simpl; [done|]. intros [Hne Hc]%not_elem_of_cons.
  destruct (String.eqb_spec nm name) as [->|]; [done|auto].
Qed.

#[export] Hint Constructors re_match re_first : ck.
