(* ===== verification/LogLine.v ===== *)
(** * Event-log lines: printing and parsing ([src/ck-log-event.c]).

    [ck_log_event_to_string] appends the text of an event to a string;
    [ck_log_event_new_from_string] parses a line back.  Strings are
    [option string], [None] standing for NULL.  The regular expressions go
    through the [GRegex] interface. *)

From S2P Require Import Prelude Scan LogEvent Regex.

(** ** Printing *)

(** ["%03u"]. *)
Definition fmt_03 (z : Z) : string :=
  let d := fmt_unsigned z in
  match String.length d with
  | 1 => "00" +:+ d
  | 2 => "0" +:+ d
  | _ => d
  end.

(** ["%s"] of a NULL pointer is undefined: [None]. *)
Definition add_log_for_seat_added (str : string) (e : CkLogSeatEvent cstr) : option string :=
  seat_id ← se_seat_id e;
  Some (str +:+ "seat-id='" +:+ seat_id +:+ "' seat-kind=" +:+ fmt_int (se_seat_kind e)).

Definition add_log_for_seat_removed (str : string) (e : CkLogSeatEvent cstr) : option string :=
  seat_id ← se_seat_id e;
  Some (str +:+ "seat-id='" +:+ seat_id +:+ "' seat-kind=" +:+ fmt_int (se_seat_kind e)).

Definition add_log_for_seat_session_added (str : string) (e : CkLogSeatSessionEvent cstr) : string :=
  str +:+ "seat-id='" +:+ or_empty (ss_seat_id e) +:+
  "' session-id='" +:+ or_empty (ss_session_id e) +:+
  "' session-type='" +:+ or_empty (ss_session_type e) +:+
  "' session-x11-display='" +:+ or_empty (ss_session_x11_display e) +:+
  "' session-x11-display-device='" +:+ or_empty (ss_session_x11_display_device e) +:+
  "' session-display-device='" +:+ or_empty (ss_session_display_device e) +:+
  "' session-remote-host-name='" +:+ or_empty (ss_session_remote_host_name e) +:+
  "' session-is-local=" +:+ (if ss_session_is_local e then "TRUE" else "FALSE") +:+
  " session-unix-user=" +:+ fmt_unsigned (u32 (ss_session_unix_user e)) +:+
  " session-creation-time='" +:+ or_empty (ss_session_creation_time e) +:+ "'".

Definition add_log_for_seat_session_removed (str : string) (e : CkLogSeatSessionEvent cstr) : string :=
  str +:+ "seat-id='" +:+ or_empty (ss_seat_id e) +:+
  "' session-id='" +:+ or_empty (ss_session_id e) +:+
  "' session-type='" +:+ or_empty (ss_session_type e) +:+
  "' session-x11-display='" +:+ or_empty (ss_session_x11_display e) +:+
  "' session-x11-display-device='" +:+ or_empty (ss_session_x11_display_device e) +:+
  "' session-display-device='" +:+ or_empty (ss_session_display_device e) +:+
  "' session-remote-host-name='" +:+ or_empty (ss_session_remote_host_name e) +:+
  "' session-is-local=" +:+ (if ss_session_is_local e then "TRUE" else "FALSE") +:+
  " session-unix-user=" +:+ fmt_unsigned (u32 (ss_session_unix_user e)) +:+
  " session-creation-time='" +:+ or_empty (ss_session_creation_time e) +:+ "'".

Definition add_log_for_system_start (str : string) (e : CkLogSystemStartEvent cstr) : string :=
  str +:+ "kernel-release='" +:+ or_empty (kernel_release e) +:+
  "' boot-arguments='" +:+ or_empty (boot_arguments e) +:+ "'".

Definition add_log_for_seat_active_session_changed (str : string)
    (e : CkLogSeatActiveSessionChangedEvent cstr) : string :=
  str +:+ "seat-id='" +:+ or_empty (sa_seat_id e) +:+
  "' session-id='" +:+ or_empty (sa_session_id e) +:+ "'".

Definition add_log_for_seat_device_added (str : string) (e : CkLogSeatDeviceEvent cstr) : string :=
  str +:+ "seat-id='" +:+ or_empty (sd_seat_id e) +:+
  "' device-id='" +:+ or_empty (sd_device_id e) +:+
  "' device-type='" +:+ or_empty (sd_device_type e) +:+ "'".

Definition add_log_for_seat_device_removed (str : string) (e : CkLogSeatDeviceEvent cstr) : string :=
  str +:+ "seat-id='" +:+ or_empty (sd_seat_id e) +:+
  "' device-id='" +:+ or_empty (sd_device_id e) +:+
  "' device-type='" +:+ or_empty (sd_device_type e) +:+ "'".

Definition event_type_to_name (event_type : CkLogEventType) : string :=
  match event_type with
  | CK_LOG_EVENT_SEAT_ADDED => "SEAT_ADDED"
  | CK_LOG_EVENT_SEAT_REMOVED => "SEAT_REMOVED"
  | CK_LOG_EVENT_SYSTEM_STOP => "SYSTEM_STOP"
  | CK_LOG_EVENT_SYSTEM_RESTART => "SYSTEM_RESTART"
  | CK_LOG_EVENT_SYSTEM_START => "SYSTEM_START"
  | CK_LOG_EVENT_SEAT_SESSION_ADDED => "SEAT_SESSION_ADDED"
  | CK_LOG_EVENT_SEAT_SESSION_REMOVED => "SEAT_SESSION_REMOVED"
  | CK_LOG_EVENT_SEAT_DEVICE_ADDED => "SEAT_DEVICE_ADDED"
  | CK_LOG_EVENT_SEAT_DEVICE_REMOVED => "SEAT_DEVICE_REMOVED"
  | CK_LOG_EVENT_SEAT_ACTIVE_SESSION_CHANGED => "SEAT_ACTIVE_SESSION_CHANGED"
  | _ => "UNKNOWN"
  end.

Definition event_name_to_type (event_name : string) : option CkLogEventType :=
  if String.eqb event_name "SEAT_ADDED" then Some CK_LOG_EVENT_SEAT_ADDED
  else if String.eqb event_name "SEAT_REMOVED" then Some CK_LOG_EVENT_SEAT_REMOVED
  else if String.eqb event_name "SYSTEM_STOP" then Some CK_LOG_EVENT_SYSTEM_STOP
  else if String.eqb event_name "SYSTEM_RESTART" then Some CK_LOG_EVENT_SYSTEM_RESTART
  else if String.eqb event_name "SYSTEM_START" then Some CK_LOG_EVENT_SYSTEM_START
  else if String.eqb event_name "SEAT_SESSION_ADDED" then Some CK_LOG_EVENT_SEAT_SESSION_ADDED
  else if String.eqb event_name "SEAT_SESSION_REMOVED" then Some CK_LOG_EVENT_SEAT_SESSION_REMOVED
  else if String.eqb event_name "SEAT_DEVICE_ADDED" then Some CK_LOG_EVENT_SEAT_DEVICE_ADDED
  else if String.eqb event_name "SEAT_DEVICE_REMOVED" then Some CK_LOG_EVENT_SEAT_DEVICE_REMOVED
  else if String.eqb event_name "SEAT_ACTIVE_SESSION_CHANGED"
  then Some CK_LOG_EVENT_SEAT_ACTIVE_SESSION_CHANGED
  else None.

Definition add_log_for_any (str : string) (ev : CkLogEvent cstr) : string :=
  str +:+ fmt_unsigned (u64 (tv_sec (timestamp ev))) +:+ "." +:+
  fmt_03 (u32 (Z.quot (tv_usec (timestamp ev)) 1000)) +:+ " type=" +:+
  event_type_to_name (type_of (event ev)) +:+ " : ".

(** [None]: [g_assert_not_reached] or an undefined ["%s"] of NULL. *)
Definition ck_log_event_to_string (ev : CkLogEvent cstr) (str : string) : option string :=
  let str := add_log_for_any str ev in
  match event ev with
  | EvSeatAdded e => add_log_for_seat_added str e
  | EvSeatRemoved e => add_log_for_seat_removed str e
  | EvSystemStop | EvSystemRestart => Some str
  | EvSystemStart e => Some (add_log_for_system_start str e)
  | EvSystemSuspend | EvSystemHibernate => Some str
  | EvSeatSessionAdded e => Some (add_log_for_seat_session_added str e)
  | EvSeatSessionRemoved e => Some (add_log_for_seat_session_removed str e)
  | EvSeatDeviceAdded e => Some (add_log_for_seat_device_added str e)
  | EvSeatDeviceRemoved e => Some (add_log_for_seat_device_removed str e)
  | EvSeatActiveSessionChanged e => Some (add_log_for_seat_active_session_changed str e)
  | EvNone | EvStart | EvStop | EvRunlevelChanged => None
  end.

(** ** Scanning *)

(** ["%30s"]: at most [n] non-space characters. *)
Fixpoint scan_chars (n : nat) (s : string) : string :=
  match n, s with
  | S n, String c s => if is_space c then "" else String c (scan_chars n s)
  | _, _ => ""
  end.

Definition scan_word (n : nat) (s : string) : option string :=
  let w := scan_chars n (skip_space s) in
  if String.eqb w "" then None else Some w.

Definition skip_header (str : string) : option string :=
  match after_first " : " str with
  | Some r => Some r
  | None => after_first " :" str
  end.

Definition parse_value_as_ulong (value : string) : option Z :=
  let '(ulong_value, end_of_valid_int) := strtoul value in
  if String.eqb value "" || negb (String.eqb end_of_valid_int "") then None
  else Some ulong_value.

(** [sscanf (str, "%lu.%u type=%30s :", &sec, &frac, buf) == 3], then the
    event name and the timestamp. *)
Definition parse_log_for_any (str : string) : option (CkLogEventType * GTimeVal) :=
  '(sec, s1) ← scan_unsigned str;
  s2 ← strip_prefix "." s1;
  '(frac, s3) ← scan_unsigned s2;
  s4 ← strip_prefix "type=" (skip_space s3);
  buf ← scan_word 30 s4;
  type ← event_name_to_type buf;
  Some (type, {| tv_sec := i64 sec; tv_usec := u32 (1000 * u32 frac) |}).

(** ** The patterns *)

Definition cls_id (c : ascii) : bool := is_alnum c || ascii_eqb c "/"%char.
Definition cls_type (c : ascii) : bool := is_alnum c || ascii_eqb c " "%char.
Definition cls_display (c : ascii) : bool :=
  is_alnum c || ascii_eqb c "."%char || ascii_eqb c ":"%char.
Definition cls_unquoted (c : ascii) : bool := negb (ascii_eqb c "'"%char).
Definition cls_dot (c : ascii) : bool := negb (ascii_eqb c "010"%char).

Definition seat_re : regex :=
  [RItem (RLit "seat-id='"); RItem (RGroup "seatid" cls_id 1);
   RItem (RLit "' seat-kind="); RItem (RGroup "sessionid" is_digit 0)].

Definition system_start_re : regex :=
  [ROpt [RLit "kernel-release='"; RGroup "release" cls_unquoted 1; RLit "'"];
   ROpt [RLit " "];
   ROpt [RLit "boot-arguments='"; RGroup "arguments" cls_dot 0; RLit "'"]].

Definition seat_session_re : regex :=
  [RItem (RLit "seat-id='"); RItem (RGroup "seatid" cls_id 1);
   RItem (RLit "' session-id='"); RItem (RGroup "sessionid" cls_id 1);
   RItem (RLit "' session-type='"); RItem (RGroup "sessiontype" cls_type 0);
   RItem (RLit "' session-x11-display='"); RItem (RGroup "sessionx11display" cls_display 0);
   RItem (RLit "' session-x11-display-device='");
   RItem (RGroup "sessionx11displaydevice" cls_unquoted 0);
   RItem (RLit "' session-display-device='");
   RItem (RGroup "sessiondisplaydevice" cls_unquoted 0);
   RItem (RLit "' session-remote-host-name='");
   RItem (RGroup "sessionremovehostname" cls_unquoted 0);
   RItem (RLit "' session-is-local="); RItem (RGroup "sessionislocal" is_alpha 0);
   RItem (RLit " session-unix-user="); RItem (RGroup "sessionunixuser" is_digit 0);
   RItem (RLit " session-creation-time='");
   RItem (RGroup "sessioncreationtime" cls_unquoted 0); RItem (RLit "'")].

Definition seat_active_session_changed_re : regex :=
  [RItem (RLit "seat-id='"); RItem (RGroup "seatid" cls_id 1);
   RItem (RLit "' session-id='"); RItem (RGroup "sessionid" cls_id 0); RItem (RLit "'")].

Definition seat_device_re : regex :=
  [RItem (RLit "seat-id='"); RItem (RGroup "seatid" cls_id 1);
   RItem (RLit "' device-id='"); RItem (RGroup "deviceid" cls_unquoted 1);
   RItem (RLit "' device-type='"); RItem (RGroup "devicetype" cls_unquoted 1);
   RItem (RLit "'")].

(** ** Parsing

    Each [parse_log_for_*] fills the union of an event fresh from [g_new0]
    ([ck_log_event_new_from_string] is the only caller), so a field it does
    not set is NULL or 0.  [None] is the [FALSE] return. *)

Section parsing.
Context `{GRegex}.

Definition set_ulong (conv : Z → Z) (tmp : cstr) : Z :=
  match tmp with
  | Some t => match parse_value_as_ulong t with Some l => conv l | None => 0%Z end
  | None => 0%Z
  end.

Definition parse_log_for_seat_added (str : string) : option (CkLogSeatEvent cstr) :=
  s ← skip_header str;
  m ← g_regex_match seat_re s;
  Some {| se_seat_id := g_match_info_fetch_named m "seatid";
          se_seat_kind := set_ulong i32 (g_match_info_fetch_named m "seatkind") |}.

Definition parse_log_for_seat_removed (str : string) : option (CkLogSeatEvent cstr) :=
  s ← skip_header str;
  m ← g_regex_match seat_re s;
  Some {| se_seat_id := g_match_info_fetch_named m "seatid";
          se_seat_kind := set_ulong i32 (g_match_info_fetch_named m "seatkind") |}.

Definition parse_log_for_system_stop (str : string) : option unit :=
  s ← skip_header str; Some tt.

Definition parse_log_for_system_restart (str : string) : option unit :=
  s ← skip_header str; Some tt.

Definition parse_log_for_system_start (str : string) : option (CkLogSystemStartEvent cstr) :=
  s ← skip_header str;
  m ← g_regex_match system_start_re s;
  Some {| kernel_release := g_match_info_fetch_named m "release";
          boot_arguments := g_match_info_fetch_named m "arguments" |}.

Definition parse_log_for_seat_session_added (str : string) : option (CkLogSeatSessionEvent cstr) :=
  s ← skip_header str;
  m ← g_regex_match seat_session_re s;
  Some {| ss_seat_id := g_match_info_fetch_named m "seatid";
          ss_session_id := g_match_info_fetch_named m "sessionid";
          ss_session_type := g_match_info_fetch_named m "sessiontype";
          ss_session_x11_display := g_match_info_fetch_named m "sessionx11display";
          ss_session_x11_display_device := g_match_info_fetch_named m "sessionx11displaydevice";
          ss_session_display_device := g_match_info_fetch_named m "sessiondisplaydevice";
          ss_session_remote_host_name := g_match_info_fetch_named m "sessionremotehostname";
          ss_session_is_local :=
            bool_decide (g_match_info_fetch_named m "sessionislocal" = Some "TRUE");
          ss_session_unix_user := set_ulong u32 (g_match_info_fetch_named m "sessionunixuser");
          ss_session_creation_time := g_match_info_fetch_named m "sessioncreationtime" |}.

Definition parse_log_for_seat_session_removed (str : string) : option (CkLogSeatSessionEvent cstr) :=
  s ← skip_header str;
  m ← g_regex_match seat_session_re s;
  Some {| ss_seat_id := g_match_info_fetch_named m "seatid";
          ss_session_id := g_match_info_fetch_named m "sessionid";
          ss_session_type := g_match_info_fetch_named m "sessiontype";
          ss_session_x11_display := g_match_info_fetch_named m "sessionx11display";
          ss_session_x11_display_device := g_match_info_fetch_named m "sessionx11displaydevice";
          ss_session_display_device := g_match_info_fetch_named m "sessiondisplaydevice";
          ss_session_remote_host_name := g_match_info_fetch_named m "sessionremotehostname";
          ss_session_is_local :=
            bool_decide (g_match_info_fetch_named m "sessionislocal" = Some "TRUE");
          ss_session_unix_user := set_ulong u32 (g_match_info_fetch_named m "sessionunixuser");
          ss_session_creation_time := g_match_info_fetch_named m "sessioncreationtime" |}.

Definition parse_log_for_seat_active_session_changed (str : string) :
    option (CkLogSeatActiveSessionChangedEvent cstr) :=
  s ← skip_header str;
  m ← g_regex_match seat_active_session_changed_re s;
  Some {| sa_seat_id := g_match_info_fetch_named m "seatid";
          sa_session_id := g_match_info_fetch_named m "sessionid" |}.

Definition parse_log_for_seat_device_added (str : string) : option (CkLogSeatDeviceEvent cstr) :=
  s ← skip_header str;
  m ← g_regex_match seat_device_re s;
  Some {| sd_seat_id := g_match_info_fetch_named m "seatid";
          sd_device_type := g_match_info_fetch_named m "devicetype";
          sd_device_id := g_match_info_fetch_named m "deviceid" |}.

Definition parse_log_for_seat_device_removed (str : string) : option (CkLogSeatDeviceEvent cstr) :=
  s ← skip_header str;
  m ← g_regex_match seat_device_re s;
  Some {| sd_seat_id := g_match_info_fetch_named m "seatid";
          sd_device_type := g_match_info_fetch_named m "devicetype";
          sd_device_id := g_match_info_fetch_named m "deviceid" |}.

(** [None]: [g_assert_not_reached]; [Some None]: FALSE. *)
Definition ck_log_event_fill_from_string (str : string) : option (option (CkLogEvent cstr)) :=
  match parse_log_for_any str with
  | None => Some None
  | Some (type, stamp) =>
      let filled {A} (mk : A → CkLogUnion cstr) (res : option A) :=
        Some ((λ e, {| event := mk e; timestamp := stamp |}) <$> res) in
      match type with
      | CK_LOG_EVENT_SEAT_ADDED => filled EvSeatAdded (parse_log_for_seat_added str)
      | CK_LOG_EVENT_SEAT_REMOVED => filled EvSeatRemoved (parse_log_for_seat_removed str)
      | CK_LOG_EVENT_SYSTEM_STOP =>
          filled (λ _, EvSystemStop) (parse_log_for_system_stop str)
      | CK_LOG_EVENT_SYSTEM_RESTART =>
          filled (λ _, EvSystemRestart) (parse_log_for_system_restart str)
      | CK_LOG_EVENT_SYSTEM_START => filled EvSystemStart (parse_log_for_system_start str)
      | CK_LOG_EVENT_SEAT_SESSION_ADDED =>
          filled EvSeatSessionAdded (parse_log_for_seat_session_added str)
      | CK_LOG_EVENT_SEAT_SESSION_REMOVED =>
          filled EvSeatSessionRemoved (parse_log_for_seat_session_removed str)
      | CK_LOG_EVENT_SEAT_DEVICE_ADDED =>
          filled EvSeatDeviceAdded (parse_log_for_seat_device_added str)
      | CK_LOG_EVENT_SEAT_DEVICE_REMOVED =>
          filled EvSeatDeviceRemoved (parse_log_for_seat_device_removed str)
      | CK_LOG_EVENT_SEAT_ACTIVE_SESSION_CHANGED =>
          filled EvSeatActiveSessionChanged (parse_log_for_seat_active_session_changed str)
      | _ => None
      end
  end.

(** The event, or NULL when the line does not parse. *)
Definition ck_log_event_new_from_string (str : string) : option (option (CkLogEvent cstr)) :=
  ck_log_event_fill_from_string str.

(** ** What survives a round trip

    [read_back ev]: the event that the line printed for [ev] parses to.  The
    microseconds are cut to milliseconds, a NULL string comes back empty, and
    two fields are lost because the parser asks for a group name that its
    pattern does not have: [seat_kind] (asked as "seatkind", the group is
    called "sessionid") and the remote host name ("sessionremotehostname"
    against "sessionremovehostname"). *)
Definition back (p : cstr) : cstr := Some (or_empty p).

Definition read_back_session (e : CkLogSeatSessionEvent cstr) : CkLogSeatSessionEvent cstr :=
  {| ss_seat_id := back (ss_seat_id e); ss_session_id := back (ss_session_id e);
     ss_session_type := back (ss_session_type e);
     ss_session_x11_display := back (ss_session_x11_display e);
     ss_session_x11_display_device := back (ss_session_x11_display_device e);
     ss_session_display_device := back (ss_session_display_device e);
     ss_session_remote_host_name := None;
     ss_session_is_local := ss_session_is_local e;
     ss_session_unix_user := ss_session_unix_user e;
     ss_session_creation_time := back (ss_session_creation_time e) |}.

Definition read_back_union (u : CkLogUnion cstr) : CkLogUnion cstr :=
  match u with
  | EvSystemStart e => EvSystemStart
      {| kernel_release := back (kernel_release e); boot_arguments := back (boot_arguments e) |}
  | EvSeatAdded e => EvSeatAdded {| se_seat_id := back (se_seat_id e); se_seat_kind := 0 |}
  | EvSeatRemoved e => EvSeatRemoved {| se_seat_id := back (se_seat_id e); se_seat_kind := 0 |}
  | EvSeatSessionAdded e => EvSeatSessionAdded (read_back_session e)
  | EvSeatSessionRemoved e => EvSeatSessionRemoved (read_back_session e)
  | EvSeatDeviceAdded e => EvSeatDeviceAdded
      {| sd_seat_id := back (sd_seat_id e); sd_device_type := back (sd_device_type e);
         sd_device_id := back (sd_device_id e) |}
  | EvSeatDeviceRemoved e => EvSeatDeviceRemoved
      {| sd_seat_id := back (sd_seat_id e); sd_device_type := back (sd_device_type e);
         sd_device_id := back (sd_device_id e) |}
  | EvSeatActiveSessionChanged e => EvSeatActiveSessionChanged
      {| sa_seat_id := back (sa_seat_id e); sa_session_id := back (sa_session_id e) |}
  | u => u
  end.

Definition read_back (ev : CkLogEvent cstr) : CkLogEvent cstr :=
  {| event := read_back_union (event ev);
     timestamp := {| tv_sec := tv_sec (timestamp ev);
                     tv_usec := tv_usec (timestamp ev) / 1000 * 1000 |} |}.

(** The events whose fields fit the patterns. *)
Definition field_ok (cls : ascii → bool) (least : nat) (p : cstr) : bool :=
  sall cls (or_empty p) && sall is_ascii7 (or_empty p) &&
  Nat.leb least (String.length (or_empty p)).

Definition session_ok (e : CkLogSeatSessionEvent cstr) : bool :=
  field_ok cls_id 1 (ss_seat_id e) && field_ok cls_id 1 (ss_session_id e) &&
  field_ok cls_type 0 (ss_session_type e) &&
  field_ok cls_display 0 (ss_session_x11_display e) &&
  field_ok cls_unquoted 0 (ss_session_x11_display_device e) &&
  field_ok cls_unquoted 0 (ss_session_display_device e) &&
  field_ok cls_unquoted 0 (ss_session_remote_host_name e) &&
  field_ok cls_unquoted 0 (ss_session_creation_time e) &&
  Z.leb 0 (ss_session_unix_user e) && Z.ltb (ss_session_unix_user e) (2 ^ 32).

Definition device_ok (e : CkLogSeatDeviceEvent cstr) : bool :=
  field_ok cls_id 1 (sd_seat_id e) && field_ok cls_unquoted 1 (sd_device_id e) &&
  field_ok cls_unquoted 1 (sd_device_type e).

Definition union_ok (u : CkLogUnion cstr) : bool :=
  match u with
  | EvSystemStop | EvSystemRestart => true
  | EvSystemStart e =>
      field_ok cls_unquoted 1 (kernel_release e) && field_ok cls_dot 0 (boot_arguments e)
  | EvSeatAdded e | EvSeatRemoved e => field_ok cls_id 1 (se_seat_id e)
  | EvSeatSessionAdded e | EvSeatSessionRemoved e => session_ok e
  | EvSeatDeviceAdded e | EvSeatDeviceRemoved e => device_ok e
  | EvSeatActiveSessionChanged e =>
      field_ok cls_id 1 (sa_seat_id e) && field_ok cls_id 0 (sa_session_id e)
  | _ => false
  end.

Definition time_ok (t : GTimeVal) : bool :=
  Z.leb 0 (tv_sec t) && Z.ltb (tv_sec t) (2 ^ 63) &&
  Z.leb 0 (tv_usec t) && Z.ltb (tv_usec t) 1000000.

(** ** Scanning lemmas *)

Lemma fmt_03_cases z : ∃ zeros, fmt_03 z = zeros +:+ fmt_unsigned z ∧
  sall is_digit zeros ∧ digits_value 0 zeros = 0%N.
Proof.
  unfold fmt_03. destruct (String.length (fmt_unsigned z)) as [|[|[|n]]];
    [by exists ""|by exists "00"|by exists "0"|by exists ""].
Qed.

Lemma scan_fmt_03 z rest :
  (0 ≤ z < 2 ^ 64)%Z → shead is_digit rest = false →
  scan_unsigned (fmt_03 z +:+ rest) = Some (z, rest).
Proof.
  intros Hz Hrest. destruct (fmt_03_cases z) as (zeros & -> & Hd & Hv).
  rewrite scan_unsigned_digits; [| |destruct zeros; [apply fmt_unsigned_nonempty|done]|done].
  - do 2 f_equal. rewrite <- (strtoul_value_fmt z) at 2 by done.
    unfold strtoul_value. by rewrite digits_value_app, Hv.
  - rewrite sall_app, andb_True. split; [done|apply fmt_unsigned_digits].
Qed.

Lemma parse_value_as_ulong_digits d :
  sall is_digit d → d ≠ "" → parse_value_as_ulong d = Some (strtoul_value false d).
Proof.
  intros Hd Hne. unfold parse_value_as_ulong, strtoul.
  rewrite <- (sapp_nil_r d) at 1. rewrite scan_unsigned_digits by done. simpl.
  by destruct (String.eqb_spec d "").
Qed.

(** The separator " : " does not occur in text without a colon. *)
Lemma no_colon_no_header pre r :
  sall (λ c, negb (ascii_eqb c ":"%char)) pre →
  after_first " : " (pre +:+ (" : " +:+ r)) = Some r.
Proof.
  intros Hpre. apply after_first_app. intros a b -> Hb.
  rewrite sall_app, andb_True in Hpre. destruct Hpre as [_ Hpre].
  destruct b as [|c b]; [done|]. rewrite sapp_cons. cbn [strip_prefix].
  destruct (ascii_eqb_spec " "%char c) as [<-|]; [|done].
  destruct b as [|c' b]; [done|]. rewrite sapp_cons. cbn [strip_prefix].
  by destruct (ascii_eqb_spec ":"%char c') as [<-|].
Qed.

Definition nameable (t : CkLogEventType) : bool :=
  match event_name_to_type (event_type_to_name t) with Some _ => true | None => false end.

Lemma event_name_type t :
  nameable t → event_name_to_type (event_type_to_name t) = Some t.
Proof. by destruct t. Qed.

Lemma scan_name t body :
  scan_word 30 (event_type_to_name t +:+ " : " +:+ body) = Some (event_type_to_name t).
Proof. by destruct t. Qed.

Lemma digits_no_colon d : sall is_digit d → sall (λ c, negb (ascii_eqb c ":"%char)) d.
Proof. apply sall_impl. intros c. by destruct c as [[] [] [] [] [] [] [] []]. Qed.

Lemma skip_header_line ev body :
  skip_header (add_log_for_any "" ev +:+ body) = Some body.
Proof.
  unfold skip_header, add_log_for_any. rewrite sapp_nil_l.
  match goal with |- context [after_first " : " ?l] =>
    replace l with ((fmt_unsigned (u64 (tv_sec (timestamp ev))) +:+ "." +:+
      fmt_03 (u32 (tv_usec (timestamp ev) `quot` 1000)) +:+ " type=" +:+
      event_type_to_name (type_of (event ev))) +:+ (" : " +:+ body))
      by (by rewrite !sapp_assoc)
  end.
  rewrite no_colon_no_header; [done|].
  destruct (fmt_03_cases (u32 (tv_usec (timestamp ev) `quot` 1000))) as (zeros & -> & Hz & _).
  rewrite !sall_app, !andb_True.
  split_and!; auto using digits_no_colon, fmt_unsigned_digits.
  by destruct (type_of (event ev)).
Qed.

Lemma parse_any_printed ev body :
  parse_log_for_any (add_log_for_any "" ev +:+ body) =
  (λ type, (type, {| tv_sec := i64 (u64 (tv_sec (timestamp ev)));
                     tv_usec := u32 (1000 * u32 (u32 (tv_usec (timestamp ev) `quot` 1000))) |}))
  <$> event_name_to_type (event_type_to_name (type_of (event ev))).
Proof.
  unfold parse_log_for_any, add_log_for_any.
  rewrite sapp_nil_l, !sapp_assoc.
  rewrite (scan_unsigned_digits (fmt_unsigned _))
    by (done || apply fmt_unsigned_digits || apply fmt_unsigned_nonempty).
  rewrite strtoul_value_fmt by apply u64_range. cbn [mbind option_bind].
  rewrite strip_prefix_app. cbn [mbind option_bind].
  pose proof (u32_range (tv_usec (timestamp ev) `quot` 1000)).
  rewrite scan_fmt_03 by (done || lia). cbn [mbind option_bind].
  match goal with |- context [skip_space (" type=" +:+ ?x)] =>
    change (skip_space (" type=" +:+ x)) with ("type=" +:+ x)
  end.
  rewrite strip_prefix_app. cbn [mbind option_bind].
  by rewrite scan_name.
Qed.

Lemma parse_any_line ev body :
  time_ok (timestamp ev) → nameable (type_of (event ev)) →
  parse_log_for_any (add_log_for_any "" ev +:+ body) =
  Some (type_of (event ev), timestamp (read_back ev)).
Proof.
  unfold time_ok. rewrite !andb_True, !Is_true_true, !Z.leb_le, !Z.ltb_lt.
  intros [[[Hs1 Hs2] Hu1] Hu2] Hname.
  rewrite parse_any_printed, event_name_type by (by rewrite Hname).
  rewrite u64_small, i64_small, Z.quot_div_nonneg by lia.
  assert (0 ≤ tv_usec (timestamp ev) / 1000 < 1000)%Z as Hms.
  { split; [apply Z.div_pos; lia|apply Z.div_lt_upper_bound; lia]. }
  rewrite !(u32_small (_ / 1000)), u32_small by lia.
  unfold read_back. simpl. do 3 f_equal. lia.
Qed.

(** ** The patterns match the printed bodies *)

Ltac re_steps :=
  repeat first
    [ apply F_nil | apply F_lit
    | apply F_group_delim; [try done|try (simpl; lia)|try done|] ].

(** What follows the text of an event: nothing, or the end of the line. *)
Definition line_end (rest : string) : Prop := rest = "" ∨ rest = String "010" "".

Lemma seat_first s d :
  sall cls_id s → 1 ≤ String.length s →
  re_first seat_re ("seat-id='" +:+ s +:+ "' seat-kind=" +:+ d)
    [("seatid", s); ("sessionid", (sspan is_digit d).1)].
Proof.
  intros. destruct (sspan is_digit d) as [v r] eqn:Hd.
  apply sspan_spec in Hd as (-> & ? & ?). unfold seat_re. re_steps.
Qed.

Lemma active_first s t rest :
  sall cls_id s → 1 ≤ String.length s → sall cls_id t →
  re_first seat_active_session_changed_re
    ("seat-id='" +:+ s +:+ "' session-id='" +:+ t +:+ "'" +:+ rest)
    [("seatid", s); ("sessionid", t)].
Proof.
  intros ???. unfold seat_active_session_changed_re. re_steps.
Qed.

Lemma device_first s d t rest :
  sall cls_id s → 1 ≤ String.length s → sall cls_unquoted d → 1 ≤ String.length d →
  sall cls_unquoted t → 1 ≤ String.length t →
  re_first seat_device_re
    ("seat-id='" +:+ s +:+ "' device-id='" +:+ d +:+ "' device-type='" +:+ t +:+ "'" +:+ rest)
    [("seatid", s); ("deviceid", d); ("devicetype", t)].
Proof.
  intros. unfold seat_device_re. re_steps.
Qed.

Lemma session_first s i t x xd dd h l u c rest :
  sall cls_id s → 1 ≤ String.length s → sall cls_id i → 1 ≤ String.length i →
  sall cls_type t → sall cls_display x → sall cls_unquoted xd → sall cls_unquoted dd →
  sall cls_unquoted h → sall is_alpha l → sall is_digit u → sall cls_unquoted c →
  re_first seat_session_re
    ("seat-id='" +:+ s +:+ "' session-id='" +:+ i +:+ "' session-type='" +:+ t +:+
     "' session-x11-display='" +:+ x +:+ "' session-x11-display-device='" +:+ xd +:+
     "' session-display-device='" +:+ dd +:+ "' session-remote-host-name='" +:+ h +:+
     "' session-is-local=" +:+ l +:+ " session-unix-user=" +:+ u +:+
     " session-creation-time='" +:+ c +:+ "'" +:+ rest)
    [("seatid", s); ("sessionid", i); ("sessiontype", t); ("sessionx11display", x);
     ("sessionx11displaydevice", xd); ("sessiondisplaydevice", dd);
     ("sessionremovehostname", h); ("sessionislocal", l); ("sessionunixuser", u);
     ("sessioncreationtime", c)].
Proof.
  intros. unfold seat_session_re. re_steps.
Qed.

(** The greedy dot run stops at the last quote of the line. *)
Lemma system_start_first r a rest :
  sall cls_unquoted r → 1 ≤ String.length r → sall cls_dot a → line_end rest →
  re_first system_start_re
    ("kernel-release='" +:+ r +:+ "' boot-arguments='" +:+ a +:+ "'" +:+ rest)
    [("release", r); ("arguments", a)].
Proof.
  intros ??? Hrest. unfold system_start_re. apply F_opt_in. simpl map. simpl app. re_steps.
  apply (F_lit "'"). apply F_opt_in. simpl map. simpl app. apply (F_lit " ").
  apply F_opt_in. simpl map. simpl app.
  apply (F_lit "boot-arguments='"). apply F_group; [done|simpl; lia| |].
  - re_steps.
  - intros w s' c' Hw Hs _ Hm. destruct w as [|b w]; [done|]. rewrite sapp_cons in Hs. simplify_eq.
    inversion Hm as [|l ? s0 ? ? Heq Hs0| | |]. subst.
    destruct Hrest as [-> | ->], w as [|b' w]; simpl in Hs; simplify_eq; by destruct w.
Qed.

(** ** Round trip *)

Lemma field_ok_spec cls least p :
  field_ok cls least p → sall cls (or_empty p) ∧ sall is_ascii7 (or_empty p) ∧
    least ≤ String.length (or_empty p).
Proof. unfold field_ok. rewrite !andb_True, (Is_true_true (_ <=? _)), Nat.leb_le. tauto. Qed.

Lemma digits_ascii7 d : sall is_digit d → sall is_ascii7 d.
Proof. apply sall_impl. intros c. by destruct c as [[] [] [] [] [] [] [] []]. Qed.

Lemma line_end_ascii7 rest : line_end rest → sall is_ascii7 rest.
Proof. by intros [-> | ->]. Qed.

Ltac split_fields :=
  repeat match goal with
  | H : Is_true (_ && _) |- _ => apply andb_True in H as [? ?]
  | H : Is_true (field_ok _ _ _) |- _ => apply field_ok_spec in H as (? & ? & ?)
  end.

Ltac solve_ascii :=
  rewrite ?sall_app, ?andb_True; split_and!; try done;
  auto using digits_ascii7, fmt_unsigned_digits, line_end_ascii7.

Lemma parse_session_line ev e rest :
  session_ok e → line_end rest →
  parse_log_for_seat_session_added
    (add_log_for_any "" ev +:+ (add_log_for_seat_session_added "" e +:+ rest)) =
  Some (read_back_session e).
Proof.
  intros Hok Hrest. unfold parse_log_for_seat_session_added.
  rewrite skip_header_line. cbn [mbind option_bind].
  unfold session_ok in Hok. split_fields.
  rewrite (Is_true_true (0 <=? _)%Z), Z.leb_le in *.
  rewrite (Is_true_true (_ <? _)%Z), Z.ltb_lt in *.
  unfold add_log_for_seat_session_added. rewrite sapp_nil_l, !sapp_assoc.
  rewrite u32_small by lia.
  erewrite g_regex_first; [|solve_ascii; by destruct (ss_session_is_local e)|].
  2:{ apply session_first; try done; [by destruct (ss_session_is_local e)|].
      apply fmt_unsigned_digits. }
  cbn [mbind option_bind]. unfold read_back_session, back. f_equal. f_equal; simpl.
  - by destruct (ss_session_is_local e).
  - rewrite parse_value_as_ulong_digits
      by (apply fmt_unsigned_digits || apply fmt_unsigned_nonempty).
    rewrite strtoul_value_fmt, u32_small by lia. done.
Qed.

Lemma fmt_int_ascii7 z : sall is_ascii7 (fmt_int z).
Proof.
  destruct z as [|p|p]; [done| |change (sall is_ascii7 (pretty (N.pos p)))];
    apply digits_ascii7, pretty_N_digits.
Qed.

Lemma parse_seat_line ev s k rest :
  field_ok cls_id 1 (Some s) → line_end rest →
  parse_log_for_seat_added
    (add_log_for_any "" ev +:+ "seat-id='" +:+ s +:+ "' seat-kind=" +:+ fmt_int k +:+ rest) =
  Some {| se_seat_id := Some s; se_seat_kind := 0 |}.
Proof.
  intros Hok Hrest. split_fields. unfold parse_log_for_seat_added.
  rewrite skip_header_line. cbn [mbind option_bind].
  by erewrite g_regex_first; [|solve_ascii; apply fmt_int_ascii7|by apply seat_first].
Qed.

Lemma parse_device_line ev e rest :
  device_ok e → line_end rest →
  parse_log_for_seat_device_added
    (add_log_for_any "" ev +:+ (add_log_for_seat_device_added "" e +:+ rest)) =
  Some {| sd_seat_id := back (sd_seat_id e); sd_device_type := back (sd_device_type e);
          sd_device_id := back (sd_device_id e) |}.
Proof.
  intros Hok Hrest. unfold device_ok in Hok. split_fields.
  unfold parse_log_for_seat_device_added, add_log_for_seat_device_added.
  rewrite skip_header_line, sapp_nil_l, !sapp_assoc. cbn [mbind option_bind].
  by erewrite g_regex_first; [|solve_ascii|by apply device_first].
Qed.

Lemma parse_active_line ev e rest :
  field_ok cls_id 1 (sa_seat_id e) && field_ok cls_id 0 (sa_session_id e) → line_end rest →
  parse_log_for_seat_active_session_changed
    (add_log_for_any "" ev +:+ (add_log_for_seat_active_session_changed "" e +:+ rest)) =
  Some {| sa_seat_id := back (sa_seat_id e); sa_session_id := back (sa_session_id e) |}.
Proof.
  intros Hok Hrest. split_fields.
  unfold parse_log_for_seat_active_session_changed, add_log_for_seat_active_session_changed.
  rewrite skip_header_line, sapp_nil_l, !sapp_assoc. cbn [mbind option_bind].
  by erewrite g_regex_first; [|solve_ascii|by apply active_first].
Qed.

Lemma parse_start_line ev e rest :
  field_ok cls_unquoted 1 (kernel_release e) && field_ok cls_dot 0 (boot_arguments e) → line_end rest →
  parse_log_for_system_start
    (add_log_for_any "" ev +:+ (add_log_for_system_start "" e +:+ rest)) =
  Some {| kernel_release := back (kernel_release e); boot_arguments := back (boot_arguments e) |}.
Proof.
  intros Hok Hrest. split_fields.
  unfold parse_log_for_system_start, add_log_for_system_start.
  rewrite skip_header_line, sapp_nil_l, !sapp_assoc. cbn [mbind option_bind].
  by erewrite g_regex_first; [|solve_ascii|by apply system_start_first].
Qed.

(** Every printer appends to its string argument. *)
Ltac expose f :=
  match goal with |- context [f ?str ?e] => change (f str e) with (str +:+ f "" e) end.

(** The text of an event, at the end of the string or of a line, parses. *)
Lemma printed_line_parses ev line rest :
  time_ok (timestamp ev) → union_ok (event ev) → line_end rest →
  ck_log_event_to_string ev "" = Some line →
  ck_log_event_new_from_string (line +:+ rest) = Some (Some (read_back ev)).
Proof.
  intros Htime Hok Hrest Hline.
  unfold ck_log_event_new_from_string, ck_log_event_fill_from_string.
  destruct ev as [u ts]. cbn [event timestamp] in *.
  assert (∀ body, parse_log_for_any (add_log_for_any "" {| event := u; timestamp := ts |} +:+ body) =
    Some (type_of u, timestamp (read_back {| event := u; timestamp := ts |}))) as Hany.
  { intros body. apply parse_any_line; [done|]. by destruct u. }
  assert (∀ body, skip_header (add_log_for_any "" {| event := u; timestamp := ts |} +:+ body) =
    Some body) as Hskip by (intros; apply skip_header_line).
  unfold ck_log_event_to_string in Hline. cbn [event] in Hline.
  destruct u as [ | | | |e| | | | |e|e|e|e|e|e|e]; try done; cbn [type_of] in *.
  all: try (injection Hline as <-).
  - expose add_log_for_system_start. rewrite sapp_assoc, Hany. by rewrite (parse_start_line _ e).
  - rewrite Hany. unfold parse_log_for_system_stop.
    by rewrite Hskip.
  - rewrite Hany. unfold parse_log_for_system_restart.
    by rewrite Hskip.
  - unfold add_log_for_seat_added in Hline. destruct e as [[s|] k]; [|done].
    injection Hline as <-. rewrite !sapp_assoc, Hany. by rewrite parse_seat_line.
  - unfold add_log_for_seat_removed in Hline. destruct e as [[s|] k]; [|done].
    injection Hline as <-. rewrite !sapp_assoc, Hany. by rewrite (parse_seat_line _ s k).
  - expose add_log_for_seat_session_added. rewrite sapp_assoc, Hany. by rewrite (parse_session_line _ e).
  - expose add_log_for_seat_session_removed. rewrite sapp_assoc, Hany. by rewrite (parse_session_line _ e).
  - expose add_log_for_seat_device_added. rewrite sapp_assoc, Hany. by rewrite (parse_device_line _ e).
  - expose add_log_for_seat_device_removed. rewrite sapp_assoc, Hany. by rewrite (parse_device_line _ e).
  - expose add_log_for_seat_active_session_changed. rewrite sapp_assoc, Hany. by rewrite (parse_active_line _ e).
Qed.

(** Printing an event to a log line and parsing the line gives the event
    back, up to what [read_back] says is lost: for every event type the parser
    knows whose fields fit the patterns, [ck_log_event_new_from_string] of the
    text of [ck_log_event_to_string] succeeds and returns [read_back ev]. *)
Theorem log_line_roundtrip ev line :
  time_ok (timestamp ev) → union_ok (event ev) →
  ck_log_event_to_string ev "" = Some line →
  ck_log_event_new_from_string line = Some (Some (read_back ev)).
Proof. intros. rewrite <- (sapp_nil_r line). apply printed_line_parses; [done..|by left|done]. Qed.

(** Suspend and hibernate events are written under the name UNKNOWN, so
    the line written for them, whatever its timestamp, does not parse. *)
Theorem suspend_line_unparsable ts :
  ∃ line, ck_log_event_to_string {| event := EvSystemSuspend; timestamp := ts |} "" = Some line ∧
    ck_log_event_to_string {| event := EvSystemHibernate; timestamp := ts |} "" = Some line ∧
    ck_log_event_new_from_string line = Some None.
Proof.
  exists (add_log_for_any "" {| event := EvSystemSuspend; timestamp := ts |}).
  split_and!; [done..|].
  unfold ck_log_event_new_from_string, ck_log_event_fill_from_string.
  by rewrite <- (sapp_nil_r (add_log_for_any _ _)), parse_any_printed.
Qed.

(** ** What a parsed event looks like *)

(** A string of at least [least] characters, all in a class. *)
Definition field_in (cls : ascii → bool) (least : nat) (p : cstr) : bool :=
  match p with Some s => sall cls s && Nat.leb least (String.length s) | None => false end.

#[global] Arguments field_in : simpl never.

Definition parsed_session_ok (e : CkLogSeatSessionEvent cstr) : Prop :=
  field_in cls_id 1 (ss_seat_id e) ∧ field_in cls_id 1 (ss_session_id e) ∧ field_in cls_type 0 (ss_session_type e) ∧
  field_in cls_display 0 (ss_session_x11_display e) ∧ field_in cls_unquoted 0 (ss_session_x11_display_device e) ∧
  field_in cls_unquoted 0 (ss_session_display_device e) ∧ field_in cls_unquoted 0 (ss_session_creation_time e) ∧
  ss_session_remote_host_name e = None ∧ (0 ≤ ss_session_unix_user e < 2 ^ 32)%Z.

Definition parsed_ok (u : CkLogUnion cstr) : Prop :=
  match u with
  | EvSystemStop | EvSystemRestart => True
  | EvSystemStart e => field_in cls_unquoted 0 (kernel_release e) ∧ field_in cls_dot 0 (boot_arguments e)
  | EvSeatAdded e | EvSeatRemoved e => field_in cls_id 1 (se_seat_id e) ∧ se_seat_kind e = 0%Z
  | EvSeatSessionAdded e | EvSeatSessionRemoved e => parsed_session_ok e
  | EvSeatDeviceAdded e | EvSeatDeviceRemoved e =>
      field_in cls_id 1 (sd_seat_id e) ∧ field_in cls_unquoted 1 (sd_device_id e) ∧ field_in cls_unquoted 1 (sd_device_type e)
  | EvSeatActiveSessionChanged e => field_in cls_id 1 (sa_seat_id e) ∧ field_in cls_id 0 (sa_session_id e)
  | _ => False
  end.

Ltac inv_match :=
  repeat match goal with
  | H : re_match _ _ _ |- _ => inversion H; clear H; subst
  end.

Lemma field_in_intro cls least s : sall cls s → least ≤ String.length s → field_in cls least (Some s).
Proof. intros H1 H2. unfold field_in. rewrite andb_True. split; [done|]. by apply Is_true_true, Nat.leb_le. Qed.

Lemma set_ulong_u32 p : (0 ≤ set_ulong u32 p < 2 ^ 32)%Z.
Proof.
  unfold set_ulong. destruct p as [t|]; [|lia].
  destruct (parse_value_as_ulong t); [apply u32_range|lia].
Qed.

Lemma parse_seat_ok str e : parse_log_for_seat_added str = Some e → parsed_ok (EvSeatAdded e).
Proof.
  unfold parse_log_for_seat_added. intros (s & _ & (m & Hm & [= <-])%bind_Some)%bind_Some.
  apply g_regex_sound in Hm as (_ & s' & _ & Hm). unfold seat_re in Hm. inv_match. simpl.
  split; [by apply field_in_intro|done].
Qed.

Lemma parse_session_ok str e :
  parse_log_for_seat_session_added str = Some e → parsed_session_ok e.
Proof.
  unfold parse_log_for_seat_session_added.
  intros (s & _ & (m & Hm & [= <-])%bind_Some)%bind_Some.
  apply g_regex_sound in Hm as (_ & s' & _ & Hm). unfold seat_session_re in Hm. inv_match.
  unfold parsed_session_ok. cbn -[field_in set_ulong Z.pow].
  split_and!; try by apply field_in_intro. all: try done; apply set_ulong_u32.
Qed.

Lemma parse_device_ok str e :
  parse_log_for_seat_device_added str = Some e → parsed_ok (EvSeatDeviceAdded e).
Proof.
  unfold parse_log_for_seat_device_added.
  intros (s & _ & (m & Hm & [= <-])%bind_Some)%bind_Some.
  apply g_regex_sound in Hm as (_ & s' & _ & Hm). unfold seat_device_re in Hm. inv_match.
  cbn -[field_in]. split_and!; by apply field_in_intro.
Qed.

Lemma parse_active_ok str e :
  parse_log_for_seat_active_session_changed str = Some e →
  parsed_ok (EvSeatActiveSessionChanged e).
Proof.
  unfold parse_log_for_seat_active_session_changed.
  intros (s & _ & (m & Hm & [= <-])%bind_Some)%bind_Some.
  apply g_regex_sound in Hm as (_ & s' & _ & Hm).
  unfold seat_active_session_changed_re in Hm. inv_match.
  cbn -[field_in]. split; by apply field_in_intro.
Qed.

Lemma parse_start_ok str e :
  parse_log_for_system_start str = Some e → parsed_ok (EvSystemStart e).
Proof.
  unfold parse_log_for_system_start. intros (s & _ & (m & Hm & [= <-])%bind_Some)%bind_Some.
  apply g_regex_sound in Hm as (_ & s' & _ & Hm). unfold system_start_re in Hm. inv_match; cbn -[field_in];
    (split; (apply field_in_intro; [done|simpl; lia])).
Qed.

(** The parser never gives up, and what it returns is well-formed. *)
Lemma parsed_line_ok line :
  ∃ res, ck_log_event_new_from_string line = Some res ∧
    (∀ ev, res = Some ev → parsed_ok (event ev)).
Proof.
  unfold ck_log_event_new_from_string, ck_log_event_fill_from_string.
  destruct (parse_log_for_any line) as [[type stamp]|] eqn:Hany; [|by eexists].
  assert (nameable type) as Hn.
  { unfold parse_log_for_any in Hany.
    repeat (apply bind_Some in Hany as (? & ?Hstep & Hany); try case_match).
    injection Hany as -> _.
    match goal with H : event_name_to_type _ = Some type |- _ =>
      unfold event_name_to_type in H; by repeat case_match; simplify_eq end. }
  destruct type; try done; eexists; (split; [reflexivity|]);
    intros ev (e & He & ->)%fmap_Some; cbn [event];
    first [ by eapply parse_start_ok | by eapply parse_seat_ok
          | by eapply parse_session_ok | by eapply parse_device_ok
          | by eapply parse_active_ok | done ].
Qed.

(** C40: Parsing is total and safe on every input line: no line reaches
    [g_assert_not_reached], and every event that comes back has one of the ten named
    types and fields in the classes of its pattern.  Seat ids, and session ids of a
    session that comes or goes, are letters, digits and slashes, at least one; the
    session id of a change of the active session may be empty.  Devices, times and the
    kernel's release have no quotes; boot arguments may, but have no line
    break.  The user id fits 32 bits; the seat kind is always 0 and the remote host
    name always NULL, whatever the line says. *)
Theorem parsed_event_ok line :
  ∃ res, ck_log_event_new_from_string line = Some res ∧
    (∀ ev, res = Some ev → parsed_ok (event ev)).
Proof. apply parsed_line_ok. Qed.
End parsing.

(** ** Concrete lines *)

Definition sample_session : CkLogSeatSessionEvent cstr :=
  {| ss_seat_id := Some "Seat1"; ss_session_id := Some "Session2";
     ss_session_type := Some "x11"; ss_session_x11_display := Some ":0";
     ss_session_x11_display_device := Some "/dev/tty7"; ss_session_display_device := None;
     ss_session_remote_host_name := Some "example.org"; ss_session_is_local := true;
     ss_session_unix_user := 1000; ss_session_creation_time := Some "2015-01-01T00:00:00Z" |}.

Definition sample_event : CkLogEvent cstr :=
  {| event := EvSeatSessionAdded sample_session;
     timestamp := {| tv_sec := 1420070400; tv_usec := 123456 |} |}.

Lemma log_line_roundtrip_witness :
  ∃ line, ck_log_event_to_string sample_event "" = Some line ∧
    ck_log_event_new_from_string line = Some (Some (read_back sample_event)) ∧
    tv_usec (timestamp (read_back sample_event)) = 123000%Z.
Proof.
  eexists. split; [reflexivity|]. split; [|reflexivity].
  apply (log_line_roundtrip sample_event); [exact I|exact I|reflexivity].
Defined.

Lemma suspend_line_unparsable_witness :
  ∃ line, ck_log_event_to_string
      {| event := EvSystemSuspend; timestamp := {| tv_sec := 7; tv_usec := 8000 |} |} ""
      = Some line ∧ ck_log_event_new_from_string line = Some None.
Proof.
  destruct (suspend_line_unparsable {| tv_sec := 7; tv_usec := 8000 |}) as (l & H1 & _ & H2).
  exists l. split; [exact H1|exact H2].
Defined.

Lemma parsed_event_ok_witness :
  ∃ res, ck_log_event_new_from_string
      "1420070400.123 type=SEAT_ADDED : seat-id='Seat1' seat-kind=1" = Some res ∧
    (∀ ev, res = Some ev → parsed_ok (event ev)).
Proof. exact (parsed_event_ok "1420070400.123 type=SEAT_ADDED : seat-id='Seat1' seat-kind=1"). Defined.

Example seat_kind_lost :
  ck_log_event_new_from_string "1420070400.123 type=SEAT_ADDED : seat-id='Seat1' seat-kind=1" =
  Some (Some {| event := EvSeatAdded {| se_seat_id := Some "Seat1"; se_seat_kind := 0 |};
                timestamp := {| tv_sec := 1420070400; tv_usec := 123000 |} |}).
Proof. vm_compute. reflexivity. Qed.
