(* ===== verification/Inhibit.v ===== *)
(** * Inhibit locks: [src/ck-inhibit.c] and [src/ck-inhibit-manager.c].

    An inhibit lock is a named pipe: the daemon keeps the read end, the client
    the write end, and closing the write end releases the lock.  A [CkInhibit]
    signals each event it starts or stops inhibiting; the manager's handler
    [cb_changed_event] counts the locks per event and mode, and calls back into
    the lock that is being released.  The state of both is one [world], because
    the two files call each other through signals while a call is running. *)

From S2P Require Import Prelude.
From stdpp Require Import finite.

(** ** ck-inhibit.h *)

Inductive CkInhibitEvent :=
| CK_INHIBIT_EVENT_SHUTDOWN
| CK_INHIBIT_EVENT_SUSPEND
| CK_INHIBIT_EVENT_IDLE
| CK_INHIBIT_EVENT_POWER_KEY
| CK_INHIBIT_EVENT_SUSPEND_KEY
| CK_INHIBIT_EVENT_HIBERNATE_KEY
| CK_INHIBIT_EVENT_LID_SWITCH
| CK_INHIBIT_EVENT_LAST.

Inductive CkInhibitMode :=
| CK_INHIBIT_MODE_INVALID
| CK_INHIBIT_MODE_BLOCK
| CK_INHIBIT_MODE_DELAY
| CK_INHIBIT_MODE_LAST.

#[export] Instance CkInhibitEvent_eq_dec : EqDecision CkInhibitEvent.
Proof. solve_decision. Defined.
#[export] Instance CkInhibitMode_eq_dec : EqDecision CkInhibitMode.
Proof. solve_decision. Defined.

Definition CK_INHIBIT_ERROR_GENERAL : Z := -10.
Definition CK_INHIBIT_ERROR_INVALID_INPUT : Z := -20.
Definition CK_INHIBIT_ERROR_OOM : Z := -30.

(** The events in the order every block of ck-inhibit.c tests them. *)
Definition inhibit_events : list CkInhibitEvent :=
  [CK_INHIBIT_EVENT_SHUTDOWN; CK_INHIBIT_EVENT_SUSPEND; CK_INHIBIT_EVENT_IDLE;
   CK_INHIBIT_EVENT_POWER_KEY; CK_INHIBIT_EVENT_SUSPEND_KEY;
   CK_INHIBIT_EVENT_HIBERNATE_KEY; CK_INHIBIT_EVENT_LID_SWITCH].

(** ** The objects *)

(** [CkInhibitPrivate]. *)
Record CkInhibit := {
  who : cstr;
  inhibitors : CkInhibitEvent → bool;
  why : cstr;
  mode : CkInhibitMode;
  uid : Z;
  pid : Z;
  named_pipe : Z;
  named_pipe_path : cstr;
  fd_source : Z
}.

(** [ck_inhibit_new]: zeroed memory, then [ck_inhibit_init]. *)
Definition ck_inhibit_init : CkInhibit :=
  {| who := None; inhibitors := λ _, false; why := None;
     mode := CK_INHIBIT_MODE_INVALID; uid := 0; pid := 0;
     named_pipe := -1; named_pipe_path := None; fd_source := 0 |}.

Definition set_inhibitor (e : CkInhibitEvent) (b : bool) (i : CkInhibit) : CkInhibit :=
  {| who := who i; inhibitors := λ e', if decide (e' = e) then b else inhibitors i e';
     why := why i; mode := mode i; uid := uid i; pid := pid i;
     named_pipe := named_pipe i; named_pipe_path := named_pipe_path i;
     fd_source := fd_source i |}.
Definition set_mode (m : CkInhibitMode) (i : CkInhibit) : CkInhibit :=
  {| who := who i; inhibitors := inhibitors i; why := why i; mode := m;
     uid := uid i; pid := pid i; named_pipe := named_pipe i;
     named_pipe_path := named_pipe_path i; fd_source := fd_source i |}.
Definition set_pipe (fd : Z) (path : cstr) (src : Z) (i : CkInhibit) : CkInhibit :=
  {| who := who i; inhibitors := inhibitors i; why := why i; mode := mode i;
     uid := uid i; pid := pid i; named_pipe := fd; named_pipe_path := path;
     fd_source := src |}.

(** [priv->inhibitors[mode][event]] of the manager. *)
Definition table : Type := CkInhibitMode → CkInhibitEvent → Z.
Definition table_add (m : CkInhibitMode) (e : CkInhibitEvent) (d : Z) (t : table) : table :=
  λ m' e', if decide (m' = m ∧ e' = e) then (t m' e' + d)%Z else t m' e'.

(** The live [CkInhibit] objects, the manager's private data
    ([inhibit_list], [inhibitors]), the objects whose "changed-event" is
    connected to the manager, the "changed-event" signals the manager emitted,
    the pipe files, and the locks whose client holds the write end. *)
Record world := {
  objects : gmap positive CkInhibit;
  inhibit_list : list positive;
  counters : table;
  connected : gset positive;
  emitted : list (CkInhibitMode * CkInhibitEvent * bool);
  files : gset string;
  clients : gset positive
}.

Definition set_object (i : positive) (o : CkInhibit) (w : world) : world :=
  {| objects := <[i := o]> (objects w); inhibit_list := inhibit_list w;
     counters := counters w; connected := connected w; emitted := emitted w;
     files := files w; clients := clients w |}.
Definition set_counters (t : table) (w : world) : world :=
  {| objects := objects w; inhibit_list := inhibit_list w; counters := t;
     connected := connected w; emitted := emitted w; files := files w;
     clients := clients w |}.
Definition set_list (l : list positive) (c : gset positive) (w : world) : world :=
  {| objects := objects w; inhibit_list := l; counters := counters w;
     connected := c; emitted := emitted w; files := files w; clients := clients w |}.
Definition emit_manager (m : CkInhibitMode) (e : CkInhibitEvent) (b : bool) (w : world) : world :=
  {| objects := objects w; inhibit_list := inhibit_list w; counters := counters w;
     connected := connected w; emitted := emitted w ++ [(m, e, b)]; files := files w;
     clients := clients w |}.
Definition set_files (f : gset string) (w : world) : world :=
  {| objects := objects w; inhibit_list := inhibit_list w; counters := counters w;
     connected := connected w; emitted := emitted w; files := f; clients := clients w |}.
Definition set_clients (c : gset positive) (w : world) : world :=
  {| objects := objects w; inhibit_list := inhibit_list w; counters := counters w;
     connected := connected w; emitted := emitted w; files := files w; clients := c |}.

(** The private data behind a [CkInhibit *]; a dangling one is a fault. *)
Definition get_object (w : world) (i : positive) : outcome CkInhibit :=
  match objects w !! i with Some o => Done o | None => Fault UseAfterFree end.

(** ** Parsing a lock request *)

(** [g_strsplit (s, ":", 0)]: the empty string splits into no token. *)
Fixpoint split_colon (s : string) : list string :=
  match s with
  | EmptyString => [""]
  | String c s =>
      match split_colon s with
      | [] => []
      | t :: ts => if ascii_eqb c ":"%char then "" :: t :: ts else String c t :: ts
      end
  end.
Definition g_strsplit (s : string) : list string :=
  if String.eqb s "" then [] else split_colon s.

Definition token_event (t : string) : option CkInhibitEvent :=
  if String.eqb t "shutdown" then Some CK_INHIBIT_EVENT_SHUTDOWN
  else if String.eqb t "sleep" then Some CK_INHIBIT_EVENT_SUSPEND
  else if String.eqb t "idle" then Some CK_INHIBIT_EVENT_IDLE
  else if String.eqb t "handle-power-key" then Some CK_INHIBIT_EVENT_POWER_KEY
  else if String.eqb t "handle-suspend-key" then Some CK_INHIBIT_EVENT_SUSPEND_KEY
  else if String.eqb t "handle-hibernate-key" then Some CK_INHIBIT_EVENT_HIBERNATE_KEY
  else if String.eqb t "handle-lid-switch" then Some CK_INHIBIT_EVENT_LID_SWITCH
  else None.

(** The token loop: it stops at the first empty token. *)
Fixpoint parse_tokens (i : CkInhibit) (inhibit_set : bool) (tokens : list string) :
    CkInhibit * bool :=
  match tokens with
  | [] => (i, inhibit_set)
  | t :: ts =>
      if String.eqb "" t then (i, inhibit_set)
      else match token_event t with
           | Some e => parse_tokens (set_inhibitor e true i) true ts
           | None => parse_tokens i inhibit_set ts
           end
  end.

Definition parse_inhibitors_string (i : CkInhibit) (what : string) : CkInhibit * bool :=
  parse_tokens i false (g_strsplit what).

Definition parse_mode_string (i : CkInhibit) (m : string) : CkInhibit * bool :=
  if String.eqb m "block" then (set_mode CK_INHIBIT_MODE_BLOCK i, true)
  else if String.eqb m "delay" then (set_mode CK_INHIBIT_MODE_DELAY i, true)
  else (i, false).

(** ** Describing a lock *)

Definition add_item_to_string (str what : cstr) : cstr :=
  match what, str with
  | None, _ => str
  | Some w, None => Some w
  | Some w, Some s => Some (s +:+ ":" +:+ w)
  end.

Definition check_event_and_add_to_string (i : CkInhibit) (e : CkInhibitEvent)
    (what : string) (str : cstr) : cstr :=
  if inhibitors i e then add_item_to_string str (Some what) else str.

Definition ck_inhibit_get_what (i : CkInhibit) : cstr :=
  let s := check_event_and_add_to_string i CK_INHIBIT_EVENT_SHUTDOWN "shutdown" None in
  let s := check_event_and_add_to_string i CK_INHIBIT_EVENT_SUSPEND "suspend" s in
  let s := check_event_and_add_to_string i CK_INHIBIT_EVENT_IDLE "idle" s in
  let s := check_event_and_add_to_string i CK_INHIBIT_EVENT_POWER_KEY "handle-power-key" s in
  let s := check_event_and_add_to_string i CK_INHIBIT_EVENT_SUSPEND_KEY "handle-suspend-key" s in
  let s := check_event_and_add_to_string i CK_INHIBIT_EVENT_HIBERNATE_KEY "handle-hibernate-key" s in
  check_event_and_add_to_string i CK_INHIBIT_EVENT_LID_SWITCH "handle-lid-switch" s.

Definition ck_inhibit_get_mode (i : CkInhibit) : cstr :=
  if decide (mode i = CK_INHIBIT_MODE_BLOCK) then Some "block"
  else if decide (mode i = CK_INHIBIT_MODE_DELAY) then Some "delay"
  else None.

Definition ck_inhibit_get_named_pipe_path (i : CkInhibit) : cstr := named_pipe_path i.

Definition ck_inhibit_get_who (i : CkInhibit) : cstr := who i.
Definition ck_inhibit_get_why (i : CkInhibit) : cstr := why i.
Definition ck_inhibit_get_uid (i : CkInhibit) : Z := uid i.
Definition ck_inhibit_get_pid (i : CkInhibit) : Z := pid i.
Definition ck_inhibit_get_inhibit_mode (i : CkInhibit) : CkInhibitMode := mode i.
Definition ck_inhibit_is_shutdown_inhibited (i : CkInhibit) : bool := inhibitors i CK_INHIBIT_EVENT_SHUTDOWN.
Definition ck_inhibit_is_suspend_inhibited (i : CkInhibit) : bool := inhibitors i CK_INHIBIT_EVENT_SUSPEND.
Definition ck_inhibit_is_idle_inhibited (i : CkInhibit) : bool := inhibitors i CK_INHIBIT_EVENT_IDLE.
Definition ck_inhibit_is_power_key_inhibited (i : CkInhibit) : bool := inhibitors i CK_INHIBIT_EVENT_POWER_KEY.
Definition ck_inhibit_is_suspend_key_inhibited (i : CkInhibit) : bool := inhibitors i CK_INHIBIT_EVENT_SUSPEND_KEY.
Definition ck_inhibit_is_hibernate_key_inhibited (i : CkInhibit) : bool := inhibitors i CK_INHIBIT_EVENT_HIBERNATE_KEY.
Definition ck_inhibit_is_lid_switch_inhibited (i : CkInhibit) : bool := inhibitors i CK_INHIBIT_EVENT_LID_SWITCH.

(** ** The two halves of the signal loop

    [ck_inhibit_manager_remove_lock] closes the pipe of the lock it finds, and
    closing a pipe emits signals that the manager answers by calling
    [ck_inhibit_manager_remove_lock].  The definitions take the function that
    closes a pipe as an argument; [close_named_pipe] below ties the knot. *)

Section knot.
(** Whether [g_unlink] removes the file of a path; a failure is only logged, and so is
    one of [g_close]. *)
Variable unlinks : string → bool.
Variable close_pipe : positive → world → outcome world.

(** First element of the list whose pipe path is [path]. *)
Fixpoint find_lock (w : world) (path : cstr) (l : list positive) : outcome (option positive) :=
  match l with
  | [] => Done None
  | i :: l =>
      o ← get_object w i;
      if decide (ck_inhibit_get_named_pipe_path o = path) then Done (Some i)
      else find_lock w path l
  end.

(** [g_list_remove]: the first occurrence. *)
Fixpoint g_list_remove (i : positive) (l : list positive) : list positive :=
  match l with
  | [] => []
  | j :: l => if decide (j = i) then l else j :: g_list_remove i l
  end.

(** After [ck_inhibit_remove_lock (l->data)] the code reads [l->data] again:
    if the signals sent by the first call removed the element from the list,
    the node [l] has been freed. *)
Definition ck_inhibit_manager_remove_lock (path : cstr) (w : world) : outcome (bool * world) :=
  found ← find_lock w path (inhibit_list w);
  match found with
  | None => Done (false, w)
  | Some i =>
      w ← close_pipe i w;
      if decide (i ∈ inhibit_list w)
      then Done (true, set_list (g_list_remove i (inhibit_list w)) (connected w ∖ {[i]}) w)
      else Fault UseAfterFree
  end.

Definition cb_changed_event (i : positive) (m : CkInhibitMode) (e : CkInhibitEvent)
    (enabled : bool) (w : world) : outcome world :=
  if decide (e = CK_INHIBIT_EVENT_LAST) then Done w
  else if enabled then
    let w := set_counters (table_add m e 1 (counters w)) w in
    Done (if Z.eqb (counters w m e) 1 then emit_manager m e true w else w)
  else
    let w := set_counters (table_add m e (-1) (counters w)) w in
    let w := if Z.eqb (counters w m e) 0 then emit_manager m e false w else w in
    o ← get_object w i;
    '(_, w) ← ck_inhibit_manager_remove_lock (ck_inhibit_get_named_pipe_path o) w;
    Done w.

(** [g_signal_emit]: runs the manager's handler if it is connected. *)
Definition emit_changed_event (i : positive) (m : CkInhibitMode) (e : CkInhibitEvent)
    (enabled : bool) (w : world) : outcome world :=
  if decide (i ∈ connected w) then cb_changed_event i m e enabled w else Done w.

Definition initial_signal (i : positive) (e : CkInhibitEvent) (w : world) : outcome world :=
  o ← get_object w i;
  if inhibitors o e then emit_changed_event i (mode o) e true w else Done w.

Definition final_signal (i : positive) (e : CkInhibitEvent) (w : world) : outcome world :=
  o ← get_object w i;
  if inhibitors o e
  then emit_changed_event i (mode o) e false (set_object i (set_inhibitor e false o) w)
  else Done w.

Fixpoint signal_each (step : CkInhibitEvent → world → outcome world)
    (es : list CkInhibitEvent) (w : world) : outcome world :=
  match es with
  | [] => Done w
  | e :: es => w ← step e w; signal_each step es w
  end.

Definition emit_initial_inhibit_signals (i : positive) (w : world) : outcome world :=
  signal_each (initial_signal i) inhibit_events w.

Definition emit_final_uninhibit_signals (i : positive) (w : world) : outcome world :=
  signal_each (final_signal i) inhibit_events w.

(** The body of [close_named_pipe]: the read end is closed, the file unlinked (if
    that works), the watch removed, and the final signals sent. *)
Definition close_named_pipe_body (i : positive) (w : world) : outcome world :=
  o ← get_object w i;
  if Z.eqb (named_pipe o) (-1) then Done w
  else
    let w := match named_pipe_path o with
             | Some p => if unlinks p then set_files (files w ∖ {[p]}) w else w
             | None => w
             end in
    emit_final_uninhibit_signals i (set_object i (set_pipe (-1) None 0 o) w).
End knot.

(** [n] bounds the depth of the calls of [close_named_pipe] inside itself. *)
Fixpoint close_named_pipe (unlinks : string → bool) (n : nat) (i : positive) (w : world) : outcome world :=
  match n with
  | 0 => Fault OutOfFuel
  | S n => close_named_pipe_body unlinks (close_named_pipe unlinks n) i w
  end.

Definition ck_inhibit_remove_lock := close_named_pipe.

(** The glib watch on the read end: hang-up. *)
Definition cb_named_pipe_close (unlinks : string → bool) (n : nat) (i : positive) (w : world) : outcome world :=
  o ← get_object w i;
  close_named_pipe unlinks n i (set_object i (set_pipe (named_pipe o) (named_pipe_path o) 0 o) w).

(** ** Creating a lock *)

(** What the operating system answers to one request. *)
Record syscalls := {
  sys_mkdir_ok : bool;
  sys_mkstemp : option string;
  sys_close_ok : bool;
  sys_unlink_ok : bool;
  sys_mknod_ok : bool;
  sys_open_read : Z;
  sys_add_watch : Z;
  sys_open_write : Z
}.

Definition create_inhibit_base_directory (sys : syscalls) : bool := sys_mkdir_ok sys.

(** The path (NULL on failure); [g_mkstemp] creates the file. *)
Definition get_named_pipe_path (sys : syscalls) (w : world) : cstr * world :=
  match sys_mkstemp sys with
  | None => (None, w)
  | Some p =>
      let w := set_files ({[p]} ∪ files w) w in
      if sys_close_ok sys then (Some p, w) else (None, w)
  end.

Definition create_named_pipe (sys : syscalls) (i : positive) (w : world) : outcome (Z * world) :=
  o ← get_object w i;
  if negb (Z.eqb (named_pipe o) (-1)) then Done ((-1)%Z, w)
  else match named_pipe_path o with
  | None => Done ((-1)%Z, w)
  | Some p =>
      if negb (sys_unlink_ok sys) then Done ((-1)%Z, w)
      else
        let w := set_files (files w ∖ {[p]}) w in
        if negb (sys_mknod_ok sys) then Done ((-1)%Z, w)
        else
          let w := set_files ({[p]} ∪ files w) w in
          let fd := sys_open_read sys in
          if Z.ltb fd 0
          then Done ((-1)%Z, set_object i (set_pipe fd (Some p) (fd_source o) o) w)
          else
            let w := set_object i (set_pipe fd (Some p) (sys_add_watch sys) o) w in
            Done (sys_open_write sys,
                  if Z.eqb (sys_open_write sys) (-1) then w
                  else set_clients ({[i]} ∪ clients w) w)
  end.

Definition fill_request (who_ why_ : cstr) (uid_ pid_ : Z) (path : cstr) (i : CkInhibit) : CkInhibit :=
  {| who := who_; inhibitors := inhibitors i; why := why_; mode := mode i;
     uid := uid_; pid := pid_; named_pipe := named_pipe i; named_pipe_path := path;
     fd_source := fd_source i |}.

(** Initial signals never remove a lock, so no fuel is needed for them. *)
Definition no_close (i : positive) (w : world) : outcome world := Fault OutOfFuel.

Definition ck_inhibit_create_lock (sys : syscalls) (i : positive)
    (who_ what_ why_ mode_ : cstr) (uid_ pid_ : Z) (w : world) : outcome (Z * world) :=
  match who_, what_, why_, mode_ with
  | Some _, Some what, Some _, Some m =>
      if negb (create_inhibit_base_directory sys) then Done (CK_INHIBIT_ERROR_GENERAL, w)
      else
        o ← get_object w i;
        let '(path, w) := get_named_pipe_path sys w in
        let o := fill_request who_ why_ uid_ pid_ path o in
        let '(o, any) := parse_inhibitors_string o what in
        let w := set_object i o w in
        if negb any then Done (CK_INHIBIT_ERROR_INVALID_INPUT, w)
        else
          let '(o, known) := parse_mode_string o m in
          let w := set_object i o w in
          if negb known then Done (CK_INHIBIT_ERROR_INVALID_INPUT, w)
          else match named_pipe_path o with
          | None => Done (CK_INHIBIT_ERROR_OOM, w)
          | Some _ =>
              '(pipe, w) ← create_named_pipe sys i w;
              if Z.eqb pipe (-1) then Done (CK_INHIBIT_ERROR_GENERAL, w)
              else
                w ← emit_initial_inhibit_signals no_close i w;
                Done (pipe, w)
          end
  | _, _, _, _ => Done (CK_INHIBIT_ERROR_INVALID_INPUT, w)
  end.

(** ** The manager's operations *)

(** [g_error] aborts the process. *)
Definition ck_inhibit_manager_create_lock (sys : syscalls)
    (who_ what_ why_ mode_ : cstr) (uid_ pid_ : Z) (w : world) : outcome (Z * world) :=
  let i := fresh (dom (objects w)) in
  let w := set_object i ck_inhibit_init w in
  let w := set_list (inhibit_list w) ({[i]} ∪ connected w) w in
  '(fd, w) ← ck_inhibit_create_lock sys i who_ what_ why_ mode_ uid_ pid_ w;
  if Z.eqb fd (-1) then Fault Aborted
  else Done (fd, set_list (inhibit_list w ++ [i]) (connected w) w).

Definition get_inhibit_status (w : world) (e : CkInhibitEvent) (m : CkInhibitMode) : bool :=
  Z.ltb 0 (counters w m e).

Definition ck_inhibit_manager_is_shutdown_delayed (w : world) : bool :=
  get_inhibit_status w CK_INHIBIT_EVENT_SHUTDOWN CK_INHIBIT_MODE_DELAY.
Definition ck_inhibit_manager_is_shutdown_blocked (w : world) : bool :=
  get_inhibit_status w CK_INHIBIT_EVENT_SHUTDOWN CK_INHIBIT_MODE_BLOCK.
Definition ck_inhibit_manager_is_suspend_delayed (w : world) : bool :=
  get_inhibit_status w CK_INHIBIT_EVENT_SUSPEND CK_INHIBIT_MODE_DELAY.
Definition ck_inhibit_manager_is_suspend_blocked (w : world) : bool :=
  get_inhibit_status w CK_INHIBIT_EVENT_SUSPEND CK_INHIBIT_MODE_BLOCK.
Definition ck_inhibit_manager_is_idle_delayed (w : world) : bool :=
  get_inhibit_status w CK_INHIBIT_EVENT_IDLE CK_INHIBIT_MODE_DELAY.
Definition ck_inhibit_manager_is_idle_blocked (w : world) : bool :=
  get_inhibit_status w CK_INHIBIT_EVENT_IDLE CK_INHIBIT_MODE_BLOCK.

Definition ck_inhibit_manager_is_power_key_delayed (w : world) : bool :=
  get_inhibit_status w CK_INHIBIT_EVENT_POWER_KEY CK_INHIBIT_MODE_DELAY.
Definition ck_inhibit_manager_is_power_key_blocked (w : world) : bool :=
  get_inhibit_status w CK_INHIBIT_EVENT_POWER_KEY CK_INHIBIT_MODE_BLOCK.
Definition ck_inhibit_manager_is_suspend_key_delayed (w : world) : bool :=
  get_inhibit_status w CK_INHIBIT_EVENT_SUSPEND_KEY CK_INHIBIT_MODE_DELAY.
Definition ck_inhibit_manager_is_suspend_key_blocked (w : world) : bool :=
  get_inhibit_status w CK_INHIBIT_EVENT_SUSPEND_KEY CK_INHIBIT_MODE_BLOCK.
Definition ck_inhibit_manager_is_hibernate_key_delayed (w : world) : bool :=
  get_inhibit_status w CK_INHIBIT_EVENT_HIBERNATE_KEY CK_INHIBIT_MODE_DELAY.
Definition ck_inhibit_manager_is_hibernate_key_blocked (w : world) : bool :=
  get_inhibit_status w CK_INHIBIT_EVENT_HIBERNATE_KEY CK_INHIBIT_MODE_BLOCK.
Definition ck_inhibit_manager_is_lid_switch_delayed (w : world) : bool :=
  get_inhibit_status w CK_INHIBIT_EVENT_LID_SWITCH CK_INHIBIT_MODE_DELAY.
Definition ck_inhibit_manager_is_lid_switch_blocked (w : world) : bool :=
  get_inhibit_status w CK_INHIBIT_EVENT_LID_SWITCH CK_INHIBIT_MODE_BLOCK.

Definition ck_inhibit_manager_get_inhibit_list (w : world) : list positive := inhibit_list w.

(** ** The daemon's runs

    Locks are requested through the manager, and a client that closes its
    write end triggers the watch. *)

Definition initial_world : world :=
  {| objects := ∅; inhibit_list := []; counters := λ _ _, 0%Z; connected := ∅;
     emitted := []; files := ∅; clients := ∅ |}.

(** [open] returns a descriptor or -1. *)
Definition sys_sane (sys : syscalls) : Prop :=
  (-1 ≤ sys_open_read sys)%Z ∧ (-1 ≤ sys_open_write sys)%Z.

(** The depth of pipe closings inside pipe closings that the runs need. *)
Definition close_fuel : nat := 2.

Inductive inhibit_step : world → world → Prop :=
| step_create sys who_ what_ why_ mode_ uid_ pid_ w w' fd :
    sys_sane sys →
    ck_inhibit_manager_create_lock sys who_ what_ why_ mode_ uid_ pid_ w = Done (fd, w') →
    inhibit_step w w'
| step_hangup unlinks i w w' :
    i ∈ clients w →
    cb_named_pipe_close unlinks close_fuel i (set_clients (clients w ∖ {[i]}) w) = Done w' →
    inhibit_step w w'.

Inductive reachable : world → Prop :=
| reach_init : reachable initial_world
| reach_step w w' : reachable w → inhibit_step w w' → reachable w'.
