(* ===== verification/InhibitFacts.v ===== *)
(** * Inhibit locks: theorems about [Inhibit].

    Requests are parsed and described faithfully (up to the name of the suspend
    event); an event held by a live lock is always reported as inhibited;
    releasing a lock through its pipe terminates without memory errors; and the
    exact effect of a release, which un-counts only the first event held. *)

From S2P Require Import Prelude Inhibit.
From stdpp Require Import finite fin_sets.

(** ** Parsing and describing *)

Fixpoint take_tokens (ts : list string) : list string :=
  match ts with
  | [] => []
  | t :: ts => if String.eqb "" t then [] else t :: take_tokens ts
  end.

(** The events a [what] string names before its first empty token. *)
Definition requested (what : string) : list CkInhibitEvent :=
  omap token_event (take_tokens (g_strsplit what)).

Lemma parse_tokens_spec i b ts :
  let es := omap token_event (take_tokens ts) in
  (∀ e, inhibitors (parse_tokens i b ts).1 e = inhibitors i e || bool_decide (e ∈ es)) ∧
  (parse_tokens i b ts).2 = b || negb (bool_decide (es = [])) ∧
  mode (parse_tokens i b ts).1 = mode i ∧
  named_pipe (parse_tokens i b ts).1 = named_pipe i ∧
  named_pipe_path (parse_tokens i b ts).1 = named_pipe_path i.
Proof.
  revert i b. induction ts as [|t ts IH]; intros i b; simpl.
  - split_and!; try done; [intros e; by rewrite orb_false_r|by rewrite orb_false_r].
  - destruct t as [|c t]; simpl.
    + split_and!; try done; [intros e; by rewrite orb_false_r|by rewrite orb_false_r].
    + destruct (token_event (String c t)) as [e0|] eqn:E; [|apply IH].
      destruct (IH (set_inhibitor e0 true i) true) as (H1 & H2 & H3 & H4 & H5).
      rewrite H2, H3, H4, H5. split_and!; try done.
      * intros e. rewrite H1. simpl. destruct (decide (e = e0)) as [->|Hne].
        -- rewrite (bool_decide_eq_true_2 (e0 ∈ e0 :: _)) by (apply elem_of_cons; by left).
           by rewrite orb_true_r.
        -- f_equal. apply bool_decide_ext. rewrite elem_of_cons. tauto.
      * simpl. by rewrite orb_true_r.
Qed.

(** Parsing the [what] of a lock request marks exactly the events that its
    tokens name before the first empty token, keeps the marks already there,
    and reports success exactly when at least one token was recognised. *)
Theorem parse_inhibitors_spec i what :
  (∀ e, inhibitors (parse_inhibitors_string i what).1 e =
        inhibitors i e || bool_decide (e ∈ requested what)) ∧
  ((parse_inhibitors_string i what).2 = true ↔ requested what ≠ []).
Proof.
  destruct (parse_tokens_spec i false (g_strsplit what)) as (H1 & H2 & _).
  split; [exact H1|]. unfold parse_inhibitors_string. rewrite H2. simpl.
  rewrite negb_true_iff, bool_decide_eq_false. done.
Qed.

(** What [ck_inhibit_get_what] says of a lock (the text ListInhibitors
    reports) parses back to the same set of events, except that suspend, which
    it calls "suspend" and the parser calls "sleep", is lost. *)
Theorem what_parses_back o s :
  ck_inhibit_get_what o = Some s →
  ∀ e, inhibitors (parse_inhibitors_string ck_inhibit_init s).1 e =
       inhibitors o e && bool_decide (e ≠ CK_INHIBIT_EVENT_SUSPEND)
                      && bool_decide (e ≠ CK_INHIBIT_EVENT_LAST).
Proof.
  unfold ck_inhibit_get_what, check_event_and_add_to_string.
  destruct (inhibitors o CK_INHIBIT_EVENT_SHUTDOWN) eqn:E1,
    (inhibitors o CK_INHIBIT_EVENT_SUSPEND) eqn:E2,
    (inhibitors o CK_INHIBIT_EVENT_IDLE) eqn:E3,
    (inhibitors o CK_INHIBIT_EVENT_POWER_KEY) eqn:E4,
    (inhibitors o CK_INHIBIT_EVENT_SUSPEND_KEY) eqn:E5,
    (inhibitors o CK_INHIBIT_EVENT_HIBERNATE_KEY) eqn:E6,
    (inhibitors o CK_INHIBIT_EVENT_LID_SWITCH) eqn:E7;
    intros [= <-] e; destruct e; rewrite ?E1, ?E2, ?E3, ?E4, ?E5, ?E6, ?E7;
    rewrite ?andb_false_r; vm_compute; reflexivity.
Qed.

Lemma what_parses_back_witness :
  ck_inhibit_get_what (set_inhibitor CK_INHIBIT_EVENT_IDLE true
    (set_inhibitor CK_INHIBIT_EVENT_SUSPEND true ck_inhibit_init)) = Some "suspend:idle" ∧
  inhibitors (parse_inhibitors_string ck_inhibit_init "suspend:idle").1
    CK_INHIBIT_EVENT_SUSPEND = false.
Proof.
  split; [reflexivity|].
  rewrite (what_parses_back (set_inhibitor CK_INHIBIT_EVENT_IDLE true
    (set_inhibitor CK_INHIBIT_EVENT_SUSPEND true ck_inhibit_init)) "suspend:idle");
    reflexivity.
Defined.

(** ** Live locks and the counters *)

Definition holds_b (w : world) (m : CkInhibitMode) (e : CkInhibitEvent) (i : positive) : bool :=
  match objects w !! i with
  | Some o => inhibitors o e && bool_decide (mode o = m)
  | None => false
  end.

(** How many live locks (write end held by a client) hold event [e] in mode [m]. *)
Definition holders (w : world) (m : CkInhibitMode) (e : CkInhibitEvent) : Z :=
  Z.of_nat (size (filter (λ i, holds_b w m e i = true) (clients w))).

Lemma holders_ext w w' m e :
  clients w' = clients w →
  (∀ i, i ∈ clients w → objects w' !! i = objects w !! i) →
  holders w' m e = holders w m e.
Proof.
  intros Hc Ho. unfold holders. rewrite Hc. do 2 f_equal. apply set_eq. intros i.
  rewrite !elem_of_filter. unfold holds_b. split; intros [H1 H2]; split; try done;
    [rewrite <- Ho|rewrite Ho]; done.
Qed.

Lemma holders_add w w' i m e o :
  clients w' = {[i]} ∪ clients w → i ∉ clients w →
  (∀ j, j ∈ clients w → objects w' !! j = objects w !! j) →
  objects w' !! i = Some o →
  holders w' m e = (holders w m e + (if inhibitors o e && bool_decide (mode o = m) then 1 else 0))%Z.
Proof.
  intros Hc Hi Ho Hio.
  assert (holders w' m e = Z.of_nat (size (filter (λ j, holds_b w' m e j = true) ({[i]} : gset positive))) +
     Z.of_nat (size (filter (λ j, holds_b w' m e j = true) (clients w))))%Z as ->.
  { unfold holders. rewrite Hc, filter_union_L by apply _.
    rewrite size_union by (apply disjoint_filter; by apply disjoint_singleton_l).
    lia. }
  rewrite (Z.add_comm (holders _ _ _)). f_equal.
  - assert (holds_b w' m e i = (inhibitors o e && bool_decide (mode o = m))) as Hb
      by (unfold holds_b; by rewrite Hio).
    rewrite <- Hb, (filter_singleton_L (C := gset positive)) by apply _.
    destruct (holds_b w' m e i); [|done].
    rewrite decide_True by done. exact (f_equal Z.of_nat (size_singleton (C := gset positive) i)).
  - unfold holders. do 2 f_equal. apply set_eq. intros j.
    rewrite !elem_of_filter. unfold holds_b. split; intros [H1 H2]; split; try done;
      [rewrite <- Ho|rewrite Ho]; done.
Qed.

Lemma holders_remove w w' i m e o :
  clients w' = clients w ∖ {[i]} → i ∈ clients w → objects w' = objects w →
  objects w !! i = Some o →
  holders w m e = (holders w' m e + (if inhibitors o e && bool_decide (mode o = m) then 1 else 0))%Z.
Proof.
  intros Hc Hi Ho Hio. apply (holders_add w' w i); rewrite ?Hc, ?Ho; [|set_solver|done|done].
  apply set_eq. intros j. destruct (decide (j = i)) as [->|]; set_solver.
Qed.

Lemma holders_pos w m e i o :
  i ∈ clients w → objects w !! i = Some o → inhibitors o e = true → mode o = m →
  (0 < holders w m e)%Z.
Proof.
  intros Hi Ho He Hm. unfold holders.
  assert (i ∈ filter (λ i, holds_b w m e i = true) (clients w)) as Hin.
  { apply elem_of_filter. split; [|done]. unfold holds_b. rewrite Ho, He. simpl.
    by apply bool_decide_eq_true_2. }
  assert (size (filter (λ i, holds_b w m e i = true) (clients w)) ≠ 0) as Hne; [|lia].
  intros Hz. apply size_empty_inv in Hz. apply (Hz i) in Hin. by apply not_elem_of_empty in Hin.
Qed.

(** ** The invariant *)

Definition held (o : CkInhibit) (m : CkInhibitMode) (e : CkInhibitEvent) : bool :=
  inhibitors o e && bool_decide (mode o = m).

Record wf (w : world) : Prop := {
  wf_clients : ∀ i, i ∈ clients w → ∃ o, objects w !! i = Some o ∧
    is_Some (named_pipe_path o) ∧ named_pipe o ≠ (-1)%Z ∧ i ∈ connected w ∧ i ∈ inhibit_list w;
  wf_path : ∀ i o, objects w !! i = Some o → named_pipe_path o = None → named_pipe o = (-1)%Z;
  wf_list : ∀ i, i ∈ inhibit_list w → is_Some (objects w !! i);
  wf_last : ∀ i o, objects w !! i = Some o → inhibitors o CK_INHIBIT_EVENT_LAST = false;
  wf_count : ∀ m e, (holders w m e ≤ counters w m e)%Z
}.

Lemma find_lock_spec w p l :
  (∀ i, i ∈ l → is_Some (objects w !! i)) →
  ∃ r, find_lock w p l = Done r ∧
    match r with
    | Some i => i ∈ l ∧ ∃ o, objects w !! i = Some o ∧ named_pipe_path o = p
    | None => ∀ i o, i ∈ l → objects w !! i = Some o → named_pipe_path o ≠ p
    end.
Proof.
  induction l as [|i l IH]; intros Hl.
  - exists None. split; [done|]. intros ?? []%elem_of_nil.
  - destruct (Hl i) as [o Ho]; [by left|]. cbn [find_lock]. unfold get_object. rewrite Ho.
    cbn [mbind outcome_bind]. unfold ck_inhibit_get_named_pipe_path.
    case_decide as Hp.
    + exists (Some i). split; [done|]. split; [by left|]. by exists o.
    + destruct IH as (r & -> & Hr); [intros j ?; apply Hl; by right|].
      exists r. split; [done|]. destruct r as [j|].
      * destruct Hr as [? ?]. split; [by right|done].
      * intros j o' [->|Hj]%elem_of_cons Hj'; [congruence|by eapply Hr].
Qed.

Lemma elem_of_g_list_remove i j l : j ∈ g_list_remove i l → j ∈ l.
Proof.
  induction l as [|k l IH]; [done|]. cbn [g_list_remove]. case_decide.
  - intros ?. by right.
  - intros [->|?]%elem_of_cons; [by left|right; auto].
Qed.

Lemma elem_of_g_list_remove_ne i j l : j ≠ i → j ∈ l → j ∈ g_list_remove i l.
Proof.
  intros Hne. induction l as [|k l IH]; [done|]. cbn [g_list_remove].
  intros [->|?]%elem_of_cons; case_decide; subst; try done; [by left|].
  right; auto.
Qed.

Lemma close_closed unlinks n i o w :
  objects w !! i = Some o → named_pipe o = (-1)%Z → close_named_pipe unlinks (S n) i w = Done w.
Proof.
  intros Ho Hp. cbn [close_named_pipe]. unfold close_named_pipe_body, get_object.
  rewrite Ho. cbn [mbind outcome_bind]. by rewrite Hp.
Qed.

(** Removing the lock without a path: at most a list and a handler change, and
    only for an object without a path. *)
Lemma remove_lock_NULL unlinks n w :
  (∀ i o, objects w !! i = Some o → named_pipe_path o = None → named_pipe o = (-1)%Z) →
  (∀ i, i ∈ inhibit_list w → is_Some (objects w !! i)) →
  ∃ b l c, ck_inhibit_manager_remove_lock (close_named_pipe unlinks (S n)) None w = Done (b, set_list l c w) ∧
    (∀ j, j ∈ l → j ∈ inhibit_list w) ∧
    (∀ j o, objects w !! j = Some o → is_Some (named_pipe_path o) →
       (j ∈ inhibit_list w → j ∈ l) ∧ (j ∈ connected w → j ∈ c)).
Proof.
  intros Hpath Hlist. unfold ck_inhibit_manager_remove_lock.
  destruct (find_lock_spec w None (inhibit_list w) Hlist) as ([i|] & -> & Hr).
  - destruct Hr as (Hi & o & Ho & Hop). cbn [mbind outcome_bind].
    rewrite (close_closed unlinks n i o w) by eauto. cbn [mbind outcome_bind].
    rewrite decide_True by done.
    eexists _, _, _. split; [reflexivity|]. split; [intros j; apply elem_of_g_list_remove|].
    intros j o' Hj [p Hp]. assert (j ≠ i) by congruence.
    split; [by apply elem_of_g_list_remove_ne|set_solver].
  - exists false, (inhibit_list w), (connected w). split; [by destruct w|]. done.
Qed.

(** The state while the final signals of [i] are being sent: [i] is closed and
    no longer a client; [es] are the events still to be signalled. *)
Record closing (i : positive) (es : list CkInhibitEvent) (w : world) : Prop := {
  cl_object : ∃ o, objects w !! i = Some o ∧ named_pipe_path o = None ∧
    named_pipe o = (-1)%Z ∧ NoDup es ∧
    (∀ e, e ∉ es → inhibitors o e = false) ∧
    (∀ m e, (holders w m e + (if held o m e then 1 else 0) ≤ counters w m e)%Z);
  cl_client : i ∉ clients w;
  cl_clients : ∀ j, j ∈ clients w → ∃ o, objects w !! j = Some o ∧
    is_Some (named_pipe_path o) ∧ named_pipe o ≠ (-1)%Z ∧ j ∈ connected w ∧ j ∈ inhibit_list w;
  cl_path : ∀ j o, objects w !! j = Some o → named_pipe_path o = None → named_pipe o = (-1)%Z;
  cl_list : ∀ j, j ∈ inhibit_list w → is_Some (objects w !! j);
  cl_last : ∀ j o, objects w !! j = Some o → inhibitors o CK_INHIBIT_EVENT_LAST = false
}.

Lemma closing_update i e es w w' o :
  closing i (e :: es) w → objects w !! i = Some o → inhibitors o e = true →
  objects w' = <[i := set_inhibitor e false o]> (objects w) →
  clients w' = clients w →
  (∀ m' e', (counters w m' e' - (if decide (m' = mode o ∧ e' = e) then 1 else 0) ≤
             counters w' m' e')%Z) →
  (∀ j, j ∈ inhibit_list w' → j ∈ inhibit_list w) →
  (∀ j o', objects w' !! j = Some o' → is_Some (named_pipe_path o') →
     (j ∈ inhibit_list w → j ∈ inhibit_list w') ∧ (j ∈ connected w → j ∈ connected w')) →
  closing i es w'.
Proof.
  intros [(o0 & Ho0 & Hp & Hn & Hnd & Hes & Hcnt) Hcl Hcls Hpath Hlist Hlast] Ho He Hobj
    Hc Hcounters Hl Hkeep.
  rewrite Ho in Ho0. injection Ho0 as <-. inversion Hnd as [|?? Hnot Hnd']; subst.
  assert (∀ m' e', holders w' m' e' = holders w m' e') as Hhold.
  { intros m' e'. apply holders_ext; [done|]. intros j Hj. rewrite Hobj, lookup_insert_ne; [done|].
    by intros ->. }
  split.
  - exists (set_inhibitor e false o). rewrite Hobj, lookup_insert_eq. split_and!; try done.
    + intros e' He'. simpl. case_decide; [done|]. apply Hes. rewrite elem_of_cons. tauto.
    + intros m' e'. rewrite Hhold. specialize (Hcnt m' e'). specialize (Hcounters m' e').
      unfold held in *. simpl. destruct (decide (e' = e)) as [->|Hne]; simpl.
      * rewrite He in Hcnt. simpl in Hcnt. case_bool_decide; case_decide; naive_solver lia.
      * rewrite decide_False in Hcounters by naive_solver. lia.
  - by rewrite Hc.
  - rewrite Hc. intros j Hj. destruct (Hcls j Hj) as (o' & Ho' & Hp' & Hn' & Hcon & Hin).
    assert (objects w' !! j = Some o') as Hj'.
    { rewrite Hobj, lookup_insert_ne; [done|]. by intros ->. }
    exists o'. destruct (Hkeep j o' Hj' Hp'). split_and!; auto.
  - intros j o'. rewrite Hobj. destruct (decide (i = j)) as [->|Hne].
    + rewrite lookup_insert_eq. intros [= <-]. done.
    + rewrite lookup_insert_ne by done. apply Hpath.
  - intros j Hj%Hl%Hlist. rewrite Hobj. destruct (decide (i = j)) as [->|Hne].
    + by rewrite lookup_insert_eq.
    + by rewrite lookup_insert_ne.
  - intros j o'. rewrite Hobj. destruct (decide (i = j)) as [->|Hne].
    + rewrite lookup_insert_eq. intros [= <-]. simpl. case_decide; [done|]. by apply (Hlast j).
    + rewrite lookup_insert_ne by done. apply Hlast.
Qed.

Lemma final_signal_closing unlinks n i e es w :
  closing i (e :: es) w → e ≠ CK_INHIBIT_EVENT_LAST →
  ∃ w', final_signal (close_named_pipe unlinks (S n)) i e w = Done w' ∧ closing i es w' ∧
    files w' = files w ∧ clients w' = clients w.
Proof.
  intros Hcl Hlast. pose proof Hcl as [(o & Ho & Hp & Hn & Hnd & Hes & Hcnt) ? Hcls Hpath Hlist Hl].
  unfold final_signal, get_object at 1. rewrite Ho. cbn [mbind outcome_bind].
  destruct (inhibitors o e) eqn:He.
  2:{ exists w. split_and!; try done. split; try done. exists o. split_and!; try done.
      - by inversion Hnd.
      - intros e' He'. destruct (decide (e' = e)) as [->|Hne]; [done|].
        apply Hes. rewrite elem_of_cons. tauto. }
  unfold emit_changed_event. case_decide as Hcon.
  2:{ eexists. split; [reflexivity|]. split_and!; try done.
      eapply (closing_update i e es w); try done. intros. simpl. case_decide; lia. }
  unfold cb_changed_event. rewrite decide_False by done.
  set (w2 := set_counters _ _).
  set (w3 := if (counters w2 (mode o) e =? 0)%Z then _ else w2).
  assert (objects w3 = <[i := set_inhibitor e false o]> (objects w)) as Hw3o
    by (unfold w3; by case_match).
  assert (inhibit_list w3 = inhibit_list w ∧ connected w3 = connected w ∧
    clients w3 = clients w ∧ files w3 = files w ∧
    counters w3 = table_add (mode o) e (-1) (counters w)) as (Hw3l & Hw3c & Hw3cl & Hw3f & Hw3t)
    by (unfold w3; by case_match).
  unfold get_object. rewrite Hw3o, lookup_insert_eq. cbn [mbind outcome_bind].
  unfold ck_inhibit_get_named_pipe_path. simpl named_pipe_path. rewrite Hp.
  destruct (remove_lock_NULL unlinks n w3) as (b & l & c & -> & Hsub & Hkeep).
  { intros j o'. rewrite Hw3o. destruct (decide (i = j)) as [->|Hne].
    - rewrite lookup_insert_eq. by intros [= <-].
    - rewrite lookup_insert_ne by done. apply Hpath. }
  { intros j. rewrite Hw3l, Hw3o. intros Hj%Hlist. destruct (decide (i = j)) as [->|Hne].
    - by rewrite lookup_insert_eq.
    - by rewrite lookup_insert_ne. }
  cbn [mbind outcome_bind]. eexists. split; [reflexivity|].
  split_and!; try done. rewrite Hw3l, Hw3c in Hkeep. rewrite Hw3l in Hsub.
  eapply (closing_update i e es w); try done; simpl.
  - intros m' e'. rewrite Hw3t. unfold table_add. case_decide; lia.
Qed.

Lemma final_signals_closing unlinks n i es w :
  closing i es w → Forall (λ e, e ≠ CK_INHIBIT_EVENT_LAST) es →
  ∃ w', signal_each (final_signal (close_named_pipe unlinks (S n)) i) es w = Done w' ∧
    closing i [] w' ∧ files w' = files w ∧ clients w' = clients w.
Proof.
  revert w. induction es as [|e es IH]; intros w Hcl Hes.
  - by exists w.
  - inversion Hes as [|?? He Hes']; subst. cbn [signal_each].
    destruct (final_signal_closing unlinks n i e es w Hcl He) as (w1 & -> & Hcl1 & Hf1 & Hc1).
    cbn [mbind outcome_bind]. destruct (IH w1 Hcl1 Hes') as (w2 & -> & Hcl2 & Hf2 & Hc2).
    exists w2. split_and!; congruence.
Qed.

Lemma inhibit_events_last : Forall (λ e, e ≠ CK_INHIBIT_EVENT_LAST) inhibit_events.
Proof. by repeat constructor. Qed.
Lemma inhibit_events_nodup : NoDup inhibit_events.
Proof. apply (bool_decide_unpack _). vm_compute. done. Qed.
Lemma inhibit_events_all e : e ∉ inhibit_events → e = CK_INHIBIT_EVENT_LAST.
Proof. destruct e; intros Hn; try done; exfalso; apply Hn; by repeat constructor. Qed.

Lemma closing_nil_wf i w : closing i [] w → wf w.
Proof.
  intros [(o & Ho & Hp & Hn & _ & Hes & Hcnt) Hcl Hcls Hpath Hlist Hlast].
  split; try done. intros m e. specialize (Hcnt m e). case_match; lia.
Qed.

Lemma unlink_files (unlinks : string → bool) p w :
  (if unlinks p then set_files (files w ∖ {[p]}) w else w) = set_files (if unlinks p then files w ∖ {[p]} else files w) w.
Proof. destruct (unlinks p); [done|by destruct w]. Qed.

(** Releasing a live lock: total, keeps the invariant, and the pipe file (if it can
    be unlinked) and every mark of the lock are gone. *)
Lemma hangup_wf unlinks i w :
  wf w → i ∈ clients w →
  ∃ w' o p, cb_named_pipe_close unlinks close_fuel i (set_clients (clients w ∖ {[i]}) w) = Done w' ∧
    wf w' ∧ clients w' = clients w ∖ {[i]} ∧
    objects w !! i = Some o ∧ named_pipe_path o = Some p ∧ files w' = (if unlinks p then files w ∖ {[p]} else files w) ∧
    (∃ o', objects w' !! i = Some o' ∧ named_pipe o' = (-1)%Z ∧ named_pipe_path o' = None ∧
       ∀ e, inhibitors o' e = false).
Proof.
  intros [Hcls Hpath Hlist Hlast Hcnt] Hi.
  destruct (Hcls i Hi) as (o & Ho & [p Hp] & Hn & Hcon & Hin).
  set (w0 := set_clients (clients w ∖ {[i]}) w).
  unfold cb_named_pipe_close, get_object. simpl objects. rewrite Ho. cbn [mbind outcome_bind].
  unfold close_fuel. cbn [close_named_pipe]. unfold close_named_pipe_body at 1.
  unfold get_object. simpl objects. rewrite lookup_insert_eq. cbn [mbind outcome_bind].
  simpl named_pipe. rewrite (proj2 (Z.eqb_neq _ _) Hn). simpl named_pipe_path. rewrite Hp.
  rewrite unlink_files. set (w1 := set_object i _ (set_files _ _)).
  assert (closing i inhibit_events w1) as Hcl1.
  { assert (∀ j, j ≠ i → objects w1 !! j = objects w !! j) as Hother.
    { intros j Hj. unfold w1. simpl. rewrite !lookup_insert_ne; done. }
    assert (objects w1 !! i = Some (set_pipe (-1) None 0 (set_pipe (named_pipe o) (Some p) 0 o)))
      as Hself by (unfold w1; simpl; by rewrite lookup_insert_eq).
    split.
    - eexists. split; [exact Hself|]. split_and!; try done.
      + apply inhibit_events_nodup.
      + intros e ->%inhibit_events_all. simpl. by eapply Hlast.
      + intros m e. specialize (Hcnt m e).
        rewrite (holders_remove w w0 i m e o) in Hcnt; try done.
        rewrite (holders_ext w0 w1 m e); [done|done|].
        intros j Hj. apply Hother. intros ->. unfold w0 in Hj. simpl in Hj. set_solver.
    - simpl. set_solver.
    - simpl. intros j [Hj Hji]%elem_of_difference. rewrite elem_of_singleton in Hji.
      change (∃ o0, objects w1 !! j = Some o0 ∧ is_Some (named_pipe_path o0) ∧
        named_pipe o0 ≠ (-1)%Z ∧ j ∈ connected w ∧ j ∈ inhibit_list w).
      rewrite Hother by done. by apply Hcls.
    - intros j o'. destruct (decide (j = i)) as [->|Hne]; [|by rewrite Hother; [apply Hpath|]].
      rewrite Hself. by intros [= <-].
    - intros j Hj%Hlist. destruct (decide (j = i)) as [->|Hne]; [by rewrite Hself|].
      by rewrite Hother.
    - intros j o'. destruct (decide (j = i)) as [->|Hne]; [|by rewrite Hother; [apply Hlast|]].
      rewrite Hself. intros [= <-]. simpl. by eapply Hlast. }
  destruct (final_signals_closing unlinks 0 i inhibit_events w1 Hcl1 inhibit_events_last)
    as (w' & Hrun & Hcl' & Hf' & Hc').
  exists w', o, p. split_and!; try done.
  - by eapply closing_nil_wf.
  - destruct Hcl' as [(o' & Ho' & Hp' & Hn' & _ & Hes' & _) _ _ _ _ _].
    exists o'. split_and!; try done. intros e. apply Hes'. apply not_elem_of_nil.
Qed.

(** ** Creating a lock *)

Lemma initial_signals k i es w o :
  objects w !! i = Some o → i ∈ connected w → NoDup es →
  Forall (λ e, e ≠ CK_INHIBIT_EVENT_LAST) es →
  ∃ w', signal_each (initial_signal k i) es w = Done w' ∧
    objects w' = objects w ∧ inhibit_list w' = inhibit_list w ∧ connected w' = connected w ∧
    files w' = files w ∧ clients w' = clients w ∧
    (∀ m e, counters w' m e =
       (counters w m e + (if held o m e && bool_decide (e ∈ es) then 1 else 0))%Z).
Proof.
  revert w. induction es as [|e es IH]; intros w Ho Hcon Hnd Hes.
  - exists w. split_and!; try done. intros m e.
    rewrite (bool_decide_eq_false_2 (e ∈ [])) by apply not_elem_of_nil.
    rewrite andb_false_r. lia.
  - inversion Hnd as [|?? Hnot Hnd']; subst. inversion Hes as [|?? He Hes']; subst.
    cbn [signal_each].
    set (w1 := if inhibitors o e
      then let w := set_counters (table_add (mode o) e 1 (counters w)) w in
           if Z.eqb (counters w (mode o) e) 1 then emit_manager (mode o) e true w else w
      else w).
    assert (initial_signal k i e w = Done w1) as ->.
    { unfold initial_signal, get_object. rewrite Ho. cbn [mbind outcome_bind].
      unfold w1. destruct (inhibitors o e); [|done]. unfold emit_changed_event, cb_changed_event.
      rewrite decide_True by done. by rewrite decide_False. }
    assert (objects w1 = objects w ∧ inhibit_list w1 = inhibit_list w ∧
      connected w1 = connected w ∧ files w1 = files w ∧ clients w1 = clients w)
      as (H1 & H2 & H3 & H4 & H5) by (unfold w1; repeat case_match; done).
    assert (∀ m e', counters w1 m e' =
      (counters w m e' + (if held o m e' && bool_decide (e' = e) then 1 else 0))%Z) as H6.
    { intros m e'. unfold w1, held. destruct (inhibitors o e) eqn:Hoe.
      - transitivity (table_add (mode o) e 1 (counters w) m e'); [by case_match|].
        unfold table_add. destruct (decide (e' = e)) as [->|Hne].
        + rewrite Hoe. destruct (decide (m = mode o)) as [->|Hm].
          * rewrite decide_True by done. by rewrite !bool_decide_eq_true_2.
          * rewrite decide_False, (bool_decide_eq_false_2 (mode o = m)) by naive_solver. simpl. lia.
        + rewrite decide_False, (bool_decide_eq_false_2 (e' = e)), andb_false_r by naive_solver. lia.
      - destruct (decide (e' = e)) as [->|Hne].
        + rewrite Hoe. simpl. lia.
        + rewrite (bool_decide_eq_false_2 (e' = e)), andb_false_r by naive_solver. lia. }
    cbn [mbind outcome_bind].
    destruct (IH w1) as (w' & -> & G1 & G2 & G3 & G4 & G5 & G6); try done; [congruence..|].
    exists w'. split_and!; try congruence. intros m e'. rewrite G6, H6.
    destruct (held o m e'); simpl; [|lia].
    destruct (decide (e' = e)) as [->|Hne].
    + rewrite (bool_decide_eq_true_2 (e = e)), (bool_decide_eq_false_2 (e ∈ es)),
        (bool_decide_eq_true_2 (e ∈ e :: es)) by (done || by left). lia.
    + rewrite (bool_decide_eq_false_2 (e' = e)) by done.
      rewrite (bool_decide_ext (e' ∈ e :: es) (e' ∈ es)); [lia|].
      rewrite elem_of_cons. tauto.
Qed.

(** The mode a request's [mode] string stands for. *)
Definition requested_mode (m : string) : option CkInhibitMode :=
  if String.eqb m "block" then Some CK_INHIBIT_MODE_BLOCK
  else if String.eqb m "delay" then Some CK_INHIBIT_MODE_DELAY else None.

(** What a call of [ck_inhibit_create_lock] on the new object [i] leaves. *)
Record create_result (i : positive) (what_ mode_ : cstr) (w w' : world) (fd : Z) (o : CkInhibit) : Prop := {
  cr_fd : fd ≠ (-1)%Z;
  cr_frame : inhibit_list w' = inhibit_list w ∧ connected w' = connected w;
  cr_objects : objects w' = <[i := o]> (objects w);
  cr_path : named_pipe_path o = None → named_pipe o = (-1)%Z;
  cr_last : inhibitors o CK_INHIBIT_EVENT_LAST = false;
  cr_failed : (fd < 0)%Z → clients w' = clients w ∧ counters w' = counters w ∧ emitted w' = emitted w;
  cr_ok : (0 ≤ fd)%Z → clients w' = {[i]} ∪ clients w ∧ is_Some (named_pipe_path o) ∧
    named_pipe o ≠ (-1)%Z ∧
    (∃ what m, what_ = Some what ∧ mode_ = Some m ∧ requested_mode m = Some (mode o) ∧
       requested what ≠ [] ∧ ∀ e, inhibitors o e = bool_decide (e ∈ requested what)) ∧
    (∀ m e, counters w' m e = (counters w m e + (if held o m e then 1 else 0))%Z)
}.

Lemma parse_mode_spec i m :
  match requested_mode m with
  | Some md => parse_mode_string i m = (set_mode md i, true)
  | None => parse_mode_string i m = (i, false)
  end.
Proof.
  unfold requested_mode, parse_mode_string.
  destruct (String.eqb m "block"); [done|]. by destruct (String.eqb m "delay").
Qed.

Lemma requested_last what : CK_INHIBIT_EVENT_LAST ∉ requested what.
Proof.
  unfold requested. rewrite list_elem_of_omap. intros (t & _ & Ht).
  unfold token_event in Ht. repeat case_match; congruence.
Qed.

Lemma create_named_pipe_spec sys i o w :
  objects w !! i = Some o → named_pipe o = (-1)%Z → is_Some (named_pipe_path o) →
  sys_sane sys →
  ∃ fd w' o', create_named_pipe sys i w = Done (fd, w') ∧
    inhibit_list w' = inhibit_list w ∧ connected w' = connected w ∧
    counters w' = counters w ∧ emitted w' = emitted w ∧ (-1 ≤ fd)%Z ∧
    objects w' = <[i := o']> (objects w) ∧ is_Some (named_pipe_path o') ∧
    inhibitors o' = inhibitors o ∧ mode o' = mode o ∧
    (fd = (-1)%Z → clients w' = clients w) ∧
    (fd ≠ (-1)%Z → clients w' = {[i]} ∪ clients w ∧ named_pipe o' ≠ (-1)%Z).
Proof.
  intros Ho Hn [p Hp] (Hr & Hwr). unfold create_named_pipe, get_object.
  rewrite Ho. cbn [mbind outcome_bind]. rewrite Hn, Hp. cbn [Z.eqb Pos.eqb negb].
  assert (<[i:=o]> (objects w) = objects w) as Hsame by by apply insert_id.
  repeat match goal with
  | |- context [if negb ?b then Done (_, _) else _] => destruct b; cbn [negb]
  end.
  2,3: eexists _, _, o; split; [reflexivity|]; simpl; rewrite Hsame; split_and!; try done;
    rewrite Hp; eauto.
  destruct (Z.ltb_spec (sys_open_read sys) 0).
  - eexists _, _, _; split; [reflexivity|]. simpl. split_and!; try done; eauto.
  - destruct (Z.eqb_spec (sys_open_write sys) (-1)) as [Hw|Hw];
      eexists _, _, _; (split; [reflexivity|]); simpl; split_and!; try done; eauto; intros _.
    split; [done|]. simpl. lia.
Qed.

Lemma parse_inhibitors_frame what m md b : ∀ o,
  let o1 := (parse_inhibitors_string o what).1 in
  named_pipe o1 = named_pipe o ∧ named_pipe_path o1 = named_pipe_path o ∧
  (parse_mode_string o1 m = (md, b) →
   named_pipe md = named_pipe o ∧ named_pipe_path md = named_pipe_path o ∧
   inhibitors md = inhibitors o1).
Proof.
  intros o. destruct (parse_tokens_spec o false (g_strsplit what)) as (_ & _ & _ & H4 & H5).
  cbn zeta. unfold parse_inhibitors_string. split_and!; [done..|].
  unfold parse_mode_string. repeat case_match; intros [= <- _]; done.
Qed.

(** Every way out of [ck_inhibit_create_lock] other than success. *)
Lemma create_result_fail i what_ mode_ w w' fd o :
  (fd < -1)%Z → inhibit_list w' = inhibit_list w → connected w' = connected w →
  objects w' = <[i := o]> (objects w) → (named_pipe_path o = None → named_pipe o = (-1)%Z) →
  inhibitors o CK_INHIBIT_EVENT_LAST = false →
  clients w' = clients w → counters w' = counters w → emitted w' = emitted w →
  create_result i what_ mode_ w w' fd o.
Proof. intros. split; try done; lia. Qed.

Ltac create_fails o := eexists _, _, o; split; [reflexivity|];
  apply create_result_fail; simpl; try done; try congruence.

Lemma create_lock_spec sys i who_ what_ why_ mode_ uid_ pid_ w :
  objects w !! i = Some ck_inhibit_init → i ∈ connected w → i ∉ clients w → sys_sane sys →
  ∃ fd w' o, ck_inhibit_create_lock sys i who_ what_ why_ mode_ uid_ pid_ w = Done (fd, w') ∧
    create_result i what_ mode_ w w' fd o.
Proof.
  intros Ho Hcon Hcl Hsane. assert (<[i:=ck_inhibit_init]> (objects w) = objects w) as Hsame
    by by apply insert_id.
  unfold ck_inhibit_create_lock.
  destruct who_ as [who_|]; [|by create_fails ck_inhibit_init].
  destruct what_ as [what|]; [|by create_fails ck_inhibit_init].
  destruct why_ as [why_|]; [|by create_fails ck_inhibit_init].
  destruct mode_ as [m|]; [|by create_fails ck_inhibit_init].
  destruct (create_inhibit_base_directory sys); cbn [negb];
    [|by create_fails ck_inhibit_init].
  unfold get_object at 1. rewrite Ho. cbn [mbind outcome_bind].
  destruct (get_named_pipe_path sys w) as [path w1] eqn:Hpath.
  assert (objects w1 = objects w ∧ inhibit_list w1 = inhibit_list w ∧ connected w1 = connected w ∧
    clients w1 = clients w ∧ counters w1 = counters w ∧ emitted w1 = emitted w)
    as (H1 & H2 & H3 & H4 & H5 & H6).
  { unfold get_named_pipe_path in Hpath. repeat case_match; by simplify_eq. }
  set (o0 := fill_request _ _ _ _ _ _).
  destruct (parse_inhibitors_string o0 what) as [o1 any] eqn:Hparse.
  destruct (parse_tokens_spec o0 false (g_strsplit what)) as (P1 & P2 & _ & P4 & P5).
  change (parse_tokens o0 false (g_strsplit what)) with (parse_inhibitors_string o0 what) in *.
  change (omap token_event (take_tokens (g_strsplit what))) with (requested what) in *.
  rewrite Hparse in P1, P2, P4, P5. simpl in P1, P2, P4, P5.
  assert (inhibitors o1 CK_INHIBIT_EVENT_LAST = false) as Hlast.
  { rewrite P1. apply bool_decide_eq_false_2, requested_last. }
  destruct any; cbn [negb].
  2:{ create_fails o1. }
  pose proof (parse_mode_spec o1 m) as Hm. destruct (requested_mode m) as [md|] eqn:Hmd; rewrite Hm.
  2:{ cbn [negb]. create_fails o1. by rewrite insert_insert_eq, H1. }
  cbn [negb]. simpl named_pipe_path. rewrite P5.
  destruct path as [p|].
  2:{ create_fails (set_mode md o1). by rewrite insert_insert_eq, H1. }
  set (w2 := set_object i (set_mode md o1) (set_object i o1 w1)).
  assert (objects w2 = <[i:=set_mode md o1]> (objects w)) as Hw2
    by (unfold w2; simpl; by rewrite insert_insert_eq, H1).
  destruct (create_named_pipe_spec sys i (set_mode md o1) w2)
    as (fd & w3 & o3 & -> & C1 & C2 & C3 & C4 & C5 & C6 & C7 & C8 & C9 & C10 & C11);
    [by rewrite Hw2, lookup_insert_eq|done|simpl; rewrite P5; by eexists|done|].
  cbn [mbind outcome_bind].
  change (inhibit_list w2) with (inhibit_list w1) in C1.
  change (connected w2) with (connected w1) in C2.
  change (counters w2) with (counters w1) in C3.
  change (emitted w2) with (emitted w1) in C4.
  change (clients w2) with (clients w1) in C10, C11.
  change (inhibitors (set_mode md o1)) with (inhibitors o1) in C8.
  change (mode (set_mode md o1)) with md in C9.
  assert (objects w3 = <[i:=o3]> (objects w)) as Hw3
    by (rewrite C6, Hw2; by rewrite insert_insert_eq).
  assert (named_pipe_path o3 = None → named_pipe o3 = (-1)%Z) as Hpath3
    by (intros Hp3; rewrite Hp3 in C7; by destruct C7).
  destruct (Z.eqb_spec fd (-1)) as [->|Hfd].
  { specialize (C10 eq_refl). create_fails o3. }
  destruct (C11 Hfd) as [Hclients Hpipe].
  assert (objects w3 !! i = Some o3) as Ho3 by by rewrite Hw3, lookup_insert_eq.
  destruct (initial_signals no_close i inhibit_events w3 o3 Ho3)
    as (w4 & Hrun & G1 & G2 & G3 & G4 & G5 & G6);
    [by rewrite C2, H3|apply inhibit_events_nodup|apply inhibit_events_last|].
  unfold emit_initial_inhibit_signals. rewrite Hrun. cbn [mbind outcome_bind].
  eexists _, _, o3. split; [reflexivity|]. split; try done.
  - split; congruence.
  - congruence.
  - congruence.
  - lia.
  - intros _. split_and!; try done; [congruence| |].
    + exists what, m. rewrite C8, C9. split_and!; try done.
      * intros Hnil. rewrite Hnil in P2. by rewrite bool_decide_eq_true_2 in P2.
    + intros m' e. rewrite G6, C3, H5. f_equal.
      destruct (decide (e = CK_INHIBIT_EVENT_LAST)) as [->|He].
      * unfold held. by rewrite C8, Hlast.
      * rewrite (bool_decide_eq_true_2 (e ∈ inhibit_events)), andb_true_r; [done|].
        destruct (decide (e ∈ inhibit_events)) as [|Hne]; [done|].
        by apply inhibit_events_all in Hne.
Qed.

Lemma create_step_spec sys who_ what_ why_ mode_ uid_ pid_ w :
  wf w → sys_sane sys →
  let i := fresh (dom (objects w)) in
  ∃ fd w' o,
    ck_inhibit_manager_create_lock sys who_ what_ why_ mode_ uid_ pid_ w = Done (fd, w') ∧
    wf w' ∧ inhibit_list w' = inhibit_list w ++ [i] ∧ fd ≠ (-1)%Z ∧
    objects w' = (<[i := o]> (objects w)) ∧ (i ∉ clients w) ∧
    ((fd < 0)%Z → clients w' = clients w ∧ counters w' = counters w ∧ emitted w' = emitted w) ∧
    ((0 ≤ fd)%Z → clients w' = {[i]} ∪ clients w ∧
      (∃ what m, what_ = Some what ∧ mode_ = Some m ∧ requested_mode m = Some (mode o) ∧
         ∀ e, inhibitors o e = bool_decide (e ∈ requested what)) ∧
      (∀ m e, counters w' m e = (counters w m e + (if held o m e then 1 else 0))%Z)).
Proof.
  intros [Hcls Hpath Hlist Hlast Hcnt] Hsane i.
  assert (objects w !! i = None) as Hi by (apply not_elem_of_dom, is_fresh).
  assert (i ∉ clients w) as Hicl.
  { intros (o & Ho & _)%Hcls. congruence. }
  set (w1 := set_list (inhibit_list w) ({[i]} ∪ connected w) (set_object i ck_inhibit_init w)).
  destruct (create_lock_spec sys i who_ what_ why_ mode_ uid_ pid_ w1)
    as (fd & w2 & o & Hrun & [Hfd [Hl Hc] Hobj Hp Hla Hfail Hok]);
    [by simpl; rewrite lookup_insert_eq|simpl; set_solver|done|done|].
  assert (objects w2 = <[i:=o]> (objects w)) as Hobj2
    by (rewrite Hobj; simpl; apply insert_insert_eq).
  exists fd, (set_list (inhibit_list w2 ++ [i]) (connected w2) w2), o.
  change (ck_inhibit_manager_create_lock sys who_ what_ why_ mode_ uid_ pid_ w) with
    ('(fd, w) ← ck_inhibit_create_lock sys i who_ what_ why_ mode_ uid_ pid_ w1;
     if Z.eqb fd (-1) then Fault Aborted
     else Done (fd, set_list (inhibit_list w ++ [i]) (connected w) w)).
  rewrite Hrun. cbn [mbind outcome_bind].
  rewrite (proj2 (Z.eqb_neq _ _) Hfd).
  assert (∀ j o', j ≠ i → objects w !! j = Some o' →
    objects w2 !! j = Some o') as Hother by (intros; by rewrite Hobj2, lookup_insert_ne).
  assert ((fd < 0 ∧ clients w2 = clients w ∧ counters w2 = counters w)%Z ∨
    (0 ≤ fd ∧ clients w2 = {[i]} ∪ clients w ∧ is_Some (named_pipe_path o) ∧
     named_pipe o ≠ (-1)%Z ∧
     ∀ m e, counters w2 m e = (counters w m e + (if held o m e then 1 else 0))%Z)%Z) as Hcase.
  { destruct (Z.lt_ge_cases fd 0) as [Hneg|Hpos].
    - left. destruct (Hfail Hneg) as (? & ? & ?). done.
    - right. destruct (Hok Hpos) as (? & ? & ? & _ & ?). done. }
  split_and!; simpl; try done; try (by rewrite Hl).
  2:{ intros Hpos. destruct (Hok Hpos) as (? & ? & ? & (what & m & ? & ? & ? & _ & ?) & ?).
      split_and!; try done. by exists what, m. }
  assert (∀ j, j ∈ clients w → j ≠ i) as Hne by (intros j Hj ->; done).
  split; simpl.
  - intros j Hj. destruct (decide (j = i)) as [->|Hji].
    + destruct Hcase as [(_ & Hcl & _)|(_ & _ & Hpo & Hno & _)]; [by rewrite Hcl in Hj|].
      exists o. rewrite Hobj2, lookup_insert_eq, Hc, Hl. split_and!; try done; simpl; [set_solver|].
      apply elem_of_app. right. by left.
    + assert (j ∈ clients w) as Hjw.
      { destruct Hcase as [(_ & Hcl & _)|(_ & Hcl & _)]; rewrite Hcl in Hj; [done|].
        apply elem_of_union in Hj as [->%elem_of_singleton|]; done. }
      destruct (Hcls j Hjw) as (o' & Ho' & ? & ? & ? & ?). exists o'.
      rewrite Hc, Hl. split_and!; try done; [by apply Hother|simpl; set_solver|].
      apply elem_of_app. by left.
  - intros j o'. rewrite Hobj2. destruct (decide (j = i)) as [->|Hji].
    + rewrite lookup_insert_eq. by intros [= <-].
    + rewrite lookup_insert_ne by done. apply Hpath.
  - intros j. rewrite Hl, Hobj2. simpl. destruct (decide (j = i)) as [->|Hji].
    + by rewrite lookup_insert_eq.
    + rewrite lookup_insert_ne by done.
      intros [Hj|[->|[]%elem_of_nil]%elem_of_cons]%elem_of_app; [by apply Hlist|done].
  - intros j o'. rewrite Hobj2. destruct (decide (j = i)) as [->|Hji].
    + rewrite lookup_insert_eq. by intros [= <-].
    + rewrite lookup_insert_ne by done. apply Hlast.
  - intros m e. specialize (Hcnt m e).
    assert (∀ j, j ∈ clients w → objects w2 !! j = objects w !! j) as Hsame.
    { intros j Hj. rewrite Hobj2, lookup_insert_ne; [done|]. intros <-. by apply (Hne i). }
    destruct Hcase as [(_ & Hcl & ->)|(_ & Hcl & _ & _ & Hcn)].
    + by rewrite (holders_ext w (set_list _ _ w2)).
    + rewrite Hcn, (holders_add w (set_list (inhibit_list w2 ++ [i]) (connected w2) w2) i m e o);
        try done; [|simpl; by rewrite Hobj2, lookup_insert_eq].
      unfold held. lia.
Qed.

Lemma wf_initial : wf initial_world.
Proof.
  split; simpl; try (intros; set_solver).
Qed.

Lemma reachable_wf w : reachable w → wf w.
Proof.
  induction 1 as [|w w' _ Hwf Hstep]; [apply wf_initial|].
  destruct Hstep as [sys who_ what_ why_ mode_ uid_ pid_ w w' fd Hsane Hrun|unlinks i w w' Hi Hrun].
  - destruct (create_step_spec sys who_ what_ why_ mode_ uid_ pid_ w Hwf Hsane)
      as (fd' & w'' & o & Hrun' & Hwf' & _). congruence.
  - destruct (hangup_wf unlinks i w Hwf Hi) as (w'' & o & p & Hrun' & Hwf' & _). congruence.
Qed.

(** C37: Safety of the inhibit counters: in every state the daemon can reach, an
    event held by a lock whose client still has its pipe open is reported as
    inhibited in that lock's mode. *)
Theorem live_lock_inhibits w i o e :
  reachable w → i ∈ clients w → objects w !! i = Some o → inhibitors o e = true →
  get_inhibit_status w e (mode o) = true.
Proof.
  intros Hr Hi Ho He. apply reachable_wf in Hr as [_ _ _ _ Hcnt].
  unfold get_inhibit_status. apply Z.ltb_lt.
  eapply Z.lt_le_trans; [by eapply (holders_pos w (mode o) e i o)|apply Hcnt].
Qed.

(** C38: Releasing a lock by closing its pipe is total in every reachable state:
    two levels of [close_named_pipe] are enough, no freed memory is read, the
    daemon's end is closed and the lock holds no event any more, whatever the kernel
    says to the removal of the pipe file; that file, and no other, is gone
    exactly if its removal works, and stays else, forgotten by the lock. *)
Theorem hangup_releases unlinks w i :
  reachable w → i ∈ clients w →
  ∃ w' o p, cb_named_pipe_close unlinks close_fuel i (set_clients (clients w ∖ {[i]}) w) = Done w' ∧
    reachable w' ∧ (i ∉ clients w') ∧
    objects w !! i = Some o ∧ named_pipe_path o = Some p ∧
    (∀ f, f ∈ files w' ↔ f ∈ files w ∧ (f = p → unlinks p = false)) ∧
    (∃ o', objects w' !! i = Some o' ∧ named_pipe o' = (-1)%Z ∧ named_pipe_path o' = None ∧
       ∀ e, inhibitors o' e = false).
Proof.
  intros Hr Hi. destruct (hangup_wf unlinks i w (reachable_wf w Hr) Hi)
    as (w' & o & p & Hrun & _ & Hcl & Ho & Hp & Hf & Ho').
  exists w', o, p. split_and!; try done.
  - eapply reach_step; [done|]. by eapply step_hangup.
  - rewrite Hcl. set_solver.
  - intros f. rewrite Hf. destruct (unlinks p); [|naive_solver].
    rewrite elem_of_difference, elem_of_singleton. naive_solver.
Qed.

(** A request never aborts the manager, and its lock is appended to the
    list whatever the outcome: the [fd == -1] test of
    [ck_inhibit_manager_create_lock] catches none of the error codes.  A
    failed request changes no counter; a granted one counts exactly the
    requested events in the requested mode. *)
Theorem create_lock_outcomes w sys who_ what_ why_ mode_ uid_ pid_ :
  reachable w → sys_sane sys →
  let i := fresh (dom (objects w)) in
  ∃ fd w' o,
    ck_inhibit_manager_create_lock sys who_ what_ why_ mode_ uid_ pid_ w = Done (fd, w') ∧
    inhibit_list w' = inhibit_list w ++ [i] ∧ objects w' !! i = Some o ∧
    ((fd < 0)%Z → clients w' = clients w ∧ counters w' = counters w) ∧
    ((0 ≤ fd)%Z → clients w' = {[i]} ∪ clients w ∧
      (∃ what m, what_ = Some what ∧ mode_ = Some m ∧ requested_mode m = Some (mode o) ∧
         ∀ e, inhibitors o e = bool_decide (e ∈ requested what)) ∧
      (∀ m e, counters w' m e = (counters w m e + (if held o m e then 1 else 0))%Z)).
Proof.
  intros Hr Hsane i.
  destruct (create_step_spec sys who_ what_ why_ mode_ uid_ pid_ w (reachable_wf w Hr) Hsane)
    as (fd & w' & o & Hrun & _ & Hl & _ & Hobj & _ & Hfail & Hok).
  exists fd, w', o. split_and!; try done.
  - rewrite Hobj. by rewrite lookup_insert_eq.
  - intros Hneg. by destruct (Hfail Hneg) as (? & ? & _).
Qed.
