(* ===== verification/InhibitRelease.v ===== *)
(** * Inhibit locks: the exact effect of a release, and concrete runs.

    [InhibitFacts] shows what every release guarantees.  Here the effect is
    computed exactly for a lock alone in its state of having no pipe: only the
    first event it holds is un-counted, the handler being disconnected by the
    first signal.  Two consequences are theorems of their own: a lock on two
    events leaves the second one inhibited for ever, and removing a live lock
    through its path reads a freed list node. *)

From S2P Require Import Prelude Inhibit InhibitFacts.
From stdpp Require Import finite fin_sets.

(** ** Concrete requests *)

Definition sys_ok (path : string) : syscalls :=
  {| sys_mkdir_ok := true; sys_mkstemp := Some path; sys_close_ok := true;
     sys_unlink_ok := true; sys_mknod_ok := true; sys_open_read := 7;
     sys_add_watch := 3; sys_open_write := 8 |}.

Definition granted (what mode_ : string) (w : world) : world :=
  match ck_inhibit_manager_create_lock (sys_ok "/run/ConsoleKit/inhibit/a") (Some "updater")
          (Some what) (Some "upgrading") (Some mode_) 1000 42 w with
  | Done (_, w') => w'
  | Fault _ => w
  end.

Definition always : string → bool := λ _, true.
Definition released (i : positive) (w : world) : world :=
  match cb_named_pipe_close always close_fuel i (set_clients (clients w ∖ {[i]}) w) with
  | Done w' => w'
  | Fault _ => w
  end.

(** A lock on "shutdown:idle" in mode "block", the daemon's first object. *)
Definition locked : world := granted "shutdown:idle" "block" initial_world.

(** The event whose final signal is sent first. *)
Definition first_held (o : CkInhibit) : option CkInhibitEvent :=
  head (List.filter (inhibitors o) inhibit_events).

(** No other listed lock is without a pipe: the search for a NULL path by the
    manager's handler can only find [i]. *)
Definition others_open (w : world) (i : positive) : Prop :=
  ∀ j, j ∈ inhibit_list w → ∃ o, objects w !! j = Some o ∧
    (j ≠ i → is_Some (named_pipe_path o)).

Lemma find_lock_self w i l p o :
  i ∈ l → objects w !! i = Some o → named_pipe_path o = p →
  (∀ j, j ∈ l → ∃ o, objects w !! j = Some o ∧ (j ≠ i → named_pipe_path o ≠ p)) →
  find_lock w p l = Done (Some i).
Proof.
  intros Hi Ho Hp. induction l as [|j l IH]; intros Hl; [by apply elem_of_nil in Hi|].
  cbn [find_lock]. destruct (Hl j) as (o' & Ho' & Hne); [by left|].
  unfold get_object. rewrite Ho'. cbn [mbind outcome_bind].
  unfold ck_inhibit_get_named_pipe_path. destruct (decide (j = i)) as [->|Hji].
  - rewrite decide_True by congruence. done.
  - rewrite decide_False by auto. apply IH.
    + apply elem_of_cons in Hi as [->|]; done.
    + intros k Hk. apply Hl. by right.
Qed.

(** Once the handler is disconnected the final signals only clear marks. *)
Lemma final_signals_disconnected k i es w o :
  objects w !! i = Some o → i ∉ connected w →
  ∃ o', signal_each (final_signal k i) es w = Done (set_object i o' w) ∧
    named_pipe_path o' = named_pipe_path o.
Proof.
  revert w o. induction es as [|e es IH]; intros w o Ho Hcon.
  - exists o. split; [|done]. cbn [signal_each]. unfold set_object.
    rewrite (insert_id (objects w)) by done. by destruct w.
  - cbn [signal_each]. unfold final_signal at 2, get_object. rewrite Ho.
    cbn [mbind outcome_bind]. unfold emit_changed_event.
    destruct (inhibitors o e).
    + rewrite decide_False by done. cbn [mbind outcome_bind].
      destruct (IH (set_object i (set_inhibitor e false o) w) (set_inhibitor e false o))
        as (o' & -> & Hp); [simpl; by rewrite lookup_insert_eq|done|].
      exists o'. split; [|done]. unfold set_object. simpl. by rewrite insert_insert_eq.
    + cbn [mbind outcome_bind]. by apply IH.
Qed.

(** What a release does to the manager when its first signal un-counts [e]. *)
Definition uncount (m : CkInhibitMode) (e : CkInhibitEvent) (i : positive) (w : world) : world :=
  let w1 := set_counters (table_add m e (-1) (counters w)) w in
  let w2 := if Z.eqb (counters w1 m e) 0 then emit_manager m e false w1 else w1 in
  set_list (g_list_remove i (inhibit_list w)) (connected w ∖ {[i]}) w2.

Lemma final_signals_first unlinks n i es w o e :
  objects w !! i = Some o → i ∈ connected w → i ∈ inhibit_list w →
  named_pipe o = (-1)%Z → named_pipe_path o = None → others_open w i →
  Forall (λ e, e ≠ CK_INHIBIT_EVENT_LAST) es →
  head (List.filter (inhibitors o) es) = Some e →
  ∃ o', signal_each (final_signal (close_named_pipe unlinks (S n)) i) es w =
    Done (set_object i o' (uncount (mode o) e i w)) ∧ named_pipe_path o' = None.
Proof.
  intros Ho Hcon Hin Hn Hp Hoth. induction es as [|e0 es IH]; [done|].
  intros Hes. inversion Hes as [|?? He0 Hes']; subst. cbn [signal_each List.filter].
  unfold final_signal at 2, get_object at 1. rewrite Ho. cbn [mbind outcome_bind].
  destruct (inhibitors o e0) eqn:He; [intros [= <-]|cbn [mbind outcome_bind]; by apply IH].
  unfold emit_changed_event. rewrite decide_True by done.
  unfold cb_changed_event. rewrite decide_False by done.
  set (w2 := set_counters _ _). set (w3 := if (counters w2 (mode o) e0 =? 0)%Z then _ else w2).
  assert (objects w3 = <[i := set_inhibitor e0 false o]> (objects w) ∧
    inhibit_list w3 = inhibit_list w ∧ connected w3 = connected w) as (H1 & H2 & H3)
    by (unfold w3; by case_match).
  unfold get_object at 1. rewrite H1, lookup_insert_eq. cbn [mbind outcome_bind].
  unfold ck_inhibit_get_named_pipe_path. simpl named_pipe_path. rewrite Hp.
  unfold ck_inhibit_manager_remove_lock.
  rewrite (find_lock_self w3 i _ None (set_inhibitor e0 false o));
    [|by rewrite H2|by rewrite H1, lookup_insert_eq|done|].
  2:{ intros j. rewrite H2. intros Hj. destruct (Hoth j Hj) as (oj & Hoj & Hne).
      destruct (decide (i = j)) as [->|Hji].
      - exists (set_inhibitor e0 false o). rewrite H1, lookup_insert_eq. done.
      - exists oj. rewrite H1, lookup_insert_ne by done. split; [done|].
        intros _ Hnone. destruct Hne; congruence. }
  cbn [mbind outcome_bind].
  rewrite (close_closed unlinks n i (set_inhibitor e0 false o)) by (rewrite ?H1, ?lookup_insert_eq; done).
  cbn [mbind outcome_bind]. rewrite decide_True by (by rewrite H2). cbn [mbind outcome_bind].
  set (w4 := set_list _ _ w3).
  destruct (final_signals_disconnected (close_named_pipe unlinks (S n)) i es w4 (set_inhibitor e0 false o))
    as (o' & -> & Hp'); [unfold w4; simpl; by rewrite H1, lookup_insert_eq|unfold w4; simpl; set_solver|].
  exists o'. split; [|by rewrite Hp']. f_equal. unfold w4, w3, w2, uncount.
  unfold set_object, set_list. simpl. case_match; simpl; by rewrite insert_insert_eq.
Qed.

(** The closed lock, its file unlinked if that works, before its final signals. *)
Definition closed_world (unlinks : string → bool) (i : positive) (o : CkInhibit) (p : string) (w : world) : world :=
  set_object i (set_pipe (-1) None 0 o) (set_files (if unlinks p then files w ∖ {[p]} else files w) w).

Lemma close_open_lock unlinks n i w o p e :
  objects w !! i = Some o → i ∈ connected w → i ∈ inhibit_list w →
  named_pipe o ≠ (-1)%Z → named_pipe_path o = Some p → others_open w i →
  first_held o = Some e →
  ∃ o', close_named_pipe unlinks (S (S n)) i w =
    Done (set_object i o' (uncount (mode o) e i (closed_world unlinks i o p w))) ∧
    named_pipe_path o' = None.
Proof.
  intros Ho Hcon Hin Hn Hp Hoth He.
  cbn [close_named_pipe]. unfold close_named_pipe_body at 1, get_object at 1. rewrite Ho.
  cbn [mbind outcome_bind]. rewrite (proj2 (Z.eqb_neq _ _) Hn), Hp.
  unfold emit_final_uninhibit_signals. rewrite unlink_files.
  change (close_named_pipe_body unlinks (close_named_pipe unlinks n)) with (close_named_pipe unlinks (S n)).
  fold (closed_world unlinks i o p w).
  destruct (final_signals_first unlinks n i inhibit_events (closed_world unlinks i o p w)
    (set_pipe (-1) None 0 o) e) as (o' & Hrun & Hp'); try done.
  - simpl. by rewrite lookup_insert_eq.
  - intros j Hj. destruct (Hoth j Hj) as (oj & Hoj & Hne). simpl.
    destruct (decide (i = j)) as [->|Hji].
    + rewrite lookup_insert_eq. by eexists.
    + rewrite lookup_insert_ne by done. by exists oj.
  - apply inhibit_events_last.
  - by exists o'.
Qed.

(** The exact effect of a hang-up, when the only listed lock without a
    pipe is the one being released: exactly one unit is taken off exactly one
    counter, that of the FIRST event the lock holds in the order of
    [emit_final_uninhibit_signals] (whatever else it holds stays counted), the
    manager announces that event if its count reached zero, forgets the lock
    and its handler, and the pipe file is gone if it can be removed. *)
Theorem hangup_uncounts_first unlinks w i o p e :
  reachable w → i ∈ clients w → objects w !! i = Some o → named_pipe_path o = Some p →
  others_open w i → first_held o = Some e →
  ∃ w', cb_named_pipe_close unlinks close_fuel i (set_clients (clients w ∖ {[i]}) w) = Done w' ∧
    (∀ m' e', counters w' m' e' =
       (counters w m' e' - (if decide (m' = mode o ∧ e' = e) then 1 else 0))%Z) ∧
    emitted w' = emitted w ++
      (if decide (counters w (mode o) e = 1%Z) then [(mode o, e, false)] else []) ∧
    inhibit_list w' = g_list_remove i (inhibit_list w) ∧
    connected w' = connected w ∖ {[i]} ∧ files w' = (if unlinks p then files w ∖ {[p]} else files w) ∧
    (∀ j, j ≠ i → objects w' !! j = objects w !! j).
Proof.
  intros Hr Hi Ho Hp Hoth He. destruct (wf_clients w (reachable_wf w Hr) i Hi)
    as (o0 & Ho0 & _ & Hn & Hcon & Hin).
  assert (o0 = o) as -> by congruence.
  unfold cb_named_pipe_close, get_object at 1. simpl objects. rewrite Ho.
  cbn [mbind outcome_bind].
  set (w0 := set_object i _ _). set (oc := set_pipe (named_pipe o) _ _ o) in w0.
  destruct (close_open_lock unlinks 0 i w0 oc p e) as (o' & Hrun & _); try done.
  - simpl. by rewrite lookup_insert_eq.
  - intros j Hj. destruct (Hoth j Hj) as (oj & Hoj & Hne). simpl.
    destruct (decide (i = j)) as [->|Hji].
    + rewrite lookup_insert_eq. eexists. split; [done|]. intros []; done.
    + rewrite lookup_insert_ne by done. by exists oj.
  - unfold close_fuel. rewrite Hrun. eexists. split; [reflexivity|].
    unfold uncount, closed_world. simpl.
    assert (table_add (mode o) e (-1) (counters w) (mode o) e = counters w (mode o) e - 1)%Z as Ht
      by (unfold table_add; rewrite decide_True by done; lia).
    rewrite Ht. repeat split.
    + intros m' e'. transitivity (table_add (mode o) e (-1) (counters w) m' e'); [by case_match|].
      unfold table_add. case_decide; lia.
    + destruct (Z.eqb_spec (counters w (mode o) e - 1) 0); case_decide; try lia; [done|].
      simpl. by rewrite app_nil_r.
    + by case_match.
    + intros j Hj. transitivity (<[i:=o']> (<[i:=set_pipe (-1) None 0 oc]>
        (<[i:=oc]> (objects w))) !! j); [by case_match|]. by rewrite !lookup_insert_ne.
Qed.

(** ** Concrete runs *)

Lemma sys_ok_sane p : sys_sane (sys_ok p).
Proof. split; simpl; lia. Qed.

Lemma granted_reachable what m w fd w' :
  ck_inhibit_manager_create_lock (sys_ok "/run/ConsoleKit/inhibit/a") (Some "updater")
    (Some what) (Some "upgrading") (Some m) 1000 42 w = Done (fd, w') →
  reachable w → reachable (granted what m w).
Proof.
  intros Hrun Hw. unfold granted. rewrite Hrun.
  eapply reach_step; [exact Hw|]. eapply step_create; [apply sys_ok_sane|exact Hrun].
Qed.

Lemma released_reachable i w w' :
  i ∈ clients w → cb_named_pipe_close always close_fuel i (set_clients (clients w ∖ {[i]}) w) = Done w' →
  reachable w → reachable (released i w).
Proof.
  intros Hi Hrun Hw. unfold released. rewrite Hrun.
  eapply reach_step; [exact Hw|]. by eapply step_hangup.
Qed.

Lemma locked_reachable : reachable locked.
Proof. eapply granted_reachable; [vm_compute; reflexivity|apply reach_init]. Qed.
Definition locked_object : CkInhibit := default ck_inhibit_init (objects locked !! 1%positive).
Lemma locked_lookup : objects locked !! 1%positive = Some locked_object.
Proof. vm_compute. reflexivity. Qed.
Lemma locked_client : 1%positive ∈ clients locked.
Proof. apply (bool_decide_unpack _). by vm_compute. Qed.

(** The inhibition of a lock's second event outlives the lock: the daemon
    reaches a state without any client, lock or connected handler in which idle
    is still reported as blocked, so that no later release can unblock it. *)
Theorem inhibition_leaks :
  ∃ w, reachable w ∧ clients w = ∅ ∧ inhibit_list w = [] ∧ connected w = ∅ ∧
    ck_inhibit_manager_is_idle_blocked w = true ∧
    ck_inhibit_manager_is_shutdown_blocked w = false.
Proof.
  exists (released 1 locked). split_and!; try (by vm_compute).
  eapply released_reachable; [apply locked_client|vm_compute; reflexivity|apply locked_reachable].
Qed.

(** Removing a live lock through its pipe path reads freed memory: the
    signals sent by [ck_inhibit_remove_lock] make the manager's own handler
    free the list element that [ck_inhibit_manager_remove_lock] reads next. *)
Theorem remove_live_lock_faults unlinks w i o p e :
  reachable w → i ∈ clients w → objects w !! i = Some o → named_pipe_path o = Some p →
  others_open w i → first_held o = Some e → NoDup (inhibit_list w) →
  (∀ j o', j ∈ inhibit_list w → objects w !! j = Some o' → named_pipe_path o' = Some p → j = i) →
  ck_inhibit_manager_remove_lock (close_named_pipe unlinks close_fuel) (Some p) w = Fault UseAfterFree.
Proof.
  intros Hr Hi Ho Hp Hoth He Hnd Huniq. destruct (wf_clients w (reachable_wf w Hr) i Hi)
    as (o0 & Ho0 & _ & Hn & Hcon & Hin).
  assert (o0 = o) as -> by congruence.
  unfold ck_inhibit_manager_remove_lock.
  rewrite (find_lock_self w i _ (Some p) o); try done.
  2:{ intros j Hj. destruct (Hoth j Hj) as (oj & Hoj & _). exists oj. split; [done|].
      intros Hji Hpj. by apply Hji, (Huniq j oj). }
  cbn [mbind outcome_bind].
  destruct (close_open_lock unlinks 0 i w o p e) as (o' & Hrun & _); try done.
  unfold close_fuel. rewrite Hrun. cbn [mbind outcome_bind]. simpl.
  rewrite decide_False; [done|]. clear -Hnd. induction Hnd as [|j l Hj _ IH]; simpl.
  - apply not_elem_of_nil.
  - case_decide; [by subst|]. rewrite elem_of_cons. intros [->|]; done.
Qed.

(** ** Witnesses *)

Lemma live_lock_inhibits_witness :
  1%positive ∈ clients locked ∧
  get_inhibit_status locked CK_INHIBIT_EVENT_IDLE CK_INHIBIT_MODE_BLOCK = true.
Proof.
  split; [apply locked_client|].
  assert (mode locked_object = CK_INHIBIT_MODE_BLOCK) as <- by by vm_compute.
  apply (live_lock_inhibits locked 1 locked_object CK_INHIBIT_EVENT_IDLE);
    [apply locked_reachable|apply locked_client|apply locked_lookup|by vm_compute].
Defined.

Lemma hangup_releases_witness :
  ∃ w', cb_named_pipe_close always close_fuel 1 (set_clients (clients locked ∖ {[1%positive]}) locked)
    = Done w' ∧ 1%positive ∉ clients w'.
Proof.
  destruct (hangup_releases always locked 1 locked_reachable locked_client)
    as (w' & o & p & H1 & _ & H2 & _).
  by exists w'.
Defined.

Lemma create_lock_outcomes_witness :
  ∃ fd w', ck_inhibit_manager_create_lock (sys_ok "/run/ConsoleKit/inhibit/b") (Some "who")
    (Some "sleep") (Some "why") (Some "delay") 0 1 locked = Done (fd, w').
Proof.
  destruct (create_lock_outcomes locked (sys_ok "/run/ConsoleKit/inhibit/b") (Some "who")
    (Some "sleep") (Some "why") (Some "delay") 0 1 locked_reachable (sys_ok_sane _))
    as (fd & w' & o & H1 & _).
  by exists fd, w'.
Defined.

Lemma locked_others_open : others_open locked 1.
Proof.
  intros j Hj. assert (inhibit_list locked = [1%positive]) as Hl by by vm_compute.
  rewrite Hl in Hj. apply list_elem_of_singleton in Hj as ->.
  eexists. split; [vm_compute; reflexivity|]. done.
Qed.

Lemma hangup_uncounts_first_witness :
  ∃ w', cb_named_pipe_close always close_fuel 1 (set_clients (clients locked ∖ {[1%positive]}) locked)
    = Done w' ∧ counters w' CK_INHIBIT_MODE_BLOCK CK_INHIBIT_EVENT_SHUTDOWN = 0%Z ∧
    counters w' CK_INHIBIT_MODE_BLOCK CK_INHIBIT_EVENT_IDLE = 1%Z.
Proof.
  destruct (hangup_uncounts_first always locked 1 locked_object "/run/ConsoleKit/inhibit/a"
    CK_INHIBIT_EVENT_SHUTDOWN) as (w' & Hrun & Hc & _);
    [apply locked_reachable|apply locked_client|apply locked_lookup|by vm_compute
    |apply locked_others_open|by vm_compute|].
  exists w'. split; [exact Hrun|]. rewrite !Hc. split; by vm_compute.
Defined.

Lemma remove_live_lock_faults_witness :
  ck_inhibit_manager_remove_lock (close_named_pipe always close_fuel)
    (Some "/run/ConsoleKit/inhibit/a") locked = Fault UseAfterFree.
Proof.
  apply (remove_live_lock_faults always locked 1 locked_object "/run/ConsoleKit/inhibit/a" CK_INHIBIT_EVENT_SHUTDOWN);
    [apply locked_reachable|apply locked_client|apply locked_lookup|by vm_compute
    |apply locked_others_open|by vm_compute| |].
  - apply (bool_decide_unpack _). by vm_compute.
  - intros j o' Hj _ _. assert (inhibit_list locked = [1%positive]) as Hl by by vm_compute.
    rewrite Hl in Hj. by apply list_elem_of_singleton in Hj as ->.
Defined.
