(* ===== verification/Device.v ===== *)
(** * Server-managed devices: [src/ck-device-udev.c].

    A [CkDevice] holds a descriptor of an input or DRM node that the daemon
    opened for a session.  While the session is inactive the device must give no
    access: an input descriptor is revoked, DRM master is dropped.  The
    operating system is a parameter ([OS]): what [open], [ioctl] and udev answer
    is arbitrary. *)

From S2P Require Import Prelude.

(** ** The operating system *)

Inductive CkDeviceCategory := DEVICE_DRM | DEVICE_EVDEV | DEVICE_OTHER.
#[export] Instance CkDeviceCategory_eq_dec : EqDecision CkDeviceCategory.
Proof. solve_decision. Defined.

Record udev_device := {
  udev_subsystem : cstr;
  udev_sysname : cstr;
  udev_devnode : cstr
}.

(** Answers to the n-th request: the descriptor [open] returns (negative on
    failure) and whether a DRM open becomes master by itself, the errno of an
    [open] that fails, whether an [ioctl] succeeds, whether a descriptor is a
    terminal, whether [udev_new] succeeds; and the udev database.
    [console_fuel] is the model's own: how often it tries to open a console. *)
Class OS := {
  os_open : nat → Z * bool;
  os_errno : nat → Z;
  os_ioctl : nat → bool;
  os_isatty : nat → bool;
  os_udev_new : nat → bool;
  os_udev_device : Z → Z → option udev_device;
  console_fuel : nat
}.

(** An open file description. *)
Record desc := {
  desc_kind : CkDeviceCategory;
  desc_revoked : bool;
  desc_master : bool
}.

(** [fds]: the daemon's descriptors; [shared]: the descriptions some client
    holds a duplicate of; [udev_ctx]: the static [dev] is not NULL. *)
Record host := {
  fds : gmap Z positive;
  descs : gmap positive desc;
  shared : gset positive;
  udev_ctx : bool;
  clock : nat
}.

Definition tick (h : host) : host :=
  {| fds := fds h; descs := descs h; shared := shared h; udev_ctx := udev_ctx h;
     clock := S (clock h) |}.
Definition set_descs (m : gmap positive desc) (h : host) : host :=
  {| fds := fds h; descs := m; shared := shared h; udev_ctx := udev_ctx h; clock := clock h |}.
Definition share (p : positive) (h : host) : host :=
  {| fds := fds h; descs := descs h; shared := {[p]} ∪ shared h; udev_ctx := udev_ctx h;
     clock := clock h |}.

(** Whether holding the description lets a client use an input or DRM device. *)
Definition grants (d : desc) : bool :=
  match desc_kind d with
  | DEVICE_DRM => desc_master d
  | DEVICE_EVDEV => negb (desc_revoked d)
  | DEVICE_OTHER => false
  end.

Definition revoke (d : desc) : desc :=
  {| desc_kind := desc_kind d; desc_revoked := true; desc_master := desc_master d |}.
Definition master (b : bool) (d : desc) : desc :=
  {| desc_kind := desc_kind d; desc_revoked := desc_revoked d; desc_master := b |}.

Section device.
Context `{OS}.

(** [g_open]: a descriptor is never one that is already in use. *)
Definition g_open (kind : CkDeviceCategory) (h : host) : Z * host :=
  let '(fd, m) := os_open (clock h) in
  let h := tick h in
  if Z.ltb fd 0 || bool_decide (is_Some (fds h !! fd)) then ((-1)%Z, h)
  else
    let p := fresh (dom (descs h) ∪ shared h) in
    (fd, {| fds := <[fd := p]> (fds h);
            descs := <[p := {| desc_kind := kind; desc_revoked := false; desc_master := m |}]> (descs h);
            shared := shared h; udev_ctx := udev_ctx h; clock := clock h |}).

(** [g_close]: a description lives on while a client holds a duplicate. *)
Definition g_close (fd : Z) (h : host) : host :=
  match fds h !! fd with
  | None => h
  | Some p =>
      {| fds := delete fd (fds h);
         descs := if bool_decide (p ∈ shared h) then descs h else delete p (descs h);
         shared := shared h; udev_ctx := udev_ctx h; clock := clock h |}
  end.

Definition ioctl (fd : Z) (f : desc → desc) (h : host) : bool * host :=
  let ok := os_ioctl (clock h) in
  let h := tick h in
  match fds h !! fd with
  | Some p => if ok then (true, set_descs (alter f p (descs h)) h) else (false, h)
  | None => (false, h)
  end.

(** ** Consoles: [src/ck-sysdeps-unix.c] *)

(** VT_GETSTATE and [isatty]. *)
Definition fd_is_a_console (fd : Z) (h : host) : bool * host :=
  let kb_ok := os_ioctl (clock h) && bool_decide (is_Some (fds h !! fd)) in
  let h := tick h in
  if os_isatty (clock h) then (kb_ok, tick h) else (false, tick h).

(** [ck_open_a_console]: for reading, or else for writing; again as long as the
    terminal is closing; [None] when the fuel does not suffice. *)
Fixpoint open_a_console (fuel : nat) (h : host) : option (Z * host) :=
  match fuel with
  | 0 => None
  | S fuel =>
      let errno := os_errno (clock h) in
      let '(fd, h) := g_open DEVICE_OTHER h in
      let '(errno, (fd, h)) :=
        if Z.ltb fd 0 && Z.eqb errno EACCES then (os_errno (clock h), g_open DEVICE_OTHER h)
        else (errno, (fd, h)) in
      if Z.ltb fd 0 && Z.eqb errno EIO then open_a_console fuel h
      else if Z.ltb fd 0 then Some ((-1)%Z, h)
      else
        let '(console, h) := fd_is_a_console fd h in
        if negb console then Some ((-1)%Z, g_close fd h) else Some (fd, h)
  end.

(** No terminal is found closing for ever: of so many requests in a row one is
    not refused with EIO, nor, if with EACCES, is the next one. *)
Definition console_settles : Prop :=
  ∀ n, ∃ k, n ≤ k < n + console_fuel ∧
    os_errno k ≠ EIO ∧ (os_errno k = EACCES → os_errno (S k) ≠ EIO).

(** What the users of many sessions rely on. *)
Class ConsoleSettles : Prop := console_settled : console_settles.

(** ** CkDevice *)

Record CkDevice := {
  major : Z;
  minor : Z;
  udevice : option udev_device;
  devnode : cstr;
  category : CkDeviceCategory;
  fd : Z;
  state : bool
}.

Definition set_fd (f : Z) (d : CkDevice) : CkDevice :=
  {| major := major d; minor := minor d; udevice := udevice d; devnode := devnode d;
     category := category d; fd := f; state := state d |}.
Definition set_state (b : bool) (d : CkDevice) : CkDevice :=
  {| major := major d; minor := minor d; udevice := udevice d; devnode := devnode d;
     category := category d; fd := fd d; state := b |}.

(** Zeroed memory: category 0 is [DEVICE_DRM]. *)
Definition ck_device_init : CkDevice :=
  {| major := 0; minor := 0; udevice := None; devnode := None;
     category := DEVICE_DRM; fd := -1; state := false |}.

Definition ck_device_evdev_revoke (f : Z) (h : host) : bool * host :=
  if Z.ltb f 0 then (false, h) else ioctl f revoke h.

Definition change_drm_master (f : Z) (request : bool) (h : host) : bool * host :=
  if Z.ltb f 0 then (false, h) else ioctl f (master request) h.

Definition ck_device_drm_drop_master (f : Z) (h : host) : bool * host :=
  change_drm_master f false h.
Definition ck_device_drm_set_master (f : Z) (h : host) : bool * host :=
  change_drm_master f true h.

Definition ck_device_open (d : CkDevice) (active : bool) (h : host) : Z * host :=
  match udevice d, devnode d with
  | Some _, Some _ =>
      let '(f, h) := g_open (category d) h in
      if Z.ltb f 0 then ((-1)%Z, h)
      else match category d with
      | DEVICE_DRM =>
          if active then
            let '(ok, h) := ck_device_drm_set_master f h in
            if negb ok then ((-1)%Z, g_close f h) else (f, h)
          else (f, (ck_device_drm_drop_master f h).2)
      | DEVICE_EVDEV =>
          if active then (f, h) else (f, (ck_device_evdev_revoke f h).2)
      | DEVICE_OTHER => (f, h)
      end
  | _, _ => ((-1)%Z, h)
  end.

Definition ck_device_set_active (d : CkDevice) (active : bool) (h : host) : CkDevice * host :=
  if Bool.eqb (state d) active then (d, h)
  else
    let d := set_state active d in
    match category d with
    | DEVICE_DRM =>
        if active then (d, (ck_device_drm_set_master (fd d) h).2)
        else (d, (ck_device_drm_drop_master (fd d) h).2)
    | DEVICE_EVDEV =>
        if active then
          let h := g_close (fd d) h in
          let '(f, h) := ck_device_open d active h in
          (set_fd f d, h)
        else (d, (ck_device_evdev_revoke (fd d) h).2)
    | DEVICE_OTHER => (d, h)
    end.

Definition ck_device_finalize (d : CkDevice) (h : host) : host :=
  let '(d, h) := ck_device_set_active d false h in
  if Z.leb 0 (fd d) then g_close (fd d) h else h.

(** [g_strcmp0 (a, s) == 0] and [g_str_has_prefix] on a possibly NULL string. *)
Definition str_is (a : cstr) (s : string) : bool := bool_decide (a = Some s).
Definition has_prefix (a : cstr) (s : string) : bool :=
  match a with Some a => bool_decide (is_Some (strip_prefix s a)) | None => false end.

(** The category of a device on Linux. *)
Definition device_category (u : udev_device) : CkDeviceCategory :=
  if str_is (udev_subsystem u) "drm" && has_prefix (udev_sysname u) "card" then DEVICE_DRM
  else if str_is (udev_subsystem u) "input" then
    if has_prefix (udev_sysname u) "event" then DEVICE_EVDEV else DEVICE_OTHER
  else DEVICE_OTHER.

Definition ck_device_get_udevice_from_devnum (maj min : Z) : option udev_device :=
  os_udev_device maj min.

Definition udev_instance (h : host) : bool * host :=
  if udev_ctx h then (true, h)
  else let ok := os_udev_new (clock h) in
       (ok, {| fds := fds h; descs := descs h; shared := shared h; udev_ctx := ok;
               clock := S (clock h) |}).

Definition ck_device_new (maj min : Z) (active : bool) (h : host) : option CkDevice * host :=
  let '(ok, h) := udev_instance h in
  if negb ok then (None, h)
  else
    let u := ck_device_get_udevice_from_devnum maj min in
    let d := {| major := maj; minor := min; udevice := u; devnode := None;
                category := DEVICE_DRM; fd := -1; state := active |} in
    match u with
    | None => (None, ck_device_finalize d h)
    | Some u =>
        let d := {| major := maj; minor := min; udevice := Some u; devnode := udev_devnode u;
                    category := device_category u; fd := -1; state := active |} in
        if decide (category d = DEVICE_OTHER) then (Some d, h)
        else
          let '(f, h) := ck_device_open d active h in
          if Z.ltb f 0 && active then
            let '(f, h) := ck_device_open d false h in (Some (set_fd f d), h)
          else (Some (set_fd f d), h)
    end.

Definition ck_device_compare (d : CkDevice) (maj min : Z) : bool :=
  Z.eqb (major d) maj && Z.eqb (minor d) min.

Definition ck_device_compare_devices (d1 d2 : CkDevice) : bool :=
  Z.eqb (major d1) (major d2) && Z.eqb (minor d1) (minor d2).

Definition ck_device_is_server_managed : bool := true.

(** [fstat (fd) == -1 && errno == EBADF]. *)
Definition is_dead_fd (f : Z) (h : host) : bool := bool_decide (fds h !! f = None).

End device.
