(* ===== verification/DeviceFacts.v ===== *)
(** * Server-managed devices: theorems about [Device].

    Over the whole life of a device the daemon's descriptor table is restored
    exactly, whatever the operating system answers; and as long as the ioctls
    succeed an inactive device gives no access to the hardware. *)

From S2P Require Import Prelude Device.
From stdpp Require Import fin_maps fin_map_dom.

(** The description [p] gives some client-visible access. *)
Definition live (h : host) (p : positive) : Prop :=
  ∃ x, descs h !! p = Some x ∧ grants x = true.

Record host_ok (h : host) : Prop := {
  ho_pos : ∀ f p, fds h !! f = Some p → (0 ≤ f)%Z ∧ is_Some (descs h !! p);
  ho_inj : ∀ f g p, fds h !! f = Some p → fds h !! g = Some p → f = g
}.

(** What a device owns: nothing, or one descriptor of its own kind. *)
Definition owns (d : CkDevice) (h : host) : Prop :=
  fd d = (-1)%Z ∨
  (category d ≠ DEVICE_OTHER ∧
   ∃ p x, fds h !! fd d = Some p ∧ descs h !! p = Some x ∧ desc_kind x = category d).

(** What an operation that turns the device [d] into [d'] does to the host:
    other descriptors are kept, none is leaked, and what gives access afterwards
    either did before and is not the device's, or is the active device's. *)
Record dev_step (ioctls : Prop) (d : option CkDevice) (h : host)
    (d' : option CkDevice) (h' : host) : Prop := {
  ds_ok : host_ok h';
  ds_owns : ∀ e, d' = Some e → owns e h';
  ds_own : ∀ e, d' = Some e →
    fd e = (-1)%Z ∨ (∃ e0, d = Some e0 ∧ fd e0 = fd e) ∨ fds h !! fd e = None;
  ds_keep : ∀ f p, fds h !! f = Some p → (∀ e, d = Some e → fd e ≠ f) →
    fds h' !! f = Some p ∧ descs h' !! p = descs h !! p;
  ds_noleak : ∀ f p, fds h' !! f = Some p →
    (fds h !! f = Some p ∧ ∀ e, d = Some e → fd e ≠ f) ∨ (∃ e, d' = Some e ∧ fd e = f);
  ds_live : ioctls → ∀ p, live h' p →
    (live h p ∧ ∀ e, d = Some e → fds h !! fd e ≠ Some p) ∨
    (∃ e, d' = Some e ∧ state e = true ∧ fds h' !! fd e = Some p);
  ds_quiet : ioctls → ∀ e p, d' = Some e → state e = false →
    fds h' !! fd e = Some p → ¬ live h' p;
  ds_shared : shared h' = shared h
}.

Section facts.
Context `{OS}.

(** Every [ioctl] succeeds. *)
Definition ioctls_succeed : Prop := ∀ n, os_ioctl n = true.

Lemma host_ok_neg h f p : host_ok h → fds h !! f = Some p → f ≠ (-1)%Z.
Proof. intros Hok Hf ->. apply (ho_pos h Hok) in Hf. lia. Qed.

Lemma dev_step_refl P d h : host_ok h → (∀ e, d = Some e → owns e h) →
  (P → ∀ e p, d = Some e → state e = false → fds h !! fd e = Some p → ¬ live h p) →
  dev_step P d h d h.
Proof.
  intros Hok Ho Hlive. split; try done.
  - intros e ->. right; left. by exists e.
  - intros f p Hf. destruct d as [e|]; [|left; done].
    destruct (decide (fd e = f)) as [<-|]; [right; eauto|left; split; [done|]]. by intros e' [= <-].
  - intros HP p Hp. destruct d as [e|]; [|left; done].
    destruct (decide (fds h !! fd e = Some p)) as [Hf|].
    + right. exists e. split_and!; try done. destruct (state e) eqn:Hs; [done|].
      exfalso. by eapply Hlive.
    + left. split; [done|]. by intros e' [= <-].
Qed.

Lemma dev_step_trans P d1 h1 d2 h2 d3 h3 : host_ok h1 →
  dev_step P d1 h1 d2 h2 → dev_step P d2 h2 d3 h3 → dev_step P d1 h1 d3 h3.
Proof.
  intros Hok [A1 A2 A0 A3 A4 A5 A7 A6] [B1 B2 B0 B3 B4 B5 B7 B6].
  assert (∀ f p, fds h1 !! f = Some p → (∀ e, d1 = Some e → fd e ≠ f) →
    ∀ e, d2 = Some e → fd e ≠ f) as Hnot.
  { intros f p Hf Hd1 e -> <-. destruct (A0 e eq_refl) as [Hn|[(e0 & -> & He)|Hn]];
      [by destruct (host_ok_neg h1 _ p Hok Hf)| |congruence].
    by apply (Hd1 e0). }
  split; try done; [| | | |congruence].
  - intros e ->. destruct (B0 e eq_refl) as [Hn|[(e0 & -> & He)|Hn]]; [by left| |].
    + rewrite <- He. by apply A0.
    + destruct (fds h1 !! fd e) as [p|] eqn:Hf; [|by right; right].
      destruct d1 as [e1|].
      * destruct (decide (fd e1 = fd e)) as [He|Hne]; [right; left; eauto|].
        destruct (A3 _ p Hf) as [? _]; [by intros ? [= <-]|congruence].
      * destruct (A3 _ p Hf) as [? _]; [done|congruence].
  - intros f p Hf Hd1. destruct (A3 f p Hf Hd1) as [Hf2 Hdesc].
    destruct (B3 f p Hf2 (Hnot f p Hf Hd1)). split; [done|congruence].
  - intros f p Hf. destruct (B4 f p Hf) as [[Hf2 Hd2]|]; [|by right].
    destruct (A4 f p Hf2) as [|(e & -> & He)]; [by left|]. by apply Hd2 in He.
  - intros HP p Hp. destruct (B5 HP p Hp) as [[Hp2 Hd2]|]; [|by right].
    destruct (A5 HP p Hp2) as [|(e & -> & _ & He)]; [by left|]. by apply Hd2 in He.
Qed.

(** ** The primitives *)

Lemma live_tick h p : live (tick h) p ↔ live h p.
Proof. done. Qed.

Lemma host_ok_tick h : host_ok h → host_ok (tick h).
Proof. intros [? ?]. by split. Qed.

Lemma ioctl_spec f g h b h' : ioctl f g h = (b, h') →
  fds h' = fds h ∧ shared h' = shared h ∧
  ((b = true ∧ ∃ p, fds h !! f = Some p ∧ descs h' = alter g p (descs h)) ∨
   (b = false ∧ descs h' = descs h)) ∧
  (ioctls_succeed → is_Some (fds h !! f) → b = true).
Proof.
  unfold ioctl. destruct (fds (tick h) !! f) as [p|] eqn:Hf.
  - destruct (os_ioctl (clock h)) eqn:Ho; intros [= <- <-]; split_and!; try done.
    + left. split; [done|]. by exists p.
    + by right.
    + intros Hi. by rewrite (Hi (clock h)) in Ho.
  - intros [= <- <-]. split_and!; try done; [by right|]. intros _ [p Hp]. 
    change (fds (tick h)) with (fds h) in Hf. congruence.
Qed.

Lemma g_open_spec k h f h' : host_ok h → g_open k h = (f, h') →
  (f = (-1)%Z ∧ h' = tick h) ∨
  ((0 ≤ f)%Z ∧ fds h !! f = None ∧ ∃ p x, descs h !! p = None ∧ (p ∉ shared h) ∧
    fds h' = (<[f:=p]> (fds h)) ∧ descs h' = (<[p:=x]> (descs h)) ∧ desc_kind x = k ∧
    shared h' = shared h).
Proof.
  intros Hok. unfold g_open. destruct (os_open (clock h)) as [r m].
  destruct (Z.ltb_spec r 0) as [Hr|Hr]; simpl; [intros [= <- <-]; by left|].
  case_bool_decide as Hin; [intros [= <- <-]; by left|].
  intros [= <- <-]. right. split_and!; try done; [by apply eq_None_not_Some|].
  pose proof (is_fresh (dom (descs h) ∪ shared h)) as Hfresh.
  rewrite not_elem_of_union in Hfresh. destruct Hfresh as [H1%not_elem_of_dom H2].
  eexists _, _. split_and!; try done.
Qed.

(** *** Opening a console *)

(** The same descriptors and descriptions. *)
Definition same_table (h h' : host) : Prop :=
  fds h' = fds h ∧ descs h' = descs h ∧ shared h' = shared h.

Lemma g_close_opened k h f h1 h2 : host_ok h → g_open k h = (f, h1) → (0 ≤ f)%Z → same_table h1 h2 →
  same_table h (g_close f h2).
Proof.
  intros Hok Hopen Hf (E1 & E2 & E3).
  destruct (g_open_spec _ _ _ _ Hok Hopen) as [[-> _]|(_ & Hnone & p & x & Hp & Hsh & Hfds & Hdescs & _ & Hsh')]; [lia|].
  unfold same_table, g_close. rewrite E1, Hfds, lookup_insert_eq. simpl.
  rewrite ?E1, ?E2, ?E3, ?Hfds, ?Hdescs, ?Hsh'. rewrite bool_decide_eq_false_2 by done.
  by rewrite !delete_insert_id by done.
Qed.

(** What comes of it: nothing is left open, or one new descriptor. *)
Definition console_opened (h : host) (f : Z) (h' : host) : Prop :=
  (f = (-1)%Z ∧ same_table h h') ∨
  ((0 ≤ f)%Z ∧ ∃ h1 h2, same_table h h1 ∧ g_open DEVICE_OTHER h1 = (f, h2) ∧ same_table h2 h').

Lemma same_table_trans h1 h2 h3 : same_table h1 h2 → same_table h2 h3 → same_table h1 h3.
Proof. unfold same_table. intros (-> & -> & ->) (-> & -> & ->). done. Qed.
Lemma same_table_ok h h' : host_ok h → same_table h h' → host_ok h'.
Proof. intros [H1 H2] (E1 & E2 & E3). split; rewrite ?E1, ?E2; done. Qed.
Lemma console_opened_trans h1 h2 f h3 : same_table h1 h2 → console_opened h2 f h3 → console_opened h1 f h3.
Proof.
  intros E [[-> Hs]|(Hf & a & b & Ha & Hab & Hb)]; [left|right; split; [done|exists a, b]];
    split_and!; try done; by eapply same_table_trans.
Qed.

Lemma g_open_clock k h f h' : g_open k h = (f, h') →
  clock h' = S (clock h) ∧ ((f < 0)%Z → f = (-1)%Z ∧ same_table h h').
Proof.
  unfold g_open. destruct (os_open (clock h)) as [r m].
  destruct (Z.ltb_spec r 0) as [Hr|Hr]; simpl; [by intros [= <- <-]|].
  case_bool_decide; intros [= <- <-]; [done|]. split; [done|lia].
Qed.
Lemma fd_is_a_console_same f h : ∃ b h', fd_is_a_console f h = (b, h') ∧ same_table h h'.
Proof. unfold fd_is_a_console. destruct (os_isatty _); eexists _, _; by split. Qed.

(** One round: the loop goes on, or it has ended. *)
Lemma open_a_console_step fuel h :
  (∃ h', open_a_console (S fuel) h = open_a_console fuel h' ∧ same_table h h' ∧
     (os_errno (clock h) = EIO ∧ clock h' = S (clock h) ∨
      os_errno (clock h) = EACCES ∧ os_errno (S (clock h)) = EIO ∧ clock h' = S (S (clock h)))) ∨
  (∃ f h', open_a_console (S fuel) h = Some (f, h') ∧ (host_ok h → console_opened h f h')).
Proof.
  cbn [open_a_console].
  destruct (g_open DEVICE_OTHER h) as [f1 h1] eqn:O1. destruct (g_open_clock _ _ _ _ O1) as [C1 F1].
  assert (∀ f h0 h2, same_table h h0 → g_open DEVICE_OTHER h0 = (f, h2) → (0 ≤ f)%Z → ∃ f' h',
    (let '(console, h) := fd_is_a_console f h2 in
     if negb console then Some ((-1)%Z, g_close f h) else Some (f, h)) = Some (f', h') ∧
    (host_ok h → console_opened h f' h')) as Htest.
  { intros f h0 h2 E0 O2 Hf. destruct (fd_is_a_console_same f h2) as (b & h3 & -> & E3).
    destruct b; simpl; eexists _, _; (split; [done|]); intros Hok; [right; split; [done|by exists h0, h2]|].
    left. split; [done|]. eapply same_table_trans; [done|].
    by apply (g_close_opened _ _ _ _ _ (same_table_ok _ _ Hok E0) O2). }
  destruct (Z.ltb_spec f1 0) as [Hf1|Hf1]; simpl.
  2:{ right. rewrite (proj2 (Z.ltb_ge f1 0)) by done. by apply (Htest f1 h h1). }
  destruct (F1 Hf1) as [-> E1]. destruct (Z.eqb_spec (os_errno (clock h)) EACCES) as [Ha|Ha]; simpl.
  - destruct (g_open DEVICE_OTHER h1) as [f2 h2] eqn:O2. destruct (g_open_clock _ _ _ _ O2) as [C2 F2].
    rewrite C1. destruct (Z.ltb_spec f2 0) as [Hf2|Hf2]; simpl;
      [|right; by apply (Htest f2 h1 h2)].
    destruct (F2 Hf2) as [-> E2]. assert (same_table h h2) as E by by eapply same_table_trans.
    destruct (Z.eqb_spec (os_errno (S (clock h))) EIO) as [He|He];
      [left; exists h2; split_and!; [done..|right; rewrite C2, C1; done]|].
    right. eexists _, _. split; [done|]. intros _. by left.
  - destruct (Z.eqb_spec (os_errno (clock h)) EIO) as [He|He];
      [left; exists h1; split_and!; [done..|by left]|].
    right. eexists _, _. split; [done|]. intros _. by left.
Qed.

(** Whatever the loop returns, it leaves open only that. *)
Lemma open_a_console_result fuel h f h' : host_ok h →
  open_a_console fuel h = Some (f, h') → console_opened h f h'.
Proof.
  revert h. induction fuel as [|fuel IH]; intros h Hok Hrun; [done|].
  destruct (open_a_console_step fuel h) as [(h1 & E & Hs & _)|(f' & h1 & E & Ho)]; [|simplify_eq; by apply Ho].
  rewrite E in Hrun. eapply console_opened_trans; [done|]. apply IH; [by eapply same_table_ok|done].
Qed.

Lemma open_a_console_open fuel h f h' : host_ok h →
  open_a_console fuel h = Some (f, h') → (0 ≤ f)%Z → is_Some (fds h' !! f).
Proof.
  intros Hok Ho Hf. destruct (open_a_console_result _ _ _ _ Hok Ho) as [[-> _]|(_ & h1 & h2 & Hs & Hopen & -> & _)]; [done|].
  destruct (g_open_spec _ _ _ _ (same_table_ok _ _ Hok Hs) Hopen) as [[-> _]|(_ & _ & p & x & _ & _ & -> & _)]; [done|].
  rewrite lookup_insert_eq. by eexists.
Qed.

(** The loop ends as soon as a request is not refused with EIO. *)
Lemma open_a_console_ends fuel k h : clock h ≤ k < clock h + fuel →
  os_errno k ≠ EIO → (os_errno k = EACCES → os_errno (S k) ≠ EIO) → is_Some (open_a_console fuel h).
Proof.
  revert h. induction fuel as [|fuel IH]; intros h Hk He Ha; [lia|].
  destruct (open_a_console_step fuel h) as [(h1 & -> & Hs & Hc)|(f' & h1 & -> & _)]; [|done].
  assert (k ≠ clock h) as Hne by (intros ->; destruct Hc as [[? _]|(Hc1 & Hc2 & _)]; [done|by apply Ha in Hc1]).
  apply IH; try done. destruct Hc as [[_ ->]|(_ & He2 & ->)]; [lia|].
  assert (k ≠ S (clock h)) by (intros ->; done). lia.
Qed.

Lemma open_a_console_settled h : console_settles → is_Some (open_a_console console_fuel h).
Proof. intros Hset. destruct (Hset (clock h)) as (k & Hk & He & Ha). by apply (open_a_console_ends _ k). Qed.

(** ** The operations on one device *)

Lemma dev_step_src P d0 d h X h' :
  fd d0 = fd d → dev_step P (Some d) h X h' → dev_step P (Some d0) h X h'.
Proof.
  intros He [A1 A2 A0 A3 A4 A5 A7 A6]. split; try done.
  - intros e HX. destruct (A0 e HX) as [|[(e0 & [= <-] & ?)|]]; [by left| |by right; right].
    right; left. exists d0. split; [done|congruence].
  - intros f p Hf Hne. apply A3; [done|]. intros e [= <-]. rewrite <- He. by apply Hne.
  - intros f p Hf. destruct (A4 f p Hf) as [[? Hne]|]; [left|by right].
    split; [done|]. intros e [= <-]. rewrite He. by apply Hne.
  - intros HP p Hp. destruct (A5 HP p Hp) as [[? Hne]|]; [left|by right].
    split; [done|]. intros e [= <-]. rewrite He. by apply Hne.
Qed.

(** An [ioctl] on the device's own descriptor. *)
Lemma ioctl_step d g h :
  host_ok h → owns d h → (∀ x, desc_kind (g x) = desc_kind x) →
  (state d = false → ∀ x, desc_kind x = category d → grants (g x) = false) →
  dev_step ioctls_succeed (Some d) h (Some d) (ioctl (fd d) g h).2.
Proof.
  intros Hok Ho Hk Hg. destruct (ioctl (fd d) g h) as [b h'] eqn:E. simpl.
  destruct (ioctl_spec _ _ _ _ _ E) as (Hfds & Hsh & Hcase & Hsucc).
  assert (∀ p q, fds h !! fd d = Some p → q ≠ p → descs h' !! q = descs h !! q) as Hother.
  { intros p q Hp Hq. destruct Hcase as [(_ & p' & Hp' & ->)|(_ & ->)]; [|done].
    apply lookup_alter_ne. congruence. }
  assert (∀ p, fds h !! fd d = Some p → ∃ x, descs h' !! p = Some x ∧ desc_kind x = category d ∧
    (ioctls_succeed → state d = false → grants x = false)) as Hown.
  { intros p Hp. destruct Ho as [Hn|(_ & p' & x & Hp' & Hx & Hkx)].
    - by destruct (host_ok_neg h _ p Hok Hp).
    - assert (p' = p) as -> by congruence.
      destruct Hcase as [(-> & p' & Hp'' & ->)|(-> & ->)].
      + assert (p' = p) as -> by congruence. exists (g x). rewrite lookup_alter_eq, Hx, Hk.
        split_and!; try done. intros _ Hs. by apply Hg.
      + exists x. split_and!; try done. intros Hi. by discriminate (Hsucc Hi (ex_intro _ p Hp)). }
  split; try done.
  - destruct Hok as [H1 H2]. split; rewrite !Hfds; [|apply H2].
    intros f p Hf. destruct (H1 f p Hf) as [? [x Hx]]. split; [done|].
    destruct (decide (fds h !! fd d = Some p)) as [Hp|Hp].
    + destruct (Hown p Hp) as (y & -> & _). by eexists.
    + destruct Hcase as [(_ & p' & Hp' & ->)|(_ & ->)]; [|by eexists].
      rewrite lookup_alter_ne by congruence. by eexists.
  - intros e [= <-]. destruct Ho as [Hn|(Hc & p & x & Hp & _)]; [by left|right].
    split; [done|]. destruct (Hown p Hp) as (y & Hy & Hky & _). exists p, y.
    by rewrite Hfds.
  - intros e [= <-]. right; left. by exists d.
  - intros f p Hf Hne. rewrite Hfds. split; [done|].
    destruct (fds h !! fd d) as [q|] eqn:Hq.
    + apply (Hother q); [done|]. intros ->. apply (Hne d eq_refl). by eapply (ho_inj h Hok).
    + destruct Hcase as [(_ & p' & Hp' & _)|(_ & ->)]; [congruence|done].
  - intros f p. rewrite Hfds. intros Hf. destruct (decide (fd d = f)) as [He|He].
    + right. by exists d.
    + left. split; [done|]. by intros e [= <-].
  - intros Hi p (x & Hx & Hgx). destruct (decide (fds h !! fd d = Some p)) as [Hp|Hp].
    + right. exists d. rewrite Hfds. split_and!; try done.
      destruct (Hown p Hp) as (y & Hy & _ & Hq). destruct (state d); [done|].
      rewrite Hx in Hy. injection Hy as <-. rewrite Hq in Hgx; done.
    + left. split; [|by intros e [= <-]]. exists x. split; [|done].
      destruct (fds h !! fd d) as [q|] eqn:Hq.
      * rewrite <- (Hother q p eq_refl) by congruence. done.
      * destruct Hcase as [(_ & p' & Hp' & _)|(_ & <-)]; [congruence|done].
  - intros Hi e p [= <-] Hs. rewrite Hfds. intros Hp (x & Hx & Hgx).
    destruct (Hown p Hp) as (y & Hy & _ & Hq). rewrite Hx in Hy. injection Hy as <-.
    rewrite Hq in Hgx; done.
Qed.

(** Closing the descriptor of a device that gives no access. *)
Lemma close_step d h :
  host_ok h → owns d h →
  (ioctls_succeed → ∀ p, fds h !! fd d = Some p → ¬ live h p) →
  dev_step ioctls_succeed (Some d) h None (g_close (fd d) h).
Proof.
  intros Hok Ho Hq. unfold g_close. destruct (fds h !! fd d) as [p|] eqn:Hp.
  2:{ split; try done.
      - intros f p Hf. left. split; [done|]. intros e [= <-] He. congruence.
      - intros _ p Hl. left. split; [done|]. intros e [= <-]. congruence. }
  assert (∀ f q, fds h !! f = Some q → f ≠ fd d → q ≠ p) as Hinj.
  { intros f q Hf Hne ->. apply Hne. by eapply (ho_inj h Hok). }
  set (m := if bool_decide (p ∈ shared h) then descs h else delete p (descs h)).
  assert (∀ q, q ≠ p → m !! q = descs h !! q) as Hm.
  { intros q Hne. unfold m. case_match; [done|]. by rewrite lookup_delete_ne. }
  assert (∀ q x, m !! q = Some x → descs h !! q = Some x) as Hsub.
  { intros q x. unfold m. case_match; [done|]. rewrite lookup_delete_Some. by intros []. }
  split; simpl; try done.
  - split; simpl.
    + intros f q. rewrite lookup_delete_Some. intros [Hne Hf].
      destruct (ho_pos h Hok f q Hf). split; [done|]. rewrite Hm; [done|]. by eapply Hinj.
    + intros f g q. rewrite !lookup_delete_Some. intros [? Hf] [? Hg]. by eapply (ho_inj h Hok).
  - intros f q Hf Hne. assert (fd d ≠ f) by by apply Hne.
    rewrite lookup_delete_ne by done. split; [done|]. apply Hm. by eapply Hinj.
  - intros f q. rewrite lookup_delete_Some. intros [Hne Hf]. left. split; [done|].
    by intros e [= <-].
  - intros Hi q (x & Hx & Hg). simpl in Hx. left. assert (live h q) as Hl by (exists x; eauto).
    split; [done|]. intros e [= <-] Hqp. rewrite Hp in Hqp. injection Hqp as <-. by eapply Hq.
Qed.

Lemma dev_step_none P d h h' e :
  dev_step P d h None h' → fd e = (-1)%Z → dev_step P d h (Some e) h'.
Proof.
  intros [A1 A2 A0 A3 A4 A5 A7 A6] He. split; try done.
  - intros e' [= <-]. by left.
  - intros e' [= <-]. by left.
  - intros f p Hf. left. destruct (A4 f p Hf) as [|(? & ? & _)]; done.
  - intros HP p Hp. left. destruct (A5 HP p Hp) as [|(? & ? & _)]; done.
  - intros HP e' p [= <-] _ Hp. rewrite He in Hp. by destruct (host_ok_neg h' _ p A1 Hp).
Qed.

Lemma dev_step_tick P h : host_ok h → dev_step P None h None (tick h).
Proof. intros [H1 H2]. split; try done; [intros f p Hf; by left|intros _ p Hp; by left]. Qed.

Lemma g_open_step k d h f h' :
  host_ok h → g_open k h = (f, h') → k ≠ DEVICE_OTHER → category d = k → state d = true →
  dev_step ioctls_succeed None h (Some (set_fd f d)) h'.
Proof.
  intros Hok Hopen Hk Hcat Hs.
  destruct (g_open_spec k h f h' Hok Hopen) as
    [[-> ->]|(Hf & Hnone & p & x & Hp & Hsh & Hfds & Hdescs & Hkx & Hsh')].
  - apply dev_step_none; [by apply dev_step_tick|done].
  - destruct Hok as [H1 H2].
    assert (∀ g q, fds h !! g = Some q → q ≠ p) as Hne.
    { intros g q Hg ->. destruct (H1 g p Hg) as [_ [y Hy]]. congruence. }
    split; try done.
    + split; intros g q; rewrite Hfds.
      * rewrite lookup_insert_Some. intros [[<- <-]|[_ Hg]].
        -- rewrite Hdescs, lookup_insert_eq. by split.
        -- rewrite Hdescs, lookup_insert_ne by (apply not_eq_sym; by eapply Hne). by eapply H1.
      * intros r. rewrite !lookup_insert_Some. intros [[<- <-]|[? Hg]] [[<- Hr]|[? Hr]];
          try done; [by destruct (Hne _ _ Hr)|by subst; destruct (Hne _ _ Hg)|by eapply H2].
    + intros e [= <-]. right. split; [by rewrite <- Hcat in Hk|]. exists p, x.
      simpl. rewrite Hfds, Hdescs, !lookup_insert_eq. by rewrite Hcat.
    + intros e [= <-]. by right; right.
    + intros g q Hg _. rewrite Hfds, Hdescs. rewrite !lookup_insert_ne; try done.
      * apply not_eq_sym. by eapply Hne.
      * intros ->. congruence.
    + intros g q. rewrite Hfds, lookup_insert_Some. intros [[<- <-]|[_ Hg]]; [right; eauto|by left].
    + intros _ q (y & Hy & Hgy). rewrite Hdescs, lookup_insert_Some in Hy.
      destruct Hy as [[<- <-]|[_ Hy]].
      * right. eexists. split_and!; [done|done|]. simpl. by rewrite Hfds, lookup_insert_eq.
      * left. split; [|done]. by exists y.
    + intros _ e q [= <-] Hse. simpl in Hse. congruence.
Qed.

Lemma set_state_fd f d : state d = true → set_state true (set_fd f d) = set_fd f d.
Proof. destruct d; simpl; by intros ->. Qed.

Lemma ck_device_open_step d active h f h' :
  host_ok h → category d ≠ DEVICE_OTHER → (active = true → state d = true) →
  ck_device_open d active h = (f, h') →
  dev_step ioctls_succeed None h (Some (set_fd f d)) h'.
Proof.
  intros Hok Hcat Hact. unfold ck_device_open.
  destruct (udevice d) as [u|]; [|intros [= <- <-]; by apply dev_step_none; [apply dev_step_refl|]].
  destruct (devnode d) as [n|]; [|intros [= <- <-]; by apply dev_step_none; [apply dev_step_refl|]].
  destruct (g_open (category d) h) as [g h1] eqn:Hopen.
  pose proof (g_open_step _ (set_state true d) h g h1 Hok Hopen Hcat eq_refl eq_refl) as Hstep.
  change (set_fd g (set_state true d)) with (set_state true (set_fd g d)) in Hstep.
  destruct (Z.ltb_spec g 0) as [Hg|Hg].
  - intros [= <- <-]. destruct (g_open_spec _ h g h1 Hok Hopen) as [[_ ->]|[? _]]; [|lia].
    apply dev_step_none; [by apply dev_step_tick|done].
  - assert (host_ok h1) as Hok1 by apply Hstep.
    assert (owns (set_fd g d) h1) as Hown by exact (ds_owns _ _ _ _ _ Hstep _ eq_refl).
    assert (∀ h2, dev_step ioctls_succeed (Some (set_fd g d)) h1 (Some (set_fd g d)) h2 →
      dev_step ioctls_succeed None h (Some (set_fd g d)) h2) as Hthen.
    { intros h2 H2. eapply dev_step_trans; [done|exact Hstep|].
      apply (dev_step_src _ _ (set_fd g d)); done. }
    destruct (category d) eqn:Hc; [| |done].
    + destruct active.
      * unfold ck_device_drm_set_master, change_drm_master.
        rewrite (proj2 (Z.ltb_ge _ _) Hg).
        pose proof (ioctl_step (set_fd g d) (master true) h1 Hok1 Hown (λ _, eq_refl)) as Hio.
        simpl fd in Hio. destruct (ioctl g (master true) h1) as [b h2] eqn:E.
        destruct b; simpl; intros [= <- <-].
        -- apply Hthen. apply Hio. simpl. rewrite Hact; done.
        -- apply dev_step_none; [|done]. eapply dev_step_trans; [done|exact Hstep|].
           assert (host_ok h2) as Hok2.
           { apply Hio. simpl. rewrite Hact; done. }
           destruct (ioctl_spec _ _ _ _ _ E) as (Hfds & _ & Hcase & Hsucc).
           eapply dev_step_trans; [done|eapply (dev_step_src _ _ (set_fd g d)); [done|apply Hio];
             simpl; by rewrite Hact|].
           apply (close_step (set_fd g d)); [done| |].
           ++ assert (dev_step ioctls_succeed (Some (set_fd g d)) h1 (Some (set_fd g d)) h2) as Hs2
                by (apply Hio; simpl; by rewrite Hact).
              exact (ds_owns _ _ _ _ _ Hs2 _ eq_refl).
           ++ intros Hi p Hp. discriminate (Hsucc Hi). rewrite <- Hfds. by exists p.
      * intros [= <- <-]. apply Hthen.
        unfold ck_device_drm_drop_master, change_drm_master. rewrite (proj2 (Z.ltb_ge _ _) Hg).
        apply (ioctl_step (set_fd g d)); try done. simpl. intros _ x Hk.
        unfold grants. simpl. by rewrite Hk, Hc.
    + destruct active.
      * intros [= <- <-]. rewrite set_state_fd in Hstep by auto. done.
      * intros [= <- <-]. apply Hthen. unfold ck_device_evdev_revoke.
        rewrite (proj2 (Z.ltb_ge _ _) Hg). apply (ioctl_step (set_fd g d)); try done.
        simpl. intros _ x Hk. unfold grants. simpl. by rewrite Hk, Hc.
Qed.

(** An inactive device gives no access (when the ioctls succeed). *)
Definition quiet (d : CkDevice) (h : host) : Prop :=
  ioctls_succeed → state d = false → ∀ p, fds h !! fd d = Some p → ¬ live h p.

Lemma dev_step_quiet od h d h' :
  dev_step ioctls_succeed od h (Some d) h' → quiet d h'.
Proof. intros Hs Hi Hst p Hp. by eapply (ds_quiet _ _ _ _ _ Hs Hi d). Qed.

Lemma owns_fd d h : host_ok h → owns d h → fd d = (-1)%Z ∨ (0 ≤ fd d)%Z.
Proof.
  intros Hok [Hn|(_ & p & x & Hp & _)]; [by left|right]. by apply (ho_pos h Hok _ p).
Qed.

Lemma dev_step_state P d b h :
  host_ok h → fd d = (-1)%Z → dev_step P (Some d) h (Some (set_state b d)) h.
Proof.
  intros Hok Hfd. apply (dev_step_src _ _ (set_state b d)); [done|].
  apply dev_step_refl; [done|by intros e [= <-]; left|].
  intros _ e p [= <-] _ Hp. simpl in Hp. rewrite Hfd in Hp. by destruct (host_ok_neg h _ p Hok Hp).
Qed.

Lemma guarded_ioctl_step d g b h :
  host_ok h → owns d h → (∀ x, desc_kind (g x) = desc_kind x) →
  (b = false → ∀ x, desc_kind x = category d → grants (g x) = false) →
  dev_step ioctls_succeed (Some d) h (Some (set_state b d))
    (if Z.ltb (fd d) 0 then (false, h) else ioctl (fd d) g h).2.
Proof.
  intros Hok Ho Hk Hg. destruct (owns_fd d h Hok Ho) as [Hn|Hp].
  - rewrite Hn. simpl. by apply dev_step_state.
  - rewrite (proj2 (Z.ltb_ge _ _) Hp).
    apply (dev_step_src _ _ (set_state b d)); [done|]. by apply (ioctl_step (set_state b d)).
Qed.

Lemma set_active_step d a h d' h' :
  host_ok h → owns d h → quiet d h → ck_device_set_active d a h = (d', h') →
  dev_step ioctls_succeed (Some d) h (Some d') h' ∧ state d' = a ∧
  category d' = category d ∧ major d' = major d ∧ minor d' = minor d.
Proof.
  intros Hok Ho Hq. unfold ck_device_set_active.
  destruct (Bool.eqb_spec (state d) a) as [Hs|Hs].
  - intros [= <- <-]. split_and!; try done. apply dev_step_refl; [done|by intros e [= <-]|].
    intros Hi e p [= <-] Hse. by apply Hq.
  - change (category (set_state a d)) with (category d). destruct (category d) eqn:Hc.
    + destruct a; intros [= <- <-]; (split_and!; [|done..]);
        apply (guarded_ioctl_step d); try done.
      intros _ x Hk. unfold grants. simpl. by rewrite Hk, Hc.
    + destruct a.
      * change (fd (set_state true d)) with (fd d).
        destruct (ck_device_open (set_state true d) true (g_close (fd d) h)) as [f h2] eqn:Hopen.
        intros [= <- <-]. split_and!; try done.
        assert (dev_step ioctls_succeed (Some d) h None (g_close (fd d) h)) as Hclose.
        { apply close_step; try done. intros Hi p Hp. apply Hq; try done.
          by destruct (state d). }
        eapply dev_step_trans; [done|exact Hclose|].
        eapply (ck_device_open_step (set_state true d)); [apply Hclose| |done|exact Hopen].
        simpl. by rewrite Hc.
      * intros [= <- <-]. split_and!; try done. apply (guarded_ioctl_step d); try done.
        intros _ x Hk. unfold grants. simpl. by rewrite Hk, Hc.
    + intros [= <- <-]. split_and!; try done. apply dev_step_state; [done|].
      destruct Ho as [|[? _]]; congruence.
Qed.

Lemma dev_step_drop P od h d h' :
  dev_step P od h (Some d) h' → fd d = (-1)%Z → dev_step P od h None h'.
Proof.
  intros [A1 A2 A0 A3 A4 A5 A7 A6] He. split; try done.
  - intros f p Hf. left. destruct (A4 f p Hf) as [|(? & [= <-] & Hfd)]; [done|].
    rewrite He in Hfd. by destruct (host_ok_neg h' f p A1 Hf).
  - intros HP p Hp. left. destruct (A5 HP p Hp) as [|(? & [= <-] & _ & Hfd)]; [done|].
    rewrite He in Hfd. by destruct (host_ok_neg h' _ p A1 Hfd).
Qed.

Lemma finalize_step d h :
  host_ok h → owns d h → quiet d h →
  dev_step ioctls_succeed (Some d) h None (ck_device_finalize d h).
Proof.
  intros Hok Ho Hq. unfold ck_device_finalize.
  destruct (ck_device_set_active d false h) as [d1 h1] eqn:E.
  destruct (set_active_step d false h d1 h1 Hok Ho Hq E) as (Hstep & Hs & _).
  assert (owns d1 h1) as Ho1 by exact (ds_owns _ _ _ _ _ Hstep _ eq_refl).
  assert (host_ok h1) as Hok1 by apply Hstep.
  destruct (owns_fd d1 h1 Hok1 Ho1) as [Hn|Hp].
  - rewrite Hn. simpl. by eapply dev_step_drop.
  - rewrite (proj2 (Z.leb_le _ _) Hp). eapply dev_step_trans; [done|exact Hstep|].
    apply close_step; [done..|]. intros Hi. by apply (dev_step_quiet _ _ _ _ Hstep).
Qed.

Lemma udev_instance_step h b h1 :
  host_ok h → udev_instance h = (b, h1) → dev_step ioctls_succeed None h None h1 ∧ descs h1 = descs h.
Proof.
  intros [H1 H2]. unfold udev_instance. case_match; intros [= _ <-]; (split; [|done]);
    split; try done; first [intros f p Hf; by left | intros _ p Hp; by left].
Qed.

Lemma new_step maj min a h od h' :
  host_ok h → ck_device_new maj min a h = (od, h') →
  dev_step ioctls_succeed None h od h' ∧
  ∀ d, od = Some d → state d = a ∧ major d = maj ∧ minor d = min.
Proof.
  intros Hok. unfold ck_device_new.
  destruct (udev_instance h) as [ok h1] eqn:Hu.
  destruct (udev_instance_step h ok h1 Hok Hu) as [Hstep _].
  assert (host_ok h1) as Hok1 by apply Hstep.
  destruct ok; simpl; [|by intros [= <- <-]].
  destruct (ck_device_get_udevice_from_devnum maj min) as [u|].
  2:{ intros [= <- <-]. split; [|done]. eapply dev_step_trans; [done|exact Hstep|].
      set (d0 := {| major := maj; minor := min; udevice := None; devnode := None;
                    category := DEVICE_DRM; fd := -1; state := a |}).
      assert (owns d0 h1) as Ho by by left.
      assert (dev_step ioctls_succeed None h1 (Some d0) h1) as H0
        by (apply dev_step_none; [by apply dev_step_refl|done]).
      eapply dev_step_trans; [done|exact H0|]. apply finalize_step; try done.
      by eapply dev_step_quiet. }
  set (d := {| major := maj; minor := min; udevice := Some u; devnode := udev_devnode u;
               category := device_category u; fd := -1; state := a |}).
  change (device_category u) with (category d).
  destruct (decide (category d = DEVICE_OTHER)) as [Hc|Hc].
  { intros [= <- <-]. split; [|by intros ? [= <-]]. by apply dev_step_none. }
  destruct (ck_device_open d a h1) as [f h2] eqn:Hopen.
  pose proof (ck_device_open_step d a h1 f h2 Hok1 Hc (λ H, H) Hopen) as Hs2.
  destruct ((f <? 0)%Z && a) eqn:Hf.
  - apply andb_true_iff in Hf as [Hf%Z.ltb_lt ->].
    destruct (ck_device_open d false h2) as [f3 h3] eqn:Hopen3.
    intros [= <- <-]. split; [|by intros ? [= <-]].
    assert (host_ok h2) as Hok2 by apply Hs2.
    assert (fd (set_fd f d) = (-1)%Z) as Hn.
    { destruct (owns_fd (set_fd f d) h2 Hok2) as [|Hp]; [|done|simpl in Hp; lia].
      exact (ds_owns _ _ _ _ _ Hs2 _ eq_refl). }
    eapply dev_step_trans; [done|exact Hstep|].
    eapply dev_step_trans; [done|exact (dev_step_drop _ _ _ _ _ Hs2 Hn)|].
    by eapply (ck_device_open_step d false h2 f3 h3).
  - intros [= <- <-]. split; [|by intros ? [= <-]]. by eapply dev_step_trans.
Qed.
End facts.

(** ** The life of a device *)

Section life.
Context `{OS}.

Fixpoint set_states (d : CkDevice) (l : list bool) (h : host) : CkDevice * host :=
  match l with
  | [] => (d, h)
  | a :: l => let '(d, h) := ck_device_set_active d a h in set_states d l h
  end.

(** Create the device, switch it as the session changes, and drop it. *)
Definition device_life (maj min : Z) (a : bool) (l : list bool) (h : host) : host :=
  match ck_device_new maj min a h with
  | (None, h) => h
  | (Some d, h) => let '(d, h) := set_states d l h in ck_device_finalize d h
  end.

Lemma set_states_step od h0 d l h d' h' :
  host_ok h0 → dev_step ioctls_succeed od h0 (Some d) h → set_states d l h = (d', h') →
  dev_step ioctls_succeed od h0 (Some d') h'.
Proof.
  intros Hok. revert d h. induction l as [|a l IH]; intros d h Hs; simpl.
  - by intros [= <- <-].
  - destruct (ck_device_set_active d a h) as [d1 h1] eqn:E. apply IH.
    eapply dev_step_trans; [done|exact Hs|].
    eapply (set_active_step d a h); [apply Hs| |by eapply dev_step_quiet|exact E].
    exact (ds_owns _ _ _ _ _ Hs _ eq_refl).
Qed.

(** Whatever [open], [ioctl] and udev answer, and however often the
    session is switched, the life of a device leaves the daemon's descriptor
    table exactly as it found it. *)
Theorem device_life_no_leak maj min a l h :
  host_ok h → fds (device_life maj min a l h) = fds h.
Proof.
  intros Hok. assert (dev_step ioctls_succeed None h None (device_life maj min a l h)) as Hs.
  { unfold device_life. destruct (ck_device_new maj min a h) as [[d|] h1] eqn:E;
      destruct (new_step maj min a h _ _ Hok E) as [Hs _]; [|done].
    destruct (set_states d l h1) as [d2 h2] eqn:E2.
    pose proof (set_states_step None h d l h1 d2 h2 Hok Hs E2) as Hs2.
    eapply dev_step_trans; [done|exact Hs2|]. apply finalize_step; [apply Hs2| |].
    - exact (ds_owns _ _ _ _ _ Hs2 _ eq_refl).
    - by eapply dev_step_quiet. }
  apply map_eq. intros f. destruct (fds h !! f) as [p|] eqn:Hp.
  - by apply (ds_keep _ _ _ _ _ Hs f p Hp).
  - destruct (fds (device_life maj min a l h) !! f) as [q|] eqn:Hq; [|done].
    destruct (ds_noleak _ _ _ _ _ Hs f q Hq) as [[? _]|(? & ? & _)]; congruence.
Qed.

(** When ioctls succeed, a device that was created and switched any number
    of times and is now inactive gives no access: whatever description gives
    access did so before the device existed.  This holds of every description
    ever opened, so also of the duplicates its clients kept. *)
Theorem inactive_device_no_access maj min a l h d d' h1 h2 p :
  ioctls_succeed → host_ok h →
  ck_device_new maj min a h = (Some d, h1) → set_states d l h1 = (d', h2) →
  state d' = false → live h2 p → live h p.
Proof.
  intros Hi Hok E E2 Hst Hp. destruct (new_step maj min a h _ _ Hok E) as [Hs _].
  pose proof (set_states_step None h d l h1 d' h2 Hok Hs E2) as Hs2.
  destruct (ds_live _ _ _ _ _ Hs2 Hi p Hp) as [[Hl _]|(e & [= <-] & He & _)]; [done|congruence].
Qed.

Lemma ck_device_open_state b d a h : ck_device_open (set_state b d) a h = ck_device_open d a h.
Proof. done. Qed.

(** A device that could only be opened on the second, inactive, attempt is
    recorded as active although it gives no access, and switching it to active
    is then a no-op: only a later pause and resume can repair it. *)
Theorem fallback_device_stuck maj min h d h1 :
  ioctls_succeed → host_ok h → udev_ctx h = true →
  (os_open (clock h)).1 = (-1)%Z →
  ck_device_new maj min true h = (Some d, h1) →
  state d = true ∧ (∀ p, live h1 p → live h p) ∧ ck_device_set_active d true h1 = (d, h1).
Proof.
  intros Hi Hok Hu Ho. unfold ck_device_new, udev_instance. rewrite Hu. cbn [negb].
  destruct (ck_device_get_udevice_from_devnum maj min) as [u|]; [|done].
  set (d0 := {| major := maj; minor := min; udevice := Some u; devnode := udev_devnode u;
               category := device_category u; fd := -1; state := true |}).
  change (device_category u) with (category d0).
  destruct (decide (category d0 = DEVICE_OTHER)) as [Hc|Hc].
  { intros [= <- <-]. split_and!; done. }
  destruct (ck_device_open d0 true h) as [f h2] eqn:Hopen.
  assert (f = (-1)%Z ∧ (h2 = h ∨ h2 = tick h)) as [-> Hh2].
  { unfold ck_device_open in Hopen. repeat case_match; try (by simplify_eq; eauto);
      unfold g_open in *; destruct (os_open (clock h)) as [r m]; simpl in Ho; subst r;
      simplify_eq/=; by eauto. }
  simpl (_ && _).
  assert (host_ok h2) as Hok2 by (destruct Hh2 as [->| ->]; [done|by apply host_ok_tick]).
  rewrite <- (ck_device_open_state false).
  destruct (ck_device_open (set_state false d0) false h2) as [f3 h3] eqn:Hopen3.
  intros [= <- <-]. split_and!; try done.
  - intros p Hp. pose proof (ck_device_open_step (set_state false d0) false h2 f3 h3 Hok2 Hc
      (λ H, H) Hopen3) as Hs.
    destruct (ds_live _ _ _ _ _ Hs Hi p Hp) as [[Hl _]|(e & [= <-] & He & _)]; [|done].
    by destruct Hh2 as [->| ->].
Qed.
End life.

(** ** Witnesses *)

Definition sample_udev (maj min : Z) : option udev_device :=
  if bool_decide (maj = 13 ∧ min = 64)%Z
  then Some {| udev_subsystem := Some "input"; udev_sysname := Some "event0";
               udev_devnode := Some "/dev/input/event0" |}
  else if bool_decide (maj = 226 ∧ min = 0)%Z
  then Some {| udev_subsystem := Some "drm"; udev_sysname := Some "card0";
               udev_devnode := Some "/dev/dri/card0" |}
  else None.

(** An operating system where the first [fails] requests to [open] fail. *)
Definition sample_os (fails : nat) : OS :=
  {| os_open := λ n, (if bool_decide (n < fails) then (-1)%Z else Z.of_nat (10 + n), true);
     os_errno := λ _, EACCES; os_ioctl := λ _, true; os_isatty := λ _, true;
     os_udev_new := λ _, true; os_udev_device := sample_udev; console_fuel := 1 |}.

Lemma sample_settles fails : @console_settles (sample_os fails).
Proof. intros n. exists n. by split_and!; simpl; [lia..| |]. Qed.

Definition sample_host : host :=
  {| fds := ∅; descs := ∅; shared := ∅; udev_ctx := true; clock := 0 |}.

Lemma sample_host_ok : host_ok sample_host.
Proof. split; simpl; intros *; by rewrite lookup_empty. Qed.
Lemma sample_ioctls n : @ioctls_succeed (sample_os n).
Proof. done. Qed.

Lemma device_life_no_leak_witness :
  fds (@device_life (sample_os 0) 226 0 true [false; true] sample_host) = fds sample_host.
Proof. apply (@device_life_no_leak (sample_os 0)), sample_host_ok. Defined.

Lemma inactive_device_no_access_witness :
  ∃ d h1 d' h2, @ck_device_new (sample_os 0) 13 64 true sample_host = (Some d, h1) ∧
    @set_states (sample_os 0) d [false] h1 = (d', h2) ∧ ∀ p, ¬ live h2 p.
Proof.
  eexists _, _, _, _. split; [vm_compute; reflexivity|]. split; [vm_compute; reflexivity|].
  intros p Hp.
  destruct (@inactive_device_no_access (sample_os 0) 13 64 true [false] sample_host _ _ _ _ p
    (sample_ioctls 0) sample_host_ok eq_refl eq_refl eq_refl Hp) as (x & Hx & _).
  simpl in Hx. by rewrite lookup_empty in Hx.
Defined.

Lemma fallback_device_stuck_witness :
  ∃ d h1, @ck_device_new (sample_os 1) 13 64 true sample_host = (Some d, h1) ∧
    state d = true ∧ ∀ p, ¬ live h1 p.
Proof.
  eexists _, _. split; [vm_compute; reflexivity|].
  destruct (@fallback_device_stuck (sample_os 1) 13 64 sample_host _ _ (sample_ioctls 1)
    sample_host_ok eq_refl eq_refl eq_refl) as (Hs & Hl & _).
  split; [exact Hs|]. intros p (x & Hx & _)%Hl. simpl in Hx. by rewrite lookup_empty in Hx.
Defined.
