(* ===== verification/Session.v ===== *)
(** * Sessions: [src/ck-session.c].

    A session keeps its D-Bus properties in the generated skeleton (here the
    interface [Skeleton]), its controller, the devices the controller took, and
    the state of its virtual terminal while a controller drives it.  Operations
    are programs over the [world] of one session; [None] is an abort, a read
    through a dangling pointer, or the opening of a console that does not end. *)

From S2P Require Import Prelude Device.

(** ** The generated D-Bus skeleton *)

Inductive sprop :=
| P_active | P_idle_hint | P_locked_hint | P_is_local
| P_unix_user | P_user | P_vtnr
| P_x11_display | P_x11_display_device | P_display_device | P_remote_host_name
| P_session_type | P_session_class | P_session_service | P_session_state
| P_seat.

Definition ptype (p : sprop) : Type :=
  match p with
  | P_active | P_idle_hint | P_locked_hint | P_is_local => bool
  | P_unix_user | P_user | P_vtnr => Z
  | P_seat => option (string * string)
  | _ => cstr
  end.
Definition pzero (p : sprop) : ptype p :=
  match p with
  | P_active | P_idle_hint | P_locked_hint | P_is_local => false
  | P_unix_user | P_user | P_vtnr => 0%Z
  | P_seat => None
  | _ => None
  end.
#[export] Instance sprop_eq_dec : EqDecision sprop.
Proof. solve_decision. Defined.

(** What gdbus-codegen promises: [console_kit_session_get_P] returns what was
    last given to [console_kit_session_set_P]. *)
Class Skeleton (K : Type) := {
  sk_new : K;
  sk_get : ∀ p, K → ptype p;
  sk_set : ∀ p, ptype p → K → K;
  sk_get_new : ∀ p, sk_get p sk_new = pzero p;
  sk_get_set : ∀ p v k, sk_get p (sk_set p v k) = v;
  sk_get_set_ne : ∀ p q v k, p ≠ q → sk_get p (sk_set q v k) = sk_get p k
}.

(** The message bus, the user database and the clock. *)
Class Env := {
  bus_unix_user : string → option Z;
  bus_unix_pid : string → option Z;
  getpwuid : Z → option Z;
  current_time : nat → Z;
  iso8601 : Z → string
}.

(** ** Data *)

Inductive CkSessionError :=
| CK_SESSION_ERROR_FAILED
| CK_SESSION_ERROR_GENERAL
| CK_SESSION_ERROR_INSUFFICIENT_PERMISSION
| CK_SESSION_ERROR_NOT_SUPPORTED
| CK_SESSION_ERROR_ALREADY_ACTIVE.

Inductive value := VBool (b : bool) | VInt (z : Z) | VStr (s : string) | VFd (fd : Z).

(** The reply to a method call: a completion with its results, or an error. *)
Inductive reply := Complete (vs : list value) | Throw (e : CkSessionError).

Inductive message :=
| EmitLock | EmitUnlock
| EmitIdleHintChanged (b : bool)
| EmitActiveChanged (b : bool)
| EmitPauseDevice (maj min : Z) (force : bool)
| SendResumeDevice (destination : cstr) (maj min : Z).

(** [CkSessionPrivate] and the skeleton it extends; timers and watches are
    source ids, 0 when unset; the tty idle monitor is known by its device. *)
Record CkSession (K : Type) := {
  skel : K;
  ss_id : cstr;
  ss_path : cstr;
  ss_cookie : cstr;
  seat_id : cstr;
  seat_path : cstr;
  runtime_dir : cstr;
  login_session_id : cstr;
  session_controller : cstr;
  session_controller_watchid : Z;
  devices : list positive;
  pause_devices_timer : Z;
  tty_fd : Z;
  old_kbd_mode : Z;
  sig_watch_s1 : Z;
  sig_watch_s2 : Z;
  creation_time : Z;
  idle_monitor : option cstr;
  idle_since_hint : Z;
  bus_proxy : bool
}.
Arguments skel {K} _. Arguments ss_id {K} _. Arguments ss_path {K} _. Arguments ss_cookie {K} _.
Arguments seat_id {K} _. Arguments seat_path {K} _. Arguments runtime_dir {K} _.
Arguments login_session_id {K} _. Arguments session_controller {K} _.
Arguments session_controller_watchid {K} _. Arguments devices {K} _.
Arguments pause_devices_timer {K} _. Arguments tty_fd {K} _. Arguments old_kbd_mode {K} _.
Arguments sig_watch_s1 {K} _. Arguments sig_watch_s2 {K} _. Arguments creation_time {K} _. Arguments idle_monitor {K} _.
Arguments idle_since_hint {K} _. Arguments bus_proxy {K} _.

(** The virtual terminal the session runs on. *)
Record tty := {
  kd_graphics : bool;
  kbd_mode : Z;
  kbd_muted : bool;
  vt_process : bool;
  vt_owner : option Z
}.

(** The session, the live [CkDevice] objects, the host, the session's virtual
    terminal, what was sent on the bus, and the next source id. *)
Record world (K : Type) := {
  ses : CkSession K;
  devs : gmap positive CkDevice;
  hst : host;
  vt : tty;
  out : list message;
  next_id : Z
}.
Arguments ses {K} _. Arguments devs {K} _. Arguments hst {K} _. Arguments vt {K} _.
Arguments out {K} _. Arguments next_id {K} _.

Section setters.
Context {K : Type}.
Implicit Types (s : CkSession K) (w : world K).

Definition upd_session s (k : K) (ctl : cstr) (watch : Z) (ds : list positive) (timer tfd kbd s1 s2 idle : Z) :
    CkSession K :=
  {| skel := k; ss_id := ss_id s; ss_path := ss_path s; ss_cookie := ss_cookie s;
     seat_id := seat_id s; seat_path := seat_path s; runtime_dir := runtime_dir s;
     login_session_id := login_session_id s; session_controller := ctl;
     session_controller_watchid := watch; devices := ds; pause_devices_timer := timer;
     tty_fd := tfd; old_kbd_mode := kbd; sig_watch_s1 := s1; sig_watch_s2 := s2;
     creation_time := creation_time s; idle_monitor := idle_monitor s; idle_since_hint := idle;
     bus_proxy := bus_proxy s |}.
Definition set_skel (k : K) s : CkSession K :=
  upd_session s k (session_controller s) (session_controller_watchid s) (devices s)
    (pause_devices_timer s) (tty_fd s) (old_kbd_mode s) (sig_watch_s1 s) (sig_watch_s2 s) (idle_since_hint s).
Definition set_controller (c : cstr) (watch : Z) s : CkSession K :=
  upd_session s (skel s) c watch (devices s)
    (pause_devices_timer s) (tty_fd s) (old_kbd_mode s) (sig_watch_s1 s) (sig_watch_s2 s) (idle_since_hint s).
Definition set_devices (l : list positive) s : CkSession K :=
  upd_session s (skel s) (session_controller s) (session_controller_watchid s) l
    (pause_devices_timer s) (tty_fd s) (old_kbd_mode s) (sig_watch_s1 s) (sig_watch_s2 s) (idle_since_hint s).
Definition set_timer (t : Z) s : CkSession K :=
  upd_session s (skel s) (session_controller s) (session_controller_watchid s) (devices s)
    t (tty_fd s) (old_kbd_mode s) (sig_watch_s1 s) (sig_watch_s2 s) (idle_since_hint s).
Definition set_tty (tfd kbd s1 s2 : Z) s : CkSession K :=
  upd_session s (skel s) (session_controller s) (session_controller_watchid s) (devices s)
    (pause_devices_timer s) tfd kbd s1 s2 (idle_since_hint s).
Definition set_idle_since (t : Z) s : CkSession K :=
  upd_session s (skel s) (session_controller s) (session_controller_watchid s) (devices s)
    (pause_devices_timer s) (tty_fd s) (old_kbd_mode s) (sig_watch_s1 s) (sig_watch_s2 s) t.
(** The fields that no client operation changes. *)
Definition upd_about s (seat path rdir login : cstr) (mon : option cstr) (proxy : bool) : CkSession K :=
  {| skel := skel s; ss_id := ss_id s; ss_path := ss_path s; ss_cookie := ss_cookie s;
     seat_id := seat; seat_path := path; runtime_dir := rdir; login_session_id := login;
     session_controller := session_controller s; session_controller_watchid := session_controller_watchid s;
     devices := devices s; pause_devices_timer := pause_devices_timer s; tty_fd := tty_fd s;
     old_kbd_mode := old_kbd_mode s; sig_watch_s1 := sig_watch_s1 s; sig_watch_s2 := sig_watch_s2 s;
     creation_time := creation_time s; idle_monitor := mon; idle_since_hint := idle_since_hint s;
     bus_proxy := proxy |}.
Definition set_seat_fields (id path : cstr) s : CkSession K :=
  upd_about s id path (runtime_dir s) (login_session_id s) (idle_monitor s) (bus_proxy s).
Definition set_runtime_dir (d : cstr) s : CkSession K :=
  upd_about s (seat_id s) (seat_path s) d (login_session_id s) (idle_monitor s) (bus_proxy s).
Definition set_login_session_id (l : cstr) s : CkSession K :=
  upd_about s (seat_id s) (seat_path s) (runtime_dir s) l (idle_monitor s) (bus_proxy s).
Definition set_idle_monitor (m : option cstr) s : CkSession K :=
  upd_about s (seat_id s) (seat_path s) (runtime_dir s) (login_session_id s) m (bus_proxy s).
Definition set_bus_proxy (b : bool) s : CkSession K :=
  upd_about s (seat_id s) (seat_path s) (runtime_dir s) (login_session_id s) (idle_monitor s) b.

Definition set_ses s w : world K :=
  {| ses := s; devs := devs w; hst := hst w; vt := vt w; out := out w; next_id := next_id w |}.
Definition set_devs (m : gmap positive CkDevice) w : world K :=
  {| ses := ses w; devs := m; hst := hst w; vt := vt w; out := out w; next_id := next_id w |}.
Definition set_hst (h : host) w : world K :=
  {| ses := ses w; devs := devs w; hst := h; vt := vt w; out := out w; next_id := next_id w |}.
Definition set_vt (t : tty) w : world K :=
  {| ses := ses w; devs := devs w; hst := hst w; vt := t; out := out w; next_id := next_id w |}.
Definition emit_msg (m : message) w : world K :=
  {| ses := ses w; devs := devs w; hst := hst w; vt := vt w; out := out w ++ [m]; next_id := next_id w |}.
Definition set_next_id (n : Z) w : world K :=
  {| ses := ses w; devs := devs w; hst := hst w; vt := vt w; out := out w; next_id := n |}.
End setters.

Definition set_kd (b : bool) (t : tty) : tty :=
  {| kd_graphics := b; kbd_mode := kbd_mode t; kbd_muted := kbd_muted t; vt_process := vt_process t;
     vt_owner := vt_owner t |}.
Definition set_kbd (m : Z) (t : tty) : tty :=
  {| kd_graphics := kd_graphics t; kbd_mode := m; kbd_muted := kbd_muted t; vt_process := vt_process t;
     vt_owner := vt_owner t |}.
Definition set_mute (b : bool) (t : tty) : tty :=
  {| kd_graphics := kd_graphics t; kbd_mode := kbd_mode t; kbd_muted := b; vt_process := vt_process t;
     vt_owner := vt_owner t |}.
Definition set_vt_mode (b : bool) (t : tty) : tty :=
  {| kd_graphics := kd_graphics t; kbd_mode := kbd_mode t; kbd_muted := kbd_muted t; vt_process := b;
     vt_owner := vt_owner t |}.
Definition set_owner (u : Z) (t : tty) : tty :=
  {| kd_graphics := kd_graphics t; kbd_mode := kbd_mode t; kbd_muted := kbd_muted t;
     vt_process := vt_process t; vt_owner := Some u |}.

(** [K_OFF] of linux/kd.h. *)
Definition KBD_OFF_MODE : Z := 4.

Section session.
Context {HOS : OS} {HEnv : Env} {K : Type} {HSkel : Skeleton K}.

Abbreviation prog_ := (prog (world K)).

(** ** Building blocks *)

Definition get_prop (p : sprop) : prog_ (ptype p) := prog_gets (λ w, sk_get p (skel (ses w))).
Definition set_prop (p : sprop) (v : ptype p) : prog_ unit :=
  prog_modify (λ w, set_ses (set_skel (sk_set p v (skel (ses w))) (ses w)) w).
Definition field {A} (f : CkSession K → A) : prog_ A := prog_gets (λ w, f (ses w)).
Definition modify_ses (f : CkSession K → CkSession K) : prog_ unit :=
  prog_modify (λ w, set_ses (f (ses w)) w).
Definition emit (m : message) : prog_ unit := prog_modify (emit_msg m).
Definition on_host {A} (f : host → A * host) : prog_ A :=
  λ w, let '(a, h) := f (hst w) in Some (a, set_hst h w).
(** A fresh id for a source, a timeout or a bus-name watch. *)
Definition new_source : prog_ Z := λ w, Some (next_id w, set_next_id (next_id w + 1) w).

Definition deref (d : positive) : prog_ CkDevice :=
  λ w, match devs w !! d with Some x => Some (x, w) | None => None end.
Definition store (d : positive) (x : CkDevice) : prog_ unit :=
  prog_modify (λ w, set_devs (<[d := x]> (devs w)) w).
Definition device_set_active (d : positive) (b : bool) : prog_ unit :=
  x ← deref d; x ← on_host (ck_device_set_active x b); store d x.
(** [g_object_unref] of the session's only reference. *)
Definition device_unref (d : positive) : prog_ unit :=
  x ← deref d; on_host (λ h, (tt, ck_device_finalize x h));;
  prog_modify (λ w, set_devs (delete d (devs w)) w).

(** ** Locking and hints *)

Definition ck_session_lock : prog_ unit := set_prop P_locked_hint true;; emit EmitLock.
Definition ck_session_unlock : prog_ unit := set_prop P_locked_hint false;; emit EmitUnlock.
Definition dbus_lock : prog_ reply := ck_session_lock;; mret (Complete []).
Definition dbus_unlock : prog_ reply := ck_session_unlock;; mret (Complete []).

(** The caller's uid and pid; without a bus proxy the failed call leaves
    [error] NULL and the warning reads through it. *)
Definition get_caller_info (sender : cstr) : prog_ (option (Z * Z)) :=
  match sender with
  | None => mret None
  | Some sender =>
      proxy ← field bus_proxy;
      if negb proxy then prog_abort
      else match bus_unix_user sender with
      | None => mret None
      | Some uid =>
          match bus_unix_pid sender with
          | None => mret None
          | Some pid => mret (Some (uid, pid))
          end
      end
  end.

Definition session_set_idle_hint_internal (idle_hint : bool) : prog_ bool :=
  b ← get_prop P_idle_hint;
  (if Bool.eqb b idle_hint then mret tt
   else set_prop P_idle_hint idle_hint;;
        now ← on_host (λ h, (current_time (clock h), tick h));
        modify_ses (set_idle_since now);;
        emit (EmitIdleHintChanged idle_hint));;
  mret true.

Definition dbus_get_idle_since_hint : prog_ reply :=
  b ← get_prop P_idle_hint;
  if (b : bool) then t ← field idle_since_hint; mret (Complete [VStr (iso8601 t)])
  else mret (Throw CK_SESSION_ERROR_GENERAL).

Definition dbus_get_idle_hint : prog_ reply :=
  b ← get_prop P_idle_hint; mret (Complete [VBool b]).

Definition dbus_set_idle_hint (sender : cstr) (idle_hint : bool) : prog_ reply :=
  info ← get_caller_info sender;
  match info with
  | None => mret (Throw CK_SESSION_ERROR_FAILED)
  | Some (calling_uid, _) =>
      owner ← get_prop P_unix_user;
      if negb (Z.eqb owner calling_uid) then mret (Throw CK_SESSION_ERROR_INSUFFICIENT_PERMISSION)
      else session_set_idle_hint_internal idle_hint;; mret (Complete [])
  end.

Definition dbus_set_locked_hint (sender : cstr) (locked_hint : bool) : prog_ reply :=
  info ← get_caller_info sender;
  match info with
  | None => mret (Throw CK_SESSION_ERROR_FAILED)
  | Some (calling_uid, _) =>
      owner ← get_prop P_unix_user;
      if negb (Z.eqb owner calling_uid) then mret (Throw CK_SESSION_ERROR_INSUFFICIENT_PERMISSION)
      else set_prop P_locked_hint locked_hint;; mret (Complete [])
  end.

(** ** Getters with defaults *)

Definition or_default (d : string) (v : cstr) : string := default d v.
Definition get_string (p : sprop) (proj : ptype p → cstr) (d : string) : prog_ reply :=
  v ← get_prop p; mret (Complete [VStr (or_default d (proj v))]).

Definition dbus_get_session_service : prog_ reply := get_string P_session_service (λ v, v) "unspecified".
Definition dbus_get_session_type : prog_ reply := get_string P_session_type (λ v, v) "unspecified".
Definition dbus_get_session_class : prog_ reply := get_string P_session_class (λ v, v) "user".
Definition dbus_get_session_state : prog_ reply := get_string P_session_state (λ v, v) "online".
Definition dbus_get_x11_display : prog_ reply := get_string P_x11_display (λ v, v) "".
Definition dbus_get_display_device : prog_ reply := get_string P_display_device (λ v, v) "".
Definition dbus_get_x11_display_device : prog_ reply := get_string P_x11_display_device (λ v, v) "".
Definition dbus_get_remote_host_name : prog_ reply := get_string P_remote_host_name (λ v, v) "".
Definition dbus_get_unix_user : prog_ reply := u ← get_prop P_unix_user; mret (Complete [VInt u]).
Definition dbus_get_vtnr : prog_ reply := n ← get_prop P_vtnr; mret (Complete [VInt n]).
Definition dbus_is_local : prog_ reply := b ← get_prop P_is_local; mret (Complete [VBool b]).
Definition dbus_is_active : prog_ reply := b ← get_prop P_active; mret (Complete [VBool b]).
Definition dbus_get_creation_time : prog_ reply :=
  t ← field creation_time; mret (Complete [VStr (iso8601 t)]).
Definition dbus_get_login_session_id : prog_ reply :=
  l ← field login_session_id; mret (Complete [VStr (or_default "" l)]).
Definition dbus_get_id : prog_ reply := p ← field ss_path; mret (Complete [VStr (or_default "" p)]).
Definition dbus_get_seat_id : prog_ reply :=
  i ← field seat_id;
  match i with
  | None => mret (Throw CK_SESSION_ERROR_FAILED)
  | Some _ => p ← field seat_path; mret (Complete [VStr (or_default "" p)])
  end.
Definition dbus_get_runtime_dir : prog_ reply :=
  d ← field runtime_dir;
  match d with
  | None => mret (Throw CK_SESSION_ERROR_FAILED)
  | Some d => mret (Complete [VStr d])
  end.

(** [register_session] on an exported object: the defaults of the properties
    (the last test reads and sets the session class again). *)
Definition default_str (p : sprop) (proj : ptype p → cstr) (inj : cstr → ptype p) (d : string) : prog_ unit :=
  v ← get_prop p;
  match proj v with None => set_prop p (inj (Some d)) | Some _ => mret tt end.

Definition register_session : prog_ unit :=
  default_str P_session_type (λ v, v) (λ v, v) "unspecified";;
  default_str P_session_service (λ v, v) (λ v, v) "unspecified";;
  default_str P_session_class (λ v, v) (λ v, v) "user";;
  default_str P_session_class (λ v, v) (λ v, v) "online".

(** [IS_STR_SET]. *)
Definition is_str_set (v : cstr) : bool := match v with Some s => negb (String.eqb s "") | None => false end.
Definition session_is_text : prog_ bool :=
  xd ← get_prop P_x11_display_device; x ← get_prop P_x11_display; d ← get_prop P_display_device;
  mret (negb (is_str_set xd) && negb (is_str_set x) && is_str_set d).

(** ** Pausing and resuming the devices *)

Definition mark_inactive : prog_ unit :=
  set_prop P_active false;; emit (EmitActiveChanged false);; set_prop P_session_state (Some "online").
Definition mark_active : prog_ unit :=
  set_prop P_active true;; emit (EmitActiveChanged true);; set_prop P_session_state (Some "active").

(** Is some device of the list still active? *)
Fixpoint any_active (l : list positive) : prog_ bool :=
  match l with
  | [] => mret false
  | d :: l => x ← deref d; if state x then mret true else any_active l
  end.

Definition ck_session_check_paused_devices : prog_ unit :=
  l ← field devices;
  some ← any_active l;
  if (some : bool) then mret tt
  else
    a ← get_prop P_active;
    (if (a : bool) then mark_inactive else mret tt);;
    modify_ses (set_timer 0).

Definition force_pause_devices : prog_ bool :=
  l ← field devices;
  for_each (λ d, device_set_active d false) l;;
  modify_ses (set_timer 0);;
  ck_session_check_paused_devices;;
  mret false.

Definition pause_device (force : bool) (d : positive) : prog_ unit :=
  x ← deref d;
  if negb (state x) then mret tt
  else
    emit (EmitPauseDevice (major x) (minor x) force);;
    if force then device_set_active d false else mret tt.

Definition ck_session_pause_all_devices (force : bool) : prog_ unit :=
  l ← field devices;
  for_each (pause_device force) l;;
  if force || bool_decide (l = [])
  then mark_inactive
  else t ← new_source; modify_ses (set_timer t).

(** [ck_open_a_console (ck_get_console_device_for_num (vtnr))]. *)
Definition open_vt_console : prog_ Z :=
  λ w, match open_a_console console_fuel (hst w) with
       | Some (fd, h) => Some (fd, set_hst h w)
       | None => None
       end.

(** The console is opened only to change its owner. *)
Definition chown_console (vtnr : Z) : prog_ unit :=
  if Z.ltb 0 vtnr then
    uid ← get_prop P_unix_user;
    fd ← open_vt_console;
    if Z.leb 0 fd then
      (match getpwuid uid with
       | None => mret tt
       | Some _ =>
           ok ← on_host (λ h, (os_ioctl (clock h), tick h));
           if (ok : bool) then prog_modify (λ w, set_vt (set_owner uid (vt w)) w) else mret tt
       end);;
      on_host (λ h, (tt, g_close fd h))
    else mret tt
  else mret tt.

(** The client gets a duplicate of the descriptor. *)
Definition share_fd (f : Z) : prog_ unit :=
  on_host (λ h, (tt, match fds h !! f with Some p => share p h | None => h end)).

Definition resume_device (d : positive) : prog_ unit :=
  device_set_active d true;;
  x ← deref d;
  if Z.ltb (fd x) 0 then mret tt
  else
    c ← field session_controller;
    share_fd (fd x);;
    emit (SendResumeDevice c (major x) (minor x)).

Definition ck_session_resume_all_devices : prog_ unit :=
  n ← get_prop P_vtnr;
  chown_console (i32 n);;
  c ← field session_controller;
  match (c : cstr) with
  | None => mark_active
  | Some _ => l ← field devices; for_each resume_device l;; mark_active
  end.

Definition ck_session_set_active (active force : bool) : prog_ bool :=
  a ← get_prop P_active;
  if Bool.eqb a active then mret true
  else
    modify_ses (set_timer 0);;
    (if active then ck_session_resume_all_devices else ck_session_pause_all_devices force);;
    mret true.

(** ** The session controller *)

Definition tty_ioctl (fd : Z) (f : tty → tty) : prog_ bool :=
  λ w, let ok := os_ioctl (clock (hst w)) && bool_decide (is_Some (fds (hst w) !! fd)) in
       let w := set_hst (tick (hst w)) w in
       Some (ok, if ok then set_vt (f (vt w)) w else w).

Definition vt_leave_handler : prog_ bool :=
  ck_session_pause_all_devices true;;
  f ← field tty_fd;
  tty_ioctl f (λ t, t);;
  mret true.
Definition vt_acquire_handler : prog_ bool :=
  f ← field tty_fd; tty_ioctl f (λ t, t);; mret true.

(** Linux: the terminal is put in graphics mode and its keyboard muted and
    switched off, then VT switching is taken over. *)
Definition ck_session_setup_vt_signal : prog_ unit :=
  f ← open_vt_console;
  kbd ← field old_kbd_mode; s1 ← field sig_watch_s1; s2 ← field sig_watch_s2;
  modify_ses (set_tty f kbd s1 s2);;
  if Z.ltb f 0 then mret tt
  else
    ok ← tty_ioctl f (λ t, t);
    old ← prog_gets (λ w, kbd_mode (vt w));
    (if (ok : bool) then modify_ses (set_tty f old s1 s2) else mret tt);;
    ok ← tty_ioctl f (λ t, t);
    if negb ok then mret tt
    else
      graphical ← prog_gets (λ w, kd_graphics (vt w));
      if (graphical : bool) then mret tt
      else
        ok ← tty_ioctl f (set_kd true);
        if negb ok then mret tt
        else
          tty_ioctl f (set_mute true);;
          tty_ioctl f (set_kbd KBD_OFF_MODE);;
          ok ← tty_ioctl f (set_vt_mode true);
          if negb ok then mret tt
          else
            i1 ← new_source; i2 ← new_source;
            kbd ← field old_kbd_mode;
            modify_ses (set_tty f kbd i1 i2).

Definition ck_session_remove_all_devices : prog_ unit :=
  l ← field devices;
  for_each device_unref l;;
  modify_ses (set_devices []).

(** Restore the terminal, if its signals were set up, and close it. *)
Definition restore_vt : prog_ unit :=
  s1 ← field sig_watch_s1;
  f ← field tty_fd;
  kbd ← field old_kbd_mode;
  (if Z.eqb s1 0 then mret tt
   else
     tty_ioctl f (set_mute false);;
     tty_ioctl f (set_kbd kbd);;
     tty_ioctl f (set_vt_mode false);;
     tty_ioctl f (set_kd false);;
     modify_ses (set_tty f kbd 0 0));;
  if Z.eqb f (-1) then mret tt
  else
    on_host (λ h, (tt, g_close f h));;
    s1 ← field sig_watch_s1; s2 ← field sig_watch_s2;
    modify_ses (set_tty (-1) kbd s1 s2).

Definition ck_session_controller_cleanup : prog_ unit :=
  modify_ses (set_controller None 0);;
  modify_ses (set_timer 0);;
  ck_session_remove_all_devices;;
  restore_vt.

Definition ck_session_set_session_controller (bus_name : cstr) : prog_ unit :=
  ck_session_controller_cleanup;;
  match bus_name with
  | None => mret tt
  | Some n =>
      i ← new_source;
      modify_ses (set_controller (Some n) i);;
      vtnr ← get_prop P_vtnr;
      if Z.ltb 0 vtnr then ck_session_setup_vt_signal else mret tt
  end.

Definition session_controller_vanished : prog_ unit :=
  c ← field session_controller;
  modify_ses (set_controller c 0);;
  ck_session_set_session_controller None.

Definition dbus_can_control_session : prog_ reply := mret (Complete [VBool ck_device_is_server_managed]).

Definition dbus_take_control (sender : cstr) (force : bool) : prog_ reply :=
  if negb ck_device_is_server_managed then mret (Throw CK_SESSION_ERROR_NOT_SUPPORTED)
  else
    info ← get_caller_info sender;
    match info with
    | None => mret (Throw CK_SESSION_ERROR_GENERAL)
    | Some (uid, _) =>
        c ← field session_controller;
        if bool_decide (c = sender) then mret (Complete [])
        else if bool_decide (c = None) || (force && Z.eqb uid 0) then
          ck_session_set_session_controller sender;; mret (Complete [])
        else if force then mret (Throw CK_SESSION_ERROR_INSUFFICIENT_PERMISSION)
        else mret (Throw CK_SESSION_ERROR_FAILED)
    end.

Definition dbus_release_control (sender : cstr) : prog_ reply :=
  c ← field session_controller;
  if bool_decide (c = sender) then ck_session_set_session_controller None;; mret (Complete [])
  else mret (Throw CK_SESSION_ERROR_FAILED).

(** ** Devices of the controller *)

Fixpoint list_remove (d : positive) (l : list positive) : list positive :=
  match l with
  | [] => []
  | e :: l => if decide (e = d) then l else e :: list_remove d l
  end.

(** The first device with these numbers; a dead input device is dropped from
    the list instead. *)
Fixpoint find_device (maj min : Z) (l : list positive) : prog_ (option positive) :=
  match l with
  | [] => mret None
  | d :: l =>
      x ← deref d;
      if ck_device_compare x maj min then
        if decide (category x = DEVICE_EVDEV) then
          dead ← on_host (λ h, (is_dead_fd (fd x) h, h));
          if (dead : bool) then
            all ← field devices;
            modify_ses (set_devices (list_remove d all));;
            mret None
          else mret (Some d)
        else mret (Some d)
      else find_device maj min l
  end.

Definition ck_session_get_device (maj min : Z) : prog_ (option positive) :=
  l ← field devices; find_device maj min l.

Definition ck_session_create_device (maj min : Z) : prog_ (option positive) :=
  found ← ck_session_get_device maj min;
  match found with
  | Some d => mret (Some d)
  | None =>
      a ← get_prop P_active;
      x ← on_host (ck_device_new maj min a);
      match x with
      | None => mret None
      | Some x =>
          d ← prog_gets (λ w, fresh (dom (devs w)));
          store d x;;
          l ← field devices;
          modify_ses (set_devices (d :: l));;
          mret (Some d)
      end
  end.

Definition ck_session_remove_device (d : positive) : prog_ unit :=
  l ← field devices; modify_ses (set_devices (list_remove d l)).

Definition dbus_take_device (sender : cstr) (maj min : Z) : prog_ reply :=
  c ← field session_controller;
  if negb (bool_decide (c = sender)) then mret (Throw CK_SESSION_ERROR_FAILED)
  else
    found ← ck_session_get_device maj min;
    match found with
    | Some _ => mret (Throw CK_SESSION_ERROR_GENERAL)
    | None =>
        made ← ck_session_create_device maj min;
        match made with
        | None => mret (Throw CK_SESSION_ERROR_NOT_SUPPORTED)
        | Some d =>
            x ← deref d;
            if Z.eqb (fd x) (-1) then mret (Throw CK_SESSION_ERROR_NOT_SUPPORTED)
            else
              share_fd (fd x);;
              a ← get_prop P_active;
              mret (Complete [VFd (fd x); VBool a])
        end
    end.

Definition dbus_release_device (sender : cstr) (maj min : Z) : prog_ reply :=
  c ← field session_controller;
  if negb (bool_decide (c = sender)) then mret (Throw CK_SESSION_ERROR_FAILED)
  else
    found ← ck_session_get_device maj min;
    match found with
    | None => mret (Throw CK_SESSION_ERROR_FAILED)
    | Some d =>
        ck_session_remove_device d;;
        device_unref d;;
        mret (Complete [])
    end.

Definition dbus_pause_device_complete (sender : cstr) (maj min : Z) : prog_ reply :=
  c ← field session_controller;
  if negb (bool_decide (c = sender)) then mret (Throw CK_SESSION_ERROR_FAILED)
  else
    found ← ck_session_get_device maj min;
    match found with
    | None => mret (Throw CK_SESSION_ERROR_FAILED)
    | Some d =>
        device_set_active d false;;
        ck_session_check_paused_devices;;
        mret (Complete [])
    end.

(** ** Creation and finalisation *)

Definition new_session (ssid cookie : string) (proxy : bool) (now : Z) : CkSession K :=
  {| skel := sk_new; ss_id := Some ssid;
     ss_path := Some ("/org/freedesktop/ConsoleKit/" +:+ ssid); ss_cookie := Some cookie;
     seat_id := None; seat_path := None; runtime_dir := None; login_session_id := None;
     session_controller := None; session_controller_watchid := 0; devices := [];
     pause_devices_timer := 0; tty_fd := -1; old_kbd_mode := 0; sig_watch_s1 := 0;
     sig_watch_s2 := 0; creation_time := now; idle_monitor := None; idle_since_hint := 0; bus_proxy := proxy |}.

Definition session_remove_activity_watch : prog_ unit := modify_ses (set_idle_monitor None).
Definition ck_session_finalize : prog_ unit :=
  session_remove_activity_watch;;
  ck_session_set_session_controller None;;
  ck_session_remove_all_devices.

(** ** Runs of a session *)

(** What can happen to a session: a D-Bus call, a call from the seat or the
    manager (which also sets its other properties), a signal of its terminal,
    a timeout, or the controller leaving the bus. *)
Inductive session_op :=
| OpSetActive (active force : bool)
| OpTakeControl (sender : string) (force : bool)
| OpReleaseControl (sender : string)
| OpControllerVanished
| OpTakeDevice (sender : string) (maj min : Z)
| OpReleaseDevice (sender : string) (maj min : Z)
| OpPauseDeviceComplete (sender : string) (maj min : Z)
| OpVtLeave
| OpVtAcquire
| OpPauseTimeout
| OpSetIdleHint (sender : string) (b : bool)
| OpSetLockedHint (sender : string) (b : bool)
| OpTtyIdle (b : bool)
| OpLock
| OpUnlock
| OpSetProp (p : sprop) (v : ptype p) (Hp : p ≠ P_active).

Definition run (o : session_op) : prog_ unit :=
  match o with
  | OpSetActive a f => ck_session_set_active a f;; mret tt
  | OpTakeControl s f => dbus_take_control (Some s) f;; mret tt
  | OpReleaseControl s => dbus_release_control (Some s);; mret tt
  | OpControllerVanished => session_controller_vanished
  | OpTakeDevice s a b => dbus_take_device (Some s) a b;; mret tt
  | OpReleaseDevice s a b => dbus_release_device (Some s) a b;; mret tt
  | OpPauseDeviceComplete s a b => dbus_pause_device_complete (Some s) a b;; mret tt
  | OpVtLeave => vt_leave_handler;; mret tt
  | OpVtAcquire => vt_acquire_handler;; mret tt
  | OpPauseTimeout => force_pause_devices;; mret tt
  | OpSetIdleHint s b => dbus_set_idle_hint (Some s) b;; mret tt
  | OpSetLockedHint s b => dbus_set_locked_hint (Some s) b;; mret tt
  | OpTtyIdle b => session_set_idle_hint_internal b;; mret tt
  | OpLock => dbus_lock;; mret tt
  | OpUnlock => dbus_unlock;; mret tt
  | OpSetProp p v _ => set_prop p v
  end.

(** A new session on a host where the daemon has nothing open. *)
Definition initial_world (ssid cookie : string) (h : host) (t : tty) : world K :=
  {| ses := new_session ssid cookie true (current_time (clock h)); devs := ∅; hst := h; vt := t;
     out := []; next_id := 1 |}.

Inductive session_reachable (w0 : world K) : world K → Prop :=
| sr_init : session_reachable w0 w0
| sr_step w w' o : session_reachable w0 w → run o w = Some (tt, w') → session_reachable w0 w'.
End session.
