(* ===== verification/SessionFacts.v ===== *)
(** * Sessions: theorems about [Session].

    The invariant [sinv] ties the session's device list to the heap of devices
    and the host's descriptors.  Every operation that returns keeps it, none aborts, and
    it gives the access-control property of a session: while it is inactive, or
    has no controller, no client can use any input or DRM device through it. *)

From S2P Require Import Prelude Device DeviceFacts Session.
From stdpp Require Import fin_maps fin_map_dom.

Section heap.
Context {HOS : OS}.

(** The devices of a heap, the console descriptor [tfd], and the host. *)
Record hinv (m : gmap positive CkDevice) (tfd : Z) (h : host) : Prop := {
  hi_ok : host_ok h;
  hi_owns : ∀ d x, m !! d = Some x → owns x h;
  hi_quiet : ∀ d x, m !! d = Some x → quiet x h;
  hi_disj : ∀ d e x y, m !! d = Some x → m !! e = Some y → d ≠ e → fd x = fd y → fd x = (-1)%Z;
  hi_tty : tfd = (-1)%Z ∨
    (is_Some (fds h !! tfd) ∧ ∀ d x, m !! d = Some x → fd x ≠ tfd);
  hi_all : ∀ f p, fds h !! f = Some p → f = tfd ∨ ∃ d x, m !! d = Some x ∧ fd x = f;
  hi_live : ioctls_succeed → ∀ p, live h p →
    ∃ d x, m !! d = Some x ∧ state x = true ∧ fds h !! fd x = Some p
}.

Lemma owns_lookup d h : owns d h → fd d ≠ (-1)%Z → ∃ p, fds h !! fd d = Some p.
Proof. intros [?|(_ & p & x & Hp & _)] Hn; [done|by exists p]. Qed.

(** One device of the heap takes a step; the others are untouched. *)
Lemma hinv_step m m' d tfd h od h' :
  hinv m tfd h → dev_step ioctls_succeed (m !! d) h od h' →
  m' !! d = od → (∀ e, e ≠ d → m' !! e = m !! e) → hinv m' tfd h'.
Proof.
  intros [Hok Hown Hq Hdisj Htty Hall Hlive] Hs Hd Hother.
  assert (∀ e y, e ≠ d → m !! e = Some y → ∀ x, m !! d = Some x → fd y ≠ (-1)%Z → fd x ≠ fd y) as Hne.
  { intros e y Hed He x Hx Hn Heq. apply Hn. by apply (Hdisj e d y x). }
  assert (∀ e y p, e ≠ d → m !! e = Some y → fds h !! fd y = Some p →
    fds h' !! fd y = Some p ∧ descs h' !! p = descs h !! p) as Hkeep.
  { intros e y p Hed He Hp. apply (ds_keep _ _ _ _ _ Hs _ p Hp). intros x Hx.
    apply (Hne e y); try done. by eapply host_ok_neg. }
  assert (∀ x p f, od = Some x → fds h !! f = Some p → (∀ y, m !! d = Some y → fd y ≠ f) →
    fd x ≠ f) as Hnew.
  { intros x p f -> Hf Hy <-. destruct (ds_own _ _ _ _ _ Hs x eq_refl) as [Hn|[(y & Hy' & He)|Hn]].
    - by destruct (host_ok_neg h _ p Hok Hf).
    - by apply (Hy y).
    - congruence. }
  split.
  - apply Hs.
  - intros e y He. destruct (decide (e = d)) as [->|Hed].
    + apply (ds_owns _ _ _ _ _ Hs). congruence.
    + rewrite Hother in He by done. destruct (Hown e y He) as [|(Hc & p & x & Hp & Hx & Hk)]; [by left|].
      right. split; [done|]. exists p, x. destruct (Hkeep e y p Hed He Hp) as [-> ->]. done.
  - intros e y He. destruct (decide (e = d)) as [->|Hed].
    + intros Hi Hst p Hp. apply (ds_quiet _ _ _ _ _ Hs Hi y p); congruence.
    + rewrite Hother in He by done. intros Hi Hst p Hp Hl.
      destruct (decide (fd y = (-1)%Z)) as [Hn|Hn].
      { rewrite Hn in Hp. by eapply (host_ok_neg h'); [apply Hs|exact Hp|]. }
      destruct (owns_lookup y h (Hown e y He) Hn) as [q Hq'].
      destruct (Hkeep e y q Hed He Hq') as [Hq2 _].
      assert (q = p) as -> by congruence.
      destruct (ds_live _ _ _ _ _ Hs Hi p Hl) as [[Hl' _]|(x & Hx & _ & Hfx)].
      * by apply (Hq e y He Hi Hst p).
      * apply (Hnew x p (fd y) Hx Hq').
        -- intros x0 Hx0. by apply (Hne e y).
        -- apply (ho_inj h' (ds_ok _ _ _ _ _ Hs) _ _ p); done.
  - intros a b x y Ha Hb Hab Hfd.
    destruct (decide (fd x = (-1)%Z)) as [|Hn]; [done|exfalso].
    destruct (decide (a = d)) as [->|Had]; destruct (decide (b = d)) as [->|Hbd]; try done.
    + rewrite (Hother b Hbd) in Hb.
      destruct (owns_lookup y h (Hown b y Hb)) as [p Hp]; [congruence|].
      apply (Hnew x p (fd y)); [congruence|done| |done].
      intros x0 Hx0. apply (Hne b y); try done. congruence.
    + rewrite (Hother a Had) in Ha.
      destruct (owns_lookup x h (Hown a x Ha)) as [p Hp]; [done|].
      apply (Hnew y p (fd x)); [congruence|done| |done].
      intros x0 Hx0. by apply (Hne a x).
    + rewrite (Hother a Had) in Ha. rewrite (Hother b Hbd) in Hb. by apply Hn, (Hdisj a b x y).
  - destruct Htty as [|[[p Hp] Ht]]; [by left|right].
    assert (∀ x, m !! d = Some x → fd x ≠ tfd) as Hxt by (intros; by eapply Ht).
    split.
    + exists p. by apply (ds_keep _ _ _ _ _ Hs tfd p Hp).
    + intros e y He. destruct (decide (e = d)) as [->|Hed].
      * apply (Hnew y p tfd); congruence || done.
      * rewrite Hother in He by done. by eapply Ht.
  - intros f p Hf. destruct (ds_noleak _ _ _ _ _ Hs f p Hf) as [[Hf0 Hx]|(x & Hx & Hfx)].
    + destruct (Hall f p Hf0) as [|(e & y & He & Hy)]; [by left|right].
      assert (e ≠ d) by (intros ->; by eapply Hx).
      exists e, y. by rewrite Hother.
    + right. exists d, x. split; congruence.
  - intros Hi p Hl. destruct (ds_live _ _ _ _ _ Hs Hi p Hl) as [[Hl' Hx]|(x & Hx & Hst & Hfx)].
    + destruct (Hlive Hi p Hl') as (e & y & He & Hst & Hp).
      assert (e ≠ d) as Hed by (intros ->; by eapply Hx).
      exists e, y. rewrite Hother by done. split_and!; try done.
      by apply (Hkeep e y p).
    + exists d, x. split_and!; try done. congruence.
Qed.

(** Only the descriptor table, the descriptions and their access matter. *)
Lemma hinv_same m tfd h h' :
  hinv m tfd h → fds h' = fds h → descs h' = descs h → hinv m tfd h'.
Proof.
  intros [[H1 H2] Hown Hq Hdisj Htty Hall Hlive] Hf Hd.
  assert (∀ p, live h' p ↔ live h p) as Hl by (intros p; unfold live; by rewrite Hd).
  split; rewrite ?Hf; try done.
  - split; rewrite ?Hf, ?Hd; done.
  - intros d x Hx. unfold owns. rewrite Hf, Hd. by eapply Hown.
  - intros d x Hx Hi Hs p. rewrite Hf, Hl. by eapply Hq.
  - intros Hi p. rewrite Hl. by apply Hlive.
Qed.

(** Opening the console. *)
Lemma hinv_open m h f h' :
  hinv m (-1) h → g_open DEVICE_OTHER h = (f, h') → hinv m f h'.
Proof.
  intros Hi Hopen. pose proof Hi as [Hok Hown Hq Hdisj Htty Hall Hlive].
  destruct (g_open_spec _ _ _ _ Hok Hopen) as
    [[-> ->]|(Hf & Hnone & p & x & Hp & Hsh & Hfds & Hdescs & Hkx & Hsh')];
    [by eapply hinv_same|].
  assert (∀ g q, fds h !! g = Some q → q ≠ p ∧ g ≠ f) as Hne.
  { intros g q Hg. split; intros ->; [|congruence].
    destruct (ho_pos h Hok g p Hg) as [_ [y Hy]]. congruence. }
  assert (∀ g, g ≠ f → fds h' !! g = fds h !! g) as Hfg
    by (intros; by rewrite Hfds, lookup_insert_ne).
  assert (∀ q, q ≠ p → descs h' !! q = descs h !! q) as Hdq
    by (intros; by rewrite Hdescs, lookup_insert_ne).
  assert (∀ q, live h' q → live h q) as Hl.
  { intros q (y & Hy & Hg). destruct (decide (q = p)) as [->|].
    - rewrite Hdescs, lookup_insert_eq in Hy. injection Hy as ->.
      unfold grants in Hg. by rewrite Hkx in Hg.
    - exists y. by rewrite <- Hdq. }
  assert (∀ d y, m !! d = Some y → fd y ≠ f) as Hdf.
  { intros d y Hy Hfd. destruct (Hown d y Hy) as [?|(_ & q & z & Hqz & _)]; [lia|].
    rewrite Hfd in Hqz. congruence. }
  split.
  - split; [intros g q|intros g1 g2 q]; rewrite Hfds, !lookup_insert_Some.
    + intros [[<- <-]|[? Hg]].
      * rewrite Hdescs, lookup_insert_eq. by split.
      * rewrite Hdq by by eapply Hne. by eapply ho_pos.
    + intros [[<- Hr]|[? Hr]] [[<- Hq']|[? Hg]]; try done; subst.
      * by destruct (Hne _ _ Hg).
      * by destruct (Hne _ _ Hr).
      * by eapply ho_inj.
  - intros d y Hy. destruct (Hown d y Hy) as [|(Hc & q & z & Hq' & Hz & Hk)]; [by left|right].
    split; [done|]. exists q, z. destruct (Hne _ _ Hq'). by rewrite Hfg, Hdq.
  - intros d y Hy Hio Hs q Hqd Hlq. rewrite Hfg in Hqd by by eapply Hdf.
    by eapply (Hq d y Hy Hio Hs q), Hl.
  - done.
  - right. split; [|done]. rewrite Hfds, lookup_insert_eq. by eexists.
  - intros g q. rewrite Hfds, lookup_insert_Some. intros [[<- _]|[_ Hg]]; [by left|].
    destruct (Hall g q Hg) as [->|]; [|by right]. by destruct (host_ok_neg h _ q Hok Hg).
  - intros Hio q Hlq. destruct (Hlive Hio q (Hl q Hlq)) as (d & y & Hy & Hs & Hqd).
    exists d, y. rewrite Hfg by by eapply Hdf. done.
Qed.

Lemma hinv_console m h f h' :
  hinv m (-1) h → open_a_console console_fuel h = Some (f, h') → hinv m f h'.
Proof.
  intros Hi Ho. destruct (open_a_console_result _ _ _ _ (hi_ok _ _ _ Hi) Ho)
    as [[-> (E1 & E2 & _)]|(_ & h1 & h2 & (E1 & E2 & _) & Hopen & E3 & E4 & _)].
  - by apply (hinv_same m (-1) h).
  - apply (hinv_same m f h2); try done. apply (hinv_open m h1); [|done]. by apply (hinv_same m (-1) h).
Qed.

Lemma hinv_close m tfd h : hinv m tfd h → hinv m (-1) (g_close tfd h).
Proof.
  intros Hi. pose proof Hi as [Hok Hown Hq Hdisj Htty Hall Hlive].
  unfold g_close. destruct (fds h !! tfd) as [p|] eqn:Hp.
  2:{ destruct Htty as [->|[[? ?] _]]; [done|congruence]. }
  destruct Htty as [->|[_ Htty]]; [by destruct (host_ok_neg h _ p Hok Hp)|].
  set (m' := if bool_decide (p ∈ shared h) then descs h else delete p (descs h)).
  assert (∀ f q, fds h !! f = Some q → f ≠ tfd → q ≠ p) as Hne.
  { intros f q Hf Hft ->. apply Hft. by eapply ho_inj. }
  assert (∀ q, q ≠ p → m' !! q = descs h !! q) as Hm.
  { intros q Hqp. unfold m'. case_match; [done|]. by rewrite lookup_delete_ne. }
  assert (∀ q x, m' !! q = Some x → descs h !! q = Some x) as Hsub.
  { intros q x. unfold m'. case_match; [done|]. rewrite lookup_delete_Some. by intros []. }
  split; simpl.
  - split; simpl; [intros f q|intros f g q]; rewrite !lookup_delete_Some.
    + intros [Hft Hf]. rewrite Hm; [by eapply ho_pos|]. apply (Hne f); done.
    + intros [_ Hf] [_ Hg]. by eapply ho_inj.
  - intros d y Hy. destruct (Hown d y Hy) as [|(Hc & q & z & Hq' & Hz & Hk)]; [by left|right].
    split; [done|]. exists q, z. simpl. assert (fd y ≠ tfd) by by eapply Htty.
    rewrite lookup_delete_ne by done. rewrite Hm by by eapply Hne. done.
  - intros d y Hy Hio Hs q. simpl. rewrite lookup_delete_Some. intros [_ Hqd] (x & Hx & Hg).
    apply (Hq d y Hy Hio Hs q Hqd). exists x. split; [by apply Hsub|done].
  - done.
  - by left.
  - intros f q. rewrite lookup_delete_Some. intros [Hft Hf].
    destruct (Hall f q Hf) as [->|]; [done|by right].
  - intros Hio q (x & Hx & Hg). destruct (Hlive Hio q) as (d & y & Hy & Hs & Hqd);
      [exists x; split; [by apply Hsub|done]|].
    exists d, y. split_and!; try done. rewrite lookup_delete_ne; [done|].
    apply not_eq_sym. by eapply Htty.
Qed.
End heap.

Section blocks.
Context {HOS : OS} {HEnv : Env} {K : Type} {HSkel : Skeleton K}.
Implicit Types (w : world K) (s : CkSession K).

(** ** Weakest preconditions of the building blocks *)

Lemma wp_get_prop p Q w : Q (sk_get p (skel (ses w))) w → wp (get_prop p) Q w.
Proof. done. Qed.
Lemma wp_set_prop p v Q w :
  Q tt (set_ses (set_skel (sk_set p v (skel (ses w))) (ses w)) w) → wp (set_prop p v) Q w.
Proof. done. Qed.
Lemma wp_field {A} (f : CkSession K → A) Q w : Q (f (ses w)) w → wp (field f) Q w.
Proof. done. Qed.
Lemma wp_modify_ses f Q w : Q tt (set_ses (f (ses w)) w) → wp (modify_ses f) Q w.
Proof. done. Qed.
Lemma wp_emit m Q w : Q tt (emit_msg m w) → wp (emit m) Q w.
Proof. done. Qed.
Lemma wp_on_host {A} (f : host → A * host) Q w :
  Q (f (hst w)).1 (set_hst (f (hst w)).2 w) → wp (on_host f) Q w.
Proof. unfold wp, on_host. by destruct (f (hst w)). Qed.
Lemma wp_new_source Q w : Q (next_id w) (set_next_id (next_id w + 1) w) → wp new_source Q w.
Proof. done. Qed.
Lemma wp_deref d x Q w : devs w !! d = Some x → Q x w → wp (deref d) Q w.
Proof. unfold wp, deref. by intros ->. Qed.
Lemma wp_store d x Q w : Q tt (set_devs (<[d:=x]> (devs w)) w) → wp (store d x) Q w.
Proof. done. Qed.

Lemma wp_console f h (Q : Z → world K → Prop) w :
  open_a_console console_fuel (hst w) = Some (f, h) → Q f (set_hst h w) → wp open_vt_console Q w.
Proof. unfold wp, open_vt_console. by intros ->. Qed.
(** A console may be closing for ever. *)
Lemma wpt_console (Q : Z → world K → Prop) w :
  (∀ f h, open_a_console console_fuel (hst w) = Some (f, h) → Q f (set_hst h w)) →
  wpt console_settles open_vt_console Q w.
Proof.
  intros HQ. unfold wpt, open_vt_console. destruct (open_a_console _ _) as [[f h]|] eqn:E; [by apply HQ|].
  intros Hset. destruct (open_a_console_settled (hst w) Hset). congruence.
Qed.

Lemma wp_tty_ioctl f g (Q : bool → world K → Prop) w :
  (∀ b t, (b = true → is_Some (fds (hst w) !! f) ∧ t = g (vt w)) → (b = false → t = vt w) →
     (ioctls_succeed → is_Some (fds (hst w) !! f) → b = true) →
     Q b (set_vt t (set_hst (tick (hst w)) w))) →
  wp (tty_ioctl f g) Q w.
Proof.
  intros HQ. unfold wp, tty_ioctl.
  set (b := os_ioctl (clock (hst w)) && bool_decide (is_Some (fds (hst w) !! f))).
  assert (Q b (set_vt (if b then g (vt w) else vt w) (set_hst (tick (hst w)) w))) as HQb.
  { apply HQ.
    - destruct b eqn:Hb; [|done]. unfold b in Hb. apply andb_true_iff in Hb as [_ Hb].
      apply bool_decide_eq_true in Hb. done.
    - by destruct b.
    - intros Hi Hf. unfold b. rewrite (Hi (clock (hst w))). by rewrite bool_decide_eq_true_2. }
  destruct b; done.
Qed.

End blocks.

(** One step through straight-line code. *)
Ltac wp_step :=
  match goal with
  | |- wp (mret _) _ _ => apply wp_ret
  | |- wp (get_prop ?p) _ _ => apply (wp_get_prop p)
  | |- wp (set_prop ?p ?v) _ _ => apply (wp_set_prop p v)
  | |- wp (field _) _ _ => apply wp_field
  | |- wp (modify_ses _) _ _ => apply wp_modify_ses
  | |- wp (emit _) _ _ => apply wp_emit
  | |- wp (on_host _) _ _ => apply wp_on_host
  | |- wp new_source _ _ => apply wp_new_source
  | |- wp (store _ _) _ _ => apply wp_store
  | |- wp (prog_gets _) _ _ => apply wp_gets
  | |- wp (prog_modify _) _ _ => apply wp_modify
  | |- wp (mbind _ _) _ _ => apply wp_bind
  | |- wpt _ (mbind _ _) _ _ => apply wpt_bind
  | |- wpt _ (mret _) _ _ => apply wp_wpt
  | |- wpt _ (get_prop _) _ _ => apply wp_wpt
  | |- wpt _ (set_prop _ _) _ _ => apply wp_wpt
  | |- wpt _ (field _) _ _ => apply wp_wpt
  | |- wpt _ (modify_ses _) _ _ => apply wp_wpt
  | |- wpt _ (emit _) _ _ => apply wp_wpt
  | |- wpt _ (on_host _) _ _ => apply wp_wpt
  | |- wpt _ new_source _ _ => apply wp_wpt
  | |- wpt _ (prog_gets _) _ _ => apply wp_wpt
  | |- wpt _ (prog_modify _) _ _ => apply wp_wpt
  end.
Ltac wps := repeat wp_step.

(** Terminal requests keep everything about devices. *)
Ltac wp_tty := first [apply wp_tty_ioctl | apply wp_wpt, wp_tty_ioctl]; intros ? ? _ _ _.
(** A part that does not open a console. *)
Ltac wp_sure H := apply wp_wpt; eapply wp_mono; [H|].

Section session.
Context {HOS : OS} {HEnv : Env} {K : Type} {HSkel : Skeleton K}.
Implicit Types (w : world K) (s : CkSession K).

Record sinv (w : world K) : Prop := {
  si_heap : hinv (devs w) (tty_fd (ses w)) (hst w);
  si_list : ∀ d, d ∈ devices (ses w) → is_Some (devs w !! d);
  si_nodup : NoDup (devices (ses w));
  si_unlisted : ∀ d x, devs w !! d = Some x → d ∉ devices (ses w) → fd x = (-1)%Z;
  si_inactive : sk_get P_active (skel (ses w)) = false →
    ∀ d x, d ∈ devices (ses w) → devs w !! d = Some x → state x = false;
  si_control : session_controller (ses w) = None → devices (ses w) = [];
  si_proxy : bus_proxy (ses w) = true
}.

(** What the operations on devices leave alone. *)
Definition same_devices w w' : Prop :=
  devs w' = devs w ∧ fds (hst w') = fds (hst w) ∧ descs (hst w') = descs (hst w) ∧
  devices (ses w') = devices (ses w) ∧ tty_fd (ses w') = tty_fd (ses w) ∧
  session_controller (ses w') = session_controller (ses w) ∧
  bus_proxy (ses w') = bus_proxy (ses w).

Lemma sinv_same w w' :
  sinv w → same_devices w w' →
  (sk_get P_active (skel (ses w')) = false → sk_get P_active (skel (ses w)) = false ∨
     ∀ d x, d ∈ devices (ses w) → devs w !! d = Some x → state x = false) →
  sinv w'.
Proof.
  intros [H1 H2 H3 H4 H5 H6 H7] (E1 & E2 & E3 & E4 & E5 & E6 & E7) Hact.
  split; rewrite ?E1, ?E4, ?E5, ?E6, ?E7; try done.
  - by eapply hinv_same.
  - intros Ha. destruct (Hact Ha); [by apply H5|done].
Qed.

(** An operation on one listed device that leaves it in state [b]. *)
Definition device_to (b : bool) (d : positive) w w' : Prop :=
  ∃ x', devs w' = (<[d := x']> (devs w)) ∧ ses w' = ses w ∧ state x' = b ∧
    hinv (devs w') (tty_fd (ses w)) (hst w').

Lemma wp_device_set_active d x b w :
  hinv (devs w) (tty_fd (ses w)) (hst w) → devs w !! d = Some x →
  wp (device_set_active d b) (λ _ w', device_to b d w w') w.
Proof.
  intros Hi Hx. unfold device_set_active. wps. eapply wp_deref; [done|]. wps.
  destruct (ck_device_set_active x b (hst w)) as [x' h'] eqn:E. simpl.
  destruct (set_active_step x b (hst w) x' h') as (Hs & Hst & _); [apply Hi| | |done|].
  - by eapply hi_owns.
  - by eapply hi_quiet.
  - exists x'. split_and!; try done. simpl.
    apply (hinv_step (devs w) _ d _ (hst w) (Some x')); try done.
    + by rewrite Hx.
    + apply lookup_insert_eq.
    + intros e He. by rewrite lookup_insert_ne.
Qed.

(** The device list [l] with the devices before [todo] already in state [b]. *)
Record sweep (b : bool) (l : list positive) w (todo : list positive) w' : Prop := {
  sw_ses : ses w' = ses w;
  sw_heap : hinv (devs w') (tty_fd (ses w)) (hst w');
  sw_dom : ∀ d, is_Some (devs w' !! d) ↔ is_Some (devs w !! d);
  sw_other : ∀ d, d ∉ l → devs w' !! d = devs w !! d;
  sw_done : ∀ d x, d ∈ l → d ∉ todo → devs w' !! d = Some x → state x = b
}.

Lemma wp_sweep b (f : positive → prog (world K) unit) l w :
  hinv (devs w) (tty_fd (ses w)) (hst w) → (∀ d, d ∈ l → is_Some (devs w !! d)) →
  (∀ d w', d ∈ l → hinv (devs w') (tty_fd (ses w')) (hst w') → is_Some (devs w' !! d) →
     wp (f d) (λ _ w'', device_to b d w' w'') w') →
  wp (for_each f l) (λ _ w', sweep b l w [] w') w.
Proof.
  intros Hi Hl Hf. apply (wp_for_each f (sweep b l w)).
  - intros d todo w' Hsuf [S1 S2 S3 S4 S5].
    assert (d ∈ l) as Hd by (destruct Hsuf as [k ->]; apply elem_of_app; right; by left).
    eapply wp_mono; [apply Hf; [done|by rewrite S1|by apply S3, Hl]|].
    intros _ w'' (x' & E1 & E2 & E3 & E4). split.
    + congruence.
    + by rewrite S1 in E4.
    + intros e. rewrite <- S3, E1. destruct (decide (e = d)) as [->|He].
      * rewrite lookup_insert_eq. split; intros _; [by apply S3, Hl|done].
      * by rewrite lookup_insert_ne.
    + intros e He. rewrite E1, lookup_insert_ne by congruence. by apply S4.
    + intros e x He Hne. rewrite E1. destruct (decide (e = d)) as [->|Hed].
      * rewrite lookup_insert_eq. by intros [= <-].
      * rewrite lookup_insert_ne by done. apply S5; [done|].
        rewrite elem_of_cons. tauto.
  - split; try done.
Qed.

(** After a sweep to [b] the invariant holds again, whatever the flag becomes,
    provided an inactive flag goes with [b = false]. *)
Lemma sweep_sinv b w w1 w2 :
  sinv w → sweep b (devices (ses w)) w [] w1 → same_devices w1 w2 →
  (sk_get P_active (skel (ses w2)) = false → b = false) → sinv w2.
Proof.
  intros [H1 H2 H3 H4 H5 H6 H7] [S1 S2 S3 S4 S5] (E1 & E2 & E3 & E4 & E5 & E6 & E7) Hb.
  rewrite S1 in *. split; rewrite ?E1, ?E4, ?E5, ?E6, ?E7; try done.
  - by eapply hinv_same.
  - intros d Hd. by apply S3, H2.
  - intros d x Hx Hd. rewrite S4 in Hx by done. by eapply H4.
  - intros Ha d x Hd Hx. rewrite <- (Hb Ha). eapply S5; try done. apply not_elem_of_nil.
Qed.

Lemma get_skel p v k : sk_get p (sk_set p v k) = v.
Proof. apply sk_get_set. Qed.

Lemma wp_mark b w (Q : unit → world K → Prop) :
  (∀ w', same_devices w w' → sk_get P_active (skel (ses w')) = b → Q tt w') →
  wp (if b then mark_active else mark_inactive) Q w.
Proof.
  intros HQ. destruct b; unfold mark_active, mark_inactive; wps; apply HQ; try done;
    simpl;
    rewrite (sk_get_set_ne P_active P_session_state) by done; apply (sk_get_set P_active).
Qed.

(** ** Pausing *)

Lemma wp_pause_device d w :
  hinv (devs w) (tty_fd (ses w)) (hst w) → is_Some (devs w !! d) →
  wp (pause_device true d) (λ _ w', device_to false d w w') w.
Proof.
  intros Hi [x Hx]. unfold pause_device. wps. eapply wp_deref; [done|].
  destruct (state x) eqn:Hs; simpl; wps.
  - eapply wp_mono; [by eapply wp_device_set_active|]. intros _ w' (x' & ?). by exists x'.
  - exists x. split_and!; try done; rewrite insert_id; done.
Qed.

Lemma wp_pause_nothing l w :
  (∀ d, d ∈ l → is_Some (devs w !! d)) →
  wp (for_each (pause_device false) l) (λ _ w', same_devices w w' ∧ ses w' = ses w) w.
Proof.
  intros Hl. apply (wp_for_each _ (λ _ w', same_devices w w' ∧ ses w' = ses w)); [|done].
  intros d todo w' Hsuf [Hsame Hses].
  assert (d ∈ l) as Hd by (destruct Hsuf as [k ->]; apply elem_of_app; right; by left).
  destruct (Hl d Hd) as [x Hx]. unfold pause_device. wps. eapply wp_deref.
  { destruct Hsame as (-> & _). exact Hx. }
  destruct (state x); simpl; wps; done.
Qed.

Lemma wp_pause_all force w :
  sinv w → wp (ck_session_pause_all_devices force) (λ _ w', sinv w' ∧
    (force = true → sk_get P_active (skel (ses w')) = false)) w.
Proof.
  intros Hw. unfold ck_session_pause_all_devices. wps. destruct force; simpl.
  - eapply wp_mono.
    { apply (wp_sweep false); [apply Hw|apply Hw|].
      intros d w' _ Hh Hd. by apply wp_pause_device. }
    intros [] w1 Hsw. apply (wp_mark false). intros w2 Hsame Ha. split; [|done].
    by eapply sweep_sinv.
  - eapply wp_mono; [apply wp_pause_nothing; apply Hw|].
    intros _ w1 [Hsame Hses]. case_bool_decide as Hl.
    + apply (wp_mark false). intros w2 Hsame2 Ha. split; [|done].
      apply (sinv_same w); [done| |].
      * unfold same_devices in *. rewrite Hses in *. naive_solver congruence.
      * intros _. right. intros d x Hd. rewrite Hl in Hd. by apply elem_of_nil in Hd.
    + wps. split; [|done]. apply (sinv_same w); [done| |].
      * unfold same_devices in *. simpl. rewrite Hses in *. done.
      * simpl. rewrite Hses. by left.
Qed.

(** ** Resuming *)

Lemma chown_console_same n w : host_ok (hst w) →
  wpt console_settles (chown_console n) (λ _ w', same_devices w w' ∧ ses w' = ses w) w.
Proof.
  intros Hok. unfold chown_console. destruct (0 <? n)%Z; wps; [|done].
  apply wpt_console. intros f h Ho.
  destruct (open_a_console_result _ _ _ _ Hok Ho) as [[-> (E1 & E2 & _)]|(Hf & h1 & h2 & Hs & Hopen & Hs2)];
    [simpl; wps; done|].
  rewrite (proj2 (Z.leb_le _ _) Hf). wps.
  assert (∀ h', fds h' = fds h → descs h' = descs h → shared h' = shared h →
    fds (g_close f h') = fds (hst w) ∧ descs (g_close f h') = descs (hst w)) as Hclose.
  { intros h' E1 E2 E3.
    destruct (g_close_opened _ h1 f h2 h' (same_table_ok _ _ Hok Hs) Hopen Hf) as (E4 & E5 & _);
      [by eapply same_table_trans|]. destruct Hs as (E6 & E7 & _). split; congruence. }
  destruct (getpwuid _) as [g|]; wps; [simpl; destruct (os_ioctl _); wps|];
    (split; [|done]); unfold same_devices; simpl;
    edestruct Hclose as [-> ->]; try reflexivity; done.
Qed.

Lemma wp_resume_device d w :
  hinv (devs w) (tty_fd (ses w)) (hst w) → is_Some (devs w !! d) →
  wp (resume_device d) (λ _ w', device_to true d w w') w.
Proof.
  intros Hi [x Hx]. unfold resume_device. wps.
  eapply wp_mono; [by eapply wp_device_set_active|].
  intros _ w1 (x1 & E1 & E2 & E3 & E4). wps. eapply (wp_deref d x1); [by rewrite E1, lookup_insert_eq|].
  destruct (fd x1 <? 0)%Z; wps.
  - exists x1. done.
  - unfold share_fd. wps. simpl. exists x1. split_and!; try done. simpl.
    eapply hinv_same; [exact E4|by case_match..].
Qed.

Lemma wp_resume_all w :
  sinv w → wpt console_settles ck_session_resume_all_devices (λ _ w', sinv w' ∧
    sk_get P_active (skel (ses w')) = true) w.
Proof.
  intros Hw. unfold ck_session_resume_all_devices. wps.
  eapply wpt_mono; [apply chown_console_same; apply Hw|].
  intros _ w1 [Hs1 Hses1]. wps.
  assert (sinv w1) as Hw1 by (apply (sinv_same w); [done|done|rewrite Hses1; by left]).
  apply wp_wpt. destruct (session_controller (ses w1)) as [c|].
  - wps. eapply wp_mono.
    { apply (wp_sweep true); [apply Hw1|apply Hw1|]. intros d w' _ Hh Hd. by apply wp_resume_device. }
    intros [] w2 Hsw. apply (wp_mark true). intros w3 Hsame Ha. split; [|done].
    eapply sweep_sinv; try done. rewrite Ha. done.
  - apply (wp_mark true). intros w3 Hsame Ha. split; [|done].
    apply (sinv_same w1); [done|done|]. by rewrite Ha.
Qed.

Lemma sinv_set_timer t w : sinv w → sinv (set_ses (set_timer t (ses w)) w).
Proof. intros Hw. apply (sinv_same w); [done|done|by left]. Qed.

Lemma wp_set_active a force w :
  sinv w → wpt console_settles (ck_session_set_active a force) (λ _ w', sinv w' ∧
    (a = true ∨ force = true → sk_get P_active (skel (ses w')) = a)) w.
Proof.
  intros Hw. unfold ck_session_set_active. wps.
  destruct (Bool.eqb_spec (sk_get P_active (skel (ses w))) a) as [Ha|Ha]; wps; [done|].
  pose proof (sinv_set_timer 0 w Hw) as Hw0. destruct a.
  - eapply wpt_mono; [by apply wp_resume_all|]. intros _ w' [??]. wps. done.
  - apply wp_wpt. eapply wp_mono; [by apply (wp_pause_all force)|]. intros _ w' [? Hf]. wps.
    split; [done|]. intros [?|?]; [done|by apply Hf].
Qed.

Lemma wp_any_active l w :
  (∀ d, d ∈ l → is_Some (devs w !! d)) →
  wp (any_active l) (λ b w', w' = w ∧
    (b = false → ∀ d x, d ∈ l → devs w !! d = Some x → state x = false)) w.
Proof.
  induction l as [|d l IH]; intros Hl; cbn [any_active].
  - wps. split; [done|]. by intros _ d x []%elem_of_nil.
  - destruct (Hl d) as [x Hx]; [by left|]. wps. eapply wp_deref; [done|].
    destruct (state x) eqn:Hs; wps; [done|].
    eapply wp_mono; [apply IH; intros e He; apply Hl; by right|].
    intros b w' [-> Hb]. split; [done|]. intros Hf e y [->|He]%elem_of_cons Hy; [congruence|].
    by eapply Hb.
Qed.

Lemma wp_check_paused w :
  sinv w → wp ck_session_check_paused_devices (λ _ w', sinv w') w.
Proof.
  intros Hw. unfold ck_session_check_paused_devices. wps.
  eapply wp_mono; [apply wp_any_active, Hw|]. intros b w' [-> Hb]. destruct b; wps; [done|].
  destruct (sk_get P_active (skel (ses w))) eqn:Ha; wps.
  - apply (wp_mark false). intros w1 Hsame Ha1. wps. apply sinv_set_timer.
    apply (sinv_same w); [done|done|]. intros _. right. by apply Hb.
  - by apply sinv_set_timer.
Qed.

Lemma wp_force_pause w :
  sinv w → wp force_pause_devices (λ _ w', sinv w') w.
Proof.
  intros Hw. unfold force_pause_devices. wps. eapply wp_mono.
  { apply (wp_sweep false); [apply Hw|apply Hw|].
    intros d w' _ Hh [x Hx]. by eapply wp_device_set_active. }
  intros [] w1 Hsw. wps. eapply wp_mono; [apply wp_check_paused|by intros].
  apply sinv_set_timer. eapply sweep_sinv; done.
Qed.

(** ** The controller *)

Lemma wp_device_unref d x w :
  hinv (devs w) (tty_fd (ses w)) (hst w) → devs w !! d = Some x →
  wp (device_unref d) (λ _ w', ses w' = ses w ∧ devs w' = delete d (devs w) ∧
    hinv (devs w') (tty_fd (ses w)) (hst w')) w.
Proof.
  intros Hi Hx. unfold device_unref. wps. eapply wp_deref; [done|]. wps.
  split_and!; try done. simpl.
  apply (hinv_step (devs w) _ d _ (hst w) None); try done.
  - rewrite Hx. apply finalize_step; [apply Hi|by eapply hi_owns|by eapply hi_quiet].
  - apply lookup_delete_eq.
  - intros e He. by rewrite lookup_delete_ne.
Qed.

(** The devices not in [todo] have no descriptor any more. *)
Record dropping w (todo : list positive) w' : Prop := {
  dr_ses : ses w' = ses w;
  dr_heap : hinv (devs w') (tty_fd (ses w)) (hst w');
  dr_todo : ∀ d, d ∈ todo → is_Some (devs w' !! d);
  dr_gone : ∀ d x, devs w' !! d = Some x → d ∉ todo → fd x = (-1)%Z
}.

Lemma wp_remove_all w :
  hinv (devs w) (tty_fd (ses w)) (hst w) → NoDup (devices (ses w)) →
  (∀ d, d ∈ devices (ses w) → is_Some (devs w !! d)) →
  (∀ d x, devs w !! d = Some x → d ∉ devices (ses w) → fd x = (-1)%Z) →
  wp ck_session_remove_all_devices (λ _ w', ses w' = set_devices [] (ses w) ∧
    hinv (devs w') (tty_fd (ses w)) (hst w') ∧ (∀ d x, devs w' !! d = Some x → fd x = (-1)%Z)) w.
Proof.
  intros Hi Hnd Hl Hun. unfold ck_session_remove_all_devices. wps.
  eapply wp_mono.
  { apply (wp_for_each _ (dropping w)); [|by split].
    intros d todo w1 Hsuf [S1 S2 S3 S4]. destruct (S3 d) as [x Hx]; [by left|].
    eapply wp_mono; [eapply wp_device_unref; [by rewrite S1|done]|].
    intros [] w2 (E1 & E2 & E3).
    assert (d ∉ todo) as Hdt.
    { apply (suffix_NoDup _ _ Hsuf) in Hnd || (destruct Hsuf as [k Hk]; rewrite Hk in Hnd;
        apply NoDup_app in Hnd as (_ & _ & Hnd)). by inversion Hnd. }
    split.
    - congruence.
    - by rewrite S1 in E3.
    - intros e He. rewrite E2, lookup_delete_ne by (by intros ->). apply S3. by right.
    - intros e y. rewrite E2, lookup_delete_Some. intros [Hed Hy] He. eapply S4; [done|].
      rewrite elem_of_cons. intros [?|?]; congruence. }
  intros [] w1 [S1 S2 _ S4]. wps. simpl. rewrite S1. split_and!; try done.
  intros d x Hx. eapply S4; [done|apply not_elem_of_nil].
Qed.

(** No device at all: the state a session without controller is left in. *)
Record idle_world w (tfd : Z) w' : Prop := {
  iw_heap : hinv (devs w') tfd (hst w');
  iw_fds : ∀ d x, devs w' !! d = Some x → fd x = (-1)%Z;
  iw_devices : devices (ses w') = [];
  iw_control : session_controller (ses w') = None;
  iw_tty : tty_fd (ses w') = tfd;
  iw_skel : skel (ses w') = skel (ses w);
  iw_proxy : bus_proxy (ses w') = bus_proxy (ses w)
}.

Lemma wp_restore_vt w0 w tfd :
  idle_world w0 tfd w → wp restore_vt (λ _ w', idle_world w0 (-1) w') w.
Proof.
  intros [I1 I2 I3 I4 I5 I6 I7]. unfold restore_vt. wps.
  eapply (wp_mono _ (λ _ w', idle_world w0 tfd w')).
  { destruct (sig_watch_s1 (ses w) =? 0)%Z; wps; [done|].
    wp_tty. wps. wp_tty. wps. wp_tty. wps. wp_tty. wps.
    split; try done; simpl; by eapply hinv_same. }
  intros [] w1 [J1 J2 J3 J4 J5 J6 J7]. rewrite I5.
  destruct (Z.eqb_spec tfd (-1)) as [->|Ht]; wps; [done|].
  split; try done. simpl. by apply hinv_close.
Qed.

Lemma wp_cleanup w :
  sinv w → wp ck_session_controller_cleanup (λ _ w', idle_world w (-1) w') w.
Proof.
  intros [H1 H2 H3 H4 H5 H6 H7]. unfold ck_session_controller_cleanup. wps.
  eapply wp_mono; [by apply wp_remove_all|].
  intros [] w1 (E1 & E2 & E3). apply (wp_restore_vt w w1 (tty_fd (ses w))).
  split; try done; by rewrite E1.
Qed.

Lemma idle_sinv w0 w (c : cstr) i :
  idle_world w0 (-1) w → bus_proxy (ses w0) = true →
  sinv (set_next_id i (set_ses (set_controller c i (ses w)) w)).
Proof.
  intros [I1 I2 I3 I4 I5 I6 I7] Hp. split; simpl; rewrite ?I3, ?I5, ?I7; try done.
  - intros d []%elem_of_nil.
  - apply NoDup_nil_2.
  - intros d x Hx _. by eapply I2.
  - intros _ d x []%elem_of_nil.
Qed.

Lemma wp_setup_vt w :
  sinv w → tty_fd (ses w) = (-1)%Z → devices (ses w) = [] →
  wpt console_settles ck_session_setup_vt_signal (λ _ w', sinv w' ∧ session_controller (ses w') =
    session_controller (ses w) ∧ devices (ses w') = [] ∧ skel (ses w') = skel (ses w)) w.
Proof.
  intros [H1 H2 H3 H4 H5 H6 H7] Ht Hd. rewrite Ht in H1.
  unfold ck_session_setup_vt_signal. wps. simpl.
  apply wpt_console. intros f h1 Hopen. wps.
  pose proof (hinv_console _ _ _ _ H1 Hopen) as Hh.
  assert (∀ w', devs w' = devs w → fds (hst w') = fds h1 → descs (hst w') = descs h1 →
    tty_fd (ses w') = f → devices (ses w') = devices (ses w) → skel (ses w') = skel (ses w) →
    session_controller (ses w') = session_controller (ses w) →
    bus_proxy (ses w') = bus_proxy (ses w) →
    sinv w' ∧ session_controller (ses w') = session_controller (ses w) ∧
    devices (ses w') = [] ∧ skel (ses w') = skel (ses w)) as Hdone.
  { intros w' E1 E2 E3 E4 E5 E6 E7 E8. split_and!; try congruence.
    split; rewrite ?E1, ?E4, ?E5, ?E6, ?E7, ?E8; try done. by eapply hinv_same. }
  destruct (f <? 0)%Z; wps; [by apply Hdone|].
  repeat first
    [ by apply Hdone
    | wp_tty
    | progress wps
    | match goal with |- wpt _ (if ?b then _ else _) _ _ => destruct b; simpl end ].
Qed.

Lemma wp_set_controller c w :
  sinv w → wpt console_settles (ck_session_set_session_controller c) (λ _ w', sinv w' ∧
    session_controller (ses w') = c ∧ devices (ses w') = [] ∧ skel (ses w') = skel (ses w)) w.
Proof.
  intros Hw. unfold ck_session_set_session_controller. wps.
  apply wp_wpt. eapply wp_mono; [by apply wp_cleanup|]. intros [] w1 Hi.
  pose proof Hi as [I1 I2 I3 I4 I5 I6 I7]. destruct c as [c|].
  - wps. pose proof (idle_sinv w w1 (Some c) (next_id w1) Hi (si_proxy w Hw)) as Hs.
    set (w2 := set_ses (set_controller (Some c) (next_id w1) (ses (set_next_id (next_id w1 + 1) w1)))
      (set_next_id (next_id w1 + 1) w1)).
    assert (sinv w2) as Hw2.
    { apply (sinv_same _ w2 Hs); [done|by left]. }
    change (sinv w2) in Hw2. destruct (_ <? _)%Z.
    + eapply wpt_mono; [apply wp_setup_vt; done|].
      intros [] w3 (Hw3 & Hc3 & Hd3 & Hs3).
      split_and!; [done|by rewrite Hc3|done|rewrite Hs3; exact I6].
    + wps. split_and!; done.
  - wps. split_and!; try done.
    pose proof (idle_sinv w w1 None 0 Hi (si_proxy w Hw)) as Hs.
    apply (sinv_same _ w1 Hs); [|by left]. unfold same_devices; simpl. by rewrite I4.
Qed.

(** ** The controller's devices *)

Lemma elem_of_list_remove d e l : NoDup l → e ∈ list_remove d l ↔ e ∈ l ∧ e ≠ d.
Proof.
  induction 1 as [|f l Hf Hnd IH]; simpl.
  - rewrite elem_of_nil. tauto.
  - case_decide as Hd.
    + subst. rewrite elem_of_cons. naive_solver.
    + rewrite !elem_of_cons, IH. naive_solver.
Qed.
Lemma NoDup_list_remove d l : NoDup l → NoDup (list_remove d l).
Proof.
  induction 1 as [|f l Hf Hnd IH]; simpl; [by apply NoDup_nil_2|].
  case_decide; [done|]. apply NoDup_cons_2; [|done].
  rewrite elem_of_list_remove by done. tauto.
Qed.

(** Taking a device without descriptor off the list. *)
Lemma sinv_remove d w : sinv w →
  (∀ x, devs w !! d = Some x → fd x = (-1)%Z) →
  sinv (set_ses (set_devices (list_remove d (devices (ses w))) (ses w)) w).
Proof.
  intros [H1 H2 H3 H4 H5 H6 H7] Hd. split; simpl; try done.
  - intros e [He _]%elem_of_list_remove; [by apply H2|done].
  - by apply NoDup_list_remove.
  - intros e x Hx He. destruct (decide (e = d)) as [->|Hed]; [by apply Hd|].
    eapply H4; [done|]. intros Hin. apply He. by apply elem_of_list_remove.
  - intros Ha e x [He _]%elem_of_list_remove; [by apply H5|done].
  - intros Hc. by rewrite H6.
Qed.

Definition unchanged w w' : Prop :=
  skel (ses w') = skel (ses w) ∧ session_controller (ses w') = session_controller (ses w).

Lemma wp_find_device maj min l w :
  sinv w → (∀ d, d ∈ l → d ∈ devices (ses w)) →
  wp (find_device maj min l) (λ r w', sinv w' ∧ unchanged w w' ∧
    match r with
    | Some d => w' = w ∧ d ∈ l ∧ ∃ x, devs w !! d = Some x ∧ ck_device_compare x maj min = true
    | None => True
    end) w.
Proof.
  intros Hw. induction l as [|d l IH]; intros Hl; cbn [find_device]; [by wps|].
  destruct (si_list w Hw d) as [x Hx]; [apply Hl; by left|].
  wps. eapply wp_deref; [done|].
  destruct (ck_device_compare x maj min) eqn:Hc.
  2:{ eapply wp_mono; [apply IH; intros e He; apply Hl; by right|].
      intros r w' (? & ? & Hr). split_and!; try done. destruct r; [|done].
      destruct Hr as (? & ? & ?). split_and!; try done. by right. }
  assert (d ∈ d :: l) by by left.
  destruct (decide (category x = DEVICE_EVDEV)) as [Hcat|Hcat]; wps; [|by split_and!; eauto].
  assert (set_hst (hst w) w = w) as Hsame by by destruct w.
  simpl fst. simpl snd. rewrite Hsame. unfold is_dead_fd. case_bool_decide as Hdead; wps; [|by split_and!; eauto].
  split_and!; try done. apply sinv_remove; [done|]. intros y Hy.
  assert (y = x) as -> by congruence.
  destruct (hi_owns _ _ _ (si_heap w Hw) d x Hx) as [|(_ & p & z & Hp & _)]; [done|congruence].
Qed.

Lemma wp_get_device maj min w :
  sinv w → wp (ck_session_get_device maj min) (λ r w', sinv w' ∧ unchanged w w' ∧
    match r with
    | Some d => w' = w ∧ d ∈ devices (ses w) ∧
        ∃ x, devs w !! d = Some x ∧ ck_device_compare x maj min = true
    | None => True
    end) w.
Proof. intros Hw. unfold ck_session_get_device. wps. by apply wp_find_device. Qed.

Lemma wp_create_device maj min w :
  sinv w → is_Some (session_controller (ses w)) →
  wp (ck_session_create_device maj min) (λ r w', sinv w' ∧ unchanged w w' ∧
    match r with
    | Some d => ∃ x, devs w' !! d = Some x ∧ d ∈ devices (ses w')
    | None => True
    end) w.
Proof.
  intros Hw0 [c Hc]. unfold ck_session_create_device. wps.
  eapply wp_mono; [by apply wp_get_device|]. intros [d|] w1 (Hw & [Hsk Hctl] & Hr).
  { destruct Hr as (-> & Hd & x & Hx & _). wps. split; [done|]. split; [done|]. by exists x. }
  pose proof Hw as [H1 H2 H3 H4 H5 H6 H7]. wps.
  destruct (ck_device_new maj min _ (hst w1)) as [[x|] h'] eqn:E;
    destruct (new_step _ _ _ _ _ _ (hi_ok _ _ _ H1) E) as [Hs Hst]; simpl fst; simpl snd; wps.
  2:{ split_and!; try done. split; try done. simpl.
      pose proof (is_fresh (dom (devs w1))) as Hd%not_elem_of_dom.
      apply (hinv_step (devs w1) _ (fresh (dom (devs w1))) _ (hst w1) None); try done.
      by rewrite Hd. }
  destruct (Hst x eq_refl) as (Hstate & _). simpl.
  set (d := fresh (dom (devs w1))).
  pose proof (is_fresh (dom (devs w1))) as Hd%not_elem_of_dom. fold d in Hd.
  assert (d ∉ devices (ses w1)) as Hdl by (intros [? ?]%H2; congruence).
  split_and!; try done.
  2:{ exists x. simpl. rewrite lookup_insert_eq. split; [done|by left]. }
  split; simpl; try done.
  - apply (hinv_step (devs w1) _ d _ (hst w1) (Some x)); [done|by rewrite Hd|apply lookup_insert_eq|].
    intros e He. by rewrite lookup_insert_ne.
  - intros e [->|He]%elem_of_cons; [rewrite lookup_insert_eq; by eexists|].
    rewrite lookup_insert_ne by (intros <-; done). by apply H2.
  - by apply NoDup_cons_2.
  - intros e y. rewrite not_elem_of_cons. intros Hy [Hed Hel].
    rewrite lookup_insert_ne in Hy by done. by eapply H4.
  - intros Ha e y. destruct (decide (e = d)) as [->|Hed].
    + rewrite lookup_insert_eq. intros _ [= <-]. congruence.
    + rewrite lookup_insert_ne by done. intros [->|He]%elem_of_cons; [done|by apply H5].
  - rewrite Hctl, Hc. done.
Qed.

Lemma sinv_share f w : sinv w →
  sinv (set_hst (match fds (hst w) !! f with Some p => share p (hst w) | None => hst w end) w).
Proof.
  intros Hw. apply (sinv_same w); [done| |by left].
  unfold same_devices. simpl. by case_match.
Qed.

Lemma wp_take_device sender maj min w :
  sinv w → sender ≠ None →
  wp (dbus_take_device sender maj min) (λ r w', sinv w' ∧ unchanged w w' ∧
    ((∃ vs, r = Complete vs) → session_controller (ses w) = sender)) w.
Proof.
  intros Hw Hs. unfold dbus_take_device. wps. case_bool_decide as Hc; simpl; wps.
  2:{ split_and!; try done. by intros []. }
  eapply wp_mono; [by apply wp_get_device|]. intros [d|] w1 (Hw1 & Hu & _); wps; [done|].
  eapply wp_mono; [apply wp_create_device; [done|]|].
  { destruct Hu as [_ ->]. rewrite Hc. destruct sender; [by eexists|done]. }
  intros [d|] w2 (Hw2 & Hu2 & Hr); wps.
  2:{ split_and!; try done. unfold unchanged in *. naive_solver congruence. }
  destruct Hr as (x & Hx & _). eapply wp_deref; [done|].
  assert (unchanged w w2) by (unfold unchanged in *; naive_solver congruence).
  destruct (fd x =? -1)%Z; unfold share_fd; wps; [done|].
  split_and!; [by apply sinv_share|done|done].
Qed.

Lemma wp_release_device sender maj min w :
  sinv w → wp (dbus_release_device sender maj min) (λ r w', sinv w') w.
Proof.
  intros Hw. unfold dbus_release_device. wps. case_bool_decide as Hc; simpl; wps; [|done].
  eapply wp_mono; [by apply wp_get_device|]. intros [d|] w1 (Hw1 & Hu & Hr); wps; [|done].
  destruct Hr as (-> & Hd & x & Hx & _). unfold ck_session_remove_device. wps.
  pose proof Hw as [H1 H2 H3 H4 H5 H6 H7].
  eapply wp_mono; [by eapply (wp_device_unref d x)|]. intros [] w2 (E1 & E2 & E3). wps.
  simpl in E2. split; rewrite ?E1, ?E2; simpl; try done.
  - by rewrite E2 in E3.
  - intros e [He Hed]%elem_of_list_remove; [|done]. rewrite lookup_delete_ne by done. by apply H2.
  - by apply NoDup_list_remove.
  - intros e y. rewrite lookup_delete_Some. intros [Hed Hy] He. eapply H4; [done|].
    intros Hin. apply He. by apply elem_of_list_remove.
  - intros Ha e y [He Hed]%elem_of_list_remove; [|done]. rewrite lookup_delete_ne by done.
    by apply H5.
  - intros Hn. by rewrite H6.
Qed.

Lemma wp_pause_complete sender maj min w :
  sinv w → wp (dbus_pause_device_complete sender maj min) (λ r w', sinv w') w.
Proof.
  intros Hw. unfold dbus_pause_device_complete. wps. case_bool_decide as Hc; simpl; wps; [|done].
  eapply wp_mono; [by apply wp_get_device|]. intros [d|] w1 (Hw1 & Hu & Hr); wps; [|done].
  destruct Hr as (-> & Hd & x & Hx & _).
  eapply wp_mono; [eapply wp_device_set_active; [apply Hw|done]|].
  intros [] w2 (x' & E1 & E2 & E3 & E4). wps.
  eapply wp_mono; [apply wp_check_paused|intros [] w3 ?; by wps].
  pose proof Hw as [H1 H2 H3 H4 H5 H6 H7].
  split; rewrite ?E2, ?E1; try done.
  - by rewrite E1 in E4.
  - intros e He. destruct (decide (e = d)) as [->|Hed]; [rewrite lookup_insert_eq; by eexists|].
    rewrite lookup_insert_ne by done. by apply H2.
  - intros e y. destruct (decide (e = d)) as [->|Hed]; [done|].
    rewrite lookup_insert_ne by done. apply H4.
  - intros Ha e y He. destruct (decide (e = d)) as [->|Hed].
    + rewrite lookup_insert_eq. by intros [= <-].
    + rewrite lookup_insert_ne by done. by apply H5.
Qed.

(** ** Every operation keeps the invariant *)

Lemma wp_get_caller_info sender w : bus_proxy (ses w) = true →
  wp (get_caller_info sender) (λ r w', w' = w ∧ ∀ u p, r = Some (u, p) →
    ∃ n : string, sender = Some n ∧ bus_unix_user n = Some u) w.
Proof.
  intros Hp. unfold get_caller_info. destruct sender as [s|]; wps; [|done].
  rewrite Hp. simpl. destruct (bus_unix_user s) as [u|] eqn:Hu; wps; [|done].
  destruct (bus_unix_pid s) as [pd|]; wps; [|done]. split; [done|]. intros ?? [= <- <-]. eauto.
Qed.

Lemma sinv_set_prop p v w : sinv w → p ≠ P_active →
  sinv (set_ses (set_skel (sk_set p v (skel (ses w))) (ses w)) w).
Proof.
  intros Hw Hp. apply (sinv_same w); [done|done|]. simpl.
  rewrite (sk_get_set_ne P_active p) by done. by left.
Qed.

Lemma sinv_emit m w : sinv w → sinv (emit_msg m w).
Proof. intros Hw. apply (sinv_same w); [done|done|by left]. Qed.

Lemma wp_set_idle_hint b w :
  sinv w → wp (session_set_idle_hint_internal b) (λ _ w', sinv w') w.
Proof.
  intros Hw. unfold session_set_idle_hint_internal. wps.
  destruct (Bool.eqb _ b); wps; [done|]. apply sinv_emit.
  apply (sinv_same _ _ (sinv_set_prop P_idle_hint b w Hw ltac:(done))); [done|by left].
Qed.

Lemma wp_take_control sender force w :
  sinv w → sender ≠ None → wpt console_settles (dbus_take_control sender force) (λ r w', sinv w') w.
Proof.
  intros Hw Hs. unfold dbus_take_control. simpl. wps.
  wp_sure ltac:(apply wp_get_caller_info, Hw).
  intros [[u pd]|] w1 [-> _]; wps; [|done].
  case_bool_decide; wps; [done|].
  destruct (bool_decide _ || _); wps.
  - eapply wpt_mono; [by apply wp_set_controller|]. intros [] w2 (? & _). by wps.
  - destruct force; by wps.
Qed.

Lemma wp_run o w : sinv w → wpt console_settles (run o) (λ _ w', sinv w') w.
Proof.
  intros Hw. destruct o; simpl; wps.
  - eapply wpt_mono; [by apply wp_set_active|]. intros r w1 [? _]. by wps.
  - eapply wpt_mono; [by apply wp_take_control|]. intros r w1 ?. by wps.
  - unfold dbus_release_control. wps. case_bool_decide; wps; [|done].
    eapply wpt_mono; [by apply wp_set_controller|]. intros r w1 (? & _). by wps.
  - unfold session_controller_vanished. wps. eapply wpt_mono.
    { apply wp_set_controller. apply (sinv_same w); [done|done|by left]. }
    by intros r w1 (? & _).
  - wp_sure ltac:(by apply wp_take_device). intros r w1 (? & _). by wps.
  - wp_sure ltac:(by apply wp_release_device). intros r w1 ?. by wps.
  - wp_sure ltac:(by apply wp_pause_complete). intros r w1 ?. by wps.
  - unfold vt_leave_handler. wps. wp_sure ltac:(by apply (wp_pause_all true)).
    intros [] w1 [? _]. wps. wp_tty. wps. apply (sinv_same w1); [done|done|by left].
  - unfold vt_acquire_handler. wps. wp_tty. wps. apply (sinv_same w); [done|done|by left].
  - wp_sure ltac:(by apply wp_force_pause). intros r w1 ?. by wps.
  - unfold dbus_set_idle_hint. wps. wp_sure ltac:(apply wp_get_caller_info, Hw).
    intros [[u pd]|] w1 [-> _]; wps; [|done]. destruct (negb _); wps; [done|].
    wp_sure ltac:(by apply wp_set_idle_hint). intros r w1 ?. by wps.
  - unfold dbus_set_locked_hint. wps. wp_sure ltac:(apply wp_get_caller_info, Hw).
    intros [[u pd]|] w1 [-> _]; wps; [|done]. destruct (negb _); wps; [done|].
    by apply sinv_set_prop.
  - wp_sure ltac:(by apply wp_set_idle_hint). intros r w1 ?. by wps.
  - unfold dbus_lock, ck_session_lock. wps. by apply sinv_emit, sinv_set_prop.
  - unfold dbus_unlock, ck_session_unlock. wps. by apply sinv_emit, sinv_set_prop.
  - by apply sinv_set_prop.
Qed.

Lemma sinv_initial ssid cookie h t :
  host_ok h → fds h = ∅ → (∀ p, ¬ live h p) → sinv (initial_world ssid cookie h t).
Proof.
  intros Hok Hf Hl. split; simpl; try done; try (intros; set_solver).
  - split; simpl; try done; [by left|intros f p; by rewrite Hf|intros _ p Hp; by destruct (Hl p)].
  - apply NoDup_nil_2.
Qed.

Lemma reachable_sinv w0 w : sinv w0 → session_reachable w0 w → sinv w.
Proof.
  intros Hw0. induction 1 as [|w w' o _ IH Hrun]; [done|].
  by apply (wpt_elim _ _ _ _ _ (wp_run o w IH) Hrun).
Qed.

(** ** Properties *)

(** C1: Access control of inactive sessions: as long as the ioctls succeed,
    whatever sequence of bus calls, switches, terminal signals and timeouts a
    session has seen, when its "active" property is off no description the
    daemon ever opened for it, nor any duplicate a client kept, gives access to
    an input or DRM device. *)
Theorem inactive_session_no_access ssid cookie h t w p :
  ioctls_succeed → host_ok h → fds h = ∅ → (∀ p, ¬ live h p) →
  session_reachable (initial_world ssid cookie h t) w →
  sk_get P_active (skel (ses w)) = false → ¬ live (hst w) p.
Proof.
  intros Hi Hok Hf Hl Hr Ha Hp.
  destruct (reachable_sinv _ _ (sinv_initial ssid cookie h t Hok Hf Hl) Hr) as [H1 H2 H3 H4 H5 H6 H7].
  destruct (hi_live _ _ _ H1 Hi p Hp) as (d & x & Hx & Hs & Hfx).
  destruct (decide (d ∈ devices (ses w))) as [Hd|Hd].
  - rewrite (H5 Ha d x Hd Hx) in Hs. done.
  - rewrite (H4 d x Hx Hd) in Hfx. by destruct (host_ok_neg _ _ _ (hi_ok _ _ _ H1) Hfx).
Qed.


(** C3: Unless a console is found closing for ever (an [open] refused with EIO
    is tried again), every operation runs to completion in every reachable state:
    no dangling device pointer is followed, and finalising the session then
    closes every descriptor it opened. *)
Theorem session_total_no_leak ssid cookie h t w o :
  console_settles → host_ok h → fds h = ∅ → (∀ p, ¬ live h p) →
  session_reachable (initial_world ssid cookie h t) w →
  ∃ w', run o w = Some (tt, w') ∧
    ∃ w'', ck_session_finalize w' = Some (tt, w'') ∧ fds (hst w'') = ∅.
Proof.
  intros Hset Hok Hf Hl Hr.
  pose proof (reachable_sinv _ _ (sinv_initial ssid cookie h t Hok Hf Hl) Hr) as Hw.
  destruct (wp_elim _ _ _ (wpt_wp _ _ _ Hset (wp_run o w Hw))) as ([] & w' & Hrun & Hw').
  exists w'. split; [done|].
  assert (wp ck_session_finalize (λ _ w'', fds (hst w'') = ∅) w') as Hfin.
  { unfold ck_session_finalize, session_remove_activity_watch, ck_session_set_session_controller. wps.
    match goal with |- wp _ _ ?v => assert (sinv v) as Hv by (destruct Hw'; by split) end.
    eapply wp_mono; [by apply wp_cleanup|]. intros [] w1 [I1 I2 I3 I4 I5 I6 I7]. wps.
    rewrite <- I5 in I1. eapply wp_mono; [apply wp_remove_all; [done|..]|].
    - rewrite I3. apply NoDup_nil_2.
    - rewrite I3. by intros d []%elem_of_nil.
    - intros d x Hx _. by eapply I2.
    - intros [] w2 (_ & E2 & E3). apply map_eq. intros f. rewrite lookup_empty.
      destruct (fds (hst w2) !! f) as [p|] eqn:Hp; [exfalso|done].
      destruct (hi_all _ _ _ E2 f p Hp) as [->|(d & x & Hx & <-)];
        eapply (host_ok_neg _ _ _ (hi_ok _ _ _ E2) Hp); [done|by eapply E3]. }
  destruct (wp_elim _ _ _ Hfin) as ([] & w'' & Hrun' & Hfds). by exists w''.
Qed.
End session.
