(* ===== verification/SessionPolicy.v ===== *)
(** * Sessions: who may do what, and what each call does.

    Authorisation of the hints and of the controller's calls, the pause
    handshake with the controller, the take-over of the virtual terminal and
    its restoration, and the defaults of a new session. *)

From S2P Require Import Prelude Device DeviceFacts Session SessionFacts.
From stdpp Require Import fin_maps fin_map_dom.

Section policy.
Context {HOS : OS} {HEnv : Env} {K : Type} {HSkel : Skeleton K}.
Implicit Types (w : world K).

(** Only the session's owner can set the idle hint: a successful call
    comes from a bus name of the owner's uid, sets the hint and announces it
    exactly when it changed; a refused call changes nothing. *)
Theorem idle_hint_owner_only sender b w :
  bus_proxy (ses w) = true →
  wp (dbus_set_idle_hint sender b) (λ r w',
    (r = Complete [] ∧
     (∃ n : string, sender = Some n ∧ bus_unix_user n = Some (sk_get P_unix_user (skel (ses w)))) ∧
     sk_get P_idle_hint (skel (ses w')) = b ∧
     out w' = out w ++
       (if Bool.eqb (sk_get P_idle_hint (skel (ses w))) b then [] else [EmitIdleHintChanged b]) ∧
     ∀ p, p ≠ P_idle_hint → sk_get p (skel (ses w')) = sk_get p (skel (ses w)))
    ∨ (∃ e, r = Throw e) ∧ w' = w) w.
Proof.
  intros Hp. unfold dbus_set_idle_hint. wps.
  eapply wp_mono; [by apply wp_get_caller_info|]. intros [[u pd]|] w1 [-> Hu]; wps; [|by right; eauto].
  destruct (Hu u pd eq_refl) as (n & -> & Hn).
  destruct (Z.eqb_spec (sk_get P_unix_user (skel (ses w))) u) as [<-|]; simpl; wps; [|by right; eauto].
  unfold session_set_idle_hint_internal. wps.
  destruct (Bool.eqb_spec (sk_get P_idle_hint (skel (ses w))) b) as [Hb|Hb]; wps; left.
  - split_and!; eauto. by rewrite app_nil_r.
  - split_and!; eauto; simpl; [apply (sk_get_set P_idle_hint)|].
    intros p Hne. by apply sk_get_set_ne.
Qed.

(** Control of a session is taken only when it is free, by its present
    holder, or by root with force; the new controller starts without devices,
    and a refused call changes nothing. *)
Theorem take_control_policy n force w :
  sinv w →
  wpt console_settles (dbus_take_control (Some n) force) (λ r w',
    (r = Complete [] ∧ session_controller (ses w') = Some n ∧
     (session_controller (ses w) = Some n ∧ w' = w ∨
      (session_controller (ses w) = None ∨ force = true ∧ bus_unix_user n = Some 0%Z) ∧
      devices (ses w') = [])) ∨
    (∃ e, r = Throw e) ∧ w' = w) w.
Proof.
  intros Hw. unfold dbus_take_control.
  change (negb ck_device_is_server_managed) with false. cbn iota. wps.
  wp_sure ltac:(apply wp_get_caller_info, Hw).
  intros [[u pd]|] w1 [-> Hu]; wps; [|by right; eauto].
  case_bool_decide as Hc; wps; [left; eauto 10|].
  destruct (bool_decide (session_controller (ses w) = None) || (force && (u =? 0)%Z)) eqn:Hf; wps.
  - eapply wpt_mono; [by apply wp_set_controller|]. intros [] w2 (_ & Hctl & Hd & _). wps.
    left. split_and!; try done. right. split; [|done].
    apply orb_true_iff in Hf as [Hf%bool_decide_eq_true|Hf]; [by left|right].
    apply andb_true_iff in Hf as [-> Hf%Z.eqb_eq]. subst u.
    destruct (Hu 0%Z pd eq_refl) as (m & [= <-] & Hm). done.
  - destruct force; wps; right; eauto.
Qed.

(** A caller that is not the controller gets an error from every call
    reserved to it, and changes nothing. *)
Theorem non_controller_rejected sender maj min w :
  session_controller (ses w) ≠ sender →
  dbus_release_control sender w = Some (Throw CK_SESSION_ERROR_FAILED, w) ∧
  dbus_take_device sender maj min w = Some (Throw CK_SESSION_ERROR_FAILED, w) ∧
  dbus_release_device sender maj min w = Some (Throw CK_SESSION_ERROR_FAILED, w) ∧
  dbus_pause_device_complete sender maj min w = Some (Throw CK_SESSION_ERROR_FAILED, w).
Proof.
  intros Hc. unfold dbus_release_control, dbus_take_device, dbus_release_device,
    dbus_pause_device_complete, field. unfold_prog.
  by rewrite bool_decide_eq_false_2.
Qed.

(** ** The pause handshake *)

Definition some_active w : Prop :=
  ∃ d x, d ∈ devices (ses w) ∧ devs w !! d = Some x ∧ state x = true.

Lemma wp_any_active_iff l w :
  (∀ d, d ∈ l → is_Some (devs w !! d)) →
  wp (any_active l) (λ b w', w' = w ∧
    (b = true ↔ ∃ d x, d ∈ l ∧ devs w !! d = Some x ∧ state x = true)) w.
Proof.
  induction l as [|d l IH]; intros Hl; cbn [any_active]; wps.
  - split; [done|]. split; [done|]. by intros (d & x & []%elem_of_nil & _).
  - destruct (Hl d) as [x Hx]; [by left|]. eapply wp_deref; [done|].
    destruct (state x) eqn:Hs; wps.
    + split; [done|]. split; [intros _|done]. exists d, x. split_and!; try done. by left.
    + eapply wp_mono; [apply IH; intros e He; apply Hl; by right|].
      intros b w' [-> Hb]. split; [done|]. rewrite Hb. split; intros (e & y & He & Hy & Hsy).
      * exists e, y. split_and!; try done. by right.
      * exists e, y. apply elem_of_cons in He as [->|He]; [congruence|done].
Qed.

(** The pause handshake: an unforced pause of a session with devices asks
    the controller about each active device and leaves the session active with
    a timeout running; each completed device is then checked, and the session
    becomes inactive exactly when no device is active any more. *)
Theorem pause_handshake w :
  sinv w → devices (ses w) ≠ [] → (0 < next_id w)%Z →
  wp (ck_session_pause_all_devices false) (λ _ w', skel (ses w') = skel (ses w) ∧
    devs w' = devs w ∧ pause_devices_timer (ses w') ≠ 0%Z) w ∧
  wp ck_session_check_paused_devices (λ _ w', devs w' = devs w ∧
    (sk_get P_active (skel (ses w')) = true ↔
     sk_get P_active (skel (ses w)) = true ∧ some_active w)) w.
Proof.
  intros Hw Hd Hn. split.
  - unfold ck_session_pause_all_devices. wps.
    eapply (wp_mono _ (λ _ w', devs w' = devs w ∧ ses w' = ses w ∧ next_id w' = next_id w)).
    { apply (wp_for_each _ (λ _ w', devs w' = devs w ∧ ses w' = ses w ∧ next_id w' = next_id w));
        [|done].
      intros d todo w' Hsuf (E1 & E2 & E3).
      assert (d ∈ devices (ses w)) as Hdl
        by (destruct Hsuf as [k ->]; apply elem_of_app; right; by left).
      destruct (si_list w Hw d Hdl) as [x Hx]. unfold pause_device. wps.
      eapply wp_deref; [by rewrite E1|]. destruct (state x); simpl; wps; done. }
    intros [] w1 (E1 & E2 & E3). rewrite bool_decide_eq_false_2 by done. simpl. wps. simpl.
    rewrite E1, E2, E3. split_and!; try done. lia.
  - unfold ck_session_check_paused_devices. wps.
    eapply wp_mono; [apply wp_any_active_iff, Hw|]. intros b w' [-> Hb].
    destruct b; wps; [split; [done|]; unfold some_active; tauto|].
    assert (¬ some_active w) as Hno by (intros Hs; apply Hb in Hs; done).
    destruct (sk_get P_active (skel (ses w))) eqn:Ha; wps.
    + apply (wp_mark false). intros w1 Hsame Ha1. wps. destruct Hsame as [E1 _].
      simpl. rewrite E1, Ha1. split; [done|]. tauto.
    + split; [done|]. simpl. rewrite Ha. split; [done|tauto].
Qed.

(** ** The virtual terminal *)

Definition taken_over (old : tty) : tty :=
  {| kd_graphics := true; kbd_mode := KBD_OFF_MODE; kbd_muted := true; vt_process := true;
     vt_owner := vt_owner old |}.

(** A terminal in text mode with automatic switching. *)
Definition text_tty (t : tty) : Prop :=
  kd_graphics t = false ∧ kbd_muted t = false ∧ vt_process t = false.

Lemma wp_tty_ok f g (Q : bool → world K → Prop) w :
  ioctls_succeed → is_Some (fds (hst w) !! f) →
  Q true (set_vt (g (vt w)) (set_hst (tick (hst w)) w)) → wp (tty_ioctl f g) Q w.
Proof.
  intros Hi Hf HQ. apply wp_tty_ioctl. intros b t Hb _ Hok.
  rewrite (Hok Hi Hf) in *. by destruct (Hb eq_refl) as [_ ->].
Qed.

(** The console can be opened. *)
Definition console_opens (h : host) : Prop :=
  ∃ f h', open_a_console console_fuel h = Some (f, h') ∧ (0 ≤ f)%Z.

Lemma wp_setup_vt_ok w :
  ioctls_succeed → host_ok (hst w) → kd_graphics (vt w) = false → (0 < next_id w)%Z →
  console_opens (hst w) →
  wp ck_session_setup_vt_signal (λ _ w', vt w' = taken_over (vt w) ∧
    is_Some (fds (hst w') !! tty_fd (ses w')) ∧ tty_fd (ses w') ≠ (-1)%Z ∧
    sig_watch_s1 (ses w') ≠ 0%Z ∧ old_kbd_mode (ses w') = kbd_mode (vt w) ∧
    devices (ses w') = devices (ses w)) w.
Proof.
  intros Hi Hok Hg Hn (f & h1 & Ho & Hf). unfold ck_session_setup_vt_signal. wps.
  apply (wp_console f h1); [done|]. wps. rewrite (proj2 (Z.ltb_ge _ _) Hf).
  assert (is_Some (fds h1 !! f)) as Hopenf by by apply (open_a_console_open _ _ _ _ Hok Ho).
  wps. apply wp_tty_ok; [done|done|]. wps.
  apply wp_tty_ok; [done|done|]. simpl negb. cbn iota. wps. simpl. rewrite Hg.
  wps. apply wp_tty_ok; [done|done|]. simpl negb. cbn iota.
  wps. apply wp_tty_ok; [done|done|]. wps. apply wp_tty_ok; [done|done|].
  wps. apply wp_tty_ok; [done|done|]. simpl negb. cbn iota. wps. simpl.
  split_and!; try done; lia.
Qed.

Lemma wp_cleanup_vt_ok w :
  ioctls_succeed → devices (ses w) = [] → is_Some (fds (hst w) !! tty_fd (ses w)) →
  sig_watch_s1 (ses w) ≠ 0%Z →
  wp ck_session_controller_cleanup (λ _ w', session_controller (ses w') = None ∧
    vt w' = {| kd_graphics := false; kbd_mode := old_kbd_mode (ses w); kbd_muted := false;
               vt_process := false; vt_owner := vt_owner (vt w) |}) w.
Proof.
  intros Hi Hd Hf Hs. unfold ck_session_controller_cleanup, ck_session_remove_all_devices.
  wps. simpl. rewrite Hd. simpl. unfold restore_vt. wps. simpl.
  rewrite (proj2 (Z.eqb_neq _ _) Hs). wps.
  apply wp_tty_ok; [done|done|]. wps. apply wp_tty_ok; [done|done|]. wps.
  apply wp_tty_ok; [done|done|]. wps. apply wp_tty_ok; [done|done|]. wps. simpl.
  case_match; wps; done.
Qed.

(** Taking control of a session on a text terminal switches the terminal
    to graphics with the keyboard off and process-controlled switching, and
    releasing control afterwards restores the terminal exactly. *)
Theorem control_restores_vt n w :
  ioctls_succeed → sinv w → session_controller (ses w) = None →
  sig_watch_s1 (ses w) = 0%Z → tty_fd (ses w) = (-1)%Z →
  (0 < sk_get P_vtnr (skel (ses w)))%Z → text_tty (vt w) → (0 < next_id w)%Z →
  console_opens (hst w) →
  wp (ck_session_set_session_controller (Some n)) (λ _ w1, vt w1 = taken_over (vt w) ∧
    wp (ck_session_set_session_controller None) (λ _ w2,
      session_controller (ses w2) = None ∧ vt w2 = vt w) w1) w.
Proof.
  intros Hi Hw Hc Hs Ht Hv (G1 & G2 & G3) Hn Hopen.
  assert (devices (ses w) = []) as Hd by by apply si_control.
  unfold ck_session_set_session_controller at 1, ck_session_controller_cleanup,
    ck_session_remove_all_devices, restore_vt.
  wps. simpl. rewrite Hd. simpl. wps. simpl. rewrite Hs, Ht. simpl. wps. simpl.
  rewrite (proj2 (Z.ltb_lt _ _) Hv).
  eapply wp_mono; [apply wp_setup_vt_ok; try done; simpl; [apply Hw|lia]|].
  intros [] w1 (E1 & E2 & E3 & E4 & E5 & E6). split; [done|].
  unfold ck_session_set_session_controller. wps.
  eapply wp_mono; [apply wp_cleanup_vt_ok; try done; by rewrite E6|].
  intros [] w2 [F1 F2]. wps. split; [done|]. rewrite F2, E5, E1. simpl.
  destruct (vt w); simpl in *. by rewrite G1, G2, G3.
Qed.

(** A device the daemon cannot manage is refused the first time and stays
    in the session's list without descriptor: from then on the controller is
    told that it has already been requested. *)
Theorem unsupported_device_stuck n maj min w u :
  sinv w → session_controller (ses w) = Some n → udev_ctx (hst w) = true →
  os_udev_device maj min = Some u → device_category u = DEVICE_OTHER →
  (∀ d x, d ∈ devices (ses w) → devs w !! d = Some x → ck_device_compare x maj min = false) →
  wp (dbus_take_device (Some n) maj min) (λ r w', r = Throw CK_SESSION_ERROR_NOT_SUPPORTED ∧
    wp (dbus_take_device (Some n) maj min) (λ r' _, r' = Throw CK_SESSION_ERROR_GENERAL) w') w.
Proof.
  intros Hw Hc Hu Hud Hcat Hno.
  assert (∀ l, (∀ d, d ∈ l → d ∈ devices (ses w)) →
    find_device maj min l w = Some (None, w)) as Hfind.
  { induction l as [|d l IH]; intros Hl; [done|]. cbn [find_device].
    destruct (si_list w Hw d) as [x Hx]; [apply Hl; by left|].
    unfold deref. unfold_prog. rewrite Hx. rewrite (Hno d x) by (done || apply Hl; by left).
    apply IH. intros e He. apply Hl. by right. }
  assert (wp (ck_session_get_device maj min) (λ r w', r = None ∧ w' = w) w) as Hget.
  { unfold ck_session_get_device. wps. unfold wp. rewrite Hfind by done. done. }
  unfold dbus_take_device at 1. wps. rewrite bool_decide_eq_true_2 by done. simpl negb. cbn iota. wps.
  eapply wp_mono; [exact Hget|]. intros r w1 [-> ->]. wps.
  unfold ck_session_create_device. wps. eapply wp_mono; [exact Hget|]. intros r w1 [-> ->]. wps.
  unfold ck_device_new, udev_instance, ck_device_get_udevice_from_devnum. rewrite Hu, Hud. cbn [negb].
  rewrite decide_True by done. cbn [fst snd]. wps.
  set (d := fresh (dom (devs w))).
  eapply wp_deref; [simpl; by rewrite lookup_insert_eq|]. simpl Z.eqb. cbn iota. wps.
  split; [done|]. unfold dbus_take_device. wps.
  rewrite bool_decide_eq_true_2 by done. simpl negb. cbn iota. wps.
  unfold ck_session_get_device. wps. simpl devices. cbn [find_device]. wps.
  eapply wp_deref; [simpl; by rewrite lookup_insert_eq|].
  unfold ck_device_compare. simpl. rewrite !Z.eqb_refl. simpl.
  rewrite decide_False by (by rewrite Hcat). wps. done.
Qed.

(** The defaults of a registered session: type and service become
    "unspecified" and class "user" when unset; but the session state, which the
    last step means to set to "online", is left as it was. *)
Theorem register_session_defaults w :
  wp register_session (λ _ w',
    sk_get P_session_type (skel (ses w')) =
      Some (or_default "unspecified" (sk_get P_session_type (skel (ses w)))) ∧
    sk_get P_session_service (skel (ses w')) =
      Some (or_default "unspecified" (sk_get P_session_service (skel (ses w)))) ∧
    sk_get P_session_class (skel (ses w')) =
      Some (or_default "user" (sk_get P_session_class (skel (ses w)))) ∧
    sk_get P_session_state (skel (ses w')) = sk_get P_session_state (skel (ses w))) w.
Proof.
  assert (∀ (p : sprop) (proj : ptype p → cstr) inj dflt v0 (Q : unit → world K → Prop) w0,
    proj (sk_get p (skel (ses w0))) = v0 →
    (∀ w', (∀ q, q ≠ p → sk_get q (skel (ses w')) = sk_get q (skel (ses w0))) →
       (sk_get p (skel (ses w')) = match v0 with Some _ => sk_get p (skel (ses w0))
                                   | None => inj (Some dflt) end) → Q tt w') →
    wp (default_str p proj inj dflt) Q w0) as Hdef.
  { intros p proj inj dflt v0 Q w0 <- HQ. unfold default_str. wps.
    destruct (proj _); wps; apply HQ; try done; simpl.
    - intros q Hq. by apply sk_get_set_ne.
    - apply sk_get_set. }
  unfold register_session. wps. eapply Hdef; [done|]. intros w1 A1 A2. wps.
  eapply Hdef; [done|]. intros w2 B1 B2. wps. eapply Hdef; [done|]. intros w3 D1 D2.
  eapply Hdef; [done|]. intros w4 E1 E2.
  rewrite (A1 P_session_service) in B2 by done.
  rewrite (B1 P_session_class), (A1 P_session_class) in D2 by done.
  assert (sk_get P_session_type (skel (ses w4)) = sk_get P_session_type (skel (ses w1))) as ->
    by (rewrite E1, D1, B1; done).
  assert (sk_get P_session_service (skel (ses w4)) = sk_get P_session_service (skel (ses w2))) as ->
    by (rewrite E1, D1; done).
  assert (sk_get P_session_state (skel (ses w4)) = sk_get P_session_state (skel (ses w))) as ->
    by (rewrite E1, D1, B1, A1; done).
  simpl ptype in *. rewrite E2, D2, A2, B2.
  split_and!; try done; repeat case_match; simplify_eq/=; congruence.
Qed.
End policy.
