(* ===== verification/SessionRuns.v ===== *)
(** * Sessions: an executable instance and concrete runs.

    The interfaces [Skeleton], [Env] and [OS] have executable instances, on
    which the theorems of [SessionFacts] and [SessionPolicy] are applied to
    concrete runs; and one run shows a terminal that is not restored. *)

From S2P Require Import Prelude Device DeviceFacts Session SessionFacts SessionPolicy.

(** ** Instances *)

Definition pstore : Type := ∀ p, ptype p.

Definition pstore_set (p : sprop) (v : ptype p) (k : pstore) : pstore := λ q,
  match decide (p = q) with
  | left e => eq_rect p ptype v q e
  | right _ => k q
  end.

Lemma pstore_get_set p v (k : pstore) : pstore_set p v k p = v.
Proof.
  unfold pstore_set. destruct (decide (p = p)) as [e|]; [|done].
  by rewrite (proof_irrel e eq_refl).
Qed.
Lemma pstore_get_set_ne p q v (k : pstore) : p ≠ q → pstore_set q v k p = k p.
Proof. intros Hne. unfold pstore_set. by destruct (decide (q = p)) as [->|]. Qed.

Definition pstore_skeleton : Skeleton pstore :=
  {| sk_new := pzero; sk_get := λ p k, k p; sk_set := pstore_set;
     sk_get_new := λ _, eq_refl; sk_get_set := pstore_get_set;
     sk_get_set_ne := λ p q v k H, pstore_get_set_ne p q v k H |}.
#[local] Existing Instance pstore_skeleton.

(** Two clients: ":1.5" of user 1000 and ":1.0" of root. *)
Definition sample_env : Env :=
  {| bus_unix_user := λ n, if String.eqb n ":1.5" then Some 1000%Z
                           else if String.eqb n ":1.0" then Some 0%Z else None;
     bus_unix_pid := λ n, Some 42%Z;
     getpwuid := λ u, Some 100%Z;
     current_time := λ n, Z.of_nat n;
     iso8601 := λ z, "2024-01-01T00:00:00Z" |}.
#[local] Existing Instance sample_env.

Definition text_console : tty :=
  {| kd_graphics := false; kbd_mode := 1; kbd_muted := false; vt_process := false; vt_owner := None |}.

(** [sample_os] with one [ioctl] that fails. *)
Definition failing_os (k : nat) : OS :=
  {| os_open := λ n, (Z.of_nat (10 + n), true); os_errno := λ _, EACCES;
     os_ioctl := λ n, negb (Nat.eqb n k); os_isatty := λ _, true;
     os_udev_new := λ _, true; os_udev_device := sample_udev; console_fuel := 1 |}.

Section runs.
Context {HOS : OS}.

Definition start : world pstore := initial_world "Session1" "cookie" sample_host text_console.

Fixpoint exec (l : list session_op) (w : world pstore) : world pstore :=
  match l with
  | [] => w
  | o :: l => exec l (match run o w with Some (_, w') => w' | None => w end)
  end.

Lemma exec_reachable l : session_reachable start (exec l start).
Proof.
  assert (∀ w, session_reachable start w → session_reachable start (exec l w)) as Hall;
    [|apply Hall, sr_init].
  induction l as [|o l IH]; intros w Hw; [done|]. apply IH.
  destruct (run o w) as [[[] w']|] eqn:E; [by eapply sr_step|done].
Qed.

Lemma start_live p : ¬ live sample_host p.
Proof. intros (x & Hx & _). simpl in Hx. by rewrite lookup_empty in Hx. Qed.
Lemma start_sinv : sinv start.
Proof. apply sinv_initial; [apply sample_host_ok|done|apply start_live]. Qed.
Lemma exec_sinv l : sinv (exec l start).
Proof. eapply reachable_sinv; [apply start_sinv|apply exec_reachable]. Qed.
End runs.

(** The owner drives the session on vt 7 with a keyboard. *)
Definition on_vt7 : list session_op :=
  [OpSetProp P_vtnr 7%Z ltac:(done); OpSetProp P_unix_user 1000%Z ltac:(done)].
Definition with_keyboard : list session_op :=
  on_vt7 ++ [OpTakeControl ":1.5" false; OpSetActive true true; OpTakeDevice ":1.5" 13 64].

(** If the last request of the terminal's take-over (VT_SETMODE) fails,
    the terminal is never restored: after control was taken and released the
    session has no controller and no open terminal, but the terminal, a text
    console before, is left in graphics mode with its keyboard muted. *)
Theorem failed_takeover_not_restored :
  let w := @exec (failing_os 8) (on_vt7 ++ [OpTakeControl ":1.5" false; OpReleaseControl ":1.5"]) start in
  @session_reachable (failing_os 8) _ _ _ start w ∧
  text_tty (vt start) ∧ session_controller (ses w) = None ∧ tty_fd (ses w) = (-1)%Z ∧
  kd_graphics (vt w) = true ∧ kbd_muted (vt w) = true.
Proof.
  split; [apply (@exec_reachable (failing_os 8))|]. split; [done|]. vm_compute. done.
Qed.

(** ** Witnesses *)

#[local] Existing Instance sample_os.

Lemma inactive_session_no_access_witness :
  let w := @exec (sample_os 0) (with_keyboard ++ [OpSetActive false true]) start in
  dom (fds (hst w)) ≠ ∅ ∧ ¬ live (hst w) 2%positive.
Proof.
  split; [by vm_compute|].
  apply (@inactive_session_no_access (sample_os 0) sample_env pstore pstore_skeleton
    "Session1" "cookie" sample_host text_console _ 2%positive (sample_ioctls 0) sample_host_ok
    eq_refl start_live (@exec_reachable (sample_os 0) _)).
  vm_compute. reflexivity.
Defined.


Lemma session_total_no_leak_witness :
  ∃ w', @run (sample_os 0) sample_env pstore pstore_skeleton OpVtLeave
    (@exec (sample_os 0) with_keyboard start) = Some (tt, w').
Proof.
  destruct (@session_total_no_leak (sample_os 0) sample_env pstore pstore_skeleton
    "Session1" "cookie" sample_host text_console _ OpVtLeave (sample_settles 0) sample_host_ok eq_refl start_live
    (@exec_reachable (sample_os 0) with_keyboard)) as (w' & Hw' & _).
  by exists w'.
Defined.

Lemma idle_hint_owner_only_witness :
  ∃ r w', @dbus_set_idle_hint sample_env pstore pstore_skeleton (Some ":1.0") true
    (@exec (sample_os 0) on_vt7 start) = Some (r, w') ∧ (∃ e, r = Throw e).
Proof.
  destruct (wp_elim _ _ _ (@idle_hint_owner_only sample_env pstore pstore_skeleton
    (Some ":1.0") true (@exec (sample_os 0) on_vt7 start) eq_refl)) as (r & w' & Hr & Hcase).
  exists r, w'. split; [exact Hr|]. destruct Hcase as [(_ & (n & [= <-] & Hn) & _)|[He _]]; [|exact He].
  vm_compute in Hn. discriminate Hn.
Defined.

Lemma take_control_policy_witness :
  ∃ r w', @dbus_take_control (sample_os 0) sample_env pstore pstore_skeleton (Some ":1.0") true
    (@exec (sample_os 0) with_keyboard start) = Some (r, w') ∧
    (r = Complete [] ∨ ∃ e, r = Throw e).
Proof.
  destruct (wp_elim _ _ _ (wpt_wp _ _ _ (sample_settles 0) (@take_control_policy (sample_os 0) sample_env pstore pstore_skeleton
    ":1.0" true _ (@exec_sinv (sample_os 0) with_keyboard)))) as (r & w' & Hr & Hcase).
  exists r, w'. split; [exact Hr|]. destruct Hcase as [(? & _)|[? _]]; [by left|by right].
Defined.

Lemma non_controller_rejected_witness :
  let w := @exec (sample_os 0) with_keyboard start in
  @dbus_take_device (sample_os 0) pstore pstore_skeleton (Some ":1.0") 226 0 w =
    Some (Throw CK_SESSION_ERROR_FAILED, w).
Proof.
  apply (@non_controller_rejected (sample_os 0) pstore pstore_skeleton (Some ":1.0") 226 0).
  by vm_compute.
Defined.

Lemma pause_handshake_witness :
  let w := @exec (sample_os 0) with_keyboard start in
  ∃ w', @ck_session_pause_all_devices (sample_os 0) pstore pstore_skeleton false w = Some (tt, w') ∧
    pause_devices_timer (ses w') ≠ 0%Z.
Proof.
  intros w. destruct (@pause_handshake (sample_os 0) pstore pstore_skeleton w
    (@exec_sinv (sample_os 0) with_keyboard)) as [Hp _]; [by vm_compute|by vm_compute|].
  destruct (wp_elim _ _ _ Hp) as ([] & w' & Hrun & _ & _ & Ht).
  exists w'. split; [exact Hrun|exact Ht].
Defined.

Lemma control_restores_vt_witness :
  ∃ w1, @ck_session_set_session_controller (sample_os 0) pstore pstore_skeleton (Some ":1.5")
    (@exec (sample_os 0) on_vt7 start) = Some (tt, w1) ∧ kd_graphics (vt w1) = true.
Proof.
  pose proof (@control_restores_vt (sample_os 0) pstore pstore_skeleton
    ":1.5" (@exec (sample_os 0) on_vt7 start) (sample_ioctls 0) (@exec_sinv (sample_os 0) on_vt7))
    as Hthm.
  do 6 (specialize (Hthm ltac:(vm_compute; repeat split; discriminate))).
  specialize (Hthm ltac:(eexists _, _; split; [vm_compute; reflexivity|vm_compute; discriminate])).
  destruct (wp_elim _ _ _ Hthm) as ([] & w1 & Hrun & Hvt & _).
  exists w1. split; [exact Hrun|]. rewrite Hvt. reflexivity.
Defined.

Definition sound_card : udev_device :=
  {| udev_subsystem := Some "sound"; udev_sysname := Some "controlC0";
     udev_devnode := Some "/dev/snd/controlC0" |}.
Definition sound_os : OS :=
  {| os_open := λ n, (Z.of_nat (10 + n), true); os_errno := λ _, EACCES;
     os_ioctl := λ n, true; os_isatty := λ _, true; os_udev_new := λ _, true;
     os_udev_device := λ a b, if bool_decide (a = 116 ∧ b = 0)%Z then Some sound_card else None;
     console_fuel := 1 |}.

Lemma unsupported_device_stuck_witness :
  ∃ r w', @dbus_take_device sound_os pstore pstore_skeleton (Some ":1.5") 116 0
    (@exec sound_os (on_vt7 ++ [OpTakeControl ":1.5" false]) start) = Some (r, w') ∧
    r = Throw CK_SESSION_ERROR_NOT_SUPPORTED.
Proof.
  pose proof (@unsupported_device_stuck sound_os pstore pstore_skeleton
    ":1.5" 116 0 (@exec sound_os (on_vt7 ++ [OpTakeControl ":1.5" false]) start) sound_card
    (@exec_sinv sound_os _)) as Hthm.
  do 4 (specialize (Hthm ltac:(vm_compute; reflexivity))).
  specialize (Hthm ltac:(intros d x Hd; exfalso; vm_compute in Hd; apply elem_of_nil in Hd; exact Hd)).
  destruct (wp_elim _ _ _ Hthm) as (r & w' & Hrun & Hr & _).
  exists r, w'. split; [exact Hrun|exact Hr].
Defined.
