(* ===== verification/VtMonitor.v ===== *)
(** * The VT monitor: [src/ck-vt-monitor.c].

    Watch threads wait for console switches, push the number of the new VT on a
    queue and schedule an idle callback; the main loop's [process_queue] drains
    the queue, keeps the last event and changes the active number.  One step of
    the model is one critical section (or one statement on private data), and
    a run is any interleaving of steps.

    [poller] chooses between the two Linux builds: with [HAVE_SYS_VT_SIGNAL] one
    thread polls /sys/class/tty/tty0/active in a loop; without it there is one
    one-shot thread per VT, which waits with VT_WAITACTIVE. *)

From S2P Require Import Prelude.

Inductive tpc := T_wait | T_push | T_schedule | T_unregister.
#[export] Instance tpc_eq_dec : EqDecision tpc.
Proof. solve_decision. Defined.

(** A watch thread: the [num] it has, and where it is in [vt_thread_start]. *)
Record thread := { t_num : Z; t_pc : tpc }.

(** Where the main loop is in [process_queue], which holds the queue's lock
    throughout; [M_watch] and [M_emit] are inside [change_active_num]. *)
Inductive main_pc :=
| M_loop
| M_drained (data : option Z)
| M_watch (num : Z)
| M_emit (num : Z)
| M_finish.

(** [CkVtMonitorPrivate] ([process_queue_id] says whether it is not 0), the number
    of idle sources that wait in the main loop to call [process_queue], the threads, the
    kernel's active VT and whether it changed since it was last read, and the
    "active-changed" signals emitted. *)
Record CkVtMonitor := {
  active_num : Z;
  vt_thread_hash : gmap Z positive;
  event_queue : list Z;
  process_queue_id : bool;
  idle_source : nat;
  main : main_pc;
  threads : gmap positive thread;
  kernel_active : Z;
  kernel_changed : bool;
  emitted : list Z
}.

Definition set_threads (ts : gmap positive thread) (m : CkVtMonitor) : CkVtMonitor :=
  {| active_num := active_num m; vt_thread_hash := vt_thread_hash m; event_queue := event_queue m;
     process_queue_id := process_queue_id m; idle_source := idle_source m; main := main m;
     threads := ts; kernel_active := kernel_active m; kernel_changed := kernel_changed m;
     emitted := emitted m |}.
Definition set_hash (h : gmap Z positive) (m : CkVtMonitor) : CkVtMonitor :=
  {| active_num := active_num m; vt_thread_hash := h; event_queue := event_queue m;
     process_queue_id := process_queue_id m; idle_source := idle_source m; main := main m;
     threads := threads m; kernel_active := kernel_active m; kernel_changed := kernel_changed m;
     emitted := emitted m |}.
Definition set_queue (q : list Z) (m : CkVtMonitor) : CkVtMonitor :=
  {| active_num := active_num m; vt_thread_hash := vt_thread_hash m; event_queue := q;
     process_queue_id := process_queue_id m; idle_source := idle_source m; main := main m;
     threads := threads m; kernel_active := kernel_active m; kernel_changed := kernel_changed m;
     emitted := emitted m |}.
Definition set_sched (id : bool) (idle : nat) (m : CkVtMonitor) : CkVtMonitor :=
  {| active_num := active_num m; vt_thread_hash := vt_thread_hash m; event_queue := event_queue m;
     process_queue_id := id; idle_source := idle; main := main m;
     threads := threads m; kernel_active := kernel_active m; kernel_changed := kernel_changed m;
     emitted := emitted m |}.
Definition set_main (p : main_pc) (m : CkVtMonitor) : CkVtMonitor :=
  {| active_num := active_num m; vt_thread_hash := vt_thread_hash m; event_queue := event_queue m;
     process_queue_id := process_queue_id m; idle_source := idle_source m; main := p;
     threads := threads m; kernel_active := kernel_active m; kernel_changed := kernel_changed m;
     emitted := emitted m |}.
Definition set_active_num (n : Z) (m : CkVtMonitor) : CkVtMonitor :=
  {| active_num := n; vt_thread_hash := vt_thread_hash m; event_queue := event_queue m;
     process_queue_id := process_queue_id m; idle_source := idle_source m; main := main m;
     threads := threads m; kernel_active := kernel_active m; kernel_changed := kernel_changed m;
     emitted := emitted m |}.
Definition set_kernel (n : Z) (c : bool) (m : CkVtMonitor) : CkVtMonitor :=
  {| active_num := active_num m; vt_thread_hash := vt_thread_hash m; event_queue := event_queue m;
     process_queue_id := process_queue_id m; idle_source := idle_source m; main := main m;
     threads := threads m; kernel_active := n; kernel_changed := c; emitted := emitted m |}.
Definition emit_active_changed (n : Z) (m : CkVtMonitor) : CkVtMonitor :=
  {| active_num := active_num m; vt_thread_hash := vt_thread_hash m; event_queue := event_queue m;
     process_queue_id := process_queue_id m; idle_source := idle_source m; main := main m;
     threads := threads m; kernel_active := kernel_active m; kernel_changed := kernel_changed m;
     emitted := emitted m ++ [n] |}.
Definition set_thread (tid : positive) (t : thread) (m : CkVtMonitor) : CkVtMonitor :=
  set_threads (<[tid := t]> (threads m)) m.

Section monitor.
(** The build's variant, and [ck_get_max_num_consoles]. *)
Variable poller : bool.
Variable max_consoles : Z.

(** ** Adding watches *)

(** [ok]: whether the thread could be created.  The polling thread opens the
    sysfs file anew, and a newly opened one polls as changed. *)
Definition vt_add_watch_unlocked (ok : bool) (num : Z) (m : CkVtMonitor) : CkVtMonitor :=
  if ok then
    let tid := fresh (dom (threads m)) in
    set_hash (<[num := tid]> (vt_thread_hash m))
      (set_thread tid {| t_num := num; t_pc := T_wait |}
         (set_kernel (kernel_active m) (kernel_changed m || poller) m))
  else m.

Definition add_missing_watch (ok : Z → bool) (num : Z) (m : CkVtMonitor) : CkVtMonitor :=
  match vt_thread_hash m !! num with
  | None => vt_add_watch_unlocked (ok num) num m
  | Some _ => m
  end.

(** [for (i = 1; i < max_consoles; i++)], skipping the active console. *)
Fixpoint add_watches_from (ok : Z → bool) (i : Z) (n : nat) (m : CkVtMonitor) : CkVtMonitor :=
  match n with
  | 0 => m
  | S n =>
      add_watches_from ok (i + 1) n
        (if Z.eqb i (active_num m) then m else add_missing_watch ok i m)
  end.

Definition vt_add_watches (ok : Z → bool) (m : CkVtMonitor) : CkVtMonitor :=
  if poller then add_missing_watch ok 1 m
  else add_watches_from ok 1 (Z.to_nat (max_consoles - 1)) m.

(** ** Steps *)

Inductive step_label :=
| L_switch (n : Z)            (* the kernel switches to VT n *)
| L_wake (tid : positive)     (* a thread's wait succeeds *)
| L_wait_failed (tid : positive)
| L_push (tid : positive)
| L_schedule (tid : positive)
| L_unregister (tid : positive)
| L_drain                     (* the idle callback starts: process_queue *)
| L_change                    (* the test of change_active_num *)
| L_watch (ok : Z → bool)
| L_emit
| L_finish.

(** The thread's part of a step: its state must be [pc]. *)
Definition at_pc (pc : tpc) (tid : positive) (m : CkVtMonitor) : option thread :=
  match threads m !! tid with
  | Some t => if decide (t_pc t = pc) then Some t else None
  | None => None
  end.

Definition goto (pc : tpc) (t : thread) : thread := {| t_num := t_num t; t_pc := pc |}.

(** A wait succeeds: VT_WAITACTIVE when the VT is active, the poll when there
    was a change, whose number is read. *)
Definition wake (tid : positive) (t : thread) (m : CkVtMonitor) : option CkVtMonitor :=
  if poller then
    if kernel_changed m
    then Some (set_thread tid {| t_num := kernel_active m; t_pc := T_push |}
                 (set_kernel (kernel_active m) false m))
    else None
  else if Z.eqb (kernel_active m) (t_num t) then Some (set_thread tid (goto T_push t) m)
  else None.

Definition schedule_process_queue (m : CkVtMonitor) : CkVtMonitor :=
  if process_queue_id m then m else set_sched true (S (idle_source m)) m.

(** [process_queue], first part: only the last event is kept.  It returns FALSE, so
    its source will not call it again. *)
Definition process_queue_drain (m : CkVtMonitor) : option CkVtMonitor :=
  match main m with
  | M_loop =>
      match idle_source m with
      | S n => Some (set_main (M_drained (last (event_queue m)))
                       (set_queue [] (set_sched (process_queue_id m) n m)))
      | 0 => None
      end
  | _ => None
  end.

Definition change_active_num (m : CkVtMonitor) : option CkVtMonitor :=
  match main m with
  | M_drained None => Some (set_main M_finish m)
  | M_drained (Some num) =>
      if Z.eqb (active_num m) num then Some (set_main M_finish m)
      else Some (set_main (M_watch num) (set_active_num num m))
  | _ => None
  end.

Definition step (l : step_label) (m : CkVtMonitor) : option CkVtMonitor :=
  match l with
  | L_switch n => Some (set_kernel n true m)
  | L_wake tid => t ← at_pc T_wait tid m; wake tid t m
  | L_wait_failed tid => t ← at_pc T_wait tid m; Some (set_thread tid (goto T_unregister t) m)
  | L_push tid =>
      t ← at_pc T_push tid m;
      match main m with
      | M_loop => Some (set_thread tid (goto T_schedule t) (set_queue (event_queue m ++ [t_num t]) m))
      | _ => None
      end
  | L_schedule tid =>
      t ← at_pc T_schedule tid m;
      Some (set_thread tid (goto (if poller then T_wait else T_unregister) t)
              (schedule_process_queue m))
  | L_unregister tid =>
      t ← at_pc T_unregister tid m;
      Some (set_threads (delete tid (threads m))
              (set_hash (delete (t_num t) (vt_thread_hash m)) m))
  | L_drain => process_queue_drain m
  | L_change => change_active_num m
  | L_watch ok =>
      match main m with
      | M_watch num => Some (set_main (M_emit num) (vt_add_watches ok m))
      | _ => None
      end
  | L_emit =>
      match main m with
      | M_emit num => Some (set_main M_finish (emit_active_changed num m))
      | _ => None
      end
  | L_finish =>
      match main m with
      | M_finish => Some (set_main M_loop (set_sched false (idle_source m) m))
      | _ => None
      end
  end.

(** [ck_vt_monitor_init] with a console: the active VT was read before the
    watches are added, so the kernel may have moved on. *)
Definition ck_vt_monitor_init (active kernel : Z) (ok : Z → bool) : CkVtMonitor :=
  vt_add_watches ok
    {| active_num := active; vt_thread_hash := ∅; event_queue := []; process_queue_id := false;
       idle_source := 0; main := M_loop; threads := ∅; kernel_active := kernel;
       kernel_changed := true; emitted := [] |}.

Fixpoint run_steps (ls : list step_label) (m : CkVtMonitor) : option CkVtMonitor :=
  match ls with
  | [] => Some m
  | l :: ls => m ← step l m; run_steps ls m
  end.

Inductive vt_reachable (m0 : CkVtMonitor) : CkVtMonitor → Prop :=
| vr_init : vt_reachable m0 m0
| vr_step m m' l : vt_reachable m0 m → step l m = Some m' → vt_reachable m0 m'.
End monitor.

(** ** Switching and asking *)

Inductive CkVtMonitorError :=
| CK_VT_MONITOR_ERROR_GENERAL
| CK_VT_MONITOR_ERROR_ALREADY_ACTIVE
| CK_VT_MONITOR_ERROR_NO_CONSOLE.

(** [vfd]: the console descriptor, -1 if none; [activate]: VT_ACTIVATE. *)
Definition ck_vt_monitor_set_active (vfd : Z) (activate : Z → bool) (num : Z) (m : CkVtMonitor) :
    option CkVtMonitorError :=
  if Z.eqb num (active_num m) then Some CK_VT_MONITOR_ERROR_ALREADY_ACTIVE
  else if Z.eqb vfd (-1) then Some CK_VT_MONITOR_ERROR_NO_CONSOLE
  else if activate num then None
  else Some CK_VT_MONITOR_ERROR_GENERAL.

Definition ck_vt_monitor_get_active (vfd : Z) (m : CkVtMonitor) : option Z :=
  if Z.eqb vfd (-1) then None else Some (active_num m).
