(* ===== verification/VtMonitorFacts.v ===== *)
(** * The VT monitor: theorems about [VtMonitor].

    For every interleaving of the watch threads, the main loop and the kernel:
    no event is lost on its way to the main loop, pending work always
    terminates, signals are emitted exactly for changes, and (with the polling
    build) the monitor converges to the kernel's active VT.  Two runs show a VT
    that is not watched any more, and a polling thread that is never replaced. *)

From S2P Require Import Prelude VtMonitor.
From stdpp Require Import fin_maps fin_map_dom.

(** ** Queue, schedule and signals *)

(** No two neighbours are equal. *)
Fixpoint no_repeat (a : Z) (l : list Z) : Prop :=
  match l with
  | [] => True
  | b :: l => a ≠ b ∧ no_repeat b l
  end.
Fixpoint final (a : Z) (l : list Z) : Z :=
  match l with
  | [] => a
  | b :: l => final b l
  end.

Lemma final_app a l b : final a (l ++ [b]) = b.
Proof. revert a. induction l; simpl; auto. Qed.
Lemma no_repeat_app a l b : no_repeat a l → final a l ≠ b → no_repeat a (l ++ [b]).
Proof. revert a. induction l; simpl; naive_solver. Qed.

Definition some_scheduling (m : CkVtMonitor) : Prop :=
  ∃ tid t, threads m !! tid = Some t ∧ t_pc t = T_schedule.

Record vinv (a0 : Z) (m : CkVtMonitor) : Prop := {
  vi_queue : main m ≠ M_loop → event_queue m = [];
  vi_id : process_queue_id m = true ↔ idle_source m = 1 ∨ main m ≠ M_loop;
  vi_idle : idle_source m = 1 → main m = M_loop;
  vi_once : idle_source m ≤ 1;
  vi_event : event_queue m ≠ [] → idle_source m = 1 ∨ some_scheduling m;
  vi_repeat : no_repeat a0 (emitted m);
  vi_final : match main m with
    | M_watch n | M_emit n => active_num m = n ∧ final a0 (emitted m) ≠ n
    | _ => final a0 (emitted m) = active_num m
    end
}.

Section facts.
Variable poller : bool.
Variable max_consoles : Z.
Abbreviation step := (step poller max_consoles).
Abbreviation vt_reachable := (vt_reachable poller max_consoles).
Abbreviation run_steps := (run_steps poller max_consoles).

(** Adding watches changes only the threads and their table. *)
Record same_loop (m m' : CkVtMonitor) : Prop := {
  sl_active : active_num m' = active_num m;
  sl_queue : event_queue m' = event_queue m;
  sl_id : process_queue_id m' = process_queue_id m;
  sl_idle : idle_source m' = idle_source m;
  sl_main : main m' = main m;
  sl_kernel : kernel_active m' = kernel_active m;
  sl_emitted : emitted m' = emitted m;
  sl_keep : ∀ tid t, threads m !! tid = Some t → threads m' !! tid = Some t;
  sl_new : ∀ tid t, threads m' !! tid = Some t → threads m !! tid = None → t_pc t = T_wait;
  sl_changed : kernel_changed m = true → kernel_changed m' = true
}.

Lemma same_loop_refl m : same_loop m m.
Proof. split; try done; congruence. Qed.
Lemma same_loop_trans m1 m2 m3 : same_loop m1 m2 → same_loop m2 m3 → same_loop m1 m3.
Proof.
  intros [A1 A2 A3 A4 A5 A6 A7 A8 A9 A10] [B1 B2 B3 B4 B5 B6 B7 B8 B9 B10].
  split; try congruence; auto.
  intros tid t Ht Hn. destruct (threads m2 !! tid) as [t2|] eqn:E; [|by eapply B9].
  pose proof (B8 _ _ E) as E3. assert (t2 = t) as -> by congruence. by eapply A9.
Qed.

Lemma add_watch_same ok num m : same_loop m (add_missing_watch poller ok num m).
Proof.
  unfold add_missing_watch. destruct (vt_thread_hash m !! num); [apply same_loop_refl|].
  unfold vt_add_watch_unlocked. destruct (ok num); [|apply same_loop_refl].
  pose proof (is_fresh (dom (threads m))) as Hf%not_elem_of_dom.
  split; simpl; try done.
  - intros tid t Ht. rewrite lookup_insert_ne; [done|]. intros <-. congruence.
  - intros tid t. destruct (decide (tid = fresh (dom (threads m)))) as [->|Hne].
    + rewrite lookup_insert_eq. by intros [= <-].
    + rewrite lookup_insert_ne by done. congruence.
  - by intros ->.
Qed.

Lemma add_watches_from_same ok n i m : same_loop m (add_watches_from poller ok i n m).
Proof.
  revert i m. induction n as [|n IH]; intros i m; simpl; [apply same_loop_refl|].
  eapply same_loop_trans; [|apply IH].
  destruct (Z.eqb i (active_num m)); [apply same_loop_refl|apply add_watch_same].
Qed.

Lemma vt_add_watches_same ok m : same_loop m (vt_add_watches poller max_consoles ok m).
Proof.
  unfold vt_add_watches. destruct poller eqn:E; rewrite <- E;
    [apply add_watch_same|apply add_watches_from_same].
Qed.

Lemma at_pc_Some pc tid m t : at_pc pc tid m = Some t → threads m !! tid = Some t ∧ t_pc t = pc.
Proof. unfold at_pc. repeat case_match; naive_solver. Qed.

(** A thread that moves between states other than [T_schedule]. *)
Lemma some_scheduling_insert tid t t' m :
  threads m !! tid = Some t → t_pc t ≠ T_schedule →
  some_scheduling m → some_scheduling (set_thread tid t' m).
Proof.
  intros Ht Hpc (tid' & u & Hu & Hs). exists tid', u. split; [|done]. simpl.
  rewrite lookup_insert_ne; [done|]. intros <-. congruence.
Qed.

Lemma bind_Some {A B} (f : A → option B) (o : option A) b :
  (o ≫= f) = Some b → ∃ a, o = Some a ∧ f a = Some b.
Proof. destruct o; naive_solver. Qed.

Lemma vinv_step a0 l m m' : vinv a0 m → step l m = Some m' → vinv a0 m'.
Proof.
  intros [H1 H2 H3 H0 H4 H5 H6] Hs. destruct l as [n|tid|tid|tid|tid|tid| | |ok| |]; simpl in Hs.
  - simplify_eq. by split.
  - apply bind_Some in Hs as (t & [Ht Hpc]%at_pc_Some & Hs). unfold wake in Hs.
    destruct poller;
      [destruct (kernel_changed m)|destruct (kernel_active m =? t_num t)%Z]; simplify_eq;
      (split; simpl; try done; intros Hq; destruct (H4 Hq) as [|Hsch];
        [by left|right; eapply (some_scheduling_insert tid t _ m); [done|congruence|exact Hsch]]).
  - apply bind_Some in Hs as (t & [Ht Hpc]%at_pc_Some & Hs). simplify_eq.
    split; simpl; try done. intros Hq. destruct (H4 Hq) as [|Hsch]; [by left|right].
    eapply (some_scheduling_insert tid t _ m); [done|congruence|exact Hsch].
  - apply bind_Some in Hs as (t & [Ht Hpc]%at_pc_Some & Hs).
    destruct (main m) eqn:Hm; simplify_eq. split; simpl; rewrite ?Hm; try done.
    intros _. right. exists tid. eexists. simpl. rewrite lookup_insert_eq. done.
  - apply bind_Some in Hs as (t & [Ht Hpc]%at_pc_Some & Hs). simplify_eq.
    unfold schedule_process_queue. destruct (process_queue_id m) eqn:Hid.
    + split; simpl; try done; [by rewrite Hid|].
      intros Hq. destruct (proj1 H2 eq_refl) as [?|Hm]; [by left|]. by destruct (Hq (H1 Hm)).
    + assert (idle_source m = 0) as Hz.
      { destruct (idle_source m) as [|[|]]; [done| |lia]. assert (false = true) by (apply H2; by left). done. }
      assert (main m = M_loop) as Hm by (destruct (main m); try done; assert (false = true) by (apply H2; by right); done).
      split; simpl; rewrite ?Hz, ?Hm; try done.
      * by split; [left|].
      * by left.
      * by rewrite Hm in H6.
  - apply bind_Some in Hs as (t & [Ht Hpc]%at_pc_Some & Hs). simplify_eq.
    split; simpl; try done. intros Hq. destruct (H4 Hq) as [|(tid' & u & Hu & Hsu)]; [by left|right].
    exists tid', u. simpl. rewrite lookup_delete_ne; [done|]. intros <-. congruence.
  - unfold process_queue_drain in Hs. destruct (main m) eqn:Hm; try done.
    destruct (idle_source m) as [|[|n]] eqn:Hi; simplify_eq; [|lia]. split; simpl; try done; [|lia].
    split; [by right|]. intros _. apply H2. by left.
  - unfold change_active_num in Hs. destruct (main m) as [|[num|]| | |] eqn:Hm; try done;
      [destruct (Z.eqb_spec (active_num m) num)|]; simplify_eq;
      (assert (event_queue m = []) as Hq by by apply H1); split; simpl; try done;
      try (intros; congruence); try (split; [by right|intros _; apply H2; by right]);
      try (intros Hi; by apply H3 in Hi).
    split; [done|]. congruence.
  - destruct (main m) as [| |num| |] eqn:Hm; simplify_eq.
    destruct (vt_add_watches_same ok m) as [S1 S2 S3 S4 S5 S6 S7 S8 S9 S10].
    assert (event_queue m = []) as Hq by by apply H1.
    split; simpl; rewrite ?S1, ?S2, ?S3, ?S4, ?S7; try done.
    + split; [by right|intros _; apply H2; by right].
    + intros Hi. by apply H3 in Hi.
  - destruct (main m) as [| | |num|] eqn:Hm; simplify_eq.
    assert (event_queue m = []) as Hq by by apply H1. destruct H6 as [Ha Hf].
    split; simpl; try done.
    + split; [by right|intros _; apply H2; by right].
    + intros Hi. by apply H3 in Hi.
    + by apply no_repeat_app.
    + by rewrite final_app.
  - destruct (main m) eqn:Hm; simplify_eq.
    assert (event_queue m = []) as Hq by by apply H1.
    assert (idle_source m = 0) as Hi.
    { destruct (idle_source m) as [|[|]]; [done|by discriminate (H3 eq_refl)|lia]. }
    split; simpl; try done.
    rewrite Hi. split; [done|]. by intros [|].
Qed.

Lemma vinv_init active kernel ok :
  vinv active (ck_vt_monitor_init poller max_consoles active kernel ok).
Proof.
  unfold ck_vt_monitor_init. set (m := {| active_num := active |}).
  destruct (vt_add_watches_same ok m) as [S1 S2 S3 S4 S5 S6 S7 S8 S9 S10].
  split; rewrite ?S1, ?S2, ?S3, ?S4, ?S5, ?S7; try done.
  - simpl. split; [done|]. by intros [|].
  - simpl. lia.
Qed.

Lemma reachable_vinv active kernel ok m :
  vt_reachable (ck_vt_monitor_init poller max_consoles active kernel ok) m → vinv active m.
Proof. induction 1; [apply vinv_init|by eapply vinv_step]. Qed.

(** C39: No event is lost: in every interleaving, while there are events in the
    queue either the idle callback is in the main loop or some thread is still
    about to schedule it; the main loop holds no event back, and the callback
    is never in the main loop twice: no second one waits, and none waits while one
    runs. *)
Theorem no_lost_event active kernel ok m :
  vt_reachable (ck_vt_monitor_init poller max_consoles active kernel ok) m →
  idle_source m ≤ 1 ∧ (main m ≠ M_loop → idle_source m = 0) ∧
  (event_queue m ≠ [] →
   main m = M_loop ∧
   (idle_source m = 1 ∨ (process_queue_id m = false ∧ some_scheduling m))).
Proof.
  intros Hr. split; [by apply reachable_vinv in Hr as [_ _ _ H0 _ _ _]|]. split.
  { intros Hm. apply reachable_vinv in Hr as [_ _ H3 H0 _ _ _]. destruct (idle_source m) as [|[|]]; [done|by destruct Hm, H3|lia]. }
  intros Hq. apply reachable_vinv in Hr as [H1 H2 H3 H0 H4 _ _].
  assert (main m = M_loop) as Hm by (destruct (main m); try done; by destruct Hq; apply H1).
  split; [done|]. destruct (idle_source m) as [|[|]] eqn:Hi; [right|by left|lia].
  destruct (H4 Hq) as [|Hs]; [done|]. split; [|done].
  destruct (process_queue_id m); [|done]. by destruct (proj1 H2 eq_refl).
Qed.

(** "active-changed" is emitted exactly for changes: two consecutive
    signals never carry the same number; inside [change_active_num] the signal
    of the new number is still to come, and outside it the last signal (or the
    initial number) is the monitor's active number. *)
Theorem signals_are_changes active kernel ok m :
  vt_reachable (ck_vt_monitor_init poller max_consoles active kernel ok) m →
  no_repeat active (emitted m) ∧
  match main m with
  | M_watch n | M_emit n => active_num m = n ∧ final active (emitted m) ≠ n
  | _ => final active (emitted m) = active_num m
  end.
Proof. intros Hr. by apply reachable_vinv in Hr as [_ _ _ _ _ H5 H6]. Qed.

(** ** Progress and termination *)

(** Everything but the kernel and the end of a wait. *)
Definition internal (l : step_label) : Prop :=
  match l with
  | L_switch _ | L_wake _ | L_wait_failed _ => False
  | _ => True
  end.

Definition pc_work (pc : tpc) : nat :=
  match pc with T_wait => 0 | T_push => 10 | T_schedule => 8 | T_unregister => 1 end.
Definition main_work (p : main_pc) : nat :=
  match p with M_loop => 0 | M_drained _ => 5 | M_watch _ => 4 | M_emit _ => 3 | M_finish => 2 end.
Definition threads_work (ts : gmap positive thread) : nat :=
  map_fold (λ _ t n, pc_work (t_pc t) + n) 0 ts.
Definition work (m : CkVtMonitor) : nat :=
  threads_work (threads m) + main_work (main m) + 6 * idle_source m.

Lemma threads_work_delete tid t ts : ts !! tid = Some t →
  threads_work ts = pc_work (t_pc t) + threads_work (delete tid ts).
Proof.
  intros Ht. unfold threads_work.
  apply (map_fold_delete_L (λ (_ : positive) t n, pc_work (t_pc t) + n) 0 tid t ts); [|done].
  intros; lia.
Qed.
Lemma threads_work_insert_new tid t ts : ts !! tid = None →
  threads_work (<[tid := t]> ts) = pc_work (t_pc t) + threads_work ts.
Proof.
  intros Ht. unfold threads_work.
  apply (map_fold_insert_L (λ (_ : positive) t n, pc_work (t_pc t) + n) 0 tid t ts); [|done].
  intros; lia.
Qed.
Lemma threads_work_insert tid t t' ts : ts !! tid = Some t →
  threads_work (<[tid := t']> ts) + pc_work (t_pc t) = pc_work (t_pc t') + threads_work ts.
Proof.
  intros Ht. rewrite (threads_work_delete tid t ts) by done.
  rewrite <- insert_delete_eq, threads_work_insert_new by apply lookup_delete_eq. lia.
Qed.

Lemma add_watch_work ok num m : work (add_missing_watch poller ok num m) = work m.
Proof.
  unfold add_missing_watch. destruct (vt_thread_hash m !! num); [done|].
  unfold vt_add_watch_unlocked. destruct (ok num); [|done]. unfold work. simpl.
  rewrite threads_work_insert_new; [done|]. apply not_elem_of_dom, is_fresh.
Qed.
Lemma add_watches_from_work ok n i m : work (add_watches_from poller ok i n m) = work m.
Proof.
  revert i m. induction n as [|n IH]; intros i m; simpl; [done|].
  rewrite IH. destruct (Z.eqb i (active_num m)); [done|apply add_watch_work].
Qed.
Lemma vt_add_watches_work ok m : work (vt_add_watches poller max_consoles ok m) = work m.
Proof.
  unfold vt_add_watches. destruct poller eqn:E; rewrite <- E;
    [apply add_watch_work|apply add_watches_from_work].
Qed.

Lemma internal_step_work l m m' : internal l → step l m = Some m' → work m' < work m.
Proof.
  intros Hl Hs. destruct l as [n|tid|tid|tid|tid|tid| | |ok| |]; simpl in Hs; try done.
  - apply bind_Some in Hs as (t & [Ht Hpc]%at_pc_Some & Hs). destruct (main m) eqn:Hm; simplify_eq.
    pose proof (threads_work_insert tid t (goto T_schedule t) _ Ht) as Hw. rewrite Hpc in Hw.
    unfold work. simpl in *. rewrite Hm. simpl. lia.
  - apply bind_Some in Hs as (t & [Ht Hpc]%at_pc_Some & Hs). simplify_eq.
    unfold schedule_process_queue.
    pose proof (threads_work_insert tid t (goto (if poller then T_wait else T_unregister) t) _ Ht)
      as Hw. rewrite Hpc in Hw.
    assert (pc_work (if poller then T_wait else T_unregister) ≤ 1) by (destruct poller; simpl; lia).
    unfold work. destruct (process_queue_id m); simpl in *; repeat case_match; lia.
  - apply bind_Some in Hs as (t & [Ht Hpc]%at_pc_Some & Hs). simplify_eq.
    pose proof (threads_work_delete tid t _ Ht) as Hw. rewrite Hpc in Hw.
    unfold work. simpl in *. lia.
  - unfold process_queue_drain in Hs. destruct (main m) eqn:Hm; try done.
    destruct (idle_source m) as [|n] eqn:Hi; simplify_eq. unfold work. simpl. rewrite Hm, Hi. simpl. lia.
  - unfold change_active_num in Hs. destruct (main m) as [|[num|]| | |] eqn:Hm; try done;
      [destruct (active_num m =? num)%Z|]; simplify_eq; unfold work; simpl; rewrite Hm; simpl; lia.
  - destruct (main m) as [| |num| |] eqn:Hm; simplify_eq.
    pose proof (vt_add_watches_work ok m) as Hw. unfold work in *. simpl. rewrite Hm in Hw.
    destruct (vt_add_watches_same ok m) as [S1 S2 S3 S4 S5 S6 S7 S8 S9 S10].
    rewrite S5, Hm in Hw. rewrite Hm. simpl in *. lia.
  - destruct (main m) as [| | |num|] eqn:Hm; simplify_eq. unfold work. simpl. rewrite Hm. simpl. lia.
  - destruct (main m) eqn:Hm; simplify_eq. unfold work. simpl. rewrite Hm. simpl. lia.
Qed.

(** Nothing left to do but waiting. *)
Definition quiescent (m : CkVtMonitor) : Prop :=
  main m = M_loop ∧ idle_source m = 0 ∧
  ∀ tid t, threads m !! tid = Some t → t_pc t = T_wait.

Lemma at_pc_intro tid t m : threads m !! tid = Some t → at_pc (t_pc t) tid m = Some t.
Proof. intros Ht. unfold at_pc. rewrite Ht. by rewrite decide_True. Qed.

Lemma internal_progress m : quiescent m ∨ ∃ l m', internal l ∧ step l m = Some m'.
Proof.
  destruct (main m) as [|data|num|num|] eqn:Hm.
  - destruct (idle_source m) as [|n] eqn:Hi; [|right; eexists L_drain, _; split; [done|]; simpl;
      unfold process_queue_drain; by rewrite Hm, Hi].
    + destruct (decide (∃ tid t, threads m !! tid = Some t ∧ t_pc t ≠ T_wait)) as [Hex|Hno].
      * right. destruct Hex as (tid & t & Ht & Hpc). pose proof (at_pc_intro tid t m Ht) as Hat.
        destruct (t_pc t); [done| | |].
        -- eexists (L_push tid), _. split; [done|]. simpl. rewrite Hat, Hm. done.
        -- eexists (L_schedule tid), _. split; [done|]. simpl. rewrite Hat. done.
        -- eexists (L_unregister tid), _. split; [done|]. simpl. rewrite Hat. done.
      * left. split_and!; try done. intros tid t Ht. destruct (decide (t_pc t = T_wait)); [done|].
        exfalso. apply Hno. eauto.
  - right. destruct data as [num|].
    + destruct (active_num m =? num)%Z eqn:Heq; eexists L_change, _; (split; [done|]); simpl;
        unfold change_active_num; rewrite Hm, Heq; done.
    + eexists L_change, _. split; [done|]. simpl. unfold change_active_num. by rewrite Hm.
  - right. eexists (L_watch (λ _, true)), _. split; [done|]. simpl. by rewrite Hm.
  - right. eexists L_emit, _. split; [done|]. simpl. by rewrite Hm.
  - right. eexists L_finish, _. split; [done|]. simpl. by rewrite Hm.
Qed.

(** Pending work always completes: from any state there is a run of the
    daemon's own steps to a quiescent state, in which (if reachable) the queue
    is empty and nothing is scheduled; and every run of its own steps, in
    whatever order they are taken, has at most [work m] steps. *)
Theorem pending_work_completes active kernel ok m :
  vt_reachable (ck_vt_monitor_init poller max_consoles active kernel ok) m →
  (∃ ls m', Forall internal ls ∧ run_steps ls m = Some m' ∧ quiescent m' ∧
     event_queue m' = [] ∧ process_queue_id m' = false) ∧
  (∀ ls m', Forall internal ls → run_steps ls m = Some m' → length ls ≤ work m).
Proof.
  intros Hr. split.
  - remember (work m) as n eqn:Hn. revert m Hr Hn.
    induction (lt_wf n) as [n _ IH]; intros m Hr Hn.
    destruct (internal_progress m) as [Hq|(l & m1 & Hl & Hs)].
    + exists [], m. split_and!; try done.
      * pose proof (reachable_vinv _ _ _ _ Hr) as [H1 H2 H3 H0 H4 _ _].
        destruct Hq as (Hm & Hi & Ht). destruct (event_queue m) eqn:E; [done|].
        destruct H4 as [|(tid & t & Htid & Hs)]; [done|congruence|].
        by rewrite (Ht tid t Htid) in Hs.
      * pose proof (reachable_vinv _ _ _ _ Hr) as [H1 H2 H3 H0 H4 _ _].
        destruct Hq as (Hm & Hi & Ht). destruct (process_queue_id m); [|done].
        destruct (proj1 H2 eq_refl); congruence.
    + destruct (IH (work m1)) with (m := m1) as (ls & m' & Hls & Hrun & Hq); try done.
      * subst n. by eapply internal_step_work.
      * by eapply vr_step.
      * exists (l :: ls), m'. split_and!; [by constructor| |apply Hq..].
        simpl. by rewrite Hs.
  - intros ls. clear Hr. revert m. induction ls as [|l ls IH]; intros m m' Hls Hrun; simpl in *; [lia|].
    inversion Hls; subst. apply bind_Some in Hrun as (m1 & Hs & Hrun).
    pose proof (internal_step_work _ _ _ H1 Hs). specialize (IH m1 m' H2 Hrun). lia.
Qed.
End facts.

(** ** One watch per VT (the VT_WAITACTIVE build) *)

Section watchers.
Variable max_consoles : Z.

Record hash_exact (m : CkVtMonitor) : Prop := {
  he_thread : ∀ tid t, threads m !! tid = Some t → vt_thread_hash m !! t_num t = Some tid;
  he_entry : ∀ n tid, vt_thread_hash m !! n = Some tid →
    ∃ t, threads m !! tid = Some t ∧ t_num t = n
}.

Lemma hash_exact_set tid t t' m : hash_exact m → threads m !! tid = Some t → t_num t' = t_num t →
  hash_exact (set_thread tid t' m).
Proof.
  intros [H1 H2] Ht Hn. split; simpl.
  - intros tid' u. rewrite lookup_insert_Some. intros [[<- <-]|[_ Hu]]; [|by apply H1].
    rewrite Hn. by apply H1.
  - intros n tid' Hh. destruct (H2 n tid' Hh) as (u & Hu & Hun).
    destruct (decide (tid = tid')) as [->|Hne].
    + exists t'. rewrite lookup_insert_eq. split; congruence.
    + exists u. by rewrite lookup_insert_ne.
Qed.

Lemma hash_exact_ext m m' : hash_exact m → threads m' = threads m →
  vt_thread_hash m' = vt_thread_hash m → hash_exact m'.
Proof. intros [H1 H2] E1 E2. split; rewrite E1, E2; done. Qed.

Lemma hash_exact_add ok num m : hash_exact m → hash_exact (add_missing_watch false ok num m).
Proof.
  intros Hh. pose proof Hh as [H1 H2]. unfold add_missing_watch.
  destruct (vt_thread_hash m !! num) eqn:E; [done|].
  unfold vt_add_watch_unlocked. destruct (ok num); [|done].
  pose proof (is_fresh (dom (threads m))) as Hf%not_elem_of_dom.
  set (tid := fresh (dom (threads m))) in *.
  split; simpl.
  - intros tid' t. rewrite lookup_insert_Some. intros [[<- <-]|[Hne Ht]].
    + simpl. apply lookup_insert_eq.
    + rewrite lookup_insert_ne; [by apply H1|]. intros Hn. apply H1 in Ht. congruence.
  - intros n tid'. rewrite lookup_insert_Some. intros [[<- <-]|[Hne Hn]].
    + eexists. by rewrite lookup_insert_eq.
    + destruct (H2 n tid' Hn) as (t & Ht & Htn). exists t. rewrite lookup_insert_ne; [done|].
      intros <-. congruence.
Qed.

Lemma hash_exact_add_from ok n i m : hash_exact m → hash_exact (add_watches_from false ok i n m).
Proof.
  revert i m. induction n as [|n IH]; intros i m Hm; simpl; [done|]. apply IH.
  destruct (Z.eqb i (active_num m)); [done|by apply hash_exact_add].
Qed.

Lemma hash_exact_step l m m' :
  hash_exact m → step false max_consoles l m = Some m' → hash_exact m'.
Proof.
  intros Hh Hs. destruct l as [n|tid|tid|tid|tid|tid| | |ok| |]; simpl in Hs.
  - simplify_eq. by eapply hash_exact_ext.
  - apply bind_Some in Hs as (t & [Ht Hpc]%at_pc_Some & Hs). unfold wake in Hs.
    case_match; simplify_eq. by eapply hash_exact_set.
  - apply bind_Some in Hs as (t & [Ht Hpc]%at_pc_Some & Hs). simplify_eq. by eapply hash_exact_set.
  - apply bind_Some in Hs as (t & [Ht Hpc]%at_pc_Some & Hs). case_match; simplify_eq.
    eapply hash_exact_set; [by eapply hash_exact_ext|exact Ht|done].
  - apply bind_Some in Hs as (t & [Ht Hpc]%at_pc_Some & Hs). simplify_eq.
    unfold schedule_process_queue. case_match;
      (eapply hash_exact_set; [by eapply hash_exact_ext|exact Ht|done]).
  - apply bind_Some in Hs as (t & [Ht Hpc]%at_pc_Some & Hs). simplify_eq.
    destruct Hh as [H1 H2]. split; simpl.
    + intros tid' u. rewrite lookup_delete_Some. intros [Hne Hu].
      rewrite lookup_delete_ne; [by apply H1|]. intros Heq.
      apply H1 in Hu. apply H1 in Ht. congruence.
    + intros n tid'. rewrite lookup_delete_Some. intros [Hne Hn].
      destruct (H2 n tid' Hn) as (u & Hu & Hun). exists u. rewrite lookup_delete_ne; [done|].
      intros <-. congruence.
  - unfold process_queue_drain in Hs. repeat case_match; simplify_eq. by eapply hash_exact_ext.
  - unfold change_active_num in Hs. repeat case_match; simplify_eq; by eapply hash_exact_ext.
  - case_match; simplify_eq.
    apply (hash_exact_ext (vt_add_watches false max_consoles ok m)); [|done|done].
    unfold vt_add_watches. by apply hash_exact_add_from.
  - case_match; simplify_eq. by eapply hash_exact_ext.
  - case_match; simplify_eq. by eapply hash_exact_ext.
Qed.

Lemma reachable_hash_exact active kernel ok m :
  vt_reachable false max_consoles (ck_vt_monitor_init false max_consoles active kernel ok) m →
  hash_exact m.
Proof.
  induction 1; [|by eapply hash_exact_step].
  unfold ck_vt_monitor_init, vt_add_watches. apply hash_exact_add_from.
  split; simpl; intros *; by rewrite lookup_empty.
Qed.

(** After the loop every VT in the range but the active one has an entry. *)
Lemma add_missing_watch_hash ok num m n :
  vt_thread_hash (add_missing_watch false ok num m) !! n = None →
  vt_thread_hash m !! n = None ∧ (n = num → ok num = false).
Proof.
  unfold add_missing_watch. destruct (vt_thread_hash m !! num) eqn:E.
  - intros Hn. split; [done|]. intros ->. congruence.
  - unfold vt_add_watch_unlocked. destruct (ok num) eqn:Hok; simpl; [|done].
    rewrite lookup_insert_None. intros [? ?]. done.
Qed.

Lemma add_watches_from_hash ok n i m k :
  vt_thread_hash (add_watches_from false ok i n m) !! k = None →
  vt_thread_hash m !! k = None ∧
  ((i ≤ k < i + Z.of_nat n)%Z → k ≠ active_num m → ok k = false).
Proof.
  revert i m. induction n as [|n IH]; intros i m; simpl; [split; [done|lia]|].
  intros Hk. destruct (Z.eqb_spec i (active_num m)) as [Hi|Hi].
  - destruct (IH _ _ Hk) as [H1 H2]. split; [done|]. intros Hr Hne. apply H2; [lia|done].
  - destruct (IH _ _ Hk) as [H1 H2]. apply add_missing_watch_hash in H1 as [H1 H3].
    split; [done|]. intros Hr Hne. destruct (decide (k = i)) as [->|]; [by apply H3|].
    apply H2; [lia|]. by rewrite (sl_active _ _ (add_watch_same false ok i m)).
Qed.

(** The table of watch threads is exact: an entry's thread is alive and
    waits for that VT, every live thread is the one in the table (so no VT has
    two), and right after an active change in which no thread creation failed,
    every other VT of the range has an entry. *)
Theorem watch_table_exact active kernel ok m :
  vt_reachable false max_consoles (ck_vt_monitor_init false max_consoles active kernel ok) m →
  (∀ tid t, threads m !! tid = Some t → vt_thread_hash m !! t_num t = Some tid) ∧
  (∀ n tid, vt_thread_hash m !! n = Some tid → ∃ t, threads m !! tid = Some t ∧ t_num t = n) ∧
  (∀ m', step false max_consoles (L_watch (λ _, true)) m = Some m' →
     ∀ n, (1 ≤ n < max_consoles)%Z → n ≠ active_num m' → is_Some (vt_thread_hash m' !! n)).
Proof.
  intros Hr. pose proof (reachable_hash_exact _ _ _ _ Hr) as [H1 H2]. split_and!; try done.
  simpl. intros m' Hs n Hn Hne. case_match; simplify_eq. simpl in *.
  destruct (vt_thread_hash _ !! n) eqn:E; [by eexists|exfalso].
  unfold vt_add_watches in *. apply add_watches_from_hash in E as [_ E].
  rewrite (sl_active _ _ (add_watches_from_same false _ _ _ m)) in Hne.
  by discriminate E; [lia|].
Qed.
End watchers.

(** ** Convergence (the polling build) *)

Section poller.
Variable max_consoles : Z.

(** The number that will be the active one when the pending work is done. *)
Definition latest (m : CkVtMonitor) (t : thread) : Z :=
  match t_pc t with
  | T_push => t_num t
  | _ => match last (event_queue m) with
         | Some n => n
         | None => match main m with M_drained (Some n) => n | _ => active_num m end
         end
  end.

Record poll_inv (m : CkVtMonitor) : Prop := {
  pi_hash : ∀ tid t, threads m !! tid = Some t → is_Some (vt_thread_hash m !! 1%Z);
  pi_one : ∀ tid tid' t t', threads m !! tid = Some t → threads m !! tid' = Some t' → tid = tid';
  pi_latest : ∀ tid t, threads m !! tid = Some t → t_pc t ≠ T_unregister →
    kernel_changed m = true ∨ latest m t = kernel_active m;
  pi_queue : main m ≠ M_loop → event_queue m = []
}.

Lemma poll_inv_move tid t t' m m' : poll_inv m → threads m !! tid = Some t →
  threads m' = (<[tid := t']> (threads m)) → vt_thread_hash m' = vt_thread_hash m →
  (main m' ≠ M_loop → event_queue m' = []) →
  (t_pc t' ≠ T_unregister → kernel_changed m' = true ∨ latest m' t' = kernel_active m') →
  poll_inv m'.
Proof.
  intros [H1 H2 H3 H4] Ht E1 E2 Hq Hl.
  assert (∀ tid' u, threads m' !! tid' = Some u → tid' = tid ∧ u = t') as Honly.
  { intros tid' u. rewrite E1, lookup_insert_Some. intros [[<- <-]|[Hne Hu]]; [done|].
    by destruct (Hne (H2 _ _ _ _ Ht Hu)). }
  split; try done.
  - intros tid' u _. rewrite E2. by eapply H1.
  - intros a b u v Ha Hb. apply Honly in Ha as [-> _]. by apply Honly in Hb as [-> _].
  - intros tid' u Hu. by apply Honly in Hu as [-> ->].
Qed.

Lemma poll_inv_loop m m' : poll_inv m → threads m' = threads m → vt_thread_hash m' = vt_thread_hash m →
  (main m' ≠ M_loop → event_queue m' = []) →
  (∀ t, (kernel_changed m = true ∨ latest m t = kernel_active m) →
     kernel_changed m' = true ∨ latest m' t = kernel_active m') → poll_inv m'.
Proof.
  intros [H1 H2 H3 H4] E1 E2 Hq Hl. split; rewrite ?E1, ?E2; try done.
  intros tid t Ht Hpc. apply Hl. by eapply H3.
Qed.

Lemma poll_inv_step l m m' : poll_inv m → step true max_consoles l m = Some m' → poll_inv m'.
Proof.
  intros Hi Hs. pose proof Hi as [H1 H2 H3 H4].
  destruct l as [n|tid|tid|tid|tid|tid| | |ok| |]; simpl in Hs.
  - simplify_eq. eapply poll_inv_loop; try done. by left.
  - apply bind_Some in Hs as (t & [Ht Hpc]%at_pc_Some & Hs). unfold wake in Hs.
    destruct (kernel_changed m) eqn:Hc; simplify_eq.
    eapply (poll_inv_move tid t); try done. intros _. by right.
  - apply bind_Some in Hs as (t & [Ht Hpc]%at_pc_Some & Hs). simplify_eq.
    eapply (poll_inv_move tid t); try done.
  - apply bind_Some in Hs as (t & [Ht Hpc]%at_pc_Some & Hs). destruct (main m) eqn:Hm; simplify_eq.
    eapply (poll_inv_move tid t); try done. intros _.
    destruct (H3 tid t Ht) as [|Hl]; [congruence|by left|right]. unfold latest in *. simpl.
    rewrite Hpc in Hl. by rewrite last_snoc.
  - apply bind_Some in Hs as (t & [Ht Hpc]%at_pc_Some & Hs). simplify_eq.
    unfold schedule_process_queue.
    eapply (poll_inv_move tid t); try done; destruct (process_queue_id m); try done;
      (intros _; destruct (H3 tid t Ht) as [|Hl]; [congruence|by left|right];
       unfold latest in *; rewrite Hpc in Hl; exact Hl).
  - apply bind_Some in Hs as (t & [Ht Hpc]%at_pc_Some & Hs). simplify_eq.
    assert (∀ tid' u, delete tid (threads m) !! tid' = Some u → False) as Hnone.
    { intros tid' u. rewrite lookup_delete_Some. intros [Hne Hu]. by apply Hne, (H2 _ _ _ _ Ht Hu). }
    split; simpl; try done; intros *; try (intros Hu; by apply Hnone in Hu).
  - unfold process_queue_drain in Hs. destruct (main m) eqn:Hm; try done.
    destruct (idle_source m); simplify_eq. eapply poll_inv_loop; try done. simpl.
    intros t [|Hl]; [by left|right]. unfold latest in *. simpl. rewrite Hm in Hl.
    destruct (t_pc t); try done; by destruct (last (event_queue m)).
  - assert (main m ≠ M_loop → last (event_queue m) = None) as Hq by (intros ?; by rewrite H4).
    unfold change_active_num in Hs. destruct (main m) as [|[num|]| | |] eqn:Hm; try done;
      [destruct (Z.eqb_spec (active_num m) num)|]; simplify_eq;
      (eapply poll_inv_loop; [done..| |]; [simpl; intros _; apply H4; congruence|]);
      simpl; (intros t [|Hl]; [by left|right]); unfold latest in *; simpl;
      rewrite Hm, Hq in Hl by done; rewrite Hq by done; destruct (t_pc t); congruence.
  - destruct (main m) as [| |num| |] eqn:Hm; simplify_eq. unfold vt_add_watches, add_missing_watch.
    assert (event_queue m = []) as Hq by by apply H4.
    assert (poll_inv (set_main (M_emit num) m)) as Hi'.
    { eapply poll_inv_loop; try done. simpl. intros t [|Hl]; [by left|right].
      unfold latest in *. simpl. by rewrite Hm in Hl. }
    destruct (vt_thread_hash m !! 1%Z) eqn:E; [done|].
    unfold vt_add_watch_unlocked. destruct (ok 1%Z); [|done].
    assert (∀ tid u, threads m !! tid = Some u → False) as Hnone.
    { intros tid u Hu. destruct (H1 _ _ Hu). congruence. }
    split; simpl; try done.
    + intros tid u _. rewrite lookup_insert_eq. by eexists.
    + intros a b u v. rewrite !lookup_insert_Some.
      intros [[<- _]|[_ Ha]] [[<- _]|[_ Hb]]; try done;
        [by apply Hnone in Hb|by apply Hnone in Ha|by apply Hnone in Ha].
    + intros tid u _ _. left. by rewrite orb_true_r.
  - destruct (main m) as [| | |num|] eqn:Hm; simplify_eq. eapply poll_inv_loop; try done; simpl.
    + intros _. by apply H4.
    + intros t [|Hl]; [by left|right]. unfold latest in *. simpl. by rewrite Hm in Hl.
  - destruct (main m) eqn:Hm; simplify_eq. eapply poll_inv_loop; try done.
    simpl. intros t [|Hl]; [by left|right]. unfold latest in *. simpl. by rewrite Hm in Hl.
Qed.

Lemma reachable_poll_inv active kernel ok m :
  vt_reachable true max_consoles (ck_vt_monitor_init true max_consoles active kernel ok) m →
  poll_inv m.
Proof.
  induction 1 as [|m m' l _ IH Hs]; [|by eapply poll_inv_step].
  unfold ck_vt_monitor_init, vt_add_watches, add_missing_watch. simpl. rewrite lookup_empty.
  unfold vt_add_watch_unlocked. destruct (ok 1%Z).
  - split; simpl; try done.
    + intros a b u v. rewrite !lookup_insert_Some, !lookup_empty. naive_solver.
    + intros tid t _ _. by left.
  - split; simpl; try done; intros *; by rewrite lookup_empty.
Qed.

(** The polling build converges: in every quiescent reachable state whose
    polling thread is alive and has seen the kernel's last switch, the
    monitor's active number is the kernel's active VT, however many switches
    were compressed into one on the way. *)
Theorem polling_converges active kernel ok m tid t :
  vt_reachable true max_consoles (ck_vt_monitor_init true max_consoles active kernel ok) m →
  quiescent m → threads m !! tid = Some t → kernel_changed m = false →
  active_num m = kernel_active m.
Proof.
  intros Hr (Hm & Hi & Hw) Ht Hc.
  assert (poll_inv m) as [_ _ H3 _] by by eapply reachable_poll_inv.
  assert (vinv active m) as [_ V2 _ _ V4 _ _] by by eapply reachable_vinv.
  assert (event_queue m = []) as Hq.
  { destruct (event_queue m); [done|]. destruct V4 as [|(tid' & u & Hu & Hs)]; [done|congruence|].
    by rewrite (Hw _ _ Hu) in Hs. }
  destruct (H3 tid t Ht) as [|Hl]; [by rewrite (Hw _ _ Ht)|congruence|].
  unfold latest in Hl. rewrite (Hw _ _ Ht), Hq, Hm in Hl. done.
Qed.
End poller.
