(* ===== verification/VtMonitorRuns.v ===== *)
(** * The VT monitor: concrete runs of [VtMonitor].

    Two runs the code allows: a VT switch that is never noticed (the build with
    one thread per VT), and a polling thread that ends and is never replaced;
    each is followed through all its continuations.  Then the witnesses of the
    theorems of [VtMonitorFacts]. *)

From S2P Require Import Prelude VtMonitor VtMonitorFacts.
From stdpp Require Import fin_maps fin_map_dom.

Definition not_switch (l : step_label) : Prop :=
  match l with L_switch _ => False | _ => True end.

(** The outcome of a run, to be evaluated. *)
Definition after (poller : bool) (max_consoles : Z) (ls : list step_label) (m : CkVtMonitor) :
    CkVtMonitor := default m (run_steps poller max_consoles ls m).

Lemma run_steps_app poller mx ls1 ls2 m : run_steps poller mx (ls1 ++ ls2) m =
  (m' ← run_steps poller mx ls1 m; run_steps poller mx ls2 m').
Proof. revert m. induction ls1 as [|l ls1 IH]; intros m; simpl; [done|]. by destruct (step _ _ l m); simpl. Qed.

Lemma run_reachable poller mx m0 m ls m' :
  vt_reachable poller mx m0 m → run_steps poller mx ls m = Some m' → vt_reachable poller mx m0 m'.
Proof.
  revert m. induction ls as [|l ls IH]; intros m Hr Hs; simpl in Hs; [by simplify_eq|].
  apply bind_Some in Hs as (m1 & Hl & Hs). apply (IH m1); [by eapply vr_step|exact Hs].
Qed.

Lemma run_reachable_init poller mx m0 ls m' :
  run_steps poller mx ls m0 = Some m' → vt_reachable poller mx m0 m'.
Proof. apply run_reachable, vr_init. Qed.

(** [Forall] on the threads, decided by evaluation. *)
Definition all_waiting (m : CkVtMonitor) : bool :=
  forallb (λ '(_, t), bool_decide (t_pc t = T_wait)) (map_to_list (threads m)).

Lemma all_waiting_spec m : all_waiting m = true →
  ∀ tid t, threads m !! tid = Some t → t_pc t = T_wait.
Proof.
  unfold all_waiting. rewrite forallb_forall. intros Hall tid t Ht.
  apply elem_of_map_to_list, list_elem_of_In, Hall in Ht. by apply bool_decide_eq_true in Ht.
Qed.

Lemma quiescent_intro m : main m = M_loop → idle_source m = 0 → all_waiting m = true →
  quiescent m.
Proof. intros Hm Hi Ha. split_and!; [exact Hm|exact Hi|by apply all_waiting_spec]. Qed.

(** ** A VT nobody watches *)

Section blind.
Variable max_consoles : Z.

(** The kernel is on a VT no thread waits for, and nothing is going on. *)
Record blind (n a : Z) (m : CkVtMonitor) : Prop := {
  bl_kernel : kernel_active m = n;
  bl_active : active_num m = a;
  bl_main : main m = M_loop;
  bl_idle : idle_source m = 0;
  bl_threads : ∀ tid t, threads m !! tid = Some t →
    t_num t ≠ n ∧ (t_pc t = T_wait ∨ t_pc t = T_unregister)
}.

Lemma blind_step n a l m m' : not_switch l → blind n a m → step false max_consoles l m = Some m' →
  blind n a m'.
Proof.
  intros Hl [H1 H2 H3 H4 H5] Hs.
  destruct l as [k|tid|tid|tid|tid|tid| | |ok| |]; simpl in Hs; try done;
    try (apply bind_Some in Hs as (t & [Ht Hpc]%at_pc_Some & Hs); destruct (H5 tid t Ht) as [Hn Ht']).
  - unfold wake in Hs. destruct (Z.eqb_spec (kernel_active m) (t_num t)); congruence.
  - simplify_eq. split; simpl; try done. intros tid' u.
    rewrite lookup_insert_Some. intros [[<- <-]|[_ Hu]]; [split; [done|by right]|by eapply H5].
  - destruct Ht'; congruence.
  - destruct Ht'; congruence.
  - simplify_eq. split; simpl; try done. intros tid' u.
    rewrite lookup_delete_Some. intros [_ Hu]. by eapply H5.
  - unfold process_queue_drain in Hs. by rewrite H3, H4 in Hs.
  - unfold change_active_num in Hs. by rewrite H3 in Hs.
  - by rewrite H3 in Hs.
  - by rewrite H3 in Hs.
  - by rewrite H3 in Hs.
Qed.

Lemma blind_run n a ls m m' : Forall not_switch ls → blind n a m →
  run_steps false max_consoles ls m = Some m' → blind n a m'.
Proof.
  intros Hls. revert m. induction Hls as [|l ls Hl _ IH]; intros m Hb Hs; simpl in Hs; [by simplify_eq|].
  apply bind_Some in Hs as (m1 & Hl1 & Hs). apply (IH m1); [by eapply blind_step|exact Hs].
Qed.

(** Once a reachable quiescent monitor has no entry for [n], it misses [n]. *)
Lemma unwatched_missed active kernel ok m n :
  vt_reachable false max_consoles (ck_vt_monitor_init false max_consoles active kernel ok) m →
  quiescent m → vt_thread_hash m !! n = None →
  ∀ ls m', Forall not_switch ls → run_steps false max_consoles (L_switch n :: ls) m = Some m' →
  active_num m' = active_num m ∧ kernel_active m' = n.
Proof.
  intros Hr (Hm & Hi & Hw) Hn ls m' Hls Hrun. apply reachable_hash_exact in Hr as [Hr _].
  simpl in Hrun. assert (blind n (active_num m) (set_kernel n true m)) as Hb.
  { split; simpl; try done. intros tid t Ht. split; [|left; by eapply Hw].
    intros <-. apply Hr in Ht. congruence. }
  destruct (blind_run _ _ _ _ _ Hls Hb Hrun). by split.
Qed.
End blind.

(** From VT 1 to VT 2 and back, while the thread of VT 2 stalls before it takes
    its entry off the table. *)
Definition stalled_run : list step_label :=
  let all := L_watch (λ _, true) in
  [L_switch 2; L_wake 1; L_push 1; L_schedule 1; L_drain; L_change; all; L_emit; L_finish;
   L_switch 1; L_wake 62; L_push 62; L_schedule 62; L_drain; L_change; all; L_emit; L_finish;
   L_unregister 1; L_unregister 62].
Abbreviation monitor_on_vt1 poller := (ck_vt_monitor_init poller 63 1 1 (λ _, true)).

Definition there_and_back : CkVtMonitor := after false 63 stalled_run (monitor_on_vt1 false).
Lemma there_and_back_reachable : vt_reachable false 63 (monitor_on_vt1 false) there_and_back.
Proof. apply (run_reachable_init _ _ _ stalled_run). vm_compute. reflexivity. Qed.
Lemma there_and_back_quiescent : quiescent there_and_back.
Proof. apply quiescent_intro; vm_compute; reflexivity. Qed.
Lemma there_and_back_facts :
  vt_thread_hash there_and_back !! 2%Z = None ∧ event_queue there_and_back = [] ∧
  active_num there_and_back = 1%Z ∧ kernel_active there_and_back = 1%Z.
Proof. split_and!; vm_compute; reflexivity. Qed.

(** A VT switch can go unnoticed: a thread stays in the table for a moment
    after it scheduled its event, and [vt_add_watches] adds no thread for a VT
    that has an entry.  There is a reachable state with 63 consoles in which
    all work is done, every thread could be created, the monitor agrees with
    the kernel that VT 1 is active, and yet after a switch to VT 2 the monitor
    says VT 1 for as long as there is no other switch. *)
Theorem switch_unnoticed :
  ∃ m, vt_reachable false 63 (monitor_on_vt1 false) m ∧
    quiescent m ∧ event_queue m = [] ∧ active_num m = 1%Z ∧ kernel_active m = 1%Z ∧
    ∀ ls m', Forall not_switch ls → run_steps false 63 (L_switch 2 :: ls) m = Some m' →
      active_num m' = 1%Z ∧ kernel_active m' = 2%Z.
Proof.
  destruct there_and_back_facts as (Hno & He & Ha & Hk).
  exists there_and_back.
  split; [exact there_and_back_reachable|]. split; [exact there_and_back_quiescent|].
  split; [exact He|]. split; [exact Ha|]. split; [exact Hk|].
  setoid_rewrite <- Ha at 1. exact (unwatched_missed 63 1 1 (λ _, true) there_and_back 2
    there_and_back_reachable there_and_back_quiescent Hno).
Qed.

(** ** The polling thread is gone *)

Record no_threads (a : Z) (m : CkVtMonitor) : Prop := {
  nt_threads : threads m = ∅;
  nt_active : active_num m = a;
  nt_main : main m = M_loop;
  nt_idle : idle_source m = 0
}.

Lemma no_threads_step poller mx a l m m' : no_threads a m → step poller mx l m = Some m' →
  no_threads a m'.
Proof.
  intros [H1 H2 H3 H4] Hs.
  destruct l; simpl in Hs; unfold process_queue_drain, change_active_num, at_pc in Hs;
    rewrite ?H1, ?H3, ?H4, ?lookup_empty in Hs; simplify_eq/=. by split.
Qed.

Lemma no_threads_run poller mx a ls m m' : no_threads a m → run_steps poller mx ls m = Some m' →
  no_threads a m'.
Proof.
  revert m. induction ls as [|l ls IH]; intros m Hn Hs; simpl in Hs; [by simplify_eq|].
  apply bind_Some in Hs as (m1 & Hl & Hs). apply (IH m1); [by eapply no_threads_step|exact Hs].
Qed.

(** The polling thread (its first poll reports a change) sees VT 2; then a poll
    fails and the thread ends. *)
Definition failed_poll_run : list step_label :=
  [L_switch 2; L_wake 1; L_push 1; L_schedule 1; L_drain; L_change; L_watch (λ _, true); L_emit;
   L_finish; L_wait_failed 1; L_unregister 1].

Definition dead : CkVtMonitor := after true 63 failed_poll_run (monitor_on_vt1 true).
Lemma dead_reachable : vt_reachable true 63 (monitor_on_vt1 true) dead.
Proof. apply (run_reachable_init _ _ _ failed_poll_run). vm_compute. reflexivity. Qed.
Lemma dead_quiescent : quiescent dead.
Proof. apply quiescent_intro; vm_compute; reflexivity. Qed.
Lemma dead_facts :
  no_threads (active_num dead) dead ∧ vt_thread_hash dead !! 1%Z = Some 1%positive ∧
  active_num dead = kernel_active dead.
Proof. split_and!; [split|..]; vm_compute; reflexivity. Qed.

(** One failed poll ends the monitoring for good: the thread removes the
    entry of the VT it saw last, its own entry (of VT 1) stays, and no
    continuation, whatever the kernel does, creates a thread or changes the
    active number again. *)
Theorem failed_poll_is_final :
  ∃ m, vt_reachable true 63 (monitor_on_vt1 true) m ∧ quiescent m ∧
    threads m = ∅ ∧ is_Some (vt_thread_hash m !! 1%Z) ∧ active_num m = kernel_active m ∧
    ∀ ls m', run_steps true 63 ls m = Some m' → threads m' = ∅ ∧ active_num m' = active_num m.
Proof.
  destruct dead_facts as (Hn & He & Ha). exists dead.
  split; [exact dead_reachable|]. split; [exact dead_quiescent|].
  split; [apply Hn|]. split; [exists 1%positive; exact He|]. split; [exact Ha|].
  intros ls m' Hrun. destruct (no_threads_run _ _ _ _ _ m' Hn Hrun) as [H1 H2 _ _].
  split; [exact H1|exact H2].
Qed.

(** ** Witnesses *)

(** VT 2's thread has pushed its event and not yet scheduled the callback. *)
Definition pushed : CkVtMonitor :=
  after false 63 [L_switch 2; L_wake 1; L_push 1] (monitor_on_vt1 false).
Lemma pushed_reachable : vt_reachable false 63 (monitor_on_vt1 false) pushed.
Proof.
  apply (run_reachable_init _ _ _ [L_switch 2; L_wake 1; L_push 1]). vm_compute. reflexivity.
Defined.

Lemma no_lost_event_witness :
  event_queue pushed = [2%Z] ∧ idle_source pushed ≤ 1 ∧
  main pushed = M_loop ∧
  (idle_source pushed = 1 ∨ (process_queue_id pushed = false ∧ some_scheduling pushed)).
Proof.
  split; [vm_compute; reflexivity|].
  destruct (no_lost_event false 63 1 1 (λ _, true) pushed pushed_reachable) as (H1 & _ & H2).
  split; [exact H1|]. apply H2. vm_compute. discriminate.
Defined.

Lemma signals_are_changes_witness :
  emitted there_and_back = [2%Z; 1%Z] ∧ no_repeat 1 (emitted there_and_back) ∧
  match main there_and_back with
  | M_watch n | M_emit n => active_num there_and_back = n ∧ final 1 (emitted there_and_back) ≠ n
  | _ => final 1 (emitted there_and_back) = active_num there_and_back
  end.
Proof.
  split; [vm_compute; reflexivity|].
  apply (signals_are_changes false 63 1 1 (λ _, true) there_and_back there_and_back_reachable).
Defined.

Lemma pending_work_completes_witness :
  (∃ ls m', Forall internal ls ∧ run_steps false 63 ls pushed = Some m' ∧ quiescent m' ∧
     event_queue m' = [] ∧ process_queue_id m' = false) ∧
  (∀ ls m', Forall internal ls → run_steps false 63 ls pushed = Some m' → length ls ≤ work pushed).
Proof. apply (pending_work_completes false 63 1 1 (λ _, true) pushed pushed_reachable). Defined.

Lemma watch_table_exact_witness :
  (∀ tid t, threads pushed !! tid = Some t → vt_thread_hash pushed !! t_num t = Some tid) ∧
  (∀ n tid, vt_thread_hash pushed !! n = Some tid →
     ∃ t, threads pushed !! tid = Some t ∧ t_num t = n) ∧
  (∀ m', step false 63 (L_watch (λ _, true)) pushed = Some m' →
     ∀ n, (1 ≤ n < 63)%Z → n ≠ active_num m' → is_Some (vt_thread_hash m' !! n)).
Proof. apply (watch_table_exact 63 1 1 (λ _, true) pushed pushed_reachable). Defined.

(** The polling thread has processed two switches as one. *)
Definition polled_run : list step_label :=
  [L_switch 2; L_switch 3; L_wake 1; L_push 1; L_schedule 1; L_drain; L_change;
   L_watch (λ _, true); L_emit; L_finish].
Definition polled : CkVtMonitor := after true 63 polled_run (monitor_on_vt1 true).

Lemma polling_converges_witness :
  active_num polled = 3%Z ∧ active_num polled = kernel_active polled.
Proof.
  split; [vm_compute; reflexivity|].
  apply (polling_converges 63 1 1 (λ _, true) polled 1 {| t_num := 3; t_pc := T_wait |}).
  - apply (run_reachable_init _ _ _ polled_run). vm_compute. reflexivity.
  - apply quiescent_intro; vm_compute; reflexivity.
  - vm_compute. reflexivity.
  - vm_compute. reflexivity.
Defined.
