(* ===== verification/Console.v ===== *)
(** * Console names: [ck_get_console_device_for_num] and
    [ck_get_console_num_from_device] of [src/ck-sysdeps-linux.c].

    The seat goes from a VT number to a device name and back with these. *)

From S2P Require Import Prelude Scan.

(** [_PATH_TTY] of paths.h. *)
Definition PATH_TTY : string := "/dev/tty".

Definition ck_get_console_device_for_num (num : Z) : string := PATH_TTY +:+ fmt_unsigned (u32 num).

(** [sscanf (device, "/dev/tty%u", &n) == 1]. *)
Definition ck_get_console_num_from_device (device : cstr) : option Z :=
  d ← device;
  s ← strip_prefix PATH_TTY d;
  '(n, _) ← scan_unsigned s;
  Some (u32 n).

Lemma console_num_device n : (0 ≤ n < 2 ^ 32)%Z →
  ck_get_console_num_from_device (Some (ck_get_console_device_for_num n)) = Some n.
Proof.
  intros Hn. unfold ck_get_console_num_from_device, ck_get_console_device_for_num.
  cbn [mbind option_bind]. rewrite strip_prefix_app. cbn [mbind option_bind].
  rewrite <- (sapp_nil_r (fmt_unsigned _)), scan_unsigned_digits
    by (apply fmt_unsigned_digits || apply fmt_unsigned_nonempty || done).
  cbn [mbind option_bind]. rewrite (u32_small n) by done.
  rewrite strtoul_value_fmt by lia. by rewrite u32_small.
Qed.

Lemma console_num_range device n :
  ck_get_console_num_from_device device = Some n → (0 ≤ n < 2 ^ 32)%Z.
Proof.
  unfold ck_get_console_num_from_device. intros Hn.
  destruct device as [d|]; [|done]. cbn [mbind option_bind] in Hn.
  destruct (strip_prefix _ d); [|done]. cbn [mbind option_bind] in Hn.
  destruct (scan_unsigned _) as [[v r]|]; [|done]. cbn [mbind option_bind] in Hn.
  injection Hn as <-. apply u32_range.
Qed.

(** Console numbers survive the way through device names: for every 32-bit
    number the name made from it parses back to it, so two numbers never share
    a name; and no name is parsed to a number that does not fit 32 bits. *)
Theorem console_device_roundtrip n device :
  (0 ≤ n < 2 ^ 32)%Z →
  ck_get_console_num_from_device (Some (ck_get_console_device_for_num n)) = Some n ∧
  (∀ m, (0 ≤ m < 2 ^ 32)%Z →
     ck_get_console_device_for_num m = ck_get_console_device_for_num n → m = n) ∧
  (∀ k, ck_get_console_num_from_device device = Some k → (0 ≤ k < 2 ^ 32)%Z).
Proof.
  intros Hn.
  split; [by apply console_num_device|]. split; [|apply console_num_range].
  intros m Hm Heq. pose proof (console_num_device m Hm) as E.
  rewrite Heq, console_num_device in E by done. congruence.
Qed.

Lemma console_device_roundtrip_witness :
  ck_get_console_device_for_num 7 = "/dev/tty7" ∧
  ck_get_console_num_from_device (Some "/dev/tty7") = Some 7%Z ∧
  ck_get_console_num_from_device (Some "/dev/ttyS0") = None.
Proof.
  split; [vm_compute; reflexivity|]. split; [|vm_compute; reflexivity].
  assert (0 ≤ 7 < 2 ^ 32)%Z as H7 by lia.
  pose proof (proj1 (console_device_roundtrip 7 None H7)) as H. vm_compute in H. exact H.
Defined.
