(* ===== verification/Seat.v ===== *)
(** * Seats: [src/ck-seat.c].

    A seat keeps the table of its sessions, knows which of them is active, and
    on a static seat follows the VT monitor.  Sessions are reached through the
    interface [SessionOps]; what a seat relies on is in [SessionLaws], which
    [SeatSessions] proves of the sessions of [Session].  The end of the file
    has the session's Activate call, which goes through the seat. *)

From S2P Require Import Prelude Scan Console VtMonitor Session.

(** ** The sessions as a seat sees them *)

(** [W] is the state of all sessions.  [session_get] reads the properties of
    the generated skeleton. *)
Class SessionOps (W : Type) := {
  session_live : positive → W → Prop;
  session_get : ∀ p : sprop, positive → W → ptype p;
  session_id : positive → W → cstr;
  session_path : positive → W → cstr;
  session_created : positive → W → string;
  session_seat : positive → W → cstr;
  session_set_active : positive → bool → bool → prog W bool;
  session_set_seat_id : positive → cstr → cstr → prog W bool;
  sessions_ok : W → Prop
}.

(** The properties a change of activity or of the seat may touch. *)
Definition changing (p : sprop) : bool :=
  match p with P_active | P_session_state | P_seat => true | _ => false end.

(** The same sessions with the same identities, consoles and owners. *)
Record sessions_like {W} `{SessionOps W} (w w' : W) : Prop := {
  sl_live : ∀ s, session_live s w' ↔ session_live s w;
  sl_id : ∀ s, session_live s w → session_id s w' = session_id s w;
  sl_path : ∀ s, session_live s w → session_path s w' = session_path s w;
  sl_created : ∀ s, session_live s w → session_created s w' = session_created s w;
  sl_get : ∀ p s, changing p = false → session_live s w → session_get p s w' = session_get p s w
}.

Class SessionLaws (W : Type) {HO : SessionOps W} := {
  set_active_law : ∀ s a force w, sessions_ok w → session_live s w →
    wp (session_set_active s a force) (λ _ w', sessions_ok w' ∧ sessions_like w w' ∧
      (a = true ∨ force = true → session_get P_active s w' = a) ∧
      (∀ t, t ≠ s → session_get P_active t w' = session_get P_active t w) ∧
      ∀ t, session_seat t w' = session_seat t w) w;
  set_seat_id_law : ∀ s id path w, sessions_ok w → session_live s w →
    wp (session_set_seat_id s id path) (λ _ w', sessions_ok w' ∧ sessions_like w w' ∧
      (∀ t, session_get P_active t w' = session_get P_active t w) ∧
      session_seat s w' = id ∧ ∀ t, t ≠ s → session_seat t w' = session_seat t w) w
}.

(** ** Data *)

Inductive CkSeatKind := CK_SEAT_KIND_STATIC | CK_SEAT_KIND_DYNAMIC.
#[export] Instance CkSeatKind_eq_dec : EqDecision CkSeatKind.
Proof. solve_decision. Defined.

Inductive CkSeatError :=
| CK_SEAT_ERROR_GENERAL
| CK_SEAT_ERROR_FAILED
| CK_SEAT_ERROR_INSUFFICIENT_PERMISSION
| CK_SEAT_ERROR_NOT_SUPPORTED
| CK_SEAT_ERROR_NO_ACTIVE_SESSION
| CK_SEAT_ERROR_ALREADY_ACTIVE
| CK_SEAT_ERROR_NO_SESSIONS.

(** [CkSeatPrivate]. *)
Record CkSeat := {
  s_id : string;
  s_path : string;
  s_kind : CkSeatKind;
  s_name : string;
  sessions : gmap string positive;
  s_devices : list (string * string);
  active_session : option positive
}.

(** [ActivateData]: [context] is the method call to answer, if any. *)
Record ActivateData := { handler_id : Z; a_num : Z; context : option positive }.

Inductive answer_value :=
| Answer (vs : list value)
| AnswerPaths (l : list cstr)
| SeatError (e : CkSeatError)
| SessionError (e : CkSessionError).

Inductive seat_message :=
| SessionAddedFull (s : positive) | SessionAdded (path : cstr)
| SessionRemovedFull (s : positive) | SessionRemoved (path : cstr)
| ActiveSessionChangedFull (old new : option positive) | ActiveSessionChanged (path : string)
| DeviceAdded (d : string * string)
| Replied (call : positive) (v : answer_value).

(** The seat, its VT monitor with the console descriptor [vfd] and the
    [activated_cb] handlers in the order they were connected, the sessions whose
    "activate" signal the seat handles, the references the seat holds, the
    method calls that were answered (and freed), and everything sent. *)
Record seat_world (W : Type) := {
  seat : CkSeat;
  monitor : CkVtMonitor;
  vfd : Z;
  handlers : list ActivateData;
  next_handler : Z;
  connected : list positive;
  sess : W;
  refs : positive → Z;
  answered : gset positive;
  sent : list seat_message;
  table_tick : nat
}.
Arguments seat {W} _. Arguments monitor {W} _. Arguments vfd {W} _. Arguments handlers {W} _.
Arguments next_handler {W} _. Arguments connected {W} _. Arguments sess {W} _. Arguments refs {W} _.
Arguments answered {W} _. Arguments sent {W} _. Arguments table_tick {W} _.

Definition set_sessions (m : gmap string positive) (s : CkSeat) : CkSeat :=
  {| s_id := s_id s; s_path := s_path s; s_kind := s_kind s; s_name := s_name s; sessions := m;
     s_devices := s_devices s; active_session := active_session s |}.
Definition set_seat_devices (l : list (string * string)) (s : CkSeat) : CkSeat :=
  {| s_id := s_id s; s_path := s_path s; s_kind := s_kind s; s_name := s_name s;
     sessions := sessions s; s_devices := l; active_session := active_session s |}.
Definition set_active_session (a : option positive) (s : CkSeat) : CkSeat :=
  {| s_id := s_id s; s_path := s_path s; s_kind := s_kind s; s_name := s_name s;
     sessions := sessions s; s_devices := s_devices s; active_session := a |}.

Section setters.
Context {W : Type}.
Implicit Types w : seat_world W.

Definition upd_world (s : CkSeat) (mo : CkVtMonitor) (hs : list ActivateData) (nh : Z)
    (co : list positive) (x : W) (r : positive → Z) (an : gset positive)
    (se : list seat_message) (ti : nat) w : seat_world W :=
  {| seat := s; monitor := mo; vfd := vfd w; handlers := hs; next_handler := nh; connected := co;
     sess := x; refs := r; answered := an; sent := se; table_tick := ti |}.
Definition set_seat s w := upd_world s (monitor w) (handlers w) (next_handler w) (connected w)
  (sess w) (refs w) (answered w) (sent w) (table_tick w) w.
Definition set_monitor mo w := upd_world (seat w) mo (handlers w) (next_handler w) (connected w)
  (sess w) (refs w) (answered w) (sent w) (table_tick w) w.
Definition set_handlers hs nh w := upd_world (seat w) (monitor w) hs nh (connected w)
  (sess w) (refs w) (answered w) (sent w) (table_tick w) w.
Definition set_connected co w := upd_world (seat w) (monitor w) (handlers w) (next_handler w) co
  (sess w) (refs w) (answered w) (sent w) (table_tick w) w.
Definition set_sess x w := upd_world (seat w) (monitor w) (handlers w) (next_handler w) (connected w)
  x (refs w) (answered w) (sent w) (table_tick w) w.
Definition set_refs r w := upd_world (seat w) (monitor w) (handlers w) (next_handler w) (connected w)
  (sess w) r (answered w) (sent w) (table_tick w) w.
Definition set_answered an w := upd_world (seat w) (monitor w) (handlers w) (next_handler w)
  (connected w) (sess w) (refs w) an (sent w) (table_tick w) w.
Definition send m w := upd_world (seat w) (monitor w) (handlers w) (next_handler w) (connected w)
  (sess w) (refs w) (answered w) (sent w ++ [m]) (table_tick w) w.
Definition set_table m w := upd_world (set_sessions m (seat w)) (monitor w) (handlers w)
  (next_handler w) (connected w) (sess w) (refs w) (answered w) (sent w) (S (table_tick w)) w.
End setters.

(** [g_list_sort]: stable. *)
Section sort.
Context {A : Type} (le : A → A → bool).
Fixpoint sorted_insert (x : A) (l : list A) : list A :=
  match l with
  | [] => [x]
  | y :: l => if le x y then x :: y :: l else y :: sorted_insert x l
  end.
Definition g_list_sort (l : list A) : list A := foldr sorted_insert [] l.
End sort.

Section seat.
Context {W : Type} {HO : SessionOps W} {HH : HashOrder}.

Abbreviation prog_ := (prog (seat_world W)).

(** ** Building blocks *)

Definition on_sessions {A} (m : prog W A) : prog_ A :=
  λ w, match m (sess w) with Some (a, x) => Some (a, set_sess x w) | None => None end.
Definition get_session (p : sprop) (s : positive) : prog_ (ptype p) :=
  prog_gets (λ w, session_get p s (sess w)).
Definition in_seat {A} (f : CkSeat → A) : prog_ A := prog_gets (λ w, f (seat w)).
Definition emit_seat (m : seat_message) : prog_ unit := prog_modify (send m).
Definition add_ref (n : Z) (s : positive) : prog_ unit :=
  prog_modify (λ w, set_refs (λ t, if decide (t = s) then refs w t + n else refs w t)%Z w).
(** [g_dbus_method_invocation_return_*] takes over and frees the call. *)
Definition answer (call : positive) (v : answer_value) : prog_ unit :=
  λ w, if decide (call ∈ answered w) then None
       else Some (tt, send (Replied call v) (set_answered ({[call]} ∪ answered w) w)).
(** The entries of the session table as [g_hash_table_foreach] sees them. *)
Definition walk : prog_ (list (string * positive)) :=
  prog_gets (λ w, hash_order (table_tick w) (sessions (seat w))).

(** ** The active session *)

Definition ck_seat_get_active_session : prog_ (option cstr) :=
  a ← in_seat active_session;
  match a with
  | Some s => prog_gets (λ w, Some (session_path s (sess w)))
  | None => mret None
  end.

Definition dbus_get_active_session (call : positive) : prog_ unit :=
  r ← ck_seat_get_active_session;
  match r with
  | Some (Some path) => answer call (Answer [VStr path])
  | _ => answer call (SeatError CK_SEAT_ERROR_NO_ACTIVE_SESSION)
  end.

Definition match_session_display_device (display_device : cstr) (x : W) (s : positive) : bool :=
  match session_get P_display_device s x, display_device with
  | Some device, Some d => String.eqb device d
  | _, _ => false
  end.
Definition match_session_x11_display_device (x11_display_device : cstr) (x : W) (s : positive) : bool :=
  match session_get P_x11_display_device s x, x11_display_device with
  | Some device, Some d => String.eqb device d
  | _, _ => false
  end.

(** The list is built by prepending. *)
Definition hash_table_find_all (predicate : W → positive → bool) : prog_ (list positive) :=
  l ← walk;
  prog_gets (λ w, rev (filter (λ s, Is_true (predicate (sess w) s)) (map snd l))).

Definition find_sessions_for_display_device (device : cstr) : prog_ (list positive) :=
  hash_table_find_all (match_session_display_device device).
Definition find_sessions_for_x11_display_device (device : cstr) : prog_ (list positive) :=
  hash_table_find_all (match_session_x11_display_device device).

(** [strcmp (iso_a, iso_b) <= 0]. *)
Definition sort_sessions_by_age (x : W) (a b : positive) : bool :=
  String.leb (session_created a x) (session_created b x).

Definition find_oldest_session (l : list positive) : prog_ (option positive) :=
  prog_gets (λ w, head (g_list_sort (sort_sessions_by_age (sess w)) l)).

Definition find_session_for_display_device (device : cstr) : prog_ (option positive) :=
  l ← find_sessions_for_x11_display_device device;
  l ← (match l with [] => find_sessions_for_display_device device | _ => mret l end);
  match l with
  | [] => mret None
  | [s] => mret (Some s)
  | _ => find_oldest_session l
  end.

Definition change_active_session (session : option positive) : prog_ unit :=
  old ← in_seat active_session;
  if decide (old = session) then
    match session with
    | Some s => on_sessions (session_set_active s true true);; mret tt
    | None => mret tt
    end
  else
    (match old with
     | Some o => on_sessions (session_set_active o false true);; mret tt
     | None => mret tt
     end);;
    prog_modify (λ w, set_seat (set_active_session session (seat w)) w);;
    path ← (match session with
            | Some s =>
                add_ref 1 s;;
                p ← prog_gets (λ w, session_path s (sess w));
                on_sessions (session_set_active s true true);;
                mret p
            | None => mret None
            end);
    emit_seat (ActiveSessionChangedFull old session);;
    (match path with Some p => emit_seat (ActiveSessionChanged p) | None => mret tt end);;
    match old with Some o => add_ref (-1) o | None => mret tt end.

Definition update_active_vt (num : Z) : prog_ unit :=
  session ← find_session_for_display_device (Some (ck_get_console_device_for_num num));
  change_active_session session.

Definition maybe_update_active_session : prog_ unit :=
  k ← in_seat s_kind;
  match k with
  | CK_SEAT_KIND_DYNAMIC => mret tt
  | CK_SEAT_KIND_STATIC =>
      n ← prog_gets (λ w, ck_vt_monitor_get_active (vfd w) (monitor w));
      match n with Some num => update_active_vt num | None => mret tt end
  end.

(** ** Activating a session *)

Definition connect_activated (num : Z) (call : option positive) : prog_ Z :=
  λ w, Some (next_handler w,
             set_handlers (handlers w ++ [{| handler_id := next_handler w; a_num := num; context := call |}])
               (next_handler w + 1) w).
Definition disconnect_activated (id : Z) : prog_ unit :=
  prog_modify (λ w, set_handlers (filter (λ h, handler_id h ≠ id) (handlers w)) (next_handler w) w).

Definition activated_cb (num : Z) (adata : ActivateData) : prog_ unit :=
  (if Z.eqb (a_num adata) num then
     match context adata with
     | Some call => answer call (Answer [VBool true])
     | None => mret tt
     end
   else
     match context adata with
     | Some call => answer call (SeatError CK_SEAT_ERROR_GENERAL)
     | None => mret tt
     end);;
  disconnect_activated (handler_id adata).

(** The device a session is activated by. *)
Definition activation_device (x : W) (s : positive) : cstr :=
  match session_get P_x11_display_device s x with
  | None | Some "" => session_get P_display_device s x
  | Some device => Some device
  end.

(** [vt_activate]: what VT_ACTIVATE answers.  [None]: the session is not
    one; the result is the error, if any. *)
Definition ck_seat_activate_session (vt_activate : Z → bool) (session : option positive)
    (call : option positive) : prog_ (option CkSeatError) :=
  k ← in_seat s_kind;
  if decide (k ≠ CK_SEAT_KIND_STATIC) then mret (Some CK_SEAT_ERROR_NOT_SUPPORTED)
  else match session with
  | None => mret (Some CK_SEAT_ERROR_FAILED)
  | Some s =>
      device ← prog_gets (λ w, activation_device (sess w) s);
      match ck_get_console_num_from_device device with
      | None => mret (Some CK_SEAT_ERROR_FAILED)
      | Some num =>
          id ← connect_activated num call;
          old ← in_seat active_session;
          (match old with
           | Some o =>
               if decide (o = s) then mret tt
               else on_sessions (session_set_active o false true);; mret tt
           | None => mret tt
           end);;
          vt_error ← prog_gets (λ w, ck_vt_monitor_set_active (vfd w) vt_activate num (monitor w));
          match vt_error with
          | None => mret None
          | Some CK_VT_MONITOR_ERROR_ALREADY_ACTIVE =>
              on_sessions (session_set_active s true true);;
              disconnect_activated id;;
              mret None
          | Some _ =>
              disconnect_activated id;;
              mret (Some CK_SEAT_ERROR_FAILED)
          end
      end
  end.

Definition dbus_activate_session (vt_activate : Z → bool) (call : positive) (ssid : cstr) : prog_ unit :=
  session ← (match ssid with
             | Some id => in_seat (λ s, sessions s !! id)
             | None => mret None
             end);
  error ← ck_seat_activate_session vt_activate session (Some call);
  match error with
  | Some e => answer call (SeatError e)
  | None => answer call (Answer [])
  end.

(** [g_hash_table_find] with [find_session_by_vt]. *)
Definition find_session_by_vt (vtnum : Z) : prog_ (option positive) :=
  l ← walk;
  prog_gets (λ w, head (filter (λ s, u32 (session_get P_vtnr s (sess w)) = vtnum) (map snd l))).

(** Only a static seat has a VT monitor. *)
Definition dbus_switch_to (vt_activate : Z → bool) (call : positive) (vtnr : Z) : prog_ unit :=
  session ← find_session_by_vt (u32 vtnr);
  match session with
  | Some s =>
      ssid ← prog_gets (λ w, session_id s (sess w));
      dbus_activate_session vt_activate call ssid
  | None =>
      k ← in_seat s_kind;
      if decide (k = CK_SEAT_KIND_STATIC) then
        error ← prog_gets (λ w, ck_vt_monitor_set_active (vfd w) vt_activate (u32 vtnr) (monitor w));
        match error with
        | None => answer call (Answer [])
        | Some _ => answer call (SeatError CK_SEAT_ERROR_FAILED)
        end
      else answer call (SeatError CK_SEAT_ERROR_GENERAL)
  end.

Definition active_vt_changed (num : Z) : prog_ unit := update_active_vt num.

(** The monitor changes its active number and emits "active-changed": the seat's
    own handler was connected first. *)
Definition vt_monitor_changes (num : Z) : prog_ unit :=
  prog_modify (λ w, set_monitor (set_active_num num (monitor w)) w);;
  k ← in_seat s_kind;
  if decide (k = CK_SEAT_KIND_STATIC) then
    hs ← prog_gets handlers;
    active_vt_changed num;;
    for_each (activated_cb num) hs
  else mret tt.

(** ** Adding and removing sessions *)

Definition ck_seat_add_session (session : positive) : prog_ bool :=
  ssid ← prog_gets (λ w, session_id session (sess w));
  match ssid with
  | None => prog_abort
  | Some id =>
      add_ref 1 session;;
      old ← in_seat (λ s, sessions s !! id);
      prog_modify (λ w, set_table (<[id := session]> (sessions (seat w))) w);;
      (match old with Some o => add_ref (-1) o | None => mret tt end);;
      sid ← in_seat s_id; path ← in_seat s_path;
      on_sessions (session_set_seat_id session (Some sid) (Some path));;
      prog_modify (λ w, set_connected (connected w ++ [session]) w);;
      emit_seat (SessionAddedFull session);;
      p ← prog_gets (λ w, session_path session (sess w));
      emit_seat (SessionAdded p);;
      maybe_update_active_session;;
      mret true
  end.

Definition ck_seat_remove_session (session : positive) : prog_ bool :=
  ssid ← prog_gets (λ w, session_id session (sess w));
  match ssid with
  | None => prog_abort
  | Some id =>
      found ← in_seat (λ s, sessions s !! id);
      match found with
      | None => mret false
      | Some orig_session =>
          prog_modify (λ w, set_connected (filter (λ t, t ≠ session) (connected w)) w);;
          prog_modify (λ w, set_table (delete id (sessions (seat w))) w);;
          emit_seat (SessionRemovedFull session);;
          p ← prog_gets (λ w, session_path session (sess w));
          emit_seat (SessionRemoved p);;
          maybe_update_active_session;;
          add_ref (-1) orig_session;;
          mret true
      end
  end.

(** ** Queries *)

Definition ck_seat_can_activate_sessions : prog_ bool :=
  in_seat (λ s, bool_decide (s_kind s = CK_SEAT_KIND_STATIC)).
Definition dbus_can_activate_sessions (call : positive) : prog_ unit :=
  b ← ck_seat_can_activate_sessions; answer call (Answer [VBool b]).
Definition ck_seat_get_sessions : prog_ (list string) := l ← walk; mret (map fst l).
Definition dbus_get_sessions (call : positive) : prog_ unit :=
  l ← walk;
  match l with
  | [] => answer call (SeatError CK_SEAT_ERROR_NO_SESSIONS)
  | _ =>
      paths ← prog_gets (λ w, map (λ e, session_path e.2 (sess w)) l);
      answer call (AnswerPaths paths)
  end.
Definition seat_dbus_get_id (call : positive) : prog_ unit :=
  p ← in_seat s_path; answer call (Answer [VStr p]).
Definition dbus_get_name (call : positive) : prog_ unit :=
  n ← in_seat s_name; answer call (Answer [VStr n]).

(** ** Devices *)

Definition ck_seat_has_device (device : string * string) : prog_ bool :=
  in_seat (λ s, bool_decide (device ∈ s_devices s)).

Definition ck_seat_add_device (device : string * string) : prog_ bool :=
  present ← ck_seat_has_device device;
  if (present : bool) then mret false
  else
    prog_modify (λ w, set_seat (set_seat_devices (s_devices (seat w) ++ [device]) (seat w)) w);;
    emit_seat (DeviceAdded device);;
    mret true.

(** [fill_variant] gives the "(ss)" format a single pointer, to a [GVariant]:
    undefined as soon as there is a device. *)
Definition dbus_get_devices (call : positive) : prog_ unit :=
  l ← in_seat s_devices;
  match l with [] => answer call (Answer []) | _ => prog_abort end.

Definition dump_seat_session_iter (str id : string) : string :=
  if String.eqb str "" then id else str +:+ " " +:+ id.

(** [ck_seat_dump] reads the devices as [GValueArray]s, which they are not.  The
    result is the key file's group of the seat. *)
Definition ck_seat_dump : prog_ (string * list (string * string)) :=
  id ← in_seat s_id; k ← in_seat s_kind;
  l ← walk;
  ids ← prog_gets (λ w, omap (λ e, session_id e.2 (sess w)) l);
  d ← in_seat s_devices;
  match d with
  | _ :: _ => prog_abort
  | [] =>
      a ← in_seat active_session;
      active ← (match a with
                | Some s => prog_gets (λ w, [("active_session", default "" (session_id s (sess w)))])
                | None => mret []
                end);
      mret ("Seat " +:+ id,
            [("kind", match k with CK_SEAT_KIND_STATIC => "0" | CK_SEAT_KIND_DYNAMIC => "1" end);
             ("sessions", foldl dump_seat_session_iter "" ids); ("devices", "")] ++ active)
  end.

(** ** The environment of the hook programs *)

(** [extra_env] has 18 slots: writing beyond them aborts. *)
Definition put_env (item : string) : prog (list string) unit :=
  λ l, if decide (length l < 18) then Some (tt, l ++ [item]) else None.

Definition put_env_string (prefix name : string) (v : cstr) : prog (list string) unit :=
  match v with
  | None | Some "" => mret tt
  | Some s => put_env (prefix +:+ name +:+ "=" +:+ s)
  end.

Definition env_add_session_info (x : W) (session : option positive) (prefix : string) :
    prog (list string) unit :=
  match session with
  | None => mret tt
  | Some s =>
      put_env_string prefix "ID" (session_id s x);;
      put_env_string prefix "TYPE" (session_get P_session_type s x);;
      put_env (prefix +:+ "USER_UID=" +:+ fmt_unsigned (u32 (session_get P_unix_user s x)));;
      put_env_string prefix "DISPLAY_DEVICE" (session_get P_display_device s x);;
      put_env_string prefix "X11_DISPLAY_DEVICE" (session_get P_x11_display_device s x);;
      put_env_string prefix "X11_DISPLAY" (session_get P_x11_display s x);;
      put_env_string prefix "REMOTE_HOST_NAME" (session_get P_remote_host_name s x);;
      put_env (prefix +:+ "IS_LOCAL=" +:+ (if session_get P_is_local s x then "true" else "false"))
  end.

(** The environment given to [ck_run_programs]; the last slot written is the
    NULL terminator, which needs a slot too. *)
Definition ck_seat_run_programs (sid : string) (x : W) (old_session new_session : option positive) :
    option (list string) :=
  match (put_env ("CK_SEAT_ID=" +:+ sid);;
         env_add_session_info x old_session "CK_SEAT_OLD_SESSION_";;
         env_add_session_info x new_session "CK_SEAT_SESSION_") [] with
  | Some (_, env) => if decide (length env < 18) then Some env else None
  | None => None
  end.

(** ** The session's Activate call ([dbus_activate] of [src/ck-session.c]) *)

(** The handlers of the session's "activate" signal: once per connection; the
    last result counts, and without any [g_signal_emit] resets it to NULL. *)
Fixpoint activate_signal (vt_activate : Z → bool) (session : positive) (l : list positive)
    (result : option CkSeatError) : prog_ (option CkSeatError) :=
  match l with
  | [] => mret result
  | s :: l =>
      if decide (s = session) then
        r ← ck_seat_activate_session vt_activate (Some session) None;
        activate_signal vt_activate session l r
      else activate_signal vt_activate session l result
  end.

Definition dbus_activate (vt_activate : Z → bool) (session call : positive) : prog_ unit :=
  l ← prog_gets connected;
  error ← activate_signal vt_activate session l None;
  match error with
  | Some CK_SEAT_ERROR_ALREADY_ACTIVE => mret tt
  | Some CK_SEAT_ERROR_NOT_SUPPORTED => answer call (SessionError CK_SESSION_ERROR_NOT_SUPPORTED)
  | Some _ => answer call (SessionError CK_SESSION_ERROR_GENERAL)
  | None => answer call (Answer [])
  end.
End seat.

(** ** Creating a seat *)

Definition CK_DBUS_PATH : string := "/org/freedesktop/ConsoleKit".

Definition ck_seat_new (sid : string) (kind : CkSeatKind) : CkSeat :=
  {| s_id := sid; s_path := CK_DBUS_PATH +:+ "/" +:+ sid; s_kind := kind;
     s_name := match kind with CK_SEAT_KIND_STATIC => "seat0" | CK_SEAT_KIND_DYNAMIC => sid end;
     sessions := ∅; s_devices := []; active_session := None |}.

(** What [GKeyFile] read: [None] if the file did not load. *)
Record seat_file := { kf_start_group : cstr; kf_hidden : bool; kf_devices : list string }.

(** [g_strsplit (s, ":", 2)] on an entry with a colon; without one the second
    string is NULL or beyond the array, and the "(ss)" format undefined. *)
Fixpoint split_device (s : string) : option (string * string) :=
  match s with
  | EmptyString => None
  | String c s =>
      if ascii_eqb c ":"%char then Some ("", s)
      else '(a, b) ← split_device s; Some (String c a, b)
  end.

Section new.
Context {W : Type} {HO : SessionOps W}.

(** The seat is built in the world that it will live in: its announcements of
    devices come first. *)
Definition ck_seat_new_with_devices (sid : string) (kind : CkSeatKind)
    (l : list (string * string)) : prog (seat_world W) unit :=
  prog_modify (set_seat (ck_seat_new sid kind));;
  for_each (λ d, ck_seat_add_device d;; mret tt) l.

Definition ck_seat_new_from_file (sid : string) (f : option seat_file) :
    prog (seat_world W) bool :=
  match f with
  | None => mret false
  | Some f =>
      if decide (kf_start_group f ≠ Some "Seat Entry") then mret false
      else if kf_hidden f then mret false
      else match mapM split_device (kf_devices f) with
      | None => prog_abort
      | Some l => ck_seat_new_with_devices sid CK_SEAT_KIND_STATIC l;; mret true
      end
  end.

(** The world of a new seat without devices. *)
Definition new_seat_world (sid : string) (kind : CkSeatKind) (m : CkVtMonitor) (console : Z) (x : W) :
    seat_world W :=
  {| seat := ck_seat_new sid kind; monitor := m; vfd := console; handlers := []; next_handler := 1;
     connected := []; sess := x; refs := λ _, 0%Z; answered := ∅; sent := []; table_tick := 0 |}.
End new.
