(* ===== verification/SeatFacts.v ===== *)
(** * Seats: theorems about [Seat].

    Stated for any sessions that keep the laws of [SessionLaws] and any order of
    walking the session table. *)

From S2P Require Import Prelude Scan Console VtMonitor Session Seat.
From Stdlib Require Ascii.
From stdpp Require Import fin_maps.

(** ** Sorting by age *)

Section sort.
Context {A : Type} (le : A → A → bool).
Hypothesis le_total : ∀ a b, le a b = true ∨ le b a = true.
Hypothesis le_trans : ∀ a b c, le a b = true → le b c = true → le a c = true.

Lemma sorted_insert_perm x l : sorted_insert le x l ≡ₚ x :: l.
Proof.
  induction l as [|y l IH]; simpl; [done|]. destruct (le x y); [done|].
  rewrite IH. apply Permutation_swap.
Qed.
Lemma g_list_sort_perm l : g_list_sort le l ≡ₚ l.
Proof. induction l as [|x l IH]; simpl; [done|]. by rewrite sorted_insert_perm, IH. Qed.

Lemma sorted_insert_head x l y :
  (∀ h, head l = Some h → ∀ z, z ∈ l → le h z = true) →
  head (sorted_insert le x l) = Some y → ∀ z, z ∈ sorted_insert le x l → le y z = true.
Proof.
  intros Hl Hy z Hz. rewrite sorted_insert_perm in Hz.
  destruct l as [|h l]; simpl in Hy.
  - simplify_eq. apply list_elem_of_singleton in Hz as ->. by destruct (le_total y y).
  - pose proof (Hl h eq_refl) as Hh. destruct (le x h) eqn:E; simpl in Hy; simplify_eq.
    + apply elem_of_cons in Hz as [->|Hz]; [by destruct (le_total y y)|].
      eapply le_trans; [done|]. by apply Hh.
    + apply elem_of_cons in Hz as [->|Hz]; [destruct (le_total x y); [congruence|done]|by apply Hh].
Qed.

Lemma g_list_sort_head l y : head (g_list_sort le l) = Some y → y ∈ l ∧ ∀ z, z ∈ l → le y z = true.
Proof.
  intros Hy. split.
  - rewrite <- (g_list_sort_perm l). destruct (g_list_sort le l); simplify_eq/=. by left.
  - intros z. rewrite <- (g_list_sort_perm l). revert y Hy z.
    induction l as [|x l IH]; intros y Hy z Hz; [done|]. simpl in *.
    eapply sorted_insert_head; [|done|done]. intros h Hh w Hw. by eapply IH.
Qed.
End sort.

Lemma string_leb_cons a s b t :
  String.leb (String a s) (String b t) = true ↔
  (N_of_ascii a < N_of_ascii b)%N ∨ (a = b ∧ String.leb s t = true).
Proof.
  unfold String.leb. simpl. unfold Ascii.compare.
  destruct (N.compare_spec (N_of_ascii a) (N_of_ascii b)) as [E|E|E].
  - assert (a = b) as -> by (rewrite <- (Ascii.ascii_N_embedding a), <- (Ascii.ascii_N_embedding b); by rewrite E).
    split; [intros H; by right|]. intros [?|[_ ?]]; [lia|done].
  - split; [by left|done].
  - split; [done|]. intros [?|[-> _]]; lia.
Qed.
Lemma string_leb_trans (a b c : string) :
  String.leb a b = true → String.leb b c = true → String.leb a c = true.
Proof.
  revert b c. induction a as [|x a IH]; intros [|y b] [|z c]; try done.
  rewrite !string_leb_cons. intros [?|[-> ?]] [?|[-> ?]]; [left; lia|by left|by left|right].
  split; [done|]. by eapply IH.
Qed.

Section seat.
Context {W : Type} {HO : SessionOps W} {HL : SessionLaws W} {HH : HashOrder}.
Implicit Types (w : seat_world W) (x : W).

(** ** Stepping through seat programs *)

Lemma wp_on_sessions {A} (m : prog W A) Q w :
  wp m (λ a x, Q a (set_sess x w)) (sess w) → wp (on_sessions m) Q w.
Proof. unfold wp, on_sessions. by destruct (m (sess w)) as [[a x]|]. Qed.
Lemma wp_in_seat {A} (f : CkSeat → A) Q w : Q (f (seat w)) w → wp (in_seat f) Q w.
Proof. done. Qed.
Lemma wp_emit_seat m Q w : Q tt (send m w) → wp (emit_seat m) Q w.
Proof. done. Qed.
Lemma wp_add_ref n s Q w :
  Q tt (set_refs (λ t, if decide (t = s) then refs w t + n else refs w t)%Z w) → wp (add_ref n s) Q w.
Proof. done. Qed.
Lemma wp_walk Q w : Q (hash_order (table_tick w) (sessions (seat w))) w → wp walk Q w.
Proof. done. Qed.

(** ** The oldest session of a console *)

Definition on_seat (w : seat_world W) (s : positive) : Prop := ∃ id, sessions (seat w) !! id = Some s.

Lemma walk_sessions w s :
  s ∈ map snd (hash_order (table_tick w) (sessions (seat w))) ↔ on_seat w s.
Proof.
  rewrite hash_order_perm, list_elem_of_fmap. split.
  - intros ([id t] & -> & Ht). apply elem_of_map_to_list in Ht. by exists id.
  - intros [id Hid]. exists (id, s). split; [done|]. by apply elem_of_map_to_list.
Qed.

Definition oldest_among (P : positive → Prop) (x : W) (s : positive) : Prop :=
  P s ∧ ∀ t, P t → String.leb (session_created s x) (session_created t x) = true.

Definition x11_here (device : cstr) w (s : positive) : Prop :=
  on_seat w s ∧ match_session_x11_display_device device (sess w) s = true.
Definition display_here (device : cstr) w (s : positive) : Prop :=
  on_seat w s ∧ match_session_display_device device (sess w) s = true.

(** The answer for a console: the oldest session with that X11 device, or else
    the oldest with that display device, or none. *)
Definition session_of_device (device : cstr) w (r : option positive) : Prop :=
  match r with
  | Some s => oldest_among (x11_here device w) (sess w) s ∨
      (∀ t, ¬ x11_here device w t) ∧ oldest_among (display_here device w) (sess w) s
  | None => ∀ t, ¬ x11_here device w t ∧ ¬ display_here device w t
  end.

Lemma wp_find_all f w :
  wp (hash_table_find_all f)
    (λ l w', w' = w ∧ ∀ s, s ∈ l ↔ on_seat w s ∧ f (sess w) s = true) w.
Proof.
  unfold hash_table_find_all. apply wp_bind, wp_walk, wp_gets. split; [done|].
  intros s. rewrite list_elem_of_In, <- in_rev, <- list_elem_of_In.
  rewrite list_elem_of_filter, walk_sessions, Is_true_true. tauto.
Qed.

Lemma oldest_pick (P : positive → Prop) x l s :
  (∀ t, t ∈ l ↔ P t) → head (g_list_sort (sort_sessions_by_age x) l) = Some s → oldest_among P x s.
Proof.
  intros Hl Hs. apply g_list_sort_head in Hs as [Hin Hle].
  - split; [by apply Hl|]. intros t Ht. by apply Hle, Hl.
  - intros a b. unfold sort_sessions_by_age.
    apply String.leb_total.
  - intros a b c. unfold sort_sessions_by_age. apply string_leb_trans.
Qed.

Lemma g_list_sort_nonempty x l : l ≠ [] → ∃ s, head (g_list_sort (sort_sessions_by_age x) l) = Some s.
Proof.
  intros Hl. destruct (g_list_sort _ l) as [|s k] eqn:E; [|by exists s].
  pose proof (g_list_sort_perm (sort_sessions_by_age x) l) as Hp. rewrite E in Hp.
  by apply Permutation_nil in Hp.
Qed.

Lemma wp_pick (P : positive → Prop) l w : (∀ s, s ∈ l ↔ P s) → l ≠ [] →
  wp (match l with [] => mret None | [s] => mret (Some s) | _ => find_oldest_session l end)
    (λ r w', w' = w ∧ ∃ s, r = Some s ∧ oldest_among P (sess w) s) w.
Proof.
  intros Hl Hne. destruct (g_list_sort_nonempty (sess w) l Hne) as [s Hs].
  pose proof (oldest_pick P (sess w) l s Hl Hs) as Hold.
  destruct l as [|a [|b l]]; [done| |].
  - apply wp_ret. split; [done|]. exists a. simpl in Hs. by simplify_eq.
  - unfold find_oldest_session. apply wp_gets. rewrite Hs. eauto.
Qed.

Lemma wp_find_session device w :
  wp (find_session_for_display_device device)
    (λ r w', w' = w ∧ session_of_device device w r) w.
Proof.
  unfold find_session_for_display_device. apply wp_bind. eapply wp_mono; [apply wp_find_all|].
  intros lx w1 [-> Hlx]. apply wp_bind. destruct lx as [|a lx].
  - assert (∀ t, ¬ x11_here device w t) as Hno.
    { intros t Ht. apply Hlx in Ht. by apply elem_of_nil in Ht. }
    eapply wp_mono; [apply wp_find_all|]. intros l w2 [-> Hl]. destruct l as [|b l].
    + apply wp_ret. split; [done|]. intros t. split; [done|]. intros Ht.
      apply Hl in Ht. by apply elem_of_nil in Ht.
    + eapply wp_mono; [by apply (wp_pick (display_here device w) (b :: l))|].
      intros r w3 [-> (s & -> & Hs)]. split; [done|]. right. done.
  - apply wp_ret. eapply wp_mono; [by apply (wp_pick (x11_here device w) (a :: lx))|].
    intros r w3 [-> (s & -> & Hs)]. split; [done|]. by left.
Qed.

(** ** Changing the active session *)

Lemma sessions_like_refl x : sessions_like x x.
Proof. by split. Qed.
Lemma sessions_like_trans x y z : sessions_like x y → sessions_like y z → sessions_like x z.
Proof.
  intros [A1 A2 A3 A4 A5] [B1 B2 B3 B4 B5].
  split; [intros s; by rewrite B1| | | |]; [intros s Hs; pose proof (proj2 (A1 s) Hs) as Hy ..|].
  - by rewrite B2, A2.
  - by rewrite B3, A3.
  - by rewrite B4, A4.
  - intros p s Hp Hs. pose proof (proj2 (A1 s) Hs). by rewrite B5, A5.
Qed.

(** Session [s] was switched, and nothing else happened. *)
Definition switched (s : positive) (b : bool) w w' : Prop :=
  ∃ x, w' = set_sess x w ∧ sessions_ok x ∧ sessions_like (sess w) x ∧
    session_get P_active s x = b ∧
    (∀ t, t ≠ s → session_get P_active t x = session_get P_active t (sess w)) ∧
    ∀ t, session_seat t x = session_seat t (sess w).

Lemma wp_switch s b w : sessions_ok (sess w) → session_live s (sess w) →
  wp (on_sessions (session_set_active s b true);; mret tt) (λ _ w', switched s b w w') w.
Proof.
  intros Hok Hs. apply wp_bind, wp_on_sessions.
  eapply wp_mono; [by apply (set_active_law s b true)|].
  intros r x (Hx & Hlike & Ha & Ht & Hse). apply wp_ret. exists x. split_and!; auto.
Qed.

(** A session of which the seat announced that it came or went. *)
Definition mentioned w (t : positive) : Prop := SessionAddedFull t ∈ sent w ∨ SessionRemovedFull t ∈ sent w.
Definition about (m : seat_message) : option positive :=
  match m with SessionAddedFull t | SessionRemovedFull t => Some t | _ => None end.

Lemma mentioned_app w w' l t : sent w' = sent w ++ l → mentioned w' t →
  mentioned w t ∨ Some t ∈ map about l.
Proof.
  intros E. unfold mentioned. rewrite E, !elem_of_app.
  intros [[H|H]|[H|H]]; try tauto; right; apply list_elem_of_fmap; (eexists; split; [|exact H]); done.
Qed.

(** What stays when the active session changes. *)
Record seat_frame w w' : Prop := {
  fr_kind : s_kind (seat w') = s_kind (seat w);
  fr_table : sessions (seat w') = sessions (seat w);
  fr_monitor : monitor w' = monitor w;
  fr_vfd : vfd w' = vfd w;
  fr_handlers : handlers w' = handlers w;
  fr_connected : connected w' = connected w;
  fr_answered : answered w' = answered w;
  fr_ok : sessions_ok (sess w');
  fr_like : sessions_like (sess w) (sess w');
  fr_id : s_id (seat w') = s_id (seat w);
  fr_path : s_path (seat w') = s_path (seat w);
  fr_where : ∀ t, session_seat t (sess w') = session_seat t (sess w);
  fr_sent : ∀ t, mentioned w' t → mentioned w t
}.

Definition is_active (s : positive) w : bool := session_get P_active s (sess w).
Definition holds (a : option positive) (s : positive) : Z := Z.b2z (bool_decide (a = Some s)).

(** The effect of [change_active_session]. *)
Record activated (new : option positive) w w' : Prop := {
  ac_frame : seat_frame w w';
  ac_active : active_session (seat w') = new;
  ac_on : ∀ s, new = Some s → is_active s w' = true;
  ac_off : ∀ s, new ≠ Some s → is_active s w' = true →
    is_active s w = true ∧ active_session (seat w) ≠ Some s;
  ac_refs : ∀ s, (refs w' s = refs w s + holds new s - holds (active_session (seat w)) s)%Z
}.

Lemma frame_refl w : sessions_ok (sess w) → seat_frame w w.
Proof. intros Hok. by split. Qed.

(** First half: the old session is told. *)
Lemma wp_switch_off w :
  sessions_ok (sess w) → (∀ s, active_session (seat w) = Some s → session_live s (sess w)) →
  wp (match active_session (seat w) with
      | Some o => on_sessions (session_set_active o false true);; mret tt
      | None => mret tt
      end) (λ _ w', ∃ x, w' = set_sess x w ∧ sessions_ok x ∧ sessions_like (sess w) x ∧
        (∀ t, session_seat t x = session_seat t (sess w)) ∧
        ∀ t, session_get P_active t x = true →
          is_active t w = true ∧ active_session (seat w) ≠ Some t) w.
Proof.
  intros Hok Hold. destruct (active_session (seat w)) as [o|] eqn:Ho.
  - eapply wp_mono; [apply wp_switch; [done|by apply Hold]|].
    intros _ w' (x & -> & Hx & Hlike & Ha & Ht & Hse). exists x. split_and!; try done.
    intros t Hact. destruct (decide (t = o)) as [->|]; [congruence|].
    unfold is_active. rewrite <- Ht by done. split; [done|congruence].
  - apply wp_ret. exists (sess w). split_and!; try done; by destruct w.
Qed.

(** Second half: the new one is referenced and told. *)
Lemma wp_switch_on new w :
  sessions_ok (sess w) → (∀ s, new = Some s → session_live s (sess w)) →
  wp (match new with
      | Some s =>
          add_ref 1 s;;
          p ← prog_gets (λ w, session_path s (sess w));
          on_sessions (session_set_active s true true);;
          mret p
      | None => mret None
      end) (λ _ w', ∃ x r, w' = set_refs r (set_sess x w) ∧ sessions_ok x ∧
        sessions_like (sess w) x ∧ (∀ t, session_seat t x = session_seat t (sess w)) ∧
        (∀ s, new = Some s → session_get P_active s x = true) ∧
        (∀ t, new ≠ Some t → session_get P_active t x = is_active t w) ∧
        ∀ t, r t = refs w t + holds new t)%Z w.
Proof.
  intros Hok Hnew. destruct new as [s|].
  - apply wp_bind, wp_add_ref, wp_bind, wp_gets, wp_bind, wp_on_sessions.
    eapply wp_mono; [apply (set_active_law s true true); [done|by apply Hnew]|].
    intros r x (Hx & Hlike & Ha & Ht & Hse). apply wp_ret. eexists x, _. split; [reflexivity|].
    split_and!; try done; [intros t [= <-]; by apply Ha; left| |].
    + intros t Hne'. apply Ht. congruence.
    + intros t. unfold holds. simpl. case_decide; case_bool_decide; simplify_eq; simpl; lia.
  - apply wp_ret. exists (sess w), (refs w). split; [by destruct w|].
    split_and!; try done. intros t. unfold holds. simpl. lia.
Qed.

Lemma holds_ref a n t (r : positive → Z) :
  (if decide (t = a) then r t + n else r t)%Z = (r t + n * holds (Some a) t)%Z.
Proof. unfold holds. case_decide; case_bool_decide; simplify_eq; simpl; lia. Qed.

Lemma wp_change_active new w :
  sessions_ok (sess w) → (∀ s, active_session (seat w) = Some s → session_live s (sess w)) →
  (∀ s, new = Some s → session_live s (sess w)) →
  wp (change_active_session new) (λ _ w', activated new w w') w.
Proof.
  intros Hok Hold Hnew. unfold change_active_session. apply wp_bind, wp_in_seat.
  destruct (decide (active_session (seat w) = new)) as [Heq|Hne].
  { destruct new as [s|].
    - eapply wp_mono; [apply wp_switch; [done|by apply Hnew]|].
      intros _ w' (x & -> & Hx & Hlike & Ha & Ht & Hse). split; unfold is_active; simpl; try done.
      + congruence.
      + intros t Hne. rewrite Ht by congruence. intros ->. split; [done|congruence].
      + rewrite Heq. intros t. lia.
    - apply wp_ret. split; [by apply frame_refl|done|done| |].
      + intros t _ ->. split; [done|congruence].
      + rewrite Heq. intros t. lia. }
  apply wp_bind. eapply wp_mono; [by apply wp_switch_off|].
  intros [] w1 (x1 & -> & Hx1 & Hlike1 & Hse1 & Hact1). apply wp_bind, wp_modify, wp_bind.
  eapply wp_mono; [apply wp_switch_on; [done|]|].
  { intros s Hs. apply Hlike1. by apply Hnew. }
  intros p w2 (x2 & r2 & -> & Hx2 & Hlike2 & Hse2 & Hon & Hoff & Hr). apply wp_bind, wp_emit_seat, wp_bind.
  assert (∀ w3 r, seat w3 = set_active_session new (seat w) → monitor w3 = monitor w →
    vfd w3 = vfd w → handlers w3 = handlers w → connected w3 = connected w →
    answered w3 = answered w → sess w3 = x2 → refs w3 = r →
    (∃ l, sent w3 = sent w ++ l ∧ map about l = replicate (length l) None) →
    (∀ t, r t = r2 t - holds (active_session (seat w)) t)%Z → activated new w w3) as Hdone.
  { intros w3 r E1 E2 E3 E4 E5 E6 E7 E8 (l9 & E9 & E9') Hr3. split; unfold is_active; rewrite ?E1, ?E7; try done.
    - split; rewrite ?E1, ?E2, ?E3, ?E4, ?E5, ?E6, ?E7; try done; [by eapply sessions_like_trans| |].
      + intros t. by rewrite Hse2, Hse1.
      + intros t [|Hin]%(mentioned_app _ _ _ t E9); [done|].
        rewrite E9' in Hin. by apply elem_of_replicate in Hin as [].
    - intros t Hne'. rewrite Hoff by done. apply Hact1.
    - intros t. rewrite E8, Hr3, Hr. simpl. lia. }
  destruct p as [p|]; [apply wp_emit_seat|apply wp_ret];
    (destruct (active_session (seat w)) as [o|] eqn:Ho; [apply wp_add_ref|apply wp_ret]);
    (eapply Hdone; [reflexivity..|simpl; rewrite <- ?app_assoc; eexists; split; [reflexivity|done]|]); intros t; simpl; rewrite ?holds_ref; unfold holds; simpl; lia.
Qed.

(** ** The invariant *)

Definition console_of w : cstr := Some (ck_get_console_device_for_num (active_num (monitor w))).
(** The active session is the one of the monitor's active console. *)
Definition synced w : Prop := session_of_device (console_of w) w (active_session (seat w)).

(** The table of a seat holds live sessions under their ids with one reference
    each, the active session has one more, and [extra] counts references that an
    operation is about to drop. *)
Record seat_pre (extra : positive → Z) w : Prop := {
  pv_ok : sessions_ok (sess w);
  pv_table : ∀ id s, sessions (seat w) !! id = Some s →
    session_live s (sess w) ∧ session_id s (sess w) = Some id;
  pv_connected : ∀ s, s ∈ connected w → on_seat w s;
  pv_live : ∀ s, active_session (seat w) = Some s → session_live s (sess w);
  pv_refs_on : ∀ s, on_seat w s → (refs w s = 1 + holds (active_session (seat w)) s + extra s)%Z;
  pv_refs_off : ∀ s, ¬ on_seat w s → (refs w s = holds (active_session (seat w)) s + extra s)%Z
}.
Definition nothing (_ : positive) : Z := 0.
(** A static seat with a console. *)
Definition on_console w : Prop := s_kind (seat w) = CK_SEAT_KIND_STATIC ∧ vfd w ≠ (-1)%Z.
Definition seat_inv w : Prop := seat_pre nothing w ∧ on_console w ∧ synced w.

Lemma on_seat_live extra w s : seat_pre extra w → on_seat w s → session_live s (sess w).
Proof. intros Hp [id Hid]. by apply (pv_table _ _ Hp id). Qed.

(** The same sessions on the seat, seen in another state of the sessions. *)
Lemma session_of_device_same device w w' r :
  sessions (seat w') = sessions (seat w) →
  (∀ s, on_seat w s → session_created s (sess w') = session_created s (sess w)) →
  (∀ p s, p = P_x11_display_device ∨ p = P_display_device → on_seat w s →
     session_get p s (sess w') = session_get p s (sess w)) →
  session_of_device device w r → session_of_device device w' r.
Proof.
  intros Et Hc Hg.
  assert (∀ s, on_seat w' s ↔ on_seat w s) as Hon by (intros s; unfold on_seat; by rewrite Et).
  assert (∀ s, x11_here device w' s ↔ x11_here device w s) as Hx.
  { intros s. unfold x11_here, match_session_x11_display_device. rewrite Hon.
    split; intros [Hs Hm]; (split; [done|]); revert Hm; by rewrite Hg by auto. }
  assert (∀ s, display_here device w' s ↔ display_here device w s) as Hd.
  { intros s. unfold display_here, match_session_display_device. rewrite Hon.
    split; intros [Hs Hm]; (split; [done|]); revert Hm; by rewrite Hg by auto. }
  assert (∀ s t, on_seat w s → on_seat w t →
    String.leb (session_created s (sess w)) (session_created t (sess w)) = true →
    String.leb (session_created s (sess w')) (session_created t (sess w')) = true) as Hle.
  { intros s t Hs Ht. by rewrite !Hc by auto. }
  unfold session_of_device, oldest_among. destruct r as [s|].
  - intros [[H1 H2]|(H0 & H1 & H2)]; [left|right].
    + split; [by apply Hx|]. intros t Ht%Hx. apply Hle; [apply H1|apply Ht|by apply H2].
    + split; [intros t; rewrite Hx; apply H0|]. split; [by apply Hd|].
      intros t Ht%Hd. apply Hle; [apply H1|apply Ht|by apply H2].
  - intros H t. by rewrite Hx, Hd.
Qed.

Lemma session_of_device_like device w w' r :
  (∀ s, on_seat w s → session_live s (sess w)) →
  sessions (seat w') = sessions (seat w) →
  (∀ s, session_live s (sess w) → session_created s (sess w') = session_created s (sess w)) →
  (∀ p s, p = P_x11_display_device ∨ p = P_display_device → session_live s (sess w) →
     session_get p s (sess w') = session_get p s (sess w)) →
  session_of_device device w r → session_of_device device w' r.
Proof. intros Hlive Et Hc Hg. apply session_of_device_same; auto. Qed.

Lemma session_of_device_on device w s : session_of_device device w (Some s) → on_seat w s.
Proof. intros [[[H _] _]|(_ & [H _] & _)]; exact H. Qed.

Lemma like_devices x x' : sessions_like x x' → ∀ p s, p = P_x11_display_device ∨ p = P_display_device →
  session_live s x → session_get p s x' = session_get p s x.
Proof. intros Hl p s [->| ->]; by apply Hl. Qed.

(** A change of the sessions' state only. *)
Lemma seat_pre_sess extra w x : seat_pre extra w → sessions_ok x →
  (∀ s, session_live s (sess w) → session_live s x ∧ session_id s x = session_id s (sess w)) →
  seat_pre extra (set_sess x w).
Proof.
  intros [H1 H2 H3 H4 H5 H6] Hx Hl. split; simpl; try done.
  - intros id s Hid. destruct (H2 _ _ Hid) as [Ls <-]. by apply Hl.
  - intros s Ha. by apply Hl, H4.
Qed.

Lemma seat_inv_sess w x : seat_inv w → sessions_ok x → sessions_like (sess w) x →
  seat_inv (set_sess x w).
Proof.
  intros (Hp & Hc & Hs) Hx Hlike. pose proof Hlike as [L1 L2 _ _ _]. split_and!; [|done|].
  - apply seat_pre_sess; [done..|]. intros s Hl. by rewrite L1, L2.
  - apply (session_of_device_like _ w); try done; [|apply Hlike|by apply like_devices].
    intros s. by apply (on_seat_live nothing).
Qed.

Lemma seat_inv_ext w w' : seat_inv w → seat w' = seat w → monitor w' = monitor w → vfd w' = vfd w →
  connected w' = connected w → sess w' = sess w → refs w' = refs w → seat_inv w'.
Proof.
  intros ([H1 H2 H3 H4 H5 H6] & Hc & Hs) E1 E2 E3 E4 E5 E6. split_and!.
  - split; unfold on_seat in *; rewrite ?E1, ?E2, ?E3, ?E4, ?E5, ?E6; done.
  - unfold on_console in *. by rewrite E1, E3.
  - unfold synced, console_of in *. rewrite E1, E2.
    apply (session_of_device_like _ w); [|by rewrite E1|by rewrite E5..|done].
    intros s [id Hid]. by apply (H2 id).
Qed.

(** Looking the session of the active console up again restores the invariant. *)
Lemma wp_refresh extra w : seat_pre extra w →
  wp (update_active_vt (active_num (monitor w)))
    (λ _ w', seat_pre extra w' ∧ synced w' ∧ activated (active_session (seat w')) w w') w.
Proof.
  intros Hp. pose proof Hp as [H1 H4 H5 H6 H7 H8].
  unfold update_active_vt. apply wp_bind. eapply wp_mono; [apply wp_find_session|].
  intros r w0 [-> Hr].
  eapply wp_mono; [apply wp_change_active; [done|done|]|].
  { intros s ->. by apply (on_seat_live extra), (session_of_device_on _ _ _ Hr). }
  intros [] w' Ha. pose proof Ha as [[F1 F2 F3 F4 F5 F6 F7 F8 F9 F10 F11 F12] A1 A2 A3 A4].
  assert (∀ s, on_seat w' s ↔ on_seat w s) as Hon by (intros s; unfold on_seat; by rewrite F2).
  pose proof F9 as [L1 L2 _ _ _].
  split; [split|split; [|by rewrite A1]]; rewrite ?F1, ?F2, ?F4, ?F6, ?A1; try done.
  - intros id s Hid. destruct (H4 _ _ Hid). by rewrite L1, L2.
  - intros s Hs. rewrite Hon. by apply H5.
  - intros s ->. apply L1. by apply (on_seat_live extra), (session_of_device_on _ _ _ Hr).
  - intros s Hs. rewrite A4, H7 by (by apply Hon). lia.
  - intros s Hs. rewrite A4, H8 by (by rewrite <- Hon). lia.
  - unfold synced, console_of. rewrite F3, A1.
    apply (session_of_device_like _ w); try done; [|apply F9|by apply like_devices].
    intros s. by apply (on_seat_live extra).
Qed.

(** ** Which sessions are marked active *)

(** Only the seat's active session is marked active. *)
Definition marks w : Prop := ∀ s, is_active s w = true → active_session (seat w) = Some s.

(** Every session is on at most one console, named as the daemon names it, and
    no two sessions share one. *)
Definition placed (vt_of : positive → option Z) x : Prop :=
  (∀ s t n, vt_of s = Some n → vt_of t = Some n → s = t) ∧
  ∀ s, session_live s x → ∀ d n,
    session_get P_x11_display_device s x = Some d ∨ session_get P_display_device s x = Some d →
    ck_get_console_num_from_device (Some d) = Some n →
    vt_of s = Some n ∧ d = ck_get_console_device_for_num n.

Lemma placed_like vt_of x x' : placed vt_of x → sessions_like x x' → placed vt_of x'.
Proof.
  intros [Hinj Hp] [L1 _ _ _ L5]. split; [done|]. intros s Hs%L1 d n Hd. apply (Hp s Hs d n).
  by rewrite <- !L5.
Qed.

Lemma marks_activated new w w' : marks w → activated new w w' → marks w'.
Proof.
  intros Hm [_ A1 _ A3 _] s Hs. rewrite A1. destruct (decide (new = Some s)) as [|Hne]; [done|].
  destruct (A3 s Hne Hs) as [Ha Hno]. by destruct Hno; apply Hm.
Qed.

(** With one session per console, the session that is activated on the active
    console is the active one. *)
Lemma placed_active vt_of w s :
  seat_inv w → placed vt_of (sess w) → on_seat w s →
  ck_get_console_num_from_device (activation_device (sess w) s) = Some (active_num (monitor w)) →
  active_session (seat w) = Some s.
Proof.
  intros (Hp & _ & Hs) [Hinj Hpl] Hon Hn. pose proof (on_seat_live _ _ _ Hp Hon) as Hlive.
  set (n := active_num (monitor w)) in *. pose proof (console_num_range _ _ Hn) as Hr.
  assert (∀ t, x11_here (console_of w) w t ∨ display_here (console_of w) w t → vt_of t = Some n) as Hhere.
  { intros t Ht. assert (on_seat w t) as Hont by (by destruct Ht as [[? _]|[? _]]).
    apply (Hpl t (on_seat_live _ _ _ Hp Hont) (ck_get_console_device_for_num n) n).
    - unfold x11_here, display_here, match_session_x11_display_device,
        match_session_display_device, console_of in Ht.
      destruct Ht as [[_ Ht]|[_ Ht]]; [left|right];
        (destruct (session_get _ t (sess w)) as [d|]; [|done]); by apply String.eqb_eq in Ht as ->.
    - by apply console_num_device. }
  assert (x11_here (console_of w) w s ∨ display_here (console_of w) w s) as Hsh.
  { unfold activation_device in Hn.
    unfold x11_here, display_here, match_session_x11_display_device,
      match_session_display_device, console_of.
    destruct (session_get P_x11_display_device s (sess w)) as [[|c d]|] eqn:Ex;
      [right|left|right]; (split; [done|]).
    - destruct (session_get P_display_device s (sess w)) as [e|] eqn:Ed; [|done].
      destruct (Hpl s Hlive e n (or_intror Ed) Hn) as [_ ->]. apply String.eqb_refl.
    - destruct (Hpl s Hlive _ n (or_introl Ex) Hn) as [_ ->]. apply String.eqb_refl.
    - destruct (session_get P_display_device s (sess w)) as [e|] eqn:Ed; [|done].
      destruct (Hpl s Hlive e n (or_intror Ed) Hn) as [_ ->]. apply String.eqb_refl. }
  unfold synced in Hs. destruct (active_session (seat w)) as [t|].
  - f_equal. apply (Hinj t s n); apply Hhere; [|done].
    destruct Hs as [[Ht _]|(_ & Ht & _)]; [by left|by right].
  - exfalso. destruct (Hs s) as [? ?]. by destruct Hsh.
Qed.

(** ** The operations keep the invariant *)

(** An operation that leaves the seat's own data alone. *)
Record kept w w' : Prop := {
  kp_inv : seat_inv w';
  kp_like : sessions_like (sess w) (sess w');
  kp_seat : seat w' = seat w;
  kp_connected : connected w' = connected w;
  kp_where : ∀ t, session_seat t (sess w') = session_seat t (sess w);
  kp_marks : ∀ vt_of, placed vt_of (sess w) → marks w → marks w'
}.

Lemma kept_refl w : seat_inv w → kept w w.
Proof. intros Hi. split; try done. Qed.
Lemma kept_trans w1 w2 w3 : kept w1 w2 → kept w2 w3 → kept w1 w3.
Proof.
  intros [A1 A2 A3 A4 A5 A6] [B1 B2 B3 B4 B5 B6]. split; try congruence.
  - by eapply sessions_like_trans.
  - intros vt_of Hp Hm. apply (B6 vt_of); [by eapply placed_like|by eapply A6].
Qed.

Lemma kept_ext w w' : seat_inv w → seat w' = seat w → monitor w' = monitor w → vfd w' = vfd w →
  connected w' = connected w → sess w' = sess w → refs w' = refs w → kept w w'.
Proof.
  intros Hi E1 E2 E3 E4 E5 E6. split; try done.
  - by apply (seat_inv_ext w).
  - rewrite E5. apply sessions_like_refl.
  - by rewrite E5.
  - intros _ _ Hm s. unfold is_active. rewrite E5, E1. apply Hm.
Qed.

Lemma kept_switched s b w w' : seat_inv w → switched s b w w' →
  (b = true → ∀ vt_of, placed vt_of (sess w) → active_session (seat w) = Some s) → kept w w'.
Proof.
  intros Hi (x & -> & Hx & Hlike & Ha & Ht & Hse) Hb. split; try done.
  - by apply seat_inv_sess.
  - intros vt_of Hp Hm t Hact. unfold is_active in *. simpl in *.
    destruct (decide (t = s)) as [->|Hne].
    + destruct b; [by eapply Hb|congruence].
    + apply Hm. unfold is_active. by rewrite <- Ht.
Qed.

Lemma wlp_answer call v w : seat_inv w → wlp (answer call v) (λ _ w', kept w w') w.
Proof. intros Hi. unfold wlp, answer. case_decide; [done|]. by apply kept_ext. Qed.

Lemma wp_disconnect id w : seat_inv w → wp (disconnect_activated id) (λ _ w', kept w w') w.
Proof. intros Hi. apply wp_modify. by apply kept_ext. Qed.

Lemma ck_vt_monitor_set_active_spec fd act num m e :
  ck_vt_monitor_set_active fd act num m = Some e →
  e = CK_VT_MONITOR_ERROR_ALREADY_ACTIVE → num = active_num m.
Proof.
  unfold ck_vt_monitor_set_active. intros He ->.
  destruct (Z.eqb_spec num (active_num m)); [done|]. by repeat case_match.
Qed.

Lemma wp_tell_old s w : seat_inv w →
  wp (match active_session (seat w) with
      | Some o =>
          if decide (o = s) then mret tt else on_sessions (session_set_active o false true);; mret tt
      | None => mret tt
      end) (λ _ w', kept w w' ∧ monitor w' = monitor w ∧ vfd w' = vfd w) w.
Proof.
  intros Hi. pose proof Hi as [Hp _]. destruct (active_session (seat w)) as [o|] eqn:Ho.
  - case_decide; [apply wp_ret; split; [by apply kept_refl|done]|].
    eapply wp_mono; [apply wp_switch; [apply Hp|by apply (pv_live _ _ Hp)]|].
    intros [] w' Hsw. split; [by eapply kept_switched|].
    by destruct Hsw as (x & -> & _).
  - apply wp_ret. split; [by apply kept_refl|done].
Qed.

Lemma wp_activate act session call w : seat_inv w → (∀ s, session = Some s → on_seat w s) →
  wp (ck_seat_activate_session act session call) (λ _ w', kept w w') w.
Proof.
  intros Hi Hon. unfold ck_seat_activate_session. apply wp_bind, wp_in_seat.
  case_decide; [by apply wp_ret, kept_refl|].
  destruct session as [s|]; [|by apply wp_ret, kept_refl]. apply wp_bind, wp_gets.
  destruct (ck_get_console_num_from_device _) as [num|] eqn:Hnum; [|by apply wp_ret, kept_refl].
  apply wp_bind. unfold connect_activated at 1, wp at 1. cbn beta iota.
  match goal with |- wp _ _ ?v => set (w1 := v) end.
  assert (kept w w1) as H1 by by apply kept_ext.
  apply wp_bind, wp_in_seat, wp_bind. eapply wp_mono; [apply (wp_tell_old s w1), H1|].
  intros [] w2 (H2 & Em & Ev). apply wp_bind, wp_gets.
  pose proof (kept_trans _ _ _ H1 H2) as H12.
  destruct (ck_vt_monitor_set_active _ _ _ _) as [e|] eqn:He; [|by apply wp_ret].
  assert (∀ (er : option CkSeatError) w3, kept w w3 →
    wp (disconnect_activated (next_handler w);; mret er) (λ _ w', kept w w') w3) as Hout.
  { intros er w3 H3. apply wp_bind. eapply wp_mono; [apply wp_disconnect, H3|].
    intros [] w4 H4. apply wp_ret. by eapply kept_trans. }
  destruct e; try by apply Hout.
  apply (ck_vt_monitor_set_active_spec _ _ _ _ _) in He as Hact; [|done].
  pose proof H12 as [Hi2 Hl2 Hs2 Hc2 _ Hm2].
  assert (on_seat w2 s) as Hon2 by (unfold on_seat; rewrite Hs2; by apply Hon).
  assert (session_live s (sess w2)) as Hlive by (by eapply on_seat_live; [apply Hi2|]).
  apply wp_bind, wp_on_sessions.
  eapply wp_mono; [apply (set_active_law s true true); [apply Hi2|done]|].
  intros r x (Hx & Hlike & Ha & Ht & Hse). apply Hout. eapply kept_trans; [exact H12|].
  apply (kept_switched s true); [done| |].
  - exists x. split_and!; auto.
  - intros _ vt_of Hpl. apply (placed_active vt_of); try done. rewrite <- Hact.
    rewrite <- Hnum. f_equal. unfold activation_device.
    assert (session_live s (sess w)) as Hlw by (by apply Hl2).
    by rewrite !(sl_get _ _ Hl2) by done.
Qed.

(** [keeps vt_of w w']: the invariant holds again and, with one session per
    console, still only the active session is marked. *)
Definition keeps w w' : Prop :=
  seat_inv w' ∧ sessions_like (sess w) (sess w') ∧
  ∀ vt_of, placed vt_of (sess w) → marks w → marks w'.

Lemma kept_keeps w w' : kept w w' → keeps w w'.
Proof. by intros [H1 H2 _ _ _ H3]. Qed.
Lemma keeps_trans w1 w2 w3 : keeps w1 w2 → keeps w2 w3 → keeps w1 w3.
Proof.
  intros (A1 & A2 & A3) (B1 & B2 & B3). split_and!; [done|by eapply sessions_like_trans|].
  intros vt_of Hp Hm. apply (B3 vt_of); [by eapply placed_like|by eapply A3].
Qed.

Lemma on_seat_table w s id : on_seat (set_table (<[id := s]> (sessions (seat w))) w) s.
Proof. exists id. apply lookup_insert_eq. Qed.

(** A seat without a console does not look its active session up. *)
Lemma wp_maybe_update extra w : seat_pre extra w →
  wp maybe_update_active_session (λ _ w', seat_pre extra w' ∧ seat_frame w w' ∧
    (on_console w → synced w' ∧ activated (active_session (seat w')) w w')) w.
Proof.
  intros Hp. unfold maybe_update_active_session. apply wp_bind, wp_in_seat.
  assert (seat_frame w w) as Hf by apply frame_refl, Hp.
  destruct (s_kind (seat w)) eqn:Ek.
  2:{ apply wp_ret. split_and!; [done..|]. intros [E _]. congruence. }
  apply wp_bind, wp_gets. unfold ck_vt_monitor_get_active.
  destruct (Z.eqb_spec (vfd w) (-1)) as [Ev|Ev].
  - apply wp_ret. split_and!; [done..|]. by intros [_ E].
  - eapply wp_mono; [by apply wp_refresh|]. intros [] w' (Hp' & Hs & Ha). split_and!; [done|apply Ha|done].
Qed.

(** The id is not in the table yet. *)
Definition addable s w : Prop :=
  session_live s (sess w) ∧ ∃ id, session_id s (sess w) = Some id ∧ sessions (seat w) !! id = None.

(** Any seat after sessions came or went. *)
Record moved w w' : Prop := {
  mv_pre : seat_pre nothing w';
  mv_like : sessions_like (sess w) (sess w');
  mv_kind : s_kind (seat w') = s_kind (seat w);
  mv_id : s_id (seat w') = s_id (seat w);
  mv_path : s_path (seat w') = s_path (seat w);
  mv_monitor : monitor w' = monitor w;
  mv_vfd : vfd w' = vfd w;
  mv_handlers : handlers w' = handlers w;
  mv_synced : on_console w → synced w → synced w' ∧ (marks w → marks w')
}.

Lemma moved_keeps w w' : seat_inv w → moved w w' → keeps w w'.
Proof.
  intros (_ & Hc & Hs0) [M1 M2 M3 _ _ _ M7 _ M8]. destruct (M8 Hc Hs0) as [Hs Hm]. split; [|split; [done|by intros _ _]].
  split_and!; [done| |done]. unfold on_console in *. by rewrite M3, M7.
Qed.

Lemma wp_add_any s id w : seat_pre nothing w → session_live s (sess w) →
  session_id s (sess w) = Some id → sessions (seat w) !! id = None →
  wp (ck_seat_add_session s) (λ _ w', moved w w' ∧ sessions (seat w') = <[id := s]> (sessions (seat w)) ∧
    (∀ t, mentioned w' t → mentioned w t ∨ t = s) ∧ session_seat s (sess w') = Some (s_id (seat w)) ∧
    ∀ t, t ≠ s → session_seat t (sess w') = session_seat t (sess w)) w.
Proof.
  intros Hp Hlive Hid Hnone. pose proof Hp as [H1 H4 H5 H6 H7 H8].
  unfold ck_seat_add_session. apply wp_bind, wp_gets. rewrite Hid.
  apply wp_bind, wp_add_ref, wp_bind, wp_in_seat, wp_bind, wp_modify. simpl. rewrite Hnone.
  apply wp_bind, wp_ret, wp_bind, wp_in_seat, wp_bind, wp_in_seat, wp_bind, wp_on_sessions.
  eapply wp_mono; [by apply set_seat_id_law|]. intros r x (Hx & Hlike & Hact & Hs1 & Hs2).
  apply wp_bind, wp_modify, wp_bind, wp_emit_seat, wp_bind, wp_gets, wp_bind, wp_emit_seat.
  match goal with |- wp _ _ ?v => set (w1 := v) end.
  pose proof Hlike as [L1 L2 _ _ _].
  assert (∀ t, on_seat w1 t ↔ t = s ∨ on_seat w t) as Hon.
  { intros t. unfold on_seat. simpl. split.
    - intros [i Hi]. apply lookup_insert_Some in Hi as [[_ <-]|[_ Hi]]; eauto.
    - intros [->|[i Hi]]; [exists id; apply lookup_insert_eq|].
      exists i. rewrite lookup_insert_ne; [done|]. intros ->. congruence. }
  assert (¬ on_seat w s) as Hnot.
  { intros [i Hi]. destruct (H4 i s Hi). congruence. }
  apply wp_bind. eapply wp_mono.
  { apply (wp_maybe_update nothing). split; simpl; try done.
    - intros i t Ht. apply lookup_insert_Some in Ht as [[<- <-]|[_ Ht]].
      + by rewrite L1, L2.
      + destruct (H4 i t Ht). by rewrite L1, L2.
    - intros t. rewrite elem_of_app, list_elem_of_singleton, Hon. naive_solver.
    - intros t Ht. apply L1. by apply H6.
    - intros t Ht%Hon. case_decide as Hd.
      + subst t. rewrite H8 by done. unfold nothing. lia.
      + destruct Ht as [|Ht]; [done|]. by apply H7.
    - intros t Ht. rewrite Hon in Ht. case_decide; [naive_solver|]. apply H8. naive_solver. }
  intros [] w2 (Hp2 & F & Hon2). apply wp_ret. split_and!.
  - split; [exact Hp2|eapply sessions_like_trans; [exact Hlike|apply F]|apply F..|].
    intros Hc _. destruct (Hon2 Hc) as [Hs Ha]. split; [exact Hs|]. intros Hm.
    eapply marks_activated; [|exact Ha]. intros t. unfold is_active. simpl. rewrite Hact. apply Hm.
  - by rewrite (fr_table _ _ F).
  - intros t Ht%(fr_sent _ _ F). eapply (mentioned_app w w1) in Ht; [|simpl; rewrite <- app_assoc; reflexivity].
    destruct Ht as [|Ht]; [by left|right]. simpl in Ht. set_solver.
  - rewrite (fr_where _ _ F). exact Hs1.
  - intros t Hne. rewrite (fr_where _ _ F). by apply Hs2.
Qed.

Lemma wp_add_session s w : seat_inv w → addable s w →
  wp (ck_seat_add_session s) (λ _ w', keeps w w' ∧ on_seat w' s) w.
Proof.
  intros Hi (Hlive & id & Hid & Hnone).
  eapply wp_mono; [by apply (wp_add_any s id); [apply Hi|..]|]. intros r w' (Hm & Ht & _).
  split; [by apply moved_keeps|]. exists id. rewrite Ht. apply lookup_insert_eq.
Qed.

(** The session that is removed is the one registered under its id. *)
Definition removable s w : Prop :=
  session_live s (sess w) ∧ ∃ id, session_id s (sess w) = Some id ∧
    ∀ o, sessions (seat w) !! id = Some o → o = s.

Lemma wp_remove_any s id w : seat_pre nothing w → session_live s (sess w) →
  session_id s (sess w) = Some id → (∀ o, sessions (seat w) !! id = Some o → o = s) →
  wp (ck_seat_remove_session s) (λ r w', moved w w' ∧ sessions (seat w') = delete id (sessions (seat w)) ∧
    (∀ t, mentioned w' t → mentioned w t ∨ t = s) ∧ ∀ t, session_seat t (sess w') = session_seat t (sess w)) w.
Proof.
  intros Hp Hlive Hid Ho. pose proof Hp as [H1 H4 H5 H6 H7 H8].
  unfold ck_seat_remove_session. apply wp_bind, wp_gets. rewrite Hid.
  apply wp_bind, wp_in_seat. destruct (sessions (seat w) !! id) as [o|] eqn:Hin.
  2:{ apply wp_ret. split_and!; [by split|by rewrite delete_id| |done]. intros t Ht. by left. }
  assert (o = s) as -> by by apply Ho.
  apply wp_bind, wp_modify, wp_bind, wp_modify, wp_bind, wp_emit_seat, wp_bind, wp_gets,
    wp_bind, wp_emit_seat.
  match goal with |- wp _ _ ?v => set (w1 := v) end.
  assert (∀ t, on_seat w1 t ↔ t ≠ s ∧ on_seat w t) as Hon.
  { intros t. unfold on_seat. simpl. split.
    - intros [i [Hne Hi]%lookup_delete_Some]. split; [|eauto]. intros ->.
      destruct (H4 i s Hi). congruence.
    - intros [Hne [i Hi]]. exists i. rewrite lookup_delete_ne; [done|]. intros ->. congruence. }
  apply wp_bind. eapply wp_mono.
  { apply (wp_maybe_update (holds (Some s))). split; simpl; try done.
    - intros i t [_ Hi]%lookup_delete_Some. by apply H4.
    - intros t [Hne Ht]%list_elem_of_filter. apply Hon. split; [done|by apply H5].
    - intros t [Hne Ht]%Hon. rewrite H7 by done. unfold nothing, holds at 3.
      rewrite bool_decide_eq_false_2 by congruence. simpl. lia.
    - intros t Ht. rewrite Hon in Ht. destruct (decide (t = s)) as [->|Hne].
      + rewrite H7 by by exists id. unfold nothing, holds at 3. rewrite bool_decide_eq_true_2 by done.
        simpl. lia.
      + rewrite H8 by naive_solver. unfold nothing, holds at 3.
        rewrite bool_decide_eq_false_2 by congruence. simpl. lia. }
  intros [] w2 (Hp2 & F & Hon2). apply wp_bind, wp_add_ref, wp_ret. split_and!.
  - split; try apply F.
    + destruct Hp2 as [G1 G4 G5 G6 G7 G8].
      split; simpl; try done; intros t Ht; rewrite holds_ref; [rewrite G7|rewrite G8];
        try done; unfold nothing; lia.
    + intros Hc _. destruct (Hon2 Hc) as [Hs Ha]. split; [exact Hs|]. intros Hm.
      assert (marks w2) as Hm2 by (eapply marks_activated; [|exact Ha]; exact Hm). exact Hm2.
  - exact (fr_table _ _ F).
  - intros t Ht. assert (mentioned w1 t) as Ht1 by by apply (fr_sent _ _ F).
    eapply (mentioned_app w w1) in Ht1; [|simpl; rewrite <- app_assoc; reflexivity].
    destruct Ht1 as [|Ht1]; [by left|right]. simpl in Ht1. set_solver.
  - exact (fr_where _ _ F).
Qed.

Lemma wp_remove_session s w : seat_inv w → removable s w →
  wp (ck_seat_remove_session s) (λ r w', keeps w w' ∧ ¬ on_seat w' s ∧
    (marks w → r = true → is_active s w' = false)) w.
Proof.
  intros Hi (Hlive & id & Hid & Ho).
  eapply wp_mono; [by apply (wp_remove_any s id); [apply Hi|..]|]. intros r w' (Hm & Ht & _).
  assert (¬ on_seat w' s) as Hgone.
  { intros [i Hin]. destruct (pv_table _ _ (mv_pre _ _ Hm) i s Hin) as [_ E].
    rewrite (sl_id _ _ (mv_like _ _ Hm)), Hid in E by done. simplify_eq. by rewrite Ht, lookup_delete_eq in Hin. }
  split; [by apply moved_keeps|]. split; [done|]. intros Hmarks _.
  destruct Hi as (_ & Hc & Hs). destruct (mv_synced _ _ Hm Hc Hs) as [Hs' Hm']. specialize (Hm' Hmarks).
  destruct (is_active s w') eqn:E; [|done]. unfold synced in Hs'. rewrite (Hm' s E) in Hs'.
  by apply session_of_device_on in Hs'.
Qed.

Lemma wlp_activated_cb n a w : seat_inv w → wlp (activated_cb n a) (λ _ w', kept w w') w.
Proof.
  intros Hi. unfold activated_cb. apply wlp_bind.
  apply (wlp_mono _ (λ _ w', kept w w')).
  - destruct (Z.eqb (a_num a) n), (context a) as [c|];
      try (by apply wlp_answer); by apply wp_wlp, wp_ret, kept_refl.
  - intros [] w1 H1. eapply wlp_mono; [apply wp_wlp, wp_disconnect, H1|].
    intros [] w2 H2. exact (kept_trans _ _ _ H1 H2).
Qed.

Lemma wlp_vt_changes n w : seat_inv w → wlp (vt_monitor_changes n) (λ _ w', keeps w w') w.
Proof.
  intros (Hp & Hc & Hs). unfold vt_monitor_changes. apply wlp_bind. unfold wlp at 1, prog_modify.
  apply wlp_bind. unfold wlp at 1, in_seat, prog_gets. rewrite decide_True by apply Hc.
  apply wlp_bind. unfold wlp at 1, prog_gets.
  match goal with |- wlp _ _ ?v => set (w1 := v) end.
  assert (seat_pre nothing w1) as Hp1 by (destruct Hp as [H1 H2 H3 H4 H5 H6]; by split).
  apply wlp_bind. eapply wlp_mono; [apply wp_wlp, (wp_refresh nothing w1 Hp1)|].
  intros [] w2 (Hp2 & Hs2 & Ha2).
  assert (keeps w w2) as H2.
  { split; [split_and!; [done| |done]|].
    { split; [rewrite (fr_kind _ _ (ac_frame _ _ _ Ha2)); apply Hc|rewrite (fr_vfd _ _ (ac_frame _ _ _ Ha2)); apply Hc]. }
    split; [apply Ha2|]. intros _ _ Hm. eapply marks_activated; [|exact Ha2].
    exact Hm. }
  apply (wlp_for_each _ (keeps w)); [|done]. intros a w3 _ H3.
  eapply wlp_mono; [apply wlp_activated_cb, H3|]. intros [] w4 H4.
  eapply keeps_trans; [exact H3|by apply kept_keeps].
Qed.

Lemma wlp_dbus_activate_session act call ssid w : seat_inv w →
  wlp (dbus_activate_session act call ssid) (λ _ w', kept w w') w.
Proof.
  intros Hi. unfold dbus_activate_session. apply wlp_bind.
  apply (wlp_mono _ (λ r w', w' = w ∧ ∀ s, r = Some s → on_seat w s)).
  { destruct ssid as [id|]; apply wp_wlp; [apply wp_in_seat|apply wp_ret; by split].
    split; [done|]. intros s Hs. by exists id. }
  intros r w0 [-> Hr]. apply wlp_bind. eapply wlp_mono; [by apply wp_wlp, wp_activate|].
  intros e w1 H1. apply (wlp_mono _ (λ _ w', kept w1 w')).
  - destruct e; apply wlp_answer, H1.
  - intros [] w2 H2. exact (kept_trans _ _ _ H1 H2).
Qed.

Lemma wlp_dbus_switch_to act call vtnr w : seat_inv w →
  wlp (dbus_switch_to act call vtnr) (λ _ w', kept w w') w.
Proof.
  intros Hi. unfold dbus_switch_to. apply wlp_bind.
  apply (wlp_mono _ (λ _ w', w' = w)).
  { apply wp_wlp. unfold find_session_by_vt. by apply wp_bind, wp_walk, wp_gets. }
  intros r w0 ->. destruct r as [s|].
  - apply wlp_bind. by apply wlp_dbus_activate_session.
  - apply wlp_bind. unfold wlp at 1, in_seat, prog_gets. case_decide; [|by apply wlp_answer].
    apply wlp_bind. unfold wlp at 1, prog_gets. case_match; by apply wlp_answer.
Qed.

Lemma wlp_activate_signal act s l r w : seat_inv w → on_seat w s →
  wlp (activate_signal act s l r) (λ _ w', kept w w') w.
Proof.
  revert r w. induction l as [|t l IH]; intros r w Hi Hon; simpl.
  - by apply wp_wlp, wp_ret, kept_refl.
  - case_decide; [|by apply IH]. apply wlp_bind.
    eapply wlp_mono; [apply wp_wlp, wp_activate; [done|by intros ? [= <-]]|].
    intros r1 w1 H1. eapply wlp_mono; [apply IH; [apply H1|]|].
    + unfold on_seat. by rewrite (kp_seat _ _ H1).
    + intros r2 w2 H2. exact (kept_trans _ _ _ H1 H2).
Qed.

Lemma activate_signal_none act s l r w : s ∉ l → activate_signal act s l r w = Some (r, w).
Proof.
  induction l as [|t l IH]; simpl; [done|]. rewrite not_elem_of_cons. intros [Hne Hl].
  rewrite decide_False by congruence. by apply IH.
Qed.

Lemma wlp_dbus_activate act s call w : seat_inv w → wlp (dbus_activate act s call) (λ _ w', kept w w') w.
Proof.
  intros Hi. unfold dbus_activate. apply wlp_bind. unfold wlp at 1, prog_gets. apply wlp_bind.
  apply (wlp_mono _ (λ _ w', kept w w')).
  - destruct (decide (s ∈ connected w)) as [Hs|Hs].
    + apply wlp_activate_signal; [done|]. by apply (pv_connected _ _ (proj1 Hi)).
    + unfold wlp. rewrite activate_signal_none by done. by apply kept_refl.
  - intros e w1 H1. apply (wlp_mono _ (λ _ w', kept w1 w')).
    + destruct e as [[]|]; try apply wlp_answer, H1. apply wp_wlp, wp_ret, kept_refl, H1.
    + intros [] w2 H2. exact (kept_trans _ _ _ H1 H2).
Qed.

(** *** Any seat, as the manager uses it *)

(** No method call waits for a switch of the console. *)
Definition unasked w : Prop := ∀ a, a ∈ handlers w → context a = None.

(** An operation beside the seat's own data. *)
Record aside w w' : Prop := {
  as_seat : seat w' = seat w;
  as_monitor : monitor w' = monitor w;
  as_vfd : vfd w' = vfd w;
  as_connected : connected w' = connected w;
  as_refs : refs w' = refs w;
  as_sent : sent w' = sent w;
  as_ok : sessions_ok (sess w');
  as_like : sessions_like (sess w) (sess w');
  as_where : ∀ t, session_seat t (sess w') = session_seat t (sess w);
  as_asked : unasked w → unasked w'
}.
Lemma aside_trans w1 w2 w3 : aside w1 w2 → aside w2 w3 → aside w1 w3.
Proof.
  intros [A1 A2 A3 A4 A5 A6 A7 A8 A9 A10] [B1 B2 B3 B4 B5 B6 B7 B8 B9 B10]. split; try congruence; auto.
  by eapply sessions_like_trans.
Qed.
Lemma aside_switched s b w w' : switched s b w w' → aside w w'.
Proof. by intros (x & -> & Hx & Hlike & _ & _ & Hse). Qed.
Lemma aside_handlers hs n w : sessions_ok (sess w) → (unasked w → ∀ a, a ∈ hs → context a = None) →
  aside w (set_handlers hs n w).
Proof. intros Hok Hh. split; try done. Qed.
Lemma wp_disconnect_aside id w : sessions_ok (sess w) → wp (disconnect_activated id) (λ _ w', aside w w') w.
Proof.
  intros Hok. apply wp_modify, aside_handlers; [done|].
  intros Hu a [_ Ha]%list_elem_of_filter. by apply Hu.
Qed.

(** The manager's request; the session may even be on another seat. *)
Lemma wp_activate_aside act s w : sessions_ok (sess w) → session_live s (sess w) →
  (∀ o, active_session (seat w) = Some o → session_live o (sess w)) →
  wp (ck_seat_activate_session act (Some s) None) (λ _ w', aside w w') w.
Proof.
  intros Hok Hs Ho. unfold ck_seat_activate_session. apply wp_bind, wp_in_seat.
  assert (aside w w) as Hrefl by (split; try done; apply sessions_like_refl).
  case_decide; [by apply wp_ret|]. apply wp_bind, wp_gets.
  destruct (ck_get_console_num_from_device _) as [num|]; [|by apply wp_ret].
  apply wp_bind. unfold connect_activated at 1, wp at 1. cbn beta iota.
  match goal with |- wp _ _ ?v => set (w1 := v) end.
  assert (aside w w1) as H1.
  { apply aside_handlers; [done|]. intros Hu a [Ha| ->%list_elem_of_singleton]%elem_of_app; [by apply Hu|done]. }
  apply wp_bind, wp_in_seat, wp_bind. eapply (wp_mono _ (λ _ w', aside w w')).
  { change (active_session (seat w1)) with (active_session (seat w)).
    destruct (active_session (seat w)) as [o|] eqn:E; [|by apply wp_ret]. case_decide; [by apply wp_ret|].
    eapply wp_mono; [apply (wp_switch o false w1); [done|by apply Ho]|].
    intros [] w2 H2%aside_switched. by eapply aside_trans. }
  intros [] w2 H2. apply wp_bind, wp_gets.
  assert (∀ (er : option CkSeatError) w3, aside w w3 →
    wp (disconnect_activated (next_handler w);; mret er) (λ _ w', aside w w') w3) as Hout.
  { intros er w3 H3. apply wp_bind. eapply wp_mono; [apply wp_disconnect_aside, H3|].
    intros [] w4 H4. apply wp_ret. by eapply aside_trans. }
  destruct (ck_vt_monitor_set_active _ _ _ _) as [e|]; [|by apply wp_ret].
  destruct e; try by apply Hout. apply wp_bind, wp_on_sessions.
  eapply wp_mono; [apply (set_active_law s true true); [apply H2|by apply H2]|].
  intros r x (Hx & Hlike & Ha & Ht & Hse). apply Hout. eapply aside_trans; [exact H2|].
  apply (aside_switched s true). exists x. split_and!; auto.
Qed.

(** The console changes, and nobody waits for it. *)
Record followed w w' : Prop := {
  fo_pre : seat_pre nothing w';
  fo_synced : on_console w' → synced w';
  fo_like : sessions_like (sess w) (sess w');
  fo_where : ∀ t, session_seat t (sess w') = session_seat t (sess w);
  fo_table : sessions (seat w') = sessions (seat w);
  fo_id : s_id (seat w') = s_id (seat w);
  fo_asked : unasked w';
  fo_sent : ∀ t, mentioned w' t → mentioned w t
}.

Lemma wp_vt_followed n w : seat_pre nothing w → unasked w → wp (vt_monitor_changes n) (λ _ w', followed w w') w.
Proof.
  intros Hp Hu. unfold vt_monitor_changes. apply wp_bind, wp_modify, wp_bind, wp_in_seat.
  match goal with |- wp _ _ ?v => set (w1 := v) end.
  assert (seat_pre nothing w1) as Hp1 by (destruct Hp as [H1 H2 H3 H4 H5 H6]; by split).
  case_decide as Hk.
  2:{ apply wp_ret. split; try done. by intros [? _]. }
  apply wp_bind, wp_gets, wp_bind. eapply wp_mono; [apply (wp_refresh nothing w1 Hp1)|].
  intros [] w2 (Hp2 & Hs2 & [[F1 F2 F3 F4 F5 F6 F7 F8 F9 F10 F11 F12 F13] _ _ _ _]).
  assert (followed w w2) as H2 by (split; try done; intros a; rewrite F5; apply Hu).
  apply (wp_for_each _ (λ _ w', followed w w')); [|done]. intros a todo w3 Hin [G1 G2 G3 G4 G5 G6 G7 G8].
  assert (context a = None) as Ha by (apply Hu; change (a ∈ handlers w1); destruct Hin as [k ->]; set_solver).
  unfold activated_cb. rewrite Ha. apply wp_bind. eapply (wp_mono _ (λ _ w', w' = w3)).
  { by destruct (Z.eqb _ _); apply wp_ret. }
  intros [] w4 ->. apply wp_modify.
  split; try done.
  { by destruct G1 as [? ? ? ? ? ?]; split. }
  intros b [_ Hb]%list_elem_of_filter. by apply G7.
Qed.

(** ** Runs of a seat *)

(** What can happen to a static seat: the manager attaches and detaches
    sessions, bus calls arrive, the VT monitor announces a change. *)
Inductive seat_op :=
| SeatAdd (s : positive)
| SeatRemove (s : positive)
| SeatActivateSession (vt_activate : Z → bool) (call : positive) (ssid : cstr)
| SeatSwitchTo (vt_activate : Z → bool) (call : positive) (vtnr : Z)
| SessionActivate (vt_activate : Z → bool) (s call : positive)
| SeatVtChanges (num : Z).

Definition seat_op_ok (o : seat_op) w : Prop :=
  match o with SeatAdd s => addable s w | SeatRemove s => removable s w | _ => True end.

Definition run_seat (o : seat_op) : prog (seat_world W) unit :=
  match o with
  | SeatAdd s => ck_seat_add_session s;; mret tt
  | SeatRemove s => ck_seat_remove_session s;; mret tt
  | SeatActivateSession act call ssid => dbus_activate_session act call ssid
  | SeatSwitchTo act call vtnr => dbus_switch_to act call vtnr
  | SessionActivate act s call => dbus_activate act s call
  | SeatVtChanges n => vt_monitor_changes n
  end.

(** What the sessions may do between two events of the seat: sessions appear,
    and lose their mark, but keep identity and console and never mark
    themselves active. *)
Record evolves x x' : Prop := {
  ev_ok : sessions_ok x';
  ev_live : ∀ s, session_live s x → session_live s x';
  ev_id : ∀ s, session_live s x → session_id s x' = session_id s x;
  ev_created : ∀ s, session_live s x → session_created s x' = session_created s x;
  ev_get : ∀ p s, changing p = false → session_live s x → session_get p s x' = session_get p s x;
  ev_active : ∀ s, session_get P_active s x' = true → session_get P_active s x = true
}.

(** [P] holds of the sessions' state all along. *)
Inductive seat_reachable (P : W → Prop) (w0 : seat_world W) : seat_world W → Prop :=
| ss_init : P (sess w0) → seat_reachable P w0 w0
| ss_op w w' o : seat_reachable P w0 w → seat_op_ok o w → run_seat o w = Some (tt, w') →
    P (sess w') → seat_reachable P w0 w'
| ss_sessions w x : seat_reachable P w0 w → evolves (sess w) x → P x →
    seat_reachable P w0 (set_sess x w).

Lemma run_seat_keeps o w w' : seat_inv w → seat_op_ok o w → run_seat o w = Some (tt, w') → keeps w w'.
Proof.
  intros Hi Hok Hrun.
  assert (wlp (run_seat o) (λ _ w', keeps w w') w) as Hwlp; [|exact (wlp_elim _ _ _ _ _ Hwlp Hrun)].
  destruct o; simpl in *.
  - apply wlp_bind. eapply wlp_mono; [by apply wp_wlp, wp_add_session|]. by intros r w1 H1; apply H1.
  - apply wlp_bind. eapply wlp_mono; [by apply wp_wlp, wp_remove_session|]. by intros r w1 H1; apply H1.
  - eapply wlp_mono; [by apply wlp_dbus_activate_session|]. intros [] w1. apply kept_keeps.
  - eapply wlp_mono; [by apply wlp_dbus_switch_to|]. intros [] w1. apply kept_keeps.
  - eapply wlp_mono; [by apply wlp_dbus_activate|]. intros [] w1. apply kept_keeps.
  - by apply wlp_vt_changes.
Qed.

Lemma evolves_inv w x : seat_inv w → evolves (sess w) x → seat_inv (set_sess x w).
Proof.
  intros (Hp & Hc & Hs) [E1 E2 E3 E4 E5 E6]. split_and!; [|done|].
  - apply seat_pre_sess; auto.
  - apply (session_of_device_like _ w); try done; [intros s; by apply (on_seat_live nothing)|].
    by intros p s [->| ->]; apply E5.
Qed.

Lemma marks_evolve w x : marks w → evolves (sess w) x → marks (set_sess x w).
Proof. intros Hm [_ _ _ _ _ E] s Hs. apply Hm. by apply E. Qed.

(** A new static seat on a console. *)
Definition new_static_seat (sid : string) (m : CkVtMonitor) (console : Z) x : seat_world W :=
  new_seat_world sid CK_SEAT_KIND_STATIC m console x.

Lemma new_seat_pre sid kind m console x : sessions_ok x →
  seat_pre nothing (new_seat_world sid kind m console x) ∧ synced (new_seat_world sid kind m console x).
Proof.
  intros Hx. split.
  - split; simpl; try done.
    + intros s Hs. by apply elem_of_nil in Hs.
    + intros s [id Hs]. simpl in Hs. by rewrite lookup_empty in Hs.
  - intros t. unfold x11_here, display_here, on_seat. simpl.
    split; intros [[id Hid] _]; by rewrite lookup_empty in Hid.
Qed.
Lemma new_seat_inv sid m console x : sessions_ok x → console ≠ (-1)%Z →
  seat_inv (new_static_seat sid m console x).
Proof.
  intros Hx Hc. destruct (new_seat_pre sid CK_SEAT_KIND_STATIC m console x Hx) as [Hp Hs].
  by split_and!; [| |exact Hs].
Qed.

Lemma reachable_seat_inv P w0 w : seat_inv w0 → seat_reachable P w0 w → seat_inv w.
Proof.
  intros H0 Hr. induction Hr as [|w w' o _ IH Hok Hrun _|w x _ IH Hev _]; [done| |].
  - by eapply run_seat_keeps.
  - by apply evolves_inv.
Qed.

(** C4: The active session follows the console: in every state a static seat
    can reach, whatever the order of attaching, detaching, activation requests
    and VT changes, its active session is the oldest of its sessions whose X11
    device is the active console, or if there is none the oldest whose display
    device is, and it has none only if no session is there.  The seat holds
    exactly one reference on every session of its table and one more on the
    active one. *)
Theorem active_session_follows_vt sid m console x w :
  sessions_ok x → console ≠ (-1)%Z →
  seat_reachable (λ _, True) (new_static_seat sid m console x) w →
  session_of_device (Some (ck_get_console_device_for_num (active_num (monitor w)))) w
    (active_session (seat w)) ∧
  ∀ s, (refs w s = Z.b2z (bool_decide (active_session (seat w) = Some s)) + 1)%Z ∧ on_seat w s ∨
       refs w s = 0%Z ∧ ¬ on_seat w s.
Proof.
  intros Hx Hc Hr. assert (seat_inv w) as (Hp & _ & Hs).
  { eapply reachable_seat_inv; [|exact Hr]. by apply new_seat_inv. }
  split; [exact Hs|]. intros s.
  assert (on_seat w s ∨ ¬ on_seat w s) as [Hon|Hon].
  { destruct (session_id s (sess w)) as [id|] eqn:Hid.
    - destruct (decide (sessions (seat w) !! id = Some s)) as [|Hne]; [left; by exists id|right].
      intros [i Hi]. destruct (pv_table _ _ Hp i s Hi). congruence.
    - right. intros [i Hi]. destruct (pv_table _ _ Hp i s Hi). congruence. }
  - left. split; [|done]. rewrite (pv_refs_on _ _ Hp s Hon). unfold holds, nothing. lia.
  - right. split; [|done]. rewrite (pv_refs_off _ _ Hp s Hon). unfold holds, nothing.
    rewrite bool_decide_eq_false_2; [done|]. intros Ha. unfold synced in Hs. rewrite Ha in Hs.
    by apply session_of_device_on in Hs.
Qed.

Lemma reachable_marks vt_of w0 w : seat_inv w0 → marks w0 →
  seat_reachable (placed vt_of) w0 w → marks w ∧ placed vt_of (sess w).
Proof.
  intros Hi0 Hm0 Hr. induction Hr as [Hp|w w' o Hr [Hm Hp] Hok Hrun Hp'|w x Hr [Hm Hp] Hev Hp'].
  - done.
  - split; [|done]. pose proof (reachable_seat_inv _ _ _ Hi0 Hr) as Hi.
    destruct (run_seat_keeps o w w' Hi Hok Hrun) as (_ & _ & Hk). by apply (Hk vt_of).
  - split; [|done]. by apply marks_evolve.
Qed.

(** C5: One active session: when no two sessions are on the same console and
    consoles are named as the daemon names them, the only session ever marked
    active is the active session of the seat: at most one is, and a session
    that was detached is not. *)
Theorem one_session_active vt_of sid m console x w s :
  sessions_ok x → console ≠ (-1)%Z → (∀ s, session_get P_active s x = false) →
  seat_reachable (placed vt_of) (new_static_seat sid m console x) w →
  session_get P_active s (sess w) = true →
  active_session (seat w) = Some s ∧ on_seat w s.
Proof.
  intros Hx Hc Hoff Hr Hs.
  assert (seat_inv (new_static_seat sid m console x)) as Hi0 by by apply new_seat_inv.
  destruct (reachable_marks vt_of _ w Hi0) as [Hm _]; [|done|].
  { intros t Ht. unfold is_active in Ht. simpl in Ht. congruence. }
  pose proof (Hm s Hs) as Ha. split; [done|].
  destruct (reachable_seat_inv _ _ _ Hi0 Hr) as (_ & _ & Hsync). unfold synced in Hsync.
  rewrite Ha in Hsync. by apply session_of_device_on in Hsync.
Qed.
End seat.
