(* ===== verification/SeatActivation.v ===== *)
(** * Seats: what activation requests do, and the hook environment.

    Error paths of [ck_seat_activate_session] and its callers, and the bound of
    the array that [ck_seat_run_programs] fills. *)

From S2P Require Import Prelude Scan Console VtMonitor Session Seat SeatFacts.
From stdpp Require Import fin_maps.

Section seat.
Context {W : Type} {HO : SessionOps W} {HL : SessionLaws W} {HH : HashOrder}.
Implicit Types (w : seat_world W) (x : W).

(** ** A failed VT switch *)

(** Another session than the active one, on another console. *)
Record other_console s num w : Prop := {
  oc_on : on_seat w s;
  oc_device : ck_get_console_num_from_device (activation_device (sess w) s) = Some num;
  oc_num : num ≠ active_num (monitor w)
}.

(** The request up to the VT switch: the handler is connected, the old session told. *)
Record requested s num call w w' : Prop := {
  rq_kept : kept w w';
  rq_monitor : monitor w' = monitor w;
  rq_vfd : vfd w' = vfd w;
  rq_answered : answered w' = answered w;
  rq_sent : sent w' = sent w;
  rq_handlers : handlers w' = handlers w ++ [{| handler_id := next_handler w; a_num := num; context := call |}];
  rq_old : ∀ o, active_session (seat w) = Some o → o ≠ s → is_active o w' = false
}.

Lemma wp_request (act : Z → bool) s num call w (Q : option CkSeatError → seat_world W → Prop) : seat_inv w → other_console s num w →
  (∀ w', requested s num call w w' →
     wp (if act num then (mret None : prog (seat_world W) (option CkSeatError))
         else disconnect_activated (next_handler w);; mret (Some CK_SEAT_ERROR_FAILED)) Q w') →
  wp (ck_seat_activate_session act (Some s) call) Q w.
Proof.
  intros Hi [Hon Hdev Hnum] HQ. unfold ck_seat_activate_session. apply wp_bind, wp_in_seat.
  rewrite decide_False by (intros H; by apply H, Hi). apply wp_bind, wp_gets. rewrite Hdev.
  apply wp_bind. unfold connect_activated at 1, wp at 1. cbn beta iota.
  match goal with |- wp _ _ ?v => set (w1 := v) end.
  assert (kept w w1) as H1 by by apply kept_ext.
  apply wp_bind, wp_in_seat, wp_bind.
  apply (wp_mono _ (λ _ w', requested s num call w w')).
  - change (active_session (seat w1)) with (active_session (seat w)).
    destruct (active_session (seat w)) as [o|] eqn:Ho; [case_decide as Hos|].
    + apply wp_ret. split; try done. congruence.
    + eapply wp_mono; [apply wp_switch; [apply H1|]|].
      { apply (pv_live nothing w1); [apply H1|done]. }
      intros [] w2 Hsw. pose proof Hsw as (x & -> & _ & _ & Ha & _ & Hse). split; try done.
      * eapply kept_trans; [exact H1|]. by eapply kept_switched; [apply H1|exact Hsw|].
      * intros o' Ho' _. assert (o' = o) as -> by congruence. exact Ha.
    + apply wp_ret. split; try done. congruence.
  - intros [] w2 H2. apply wp_bind, wp_gets. unfold ck_vt_monitor_set_active.
    rewrite (rq_vfd _ _ _ _ _ H2), (rq_monitor _ _ _ _ _ H2).
    rewrite (proj2 (Z.eqb_neq _ _) Hnum), (proj2 (Z.eqb_neq _ _) (proj2 (proj1 (proj2 Hi)))).
    specialize (HQ w2 H2). destruct (act num); exact HQ.
Qed.

(** A VT switch that fails takes the active session's devices away for
    nothing: the request is answered with an error and the console has not
    changed, but the session in front of the user, still the active session of
    its seat, is left marked inactive. *)
Theorem failed_switch_deactivates (act : Z → bool) s num call w o :
  seat_inv w → other_console s num w → active_session (seat w) = Some o → o ≠ s → act num = false →
  wp (ck_seat_activate_session act (Some s) call) (λ r w', r = Some CK_SEAT_ERROR_FAILED ∧
    monitor w' = monitor w ∧ active_session (seat w') = Some o ∧
    session_get P_active o (sess w') = false) w.
Proof.
  intros Hi Hoc Ho Hne Hact. apply (wp_request act s num call w _ Hi Hoc).
  intros w1 H1. rewrite Hact. apply wp_bind, wp_modify, wp_ret. split; [done|].
  split; [apply H1|]. split; [simpl; by rewrite (kp_seat _ _ (rq_kept _ _ _ _ _ H1))|].
  by apply (rq_old _ _ _ _ _ H1).
Qed.

(** ** A call that is answered twice *)

Lemma activated_cb_answered n a w r w' :
  activated_cb n a w = Some (r, w') → answered w ⊆ answered w' ∧ ∀ c, context a = Some c → c ∉ answered w.
Proof.
  unfold activated_cb, answer, disconnect_activated. unfold_prog.
  destruct (Z.eqb (a_num a) n), (context a) as [c|]; simpl; try (case_decide; [done|]);
    intros; simplify_eq; simpl; (split; [set_solver|]); intros ? ?; congruence.
Qed.

Lemma answered_twice n hs a c w : a ∈ hs → context a = Some c → c ∈ answered w →
  for_each (activated_cb n) hs w = None.
Proof.
  intros Ha Hc. revert w. induction hs as [|b hs IH]; intros w Hin; [by apply elem_of_nil in Ha|].
  simpl. unfold mbind, prog_bind_inst, prog_mbind.
  destruct (activated_cb n b w) as [[[] w1]|] eqn:E; [|done].
  apply activated_cb_answered in E as [Hsub Hno].
  apply elem_of_cons in Ha as [->|Ha]; [by destruct (Hno c Hc)|]. apply IH; [done|]. by apply Hsub.
Qed.

Lemma vt_changes_answered_twice n w a c : seat_inv w → a ∈ handlers w → context a = Some c →
  c ∈ answered w → vt_monitor_changes n w = None.
Proof.
  intros (Hp & Hcon & _) Ha Hc Hin.
  unfold vt_monitor_changes, mbind, prog_bind_inst, prog_mbind, prog_modify, in_seat, prog_gets.
  rewrite decide_True by apply Hcon. cbn beta iota.
  match goal with |- match active_vt_changed n ?v with _ => _ end = _ => set (w1 := v) end.
  assert (seat_pre nothing w1) as Hp1 by (destruct Hp as [H1 H2 H3 H4 H5 H6]; by split).
  destruct (wp_elim _ _ _ (wp_refresh nothing w1 Hp1)) as ([] & w2 & Hrun & _ & _ & Hact).
  unfold active_vt_changed. change n with (active_num (monitor w1)) at 1. rewrite Hrun.
  apply (answered_twice _ _ a c); [done|done|]. by rewrite (fr_answered _ _ (ac_frame _ _ _ Hact)).
Qed.

Lemma find_session_by_vt_run v w :
  find_session_by_vt v w = Some (head (filter (λ s, u32 (session_get P_vtnr s (sess w)) = v)
    (map snd (hash_order (table_tick w) (sessions (seat w))))), w).
Proof. reflexivity. Qed.

(** A switch through the seat is answered twice: when SwitchTo finds a
    session on another console and the VT switch is under way, the call is
    answered at once, but the handler that waits for the VT keeps it, so the
    next VT change, whichever VT it is, answers the freed call again. *)
Theorem switch_to_answers_twice (act : Z → bool) s num call vtnr w :
  seat_inv w → call ∉ answered w → find_session_by_vt (u32 vtnr) w = Some (Some s, w) →
  other_console s num w → act num = true →
  ∃ w', dbus_switch_to act call vtnr w = Some (tt, w') ∧
    sent w' = (sent w ++ [Replied call (Answer [])]) ∧
    ∀ n, vt_monitor_changes n w' = None.
Proof.
  intros Hi Hcall Hfind Hoc Hact. pose proof Hi as (Hp & _ & _).
  destruct (oc_on _ _ _ Hoc) as [id Hid]. destruct (pv_table _ _ Hp id s Hid) as [_ Hsid].
  assert (wp (ck_seat_activate_session act (Some s) (Some call))
    (λ r w', r = None ∧ requested s num (Some call) w w') w) as Hreq.
  { apply (wp_request act s num _ w _ Hi Hoc). intros w1 H1. rewrite Hact. by apply wp_ret. }
  apply wp_elim in Hreq as (r & w1 & Hrun & -> & H1).
  exists (send (Replied call (Answer [])) (set_answered ({[call]} ∪ answered w1) w1)). split_and!.
  - unfold dbus_switch_to, dbus_activate_session, mbind, prog_bind_inst, prog_mbind, prog_gets.
    rewrite Hfind, Hsid. unfold in_seat, prog_gets. rewrite Hid, Hrun. unfold answer.
    rewrite (rq_answered _ _ _ _ _ H1), decide_False by done. done.
  - simpl. by rewrite (rq_sent _ _ _ _ _ H1).
  - intros n. eapply (vt_changes_answered_twice _ _ _ call).
    + apply (seat_inv_ext w1); [apply H1|done..].
    + simpl. rewrite (rq_handlers _ _ _ _ _ H1). apply elem_of_app. right. by left.
    + done.
    + simpl. set_solver.
Qed.

(** ** Activation by object path *)

(** The ids the manager gives out ("Session" and a number) are no paths. *)
Definition ids_are_names x : Prop :=
  ∀ s id, session_live s x → session_id s x = Some id → shead (λ c, ascii_eqb c "/"%char) id = false.

(** The seat's ActivateSession call, whose argument is an object path, never
    works: the table is keyed by session ids, so in every reachable state the
    answer to a path is an error, and nothing else happens. *)
Theorem activate_by_path_fails sid m console x w act call path :
  sessions_ok x → console ≠ (-1)%Z →
  seat_reachable ids_are_names (new_static_seat sid m console x) w →
  shead (λ c, ascii_eqb c "/"%char) path = true →
  dbus_activate_session act call (Some path) w = answer call (SeatError CK_SEAT_ERROR_FAILED) w.
Proof.
  intros Hx Hc Hr Hpath.
  assert (seat_inv w ∧ ids_are_names (sess w)) as [(Hp & Hcon & _) Hn].
  { split; [|by destruct Hr].
    eapply reachable_seat_inv; [|exact Hr]. by apply new_seat_inv. }
  unfold dbus_activate_session, ck_seat_activate_session, mbind, prog_bind_inst, prog_mbind, in_seat,
    prog_gets. cbn beta iota.
  destruct (sessions (seat w) !! path) as [s|] eqn:Hs.
  - destruct (pv_table _ _ Hp path s Hs) as [Hl Hid].
    pose proof (Hn s path Hl Hid) as Hno. congruence.
  - rewrite decide_False by (intros H; by apply H, Hcon). done.
Qed.

(** ** The environment of the hook programs *)

(** What a session contributes. *)
Definition env_string (prefix name : string) (v : cstr) : list string :=
  match v with None | Some "" => [] | Some s => [prefix +:+ name +:+ "=" +:+ s] end.
Definition session_env x (session : option positive) (prefix : string) : list string :=
  match session with
  | None => []
  | Some s =>
      env_string prefix "ID" (session_id s x) ++
      env_string prefix "TYPE" (session_get P_session_type s x) ++
      [prefix +:+ "USER_UID=" +:+ fmt_unsigned (u32 (session_get P_unix_user s x))] ++
      env_string prefix "DISPLAY_DEVICE" (session_get P_display_device s x) ++
      env_string prefix "X11_DISPLAY_DEVICE" (session_get P_x11_display_device s x) ++
      env_string prefix "X11_DISPLAY" (session_get P_x11_display s x) ++
      env_string prefix "REMOTE_HOST_NAME" (session_get P_remote_host_name s x) ++
      [prefix +:+ "IS_LOCAL=" +:+ (if session_get P_is_local s x then "true" else "false")]
  end.

Lemma env_string_length prefix name v : length (env_string prefix name v) ≤ 1.
Proof. destruct v as [[|]|]; simpl; lia. Qed.
Lemma session_env_length x s prefix : length (session_env x s prefix) ≤ 8.
Proof.
  destruct s as [s|]; simpl; [|lia]. rewrite !length_app. simpl. rewrite !length_app. simpl.
  repeat match goal with |- context [length (env_string ?a ?b ?c)] =>
    pose proof (env_string_length a b c); generalize dependent (length (env_string a b c)); intros
  end. lia.
Qed.

Lemma put_env_run item (l : list string) : length l < 18 → put_env item l = Some (tt, l ++ [item]).
Proof. intros. unfold put_env. by rewrite decide_True. Qed.
Lemma put_env_string_run prefix name v (l : list string) : length l < 18 →
  put_env_string prefix name v l = Some (tt, l ++ env_string prefix name v).
Proof.
  intros. destruct v as [[|c s]|]; simpl; unfold_prog; rewrite ?app_nil_r; try done.
  by apply put_env_run.
Qed.

Lemma env_session_run x s prefix l : length l ≤ 9 →
  env_add_session_info x s prefix l = Some (tt, l ++ session_env x s prefix).
Proof.
  intros Hl. destruct s as [s|]; simpl; [|by rewrite app_nil_r].
  unfold mbind, prog_bind_inst, prog_mbind.
  pose proof (env_string_length prefix "ID" (session_id s x)).
  pose proof (env_string_length prefix "TYPE" (session_get P_session_type s x)).
  pose proof (env_string_length prefix "DISPLAY_DEVICE" (session_get P_display_device s x)).
  pose proof (env_string_length prefix "X11_DISPLAY_DEVICE" (session_get P_x11_display_device s x)).
  pose proof (env_string_length prefix "X11_DISPLAY" (session_get P_x11_display s x)).
  pose proof (env_string_length prefix "REMOTE_HOST_NAME" (session_get P_remote_host_name s x)).
  repeat first [rewrite put_env_string_run by (rewrite ?length_app; simpl; lia)
               |rewrite put_env_run by (rewrite ?length_app; simpl; lia)].
  by rewrite <- !app_assoc.
Qed.

(** The seat id and the two sessions' entries, at most 17. *)
Lemma seat_programs_env sid x old new :
  let env := ["CK_SEAT_ID=" +:+ sid] ++ session_env x old "CK_SEAT_OLD_SESSION_" ++
             session_env x new "CK_SEAT_SESSION_" in
  ck_seat_run_programs sid x old new = Some env ∧ length env < 18.
Proof.
  intros env.
  pose proof (session_env_length x old "CK_SEAT_OLD_SESSION_") as H1.
  pose proof (session_env_length x new "CK_SEAT_SESSION_") as H2.
  assert (length env < 18) as Hlen by (unfold env; rewrite !length_app; simpl; lia).
  split; [|done]. unfold ck_seat_run_programs, mbind, prog_bind_inst, prog_mbind.
  rewrite put_env_run by (simpl; lia).
  rewrite env_session_run by (simpl; lia).
  rewrite env_session_run by (rewrite length_app; simpl; lia).
  rewrite <- app_assoc. fold env. by rewrite decide_True.
Qed.

(** The hook environment always fits its array of 18 slots: it is the seat
    id, then what the old and the new session contribute, in this order, and
    leaves room for the terminating NULL.  The bound is exact: two sessions with
    all their properties set fill every slot. *)
Theorem callout_env_fits sid x old new :
  let env := ["CK_SEAT_ID=" +:+ sid] ++ session_env x old "CK_SEAT_OLD_SESSION_" ++
             session_env x new "CK_SEAT_SESSION_" in
  ck_seat_run_programs sid x old new = Some env ∧ length env < 18 ∧
  (length (session_env x old "CK_SEAT_OLD_SESSION_") = 8 →
   length (session_env x new "CK_SEAT_SESSION_") = 8 → length env + 1 = 18).
Proof.
  intros env. destruct (seat_programs_env sid x old new) as [E Hlen]. split; [exact E|]. split; [exact Hlen|].
  unfold env. rewrite !length_app. simpl. lia.
Qed.
End seat.
