(* ===== verification/SeatSessions.v ===== *)
(** * Seats over real sessions.

    The sessions of [Session], all on one host, implement the interface
    [SessionOps] and keep the laws [SessionLaws] that the theorems about seats
    rely on. *)

From S2P Require Import Prelude Device DeviceFacts Session SessionFacts Scan Console VtMonitor Seat.
From stdpp Require Import fin_maps.

(** ** The store of all sessions *)

(** What is a session's own: itself, its devices, its terminal, what it sent. *)
Record own (K : Type) := {
  o_ses : CkSession K;
  o_devs : gmap positive CkDevice;
  o_vt : tty;
  o_out : list message
}.
Arguments o_ses {K} _. Arguments o_devs {K} _. Arguments o_vt {K} _. Arguments o_out {K} _.

(** The host is the daemon's: all sessions share its descriptors. *)
Record store (K : Type) := { tab : gmap positive (own K); st_host : host; st_next : Z }.
Arguments tab {K} _. Arguments st_host {K} _. Arguments st_next {K} _.

Section store.
Context {HOS : OS} {HEnv : Env} {K : Type} {HSkel : Skeleton K} {HC : ConsoleSettles}.
Implicit Types (st : store K) (w : world K).

Definition view (o : own K) st : world K :=
  {| ses := o_ses o; devs := o_devs o; hst := st_host st; vt := o_vt o; out := o_out o;
     next_id := st_next st |}.
Definition put_back (s : positive) w st : store K :=
  {| tab := <[s := {| o_ses := ses w; o_devs := devs w; o_vt := vt w; o_out := out w |}]> (tab st);
     st_host := hst w; st_next := next_id w |}.

(** A program of one session, run in the store; a dangling session is a fault. *)
Definition inside {A} (s : positive) (m : prog (world K) A) : prog (store K) A :=
  λ st, match tab st !! s with
        | Some o => match m (view o st) with
                    | Some (a, w) => Some (a, put_back s w st)
                    | None => None
                    end
        | None => None
        end.

Definition in_session {A} (f : CkSession K → A) (zero : A) (s : positive) st : A :=
  match tab st !! s with Some o => f (o_ses o) | None => zero end.

(** [ck_session_set_seat_id] of [src/ck-session.c]. *)
Definition ck_session_set_seat_id (id path : cstr) : prog (world K) bool :=
  modify_ses (set_seat_fields id path);;
  match id, path with
  | Some i, Some p => set_prop P_seat (Some (i, p));; mret true
  | _, _ => mret false
  end.

(** The devices a session lists are there, each listed once. *)
Definition pointers (s : CkSession K) (d : gmap positive CkDevice) : Prop :=
  NoDup (devices s) ∧ ∀ p, p ∈ devices s → is_Some (d !! p).

#[export] Instance store_ops : SessionOps (store K) :=
  {| session_live := λ s st, is_Some (tab st !! s);
     session_get := λ p s st, in_session (λ x, sk_get p (skel x)) (pzero p) s st;
     session_id := in_session ss_id None;
     session_path := in_session ss_path None;
     session_created := in_session (λ x, iso8601 (creation_time x)) "";
     session_seat := in_session seat_id None;
     session_set_active := λ s a force, inside s (ck_session_set_active a force);
     session_set_seat_id := λ s id path, inside s (ck_session_set_seat_id id path);
     sessions_ok := λ st, ∀ s o, tab st !! s = Some o → pointers (o_ses o) (o_devs o) |}.

(** ** What switching a session keeps *)

Record session_frame w w' : Prop := {
  sf_id : ss_id (ses w') = ss_id (ses w);
  sf_path : ss_path (ses w') = ss_path (ses w);
  sf_created : creation_time (ses w') = creation_time (ses w);
  sf_devices : devices (ses w') = devices (ses w);
  sf_devs : ∀ d, is_Some (devs w !! d) → is_Some (devs w' !! d);
  sf_get : ∀ p, changing p = false → sk_get p (skel (ses w')) = sk_get p (skel (ses w))
}.

Lemma session_frame_refl w : session_frame w w.
Proof. by split. Qed.
Lemma session_frame_trans w1 w2 w3 : session_frame w1 w2 → session_frame w2 w3 → session_frame w1 w3.
Proof.
  intros [A1 A2 A3 A4 A5 A6] [B1 B2 B3 B4 B5 B6]. split; try congruence; auto.
  intros p Hp. by rewrite B6, A6.
Qed.

(** Switching leaves the seat alone as well. *)
Definition switch_frame w w' : Prop := session_frame w w' ∧ seat_id (ses w') = seat_id (ses w).
Lemma switch_frame_refl w : switch_frame w w.
Proof. by split. Qed.
Lemma switch_frame_trans w1 w2 w3 : switch_frame w1 w2 → switch_frame w2 w3 → switch_frame w1 w3.
Proof. intros [A1 A2] [B1 B2]. split; [by eapply session_frame_trans|congruence]. Qed.

(** The session object is untouched, its devices stay. *)
Definition beside w w' : Prop :=
  ses w' = ses w ∧ ∀ d, is_Some (devs w !! d) → is_Some (devs w' !! d).
Lemma beside_frame w w' : beside w w' → switch_frame w w'.
Proof. intros [E Hd]. split; [split|]; by rewrite ?E. Qed.
Lemma beside_trans w1 w2 w3 : beside w1 w2 → beside w2 w3 → beside w1 w3.
Proof. intros [A1 A2] [B1 B2]. split; [congruence|auto]. Qed.

Lemma wp_device_beside d b w : is_Some (devs w !! d) →
  wp (device_set_active d b) (λ _ w', beside w w') w.
Proof.
  intros [x Hx]. unfold device_set_active. wps. eapply wp_deref; [done|]. wps.
  split; [done|]. simpl. intros e He. destruct (decide (e = d)) as [->|];
    [rewrite lookup_insert_eq; by eexists|by rewrite lookup_insert_ne].
Qed.

Lemma wp_pause_beside force d w : is_Some (devs w !! d) →
  wp (pause_device force d) (λ _ w', beside w w') w.
Proof.
  intros [x Hx]. unfold pause_device. wps. eapply wp_deref; [done|].
  destruct (negb (state x)); wps; [done|]. destruct force; [|by wps].
  eapply wp_mono; [by apply wp_device_beside; simpl; eexists|]. intros [] w' [E Hd]. by split.
Qed.

Lemma wp_resume_beside d w : is_Some (devs w !! d) →
  wp (resume_device d) (λ _ w', beside w w') w.
Proof.
  intros Hd. unfold resume_device. wps. eapply wp_mono; [by apply wp_device_beside|].
  intros [] w1 [E1 Hd1]. wps. destruct (Hd1 d Hd) as [x Hx]. eapply wp_deref; [done|].
  destruct (fd x <? 0)%Z; wps; [done|]. unfold share_fd. by wps.
Qed.

Lemma wp_each_beside f l w :
  (∀ d w, is_Some (devs w !! d) → wp (f d) (λ _ w', beside w w') w) →
  (∀ d, d ∈ l → is_Some (devs w !! d)) → wp (for_each f l) (λ _ w', beside w w') w.
Proof.
  intros Hf. revert w. induction l as [|d l IH]; intros w Hl; simpl; [by wps|]. wps.
  eapply wp_mono; [apply Hf, Hl; by left|]. intros [] w1 H1.
  eapply wp_mono; [apply IH|].
  - intros e He. apply H1, Hl. by right.
  - intros [] w2. by apply beside_trans.
Qed.

Lemma wp_mark_frame w0 w b (Q : unit → world K → Prop) :
  switch_frame w0 w →
  (∀ w', switch_frame w0 w' → sk_get P_active (skel (ses w')) = b → Q tt w') →
  wp (if b then mark_active else mark_inactive) Q w.
Proof.
  intros H0 HQ. destruct b; unfold mark_active, mark_inactive; wps; (apply HQ;
    [eapply switch_frame_trans; [exact H0|]; split; [split; simpl; try done; intros p Hp;
     destruct p; try done; by rewrite !sk_get_set_ne|done]
    |simpl; rewrite sk_get_set_ne by done; exact (sk_get_set P_active _ _)]).
Qed.

Lemma wp_chown_beside n w : wp (chown_console n) (λ _ w', beside w w') w.
Proof.
  unfold chown_console. destruct (0 <? n)%Z; wps; [|done].
  destruct (open_a_console_settled (hst w) console_settled) as [[f h] Ho]. eapply wp_console; [done|]. wps.
  destruct (0 <=? _)%Z; wps; [|done].
  destruct (getpwuid _); wps; [simpl; destruct (os_ioctl _); wps|]; done.
Qed.

Lemma wp_switch_session a force w : pointers (ses w) (devs w) →
  wp (ck_session_set_active a force) (λ _ w', switch_frame w w' ∧
    (a = true ∨ force = true → sk_get P_active (skel (ses w')) = a)) w.
Proof.
  intros [_ Hp]. unfold ck_session_set_active. wps.
  destruct (Bool.eqb_spec (sk_get P_active (skel (ses w))) a) as [Ha|Ha]; wps;
    [split; [apply switch_frame_refl|done]|].
  match goal with |- wp _ _ ?v => set (w0 := v) end.
  assert (switch_frame w w0) as H0 by (split; [by split|done]).
  assert (∀ d, d ∈ devices (ses w0) → is_Some (devs w0 !! d)) as Hp0 by exact Hp.
  destruct a.
  - unfold ck_session_resume_all_devices. wps. eapply wp_mono; [apply wp_chown_beside|].
    intros [] w1 H1. pose proof (beside_frame _ _ H1) as F1. wps.
    assert (switch_frame w w1) as F01 by by eapply switch_frame_trans.
    destruct (session_controller (ses w1)).
    + wps. eapply wp_mono.
      { apply wp_each_beside; [apply wp_resume_beside|].
        intros d Hd. apply (proj1 F1), Hp0. by rewrite <- (sf_devices _ _ (proj1 F1)). }
      intros [] w2 H2%beside_frame.
      apply (wp_mark_frame w w2 true); [by eapply switch_frame_trans|]. intros w3 F3 E3. by wps.
    + apply (wp_mark_frame w w1 true); [done|]. intros w3 F3 E3. by wps.
  - unfold ck_session_pause_all_devices. wps. eapply wp_mono.
    { apply wp_each_beside; [apply wp_pause_beside|exact Hp0]. }
    intros [] w1 H1%beside_frame.
    assert (switch_frame w w1) as F01 by by eapply switch_frame_trans.
    destruct (force || bool_decide _) eqn:Hf.
    + apply (wp_mark_frame w w1 false); [done|]. intros w3 F3 E3. by wps.
    + wps. split.
      * eapply switch_frame_trans; [exact F01|]. split; [by split|done].
      * apply orb_false_iff in Hf as [-> _]. by intros [|].
Qed.

(** ** The laws *)

Lemma wp_inside {A} s (m : prog (world K) A) o Q st : tab st !! s = Some o →
  wp m (λ a w, Q a (put_back s w st)) (view o st) → wp (inside s m) Q st.
Proof. unfold wp, inside. intros ->. by destruct (m (view o st)) as [[a w]|]. Qed.

Lemma put_back_other s t w st : t ≠ s → tab (put_back s w st) !! t = tab st !! t.
Proof. intros Hne. simpl. by rewrite lookup_insert_ne. Qed.

Lemma put_back_like s o w st : sessions_ok st → tab st !! s = Some o → session_frame (view o st) w →
  sessions_ok (put_back s w st) ∧ sessions_like st (put_back s w st).
Proof.
  intros Hok Ho [F1 F2 F3 F4 F5 F6]. simpl in *. split.
  - intros t o' Ht. destruct (decide (t = s)) as [->|Hne].
    + rewrite lookup_insert_eq in Ht. simplify_eq. destruct (Hok s o Ho) as [Hn Hp].
      unfold pointers. simpl. rewrite F4. split; [done|]. intros p Hin. by apply F5, Hp.
    + rewrite lookup_insert_ne in Ht by done. by apply (Hok t).
  - split; simpl; unfold in_session; simpl.
    + intros t. destruct (decide (t = s)) as [->|]; [rewrite lookup_insert_eq, Ho|by rewrite lookup_insert_ne].
      split; by eexists.
    + intros t _. destruct (decide (t = s)) as [->|]; [by rewrite lookup_insert_eq, Ho|by rewrite lookup_insert_ne].
    + intros t _. destruct (decide (t = s)) as [->|]; [by rewrite lookup_insert_eq, Ho|by rewrite lookup_insert_ne].
    + intros t _. destruct (decide (t = s)) as [->|]; [rewrite lookup_insert_eq, Ho; simpl; by rewrite F3|by rewrite lookup_insert_ne].
    + intros p t Hp _. destruct (decide (t = s)) as [->|]; [rewrite lookup_insert_eq, Ho; simpl; by apply F6|by rewrite lookup_insert_ne].
Qed.

#[export] Instance store_laws : SessionLaws (store K).
Proof.
  split.
  - intros s a force st Hok [o Ho]. apply (wp_inside s _ o); [done|].
    eapply wp_mono; [apply wp_switch_session, (Hok s o Ho)|].
    intros r w [[F Hs] Ha]. destruct (put_back_like s o w st Hok Ho F) as [Hok' Hlike].
    split_and!; try done; simpl; unfold in_session; simpl.
    + by rewrite lookup_insert_eq.
    + intros t Hne. by rewrite lookup_insert_ne.
    + intros t. destruct (decide (t = s)) as [->|]; [by rewrite lookup_insert_eq, Ho|by rewrite lookup_insert_ne].
  - intros s id path st Hok [o Ho]. apply (wp_inside s _ o); [done|].
    apply (wp_mono _ (λ _ w, session_frame (view o st) w ∧ seat_id (ses w) = id ∧
      sk_get P_active (skel (ses w)) = sk_get P_active (skel (o_ses o)))).
    + unfold ck_session_set_seat_id. wps. destruct id, path; wps; (split; [split|]); simpl; try done.
      * intros p Hp. destruct p; try done; by rewrite sk_get_set_ne.
      * by rewrite sk_get_set_ne.
    + intros r w (F & Hs & Ha). destruct (put_back_like s o w st Hok Ho F) as [Hok' Hlike].
      split_and!; try done; simpl; unfold in_session; simpl.
      * intros t. destruct (decide (t = s)) as [->|]; [rewrite lookup_insert_eq, Ho; exact Ha|by rewrite lookup_insert_ne].
      * by rewrite lookup_insert_eq.
      * intros t Hne. by rewrite lookup_insert_ne.
Qed.
End store.
