(* ===== verification/SeatRuns.v ===== *)
(** * Seats: concrete runs over real sessions.

    Three sessions on the consoles 7, 7 and 8 of one static seat.  A run in
    which two of them are active at once, and the witnesses of the theorems of
    [SeatFacts] and [SeatActivation]. *)

From S2P Require Import Prelude Device DeviceFacts Session SessionFacts SessionRuns Console VtMonitor.
From S2P Require Import Seat SeatFacts SeatActivation SeatSessions.
From stdpp Require Import fin_maps.

#[local] Existing Instance pstore_skeleton.

(** Seconds since a fixed start, below ten. *)
Definition seat_env : Env :=
  {| bus_unix_user := λ n, None; bus_unix_pid := λ n, None; getpwuid := λ u, None;
     current_time := λ n, Z.of_nat n;
     iso8601 := λ z, "2024-01-01T00:00:0" +:+ pretty z +:+ "Z" |}.
#[local] Existing Instance seat_env.
#[local] Instance seat_os : OS := sample_os 0.
#[local] Instance seat_settles : ConsoleSettles := sample_settles 0.
#[local] Instance seat_order : HashOrder :=
  {| hash_order := λ A _ m, map_to_list m; hash_order_perm := λ A _ m, reflexivity _ |}.

(** ** Three sessions *)

Definition session_on (ssid : string) (now : Z) (p : sprop) (v : ptype p) (vtnr : Z) : own pstore :=
  let s := new_session ssid "cookie" true now in
  {| o_ses := set_skel (sk_set P_vtnr vtnr (sk_set p v (skel s))) s; o_devs := ∅;
     o_vt := text_console; o_out := [] |}.

(** The X server on tty7, then a text login on the same terminal, and an X
    server on tty8. *)
Definition x_on_7 : own pstore := session_on "Session1" 1 P_x11_display_device (Some "/dev/tty7") 7.
Definition text_on_7 : own pstore := session_on "Session2" 2 P_display_device (Some "/dev/tty7") 0.
Definition x_on_8 : own pstore := session_on "Session3" 3 P_x11_display_device (Some "/dev/tty8") 8.

Definition store_of (l : list (positive * own pstore)) : store pstore :=
  {| tab := list_to_map l; st_host := sample_host; st_next := 1 |}.

Lemma store_of_ok l : Forall (λ e, devices (o_ses e.2) = []) l → sessions_ok (store_of l).
Proof.
  intros Hl s o Ho. simpl in Ho. apply elem_of_list_to_map_2 in Ho.
  rewrite Forall_forall in Hl. pose proof (Hl _ Ho) as E. simpl in E. unfold pointers.
  rewrite E. split; [constructor|]. intros d Hd. by apply elem_of_nil in Hd.
Qed.

Definition crowded : store pstore := store_of [(1%positive, x_on_7); (2%positive, text_on_7); (3%positive, x_on_8)].
Definition apart : store pstore := store_of [(1%positive, x_on_7); (3%positive, x_on_8)].

Lemma crowded_ok : sessions_ok crowded.
Proof. apply store_of_ok. repeat constructor. Qed.
Lemma apart_ok : sessions_ok apart.
Proof. apply store_of_ok. repeat constructor. Qed.

(** ** Running a seat *)

Definition console_on (n : Z) : CkVtMonitor := ck_vt_monitor_init true 63 n n (λ _, true).
Definition seat_with (x : store pstore) : seat_world (store pstore) :=
  new_static_seat "Seat1" (console_on 7) 3 x.

Definition next (o : seat_op) (w : seat_world (store pstore)) : seat_world (store pstore) :=
  match run_seat o w with Some (_, w') => w' | None => w end.
Fixpoint seat_exec (l : list seat_op) (w : seat_world (store pstore)) : seat_world (store pstore) :=
  match l with [] => w | o :: l => seat_exec l (next o w) end.

(** The preconditions of the manager's calls, decided. *)
Definition op_ok_b (o : seat_op) (w : seat_world (store pstore)) : bool :=
  match o with
  | SeatAdd s =>
      bool_decide (is_Some (tab (sess w) !! s)) &&
      match session_id s (sess w) with
      | Some id => bool_decide (sessions (seat w) !! id = None)
      | None => false
      end
  | SeatRemove s => false
  | _ => true
  end.
Fixpoint ops_ok_b (l : list seat_op) (w : seat_world (store pstore)) : bool :=
  match l with [] => true | o :: l => op_ok_b o w && ops_ok_b l (next o w) end.

Lemma op_ok_b_ok o w : op_ok_b o w = true → seat_op_ok o w.
Proof.
  destruct o as [s|s| | | |]; simpl; try done. intros [Hl Hid]%andb_true_iff.
  split; [by apply bool_decide_eq_true in Hl|].
  destruct (in_session ss_id None s (sess w)) as [id|] eqn:E; [|done]. exists id. split; [exact E|].
  by apply bool_decide_eq_true in Hid.
Qed.

Lemma seat_exec_reachable (P : store pstore → Prop) w0 l w :
  (∀ x x', P x → sessions_like x x' → P x') → seat_inv w0 →
  seat_reachable P w0 w → P (sess w) → ops_ok_b l w = true → seat_reachable P w0 (seat_exec l w).
Proof.
  intros HP Hi0. revert w. induction l as [|o l IH]; intros w Hr Hw Hok; [done|].
  simpl in *. apply andb_true_iff in Hok as [Ho Hl]. unfold next in *.
  destruct (run_seat o w) as [[[] w']|] eqn:E; [|by apply IH].
  apply op_ok_b_ok in Ho. pose proof (reachable_seat_inv _ _ _ Hi0 Hr) as Hi.
  destruct (run_seat_keeps _ _ _ Hi Ho E) as (_ & Hlike & _).
  assert (P (sess w')) as Hw' by by eapply HP. apply IH; [by eapply ss_op|done|done].
Qed.

Lemma seat_with_inv x : sessions_ok x → seat_inv (seat_with x).
Proof. intros Hx. by apply new_seat_inv. Qed.

Lemma seat_exec_any l x : sessions_ok x → ops_ok_b l (seat_with x) = true →
  seat_reachable (λ _, True) (seat_with x) (seat_exec l (seat_with x)).
Proof.
  intros Hx Hok. apply seat_exec_reachable; try done; [by apply seat_with_inv|by apply ss_init].
Qed.

(** ** Two active sessions *)

(** The text session asks to be activated on the console that is active, then
    the user switches to the other X server. *)
Definition two_active_run : list seat_op :=
  [SeatAdd 1; SeatAdd 2; SeatAdd 3; SessionActivate (λ _, true) 2 1; SeatVtChanges 8].
Definition two_active : seat_world (store pstore) := seat_exec two_active_run (seat_with crowded).

(** Two sessions can be active at once: a session activated on the active
    console, when it is not the oldest there, is marked active without
    becoming the seat's active session, so nothing takes the mark away again:
    after the next VT change it is still active on a console that is not, beside
    the seat's active session. *)
Theorem two_sessions_active :
  ∃ w, seat_reachable (λ _, True) (seat_with crowded) w ∧
    session_get P_active 2 (sess w) = true ∧ session_get P_active 3 (sess w) = true ∧
    active_session (seat w) = Some 3%positive ∧ active_num (monitor w) = 8%Z ∧
    session_get P_display_device 2 (sess w) = Some "/dev/tty7".
Proof.
  assert (session_get P_active 2 (sess two_active) = true) as H1 by (vm_compute; reflexivity).
  assert (session_get P_active 3 (sess two_active) = true) as H2 by (vm_compute; reflexivity).
  assert (active_session (seat two_active) = Some 3%positive) as H3 by (vm_compute; reflexivity).
  assert (active_num (monitor two_active) = 8%Z) as H4 by (vm_compute; reflexivity).
  assert (session_get P_display_device 2 (sess two_active) = Some "/dev/tty7") as H5
    by (vm_compute; reflexivity).
  exists two_active. split; [|repeat split; assumption].
  apply seat_exec_any; [apply crowded_ok|]. vm_compute. reflexivity.
Qed.

(** ** Witnesses *)

Definition attached (x : store pstore) : seat_world (store pstore) :=
  seat_exec [SeatAdd 1; SeatAdd 3] (seat_with x).

Lemma attached_ok : ops_ok_b [SeatAdd 1; SeatAdd 3] (seat_with apart) = true.
Proof. vm_compute. reflexivity. Qed.
Lemma attached_inv : seat_inv (attached apart).
Proof.
  eapply reachable_seat_inv; [apply seat_with_inv, apart_ok|].
  apply seat_exec_any; [apply apart_ok|apply attached_ok].
Qed.

Lemma active_session_follows_vt_witness :
  active_num (monitor (attached crowded)) = 7%Z ∧ active_session (seat (attached crowded)) = Some 1%positive ∧
  session_of_device (Some (ck_get_console_device_for_num 7)) (attached crowded) (Some 1%positive).
Proof.
  assert (active_num (monitor (attached crowded)) = 7%Z) as H1 by (vm_compute; reflexivity).
  assert (active_session (seat (attached crowded)) = Some 1%positive) as H2 by (vm_compute; reflexivity).
  split; [exact H1|]. split; [exact H2|]. rewrite <- H1, <- H2.
  apply (active_session_follows_vt "Seat1" (console_on 7) 3 crowded).
  - apply crowded_ok.
  - discriminate.
  - apply seat_exec_any; [apply crowded_ok|]. vm_compute. reflexivity.
Defined.

Definition vt_of (s : positive) : option Z :=
  if decide (s = 1%positive) then Some 7%Z else if decide (s = 3%positive) then Some 8%Z else None.

Lemma apart_live s : session_live s apart → s = 1%positive ∨ s = 3%positive.
Proof.
  intros [o Ho]. simpl in Ho. apply lookup_insert_Some in Ho as [[<- _]|[_ Ho]]; [by left|right].
  apply lookup_insert_Some in Ho as [[<- _]|[_ Ho]]; [done|by rewrite lookup_empty in Ho].
Qed.
Lemma apart_placed : placed vt_of apart.
Proof.
  split.
  - intros s t n. unfold vt_of. repeat case_decide; congruence.
  - intros s [-> | ->]%apart_live d n [Hd|Hd] Hn; vm_compute in Hd; simplify_eq;
      vm_compute in Hn; simplify_eq; split; vm_compute; reflexivity.
Qed.
Lemma apart_inactive s : session_get P_active s apart = false.
Proof.
  destruct (decide (session_live s apart)) as [[-> | ->]%apart_live|Hno]; [vm_compute; reflexivity..|].
  simpl. unfold in_session. simpl in *. by apply eq_None_not_Some in Hno as ->.
Qed.

Lemma one_session_active_witness :
  session_get P_active 1 (sess (attached apart)) = true ∧
  active_session (seat (attached apart)) = Some 1%positive ∧ on_seat (attached apart) 1.
Proof.
  assert (session_get P_active 1 (sess (attached apart)) = true) as H1 by (vm_compute; reflexivity).
  split; [exact H1|].
  apply (one_session_active vt_of "Seat1" (console_on 7) 3 apart (attached apart) 1).
  - apply apart_ok.
  - discriminate.
  - apply apart_inactive.
  - apply seat_exec_reachable.
    + intros x x'. apply placed_like.
    + apply seat_with_inv, apart_ok.
    + apply ss_init, apart_placed.
    + apply apart_placed.
    + apply attached_ok.
  - exact H1.
Defined.

Lemma attached_other : other_console 3 8 (attached apart).
Proof.
  split.
  - exists "Session3". vm_compute. reflexivity.
  - vm_compute. reflexivity.
  - vm_compute. discriminate.
Qed.
Lemma attached_active : active_session (seat (attached apart)) = Some 1%positive.
Proof. vm_compute. reflexivity. Qed.

Lemma failed_switch_deactivates_witness :
  wp (ck_seat_activate_session (λ _, false) (Some 3%positive) None)
    (λ r w', r = Some CK_SEAT_ERROR_FAILED ∧ monitor w' = monitor (attached apart) ∧
       active_session (seat w') = Some 1%positive ∧ session_get P_active 1 (sess w') = false)
    (attached apart).
Proof.
  apply (failed_switch_deactivates (λ _, false) 3 8 None (attached apart) 1 attached_inv attached_other
           attached_active).
  - discriminate.
  - reflexivity.
Defined.

Lemma attached_finds : find_session_by_vt (u32 8) (attached apart) = Some (Some 3%positive, attached apart).
Proof. rewrite find_session_by_vt_run. do 2 f_equal. Qed.

Lemma switch_to_answers_twice_witness :
  ∃ w', dbus_switch_to (λ _, true) 1 8 (attached apart) = Some (tt, w') ∧
    sent w' = (sent (attached apart) ++ [Replied 1 (Answer [])]) ∧
    ∀ n, vt_monitor_changes n w' = None.
Proof.
  apply (switch_to_answers_twice (λ _, true) 3 8 1 8 (attached apart) attached_inv).
  - apply (bool_decide_unpack _). vm_compute. exact I.
  - apply attached_finds.
  - apply attached_other.
  - reflexivity.
Defined.

Lemma apart_names : ids_are_names apart.
Proof.
  intros s id [-> | ->]%apart_live Hid; vm_compute in Hid; simplify_eq; vm_compute; reflexivity.
Qed.

Lemma activate_by_path_fails_witness :
  dbus_activate_session (λ _, true) 1 (Some "/org/freedesktop/ConsoleKit/Session3") (attached apart) =
  answer 1 (SeatError CK_SEAT_ERROR_FAILED) (attached apart).
Proof.
  apply (activate_by_path_fails "Seat1" (console_on 7) 3 apart).
  - apply apart_ok.
  - discriminate.
  - apply seat_exec_reachable.
    + intros x x' Hn Hlike s id Hs Hid. apply (sl_live _ _ Hlike) in Hs.
      rewrite (sl_id _ _ Hlike) in Hid by exact Hs. exact (Hn s id Hs Hid).
    + apply seat_with_inv, apart_ok.
    + apply ss_init, apart_names.
    + apply apart_names.
    + apply attached_ok.
  - reflexivity.
Defined.

(** Two sessions with every property set fill all the 18 slots. *)
Definition full_session (ssid : string) : own pstore :=
  let k := sk_set P_session_type (Some "x11") (sk_set P_x11_display (Some ":0")
    (sk_set P_display_device (Some "/dev/pts/0") (sk_set P_remote_host_name (Some "host")
    (sk_set P_x11_display_device (Some "/dev/tty7") (skel (new_session ssid "cookie" true 1)))))) in
  {| o_ses := set_skel k (new_session ssid "cookie" true 1); o_devs := ∅; o_vt := text_console; o_out := [] |}.
Definition full : store pstore :=
  store_of [(1%positive, full_session "Session1"); (2%positive, full_session "Session2")].

Lemma callout_env_fits_witness :
  length (["CK_SEAT_ID=Seat1"] ++ session_env full (Some 1%positive) "CK_SEAT_OLD_SESSION_" ++
          session_env full (Some 2%positive) "CK_SEAT_SESSION_") + 1 = 18.
Proof.
  apply (callout_env_fits "Seat1" full (Some 1%positive) (Some 2%positive)); vm_compute; reflexivity.
Defined.
