(* ===== verification/Hooks.v ===== *)
(** * Hook programs: [src/ck-run-programs.c] and the sessions' environment.

    [ck_session_run_programs] of [src/ck-session.c] describes the session in an
    array of 11 strings for the programs of the hook directories; the seats'
    array is in [Seat]. *)

From S2P Require Import Prelude Scan Session Seat.

(** ** Running the programs of a directory *)

(** The daemon's environment, the directories ([None]: cannot be opened) and
    whether a program can be started. *)
Class HookHost := {
  environ : list string;
  hook_directory : string → option (list string);
  g_spawn_async : string → bool;
  hooks_sysconfdir : string;
  hooks_libdir : string
}.

(** A program that ran: path, argument, environment. *)
Record program_run := { pr_path : string; pr_action : string; pr_env : list string }.

Section hooks.
Context {HK : HookHost}.

(** One after the other, in the order of the directory; one that does not start
    is skipped. *)
Definition ck_run_programs (dirpath action : string) (extra_env : list string) : list program_run :=
  match hook_directory dirpath with
  | None => []
  | Some names =>
      let paths := map (λ name, dirpath +:+ "/" +:+ name) (filter (λ name, g_str_has_suffix name ".ck" = true) names) in
      map (λ p, {| pr_path := p; pr_action := action; pr_env := environ ++ extra_env |})
          (filter (λ p, g_spawn_async p = true) paths)
  end.

(** The two directories of a kind of hook. *)
Definition run_hooks (kind action : string) (extra_env : list string) : list program_run :=
  ck_run_programs (hooks_sysconfdir +:+ "/ConsoleKit/" +:+ kind) action extra_env ++
  ck_run_programs (hooks_libdir +:+ "/ConsoleKit/" +:+ kind) action extra_env.
End hooks.

(** ** The environment of a session *)

(** ** The names of the properties *)

(** As [src/org.freedesktop.ConsoleKit.Session.xml] has them, in the spelling of
    the generated GObject properties. *)
Definition property_name (p : sprop) : string :=
  match p with
  | P_active => "active" | P_idle_hint => "idle-hint" | P_locked_hint => "locked-hint" | P_is_local => "is-local"
  | P_unix_user => "unix-user" | P_user => "user" | P_vtnr => "vtnr"
  | P_x11_display => "x11-display" | P_x11_display_device => "x11-display-device"
  | P_display_device => "display-device" | P_remote_host_name => "remote-host-name"
  | P_session_type => "session-type" | P_session_class => "session-class"
  | P_session_service => "session-service" | P_session_state => "session-state"
  | P_seat => "seat"
  end.

(** GObject takes '_' for '-' in the name of a property. *)
Fixpoint canonical_name (s : string) : string :=
  match s with
  | EmptyString => EmptyString
  | String c s => String (if ascii_eqb c "_"%char then "-"%char else c) (canonical_name s)
  end.

Section session.
Context {W : Type} {HO : SessionOps W} {HK : HookHost}.
Implicit Types (x : W) (s : positive).

(** "%s" of a NULL pointer. *)
Definition printf_s (v : cstr) : string := default "(null)" v.
Definition bool_text (b : bool) : string := if b then "true" else "false".

(** [extra_env] has 11 slots: writing beyond them is undefined. *)
Definition put_slot (item : string) : prog (list string) unit :=
  λ l, if decide (length l < 11) then Some (tt, l ++ [item]) else None.
Definition put_set (name : string) (v : cstr) : prog (list string) unit :=
  match v with None => mret tt | Some s => put_slot (name +:+ s) end.
Definition put_nonempty (name : string) (v : cstr) : prog (list string) unit :=
  match v with None | Some "" => mret tt | Some s => put_slot (name +:+ s) end.

(** The array that [ck_session_run_programs] fills; its last entry is the NULL. *)
Definition session_extra_env x s : option (list string) :=
  match
    (put_slot ("CK_SESSION_ID=" +:+ printf_s (session_id s x));;
     put_set "CK_SESSION_SERVICE=" (session_get P_session_service s x);;
     put_set "CK_SESSION_TYPE=" (session_get P_session_type s x);;
     put_slot ("CK_SESSION_SEAT_ID=" +:+ printf_s (session_seat s x));;
     put_slot ("CK_SESSION_USER_UID=" +:+ fmt_int (i32 (session_get P_unix_user s x)));;
     put_nonempty "CK_SESSION_DISPLAY_DEVICE=" (session_get P_display_device s x);;
     put_nonempty "CK_SESSION_X11_DISPLAY_DEVICE=" (session_get P_x11_display_device s x);;
     put_slot ("CK_SESSION_X11_DISPLAY=" +:+ default "" (session_get P_x11_display s x));;
     put_nonempty "CK_SESSION_REMOTE_HOST_NAME=" (session_get P_remote_host_name s x);;
     put_slot ("CK_SESSION_IS_ACTIVE=" +:+ bool_text (session_get P_active s x));;
     put_slot ("CK_SESSION_IS_LOCAL=" +:+ bool_text (session_get P_is_local s x))) []
  with
  | Some (_, env) => if decide (length env < 11) then Some env else None
  | None => None
  end.

Definition ck_session_run_programs x s (action : string) : option (list program_run) :=
  env ← session_extra_env x s; Some (run_hooks "run-session.d" action env).

(** ** What fits *)

Definition given (v : cstr) : list string := match v with None => [] | Some s => [s] end.
Definition given_nonempty (v : cstr) : list string := match v with None | Some "" => [] | Some s => [s] end.
Definition environment x s : list string :=
  ["CK_SESSION_ID=" +:+ printf_s (session_id s x)] ++
  (String.append "CK_SESSION_SERVICE=" <$> given (session_get P_session_service s x)) ++
  (String.append "CK_SESSION_TYPE=" <$> given (session_get P_session_type s x)) ++
  ["CK_SESSION_SEAT_ID=" +:+ printf_s (session_seat s x);
   "CK_SESSION_USER_UID=" +:+ fmt_int (i32 (session_get P_unix_user s x))] ++
  (String.append "CK_SESSION_DISPLAY_DEVICE=" <$> given_nonempty (session_get P_display_device s x)) ++
  (String.append "CK_SESSION_X11_DISPLAY_DEVICE=" <$> given_nonempty (session_get P_x11_display_device s x)) ++
  ["CK_SESSION_X11_DISPLAY=" +:+ default "" (session_get P_x11_display s x)] ++
  (String.append "CK_SESSION_REMOTE_HOST_NAME=" <$> given_nonempty (session_get P_remote_host_name s x)) ++
  ["CK_SESSION_IS_ACTIVE=" +:+ bool_text (session_get P_active s x);
   "CK_SESSION_IS_LOCAL=" +:+ bool_text (session_get P_is_local s x)].

(** All the optional variables are there: one more than the array holds. *)
Definition crowded x s : Prop :=
  session_get P_session_service s x ≠ None ∧ session_get P_session_type s x ≠ None ∧
  given_nonempty (session_get P_display_device s x) ≠ [] ∧
  given_nonempty (session_get P_x11_display_device s x) ≠ [] ∧
  given_nonempty (session_get P_remote_host_name s x) ≠ [].

(** The parameters of a new session that make it crowded (its service and type
    have defaults). *)
Definition overfull {A} (parameters : list (string * A)) : Prop :=
  ∀ p, p ∈ [P_display_device; P_x11_display_device; P_remote_host_name] →
  property_name p ∈ canonical_name <$> parameters.*1.

(** A writer that appends [l], as long as the slots last. *)
Definition writes (m : prog (list string) unit) (l : list string) : Prop :=
  ∀ k, length k ≤ 11 → m k = if decide (length k + length l ≤ 11) then Some (tt, k ++ l) else None.

Lemma writes_slot item : writes (put_slot item) [item].
Proof. intros k Hk. unfold put_slot. simpl. repeat case_decide; try done; lia. Qed.
Lemma writes_none : writes (mret tt) [].
Proof. intros k Hk. rewrite decide_True by (simpl; lia). by rewrite app_nil_r. Qed.
Lemma writes_set name v : writes (put_set name v) (String.append name <$> given v).
Proof. destruct v; [apply writes_slot|apply writes_none]. Qed.
Lemma writes_nonempty name v : writes (put_nonempty name v) (String.append name <$> given_nonempty v).
Proof. destruct v as [[|]|]; [apply writes_none|apply writes_slot|apply writes_none]. Qed.
Lemma writes_seq m n l l' : writes m l → writes n l' → writes (m;; n) (l ++ l').
Proof.
  intros Hm Hn k Hk. unfold mbind, prog_bind_inst, prog_mbind. rewrite Hm by done.
  rewrite length_app. case_decide as H1; [|by rewrite decide_False by lia].
  rewrite Hn by (rewrite length_app; lia). rewrite length_app, <- app_assoc.
  repeat case_decide; try done; lia.
Qed.

(** The call succeeds when the environment and its NULL fit. *)
Lemma session_programs_env x s :
  session_extra_env x s = if decide (length (environment x s) < 11) then Some (environment x s) else None.
Proof.
  unfold session_extra_env.
  match goal with |- context [?p []] => assert (writes p (environment x s)) as H end.
  { unfold environment.
    apply (writes_seq _ _ [_]); [apply writes_slot|]. apply writes_seq; [apply writes_set|].
    apply writes_seq; [apply writes_set|].
    apply (writes_seq _ _ [_] (_ :: _)); [apply writes_slot|]. apply (writes_seq _ _ [_]); [apply writes_slot|].
    apply writes_seq; [apply writes_nonempty|]. apply writes_seq; [apply writes_nonempty|].
    apply (writes_seq _ _ [_]); [apply writes_slot|]. apply writes_seq; [apply writes_nonempty|].
    apply (writes_seq _ _ [_] [_]); apply writes_slot. }
  rewrite H by (simpl; lia). clear H. generalize (environment x s). intros l.
  change (length [] + length l) with (length l). change ([] ++ l) with l.
  destruct (decide (length l ≤ 11)); [done|]. rewrite decide_False by lia. done.
Qed.

Lemma given_length v : length (given v) = if decide (v = None) then 0 else 1.
Proof. by destruct v. Qed.
Lemma given_nonempty_length v : length (given_nonempty v) = if decide (given_nonempty v = []) then 0 else 1.
Proof. by destruct v as [[|]|]. Qed.

Lemma environment_fits x s : length (environment x s) < 11 ↔ ¬ crowded x s.
Proof.
  unfold environment, crowded. rewrite !length_app, !length_fmap, !given_length.
  rewrite (given_nonempty_length (session_get P_display_device s x)),
    (given_nonempty_length (session_get P_x11_display_device s x)),
    (given_nonempty_length (session_get P_remote_host_name s x)).
  simpl. repeat case_decide; simpl; split; intros; try lia; try tauto.
Qed.

Lemma session_programs_some x s action : ¬ crowded x s → is_Some (ck_session_run_programs x s action).
Proof.
  intros H. unfold ck_session_run_programs. rewrite session_programs_env, decide_True by by apply environment_fits.
  by eexists.
Qed.

(** The properties that tell where a session is and decide what fits. *)
Definition describing (p : sprop) : bool :=
  match p with
  | P_session_service | P_session_type | P_display_device | P_x11_display_device | P_remote_host_name => true
  | _ => false
  end.
Lemma crowded_same x x' s :
  (∀ p, describing p = true → session_get p s x' = session_get p s x) → crowded x' s → crowded x s.
Proof. intros H. unfold crowded. by rewrite !H by done. Qed.

(** C14: The environment of a session's hook programs fits its array of 11 strings
    unless service, type, both devices and the remote host are all set: then
    the terminating NULL is written one slot beyond the array, and the assertion
    that checks it comes only after the damage. *)
Theorem session_env_overflow x s action :
  (ck_session_run_programs x s action = Some (run_hooks "run-session.d" action (environment x s)) ∧ ¬ crowded x s) ∨
  (ck_session_run_programs x s action = None ∧ crowded x s ∧ length (environment x s) = 11).
Proof.
  unfold ck_session_run_programs. rewrite session_programs_env. pose proof (environment_fits x s) as H.
  case_decide as Hd; [left; split; [done|by apply H]|right].
  unfold crowded in H. assert (length (environment x s) ≤ 11) as Hle.
  { unfold environment. rewrite !length_app, !length_fmap, !given_length, !given_nonempty_length. simpl.
    repeat case_decide; simpl; lia. }
  split_and!; [done| |lia]. unfold crowded. split_and!; intros E; apply Hd, H; rewrite E; tauto.
Qed.
End session.

(** ** The wait for a program

    The daemon starts a program and serves its main loop until the program exits or
    15 seconds are over.  Two sources and the loop of [ck_run_programs] share a
    counted record; whatever else the main loop serves in between may start other
    programs, which have records of their own. *)

Module Wait.

(** [ChildData]: the sources are known by their ids, 0 for none. *)
Record ChildData := {
  refcount : Z;
  child_is_running : bool;
  timeout_id : Z
}.

(** One program: its record ([None]: freed), the two sources of the main loop, and
    the caller, which waits.  [stale] counts the removals of a source that is not
    there, [killed] whether SIGTERM was sent. *)
Record waiting := {
  cd : option ChildData;
  watch_source : bool;
  timeout_source : option Z;
  caller_waits : bool;
  stale : nat;
  killed : bool
}.

Definition set_cd c w := {| cd := c; watch_source := watch_source w; timeout_source := timeout_source w;
  caller_waits := caller_waits w; stale := stale w; killed := killed w |}.
Definition set_sources wa ti w := {| cd := cd w; watch_source := wa; timeout_source := ti;
  caller_waits := caller_waits w; stale := stale w; killed := killed w |}.
Definition set_caller b w := {| cd := cd w; watch_source := watch_source w; timeout_source := timeout_source w;
  caller_waits := b; stale := stale w; killed := killed w |}.
Definition set_stale n w := {| cd := cd w; watch_source := watch_source w; timeout_source := timeout_source w;
  caller_waits := caller_waits w; stale := n; killed := killed w |}.
Definition set_killed w := {| cd := cd w; watch_source := watch_source w; timeout_source := timeout_source w;
  caller_waits := caller_waits w; stale := stale w; killed := true |}.

Definition upd_child (f : ChildData → ChildData) : prog waiting unit :=
  λ w, match cd w with Some c => Some (tt, set_cd (Some (f c)) w) | None => None end.
Definition get_child : prog waiting ChildData := λ w, match cd w with Some c => Some (c, w) | None => None end.

Definition _child_data_unref : prog waiting unit :=
  upd_child (λ c, {| refcount := refcount c - 1; child_is_running := child_is_running c; timeout_id := timeout_id c |});;
  c ← get_child;
  if Z.eqb (refcount c) 0 then prog_modify (set_cd None) else mret tt.

(** [g_source_remove]: an id without a source is a mistake that GLib reports. *)
Definition g_source_remove (id : Z) : prog waiting unit :=
  prog_modify (λ w, if decide (timeout_source w = Some id) then set_sources (watch_source w) None w else set_stale (S (stale w)) w).

Definition _child_watch : prog waiting unit :=
  c ← get_child;
  g_source_remove (timeout_id c);;
  upd_child (λ c, {| refcount := refcount c; child_is_running := false; timeout_id := 0 |});;
  _child_data_unref.

Definition _child_timeout : prog waiting unit :=
  get_child;;
  prog_modify set_killed;;
  upd_child (λ c, {| refcount := refcount c; child_is_running := false; timeout_id := timeout_id c |}).

(** One program of the loop in [ck_run_programs], up to the wait; [id] is the id
    of the timeout. *)
Definition start_program (spawned : bool) (id : Z) : waiting :=
  if spawned then
    {| cd := Some {| refcount := 2; child_is_running := true; timeout_id := id |}; watch_source := true;
       timeout_source := Some id; caller_waits := true; stale := 0; killed := false |}
  else
    {| cd := None; watch_source := false; timeout_source := None; caller_waits := false; stale := 0; killed := false |}.

(** What happens: the program exits, the time is over, the caller looks whether it
    can go on.  A source that is not there is not served. *)
Inductive wait_step := W_exits | W_timeout | W_look.
Definition wait_serve (s : wait_step) : prog waiting unit :=
  w ← prog_get;
  match s with
  | W_exits => if watch_source w then prog_modify (λ w, set_sources false (timeout_source w) w);; _child_watch else mret tt
  | W_timeout => match timeout_source w with
                 | Some _ => _child_timeout;; prog_modify (λ w, set_sources (watch_source w) None w)
                 | None => mret tt
                 end
  | W_look =>
      if caller_waits w then
        c ← get_child;
        if child_is_running c then mret tt else _child_data_unref;; prog_modify (set_caller false)
      else mret tt
  end.

Definition holders (w : waiting) : Z := (if watch_source w then 1 else 0) + (if caller_waits w then 1 else 0).

(** The record is there as long as somebody holds it, with their number. *)
Definition held (id : Z) (w : waiting) : Prop :=
  match cd w with
  | None => holders w = 0%Z ∧ timeout_source w = None
  | Some c =>
      refcount c = holders w ∧ (0 < holders w)%Z ∧
      (timeout_source w = Some id → watch_source w = true ∧ timeout_id c = id) ∧
      (timeout_source w = None ∨ timeout_source w = Some id) ∧
      child_is_running c = match timeout_source w with Some _ => true | None => false end ∧ (timeout_source w = Some id → caller_waits w = true)
  end.

Lemma held_start id spawned : held id (start_program spawned id).
Proof. destruct spawned; [|done]. cbn. repeat split; try done; by auto. Qed.

Ltac run_wait := unfold wp, wait_serve, _child_watch, _child_timeout, _child_data_unref, g_source_remove, upd_child, get_child;
  unfold_prog; cbn; repeat (case_decide; try done; cbn); repeat split; try done; auto.

Lemma held_step id s w : held id w → wp (wait_serve s) (λ _, held id) w.
Proof.
  destruct w as [[[rc run tid]|] wa [ti|] ca st ki]; unfold held, holders; cbn.
  - intros (Hrc & Hpos & H1 & [|[= ->]] & -> & H4); [done|]. destruct (H1 eq_refl) as [-> ->]. rewrite (H4 eq_refl) in *.
    simpl in Hrc. subst rc. destruct s; run_wait.
  - intros (Hrc & Hpos & _ & _ & -> & _). destruct s, wa, ca; try done; simpl in Hrc; subst rc; run_wait.
  - by intros [_ ?].
  - intros [Hh _]. destruct wa, ca; try done. by destruct s.
Qed.

(** Once the program has exited or its time is over, no timeout is left. *)
Lemma served_step id s w : held id w →
  wp (wait_serve s) (λ _ w', (timeout_source w = None ∨ s ≠ W_look → timeout_source w' = None) ∧
    (s = W_look → timeout_source w = None → caller_waits w' = false)) w.
Proof.
  destruct w as [[[rc run tid]|] wa [ti|] ca st ki]; unfold held, holders; cbn.
  - intros (Hrc & Hpos & H1 & [|[= ->]] & -> & H4); [done|]. destruct (H1 eq_refl) as [-> ->]. rewrite (H4 eq_refl) in *.
    simpl in Hrc. subst rc. destruct s; run_wait; by intros [?|?].
  - intros (Hrc & Hpos & _ & _ & -> & _). destruct s, wa, ca; try done; simpl in Hrc; subst rc; run_wait.
  - by intros [_ ?].
  - intros [Hh _]. destruct wa, ca; try done. by destruct s.
Qed.

Lemma wp_steps id steps : ∀ w, held id w → wp (for_each wait_serve steps) (λ _, held id) w.
Proof.
  induction steps as [|s steps IH]; intros w Hw; [done|]. apply wp_bind. eapply wp_mono; [by apply (held_step id)|].
  intros [] w' Hw'. by apply IH.
Qed.

Lemma wp_both {A} (m : prog waiting A) Q R w : wp m Q w → wp m R w → wp m (λ a w', Q a w' ∧ R a w') w.
Proof. unfold wp. by destruct (m w) as [[a w']|]. Qed.

Lemma wp_no_timeout id steps : ∀ w, held id w → timeout_source w = None ∨ (∃ s, s ∈ steps ∧ s ≠ W_look) →
  wp (for_each wait_serve steps) (λ _ w', held id w' ∧ timeout_source w' = None) w.
Proof.
  induction steps as [|s steps IH]; intros w Hw Hs; [destruct Hs as [?|(s & Hs & _)]; [done|by apply not_elem_of_nil in Hs]|].
  apply wp_bind. eapply wp_mono; [apply wp_both; [by apply (held_step id)|by apply (served_step id)]|].
  intros [] w' (Hw' & H1 & _). apply IH; [done|]. destruct Hs as [Hs|(s' & [->|Hs]%elem_of_cons & Hne)]; [left; by auto|left; by auto|].
  right. by exists s'.
Qed.

(** Whatever the main loop serves, and in whatever order, the record of a program
    is used only while it is there and is freed when neither its watch nor the
    caller needs it, so it is never lost; and the caller waits no longer than
    until it looks for the first time after the program exited or 15 seconds
    were over. *)
Theorem hook_wait_safe spawned id steps :
  ∃ w, for_each wait_serve steps (start_program spawned id) = Some (tt, w) ∧
    (cd w = None ↔ watch_source w = false ∧ caller_waits w = false) ∧
    ((∃ s, s ∈ steps ∧ s ≠ W_look) →
     ∃ w', for_each wait_serve (steps ++ [W_look]) (start_program spawned id) = Some (tt, w') ∧ caller_waits w' = false).
Proof.
  pose proof (wp_steps id steps _ (held_start id spawned)) as (u & w & E & Hw)%wp_elim. destruct u. exists w. split; [done|]. split.
  - unfold held, holders in Hw. destruct (cd w); destruct (watch_source w), (caller_waits w); try done; naive_solver lia.
  - intros Hs. pose proof (wp_no_timeout id steps _ (held_start id spawned) (or_intror Hs)) as (u & w1 & E1 & Hw1 & Ht)%wp_elim.
    destruct u. assert (w1 = w) as -> by congruence.
    pose proof (served_step id W_look w Hw) as (u & w' & E2 & _ & Hc)%wp_elim. destruct u. exists w'. split; [|by apply Hc].
    assert (∀ l v v', for_each wait_serve l v = Some (tt, v') → for_each wait_serve (l ++ [W_look]) v = wait_serve W_look v') as Happ.
    { induction l as [|s l IH]; intros v v' El; simpl in *.
      - injection El as ->. unfold mbind, prog_bind_inst, prog_mbind. by destruct (wait_serve W_look v') as [[[] ?]|].
      - unfold mbind, prog_bind_inst, prog_mbind in *. destruct (wait_serve s v) as [[[] v1]|]; [|done]. by apply IH. }
    by rewrite (Happ _ _ _ E).
Qed.

(** A program that exits after its time removes a timeout that is gone. *)
Example late_exit_removes_nothing :
  (λ r, stale r.2) <$> for_each wait_serve [W_timeout; W_look; W_exits] (start_program true 7) = Some 1.
Proof. by vm_compute. Qed.
Lemma hook_wait_safe_witness :
  ∃ w', for_each wait_serve [W_look; W_timeout; W_look] (start_program true 7) = Some (tt, w') ∧ caller_waits w' = false.
Proof.
  destruct (hook_wait_safe true 7 [W_look; W_timeout]) as (w & _ & _ & H). apply H. exists W_timeout. split; [|discriminate].
  right. left.
Defined.

End Wait.
