(* ===== verification/Leader.v ===== *)
(** * Session leaders: [src/ck-session-leader.c].

    A leader is the process that opened a session.  What is known of it comes
    from a job ([ck-collect-session-info], in [Collect]) whose output
    [parse_output] reads, and from the parameters of the caller, which win. *)

From S2P Require Import Prelude Scan.

(** ** Data *)

(** A [GVariant] of the types the code looks at: "s", "b", "i", "u". *)
Inductive gvariant := GvString (s : string) | GvBool (b : bool) | GvInt (z : Z) | GvUint (z : Z) | GvOther.
#[export] Instance gvariant_eq_dec : EqDecision gvariant.
Proof. solve_decision. Defined.

Inductive gtype := G_TYPE_STRING | G_TYPE_BOOLEAN | G_TYPE_INT | G_TYPE_UINT.

Definition parameter_lookup : list (string * gtype) :=
  [("login-session-id", G_TYPE_STRING); ("display-device", G_TYPE_STRING);
   ("x11-display-device", G_TYPE_STRING); ("x11-display", G_TYPE_STRING);
   ("remote-host-name", G_TYPE_STRING); ("session-type", G_TYPE_STRING);
   ("session-class", G_TYPE_STRING); ("session-service", G_TYPE_STRING);
   ("is-local", G_TYPE_BOOLEAN); ("unix-user", G_TYPE_INT); ("user", G_TYPE_INT); ("vtnr", G_TYPE_UINT)].

(** [CkSessionLeaderPrivate]; the pending jobs are known by an id. *)
Record CkSessionLeader := {
  leader_uid : Z;
  leader_pid : Z;
  leader_service_name : cstr;
  leader_session_id : string;
  leader_cookie : string;
  pending_jobs : list positive;
  cancelled : bool;
  override_parameters : gmap string gvariant
}.

Definition upd_leader (js : list positive) (c : bool) (o : gmap string gvariant) (l : CkSessionLeader) :
    CkSessionLeader :=
  {| leader_uid := leader_uid l; leader_pid := leader_pid l; leader_service_name := leader_service_name l;
     leader_session_id := leader_session_id l; leader_cookie := leader_cookie l; pending_jobs := js;
     cancelled := c; override_parameters := o |}.

(** [ck_session_leader_new] and the setters that its only caller runs. *)
Definition ck_session_leader_new (uid pid : Z) (service_name : cstr) (session_id cookie : string) :
    CkSessionLeader :=
  {| leader_uid := uid; leader_pid := pid; leader_service_name := service_name;
     leader_session_id := session_id; leader_cookie := cookie; pending_jobs := []; cancelled := false;
     override_parameters := ∅ |}.

(** ** Parameters *)

Definition have_override_parameter (leader : CkSessionLeader) (prop_name : string) : bool :=
  bool_decide (is_Some (override_parameters leader !! prop_name)).

Fixpoint lookup_in (table : list (string * gtype)) (name : string) : option gtype :=
  match table with
  | [] => None
  | (n, t) :: table => if String.eqb name n then Some t else lookup_in table name
  end.
Definition lookup_parameter_type (name : string) : option gtype := lookup_in parameter_lookup name.

(** [save_parameters]: the caller's parameters, whatever their types. *)
Definition save_parameter (o : gmap string gvariant) (p : string * gvariant) : gmap string gvariant :=
  let '(prop_name, value) := p in
  if String.eqb prop_name "id" || String.eqb prop_name "cookie" then o
  else match lookup_parameter_type prop_name with
       | None => o
       | Some _ =>
           let prop_name := if String.eqb prop_name "user" then "unix-user" else prop_name in
           <[prop_name := value]> o
       end.
Definition save_parameters (o : gmap string gvariant) (parameters : list (string * gvariant)) :
    gmap string gvariant := foldl save_parameter o parameters.

Definition ck_session_leader_set_override_parameters (parameters : option (list (string * gvariant)))
    (leader : CkSessionLeader) : CkSessionLeader :=
  upd_leader (pending_jobs leader) (cancelled leader)
    match parameters with Some l => save_parameters ∅ l | None => ∅ end leader.

(** ** Reading the output of the job *)

(** [g_strsplit (s, "\n", -1)] and [g_strsplit (s, " = ", 2)]. *)
Definition newline : ascii := "010"%char.
Fixpoint split_at (c : ascii) (s : string) : list string :=
  match s with
  | EmptyString => [""]
  | String d s =>
      match split_at c s with
      | [] => []
      | t :: ts => if ascii_eqb d c then "" :: t :: ts else String d t :: ts
      end
  end.
Definition split_lines (s : string) : list string := if String.eqb s "" then [] else split_at newline s.

Definition separator : string := " = ".
Fixpoint split_pair (s : string) : string * option string :=
  match strip_prefix separator s with
  | Some r => ("", Some r)
  | None => match s with
            | EmptyString => ("", None)
            | String c s => let '(a, b) := split_pair s in (String c a, b)
            end
  end.

(** [g_ascii_tolower] and [g_ascii_strncasecmp (s, "TRUE", 4) == 0]. *)
Definition to_lower (c : ascii) : ascii :=
  if is_upper c then Ascii.ascii_of_N (N_of_ascii c + 32) else c.
Fixpoint starts_nocase (prefix s : string) : bool :=
  match prefix, s with
  | EmptyString, _ => true
  | String a prefix, String b s => ascii_eqb (to_lower a) (to_lower b) && starts_nocase prefix s
  | String _ _, EmptyString => false
  end.

Definition LONG_MAX : Z := 2 ^ 63 - 1.
Definition LONG_MIN : Z := - 2 ^ 63.
Definition INT_MAX : Z := 2 ^ 31 - 1.
Definition G_MAXUINT : Z := 2 ^ 32 - 1.
Definition ERANGE : Z := 34.

(** The number, if the checks accept it; [errno] is its value before [strtol],
    which the code never resets. *)
Definition parse_untrusted (errno max : Z) (s : string) : option Z :=
  let '(untrusted_int, erange) := strtol s in
  let errno := if (erange : bool) then ERANGE else errno in
  if (Z.eqb errno ERANGE && (Z.eqb untrusted_int LONG_MAX || Z.eqb untrusted_int LONG_MIN)) ||
     (negb (Z.eqb errno 0) && Z.eqb untrusted_int 0)
  then None
  else if Z.ltb max untrusted_int then None
  else if Z.ltb untrusted_int 0 then None
  else Some untrusted_int.

(** The value of a parameter of type [t]; the outer [None] is the use of the
    NULL pointer that a line without a separator leaves. *)
Definition parse_value (errno : Z) (t : gtype) (val : option string) : option (option gvariant) :=
  v ← val;
  Some match t with
       | G_TYPE_STRING => Some (GvString v)
       | G_TYPE_BOOLEAN => Some (GvBool (starts_nocase "TRUE" v))
       | G_TYPE_INT => GvInt <$> parse_untrusted errno INT_MAX v
       | G_TYPE_UINT => GvUint <$> parse_untrusted errno G_MAXUINT v
       end.

(** One line: nothing, or a parameter. *)
Definition parse_line (leader : CkSessionLeader) (errno : Z) (line : string) :
    option (list (string * gvariant)) :=
  if String.eqb line "" then Some []
  else
    let '(name, val) := split_pair line in
    if have_override_parameter leader name then Some []
    else match lookup_parameter_type name with
         | None => Some []
         | Some t =>
             r ← parse_value errno t val;
             Some match r with Some v => [(name, v)] | None => [] end
         end.

(** [errno n] is the value of [errno] when the [n]th line is read. *)
Fixpoint parse_lines (leader : CkSessionLeader) (errno : nat → Z) (lines : list string) :
    option (list (string * gvariant)) :=
  match lines with
  | [] => Some []
  | line :: lines =>
      ps ← parse_line leader (errno 0) line;
      qs ← parse_lines leader (λ n, errno (S n)) lines;
      Some (ps ++ qs)
  end.

Section leader.
Context {HH : HashOrder}.

Definition parse_output (leader : CkSessionLeader) (errno : nat → Z) (output : string) :
    option (list (string * gvariant)) :=
  ps ← parse_lines leader errno (split_lines output);
  Some (ps ++ hash_order 0 (override_parameters leader)).
End leader.

(** ** Jobs *)

Class LibexecDir := { LIBEXECDIR : string }.

(** The command line of [ck_session_leader_collect_parameters]. *)
Definition collect_command `{LibexecDir} (leader : CkSessionLeader) : string :=
  let x11_display_device :=
    match override_parameters leader !! "x11-display-device" with Some (GvString s) => s | _ => "" end in
  LIBEXECDIR +:+ "/ck-collect-session-info --uid " +:+ fmt_unsigned (u32 (leader_uid leader)) +:+
  " --pid " +:+ fmt_unsigned (u32 (leader_pid leader)) +:+
  (if String.eqb x11_display_device "" then "" else " --x11-display-device " +:+ x11_display_device).

Definition add_pending_job (job : positive) (l : CkSessionLeader) : CkSessionLeader :=
  upd_leader (job :: pending_jobs l) (cancelled l) (override_parameters l) l.
Fixpoint remove_first (job : positive) (l : list positive) : list positive :=
  match l with
  | [] => []
  | j :: l => if decide (j = job) then l else j :: remove_first job l
  end.
Definition remove_pending_job (job : positive) (l : CkSessionLeader) : CkSessionLeader :=
  upd_leader (remove_first job (pending_jobs l)) (cancelled l) (override_parameters l) l.

(** The leader after [ck_session_leader_cancel]; the jobs it lists are killed. *)
Definition ck_session_leader_cancel (l : CkSessionLeader) : CkSessionLeader :=
  upd_leader [] true (override_parameters l) l.

(** The group of [ck_session_leader_dump] in the key file. *)
Definition ck_session_leader_dump (l : CkSessionLeader) : string * list (string * string) :=
  ("SessionLeader " +:+ leader_session_id l,
   [("session", leader_session_id l); ("uid", fmt_int (i32 (leader_uid l))); ("pid", fmt_int (leader_pid l));
    ("service_name", or_empty (leader_service_name l))]).
