(* ===== verification/Collect.v ===== *)
(** * Collecting session information: [src/tools/ck-collect-session-info.c].

    The job of a session leader: it finds out the display, the terminal and the
    login session of a process and prints them, a parameter a line. *)

From S2P Require Import Prelude Scan Console.

(** What a helper program answers: whether it could be run, its exit status
    (-1 when it was not run) and its output. *)
Record spawned := { sp_run : bool; sp_status : Z; sp_out : cstr }.

(** Processes: the terminal ([None]: no such process), the environment, the
    login session, and the helpers run with the filtered environment. *)
Class Processes := {
  HAVE_PAM : bool;
  process_tty : Z → option cstr;
  ck_unix_pid_get_env : Z → string → cstr;
  ck_unix_pid_get_login_session_id : Z → option cstr;
  ck_get_x11_server_pid : Z → Z → spawned;
  ck_get_x11_display_device : Z → Z → spawned
}.

Record SessionInfo := {
  si_uid : Z;
  si_pid : Z;
  si_login_session_id : cstr;
  si_vtnum : Z;
  si_display_device : cstr;
  si_x11_display_device : cstr;
  si_x11_display : cstr;
  si_x11_can_connect : bool;
  si_remote_host_name : cstr;
  si_is_local : bool;
  si_is_local_is_set : bool
}.

Definition set_x11 (display device : cstr) (can_connect : bool) (si : SessionInfo) : SessionInfo :=
  {| si_uid := si_uid si; si_pid := si_pid si; si_login_session_id := si_login_session_id si;
     si_vtnum := si_vtnum si; si_display_device := si_display_device si; si_x11_display_device := device;
     si_x11_display := display; si_x11_can_connect := can_connect;
     si_remote_host_name := si_remote_host_name si; si_is_local := si_is_local si;
     si_is_local_is_set := si_is_local_is_set si |}.
Definition set_local (host : cstr) (b set : bool) (si : SessionInfo) : SessionInfo :=
  {| si_uid := si_uid si; si_pid := si_pid si; si_login_session_id := si_login_session_id si;
     si_vtnum := si_vtnum si; si_display_device := si_display_device si;
     si_x11_display_device := si_x11_display_device si; si_x11_display := si_x11_display si;
     si_x11_can_connect := si_x11_can_connect si; si_remote_host_name := host; si_is_local := b;
     si_is_local_is_set := set |}.
Definition set_login (login : cstr) (vtnum : Z) (display_device : cstr) (si : SessionInfo) : SessionInfo :=
  {| si_uid := si_uid si; si_pid := si_pid si; si_login_session_id := login; si_vtnum := vtnum;
     si_display_device := display_device; si_x11_display_device := si_x11_display_device si;
     si_x11_display := si_x11_display si; si_x11_can_connect := si_x11_can_connect si;
     si_remote_host_name := si_remote_host_name si; si_is_local := si_is_local si;
     si_is_local_is_set := si_is_local_is_set si |}.

(** [g_strstrip]. *)
Fixpoint strip_end (s : string) : string :=
  match s with
  | EmptyString => ""
  | String c s =>
      match strip_end s with
      | EmptyString => if is_space c then "" else String c ""
      | t => String c t
      end
  end.
Definition g_strstrip (s : string) : string := strip_end (skip_space s).

Section collect.
Context {HP : Processes}.

(** [sscanf (out, "%u %c", &v, &c) == 1]: a number and nothing but space. *)
Definition scan_pid (out : string) : option Z :=
  '(v, rest) ← scan_unsigned out;
  if String.eqb (skip_space rest) "" then Some (u32 v) else None.

(** [can_connect] and the pid, 0 if unknown. *)
Definition get_x11_server_pid (si : SessionInfo) : bool * Z :=
  let r := ck_get_x11_server_pid (si_uid si) (si_pid si) in
  if Z.eqb (sp_status r) 0 then
    (true, if sp_run r then match sp_out r with Some out => default 0%Z (scan_pid out) | None => 0%Z end else 0%Z)
  else (false, 0%Z).

Definition fill_x11_info (si : SessionInfo) : SessionInfo :=
  match ck_unix_pid_get_env (si_pid si) "DISPLAY" with
  | None => set_x11 None (si_x11_display_device si) false si
  | Some display =>
      let '(can_connect, xorg_pid) := get_x11_server_pid si in
      if negb can_connect then set_x11 None (si_x11_display_device si) false si
      else
        let si := set_x11 (Some display) (si_x11_display_device si) true si in
        if Z.ltb xorg_pid 2 then set_local (si_remote_host_name si) false true si
        else match process_tty xorg_pid with
        | None => si
        | Some tty =>
            let device :=
              if decide (tty = si_display_device si) then
                let r := ck_get_x11_display_device (si_uid si) (si_pid si) in
                match (if Z.eqb (sp_status r) 0 then (if sp_run r then sp_out r else None) else None) with
                | Some out => Some (g_strstrip out)
                | None => tty
                end
              else tty in
            let si := set_x11 (Some display) device true si in
            if HAVE_PAM then set_local None (si_is_local si) (si_is_local_is_set si) si
            else set_local None true true si
        end
  end.

Definition get_vtnr (si : SessionInfo) : Z :=
  match (match si_x11_display_device si with Some d => Some d | None => si_display_device si end) with
  | Some device => default 0%Z (ck_get_console_num_from_device (Some device))
  | None => 0%Z
  end.

(** The information on the process, [None] if there is no such process. *)
Definition fill_session_info (si : SessionInfo) : option SessionInfo :=
  tty ← process_tty (si_pid si);
  let si := set_login (si_login_session_id si) (si_vtnum si) tty si in
  let si := match si_x11_display_device si with None => fill_x11_info si | Some _ => si end in
  let si := if HAVE_PAM then si
            else if si_is_local_is_set si then si
            else set_local (si_remote_host_name si) true true si in
  let login := match ck_unix_pid_get_login_session_id (si_pid si) with Some l => l | None => None end in
  let si := set_login login (si_vtnum si) (si_display_device si) si in
  Some (set_login login (get_vtnr si) (si_display_device si) si).

Definition print_parameter (name value : string) : string := name +:+ (" = " +:+ (value +:+ String "010"%char "")).
Definition print_optional (name : string) (value : cstr) : string :=
  match value with Some v => print_parameter name v | None => "" end.

Definition print_session_info (si : SessionInfo) : string :=
  print_parameter "unix-user" (fmt_unsigned (u32 (si_uid si))) +:+
  (print_parameter "vtnr" (fmt_unsigned (u32 (si_vtnum si))) +:+
  (print_optional "x11-display" (si_x11_display si) +:+
  (print_optional "x11-display-device" (si_x11_display_device si) +:+
  (print_optional "display-device" (si_display_device si) +:+
  (print_optional "remote-host-name" (si_remote_host_name si) +:+
  ((if si_is_local_is_set si then print_parameter "is-local" (if si_is_local si then "true" else "false") else "") +:+
   print_optional "login-session-id" (si_login_session_id si))))))).

(** What the job prints and whether it exits with status 0. *)
Definition collect_session_info (uid pid : Z) (x11_display_device : cstr) : string * bool :=
  match fill_session_info {| si_uid := uid; si_pid := pid; si_login_session_id := None; si_vtnum := 0;
    si_display_device := None; si_x11_display_device := x11_display_device; si_x11_display := None;
    si_x11_can_connect := false; si_remote_host_name := None; si_is_local := false;
    si_is_local_is_set := false |} with
  | Some si => (print_session_info si, true)
  | None => ("", false)
  end.
End collect.
