(* ===== verification/LeaderFacts.v ===== *)
(** * Session leaders: what the output of the job is read as.

    Every parameter that [parse_output] yields is the caller's, or has the type
    and the range of its entry in the table; and what [Collect] prints for a
    process parses back to the same parameters. *)

From S2P Require Import Prelude Scan Console Leader Collect.

(** ** Types and ranges *)

Definition well_typed (t : gtype) (v : gvariant) : Prop :=
  match t, v with
  | G_TYPE_STRING, GvString _ | G_TYPE_BOOLEAN, GvBool _ => True
  | G_TYPE_INT, GvInt z => (0 ≤ z ≤ INT_MAX)%Z
  | G_TYPE_UINT, GvUint z => (0 ≤ z ≤ G_MAXUINT)%Z
  | _, _ => False
  end.

Lemma parse_untrusted_range e max s z : parse_untrusted e max s = Some z → (0 ≤ z ≤ max)%Z.
Proof.
  unfold parse_untrusted. destruct (strtol s) as [v er]. case_match; [done|].
  destruct (Z.ltb_spec max v); [done|]. destruct (Z.ltb_spec v 0); [done|]. intros [= <-]. lia.
Qed.

Lemma parse_value_typed e t val v : parse_value e t val = Some (Some v) → well_typed t v.
Proof.
  destruct val as [s|]; [|done]. simpl. intros [= H]. destruct t; simplify_eq/=; try done.
  - apply fmap_Some in H as (z & Hz & ->). simpl. by eapply parse_untrusted_range.
  - apply fmap_Some in H as (z & Hz & ->). simpl. by eapply parse_untrusted_range.
Qed.

(** A parameter that was read, not given by the caller. *)
Definition generated (leader : CkSessionLeader) (k : string) (v : gvariant) : Prop :=
  override_parameters leader !! k = None ∧ ∃ t, lookup_parameter_type k = Some t ∧ well_typed t v.

Lemma parse_line_generated leader e line ps k v :
  parse_line leader e line = Some ps → (k, v) ∈ ps → generated leader k v.
Proof.
  unfold parse_line. destruct (String.eqb line ""); [by intros [= <-] ?%elem_of_nil|].
  destruct (split_pair line) as [name val]. destruct (have_override_parameter leader name) eqn:Ho;
    [by intros [= <-] ?%elem_of_nil|].
  destruct (lookup_parameter_type name) as [t|] eqn:Ht; [|by intros [= <-] ?%elem_of_nil].
  destruct (parse_value e t val) as [[u|]|] eqn:Hv; simpl; [|by intros [= <-] ?%elem_of_nil|done].
  intros [= <-] [= -> ->]%list_elem_of_singleton. split.
  - unfold have_override_parameter in Ho. apply bool_decide_eq_false in Ho. by apply eq_None_not_Some.
  - exists t. split; [done|]. by eapply parse_value_typed.
Qed.

Lemma parse_lines_generated leader e lines ps k v :
  parse_lines leader e lines = Some ps → (k, v) ∈ ps → generated leader k v.
Proof.
  revert e ps. induction lines as [|line lines IH]; intros e ps; simpl; [by intros [= <-] ?%elem_of_nil|].
  destruct (parse_line leader (e 0) line) as [ps1|] eqn:E1; [|done]. simpl.
  destruct (parse_lines leader _ lines) as [ps2|] eqn:E2; [|done]. simpl.
  intros [= <-] [H|H]%elem_of_app; [by eapply parse_line_generated|by eapply IH].
Qed.

Section leader.
Context {HH : HashOrder}.

(** What is read from the job's output is safe whatever the output is: each
    parameter of the result is the caller's own, unchanged, or the caller gave
    none of that name and it is an entry of the table, of its type, a user in
    0..INT_MAX and a terminal in 0..UINT_MAX. *)
Theorem parsed_parameters_safe leader errno output ps k v :
  parse_output leader errno output = Some ps → (k, v) ∈ ps →
  override_parameters leader !! k = Some v ∨ generated leader k v.
Proof.
  unfold parse_output. destruct (parse_lines _ _ _) as [qs|] eqn:E; [|done]. simpl.
  intros [= <-] [H|H]%elem_of_app; [right|left].
  - by eapply parse_lines_generated.
  - by apply elem_of_hash_order in H.
Qed.
End leader.

(** ** The round trip through the job *)

Definition one_line (s : string) : bool := sall (λ c, negb (ascii_eqb c newline)) s.

Lemma split_at_line v rest : one_line v → split_at newline (v +:+ String newline rest) = v :: split_at newline rest.
Proof.
  assert (∀ s, split_at newline s ≠ []) as Hne.
  { induction s as [|c s IH]; simpl; [done|]. by destruct (split_at newline s), (ascii_eqb c newline). }
  induction v as [|c v IH]; simpl.
  - intros _. specialize (Hne rest). destruct (split_at newline rest) as [|t ts] eqn:E; done.
  - unfold one_line at 1. cbn [sall]. rewrite andb_True. intros [Hc Hv]. rewrite (IH Hv).
    destruct (ascii_eqb c newline); [done|]. done.
Qed.

Lemma one_line_digits s : sall is_digit s → one_line s.
Proof. apply sall_impl. intros c. by destruct c as [[] [] [] [] [] [] [] []]. Qed.

(** The parameters that the caller did not give. *)
Definition kept (leader : CkSessionLeader) (l : list (string * gvariant)) : list (string * gvariant) :=
  filter (λ p, have_override_parameter leader p.1 = false) l.

Lemma kept_one leader name v : kept leader [(name, v)] = if have_override_parameter leader name then [] else [(name, v)].
Proof. unfold kept. cbn. by destruct (have_override_parameter leader name). Qed.

Lemma kept_cons leader name v l : kept leader ((name, v) :: l) = kept leader [(name, v)] ++ kept leader l.
Proof. apply (filter_app _ [(name, v)] l). Qed.
Lemma kept_app leader l k : kept leader (l ++ k) = kept leader l ++ kept leader k.
Proof. apply filter_app. Qed.

(** What one printed line is read as. *)
Definition reads (leader : CkSessionLeader) (e : Z) (name value : string) (v : gvariant) : Prop :=
  parse_line leader e (name +:+ (separator +:+ value)) = Some (kept leader [(name, v)]).

Lemma parse_lines_step leader e name value v rest qs :
  one_line (name +:+ (separator +:+ value)) → reads leader (e 0) name value v →
  parse_lines leader (λ n, e (S n)) (split_at newline rest) = Some qs →
  parse_lines leader e (split_at newline (print_parameter name value +:+ rest)) =
    Some (kept leader [(name, v)] ++ qs).
Proof.
  intros H1 Hr Hq. unfold print_parameter.
  replace ((name +:+ (" = " +:+ (value +:+ String "010" ""))) +:+ rest)
    with ((name +:+ (separator +:+ value)) +:+ String newline rest).
  - rewrite split_at_line by done. simpl. unfold reads in Hr. rewrite Hr. simpl. by rewrite Hq.
  - unfold separator. by rewrite !sapp_assoc.
Qed.

Lemma reads_string leader e name v :
  lookup_parameter_type name = Some G_TYPE_STRING →
  split_pair (name +:+ (separator +:+ v)) = (name, Some v) → name ≠ "" →
  reads leader e name v (GvString v).
Proof.
  intros Ht Hs Hn. unfold reads, parse_line. rewrite kept_one.
  destruct name as [|c name]; [done|]. rewrite sapp_cons. cbn [String.eqb].
  rewrite <- sapp_cons, Hs. destruct (have_override_parameter _ _); [done|]. by rewrite Ht.
Qed.

Definition optional (name : string) (v : cstr) : list (string * gvariant) :=
  match v with Some s => [(name, GvString s)] | None => [] end.
Definition one_line_opt (v : cstr) : bool := match v with Some s => one_line s | None => true end.

(** The parameters of [si]. *)
Definition session_parameters (si : SessionInfo) : list (string * gvariant) :=
  [("unix-user", GvInt (si_uid si)); ("vtnr", GvUint (si_vtnum si))] ++
  optional "x11-display" (si_x11_display si) ++ optional "x11-display-device" (si_x11_display_device si) ++
  optional "display-device" (si_display_device si) ++ optional "remote-host-name" (si_remote_host_name si) ++
  (if si_is_local_is_set si then [("is-local", GvBool (si_is_local si))] else []) ++
  optional "login-session-id" (si_login_session_id si).

Lemma parse_optional leader e name v rest qs :
  lookup_parameter_type name = Some G_TYPE_STRING → name ≠ "" → one_line name →
  (∀ s, split_pair (name +:+ (separator +:+ s)) = (name, Some s)) → one_line_opt v →
  (∀ e, parse_lines leader e (split_at newline rest) = Some qs) →
  parse_lines leader e (split_at newline (print_optional name v +:+ rest)) = Some (kept leader (optional name v) ++ qs).
Proof.
  intros Ht Hn Hname Hs Hv Hq. destruct v as [v|]; simpl; [|by rewrite sapp_nil_l].
  apply (parse_lines_step _ _ _ _ (GvString v)); [|by apply reads_string|done].
  unfold one_line. rewrite !sall_app, !andb_True. done.
Qed.

Lemma reads_number leader e name z t inj max :
  lookup_parameter_type name = Some t →
  (∀ s, parse_value e t (Some s) = Some (inj <$> parse_untrusted e max s)) →
  split_pair (name +:+ (separator +:+ fmt_unsigned z)) = (name, Some (fmt_unsigned z)) → name ≠ "" →
  (0 ≤ z ≤ max)%Z → (max < LONG_MAX)%Z → (z = 0%Z → e = 0%Z) →
  reads leader e name (fmt_unsigned z) (inj z).
Proof.
  intros Ht Hv Hs Hn Hz Hmax He. unfold reads, parse_line. rewrite kept_one.
  destruct name as [|c name]; [done|]. rewrite sapp_cons. cbn [String.eqb].
  rewrite <- sapp_cons, Hs. destruct (have_override_parameter _ _); [done|].
  rewrite Ht, Hv. unfold parse_untrusted. unfold LONG_MAX, LONG_MIN in *. rewrite strtol_fmt by lia.
  destruct (Z.eqb_spec z (2 ^ 63 - 1)); [lia|]. destruct (Z.eqb_spec z (- 2 ^ 63)); [lia|].
  rewrite andb_false_r. simpl. destruct (Z.eqb_spec z 0) as [->|]; [rewrite He by done|rewrite andb_false_r].
  - simpl. destruct (Z.ltb_spec max 0); [lia|done].
  - simpl. destruct (Z.ltb_spec max z); [lia|]. by destruct (Z.ltb_spec z 0); [lia|].
Qed.

Lemma one_line_param name z : one_line name → one_line (name +:+ (separator +:+ fmt_unsigned z)).
Proof.
  intros H. unfold one_line. rewrite !sall_app, !andb_True. split_and!; [done|done|].
  apply one_line_digits, fmt_unsigned_digits.
Qed.

Section roundtrip.
Context {HH : HashOrder}.

(** C15: The job's report is read back without loss: for a process whose strings
    hold no line break and whose user fits a signed int, what
    ck-collect-session-info prints parses to exactly its parameters, except those
    that the caller gave itself, followed by the caller's own; provided that errno
    is 0 when a user or terminal number that is 0 is read. *)
Theorem collected_info_parses_back leader errno si :
  (0 ≤ si_uid si ≤ INT_MAX)%Z → (0 ≤ si_vtnum si ≤ G_MAXUINT)%Z →
  (si_uid si = 0%Z → errno 0 = 0%Z) → (si_vtnum si = 0%Z → errno 1 = 0%Z) →
  one_line_opt (si_x11_display si) → one_line_opt (si_x11_display_device si) →
  one_line_opt (si_display_device si) → one_line_opt (si_remote_host_name si) →
  one_line_opt (si_login_session_id si) →
  parse_output leader errno (print_session_info si) =
    Some (kept leader (session_parameters si) ++ hash_order 0 (override_parameters leader)).
Proof.
  intros Hu Hv Eu Ev H1 H2 H3 H4 H5. unfold INT_MAX, G_MAXUINT in *.
  assert (parse_lines leader errno (split_lines (print_session_info si)) = Some (kept leader (session_parameters si))) as E.
  - unfold split_lines. destruct (String.eqb_spec (print_session_info si) "") as [E|_]; [done|].
    unfold print_session_info, session_parameters. rewrite !u32_small by lia.
    rewrite <- (sapp_nil_r (print_optional "login-session-id" _)). cbn [app]. rewrite kept_cons, (kept_cons _ "vtnr"), !kept_app.
    rewrite <- (app_nil_r (kept leader (optional "login-session-id" _))).
    apply (parse_lines_step _ _ _ _ (GvInt (si_uid si))).
    { by apply one_line_param. }
    { eapply (reads_number _ _ _ _ _ GvInt); try done. }
    apply (parse_lines_step _ _ _ _ (GvUint (si_vtnum si))).
    { by apply one_line_param. }
    { eapply (reads_number _ _ _ _ _ GvUint); try done. }
    apply parse_optional; try done. intros e1. apply parse_optional; try done. intros e2.
    apply parse_optional; try done. intros e3. apply parse_optional; try done. intros e4.
    assert (∀ e, parse_lines leader e (split_at newline (print_optional "login-session-id" (si_login_session_id si) +:+ "")) =
      Some (kept leader (optional "login-session-id" (si_login_session_id si)) ++ [])) as Hlast.
    { intros e. by apply parse_optional. }
    destruct (si_is_local_is_set si); [|by rewrite sapp_nil_l].
    apply (parse_lines_step _ _ _ _ (GvBool (si_is_local si))); [by destruct (si_is_local si)| |done].
    unfold reads, parse_line. rewrite kept_one. destruct (si_is_local si); simpl; by destruct (have_override_parameter _ _).
  - unfold parse_output. by rewrite E.
Qed.
End roundtrip.

(** ** Runs *)

#[local] Instance any_order : HashOrder :=
  {| hash_order := λ A _ m, map_to_list m; hash_order_perm := λ A _ m, reflexivity _ |}.

(** A leader whose caller gave a user, and the output of a job that disagrees
    and has a number out of range. *)
Definition example_leader (ps : list (string * gvariant)) : CkSessionLeader :=
  ck_session_leader_set_override_parameters (Some ps)
    (ck_session_leader_new 1000 500 (Some ":1.5") "Session1" "cookie").
Definition example_output : string :=
  "unix-user = 0" +:+ String newline ("vtnr = 99999999999" +:+ String newline "is-local = true").

Lemma parsed_parameters_safe_witness :
  parse_output (example_leader [("user", GvInt 1000)]) (λ _, 0%Z) example_output =
    Some [("is-local", GvBool true); ("unix-user", GvInt 1000)] ∧
  generated (example_leader [("user", GvInt 1000)]) "is-local" (GvBool true).
Proof.
  assert (E : parse_output (example_leader [("user", GvInt 1000)]) (λ _, 0%Z) example_output =
    Some [("is-local", GvBool true); ("unix-user", GvInt 1000)]) by (vm_compute; reflexivity).
  split; [exact E|].
  destruct (parsed_parameters_safe _ _ _ _ "is-local" (GvBool true) E ltac:(left)) as [H|H]; [|exact H].
  vm_compute in H. discriminate H.
Defined.

Definition example_info : SessionInfo :=
  {| si_uid := 1000; si_pid := 500; si_login_session_id := Some "7"; si_vtnum := 7;
     si_display_device := Some "/dev/tty7"; si_x11_display_device := Some "/dev/tty7";
     si_x11_display := Some ":0"; si_x11_can_connect := true; si_remote_host_name := None;
     si_is_local := true; si_is_local_is_set := true |}.

(** The caller gave the user and the display's device itself. *)
Lemma collected_info_parses_back_witness :
  let leader := example_leader [("unix-user", GvInt 1001); ("x11-display-device", GvString "/dev/tty8")] in
  parse_output leader (λ _, 0%Z) (print_session_info example_info) =
    Some ([("vtnr", GvUint 7); ("x11-display", GvString ":0"); ("display-device", GvString "/dev/tty7");
           ("is-local", GvBool true); ("login-session-id", GvString "7")] ++
          hash_order 0 (override_parameters leader)).
Proof.
  apply (collected_info_parses_back (example_leader [("unix-user", GvInt 1001); ("x11-display-device", GvString "/dev/tty8")])
    (λ _, 0%Z) example_info); vm_compute; repeat split; try discriminate; reflexivity.
Defined.
