(* ===== verification/Power.v ===== *)
(** * System actions: restart, stop and sleep in [src/ck-manager.c].

    A request is checked against the block locks, then by the authority (polkit
    asks in the background), then announced with a PrepareFor signal; a timeout
    performs it, or the lifting of a delay lock does so earlier.  The inhibit
    manager is the one of [Inhibit]; the sessions enter through the number of
    users. *)

From S2P Require Import Prelude LogEvent Inhibit.
From S2P Require Session.

(** ** What the code is built and run with *)

Inductive auth_backend := HAVE_POLKIT | ENABLE_RBAC_SHUTDOWN | NO_AUTHORITY.
#[export] Instance auth_backend_eq_dec : EqDecision auth_backend.
Proof. solve_decision. Defined.

Class Build := { LIBDIR : string; RBAC_SHUTDOWN_KEY : string; authority : auth_backend }.

(** The names of the user database, the authorizations of RBAC, what the
    platform says it can do, and the sender of a method call. *)
Class Host := {
  pw_name : Z → option string;
  chkauthattr : string → string → bool;
  ck_system_can_suspend : bool;
  ck_system_can_hibernate : bool;
  ck_system_can_hybrid_sleep : bool;
  call_sender : positive → cstr
}.

(** ** Data *)

Inductive CkManagerError :=
| CK_MANAGER_ERROR_FAILED
| CK_MANAGER_ERROR_GENERAL
| CK_MANAGER_ERROR_INSUFFICIENT_PERMISSION
| CK_MANAGER_ERROR_AUTHORIZATION_REQUIRED
| CK_MANAGER_ERROR_NOT_SUPPORTED
| CK_MANAGER_ERROR_BUSY
| CK_MANAGER_ERROR_INHIBITED
| CK_MANAGER_ERROR_INVALID_INPUT
| CK_MANAGER_ERROR_OOM
| CK_MANAGER_ERROR_NO_SEATS
| CK_MANAGER_ERROR_NO_SESSIONS
| CK_MANAGER_ERROR_NOTHING_INHIBITED.

Inductive SIGNALS := PREPARE_FOR_SHUTDOWN | PREPARE_FOR_SLEEP | LAST_SIGNAL.
#[export] Instance SIGNALS_eq_dec : EqDecision SIGNALS.
Proof. solve_decision. Defined.

(** [manager] is left out: there is one. *)
Record SystemActionData := {
  context : positive;
  command : string;
  event_type : CkLogEventType;
  description : string;
  signal : SIGNALS
}.

(** The functions given to [check_system_action]. *)
Inductive AuthorizedCallback := DoRestart | DoStop | DoSuspend | DoHibernate | DoHybridSleep.

(** The callback a check of the authority was started with:
    [auth_ready_callback], [ready_cb] or [logind_ready_cb]. *)
Inductive check_kind := RunCallback (cb : AuthorizedCallback) | AnswerBool | AnswerLogind.

Inductive polkit_result := CheckFailed | Authorized | Challenge | NotAuthorized.
#[export] Instance polkit_result_eq_dec : EqDecision polkit_result.
Proof. solve_decision. Defined.

Record inhibitor_info := {
  i_what : cstr; i_who : cstr; i_why : cstr; i_mode : cstr; i_uid : Z; i_pid : Z
}.
Inductive mvalue := MBool (b : bool) | MStr (s : string) | MHandle (fd : Z) | MInhibitors (l : list inhibitor_info).
Inductive manager_reply := Return (v : option mvalue) | ThrowError (e : CkManagerError).

(** What the daemon does that can be seen: replies, signals on the bus, the
    log, commands, questions to the authority. *)
Inductive power_event :=
| Reply (call : positive) (r : manager_reply)
| EmitPrepareForShutdown (b : bool)
| EmitPrepareForSleep (b : bool)
| LogSystemEvent (t : CkLogEventType)
| SpawnCommand (c : string)
| AskAuthority (call : positive) (action : string) (interactive : bool).

(** The part of [CkManagerPrivate] about system actions, with the live
    [SystemActionData], the armed timeouts (delay and argument), the checks
    the authority has not answered, the method calls received and those
    answered (and freed), what was done, and the next source id. *)
Record power := {
  inhibit_manager : option Inhibit.world;
  manager_bus_proxy : bool;
  system_action_idle_delay : Z;
  system_action_idle_inhibited_delay : Z;
  system_action_idle_id : Z;
  system_action_data : option positive;
  action_datas : gmap positive SystemActionData;
  timeouts : gmap Z (Z * positive);
  checks : gmap positive check_kind;
  calls : gset positive;
  calls_answered : gset positive;
  done_events : list power_event;
  next_source_id : Z
}.

Definition upd_power (i : option Inhibit.world) (id : Z) (ptr : option positive)
    (ds : gmap positive SystemActionData) (ts : gmap Z (Z * positive)) (cs : gmap positive check_kind)
    (ca an : gset positive) (es : list power_event) (n : Z) (p : power) : power :=
  {| inhibit_manager := i; manager_bus_proxy := manager_bus_proxy p;
     system_action_idle_delay := system_action_idle_delay p;
     system_action_idle_inhibited_delay := system_action_idle_inhibited_delay p;
     system_action_idle_id := id; system_action_data := ptr; action_datas := ds; timeouts := ts;
     checks := cs; calls := ca; calls_answered := an; done_events := es; next_source_id := n |}.
Definition set_inhibit i p := upd_power i (system_action_idle_id p) (system_action_data p) (action_datas p)
  (timeouts p) (checks p) (calls p) (calls_answered p) (done_events p) (next_source_id p) p.
Definition set_idle_id id p := upd_power (inhibit_manager p) id (system_action_data p) (action_datas p)
  (timeouts p) (checks p) (calls p) (calls_answered p) (done_events p) (next_source_id p) p.
Definition set_action_data ptr p := upd_power (inhibit_manager p) (system_action_idle_id p) ptr (action_datas p)
  (timeouts p) (checks p) (calls p) (calls_answered p) (done_events p) (next_source_id p) p.
Definition set_datas ds p := upd_power (inhibit_manager p) (system_action_idle_id p) (system_action_data p) ds
  (timeouts p) (checks p) (calls p) (calls_answered p) (done_events p) (next_source_id p) p.
Definition set_timeouts ts n p := upd_power (inhibit_manager p) (system_action_idle_id p) (system_action_data p)
  (action_datas p) ts (checks p) (calls p) (calls_answered p) (done_events p) n p.
Definition set_checks cs p := upd_power (inhibit_manager p) (system_action_idle_id p) (system_action_data p)
  (action_datas p) (timeouts p) cs (calls p) (calls_answered p) (done_events p) (next_source_id p) p.
Definition set_calls ca an p := upd_power (inhibit_manager p) (system_action_idle_id p) (system_action_data p)
  (action_datas p) (timeouts p) (checks p) ca an (done_events p) (next_source_id p) p.
Definition do_event e p := upd_power (inhibit_manager p) (system_action_idle_id p) (system_action_data p)
  (action_datas p) (timeouts p) (checks p) (calls p) (calls_answered p) (done_events p ++ [e]) (next_source_id p) p.

Section power.
Context {HB : Build} {HH : Host} {HEnv : Session.Env}.

Abbreviation prog_ := (prog power).

(** ** Building blocks *)

Definition in_power {A} (f : power → A) : prog_ A := prog_gets f.
Definition perform (e : power_event) : prog_ unit := prog_modify (do_event e).
(** [g_dbus_method_invocation_return_*] takes over and frees the call. *)
Definition reply_to (call : positive) (r : manager_reply) : prog_ unit :=
  λ p, if decide (call ∈ calls_answered p) then None
       else Some (tt, do_event (Reply call r) (set_calls (calls p) ({[call]} ∪ calls_answered p) p)).
Definition throw_error (call : positive) (e : CkManagerError) : prog_ unit := reply_to call (ThrowError e).
Definition deref_data (ptr : positive) : prog_ SystemActionData :=
  λ p, match action_datas p !! ptr with Some x => Some (x, p) | None => None end.
(** A NULL inhibit manager answers FALSE. *)
Definition ask_inhibit (f : Inhibit.world → bool) : prog_ bool :=
  in_power (λ p, match inhibit_manager p with Some w => f w | None => false end).
Definition emit_prepare (s : SIGNALS) (b : bool) : prog_ unit :=
  match s with
  | PREPARE_FOR_SHUTDOWN => perform (EmitPrepareForShutdown b)
  | PREPARE_FOR_SLEEP => perform (EmitPrepareForSleep b)
  | LAST_SIGNAL => prog_abort
  end.

Definition manager_get_caller_info (sender : cstr) : prog_ (option (Z * Z)) :=
  proxy ← in_power manager_bus_proxy;
  mret match sender with
       | None => None
       | Some sender =>
           if (proxy : bool) then
             uid ← Session.bus_unix_user sender; pid ← Session.bus_unix_pid sender; Some (uid, pid)
           else None
       end.

(** ** Performing an action *)

Definition log_system_action_event (t : CkLogEventType) : prog_ unit := perform (LogSystemEvent t).

(** [spawned]: whether the command could be run. *)
Definition do_system_action (spawned : bool) (call : positive) (command : string) (t : CkLogEventType) :
    prog_ unit :=
  log_system_action_event t;;
  perform (SpawnCommand command);;
  if spawned then reply_to call (Return None) else throw_error call CK_MANAGER_ERROR_GENERAL.

Definition system_action_idle_cb (spawned : bool) (data : option positive) : prog_ unit :=
  match data with
  | None => mret tt
  | Some ptr =>
      x ← deref_data ptr;
      do_system_action spawned (context x) (command x) (event_type x);;
      emit_prepare (signal x) false;;
      prog_modify (set_idle_id 0);;
      prog_modify (set_action_data None);;
      prog_modify (λ p, set_datas (delete ptr (action_datas p)) p)
  end.

(** The main loop runs the callback of a timeout that is due and removes the
    source, since the callback returns FALSE. *)
Definition timeout_fires (spawned : bool) (id : Z) : prog_ unit :=
  t ← in_power (λ p, timeouts p !! id);
  match t with
  | None => prog_abort
  | Some (_, ptr) =>
      system_action_idle_cb spawned (Some ptr);;
      prog_modify (λ p, set_timeouts (delete id (timeouts p)) (next_source_id p) p)
  end.

Definition g_timeout_add (delay : Z) (ptr : positive) : prog_ Z :=
  λ p, Some (next_source_id p,
             set_timeouts (<[next_source_id p := (delay, ptr)]> (timeouts p)) (next_source_id p + 1) p).
Definition g_source_remove (id : Z) : prog_ unit :=
  prog_modify (λ p, set_timeouts (delete id (timeouts p)) (next_source_id p) p).

(** The body that do_restart, do_stop, do_suspend, do_hibernate and
    do_hybrid_sleep share.  [g_new0] aborts rather than return NULL. *)
Definition start_action (call : positive) (script : string) (t : CkLogEventType) (descr : string)
    (s : SIGNALS) (is_delayed : Inhibit.world → bool) : prog_ unit :=
  id ← in_power system_action_idle_id;
  if negb (Z.eqb id 0) then throw_error call CK_MANAGER_ERROR_BUSY
  else
    emit_prepare s true;;
    ptr ← in_power (λ p, fresh (dom (action_datas p)));
    prog_modify (λ p, set_datas (<[ptr :=
      {| context := call; command := LIBDIR +:+ "/ConsoleKit/scripts/" +:+ script; event_type := t;
         description := descr; signal := s |}]> (action_datas p)) p);;
    delayed ← ask_inhibit is_delayed;
    delay ← (if (delayed : bool) then
               prog_modify (set_action_data (Some ptr));;
               in_power system_action_idle_inhibited_delay
             else in_power system_action_idle_delay);
    id ← g_timeout_add delay ptr;
    prog_modify (set_idle_id id).

Definition do_restart (call : positive) : prog_ unit :=
  start_action call "ck-system-restart" CK_LOG_EVENT_SYSTEM_RESTART "Restart" PREPARE_FOR_SHUTDOWN
    ck_inhibit_manager_is_shutdown_delayed.
Definition do_stop (call : positive) : prog_ unit :=
  start_action call "ck-system-stop" CK_LOG_EVENT_SYSTEM_STOP "Stop" PREPARE_FOR_SHUTDOWN
    ck_inhibit_manager_is_shutdown_delayed.
Definition do_suspend (call : positive) : prog_ unit :=
  start_action call "ck-system-suspend" CK_LOG_EVENT_SYSTEM_SUSPEND "Suspend" PREPARE_FOR_SLEEP
    ck_inhibit_manager_is_suspend_delayed.
Definition do_hibernate (call : positive) : prog_ unit :=
  start_action call "ck-system-hibernate" CK_LOG_EVENT_SYSTEM_HIBERNATE "Hibernate" PREPARE_FOR_SLEEP
    ck_inhibit_manager_is_suspend_delayed.
Definition do_hybrid_sleep (call : positive) : prog_ unit :=
  start_action call "ck-system-hybridsleep" CK_LOG_EVENT_SYSTEM_HIBERNATE "Hybrid Sleep" PREPARE_FOR_SLEEP
    ck_inhibit_manager_is_suspend_delayed.

Definition run_callback (cb : AuthorizedCallback) : positive → prog_ unit :=
  match cb with
  | DoRestart => do_restart
  | DoStop => do_stop
  | DoSuspend => do_suspend
  | DoHibernate => do_hibernate
  | DoHybridSleep => do_hybrid_sleep
  end.

(** ** Authorization *)

Definition check_polkit_permissions (call : positive) (action : string) (interactivity : bool)
    (cb : AuthorizedCallback) : prog_ unit :=
  perform (AskAuthority call action interactivity);;
  prog_modify (λ p, set_checks (<[call := RunCallback cb]> (checks p)) p).

Definition get_polkit_permissions (call : positive) (action : string) : prog_ unit :=
  perform (AskAuthority call action false);;
  prog_modify (λ p, set_checks (<[call := AnswerBool]> (checks p)) p).
Definition get_polkit_logind_permissions (call : positive) (action : string) : prog_ unit :=
  perform (AskAuthority call action false);;
  prog_modify (λ p, set_checks (<[call := AnswerLogind]> (checks p)) p).

Definition auth_ready_callback (call : positive) (cb : AuthorizedCallback) (r : polkit_result) : prog_ unit :=
  match r with
  | CheckFailed => throw_error call CK_MANAGER_ERROR_INSUFFICIENT_PERMISSION
  | Authorized => run_callback cb call
  | Challenge => throw_error call CK_MANAGER_ERROR_AUTHORIZATION_REQUIRED
  | NotAuthorized => throw_error call CK_MANAGER_ERROR_INSUFFICIENT_PERMISSION
  end.
Definition ready_cb (call : positive) (r : polkit_result) : prog_ unit :=
  match r with
  | CheckFailed => throw_error call CK_MANAGER_ERROR_FAILED
  | Authorized | Challenge => reply_to call (Return (Some (MBool true)))
  | NotAuthorized => reply_to call (Return (Some (MBool false)))
  end.
Definition logind_ready_cb (call : positive) (r : polkit_result) : prog_ unit :=
  match r with
  | CheckFailed => throw_error call CK_MANAGER_ERROR_FAILED
  | Authorized => reply_to call (Return (Some (MStr "yes")))
  | Challenge => reply_to call (Return (Some (MStr "challenge")))
  | NotAuthorized => reply_to call (Return (Some (MStr "no")))
  end.

(** The authority answers the check of a call. *)
Definition authority_answers (call : positive) (r : polkit_result) : prog_ unit :=
  k ← in_power (λ p, checks p !! call);
  prog_modify (λ p, set_checks (delete call (checks p)) p);;
  match k with
  | None => prog_abort
  | Some (RunCallback cb) => auth_ready_callback call cb r
  | Some AnswerBool => ready_cb call r
  | Some AnswerLogind => logind_ready_cb call r
  end.

Definition check_rbac_permissions (call : positive) (action : string) (cb : option AuthorizedCallback) :
    prog_ bool :=
  info ← manager_get_caller_info (call_sender call);
  let res := match info with
             | None => false
             | Some (uid, _) => match pw_name uid with None => false | Some n => chkauthattr action n end
             end in
  (match cb with Some cb => if res then run_callback cb call else mret tt | None => mret tt end);;
  mret res.

Definition check_system_action (interactivity : bool) (call : positive) (action : string)
    (cb : AuthorizedCallback) : prog_ unit :=
  match authority with
  | HAVE_POLKIT => check_polkit_permissions call action interactivity cb
  | ENABLE_RBAC_SHUTDOWN => check_rbac_permissions call RBAC_SHUTDOWN_KEY (Some cb);; mret tt
  | NO_AUTHORITY => run_callback cb call
  end.

Definition check_can_action (call : positive) (action : string) : prog_ unit :=
  match authority with
  | HAVE_POLKIT => get_polkit_logind_permissions call action
  | ENABLE_RBAC_SHUTDOWN =>
      res ← check_rbac_permissions call RBAC_SHUTDOWN_KEY None;
      reply_to call (Return (Some (MStr (if (res : bool) then "yes" else "no"))))
  | NO_AUTHORITY => reply_to call (Return (Some (MStr "yes")))
  end.

(** ** The methods

    [users] is the number of users of [get_system_num_users]. *)

Definition system_action_name (users : N) (base : string) : string :=
  "org.freedesktop.consolekit.system." +:+ base +:+ (if (1 <? users)%N then "-multiple-users" else "").

Definition request (is_blocked : Inhibit.world → bool) (users : N) (base : string) (interactivity : bool)
    (cb : AuthorizedCallback) (call : positive) : prog_ unit :=
  blocked ← ask_inhibit is_blocked;
  if (blocked : bool) then throw_error call CK_MANAGER_ERROR_INHIBITED
  else check_system_action interactivity call (system_action_name users base) cb.

Definition dbus_restart (users : N) := request ck_inhibit_manager_is_shutdown_blocked users "restart" true DoRestart.
Definition dbus_stop (users : N) := request ck_inhibit_manager_is_shutdown_blocked users "stop" true DoStop.
Definition dbus_power_off (users : N) (b : bool) :=
  request ck_inhibit_manager_is_shutdown_blocked users "stop" b DoStop.
Definition dbus_reboot (users : N) (b : bool) :=
  request ck_inhibit_manager_is_shutdown_blocked users "restart" b DoRestart.
Definition dbus_suspend (users : N) (b : bool) :=
  request ck_inhibit_manager_is_suspend_blocked users "suspend" b DoSuspend.
Definition dbus_hibernate (users : N) (b : bool) :=
  request ck_inhibit_manager_is_suspend_blocked users "hibernate" b DoHibernate.
Definition dbus_hybrid_sleep (users : N) (b : bool) :=
  request ck_inhibit_manager_is_suspend_blocked users "hybridsleep" b DoHybridSleep.

(** CanRestart and CanStop do not look at the number of users. *)
Definition can_bool (action : string) (call : positive) : prog_ unit :=
  match authority with
  | HAVE_POLKIT => get_polkit_permissions call action
  | ENABLE_RBAC_SHUTDOWN =>
      res ← check_rbac_permissions call RBAC_SHUTDOWN_KEY None;
      reply_to call (Return (Some (MBool res)))
  | NO_AUTHORITY => reply_to call (Return (Some (MBool true)))
  end.
Definition dbus_can_restart := can_bool "org.freedesktop.consolekit.system.restart".
Definition dbus_can_stop := can_bool "org.freedesktop.consolekit.system.stop".

Definition can_if (supported : bool) (call : positive) (action : string) : prog_ unit :=
  if supported then check_can_action call action else reply_to call (Return (Some (MStr "na"))).
Definition dbus_can_power_off (users : N) (call : positive) : prog_ unit :=
  check_can_action call (system_action_name users "stop").
Definition dbus_can_reboot (users : N) (call : positive) : prog_ unit :=
  check_can_action call (system_action_name users "restart").
Definition dbus_can_suspend (users : N) (call : positive) : prog_ unit :=
  can_if ck_system_can_suspend call (system_action_name users "suspend").
Definition dbus_can_hibernate (users : N) (call : positive) : prog_ unit :=
  can_if ck_system_can_hibernate call (system_action_name users "hibernate").
Definition dbus_can_hybrid_sleep (users : N) (call : positive) : prog_ unit :=
  can_if ck_system_can_hybrid_sleep call (system_action_name users "hybridsleep").

(** ** Inhibitors *)

Definition on_inhibit_manager_changed_event (spawned : bool)
    (ev : CkInhibitMode * CkInhibitEvent * bool) : prog_ unit :=
  let '(inhibit_mode, event, enabled) := ev in
  id ← in_power system_action_idle_id;
  if Z.eqb id 0 then mret tt
  else
    data ← in_power system_action_data;
    match data with
    | None => mret tt
    | Some ptr =>
        x ← deref_data ptr;
        if negb (bool_decide (signal x = PREPARE_FOR_SLEEP)) && negb (bool_decide (signal x = PREPARE_FOR_SHUTDOWN))
        then mret tt
        else if negb (bool_decide (event = CK_INHIBIT_EVENT_SUSPEND)) &&
                negb (bool_decide (event = CK_INHIBIT_EVENT_SHUTDOWN))
        then mret tt
        else if negb (bool_decide (inhibit_mode = CK_INHIBIT_MODE_DELAY)) then mret tt
        else if (enabled : bool) then mret tt
        else
          g_source_remove id;;
          prog_modify (set_idle_id 0);;
          ptr ← in_power system_action_data;
          system_action_idle_cb spawned ptr
    end.

(** An operation of the inhibit manager, followed by the handler of the
    "changed-event" signals it emitted.  (The handler runs inside the operation;
    neither touches the other's state.) *)
Definition on_inhibit_manager {A} (spawned : bool) (f : Inhibit.world → outcome (A * Inhibit.world)) : prog_ A :=
  λ p, match inhibit_manager p with
       | None => None
       | Some w =>
           match f w with
           | Fault _ => None
           | Done (a, w') =>
               (for_each (on_inhibit_manager_changed_event spawned) (drop (length (emitted w)) (emitted w'));;
                mret a) (set_inhibit (Some w') p)
           end
       end.

Definition dbus_inhibit (spawned : bool) (sys : syscalls) (call : positive) (what who why mode : cstr) :
    prog_ unit :=
  info ← manager_get_caller_info (call_sender call);
  match info with
  | None => throw_error call CK_MANAGER_ERROR_GENERAL
  | Some (uid, pid) =>
      m ← in_power inhibit_manager;
      match m with
      | None => throw_error call CK_MANAGER_ERROR_GENERAL
      | Some _ =>
          fd ← on_inhibit_manager spawned (ck_inhibit_manager_create_lock sys who what why mode uid pid);
          if (fd <? 0)%Z then
            if Z.eqb fd CK_INHIBIT_ERROR_INVALID_INPUT then throw_error call CK_MANAGER_ERROR_INVALID_INPUT
            else if Z.eqb fd CK_INHIBIT_ERROR_OOM then throw_error call CK_MANAGER_ERROR_OOM
            else throw_error call CK_MANAGER_ERROR_GENERAL
          else reply_to call (Return (Some (MHandle fd)))
      end
  end.

(** The client of a lock closes its end of the pipe. *)
Definition inhibitor_hangs_up (spawned : bool) (unlinks : string → bool) (i : positive) : prog_ unit :=
  on_inhibit_manager spawned (λ w,
    w' ← cb_named_pipe_close unlinks close_fuel i (set_clients (clients w ∖ {[i]}) w); Done (tt, w')).

Definition inhibitor_row (w : Inhibit.world) (i : positive) : option inhibitor_info :=
  o ← objects w !! i;
  Some {| i_what := ck_inhibit_get_what o; i_who := ck_inhibit_get_who o; i_why := ck_inhibit_get_why o;
          i_mode := ck_inhibit_get_mode o; i_uid := u32 (ck_inhibit_get_uid o);
          i_pid := u32 (ck_inhibit_get_pid o) |}.

(** The "(ssssuu)" format of a NULL string is undefined. *)
Definition printable (r : inhibitor_info) : bool :=
  bool_decide (is_Some (i_what r) ∧ is_Some (i_who r) ∧ is_Some (i_why r) ∧ is_Some (i_mode r)).

Definition dbus_list_inhibitors (call : positive) : prog_ unit :=
  m ← in_power inhibit_manager;
  match m with
  | None => throw_error call CK_MANAGER_ERROR_GENERAL
  | Some w =>
      match ck_inhibit_manager_get_inhibit_list w with
      | [] => throw_error call CK_MANAGER_ERROR_NOTHING_INHIBITED
      | l =>
          match mapM (inhibitor_row w) l with
          | None => prog_abort
          | Some rows =>
              if forallb printable rows then reply_to call (Return (Some (MInhibitors rows)))
              else prog_abort
          end
      end
  end.

(** ** Runs *)

Inductive method :=
| Restart | Stop | PowerOff (b : bool) | Reboot (b : bool)
| Suspend (b : bool) | Hibernate (b : bool) | HybridSleep (b : bool)
| CanRestart | CanStop | CanPowerOff | CanReboot | CanSuspend | CanHibernate | CanHybridSleep.

(** The interface table of [ck_manager_iface_init], as far as it is here. *)
Definition handle (users : N) (m : method) : positive → prog_ unit :=
  match m with
  | Restart => dbus_restart users
  | Stop => dbus_stop users
  | PowerOff b => dbus_power_off users b
  | Reboot b => dbus_reboot users b
  | Suspend b => dbus_suspend users b
  | Hibernate b => dbus_hibernate users b
  | HybridSleep b => dbus_hybrid_sleep users b
  | CanRestart => dbus_can_restart
  | CanStop => dbus_can_stop
  | CanPowerOff => dbus_can_power_off users
  | CanReboot => dbus_can_reboot users
  | CanSuspend => dbus_can_suspend users
  | CanHibernate => dbus_can_hibernate users
  | CanHybridSleep => dbus_can_hybrid_sleep users
  end.

Inductive power_input :=
| InCall (call : positive) (m : method) (users : N)
| InAuthority (call : positive) (r : polkit_result)
| InTimeout (id : Z) (spawned : bool)
| InInhibit (call : positive) (sys : syscalls) (what who why mode : cstr) (spawned : bool)
| InHangup (i : positive) (spawned : bool) (unlinks : string → bool).

(** When an input can happen: a call is new; the authority answers what it was
    asked; a timeout is armed; a client holds its end of the pipe. *)
Definition input_ok (i : power_input) (p : power) : Prop :=
  match i with
  | InCall c _ _ => c ∉ calls p
  | InAuthority c _ => is_Some (checks p !! c)
  | InTimeout id _ => is_Some (timeouts p !! id)
  | InInhibit c sys _ _ _ _ _ => (c ∉ calls p) ∧ sys_sane sys
  | InHangup i _ _ => ∃ w, inhibit_manager p = Some w ∧ i ∈ clients w
  end.

Definition receive (c : positive) (p : power) : power := set_calls ({[c]} ∪ calls p) (calls_answered p) p.

Definition power_run (i : power_input) : prog_ unit :=
  match i with
  | InCall c m users => prog_modify (receive c);; handle users m c
  | InAuthority c r => authority_answers c r
  | InTimeout id spawned => timeout_fires spawned id
  | InInhibit c sys what who why mode spawned =>
      prog_modify (receive c);; dbus_inhibit spawned sys c what who why mode
  | InHangup i spawned unlinks => inhibitor_hangs_up spawned unlinks i
  end.

(** The fields that [ck_manager_init] and [register_manager] set. *)
Definition power_init (i : option Inhibit.world) (proxy : bool) : power :=
  {| inhibit_manager := i; manager_bus_proxy := proxy;
     system_action_idle_delay := 2 * 1000; system_action_idle_inhibited_delay := 8 * 1000;
     system_action_idle_id := 0; system_action_data := None; action_datas := ∅; timeouts := ∅;
     checks := ∅; calls := ∅; calls_answered := ∅; done_events := []; next_source_id := 1 |}.

Inductive power_reachable : power → Prop :=
| power_reach_init proxy : power_reachable (power_init (Some initial_world) proxy)
| power_reach_step i p p' : power_reachable p → input_ok i p → power_run i p = Some (tt, p') →
    power_reachable p'.
End power.
