(* ===== verification/PowerFacts.v ===== *)
(** * System actions: one at a time, answered once, announced and withdrawn.

    The abstract specification of system actions is a machine that is idle or
    prepares one action; [power_refines] shows that every operation of [Power]
    is a run of it.  [pinv] is the invariant: which calls are answered, waiting
    for the authority, or waiting for their action. *)

From S2P Require Import Prelude LogEvent Inhibit InhibitFacts Power.
From S2P Require Session.

(** ** Stepping through programs *)

Ltac pw_step :=
  match goal with
  | |- wp (mret _) _ _ => apply wp_ret
  | |- wp (in_power _) _ _ => apply wp_gets
  | |- wp (prog_modify _) _ _ => apply wp_modify
  | |- wp (perform _) _ _ => apply wp_modify
  | |- wp (mbind _ _) _ _ => apply wp_bind
  end.
Ltac pws := repeat pw_step.

(** ** The specification *)

Section spec.
Context {HB : Build}.

(** The five actions: script, log record, announcement. *)
Definition action_table : list (string * CkLogEventType * SIGNALS) :=
  map (λ '(script, t, s), (LIBDIR +:+ "/ConsoleKit/scripts/" +:+ script, t, s))
    [("ck-system-restart", CK_LOG_EVENT_SYSTEM_RESTART, PREPARE_FOR_SHUTDOWN);
     ("ck-system-stop", CK_LOG_EVENT_SYSTEM_STOP, PREPARE_FOR_SHUTDOWN);
     ("ck-system-suspend", CK_LOG_EVENT_SYSTEM_SUSPEND, PREPARE_FOR_SLEEP);
     ("ck-system-hibernate", CK_LOG_EVENT_SYSTEM_HIBERNATE, PREPARE_FOR_SLEEP);
     ("ck-system-hybridsleep", CK_LOG_EVENT_SYSTEM_HIBERNATE, PREPARE_FOR_SLEEP)].
Definition valid_action (x : SystemActionData) : Prop :=
  (command x, event_type x, signal x) ∈ action_table.

Definition prepare_event (s : SIGNALS) (b : bool) : power_event :=
  match s with PREPARE_FOR_SHUTDOWN => EmitPrepareForShutdown b | _ => EmitPrepareForSleep b end.

(** What may happen at any time: questions, and replies to other calls. *)
Definition chatter (o : option SystemActionData) (e : power_event) : Prop :=
  match e with
  | Reply c _ => ∀ x, o = Some x → c ≠ context x
  | AskAuthority _ _ _ => True
  | _ => False
  end.

(** Idle, or preparing an action for a call. *)
Inductive spec_step : option SystemActionData → list power_event → option SystemActionData → Prop :=
| spec_talk o e : chatter o e → spec_step o [e] o
| spec_prepare x : valid_action x → spec_step None [prepare_event (signal x) true] (Some x)
| spec_perform x (spawned : bool) :
    spec_step (Some x)
      [LogSystemEvent (event_type x); SpawnCommand (command x);
       Reply (context x) (if spawned then Return None else ThrowError CK_MANAGER_ERROR_GENERAL);
       prepare_event (signal x) false] None.

Inductive spec_run : option SystemActionData → list power_event → option SystemActionData → Prop :=
| spec_nil o : spec_run o [] o
| spec_cons o1 t1 o2 t2 o3 : spec_step o1 t1 o2 → spec_run o2 t2 o3 → spec_run o1 (t1 ++ t2) o3.

Lemma spec_one o t o' : spec_step o t o' → spec_run o t o'.
Proof. intros H. rewrite <- (app_nil_r t). by eapply spec_cons, spec_nil. Qed.
Lemma spec_app o1 t1 o2 t2 o3 : spec_run o1 t1 o2 → spec_run o2 t2 o3 → spec_run o1 (t1 ++ t2) o3.
Proof. induction 1; [done|]. intros. rewrite <- (assoc_L (++)). by eapply spec_cons; [|eauto]. Qed.

Lemma valid_signal x : valid_action x → signal x ≠ LAST_SIGNAL.
Proof.
  unfold valid_action, action_table. intros H Hs. rewrite Hs in H.
  repeat (apply elem_of_cons in H as [[=]|H]); by apply elem_of_nil in H.
Qed.
End spec.

(** ** The invariant *)

Definition is_reply_to (c : positive) (e : power_event) : bool :=
  match e with Reply c' _ => bool_decide (c' = c) | _ => false end.
Definition replies_to (c : positive) (es : list power_event) : nat :=
  length (filter (λ e, is_reply_to c e = true) es).

Lemma replies_app c es es' : replies_to c (es ++ es') = replies_to c es + replies_to c es'.
Proof. unfold replies_to. by rewrite filter_app, length_app. Qed.
Lemma replies_other c e : (∀ c' r, e = Reply c' r → c' ≠ c) → replies_to c [e] = 0.
Proof.
  intros H. unfold replies_to. destruct e as [c' r| | | | |]; try done.
  rewrite filter_cons_False; [done|]. simpl. rewrite bool_decide_eq_true. by eapply H.
Qed.
Lemma replies_self c r : replies_to c [Reply c r] = 1.
Proof. unfold replies_to. rewrite filter_cons_True; [done|]. simpl. by rewrite bool_decide_eq_true. Qed.

(** The private fields in the state [o]: no action, or the action [x] with its
    timeout, the long delay being kept with a pointer to the data. *)
Inductive action_state (p : power) : option SystemActionData → Prop :=
| state_idle :
    system_action_idle_id p = 0%Z → system_action_data p = None → action_datas p = ∅ → timeouts p = ∅ →
    action_state p None
| state_pending ptr x (delayed : bool) :
    (0 < system_action_idle_id p < next_source_id p)%Z →
    action_datas p = {[ptr := x]} →
    timeouts p = {[system_action_idle_id p :=
      (if delayed then system_action_idle_inhibited_delay p else system_action_idle_delay p, ptr)]} →
    system_action_data p = (if delayed then Some ptr else None) →
    action_state p (Some x).

Definition pending (p : power) : option SystemActionData :=
  if decide (system_action_idle_id p = 0%Z) then None
  else t ← timeouts p !! system_action_idle_id p; action_datas p !! t.2.

Lemma pending_state p o : action_state p o → pending p = o.
Proof.
  unfold pending. destruct 1 as [Hid|ptr x delayed Hid Hd Ht]; [by rewrite decide_True|].
  rewrite decide_False, Ht, lookup_singleton_eq by lia. simpl. by rewrite Hd, lookup_singleton_eq.
Qed.

Definition held_call (o : option SystemActionData) : gset positive :=
  match o with Some x => {[context x]} | None => ∅ end.

(** ** Where every call is

    The calls [C] are answered ([A]), waiting for the authority ([W]), held by
    the pending action ([H]), or in hand or lost ([L]). *)
Record account (C A W H L : gset positive) : Prop := {
  ac_all : ∀ c, c ∈ C ↔ c ∈ A ∨ c ∈ W ∨ c ∈ H ∨ c ∈ L;
  ac_answered : ∀ c, c ∈ A → (c ∉ W) ∧ (c ∉ H) ∧ (c ∉ L);
  ac_waiting : ∀ c, c ∈ W → (c ∉ H) ∧ (c ∉ L);
  ac_held : ∀ c, c ∈ H → (c ∉ L)
}.

Section account.
Implicit Types C A W H L : gset positive.

(** A call [c] in hand leaves the rest as it was. *)
Lemma account_move C A W H A' W' H' c L :
  account C A W H ({[c]} ∪ L) → c ∉ L →
  (∀ x, x ≠ c → (x ∈ A' ↔ x ∈ A) ∧ (x ∈ W' ↔ x ∈ W) ∧ (x ∈ H' ↔ x ∈ H)) →
  (c ∈ A' ∧ (c ∉ W') ∧ (c ∉ H')) ∨ ((c ∉ A') ∧ c ∈ W' ∧ (c ∉ H')) ∨ ((c ∉ A') ∧ (c ∉ W') ∧ c ∈ H') →
  account C A' W' H' L.
Proof.
  intros [H1 H2 H3 H4] HcL Hx Hc.
  split; intros d; specialize (H1 d); specialize (H2 d); specialize (H3 d); specialize (H4 d);
    specialize (Hx d); rewrite ?elem_of_union, ?elem_of_singleton in *;
    (destruct (decide (d = c)) as [<-|Hne]; [clear Hx|specialize (Hx Hne)]); tauto.
Qed.

Lemma account_answer C A W H c L :
  account C A W H ({[c]} ∪ L) → c ∉ L → account C ({[c]} ∪ A) W H L.
Proof.
  intros Ha HcL. eapply account_move; [done|done| |left].
  - intros x Hx. rewrite elem_of_union, elem_of_singleton. tauto.
  - destruct Ha as [_ H2 H3 H4]. specialize (H3 c). specialize (H4 c).
    rewrite elem_of_union, elem_of_singleton in *. tauto.
Qed.
Lemma account_ask C A W H c L :
  account C A W H ({[c]} ∪ L) → c ∉ L → account C A ({[c]} ∪ W) H L.
Proof.
  intros Ha HcL. eapply account_move; [done|done| |right; left].
  - intros x Hx. rewrite elem_of_union, elem_of_singleton. tauto.
  - destruct Ha as [_ H2 H3 H4]. specialize (H2 c). specialize (H4 c).
    rewrite elem_of_union, elem_of_singleton in *. tauto.
Qed.
Lemma account_hold C A W c L :
  account C A W ∅ ({[c]} ∪ L) → c ∉ L → account C A W {[c]} L.
Proof.
  intros Ha HcL. eapply account_move; [done|done| |right; right].
  - intros x Hx. rewrite elem_of_empty, elem_of_singleton. tauto.
  - destruct Ha as [_ H2 H3 H4]. specialize (H2 c). specialize (H3 c).
    rewrite elem_of_union, elem_of_singleton in *. tauto.
Qed.
Lemma account_perform C A W c L : account C A W {[c]} L → account C ({[c]} ∪ A) W ∅ L.
Proof.
  intros [H1 H2 H3 H4]. split; intros d; specialize (H1 d); specialize (H2 d); specialize (H3 d);
    specialize (H4 d); rewrite ?elem_of_union, ?elem_of_singleton, ?elem_of_empty in *;
    destruct (decide (d = c)); tauto.
Qed.
Lemma account_receive C A W H L c :
  account C A W H L → c ∉ C → account ({[c]} ∪ C) A W H ({[c]} ∪ L) ∧ (c ∉ L).
Proof.
  intros [H1 H2 H3 H4] Hc. split; [|specialize (H1 c); tauto].
  split; intros d; pose proof (H1 c); specialize (H1 d); specialize (H2 d); specialize (H3 d);
    specialize (H4 d); rewrite ?elem_of_union, ?elem_of_singleton in *;
    destruct (decide (d = c)) as [->|]; tauto.
Qed.
Lemma account_unask C A W H L c :
  account C A W H L → c ∈ W → account C A (W ∖ {[c]}) H ({[c]} ∪ L) ∧ (c ∉ L).
Proof.
  intros [H1 H2 H3 H4] Hc. split; [|specialize (H3 c); tauto].
  split; intros d; specialize (H1 d); specialize (H2 d); specialize (H3 d); specialize (H4 d);
    rewrite ?elem_of_union, ?elem_of_difference, ?elem_of_singleton in *;
    destruct (decide (d = c)) as [->|]; tauto.
Qed.
End account.

Section facts.
Context {HB : Build} {HH : Host} {HEnv : Session.Env}.

(** The authority is asked about the action that its answer will start. *)
Definition action_base (cb : AuthorizedCallback) : string :=
  match cb with
  | DoRestart => "restart" | DoStop => "stop" | DoSuspend => "suspend" | DoHibernate => "hibernate"
  | DoHybridSleep => "hybridsleep"
  end.
Definition asked (c : positive) (cb : AuthorizedCallback) (es : list power_event) : Prop :=
  ∃ users b, AskAuthority c (system_action_name users (action_base cb)) b ∈ es.
Definition asked_all (p : power) : Prop :=
  ∀ c cb, checks p !! c = Some (RunCallback cb) → asked c cb (done_events p).

Lemma asked_grows c cb es es' : asked c cb es → asked c cb (es ++ es').
Proof. intros (u & b & H). exists u, b. apply elem_of_app. by left. Qed.
Lemma asked_all_grows p p' tr : asked_all p → checks p' = checks p → done_events p' = done_events p ++ tr →
  asked_all p'.
Proof. intros H E1 E2 c cb Hc. rewrite E2. apply asked_grows, H. by rewrite <- E1. Qed.

(** [L]: the calls received that will never be answered, and the one in hand. *)
Record pinv (L : gset positive) (p : power) (o : option SystemActionData) : Prop := {
  pi_inhibit : ∃ w, inhibit_manager p = Some w ∧ Inhibit.reachable w;
  pi_next : (0 < next_source_id p)%Z;
  pi_action : action_state p o;
  pi_valid : ∀ x, o = Some x → valid_action x;
  pi_calls : account (calls p) (calls_answered p) (dom (checks p)) (held_call o) L;
  pi_replies : ∀ c, replies_to c (done_events p) = if decide (c ∈ calls_answered p) then 1 else 0;
  pi_delays : system_action_idle_delay p = 2000%Z ∧ system_action_idle_inhibited_delay p = 8000%Z;
  pi_asked : asked_all p
}.

(** From [p] in the abstract state [o], a run of the specification to [p']. *)
Definition goes (L : gset positive) (p : power) (o : option SystemActionData) (p' : power) : Prop :=
  ∃ tr o', done_events p' = done_events p ++ tr ∧ spec_run o tr o' ∧ pinv L p' o'.

Lemma goes_refl L p o : pinv L p o → goes L p o p.
Proof. intros. exists [], o. rewrite app_nil_r. by split_and!; [|constructor|]. Qed.
Lemma goes_mono L p1 o1 p2 (P : power → Prop) :
  goes L p1 o1 p2 →
  (∀ tr o2, done_events p2 = done_events p1 ++ tr → spec_run o1 tr o2 → pinv L p2 o2 → P p2) → P p2.
Proof. intros (tr & o2 & H1 & H2 & H3) HP. by eapply HP. Qed.
Lemma goes_trans L L' p1 o1 p2 p3 :
  goes L p1 o1 p2 → (∀ o2, pinv L p2 o2 → goes L' p2 o2 p3) → goes L' p1 o1 p3.
Proof.
  intros (t1 & o2 & E1 & R1 & I2) H. destruct (H o2 I2) as (t2 & o3 & E2 & R2 & I3).
  exists (t1 ++ t2), o3. rewrite E2, E1, (assoc_L (++)). by split_and!; [|by eapply spec_app|].
Qed.

Implicit Types (p : power) (o : option SystemActionData) (L : gset positive).

(** ** Replies and questions *)

Lemma account_in_hand C A W H c L : account C A W H ({[c]} ∪ L) → (c ∉ A) ∧ (c ∉ H).
Proof.
  intros [_ H2 _ H4]. specialize (H2 c). specialize (H4 c).
  rewrite elem_of_union, elem_of_singleton in *. tauto.
Qed.

Lemma wp_reply c r L p o : pinv ({[c]} ∪ L) p o → c ∉ L →
  wp (reply_to c r) (λ _ p', goes L p o p') p.
Proof.
  intros [Hi Hn Ha Hv Hc Hr Hdl Hask] HcL. destruct (account_in_hand _ _ _ _ _ _ Hc) as [HcA HcH].
  unfold wp, reply_to. rewrite decide_False by done. exists [Reply c r], o. split_and!; [done| |].
  - apply spec_one, spec_talk. simpl. intros x -> ->. apply HcH. simpl. by apply elem_of_singleton.
  - split; simpl; try done.
    + destruct Ha; [by apply state_idle|by eapply state_pending].
    + by apply account_answer.
    + intros c'. rewrite replies_app, Hr. destruct (decide (c' = c)) as [->|Hne].
      * rewrite replies_self, decide_False, decide_True; [done| |done]. by apply elem_of_union_l, elem_of_singleton.
      * rewrite replies_other by congruence. rewrite Nat.add_0_r. apply decide_ext.
        rewrite elem_of_union, elem_of_singleton. tauto.
    + by eapply asked_all_grows.
Qed.

Lemma wp_ask c action b k L p o : pinv ({[c]} ∪ L) p o → c ∉ L →
  (∀ cb, k = RunCallback cb → ∃ users, action = system_action_name users (action_base cb)) →
  wp (perform (AskAuthority c action b);; prog_modify (λ p, set_checks (<[c := k]> (checks p)) p))
    (λ _ p', goes L p o p') p.
Proof.
  intros [Hi Hn Ha Hv Hc Hr Hdl Hask] HcL Hk. pws.
  exists [AskAuthority c action b], o. split_and!; [done|by apply spec_one, spec_talk|].
  split; simpl; try done.
  - destruct Ha; [by apply state_idle|by eapply state_pending].
  - rewrite dom_insert_L. by apply account_ask.
  - intros c'. rewrite replies_app, Hr, replies_other by done. lia.
  - intros c' cb Hcb. simpl in *. apply lookup_insert_Some in Hcb as [[<- ->]|[_ Hcb]].
    + destruct (Hk cb eq_refl) as [u ->]. exists u, b. apply elem_of_app. right. by left.
    + by apply asked_grows, Hask.
Qed.

(** ** Starting an action *)

Lemma wp_emit_prepare s b Q p : s ≠ LAST_SIGNAL →
  Q tt (do_event (prepare_event s b) p) → wp (emit_prepare s b) Q p.
Proof. intros Hs HQ. by destruct s. Qed.

Lemma wp_ask_inhibit f (Q : bool → power → Prop) p w : inhibit_manager p = Some w → Q (f w) p →
  wp (ask_inhibit f) Q p.
Proof. intros Hw HQ. unfold wp, ask_inhibit, in_power, prog_gets. by rewrite Hw. Qed.

Lemma replies_log c t : replies_to c [LogSystemEvent t] = 0.
Proof. done. Qed.
Lemma replies_spawn c s : replies_to c [SpawnCommand s] = 0.
Proof. done. Qed.
Lemma replies_prepare c s b : replies_to c [prepare_event s b] = 0.
Proof. by destruct s. Qed.

Lemma wp_start c script t d s f L p o :
  pinv ({[c]} ∪ L) p o → c ∉ L →
  (LIBDIR +:+ "/ConsoleKit/scripts/" +:+ script, t, s) ∈ action_table →
  wp (start_action c script t d s f) (λ _ p', goes L p o p') p.
Proof.
  intros Hp HcL Hs. unfold start_action. pws.
  destruct (Z.eqb_spec (system_action_idle_id p) 0) as [Hid|Hid]; simpl; [|by apply wp_reply].
  pose proof (pi_inhibit _ _ _ Hp) as (w & Hw & Hrw).
  destruct Hp as [Hi Hn Ha Hv Hc Hr Hdl Hask].
  destruct Ha as [_ Hd Hds Ht|]; [|lia].
  set (x := {| context := c; command := LIBDIR +:+ "/ConsoleKit/scripts/" +:+ script; event_type := t;
               description := d; signal := s |}).
  assert (valid_action x) as Hx by done.
  pws. apply wp_emit_prepare; [by apply (valid_signal x)|]. pws.
  eapply wp_ask_inhibit; [done|].
  assert (∀ delayed : bool, goes L p None
    (set_idle_id (next_source_id p) (set_timeouts (<[next_source_id p :=
       (if delayed then system_action_idle_inhibited_delay p else system_action_idle_delay p,
        fresh (dom (action_datas p)))]> (timeouts p)) (next_source_id p + 1)
      (set_action_data (if delayed then Some (fresh (dom (action_datas p))) else system_action_data p)
        (set_datas (<[fresh (dom (action_datas p)) := x]> (action_datas p))
           (do_event (prepare_event s true) p)))))) as HQ.
  { intros delayed. exists [prepare_event s true], (Some x).
    split_and!; [done|apply spec_one, (spec_prepare x Hx)|].
    split; simpl; try done.
    - lia.
    - eapply (state_pending _ (fresh (dom (action_datas p))) x delayed); simpl.
      + lia.
      + by rewrite Hds.
      + by rewrite Ht.
      + by destruct delayed.
    - by intros y [= <-].
    - by apply account_hold.
    - intros c'. rewrite replies_app, Hr, replies_prepare. lia.
    - by eapply asked_all_grows. }
  destruct (f w); pws; simpl.
  - exact (HQ true).
  - exact (HQ false).
Qed.

Lemma wp_run_callback cb c L p o : pinv ({[c]} ∪ L) p o → c ∉ L →
  wp (run_callback cb c) (λ _ p', goes L p o p') p.
Proof.
  intros Hp Hc. destruct cb; apply wp_start; try done; unfold action_table; simpl;
    rewrite !elem_of_cons; tauto.
Qed.

(** ** Performing the action *)

(** What [system_action_idle_cb] does, exactly. *)
Definition action_result (spawned : bool) : manager_reply :=
  if spawned then Return None else ThrowError CK_MANAGER_ERROR_GENERAL.
Definition replied (c : positive) (r : manager_reply) (p : power) : power :=
  do_event (Reply c r) (set_calls (calls p) ({[c]} ∪ calls_answered p) p).
Definition freed (ptr : positive) (p : power) : power := set_datas (delete ptr (action_datas p)) p.
Definition performed (spawned : bool) (ptr : positive) (x : SystemActionData) (p : power) : power :=
  freed ptr (set_action_data None (set_idle_id 0
    (do_event (prepare_event (signal x) false) (replied (context x) (action_result spawned)
      (do_event (SpawnCommand (command x)) (do_event (LogSystemEvent (event_type x)) p)))))).

Lemma wp_reply_to c r Q p : c ∉ calls_answered p → Q tt (replied c r p) → wp (reply_to c r) Q p.
Proof. intros Hc HQ. unfold wp, reply_to. by rewrite decide_False. Qed.

Lemma wp_idle_cb spawned ptr x Q p :
  action_datas p !! ptr = Some x → signal x ≠ LAST_SIGNAL → context x ∉ calls_answered p →
  Q tt (performed spawned ptr x p) → wp (system_action_idle_cb spawned (Some ptr)) Q p.
Proof.
  intros Hx Hs Hc HQ. unfold system_action_idle_cb. pws. unfold wp at 1, deref_data. rewrite Hx.
  unfold do_system_action, log_system_action_event. pws.
  destruct spawned; (apply wp_reply_to; [done|]; cbv beta; pws; apply wp_emit_prepare; [done|]; cbv beta;
    pws; exact HQ).
Qed.

(** The state of a pending action. *)
Lemma pinv_pending L p x : pinv L p (Some x) →
  ∃ ptr d, action_datas p !! ptr = Some x ∧ timeouts p = {[system_action_idle_id p := (d, ptr)]} ∧
    signal x ≠ LAST_SIGNAL ∧ (context x ∉ calls_answered p) ∧ system_action_idle_id p ≠ 0%Z ∧
    (system_action_data p = None ∨ system_action_data p = Some ptr) ∧
    ∀ spawned, goes L p (Some x)
      (set_timeouts (delete (system_action_idle_id p) (timeouts p)) (next_source_id p) (performed spawned ptr x p)).
Proof.
  intros [Hi Hn Ha Hv Hc Hr Hdl Hask]. inversion Ha as [|ptr y delayed Hid Hds Ht Hd]; subst y.
  assert (context x ∉ calls_answered p) as Hx.
  { intros H. destruct (ac_answered _ _ _ _ _ Hc _ H) as (_ & H' & _). apply H'. simpl. by apply elem_of_singleton. }
  exists ptr, (if delayed then system_action_idle_inhibited_delay p else system_action_idle_delay p).
  split_and!; try done.
  - by rewrite Hds, lookup_singleton_eq.
  - by apply valid_signal, Hv.
  - lia.
  - destruct delayed; auto.
  - intros spawned. eexists _, None. split_and!.
    + simpl. by rewrite <- !(assoc_L (++)).
    + apply spec_one, (spec_perform x spawned).
    + split; simpl; try done.
      * apply state_idle; simpl; [done|done|..].
        -- by rewrite Hds, delete_singleton_eq.
        -- by rewrite Ht, delete_singleton_eq.
      * by apply account_perform.
      * intros c. simpl. rewrite !replies_app, Hr, replies_prepare, replies_log, replies_spawn.
        destruct (decide (c = context x)) as [->|Hne].
        -- rewrite replies_self, decide_False, decide_True; [done| |done].
           by apply elem_of_union_l, elem_of_singleton.
        -- rewrite replies_other by congruence. rewrite !Nat.add_0_r. apply decide_ext.
           rewrite elem_of_union, elem_of_singleton. tauto.
      * eapply asked_all_grows; [done..|]. simpl. by rewrite <- !(assoc_L (++)).
Qed.

Lemma wp_timeout spawned id L p o : pinv L p o → is_Some (timeouts p !! id) →
  wp (timeout_fires spawned id) (λ _ p', goes L p o p' ∧ pending p' = None) p.
Proof.
  intros Hp Hid. destruct o as [x|].
  - destruct (pinv_pending L p x Hp) as (ptr & d & Hx & Ht & Hs & Hc & Hi & _ & Hg).
    assert (id = system_action_idle_id p) as ->.
    { rewrite Ht in Hid. destruct Hid as [? Hid]. by apply lookup_singleton_Some in Hid as [<- _]. }
    unfold timeout_fires. pws. rewrite Ht, lookup_singleton_eq. pws.
    eapply wp_idle_cb; [done..|]. pws. split; [exact (Hg spawned)|done].
  - pose proof (pi_action _ _ _ Hp) as Ha. inversion Ha as [_ _ _ Ht|].
    rewrite Ht in Hid. by destruct Hid.
Qed.

(** ** Inhibitors *)

Lemma wp_changed_event spawned ev L p o : pinv L p o →
  wp (on_inhibit_manager_changed_event spawned ev) (λ _ p', goes L p o p') p.
Proof.
  intros Hp. destruct ev as [[m e] b]. unfold on_inhibit_manager_changed_event. pws.
  destruct (Z.eqb_spec (system_action_idle_id p) 0) as [Hz|Hz]; [by apply wp_ret, goes_refl|].
  destruct o as [x|]; [|by pose proof (pi_action _ _ _ Hp) as Ha; inversion Ha].
  destruct (pinv_pending L p x Hp) as (ptr & d & Hx & Ht & Hs & Hc & Hi & Hptr & Hg).
  pws. destruct Hptr as [->|Hptr]; [by apply wp_ret, goes_refl|]. rewrite Hptr. pws.
  unfold wp at 1, deref_data. rewrite Hx.
  repeat match goal with
  | |- wp (if ?b then mret tt else _) _ _ => destruct b; [by apply wp_ret, goes_refl|]
  end.
  unfold g_source_remove. pws. simpl. rewrite Hptr.
  eapply (wp_idle_cb _ ptr x); [done..|]. exact (Hg spawned).
Qed.

Lemma wp_changed_events spawned evs L p o : pinv L p o →
  wp (for_each (on_inhibit_manager_changed_event spawned) evs) (λ _ p', goes L p o p') p.
Proof.
  revert p o. induction evs as [|ev evs IH]; intros p o Hp; [by apply wp_ret, goes_refl|].
  apply wp_bind. eapply wp_mono; [by apply wp_changed_event|]. intros [] p1 H1.
  destruct H1 as (tr & o1 & E1 & R1 & I1). eapply wp_mono; [by apply IH|]. intros [] p2 H2.
  eapply goes_trans; [by exists tr, o1|]. intros o2 I2.
  assert (o2 = o1) as ->; [|done].
  apply pi_action, pending_state in I1. apply pi_action, pending_state in I2. congruence.
Qed.

Lemma goes_set_inhibit w L p o : pinv L p o → Inhibit.reachable w → pinv L (set_inhibit (Some w) p) o.
Proof.
  intros [Hi Hn Ha Hv Hc Hr Hdl Hask] Hw. split; simpl; try done; [by exists w|].
  destruct Ha; [by apply state_idle|by eapply state_pending].
Qed.

Lemma wp_on_inhibit {A} spawned (f : Inhibit.world → outcome (A * Inhibit.world)) L p o :
  pinv L p o →
  (∀ w, inhibit_manager p = Some w → ∃ a w', f w = Done (a, w') ∧ Inhibit.reachable w') →
  wp (on_inhibit_manager spawned f) (λ _ p', goes L p o p') p.
Proof.
  intros Hp Hf. destruct (pi_inhibit _ _ _ Hp) as (w & Hw & Hrw).
  destruct (Hf w Hw) as (a & w' & Ew & Hw'). unfold wp, on_inhibit_manager. rewrite Hw, Ew.
  change (wp (for_each (on_inhibit_manager_changed_event spawned) (drop (length (emitted w)) (emitted w'));; mret a)
            (λ _ p', goes L p o p') (set_inhibit (Some w') p)).
  apply wp_bind. eapply wp_mono; [apply wp_changed_events, goes_set_inhibit; [exact Hp|done]|].
  intros [] p' (tr & o' & E & R & I). apply wp_ret. by exists tr, o'.
Qed.

(** ** Every input *)

(** The call in hand is settled, or, with RBAC, lost. *)
Definition settles (c : positive) L p o p' : Prop :=
  goes L p o p' ∨ (authority = ENABLE_RBAC_SHUTDOWN ∧ goes ({[c]} ∪ L) p o p').

Lemma wp_caller_info s (Q : option (Z * Z) → power → Prop) p :
  (∀ i, Q i p) → wp (manager_get_caller_info s) Q p.
Proof. intros HQ. unfold manager_get_caller_info. pws. apply HQ. Qed.

Lemma wp_check_rbac_ask c action (Q : bool → power → Prop) p :
  (∀ b, Q b p) → wp (check_rbac_permissions c action None) Q p.
Proof. intros HQ. unfold check_rbac_permissions. pws. apply wp_caller_info. intros i. pws. apply HQ. Qed.

Lemma wp_check_system_action b c users cb L p o : pinv ({[c]} ∪ L) p o → c ∉ L →
  wp (check_system_action b c (system_action_name users (action_base cb)) cb) (λ _ p', settles c L p o p') p.
Proof.
  intros Hp Hc. unfold check_system_action. destruct authority eqn:Ha.
  - eapply wp_mono; [apply wp_ask; [done..|]; intros cb' [= ->]; by eexists|]. intros [] p'. by left.
  - unfold check_rbac_permissions. pws. apply wp_caller_info. intros i. pws.
    destruct i as [[uid ?]|]; [|by apply wp_ret; pws; right; split; [|apply goes_refl]].
    destruct (pw_name uid) as [n|]; [|by apply wp_ret; pws; right; split; [|apply goes_refl]].
    destruct (chkauthattr RBAC_SHUTDOWN_KEY n).
    + eapply wp_mono; [by apply wp_run_callback|]. intros [] p' Hg. pws. by left.
    + apply wp_ret. pws. right. by split; [|apply goes_refl].
  - eapply wp_mono; [by apply wp_run_callback|]. intros [] p'. by left.
Qed.

Lemma wp_check_can_action c action L p o : pinv ({[c]} ∪ L) p o → c ∉ L →
  wp (check_can_action c action) (λ _ p', goes L p o p') p.
Proof.
  intros Hp Hc. unfold check_can_action. destruct authority.
  - by apply wp_ask.
  - pws. apply wp_check_rbac_ask. intros b. by apply wp_reply.
  - by apply wp_reply.
Qed.

Lemma wp_can_bool c action L p o : pinv ({[c]} ∪ L) p o → c ∉ L →
  wp (can_bool action c) (λ _ p', goes L p o p') p.
Proof.
  intros Hp Hc. unfold can_bool. destruct authority.
  - by apply wp_ask.
  - pws. apply wp_check_rbac_ask. intros b. by apply wp_reply.
  - by apply wp_reply.
Qed.

Lemma wp_action_request f users b cb c L p o : pinv ({[c]} ∪ L) p o → c ∉ L →
  wp (request f users (action_base cb) b cb c) (λ _ p', settles c L p o p') p.
Proof.
  intros Hp Hc. unfold request. pws. destruct (pi_inhibit _ _ _ Hp) as (w & Hw & _).
  eapply wp_ask_inhibit; [done|]. destruct (f w); [|by apply wp_check_system_action].
  eapply wp_mono; [by apply wp_reply|]. intros [] p'. by left.
Qed.

Lemma wp_handle users m c L p o : pinv ({[c]} ∪ L) p o → c ∉ L →
  wp (handle users m c) (λ _ p', settles c L p o p') p.
Proof.
  intros Hp Hc.
  assert (∀ n : prog power unit, wp n (λ _ p', goes L p o p') p → wp n (λ _ p', settles c L p o p') p) as Hg.
  { intros n H. eapply wp_mono; [exact H|]. intros [] p'. by left. }
  assert (∀ sup a, wp (can_if sup c a) (λ _ p', goes L p o p') p) as Hif.
  { intros [] a; [by apply wp_check_can_action|by apply wp_reply]. }
  destruct m.
  1: exact (wp_action_request _ _ _ DoRestart _ _ _ _ Hp Hc).
  1: exact (wp_action_request _ _ _ DoStop _ _ _ _ Hp Hc).
  1: exact (wp_action_request _ _ _ DoStop _ _ _ _ Hp Hc).
  1: exact (wp_action_request _ _ _ DoRestart _ _ _ _ Hp Hc).
  1: exact (wp_action_request _ _ _ DoSuspend _ _ _ _ Hp Hc).
  1: exact (wp_action_request _ _ _ DoHibernate _ _ _ _ Hp Hc).
  1: exact (wp_action_request _ _ _ DoHybridSleep _ _ _ _ Hp Hc).
  all: apply Hg; try apply Hif; try by apply wp_can_bool.
  all: by apply wp_check_can_action.
Qed.

Lemma wp_authority c r L p o : pinv L p o → is_Some (checks p !! c) →
  wp (authority_answers c r) (λ _ p', goes L p o p') p.
Proof.
  intros [Hi Hn Ha Hv Hc Hr Hdl Hask] [k Hk]. unfold authority_answers. pws. rewrite Hk.
  assert (c ∈ dom (checks p)) as Hdom by by apply elem_of_dom_2 in Hk.
  destruct (account_unask _ _ _ _ _ c Hc Hdom) as [Hc' HcL].
  assert (pinv ({[c]} ∪ L) (set_checks (delete c (checks p)) p) o) as Hp.
  { split; simpl; try done.
    - destruct Ha; [by apply state_idle|by eapply state_pending].
    - by rewrite dom_delete_L.
    - intros d cb Hd. simpl in Hd. apply lookup_delete_Some in Hd as [_ Hd]. by apply Hask. }
  destruct k as [cb| |].
  - destruct r; try exact (wp_reply c _ L _ o Hp HcL). exact (wp_run_callback cb c L _ o Hp HcL).
  - destruct r; exact (wp_reply c _ L _ o Hp HcL).
  - destruct r; exact (wp_reply c _ L _ o Hp HcL).
Qed.

Lemma pinv_receive c L p o : pinv L p o → c ∉ calls p → pinv ({[c]} ∪ L) (receive c p) o ∧ (c ∉ L).
Proof.
  intros [Hi Hn Ha Hv Hc Hr Hdl Hask] Hin. destruct (account_receive _ _ _ _ _ c Hc Hin) as [Hc' HcL].
  split; [|done]. split; simpl; try done.
  destruct Ha; [by apply state_idle|by eapply state_pending].
Qed.

Lemma wp_inhibit spawned sys c what who why mode L p o :
  pinv ({[c]} ∪ L) p o → c ∉ L → sys_sane sys →
  wp (dbus_inhibit spawned sys c what who why mode) (λ _ p', goes L p o p') p.
Proof.
  intros Hp Hc Hsys. unfold dbus_inhibit. pws. apply wp_caller_info. intros [[uid pid]|]; [|by apply wp_reply].
  pws. destruct (pi_inhibit _ _ _ Hp) as (w & Hw & Hrw). rewrite Hw. pws. eapply wp_mono.
  - eapply wp_on_inhibit; [exact Hp|]. intros w0 Hw0. assert (w0 = w) as -> by congruence.
    destruct (create_step_spec sys who what why mode uid pid w (reachable_wf w Hrw) Hsys) as (fd & w' & _ & E & _).
    exists fd, w'. split; [done|]. eapply reach_step; [done|]. by eapply step_create.
  - intros fd p1 Hg.
    assert (∀ r, wp (reply_to c r) (λ _ p', goes L p o p') p1) as Hreply.
    { intros r. eapply (wp_mono _ (λ _ p', ∀ o1, pinv ({[c]} ∪ L) p1 o1 → goes L p1 o1 p')).
      - destruct Hg as (tr & o1 & _ & _ & I). eapply wp_mono; [by eapply (wp_reply c r L p1 o1)|].
        intros [] p2 H2 o2 I2.
        pose proof (pending_state _ _ (pi_action _ _ _ I)). pose proof (pending_state _ _ (pi_action _ _ _ I2)).
        by assert (o2 = o1) as -> by congruence.
      - intros [] p2 H2. exact (goes_trans _ _ _ _ _ _ Hg H2). }
    destruct (fd <? 0)%Z; [|apply Hreply]. destruct (Z.eqb _ _); [apply Hreply|].
    destruct (Z.eqb _ _); apply Hreply.
Qed.

Lemma wp_hangup spawned unlinks i L p o :
  pinv L p o → (∃ w, inhibit_manager p = Some w ∧ i ∈ clients w) →
  wp (inhibitor_hangs_up spawned unlinks i) (λ _ p', goes L p o p') p.
Proof.
  intros Hp (w & Hw & Hi). eapply wp_on_inhibit; [exact Hp|].
  intros w0 Hw0. assert (w0 = w) as -> by congruence. destruct (pi_inhibit _ _ _ Hp) as (w1 & Hw1 & Hrw).
  assert (w1 = w) as -> by congruence.
  destruct (hangup_wf unlinks i w (reachable_wf w Hrw) Hi) as (w' & ox & px & E & _).
  exists tt, w'. rewrite E. split; [done|]. eapply reach_step; [done|]. by eapply step_hangup.
Qed.

(** Every input is a run of the specification; only RBAC loses calls. *)
Lemma wp_power_run i L p o : pinv L p o → input_ok i p →
  wp (power_run i) (λ _ p', ∃ L', goes L' p o p' ∧ (authority ≠ ENABLE_RBAC_SHUTDOWN → L' = L)) p.
Proof.
  intros Hp Hi. destruct i as [c m users|c r|id spawned|c sys what who why mode spawned|i spawned unlinks]; simpl in *.
  - pws. destruct (pinv_receive c L p o Hp Hi) as [Hp' Hc]. eapply wp_mono; [by apply wp_handle|].
    intros [] p' [Hg|[Ha Hg]]; [by exists L|by exists ({[c]} ∪ L)].
  - eapply wp_mono; [by apply wp_authority|]. intros [] p' Hg. by exists L.
  - eapply wp_mono; [by apply wp_timeout|]. intros [] p' [Hg _]. by exists L.
  - destruct Hi as [Hi Hsys]. pws. destruct (pinv_receive c L p o Hp Hi) as [Hp' Hc].
    eapply wp_mono; [by apply wp_inhibit|]. intros [] p' Hg. by exists L.
  - eapply wp_mono; [by apply wp_hangup|]. intros [] p' Hg. by exists L.
Qed.

Lemma pinv_init proxy : pinv ∅ (power_init (Some initial_world) proxy) None.
Proof.
  split; simpl; try done.
  - exists initial_world. split; [done|constructor].
  - by apply state_idle.
  - split; intros c; rewrite ?dom_empty_L, !elem_of_empty; tauto.
Qed.

Lemma reachable_pinv p : power_reachable p →
  ∃ L o, pinv L p o ∧ (authority ≠ ENABLE_RBAC_SHUTDOWN → L = ∅).
Proof.
  induction 1 as [proxy|i p p' _ (L & o & Hp & HL) Hi Hrun].
  - exists ∅, None. split; [apply pinv_init|done].
  - destruct (wp_elim _ _ _ (wp_power_run i L p o Hp Hi)) as ([] & p'' & E & L' & (tr & o' & _ & _ & I) & HL').
    assert (p'' = p') as -> by congruence. exists L', o'. split; [done|].
    intros Ha. by rewrite HL', HL.
Qed.

Lemma reachable_pending p : power_reachable p → ∃ L, pinv L p (pending p) ∧ (authority ≠ ENABLE_RBAC_SHUTDOWN → L = ∅).
Proof.
  intros (L & o & Hp & HL)%reachable_pinv. exists L. split; [|done].
  by rewrite (pending_state p o) by apply (pi_action _ _ _ Hp).
Qed.
End facts.
