(* ===== verification/PowerPolicy.v ===== *)
(** * System actions: the refinement of their specification, and the policy.

    The theorems about every run of [Power], from the invariant of
    [PowerFacts], and who may start an action and when it starts. *)

From S2P Require Import Prelude LogEvent Inhibit InhibitFacts Power PowerFacts.
From S2P Require Session.

(** ** Programs that announce nothing *)

Definition announcement (e : power_event) : bool :=
  match e with EmitPrepareForShutdown b | EmitPrepareForSleep b => b | _ => false end.

Section policy.
Context {HB : Build} {HH : Host} {HEnv : Session.Env}.
Implicit Types (p : power).

(** The events of a step, none of which announces an action. *)
Definition quiet p p' : Prop :=
  ∃ tr, done_events p' = done_events p ++ tr ∧ Forall (λ e, announcement e = false) tr.

Lemma quiet_refl p : quiet p p.
Proof. exists []. by rewrite app_nil_r. Qed.
Lemma quiet_same p p' : done_events p' = done_events p → quiet p p'.
Proof. intros E. exists []. by rewrite E, app_nil_r. Qed.
Lemma quiet_trans p1 p2 p3 : quiet p1 p2 → quiet p2 p3 → quiet p1 p3.
Proof.
  intros (t1 & E1 & F1) (t2 & E2 & F2). exists (t1 ++ t2). rewrite E2, E1, (assoc_L (++)).
  split; [done|]. by apply Forall_app.
Qed.
Lemma quiet_event e p p' : done_events p' = done_events p ++ [e] → announcement e = false → quiet p p'.
Proof. intros E H. exists [e]. split; [done|]. by constructor. Qed.

Definition silent {A} (m : prog power A) : Prop := ∀ p, wlp m (λ _ p', quiet p p') p.

Lemma silent_ret {A} (a : A) : silent (mret a).
Proof. intros p. apply quiet_refl. Qed.
Lemma silent_bind {A B} (m : prog power A) (f : A → prog power B) :
  silent m → (∀ a, silent (f a)) → silent (m ≫= f).
Proof.
  intros Hm Hf p. apply wlp_bind. eapply wlp_mono; [apply Hm|]. intros a p1 H1.
  eapply wlp_mono; [apply Hf|]. intros b p2 H2. exact (quiet_trans _ _ _ H1 H2).
Qed.
Lemma silent_gets {A} (f : power → A) : silent (in_power f).
Proof. intros p. apply quiet_refl. Qed.
Lemma silent_modify f : (∀ p, quiet p (f p)) → silent (prog_modify f).
Proof. intros H p. apply H. Qed.
Lemma silent_perform e : announcement e = false → silent (perform e).
Proof. intros H. apply silent_modify. intros p. by eapply quiet_event. Qed.
Lemma silent_reply c r : silent (reply_to c r).
Proof. intros p. unfold wlp, reply_to. case_decide; [done|]. by eapply quiet_event. Qed.
Lemma silent_deref ptr : silent (deref_data ptr).
Proof. intros p. unfold wlp, deref_data. destruct (_ !! _); [apply quiet_refl|done]. Qed.
Lemma silent_abort {A} : silent (prog_abort : prog power A).
Proof. by intros p. Qed.

Hint Resolve silent_ret silent_gets silent_reply silent_deref silent_abort : ck.
Ltac silence :=
  repeat first
    [ solve [eauto 2 with ck]
    | apply silent_bind; [|intros ?]
    | apply silent_perform; reflexivity
    | apply silent_modify; intros ?; apply quiet_same; reflexivity
    | match goal with |- silent (match ?x with _ => _ end) => destruct x end ].

Lemma silent_idle_cb spawned data : silent (system_action_idle_cb spawned data).
Proof. unfold system_action_idle_cb, do_system_action, log_system_action_event, emit_prepare, throw_error. silence.
Qed.
Hint Resolve silent_idle_cb : ck.
Lemma silent_changed_event spawned ev : silent (on_inhibit_manager_changed_event spawned ev).
Proof.
  unfold on_inhibit_manager_changed_event, g_source_remove. destruct ev as [[m e] b]. silence.
Qed.
Hint Resolve silent_changed_event : ck.
Lemma silent_for_each {A} (f : A → prog power unit) l : (∀ x, silent (f x)) → silent (for_each f l).
Proof. intros Hf. induction l as [|x l IH]; simpl; [apply silent_ret|]. by apply silent_bind. Qed.
Lemma silent_on_inhibit {A} spawned (f : Inhibit.world → outcome (A * Inhibit.world)) :
  silent (on_inhibit_manager spawned f).
Proof.
  intros p. unfold wlp, on_inhibit_manager. destruct (inhibit_manager p) as [w|]; [|done].
  destruct (f w) as [[a w']|]; [|done].
  apply (silent_bind _ (λ _, mret a) (silent_for_each _ _ (silent_changed_event spawned))
           (λ _, silent_ret a) (set_inhibit (Some w') p)).
Qed.
Lemma silent_ask_polkit c a b cb : silent (check_polkit_permissions c a b cb).
Proof. unfold check_polkit_permissions. silence. Qed.
Lemma silent_caller_info s : silent (manager_get_caller_info s).
Proof. unfold manager_get_caller_info. silence. Qed.

Hint Resolve silent_on_inhibit silent_ask_polkit silent_caller_info : ck.

(** With polkit no method announces an action by itself. *)
Lemma silent_handle users m c : authority = HAVE_POLKIT → silent (handle users m c).
Proof.
  intros Ha. unfold handle, dbus_restart, dbus_stop, dbus_power_off, dbus_reboot, dbus_suspend,
    dbus_hibernate, dbus_hybrid_sleep, dbus_can_restart, dbus_can_stop, dbus_can_power_off, dbus_can_reboot,
    dbus_can_suspend, dbus_can_hibernate, dbus_can_hybrid_sleep, request, can_bool, can_if, check_can_action,
    check_system_action, ask_inhibit, throw_error, get_polkit_permissions, get_polkit_logind_permissions.
  rewrite Ha. destruct m; silence.
Qed.

Lemma silent_power_run i : authority = HAVE_POLKIT →
  (∀ c, i ≠ InAuthority c Authorized) → silent (power_run i).
Proof.
  intros Ha Hi. destruct i as [c m users|c r|id spawned|c sys what who why mode spawned|i spawned unlinks]; simpl.
  - apply silent_bind; [apply silent_modify; intros p; by apply quiet_same|]. intros _. by apply silent_handle.
  - unfold authority_answers, ready_cb, logind_ready_cb, throw_error. silence; unfold auth_ready_callback, throw_error;
      destruct r; silence; by destruct (Hi c).
  - unfold timeout_fires. silence.
  - unfold dbus_inhibit, throw_error. silence.
  - apply silent_on_inhibit.
Qed.

(** ** Theorems about every run *)

Definition pending_call p : option positive := context <$> pending p.

(** C6: System actions refine their specification: in every reachable state every
    input is handled without a fault (no freed action data is read, no call is
    answered twice), and what is done is a run of the machine that is idle or
    prepares one action: an action is announced, logged, run, answered and its
    announcement withdrawn, in this order and never two at a time. *)
Theorem power_refines i p : power_reachable p → input_ok i p →
  ∃ p' tr, power_run i p = Some (tt, p') ∧ done_events p' = done_events p ++ tr ∧
    spec_run (pending p) tr (pending p').
Proof.
  intros (L & o & Hp & _)%reachable_pinv Hi.
  destruct (wp_elim _ _ _ (wp_power_run i L p o Hp Hi)) as ([] & p' & E & L' & (tr & o' & Ed & Hs & Hp') & _).
  exists p', tr. rewrite (pending_state p o (pi_action _ _ _ Hp)), (pending_state p' o' (pi_action _ _ _ Hp')).
  done.
Qed.

(** C7: Every method call is answered exactly once (polkit builds and builds
    without authority): a call received is answered with one reply, or waits
    for the authority without a reply, or is the one call of the pending action. *)
Theorem every_call_answered_once p c : authority ≠ ENABLE_RBAC_SHUTDOWN → power_reachable p → c ∈ calls p →
  (replies_to c (done_events p) = 1 ∧ checks p !! c = None ∧ pending_call p ≠ Some c) ∨
  (replies_to c (done_events p) = 0 ∧ is_Some (checks p !! c) ∧ pending_call p ≠ Some c) ∨
  (replies_to c (done_events p) = 0 ∧ checks p !! c = None ∧ pending_call p = Some c).
Proof.
  intros Ha (L & Hp & HL)%reachable_pending Hc. rewrite (HL Ha) in Hp.
  destruct Hp as [_ _ _ _ [H1 H2 H3 H4] Hr _ _].
  specialize (H1 c). specialize (H2 c). specialize (H3 c). specialize (H4 c).
  assert (c ∈ dom (checks p) ↔ is_Some (checks p !! c)) as Hdom by apply elem_of_dom.
  assert (c ∈ held_call (pending p) ↔ pending_call p = Some c) as Hheld.
  { unfold pending_call. destruct (pending p) as [x|]; simpl; [|by rewrite elem_of_empty].
    rewrite elem_of_singleton. split; [by intros ->|by intros [=]]. }
  rewrite Hdom in H2, H3. rewrite Hheld in H2, H3. rewrite Hdom, Hheld, elem_of_empty in H1.
  rewrite <- eq_None_not_Some in H2. rewrite Hr. case_decide; [left; tauto|right].
  destruct (checks p !! c) eqn:E; [left|right].
  - split; [done|]. split; [by eexists|]. apply H3. by eexists.
  - split_and!; [done..|]. destruct H1 as [H1 _]. destruct (H1 Hc) as [?|[[? ?]|[?|?]]]; done.
Qed.

(** ** How long an action waits

    An action is started by one input, from a state without one, and its timeout stays
    what it was then until it is gone. *)

Definition delay_held (s : SIGNALS) (w : Inhibit.world) : bool :=
  match s with
  | PREPARE_FOR_SHUTDOWN => ck_inhibit_manager_is_shutdown_delayed w
  | PREPARE_FOR_SLEEP => ck_inhibit_manager_is_suspend_delayed w
  | LAST_SIGNAL => false
  end.

(** Programs that keep a property of the state, if they return. *)
Definition keeps {A} (J : power → Prop) (m : prog power A) : Prop := ∀ q, J q → wlp m (λ _ q', J q') q.

(** What replies, questions and what is done elsewhere do not touch. *)
Class Untouched (J : power → Prop) := {
  keeps_event e q : J q → J (do_event e q);
  keeps_calls ca an q : J q → J (set_calls ca an q);
  keeps_checks cs q : J q → J (set_checks cs q)
}.

Section keeps.
Context (J : power → Prop) {HJ : Untouched J}.

Lemma keeps_ret {A} (a : A) : keeps J (mret a).
Proof. by intros q. Qed.
Lemma keeps_bind {A B} (m : prog power A) (f : A → prog power B) :
  keeps J m → (∀ a, keeps J (f a)) → keeps J (m ≫= f).
Proof.
  intros Hm Hf q Hq. apply wlp_bind. eapply wlp_mono; [by apply Hm|]. intros a q1 H1. by apply Hf.
Qed.
Lemma keeps_gets {A} (f : power → A) : keeps J (in_power f).
Proof. by intros q. Qed.
Lemma keeps_abort {A} : keeps J (prog_abort : prog power A).
Proof. by intros q. Qed.
Lemma keeps_modify f : (∀ q, J q → J (f q)) → keeps J (prog_modify f).
Proof. intros H q. apply H. Qed.
Lemma keeps_perform e : keeps J (perform e).
Proof. apply keeps_modify. intros q. apply keeps_event. Qed.
Lemma keeps_reply c r : keeps J (reply_to c r).
Proof. intros q Hq. unfold wlp, reply_to. case_decide; [done|]. by apply keeps_event, keeps_calls. Qed.
Lemma keeps_deref ptr : keeps J (deref_data ptr).
Proof. intros q Hq. unfold wlp, deref_data. by destruct (_ !! _). Qed.
Lemma keeps_set_checks f : keeps J (prog_modify (λ p, set_checks (f (checks p)) p)).
Proof. apply keeps_modify. intros q. apply keeps_checks. Qed.
Lemma keeps_for_each {A} (f : A → prog power unit) l : (∀ x, keeps J (f x)) → keeps J (for_each f l).
Proof. intros Hf. induction l as [|x l IH]; simpl; [apply keeps_ret|]. by apply keeps_bind. Qed.
End keeps.
Hint Resolve keeps_ret keeps_gets keeps_abort keeps_perform keeps_reply keeps_deref keeps_set_checks : ck.
Ltac keep :=
  repeat first
    [ solve [eauto 2 with ck typeclass_instances]
    | apply keeps_bind; [|intros ?]
    | apply keeps_modify; intros ? ?
    | match goal with |- keeps _ (match ?x with _ => _ end) => destruct x end ].

(** The inputs that are no calls and no answers: they can only end an action. *)
Record subsides (p0 q : power) : Prop := {
  sb_timeouts : timeouts q ⊆ timeouts p0;
  sb_datas : action_datas q ⊆ action_datas p0;
  sb_id : system_action_idle_id q = system_action_idle_id p0 ∨ system_action_idle_id q = 0%Z
}.
#[export] Instance subsides_untouched p0 : Untouched (subsides p0).
Proof. split; intros; match goal with H : subsides _ _ |- _ => destruct H; by split end. Qed.
Lemma subsides_refl p0 : subsides p0 p0.
Proof. split; [done|done|by left]. Qed.

Lemma idle_cb_subsides p0 spawned data : keeps (subsides p0) (system_action_idle_cb spawned data).
Proof.
  unfold system_action_idle_cb, do_system_action, log_system_action_event, emit_prepare, throw_error. keep.
  - destruct H. split; [done|done|by right].
  - by destruct H.
  - destruct H as [H1 H2 H3]. split; [done| |done]. simpl. etrans; [apply delete_subseteq|done].
Qed.
Hint Resolve idle_cb_subsides : ck.
Lemma changed_event_subsides p0 spawned ev : keeps (subsides p0) (on_inhibit_manager_changed_event spawned ev).
Proof.
  unfold on_inhibit_manager_changed_event, g_source_remove. destruct ev as [[m e] b]. keep.
  - destruct H as [H1 H2 H3]. split; [|done|done]. simpl. etrans; [apply delete_subseteq|done].
  - destruct H. split; [done|done|by right].
Qed.
Lemma on_inhibit_subsides {A} p0 spawned (f : Inhibit.world → outcome (A * Inhibit.world)) :
  keeps (subsides p0) (on_inhibit_manager spawned f).
Proof.
  intros q Hq. unfold wlp, on_inhibit_manager. destruct (inhibit_manager q) as [w|]; [|done].
  destruct (f w) as [[a w']|]; [|done].
  apply (keeps_bind _ _ (λ _, mret a) (keeps_for_each _ _ _ (changed_event_subsides p0 spawned)) (λ _, keeps_ret _ a)
    (set_inhibit (Some w') q)). by destruct Hq.
Qed.

(** Calls and answers leave everything as it is, or start an action. *)
Record same_timers (p0 q : power) : Prop := {
  st_inhibit : inhibit_manager q = inhibit_manager p0;
  st_id : system_action_idle_id q = system_action_idle_id p0;
  st_timeouts : timeouts q = timeouts p0;
  st_datas : action_datas q = action_datas p0;
  st_next : next_source_id q = next_source_id p0;
  st_delay : system_action_idle_delay q = system_action_idle_delay p0;
  st_inhibited : system_action_idle_inhibited_delay q = system_action_idle_inhibited_delay p0
}.
Definition launched (p0 q : power) : Prop :=
  system_action_idle_id p0 = 0%Z ∧ system_action_idle_id q = next_source_id p0 ∧
  ∃ w x ptr, inhibit_manager p0 = Some w ∧ action_datas q = <[ptr := x]> (action_datas p0) ∧
    timeouts q = <[next_source_id p0 := (if delay_held (signal x) w then system_action_idle_inhibited_delay p0
                                         else system_action_idle_delay p0, ptr)]> (timeouts p0).
Definition paced (p0 q : power) : Prop := same_timers p0 q ∨ launched p0 q.
#[export] Instance paced_untouched p0 : Untouched (paced p0).
Proof. split; intros; (match goal with H : paced _ _ |- _ => destruct H as [[]|] end; [by left; split|by right]). Qed.

Section launch.
Context (p0 : power) (w0 : Inhibit.world).
Hypothesis (Hw0 : inhibit_manager p0 = Some w0) (Hn0 : next_source_id p0 ≠ 0%Z).

Lemma start_action_paced c script t d s f : s ≠ LAST_SIGNAL → (∀ w, f w = delay_held s w) →
  keeps (paced p0) (start_action c script t d s f).
Proof.
  intros Hs Hf q Hq. unfold start_action. apply wlp_bind. unfold wlp at 1. simpl.
  destruct (Z.eqb_spec (system_action_idle_id q) 0) as [Hid|Hid]; cbn [negb]; [|exact (keeps_reply _ _ _ q Hq)].
  destruct Hq as [[H1 H2 H3 H4 H5 H6 H7]|(_ & Hid' & _)]; [|rewrite Hid' in Hid; by destruct Hn0].
  assert (∀ (b : bool) q', system_action_idle_id q' = next_source_id q →
    action_datas q' = <[fresh (dom (action_datas q)) := {| context := c; command := LIBDIR +:+ "/ConsoleKit/scripts/" +:+ script;
      event_type := t; description := d; signal := s |}]> (action_datas q) →
    timeouts q' = <[next_source_id q := (if delay_held s w0 then system_action_idle_inhibited_delay q
      else system_action_idle_delay q, fresh (dom (action_datas q)))]> (timeouts q) → launched p0 q') as Hl.
  { intros _ q' E1 E2 E3. rewrite ?H2, ?H3, ?H4, ?H5, ?H6, ?H7 in *. split; [done|]. split; [done|].
    eexists w0, _, _. split; [done|]. split; [exact E2|exact E3]. }
  specialize (Hf w0). unfold ask_inhibit, emit_prepare, perform, g_timeout_add, in_power. unfold_prog. unfold wlp.
  destruct s; [| |done]; cbn; rewrite H1, Hw0, Hf; destruct (delay_held _ w0) eqn:E; cbn;
    (right; apply (Hl true); cbn; rewrite ?E; done).
Qed.
Lemma run_callback_paced cb c : keeps (paced p0) (run_callback cb c).
Proof. destruct cb; by apply start_action_paced. Qed.
Hint Resolve run_callback_paced : ck.

Lemma caller_info_paced s : keeps (paced p0) (manager_get_caller_info s).
Proof. unfold manager_get_caller_info. keep. Qed.
Hint Resolve caller_info_paced : ck.
Lemma handle_paced users m c : keeps (paced p0) (handle users m c).
Proof.
  unfold handle, dbus_restart, dbus_stop, dbus_power_off, dbus_reboot, dbus_suspend,
    dbus_hibernate, dbus_hybrid_sleep, dbus_can_restart, dbus_can_stop, dbus_can_power_off, dbus_can_reboot,
    dbus_can_suspend, dbus_can_hibernate, dbus_can_hybrid_sleep, request, can_bool, can_if, check_can_action,
    check_system_action, ask_inhibit, throw_error, get_polkit_permissions, get_polkit_logind_permissions,
    check_rbac_permissions, check_polkit_permissions, throw_error.
  destruct m; keep.
Qed.
Lemma authority_paced c r : keeps (paced p0) (authority_answers c r).
Proof. unfold authority_answers, auth_ready_callback, ready_cb, logind_ready_cb, throw_error. keep. Qed.
End launch.

Lemma singleton_subseteq {K A} `{Countable K} (k k' : K) (x x' : A) : ({[k := x]} : gmap K A) ⊆ {[k' := x']} → k = k' ∧ x = x'.
Proof. intros Hs%map_singleton_subseteq_l. by apply lookup_singleton_Some in Hs as [-> ->]. Qed.

(** Where a timeout comes from: it was there, or this input armed it, with the long
    delay exactly if a delay lock was held. *)
Lemma timeout_origin i p p' x : power_reachable p → input_ok i p → power_run i p = Some (tt, p') → pending p' = Some x →
  (pending p = Some x ∧ timeouts p' = timeouts p) ∨
  (pending p = None ∧ ∃ w id ptr, inhibit_manager p = Some w ∧
     timeouts p' = {[id := (if delay_held (signal x) w then 8000%Z else 2000%Z, ptr)]}).
Proof.
  intros Hr Hi E Hx. destruct (reachable_pending p Hr) as (L & Hp & _).
  destruct (reachable_pending p') as (L' & Hp' & _); [by eapply power_reach_step|]. rewrite Hx in Hp'.
  pose proof (pi_action _ _ _ Hp') as Ha'. inversion Ha' as [|ptr y delayed Hid' Hd' Ht' _]; subst y.
  destruct (pi_inhibit _ _ _ Hp) as (w & Hw & _).
  assert (subsides p p' → pending p = Some x ∧ timeouts p' = timeouts p) as Hsub.
  { intros [H1 H2 H3]. destruct H3 as [H3|H3]; [|lia]. pose proof (pi_action _ _ _ Hp) as Ha.
    inversion Ha as [Hz|ptr1 y delayed1 Hid Hd Ht _ Hy]; [lia|]. rewrite Ht, Ht' in H1. rewrite Hd, Hd' in H2.
    apply singleton_subseteq in H1 as [_ H1]. apply singleton_subseteq in H2 as [_ H2].
    split; [congruence|]. rewrite Ht, Ht', H1. by rewrite H3. }
  assert (∀ p0, inhibit_manager p0 = inhibit_manager p → same_timers p p0 → paced p0 p' →
    (pending p = Some x ∧ timeouts p' = timeouts p) ∨ (pending p = None ∧ ∃ w id ptr, inhibit_manager p = Some w ∧
     timeouts p' = {[id := (if delay_held (signal x) w then 8000%Z else 2000%Z, ptr)]})) as Hpace.
  { intros p0 Hi0 [_ J2 J3 J4 J5 J6 J7] [[_ H2 H3 H4 _]|(H1 & H2 & w' & y & ptr' & H3 & H4 & H5)].
    - left. split; [|congruence]. rewrite <- Hx. unfold pending. by rewrite H2, H3, H4, J2, J3, J4.
    - right. assert (pending p = None) as Hnone by (unfold pending; by rewrite decide_True by congruence).
      split; [done|]. rewrite Hnone in Hp. pose proof (pi_action _ _ _ Hp) as Ha. inversion Ha as [_ _ Hd Ht|].
      exists w', (next_source_id p0), ptr'. split; [congruence|]. rewrite H5, J3, Ht, J6, J7.
      destruct (pi_delays _ _ _ Hp) as [-> ->]. rewrite H4, J4, Hd in Hd'.
      change (<[ptr' := y]> (∅ : gmap positive SystemActionData)) with ({[ptr' := y]} : gmap positive SystemActionData) in Hd'.
      assert (({[ptr' := y]} : gmap positive SystemActionData) ⊆ {[ptr := x]}) as Hs by by rewrite Hd'.
      by apply singleton_subseteq in Hs as [_ ->]. }
  assert (∀ {A} (m : prog power A) J q a, keeps J m → J q → m q = Some (a, p') → J p') as Hk.
  { intros A m J q a Hm Hq Em. specialize (Hm q Hq). exact (wlp_elim _ _ _ _ _ Hm Em). }
  pose proof (pi_next _ _ _ Hp) as Hn.
  destruct i as [c m users|c r|id spawned|c sys what who why mode spawned|i spawned unlinks]; simpl in E.
  - apply (Hpace (receive c p)); [done|by split|]. eapply (Hk _ (handle users m c)); [|by left; split|exact E].
    by eapply handle_paced; [|simpl; lia].
  - apply (Hpace p); [done|by split|]. eapply (Hk _ (authority_answers c r)); [|by left; split|exact E].
    by eapply authority_paced; [|lia].
  - left. apply Hsub. eapply (Hk _ (timeout_fires spawned id)); [|apply subsides_refl|exact E].
    unfold timeout_fires. keep. destruct H as [H1 H2 H3]. split; [|done|done]. simpl. etrans; [apply delete_subseteq|done].
  - left. apply Hsub. assert (subsides p (receive c p)) as H0 by (split; [done|done|by left]).
    eapply (Hk _ (dbus_inhibit spawned sys c what who why mode)); [|exact H0|exact E].
    unfold dbus_inhibit, manager_get_caller_info, throw_error. keep; apply on_inhibit_subsides.
  - left. apply Hsub. eapply (Hk _ (inhibitor_hangs_up spawned unlinks i)); [|apply subsides_refl|exact E]. apply on_inhibit_subsides.
Qed.

(** An input that leaves the action [x] pending. *)
Definition waits (x : SystemActionData) (p p' : power) : Prop :=
  ∃ i, input_ok i p ∧ power_run i p = Some (tt, p') ∧ pending p' = Some x.

Lemma pending_origin p x : power_reachable p → pending p = Some x →
  ∃ p0 i p1 w id ptr, power_reachable p0 ∧ pending p0 = None ∧ inhibit_manager p0 = Some w ∧
    input_ok i p0 ∧ power_run i p0 = Some (tt, p1) ∧ pending p1 = Some x ∧ rtc (waits x) p1 p ∧
    timeouts p = {[id := (if delay_held (signal x) w then 8000%Z else 2000%Z, ptr)]}.
Proof.
  intros Hr. revert x. induction Hr as [proxy|i p p' Hr IH Hi E]; intros x Hx; [done|].
  destruct (timeout_origin i p p' x Hr Hi E Hx) as [[Hp Ht]|(Hn & w & id & ptr & Hw & Ht)].
  - destruct (IH x Hp) as (p0 & i0 & p1 & w & id & ptr & H1 & H2 & H3 & H4 & H5 & H6 & H7 & H8).
    exists p0, i0, p1, w, id, ptr. split_and!; [done..| |congruence]. eapply rtc_r; [done|]. by exists i.
  - exists p, i, p', w, id, ptr. split_and!; [done..|apply rtc_refl|done].
Qed.

(** C8: A pending action completes.  It was started by one input, in a state without
    an action, and has been pending since.  Its timeout is armed, the only one: 8 seconds
    if at the start a delay lock on its event was held (shutdown, or sleep), else 2 seconds.
    When it fires, the action is logged and run, its call answered with the
    outcome, its announcement withdrawn, and the manager is ready for the next action. *)
Theorem pending_action_completes p x : power_reachable p → pending p = Some x →
  ∃ id d ptr, timeouts p = {[id := (d, ptr)]} ∧
    (∃ p0 i p1 w, power_reachable p0 ∧ pending p0 = None ∧ inhibit_manager p0 = Some w ∧
       input_ok i p0 ∧ power_run i p0 = Some (tt, p1) ∧ pending p1 = Some x ∧ rtc (waits x) p1 p ∧
       d = if delay_held (signal x) w then 8000%Z else 2000%Z) ∧
    ∀ spawned, ∃ p', power_run (InTimeout id spawned) p = Some (tt, p') ∧ pending p' = None ∧
      done_events p' = done_events p ++
        [LogSystemEvent (event_type x); SpawnCommand (command x);
         Reply (context x) (action_result spawned); prepare_event (signal x) false].
Proof.
  intros Hr Hx.
  destruct (pending_origin p x Hr Hx) as (p0 & i & p1 & w & id & ptr & H1 & H2 & H3 & H4 & H5 & H6 & H7 & Ht).
  eexists id, _, ptr. split; [exact Ht|]. split; [by exists p0, i, p1, w|].
  destruct (reachable_pending p Hr) as (L & Hp & _). rewrite Hx in Hp.
  destruct (pinv_pending L p x Hp) as (ptr' & d & Hptr & Ht' & Hs & Hc & Hid & _ & _).
  rewrite Ht in Ht'. destruct (singleton_subseteq id (system_action_idle_id p) _ _ ltac:(by rewrite Ht')) as [-> [= _ ->]].
  intros spawned. simpl.
  destruct (wp_elim (timeout_fires spawned (system_action_idle_id p)) (λ _ p', pending p' = None ∧
    done_events p' = done_events p ++ [LogSystemEvent (event_type x); SpawnCommand (command x);
       Reply (context x) (action_result spawned); prepare_event (signal x) false]) p) as ([] & p' & E & E1 & E2); [|by exists p'].
  unfold timeout_fires. pws. rewrite Ht, lookup_singleton_eq. pws.
  eapply wp_idle_cb; [done..|]. pws. simpl. split; [done|]. by rewrite <- !(assoc_L (++)).
Qed.

(** ** Who starts an action *)

Definition action_signal (cb : AuthorizedCallback) : SIGNALS :=
  match cb with DoRestart | DoStop => PREPARE_FOR_SHUTDOWN | _ => PREPARE_FOR_SLEEP end.

Lemma run_callback_announces cb c p :
  wlp (run_callback cb c) (λ _ p', ∀ tr e, done_events p' = done_events p ++ tr → e ∈ tr →
    announcement e = true → e = prepare_event (action_signal cb) true) p.
Proof.
  assert (∀ script t d s f, s ≠ LAST_SIGNAL → wlp (start_action c script t d s f)
    (λ _ p', ∀ tr e, done_events p' = done_events p ++ tr → e ∈ tr → announcement e = true →
       e = prepare_event s true) p) as Hs.
  { intros script t d s f Hs. unfold start_action. apply wlp_bind. unfold wlp at 1. simpl.
    destruct (negb _).
    - unfold wlp, throw_error, reply_to. case_decide; [done|]. intros tr e E He Ha. simpl in E.
      apply (inj (app (done_events p))) in E as <-. by apply list_elem_of_singleton in He as ->.
    - apply wlp_bind. assert (∀ q q' tr e, done_events q = done_events p ++ [prepare_event s true] → quiet q q' →
        done_events q' = done_events p ++ tr → e ∈ tr → announcement e = true → e = prepare_event s true) as Hq.
      { intros q q' tr e E1 (t2 & E2 & F2) E He Ha. rewrite E2, E1, <- (assoc_L (++)) in E.
        apply (inj (app (done_events p))) in E as <-. apply elem_of_app in He as [He|He].
        - by apply list_elem_of_singleton in He.
        - rewrite Forall_forall in F2. by rewrite (F2 e He) in Ha. }
      assert (wlp (emit_prepare s true) (λ _ q, done_events q = done_events p ++ [prepare_event s true]) p) as He
        by by destruct s.
      eapply wlp_mono; [exact He|]. intros [] q E1. eapply wlp_mono; [|intros a q' Hq'; intros tr e; exact (Hq q q' tr e E1 Hq')].
      revert q E1. cut (silent (ptr ← in_power (λ p, fresh (dom (action_datas p)));
        prog_modify (λ p, set_datas (<[ptr := {| context := c; command := LIBDIR +:+ "/ConsoleKit/scripts/" +:+ script;
          event_type := t; description := d; signal := s |}]> (action_datas p)) p);;
        delayed ← ask_inhibit f;
        delay ← (if (delayed : bool) then prog_modify (set_action_data (Some ptr));; in_power system_action_idle_inhibited_delay
                 else in_power system_action_idle_delay);
        id ← g_timeout_add delay ptr; prog_modify (set_idle_id id))); [intros Hsil q _; apply Hsil|].
      unfold ask_inhibit. silence. }
  destruct cb; by apply Hs.
Qed.

(** C9: With polkit an action is announced only when the authority authorizes a
    call, and the authority was asked about this very action. *)
Theorem announced_when_authorized i p p' tr e :
  authority = HAVE_POLKIT → power_reachable p → input_ok i p → power_run i p = Some (tt, p') →
  done_events p' = done_events p ++ tr → e ∈ tr → announcement e = true →
  ∃ c cb users b, i = InAuthority c Authorized ∧ checks p !! c = Some (RunCallback cb) ∧
    AskAuthority c (system_action_name users (action_base cb)) b ∈ done_events p ∧
    e = prepare_event (action_signal cb) true.
Proof.
  intros Ha Hp Hi Hrun Htr He Hann.
  assert (∀ m : prog power unit, silent m → ∀ q, m q = Some (tt, p') → done_events q = done_events p → False) as Hno.
  { intros m Hm q Hq Eq. destruct (wlp_elim _ _ _ _ _ (Hm q) Hq) as (t2 & E2 & F2).
    rewrite Eq, Htr in E2. apply (inj (app (done_events p))) in E2 as <-.
    rewrite Forall_forall in F2. by rewrite (F2 e He) in Hann. }
  assert (∃ c, i = InAuthority c Authorized) as [c ->].
  { assert ((∃ c, i = InAuthority c Authorized) ∨ ∀ c, i ≠ InAuthority c Authorized) as [?|Hother]; [|done|].
    - destruct i as [|c []| | |]; try (by right); left; by exists c.
    - exfalso. by eapply Hno; [by apply silent_power_run|exact Hrun|]. }
  destruct Hi as [k Hk]. simpl in Hrun. unfold authority_answers in Hrun.
  unfold mbind, prog_bind_inst, prog_mbind, in_power, prog_gets, prog_modify in Hrun. rewrite Hk in Hrun.
  destruct k as [cb| |].
  - destruct (reachable_pinv p Hp) as (L & o & Hinv & _).
    destruct (pi_asked _ _ _ Hinv c cb Hk) as (users & b & Hask).
    exists c, cb, users, b. split_and!; try done. simpl in Hrun.
    pose proof (wlp_elim _ _ _ _ _ (run_callback_announces cb c _) Hrun) as H. exact (H tr e Htr He Hann).
  - exfalso. eapply (Hno (ready_cb c Authorized)); [apply silent_reply|exact Hrun|done].
  - exfalso. eapply (Hno (logind_ready_cb c Authorized)); [apply silent_reply|exact Hrun|done].
Qed.

(** The block locks a request looks at. *)
Definition blocker (m : method) : option (Inhibit.world → bool) :=
  match m with
  | Restart | Stop | PowerOff _ | Reboot _ => Some ck_inhibit_manager_is_shutdown_blocked
  | Suspend _ | Hibernate _ | HybridSleep _ => Some ck_inhibit_manager_is_suspend_blocked
  | _ => None
  end.

(** A request for an action that is blocked when it arrives is refused with
    INHIBITED, and nothing else happens: no authority is asked, nothing is
    announced or armed. *)
Theorem blocked_request_refused p w c m users f :
  power_reachable p → inhibit_manager p = Some w → c ∉ calls p → blocker m = Some f → f w = true →
  power_run (InCall c m users) p = Some (tt, replied c (ThrowError CK_MANAGER_ERROR_INHIBITED) (receive c p)).
Proof.
  intros (L & o & Hp & _)%reachable_pinv Hw Hc Hm Hf.
  destruct (pinv_receive c L p o Hp Hc) as [Hp' _].
  destruct (account_in_hand _ _ _ _ _ _ (pi_calls _ _ _ Hp')) as [HcA _]. simpl in HcA.
  destruct m; simplify_eq/=; unfold mbind, prog_bind_inst, prog_mbind, prog_modify; simpl;
    unfold dbus_restart, dbus_stop, dbus_power_off, dbus_reboot, dbus_suspend, dbus_hibernate, dbus_hybrid_sleep,
      request, ask_inhibit, in_power, mbind, prog_bind_inst, prog_mbind, prog_gets; simpl; rewrite Hw, Hf;
    unfold throw_error, reply_to; simpl; by rewrite decide_False.
Qed.

(** When a delay lock held up the pending action, the lifting of the last delay
    lock on shutdown and also that of the last one on sleep performs it at once,
    whichever of the two the action is: the handler does not compare the event
    with the action. *)
Theorem delay_lifted_performs p x e spawned :
  power_reachable p → pending p = Some x → is_Some (system_action_data p) →
  e = CK_INHIBIT_EVENT_SHUTDOWN ∨ e = CK_INHIBIT_EVENT_SUSPEND →
  ∃ p', on_inhibit_manager_changed_event spawned (CK_INHIBIT_MODE_DELAY, e, false) p = Some (tt, p') ∧
    pending p' = None ∧ timeouts p' = ∅ ∧
    done_events p' = done_events p ++
      [LogSystemEvent (event_type x); SpawnCommand (command x);
       Reply (context x) (action_result spawned); prepare_event (signal x) false].
Proof.
  intros (L & Hp & _)%reachable_pending Hx Hd He. rewrite Hx in Hp.
  destruct (pinv_pending L p x Hp) as (ptr & d & Hptr & Ht & Hs & Hc & Hid & Hdata & _).
  destruct Hdata as [Hdata|Hdata]; [rewrite Hdata in Hd; by destruct Hd|].
  destruct (wp_elim (on_inhibit_manager_changed_event spawned (CK_INHIBIT_MODE_DELAY, e, false))
    (λ _ p', pending p' = None ∧ timeouts p' = ∅ ∧ done_events p' = done_events p ++
      [LogSystemEvent (event_type x); SpawnCommand (command x);
       Reply (context x) (action_result spawned); prepare_event (signal x) false]) p) as ([] & p' & E & H);
    [|by exists p'].
  unfold on_inhibit_manager_changed_event. pws. destruct (Z.eqb_spec (system_action_idle_id p) 0); [done|].
  pws. rewrite Hdata. pws. unfold wp at 1, deref_data. rewrite Hptr.
  replace (negb (bool_decide (signal x = PREPARE_FOR_SLEEP)) && negb (bool_decide (signal x = PREPARE_FOR_SHUTDOWN)))
    with false by by destruct (signal x).
  replace (negb (bool_decide (e = CK_INHIBIT_EVENT_SUSPEND)) && negb (bool_decide (e = CK_INHIBIT_EVENT_SHUTDOWN)))
    with false by by destruct He as [-> | ->].
  simpl. unfold g_source_remove. pws. simpl. rewrite Hdata.
  eapply (wp_idle_cb _ ptr x); [done..|]. simpl. split_and!.
  - done.
  - by rewrite Ht, delete_singleton_eq.
  - by rewrite <- !(assoc_L (++)).
Qed.

(** In RBAC builds a caller without the authorization gets no reply: the
    request is dropped. *)
Theorem rbac_denied_unanswered p w c m users f :
  authority = ENABLE_RBAC_SHUTDOWN → power_reachable p → inhibit_manager p = Some w → c ∉ calls p →
  blocker m = Some f → f w = false → (∀ n, chkauthattr RBAC_SHUTDOWN_KEY n = false) →
  power_run (InCall c m users) p = Some (tt, receive c p).
Proof.
  intros Ha Hp Hw Hc Hm Hf Hno.
  assert (∀ b cb q, check_system_action b c (system_action_name users (action_base cb)) cb q = Some (tt, q)) as Hcheck.
  { intros b cb q. unfold check_system_action. rewrite Ha.
    unfold check_rbac_permissions, manager_get_caller_info. unfold_prog. unfold in_power. simpl.
    destruct (call_sender c) as [s|]; [|done]. destruct (manager_bus_proxy q); [|done].
    destruct (Session.bus_unix_user s) as [uid|]; [|done]. simpl.
    destruct (Session.bus_unix_pid s); [|done]. simpl.
    destruct (pw_name uid) as [n|]; [|done]. by rewrite Hno. }
  assert (∀ b cb base, base = action_base cb →
    request f users base b cb c (receive c p) = Some (tt, receive c p)) as Hreq.
  { intros b cb base ->. unfold request, ask_inhibit, in_power, prog_gets.
    unfold mbind at 1, prog_bind_inst at 1, prog_mbind at 1. simpl. rewrite Hw, Hf. apply Hcheck. }
  destruct m; simplify_eq/=; unfold mbind, prog_bind_inst, prog_mbind, prog_modify; by apply Hreq.
Qed.
End policy.
