(* ===== verification/PowerRuns.v ===== *)
(** * System actions: concrete runs.

    Runs that show what the handlers do not check: a lifted sleep lock performs
    a delayed shutdown, a block lock taken after the request does not stop the
    action, a refused lock breaks the list of inhibitors.  And the witnesses for
    the theorems of [PowerPolicy]. *)

From S2P Require Import Prelude LogEvent Inhibit InhibitFacts InhibitRelease Power PowerFacts PowerPolicy.
From S2P Require Session.

#[export] Instance CkManagerError_eq_dec : EqDecision CkManagerError.
Proof. solve_decision. Defined.
#[export] Instance inhibitor_info_eq_dec : EqDecision inhibitor_info.
Proof. solve_decision. Defined.
#[export] Instance mvalue_eq_dec : EqDecision mvalue.
Proof. solve_decision. Defined.
#[export] Instance manager_reply_eq_dec : EqDecision manager_reply.
Proof. solve_decision. Defined.
#[export] Instance power_event_eq_dec : EqDecision power_event.
Proof. solve_decision. Defined.

(** ** Running a list of inputs *)

Definition input_okb (i : power_input) (p : power) : bool :=
  match i with
  | InCall c _ _ => bool_decide (c ∉ calls p)
  | InAuthority c _ => bool_decide (is_Some (checks p !! c))
  | InTimeout id _ => bool_decide (is_Some (timeouts p !! id))
  | InInhibit c sys _ _ _ _ _ =>
      bool_decide (c ∉ calls p) && (-1 <=? sys_open_read sys)%Z && (-1 <=? sys_open_write sys)%Z
  | InHangup i _ _ => match inhibit_manager p with Some w => bool_decide (i ∈ clients w) | None => false end
  end.

Lemma input_okb_ok i p : input_okb i p = true → input_ok i p.
Proof.
  destruct i; simpl; try (by rewrite bool_decide_eq_true).
  - rewrite !andb_true_iff, bool_decide_eq_true, !Z.leb_le. intros [[H1 H2] H3]. by repeat split.
  - destruct (inhibit_manager p) as [w|]; [|done]. rewrite bool_decide_eq_true. by exists w.
Qed.

Section runs.
Context {HB : Build} {HH : Host} {HEnv : Session.Env}.

Fixpoint run_inputs (l : list power_input) (p : power) : option power :=
  match l with
  | [] => Some p
  | i :: l =>
      if input_okb i p then match power_run i p with Some (_, p') => run_inputs l p' | None => None end
      else None
  end.

Lemma run_inputs_reachable l p p' : power_reachable p → run_inputs l p = Some p' → power_reachable p'.
Proof.
  revert p. induction l as [|i l IH]; intros p Hp; simpl; [by intros [= <-]|].
  destruct (input_okb i p) eqn:Hi; [|done]. destruct (power_run i p) as [[[] q]|] eqn:E; [|done].
  apply IH. eapply power_reach_step; [done| |done]. by apply input_okb_ok.
Qed.
End runs.

(** [P] of the result, if there is one. *)
Definition holds {A} (P : A → Prop) (o : option A) : Prop :=
  match o with Some a => P a | None => False end.
#[export] Instance holds_dec {A} (P : A → Prop) `{∀ a, Decision (P a)} o : Decision (holds P o).
Proof. destruct o; simpl; apply _. Defined.
Lemma holds_elim {A} (P : A → Prop) o : holds P o → ∃ a, o = Some a ∧ P a.
Proof. destruct o as [a|]; [by exists a|done]. Qed.

(** ** A small host *)

Definition polkit_build : Build := {| LIBDIR := "/usr/lib"; RBAC_SHUTDOWN_KEY := "solaris.system.shutdown";
  authority := HAVE_POLKIT |}.
Definition rbac_build : Build := {| LIBDIR := "/usr/lib"; RBAC_SHUTDOWN_KEY := "solaris.system.shutdown";
  authority := ENABLE_RBAC_SHUTDOWN |}.
Definition small_host : Host :=
  {| pw_name := λ _, Some "alice"; chkauthattr := λ _ _, false; ck_system_can_suspend := true;
     ck_system_can_hibernate := false; ck_system_can_hybrid_sleep := false; call_sender := λ _, Some ":1.7" |}.
Definition small_env : Session.Env :=
  {| Session.bus_unix_user := λ _, Some 1000%Z; Session.bus_unix_pid := λ _, Some 42%Z;
     Session.getpwuid := λ _, Some 1000%Z; Session.current_time := Z.of_nat; Session.iso8601 := λ _, "" |}.

Abbreviation init := (power_init (Some initial_world) true).
Definition lock (call : positive) (path what mode : string) : power_input :=
  InInhibit call (sys_ok path) (Some what) (Some "updater") (Some "upgrading") (Some mode) true.

Definition run (l : list power_input) : option power := @run_inputs polkit_build small_host small_env l init.
Abbreviation reachable_here := (@power_reachable polkit_build small_host small_env).
Abbreviation run_here := (@power_run polkit_build small_host small_env).

Lemma power_run_reachable l p : run l = Some p → reachable_here p.
Proof. apply run_inputs_reachable. constructor. Qed.

Definition inhibited_by (f : Inhibit.world → bool) (p : power) : Prop :=
  match inhibit_manager p with Some w => f w = true | None => False end.
#[export] Instance inhibited_by_dec f p : Decision (inhibited_by f p).
Proof. unfold inhibited_by. destruct (inhibit_manager p); apply _. Defined.

(** A stop, held up by a delay lock on shutdown, while a delay lock on sleep is
    held too. *)
Definition delayed_stop : list power_input :=
  [lock 1 "/run/a" "shutdown" "delay"; lock 2 "/run/b" "sleep" "delay"; InCall 3 Stop 1; InAuthority 3 Authorized].

Definition stop_done (p : power) : Prop := SpawnCommand "/usr/lib/ConsoleKit/scripts/ck-system-stop" ∈ done_events p.

Lemma delayed_stop_runs :
  holds (λ p, ¬ stop_done p ∧ inhibited_by ck_inhibit_manager_is_shutdown_delayed p ∧
    input_okb (InHangup 2 true always) p = true ∧
    holds (λ q, stop_done q.2 ∧ inhibited_by ck_inhibit_manager_is_shutdown_delayed q.2)
      (run_here (InHangup 2 true always) p)) (run delayed_stop).
Proof. apply (bool_decide_unpack _). vm_compute. exact I. Qed.

(** The release of a sleep lock performs a shutdown that a shutdown lock still
    delays. *)
Theorem sleep_lock_releases_shutdown :
  ∃ p p', reachable_here p ∧ input_ok (InHangup 2 true always) p ∧ ¬ stop_done p ∧
    run_here (InHangup 2 true always) p = Some (tt, p') ∧ stop_done p' ∧
    inhibited_by ck_inhibit_manager_is_shutdown_delayed p'.
Proof.
  destruct (holds_elim _ _ delayed_stop_runs) as (p & E & Hn & _ & Hi & H).
  destruct (holds_elim _ _ H) as ([[] p'] & E' & H1 & H2).
  exists p, p'. refine (conj (power_run_reachable _ p E) (conj (input_okb_ok _ _ Hi) (conj Hn (conj E' (conj H1 H2))))).
Qed.

(** A stop requested before shutdown is blocked. *)
Definition blocked_later : list power_input := [InCall 1 Stop 1; lock 2 "/run/a" "shutdown" "block"].
Definition goes_ahead : list power_input := [InAuthority 1 Authorized; InTimeout 1 true].

Lemma blocked_later_runs :
  holds (λ p, inhibited_by ck_inhibit_manager_is_shutdown_blocked p ∧ system_action_idle_id p = 0%Z ∧
    ¬ stop_done p ∧
    holds (λ p', stop_done p' ∧ inhibited_by ck_inhibit_manager_is_shutdown_blocked p')
      (@run_inputs polkit_build small_host small_env goes_ahead p)) (run blocked_later).
Proof. apply (bool_decide_unpack _). vm_compute. exact I. Qed.

(** The block locks are looked at when the request arrives, not when the
    authority has answered: a stop is announced, and performed, while a block
    lock on shutdown is held. *)
Theorem block_checked_only_once :
  ∃ p p', reachable_here p ∧ inhibited_by ck_inhibit_manager_is_shutdown_blocked p ∧
    system_action_idle_id p = 0%Z ∧ ¬ stop_done p ∧
    @run_inputs polkit_build small_host small_env goes_ahead p = Some p' ∧
    stop_done p' ∧ inhibited_by ck_inhibit_manager_is_shutdown_blocked p'.
Proof.
  destruct (holds_elim _ _ blocked_later_runs) as (p & E & H1 & H2 & H3 & H).
  destruct (holds_elim _ _ H) as (p' & E' & H4 & H5).
  exists p, p'. exact (conj (power_run_reachable _ p E) (conj H1 (conj H2 (conj H3 (conj E' (conj H4 H5)))))).
Qed.

(** A request with an unknown mode. *)
Definition bad_lock : power_input := lock 1 "/run/a" "shutdown" "never".

Definition listing_ok (call : positive) (p : power) : bool :=
  match dbus_list_inhibitors call (receive call p) with Some _ => true | None => false end.

Lemma bad_lock_runs :
  holds (λ p, Reply 1 (ThrowError CK_MANAGER_ERROR_INVALID_INPUT) ∈ done_events p ∧ listing_ok 2 p = false)
    (run [bad_lock]).
Proof. apply (bool_decide_unpack _). vm_compute. exact I. Qed.

(** A lock request that was refused stays in the list of locks, without a mode:
    the next ListInhibitors formats a NULL string. *)
Theorem refused_lock_breaks_listing :
  ∃ p, reachable_here p ∧ Reply 1 (ThrowError CK_MANAGER_ERROR_INVALID_INPUT) ∈ done_events p ∧
    (2%positive ∉ calls p) ∧ dbus_list_inhibitors 2 (receive 2 p) = None.
Proof.
  destruct (holds_elim _ _ bad_lock_runs) as (p & E & H1 & H2). exists p.
  assert (holds (λ p, 2%positive ∉ calls p) (run [bad_lock])) as H3
    by (apply (bool_decide_unpack _); vm_compute; exact I).
  rewrite E in H3. refine (conj (power_run_reachable _ p E) (conj H1 (conj H3 _))).
  unfold listing_ok in H2. by destruct (dbus_list_inhibitors 2 (receive 2 p)).
Qed.

(** ** Witnesses *)

Definition asked_stop : list power_input := [InCall 1 Stop 1].
Definition pending_stop : list power_input := [InCall 1 Stop 1; InAuthority 1 Authorized].

(** A state that a list of inputs reaches, and what can be computed of it. *)
Lemma run_facts l (P : power → Prop) : holds P (run l) → ∃ p, reachable_here p ∧ P p.
Proof. intros H. destruct (holds_elim _ _ H) as (p & E & HP). exists p. by split; [eapply power_run_reachable|]. Qed.

Lemma init_reachable : reachable_here init.
Proof. constructor. Qed.

Lemma power_refines_witness : ∃ p' tr, run_here (InCall 1 Stop 1) init = Some (tt, p') ∧
  done_events p' = done_events init ++ tr ∧ @spec_run polkit_build (pending init) tr (pending p').
Proof.
  apply (@power_refines polkit_build small_host small_env (InCall 1 Stop 1) init init_reachable).
  apply input_okb_ok. vm_compute. reflexivity.
Defined.

Lemma asked_stop_facts : holds (λ p, 1%positive ∈ calls p) (run asked_stop).
Proof. apply (bool_decide_unpack _). vm_compute. exact I. Qed.
Lemma polkit_not_rbac : @authority polkit_build ≠ ENABLE_RBAC_SHUTDOWN.
Proof. done. Qed.

Lemma every_call_answered_once_witness : ∃ p, reachable_here p ∧
  ((replies_to 1 (done_events p) = 1 ∧ checks p !! 1%positive = None ∧ pending_call p ≠ Some 1%positive) ∨
   (replies_to 1 (done_events p) = 0 ∧ is_Some (checks p !! 1%positive) ∧ pending_call p ≠ Some 1%positive) ∨
   (replies_to 1 (done_events p) = 0 ∧ checks p !! 1%positive = None ∧ pending_call p = Some 1%positive)).
Proof.
  destruct (run_facts asked_stop _ asked_stop_facts) as (p & Hp & Hc). exists p. split; [exact Hp|].
  exact (@every_call_answered_once polkit_build small_host small_env p 1 polkit_not_rbac Hp Hc).
Defined.

Definition stop_data : SystemActionData :=
  {| context := 1; command := "/usr/lib/ConsoleKit/scripts/ck-system-stop"; event_type := CK_LOG_EVENT_SYSTEM_STOP;
     description := "Stop"; signal := PREPARE_FOR_SHUTDOWN |}.
#[export] Instance SystemActionData_eq_dec : EqDecision SystemActionData.
Proof. solve_decision. Defined.

Lemma pending_stop_facts : holds (λ p, pending p = Some stop_data) (run pending_stop).
Proof. apply (bool_decide_unpack _). vm_compute. exact I. Qed.

Lemma pending_action_completes_witness : ∃ p, reachable_here p ∧
  ∃ id d ptr, timeouts p = {[id := (d, ptr)]} ∧
    (∃ p0 i p1 w, reachable_here p0 ∧ pending p0 = None ∧ inhibit_manager p0 = Some w ∧
       input_ok i p0 ∧ run_here i p0 = Some (tt, p1) ∧ pending p1 = Some stop_data ∧
       rtc (@waits polkit_build small_host small_env stop_data) p1 p ∧
       d = if delay_held (signal stop_data) w then 8000%Z else 2000%Z) ∧
    ∀ spawned, ∃ p', run_here (InTimeout id spawned) p = Some (tt, p') ∧ pending p' = None ∧
      done_events p' = done_events p ++
        [LogSystemEvent (event_type stop_data); SpawnCommand (command stop_data);
         Reply (context stop_data) (action_result spawned); prepare_event (signal stop_data) false].
Proof.
  destruct (run_facts pending_stop _ pending_stop_facts) as (p & Hp & Hx). exists p. split; [exact Hp|].
  exact (@pending_action_completes polkit_build small_host small_env p stop_data Hp Hx).
Defined.

Lemma authorized_facts :
  holds (λ p, input_okb (InAuthority 1 Authorized) p = true ∧
    holds (λ q, done_events q.2 = done_events p ++ [EmitPrepareForShutdown true]) (run_here (InAuthority 1 Authorized) p))
    (run asked_stop).
Proof. apply (bool_decide_unpack _). vm_compute. exact I. Qed.

Lemma announced_when_authorized_witness : ∃ p c cb users b,
  InAuthority 1 Authorized = InAuthority c Authorized ∧ checks p !! c = Some (RunCallback cb) ∧
  AskAuthority c (system_action_name users (action_base cb)) b ∈ done_events p ∧
  EmitPrepareForShutdown true = prepare_event (action_signal cb) true.
Proof.
  destruct (run_facts asked_stop _ authorized_facts) as (p & Hp & Hi & H).
  destruct (holds_elim _ _ H) as ([[] p'] & E & Htr). exists p.
  apply (@announced_when_authorized polkit_build small_host small_env (InAuthority 1 Authorized) p p'
    [EmitPrepareForShutdown true] (EmitPrepareForShutdown true) eq_refl Hp (input_okb_ok _ _ Hi) E Htr);
    [by left|reflexivity].
Defined.

Lemma blocked_facts : holds (λ p, (3%positive ∉ calls p) ∧ inhibited_by ck_inhibit_manager_is_shutdown_blocked p)
  (run blocked_later).
Proof. apply (bool_decide_unpack _). vm_compute. exact I. Qed.

Lemma blocked_request_refused_witness : ∃ p, reachable_here p ∧
  run_here (InCall 3 (PowerOff true) 1) p =
    Some (tt, replied 3 (ThrowError CK_MANAGER_ERROR_INHIBITED) (receive 3 p)).
Proof.
  destruct (run_facts blocked_later _ blocked_facts) as (p & Hp & Hc & Hb). exists p. split; [exact Hp|].
  unfold inhibited_by in Hb. destruct (inhibit_manager p) as [w|] eqn:Hw; [|destruct Hb].
  exact (@blocked_request_refused polkit_build small_host small_env p w 3 (PowerOff true) 1
    ck_inhibit_manager_is_shutdown_blocked Hp Hw Hc eq_refl Hb).
Defined.

Definition delayed_stop_data : SystemActionData :=
  {| context := 3; command := "/usr/lib/ConsoleKit/scripts/ck-system-stop"; event_type := CK_LOG_EVENT_SYSTEM_STOP;
     description := "Stop"; signal := PREPARE_FOR_SHUTDOWN |}.
Lemma delayed_facts : holds (λ p, pending p = Some delayed_stop_data ∧ is_Some (system_action_data p)) (run delayed_stop).
Proof. apply (bool_decide_unpack _). vm_compute. exact I. Qed.

Lemma delay_lifted_performs_witness : ∃ p p', reachable_here p ∧
  on_inhibit_manager_changed_event true (CK_INHIBIT_MODE_DELAY, CK_INHIBIT_EVENT_SUSPEND, false) p = Some (tt, p') ∧
    pending p' = None ∧ timeouts p' = ∅ ∧
    done_events p' = done_events p ++
      [LogSystemEvent (event_type delayed_stop_data); SpawnCommand (command delayed_stop_data);
       Reply (context delayed_stop_data) (action_result true); prepare_event (signal delayed_stop_data) false].
Proof.
  destruct (run_facts delayed_stop _ delayed_facts) as (p & Hp & Hx & Hd).
  destruct (@delay_lifted_performs polkit_build small_host small_env p delayed_stop_data CK_INHIBIT_EVENT_SUSPEND true
    Hp Hx Hd (or_intror eq_refl)) as (p' & H). exists p, p'. exact (conj Hp H).
Defined.

Lemma rbac_denied_unanswered_witness :
  @power_run rbac_build small_host small_env (InCall 1 Stop 1) init = Some (tt, receive 1 init).
Proof.
  apply (@rbac_denied_unanswered rbac_build small_host small_env init initial_world 1 Stop 1
    ck_inhibit_manager_is_shutdown_blocked); try reflexivity.
  - constructor.
  - apply (bool_decide_unpack _). vm_compute. exact I.
Defined.
