(* ===== verification/Manager.v ===== *)
(** * The manager: [src/ck-manager.c], sessions, seats and leaders.

    The manager keeps the tables of seats, of sessions by id and of leaders by
    cookie; it opens sessions for leaders, puts them on seats, closes them, and
    computes the system idle hint.  The seats are those of [Seat], the leaders
    those of [Leader]; sessions are reached through [ManagedSessions].  The
    system actions of the same file are in [Power]. *)

From S2P Require Import Prelude Scan Console LogEvent Leader.
From S2P Require Collect Session VtMonitor.
From S2P Require Import Seat Hooks Power.

(** ** The sessions as the manager sees them *)

Abbreviation P_get := session_get.

Class ManagedSessions (W : Type) {HO : SessionOps W} := {
  session_cookie : positive → W → cstr;
  session_login_id : positive → W → cstr;
  session_runtime_dir : positive → W → cstr;
  session_new : string → string → list (string * gvariant) → prog W (option positive);
  session_set_runtime_dir : positive → cstr → prog W unit;
  session_set_is_local : positive → bool → prog W unit;
  session_lock : positive → prog W unit;
  session_unlock : positive → prog W unit;
  session_final : positive → prog W unit
}.

(** A live session that another operation, or one that changes only the
    properties of [but], leaves as it was. *)
Record session_kept {W} `{SessionOps W} (but : Session.sprop → bool) (s : positive) (x x' : W) : Prop := {
  sk_live : session_live s x';
  sk_id : session_id s x' = session_id s x;
  sk_path : session_path s x' = session_path s x;
  sk_created : session_created s x' = session_created s x;
  sk_seat : session_seat s x' = session_seat s x;
  sk_props : ∀ p, but p = false → session_get p s x' = session_get p s x
}.
Definition all_but (q p : Session.sprop) : bool := @bool_decide (p = q) (Session.sprop_eq_dec p q).
Definition nothing_but (_ : Session.sprop) : bool := false.

(** What the manager relies on. *)
Class ManagedLaws (W : Type) {HO : SessionOps W} {HM : ManagedSessions W} := {
  managed_sessions :: SessionLaws W;
  new_law : ∀ ssid cookie ps x, sessions_ok x →
    wp (session_new ssid cookie ps) (λ r x', sessions_ok x' ∧
      (∀ t, session_live t x → session_kept nothing_but t x x') ∧
      ∀ s, r = Some s → ¬ session_live s x ∧ session_live s x' ∧ session_id s x' = Some ssid ∧
        (crowded x' s → overfull ps)) x;
  runtime_dir_law : ∀ s d x, sessions_ok x → session_live s x →
    wp (session_set_runtime_dir s d) (λ _ x', sessions_ok x' ∧ session_runtime_dir s x' = d ∧
      ∀ t, session_live t x → session_kept nothing_but t x x') x;
  is_local_law : ∀ s b x, sessions_ok x → session_live s x →
    wp (session_set_is_local s b) (λ _ x', sessions_ok x' ∧ session_get Session.P_is_local s x' = b ∧
      ∀ t, session_live t x → session_kept (all_but Session.P_is_local) t x x') x;
  lock_law : ∀ s x, sessions_ok x → session_live s x →
    wp (session_lock s) (λ _ x', sessions_ok x' ∧
      ∀ t, session_live t x → session_kept (all_but Session.P_locked_hint) t x x') x;
  unlock_law : ∀ s x, sessions_ok x → session_live s x →
    wp (session_unlock s) (λ _ x', sessions_ok x' ∧
      ∀ t, session_live t x → session_kept (all_but Session.P_locked_hint) t x x') x;
  final_law : ∀ s x, sessions_ok x → session_live s x →
    wp (session_final s) (λ _ x', sessions_ok x' ∧ ¬ session_live s x' ∧
      ∀ t, t ≠ s → session_live t x → session_kept nothing_but t x x') x
}.

(** What the platform answers: runtime directories, helper jobs, process
    groups, the bus, the host's name, the console of a new seat. *)
Class ManagerHost := {
  ck_generate_runtime_dir_for_user : Z → cstr;
  job_can_run : string → bool;
  ck_process_group_get_ssid : Z → cstr;
  manager_hooks :: HookHost;
  seat_export_ok : string → bool;
  host_name : string;
  console_monitor : VtMonitor.CkVtMonitor;
  console_fd : Z
}.

(** ** Data *)

Inductive registry_value :=
| RUnit
| RBool (b : bool)
| RStr (s : string)
| RPath (p : cstr)
| RPaths (l : list cstr)
| RSessions (l : list (string * Z * string * string * cstr))
| RSeats (l : list (string * string)).
Inductive registry_reply := RReturn (v : registry_value) | RThrow (e : CkManagerError).

(** What the manager does that can be seen: the hook programs of a session or a
    seat run, the dump writes the database file. *)
Inductive manager_event :=
| MReply (call : positive) (r : registry_reply)
| MSeat (sid : string) (m : seat_message)
| MSeatAdded (path : string) | MSeatRemoved (path : string)
| MSessionNew (ssid : string) (path : cstr) | MSessionRemoved (ssid : string) (path : cstr)
| MSystemIdleHintChanged (b : bool)
| MLog (e : CkLogUnion cstr)
| MDump
| MSessionPrograms (ssid : cstr) (action : string)
| MSeatPrograms (sid : string) (action : string)
| MProcessGroup (pid : Z) (ssid : string) (unix_user : Z)
| MRemoveRuntimeDir (unix_user : Z)
| MRunJob (command : string).

(** [CkManagerPrivate] apart from the system actions, with the live seats,
    leaders and jobs ([JobData]: leader and call), the sessions whose
    "idle-hint-changed" is connected, the seats whose signals are, the method
    calls that were answered, what was done, and a clock. *)
Record registry (W : Type) := {
  seats : gmap string positive;
  m_sessions : gmap string positive;
  leaders : gmap string positive;
  session_serial : Z;
  seat_serial : Z;
  system_idle_hint : bool;
  system_idle_since_hint : Z;
  seat_objs : gmap positive (seat_world W);
  leader_objs : gmap positive CkSessionLeader;
  jobs : gmap positive (positive * positive);
  hint_connected : gset positive;
  seat_connected : gset positive;
  m_sess : W;
  m_answered : gset positive;
  m_out : list manager_event;
  m_clock : nat
}.
Arguments seats {W} _. Arguments m_sessions {W} _. Arguments leaders {W} _. Arguments session_serial {W} _.
Arguments seat_serial {W} _. Arguments system_idle_hint {W} _. Arguments system_idle_since_hint {W} _.
Arguments seat_objs {W} _. Arguments leader_objs {W} _. Arguments jobs {W} _. Arguments hint_connected {W} _.
Arguments seat_connected {W} _. Arguments m_sess {W} _. Arguments m_answered {W} _. Arguments m_out {W} _.
Arguments m_clock {W} _.

Section setters.
Context {W : Type}.
Implicit Types r : registry W.

Definition upd_registry (se ss le : gmap string positive) (n1 n2 : Z) (hint : bool) (since : Z)
    (so : gmap positive (seat_world W)) (lo : gmap positive CkSessionLeader) (js : gmap positive (positive * positive))
    (hc sc : gset positive) (x : W) (an : gset positive) (out : list manager_event) (t : nat) : registry W :=
  {| seats := se; m_sessions := ss; leaders := le; session_serial := n1; seat_serial := n2;
     system_idle_hint := hint; system_idle_since_hint := since; seat_objs := so; leader_objs := lo; jobs := js;
     hint_connected := hc; seat_connected := sc; m_sess := x; m_answered := an; m_out := out; m_clock := t |}.
Definition set_tables se ss le r := upd_registry se ss le (session_serial r) (seat_serial r) (system_idle_hint r)
  (system_idle_since_hint r) (seat_objs r) (leader_objs r) (jobs r) (hint_connected r) (seat_connected r)
  (m_sess r) (m_answered r) (m_out r) (S (m_clock r)).
Definition set_serials n1 n2 r := upd_registry (seats r) (m_sessions r) (leaders r) n1 n2 (system_idle_hint r)
  (system_idle_since_hint r) (seat_objs r) (leader_objs r) (jobs r) (hint_connected r) (seat_connected r)
  (m_sess r) (m_answered r) (m_out r) (m_clock r).
Definition set_idle hint since r := upd_registry (seats r) (m_sessions r) (leaders r) (session_serial r)
  (seat_serial r) hint since (seat_objs r) (leader_objs r) (jobs r) (hint_connected r) (seat_connected r)
  (m_sess r) (m_answered r) (m_out r) (S (m_clock r)).
Definition set_objs so lo js r := upd_registry (seats r) (m_sessions r) (leaders r) (session_serial r)
  (seat_serial r) (system_idle_hint r) (system_idle_since_hint r) so lo js (hint_connected r) (seat_connected r)
  (m_sess r) (m_answered r) (m_out r) (m_clock r).
Definition set_signals hc sc r := upd_registry (seats r) (m_sessions r) (leaders r) (session_serial r)
  (seat_serial r) (system_idle_hint r) (system_idle_since_hint r) (seat_objs r) (leader_objs r) (jobs r) hc sc
  (m_sess r) (m_answered r) (m_out r) (m_clock r).
Definition set_m_sess x r := upd_registry (seats r) (m_sessions r) (leaders r) (session_serial r)
  (seat_serial r) (system_idle_hint r) (system_idle_since_hint r) (seat_objs r) (leader_objs r) (jobs r)
  (hint_connected r) (seat_connected r) x (m_answered r) (m_out r) (m_clock r).
Definition set_m_answered an r := upd_registry (seats r) (m_sessions r) (leaders r) (session_serial r)
  (seat_serial r) (system_idle_hint r) (system_idle_since_hint r) (seat_objs r) (leader_objs r) (jobs r)
  (hint_connected r) (seat_connected r) (m_sess r) an (m_out r) (m_clock r).
Definition put_event e r := upd_registry (seats r) (m_sessions r) (leaders r) (session_serial r)
  (seat_serial r) (system_idle_hint r) (system_idle_since_hint r) (seat_objs r) (leader_objs r) (jobs r)
  (hint_connected r) (seat_connected r) (m_sess r) (m_answered r) (m_out r ++ [e]) (m_clock r).
End setters.

(** A seat as it is when its next operation begins: nothing sent yet. *)
Definition enter_seat {W} (x : W) (w : seat_world W) : seat_world W :=
  {| seat := seat w; monitor := monitor w; vfd := vfd w; handlers := handlers w; next_handler := next_handler w;
     connected := connected w; sess := x; refs := refs w; answered := answered w; sent := [];
     table_tick := table_tick w |}.

(** ** Serial numbers and names *)

(** [(gint32) serial < 0] after the increment. *)
Definition next_serial (first serial : Z) : Z :=
  let serial := u32 (serial + 1) in if Z.ltb (i32 serial) 0 then first else serial.

Section manager.
Context {W : Type} {HO : SessionOps W} {HM : ManagedSessions W} {HH : HashOrder}.
Context {HHost : Host} {HEnv : Session.Env} {HP : Collect.Processes} {HMH : ManagerHost} {HL : LibexecDir}.

Abbreviation prog_ := (prog (registry W)).

Definition in_registry {A} (f : registry W → A) : prog_ A := prog_gets f.
Definition put (e : manager_event) : prog_ unit := prog_modify (put_event e).
Definition m_answer (call : positive) (v : registry_reply) : prog_ unit :=
  λ r, if decide (call ∈ m_answered r) then None
       else Some (tt, put_event (MReply call v) (set_m_answered ({[call]} ∪ m_answered r) r)).
Definition m_throw_error (call : positive) (e : CkManagerError) : prog_ unit := m_answer call (RThrow e).
Definition with_sessions {A} (m : prog W A) : prog_ A :=
  λ r, match m (m_sess r) with Some (a, x) => Some (a, set_m_sess x r) | None => None end.
Definition session_prop (p : Session.sprop) (s : positive) : prog_ (Session.ptype p) :=
  in_registry (λ r, session_get p s (m_sess r)).

(** The references seats hold on a session; when the manager drops its own, the
    last one finalizes the session. *)
Definition seat_refs (r : registry W) (s : positive) : Z := map_fold (λ _ w n, (refs w s + n)%Z) 0%Z (seat_objs r).
Definition release_session (s : positive) : prog_ unit :=
  n ← in_registry (λ r, seat_refs r s);
  if Z.leb n 0 then
    with_sessions (session_final s);;
    prog_modify (λ r, set_signals (hint_connected r ∖ {[s]}) (seat_connected r) r)
  else mret tt.
(** [g_hash_table_insert] into the table of sessions. *)
Definition insert_session (id : string) (s : positive) : prog_ unit :=
  old ← in_registry (λ r, m_sessions r !! id);
  prog_modify (λ r, set_tables (seats r) (<[id := s]> (m_sessions r)) (leaders r) r);;
  match old with Some o => release_session o | None => mret tt end.
Definition get_leader (l : positive) : prog_ CkSessionLeader :=
  λ r, match leader_objs r !! l with Some x => Some (x, r) | None => None end.
Definition put_leader (l : positive) (x : CkSessionLeader) : prog_ unit :=
  prog_modify (λ r, set_objs (seat_objs r) (<[l := x]> (leader_objs r)) (jobs r) r).
(** The tables as they are walked. *)
Definition walk_sessions : prog_ (list (string * positive)) :=
  in_registry (λ r, hash_order (m_clock r) (m_sessions r)).

Definition get_next_session_serial : prog_ Z :=
  n ← in_registry session_serial;
  prog_modify (λ r, set_serials (next_serial 1 n) (seat_serial r) r);;
  mret n.
Definition get_next_seat_serial : prog_ Z :=
  n ← in_registry seat_serial;
  prog_modify (λ r, set_serials (session_serial r) (next_serial 0 n) r);;
  mret n.

(** The [goto again] loops, [fuel] times at most. *)
Fixpoint generate_session_id_loop (fuel : nat) : prog_ string :=
  match fuel with
  | 0 => prog_abort
  | S fuel =>
      serial ← get_next_session_serial;
      let id := "Session" +:+ fmt_unsigned serial in
      used ← in_registry (λ r, m_sessions r !! id);
      match used with Some _ => generate_session_id_loop fuel | None => mret id end
  end.
Definition generate_session_id : prog_ string :=
  n ← in_registry (λ r, size (m_sessions r)); generate_session_id_loop (S n).

Fixpoint generate_seat_id_loop (fuel : nat) : prog_ string :=
  match fuel with
  | 0 => prog_abort
  | S fuel =>
      serial ← get_next_seat_serial;
      let id := "seat" +:+ fmt_unsigned serial in
      used ← in_registry (λ r, seats r !! id);
      match used with Some _ => generate_seat_id_loop fuel | None => mret id end
  end.
Definition generate_seat_id : prog_ string :=
  n ← in_registry (λ r, size (seats r)); generate_seat_id_loop (S n).

(** The cookie of a draw (seconds, microseconds, random number); the loop takes
    the first draw whose cookie is not in use. *)
Definition cookie_of (draw : Z * Z * Z) : string :=
  let '(sec, usec, num) := draw in
  host_name +:+ "-" +:+ fmt_int sec +:+ "." +:+ fmt_int usec +:+ "-" +:+ fmt_unsigned (u32 num).
Fixpoint generate_session_cookie (draws : list (Z * Z * Z)) : prog_ string :=
  match draws with
  | [] => prog_abort
  | d :: draws =>
      used ← in_registry (λ r, leaders r !! cookie_of d);
      match used with Some _ => generate_session_cookie draws | None => mret (cookie_of d) end
  end.

(** ** Users *)

Definition registry_caller_info (proxy : bool) (sender : cstr) : option (Z * Z) :=
  match sender with
  | None => None
  | Some sender =>
      if proxy then uid ← Session.bus_unix_user sender; pid ← Session.bus_unix_pid sender; Some (uid, pid)
      else None
  end.

Definition greeters : list string := ["gdm"; "_gdm"; "sddm"; "_sddm"; "kdm"; "_kdm"].

(** The user's name if the session is not a greeter's: [None] for a greeter. *)
Definition session_is_real_user (x : W) (s : positive) : option cstr :=
  let username := pw_name (session_get Session.P_unix_user s x) in
  match username with
  | Some n => if bool_decide (n ∈ greeters) then None else Some username
  | None => Some None
  end.

Definition collect_users (x : W) (users : gset string) (s : positive) : gset string :=
  match session_is_real_user x s with Some (Some n) => {[n]} ∪ users | _ => users end.
Definition get_system_num_users : prog_ N :=
  l ← walk_sessions;
  in_registry (λ r, N.of_nat (size (foldl (collect_users (m_sess r)) ∅ (map snd l)))).

Definition session_has_user (x : W) (unix_user : Z) (s : positive) : bool :=
  Z.eqb (session_get Session.P_unix_user s x) unix_user.
Definition get_runtime_dir_for_user (unix_user : Z) : prog_ cstr :=
  l ← walk_sessions;
  in_registry (λ r, match filter (λ e, session_has_user (m_sess r) unix_user e.2 = true) l with
                    | [] => None
                    | e :: _ => session_runtime_dir e.2 (m_sess r)
                    end).

(** ** Logging and the signals of seats *)

Definition log_event (e : CkLogUnion cstr) : prog_ unit := put (MLog e).
Definition kind_number (k : CkSeatKind) : Z := match k with CK_SEAT_KIND_STATIC => 0 | CK_SEAT_KIND_DYNAMIC => 1 end.
Definition log_seat_added_event (s : CkSeat) : prog_ unit :=
  log_event (EvSeatAdded {| se_seat_id := Some (s_id s); se_seat_kind := kind_number (s_kind s) |}).
Definition log_seat_removed_event (s : CkSeat) : prog_ unit :=
  log_event (EvSeatRemoved {| se_seat_id := Some (s_id s); se_seat_kind := kind_number (s_kind s) |}).

(** The properties come from the session the manager knows by that id. *)
Definition seat_session_event (r : registry W) (sid : string) (ssid : cstr) : CkLogSeatSessionEvent cstr :=
  match (id ← ssid; m_sessions r !! id) with
  | Some s =>
      let x := m_sess r in
      {| ss_seat_id := Some sid; ss_session_id := ssid;
         ss_session_type := session_get Session.P_session_type s x;
         ss_session_x11_display := session_get Session.P_x11_display s x;
         ss_session_x11_display_device := session_get Session.P_x11_display_device s x;
         ss_session_display_device := session_get Session.P_display_device s x;
         ss_session_remote_host_name := session_get Session.P_remote_host_name s x;
         ss_session_is_local := session_get Session.P_is_local s x;
         ss_session_unix_user := session_get Session.P_unix_user s x;
         ss_session_creation_time := Some (session_created s x) |}
  | None =>
      {| ss_seat_id := Some sid; ss_session_id := ssid; ss_session_type := None; ss_session_x11_display := None;
         ss_session_x11_display_device := None; ss_session_display_device := None;
         ss_session_remote_host_name := None; ss_session_is_local := false; ss_session_unix_user := 0;
         ss_session_creation_time := None |}
  end.
Definition log_seat_session_added_event (sid : string) (ssid : cstr) : prog_ unit :=
  e ← in_registry (λ r, seat_session_event r sid ssid); log_event (EvSeatSessionAdded e).
Definition log_seat_session_removed_event (sid : string) (ssid : cstr) : prog_ unit :=
  e ← in_registry (λ r, seat_session_event r sid ssid); log_event (EvSeatSessionRemoved e).
Definition log_seat_active_session_changed_event (sid : string) (ssid : cstr) : prog_ unit :=
  log_event (EvSeatActiveSessionChanged {| sa_seat_id := Some sid; sa_session_id := ssid |}).
Definition log_seat_device_added_event (sid : string) (d : string * string) : prog_ unit :=
  log_event (EvSeatDeviceAdded {| sd_seat_id := Some sid; sd_device_type := Some d.1; sd_device_id := Some d.2 |}).

(** The hook programs; an environment that overflows its array is a fault.  (A
    handler runs inside the operation that emits the signal.  What the operation
    still changes does not change the number of entries.) *)
Definition run_session_programs (s : positive) (action : string) : prog_ unit :=
  runs ← in_registry (λ r, ck_session_run_programs (m_sess r) s action);
  match runs with
  | None => prog_abort
  | Some _ => ssid ← in_registry (λ r, session_id s (m_sess r)); put (MSessionPrograms ssid action)
  end.
Definition run_seat_programs (sid : string) (old_session new_session : option positive) (action : string) :
    prog_ unit :=
  env ← in_registry (λ r, ck_seat_run_programs sid (m_sess r) old_session new_session);
  match env with
  | None => prog_abort
  | Some _ => put (MSeatPrograms sid action)
  end.

(** The handlers of [connect_seat_signals]; a D-Bus signal has none but goes on
    the bus. *)
Definition on_seat_active_session_changed_full (sid : string) (old_session session : option positive) : prog_ unit :=
  ssid ← in_registry (λ r, s ← session; session_id s (m_sess r));
  put MDump;; run_seat_programs sid old_session session "seat_active_session_changed";;
  log_seat_active_session_changed_event sid ssid.
Definition on_seat_session_added_full (sid : string) (session : positive) : prog_ unit :=
  ssid ← in_registry (λ r, session_id session (m_sess r));
  put MDump;; run_session_programs session "session_added";; log_seat_session_added_event sid ssid.
Definition on_seat_session_removed_full (sid : string) (session : positive) : prog_ unit :=
  ssid ← in_registry (λ r, session_id session (m_sess r));
  put MDump;; run_session_programs session "session_removed";; log_seat_session_removed_event sid ssid.
Definition on_seat_device_added (sid : string) (d : string * string) : prog_ unit :=
  put MDump;; log_seat_device_added_event sid d.

Definition seat_signal (sid : string) (m : seat_message) : prog_ unit :=
  put (MSeat sid m);;
  match m with
  | ActiveSessionChangedFull old new => on_seat_active_session_changed_full sid old new
  | SessionAddedFull s => on_seat_session_added_full sid s
  | SessionRemovedFull s => on_seat_session_removed_full sid s
  | DeviceAdded d => on_seat_device_added sid d
  | _ => mret tt
  end.

(** An operation of the seat [p], then the handlers of the signals it emitted.
    (They run inside the operation, and change neither seat nor session.) *)
Definition at_seat {A} (p : positive) (m : prog (seat_world W) A) : prog_ A :=
  λ r, match seat_objs r !! p with
       | None => None
       | Some w =>
           match m (enter_seat (m_sess r) w) with
           | None => None
           | Some (a, w') =>
               ((if decide (p ∈ seat_connected r)
                 then for_each (seat_signal (s_id (seat w'))) (sent w') else mret tt);; mret a)
                 (set_m_sess (sess w') (set_objs (<[p := w']> (seat_objs r)) (leader_objs r) (jobs r) r))
           end
       end.

(** ** Seats *)

Definition connect_seat_signals (p : positive) : prog_ unit :=
  prog_modify (λ r, set_signals (hint_connected r) ({[p]} ∪ seat_connected r) r).
Definition disconnect_seat_signals (p : positive) : prog_ unit :=
  prog_modify (λ r, set_signals (hint_connected r) (seat_connected r ∖ {[p]}) r).
Definition new_seat_object (w : seat_world W) : prog_ positive :=
  λ r, let p := fresh (dom (seat_objs r)) in
       Some (p, set_objs (<[p := w]> (seat_objs r)) (leader_objs r) (jobs r) r).
(** [g_object_unref] of the manager's reference. *)
Definition seat_unref (p : positive) : prog_ unit :=
  prog_modify (λ r, set_objs (delete p (seat_objs r)) (leader_objs r) (jobs r) r).

(** The common end of [add_new_seat] and [add_seat_for_file]. *)
Definition register_seat (sid : string) (p : positive) : prog_ (option positive) :=
  connect_seat_signals p;;
  path ← in_registry (λ r, match seat_objs r !! p with Some w => s_path (seat w) | None => "" end);
  if negb (seat_export_ok path) then
    disconnect_seat_signals p;; seat_unref p;; mret None
  else
    prog_modify (λ r, set_tables (<[sid := p]> (seats r)) (m_sessions r) (leaders r) r);;
    put MDump;; run_seat_programs sid None None "seat_added";;
    put (MSeatAdded path);;
    s ← in_registry (λ r, match seat_objs r !! p with Some w => seat w | None => ck_seat_new sid CK_SEAT_KIND_STATIC end);
    log_seat_added_event s;;
    mret (Some p).

Definition add_new_seat (kind : CkSeatKind) : prog_ (option positive) :=
  sid ← generate_seat_id;
  x ← in_registry m_sess;
  p ← new_seat_object (new_seat_world sid kind console_monitor console_fd x);
  register_seat sid p.

Definition add_seat_for_file (f : option seat_file) : prog_ unit :=
  sid ← generate_seat_id;
  x ← in_registry m_sess;
  match ck_seat_new_from_file sid f (new_seat_world sid CK_SEAT_KIND_STATIC console_monitor console_fd x) with
  | None => prog_abort
  | Some (false, _) => mret tt
  | Some (true, w) => p ← new_seat_object w; register_seat sid p;; mret tt
  end.

(** The ".seat" files of the directory, in its order. *)
Definition create_seats (files : list (option seat_file)) : prog_ unit := for_each add_seat_for_file files.

Definition remove_seat (p : positive) : prog_ unit :=
  w ← in_registry (λ r, seat_objs r !! p);
  match w with
  | None => prog_abort
  | Some w =>
      let sid := s_id (seat w) in
      found ← in_registry (λ r, seats r !! sid);
      match found with
      | None => mret tt
      | Some orig_seat =>
          prog_modify (λ r, set_tables (delete sid (seats r)) (m_sessions r) (leaders r) r);;
          disconnect_seat_signals orig_seat;;
          put MDump;; run_seat_programs sid None None "seat_removed";;
          put (MSeatRemoved (s_path (seat w)));;
          log_seat_removed_event (seat w);;
          seat_unref orig_seat
      end
  end.

Definition is_str_set (v : cstr) : bool := match v with Some s => negb (String.eqb s "") | None => false end.

Definition find_seat_for_session (s : positive) : prog_ (option positive) :=
  display_device ← session_prop Session.P_display_device s;
  x11_display_device ← session_prop Session.P_x11_display_device s;
  x11_display ← session_prop Session.P_x11_display s;
  remote_host_name ← session_prop Session.P_remote_host_name s;
  vtnr ← session_prop Session.P_vtnr s;
  is_local ← session_prop Session.P_is_local s;
  let is_static_x11 := is_str_set x11_display && is_str_set x11_display_device &&
                       negb (is_str_set remote_host_name) && (is_local : bool) in
  let is_static_text := negb (is_str_set x11_display) && negb (is_str_set x11_display_device) &&
                        is_str_set display_device && negb (is_str_set remote_host_name) && (is_local : bool) in
  if (is_static_x11 || is_static_text) && Z.ltb 0 vtnr then in_registry (λ r, seats r !! "seat0")
  else mret None.

(** ** The system idle hint *)

(** [blocked]: an idle block lock is held. *)
Definition manager_set_system_idle_hint (blocked idle_hint : bool) : prog_ bool :=
  let idle_hint := if blocked then false else idle_hint in
  old ← in_registry system_idle_hint;
  (if Bool.eqb old idle_hint then mret tt
   else
     prog_modify (λ r, set_idle idle_hint (Session.current_time (m_clock r)) r);;
     put (MSystemIdleHintChanged idle_hint));;
  mret true.

Definition is_session_busy (x : W) (s : positive) : bool := negb (session_get Session.P_idle_hint s x).
Definition manager_update_system_idle_hint (blocked : bool) : prog_ unit :=
  l ← walk_sessions;
  system_idle ← in_registry (λ r, forallb (λ e, negb (is_session_busy (m_sess r) e.2)) l);
  manager_set_system_idle_hint blocked system_idle;; mret tt.

Definition session_idle_hint_changed (blocked : bool) (s : positive) : prog_ unit :=
  connected ← in_registry (λ r, bool_decide (s ∈ hint_connected r));
  if (connected : bool) then manager_update_system_idle_hint blocked else mret tt.

Definition dbus_get_system_idle_hint (call : positive) : prog_ unit :=
  b ← in_registry system_idle_hint; m_answer call (RReturn (RBool b)).
Definition dbus_get_system_idle_since_hint (call : positive) : prog_ unit :=
  b ← in_registry system_idle_hint; t ← in_registry system_idle_since_hint;
  m_answer call (RReturn (RStr (if (b : bool) then Session.iso8601 t else ""))).

(** ** Opening sessions *)

Definition open_session_for_leader (blocked : bool) (l : positive) (parameters : list (string * gvariant))
    (is_local : bool) (call : positive) : prog_ unit :=
  leader ← get_leader l;
  let ssid := leader_session_id leader in
  let cookie := leader_cookie leader in
  session ← with_sessions (session_new ssid cookie parameters);
  match session with
  | None => m_throw_error call CK_MANAGER_ERROR_GENERAL
  | Some s =>
      unix_user ← session_prop Session.P_unix_user s;
      dir ← get_runtime_dir_for_user unix_user;
      with_sessions (session_set_runtime_dir s
        match dir with Some d => Some d | None => ck_generate_runtime_dir_for_user unix_user end);;
      put (MProcessGroup (leader_pid leader) ssid unix_user);;
      insert_session ssid s;;
      found ← find_seat_for_session s;
      seat ← (match found with Some p => mret (Some p) | None => add_new_seat CK_SEAT_KIND_DYNAMIC end);
      (match seat with Some p => at_seat p (ck_seat_add_session s);; mret tt | None => mret tt end);;
      with_sessions (session_set_is_local s is_local);;
      manager_update_system_idle_hint blocked;;
      prog_modify (λ r, set_signals ({[s]} ∪ hint_connected r) (seat_connected r) r);;
      path ← in_registry (λ r, session_path s (m_sess r));
      put (MSessionNew ssid path);;
      m_answer call (RReturn (RStr cookie))
  end.

(** Some local session of that login session vouches for it. *)
Definition verify_login_session_id_is_local (login_session_id : cstr) : prog_ bool :=
  l ← walk_sessions;
  in_registry (λ r, existsb (λ e, bool_decide (session_login_id e.2 (m_sess r) = login_session_id) &&
                                  session_get Session.P_is_local e.2 (m_sess r)) l).

(** The loop over the parameters, which stops as soon as [is_local] is set. *)
Fixpoint verify_parameters (is_local : bool) (parameters : list (string * gvariant)) : prog_ bool :=
  match parameters with
  | [] => mret is_local
  | (prop_name, value) :: parameters =>
      if is_local then mret true
      else
        let is_local := if String.eqb prop_name "is-local" then true else is_local in
        is_local ← (if String.eqb prop_name "login-session-id" then
                      verify_login_session_id_is_local match value with GvString s => Some s | _ => None end
                    else mret is_local);
        verify_parameters is_local parameters
  end.

Definition verify_and_open_session_for_leader (blocked : bool) (l : positive) (parameters : list (string * gvariant))
    (call : positive) : prog_ unit :=
  is_local ← verify_parameters false parameters;
  open_session_for_leader blocked l parameters is_local call.

Definition collect_parameters_cb (blocked : bool) (l : positive) (parameters : option (list (string * gvariant)))
    (call : positive) : prog_ unit :=
  match parameters with
  | None => m_throw_error call CK_MANAGER_ERROR_GENERAL
  | Some ps => verify_and_open_session_for_leader blocked l ps call
  end.

(** [ck_session_leader_collect_parameters] and the error of its caller. *)
Definition generate_session_for_leader (l : positive) (call : positive) : prog_ unit :=
  leader ← get_leader l;
  if job_can_run (collect_command leader) then
    put (MRunJob (collect_command leader));;
    j ← in_registry (λ r, fresh (dom (jobs r)));
    prog_modify (λ r, set_objs (seat_objs r) (leader_objs r) (<[j := (l, call)]> (jobs r)) r);;
    put_leader l (add_pending_job j leader)
  else m_throw_error call CK_MANAGER_ERROR_GENERAL.

(** The job of a leader has ended: with status 0, [output] and the [errno] that
    its reading finds. *)
Definition job_completed (blocked : bool) (j : positive) (result : option (string * (nat → Z))) : prog_ unit :=
  data ← in_registry (λ r, jobs r !! j);
  match data with
  | None => prog_abort
  | Some (l, call) =>
      leader ← get_leader l;
      (match result with
       | Some (output, errno) =>
           match parse_output leader errno output with
           | None => prog_abort
           | Some ps => collect_parameters_cb blocked l (Some ps) call
           end
       | None => collect_parameters_cb blocked l None call
       end);;
      leader ← get_leader l;
      put_leader l (remove_pending_job j leader);;
      prog_modify (λ r, set_objs (seat_objs r) (leader_objs r) (delete j (jobs r)) r)
  end.

Definition create_session_for_sender (proxy : bool) (draws : list (Z * Z * Z)) (sender : cstr)
    (parameters : option (list (string * gvariant))) (call : positive) : prog_ unit :=
  match registry_caller_info proxy sender with
  | None => m_throw_error call CK_MANAGER_ERROR_GENERAL
  | Some (uid, pid) =>
      cookie ← generate_session_cookie draws;
      ssid ← generate_session_id;
      l ← in_registry (λ r, fresh (dom (leader_objs r)));
      put_leader l (ck_session_leader_set_override_parameters parameters
        (ck_session_leader_new uid pid sender ssid cookie));;
      prog_modify (λ r, set_tables (seats r) (m_sessions r) (<[cookie := l]> (leaders r)) r);;
      generate_session_for_leader l call
  end.

Definition dbus_open_session (proxy : bool) (draws : list (Z * Z * Z)) (call : positive) : prog_ unit :=
  create_session_for_sender proxy draws (call_sender call) None call.
Definition dbus_open_session_with_parameters (proxy : bool) (draws : list (Z * Z * Z))
    (parameters : list (string * gvariant)) (call : positive) : prog_ unit :=
  create_session_for_sender proxy draws (call_sender call) (Some parameters) call.

(** ** Closing sessions *)

(** [g_object_unref] of the table's reference; a job keeps its own. *)
Definition leader_unref (l : positive) : prog_ unit :=
  used ← in_registry (λ r, existsb (λ j, bool_decide (j.1 = l)) (map_to_list (jobs r)).*2);
  if (used : bool) then mret tt
  else prog_modify (λ r, set_objs (seat_objs r) (delete l (leader_objs r)) (jobs r) r).

(** [None]: closed; otherwise the code of the error. *)
Definition remove_session_for_cookie (blocked : bool) (cookie : string) (leader : option positive) :
    prog_ (option CkManagerError) :=
  leader ← (match leader with Some l => mret (Some l) | None => in_registry (λ r, leaders r !! cookie) end);
  match leader with
  | None => mret (Some CK_MANAGER_ERROR_GENERAL)
  | Some l =>
      ldr ← get_leader l;
      let orig_ssid := leader_session_id ldr in
      orig_session ← in_registry (λ r, m_sessions r !! orig_ssid);
      match orig_session with
      | None => mret (Some CK_MANAGER_ERROR_GENERAL)
      | Some s =>
          unix_user ← session_prop Session.P_unix_user s;
          on_seat ← in_registry (λ r, sid ← session_seat s (m_sess r); seats r !! sid);
          (match on_seat with
           | Some p =>
               at_seat p (ck_seat_remove_session s);;
               kind ← in_registry (λ r, match seat_objs r !! p with Some w => s_kind (seat w) | None => CK_SEAT_KIND_STATIC end);
               if decide (kind = CK_SEAT_KIND_DYNAMIC) then remove_seat p else mret tt
           | None => mret tt
           end);;
          prog_modify (λ r, set_tables (seats r) (delete orig_ssid (m_sessions r)) (leaders r) r);;
          put MDump;;
          manager_update_system_idle_hint blocked;;
          path ← in_registry (λ r, session_path s (m_sess r));
          put (MSessionRemoved orig_ssid path);;
          dir ← get_runtime_dir_for_user unix_user;
          (match dir with None => put (MRemoveRuntimeDir unix_user) | Some _ => mret tt end);;
          release_session s;;
          mret None
      end
  end.

Definition paranoia_check_is_cookie_owner (cookie : string) (calling_uid calling_pid : Z) :
    prog_ (option CkManagerError) :=
  leader ← in_registry (λ r, l ← leaders r !! cookie; leader_objs r !! l);
  mret match leader with
       | None => Some CK_MANAGER_ERROR_GENERAL
       | Some l =>
           if negb (Z.eqb (leader_uid l) calling_uid) then Some CK_MANAGER_ERROR_GENERAL
           else if negb (Z.eqb (leader_pid l) calling_pid) then Some CK_MANAGER_ERROR_GENERAL
           else None
       end.

Definition dbus_close_session (blocked proxy : bool) (cookie : string) (call : positive) : prog_ unit :=
  match registry_caller_info proxy (call_sender call) with
  | None => m_throw_error call CK_MANAGER_ERROR_FAILED
  | Some (uid, pid) =>
      error ← paranoia_check_is_cookie_owner cookie uid pid;
      match error with
      | Some _ => m_throw_error call CK_MANAGER_ERROR_FAILED
      | None =>
          error ← remove_session_for_cookie blocked cookie None;
          match error with
          | Some _ => m_throw_error call CK_MANAGER_ERROR_FAILED
          | None =>
              l ← in_registry (λ r, leaders r !! cookie);
              prog_modify (λ r, set_tables (seats r) (m_sessions r) (delete cookie (leaders r)) r);;
              (match l with Some l => leader_unref l | None => mret tt end);;
              m_answer call (RReturn (RBool true))
          end
      end
  end.

(** [ck_session_leader_cancel] kills the pending jobs, which drop their data. *)
Definition cancel_leader (l : positive) : prog_ unit :=
  leader ← get_leader l;
  prog_modify (λ r, set_objs (seat_objs r) (leader_objs r)
    (filter (λ j, j.1 ∉ pending_jobs leader) (jobs r)) r);;
  put_leader l (ck_session_leader_cancel leader).

Definition destroy_entity (blocked : bool) (e : string * positive) : prog_ unit :=
  remove_session_for_cookie blocked e.1 (Some e.2);;
  cancel_leader e.2;;
  leader_unref e.2.

(** [remove_leader_for_connection]: the leader of that service name. *)
Definition leader_of_connection (r : registry W) (service_name : string) (e : string * positive) : bool :=
  match leader_objs r !! e.2 with
  | Some leader => bool_decide (leader_service_name leader = Some service_name)
  | None => false
  end.
(** [g_ptr_array_remove_index_fast (a, 0)] until the array is empty. *)
Definition fast_order {A} (l : list A) : list A := match l with [] => [] | x :: l => x :: rev l end.

Definition remove_sessions_for_connection (blocked : bool) (service_name : string) : prog_ unit :=
  l ← in_registry (λ r, hash_order (m_clock r) (leaders r));
  mine ← in_registry (λ r, filter (λ e, leader_of_connection r service_name e = true) l);
  prog_modify (λ r, set_tables (seats r) (m_sessions r)
    (foldl (λ t e, delete e.1 t) (leaders r) mine) r);;
  for_each (destroy_entity blocked) (fast_order mine).

Definition on_name_owner_notify (blocked : bool) (old_service_name new_service_name : string) : prog_ unit :=
  if String.eqb new_service_name "" then remove_sessions_for_connection blocked old_service_name else mret tt.

(** ** Queries *)

Definition get_session_from_id (id : cstr) : prog_ (option positive) :=
  in_registry (λ r, i ← id; m_sessions r !! i).

Definition dbus_get_session (ssid : string) (call : positive) : prog_ unit :=
  session ← get_session_from_id (Some ssid);
  match session with
  | None => m_throw_error call CK_MANAGER_ERROR_GENERAL
  | Some s => path ← in_registry (λ r, session_path s (m_sess r)); m_answer call (RReturn (RPath path))
  end.

Definition dbus_get_session_for_cookie (proxy : bool) (cookie : string) (call : positive) : prog_ unit :=
  match registry_caller_info proxy (call_sender call) with
  | None => m_throw_error call CK_MANAGER_ERROR_GENERAL
  | Some (_, calling_pid) =>
      match Collect.process_tty calling_pid with
      | None => m_throw_error call CK_MANAGER_ERROR_GENERAL
      | Some _ =>
          session ← in_registry (λ r, l ← leaders r !! cookie; leader ← leader_objs r !! l;
                                      m_sessions r !! leader_session_id leader);
          match session with
          | None => m_throw_error call CK_MANAGER_ERROR_GENERAL
          | Some s => path ← in_registry (λ r, session_path s (m_sess r)); m_answer call (RReturn (RPath path))
          end
      end
  end.

Definition get_cookie_for_pid (pid : Z) : prog_ cstr :=
  cookie ← in_registry (λ r, ssid ← ck_process_group_get_ssid pid; s ← m_sessions r !! ssid;
                             session_cookie s (m_sess r));
  mret match cookie with
       | Some c => Some c
       | None => Collect.ck_unix_pid_get_env pid "XDG_SESSION_COOKIE"
       end.

Definition dbus_get_session_for_unix_process (proxy : bool) (pid : Z) (call : positive) : prog_ unit :=
  if Z.leb pid 1 || Z.leb (2 ^ 32 - 1) pid then m_throw_error call CK_MANAGER_ERROR_INVALID_INPUT
  else match registry_caller_info proxy (call_sender call) with
  | None => m_throw_error call CK_MANAGER_ERROR_GENERAL
  | Some _ =>
      cookie ← get_cookie_for_pid pid;
      match cookie with
      | None => m_throw_error call CK_MANAGER_ERROR_GENERAL
      | Some c => dbus_get_session_for_cookie proxy c call
      end
  end.
Definition dbus_get_session_by_pid := dbus_get_session_for_unix_process.

Definition dbus_get_current_session (proxy : bool) (call : positive) : prog_ unit :=
  match registry_caller_info proxy (call_sender call) with
  | None => m_throw_error call CK_MANAGER_ERROR_GENERAL
  | Some (_, calling_pid) => dbus_get_session_for_unix_process proxy (u32 calling_pid) call
  end.

(** [g_hash_table_get_keys_as_array] never returns NULL, so the error for a
    user without sessions is not reached. *)
Definition dbus_get_sessions_for_unix_user (uid : Z) (call : positive) : prog_ unit :=
  l ← walk_sessions;
  paths ← in_registry (λ r, map (λ e, session_path e.2 (m_sess r))
            (filter (λ e, session_has_user (m_sess r) uid e.2 = true) l));
  m_answer call (RReturn (RPaths (remove_dups paths))).
Definition dbus_get_sessions_for_user := dbus_get_sessions_for_unix_user.

Definition m_dbus_get_sessions (call : positive) : prog_ unit :=
  l ← walk_sessions;
  match l with
  | [] => m_throw_error call CK_MANAGER_ERROR_NO_SESSIONS
  | _ => paths ← in_registry (λ r, map (λ e, session_path e.2 (m_sess r)) l); m_answer call (RReturn (RPaths paths))
  end.

Definition seat_of (r : registry W) (p : positive) : CkSeat :=
  match seat_objs r !! p with Some w => seat w | None => ck_seat_new "" CK_SEAT_KIND_STATIC end.
Definition dbus_get_seats (call : positive) : prog_ unit :=
  l ← in_registry (λ r, hash_order (m_clock r) (seats r));
  match l with
  | [] => m_throw_error call CK_MANAGER_ERROR_NO_SEATS
  | _ => paths ← in_registry (λ r, map (λ e, Some (s_path (seat_of r e.2))) l); m_answer call (RReturn (RPaths paths))
  end.
Definition dbus_list_seats (call : positive) : prog_ unit :=
  l ← in_registry (λ r, hash_order (m_clock r) (seats r));
  match l with
  | [] => m_throw_error call CK_MANAGER_ERROR_NO_SEATS
  | _ =>
      rows ← in_registry (λ r, map (λ e, (s_name (seat_of r e.2), s_path (seat_of r e.2))) l);
      m_answer call (RReturn (RSeats rows))
  end.

(** The "(susso)" format of a session without a seat is undefined. *)
Definition session_row (x : W) (e : string * positive) : option (string * Z * string * string * cstr) :=
  sid ← session_seat e.2 x;
  let uid := session_get Session.P_unix_user e.2 x in
  Some (e.1, uid, default "" (pw_name uid), sid, session_path e.2 x).
Definition dbus_list_sessions (call : positive) : prog_ unit :=
  l ← walk_sessions;
  match l with
  | [] => m_throw_error call CK_MANAGER_ERROR_NO_SESSIONS
  | _ =>
      rows ← in_registry (λ r, mapM (session_row (m_sess r)) l);
      match rows with None => prog_abort | Some rows => m_answer call (RReturn (RSessions rows)) end
  end.

(** ** Activating and locking *)

Definition dbus_activate_session_on_seat (vt_activate : Z → bool) (session_id_ seat_id : cstr) (call : positive) :
    prog_ unit :=
  session ← get_session_from_id session_id_;
  match session with
  | None => m_throw_error call CK_MANAGER_ERROR_INVALID_INPUT
  | Some s =>
      seat ← in_registry (λ r, i ← seat_id; seats r !! i);
      match seat with
      | None => m_throw_error call CK_MANAGER_ERROR_INVALID_INPUT
      | Some p =>
          error ← at_seat p (ck_seat_activate_session vt_activate (Some s) None);
          match error with
          | Some _ => m_throw_error call CK_MANAGER_ERROR_FAILED
          | None => m_answer call (RReturn RUnit)
          end
      end
  end.

Definition m_dbus_activate_session (vt_activate : Z → bool) (session_id_ : cstr) (call : positive) : prog_ unit :=
  session ← get_session_from_id session_id_;
  match session with
  | None => m_throw_error call CK_MANAGER_ERROR_INVALID_INPUT
  | Some s =>
      seat_id ← in_registry (λ r, session_seat s (m_sess r));
      match seat_id with
      | None => m_throw_error call CK_MANAGER_ERROR_NO_SEATS
      | Some sid => dbus_activate_session_on_seat vt_activate session_id_ (Some sid) call
      end
  end.

Definition dbus_lock_session (session_id_ : cstr) (call : positive) : prog_ unit :=
  session ← get_session_from_id session_id_;
  match session with
  | None => m_throw_error call CK_MANAGER_ERROR_INVALID_INPUT
  | Some s => with_sessions (session_lock s);; m_answer call (RReturn RUnit)
  end.
Definition dbus_unlock_session (session_id_ : cstr) (call : positive) : prog_ unit :=
  session ← get_session_from_id session_id_;
  match session with
  | None => m_throw_error call CK_MANAGER_ERROR_INVALID_INPUT
  | Some s => with_sessions (session_unlock s);; m_answer call (RReturn RUnit)
  end.

(** ** Creation *)

(** [ck_manager_init]: zero is reserved for sessions. *)
Definition ck_manager_init (x : W) : registry W :=
  {| seats := ∅; m_sessions := ∅; leaders := ∅; session_serial := 1; seat_serial := 0; system_idle_hint := true;
     system_idle_since_hint := 0; seat_objs := ∅; leader_objs := ∅; jobs := ∅; hint_connected := ∅;
     seat_connected := ∅; m_sess := x; m_answered := ∅; m_out := []; m_clock := 0 |}.
End manager.
