(* ===== verification/ManagerIds.v ===== *)
(** * The manager: serial numbers and fresh names.

    The loops of generate_session_id and generate_seat_id draw serial numbers
    until a name is free.  A serial runs through all numbers from its first one to
    2^31 - 1 before it repeats, so as many draws as there are names in use, plus
    one, are enough. *)

From S2P Require Import Prelude Scan Leader.
From S2P Require Collect Session.
From S2P Require Import Seat Power Manager.

(** ** The cycle of serials *)

Definition serial_ok (first n : Z) : Prop := (first ≤ n < 2 ^ 31)%Z.
Definition serial_at (first : Z) (k : nat) (n : Z) : Z := Nat.iter k (next_serial first) n.

Lemma next_serial_step first n : (0 ≤ first < 2 ^ 31)%Z → serial_ok first n →
  next_serial first n = (first + (n - first + 1) mod (2 ^ 31 - first))%Z.
Proof.
  unfold serial_ok, next_serial. intros Hf Hn. rewrite u32_small by lia.
  destruct (decide (n = 2 ^ 31 - 1)%Z) as [->|Hne].
  - replace (2 ^ 31 - 1 + 1)%Z with (2 ^ 31)%Z by lia.
    replace (i32 (2 ^ 31)) with (- 2 ^ 31)%Z by reflexivity.
    replace (2 ^ 31 - 1 - first + 1)%Z with (2 ^ 31 - first)%Z by lia.
    rewrite Z.mod_same by lia. simpl. lia.
  - rewrite i32_small by lia. destruct (Z.ltb_spec (n + 1) 0); [lia|].
    rewrite Z.mod_small; lia.
Qed.

Lemma serial_at_spec first k n : (0 ≤ first < 2 ^ 31)%Z → serial_ok first n →
  serial_at first k n = (first + (n - first + Z.of_nat k) mod (2 ^ 31 - first))%Z ∧
  serial_ok first (serial_at first k n).
Proof.
  intros Hf Hn. induction k as [|k [E Hk]].
  - unfold serial_at, serial_ok in *. simpl. rewrite Z.mod_small; lia.
  - assert (serial_at first (S k) n = (first + (n - first + Z.of_nat (S k)) mod (2 ^ 31 - first))%Z) as E'.
    { unfold serial_at in *. simpl. rewrite next_serial_step by done. rewrite E.
      replace (first + (n - first + Z.of_nat k) mod (2 ^ 31 - first) - first + 1)%Z
        with ((n - first + Z.of_nat k) mod (2 ^ 31 - first) + 1)%Z by lia.
      rewrite Z.add_mod_idemp_l by lia. do 2 f_equal. lia. }
    split; [exact E'|]. rewrite E'. unfold serial_ok.
    pose proof (Z.mod_pos_bound (n - first + Z.of_nat (S k)) (2 ^ 31 - first)). lia.
Qed.

Lemma serial_at_inj first i j n : (0 ≤ first < 2 ^ 31)%Z → serial_ok first n →
  (Z.of_nat i < 2 ^ 31 - first)%Z → (Z.of_nat j < 2 ^ 31 - first)%Z →
  serial_at first i n = serial_at first j n → i = j.
Proof.
  intros Hf Hn Hi Hj. rewrite (proj1 (serial_at_spec first i n Hf Hn)), (proj1 (serial_at_spec first j n Hf Hn)).
  intros E. assert (Z.of_nat i = Z.of_nat j); [|lia].
  unfold serial_ok in Hn. set (M := (2 ^ 31 - first)%Z) in *. set (a := (n - first)%Z) in *.
  assert ((a + Z.of_nat i) mod M = (a + Z.of_nat j) mod M)%Z as E' by lia.
  pose proof (Z.div_mod (a + Z.of_nat i) M ltac:(lia)) as Ei.
  pose proof (Z.div_mod (a + Z.of_nat j) M ltac:(lia)) as Ej. rewrite E' in Ei.
  assert ((a + Z.of_nat i) / M = (a + Z.of_nat j) / M)%Z as Eq by nia. rewrite Eq in Ei. lia.
Qed.

Definition serial_name (prefix : string) (n : Z) : string := prefix +:+ fmt_unsigned n.
Lemma serial_name_inj prefix n m : (0 ≤ n)%Z → (0 ≤ m)%Z → serial_name prefix n = serial_name prefix m → n = m.
Proof.
  intros Hn Hm E%sapp_inj_l. unfold fmt_unsigned in E. apply (inj pretty) in E. lia.
Qed.

(** ** Some early name is free *)

Lemma some_name_free {A} (m : gmap string A) prefix first n :
  (0 ≤ first < 2 ^ 31)%Z → serial_ok first n → (Z.of_nat (size m) < 2 ^ 31 - first)%Z →
  ∃ k, k < S (size m) ∧ m !! serial_name prefix (serial_at first k n) = None.
Proof.
  intros Hf Hn Hs. set (names := (λ k, serial_name prefix (serial_at first k n)) <$> seq 0 (S (size m))).
  destruct (decide (Forall (λ s, is_Some (m !! s)) names)) as [Hall|Hno].
  - exfalso. assert (NoDup names) as Hnd.
    { apply NoDup_fmap_2_strong; [|apply NoDup_seq]. intros i j Hi Hj E%serial_name_inj.
      - apply (serial_at_inj first i j n); try done; apply elem_of_seq in Hi, Hj; lia.
      - pose proof (proj2 (serial_at_spec first i n Hf Hn)). unfold serial_ok in *. lia.
      - pose proof (proj2 (serial_at_spec first j n Hf Hn)). unfold serial_ok in *. lia. }
    assert (list_to_set names ⊆ dom m) as Hsub.
    { intros s Hin%elem_of_list_to_set. apply elem_of_dom. rewrite Forall_forall in Hall. by apply Hall. }
    apply subseteq_size in Hsub. rewrite size_list_to_set, size_dom in Hsub by done.
    unfold names in Hsub. rewrite length_fmap, length_seq in Hsub. lia.
  - apply not_Forall_Exists in Hno; [|apply _]. apply Exists_exists in Hno as (s & Hin & Hs').
    apply list_elem_of_fmap in Hin as (k & -> & Hk%elem_of_seq). exists k. split; [lia|].
    by apply eq_None_not_Some.
Qed.

(** ** The loops *)

Section manager.
Context {W : Type} {HO : SessionOps W} {HM : ManagedSessions W} {HH : HashOrder}.
Context {HHost : Host} {HEnv : Session.Env} {HP : Collect.Processes} {HMH : ManagerHost} {HLib : LibexecDir}.
Implicit Types (r : registry W).

(** The name was free, and only the serial has moved. *)
Definition drew_session (k : nat) (id : string) r r' : Prop :=
  id = serial_name "Session" (serial_at 1 k (session_serial r)) ∧ m_sessions r !! id = None ∧
  r' = set_serials (serial_at 1 (S k) (session_serial r)) (seat_serial r) r.
Definition drew_seat (k : nat) (id : string) r r' : Prop :=
  id = serial_name "seat" (serial_at 0 k (seat_serial r)) ∧ seats r !! id = None ∧
  r' = set_serials (session_serial r) (serial_at 0 (S k) (seat_serial r)) r.

Lemma serial_at_later first k n : serial_at first k (next_serial first n) = serial_at first (S k) n.
Proof. unfold serial_at. by rewrite <- Nat.iter_succ_r. Qed.

Lemma wp_session_id_loop fuel k r : k < fuel →
  m_sessions r !! serial_name "Session" (serial_at 1 k (session_serial r)) = None →
  wp (generate_session_id_loop fuel) (λ id r', ∃ j, j ≤ k ∧ drew_session j id r r') r.
Proof.
  revert k r. induction fuel as [|fuel IH]; intros k r Hk Hfree; [lia|]. simpl.
  apply wp_bind, wp_bind, wp_gets, wp_bind, wp_modify, wp_ret, wp_bind, wp_gets.
  change (m_sessions (set_serials (next_serial 1 (session_serial r)) (seat_serial r) r)) with (m_sessions r).
  fold (serial_name "Session" (session_serial r)).
  destruct (m_sessions r !! serial_name "Session" (session_serial r)) eqn:E.
  - destruct k as [|k]; [unfold serial_at in Hfree; simpl in Hfree; congruence|].
    eapply wp_mono; [apply (IH k)|]; [lia| |].
    + cbn [session_serial set_serials upd_registry]. by rewrite serial_at_later.
    + intros id r' (j & Hj & -> & Hnone & ->). exists (S j). split; [lia|].
      cbn [session_serial set_serials upd_registry] in *. rewrite !serial_at_later in *. by split_and!.
  - apply wp_ret. exists 0. split; [lia|]. by split_and!.
Qed.

Lemma wp_seat_id_loop fuel k r : k < fuel →
  seats r !! serial_name "seat" (serial_at 0 k (seat_serial r)) = None →
  wp (generate_seat_id_loop fuel) (λ id r', ∃ j, j ≤ k ∧ drew_seat j id r r') r.
Proof.
  revert k r. induction fuel as [|fuel IH]; intros k r Hk Hfree; [lia|]. simpl.
  apply wp_bind, wp_bind, wp_gets, wp_bind, wp_modify, wp_ret, wp_bind, wp_gets.
  change (seats (set_serials (session_serial r) (next_serial 0 (seat_serial r)) r)) with (seats r).
  fold (serial_name "seat" (seat_serial r)).
  destruct (seats r !! serial_name "seat" (seat_serial r)) eqn:E.
  - destruct k as [|k]; [unfold serial_at in Hfree; simpl in Hfree; congruence|].
    eapply wp_mono; [apply (IH k)|]; [lia| |].
    + cbn [seat_serial set_serials upd_registry]. by rewrite serial_at_later.
    + intros id r' (j & Hj & -> & Hnone & ->). exists (S j). split; [lia|].
      cbn [seat_serial set_serials upd_registry] in *. rewrite !serial_at_later in *. by split_and!.
  - apply wp_ret. exists 0. split; [lia|]. by split_and!.
Qed.

Lemma wp_generate_session_id r : serial_ok 1 (session_serial r) →
  (Z.of_nat (size (m_sessions r)) < 2 ^ 31 - 1)%Z →
  wp generate_session_id (λ id r', ∃ k, k ≤ size (m_sessions r) ∧ drew_session k id r r') r.
Proof.
  intros Hn Hs. unfold generate_session_id. apply wp_bind, wp_gets.
  destruct (some_name_free (m_sessions r) "Session" 1 (session_serial r)) as (k & Hk & Hfree); [lia|done|done|].
  eapply wp_mono; [by apply (wp_session_id_loop _ k)|]. intros id r' (j & Hj & Hd). exists j. split; [lia|done].
Qed.

Lemma wp_generate_seat_id r : serial_ok 0 (seat_serial r) →
  (Z.of_nat (size (seats r)) < 2 ^ 31)%Z →
  wp generate_seat_id (λ id r', ∃ k, k ≤ size (seats r) ∧ drew_seat k id r r') r.
Proof.
  intros Hn Hs. unfold generate_seat_id. apply wp_bind, wp_gets.
  destruct (some_name_free (seats r) "seat" 0 (seat_serial r)) as (k & Hk & Hfree); [lia|done|lia|].
  eapply wp_mono; [by apply (wp_seat_id_loop _ k)|]. intros id r' (j & Hj & Hd). exists j. split; [lia|done].
Qed.

(** C13: A new session always gets a name, and a new one: as long as fewer than
    2^31 - 1 sessions are open the loop ends, after at most as many repetitions
    as there are sessions, with an id of the form "Session<n>" that no open
    session has; only the serial changes, and it stays in 1..2^31 - 1 however
    often it has wrapped around. *)
Theorem generate_session_id_fresh r : serial_ok 1 (session_serial r) →
  (Z.of_nat (size (m_sessions r)) < 2 ^ 31 - 1)%Z →
  ∃ n k r', generate_session_id r = Some (serial_name "Session" n, r') ∧
    m_sessions r !! serial_name "Session" n = None ∧ n = serial_at 1 k (session_serial r) ∧
    k ≤ size (m_sessions r) ∧ serial_ok 1 (session_serial r') ∧
    r' = set_serials (session_serial r') (seat_serial r) r.
Proof.
  intros Hn Hs. destruct (wp_elim _ _ _ (wp_generate_session_id r Hn Hs)) as (id & r' & Hrun & k & Hk & -> & Hf & ->).
  eexists _, k, _. split; [exact Hrun|]. split_and!; try done.
  by apply (serial_at_spec 1 (S k)); [lia|].
Qed.
End manager.
