(* ===== verification/ManagerFacts.v ===== *)
(** * The manager: sessions, seats and the idle hint.

    Lemmas about the programs of [Manager], for any sessions that keep
    [ManagedLaws]: what each changes, and the part of the registry's invariant
    that is about sessions and seats. *)

From S2P Require Import Prelude Scan Console LogEvent Leader.
From S2P Require Collect Session VtMonitor.
From S2P Require Import Seat SeatFacts SeatActivation Hooks Power Manager.
From stdpp Require Import fin_maps.

Section manager.
Context {W : Type} {HO : SessionOps W} {HM : ManagedSessions W} {HL : ManagedLaws W} {HH : HashOrder}.
Context {HHost : Host} {HEnv : Session.Env} {HP : Collect.Processes} {HMH : ManagerHost} {HLib : LibexecDir}.
Implicit Types (r : registry W) (x : W) (w : seat_world W).

(** ** Stepping through the manager's programs *)

Lemma wp_reg {A} (f : registry W → A) Q r : Q (f r) r → wp (in_registry f) Q r.
Proof. done. Qed.
Lemma wp_put e Q r : Q tt (put_event e r) → wp (put e) Q r.
Proof. done. Qed.
Lemma wp_walk_sessions Q r : Q (hash_order (m_clock r) (m_sessions r)) r → wp walk_sessions Q r.
Proof. done. Qed.
Lemma wp_leader l L Q r : leader_objs r !! l = Some L → Q L r → wp (get_leader l) Q r.
Proof. unfold wp, get_leader. by intros ->. Qed.
Lemma wp_sessions {A} (m : prog W A) Q r :
  wp m (λ a x, Q a (set_m_sess x r)) (m_sess r) → wp (with_sessions m) Q r.
Proof. unfold wp, with_sessions. by destruct (m (m_sess r)) as [[a x]|]. Qed.

(** Everything but what is announced. *)
Definition set_out (o : list manager_event) r : registry W :=
  upd_registry (seats r) (m_sessions r) (leaders r) (session_serial r) (seat_serial r) (system_idle_hint r)
    (system_idle_since_hint r) (seat_objs r) (leader_objs r) (jobs r) (hint_connected r) (seat_connected r)
    (m_sess r) (m_answered r) o (m_clock r).

(** The call was answered, last of all. *)
Definition answers (call : positive) (v : registry_reply) r r' : Prop :=
  m_answered r' = {[call]} ∪ m_answered r ∧ ∃ o, m_out r' = m_out r ++ o ++ [MReply call v].

Lemma wp_answer_call call v r (Q : unit → registry W → Prop) : call ∉ m_answered r →
  Q tt (put_event (MReply call v) (set_m_answered ({[call]} ∪ m_answered r) r)) → wp (m_answer call v) Q r.
Proof. intros Hc HQ. unfold wp, m_answer. by rewrite decide_False. Qed.

(** ** What operations leave alone *)

(** All but the idle hint, the announcements and the clock. *)
Record calm r r' : Prop := {
  cm_seats : seats r' = seats r;
  cm_sessions : m_sessions r' = m_sessions r;
  cm_leaders : leaders r' = leaders r;
  cm_serials : session_serial r' = session_serial r ∧ seat_serial r' = seat_serial r;
  cm_seat_objs : seat_objs r' = seat_objs r;
  cm_leader_objs : leader_objs r' = leader_objs r;
  cm_jobs : jobs r' = jobs r;
  cm_sess : m_sess r' = m_sess r;
  cm_answered : m_answered r' = m_answered r;
  cm_connected : hint_connected r' = hint_connected r;
  cm_out : m_out r `prefix_of` m_out r'
}.

(** The leaders, their jobs and the calls. *)
Record same_leaders r r' : Prop := {
  sl_leaders : leaders r' = leaders r;
  sl_objs : leader_objs r' = leader_objs r;
  sl_jobs : jobs r' = jobs r;
  sl_answered : m_answered r' = m_answered r;
  sl_serial : session_serial r' = session_serial r;
  sl_out : m_out r `prefix_of` m_out r'
}.

Lemma calm_refl r : calm r r.
Proof. by split. Qed.
Lemma calm_trans r1 r2 r3 : calm r1 r2 → calm r2 r3 → calm r1 r3.
Proof.
  intros [A1 A2 A3 [A4 A5] A6 A7 A8 A9 A10 A12 A11] [B1 B2 B3 [B4 B5] B6 B7 B8 B9 B10 B12 B11].
  split; try congruence; [split; congruence|by etrans].
Qed.
Lemma same_leaders_refl r : same_leaders r r.
Proof. by split. Qed.
Lemma same_leaders_trans r1 r2 r3 : same_leaders r1 r2 → same_leaders r2 r3 → same_leaders r1 r3.
Proof. intros [A1 A2 A3 A4 A5 A6] [B1 B2 B3 B4 B5 B6]. split; try congruence. by etrans. Qed.
Lemma calm_same r r' : calm r r' → same_leaders r r'.
Proof. by intros [? ? ? [? _] ? ? ? ? ? ? ?]. Qed.

Lemma calm_put e r : calm r (put_event e r).
Proof. split; try done. by apply prefix_app_r. Qed.
(** Announcements only. *)
Definition quiet r r' : Prop := calm r r' ∧ system_idle_hint r' = system_idle_hint r.
Lemma m_quiet_refl r : quiet r r.
Proof. split; [apply calm_refl|done]. Qed.
Lemma m_quiet_trans r1 r2 r3 : quiet r1 r2 → quiet r2 r3 → quiet r1 r3.
Proof. intros [A1 A2] [B1 B2]. split; [by eapply calm_trans|congruence]. Qed.
Lemma quiet_put e r : quiet r (put_event e r).
Proof. split; [apply calm_put|done]. Qed.

Lemma wp_session_programs s action r (Q : unit → registry W → Prop) : ¬ crowded (m_sess r) s →
  Q tt (put_event (MSessionPrograms (session_id s (m_sess r)) action) r) → wp (run_session_programs s action) Q r.
Proof.
  intros Hf HQ. unfold run_session_programs. apply wp_bind, wp_reg.
  destruct (session_programs_some (m_sess r) s action Hf) as [env ->]. by apply wp_bind, wp_reg, wp_put.
Qed.
Lemma wp_seat_programs sid a b action r (Q : unit → registry W → Prop) :
  Q tt (put_event (MSeatPrograms sid action) r) → wp (run_seat_programs sid a b action) Q r.
Proof.
  intros HQ. unfold run_seat_programs. apply wp_bind, wp_reg.
  destruct (seat_programs_env sid (m_sess r) a b) as [-> _]. by apply wp_put.
Qed.

Lemma wp_seat_signal sid m r :
  (∀ s, m = SessionAddedFull s ∨ m = SessionRemovedFull s → ¬ crowded (m_sess r) s) →
  wp (seat_signal sid m) (λ _ r', quiet r r') r.
Proof.
  intros Hm.
  assert (∀ r1 r2 : registry W, quiet r1 r2 → ∀ e, quiet r1 (put_event e r2)) as Hp.
  { intros r1 r2 H e. by eapply m_quiet_trans, quiet_put. }
  unfold seat_signal. apply wp_bind, wp_put.
  destruct m; try (apply wp_ret, quiet_put).
  - unfold on_seat_session_added_full, log_seat_session_added_event, log_event.
    apply wp_bind, wp_reg, wp_bind, wp_put, wp_bind, wp_session_programs; [by apply Hm; auto|].
    apply wp_bind, wp_reg, wp_put. by do 3 apply Hp; apply quiet_put.
  - unfold on_seat_session_removed_full, log_seat_session_removed_event, log_event.
    apply wp_bind, wp_reg, wp_bind, wp_put, wp_bind, wp_session_programs; [by apply Hm; auto|].
    apply wp_bind, wp_reg, wp_put. by do 3 apply Hp; apply quiet_put.
  - unfold on_seat_active_session_changed_full, log_seat_active_session_changed_event, log_event.
    apply wp_bind, wp_reg, wp_bind, wp_put, wp_bind, wp_seat_programs, wp_put.
    by do 3 apply Hp; apply quiet_put.
  - unfold on_seat_device_added, log_seat_device_added_event, log_event.
    apply wp_bind, wp_put, wp_put. by do 2 apply Hp; apply quiet_put.
Qed.

Lemma wp_seat_signals sid l r :
  (∀ s, SessionAddedFull s ∈ l ∨ SessionRemovedFull s ∈ l → ¬ crowded (m_sess r) s) →
  wp (for_each (seat_signal sid) l) (λ _ r', quiet r r') r.
Proof.
  intros Hl. apply (wp_for_each _ (λ _ r', quiet r r')); [|apply m_quiet_refl].
  intros m todo r1 Hin H1. eapply wp_mono; [apply wp_seat_signal|].
  { assert (m ∈ l) as Hml by (destruct Hin as [k ->]; set_solver).
    intros s Hs. rewrite (cm_sess _ _ (proj1 H1)). apply Hl. by destruct Hs as [<-|<-]; [left|right]. }
  intros [] r2 H2. by eapply m_quiet_trans.
Qed.

(** An operation of the seat [p] left it as [w']. *)
Record seat_done (p : positive) w' r r' : Prop := {
  sd_seats : seats r' = seats r;
  sd_sessions : m_sessions r' = m_sessions r;
  sd_objs : seat_objs r' = <[p := w']> (seat_objs r);
  sd_sess : m_sess r' = sess w';
  sd_hint : system_idle_hint r' = system_idle_hint r;
  sd_serial : seat_serial r' = seat_serial r;
  sd_connected : hint_connected r' = hint_connected r;
  sd_same : same_leaders r r'
}.

Lemma wp_at_seat {A} p w (m : prog (seat_world W) A) (Q : A → registry W → Prop) r :
  seat_objs r !! p = Some w →
  wp m (λ a w', (∀ s, mentioned w' s → ¬ crowded (sess w') s) ∧ ∀ r', seat_done p w' r r' → Q a r')
    (enter_seat (m_sess r) w) → wp (at_seat p m) Q r.
Proof.
  unfold wp at 2, at_seat. intros Hp HQ. unfold wp in HQ. rewrite Hp.
  destruct (m (enter_seat (m_sess r) w)) as [[a w']|]; [|done].
  match goal with |- match ?p ?r0 with _ => _ end => change (wp p Q r0); set (r1 := r0) end.
  destruct HQ as [Hm HQ]. apply wp_bind. apply (wp_mono _ (λ _ r', quiet r1 r')).
  - case_decide; [by apply wp_seat_signals|apply wp_ret, m_quiet_refl].
  - intros [] r2 [[C1 C2 C3 [C4 C4'] C5 C6 C7 C8 C9 C11 C10] Hh]. apply wp_ret, HQ. by split.
Qed.

(** ** The idle hint *)

Definition is_idle x (s : positive) : Prop := session_get Session.P_idle_hint s x = true.
Definition all_idle r : Prop := ∀ id s, m_sessions r !! id = Some s → is_idle (m_sess r) s.

(** The hint only says idle when every session is. *)
Definition idle_ok r : Prop := system_idle_hint r = true → all_idle r.

Lemma walk_idle r :
  forallb (λ e, negb (is_session_busy (m_sess r) e.2)) (hash_order (m_clock r) (m_sessions r)) = true ↔ all_idle r.
Proof.
  rewrite forallb_forall. unfold is_session_busy, all_idle, is_idle. split.
  - intros H id s Hid. specialize (H (id, s)). rewrite <- list_elem_of_In, elem_of_hash_order in H.
    specialize (H Hid). simpl in H. by destruct (session_get _ _ _).
  - intros H [id s] Hin. rewrite <- list_elem_of_In, elem_of_hash_order in Hin. simpl.
    by rewrite (H id s Hin).
Qed.

Lemma wp_set_hint blocked b r :
  wp (manager_set_system_idle_hint blocked b)
    (λ _ r', calm r r' ∧ system_idle_hint r' = (if blocked then false else b)) r.
Proof.
  unfold manager_set_system_idle_hint. apply wp_bind, wp_reg.
  set (h := if blocked then false else b). destruct (Bool.eqb_spec (system_idle_hint r) h) as [E|E].
  - apply wp_bind, wp_ret, wp_ret. split; [apply calm_refl|done].
  - apply wp_bind, wp_bind, wp_modify, wp_put, wp_ret. split; [|done].
    split; try done. by apply prefix_app_r.
Qed.

Lemma wp_update_hint blocked r :
  wp (manager_update_system_idle_hint blocked) (λ _ r', calm r r' ∧
    (system_idle_hint r' = true ↔ blocked = false ∧ all_idle r)) r.
Proof.
  unfold manager_update_system_idle_hint. apply wp_bind, wp_walk_sessions, wp_bind, wp_reg, wp_bind.
  eapply wp_mono; [apply wp_set_hint|]. intros [] r' [Hc E]; apply wp_ret; (split; [done|]);
    rewrite E, <- walk_idle; by destruct blocked; [split; [|intros []]|tauto].
Qed.

Lemma idle_ok_calm r r' : calm r r' → (system_idle_hint r' = true → all_idle r) → idle_ok r'.
Proof. intros [_ E _ _ _ _ _ E' _ _ _] H Hh id s. rewrite E, E'. by apply H. Qed.

Lemma wp_update_idle blocked r :
  wp (manager_update_system_idle_hint blocked) (λ _ r', calm r r' ∧ idle_ok r') r.
Proof.
  eapply wp_mono; [apply wp_update_hint|]. intros [] r' [Hc [H _]]. split; [done|].
  eapply idle_ok_calm; [done|]. intros Hh. by apply H.
Qed.

(** ** Sessions and seats *)

(** The seat as it is in the present state of the sessions; the manager's requests
    for a console have no call of the seat's to answer. *)
Definition seat_ok x w : Prop :=
  seat_pre nothing (enter_seat x w) ∧ (on_console (enter_seat x w) → synced (enter_seat x w)) ∧ unasked w.

Record sess_inv r : Prop := {
  si_ok : sessions_ok (m_sess r);
  si_fits : ∀ id s, m_sessions r !! id = Some s → ¬ crowded (m_sess r) s;
  si_pre : ∀ p w, seat_objs r !! p = Some w → seat_ok (m_sess r) w;
  si_seats : ∀ sid p, seats r !! sid = Some p → ∃ w, seat_objs r !! p = Some w ∧ s_id (seat w) = sid;
  si_objs : ∀ p w, seat_objs r !! p = Some w → seats r !! s_id (seat w) = Some p;
  si_table : ∀ id s, m_sessions r !! id = Some s →
    session_live s (m_sess r) ∧ session_id s (m_sess r) = Some id;
  si_on : ∀ p w id s, seat_objs r !! p = Some w → sessions (seat w) !! id = Some s →
    m_sessions r !! id = Some s ∧ session_seat s (m_sess r) = Some (s_id (seat w))
}.

Lemma sess_inv_ext r r' : seats r' = seats r → m_sessions r' = m_sessions r → seat_objs r' = seat_objs r →
  m_sess r' = m_sess r → sess_inv r → sess_inv r'.
Proof. intros E1 E2 E3 E4 [H1 H0 H2 H3 H4 H5 H6]. split; rewrite ?E1, ?E2, ?E3, ?E4; done. Qed.
Lemma sess_inv_calm r r' : calm r r' → sess_inv r → sess_inv r'.
Proof. intros []. by apply sess_inv_ext. Qed.

(** Properties that neither place nor activate a session. *)
Definition harmless (but : Session.sprop → bool) : Prop := ∀ p, describing p = true → but p = false.

Lemma harmless_but q : describing q = false → harmless (all_but q).
Proof. intros Hq p Hp. apply bool_decide_eq_false_2. congruence. Qed.
Lemma crowded_kept but x x' s : harmless but → session_kept but s x x' → crowded x' s → crowded x s.
Proof. intros Hb [_ _ _ _ _ H]. apply crowded_same. intros p Hp. by apply H, Hb. Qed.

Lemma seat_ok_kept but x x' w : harmless but → sessions_ok x' →
  (∀ t, session_live t x → session_kept but t x x') → seat_ok x w → seat_ok x' w.
Proof.
  intros Hb Hx Hk (Hp & Hs & Hu). split_and!; [| |done].
  - apply (seat_pre_sess nothing (enter_seat x w) x' Hp Hx). intros t Ht. by destruct (Hk t Ht).
  - intros Hc. apply (session_of_device_like _ (enter_seat x w)); [|done| | |by apply Hs].
    + intros s. by apply (on_seat_live nothing).
    + intros s Hl. by apply (Hk s Hl).
    + by intros p s [->| ->] Hl; apply (Hk s Hl), Hb.
Qed.

Lemma sess_inv_kept but r x : harmless but → sessions_ok x →
  (∀ t, session_live t (m_sess r) → session_kept but t (m_sess r) x) →
  sess_inv r → sess_inv (set_m_sess x r).
Proof.
  intros Hb Hx Hk [H1 H0 H2 H3 H4 H5 H6]. split; simpl; try done.
  - intros id s Hid Hc. apply (H0 id s Hid). eapply crowded_kept; [done| |done]. by apply Hk, (H5 id).
  - intros p w Hw. by apply (seat_ok_kept but (m_sess r)); [..|by apply (H2 p)].
  - intros id s Hid. destruct (H5 id s Hid) as [Hl Es]. destruct (Hk s Hl). split; congruence.
  - intros p w id s Hw Hid. destruct (H6 p w id s Hw Hid) as [Hin Hse].
    destruct (Hk s) as [_ _ _ _ E _]; [by apply (H5 id)|]. split; congruence.
Qed.
End manager.
