(* ===== verification/ManagerOps.v ===== *)
(** * The manager: what opening and closing do to sessions and seats.

    Each operation keeps the invariant [sess_inv] of [ManagerFacts] and never
    follows a dangling pointer. *)

From S2P Require Import Prelude Scan Console LogEvent Leader.
From S2P Require Collect Session VtMonitor.
From S2P Require Import Seat SeatFacts SeatActivation Hooks Power Manager ManagerIds ManagerFacts.
From stdpp Require Import fin_maps.

Section manager.
Context {W : Type} {HO : SessionOps W} {HM : ManagedSessions W} {HL : ManagedLaws W} {HH : HashOrder}.
Context {HHost : Host} {HEnv : Session.Env} {HP : Collect.Processes} {HMH : ManagerHost} {HLib : LibexecDir}.
Implicit Types (r : registry W) (x : W) (w : seat_world W).

(** ** One seat *)

Lemma seat_ok_like x x' w : sessions_ok x' → sessions_like x x' → seat_ok x w → seat_ok x' w.
Proof.
  intros Hx Hl (Hp & Hs & Hu). pose proof Hl as [L1 L2 _ _ _]. split_and!; [| |done].
  - apply (seat_pre_sess nothing (enter_seat x w) x' Hp Hx). intros t Ht. split; [by apply L1|by apply L2].
  - intros Hc. apply (session_of_device_like _ (enter_seat x w)); [|done|apply Hl|by apply like_devices|by apply Hs].
    intros s. by apply (on_seat_live nothing).
Qed.

(** A seat that an operation has [moved]. *)
Lemma seat_ok_moved x w w' : seat_ok x w → moved (enter_seat x w) w' → seat_ok (sess w') w'.
Proof.
  intros (Hp & Hs & Hu) [M1 M2 M3 _ _ _ M7 M9 M8].
  split_and!; [destruct M1 as [a b c d e f]; split; assumption| |unfold unasked; by rewrite M9].
  intros Hc. assert (on_console (enter_seat x w)) as Hc0.
  { unfold on_console in *. by rewrite <- M3, <- M7. }
  exact (proj1 (M8 Hc0 (Hs Hc0))).
Qed.

(** The other sessions stay on their seats, the seat [p] has a new table. *)
Lemma sess_inv_seat p w w' r r' :
  sess_inv r → seat_objs r !! p = Some w → seat_ok (sess w') w' → sessions_like (m_sess r) (sess w') →
  s_id (seat w') = s_id (seat w) → seat_done p w' r r' →
  (∀ id s, sessions (seat w') !! id = Some s →
     m_sessions r !! id = Some s ∧ session_seat s (sess w') = Some (s_id (seat w))) →
  (∀ p' w1 id s, p' ≠ p → seat_objs r !! p' = Some w1 → sessions (seat w1) !! id = Some s →
     session_seat s (sess w') = session_seat s (m_sess r)) →
  sess_inv r'.
Proof.
  intros [H1 H0 H2 H3 H4 H5 H6] Hw Hk M2 M4 [D1 D2 D3 D4 D5 _ _ _] Hon Hoff.
  assert (sessions_ok (sess w')) as M1 by apply (proj1 Hk).
  split; rewrite ?D1, ?D2, ?D3, ?D4.
  - done.
  - intros id s Hid Hc. apply (H0 id s Hid). apply (crowded_same _ (sess w')); [|done].
    intros q Hq. apply M2; [by destruct q|by apply (H5 id)].
  - intros p' w1 [[<- <-]|[Hne Hw1]]%lookup_insert_Some.
    + done.
    + apply (seat_ok_like (m_sess r)); [done..|by apply (H2 p')].
  - intros sid p' Hp'. destruct (H3 sid p' Hp') as (w1 & Hw1 & Hid). destruct (decide (p' = p)) as [->|Hne].
    + exists w'. rewrite lookup_insert_eq. split; [done|]. simplify_eq. by rewrite M4.
    + exists w1. by rewrite lookup_insert_ne.
  - intros p' w1 [[<- <-]|[Hne Hw1]]%lookup_insert_Some; [rewrite M4|]; by apply H4.
  - intros id s Hid. destruct (H5 id s Hid) as [Hl Es]. pose proof M2 as [L1 L2 _ _ _]. simpl in *.
    by rewrite L1, L2.
  - intros p' w1 id s [[<- <-]|[Hne Hw1]]%lookup_insert_Some Hid.
    + rewrite M4. by apply Hon.
    + destruct (H6 p' w1 id s Hw1 Hid) as [Hin Hse]. split; [done|]. by rewrite (Hoff p' w1 id).
Qed.

Definition off_seats (id : string) r : Prop := ∀ p w, seat_objs r !! p = Some w → sessions (seat w) !! id = None.

Lemma on_one_seat r p p' w w' id id' s : sess_inv r →
  seat_objs r !! p = Some w → sessions (seat w) !! id = Some s →
  seat_objs r !! p' = Some w' → sessions (seat w') !! id' = Some s → p = p'.
Proof.
  intros Hi Hw Hid Hw' Hid'. destruct (si_on _ Hi _ _ _ _ Hw Hid) as [_ E].
  destruct (si_on _ Hi _ _ _ _ Hw' Hid') as [_ E']. rewrite E in E'. simplify_eq.
  pose proof (si_objs _ Hi _ _ Hw) as S. pose proof (si_objs _ Hi _ _ Hw') as S'. congruence.
Qed.

(** The registry but for the seats, the sessions' state and what is announced. *)
Definition same_tables r r' : Prop :=
  m_sessions r' = m_sessions r ∧ hint_connected r' = hint_connected r ∧ same_leaders r r'.
Lemma same_tables_trans r1 r2 r3 : same_tables r1 r2 → same_tables r2 r3 → same_tables r1 r3.
Proof. intros (A1 & A2 & A3) (B1 & B2 & B3). split_and!; [congruence..|by eapply same_leaders_trans]. Qed.
Lemma seat_done_tables p w r r' : seat_done p w r r' → same_tables r r'.
Proof. by intros [? ? ? ? ? ? ? ?]. Qed.
Lemma calm_tables r r' : calm r r' → same_tables r r'.
Proof. intros Hc. split_and!; [apply Hc..|by apply calm_same]. Qed.

(** The hook environment of the session that came or went fits. *)
Lemma mentioned_fits s id r w w' : sess_inv r → m_sessions r !! id = Some s → sessions_like (m_sess r) (sess w') →
  (∀ t, mentioned w' t → mentioned (enter_seat (m_sess r) w) t ∨ t = s) →
  ∀ t, mentioned w' t → ¬ crowded (sess w') t.
Proof.
  intros Hi Hin Hm Hmen t [[Ht|Ht]| ->]%Hmen; [by apply elem_of_nil in Ht..|].
  intros Hc. apply (si_fits _ Hi id s Hin). apply (crowded_same _ (sess w')); [|done].
  intros q Hq. apply (sl_get _ _ Hm); [by destruct q|by apply (si_table _ Hi id)].
Qed.

Lemma wp_add_at p w s id r : sess_inv r → seat_objs r !! p = Some w →
  m_sessions r !! id = Some s → off_seats id r →
  wp (at_seat p (ck_seat_add_session s)) (λ _ r', sess_inv r' ∧ same_tables r r' ∧
    seats r' = seats r ∧ ∃ w', seat_done p w' r r') r.
Proof.
  intros Hi Hw Hin Hoff. destruct (si_table _ Hi _ _ Hin) as [Hl Hid].
  apply (wp_at_seat p w); [done|]. eapply wp_mono.
  { apply (wp_add_any s id); [by apply (si_pre _ Hi p)|done|done|exact (Hoff p w Hw)]. }
  intros b w' (Hm & Ht & Hmen & Hs1 & Hs2). split; [by apply (mentioned_fits s id r w), Hmen; [..|apply Hm]|].
  intros r' Hd. simpl in *.
  split; [|split; [by eapply seat_done_tables|split; [apply Hd|by eexists]]].
  eapply (sess_inv_seat p w); [done|done|by eapply seat_ok_moved; [apply (si_pre _ Hi p)|]|apply Hm|apply Hm|done| |].
  - intros i t. rewrite Ht. intros [[<- <-]|[Hne Hi']]%lookup_insert_Some; [done|].
    destruct (si_on _ Hi p w i t Hw Hi') as [Hin' Hse]. split; [done|]. rewrite Hs2; [done|].
    intros ->. destruct (si_table _ Hi _ _ Hin'). congruence.
  - intros p' w1 i t _ Hw1 Hi'. apply Hs2. intros ->. destruct (si_on _ Hi p' w1 i s Hw1 Hi') as [Hin' _].
    destruct (si_table _ Hi _ _ Hin').
    assert (i = id) as -> by congruence. by rewrite (Hoff p' w1) in Hi'.
Qed.

Lemma wp_remove_at p w s id r : sess_inv r → seat_objs r !! p = Some w → m_sessions r !! id = Some s →
  wp (at_seat p (ck_seat_remove_session s)) (λ _ r', sess_inv r' ∧ same_tables r r' ∧ seats r' = seats r ∧
    ∃ w', seat_done p w' r r' ∧ sessions (seat w') = delete id (sessions (seat w)) ∧ s_id (seat w') = s_id (seat w) ∧
      sessions_like (m_sess r) (sess w')) r.
Proof.
  intros Hi Hw Hin. destruct (si_table _ Hi _ _ Hin) as [Hl Hid].
  apply (wp_at_seat p w); [done|]. eapply wp_mono.
  { apply (wp_remove_any s id); [by apply (si_pre _ Hi p)|done|done|].
    intros o Ho. destruct (si_on _ Hi p w id o Hw Ho). congruence. }
  intros b w' (Hm & Ht & Hmen & Hs). split; [by apply (mentioned_fits s id r w), Hmen; [..|apply Hm]|].
  intros r' Hd. simpl in *.
  split; [|split; [by eapply seat_done_tables|split; [apply Hd|exists w'; split; [done|]; split_and!;
    [done|apply Hm|apply Hm]]]].
  eapply (sess_inv_seat p w); [done|done|by eapply seat_ok_moved; [apply (si_pre _ Hi p)|]|apply Hm|apply Hm|done| |].
  - intros i t. rewrite Ht. intros [Hne Hi']%lookup_delete_Some.
    destruct (si_on _ Hi p w i t Hw Hi') as [Hin' Hse]. by rewrite Hs.
  - intros p' w1 i t _ Hw1 Hi'. apply Hs.
Qed.

(** ** Creating and removing seats *)

(** What a seat keeps of its world when it is registered. *)
Definition fresh_seat x w : Prop := seat_ok x w ∧ sessions (seat w) = ∅.

Lemma new_seat_fresh sid kind m console x : sessions_ok x → fresh_seat x (new_seat_world sid kind m console x).
Proof.
  intros Hx. split; [|done]. destruct (new_seat_pre sid kind m console x Hx) as [Hp Hs].
  split_and!; [done|done|]. by intros a ?%elem_of_nil.
Qed.

(** A new seat under a free id; all others are as before. *)
Record seat_new r r' : Prop := {
  sn_tables : same_tables r r';
  sn_sess : m_sess r' = m_sess r;
  sn_serial : seat_serial r' = seat_serial r;
  sn_objs : ∀ p w, seat_objs r' !! p = Some w → seat_objs r !! p = Some w ∨ sessions (seat w) = ∅;
  sn_old : ∀ sid p, seats r !! sid = Some p → seats r' !! sid = Some p;
  sn_size : size (seats r') ≤ S (size (seats r));
  sn_rest : session_serial r' = session_serial r ∧ hint_connected r' = hint_connected r
}.

Lemma sess_inv_new_seat r r' p w sid :
  sess_inv r → seats r !! sid = None → seat_objs r !! p = None → s_id (seat w) = sid → fresh_seat (m_sess r) w →
  seats r' = <[sid := p]> (seats r) → seat_objs r' = <[p := w]> (seat_objs r) →
  m_sessions r' = m_sessions r → m_sess r' = m_sess r → sess_inv r'.
Proof.
  intros [H1 H0 H2 H3 H4 H5 H6] Hsid Hp Hid [Hok Hempty] E1 E2 E3 E4. split; rewrite ?E1, ?E2, ?E3, ?E4; try done.
  - intros q w1 [[<- <-]|[_ Hw1]]%lookup_insert_Some; [done|by apply (H2 q)].
  - intros i q [[<- <-]|[Hne Hq]]%lookup_insert_Some.
    + exists w. by rewrite lookup_insert_eq.
    + destruct (H3 i q Hq) as (w1 & Hw1 & Hi). exists w1. rewrite lookup_insert_ne by congruence. done.
  - intros q w1 [[<- <-]|[Hne Hw1]]%lookup_insert_Some; [rewrite Hid; apply lookup_insert_eq|].
    rewrite lookup_insert_ne; [by apply H4|]. intros E. pose proof (H4 q w1 Hw1). congruence.
  - intros q w1 i s [[<- <-]|[Hne Hw1]]%lookup_insert_Some Hi; [|by eapply H6].
    by rewrite Hempty, lookup_empty in Hi.
Qed.

Lemma wp_register_seat sid w r : sess_inv r → seats r !! sid = None → s_id (seat w) = sid →
  fresh_seat (m_sess r) w →
  wp (p ← new_seat_object w; register_seat sid p) (λ o r', sess_inv r' ∧ seat_new r r' ∧
    system_idle_hint r' = system_idle_hint r ∧ ∀ p, o = Some p → is_Some (seat_objs r' !! p)) r.
Proof.
  intros Hi Hsid Hid Hw. apply wp_bind. unfold new_seat_object at 1, wp at 1.
  set (p := fresh (dom (seat_objs r))). assert (seat_objs r !! p = None) as Hp.
  { apply not_elem_of_dom. apply is_fresh. }
  unfold register_seat. apply wp_bind, wp_modify, wp_bind, wp_reg.
  destruct (seat_export_ok _); cbn [negb].
  - apply wp_bind, wp_modify, wp_bind, wp_put, wp_bind, wp_seat_programs, wp_bind, wp_put, wp_bind, wp_reg.
    unfold log_seat_added_event, log_event. apply wp_bind, wp_put, wp_ret. split_and!.
    + by apply (sess_inv_new_seat r _ p w sid).
    + split; try done.
      * split_and!; [done|done|]. split; try done. by repeat apply prefix_app_r.
      * intros q w1 Hq. simpl in Hq. apply lookup_insert_Some in Hq as [[<- <-]|[_ Hw1]]; [right; apply Hw|by left].
      * intros i q Hq. simpl. rewrite lookup_insert_ne; [done|]. congruence.
      * simpl. rewrite map_size_insert_None by done. lia.
    + done.
    + intros q [= <-]. simpl. rewrite lookup_insert_eq. by eexists.
  - apply wp_bind, wp_modify, wp_bind, wp_modify, wp_ret.
    assert (delete p (<[p := w]> (seat_objs r)) = seat_objs r) as E by by rewrite delete_insert_id.
    split_and!; [|split|done|done]; try done.
    + by apply (sess_inv_ext r).
    + intros q w1 Hq. left. simpl in Hq. by rewrite E in Hq.
    + simpl. lia.
Qed.

Lemma sess_inv_seat_serial n r : sess_inv r → sess_inv (set_serials (session_serial r) n r).
Proof. by apply sess_inv_ext. Qed.

Lemma wp_add_new_seat kind r : sess_inv r → serial_ok 0 (seat_serial r) → (Z.of_nat (size (seats r)) < 2 ^ 31)%Z →
  wp (add_new_seat kind) (λ o r', sess_inv r' ∧ serial_ok 0 (seat_serial r') ∧ same_tables r r' ∧
    system_idle_hint r' = system_idle_hint r ∧ m_sess r' = m_sess r ∧
    (∀ id, off_seats id r → off_seats id r') ∧ ∀ p, o = Some p → is_Some (seat_objs r' !! p)) r.
Proof.
  intros Hi Hn Hs. unfold add_new_seat. apply wp_bind.
  eapply wp_mono; [by apply wp_generate_seat_id|]. intros sid r1 (k & Hk & Hsid & Hfree & E).
  apply wp_bind, wp_reg.
  assert (sess_inv r1) as Hi1 by (rewrite E; by apply sess_inv_seat_serial).
  eapply wp_mono; [apply (wp_register_seat sid _ r1 Hi1)|].
  - by rewrite E.
  - done.
  - apply new_seat_fresh, Hi1.
  - intros o r' (Hi' & [N1 N2 N3 N4 N5 _ _] & Hh & Hp). split; [done|].
    assert (same_tables r r1) as H1 by (rewrite E; by repeat split).
    split; [|split; [by eapply same_tables_trans|split; [by rewrite Hh, E|split; [by rewrite N2, E|split; [|done]]]]].
    + rewrite N3, E. by apply (serial_at_spec 0 (S k)); [lia|].
    + intros id Hoff p w Hw. destruct (N4 p w Hw) as [Hw'|Hw']; [|by rewrite Hw', lookup_empty].
      rewrite E in Hw'. by apply (Hoff p).
Qed.

Lemma wp_remove_seat p w r : sess_inv r → seat_objs r !! p = Some w →
  wp (remove_seat p) (λ _ r', sess_inv r' ∧ same_tables r r' ∧ m_sess r' = m_sess r ∧
    system_idle_hint r' = system_idle_hint r ∧ seat_serial r' = seat_serial r ∧
    seat_objs r' = delete p (seat_objs r)) r.
Proof.
  intros Hi Hw. pose proof (si_objs _ Hi _ _ Hw) as Hp. unfold remove_seat.
  apply wp_bind, wp_reg. rewrite Hw. apply wp_bind, wp_reg. rewrite Hp.
  apply wp_bind, wp_modify, wp_bind, wp_modify, wp_bind, wp_put, wp_bind, wp_seat_programs, wp_bind, wp_put.
  unfold log_seat_removed_event, log_event. apply wp_bind, wp_put, wp_modify. split_and!; try done.
  - destruct Hi as [H1 H0 H2 H3 H4 H5 H6]. split; simpl; try done.
    + intros q w1 [_ Hq]%lookup_delete_Some. by apply (H2 q).
    + intros i q [Hne Hq]%lookup_delete_Some. destruct (H3 i q Hq) as (w1 & Hw1 & Hid).
      exists w1. split; [|done]. rewrite lookup_delete_ne; [done|]. intros <-. congruence.
    + intros q w1 [Hne Hq]%lookup_delete_Some. rewrite lookup_delete_ne; [by apply H4|].
      intros E. pose proof (H4 q w1 Hq). congruence.
    + intros q w1 i s [_ Hq]%lookup_delete_Some. by apply (H6 q).
  - split_and!; [done|done|]. split; try done. by repeat apply prefix_app_r.
Qed.

(** ** Giving a session up *)

Lemma seat_refs_bound r s : (∀ p w, seat_objs r !! p = Some w → (0 ≤ refs w s)%Z) →
  ∀ p w, seat_objs r !! p = Some w → (refs w s ≤ seat_refs r s)%Z.
Proof.
  unfold seat_refs. intros H. apply (map_fold_weak_ind (λ (t : Z) (m : gmap positive (seat_world W)),
    (∀ p w, m !! p = Some w → (0 ≤ refs w s)%Z) → (0 ≤ t)%Z ∧ ∀ p w, m !! p = Some w → (refs w s ≤ t)%Z)
    (λ _ w n, (refs w s + n)%Z)); [| |exact H].
  - intros _. split; [done|]. intros p w. by rewrite lookup_empty.
  - intros q v m t Hq IH Hm. destruct IH as [IH0 IH].
    { intros p w Hp. apply (Hm p). rewrite lookup_insert_ne; [done|]. intros <-. congruence. }
    pose proof (Hm q v (lookup_insert_eq _ _ _)) as Hv. split; [lia|].
    intros p w [[<- <-]|[_ Hp]]%lookup_insert_Some; [lia|]. specialize (IH p w Hp). lia.
Qed.

Lemma wp_release_session s r : sess_inv r → session_live s (m_sess r) →
  (∀ id, m_sessions r !! id ≠ Some s) →
  wp (release_session s) (λ _ r', sess_inv r' ∧ m_sessions r' = m_sessions r ∧ same_leaders r r' ∧
    hint_connected r ∖ {[s]} ⊆ hint_connected r' ∧ seat_serial r' = seat_serial r ∧ (idle_ok r → idle_ok r')) r.
Proof.
  intros Hi Hl Hno. unfold release_session. apply wp_bind, wp_reg.
  destruct (Z.leb_spec (seat_refs r s) 0) as [Hz|Hz]; [|apply wp_ret; split_and!; try done; set_solver].
  assert (∀ p w, seat_objs r !! p = Some w → ∃ z, (refs w s = Z.of_nat z)%Z ∧
    (on_seat w s ∨ active_session (seat w) = Some s → z ≠ 0)) as Hrefs.
  { intros p w Hw. destruct (proj1 (si_pre _ Hi p w Hw)) as [_ _ _ _ P5 P6]. simpl in P5, P6.
    assert (¬ on_seat w s) as Hoff.
    { intros [i Hin]. destruct (si_on _ Hi p w i s Hw Hin) as [Ht _]. by apply (Hno i). }
    specialize (P6 s Hoff). exists (Z.to_nat (holds (active_session (seat w)) s)).
    assert (0 ≤ holds (active_session (seat w)) s)%Z by (unfold holds; by case_bool_decide).
    rewrite P6. unfold nothing. split; [lia|]. intros [?|E]; [done|]. unfold holds in *.
    rewrite bool_decide_eq_true_2 in * by done. simpl. lia. }
  assert (∀ p w, seat_objs r !! p = Some w → active_session (seat w) ≠ Some s) as Hact.
  { intros p w Hw E. destruct (Hrefs p w Hw) as (z & Ez & Hz0).
    assert (refs w s ≤ seat_refs r s)%Z as Hle.
    { apply (seat_refs_bound r s) with p; [|done]. intros q v Hv. destruct (Hrefs q v Hv) as (? & -> & _). lia. }
    specialize (Hz0 (or_intror E)). lia. }
  apply wp_bind, wp_sessions. eapply wp_mono; [by apply final_law; [apply Hi|]|].
  intros [] x (Hx & Hdead & Hk). apply wp_modify.
  pose proof Hi as [H1 H0 H2 H3 H4 H5 H6].
  assert (∀ id t, m_sessions r !! id = Some t → t ≠ s) as Hne by (intros id t Ht ->; by apply (Hno id)).
  split; [|split; [done|split; [by repeat split|split; [done|split; [done|]]]]].
  - split; simpl; try done.
    + intros id t Ht Hc. apply (H0 id t Ht). apply (crowded_kept nothing_but _ x); [done| |done].
      apply Hk; [by apply (Hne id)|by apply (H5 id)].
    + intros p w Hw. destruct (H2 p w Hw) as ([P1 P2 P3 P4 P5 P6] & Hs & Hu). simpl in *.
      assert (∀ t, on_seat w t → t ≠ s ∧ session_live t (m_sess r)) as Hon.
      { intros t [i Ht]. split; [|by apply (P2 i)]. destruct (H6 p w i t Hw Ht) as [Hin _]. by apply (Hne i). }
      split_and!; [| |done].
      * split; simpl; try done.
        -- intros i t Ht. destruct (Hon t (ex_intro _ i Ht)) as [Hts Htl].
           destruct (Hk t Hts Htl) as [K1 K2 _ _ _ _]. split; [done|]. rewrite K2. by apply P2.
        -- intros t Ht. apply Hk; [|by apply P4]. intros ->. by apply (Hact p w Hw).
      * intros Hc. apply (session_of_device_same _ (enter_seat (m_sess r) w)); [done| | |by apply Hs].
        -- intros t Ht. by apply Hk; apply Hon.
        -- by intros q t [->| ->] Ht; apply Hk; try apply Hon.
    + intros id t Ht. destruct (H5 id t Ht) as [Htl Hid].
      destruct (Hk t (Hne id t Ht) Htl) as [K1 K2 _ _ _ _]. split; [done|]. by rewrite K2.
    + intros p w id t Hw Ht. destruct (H6 p w id t Hw Ht) as [Hin Hse]. split; [done|].
      destruct (Hk t (Hne id t Hin) (proj1 (H5 id t Hin))) as [_ _ _ _ K _]. by rewrite K.
  - intros Hidle Hh id t Ht. destruct (Hk t (Hne id t Ht) (proj1 (H5 id t Ht))) as [_ _ _ _ _ K].
    unfold is_idle. simpl. rewrite K by done. by apply (Hidle Hh id).
Qed.

(** ** Opening a session *)

(** What every operation keeps: sessions, seats, the hint, the seat serial. *)
Record base_inv r : Prop := {
  bi_sess : sess_inv r;
  bi_idle : idle_ok r;
  bi_serial : serial_ok 0 (seat_serial r);
  bi_connected : ∀ id s, m_sessions r !! id = Some s → s ∈ hint_connected r
}.

Lemma wp_find_seat s (Q : option positive → registry W → Prop) r :
  Q None r → (∀ p, seats r !! "seat0" = Some p → Q (Some p) r) → wp (find_seat_for_session s) Q r.
Proof.
  intros H0 H1. unfold find_seat_for_session.
  unfold session_prop. do 6 apply wp_bind, wp_reg.
  destruct (_ && _); [|by apply wp_ret]. apply wp_reg. destruct (seats r !! "seat0"); auto.
Qed.

(** A session that joined the table, and was not on any seat before. *)
Lemma sess_inv_insert id s r : sess_inv r → session_live s (m_sess r) → session_id s (m_sess r) = Some id →
  ¬ crowded (m_sess r) s → m_sessions r !! id = None → sess_inv (set_tables (seats r) (<[id := s]> (m_sessions r)) (leaders r) r).
Proof.
  intros [H1 H0 H2 H3 H4 H5 H6] Hl Hid Hfit Hfree. split; simpl; try done.
  - intros i t [[<- <-]|[_ Ht]]%lookup_insert_Some; [done|by apply (H0 i)].
  - intros i t [[<- <-]|[_ Ht]]%lookup_insert_Some; [done|by apply H5].
  - intros p w i t Hw Ht. destruct (H6 p w i t Hw Ht) as [Hin Hse]. split; [|done].
    rewrite lookup_insert_ne; [done|]. intros <-. congruence.
Qed.

(** The rest of [open_session_for_leader] after the session is in the table. *)
Lemma wp_place_session s id r : sess_inv r → serial_ok 0 (seat_serial r) → (Z.of_nat (size (seats r)) < 2 ^ 31)%Z →
  m_sessions r !! id = Some s → off_seats id r →
  wp (found ← find_seat_for_session s;
      seat ← (match found with Some p => mret (Some p) | None => add_new_seat CK_SEAT_KIND_DYNAMIC end);
      match seat with Some p => at_seat p (ck_seat_add_session s);; mret tt | None => mret tt end)
    (λ _ r', sess_inv r' ∧ serial_ok 0 (seat_serial r') ∧ same_tables r r') r.
Proof.
  intros Hi Hn Hs Hin Hoff. apply wp_bind, wp_find_seat.
  - apply wp_bind. eapply wp_mono; [by apply wp_add_new_seat|].
    intros o r1 (Hi1 & Hn1 & H1 & _ & Ex & Ho & Hp). destruct o as [p|]; [|by apply wp_ret].
    destruct (Hp p eq_refl) as [w Hw]. apply wp_bind. eapply wp_mono.
    { apply (wp_add_at p w s id); [done..| |by apply Ho]. by rewrite (proj1 H1). }
    intros b r2 (Hi2 & H2 & _ & w' & Hd). apply wp_ret. split_and!; [done| |by eapply same_tables_trans].
    by rewrite (sd_serial _ _ _ _ Hd).
  - intros p Hp. destruct (si_seats _ Hi _ _ Hp) as (w & Hw & _). apply wp_bind, wp_ret, wp_bind.
    eapply wp_mono; [by apply (wp_add_at p w s id)|].
    intros b r2 (Hi2 & H2 & _ & w' & Hd). apply wp_ret. split_and!; [done| |done].
    by rewrite (sd_serial _ _ _ _ Hd).
Qed.

Lemma wp_bind3 {S A B C D} (m : prog S A) (f : A → prog S B) (g : B → prog S C) (k : C → prog S D) Q s :
  wp (a ← m; b ← f a; g b) (λ c s', wp (k c) Q s') s → wp (a ← m; b ← f a; c ← g b; k c) Q s.
Proof.
  unfold wp, mbind, prog_bind_inst, prog_mbind. destruct (m s) as [[a s1]|]; [|done].
  destruct (f a s1) as [[b s2]|]; [|done]. by destruct (g b s2) as [[c s3]|].
Qed.

Lemma wp_place_then {A} s id r (k : prog (registry W) A) (Q : A → registry W → Prop) :
  sess_inv r → serial_ok 0 (seat_serial r) → (Z.of_nat (size (seats r)) < 2 ^ 31)%Z →
  m_sessions r !! id = Some s → off_seats id r →
  (∀ r', sess_inv r' → serial_ok 0 (seat_serial r') → same_tables r r' → wp k Q r') →
  wp (found ← find_seat_for_session s;
      seat ← (match found with Some p => mret (Some p) | None => add_new_seat CK_SEAT_KIND_DYNAMIC end);
      (match seat with Some p => at_seat p (ck_seat_add_session s);; mret tt | None => mret tt end);; k) Q r.
Proof.
  intros Hi Hn Hs Hin Hoff HQ.
  refine (wp_bind3 (find_seat_for_session s)
    (λ found, match found with Some p => mret (Some p) | None => add_new_seat CK_SEAT_KIND_DYNAMIC end)
    (λ seat, match seat with Some p => at_seat p (ck_seat_add_session s);; mret tt | None => mret tt end)
    (λ _, k) _ _ _).
  eapply wp_mono; [exact (wp_place_session s id r Hi Hn Hs Hin Hoff)|]. intros [] r' (H1 & H2 & H3). by apply HQ.
Qed.

Lemma answers_put call v r0 r : m_answered r = m_answered r0 → m_out r0 `prefix_of` m_out r →
  answers call v r0 (put_event (MReply call v) (set_m_answered ({[call]} ∪ m_answered r) r)).
Proof.
  intros E [o Ho]. split; [simpl; by rewrite E|]. exists o. simpl. by rewrite Ho, <- (assoc_L (++)).
Qed.

Lemma wp_m_reply call v r0 r (Q : unit → registry W → Prop) : call ∉ m_answered r0 →
  m_answered r = m_answered r0 → m_out r0 `prefix_of` m_out r →
  (∀ r', answers call v r0 r' → calm (set_m_answered ({[call]} ∪ m_answered r) r) r' →
    system_idle_hint r' = system_idle_hint r → Q tt r') → wp (m_answer call v) Q r.
Proof.
  intros Hc E Ho HQ. apply wp_answer_call; [by rewrite E|]. apply HQ; [by apply answers_put|apply calm_put|done].
Qed.

(** Opening either fails and changes nothing, or the session joins the table
    and the caller gets its cookie. *)
Record opened (L : CkSessionLeader) (call : positive) r r' : Prop := {
  op_base : base_inv r';
  op_leaders : leaders r' = leaders r ∧ leader_objs r' = leader_objs r ∧ jobs r' = jobs r ∧
    session_serial r' = session_serial r;
  op_result :
    (m_sessions r' = m_sessions r ∧ answers call (RThrow CK_MANAGER_ERROR_GENERAL) r r') ∨
    (∃ s, m_sessions r' = <[leader_session_id L := s]> (m_sessions r)) ∧
      answers call (RReturn (RStr (leader_cookie L))) r r'
}.

Lemma wp_runtime_dir u r (Q : cstr → registry W → Prop) :
  (∀ d, Q d r) → wp (get_runtime_dir_for_user u) Q r.
Proof. intros HQ. unfold get_runtime_dir_for_user. apply wp_bind, wp_walk_sessions, wp_reg, HQ. Qed.

Lemma wp_open_session blocked l L ps is_local call r : base_inv r → leader_objs r !! l = Some L →
  m_sessions r !! leader_session_id L = None → call ∉ m_answered r → ¬ overfull ps → (Z.of_nat (size (seats r)) < 2 ^ 31)%Z →
  wp (open_session_for_leader blocked l ps is_local call) (λ _ r', opened L call r r') r.
Proof.
  intros [Hi Hidle Hn Hcon] HL' Hfree Hcall Hps Hs. unfold open_session_for_leader.
  apply wp_bind. eapply wp_leader; [done|]. set (id := leader_session_id L) in *.
  apply wp_bind, wp_sessions. eapply wp_mono; [by apply new_law, Hi|].
  intros [s|] x (Hx & Hk & Hnew).
  2:{ apply (wp_m_reply _ _ r); try done. intros r' Ha [C1 C2 C3 [C4 C4'] C5 C6 C7 C8 C9 C11 C10] Hh.
      assert (sess_inv r') as Hi'.
      { apply (sess_inv_ext (set_m_sess x r)); try done. by apply (sess_inv_kept nothing_but). }
      split; [split; [done| |by rewrite C4'|by rewrite C2, C11]|by rewrite C3, C6, C7, C4|left; by rewrite C2].
      intros Hyes i t. rewrite C2, C8. intros Ht. unfold is_idle. simpl.
      destruct (Hk t) as [_ _ _ _ _ K]; [by apply (si_table _ Hi i)|]. rewrite K by done.
      rewrite Hh in Hyes. by apply (Hidle Hyes i). }
  destruct (Hnew s eq_refl) as (Hdead & Hlive & Hid & Hfit).
  assert (sess_inv (set_m_sess x r)) as Hi1 by by apply (sess_inv_kept nothing_but).
  apply wp_bind. unfold session_prop at 1. apply wp_reg, wp_bind, wp_runtime_dir. intros d.
  apply wp_bind, wp_sessions. eapply wp_mono; [by apply runtime_dir_law|].
  intros _ x2 (Hx2 & _ & Hk2). apply wp_bind, wp_put.
  apply wp_bind. unfold insert_session. apply wp_bind, wp_reg. cbn [m_sessions put_event set_m_sess upd_registry].
  rewrite Hfree. apply wp_bind, wp_modify, wp_ret.
  match goal with |- wp _ _ ?v => set (r1 := v) end.
  assert (sess_inv r1) as Hr1.
  { apply (sess_inv_insert id s (put_event (MProcessGroup (leader_pid L) id
      (session_get Session.P_unix_user s x)) (set_m_sess x2 (set_m_sess x r)))).
    - apply (sess_inv_ext (set_m_sess x2 (set_m_sess x r))); try done. by apply (sess_inv_kept nothing_but).
    - by apply Hk2.
    - simpl. destruct (Hk2 s Hlive) as [_ -> _ _ _ _]. done.
    - simpl. intros Hc. apply Hps, Hfit. by apply (crowded_kept nothing_but x x2); [done|apply Hk2|].
    - done. }
  assert (same_leaders r r1) as H1 by (split; try done; by repeat apply prefix_app_r).
  eapply wp_place_then; [exact Hr1|exact Hn|exact Hs|apply lookup_insert_eq| |].
  { intros p w Hw. destruct (sessions (seat w) !! id) as [t|] eqn:Et; [|done].
    destruct (si_on _ Hi p w id t Hw Et). congruence. }
  intros r2 Hi2 Hn2 (E2 & Ec2 & H2). apply wp_bind, wp_sessions.
  assert (m_sessions r2 !! id = Some s) as Hin2 by (rewrite E2; apply lookup_insert_eq).
  eapply wp_mono; [apply is_local_law; [apply Hi2|by apply (si_table _ Hi2 id)]|].
  intros _ x3 (Hx3 & _ & Hk3). apply wp_bind. eapply wp_mono; [apply wp_update_idle|].
  intros [] r4 [Hc4 Hidle4]. apply wp_bind, wp_modify, wp_bind, wp_reg, wp_bind, wp_put.
  assert (sess_inv r4) as Hi4.
  { apply (sess_inv_calm _ _ Hc4). apply (sess_inv_kept (all_but Session.P_is_local)); [by apply harmless_but|done..]. }
  pose proof (same_leaders_trans _ _ _ H1 H2) as H12.
  assert (same_leaders r r4) as H4.
  { eapply same_leaders_trans; [exact H12|]. pose proof (calm_same _ _ Hc4) as [C1 C2 C3 C4 C5 C6]. by split. }
  apply (wp_m_reply _ _ r); [done|apply H4|simpl; apply prefix_app_r, H4|].
  intros r5 Ha [C1 C2 C3 [C4 C4'] C5 C6 C7 C8 C9 C11 C10] Hh. split.
  - split.
    + by apply (sess_inv_ext r4).
    + intros Hyes i t. rewrite C2, C8. rewrite Hh in Hyes. apply (Hidle4 Hyes).
    + rewrite C4'. simpl. rewrite (proj2 (cm_serials _ _ Hc4)). exact Hn2.
    + intros i t. rewrite C2, C11. simpl. rewrite (cm_sessions _ _ Hc4), (cm_connected _ _ Hc4). simpl.
      rewrite E2, Ec2. simpl. intros [[_ <-]|[_ Ht]]%lookup_insert_Some; [set_solver|].
      apply elem_of_union_r. by apply (Hcon i).
  - rewrite C3, C6, C7, C4. destruct H4 as [S1 S2 S3 S4 S5 S6]. by split_and!.
  - right. split; [|exact Ha]. exists s. rewrite C2. simpl. rewrite (cm_sessions _ _ Hc4). exact E2.
Qed.

(** ** Closing a session *)

Lemma sess_inv_delete id r : sess_inv r → off_seats id r →
  sess_inv (set_tables (seats r) (delete id (m_sessions r)) (leaders r) r).
Proof.
  intros [H1 H0 H2 H3 H4 H5 H6] Hoff. split; simpl; try done.
  - intros i t [_ Ht]%lookup_delete_Some. by apply (H0 i).
  - intros i t [_ Ht]%lookup_delete_Some. by apply H5.
  - intros p w i t Hw Ht. destruct (H6 p w i t Hw Ht) as [Hin Hse]. split; [|done].
    rewrite lookup_delete_ne; [done|]. intros <-. rewrite (Hoff p w Hw) in Ht. congruence.
Qed.

(** The session leaves the seat it names, and a dynamic seat is removed. *)
Lemma wp_leave_seat s id r : sess_inv r → m_sessions r !! id = Some s →
  wp (match (sid ← session_seat s (m_sess r); seats r !! sid) with
      | Some p =>
          at_seat p (ck_seat_remove_session s);;
          kind ← in_registry (λ r, match seat_objs r !! p with Some w => s_kind (seat w) | None => CK_SEAT_KIND_STATIC end);
          if decide (kind = CK_SEAT_KIND_DYNAMIC) then remove_seat p else mret tt
      | None => mret tt
      end) (λ _ r', sess_inv r' ∧ same_tables r r' ∧ seat_serial r' = seat_serial r ∧ off_seats id r' ∧
        session_live s (m_sess r')) r.
Proof.
  intros Hi Hin. destruct (si_table _ Hi _ _ Hin) as [Hl Hid].
  assert (∀ p w t, seat_objs r !! p = Some w → sessions (seat w) !! id = Some t →
    (sid ← session_seat s (m_sess r); seats r !! sid) = Some p) as Hwhere.
  { intros p w t Hw Ht. destruct (si_on _ Hi p w id t Hw Ht) as [Hin' Hse].
    assert (t = s) as -> by congruence. rewrite Hse. simpl. by apply (si_objs _ Hi). }
  destruct (_ ≫= _) as [p|] eqn:Ep.
  - assert (∃ sid, seats r !! sid = Some p) as [sid Hsid].
    { destruct (session_seat s (m_sess r)) as [sid|]; [|done]. by exists sid. }
    destruct (si_seats _ Hi _ _ Hsid) as (w & Hw & _). apply wp_bind.
    eapply wp_mono; [by apply (wp_remove_at p w s id)|].
    intros b r1 (Hi1 & H1 & _ & w' & Hd & Ht & Es & Hlike). apply wp_bind, wp_reg.
    assert (off_seats id r1) as Hoff.
    { intros q v Hv. rewrite (sd_objs _ _ _ _ Hd) in Hv. apply lookup_insert_Some in Hv as [[<- <-]|[Hne Hv]].
      - rewrite Ht. apply lookup_delete_eq.
      - destruct (sessions (seat v) !! id) as [t|] eqn:Et; [|done].
        pose proof (Hwhere q v t Hv Et). congruence. }
    assert (session_live s (m_sess r1)) as Hl1 by (rewrite (sd_sess _ _ _ _ Hd); by apply Hlike).
    case_decide as Hk; [|apply wp_ret; split_and!; [done|done|apply Hd|done|done]].
    eapply wp_mono; [apply (wp_remove_seat p w' r1 Hi1)|].
    { rewrite (sd_objs _ _ _ _ Hd). apply lookup_insert_eq. }
    intros [] r2 (Hi2 & H2 & Ex & _ & En & Eo). split_and!; [done|by eapply same_tables_trans| | |].
    + rewrite En. apply Hd.
    + intros q v Hv. rewrite Eo in Hv. apply lookup_delete_Some in Hv as [_ Hv]. by apply (Hoff q).
    + by rewrite Ex.
  - apply wp_ret. split_and!; [done|done|done| |done].
    intros q v Hv. destruct (sessions (seat v) !! id) as [t|] eqn:Et; [|done].
    pose proof (Hwhere q v t Hv Et). congruence.
Qed.

Lemma wp_remove_session_of blocked cookie l L r : base_inv r → leader_objs r !! l = Some L →
  wp (remove_session_for_cookie blocked cookie (Some l)) (λ e r', base_inv r' ∧ same_leaders r r' ∧
    m_sessions r' = delete (leader_session_id L) (m_sessions r) ∧
    (e = None ↔ is_Some (m_sessions r !! leader_session_id L))) r.
Proof.
  intros [Hi Hidle Hn Hcon] HL'. unfold remove_session_for_cookie. apply wp_bind, wp_ret.
  apply wp_bind. eapply wp_leader; [done|]. set (id := leader_session_id L). apply wp_bind, wp_reg.
  destruct (m_sessions r !! id) as [s|] eqn:Hin.
  2:{ apply wp_ret. split; [done|]. split; [apply same_leaders_refl|]. split; [by rewrite delete_id|].
      split; [done|]. by intros []. }
  unfold session_prop. apply wp_bind, wp_reg, wp_bind, wp_reg, wp_bind.
  eapply wp_mono; [by apply (wp_leave_seat s id)|].
  intros [] r1 (Hi1 & (E1 & Ec1 & H1) & En1 & Hoff1 & Hl1). apply wp_bind, wp_modify.
  set (r2 := set_tables (seats r1) (delete id (m_sessions r1)) (leaders r1) r1).
  assert (sess_inv r2) as Hi2 by by apply sess_inv_delete. apply wp_bind, wp_put, wp_bind.
  eapply wp_mono; [apply wp_update_idle|]. intros [] r3 [Hc3 Hidle3].
  apply wp_bind, wp_reg, wp_bind, wp_put, wp_bind, wp_runtime_dir. intros d.
  assert (sess_inv r3) as Hi3 by by apply (sess_inv_calm _ _ Hc3), (sess_inv_ext r2).
  assert (same_leaders r r3) as H3.
  { eapply same_leaders_trans; [exact H1|]. pose proof (calm_same _ _ Hc3) as [C1 C2 C3 C4 C5 C6]. split; try done.
    etrans; [|exact C6]. by repeat apply prefix_app_r. }
  assert (m_sessions r3 = delete id (m_sessions r)) as E3 by (rewrite (cm_sessions _ _ Hc3); simpl; by rewrite E1).
  assert (∀ i, m_sessions r3 !! i ≠ Some s) as Hno.
  { intros i Ht. pose proof Ht as Ht'. rewrite E3 in Ht'. apply lookup_delete_Some in Ht' as [Hne Ht'].
    destruct (si_table _ Hi i s Ht') as [_ Es]. destruct (si_table _ Hi id s Hin). congruence. }
  assert (session_live s (m_sess r3)) as Hl3 by by rewrite (cm_sess _ _ Hc3).
  apply wp_bind.
  apply (wp_mono _ (λ _ r4, quiet (put_event (MSessionRemoved id (session_path s (m_sess r3))) r3) r4)).
  { destruct d; [apply wp_ret, m_quiet_refl|apply wp_put, quiet_put]. }
  intros [] r4 [Hc4 Hh4]. apply wp_bind.
  assert (sess_inv r4) as Hi4 by by apply (sess_inv_calm _ _ Hc4), (sess_inv_ext r3).
  eapply wp_mono; [apply (wp_release_session s r4 Hi4)|].
  { by rewrite (cm_sess _ _ Hc4). }
  { intros i. rewrite (cm_sessions _ _ Hc4). apply Hno. }
  intros [] r5 (Hi5 & E5 & H5 & Hcon5 & En5 & Hid5). apply wp_ret.
  assert (idle_ok r4) as Hidle4.
  { intros Hyes i t. rewrite (cm_sessions _ _ Hc4), (cm_sess _ _ Hc4). rewrite Hh4 in Hyes. apply (Hidle3 Hyes). }
  assert (∀ i t, m_sessions r5 !! i = Some t → t ∈ hint_connected r5) as Hcon'.
  { intros i t Ht. rewrite E5, (cm_sessions _ _ Hc4) in Ht. change (m_sessions r3 !! i = Some t) in Ht.
    apply Hcon5, elem_of_difference. split; [|intros ->%elem_of_singleton; by apply (Hno i)].
    rewrite (cm_connected _ _ Hc4). simpl. rewrite (cm_connected _ _ Hc3). simpl. rewrite Ec1.
    rewrite E3 in Ht. apply lookup_delete_Some in Ht as [_ Ht]. by apply (Hcon i). }
  split_and!.
  - split; [done|by apply Hid5| |exact Hcon'].
    rewrite En5, (proj2 (cm_serials _ _ Hc4)). simpl.
    rewrite (proj2 (cm_serials _ _ Hc3)). simpl. by rewrite En1.
  - eapply same_leaders_trans; [exact H3|]. eapply same_leaders_trans; [|exact H5].
    pose proof (calm_same _ _ Hc4) as [C1 C2 C3 C4 C5 C6]. split; try done. etrans; [|exact C6]. by apply prefix_app_r.
  - rewrite E5, (cm_sessions _ _ Hc4). exact E3.
  - split; [by eexists|done].
Qed.
End manager.
