(* ===== verification/ManagerLogins.v ===== *)
(** * The manager: logins, an abstract view of the registry.

    To its clients the manager is a table of logins by cookie: who opened each
    (user, process, bus name), the id of its session, and whether the session
    is open yet.  [login_step] says what each request may do to it; the registry
    refines it ([ManagerRefines]). *)

From S2P Require Import Prelude Scan Console LogEvent Leader.
From S2P Require Collect Session VtMonitor.
From S2P Require Import Seat SeatFacts Hooks Power Manager ManagerIds ManagerFacts ManagerOps.
From stdpp Require Import fin_maps.

(** ** The specification *)

Record login := { lg_uid : Z; lg_pid : Z; lg_name : cstr; lg_ssid : string; lg_open : bool }.
Abbreviation logins := (gmap string login).
Definition set_open (g : login) : login :=
  {| lg_uid := lg_uid g; lg_pid := lg_pid g; lg_name := lg_name g; lg_ssid := lg_ssid g; lg_open := true |}.

(** What happened, as the clients see it; a caller is known by user and process
    unless the bus does not tell. *)
Inductive login_label :=
| LOpen (caller : option (Z * Z)) (name : cstr)
| LCollected (cookie : string)
| LClose (caller : option (Z * Z)) (cookie : string)
| LGone (name : string)
| LOther.

(** A step and the reply it gives, if it gives one. *)
Inductive login_step (m : logins) : login_label → option registry_reply → logins → Prop :=
| step_open uid pid name cookie ssid v :
    m !! cookie = None → (∀ c g, m !! c = Some g → lg_ssid g ≠ ssid) →
    v = None ∨ v = Some (RThrow CK_MANAGER_ERROR_GENERAL) →
    login_step m (LOpen (Some (uid, pid)) name) v
      (<[cookie := {| lg_uid := uid; lg_pid := pid; lg_name := name; lg_ssid := ssid; lg_open := false |}]> m)
| step_open_unknown name :
    login_step m (LOpen None name) (Some (RThrow CK_MANAGER_ERROR_GENERAL)) m
| step_collected cookie g :
    m !! cookie = Some g → lg_open g = false →
    login_step m (LCollected cookie) (Some (RReturn (RStr cookie))) (<[cookie := set_open g]> m)
| step_not_collected cookie g :
    m !! cookie = Some g → lg_open g = false →
    login_step m (LCollected cookie) (Some (RThrow CK_MANAGER_ERROR_GENERAL)) m
| step_close uid pid cookie g :
    m !! cookie = Some g → lg_uid g = uid → lg_pid g = pid → lg_open g = true →
    login_step m (LClose (Some (uid, pid)) cookie) (Some (RReturn (RBool true))) (delete cookie m)
| step_close_refused caller cookie :
    (∀ uid pid g, caller = Some (uid, pid) → m !! cookie = Some g → lg_uid g = uid → lg_pid g = pid →
       lg_open g = false) →
    login_step m (LClose caller cookie) (Some (RThrow CK_MANAGER_ERROR_FAILED)) m
| step_gone name :
    login_step m (LGone name) None (filter (λ e, lg_name e.2 ≠ Some name) m)
| step_other v : login_step m LOther v m.

Section manager.
Context {W : Type} {HO : SessionOps W} {HM : ManagedSessions W} {HL : ManagedLaws W} {HH : HashOrder}.
Context {HHost : Host} {HEnv : Session.Env} {HP : Collect.Processes} {HMH : ManagerHost} {HLib : LibexecDir}.
Implicit Types (r : registry W) (x : W).

(** ** The registry's logins *)

Definition login_of r (L : CkSessionLeader) : login :=
  {| lg_uid := leader_uid L; lg_pid := leader_pid L; lg_name := leader_service_name L;
     lg_ssid := leader_session_id L;
     lg_open := bool_decide (is_Some (m_sessions r !! leader_session_id L)) |}.
Definition logins_of r : logins :=
  omap (λ l, L ← leader_objs r !! l; Some (login_of r L)) (leaders r).

Lemma logins_lookup r c : logins_of r !! c = (l ← leaders r !! c; L ← leader_objs r !! l; Some (login_of r L)).
Proof. unfold logins_of. by rewrite lookup_omap. Qed.

(** ** The leaders' invariant *)

(** In the table, or stolen from it and about to be destroyed. *)
Definition listed (extra : list (string * positive)) r (c : string) (l : positive) : Prop :=
  leaders r !! c = Some l ∨ (c, l) ∈ extra.

(** Leaders, their jobs and their sessions agree: every leader is listed under
    its cookie, has at most one job, which has an unanswered call of its own and
    no session yet; session ids are distinct, older than the serial, and every
    session has its leader. *)
Record lead_inv (extra : list (string * positive)) r : Prop := {
  li_listed : ∀ c l, listed extra r c l → ∃ L, leader_objs r !! l = Some L ∧ leader_cookie L = c;
  li_objs : ∀ l L, leader_objs r !! l = Some L → listed extra r (leader_cookie L) l;
  li_extra : ∀ c l, (c, l) ∈ extra → leaders r !! c = None;
  li_nodup : NoDup extra;
  li_serial : ∀ l L, leader_objs r !! l = Some L →
    ∃ n, (0 ≤ n < session_serial r)%Z ∧ leader_session_id L = serial_name "Session" n;
  li_ssid : ∀ l l' L L', leader_objs r !! l = Some L → leader_objs r !! l' = Some L' →
    leader_session_id L = leader_session_id L' → l = l';
  li_pending : ∀ l L, leader_objs r !! l = Some L →
    pending_jobs L = [] ∨ ∃ j call, pending_jobs L = [j] ∧ jobs r !! j = Some (l, call);
  li_jobs : ∀ j l call, jobs r !! j = Some (l, call) → ∃ L, leader_objs r !! l = Some L ∧
    pending_jobs L = [j] ∧ (call ∉ m_answered r) ∧ m_sessions r !! leader_session_id L = None;
  li_calls : ∀ j j' l l' call, jobs r !! j = Some (l, call) → jobs r !! j' = Some (l', call) → j = j';
  li_open : ∀ id s, m_sessions r !! id = Some s → ∃ l L, leader_objs r !! l = Some L ∧ leader_session_id L = id;
  li_range : (1 ≤ session_serial r)%Z
}.

Definition reg_inv r : Prop := base_inv r ∧ lead_inv [] r.

Lemma lead_inv_ext extra r r' : leaders r' = leaders r → leader_objs r' = leader_objs r → jobs r' = jobs r →
  m_answered r' = m_answered r → m_sessions r' = m_sessions r → session_serial r' = session_serial r →
  lead_inv extra r → lead_inv extra r'.
Proof.
  intros E1 E2 E3 E4 E5 E6 [H1 H2 H3 H4 H5 H6 H7 H8 H9 H10 H11].
  split; unfold listed in *; rewrite ?E1, ?E2, ?E3, ?E4, ?E5, ?E6; done.
Qed.

(** A call that no pending job will answer. *)
Definition new_call (call : positive) r : Prop :=
  (call ∉ m_answered r) ∧ ∀ j l, jobs r !! j ≠ Some (l, call).

Lemma lead_inv_answered extra call r r' : (∀ j l, jobs r !! j ≠ Some (l, call)) →
  leaders r' = leaders r → leader_objs r' = leader_objs r → jobs r' = jobs r →
  m_answered r' = {[call]} ∪ m_answered r → m_sessions r' = m_sessions r → session_serial r' = session_serial r →
  lead_inv extra r → lead_inv extra r'.
Proof.
  intros Hc E1 E2 E3 E4 E5 E6 [H1 H2 H3 H4 H5 H6 H7 H8 H9 H10 H11].
  split; unfold listed in *; rewrite ?E1, ?E2, ?E3, ?E5, ?E6; try done.
  intros j l c Hj. destruct (H8 j l c Hj) as (L & A1 & A2 & A3 & A4). exists L. split_and!; try done.
  rewrite E4. apply not_elem_of_union. split; [|done]. rewrite elem_of_singleton. intros ->. by apply (Hc j l).
Qed.

Lemma logins_ext r r' : leaders r' = leaders r → leader_objs r' = leader_objs r → m_sessions r' = m_sessions r →
  logins_of r' = logins_of r.
Proof.
  intros E1 E2 E3. apply map_eq. intros c. rewrite !logins_lookup, E1, E2.
  destruct (leaders r !! c) as [l|]; [|done]. simpl. destruct (leader_objs r !! l); [|done]. simpl.
  unfold login_of. by rewrite E3.
Qed.

Lemma reg_leader r c l : reg_inv r → leaders r !! c = Some l →
  ∃ L, leader_objs r !! l = Some L ∧ leader_cookie L = c.
Proof. intros [_ Hl] H. apply (li_listed _ _ Hl). by left. Qed.
Lemma reg_leader_in r l L : reg_inv r → leader_objs r !! l = Some L → leaders r !! leader_cookie L = Some l.
Proof. intros [_ Hl] H. destruct (li_objs _ _ Hl l L H) as [|Hin]; [done|by apply elem_of_nil in Hin]. Qed.
Lemma logins_at r c l L : leaders r !! c = Some l → leader_objs r !! l = Some L →
  logins_of r !! c = Some (login_of r L).
Proof. intros H1 H2. by rewrite logins_lookup, H1; simpl; rewrite H2. Qed.
Lemma logins_inv r c g : reg_inv r → logins_of r !! c = Some g →
  ∃ l L, leaders r !! c = Some l ∧ leader_objs r !! l = Some L ∧ leader_cookie L = c ∧ g = login_of r L.
Proof.
  intros Hr. rewrite logins_lookup. destruct (leaders r !! c) as [l|] eqn:E; [|done]. simpl.
  destruct (leader_objs r !! l) as [L|] eqn:EL; [|done]. intros [= <-].
  destruct (reg_leader r c l Hr E) as (L' & E' & Hc). exists l, L. split_and!; congruence.
Qed.
End manager.
