(* ===== verification/ManagerRefines.v ===== *)
(** * The manager implements the specification of logins.

    Every request the manager can get, in every state it can reach, is served
    without a fault, and does to the logins exactly what [login_step] allows. *)

From S2P Require Import Prelude Scan Console LogEvent Leader.
From S2P Require Collect Session VtMonitor.
From S2P Require Import Seat SeatFacts Hooks Power Manager ManagerIds ManagerFacts ManagerOps ManagerLogins.
From stdpp Require Import fin_maps.

Section manager.
Context {W : Type} {HO : SessionOps W} {HM : ManagedSessions W} {HL : ManagedLaws W} {HH : HashOrder}.
Context {HHost : Host} {HEnv : Session.Env} {HP : Collect.Processes} {HMH : ManagerHost} {HLib : LibexecDir}.
Implicit Types (r : registry W) (x : W).

(** ** Requests *)

Inductive registry_query :=
| QSession (ssid : string)
| QSessionForCookie (cookie : string)
| QSessionForProcess (pid : Z)
| QCurrentSession
| QSessionsForUser (uid : Z)
| QSessions | QListSessions
| QSeats | QListSeats
| QIdleHint | QIdleSinceHint.

(** [proxy]: the manager has its proxy of the bus. *)
Definition answer_query (proxy : bool) (q : registry_query) (call : positive) : prog (registry W) unit :=
  match q with
  | QSession ssid => dbus_get_session ssid call
  | QSessionForCookie cookie => dbus_get_session_for_cookie proxy cookie call
  | QSessionForProcess pid => dbus_get_session_for_unix_process proxy pid call
  | QCurrentSession => dbus_get_current_session proxy call
  | QSessionsForUser uid => dbus_get_sessions_for_unix_user uid call
  | QSessions => m_dbus_get_sessions call
  | QListSessions => dbus_list_sessions call
  | QSeats => dbus_get_seats call
  | QListSeats => dbus_list_seats call
  | QIdleHint => dbus_get_system_idle_hint call
  | QIdleSinceHint => dbus_get_system_idle_since_hint call
  end.

(** [blocked]: an idle block lock is held.  [RSessions]: the sessions change on
    their own account, [RIdle]: one of them changes its idle hint.  [RActivate]
    and [RActivateOn] ask for a session's console, VT_ACTIVATE answering as it
    will; [RVtChanges]: the VT monitor of a seat tells the active console. *)
Inductive registry_input :=
| ROpen (call : positive) (draws : list (Z * Z * Z)) (parameters : option (list (string * gvariant)))
| RCollected (blocked : bool) (j : positive) (result : option (string * (nat → Z)))
| RClose (blocked : bool) (call : positive) (cookie : string)
| ROwner (blocked : bool) (old new : string)
| RIdle (blocked : bool) (s : positive) (x : W)
| RSessions (x : W)
| RLock (call : positive) (lock : bool) (ssid : cstr)
| RActivate (call : positive) (vt_activate : Z → bool) (ssid : cstr)
| RActivateOn (call : positive) (vt_activate : Z → bool) (ssid sid : cstr)
| RVtChanges (p : positive) (num : Z)
| RQuery (call : positive) (q : registry_query).

Definition registry_run (proxy : bool) (i : registry_input) : prog (registry W) unit :=
  match i with
  | ROpen call draws None => dbus_open_session proxy draws call
  | ROpen call draws (Some ps) => dbus_open_session_with_parameters proxy draws ps call
  | RCollected blocked j result => job_completed blocked j result
  | RClose blocked call cookie => dbus_close_session blocked proxy cookie call
  | ROwner blocked old new => on_name_owner_notify blocked old new
  | RIdle blocked s x => prog_modify (set_m_sess x);; session_idle_hint_changed blocked s
  | RSessions x => prog_modify (set_m_sess x)
  | RLock call true ssid => dbus_lock_session ssid call
  | RLock call false ssid => dbus_unlock_session ssid call
  | RActivate call vt_activate ssid => m_dbus_activate_session vt_activate ssid call
  | RActivateOn call vt_activate ssid sid => dbus_activate_session_on_seat vt_activate ssid sid call
  | RVtChanges p num => at_seat p (vt_monitor_changes num)
  | RQuery call q => answer_query proxy q call
  end.

(** What a session may change without the manager's doing: anything but its
    consoles, host, service and type, its idle hint and its place. *)
Definition own_business (p : Session.sprop) : bool :=
  negb (describing p) && match p with Session.P_idle_hint => false | _ => true end.
Lemma harmless_own : harmless own_business.
Proof. intros p Hp. unfold own_business. by rewrite Hp. Qed.
Definition with_hint (p : Session.sprop) : bool :=
  match p with Session.P_idle_hint => true | _ => own_business p end.

(** When an input can come, and the bounds: a static seat has a monitor; fewer than 2^31 - 1 sessions were
    ever asked for, fewer than 2^31 seats exist; the job printed lines with
    separators and not both devices and a remote host (the hook environment would
    overflow); a session that is listed with its seat has one. *)
Definition input_ok (i : registry_input) r : Prop :=
  match i with
  | ROpen call draws _ => new_call call r ∧ (session_serial r < 2 ^ 31 - 1)%Z ∧
      ∃ d, d ∈ draws ∧ leaders r !! cookie_of d = None
  | RCollected _ j result => ∃ l call L, jobs r !! j = Some (l, call) ∧ leader_objs r !! l = Some L ∧
      (Z.of_nat (size (seats r)) < 2 ^ 31)%Z ∧
      ∀ output errno, result = Some (output, errno) → ∃ ps, parse_output L errno output = Some ps ∧ ¬ overfull ps
  | RClose _ call _ => new_call call r
  | ROwner _ _ _ => True
  | RIdle _ s x => sessions_ok x ∧ session_live s (m_sess r) ∧
      ∀ t, session_live t (m_sess r) →
        session_kept (if decide (t = s) then with_hint else own_business) t (m_sess r) x
  | RSessions x => sessions_ok x ∧
      ∀ t, session_live t (m_sess r) → session_kept own_business t (m_sess r) x
  | RLock call _ _ | RActivate call _ _ | RActivateOn call _ _ _ => new_call call r
  | RVtChanges p _ => ∃ w, seat_objs r !! p = Some w ∧ s_kind (seat w) = CK_SEAT_KIND_STATIC
  | RQuery call q => new_call call r ∧
      (q = QListSessions → ∀ id s, m_sessions r !! id = Some s → is_Some (session_seat s (m_sess r)))
  end.

(** The input as the specification sees it, and the call that it may answer. *)
Definition label (proxy : bool) (i : registry_input) r : login_label :=
  match i with
  | ROpen call _ _ => LOpen (registry_caller_info proxy (call_sender call)) (call_sender call)
  | RCollected _ j _ =>
      match (d ← jobs r !! j; leader_objs r !! d.1) with
      | Some L => LCollected (leader_cookie L)
      | None => LOther
      end
  | RClose _ call cookie => LClose (registry_caller_info proxy (call_sender call)) cookie
  | ROwner _ old new => if String.eqb new "" then LGone old else LOther
  | _ => LOther
  end.
Definition call_of (i : registry_input) r : option positive :=
  match i with
  | ROpen call _ _ | RClose _ call _ | RLock call _ _ | RQuery call _ | RActivate call _ _
  | RActivateOn call _ _ _ => Some call
  | RCollected _ j _ => snd <$> jobs r !! j
  | _ => None
  end.

(** [v] is the reply that the step gave. *)
Definition replied (call : option positive) (v : option registry_reply) r r' : Prop :=
  match call, v with
  | Some c, Some v => answers c v r r'
  | _, None => m_answered r' = m_answered r
  | None, Some _ => False
  end.

(** The step does what the specification says. *)
Definition refines (proxy : bool) (i : registry_input) r r' : Prop :=
  reg_inv r' ∧ ∃ v, replied (call_of i r) v r r' ∧ login_step (logins_of r) (label proxy i r) v (logins_of r').

(** ** Answers that change nothing *)

Lemma base_inv_ext r r' : seats r' = seats r → m_sessions r' = m_sessions r → seat_objs r' = seat_objs r →
  m_sess r' = m_sess r → system_idle_hint r' = system_idle_hint r → seat_serial r' = seat_serial r →
  hint_connected r' = hint_connected r → base_inv r → base_inv r'.
Proof.
  intros E1 E2 E3 E4 E5 E6 E7 [H1 H2 H3 H4]. split.
  - by apply (sess_inv_ext r).
  - intros Hh id s. rewrite E2, E4. rewrite E5 in Hh. by apply (H2 Hh).
  - by rewrite E6.
  - rewrite E2, E7. done.
Qed.

Definition after_reply (call : positive) (v : registry_reply) r : registry W :=
  put_event (MReply call v) (set_m_answered ({[call]} ∪ m_answered r) r).

Lemma reg_inv_reply call v r : reg_inv r → new_call call r → reg_inv (after_reply call v r).
Proof.
  intros [Hb Hl] [_ Hc]. split; [by apply (base_inv_ext r)|by apply (lead_inv_answered [] call r)].
Qed.
Lemma answers_reply call v r : answers call v r (after_reply call v r).
Proof. by apply (answers_put call v r r). Qed.
Lemma logins_reply call v r : logins_of (after_reply call v r) = logins_of r.
Proof. by apply logins_ext. Qed.

Lemma wp_reply_reg call v r (Q : unit → registry W → Prop) : reg_inv r → new_call call r →
  (reg_inv (after_reply call v r) → Q tt (after_reply call v r)) → wp (m_answer call v) Q r.
Proof. intros Hr Hc HQ. apply wp_answer_call; [apply Hc|]. apply HQ. by apply reg_inv_reply. Qed.

(** ** Opening *)

Lemma wp_cookie draws r : (∃ d, d ∈ draws ∧ leaders r !! cookie_of d = None) →
  wp (generate_session_cookie draws) (λ c r', r' = r ∧ leaders r !! c = None) r.
Proof.
  intros (d & Hd & Hfree). induction draws as [|e draws IH]; [by apply elem_of_nil in Hd|]. simpl.
  apply wp_bind, wp_reg. destruct (leaders r !! cookie_of e) eqn:E; [|by apply wp_ret].
  apply IH. apply elem_of_cons in Hd as [->|Hd]; [congruence|done].
Qed.

(** With no wrap-around, the next serial is free. *)
Lemma wp_session_id r : reg_inv r → (session_serial r < 2 ^ 31 - 1)%Z →
  wp generate_session_id (λ id r', id = serial_name "Session" (session_serial r) ∧ m_sessions r !! id = None ∧
    r' = set_serials (session_serial r + 1) (seat_serial r) r) r.
Proof.
  intros [_ Hl] Hs. pose proof (li_range _ _ Hl) as H1.
  unfold generate_session_id. apply wp_bind, wp_reg.
  eapply wp_mono; [apply (wp_session_id_loop _ 0); [lia|]|].
  - unfold serial_at. simpl. destruct (m_sessions r !! _) as [s|] eqn:E; [|done].
    destruct (li_open _ _ Hl _ _ E) as (l & L & HL' & Hid). destruct (li_serial _ _ Hl l L HL') as (n & Hn & En).
    rewrite Hid in En. apply serial_name_inj in En; lia.
  - intros id r' (j & Hj & -> & Hnone & ->). assert (j = 0) as -> by lia. unfold serial_at in *. simpl in *.
    split_and!; [done|done|]. unfold next_serial. rewrite u32_small, i32_small by lia.
    destruct (Z.ltb_spec (session_serial r + 1) 0); [lia|done].
Qed.

Lemma lead_inv_new c l L r r' : reg_inv r → leaders r !! c = None → leader_objs r !! l = None →
  leader_cookie L = c → leader_session_id L = serial_name "Session" (session_serial r) → pending_jobs L = [] →
  leaders r' = <[c := l]> (leaders r) → leader_objs r' = <[l := L]> (leader_objs r) → jobs r' = jobs r →
  m_answered r' = m_answered r → m_sessions r' = m_sessions r → session_serial r' = (session_serial r + 1)%Z →
  lead_inv [] r'.
Proof.
  intros Hr Hc Hl Ec Es Ep E1 E2 E3 E4 E5 E6. destruct Hr as [Hb [H1 H2 H3 H4 H5 H6 H7 H8 H9 H10 H11]].
  assert (∀ l' L', leader_objs r !! l' = Some L' → leader_session_id L ≠ leader_session_id L') as Hnew.
  { intros l' L' Hl' E. destruct (H5 l' L' Hl') as (n & Hn & En). rewrite Es, En in E.
    apply serial_name_inj in E; lia. }
  split; unfold listed in *; rewrite ?E1, ?E2, ?E3, ?E4, ?E5, ?E6; try done.
  - intros c' l' [Hin|Hin]; [|by apply elem_of_nil in Hin].
    apply lookup_insert_Some in Hin as [[<- <-]|[Hne Hin]]; [exists L; by rewrite lookup_insert_eq|].
    destruct (H1 c' l' (or_introl Hin)) as (L' & HL' & Hc'). exists L'. rewrite lookup_insert_ne; [done|congruence].
  - intros l' L' [[<- <-]|[Hne HL']]%lookup_insert_Some; left; [rewrite Ec; apply lookup_insert_eq|].
    destruct (H2 l' L' HL') as [Hin|Hin]; [|by apply elem_of_nil in Hin].
    rewrite lookup_insert_ne; [done|congruence].
  - intros c' l' Hin. by apply elem_of_nil in Hin.
  - intros l' L' [[<- <-]|[Hne HL']]%lookup_insert_Some; [exists (session_serial r); split; [lia|done]|].
    destruct (H5 l' L' HL') as (n & Hn & En). exists n. split; [lia|done].
  - intros l1 l2 L1 L2 [[<- <-]|[Hn1 HL1]]%lookup_insert_Some [[<- <-]|[Hn2 HL2]]%lookup_insert_Some E; try done.
    + by destruct (Hnew l2 L2 HL2).
    + by destruct (Hnew l1 L1 HL1).
    + by eapply H6.
  - intros l' L' [[<- <-]|[Hne HL']]%lookup_insert_Some; [by left|by apply H7].
  - intros j l' call Hj. destruct (H8 j l' call Hj) as (L' & HL' & Hrest). exists L'.
    rewrite lookup_insert_ne; [done|congruence].
  - intros id s Hin. destruct (H10 id s Hin) as (l' & L' & HL' & Hid). exists l', L'.
    rewrite lookup_insert_ne; [done|congruence].
  - lia.
Qed.

Lemma logins_new c l L r r' : leaders r !! c = None → leader_objs r !! l = None →
  (∀ c' l', leaders r !! c' = Some l' → is_Some (leader_objs r !! l')) →
  leaders r' = <[c := l]> (leaders r) → leader_objs r' = <[l := L]> (leader_objs r) → m_sessions r' = m_sessions r →
  logins_of r' = <[c := login_of r L]> (logins_of r).
Proof.
  intros Hc Hl Hlive E1 E2 E3. apply map_eq. intros c'. rewrite logins_lookup, E1, E2.
  destruct (decide (c' = c)) as [->|Hne].
  - rewrite !lookup_insert_eq. simpl. rewrite lookup_insert_eq. simpl. unfold login_of. by rewrite E3.
  - rewrite !lookup_insert_ne by done. rewrite logins_lookup. destruct (leaders r !! c') as [l'|] eqn:El; [|done].
    simpl. rewrite lookup_insert_ne.
    + destruct (leader_objs r !! l'); [|done]. simpl. unfold login_of. by rewrite E3.
    + intros <-. destruct (Hlive c' l El). congruence.
Qed.

(** A leader object changed in its jobs only. *)
Record same_but_jobs (L L' : CkSessionLeader) : Prop := {
  sj_cookie : leader_cookie L' = leader_cookie L;
  sj_ssid : leader_session_id L' = leader_session_id L;
  sj_owner : leader_uid L' = leader_uid L ∧ leader_pid L' = leader_pid L ∧
    leader_service_name L' = leader_service_name L
}.

Lemma logins_update l L L' r r' : leader_objs r !! l = Some L → same_but_jobs L L' →
  leaders r' = leaders r → leader_objs r' = <[l := L']> (leader_objs r) → m_sessions r' = m_sessions r →
  logins_of r' = logins_of r.
Proof.
  intros HL' [E1 E2 (E3 & E4 & E5)] F1 F2 F3. apply map_eq. intros c. rewrite !logins_lookup, F1, F2.
  destruct (leaders r !! c) as [l'|]; [|done]. simpl. destruct (decide (l' = l)) as [->|Hne].
  - rewrite lookup_insert_eq, HL'. simpl. unfold login_of. by rewrite F3, E2, E3, E4, E5.
  - rewrite lookup_insert_ne by done. destruct (leader_objs r !! l'); [|done]. simpl. unfold login_of. by rewrite F3.
Qed.

Lemma lead_inv_job j l L call r r' : lead_inv [] r → leader_objs r !! l = Some L → pending_jobs L = [] →
  jobs r !! j = None → new_call call r → m_sessions r !! leader_session_id L = None →
  leaders r' = leaders r → leader_objs r' = <[l := add_pending_job j L]> (leader_objs r) →
  jobs r' = <[j := (l, call)]> (jobs r) → m_answered r' = m_answered r → m_sessions r' = m_sessions r →
  session_serial r' = session_serial r → lead_inv [] r'.
Proof.
  intros [H1 H2 H3 H4 H5 H6 H7 H8 H9 H10 H11] HL' Hp Hj [Hc1 Hc2] Hs E1 E2 E3 E4 E5 E6.
  assert (∀ l' L', leader_objs r' !! l' = Some L' → ∃ L0, leader_objs r !! l' = Some L0 ∧ same_but_jobs L0 L') as Hold.
  { intros l' L'. rewrite E2. intros [[<- <-]|[Hne Hin]]%lookup_insert_Some; [by exists L|by exists L']. }
  assert (∀ l' L0, leader_objs r !! l' = Some L0 → ∃ L', leader_objs r' !! l' = Some L' ∧ same_but_jobs L0 L') as Hnew.
  { intros l' L0 Hin. rewrite E2. destruct (decide (l' = l)) as [->|Hne].
    - exists (add_pending_job j L). rewrite lookup_insert_eq. split; [done|]. assert (L0 = L) as -> by congruence. done.
    - exists L0. by rewrite lookup_insert_ne. }
  split; unfold listed in *; rewrite ?E1, ?E5, ?E6; try done.
  - intros c l' Hin. destruct (H1 c l' Hin) as (L0 & Hin0 & Hc). destruct (Hnew l' L0 Hin0) as (L' & Hin' & S).
    exists L'. split; [done|]. by rewrite (sj_cookie _ _ S).
  - intros l' L' Hin. destruct (Hold l' L' Hin) as (L0 & Hin0 & S). rewrite (sj_cookie _ _ S). by apply H2.
  - intros l' L' Hin. destruct (Hold l' L' Hin) as (L0 & Hin0 & S). rewrite (sj_ssid _ _ S). by apply (H5 l').
  - intros l1 l2 L1 L2 Hin1 Hin2. destruct (Hold l1 L1 Hin1) as (M1 & Hm1 & S1). destruct (Hold l2 L2 Hin2) as (M2 & Hm2 & S2).
    rewrite (sj_ssid _ _ S1), (sj_ssid _ _ S2). by apply H6.
  - intros l' L'. rewrite E2, E3. intros [[<- <-]|[Hne Hin]]%lookup_insert_Some.
    + right. exists j, call. simpl. rewrite Hp, lookup_insert_eq. done.
    + destruct (H7 l' L' Hin) as [|(i & c & Ep & Ei)]; [by left|right]. exists i, c.
      rewrite lookup_insert_ne; [done|]. intros <-. congruence.
  - intros i l' c. rewrite E2, E3, E4. intros [[<- [= <- <-]]|[Hne Hi]]%lookup_insert_Some.
    + exists (add_pending_job j L). rewrite lookup_insert_eq. simpl. by rewrite Hp.
    + destruct (H8 i l' c Hi) as (L' & Hin & Ep & Hrest). exists L'. rewrite lookup_insert_ne; [done|].
      intros <-. assert (L' = L) as -> by congruence. rewrite Hp in Ep. done.
  - intros i i' l1 l2 c. rewrite E3. intros [[<- F]|[Hne Hi]]%lookup_insert_Some
      [[<- F']|[Hne' Hi']]%lookup_insert_Some; simplify_eq; try done.
    + by destruct (Hc2 i' l2).
    + by destruct (Hc2 i l1).
    + by eapply H9.
  - intros id s Hin. destruct (H10 id s Hin) as (l' & L0 & Hin0 & Hid). destruct (Hnew l' L0 Hin0) as (L' & Hin' & S).
    exists l', L'. split; [done|]. by rewrite (sj_ssid _ _ S).
Qed.

Lemma wp_open proxy call draws ps r : reg_inv r → input_ok (ROpen call draws ps) r →
  wp (create_session_for_sender proxy draws (call_sender call) ps call)
    (λ _ r', refines proxy (ROpen call draws ps) r r') r.
Proof.
  intros Hr (Hc & Hs & Hd). unfold create_session_for_sender, refines. simpl label. simpl call_of.
  destruct (registry_caller_info proxy (call_sender call)) as [[uid pid]|].
  2:{ apply wp_reply_reg; [done..|]. intros Hr'. split; [done|]. eexists (Some _). split; [apply answers_reply|].
      rewrite logins_reply. constructor. }
  apply wp_bind. eapply wp_mono; [by apply wp_cookie|]. intros c r0 [-> Hfree].
  apply wp_bind. eapply wp_mono; [by apply wp_session_id|]. intros id r1 (-> & Hnone & E1).
  apply wp_bind, wp_reg.
  set (l := fresh (dom (leader_objs r1))).
  assert (leader_objs r !! l = None) as Hl.
  { apply not_elem_of_dom. unfold l. rewrite E1. apply is_fresh. }
  set (L := ck_session_leader_set_override_parameters ps
    (ck_session_leader_new uid pid (call_sender call) (serial_name "Session" (session_serial r)) c)).
  apply wp_bind, wp_modify, wp_bind, wp_modify.
  match goal with |- wp _ _ ?v => set (r2 := v) end.
  assert (leader_objs r2 = <[l := L]> (leader_objs r)) as Eo by (unfold r2; rewrite E1; done).
  assert (leaders r2 = <[c := l]> (leaders r)) as El by (unfold r2; rewrite E1; done).
  assert (jobs r2 = jobs r ∧ m_answered r2 = m_answered r ∧ m_sessions r2 = m_sessions r ∧
    session_serial r2 = (session_serial r + 1)%Z ∧ m_out r2 = m_out r) as (Ej & Ea & Es & En & Ero)
    by (unfold r2; rewrite E1; done).
  assert (base_inv r2) as Hb2 by (apply (base_inv_ext r); [unfold r2; rewrite E1; done..|apply Hr]).
  assert (lead_inv [] r2) as Hl2 by (by apply (lead_inv_new c l L r)).
  assert (logins_of r2 = <[c := login_of r L]> (logins_of r)) as Elog.
  { apply (logins_new c l L r); try done. intros c' l' Hin. destruct (reg_leader r c' l' Hr Hin) as (L' & -> & _). done. }
  assert (login_of r L = {| lg_uid := uid; lg_pid := pid; lg_name := call_sender call;
    lg_ssid := serial_name "Session" (session_serial r); lg_open := false |}) as Eg.
  { unfold login_of. simpl. rewrite Hnone. done. }
  assert (∀ v, v = None ∨ v = Some (RThrow CK_MANAGER_ERROR_GENERAL) →
    login_step (logins_of r) (LOpen (Some (uid, pid)) (call_sender call)) v (logins_of r2)) as Hstep.
  { intros v Hv. rewrite Elog, Eg. constructor; [|..|done].
    - by rewrite logins_lookup, Hfree.
    - intros c' g Hg E. destruct (logins_inv r c' g Hr Hg) as (l' & L' & _ & HL' & _ & ->). simpl in E.
      destruct (li_serial _ _ (proj2 Hr) l' L' HL') as (n & Hn & En'). rewrite En' in E.
      pose proof (li_range _ _ (proj2 Hr)). apply serial_name_inj in E; lia. }
  assert (new_call call r2) as Hc2 by (destruct Hc as [C1 C2]; split; [by rewrite Ea|by rewrite Ej]).
  unfold generate_session_for_leader. apply wp_bind. eapply wp_leader; [rewrite Eo; apply lookup_insert_eq|].
  destruct (job_can_run (collect_command L)).
  - apply wp_bind, wp_put, wp_bind, wp_reg, wp_bind, wp_modify, wp_modify.
    match goal with |- reg_inv ?v ∧ _ => set (r3 := v) end.
    set (j := fresh (dom (jobs r2))).
    assert (leader_objs r3 = <[l := add_pending_job j L]> (leader_objs r2)) as Eo3 by done.
    assert (logins_of r3 = logins_of r2) as Elog3.
    { apply (logins_update l L (add_pending_job j L)); try done. rewrite Eo. apply lookup_insert_eq. }
    split; [split|].
    + by apply (base_inv_ext r2).
    + apply (lead_inv_job j l L call r2); try done.
      * rewrite Eo. apply lookup_insert_eq.
      * apply not_elem_of_dom, is_fresh.
      * rewrite Es. exact Hnone.
    + exists None. split; [exact Ea|]. rewrite Elog3. apply Hstep. by left.
  - assert (reg_inv r2) as Hr2 by done. apply wp_reply_reg; [done..|]. intros Hr'. split; [done|].
    exists (Some (RThrow CK_MANAGER_ERROR_GENERAL)). split.
    + destruct (answers_reply call (RThrow CK_MANAGER_ERROR_GENERAL) r2) as [A1 [o A2]].
      split; [by rewrite A1, Ea|]. exists o. by rewrite A2, Ero.
    + rewrite logins_reply. apply Hstep. by right.
Qed.

(** ** The end of a job *)

Lemma wp_verify ps b r : wp (verify_parameters b ps) (λ _ r', r' = r) r.
Proof.
  revert b. induction ps as [|[k v] ps IH]; intros b; simpl; [by apply wp_ret|].
  destruct b; [by apply wp_ret|]. apply wp_bind. apply (wp_mono _ (λ _ r', r' = r)).
  - destruct (String.eqb k "login-session-id"); [|by apply wp_ret].
    unfold verify_login_session_id_is_local. by apply wp_bind, wp_walk_sessions, wp_reg.
  - intros b' r' ->. apply IH.
Qed.

Lemma opened_refused L call r : base_inv r → (call ∉ m_answered r) →
  opened L call r (after_reply call (RThrow CK_MANAGER_ERROR_GENERAL) r).
Proof.
  intros Hb Hc. split; [by apply (base_inv_ext r)|done|]. left. split; [done|apply answers_reply].
Qed.

Lemma wp_job_result blocked l L call result r : base_inv r → leader_objs r !! l = Some L →
  m_sessions r !! leader_session_id L = None → (call ∉ m_answered r) → (Z.of_nat (size (seats r)) < 2 ^ 31)%Z →
  (∀ output errno, result = Some (output, errno) → ∃ ps, parse_output L errno output = Some ps ∧ ¬ overfull ps) →
  wp (match result with
      | Some (output, errno) =>
          match parse_output L errno output with
          | None => prog_abort
          | Some ps => collect_parameters_cb blocked l (Some ps) call
          end
      | None => collect_parameters_cb blocked l None call
      end) (λ _ r', opened L call r r') r.
Proof.
  intros Hb HL' Hfree Hc Hs Hok. destruct result as [[output errno]|].
  - destruct (Hok output errno eq_refl) as (ps & -> & Hps).
    unfold collect_parameters_cb, verify_and_open_session_for_leader. apply wp_bind.
    eapply wp_mono; [apply wp_verify|]. intros b r0 ->. by apply wp_open_session.
  - apply wp_answer_call; [done|]. by apply opened_refused.
Qed.

Lemma lead_inv_done j l L call r r' : lead_inv [] r → jobs r !! j = Some (l, call) → leader_objs r !! l = Some L →
  leaders r' = leaders r → leader_objs r' = <[l := remove_pending_job j L]> (leader_objs r) →
  jobs r' = delete j (jobs r) → m_answered r' = {[call]} ∪ m_answered r → session_serial r' = session_serial r →
  (m_sessions r' = m_sessions r ∨ ∃ s, m_sessions r' = <[leader_session_id L := s]> (m_sessions r)) →
  lead_inv [] r'.
Proof.
  intros [H1 H2 H3 H4 H5 H6 H7 H8 H9 H10 H11] Hj HL' E1 E2 E3 E4 E6 E5.
  destruct (H8 j l call Hj) as (L0 & HL0 & Hp & Hcall & Hnone). assert (L0 = L) as -> by congruence.
  assert (∀ l' L', leader_objs r' !! l' = Some L' → ∃ L0, leader_objs r !! l' = Some L0 ∧ same_but_jobs L0 L') as Hold.
  { intros l' L'. rewrite E2. intros [[<- <-]|[Hne Hin]]%lookup_insert_Some; [by exists L|by exists L']. }
  assert (∀ l' L0, leader_objs r !! l' = Some L0 → ∃ L', leader_objs r' !! l' = Some L' ∧ same_but_jobs L0 L') as Hnew.
  { intros l' L0 Hin. rewrite E2. destruct (decide (l' = l)) as [->|Hne].
    - exists (remove_pending_job j L). rewrite lookup_insert_eq. split; [done|]. assert (L0 = L) as -> by congruence. done.
    - exists L0. by rewrite lookup_insert_ne. }
  split; unfold listed in *; rewrite ?E1, ?E6; try done.
  - intros c l' Hin. destruct (H1 c l' Hin) as (L0 & Hin0 & Hc). destruct (Hnew l' L0 Hin0) as (L' & Hin' & S).
    exists L'. split; [done|]. by rewrite (sj_cookie _ _ S).
  - intros l' L' Hin. destruct (Hold l' L' Hin) as (L0 & Hin0 & S). rewrite (sj_cookie _ _ S). by apply H2.
  - intros l' L' Hin. destruct (Hold l' L' Hin) as (L0 & Hin0 & S). rewrite (sj_ssid _ _ S). by apply (H5 l').
  - intros l1 l2 L1 L2 Hin1 Hin2. destruct (Hold l1 L1 Hin1) as (M1 & Hm1 & S1). destruct (Hold l2 L2 Hin2) as (M2 & Hm2 & S2).
    rewrite (sj_ssid _ _ S1), (sj_ssid _ _ S2). by apply H6.
  - intros l' L'. rewrite E2, E3. intros [[<- <-]|[Hne Hin]]%lookup_insert_Some.
    + left. simpl. rewrite Hp. simpl. by rewrite decide_True.
    + destruct (H7 l' L' Hin) as [|(i & c & Ep & Ei)]; [by left|right]. exists i, c.
      rewrite lookup_delete_ne; [done|]. intros <-. congruence.
  - intros i l' c. rewrite E2, E3, E4. intros [Hne Hi]%lookup_delete_Some.
    destruct (H8 i l' c Hi) as (L' & Hin & Ep & Hc & Hnone'). assert (l ≠ l') as Hl.
    { intros <-. assert (L' = L) as -> by congruence. rewrite Hp in Ep. by simplify_eq. }
    exists L'. rewrite lookup_insert_ne by done. split_and!; [done|done| |].
    + apply not_elem_of_union. split; [|done]. rewrite elem_of_singleton. intros ->. by destruct Hne; eapply H9.
    + destruct E5 as [->|[s ->]]; [done|]. rewrite lookup_insert_ne; [done|]. intros E. by destruct Hl; eapply H6.
  - intros i i' l1 l2 c. rewrite E3. intros [Hne Hi]%lookup_delete_Some [Hne' Hi']%lookup_delete_Some. by eapply H9.
  - intros id s Hin. assert (∃ l' L0, leader_objs r !! l' = Some L0 ∧ leader_session_id L0 = id) as (l' & L0 & Hin0 & Hid).
    { destruct E5 as [E5|[s' E5]]; rewrite E5 in Hin; [by eapply H10|].
      apply lookup_insert_Some in Hin as [[<- _]|[_ Hin]]; [by exists l, L|by eapply H10]. }
    destruct (Hnew l' L0 Hin0) as (L' & Hin' & S). exists l', L'. split; [done|]. by rewrite (sj_ssid _ _ S).
Qed.

(** The session of [L] is in the table now. *)
Lemma logins_opened l L L' s r r' : reg_inv r → leader_objs r !! l = Some L → same_but_jobs L L' →
  leaders r' = leaders r → leader_objs r' = <[l := L']> (leader_objs r) →
  m_sessions r' = <[leader_session_id L := s]> (m_sessions r) →
  logins_of r' = <[leader_cookie L := set_open (login_of r L)]> (logins_of r).
Proof.
  intros Hr HL' [S1 S2 (S3 & S4 & S5)] E1 E2 E3. apply map_eq. intros c. rewrite logins_lookup, E1, E2.
  destruct (decide (c = leader_cookie L)) as [->|Hne].
  - rewrite lookup_insert_eq, (reg_leader_in r l L Hr HL'). simpl. rewrite lookup_insert_eq. simpl.
    unfold login_of, set_open. rewrite E3, S2, S3, S4, S5. simpl. rewrite lookup_insert_eq, bool_decide_eq_true_2; [done|by eexists].
  - rewrite lookup_insert_ne by done. rewrite logins_lookup. destruct (leaders r !! c) as [l'|] eqn:El; [|done]. simpl.
    destruct (reg_leader r c l' Hr El) as (L0 & HL0 & Hc). assert (l' ≠ l) as Hl.
    { intros ->. congruence. }
    rewrite lookup_insert_ne, HL0 by done. simpl. unfold login_of. rewrite E3. rewrite lookup_insert_ne; [done|].
    intros E. apply Hl. symmetry. by eapply (li_ssid _ _ (proj2 Hr)).
Qed.

Lemma wp_collected proxy blocked j result r : reg_inv r → input_ok (RCollected blocked j result) r →
  wp (job_completed blocked j result) (λ _ r', refines proxy (RCollected blocked j result) r r') r.
Proof.
  intros Hr (l & call & L & Hj & HL' & Hs & Hok). unfold job_completed, refines. simpl label. simpl call_of.
  destruct (li_jobs _ _ (proj2 Hr) j l call Hj) as (L0 & HL0 & Hp & Hcall & Hnone).
  assert (L0 = L) as -> by congruence.
  apply wp_bind, wp_reg. rewrite Hj. simpl. rewrite HL'. apply wp_bind. eapply wp_leader; [done|].
  apply wp_bind. eapply wp_mono; [apply (wp_job_result blocked l L call result r); try done; apply Hr|].
  intros [] r1 [Hb1 (E1 & E2 & E3 & E4) Hres]. apply wp_bind. eapply wp_leader; [by rewrite E2|].
  apply wp_bind, wp_modify, wp_modify.
  match goal with |- reg_inv ?v ∧ _ => set (r2 := v) end.
  assert (leader_objs r2 = <[l := remove_pending_job j L]> (leader_objs r)) as Eo by (unfold r2; simpl; by rewrite E2).
  assert (jobs r2 = delete j (jobs r)) as Ej by (unfold r2; simpl; by rewrite E3).
  assert (m_answered r1 = {[call]} ∪ m_answered r) as Ea by (by destruct Hres as [[_ [A _]]|[_ [A _]]]).
  assert (logins_of r !! leader_cookie L = Some (login_of r L)) as Hg.
  { eapply logins_at; [|exact HL']. by eapply reg_leader_in. }
  assert (lg_open (login_of r L) = false) as Hopen.
  { simpl. rewrite Hnone. done. }
  split.
  - split; [by apply (base_inv_ext r1)|]. eapply (lead_inv_done j l L call r); try done; [apply Hr|].
    destruct Hres as [[Em _]|[[s Em] _]]; [by left|right; by exists s].
  - destruct Hres as [[Em Ha]|[[s Em] Ha]]; (eexists (Some _); split; [exact Ha|]).
    + rewrite (logins_update l L (remove_pending_job j L) r r2); try done. by eapply step_not_collected.
    + rewrite (logins_opened l L (remove_pending_job j L) s r r2); try done. by apply step_collected.
Qed.

(** ** Leaders that go *)

Definition steal (t : gmap string positive) (ex : list (string * positive)) : gmap string positive :=
  foldl (λ t e, delete e.1 t) t ex.
Lemma lookup_steal t ex c : steal t ex !! c = if decide (c ∈ ex.*1) then None else t !! c.
Proof.
  revert t. induction ex as [|e ex IH]; intros t.
  - by rewrite decide_False by (intros []%elem_of_nil).
  - change (steal t (e :: ex)) with (steal (delete e.1 t) ex). rewrite IH, fmap_cons.
    destruct (decide (c ∈ ex.*1)) as [Hc|Hc].
    + by rewrite decide_True by (by right).
    + destruct (decide (c = e.1)) as [->|Hne].
      * by rewrite lookup_delete_eq, decide_True by (by left).
      * rewrite lookup_delete_ne by done. by rewrite decide_False by (by intros [?|?]%elem_of_cons).
Qed.

Lemma lead_inv_steal ex r r' : lead_inv [] r → NoDup ex → (∀ c l, (c, l) ∈ ex → leaders r !! c = Some l) →
  leaders r' = steal (leaders r) ex → leader_objs r' = leader_objs r → jobs r' = jobs r →
  m_answered r' = m_answered r → m_sessions r' = m_sessions r → session_serial r' = session_serial r →
  lead_inv ex r'.
Proof.
  intros [H1 H2 H3 H4 H5 H6 H7 H8 H9 H10 H11] Hnd Hex E1 E2 E3 E4 E5 E6.
  split; unfold listed in *; rewrite ?E2, ?E3, ?E4, ?E5, ?E6; try done.
  - intros c l Hin. apply H1. left. destruct Hin as [Hin|Hin]; [|by apply Hex].
    rewrite E1, lookup_steal in Hin. by case_decide.
  - intros l L HL'. destruct (H2 l L HL') as [Hin|Hin]; [|by apply elem_of_nil in Hin].
    rewrite E1, lookup_steal. case_decide as Hc; [right|by left].
    apply list_elem_of_fmap in Hc as ([c l'] & Ec & Hin'). simpl in Ec. pose proof (Hex c l' Hin') as Hl'.
    rewrite <- Ec in Hl'. assert (l' = l) as -> by congruence. by rewrite Ec.
  - intros c l Hin. rewrite E1, lookup_steal, decide_True; [done|]. apply list_elem_of_fmap. by exists (c, l).
Qed.

Lemma lead_inv_perm ex ex' r : ex ≡ₚ ex' → lead_inv ex r → lead_inv ex' r.
Proof.
  intros Hp [H1 H2 H3 H4 H5 H6 H7 H8 H9 H10 H11].
  split; unfold listed in *; try setoid_rewrite <- Hp; done.
Qed.

(** A stolen leader is dropped with its jobs and its session. *)
Lemma lead_inv_drop c l L ex r r' : lead_inv ((c, l) :: ex) r → leader_objs r !! l = Some L →
  leaders r' = leaders r → leader_objs r' = delete l (leader_objs r) →
  (∀ j l' call, jobs r' !! j = Some (l', call) ↔ jobs r !! j = Some (l', call) ∧ l' ≠ l) →
  m_answered r' = m_answered r → m_sessions r' = delete (leader_session_id L) (m_sessions r) →
  session_serial r' = session_serial r → lead_inv ex r'.
Proof.
  intros [H1 H2 H3 H4 H5 H6 H7 H8 H9 H10 H11] HL' E1 E2 E3 E4 E5 E6.
  assert (leader_cookie L = c) as Hc.
  { destruct (H1 c l) as (L' & HL0 & Hc); [right; by left|]. congruence. }
  apply NoDup_cons in H4 as [Hnot Hnd].
  assert (∀ c' l', listed ex r c' l' → listed ((c, l) :: ex) r c' l' ∧ l' ≠ l) as Hlisted.
  { intros c' l' Hin. assert (listed ((c, l) :: ex) r c' l') as Hin' by (destruct Hin; [by left|right; by right]).
    split; [done|]. intros ->. destruct (H1 c' l Hin') as (L' & HL0 & Hc'). assert (c' = c) as -> by congruence.
    destruct Hin as [Hin|Hin]; [|done]. rewrite (H3 c l) in Hin by left. done. }
  split; rewrite ?E2, ?E6; try done.
  - intros c' l' Hin. unfold listed in Hin. rewrite E1 in Hin. destruct (Hlisted c' l' Hin) as [Hin' Hne].
    destruct (H1 c' l' Hin') as (L' & HL0 & Hc'). exists L'. by rewrite lookup_delete_ne.
  - intros l' L' [Hne Hin]%lookup_delete_Some. unfold listed. rewrite E1.
    destruct (H2 l' L' Hin) as [|[[= _ ->]|Hex]%elem_of_cons]; [by left|done|by right].
  - intros c' l' Hin. rewrite E1. apply (H3 c' l'). by right.
  - intros l' L' [_ Hin]%lookup_delete_Some. by apply (H5 l').
  - intros l1 l2 L1 L2 [_ Hin1]%lookup_delete_Some [_ Hin2]%lookup_delete_Some. by apply H6.
  - intros l' L' [Hne Hin]%lookup_delete_Some. destruct (H7 l' L' Hin) as [|(j & call & Ep & Ej)]; [by left|right].
    exists j, call. split; [done|]. by apply E3.
  - intros j l' call [Hj Hne]%E3. destruct (H8 j l' call Hj) as (L' & Hin & Ep & Hcall & Hnone). exists L'.
    rewrite lookup_delete_ne, E4, E5 by done. split_and!; try done. by apply lookup_delete_None; right.
  - intros j j' l1 l2 call [Hj _]%E3 [Hj' _]%E3. by eapply H9.
  - intros id s. rewrite E5. intros [Hne Hin]%lookup_delete_Some. destruct (H10 id s Hin) as (l' & L' & Hin' & Hid).
    exists l', L'. split; [|done]. rewrite lookup_delete_ne; [done|]. intros <-. congruence.
Qed.

(** Logins whose leader and session are as before are as before. *)
Definition untouched r r' : Prop := ∀ c l L, leaders r' !! c = Some l → leader_objs r !! l = Some L →
  leader_objs r' !! l = Some L ∧ m_sessions r' !! leader_session_id L = m_sessions r !! leader_session_id L.

Lemma logins_untouched r r' c : reg_inv r → untouched r r' →
  (∀ l, leaders r' !! c = Some l → leaders r !! c = Some l) →
  logins_of r' !! c = match leaders r' !! c with Some _ => logins_of r !! c | None => None end.
Proof.
  intros Hr Hu Hc. rewrite !logins_lookup. destruct (leaders r' !! c) as [l|] eqn:E; [|done]. simpl.
  specialize (Hc l eq_refl). rewrite Hc. simpl. destruct (reg_leader r c l Hr Hc) as (L & HL' & _).
  destruct (Hu c l L E HL') as [-> Es]. rewrite HL'. simpl. unfold login_of. by rewrite Es.
Qed.

Lemma no_job_unref l r : (∀ j l' call, jobs r !! j = Some (l', call) → l' ≠ l) →
  existsb (λ j, bool_decide (j.1 = l)) (map_to_list (jobs r)).*2 = false.
Proof.
  intros H. destruct (existsb _ _) eqn:E; [|done]. apply existsb_exists in E as ([l' call] & Hin & Hl%bool_decide_eq_true).
  rewrite <- list_elem_of_In in Hin. apply list_elem_of_fmap in Hin as ([j d] & Ed & Hj%elem_of_map_to_list).
  simpl in *. subst d. by destruct (H j l' call).
Qed.

Lemma wp_unref l r (Q : unit → registry W → Prop) : (∀ j l' call, jobs r !! j = Some (l', call) → l' ≠ l) →
  Q tt (set_objs (seat_objs r) (delete l (leader_objs r)) (jobs r) r) → wp (leader_unref l) Q r.
Proof.
  intros H HQ. unfold leader_unref. apply wp_bind, wp_reg. rewrite no_job_unref by done. by apply wp_modify.
Qed.

(** ** Closing *)

Lemma remove_by_cookie blocked c l r : leaders r !! c = Some l →
  remove_session_for_cookie blocked c None r = remove_session_for_cookie blocked c (Some l) r.
Proof.
  intros H. unfold remove_session_for_cookie, mbind, prog_bind_inst, prog_mbind, in_registry, prog_gets.
  by rewrite H.
Qed.

Lemma wp_close proxy blocked call c r : reg_inv r → input_ok (RClose blocked call c) r →
  wp (dbus_close_session blocked proxy c call) (λ _ r', refines proxy (RClose blocked call c) r r') r.
Proof.
  intros Hr Hc. unfold dbus_close_session, refines. simpl label. simpl call_of.
  assert (∀ caller r1, reg_inv r1 → logins_of r1 = logins_of r → same_leaders r r1 →
    (∀ uid pid g, caller = Some (uid, pid) → logins_of r !! c = Some g → lg_uid g = uid → lg_pid g = pid → lg_open g = false) →
    wp (m_throw_error call CK_MANAGER_ERROR_FAILED) (λ _ r', reg_inv r' ∧ ∃ v, replied (Some call) v r r' ∧
      login_step (logins_of r) (LClose caller c) v (logins_of r')) r1) as Hrefuse.
  { intros caller r1 Hr1 El [S1 S2 S3 S4 S5 S6] Hno. apply wp_answer_call; [rewrite S4; apply Hc|].
    fold (after_reply call (RThrow CK_MANAGER_ERROR_FAILED) r1). split.
    - apply reg_inv_reply; [done|]. destruct Hc. split; [by rewrite S4|by rewrite S3].
    - eexists (Some _). split; [by apply answers_put|]. rewrite logins_reply, El. by apply step_close_refused. }
  destruct (registry_caller_info proxy (call_sender call)) as [[uid pid]|].
  2:{ apply Hrefuse; [done..|apply same_leaders_refl|by intros]. }
  unfold paranoia_check_is_cookie_owner. apply wp_bind, wp_bind, wp_reg, wp_ret.
  destruct (leaders r !! c) as [l|] eqn:El; simpl.
  2:{ apply Hrefuse; [done..|apply same_leaders_refl|]. intros u p g _. by rewrite logins_lookup, El. }
  destruct (reg_leader r c l Hr El) as (L & HL' & HcL). rewrite HL'.
  pose proof (logins_at r c l L El HL') as Hg.
  destruct (Z.eqb_spec (leader_uid L) uid) as [Eu|Eu]; simpl.
  2:{ apply Hrefuse; [done..|apply same_leaders_refl|]. intros u p g [= -> ->]. rewrite Hg. intros [= <-]. done. }
  destruct (Z.eqb_spec (leader_pid L) pid) as [Ep|Ep]; simpl.
  2:{ apply Hrefuse; [done..|apply same_leaders_refl|]. intros u p g [= -> ->]. rewrite Hg. intros [= <-]. done. }
  apply wp_bind. unfold wp at 1. rewrite (remove_by_cookie blocked c l r El).
  match goal with |- match ?m with _ => _ end => change (wp (remove_session_for_cookie blocked c (Some l)) 
    (λ error, wp (match error with
          | Some _ => m_throw_error call CK_MANAGER_ERROR_FAILED
          | None =>
              l ← in_registry (λ r, leaders r !! c);
              prog_modify (λ r, set_tables (seats r) (m_sessions r) (delete c (leaders r)) r);;
              (match l with Some l => leader_unref l | None => mret tt end);;
              m_answer call (RReturn (RBool true))
          end) (λ _ r', reg_inv r' ∧ ∃ v, replied (Some call) v r r' ∧
      login_step (logins_of r) (LClose (Some (uid, pid)) c) v (logins_of r'))) r) end.
  eapply wp_mono; [by apply (wp_remove_session_of blocked c l L r); [apply Hr|]|].
  intros e r1 (Hb1 & Hs1 & Em & He). pose proof Hs1 as [S1 S2 S3 S4 S5 S6].
  destruct e as [e|].
  - assert (m_sessions r !! leader_session_id L = None) as Hnone.
    { apply eq_None_not_Some. intros Hin. apply He in Hin. done. }
    rewrite delete_id in Em by done. apply Hrefuse; [|by apply logins_ext|done|].
    + split; [done|]. by apply (lead_inv_ext [] r); [..|apply Hr].
    + intros u p g _. rewrite Hg. intros [= <-] _ _. simpl. by rewrite Hnone.
  - destruct (proj1 He eq_refl) as [s Hin]. apply wp_bind, wp_reg. rewrite S1, El. apply wp_bind, wp_modify, wp_bind.
    assert (∀ j l' cl, jobs r !! j = Some (l', cl) → l' ≠ l) as Hnojob.
    { intros j l' cl Hj ->. destruct (li_jobs _ _ (proj2 Hr) j l cl Hj) as (L' & HL0 & _ & _ & Hnone).
      assert (L' = L) as -> by congruence. congruence. }
    apply wp_unref; [simpl; by rewrite S3|].
    match goal with |- wp _ _ ?v => set (r2 := v) end.
    assert (lead_inv [] r2) as Hl2.
    { apply (lead_inv_drop c l L [] (set_tables (seats r) (m_sessions r) (delete c (leaders r)) r)); simpl;
        try done; rewrite ?S1, ?S2, ?S3, ?S4, ?S5, ?Em; try done.
      - apply (lead_inv_steal [(c, l)] r); try done; [apply Hr|apply NoDup_singleton|].
        intros c' l' [= -> ->]%list_elem_of_singleton. done.
      - intros j l' cl. split; [|by intros []]. intros Hj. split; [done|]. by eapply Hnojob. }
    assert (base_inv r2) as Hb2 by by apply (base_inv_ext r1).
    assert (reg_inv r2) as Hr2 by done.
    assert (logins_of r2 = delete c (logins_of r)) as Elog.
    { apply map_eq. intros c'. rewrite (logins_untouched r r2 c' Hr).
      - simpl. rewrite S1. destruct (decide (c' = c)) as [->|Hne]; [by rewrite !lookup_delete_eq|].
        rewrite !lookup_delete_ne by done. destruct (leaders r !! c') eqn:E'; [done|]. by rewrite logins_lookup, E'.
      - intros c1 l1 L1 Hin1 HL1. simpl in *. rewrite S1 in Hin1. apply lookup_delete_Some in Hin1 as [Hne Hin1].
        assert (l1 ≠ l) as Hl1 by (intros ->; destruct (reg_leader r c1 l Hr Hin1) as (L' & HL0 & Hc1); congruence).
        rewrite S2, lookup_delete_ne by done. split; [done|]. rewrite Em, lookup_delete_ne; [done|].
        intros E. apply Hl1. symmetry. by eapply (li_ssid _ _ (proj2 Hr)).
      - intros l' Hin'. simpl in Hin'. rewrite S1 in Hin'. by apply lookup_delete_Some in Hin' as [_ ?]. }
    assert (m_answered r2 = m_answered r) as Ea2 by exact S4.
    apply wp_answer_call; [rewrite Ea2; apply Hc|]. fold (after_reply call (RReturn (RBool true)) r2). split.
    + apply reg_inv_reply; [done|]. destruct Hc. split; [by rewrite Ea2|]. intros j l'. simpl. by rewrite S3.
    + eexists (Some _). split; [by apply answers_put|]. rewrite logins_reply, Elog. eapply step_close; [exact Hg|done|done|].
      simpl. by rewrite Hin.
Qed.

(** ** A client that goes *)

Lemma wp_destroy blocked c l ex r : base_inv r → lead_inv ((c, l) :: ex) r →
  wp (destroy_entity blocked (c, l)) (λ _ r', ∃ L, leader_objs r !! l = Some L ∧ base_inv r' ∧ lead_inv ex r' ∧
    leaders r' = leaders r ∧ m_answered r' = m_answered r ∧ leader_objs r' = delete l (leader_objs r) ∧
    m_sessions r' = delete (leader_session_id L) (m_sessions r)) r.
Proof.
  intros Hb Hl. destruct (li_listed _ _ Hl c l) as (L & HL' & Hc); [right; by left|].
  unfold destroy_entity. apply wp_bind. eapply wp_mono; [by apply (wp_remove_session_of blocked c l L)|].
  intros e r1 (Hb1 & [S1 S2 S3 S4 S5 S6] & Em & _). unfold cancel_leader. simpl.
  apply wp_bind, wp_bind. eapply wp_leader; [by rewrite S2|]. apply wp_bind, wp_modify, wp_modify.
  assert (∀ j l' call, filter (λ j, j.1 ∉ pending_jobs L) (jobs r) !! j = Some (l', call) ↔
    jobs r !! j = Some (l', call) ∧ l' ≠ l) as Hjobs.
  { intros j l' call. rewrite map_lookup_filter_Some. simpl. split; intros [Hj Hn]; (split; [done|]).
    - intros ->. destruct (li_jobs _ _ Hl j l call Hj) as (L' & HL0 & Hp & _).
      assert (L' = L) as -> by congruence. apply Hn. rewrite Hp. by left.
    - intros Hin. destruct (li_pending _ _ Hl l L HL') as [E|(i & cl & E & Hi)]; rewrite E in Hin;
        [by apply elem_of_nil in Hin|]. apply list_elem_of_singleton in Hin as ->. congruence. }
  apply wp_unref.
  { intros j l' call. simpl. rewrite S3. intros Hj. by apply Hjobs in Hj as [_ ?]. }
  assert (delete l (<[l := ck_session_leader_cancel L]> (leader_objs r1)) = delete l (leader_objs r)) as Eo.
  { rewrite S2. apply map_eq. intros k. destruct (decide (k = l)) as [->|Hne]; [by rewrite !lookup_delete_eq|].
    by rewrite !lookup_delete_ne, lookup_insert_ne. }
  exists L. split; [done|]. split; [by apply (base_inv_ext r1)|]. split_and!; [|exact S1|exact S4|exact Eo|exact Em].
  apply (lead_inv_drop c l L ex r); try done. intros j l' call. simpl. rewrite S3. apply Hjobs.
Qed.

(** The logins of the clients that stay do not notice. *)
Lemma wp_destroy_all blocked ex r : base_inv r → lead_inv ex r →
  wp (for_each (destroy_entity blocked) ex) (λ _ r', base_inv r' ∧ lead_inv [] r' ∧ leaders r' = leaders r ∧
    m_answered r' = m_answered r ∧ ∀ c l L, leaders r !! c = Some l → leader_objs r !! l = Some L →
      leader_objs r' !! l = Some L ∧ m_sessions r' !! leader_session_id L = m_sessions r !! leader_session_id L) r.
Proof.
  intros Hb Hl. apply (wp_for_each _ (λ todo r', base_inv r' ∧ lead_inv todo r' ∧ leaders r' = leaders r ∧
    m_answered r' = m_answered r ∧ ∀ c l L, leaders r !! c = Some l → leader_objs r !! l = Some L →
      leader_objs r' !! l = Some L ∧ m_sessions r' !! leader_session_id L = m_sessions r !! leader_session_id L)); [|done].
  intros [c l] todo r1 _ (Hb1 & Hl1 & E1 & Ea1 & Hkeep). eapply wp_mono; [by apply wp_destroy|].
  intros [] r2 (L & HL' & Hb2 & Hl2 & E2 & Ea2 & Eo & Em). split_and!; [done|done|congruence|congruence|].
  intros c' l' L' Hin' HL0. destruct (Hkeep c' l' L' Hin' HL0) as [HL1 Es1].
  assert (l' ≠ l) as Hne.
  { intros ->. assert (L' = L) as -> by congruence. assert (leaders r1 !! c = None) as Hno by (apply (li_extra _ _ Hl1 c l); by left).
    destruct (li_listed _ _ Hl1 c l) as (L1 & HL2 & Hc); [right; by left|].
    destruct (li_listed _ _ Hl1 c' l) as (L2 & HL3 & Hc'); [left; by rewrite E1|]. congruence. }
  rewrite Eo, lookup_delete_ne by done. split; [done|]. rewrite Em, lookup_delete_ne; [done|].
  intros E. apply Hne. symmetry. by eapply (li_ssid _ _ Hl1).
Qed.

Lemma fast_order_perm {A} (l : list A) : fast_order l ≡ₚ l.
Proof. destruct l as [|x l]; [done|]. simpl. apply Permutation_cons; [done|]. symmetry. apply Permutation_rev. Qed.

Lemma wp_gone proxy blocked old new r : reg_inv r →
  wp (on_name_owner_notify blocked old new) (λ _ r', refines proxy (ROwner blocked old new) r r') r.
Proof.
  intros Hr. unfold on_name_owner_notify, refines. simpl label. simpl call_of.
  destruct (String.eqb new ""); [|apply wp_ret; split; [done|]; exists None; split; [done|constructor]].
  unfold remove_sessions_for_connection. apply wp_bind, wp_reg, wp_bind, wp_reg, wp_bind, wp_modify.
  set (mine := filter (λ e, leader_of_connection r old e = true) (hash_order (m_clock r) (leaders r))).
  match goal with |- wp _ _ ?v => set (r1 := v) end.
  assert (∀ c l, (c, l) ∈ mine ↔ leaders r !! c = Some l ∧ leader_of_connection r old (c, l) = true) as Hmine.
  { intros c l. unfold mine. rewrite list_elem_of_filter, elem_of_hash_order. tauto. }
  assert (lead_inv (fast_order mine) r1) as Hl1.
  { apply (lead_inv_perm mine); [by rewrite fast_order_perm|]. apply (lead_inv_steal mine r); try done; [apply Hr| |].
    - apply NoDup_filter. rewrite hash_order_perm. apply NoDup_map_to_list.
    - intros c l Hin. by apply Hmine in Hin as [? _]. }
  assert (base_inv r1) as Hb1 by by apply (base_inv_ext r); [..|apply Hr].
  eapply wp_mono; [by apply wp_destroy_all|]. intros [] r2 (Hb2 & Hl2 & E2 & Ea2 & Hkeep).
  split; [done|]. exists None. split; [exact Ea2|].
  assert (∀ c l, leaders r2 !! c = Some l → leaders r !! c = Some l ∧ (c, l) ∉ mine) as Hstay.
  { intros c l. rewrite E2. simpl. fold (steal (leaders r) mine). rewrite lookup_steal. case_decide as Hc; [done|].
    intros Hin. split; [done|]. intros Hm. apply Hc. apply list_elem_of_fmap. by exists (c, l). }
  assert (logins_of r2 = filter (λ e, lg_name e.2 ≠ Some old) (logins_of r)) as ->; [|constructor].
  apply map_eq. intros c. rewrite (logins_untouched r r2 c Hr).
  - destruct (leaders r2 !! c) as [l|] eqn:E.
    + destruct (Hstay c l E) as [Hin Hnot]. destruct (reg_leader r c l Hr Hin) as (L & HL' & _).
      rewrite (logins_at r c l L Hin HL'). symmetry. apply map_lookup_filter_Some. split; [by eapply logins_at|].
      simpl. intros En. apply Hnot, Hmine. split; [done|]. unfold leader_of_connection. simpl. rewrite HL'.
      by apply bool_decide_eq_true.
    + symmetry. apply map_lookup_filter_None. destruct (leaders r !! c) as [l|] eqn:El.
      * right. destruct (reg_leader r c l Hr El) as (L & HL' & _). intros g Hg Hn. rewrite (logins_at r c l L El HL') in Hg.
        simplify_eq. simpl in Hn. rewrite E2 in E. simpl in E. fold (steal (leaders r) mine) in E.
        rewrite lookup_steal in E. case_decide as Hc; [|congruence].
        apply list_elem_of_fmap in Hc as ([c' l'] & Ec & Hin'). simpl in Ec. subst c'.
        apply Hmine in Hin' as [Hin' Hof]. assert (l' = l) as -> by congruence. unfold leader_of_connection in Hof.
        simpl in Hof. rewrite HL' in Hof. by apply bool_decide_eq_true in Hof.
      * left. by rewrite logins_lookup, El.
  - intros c' l' L' Hin' HL0. apply (Hkeep c' l' L'); [|done]. by rewrite <- E2.
  - intros l Hin. by apply Hstay in Hin as [? _].
Qed.

(** ** Sessions on their own, locks and queries *)

Lemma session_kept_weaken (but but' : Session.sprop → bool) s x x' :
  (∀ p, but' p = false → but p = false) → session_kept but s x x' → session_kept but' s x x'.
Proof. intros Hb [H1 H2 H3 H4 H5 H6]. split; auto. Qed.

(** The sessions changed, but not the idle hint of any in the table. *)
Lemma base_inv_sessions but x r : harmless but → but Session.P_idle_hint = false → sessions_ok x →
  (∀ t, session_live t (m_sess r) → session_kept but t (m_sess r) x) → base_inv r → base_inv (set_m_sess x r).
Proof.
  intros Hb Hi Hx Hk [H1 H2 H3 H4]. split; [by apply (sess_inv_kept but)| |done|done].
  intros Hh id s Hin. unfold is_idle. simpl in *. destruct (Hk s) as [_ _ _ _ _ K]; [by apply (si_table _ H1 id)|].
  rewrite K by done. by apply (H2 Hh id).
Qed.

Lemma reg_inv_sessions r x : base_inv (set_m_sess x r) → reg_inv r → reg_inv (set_m_sess x r).
Proof. intros Hb [_ Hl]. split; [done|]. by apply (lead_inv_ext [] r). Qed.

Lemma wp_other_step proxy i r r' : label proxy i r = LOther → call_of i r = None → reg_inv r' →
  m_answered r' = m_answered r → logins_of r' = logins_of r → refines proxy i r r'.
Proof.
  intros El Ec Hr Ea Elog. split; [done|]. exists None. rewrite El, Ec, Elog. split; [done|constructor].
Qed.

Lemma wp_idle proxy blocked s x r : reg_inv r → input_ok (RIdle blocked s x) r →
  wp (prog_modify (set_m_sess x);; session_idle_hint_changed blocked s)
    (λ _ r', refines proxy (RIdle blocked s x) r r') r.
Proof.
  intros Hr (Hx & Hs & Hk). destruct Hr as [[Hi Hidle Hn Hcon] Hl]. apply wp_bind, wp_modify.
  assert (∀ t, session_live t (m_sess r) → session_kept with_hint t (m_sess r) x) as Hk'.
  { intros t Ht. specialize (Hk t Ht). case_decide; [done|]. eapply session_kept_weaken; [|exact Hk]. by intros []. }
  assert (sess_inv (set_m_sess x r)) as Hi1 
    by (apply (sess_inv_kept with_hint); [intros []|..]; done).
  assert (lead_inv [] (set_m_sess x r)) as Hl1 by by apply (lead_inv_ext [] r).
  unfold session_idle_hint_changed. apply wp_bind, wp_reg. case_bool_decide as Hc.
  - eapply wp_mono; [apply wp_update_idle|]. intros [] r2 [[C1 C2 C3 [C4 C4'] C5 C6 C7 C8 C9 C10 C11] Hidle2].
    apply wp_other_step; try done; [|by apply logins_ext]. split; [|by apply (lead_inv_ext [] (set_m_sess x r))].
    split; [by apply (sess_inv_ext (set_m_sess x r))|done|by rewrite C4'|by rewrite C2, C10].
  - apply wp_ret, wp_other_step; try done. split; [|done]. split; try done.
    intros Hh id t Hin. simpl in *. assert (t ≠ s) as Hne by (intros ->; by destruct Hc; apply (Hcon id)).
    specialize (Hk t (proj1 (si_table _ Hi id t Hin))). rewrite decide_False in Hk by done.
    unfold is_idle. rewrite (sk_props _ _ _ _ Hk) by done. by apply (Hidle Hh id).
Qed.

(** A call that was answered, beside harmless changes. *)
Lemma refines_answer proxy i call v r r1 : label proxy i r = LOther → call_of i r = Some call → new_call call r →
  reg_inv r1 → m_answered r1 = m_answered r → jobs r1 = jobs r → m_out r `prefix_of` m_out r1 → logins_of r1 = logins_of r →
  wp (m_answer call v) (λ _ r', refines proxy i r r') r1.
Proof.
  intros El Ec Hc Hr1 Ea Ej Eo Elog. apply wp_reply_reg; [done| |].
  - destruct Hc. split; [by rewrite Ea|by rewrite Ej].
  - intros Hr'. split; [done|]. exists (Some v). rewrite El, Ec, logins_reply, Elog. split; [|constructor].
    by apply answers_put.
Qed.

Lemma wp_lock proxy call lock ssid r : reg_inv r → new_call call r →
  wp (registry_run proxy (RLock call lock ssid)) (λ _ r', refines proxy (RLock call lock ssid) r r') r.
Proof.
  intros Hr Hc. pose proof Hr as [Hb Hl].
  assert (∀ (m : positive → prog W unit), (∀ s x, sessions_ok x → session_live s x →
      wp (m s) (λ _ x', sessions_ok x' ∧ ∀ t, session_live t x → session_kept (all_but Session.P_locked_hint) t x x') x) →
    wp (session ← get_session_from_id ssid;
        match session with
        | None => m_throw_error call CK_MANAGER_ERROR_INVALID_INPUT
        | Some s => with_sessions (m s);; m_answer call (RReturn RUnit)
        end) (λ _ r', refines proxy (RLock call lock ssid) r r') r) as Hgen.
  { intros m Hm. apply wp_bind. unfold get_session_from_id. apply wp_reg.
    destruct (i ← ssid; m_sessions r !! i) as [s|] eqn:E; [|by apply refines_answer].
    assert (∃ id, m_sessions r !! id = Some s) as [id Hid] by (destruct ssid as [id|]; [by exists id|done]).
    apply wp_bind, wp_sessions. eapply wp_mono; [apply Hm; [apply Hb|by apply (si_table _ (bi_sess _ Hb) id)]|].
    intros [] x (Hx & Hk). apply refines_answer; try done.
    apply reg_inv_sessions; [|done]. by apply (base_inv_sessions (all_but Session.P_locked_hint)); [apply harmless_but|..]. }
  destruct lock; apply Hgen; [apply lock_law|apply unlock_law].
Qed.

(** *** Activating *)

(** A seat whose table stays. *)
Lemma reg_inv_seat p w w' r r' : reg_inv r → seat_objs r !! p = Some w → seat_ok (sess w') w' →
  sessions_like (m_sess r) (sess w') → s_id (seat w') = s_id (seat w) → sessions (seat w') = sessions (seat w) →
  (∀ t, session_seat t (sess w') = session_seat t (m_sess r)) → seat_done p w' r r' →
  reg_inv r' ∧ logins_of r' = logins_of r.
Proof.
  intros [[Hi Hidle Hn Hcon] Hl] Hw Hok Hlike Hid Ht Hse Hd.
  pose proof Hd as [D1 D2 D3 D4 D5 D6 D7 [L1 L2 L3 L4 L5 L6]]. split; [|by apply logins_ext].
  split; [split|by apply (lead_inv_ext [] r)].
  - apply (sess_inv_seat p w w' r); try done.
    intros id s. rewrite Ht, Hse. by apply (si_on _ Hi p w).
  - intros Hh id s. rewrite D2, D4. intros Hin. unfold is_idle.
    rewrite (sl_get _ _ Hlike); [|done|by apply (si_table _ Hi id)]. rewrite D5 in Hh. by apply (Hidle Hh id).
  - by rewrite D6.
  - by rewrite D2, D7.
Qed.

Lemma seat_ok_aside x w w' : seat_ok x w → aside (enter_seat x w) w' → seat_ok (sess w') w'.
Proof.
  intros Hok [A1 A2 A3 A4 A5 _ A7 A8 _ A10]. apply (seat_ok_like x (sess w')) in Hok as (Hp & Hs & Hu); [|done..].
  simpl in *. split_and!; [| |by apply A10].
  - destruct Hp as [H1 H2 H3 H4 H5 H6]. simpl in *.
    split; unfold on_seat in *; simpl; rewrite ?A1, ?A4, ?A5; done.
  - unfold on_console, synced, console_of in *. simpl in *. rewrite A1, A2, A3. intros Hc.
    apply (session_of_device_same _ (enter_seat (sess w') w)); try done; simpl; [by rewrite A1|by apply Hs].
Qed.

Lemma wp_activate_on proxy i call act ssid sid r : reg_inv r → new_call call r → label proxy i r = LOther →
  call_of i r = Some call → wp (dbus_activate_session_on_seat act ssid sid call) (λ _ r', refines proxy i r r') r.
Proof.
  intros Hr Hc El Ec. unfold dbus_activate_session_on_seat, get_session_from_id. apply wp_bind, wp_reg.
  destruct (i ← ssid; m_sessions r !! i) as [s|] eqn:E; [|by apply refines_answer].
  assert (∃ id, m_sessions r !! id = Some s) as [id Hid] by (destruct ssid as [id|]; [by exists id|done]).
  apply wp_bind, wp_reg. destruct (i ← sid; seats r !! i) as [p|] eqn:Ep; [|by apply refines_answer].
  assert (∃ j, seats r !! j = Some p) as [j Hj] by (destruct sid as [j|]; [by exists j|done]).
  pose proof Hr as [[Hi _ _ _] _]. destruct (si_seats _ Hi j p Hj) as (w & Hw & _).
  pose proof (si_pre _ Hi p w Hw) as Hok. apply wp_bind, (wp_at_seat p w); [done|].
  eapply wp_mono; [apply (wp_activate_aside act s)|].
  - apply Hi.
  - by apply (si_table _ Hi id).
  - apply (pv_live _ _ (proj1 Hok)).
  - intros er w' Ha. pose proof (as_sent _ _ Ha) as Es. simpl in Es. split.
    { intros t Ht. unfold mentioned in Ht. rewrite Es in Ht. by destruct Ht as [?%elem_of_nil|?%elem_of_nil]. }
    intros r' Hd. pose proof (as_seat _ _ Ha) as Eseat. simpl in Eseat.
    destruct (reg_inv_seat p w w' r r') as [Hr' Elog]; try done; [by eapply seat_ok_aside|apply Ha|by rewrite Eseat..|apply Ha|].
    pose proof (sd_same _ _ _ _ Hd) as [S1 S2 S3 S4 S5 S6]. destruct er; by apply refines_answer.
Qed.

Lemma wp_vt_at proxy p n r : reg_inv r → input_ok (RVtChanges p n) r →
  wp (at_seat p (vt_monitor_changes n)) (λ _ r', refines proxy (RVtChanges p n) r r') r.
Proof.
  intros Hr (w & Hw & _). pose proof Hr as [[Hi _ _ _] _]. destruct (si_pre _ Hi p w Hw) as (Hp & _ & Hu).
  apply (wp_at_seat p w); [done|]. eapply wp_mono; [by apply wp_vt_followed|].
  intros [] w' [F1 F2 F3 F4 F5 F6 F7 F8]. split.
  { intros t Ht%F8. unfold mentioned in Ht. simpl in Ht. by destruct Ht as [?%elem_of_nil|?%elem_of_nil]. }
  intros r' Hd. destruct (reg_inv_seat p w w' r r') as [Hr' Elog]; try done.
  - split_and!; [destruct F1 as [a b c d e f]; split; assumption|exact F2|done].
  - apply wp_other_step; try done. apply (sl_answered _ _ (sd_same _ _ _ _ Hd)).
Qed.

Lemma list_rows r : (∀ id s, m_sessions r !! id = Some s → is_Some (session_seat s (m_sess r))) →
  ∃ rows, mapM (session_row (m_sess r)) (hash_order (m_clock r) (m_sessions r)) = Some rows.
Proof.
  intros H. apply mapM_is_Some, Forall_forall. intros [id s] Hin%elem_of_hash_order.
  destruct (H id s Hin) as [sid E]. unfold session_row. simpl. rewrite E. by eexists.
Qed.

Lemma wp_query proxy call q r : reg_inv r → input_ok (RQuery call q) r →
  wp (answer_query proxy q call) (λ _ r', refines proxy (RQuery call q) r r') r.
Proof.
  intros Hr [Hc Hq].
  assert (∀ v, wp (m_answer call v) (λ _ r', refines proxy (RQuery call q) r r') r) as Ha
    by (intros v; by apply refines_answer).
  assert (∀ p c, wp (dbus_get_session_for_cookie p c call) (λ _ r', refines proxy (RQuery call q) r r') r) as Hcookie.
  { intros p c. unfold dbus_get_session_for_cookie. destruct (registry_caller_info _ _) as [[u n]|]; [|apply Ha].
    destruct (Collect.process_tty n); [|apply Ha]. apply wp_bind, wp_reg.
    destruct (_ ≫= _); [apply wp_bind, wp_reg|]; apply Ha. }
  assert (∀ p n, wp (dbus_get_session_for_unix_process p n call) (λ _ r', refines proxy (RQuery call q) r r') r) as Hpid.
  { intros p n. unfold dbus_get_session_for_unix_process. destruct (_ || _); [apply Ha|].
    destruct (registry_caller_info _ _); [|apply Ha]. apply wp_bind. unfold get_cookie_for_pid.
    apply wp_bind, wp_reg, wp_ret. destruct (match _ with Some c => Some c | None => _ end); [apply Hcookie|apply Ha]. }
  destruct q; simpl.
  - unfold dbus_get_session, get_session_from_id. apply wp_bind, wp_reg. destruct (_ ≫= _); [apply wp_bind, wp_reg|]; apply Ha.
  - apply Hcookie.
  - apply Hpid.
  - unfold dbus_get_current_session. destruct (registry_caller_info _ _) as [[u n]|]; [apply Hpid|apply Ha].
  - unfold dbus_get_sessions_for_unix_user. apply wp_bind, wp_walk_sessions, wp_bind, wp_reg. apply Ha.
  - unfold m_dbus_get_sessions. apply wp_bind, wp_walk_sessions. case_match; [|apply wp_bind, wp_reg]; apply Ha.
  - unfold dbus_list_sessions. apply wp_bind, wp_walk_sessions. destruct (list_rows r (Hq eq_refl)) as [rows E].
    case_match; [apply Ha|]. apply wp_bind, wp_reg. rewrite E. apply Ha.
  - unfold dbus_get_seats. apply wp_bind, wp_reg. case_match; [|apply wp_bind, wp_reg]; apply Ha.
  - unfold dbus_list_seats. apply wp_bind, wp_reg. case_match; [|apply wp_bind, wp_reg]; apply Ha.
  - unfold dbus_get_system_idle_hint. apply wp_bind, wp_reg. apply Ha.
  - unfold dbus_get_system_idle_since_hint. apply wp_bind, wp_reg, wp_bind, wp_reg. apply Ha.
Qed.

Lemma wp_registry_run proxy i r : reg_inv r → input_ok i r → wp (registry_run proxy i) (λ _ r', refines proxy i r r') r.
Proof.
  intros Hr Hok. destruct i; simpl registry_run.
  - destruct parameters; by apply wp_open.
  - by apply wp_collected.
  - by apply wp_close.
  - by apply wp_gone.
  - by apply wp_idle.
  - destruct Hok as [Hx Hk]. apply wp_modify, wp_other_step; try done.
    apply reg_inv_sessions; [|done]. apply (base_inv_sessions own_business); try done; [apply harmless_own|apply Hr].
  - by apply wp_lock.
  - unfold m_dbus_activate_session, get_session_from_id. apply wp_bind, wp_reg.
    destruct (i ← ssid; m_sessions r !! i); [|by apply refines_answer].
    apply wp_bind, wp_reg. destruct (session_seat _ _); [by apply wp_activate_on|by apply refines_answer].
  - by apply wp_activate_on.
  - by apply wp_vt_at.
  - by apply wp_query.
Qed.

(** ** Start-up *)

(** A seat just built from a file. *)
Record blank (sid : string) x w : Prop := {
  bl_seat : ∃ l, seat w = set_seat_devices l (ck_seat_new sid CK_SEAT_KIND_STATIC);
  bl_sess : sess w = x;
  bl_connected : connected w = [];
  bl_handlers : handlers w = [];
  bl_refs : ∀ s, refs w s = 0%Z
}.

Lemma blank_fresh sid x w : sessions_ok x → blank sid x w → fresh_seat x w ∧ s_id (seat w) = sid.
Proof.
  intros Hx [[l E] E1 E2 E4 E3]. assert (sessions (seat w) = ∅) as Et by by rewrite E.
  assert (∀ s, ¬ on_seat (enter_seat x w) s) as Hno.
  { intros s [id Hid]. simpl in Hid. by rewrite Et, lookup_empty in Hid. }
  split; [|by rewrite E]. split; [|done]. split_and!; [split| |]; simpl; try done.
  - intros id s. by rewrite Et, lookup_empty.
  - intros s. rewrite E2. by intros []%elem_of_nil.
  - intros s. by rewrite E.
  - intros s Hs. by destruct (Hno s).
  - intros s _. rewrite E3, E. done.
  - intros _. unfold synced. simpl. rewrite E. intros t. split; intros [Ht _]; by destruct (Hno t).
  - intros a. rewrite E4. by intros ?%elem_of_nil.
Qed.

Lemma wlp_new_from_file sid f x m console :
  wlp (ck_seat_new_from_file sid f) (λ _ w, blank sid x w)
    (new_seat_world sid CK_SEAT_KIND_STATIC m console x).
Proof.
  set (w0 := new_seat_world _ _ _ _ _).
  assert (blank sid x w0) as H0 by (split; try done; by exists []).
  unfold ck_seat_new_from_file. destruct f as [f|]; [|done]. case_decide; [done|]. destruct (kf_hidden f); [done|].
  destruct (mapM _ _) as [l|]; [|done]. unfold ck_seat_new_with_devices. apply wlp_bind, wlp_bind.
  unfold wlp at 1, prog_modify. eapply wlp_mono.
  { apply (wlp_for_each _ (blank sid x)); [|split; try done; by exists []].
    intros d w1 _ H1. unfold ck_seat_add_device, ck_seat_has_device. apply wlp_bind, wlp_bind.
    unfold wlp at 1, in_seat, prog_gets. case_bool_decide; [done|]. apply wlp_bind. unfold wlp at 1, prog_modify.
    apply wlp_bind. destruct H1 as [[k E] E1 E2 E4 E3]. split; try done. exists (k ++ [d]). simpl. by rewrite E. }
  intros [] w1 H1. exact H1.
Qed.

(** The manager after its seat files were read. *)
Definition started x (files : list (option seat_file)) r : Prop :=
  sessions_ok x ∧ (Z.of_nat (length files) < 2 ^ 31)%Z ∧ create_seats files (ck_manager_init x) = Some (tt, r).

Lemma init_inv x : sessions_ok x → reg_inv (ck_manager_init x).
Proof.
  intros Hx. split.
  - split; [split|..]; done.
  - split; unfold listed; simpl; try done.
    + intros c l [H|H]; [done|by apply elem_of_nil in H].
    + constructor.
Qed.

Lemma wlp_add_seat_file f r : reg_inv r → (Z.of_nat (size (seats r)) < 2 ^ 31)%Z →
  wlp (add_seat_for_file f) (λ _ r', reg_inv r' ∧ size (seats r') ≤ S (size (seats r)) ∧ m_sessions r' = m_sessions r) r.
Proof.
  intros [Hb Hl] Hs. unfold add_seat_for_file. apply wlp_bind.
  eapply wlp_mono; [apply wp_wlp, wp_generate_seat_id; [apply Hb|done]|]. intros sid r1 (k & Hk & Hsid & Hfree & E).
  apply wlp_bind. unfold wlp at 1, in_registry, prog_gets.
  assert (sess_inv r1) as Hi1 by (rewrite E; apply sess_inv_seat_serial, Hb).
  assert (serial_ok 0 (seat_serial r1)) as Hn1.
  { rewrite E. apply (serial_at_spec 0 (S k)); [lia|apply Hb]. }
  pose proof (wlp_new_from_file sid f (m_sess r1) console_monitor console_fd) as Hf. unfold wlp in Hf.
  destruct (ck_seat_new_from_file sid f _) as [[b w]|]; [|done].
  assert (reg_inv r1) as Hr1.
  { split; [|by apply (lead_inv_ext [] r); rewrite ?E]. split; [done|rewrite E; apply Hb|done|rewrite E; apply Hb]. }
  destruct b; [|apply wp_wlp, wp_ret; rewrite E; by rewrite E in Hr1; split_and!; [|simpl; lia|]].
  destruct (blank_fresh sid (m_sess r1) w (si_ok _ Hi1) Hf) as [Hfresh Hid].
  assert (wp (p ← new_seat_object w; register_seat sid p) (λ o r', sess_inv r' ∧ seat_new r1 r' ∧
    system_idle_hint r' = system_idle_hint r1 ∧ ∀ p, o = Some p → is_Some (seat_objs r' !! p)) r1) as Hreg.
  { apply wp_register_seat; try done. by rewrite E. }
  apply wp_wlp. unfold wp in Hreg |- *. unfold mbind, prog_bind_inst, prog_mbind in Hreg |- *.
  destruct (new_seat_object w r1) as [[p r2]|]; [|done]. destruct (register_seat sid p r2) as [[o r3]|]; [|done].
  simpl. destruct Hreg as (Hi3 & [(N1 & N1' & [L1 L2 L3 L4 L5 L6]) N2 N3 N4 N5 N6 [N7 N8]] & Hh & _).
  destruct Hr1 as [[_ Hd1 _ Hc1] Hl1]. split_and!.
  - split; [split; [done| |by rewrite N3|by rewrite N1, N1']|by apply (lead_inv_ext [] r1)].
    intros Hyes id s. rewrite N1, N2. rewrite Hh in Hyes. by apply (Hd1 Hyes).
  - rewrite E in N6. exact N6.
  - rewrite N1, E. done.
Qed.

Lemma wlp_create_seats files r : reg_inv r → (Z.of_nat (size (seats r) + length files) < 2 ^ 31)%Z →
  wlp (create_seats files) (λ _ r', reg_inv r' ∧ m_sessions r' = m_sessions r) r.
Proof.
  unfold create_seats. revert r. induction files as [|f files IH]; intros r Hr Hs; simpl in *; [done|].
  apply wlp_bind. eapply wlp_mono; [apply wlp_add_seat_file; [done|lia]|]. intros [] r1 (Hr1 & Hsz & Em).
  rewrite <- Em. apply IH; [done|lia].
Qed.

Lemma started_inv x files r : started x files r → reg_inv r ∧ m_sessions r = ∅.
Proof.
  intros (Hx & Hn & Hrun). eapply (wlp_elim (create_seats files) (λ _ r', reg_inv r' ∧ m_sessions r' = ∅)); [|exact Hrun].
  apply wlp_create_seats; [by apply init_inv|]. simpl. rewrite map_size_empty. lia.
Qed.

(** ** Reachable states *)

Inductive registry_reachable (proxy : bool) : registry W → Prop :=
| reg_started x files r : started x files r → registry_reachable proxy r
| reg_step i r r' : registry_reachable proxy r → input_ok i r → registry_run proxy i r = Some (tt, r') →
    registry_reachable proxy r'.

Lemma reachable_reg proxy r : registry_reachable proxy r → reg_inv r.
Proof.
  induction 1 as [x files r Hs|i r r' _ IH Hok Hrun]; [by apply started_inv in Hs as [? _]|].
  pose proof (wp_registry_run proxy i r IH Hok) as Hwp. unfold wp in Hwp. rewrite Hrun in Hwp. apply Hwp.
Qed.
End manager.
