(* ===== verification/ManagerPolicy.v ===== *)
(** * The manager: what holds of sessions, seats and leaders.

    The refinement of the specification of logins, the consistency of the tables
    in every reachable state, the system idle hint and the decision whether a
    session is local. *)

From S2P Require Import Prelude Scan Console LogEvent Leader.
From S2P Require Collect Session VtMonitor.
From S2P Require Import Seat SeatFacts Hooks Power Manager ManagerIds ManagerFacts ManagerOps ManagerLogins ManagerRefines.
From stdpp Require Import fin_maps.

Section manager.
Context {W : Type} {HO : SessionOps W} {HM : ManagedSessions W} {HL : ManagedLaws W} {HH : HashOrder}.
Context {HHost : Host} {HEnv : Session.Env} {HP : Collect.Processes} {HMH : ManagerHost} {HLib : LibexecDir}.
Implicit Types (r : registry W) (x : W).

(** C10: The manager implements the specification of logins: in every state that it
    can reach from its seat files by requests within bounds, in whatever order,
    every request within bounds is served to its end (no dangling session, seat,
    leader or job is followed, no call is answered twice), its call gets at most
    one reply, and reply and effect on the logins are a step of [login_step]: only
    the process that opened a session can close it, a cookie or session id is
    never given twice, a job ends with its session open or an error, and a client
    that leaves the bus loses exactly its own sessions.  The requests are those to
    open and close, the ends of jobs, names that leave the bus, activations, VT
    changes of static seats, locks, idle hints and queries; those to the objects of seats and
    sessions are not among them.  Within bounds is assumed: each call is new, some
    drawn cookie is free, fewer than 2^31 - 1 sessions were asked for, fewer than
    2^31 seats exist, the sessions' own changes leave their devices and service
    alone, ListSessions finds every session on a seat, and a job prints lines with
    a separator and, with its caller's parameters, not two devices and a remote
    host at once (a client can, and the hook environment overflows: C14). *)
Theorem registry_refines proxy i r : registry_reachable proxy r → input_ok i r →
  ∃ r' v, registry_run proxy i r = Some (tt, r') ∧ replied (call_of i r) v r r' ∧
    login_step (logins_of r) (label proxy i r) v (logins_of r').
Proof.
  intros Hr Hok. destruct (wp_elim _ _ _ (wp_registry_run proxy i r (reachable_reg _ _ Hr) Hok)) as ([] & r' & E & _ & v & H).
  by exists r', v.
Qed.

(** C11: The tables agree in every state that requests within the bounds of C10
    reach, activation requests and VT changes among them.  A session of the table lives,
    has that id, and a listed leader opened it.  A session on a seat is in the
    table, names that seat, and the seat is listed under its id and holds one
    reference to it, and one more if it is the active one.  The active session of
    a static seat with a console is the oldest of its sessions there.  A pending
    job has a call of its own that was not answered. *)
Theorem registry_consistent proxy r : registry_reachable proxy r →
  (∀ id s, m_sessions r !! id = Some s → session_live s (m_sess r) ∧ session_id s (m_sess r) = Some id ∧
     ∃ c l L, leaders r !! c = Some l ∧ leader_objs r !! l = Some L ∧ leader_cookie L = c ∧ leader_session_id L = id) ∧
  (∀ p w id s, seat_objs r !! p = Some w → sessions (seat w) !! id = Some s →
     m_sessions r !! id = Some s ∧ session_seat s (m_sess r) = Some (s_id (seat w)) ∧
     seats r !! s_id (seat w) = Some p ∧
     refs w s = (1 + Z.b2z (bool_decide (active_session (seat w) = Some s)))%Z) ∧
  (∀ p w, seat_objs r !! p = Some w → s_kind (seat w) = CK_SEAT_KIND_STATIC → vfd w ≠ (-1)%Z →
     session_of_device (Some (ck_get_console_device_for_num (VtMonitor.active_num (monitor w))))
       (enter_seat (m_sess r) w) (active_session (seat w))) ∧
  (∀ j l call, jobs r !! j = Some (l, call) → is_Some (leader_objs r !! l) ∧ (call ∉ m_answered r) ∧
     ∀ j' l', jobs r !! j' = Some (l', call) → j' = j).
Proof.
  intros Hr. pose proof (reachable_reg _ _ Hr) as Hreg. pose proof Hreg as [[Hi _ _ _] Hl]. split_and!.
  - intros id s Hid. destruct (si_table _ Hi id s Hid) as [H1 H2]. split_and!; [done|done|].
    destruct (li_open _ _ Hl id s Hid) as (l & L & HL1 & HL2). exists (leader_cookie L), l, L. split_and!; try done.
    by apply (reg_leader_in r l L Hreg).
  - intros p w id s Hw Hid. destruct (si_on _ Hi p w id s Hw Hid) as [H1 H2]. split_and!; [done|done|by apply (si_objs _ Hi)|].
    destruct (si_pre _ Hi p w Hw) as (Hp & _ & _). pose proof (pv_refs_on _ _ Hp s (ex_intro _ id Hid)) as Hrefs.
    simpl in Hrefs. rewrite Hrefs. unfold holds, nothing. lia.
  - intros p w Hw Hk Hv. destruct (si_pre _ Hi p w Hw) as (_ & Hs & _). by apply Hs.
  - intros j l call Hj. destruct (li_jobs _ _ Hl j l call Hj) as (L & H1 & _ & H2 & _). split_and!; [by eexists|done|].
    intros j' l' Hj'. by eapply (li_calls _ _ Hl).
Qed.

(** C12: The system idle hint is exact when a session's hint has changed: it says idle
    if and only if every session of the table is idle and nothing blocks idling;
    and in every reachable state it says idle only if every session is. *)
Theorem system_idle_exact proxy blocked s x r id : registry_reachable proxy r → input_ok (RIdle blocked s x) r →
  m_sessions r !! id = Some s →
  (system_idle_hint r = true → ∀ i t, m_sessions r !! i = Some t → session_get Session.P_idle_hint t (m_sess r) = true) ∧
  ∃ r', registry_run proxy (RIdle blocked s x) r = Some (tt, r') ∧
    (system_idle_hint r' = true ↔ blocked = false ∧
       ∀ i t, m_sessions r' !! i = Some t → session_get Session.P_idle_hint t (m_sess r') = true).
Proof.
  intros Hr _ Hin. destruct (reachable_reg _ _ Hr) as [[_ Hidle _ Hcon] _]. split; [exact Hidle|].
  assert (wp (registry_run proxy (RIdle blocked s x)) (λ _ r', system_idle_hint r' = true ↔ blocked = false ∧
    ∀ i t, m_sessions r' !! i = Some t → session_get Session.P_idle_hint t (m_sess r') = true) r) as Hwp.
  { simpl. apply wp_bind, wp_modify. unfold session_idle_hint_changed. apply wp_bind, wp_reg.
    rewrite bool_decide_eq_true_2 by by apply (Hcon id). eapply wp_mono; [apply wp_update_hint|].
    intros [] r' [Hc ->]. rewrite (cm_sessions _ _ Hc), (cm_sess _ _ Hc). done. }
  destruct (wp_elim _ _ _ Hwp) as ([] & r' & E & H). by exists r'.
Qed.

(** ** Local sessions *)

(** Some session of the table with that login session is local. *)
Definition vouched r (login : cstr) : Prop :=
  ∃ id s, m_sessions r !! id = Some s ∧ session_login_id s (m_sess r) = login ∧
    session_get Session.P_is_local s (m_sess r) = true.
Definition text_of (v : gvariant) : cstr := match v with GvString s => Some s | _ => None end.

Lemma verify_login_run r login : ∃ b, verify_login_session_id_is_local login r = Some (b, r) ∧ (b = true ↔ vouched r login).
Proof.
  eexists. split; [reflexivity|]. rewrite existsb_exists. split.
  - intros ([id s] & Hin & [H1%bool_decide_eq_true H2]%andb_true_iff).
    rewrite <- list_elem_of_In, elem_of_hash_order in Hin. by exists id, s.
  - intros (id & s & Hin & H1 & H2). exists (id, s). rewrite <- list_elem_of_In, elem_of_hash_order. split; [done|].
    simpl. rewrite H2. by rewrite bool_decide_eq_true_2.
Qed.

Lemma verify_run r ps : ∃ b, verify_parameters false ps r = Some (b, r) ∧
  (b = true ↔ ∃ n v, (n, v) ∈ ps ∧ (n = "is-local" ∨ n = "login-session-id" ∧ vouched r (text_of v))).
Proof.
  induction ps as [|[n v] ps (b & E & IH)].
  - exists false. split; [done|]. split; [done|]. by intros (n & v & []%elem_of_nil & _).
  - assert (∀ c, c = true ↔ (n = "is-local" ∨ n = "login-session-id" ∧ vouched r (text_of v)) →
      ∃ b, verify_parameters c ps r = Some (b, r) ∧
        (b = true ↔ ∃ n' v', (n', v') ∈ (n, v) :: ps ∧ (n' = "is-local" ∨ n' = "login-session-id" ∧ vouched r (text_of v')))) as Hc.
    { intros [|] Hn.
      - exists true. split; [by destruct ps as [|[]]|]. split; [|done]. intros _. exists n, v. split; [by left|by apply Hn].
      - exists b. split; [done|]. rewrite IH. split.
        + intros (n' & v' & Hin & H). exists n', v'. split; [by right|done].
        + intros (n' & v' & [[= -> ->]|Hin]%elem_of_cons & H); [by apply Hn in H|by exists n', v']. }
    simpl. destruct (String.eqb_spec n "login-session-id") as [->|Hne].
    + destruct (verify_login_run r (text_of v)) as (c & Ec & Hb). unfold mbind, prog_bind_inst, prog_mbind.
      unfold text_of in Ec. rewrite Ec. apply Hc. rewrite Hb. naive_solver.
    + unfold mbind, prog_bind_inst, prog_mbind. apply Hc. destruct (String.eqb_spec n "is-local"); naive_solver.
Qed.

(** When a session counts as local: a parameter "is-local" is there, true or
    false, or a parameter "login-session-id" names a login session of which a
    local session is open.  (The comment in the code says that only an existing
    local session can vouch for a new one.)  Nothing is changed. *)
Theorem local_when r ps :
  ∃ b, verify_parameters false ps r = Some (b, r) ∧
  (b = true ↔ ∃ n v, (n, v) ∈ ps ∧ (n = "is-local" ∨ n = "login-session-id" ∧ vouched r (text_of v))).
Proof. apply verify_run. Qed.
End manager.
