(* ===== verification/SessionNew.v ===== *)
(** * Sessions: creation, setters, dump ([src/ck-session.c]).

    A session is created from the parameters of its leader, as GObject does it:
    construct properties first, the others after the constructor.  The end of
    the file makes the store of [SeatSessions] an implementation of what the
    manager needs, [ManagedSessions] with [ManagedLaws]. *)

From S2P Require Import Prelude Device Session SessionFacts Scan Console LogEvent Leader.
From S2P Require Collect VtMonitor.
From S2P Require Import Seat SeatFacts SeatSessions Hooks Power Manager.
From stdpp Require Import fin_maps.

(** What GLib and the bus promise: a value is transformed to the type of a
    property if it can be, the object is exported at a path, the proxy of the bus is made. *)
Class SessionHost := {
  g_value_transform : ∀ p : sprop, gvariant → option (ptype p);
  g_value_transform_string : gvariant → option string;
  session_export_ok : string → bool;
  bus_proxy_made : bool;
  terminal : tty
}.
(** ** Properties by name *)

Definition skeleton_properties : list sprop :=
  [P_unix_user; P_user; P_seat; P_session_service; P_session_type; P_session_class; P_session_state;
   P_remote_host_name; P_display_device; P_x11_display; P_x11_display_device; P_vtnr; P_active; P_is_local;
   P_idle_hint; P_locked_hint].

(** A property of the class: one of the skeleton, or one of the private ones. *)
Inductive class_property := Exported (p : sprop) | LoginSessionId | SessionController | Id | Cookie.

Definition private_property (name : string) : option class_property :=
  if String.eqb name "id" then Some Id
  else if String.eqb name "cookie" then Some Cookie
  else if String.eqb name "login-session-id" then Some LoginSessionId
  else if String.eqb name "session-controller" then Some SessionController
  else None.
Definition find_property (prop_name : string) : option class_property :=
  let name := canonical_name prop_name in
  match private_property name with
  | Some c => Some c
  | None => Exported <$> head (filter (λ p, property_name p = name) skeleton_properties)
  end.

(** A [GParameter]: a property and its value. *)
Inductive gparameter := SetExported (p : sprop) (v : ptype p) | SetLogin (s : string) | SetController (s : string).

Section new.
Context {HOS : OS} {HEnv : Env} {K : Type} {HSkel : Skeleton K} {HT : SessionHost}.

Abbreviation prog_ := (prog (world K)).

(** [ck_session_new_with_parameters]: what a parameter becomes, [None] when it is
    skipped.  (Only the canonical "id" and "cookie" are refused; their other
    spellings do not exist.) *)
Definition session_parameter (e : string * gvariant) : option gparameter :=
  let '(prop_name, value) := e in
  if String.eqb prop_name "id" || String.eqb prop_name "cookie" then None
  else match find_property prop_name with
  | None | Some Id | Some Cookie => None
  | Some LoginSessionId => SetLogin <$> g_value_transform_string value
  | Some SessionController => SetController <$> g_value_transform_string value
  | Some (Exported p) => SetExported p <$> g_value_transform p value
  end.

(** A construct property that is given twice is set once. *)
Definition first_login (l : list gparameter) : cstr :=
  head (omap (λ g, match g with SetLogin s => Some s | _ => None end) l).
Definition first_controller (l : list gparameter) : cstr :=
  head (omap (λ g, match g with SetController s => Some s | _ => None end) l).

Definition session_add_activity_watch : prog_ unit :=
  device ← get_prop P_display_device;
  m ← field idle_monitor;
  match m with
  | None => modify_ses (set_idle_monitor (Some device))
  | Some _ => mret tt
  end.

(** [ck_session_init], the construct properties and [ck_session_constructor].
    There is no connection yet to watch a controller on. *)
Definition ck_session_constructor (ssid cookie : string) (login controller : cstr) : prog_ unit :=
  now ← on_host (λ h, (current_time (clock h), tick h));
  prog_modify (λ w, set_ses (new_session ssid cookie false now) w);;
  modify_ses (set_login_session_id login);;
  modify_ses (set_controller controller 0);;
  text ← session_is_text;
  if (text : bool) then session_add_activity_watch else mret tt.

Definition set_parameter (g : gparameter) : prog_ unit :=
  match g with SetExported p v => set_prop p v | _ => mret tt end.

(** [register_session]: the export, the proxy of the bus, the defaults. *)
Definition register_on_bus : prog_ bool :=
  path ← field ss_path;
  if negb (session_export_ok (default "" path)) then mret false
  else modify_ses (set_bus_proxy bus_proxy_made);; register_session;; mret true.

(** The result of [ck_session_new] is whether there is a session. *)
Definition finish_session : prog_ bool :=
  registered ← register_on_bus;
  if (registered : bool) then mret true else ck_session_finalize;; mret false.
Definition ck_session_new (ssid cookie : string) : prog_ bool :=
  ck_session_constructor ssid cookie None None;; finish_session.
Definition ck_session_new_with_parameters (ssid cookie : string) (parameters : list (string * gvariant)) :
    prog_ bool :=
  let params := omap session_parameter parameters in
  ck_session_constructor ssid cookie (first_login params) (first_controller params);;
  for_each set_parameter params;;
  finish_session.

(** ** Setters *)

Definition ck_session_set_is_local (b : bool) : prog_ unit := set_prop P_is_local b.
Definition ck_session_set_runtime_dir (d : cstr) : prog_ unit := modify_ses (set_runtime_dir d).
Definition ck_session_set_login_session_id (l : cstr) : prog_ unit := modify_ses (set_login_session_id l).
Definition ck_session_set_session_service (s : cstr) : prog_ unit := set_prop P_session_service s.
Definition ck_session_set_session_type (s : cstr) : prog_ unit := set_prop P_session_type s.

(** ** The dump *)

(** [g_key_file_set_string]: the key keeps its place. *)
Fixpoint key_set (key value : string) (l : list (string * string)) : list (string * string) :=
  match l with
  | [] => [(key, value)]
  | (k, v) :: l => if String.eqb k key then (k, value) :: l else (k, v) :: key_set key value l
  end.
Definition key_given (key : string) (v : cstr) (l : list (string * string)) : list (string * string) :=
  match v with None => l | Some s => key_set key s l end.
Definition key_nonempty (key : string) (v : cstr) (l : list (string * string)) : list (string * string) :=
  match v with None | Some "" => l | Some s => key_set key s l end.

(** The group of the session in the key file. *)
Definition ck_session_dump (s : CkSession K) : string * list (string * string) :=
  let get p := sk_get p (skel s) in
  ("Session " +:+ printf_s (ss_id s),
   key_set "creation_time" (iso8601 (creation_time s))
   (key_set "XDG_RUNTIME_DIR" (default "" (runtime_dir s))
   (key_set "is_local" (bool_text (get P_is_local))
   (key_set "is_active" (bool_text (get P_active))
   (key_set "remote_host_name" (default "" (get P_remote_host_name))
   (key_nonempty "remote_host_name" (get P_remote_host_name)
   (key_nonempty "x11_display" (get P_x11_display)
   (key_nonempty "x11_display_device" (get P_x11_display_device)
   (key_nonempty "display_device" (get P_display_device)
   (key_nonempty "login_session_id" (login_session_id s)
   (key_given "type" (get P_session_type)
   (key_given "service" (get P_session_service)
   (key_set "seat" (default "" (seat_id s))
   (key_set "uid" (fmt_int (i32 (get P_unix_user))) [])))))))))))))).

(** ** What is created *)

(** The last value that the parameters give a property. *)
Definition given_value (p : sprop) (l : list gparameter) : option (ptype p) :=
  foldl (λ v g, match g with
                | SetExported q u =>
                    match decide (q = p) with left e => Some (eq_rect q ptype u p e) | right _ => v end
                | _ => v
                end) None l.
(** The defaults of [register_session]. *)
Definition with_default (p : sprop) : ptype p → ptype p :=
  match p with
  | P_session_type | P_session_service => λ v : cstr, Some (default "unspecified" v)
  | P_session_class => λ v : cstr, Some (default "user" v)
  | _ => λ v, v
  end.

Record created (ssid cookie : string) (l : list gparameter) (w0 w : world K) : Prop := {
  cr_id : ss_id (ses w) = Some ssid;
  cr_cookie : ss_cookie (ses w) = Some cookie;
  cr_path : ss_path (ses w) = Some ("/org/freedesktop/ConsoleKit/" +:+ ssid);
  cr_seat : seat_id (ses w) = None;
  cr_login : login_session_id (ses w) = first_login l;
  cr_controller : session_controller (ses w) = first_controller l;
  cr_created : creation_time (ses w) = current_time (clock (hst w0));
  cr_devices : devices (ses w) = [];
  cr_devs : devs w = devs w0;
  cr_unwatched : idle_monitor (ses w) = None;
  cr_get : ∀ p, sk_get p (skel (ses w)) = with_default p (default (pzero p) (given_value p l))
}.

Implicit Types (w : world K).

(** *** Finalising *)

Lemma wp_unref_some d w : is_Some (devs w !! d) →
  wp (device_unref d) (λ _ w', ses w' = ses w ∧ devs w' = delete d (devs w)) w.
Proof. intros [x Hx]. unfold device_unref. wps. eapply wp_deref; [done|]. by wps. Qed.

Lemma wp_remove_pointers w : pointers (ses w) (devs w) →
  wp ck_session_remove_all_devices (λ _ w', ses w' = set_devices [] (ses w)) w.
Proof.
  intros [Hn Hp]. unfold ck_session_remove_all_devices. wps. eapply wp_mono.
  { apply (wp_for_each _ (λ todo w', ses w' = ses w ∧ NoDup todo ∧ ∀ d, d ∈ todo → is_Some (devs w' !! d)));
      [|done]. intros d todo w1 _ (E1 & [Hd Ht]%NoDup_cons & Hp1).
    eapply wp_mono; [apply wp_unref_some, Hp1; by left|]. intros [] w2 [E2 E3]. split_and!; [congruence|done|].
    intros e He. rewrite E3, lookup_delete_ne by (by intros ->). apply Hp1. by right. }
  intros [] w1 (E1 & _). wps. simpl. by rewrite E1.
Qed.

Lemma wp_restore_any w : wp restore_vt (λ _ w', devices (ses w') = devices (ses w)) w.
Proof.
  unfold restore_vt. wps. eapply (wp_mono _ (λ _ w', devices (ses w') = devices (ses w))).
  { destruct (sig_watch_s1 (ses w) =? 0)%Z; wps; [done|].
    wp_tty. wps. wp_tty. wps. wp_tty. wps. wp_tty. by wps. }
  intros [] w1 E. destruct (tty_fd (ses w) =? -1)%Z; by wps.
Qed.

Lemma wp_finalize w : pointers (ses w) (devs w) → wp ck_session_finalize (λ _ _, True) w.
Proof.
  intros Hp. unfold ck_session_finalize, session_remove_activity_watch, ck_session_set_session_controller,
    ck_session_controller_cleanup. wps.
  eapply wp_mono; [apply wp_remove_pointers; exact Hp|]. intros [] w1 E1.
  eapply wp_mono; [apply wp_restore_any|]. intros [] w2 E2. wps.
  eapply wp_mono; [apply wp_remove_pointers|done]. unfold pointers. rewrite E2, E1. simpl.
  split; [constructor|]. by intros d []%elem_of_nil.
Qed.

(** *** Creating *)

Lemma given_value_set p q (u : ptype q) l :
  given_value p (l ++ [SetExported q u]) =
    match decide (q = p) with left e => Some (eq_rect q ptype u p e) | right _ => given_value p l end.
Proof. unfold given_value. by rewrite foldl_app. Qed.
Lemma given_value_skip p g l : (∀ q u, g ≠ SetExported q u) → given_value p (l ++ [g]) = given_value p l.
Proof. intros H. unfold given_value. rewrite foldl_app. simpl. destruct g; try done. by destruct (H p0 v). Qed.

(** What setting the parameters leaves. *)
Definition parameters_set (l : list gparameter) w0 w : Prop :=
  ∃ k, w = set_ses (set_skel k (ses w0)) w0 ∧
    ∀ p, sk_get p k = default (sk_get p (skel (ses w0))) (given_value p l).

Lemma wp_set_parameters l w : wp (for_each set_parameter l) (λ _ w', parameters_set l w w') w.
Proof.
  assert (∀ done todo w1, l = done ++ todo → parameters_set done w w1 →
    wp (for_each set_parameter todo) (λ _ w', parameters_set l w w') w1) as H.
  { intros ld todo. revert ld. induction todo as [|g todo IH]; intros ld w1 El H1; simpl.
    - apply wp_ret. by rewrite El, app_nil_r.
    - apply wp_bind. rewrite cons_middle, app_assoc in El. destruct H1 as (k & -> & Hk).
      destruct g as [p v| |]; simpl; wps;
        [|apply (IH _ _ El); exists k; split; [done|]; intros q; by rewrite given_value_skip..].
      apply (IH _ _ El). eexists. split; [reflexivity|].
      intros q. simpl. rewrite given_value_set. destruct (decide (p = q)) as [<-|Hne]; [by rewrite sk_get_set|].
      rewrite sk_get_set_ne by done. apply Hk. }
  apply (H []); [done|]. exists (skel (ses w)). split; [|done]. by destruct w as [[] ? ? ? ? ?].
Qed.

Lemma wp_constructor ssid cookie login controller w :
  wp (ck_session_constructor ssid cookie login controller)
    (λ _ w', ∃ h, w' = set_ses (set_controller controller 0 (set_login_session_id login
        (new_session ssid cookie false (current_time (clock (hst w)))))) (set_hst h w)) w.
Proof.
  unfold ck_session_constructor. wps. unfold session_is_text. wps. simpl.
  rewrite !(sk_get_new (K := K)). simpl. wps. by eexists.
Qed.

Lemma get_prop_default p (d : string) w (proj : ptype p → cstr) (inj : cstr → ptype p) Q :
  (∀ k, (∀ q, q ≠ p → sk_get q k = sk_get q (skel (ses w))) →
     sk_get p k = (match proj (sk_get p (skel (ses w))) with
                   | None => inj (Some d)
                   | Some _ => sk_get p (skel (ses w))
                   end) → Q tt (set_ses (set_skel k (ses w)) w)) →
  wp (default_str p proj inj d) Q w.
Proof.
  intros HQ. unfold default_str. wps. destruct (proj _) eqn:E; wps.
  - assert (set_ses (set_skel (skel (ses w)) (ses w)) w = w) as Ew by by destruct w as [[] ? ? ? ? ?].
    specialize (HQ (skel (ses w))). rewrite Ew in HQ. by apply HQ.
  - apply HQ; [|by rewrite sk_get_set]. intros q Hq. by rewrite sk_get_set_ne.
Qed.

Lemma wp_register w Q :
  (∀ k, (∀ p, sk_get p k = with_default p (sk_get p (skel (ses w)))) → Q tt (set_ses (set_skel k (ses w)) w)) →
  wp register_session Q w.
Proof.
  intros HQ. unfold register_session. apply wp_bind, get_prop_default. intros k1 H1 E1.
  apply wp_bind, get_prop_default. intros k2 H2 E2. apply wp_bind, get_prop_default. intros k3 H3 E3.
  apply get_prop_default. intros k4 H4 E4. simpl in *. apply (HQ k4). intros p.
  destruct (decide (p = P_session_class)) as [->|N3].
  { rewrite E4, E3, H2, H1 by done. simpl. destruct (sk_get P_session_class (skel (ses w))) as [c|] eqn:E; by rewrite ?E. }
  rewrite H4, H3 by done.
  destruct (decide (p = P_session_service)) as [->|N2]; 
    [rewrite E2, H1 by done; simpl; by destruct (sk_get P_session_service (skel (ses w))) as [c|] eqn:E; rewrite ?E|].
  rewrite H2 by done.
  destruct (decide (p = P_session_type)) as [->|N1]; 
    [rewrite E1; simpl; by destruct (sk_get P_session_type (skel (ses w))) as [c|] eqn:E; rewrite ?E|].
  rewrite H1 by done. by destruct p.
Qed.

Lemma wp_new_with_parameters ssid cookie ps w :
  wp (ck_session_new_with_parameters ssid cookie ps) (λ r w',
    if session_export_ok ("/org/freedesktop/ConsoleKit/" +:+ ssid)
    then r = true ∧ created ssid cookie (omap session_parameter ps) w w' else r = false) w.
Proof.
  unfold ck_session_new_with_parameters. apply wp_bind. eapply wp_mono; [apply wp_constructor|].
  intros [] w1 [h ->]. apply wp_bind. eapply wp_mono; [apply wp_set_parameters|].
  intros [] w2 (k & -> & Hk). unfold finish_session, register_on_bus. wps. simpl.
  destruct (session_export_ok _); simpl; wps.
  - apply wp_register. intros k2 Hk2. wps. split; [done|]. split; simpl; try done.
    intros p. rewrite Hk2. simpl. rewrite Hk. simpl. by rewrite sk_get_new.
  - eapply wp_mono; [apply wp_finalize|].
    + split; [constructor|]. by intros d []%elem_of_nil.
    + intros [] w3 _. by wps.
Qed.

(** A session is created whatever its parameters say; it fails only when the
    object cannot be exported on the bus.  The session has the id, the cookie and
    the path that the manager chose (no parameter changes them), every other
    property the last value that a parameter of that name gives it, or its
    default, no device, no seat; and never an idle monitor, as the constructor
    asks whether the session is a text session before its display is set. *)
Theorem session_from_parameters ssid cookie ps w :
  ∃ r w', ck_session_new_with_parameters ssid cookie ps w = Some (r, w') ∧
    (session_export_ok ("/org/freedesktop/ConsoleKit/" +:+ ssid) = true →
       r = true ∧ created ssid cookie (omap session_parameter ps) w w') ∧
    (session_export_ok ("/org/freedesktop/ConsoleKit/" +:+ ssid) = false → r = false).
Proof.
  destruct (wp_elim _ _ _ (wp_new_with_parameters ssid cookie ps w)) as (r & w' & E & H).
  exists r, w'. split; [done|]. destruct (session_export_ok _); [by split|by split].
Qed.
End new.

(** ** The store of sessions serves the manager *)

Section store.
Context {HOS : OS} {HEnv : Env} {K : Type} {HSkel : Skeleton K} {HT : SessionHost} {HK : HookHost} {HC : ConsoleSettles}.
Implicit Types (st : store K) (w : world K).

(** A new object at a free address; one that could not be registered is gone. *)
Definition new_in_store (ssid cookie : string) (parameters : list (string * gvariant)) :
    prog (store K) (option positive) := λ st,
  let blank := {| o_ses := new_session ssid cookie false 0; o_devs := ∅; o_vt := terminal; o_out := [] |} in
  match ck_session_new_with_parameters ssid cookie parameters (view blank st) with
  | Some (true, w) => let s := fresh (dom (tab st)) in Some (Some s, put_back s w st)
  | Some (false, w) => Some (None, {| tab := tab st; st_host := hst w; st_next := next_id w |})
  | None => None
  end.
Definition final_in_store (s : positive) : prog (store K) unit :=
  inside s ck_session_finalize;;
  prog_modify (λ st, {| tab := delete s (tab st); st_host := st_host st; st_next := st_next st |}).

#[export] Instance store_managed : ManagedSessions (store K) :=
  {| session_cookie := in_session ss_cookie None;
     session_login_id := in_session login_session_id None;
     session_runtime_dir := in_session runtime_dir None;
     session_new := new_in_store;
     session_set_runtime_dir := λ s d, inside s (ck_session_set_runtime_dir d);
     session_set_is_local := λ s b, inside s (ck_session_set_is_local b);
     session_lock := λ s, inside s ck_session_lock;
     session_unlock := λ s, inside s ck_session_unlock;
     session_final := final_in_store |}.

(** What an operation of one session may do to it. *)
Record own_change (but : sprop → bool) w w' : Prop := {
  oc_id : ss_id (ses w') = ss_id (ses w);
  oc_path : ss_path (ses w') = ss_path (ses w);
  oc_created : creation_time (ses w') = creation_time (ses w);
  oc_seat : seat_id (ses w') = seat_id (ses w);
  oc_devices : devices (ses w') = devices (ses w);
  oc_devs : devs w' = devs w;
  oc_get : ∀ p, but p = false → sk_get p (skel (ses w')) = sk_get p (skel (ses w))
}.

Lemma kept_other but t st st' : is_Some (tab st !! t) → tab st' !! t = tab st !! t → session_kept but t st st'.
Proof. intros Hl E. split; simpl; unfold in_session; rewrite E; done. Qed.

Lemma own_changed but s o w st : sessions_ok st → tab st !! s = Some o → own_change but (view o st) w →
  sessions_ok (put_back s w st) ∧ ∀ t, session_live t st → session_kept but t st (put_back s w st).
Proof.
  intros Hok Ho [C1 C2 C3 C4 C5 C6 C7]. simpl in *. split.
  - intros t o' Ht. destruct (decide (t = s)) as [->|Hne].
    + rewrite lookup_insert_eq in Ht. simplify_eq. simpl. unfold pointers. rewrite C5, C6. by apply (Hok s).
    + rewrite lookup_insert_ne in Ht by done. by apply (Hok t).
  - intros t Ht. destruct (decide (t = s)) as [->|Hne]; [|apply kept_other; [done|by apply put_back_other]].
    split; simpl; unfold in_session; simpl; rewrite ?lookup_insert_eq, ?Ho; simpl; try done. by rewrite C3.
Qed.

Lemma wp_own_change {A} but s (m : prog (world K) A) (Q : world K → Prop) st :
  sessions_ok st → session_live s st →
  (∀ o, tab st !! s = Some o → wp m (λ _ w, own_change but (view o st) w ∧ Q w) (view o st)) →
  wp (inside s m) (λ _ st', sessions_ok st' ∧ (∃ w, st' = put_back s w st ∧ Q w) ∧
    ∀ t, session_live t st → session_kept but t st st') st.
Proof.
  intros Hok [o Ho] Hm. apply (wp_inside s m o); [done|]. eapply wp_mono; [by apply Hm|].
  intros a w [Hc HQ]. destruct (own_changed but s o w st Hok Ho Hc) as [H1 H2]. split; [done|]. split; [by exists w|done].
Qed.

Lemma all_but_ne p q : all_but q p = false → p ≠ q.
Proof. unfold all_but. by intros ?%bool_decide_eq_false. Qed.

Lemma given_value_in p v l : given_value p l = Some v → ∃ u, SetExported p u ∈ l.
Proof.
  induction l as [|g l IH] using rev_ind; [done|]. destruct g as [q u| |].
  - rewrite given_value_set. destruct (decide (q = p)) as [<-|]; [|].
    + intros _. exists u. apply elem_of_app. right. by left.
    + intros [u' Hu]%IH. exists u'. apply elem_of_app. by left.
  - rewrite given_value_skip by done. intros [u' Hu]%IH. exists u'. apply elem_of_app. by left.
  - rewrite given_value_skip by done. intros [u' Hu]%IH. exists u'. apply elem_of_app. by left.
Qed.

Lemma find_property_name n p : find_property n = Some (Exported p) → canonical_name n = property_name p.
Proof.
  unfold find_property. destruct (private_property (canonical_name n)) as [c|] eqn:E.
  { intros [= ->]. unfold private_property in E. by repeat case_match. }
  destruct (head _) as [q|] eqn:Eq; [|done]. intros [= <-].
  apply head_Some_elem_of in Eq. by apply list_elem_of_filter in Eq as [-> _].
Qed.

(** What a new session has was among its parameters. *)
Lemma given_named p v ps : given_value p (omap session_parameter ps) = Some v →
  property_name p ∈ canonical_name <$> ps.*1.
Proof.
  intros [u Hu]%given_value_in. apply list_elem_of_omap in Hu as ([n value] & Hin & E).
  assert (canonical_name n = property_name p) as <-.
  { apply find_property_name. unfold session_parameter in E. destruct (_ || _); [done|].
    destruct (find_property n) as [[q| | | |]|]; try done.
    - destruct (g_value_transform q value) as [x|]; [|done]. simpl in E. by inversion E.
    - destruct (g_value_transform_string value); simpl in E; done.
    - by destruct (g_value_transform_string value). }
  apply list_elem_of_fmap. exists n. split; [done|]. apply list_elem_of_fmap. by exists (n, value).
Qed.

Lemma crowded_named ps st s o : tab st !! s = Some o →
  (∀ p, sk_get p (skel (o_ses o)) = with_default p (default (pzero p) (given_value p (omap session_parameter ps)))) →
  crowded st s → overfull ps.
Proof.
  intros Ho Hg (_ & _ & H1 & H2 & H3) p Hp. simpl in *. unfold in_session in *. rewrite Ho in *.
  rewrite Hg in H1, H2, H3. simpl in *.
  apply elem_of_cons in Hp as [->|[->|[->|[]%elem_of_nil]%elem_of_cons]%elem_of_cons].
  - destruct (given_value P_display_device _) eqn:E; [by eapply given_named|done].
  - destruct (given_value P_x11_display_device _) eqn:E; [by eapply given_named|done].
  - destruct (given_value P_remote_host_name _) eqn:E; [by eapply given_named|done].
Qed.

(** The other sessions stay when one is added. *)
Lemma new_kept s w st : tab st !! s = None → ∀ t, session_live t st → session_kept nothing_but t st (put_back s w st).
Proof.
  intros Hs t Ht. apply kept_other; [done|]. apply put_back_other. intros ->. simpl in Ht. rewrite Hs in Ht.
  by destruct Ht.
Qed.

Lemma store_new_law ssid cookie ps st : sessions_ok st →
  wp (new_in_store ssid cookie ps) (λ r st', sessions_ok st' ∧
    (∀ t, session_live t st → session_kept nothing_but t st st') ∧
    ∀ s, r = Some s → ¬ session_live s st ∧ session_live s st' ∧ session_id s st' = Some ssid ∧
      (crowded st' s → overfull ps)) st.
Proof.
  intros Hok. unfold wp, new_in_store.
  match goal with |- context [ck_session_new_with_parameters _ _ _ ?v] =>
    destruct (wp_elim _ _ _ (wp_new_with_parameters ssid cookie ps v)) as (r & w & -> & H) end.
  destruct r; [destruct (session_export_ok _); [destruct H as [_ H]|done]|].
  - set (s := fresh (dom (tab st))). assert (tab st !! s = None) as Hs by (apply not_elem_of_dom, is_fresh).
    split_and!.
    + intros t o Ht. simpl in Ht. apply lookup_insert_Some in Ht as [[<- <-]|[_ Ht]]; [|by apply (Hok t)].
      unfold pointers. simpl. rewrite (cr_devices _ _ _ _ _ H). split; [constructor|]. by intros d []%elem_of_nil.
    + by apply new_kept.
    + intros t [= <-]. simpl. unfold in_session. simpl. rewrite Hs, lookup_insert_eq. simpl. split_and!.
      * by intros [].
      * by eexists.
      * apply H.
      * eapply (crowded_named ps (put_back s w st) s); [apply lookup_insert_eq|]. apply H.
  - split; [exact Hok|]. split; [|done]. intros t Ht. by apply kept_other.
Qed.

Lemma store_final_law s st : sessions_ok st → session_live s st →
  wp (final_in_store s) (λ _ st', sessions_ok st' ∧ ¬ session_live s st' ∧
    ∀ t, t ≠ s → session_live t st → session_kept nothing_but t st st') st.
Proof.
  intros Hok [o Ho]. unfold final_in_store. apply wp_bind, (wp_inside s _ o); [done|].
  eapply wp_mono; [apply wp_finalize, (Hok s o Ho)|]. intros [] w _. apply wp_modify. split_and!.
  - intros t o' Ht. simpl in Ht. rewrite delete_insert_eq in Ht. apply lookup_delete_Some in Ht as [_ Ht]. by apply (Hok t).
  - intros [o' Ht]. simpl in Ht. by rewrite lookup_delete_eq in Ht.
  - intros t Hne Ht. apply kept_other; [done|]. simpl. by rewrite delete_insert_eq, lookup_delete_ne.
Qed.

#[export] Instance store_managed_laws : ManagedLaws (store K).
Proof.
  split.
  - apply _.
  - apply store_new_law.
  - intros s d st Hok Hl.
    eapply wp_mono; [apply (wp_own_change nothing_but s _ (λ w, runtime_dir (ses w) = d) st Hok Hl)|].
    + intros o Ho. simpl. unfold ck_session_set_runtime_dir. wps. by split.
    + intros _ st' (H1 & (w & -> & Hw) & H2). split_and!; [done| |done].
      simpl. unfold in_session. simpl. by rewrite lookup_insert_eq.
  - intros s b st Hok Hl.
    eapply wp_mono; [apply (wp_own_change (all_but P_is_local) s _ (λ w, sk_get P_is_local (skel (ses w)) = b) st Hok Hl)|].
    + intros o Ho. simpl. unfold ck_session_set_is_local. wps. split; [|simpl; by apply (sk_get_set P_is_local)].
      split; try done. intros p Hp%all_but_ne. simpl. by rewrite sk_get_set_ne.
    + intros _ st' (H1 & (w & -> & Hw) & H2). split_and!; [done| |done].
      simpl. unfold in_session. simpl. by rewrite lookup_insert_eq.
  - intros s st Hok Hl.
    eapply wp_mono; [apply (wp_own_change (all_but P_locked_hint) s _ (λ _, True) st Hok Hl)|].
    + intros o Ho. simpl. unfold ck_session_lock. wps. split; [|done].
      split; try done. intros p Hp%all_but_ne. simpl. by rewrite sk_get_set_ne.
    + by intros _ st' (H1 & _ & H2).
  - intros s st Hok Hl.
    eapply wp_mono; [apply (wp_own_change (all_but P_locked_hint) s _ (λ _, True) st Hok Hl)|].
    + intros o Ho. simpl. unfold ck_session_unlock. wps. split; [|done].
      split; try done. intros p Hp%all_but_ne. simpl. by rewrite sk_get_set_ne.
    + by intros _ st' (H1 & _ & H2).
  - apply store_final_law.
Qed.
End store.
