(* ===== verification/ManagerRuns.v ===== *)
(** * The manager: concrete runs.

    A small host with a text login, an X login and a remote one; the sessions are
    those of [Session].  Witnesses for the theorems of [ManagerPolicy] and
    [ManagerIds]. *)

From S2P Require Import Prelude Scan Console Device DeviceFacts LogEvent Leader.
From S2P Require Collect Session SessionRuns VtMonitor.
From S2P Require Import SessionFacts.
From S2P Require Import Seat SeatFacts SeatSessions Hooks Power PowerRuns.
From S2P Require Import Manager ManagerIds ManagerFacts ManagerOps ManagerLogins ManagerRefines ManagerPolicy SessionNew.
From stdpp Require Import fin_maps.

(** ** When an input can come, decided *)

Section runs.
Context {W : Type} {HO : SessionOps W} {HM : ManagedSessions W} {HL : ManagedLaws W} {HH : HashOrder}.
Context {HHost : Host} {HEnv : Session.Env} {HP : Collect.Processes} {HMH : ManagerHost} {HLib : LibexecDir}.
Implicit Types (r : registry W).

Definition new_callb (call : positive) r : bool :=
  bool_decide (call ∉ m_answered r) && bool_decide (map_Forall (λ _ e, e.2 ≠ call) (jobs r)).
Definition overfullb {A} (ps : list (string * A)) : bool :=
  forallb (λ p, bool_decide (property_name p ∈ canonical_name <$> ps.*1))
    [Session.P_display_device; Session.P_x11_display_device; Session.P_remote_host_name].
Definition registry_okb (i : @registry_input W) r : bool :=
  match i with
  | ROpen call draws _ => new_callb call r && (session_serial r <? 2 ^ 31 - 1)%Z &&
      existsb (λ d, bool_decide (leaders r !! cookie_of d = None)) draws
  | RCollected _ j result =>
      match jobs r !! j with
      | Some (l, _) =>
          match leader_objs r !! l with
          | Some L => (Z.of_nat (size (seats r)) <? 2 ^ 31)%Z &&
              match result with
              | Some (output, errno) =>
                  match parse_output L errno output with Some ps => negb (overfullb ps) | None => false end
              | None => true
              end
          | None => false
          end
      | None => false
      end
  | RClose _ call _ | RLock call _ _ | RActivate call _ _ | RActivateOn call _ _ _ => new_callb call r
  | RVtChanges p _ =>
      match seat_objs r !! p with Some w => bool_decide (s_kind (seat w) = CK_SEAT_KIND_STATIC) | None => false end
  | ROwner _ _ _ => true
  | RQuery call q => new_callb call r && match q with QListSessions => false | _ => true end
  | RIdle _ _ _ | RSessions _ => false
  end.

Lemma new_callb_ok call r : new_callb call r = true → new_call call r.
Proof.
  intros [H1%bool_decide_eq_true H2%bool_decide_eq_true]%andb_true_iff. split; [done|].
  intros j l Hj. by apply (H2 j _ Hj).
Qed.
Lemma overfullb_ok {A} (ps : list (string * A)) : overfullb ps = false → ¬ overfull ps.
Proof.
  intros H Ho. apply not_true_iff_false in H. apply H. apply forallb_forall. intros p Hp.
  apply bool_decide_eq_true_2, Ho. by rewrite list_elem_of_In.
Qed.
Lemma registry_okb_ok i r : registry_okb i r = true → input_ok i r.
Proof.
  destruct i as [call draws ps|b j result|b call cookie|b old new|b s x|x|call lk ssid|call act ssid|call act ssid sid|p n|call q]; simpl; try done.
  - intros [[H1%new_callb_ok H2%Z.ltb_lt]%andb_true_iff H3]%andb_true_iff. split_and!; [done|done|].
    apply existsb_exists in H3 as (d & Hd & H3%bool_decide_eq_true). exists d. by rewrite list_elem_of_In.
  - destruct (jobs r !! j) as [[l call]|]; [|done]. destruct (leader_objs r !! l) as [L|] eqn:E; [|done].
    intros [H1%Z.ltb_lt H2]%andb_true_iff. exists l, call, L. split_and!; try done.
    intros output errno ->. destruct (parse_output L errno output) as [ps|]; [|done]. exists ps. split; [done|].
    apply overfullb_ok. by destruct (overfullb ps).
  - apply new_callb_ok.
  - apply new_callb_ok.
  - apply new_callb_ok.
  - apply new_callb_ok.
  - destruct (seat_objs r !! p) as [w|]; [|done]. intros Hk%bool_decide_eq_true. by exists w.
  - intros [H1%new_callb_ok H2]%andb_true_iff. split; [done|]. by intros ->.
Qed.

Fixpoint run_registry (l : list (@registry_input W)) r : option (registry W) :=
  match l with
  | [] => Some r
  | i :: l =>
      if registry_okb i r then match registry_run true i r with Some (_, r') => run_registry l r' | None => None end
      else None
  end.
Lemma run_registry_reachable l r r' : registry_reachable true r → run_registry l r = Some r' →
  registry_reachable true r'.
Proof.
  revert r. induction l as [|i l IH]; intros r Hr; simpl; [by intros [= <-]|].
  destruct (registry_okb i r) eqn:Hi; [|done]. destruct (registry_run true i r) as [[[] q]|] eqn:E; [|done].
  apply IH. eapply reg_step; [done| |done]. by apply registry_okb_ok.
Qed.
End runs.

(** ** A small host *)

#[local] Existing Instance SessionRuns.pstore_skeleton.
#[local] Instance runs_os : OS := sample_os 0.
#[local] Instance runs_settles : ConsoleSettles := sample_settles 0.
#[local] Instance runs_order : HashOrder :=
  {| hash_order := λ A _ m, map_to_list m; hash_order_perm := λ A _ m, reflexivity _ |}.

(** Users 1000 and 1001; the callers ":1.5" (the user's login, process 42),
    ":1.6" (another process) and ":1.7" (a remote login, process 44). *)
#[local] Instance runs_env : Session.Env :=
  {| Session.bus_unix_user := λ n, if String.eqb n ":1.6" then Some 1001%Z else Some 1000%Z;
     Session.bus_unix_pid := λ n, if String.eqb n ":1.5" then Some 42%Z
                                  else if String.eqb n ":1.6" then Some 43%Z else Some 44%Z;
     Session.getpwuid := λ _, Some 1000%Z; Session.current_time := Z.of_nat;
     Session.iso8601 := λ z, "2024-01-01T00:00:0" +:+ fmt_int z +:+ "Z" |}.
#[local] Instance runs_host : Host :=
  {| pw_name := λ u, if Z.eqb u 1000 then Some "alice" else Some "bob"; chkauthattr := λ _ _, false;
     ck_system_can_suspend := true; ck_system_can_hibernate := false; ck_system_can_hybrid_sleep := false;
     call_sender := λ c, if Pos.eqb c 2 then Some ":1.6" else if Pos.eqb c 4 then Some ":1.7" else Some ":1.5" |}.

(** Process 42 is on a text console, 44 has a display whose server is not one of
    this host. *)
#[local] Instance runs_processes : Collect.Processes :=
  {| Collect.HAVE_PAM := false;
     Collect.process_tty := λ p, if Z.eqb p 42 then Some (Some "/dev/tty2") else if Z.eqb p 44 then Some None else None;
     Collect.ck_unix_pid_get_env := λ p n, if Z.eqb p 44 && String.eqb n "DISPLAY" then Some "far:0" else None;
     Collect.ck_unix_pid_get_login_session_id := λ _, None;
     Collect.ck_get_x11_server_pid := λ _ _, {| Collect.sp_run := true; Collect.sp_status := 0; Collect.sp_out := Some "1" |};
     Collect.ck_get_x11_display_device := λ _ _,
       {| Collect.sp_run := true; Collect.sp_status := 1; Collect.sp_out := None |} |}.
#[local] Instance runs_hooks : HookHost :=
  {| environ := ["PATH=/usr/bin"]; hook_directory := λ _, None; g_spawn_async := λ _, true;
     hooks_sysconfdir := "/etc"; hooks_libdir := "/usr/lib" |}.
#[local] Instance runs_manager : ManagerHost :=
  {| ck_generate_runtime_dir_for_user := λ u, Some ("/run/user/" +:+ fmt_int u); job_can_run := λ _, true;
     ck_process_group_get_ssid := λ _, None; manager_hooks := runs_hooks; seat_export_ok := λ _, true;
     host_name := "host"; console_monitor := VtMonitor.ck_vt_monitor_init true 63 2 2 (λ _, true); console_fd := 3 |}.
#[local] Instance runs_libexec : LibexecDir := {| LIBEXECDIR := "/usr/libexec" |}.

(** The transformations of GLib between these types. *)
Definition transform (p : Session.sprop) (v : gvariant) : option (Session.ptype p) :=
  match p with
  | Session.P_active | Session.P_idle_hint | Session.P_locked_hint | Session.P_is_local =>
      match v with GvBool b => Some b | GvInt z | GvUint z => Some (negb (Z.eqb z 0)) | _ => None end
  | Session.P_unix_user | Session.P_user | Session.P_vtnr =>
      match v with GvUint z => Some z | GvInt z => Some (u32 z) | GvBool b => Some (Z.b2z b) | _ => None end
  | Session.P_seat => None
  | _ => match v with
         | GvString s => Some (Some s) | GvInt z => Some (Some (fmt_int z)) | GvUint z => Some (Some (fmt_unsigned z))
         | GvBool b => Some (Some (if b then "TRUE" else "FALSE")) | GvOther => None
         end
  end.
#[local] Instance runs_sessions : SessionHost :=
  {| g_value_transform := transform;
     g_value_transform_string := λ v, match v with GvString s => Some s | _ => None end;
     session_export_ok := λ _, true; bus_proxy_made := true; terminal := SessionRuns.text_console |}.

Abbreviation reg := (registry (store SessionRuns.pstore)).
Definition no_sessions : store SessionRuns.pstore := {| tab := ∅; st_host := sample_host; st_next := 1 |}.
Lemma no_sessions_ok : sessions_ok no_sessions.
Proof. intros s o Ho. simpl in Ho. by rewrite lookup_empty in Ho. Qed.

(** One seat file without devices. *)
Definition seat_files : list (option seat_file) :=
  [Some {| kf_start_group := Some "Seat Entry"; kf_hidden := false; kf_devices := [] |}].
Definition booted : option reg :=
  match create_seats seat_files (ck_manager_init no_sessions) with Some (_, r) => Some r | None => None end.
Definition run (l : list (@registry_input (store SessionRuns.pstore))) : option reg :=
  match booted with Some r => run_registry l r | None => None end.

Lemma registry_run_reachable l r : run l = Some r → registry_reachable true r.
Proof.
  unfold run, booted. destruct (create_seats _ _) as [[[] r0]|] eqn:E; [|done].
  apply run_registry_reachable. apply (reg_started _ no_sessions seat_files). split_and!; [apply no_sessions_ok|done|done].
Qed.

(** The login of process 42 and what its job prints. *)
Definition text_job : string := (Collect.collect_session_info 1000 42 None).1.
Definition login : list (@registry_input (store SessionRuns.pstore)) :=
  [ROpen 1 [(1, 2, 3)%Z] None; RCollected false 1 (Some (text_job, λ _, 0%Z))].

Definition facts (r : reg) : list string * list (option string) * bool * Z :=
  ((map_to_list (m_sessions r)).*1, (λ e, session_seat e.2 (m_sess r)) <$> map_to_list (m_sessions r),
   system_idle_hint r, session_serial r).
Example login_runs : (facts <$> run login) = Some (["Session1"], [Some "seat0"], false, 2%Z).
Proof. vm_compute. reflexivity. Qed.

(** ** Witnesses *)

(** Another process asks to close the session: the specification refuses it. *)
Definition the_cookie : string := "host-1.2-3".
Definition steal : @registry_input (store SessionRuns.pstore) := RClose false 2 the_cookie.

Lemma login_facts : holds (λ r, bool_decide (is_Some (m_sessions r !! "Session1")) && registry_okb steal r = true) (run login).
Proof. vm_compute. reflexivity. Qed.

Lemma registry_refines_witness : ∃ r r' v, run login = Some r ∧ registry_run true steal r = Some (tt, r') ∧
  replied (Some 2%positive) v r r' ∧ login_step (logins_of r) (LClose (Some (1001%Z, 43%Z)) the_cookie) v (logins_of r').
Proof.
  destruct (holds_elim _ _ login_facts) as (r & E & H). apply andb_true_iff in H as [_ H].
  destruct (registry_refines true steal r (registry_run_reachable _ _ E) (registry_okb_ok _ _ H)) as (r' & v & H1 & H2 & H3).
  exists r, r', v. split_and!; [exact E|exact H1|exact H2|exact H3].
Defined.

(** The console is left; the session is asked for, and its console comes back. *)
Definition away : list (@registry_input (store SessionRuns.pstore)) := login ++ [RVtChanges 1 5].
Definition back : list (@registry_input (store SessionRuns.pstore)) :=
  away ++ [RActivate 3 (λ _, true) (Some "Session1"); RVtChanges 1 2].
Definition active_at (r : reg) : option (option positive * Z) :=
  (λ w, (active_session (seat w), VtMonitor.active_num (monitor w))) <$> seat_objs r !! 1%positive.
Example back_runs : (λ l, active_at <$> run l) <$> [login; away; back] =
  [Some (Some (Some 1%positive, 2%Z)); Some (Some (None, 5%Z)); Some (Some (Some 1%positive, 2%Z))].
Proof. vm_compute. reflexivity. Qed.

Lemma registry_consistent_witness : ∃ r s w, run back = Some r ∧ m_sessions r !! "Session1" = Some s ∧
  session_id s (m_sess r) = Some "Session1" ∧ seat_objs r !! 1%positive = Some w ∧
  session_of_device (Some (ck_get_console_device_for_num (VtMonitor.active_num (monitor w))))
    (enter_seat (m_sess r) w) (active_session (seat w)).
Proof.
  assert (holds (λ r, bool_decide (is_Some (m_sessions r !! "Session1")) &&
    match seat_objs r !! 1%positive with
    | Some w => bool_decide (s_kind (seat w) = CK_SEAT_KIND_STATIC) && negb (Z.eqb (vfd w) (-1))
    | None => false
    end = true) (run back)) as Hf by (vm_compute; reflexivity).
  destruct (holds_elim _ _ Hf) as (r & E & [H1%bool_decide_eq_true H2]%andb_true_iff). destruct H1 as [s Hs].
  destruct (seat_objs r !! 1%positive) as [w|] eqn:Ew; [|discriminate H2].
  apply andb_true_iff in H2 as [Hk%bool_decide_eq_true Hv%negb_true_iff%Z.eqb_neq].
  destruct (registry_consistent true r (registry_run_reachable _ _ E)) as (C1 & _ & C3 & _).
  exists r, s, w. split_and!; [exact E|exact Hs|exact (proj1 (proj2 (C1 "Session1" s Hs)))|exact Ew|exact (C3 _ w Ew Hk Hv)].
Defined.

Lemma generate_session_id_fresh_witness : ∃ r n k r', run login = Some r ∧
  generate_session_id r = Some (serial_name "Session" n, r') ∧ m_sessions r !! serial_name "Session" n = None ∧ k ≤ 1.
Proof.
  assert (holds (λ r, (1 <=? session_serial r)%Z && (session_serial r <? 2 ^ 31)%Z && (size (m_sessions r) =? 1)%nat = true)
    (run login)) as Hf by (vm_compute; reflexivity).
  destruct (holds_elim _ _ Hf) as (r & E & [[H1%Z.leb_le H2%Z.ltb_lt]%andb_true_iff H3%Nat.eqb_eq]%andb_true_iff).
  destruct (generate_session_id_fresh r (conj H1 H2)) as (n & k & r' & A1 & A2 & A3 & A4 & A5).
  { rewrite H3. lia. }
  exists r, n, k, r'. split_and!; [exact E|exact A1|exact A2|]. by rewrite H3 in A4.
Defined.

(** The session becomes idle. *)
Lemma idle_input blocked s a (r : reg) : registry_reachable true r → session_live s (m_sess r) →
  ∃ st, inside s (Session.session_set_idle_hint_internal a) (m_sess r) = Some (true, st) ∧ input_ok (RIdle blocked s st) r.
Proof.
  intros Hr Hl. destruct (reachable_reg _ _ Hr) as [[Hi _ _ _] _].
  pose proof (wp_own_change (all_but Session.P_idle_hint) s (Session.session_set_idle_hint_internal a) (λ _, True)
    (m_sess r) (si_ok _ Hi) Hl) as Hwp.
  assert (∀ w, wp (Session.session_set_idle_hint_internal a) (λ b w', b = true ∧ own_change (all_but Session.P_idle_hint) w w') w) as Hm.
  { intros w. unfold Session.session_set_idle_hint_internal. wps. destruct (Bool.eqb _ a); wps; (split; [done|]); [done|].
    split; try done. intros p Hp%all_but_ne. apply (Session.sk_get_set_ne (K := SessionRuns.pstore)); done. }
  pose proof Hl as [o Ho]. destruct (wp_elim _ _ _ (Hm (view o (m_sess r)))) as (b & w & E & -> & Hc).
  exists (put_back s w (m_sess r)). split; [unfold inside; by rewrite Ho, E|].
  destruct (own_changed _ s o w (m_sess r) (si_ok _ Hi) Ho Hc) as [H1 H2]. split_and!; [done|done|].
  intros t Ht. case_decide as Hts.
  - eapply session_kept_weaken; [|by apply H2]. intros p Hp. apply bool_decide_eq_false_2. by intros ->.
  - apply kept_other; [done|]. by apply put_back_other.
Qed.

Lemma system_idle_exact_witness : ∃ r s r' x, run login = Some r ∧ m_sessions r !! "Session1" = Some s ∧
  registry_run true (RIdle false s x) r = Some (tt, r') ∧
  (system_idle_hint r' = true ↔ false = false ∧
     ∀ i t, m_sessions r' !! i = Some t → session_get Session.P_idle_hint t (m_sess r') = true).
Proof.
  destruct (holds_elim _ _ login_facts) as (r & E & H). apply andb_true_iff in H as [H%bool_decide_eq_true _].
  destruct H as [s Hs]. pose proof (registry_run_reachable _ _ E) as Hr.
  destruct (idle_input false s true r Hr) as (x & _ & Hok).
  { destruct (reachable_reg _ _ Hr) as [[Hi _ _ _] _]. by apply (si_table _ Hi "Session1"). }
  destruct (system_idle_exact true false s x r "Session1" Hr Hok Hs) as (_ & r' & H1 & H2).
  exists r, s, r', x. split_and!; [exact E|exact Hs|exact H1|exact H2].
Defined.

(** ** A remote display counts as local *)

(** Process 44's display is on another host: the job prints "is-local = false",
    which makes the manager mark the session as local. *)
Definition remote_job : string := (Collect.collect_session_info 1000 44 None).1.
Definition remote_login : list (@registry_input (store SessionRuns.pstore)) :=
  [ROpen 4 [(5, 6, 7)%Z] None; RCollected false 1 (Some (remote_job, λ _, 0%Z))].
Definition told_remote (l : CkSessionLeader) : bool :=
  match parse_output l (λ _, 0%Z) remote_job with
  | Some ps => bool_decide (("is-local", GvBool false) ∈ ps)
  | None => false
  end.

(** A session whose display is on another host is marked local: the job of its
    leader reports that it is not, and the manager takes the presence of the
    report for its value. *)
Theorem remote_display_counts_as_local : ∃ r0 r s,
  run [ROpen 4 [(5, 6, 7)%Z] None] = Some r0 ∧
  (∃ l, leader_objs r0 !! 1%positive = Some l ∧ told_remote l = true) ∧
  run remote_login = Some r ∧ registry_reachable true r ∧
  m_sessions r !! "Session1" = Some s ∧ session_get Session.P_x11_display s (m_sess r) = Some "far:0" ∧
  session_get Session.P_is_local s (m_sess r) = true.
Proof.
  assert (holds (λ r, holds (λ l, told_remote l = true) (leader_objs r !! 1%positive))
    (run [ROpen 4 [(5, 6, 7)%Z] None])) as H0 by (vm_compute; reflexivity).
  assert (holds (λ r, holds (λ s, bool_decide (session_get Session.P_x11_display s (m_sess r) = Some "far:0") &&
    session_get Session.P_is_local s (m_sess r) = true) (m_sessions r !! "Session1")) (run remote_login)) as H1
    by (vm_compute; reflexivity).
  destruct (holds_elim _ _ H0) as (r0 & E0 & Hl). destruct (holds_elim _ _ Hl) as (l & El & Hl').
  destruct (holds_elim _ _ H1) as (r & E1 & Hs).
  destruct (holds_elim _ _ Hs) as (s & Es & [Hd%bool_decide_eq_true Hloc]%andb_true_iff).
  exists r0, r, s. split_and!; [exact E0|exists l; split; [exact El|exact Hl']|exact E1|exact (registry_run_reachable remote_login r E1)|
    exact Es|exact Hd|exact Hloc].
Qed.
