(* ===== verification/FileMonitor.v ===== *)
(** * The file monitor: [src/ck-file-monitor-inotify.c].

    Clients ask to be told of events on a path ([ck_file_monitor_add_notify]);
    the monitor keeps one inotify watch per path, reads the kernel's events,
    queues them and tells the clients from idle callbacks.

    Watches are on a heap, their lists of notification ids are lists of cells
    with addresses, so that a read of a freed watch or cell aborts.  Addresses
    are never used again.  A notification is only reached through the table
    [notifies], which holds it.  A table that is NULL is an empty one: GLib
    answers NULL to a lookup in it. *)

From S2P Require Import Prelude.

(** ** Events *)

Definition CK_FILE_MONITOR_EVENT_NONE : Z := 1.
Definition CK_FILE_MONITOR_EVENT_ACCESS : Z := 2.
Definition CK_FILE_MONITOR_EVENT_CREATE : Z := 4.
Definition CK_FILE_MONITOR_EVENT_DELETE : Z := 8.
Definition CK_FILE_MONITOR_EVENT_CHANGE : Z := 16.

(** The kernel's flags, <sys/inotify.h>. *)
Definition IN_ACCESS : Z := 0x1.
Definition IN_MODIFY : Z := 0x2.
Definition IN_ATTRIB : Z := 0x4.
Definition IN_MOVED_FROM : Z := 0x40.
Definition IN_MOVED_TO : Z := 0x80.
Definition IN_CREATE : Z := 0x100.
Definition IN_DELETE : Z := 0x200.
Definition IN_DELETE_SELF : Z := 0x400.
Definition IN_MOVE_SELF : Z := 0x800.
Definition IN_IGNORED : Z := 0x8000.
Definition IN_MASK_ADD : Z := 0x20000000.

(** [if (mask & bits)]. *)
Definition has_bits (mask bits : Z) : bool := negb (Z.land mask bits =? 0)%Z.

Definition or_if (mask bits : Z) (imask : Z) : Z := if has_bits mask bits then imask else 0%Z.
Definition our_event_mask_to_inotify_mask (our_mask : Z) : Z :=
  foldl Z.lor 0%Z
    [or_if our_mask CK_FILE_MONITOR_EVENT_ACCESS IN_ACCESS;
     or_if our_mask CK_FILE_MONITOR_EVENT_CREATE (Z.lor IN_CREATE IN_MOVED_TO);
     or_if our_mask CK_FILE_MONITOR_EVENT_DELETE
       (Z.lor (Z.lor IN_DELETE IN_DELETE_SELF) (Z.lor IN_MOVED_FROM IN_MOVE_SELF));
     or_if our_mask CK_FILE_MONITOR_EVENT_CHANGE (Z.lor IN_MODIFY IN_ATTRIB)].

(** The event that [handle_inotify_event] makes of the kernel's mask. *)
Definition event_of_mask (mask : Z) : Z :=
  if has_bits mask (Z.lor IN_CREATE IN_MOVED_TO) then CK_FILE_MONITOR_EVENT_CREATE
  else if has_bits mask (Z.lor (Z.lor IN_DELETE IN_DELETE_SELF) (Z.lor IN_MOVED_FROM IN_MOVE_SELF))
  then CK_FILE_MONITOR_EVENT_DELETE
  else if has_bits mask (Z.lor IN_MODIFY IN_ATTRIB) then CK_FILE_MONITOR_EVENT_CHANGE
  else if has_bits mask IN_ACCESS then CK_FILE_MONITOR_EVENT_ACCESS
  else CK_FILE_MONITOR_EVENT_NONE.

(** ** State *)

(** [w_notifies]: the cells of the GSList, address and id. *)
Record FileInotifyWatch := { w_wd : Z; w_path : cstr; w_notifies : list (positive * Z) }.

(** [n_func]: the function with its [user_data]; [None] is a NULL function. *)
Record FileMonitorNotify (U : Type) := {
  n_id : Z; n_mask : Z; n_func : option U; n_watch : option positive }.
Arguments n_id {U} _. Arguments n_mask {U} _. Arguments n_func {U} _. Arguments n_watch {U} _.

Record FileMonitorEventInfo := { e_wd : Z; e_event : Z; e_path : cstr }.

Definition sizeof_inotify_event : Z := 16.
Definition DEFAULT_NOTIFY_BUFLEN : Z := (32 * (sizeof_inotify_event + 16))%Z.
Definition MAX_NOTIFY_BUFLEN : Z := (32 * DEFAULT_NOTIFY_BUFLEN)%Z.

(** [CkFileMonitorPrivate], then the heap of watches and the next address. *)
Record CkFileMonitor (U : Type) := {
  serial : Z;
  initialized_inotify : bool;
  io_watch : bool;
  wd_to_watch : gmap Z positive;
  path_to_watch : gmap string positive;
  notifies : gmap Z (FileMonitorNotify U);
  buflen : Z;
  events_idle_id : bool;
  remove_idle_id : bool;
  notify_events : list FileMonitorEventInfo;
  remove_events : list Z;
  watches : gmap positive FileInotifyWatch;
  next_address : positive
}.
Arguments serial {U} _. Arguments initialized_inotify {U} _. Arguments io_watch {U} _.
Arguments wd_to_watch {U} _. Arguments path_to_watch {U} _. Arguments notifies {U} _.
Arguments buflen {U} _. Arguments events_idle_id {U} _. Arguments remove_idle_id {U} _.
Arguments notify_events {U} _. Arguments remove_events {U} _. Arguments watches {U} _.
Arguments next_address {U} _.

(** The kernel's side, with its own state: [inotify_init] succeeds or not,
    [inotify_add_watch] answers a descriptor or a negative number. *)
Class Inotify (K : Type) := {
  inotify_init : K → bool * K;
  inotify_add_watch : string → Z → K → Z * K;
  inotify_rm_watch : Z → K → K;
  inotify_close : K → K
}.

(** The monitor, the kernel and what the clients' callbacks work on. *)
Record host (U K C : Type) := { fm : CkFileMonitor U; kern : K; client : C }.
Arguments fm {U K C} _. Arguments kern {U K C} _. Arguments client {U K C} _.

Section setters.
Context {U : Type}.
Implicit Types m : CkFileMonitor U.

Definition set_tables (wd : gmap Z positive) (path : gmap string positive) (ws : gmap positive FileInotifyWatch) m :=
  {| serial := serial m; initialized_inotify := initialized_inotify m; io_watch := io_watch m;
     wd_to_watch := wd; path_to_watch := path; notifies := notifies m; buflen := buflen m;
     events_idle_id := events_idle_id m; remove_idle_id := remove_idle_id m;
     notify_events := notify_events m; remove_events := remove_events m;
     watches := ws; next_address := next_address m |}.
Definition set_watches ws m := set_tables (wd_to_watch m) (path_to_watch m) ws m.
Definition bump_address m : CkFileMonitor U :=
  {| serial := serial m; initialized_inotify := initialized_inotify m; io_watch := io_watch m;
     wd_to_watch := wd_to_watch m; path_to_watch := path_to_watch m; notifies := notifies m; buflen := buflen m;
     events_idle_id := events_idle_id m; remove_idle_id := remove_idle_id m;
     notify_events := notify_events m; remove_events := remove_events m;
     watches := watches m; next_address := Pos.succ (next_address m) |}.
Definition set_notifies (n : Z) (t : gmap Z (FileMonitorNotify U)) m : CkFileMonitor U :=
  {| serial := n; initialized_inotify := initialized_inotify m; io_watch := io_watch m;
     wd_to_watch := wd_to_watch m; path_to_watch := path_to_watch m; notifies := t; buflen := buflen m;
     events_idle_id := events_idle_id m; remove_idle_id := remove_idle_id m;
     notify_events := notify_events m; remove_events := remove_events m;
     watches := watches m; next_address := next_address m |}.
Definition set_inotify (init io : bool) (len : Z) m : CkFileMonitor U :=
  {| serial := serial m; initialized_inotify := init; io_watch := io;
     wd_to_watch := wd_to_watch m; path_to_watch := path_to_watch m; notifies := notifies m; buflen := len;
     events_idle_id := events_idle_id m; remove_idle_id := remove_idle_id m;
     notify_events := notify_events m; remove_events := remove_events m;
     watches := watches m; next_address := next_address m |}.
Definition set_events (idle : bool) (l : list FileMonitorEventInfo) m : CkFileMonitor U :=
  {| serial := serial m; initialized_inotify := initialized_inotify m; io_watch := io_watch m;
     wd_to_watch := wd_to_watch m; path_to_watch := path_to_watch m; notifies := notifies m; buflen := buflen m;
     events_idle_id := idle; remove_idle_id := remove_idle_id m;
     notify_events := l; remove_events := remove_events m;
     watches := watches m; next_address := next_address m |}.
Definition set_removals (idle : bool) (l : list Z) m : CkFileMonitor U :=
  {| serial := serial m; initialized_inotify := initialized_inotify m; io_watch := io_watch m;
     wd_to_watch := wd_to_watch m; path_to_watch := path_to_watch m; notifies := notifies m; buflen := buflen m;
     events_idle_id := events_idle_id m; remove_idle_id := idle;
     notify_events := notify_events m; remove_events := l;
     watches := watches m; next_address := next_address m |}.
End setters.

Section file_monitor.
Context {U K C : Type} {IN : Inotify K}.
Implicit Types (m : CkFileMonitor U) (a : positive).
Abbreviation program := (prog (host U K C)).

Definition get_fm {A} (f : CkFileMonitor U → A) : program A := prog_gets (λ h, f (fm h)).
Definition modify_fm (f : CkFileMonitor U → CkFileMonitor U) : program unit :=
  prog_modify (λ h, {| fm := f (fm h); kern := kern h; client := client h |}).
Definition syscall {A} (f : K → A * K) : program A :=
  λ h, let '(r, k) := f (kern h) in Some (r, {| fm := fm h; kern := k; client := client h |}).

(** Reading through a pointer to a watch; [None] is an access to freed memory. *)
Definition the_watch a : program FileInotifyWatch :=
  λ h, match watches (fm h) !! a with Some w => Some (w, h) | None => None end.
Definition put_watch a (w : FileInotifyWatch) : program unit :=
  the_watch a;; modify_fm (λ m, set_watches (<[a := w]> (watches m)) m).
Definition free_watch a : program unit :=
  the_watch a;; modify_fm (λ m, set_watches (delete a (watches m)) m).
Definition alloc : program positive :=
  a ← get_fm next_address; modify_fm bump_address;; mret a.

(** ** Watches *)

Definition file_monitor_add_watch_for_path (path : string) (mask : Z) : program (option positive) :=
  wd ← syscall (inotify_add_watch path (Z.lor IN_MASK_ADD (our_event_mask_to_inotify_mask mask)));
  if (wd <? 0)%Z then mret None
  else
    found ← get_fm (λ m, path_to_watch m !! path);
    match found with
    | Some a => mret (Some a)
    | None =>
        a ← alloc;
        modify_fm (λ m, set_tables (<[wd := a]> (wd_to_watch m)) (<[path := a]> (path_to_watch m))
                          (<[a := {| w_wd := wd; w_path := Some path; w_notifies := [] |}]> (watches m)) m);;
        mret (Some a)
    end.

Definition monitor_release_watch a : program unit :=
  w ← the_watch a;
  syscall (λ k, (tt, inotify_rm_watch (w_wd w) k));;
  put_watch a {| w_wd := -1; w_path := None; w_notifies := [] |}.

(** A NULL path as key of the table of paths is a crash. *)
Definition file_monitor_remove_watch a : program unit :=
  w ← the_watch a;
  if (w_wd w =? -1)%Z then mret tt
  else
    match w_path w with
    | None => prog_abort
    | Some path =>
        modify_fm (λ m, set_tables (delete (w_wd w) (wd_to_watch m)) (delete path (path_to_watch m)) (watches m) m);;
        monitor_release_watch a
    end.

Definition close_inotify `{HashOrder} : program unit :=
  init ← get_fm initialized_inotify;
  if negb init then mret tt
  else
    modify_fm (λ m, set_inotify false (io_watch m) (buflen m) m);;
    entries ← get_fm (λ m, hash_order (Pos.to_nat (next_address m)) (path_to_watch m));
    for_each (λ e, monitor_release_watch e.2) entries;;
    modify_fm (λ m, set_tables ∅ ∅ (watches m) (set_inotify false false 0 m));;
    syscall (λ k, (tt, inotify_close k)).

Definition setup_inotify : program unit :=
  init ← get_fm initialized_inotify;
  if init : bool then mret tt
  else
    ok ← syscall inotify_init;
    if ok : bool then
      modify_fm (λ m, set_tables ∅ ∅ (watches m)
                        (set_notifies (serial m) ∅ (set_inotify true true DEFAULT_NOTIFY_BUFLEN m)))
    else mret tt.

(** ** Notifications *)

Definition file_monitor_add_notify_for_path (path : string) (mask : Z) (notify_func : option U)
    : program (option (FileMonitorNotify U)) :=
  found ← file_monitor_add_watch_for_path path mask;
  match found with
  | None => mret None
  | Some a =>
      id ← get_fm serial;
      let notify := {| n_id := id; n_mask := mask; n_func := notify_func; n_watch := Some a |} in
      modify_fm (λ m, set_notifies (u32 (id + 1)) (<[id := notify]> (notifies m)) m);;
      w ← the_watch a;
      c ← alloc;
      put_watch a {| w_wd := w_wd w; w_path := w_path w; w_notifies := (c, id) :: w_notifies w |};;
      mret (Some notify)
  end.

(** [g_slist_remove]: the first cell with the id. *)
Fixpoint g_slist_remove (id : Z) (l : list (positive * Z)) : list (positive * Z) :=
  match l with
  | [] => []
  | (c, i) :: l => if (i =? id)%Z then l else (c, i) :: g_slist_remove id l
  end.

Definition file_monitor_remove_notify (id : Z) : program unit :=
  found ← get_fm (λ m, notifies m !! id);
  match found with
  | None => mret tt
  | Some notify =>
      modify_fm (λ m, set_notifies (serial m) (delete id (notifies m)) m);;
      match n_watch notify with
      | None => mret tt
      | Some a =>
          w ← the_watch a;
          let rest := g_slist_remove id (w_notifies w) in
          put_watch a {| w_wd := w_wd w; w_path := w_path w; w_notifies := rest |};;
          if (length rest =? 0)%nat then file_monitor_remove_watch a;; free_watch a else mret tt
      end
  end.

Definition ck_file_monitor_add_notify (path : string) (mask : Z) (notify_func : option U) : program Z :=
  init ← get_fm initialized_inotify;
  if negb init then mret 0%Z
  else
    notify ← file_monitor_add_notify_for_path path mask notify_func;
    mret (match notify with None => 0%Z | Some n => n_id n end).

Definition ck_file_monitor_remove_notify (id : Z) : program unit :=
  init ← get_fm initialized_inotify;
  if negb init then mret tt else file_monitor_remove_notify id.

(** ** Kernel events *)

(** [struct inotify_event]. *)
Record inotify_event := { i_wd : Z; i_mask : Z; i_cookie : Z; i_len : Z; i_name : string }.

Definition file_monitor_queue_event (e : FileMonitorEventInfo) : program unit :=
  modify_fm (λ m, set_events true (notify_events m ++ [e]) m).
Definition queue_watch_event (wd event : Z) (path : cstr) : program unit :=
  file_monitor_queue_event {| e_wd := wd; e_event := event; e_path := path |}.
Definition queue_remove_event (wd : Z) : program unit :=
  modify_fm (λ m, set_removals true (remove_events m ++ [wd]) m).

Definition handle_inotify_event (ev : inotify_event) : program unit :=
  let path := if (0 <? i_len ev)%Z then Some (i_name ev) else None in
  let event := event_of_mask (i_mask ev) in
  (if (event =? CK_FILE_MONITOR_EVENT_NONE)%Z then mret tt else queue_watch_event (i_wd ev) event path);;
  if has_bits (i_mask ev) IN_IGNORED then queue_remove_event (i_wd ev) else mret tt.

(** The bytes of the buffer: little-endian words, a name padded with NULs. *)
Definition le32 (b : list Z) : Z := foldr (λ x acc, x + 256 * acc)%Z 0%Z (take 4 b).
Fixpoint name_of_bytes (b : list Z) : string :=
  match b with
  | [] => EmptyString
  | x :: b => if (x =? 0)%Z then EmptyString else String (Ascii.ascii_of_N (Z.to_N x)) (name_of_bytes b)
  end.

(** The event at the head of the buffer and what follows it; [None]: it reaches
    beyond what was read. *)
Definition event_at (b : list Z) : option (inotify_event * list Z) :=
  let len := le32 (drop 12 b) in
  if decide (16 + len ≤ Z.of_nat (length b))%Z then
    Some ({| i_wd := i32 (le32 b); i_mask := le32 (drop 4 b); i_cookie := le32 (drop 8 b); i_len := len;
             i_name := name_of_bytes (take (Z.to_nat len) (drop 16 b)) |},
          drop (16 + Z.to_nat len) b)
  else None.

(** The loop [while (i < len)]; every event takes at least 16 bytes, so the
    number of bytes is enough fuel. *)
Fixpoint scan_buffer (fuel : nat) (b : list Z) : program unit :=
  match b, fuel with
  | [], _ => mret tt
  | _, 0 => prog_abort
  | _, S fuel =>
      match event_at b with
      | None => prog_abort
      | Some (ev, rest) =>
          known ← get_fm (λ m, wd_to_watch m !! i_wd ev);
          (match known with None => mret tt | Some _ => handle_inotify_event ev end);;
          scan_buffer fuel rest
      end
  end.

(** What [read] answers. *)
Inductive read_result := R_bytes (b : list Z) | R_interrupted | R_failed.

(** The loop that fills the buffer: the bytes or [error_cancel], and the length
    of the buffer.  [None]: it still waits in [read]. *)
Inductive read_outcome := Filled (b : list Z) | ErrorCancel.
Fixpoint fill_buffer (reads : list read_result) (len : Z) : option (read_outcome * Z) :=
  match reads with
  | [] => None
  | R_interrupted :: reads => fill_buffer reads len
  | R_failed :: _ => Some (ErrorCancel, len)
  | R_bytes [] :: reads =>
      if (MAX_NOTIFY_BUFLEN <? u32 (Z.shiftl len 1))%Z then Some (ErrorCancel, len)
      else fill_buffer reads (u32 (Z.shiftl len 1))
  | R_bytes b :: _ => Some (Filled b, len)
  end.

(** The assertions on the descriptor and the buffer hold while inotify is set up. *)
Definition inotify_data_pending `{HashOrder} (reads : list read_result) : program bool :=
  init ← get_fm initialized_inotify;
  if negb init then prog_abort
  else
    len ← get_fm buflen;
    match fill_buffer reads len with
    | None => prog_abort
    | Some (Filled b, len) =>
        modify_fm (λ m, set_inotify (initialized_inotify m) (io_watch m) len m);;
        scan_buffer (length b) b;;
        mret true
    | Some (ErrorCancel, len) =>
        modify_fm (λ m, set_inotify (initialized_inotify m) false len m);;
        close_inotify;;
        mret false
    end.

(** ** Idle callbacks *)

Definition mark_unwatched (id : Z) : program unit :=
  modify_fm (λ m, match notifies m !! id with
                  | None => m
                  | Some n =>
                      set_notifies (serial m)
                        (<[id := {| n_id := n_id n; n_mask := n_mask n; n_func := n_func n; n_watch := None |}]> (notifies m)) m
                  end).

Definition remove_watch_of_wd (wd : Z) : program unit :=
  found ← get_fm (λ m, wd_to_watch m !! wd);
  match found with
  | None => mret tt
  | Some a =>
      w ← the_watch a;
      if (w_wd w =? -1)%Z then mret tt
      else
        for_each (λ cell : positive * Z, mark_unwatched cell.2) (w_notifies w);;
        file_monitor_remove_watch a;;
        free_watch a
  end.

Definition emit_removals_in_idle : program bool :=
  modify_fm (λ m, set_removals false (remove_events m) m);;
  wds ← get_fm remove_events;
  for_each (λ wd, modify_fm (λ m, set_removals (remove_idle_id m) (tail (remove_events m)) m);; remove_watch_of_wd wd) wds;;
  mret false.

(** The clients' callbacks: function and [user_data], event, path. *)
Variable notify_func : U → Z → cstr → program unit.
Variable g_build_filename : string → string → string.

Definition event_path (w : FileInotifyWatch) (e : FileMonitorEventInfo) : cstr :=
  match e_path e with
  | None => w_path w
  | Some name => Some (match w_path w with None => "" | Some p => g_build_filename p name end)
  end.

(** [l = l->next]: the cell at [c] must still be in the list of the watch. *)
Fixpoint cells_after (c : positive) (l : list (positive * Z)) : option (list (positive * Z)) :=
  match l with
  | [] => None
  | (c', _) :: l => if decide (c' = c) then Some l else cells_after c l
  end.
Definition next_cell a (c : positive) : program (list (positive * Z)) :=
  w ← the_watch a;
  match cells_after c (w_notifies w) with None => prog_abort | Some l => mret l end.

(** The body of the loop over a watch's notifications. *)
Definition deliver a (e : FileMonitorEventInfo) (id : Z) : program unit :=
  found ← get_fm (λ m, notifies m !! id);
  match found with
  | None => mret tt
  | Some n =>
      if has_bits (n_mask n) (e_event e) then
        match n_func n with
        | None => mret tt
        | Some u => w ← the_watch a; notify_func u (e_event e) (event_path w e)
        end
      else mret tt
  end.

(** [fuel]: callbacks add cells only at the head, so that as many steps as there
    are cells at the start are enough. *)
Fixpoint emit_to (fuel : nat) a (e : FileMonitorEventInfo) (l : list (positive * Z)) : program unit :=
  match l, fuel with
  | [], _ => mret tt
  | _, 0 => prog_abort
  | (c, id) :: _, S fuel => deliver a e id;; rest ← next_cell a c; emit_to fuel a e rest
  end.

Definition emit_event (e : FileMonitorEventInfo) : program unit :=
  found ← get_fm (λ m, wd_to_watch m !! e_wd e);
  match found with
  | None => mret tt
  | Some a => w ← the_watch a; emit_to (length (w_notifies w)) a e (w_notifies w)
  end.

Fixpoint emit_queue (fuel : nat) : program unit :=
  q ← get_fm notify_events;
  match q, fuel with
  | [], _ => mret tt
  | _, 0 => prog_abort
  | e :: q, S fuel =>
      modify_fm (λ m, set_events (events_idle_id m) q m);; emit_event e;; emit_queue fuel
  end.

(** Only [inotify_data_pending] adds to the queue, so that its length is enough. *)
Definition emit_events_in_idle : program bool :=
  modify_fm (λ m, set_events false (notify_events m) m);;
  q ← get_fm notify_events;
  emit_queue (length q);;
  mret false.

End file_monitor.

(** ** Creation *)

Definition ck_file_monitor_init {U} : CkFileMonitor U :=
  {| serial := 1; initialized_inotify := false; io_watch := false; wd_to_watch := ∅; path_to_watch := ∅;
     notifies := ∅; buflen := 0; events_idle_id := false; remove_idle_id := false; notify_events := [];
     remove_events := []; watches := ∅; next_address := 1%positive |}.

(** [ck_file_monitor_new]: the one monitor of the process. *)
Definition ck_file_monitor_new {U K C} `{Inotify K} : prog (host U K C) unit :=
  modify_fm (λ _, ck_file_monitor_init);; setup_inotify.
