(* ===== verification/FileMonitorFacts.v ===== *)
(** * The file monitor: its invariant, the safety of its operations, what
    clients are told.

    [fm_inv] ties the tables to the heap of watches.  The operations keep it and
    follow no dangling pointer, as long as a client's callback does not remove
    the notification it is called for ([considerate]). *)

From stdpp Require Import fin_maps.
From S2P Require Import Prelude FileMonitor.

(** ** The invariant *)

Section invariant.
Context {U : Type}.
Implicit Types (m : CkFileMonitor U) (a : positive).

Record fm_inv m : Prop := {
  inv_path : ∀ p a, path_to_watch m !! p = Some a →
    ∃ w, watches m !! a = Some w ∧ w_path w = Some p ∧ w_wd w ≠ (-1)%Z;
  inv_wd : ∀ d a, wd_to_watch m !! d = Some a → ∃ w, watches m !! a = Some w ∧ w_wd w = d ∧ w_wd w ≠ (-1)%Z;
  inv_watch : ∀ a w, watches m !! a = Some w → w_wd w ≠ (-1)%Z →
    ∃ p, w_path w = Some p ∧ path_to_watch m !! p = Some a;
  inv_open : initialized_inotify m = true → ∀ a w, watches m !! a = Some w → w_wd w ≠ (-1)%Z;
  inv_nodup : ∀ a w, watches m !! a = Some w → NoDup (w_notifies w).*1 ∧ NoDup (w_notifies w).*2;
  inv_cell : ∀ a w id, watches m !! a = Some w → id ∈ (w_notifies w).*2 →
    ∃ n, notifies m !! id = Some n ∧ n_watch n = Some a;
  inv_notify : ∀ id n, notifies m !! id = Some n → n_id n = id ∧ (0 < id < serial m)%Z;
  inv_target : ∀ id n a, notifies m !! id = Some n → n_watch n = Some a →
    ∃ w, watches m !! a = Some w ∧ (w_wd w ≠ (-1)%Z → id ∈ (w_notifies w).*2);
  inv_addresses : ∀ a w, watches m !! a = Some w →
    (a < next_address m)%positive ∧ ∀ c, c ∈ (w_notifies w).*1 → (c < next_address m)%positive;
  inv_serial : (0 < serial m < 2 ^ 32)%Z
}.

(** Only these fields matter to the invariant. *)
Lemma fm_inv_ext m m' :
  fm_inv m → serial m' = serial m → initialized_inotify m' = initialized_inotify m →
  wd_to_watch m' = wd_to_watch m → path_to_watch m' = path_to_watch m → notifies m' = notifies m →
  watches m' = watches m → next_address m' = next_address m → fm_inv m'.
Proof. intros [] Es Ei Ewd Ep En Ew Ea. by split; rewrite ?Es, ?Ei, ?Ewd, ?Ep, ?En, ?Ew, ?Ea. Qed.

Lemma fm_inv_init : fm_inv (@ck_file_monitor_init U).
Proof. split; intros; simplify_map_eq; try lia; try done. Qed.

(** A new address, a new watch, a new notification. *)
Lemma fm_inv_bump m : fm_inv m → fm_inv (bump_address m).
Proof.
  intros [Hp Hwd Hw Ho Hn Hc Hi Ht Ha Hs]. split; simpl; try done.
  intros a w Hlook. destruct (Ha _ _ Hlook) as [H1 H2]. split; [lia|].
  intros c Hcell. specialize (H2 c Hcell). lia.
Qed.

Lemma fresh_watch m a : fm_inv m → next_address m = a → watches m !! a = None.
Proof.
  intros Hm Ha. destruct (watches m !! a) as [w|] eqn:E; [|done].
  pose proof (proj1 (inv_addresses _ Hm _ _ E)). lia.
Qed.

Definition with_watch (wd : Z) (path : string) (a : positive) m : CkFileMonitor U :=
  set_tables (<[wd := a]> (wd_to_watch m)) (<[path := a]> (path_to_watch m))
    (<[a := {| w_wd := wd; w_path := Some path; w_notifies := [] |}]> (watches m)) m.

Lemma fm_inv_with_watch m wd path :
  fm_inv m → (0 ≤ wd)%Z → path_to_watch m !! path = None →
  fm_inv (with_watch wd path (next_address m) (bump_address m)).
Proof.
  intros Hm Hwd Hpath. pose proof (fresh_watch m _ Hm eq_refl) as Hfresh.
  destruct Hm as [Hp Hd Hw Ho Hn Hc Hi Ht Ha Hs].
  split; simpl; try done.
  - intros p a [[-> <-]|[Hne Hl]]%lookup_insert_Some.
    + exists {| w_wd := wd; w_path := Some p; w_notifies := [] |}.
      rewrite lookup_insert_eq. simpl. split_and!; [done..|lia].
    + destruct (Hp _ _ Hl) as (w & Hl' & ?). exists w. rewrite lookup_insert_ne; [done|].
      intros <-. by rewrite Hfresh in Hl'.
  - intros d a [[-> <-]|[Hne Hl]]%lookup_insert_Some.
    + eexists. rewrite lookup_insert_eq. split_and!; [done..|simpl; lia].
    + destruct (Hd _ _ Hl) as (w & Hl' & ?). exists w. rewrite lookup_insert_ne; [done|].
      intros <-. by rewrite Hfresh in Hl'.
  - intros a w [[<- <-]|[Hne Hl]]%lookup_insert_Some Hlive.
    + exists path. simpl. by rewrite lookup_insert_eq.
    + destruct (Hw _ _ Hl Hlive) as (p & ? & Hl'). exists p. rewrite lookup_insert_ne; [done|].
      intros ->. congruence.
  - intros Hopen a w [[<- <-]|[Hne Hl]]%lookup_insert_Some; simpl; [lia|by eapply Ho].
  - intros a w [[<- <-]|[Hne Hl]]%lookup_insert_Some; simpl; [split; constructor|by eapply Hn].
  - intros a w id [[<- <-]|[Hne Hl]]%lookup_insert_Some; simpl; [by intros ?%elem_of_nil|by eapply Hc].
  - intros id n a Hid Hwatch. destruct (Ht _ _ _ Hid Hwatch) as (w & Hl & ?).
    exists w. rewrite lookup_insert_ne; [done|]. intros <-. by rewrite Hfresh in Hl.
  - intros a w [[<- <-]|[Hne Hl]]%lookup_insert_Some; simpl.
    + split; [lia|]. by intros c ?%elem_of_nil.
    + destruct (Ha _ _ Hl) as [H1 H2]. split; [lia|]. intros c Hcell. specialize (H2 c Hcell). lia.
Qed.

Definition with_cell a (w : FileInotifyWatch) (c : positive) (n : FileMonitorNotify U) m : CkFileMonitor U :=
  set_watches (<[a := {| w_wd := w_wd w; w_path := w_path w; w_notifies := (c, n_id n) :: w_notifies w |}]> (watches m))
    (set_notifies (u32 (serial m + 1)) (<[n_id n := n]> (notifies m)) m).

Lemma fm_inv_with_cell m a w n :
  fm_inv m → watches m !! a = Some w → n_id n = serial m → n_watch n = Some a →
  (serial m + 1 < 2 ^ 32)%Z →
  fm_inv (with_cell a w (next_address m) n (bump_address m)).
Proof.
  intros [Hp Hd Hw Ho Hn Hc Hi Ht Ha Hs] Ha' Hid Hwatch Hser.
  assert (notifies m !! n_id n = None) as Hnew.
  { destruct (notifies m !! n_id n) eqn:E; [|done]. apply Hi in E. lia. }
  assert (∀ b u, watches m !! b = Some u → n_id n ∉ (w_notifies u).*2) as Hnot.
  { intros b u Hb Hin. destruct (Hc _ _ _ Hb Hin) as (? & ? & _). congruence. }
  split; simpl; rewrite ?u32_small by lia; try lia.
  - intros p b Hl. destruct (Hp _ _ Hl) as (u & Hu & ?).
    destruct (decide (b = a)) as [->|]; [|exists u; by rewrite lookup_insert_ne].
    simplify_eq. eexists. by rewrite lookup_insert_eq.
  - intros d b Hl. destruct (Hd _ _ Hl) as (u & Hu & ?).
    destruct (decide (b = a)) as [->|]; [|exists u; by rewrite lookup_insert_ne].
    simplify_eq. eexists. by rewrite lookup_insert_eq.
  - intros b u [[<- <-]|[Hne Hl]]%lookup_insert_Some; simpl; [by apply Hw|by apply Hw].
  - intros Hopen b u [[<- <-]|[Hne Hl]]%lookup_insert_Some; simpl; by eapply Ho.
  - intros b u [[<- <-]|[Hne Hl]]%lookup_insert_Some; simpl; [|by eapply Hn].
    destruct (Hn _ _ Ha'). split; constructor; try done; [|by eapply Hnot].
    intros Hin%(proj2 (Ha _ _ Ha')). lia.
  - intros b u id [[<- <-]|[Hne Hl]]%lookup_insert_Some; simpl.
    + intros [->|Hin]%elem_of_cons; [by exists n; rewrite lookup_insert_eq|].
      destruct (Hc _ _ _ Ha' Hin) as (n' & ? & ?). exists n'. rewrite lookup_insert_ne; [done|]. intros <-. congruence.
    + intros Hin. destruct (Hc _ _ _ Hl Hin) as (n' & ? & ?). exists n'. rewrite lookup_insert_ne; [done|].
      intros <-. congruence.
  - intros id n' [[<- <-]|[Hne Hl]]%lookup_insert_Some; [lia|]. destruct (Hi _ _ Hl). lia.
  - intros id n' b [[<- <-]|[Hne Hl]]%lookup_insert_Some Hb.
    + simplify_eq. eexists. rewrite lookup_insert_eq. split; [done|]. intros _. left.
    + destruct (Ht _ _ _ Hl Hb) as (u & Hu & Hin). destruct (decide (b = a)) as [->|].
      * simplify_eq. eexists. rewrite lookup_insert_eq. split; [done|]. simpl. intros ?. right. auto.
      * exists u. by rewrite lookup_insert_ne.
  - intros b u [[<- <-]|[Hne Hl]]%lookup_insert_Some; simpl.
    + destruct (Ha _ _ Ha') as [H1 H2]. split; [lia|]. intros c [->|Hin]%elem_of_cons; [lia|]. specialize (H2 c Hin). lia.
    + destruct (Ha _ _ Hl) as [H1 H2]. split; [lia|]. intros c Hin. specialize (H2 c Hin). lia.
Qed.

(** A notification less, a watch without notifications less. *)
Lemma g_slist_remove_sublist id l : g_slist_remove id l `sublist_of` l.
Proof.
  induction l as [|[c i] l IH]; simpl; [done|]. case_match; [by apply sublist_cons|by apply sublist_skip].
Qed.
Lemma g_slist_remove_ids id l i : NoDup l.*2 → i ∈ (g_slist_remove id l).*2 ↔ i ∈ l.*2 ∧ i ≠ id.
Proof.
  induction l as [|[c j] l IH]; simpl; [intros _; rewrite elem_of_nil; by split; [|intros [? _]]|].
  intros [Hj Hl]%NoDup_cons. destruct (Z.eqb_spec j id) as [->|Hne]; simpl; rewrite !elem_of_cons.
  - split; [intros Hi; split; [by right|by intros ->]|by intros [[->|?] ?]].
  - rewrite IH by done. split; [intros [->|[? ?]]; auto|intros [[->|?] ?]; auto].
Qed.

Definition without_cell (id : Z) a (w : FileInotifyWatch) m : CkFileMonitor U :=
  set_watches (<[a := {| w_wd := w_wd w; w_path := w_path w; w_notifies := g_slist_remove id (w_notifies w) |}]> (watches m))
    (set_notifies (serial m) (delete id (notifies m)) m).

Lemma fm_inv_without_cell m id n a w :
  fm_inv m → notifies m !! id = Some n → n_watch n = Some a → watches m !! a = Some w →
  fm_inv (without_cell id a w m).
Proof.
  intros [Hp Hd Hw Ho Hn Hc Hi Ht Ha Hs] Hid Hwatch Hl.
  pose proof (g_slist_remove_sublist id (w_notifies w)) as Hsub. destruct (Hn _ _ Hl) as [Hnd1 Hnd2].
  assert (∀ (f : FileInotifyWatch → Prop) b u, watches m !! b = Some u → f u →
    (f w → f {| w_wd := w_wd w; w_path := w_path w; w_notifies := g_slist_remove id (w_notifies w) |}) →
    ∃ u', <[a := {| w_wd := w_wd w; w_path := w_path w; w_notifies := g_slist_remove id (w_notifies w) |}]>
      (watches m) !! b = Some u' ∧ f u') as Hstay.
  { intros f b u Hb Hu Hf. destruct (decide (b = a)) as [->|].
    - simplify_eq. eexists. rewrite lookup_insert_eq. auto.
    - exists u. by rewrite lookup_insert_ne. }
  split; simpl; try done.
  - intros p b Hb. destruct (Hp _ _ Hb) as (u & Hu & ?). by eapply (Hstay (λ u, w_path u = Some p ∧ w_wd u ≠ (-1)%Z)).
  - intros d b Hb. destruct (Hd _ _ Hb) as (u & Hu & ?). by eapply (Hstay (λ u, w_wd u = d ∧ w_wd u ≠ (-1)%Z)).
  - intros b u [[<- <-]|[Hne Hb]]%lookup_insert_Some; simpl; by apply Hw.
  - intros Hopen b u [[<- <-]|[Hne Hb]]%lookup_insert_Some; simpl; by eapply Ho.
  - intros b u [[<- <-]|[Hne Hb]]%lookup_insert_Some; simpl; [|by eapply Hn].
    split; eapply sublist_NoDup; try done; by apply fmap_sublist.
  - intros b u i [[<- <-]|[Hne Hb]]%lookup_insert_Some; simpl.
    + intros [Hin Hne]%g_slist_remove_ids; [|done]. destruct (Hc _ _ _ Hl Hin) as (n' & ? & ?).
      exists n'. by rewrite lookup_delete_ne.
    + intros Hin. destruct (Hc _ _ _ Hb Hin) as (n' & ? & ?). exists n'. rewrite lookup_delete_ne; [done|].
      intros <-. congruence.
  - intros i n' [Hne Hi']%lookup_delete_Some. by apply Hi.
  - intros i n' b [Hne Hi']%lookup_delete_Some Hb. destruct (Ht _ _ _ Hi' Hb) as (u & Hu & Hin).
    eapply (Hstay (λ u, w_wd u ≠ (-1)%Z → i ∈ (w_notifies u).*2)); [done..|].
    simpl. intros Hold Hlive. apply g_slist_remove_ids; auto.
  - intros b u [[<- <-]|[Hne Hb]]%lookup_insert_Some; simpl; [|by apply Ha].
    destruct (Ha _ _ Hl) as [H1 H2]. split; [done|]. intros c Hin. apply H2.
    by eapply elem_of_sublist; [|apply fmap_sublist].
Qed.

Lemma fm_inv_without_unwatched m id n :
  fm_inv m → notifies m !! id = Some n → n_watch n = None →
  fm_inv (set_notifies (serial m) (delete id (notifies m)) m).
Proof.
  intros [Hp Hd Hw Ho Hn Hc Hi Ht Ha Hs] Hid Hwatch. split; simpl; try done.
  - intros a w i Hl Hin. destruct (Hc _ _ _ Hl Hin) as (n' & ? & ?). exists n'.
    rewrite lookup_delete_ne; [done|]. intros <-. congruence.
  - intros i n' [Hne Hi']%lookup_delete_Some. by apply Hi.
  - intros i n' a [Hne Hi']%lookup_delete_Some. by apply Ht.
Qed.

(** A watch goes, its notifications are marked as unwatched. *)
Definition unwatched (n : FileMonitorNotify U) : FileMonitorNotify U :=
  {| n_id := n_id n; n_mask := n_mask n; n_func := n_func n; n_watch := None |}.
Definition mark (ids : list Z) (id : Z) (n : FileMonitorNotify U) : FileMonitorNotify U :=
  if decide (id ∈ ids) then unwatched n else n.
Definition without_watch a (w : FileInotifyWatch) (path : string) m : CkFileMonitor U :=
  set_tables (delete (w_wd w) (wd_to_watch m)) (delete path (path_to_watch m)) (delete a (watches m))
    (set_notifies (serial m) (map_imap (λ id n, Some (mark (w_notifies w).*2 id n)) (notifies m)) m).

Lemma mark_fields ids id n : n_id (mark ids id n) = n_id n ∧ n_mask (mark ids id n) = n_mask n ∧ n_func (mark ids id n) = n_func n.
Proof. unfold mark. by case_decide. Qed.

Lemma fm_inv_without_watch m a w path :
  fm_inv m → watches m !! a = Some w → w_path w = Some path → w_wd w ≠ (-1)%Z →
  fm_inv (without_watch a w path m).
Proof.
  intros [Hp Hd Hw Ho Hn Hc Hi Ht Ha Hs] Hl Hpath Hlive.
  split; simpl; try done.
  - intros p b [Hne Hb]%lookup_delete_Some. destruct (Hp _ _ Hb) as (u & Hu & ? & ?).
    exists u. rewrite lookup_delete_ne; [done|]. intros <-. congruence.
  - intros d b [Hne Hb]%lookup_delete_Some. destruct (Hd _ _ Hb) as (u & Hu & ? & ?).
    exists u. rewrite lookup_delete_ne; [done|]. intros <-. congruence.
  - intros b u [Hne Hb]%lookup_delete_Some Hub. destruct (Hw _ _ Hb Hub) as (p & ? & Hbp).
    exists p. rewrite lookup_delete_ne; [done|]. intros <-. destruct (Hw _ _ Hl Hlive) as (? & ? & ?). congruence.
  - intros Hopen b u [Hne Hb]%lookup_delete_Some. by eapply Ho.
  - intros b u [Hne Hb]%lookup_delete_Some. by eapply Hn.
  - intros b u id [Hne Hb]%lookup_delete_Some Hin. destruct (Hc _ _ _ Hb Hin) as (n & Hid & Hnb).
    exists n. rewrite map_lookup_imap, Hid. simpl. unfold mark. case_decide as Hmark; [|done].
    destruct (Hc _ _ _ Hl Hmark) as (? & ? & ?). congruence.
  - intros id n. rewrite map_lookup_imap. intros (n0 & Hid & [= <-])%bind_Some.
    destruct (mark_fields (w_notifies w).*2 id n0) as (-> & _). by apply Hi.
  - intros id n b. rewrite map_lookup_imap. intros (n0 & Hid & [= <-])%bind_Some. unfold mark.
    case_decide as Hmark; [done|]. intros Hb. destruct (Ht _ _ _ Hid Hb) as (u & Hu & Hin).
    exists u. rewrite lookup_delete_ne; [done|]. intros <-. simplify_eq. by destruct Hmark; auto.
  - intros b u [Hne Hb]%lookup_delete_Some. by eapply Ha.
Qed.

(** Every watch is released. *)
Definition dead_watch : FileInotifyWatch := {| w_wd := -1; w_path := None; w_notifies := [] |}.
Definition closed m : CkFileMonitor U :=
  set_tables ∅ ∅ ((λ _, dead_watch) <$> watches m) (set_inotify false false 0 m).

Lemma fm_inv_closed m : fm_inv m → fm_inv (closed m).
Proof.
  intros [Hp Hd Hw Ho Hn Hc Hi Ht Ha Hs]. split; simpl; try done.
  - intros a w (u & <- & Hu)%lookup_fmap_Some. done.
  - intros a w (u & <- & Hu)%lookup_fmap_Some. split; constructor.
  - intros a w id (u & <- & Hu)%lookup_fmap_Some. by intros ?%elem_of_nil.
  - intros id n a Hid Hwatch. destruct (Ht _ _ _ Hid Hwatch) as (w & Hl & _).
    exists dead_watch. split; [|done]. by rewrite lookup_fmap, Hl.
  - intros a w (u & <- & Hu)%lookup_fmap_Some. destruct (Ha _ _ Hu). split; [done|]. by intros c ?%elem_of_nil.
Qed.
End invariant.

(** ** The operations *)

Section operations.
Context {U K C : Type} {IN : Inotify K}.
Implicit Types (m : CkFileMonitor U) (h : host U K C) (a : positive).

(** The monitor becomes [m]; the clients are not involved. *)
Definition becomes h m (h' : host U K C) : Prop := fm h' = m ∧ client h' = client h.

Lemma wp_get_fm {A} (f : CkFileMonitor U → A) (Q : A → host U K C → Prop) h :
  Q (f (fm h)) h → wp (get_fm f) Q h.
Proof. done. Qed.
Lemma wp_modify_fm f (Q : unit → host U K C → Prop) h :
  Q tt {| fm := f (fm h); kern := kern h; client := client h |} → wp (modify_fm f) Q h.
Proof. done. Qed.
Lemma wp_syscall {A} (f : K → A * K) (Q : A → host U K C → Prop) h :
  Q (f (kern h)).1 {| fm := fm h; kern := (f (kern h)).2; client := client h |} → wp (syscall f) Q h.
Proof. unfold wp, syscall. by destruct (f (kern h)). Qed.
Lemma wp_the_watch a w (Q : FileInotifyWatch → host U K C → Prop) h :
  watches (fm h) !! a = Some w → Q w h → wp (the_watch a) Q h.
Proof. unfold wp, the_watch. by intros ->. Qed.
Lemma wp_put_watch a w w' (Q : unit → host U K C → Prop) h :
  watches (fm h) !! a = Some w →
  Q tt {| fm := set_watches (<[a := w']> (watches (fm h))) (fm h); kern := kern h; client := client h |} →
  wp (put_watch a w') Q h.
Proof. intros Ha HQ. apply wp_bind. by eapply wp_the_watch. Qed.
Lemma wp_free_watch a w (Q : unit → host U K C → Prop) h :
  watches (fm h) !! a = Some w →
  Q tt {| fm := set_watches (delete a (watches (fm h))) (fm h); kern := kern h; client := client h |} →
  wp (free_watch a) Q h.
Proof. intros Ha HQ. apply wp_bind. by eapply wp_the_watch. Qed.

(** The address of the watch that a path gets, and the monitor then. *)
Lemma add_watch_for_path path mask h :
  fm_inv (fm h) →
  wp (file_monitor_add_watch_for_path path mask)
    (λ r h', client h' = client h ∧
      match r with
      | None => fm h' = fm h
      | Some a => fm_inv (fm h') ∧ serial (fm h') = serial (fm h) ∧ notifies (fm h') = notifies (fm h) ∧
          notify_events (fm h') = notify_events (fm h) ∧
          initialized_inotify (fm h') = initialized_inotify (fm h) ∧ (∃ w, watches (fm h') !! a = Some w) ∧
          (∀ b u, watches (fm h) !! b = Some u → watches (fm h') !! b = Some u)
      end) h.
Proof.
  intros Hm. apply wp_bind, wp_syscall. simpl. set (r := inotify_add_watch _ _ _).
  case_match eqn:Hwd; [by apply wp_ret|]. apply Z.ltb_ge in Hwd.
  apply wp_bind, wp_get_fm. simpl. destruct (path_to_watch (fm h) !! path) as [a|] eqn:Hpath.
  - apply wp_ret. simpl. destruct (inv_path _ Hm _ _ Hpath) as (w & ? & _). split_and!; eauto.
  - apply wp_bind. unfold alloc. apply wp_bind, wp_get_fm, wp_bind, wp_modify_fm, wp_ret.
    apply wp_bind, wp_modify_fm, wp_ret. simpl. split; [done|].
    split; [by apply (fm_inv_with_watch (fm h) r.1 path)|]. split_and!; [done..| |].
    + eexists. by rewrite lookup_insert_eq.
    + intros b u Hb. rewrite lookup_insert_ne; [done|]. intros <-. by rewrite fresh_watch in Hb.
Qed.

(** The notifications of a watch that is there keep their cells. *)
Definition keeps_cells m m' : Prop :=
  ∀ a w, watches m !! a = Some w → ∃ w' pre, watches m' !! a = Some w' ∧
    w_wd w' = w_wd w ∧ w_path w' = w_path w ∧ w_notifies w' = pre ++ w_notifies w.

Lemma keeps_cells_refl m : keeps_cells m m.
Proof. intros a w Ha. by exists w, []. Qed.

Lemma add_notify_inv path mask f h :
  fm_inv (fm h) → (serial (fm h) + 1 < 2 ^ 32)%Z →
  wp (ck_file_monitor_add_notify path mask f)
    (λ id h', fm_inv (fm h') ∧ client h' = client h ∧ keeps_cells (fm h) (fm h') ∧
      notify_events (fm h') = notify_events (fm h) ∧
      initialized_inotify (fm h') = initialized_inotify (fm h) ∧
      (initialized_inotify (fm h) = false → fm h' = fm h) ∧
      (id = 0%Z ∧ notifies (fm h') = notifies (fm h) ∨
       id = serial (fm h) ∧ ∃ a, notifies (fm h') =
         <[id := {| n_id := id; n_mask := mask; n_func := f; n_watch := Some a |}]> (notifies (fm h)))) h.
Proof.
  intros Hm Hser. apply wp_bind, wp_get_fm. destruct (initialized_inotify (fm h)) eqn:Hinit; simpl.
  2: { apply wp_ret. split_and!; auto using keeps_cells_refl. }
  apply wp_bind. unfold file_monitor_add_notify_for_path. apply wp_bind.
  eapply wp_mono; [by apply add_watch_for_path|]. intros [a|] h' [Hcl H'].
  2: { apply wp_ret, wp_ret. rewrite H'. split_and!; auto using keeps_cells_refl. }
  destruct H' as (Hm' & Hs & Hn & Hq & Hi & (w & Hw) & Hkeep).
  apply wp_bind, wp_get_fm, wp_bind, wp_modify_fm, wp_bind, (wp_the_watch _ w); [done|].
  apply wp_bind. unfold alloc. apply wp_bind, wp_get_fm, wp_bind, wp_modify_fm, wp_ret.
  apply wp_bind, (wp_put_watch _ w); [done|]. apply wp_ret, wp_ret. simpl.
  split; [apply (fm_inv_with_cell (fm h') a w
      {| n_id := serial (fm h'); n_mask := mask; n_func := f; n_watch := Some a |}); simpl; try done; lia|].
  split_and!; [done| |done|by rewrite Hi|done|].
  - intros b u Hb%Hkeep. simpl. destruct (decide (b = a)) as [->|].
    + simplify_eq. eexists _, [_]. by rewrite lookup_insert_eq.
    + exists u, []. by rewrite lookup_insert_ne.
  - right. split; [done|]. exists a. by rewrite Hn.
Qed.

(** A watch that is removed and freed. *)
Lemma remove_and_free a w path (Q : unit → host U K C → Prop) h :
  watches (fm h) !! a = Some w → w_path w = Some path → w_wd w ≠ (-1)%Z →
  (∀ k, Q tt {| fm := set_tables (delete (w_wd w) (wd_to_watch (fm h))) (delete path (path_to_watch (fm h)))
                      (delete a (watches (fm h))) (fm h); kern := k; client := client h |}) →
  wp (file_monitor_remove_watch a;; free_watch a) Q h.
Proof.
  intros Ha Hpath Hlive HQ. apply wp_bind, wp_bind, (wp_the_watch _ w); [done|].
  destruct (Z.eqb_spec (w_wd w) (-1)) as [|_]; [done|]. rewrite Hpath. apply wp_bind, wp_modify_fm.
  apply wp_bind, (wp_the_watch _ w); [done|]. apply wp_bind, wp_syscall, (wp_put_watch _ w); [done|].
  eapply wp_free_watch; [apply lookup_insert_eq|]. simpl. unfold set_watches, set_tables. simpl.
  rewrite delete_insert_eq. apply HQ.
Qed.

(** The loop of [emit_events_in_idle] that stands at the cell [c] can go on, and
    meets no notification it would not have met. *)
Definition spares a (c : positive) m m' : Prop :=
  ∀ w l, watches m !! a = Some w → cells_after c (w_notifies w) = Some l →
  ∃ w' l', watches m' !! a = Some w' ∧ cells_after c (w_notifies w') = Some l' ∧ l' `sublist_of` l.

Lemma spares_refl a c m : spares a c m m.
Proof. intros w l ??. by exists w, l. Qed.
Lemma spares_trans a c m1 m2 m3 : spares a c m1 m2 → spares a c m2 m3 → spares a c m1 m3.
Proof.
  intros H12 H23 w l Hw Hl. destruct (H12 _ _ Hw Hl) as (w2 & l2 & Hw2 & Hl2 & ?).
  destruct (H23 _ _ Hw2 Hl2) as (w3 & l3 & ? & ? & ?). exists w3, l3. split_and!; [done..|by etrans].
Qed.

Lemma cells_after_app c pre l : c ∉ pre.*1 → cells_after c (pre ++ l) = cells_after c l.
Proof.
  induction pre as [|[c' i] pre IH]; [done|]. simpl. rewrite not_elem_of_cons. intros [Hne Hpre].
  rewrite decide_False by done. auto.
Qed.
Lemma cells_after_elem c l r : cells_after c l = Some r → c ∈ l.*1.
Proof.
  induction l as [|[c' i] l IH]; simpl; [done|]. case_decide as Hc; [intros _; rewrite Hc; left|]. intros ?. right. auto.
Qed.
Lemma cells_after_removed c i id l r :
  NoDup l.*1 → (c, i) ∈ l → i ≠ id → cells_after c l = Some r →
  ∃ r', cells_after c (g_slist_remove id l) = Some r' ∧ r' `sublist_of` r.
Proof.
  induction l as [|[c' i'] l IH]; simpl; [by intros _ ?%elem_of_nil|].
  intros [Hc' Hnd]%NoDup_cons Hin Hne Hr. case_decide as Hcc.
  - subst c'. simplify_eq. apply elem_of_cons in Hin as [[= ->]|Hin].
    + destruct (Z.eqb_spec i' id); [done|]. simpl. rewrite decide_True by done. eexists. split; [done|]. apply g_slist_remove_sublist.
    + destruct Hc'. by apply (list_elem_of_fmap_2 fst) in Hin.
  - apply elem_of_cons in Hin as [|Hin]; [by simplify_eq|].
    destruct (Z.eqb_spec i' id) as [->|]; [by eauto|]. simpl. rewrite decide_False by done. auto.
Qed.
Lemma g_slist_remove_notin id l : id ∉ l.*2 → g_slist_remove id l = l.
Proof.
  induction l as [|[c i] l IH]; simpl; [done|]. rewrite not_elem_of_cons. intros [? ?].
  destruct (Z.eqb_spec i id); [by subst|]. by rewrite IH.
Qed.

Lemma keeps_cells_spares a c m m' : fm_inv m' → keeps_cells m m' → spares a c m m'.
Proof.
  intros Hm' Hkeep w l Hw Hl. destruct (Hkeep _ _ Hw) as (w' & pre & Hw' & _ & _ & Hcells).
  exists w', l. split_and!; [done| |done]. rewrite Hcells, cells_after_app; [done|].
  destruct (inv_nodup _ Hm' _ _ Hw') as [Hnd _]. rewrite Hcells, fmap_app in Hnd.
  apply NoDup_app in Hnd as (_ & Hnd & _). intros Hpre. destruct (Hnd _ Hpre). by eapply cells_after_elem.
Qed.

(** The cell that a loop stands at belongs to the notification [id]. *)
Definition cell_at m a (c : positive) (id : Z) : Prop :=
  ∃ w, watches m !! a = Some w ∧ (c, id) ∈ w_notifies w.

Lemma cell_notify m a c id :
  fm_inv m → cell_at m a c id → ∃ n, notifies m !! id = Some n ∧ n_watch n = Some a.
Proof. intros Hm (w & Hw & Hin). apply (list_elem_of_fmap_2 snd) in Hin. by eapply inv_cell. Qed.

Definition no_cell m a (c : positive) : Prop :=
  ∀ w, watches m !! a = Some w → cells_after c (w_notifies w) = None.

Lemma cells_after_gone c id l :
  NoDup l.*1 → NoDup l.*2 → (c, id) ∈ l → cells_after c (g_slist_remove id l) = None.
Proof.
  induction l as [|[c' i'] l IH]; simpl; [done|]. intros [Hc' Hnd1]%NoDup_cons [Hi' Hnd2]%NoDup_cons Hin.
  destruct (Z.eqb_spec i' id) as [->|Hne].
  - apply elem_of_cons in Hin as [[= <-]|Hin].
    + destruct (cells_after c l) eqn:E; [|done]. by apply cells_after_elem in E.
    + destruct Hi'. by apply (list_elem_of_fmap_2 snd) in Hin.
  - apply elem_of_cons in Hin as [|Hin]; [by simplify_eq|]. simpl. rewrite decide_False; [auto|].
    intros ->. destruct Hc'. by apply (list_elem_of_fmap_2 fst) in Hin.
Qed.

Lemma remove_notify_inv id h :
  fm_inv (fm h) →
  wp (ck_file_monitor_remove_notify id)
    (λ _ h', fm_inv (fm h') ∧ client h' = client h ∧ serial (fm h') = serial (fm h) ∧
      notify_events (fm h') = notify_events (fm h) ∧
      initialized_inotify (fm h') = initialized_inotify (fm h) ∧
      (initialized_inotify (fm h) = true → notifies (fm h') = delete id (notifies (fm h))) ∧
      (∀ a c i, cell_at (fm h) a c i → i ≠ id → spares a c (fm h) (fm h')) ∧
      (initialized_inotify (fm h) = true → ∀ a c, cell_at (fm h) a c id → no_cell (fm h') a c) ∧
      (∀ d, wd_to_watch (fm h) !! d = None → wd_to_watch (fm h') !! d = None)) h.
Proof.
  intros Hm. apply wp_bind, wp_get_fm.
  destruct (initialized_inotify (fm h)) eqn:Hinit; simpl.
  2: { apply wp_ret. split_and!; try done; auto using spares_refl. }
  apply wp_bind, wp_get_fm. destruct (notifies (fm h) !! id) as [n|] eqn:Hid.
  2: { apply wp_ret. rewrite delete_id by done. split_and!; try done; auto using spares_refl.
       intros _ a c Hc. destruct (cell_notify _ _ _ _ Hm Hc) as (? & ? & _). by simplify_eq. }
  apply wp_bind, wp_modify_fm. destruct (n_watch n) as [a|] eqn:Hwatch.
  2: { apply wp_ret. simpl. split_and!; try done; [by eapply fm_inv_without_unwatched| |].
       - intros a c i _ _ w l Hw Hl. by exists w, l.
       - intros _ a c Hc. destruct (cell_notify _ _ _ _ Hm Hc) as (? & ? & ?). by simplify_eq. }
  destruct (inv_target _ Hm _ _ _ Hid Hwatch) as (w & Hw & Hin).
  specialize (Hin (inv_open _ Hm Hinit _ _ Hw)).
  pose proof (fm_inv_without_cell _ _ _ _ _ Hm Hid Hwatch Hw) as Hm'.
  apply wp_bind, (wp_the_watch _ w), wp_bind, (wp_put_watch _ w); [done..|].
  set (w' := {| w_wd := w_wd w; w_path := w_path w; w_notifies := g_slist_remove id (w_notifies w) |}).
  assert (∀ b c i, cell_at (fm h) b c i → i ≠ id → spares b c (fm h) (without_cell id a w (fm h))) as Hspare.
  { intros b c i (u & Hu & Hci) Hne u' l Hu' Hl. simplify_eq. simpl. destruct (decide (b = a)) as [->|Hba].
    - simplify_eq. destruct (cells_after_removed _ _ id _ _ (proj1 (inv_nodup _ Hm _ _ Hw)) Hci Hne Hl) as (l' & ? & ?).
      exists w', l'. by rewrite lookup_insert_eq.
    - exists u, l. by rewrite lookup_insert_ne. }
  destruct (length (g_slist_remove id (w_notifies w)) =? 0) eqn:Hlast.
  2: { apply wp_ret. simpl. split_and!; try done. intros _ b c Hc u' Hu'. simpl in Hu'.
       destruct (cell_notify _ _ _ _ Hm Hc) as (? & ? & ?). destruct Hc as (u & Hu & Hci). simplify_eq.
       rewrite lookup_insert_eq in Hu'. simplify_eq. destruct (inv_nodup _ Hm _ _ Hw). by apply cells_after_gone. }
  apply Nat.eqb_eq, length_zero_iff_nil in Hlast.
  pose proof (inv_open _ Hm Hinit _ _ Hw) as Hlive. destruct (inv_watch _ Hm _ _ Hw Hlive) as (path & Hpath & _).
  eapply (remove_and_free a w' path); [apply lookup_insert_eq|done..|]. intros k. simpl.
  split_and!; try done.
  - eapply fm_inv_ext; [apply (fm_inv_without_watch _ a w' path Hm'); [apply lookup_insert_eq|done..]|simpl..]; try done.
    apply map_eq. intros i. rewrite map_lookup_imap.
    destruct (delete id (notifies (fm h)) !! i) as [n'|]; simpl; [|done]. by rewrite Hlast.
  - intros b c i (u & Hu & Hci) Hne. apply (spares_trans _ _ _ _ _ (Hspare b c i (ex_intro _ u (conj Hu Hci)) Hne)).
    intros u' l Hu' Hl. simpl in *. destruct (decide (b = a)) as [->|Hba].
    + simplify_eq. rewrite lookup_insert_eq in Hu'. simplify_eq. simpl in Hl. by rewrite Hlast in Hl.
    + exists u', l. by rewrite lookup_delete_ne, lookup_insert_ne in * by done.
  - intros _ b c Hc u' Hu'. simpl in Hu'. destruct (cell_notify _ _ _ _ Hm Hc) as (? & ? & ?). simplify_eq.
    by rewrite lookup_delete_eq in Hu'.
  - intros d Hd. apply lookup_delete_None. by right.
Qed.

(** *** Removals that the kernel announced *)

Lemma mark_cons i l id (n : FileMonitorNotify U) :
  mark l id (if decide (id = i) then unwatched n else n) = mark (i :: l) id n.
Proof.
  unfold mark. destruct (decide (id = i)) as [->|Hne].
  - rewrite (decide_True (P := i ∈ i :: l)) by left. by case_decide.
  - assert (id ∈ i :: l ↔ id ∈ l) as Hiff by (rewrite elem_of_cons; naive_solver).
    destruct (decide (id ∈ l)) as [Hin|Hin], (decide (id ∈ i :: l)) as [Hin'|Hin']; naive_solver.
Qed.

Lemma wp_mark_all l h (Q : unit → host U K C → Prop) :
  (∀ t, (∀ id, t !! id = (λ n, mark l.*2 id n) <$> notifies (fm h) !! id) →
    Q tt {| fm := set_notifies (serial (fm h)) t (fm h); kern := kern h; client := client h |}) →
  wp (for_each (λ cell : positive * Z, mark_unwatched cell.2) l) Q h.
Proof.
  revert h. induction l as [|[c i] l IH]; intros h HQ; simpl.
  - apply wp_ret. assert (h = {| fm := set_notifies (serial (fm h)) (notifies (fm h)) (fm h); kern := kern h; client := client h |}) as ->.
    { by destruct h as [[] ? ?]. }
    apply HQ. intros id. by destruct (notifies (fm h) !! id).
  - apply wp_bind, wp_modify_fm, IH. simpl. intros t Ht.
    assert (∀ id, t !! id = (λ n, mark (i :: l.*2) id n) <$> notifies (fm h) !! id) as Ht'.
    { intros id. rewrite Ht. destruct (notifies (fm h) !! i) as [n|] eqn:Ei; simpl.
      - destruct (decide (id = i)) as [->|Hne]; simplify_map_eq.
        + rewrite <- mark_cons. by rewrite decide_True.
        + destruct (notifies (fm h) !! id); simpl; [|done]. rewrite <- mark_cons. by rewrite decide_False.
      - destruct (notifies (fm h) !! id) eqn:Eid; simpl; [|done]. rewrite <- mark_cons.
        rewrite decide_False; [done|]. by intros ->; rewrite Eid in Ei. }
    specialize (HQ t Ht'). by destruct (notifies (fm h) !! i).
Qed.

(** Watches may go, the clients' requests stay. *)
Definition same_requests m m' : Prop :=
  serial m' = serial m ∧ initialized_inotify m' = initialized_inotify m ∧
  (∀ id n', notifies m' !! id = Some n' →
     ∃ n, notifies m !! id = Some n ∧ n_func n' = n_func n ∧ n_mask n' = n_mask n) ∧
  (∀ d, wd_to_watch m !! d = None → wd_to_watch m' !! d = None).

Lemma same_requests_trans m1 m2 m3 : same_requests m1 m2 → same_requests m2 m3 → same_requests m1 m3.
Proof.
  intros (Hs1 & Hi1 & Hn1 & Hw1) (Hs2 & Hi2 & Hn2 & Hw2). split_and!; [congruence|congruence| |auto].
  intros id n3 (n2 & H2 & -> & ->)%Hn2. by apply Hn1.
Qed.

Lemma remove_watch_of_wd_inv wd h :
  fm_inv (fm h) →
  wp (remove_watch_of_wd wd)
    (λ _ h', fm_inv (fm h') ∧ client h' = client h ∧ remove_events (fm h') = remove_events (fm h) ∧
      same_requests (fm h) (fm h') ∧ wd_to_watch (fm h') !! wd = None) h.
Proof.
  intros Hm. apply wp_bind, wp_get_fm. destruct (wd_to_watch (fm h) !! wd) as [a|] eqn:Hwd.
  2: { apply wp_ret. split_and!; try done. split_and!; eauto. }
  destruct (inv_wd _ Hm _ _ Hwd) as (w & Hw & <- & Hlive). destruct (inv_watch _ Hm _ _ Hw Hlive) as (path & Hpath & _).
  apply wp_bind, (wp_the_watch _ w); [done|]. destruct (Z.eqb_spec (w_wd w) (-1)) as [|_]; [done|].
  apply wp_bind, wp_mark_all. intros t Ht. eapply (remove_and_free a w path); [done..|]. intros k. simpl.
  split; [|split_and!; [done|done| |apply lookup_delete_eq]].
  - eapply fm_inv_ext; [apply (fm_inv_without_watch _ a w path Hm); done|simpl; try done..].
    apply map_eq. intros i. rewrite Ht, map_lookup_imap. by destruct (notifies (fm h) !! i).
  - split_and!; [done|done| |by intros d Hd; apply lookup_delete_None; right]. simpl. intros id n'. rewrite Ht.
    intros (n & Hn & ->)%fmap_Some. exists n. split; [done|]. by destruct (mark_fields (w_notifies w).*2 id n) as (_ & -> & ->).
Qed.

(** The watches that the kernel no longer has are forgotten, all of them. *)
Lemma emit_removals_inv h :
  fm_inv (fm h) →
  wp emit_removals_in_idle (λ r h', r = false ∧ fm_inv (fm h') ∧ client h' = client h ∧ remove_events (fm h') = [] ∧
    same_requests (fm h) (fm h')) h.
Proof.
  intros Hm. apply wp_bind, wp_modify_fm, wp_bind, wp_get_fm, wp_bind. simpl.
  eapply wp_mono; [apply (wp_for_each _ (λ todo h', fm_inv (fm h') ∧ client h' = client h ∧ remove_events (fm h') = todo ∧
    same_requests (fm h) (fm h')))|].
  - intros wd todo h1 _ (Hm1 & Hc1 & Hq1 & Hr1). apply wp_bind, wp_modify_fm.
    eapply wp_mono; [apply remove_watch_of_wd_inv|].
    + simpl. by eapply fm_inv_ext; [apply Hm1|..].
    + intros [] h2 (? & Hc2 & Hq2 & Hr2 & _). simpl in *. rewrite Hq2, Hc2, Hq1. split_and!; try done.
      by eapply same_requests_trans.
  - simpl. split_and!; [|done..|split_and!; eauto]. by eapply fm_inv_ext; [apply Hm|..].
  - intros [] h' (? & ? & ? & ?). by apply wp_ret.
Qed.

(** *** Closing after a read error *)

Lemma close_inotify_inv `{HashOrder} h :
  fm_inv (fm h) →
  wp close_inotify (λ _ h', fm_inv (fm h') ∧ client h' = client h ∧ initialized_inotify (fm h') = false ∧
    notifies (fm h') = notifies (fm h) ∧ notify_events (fm h') = notify_events (fm h) ∧
    (initialized_inotify (fm h) = true → wd_to_watch (fm h') = ∅ ∧ path_to_watch (fm h') = ∅)) h.
Proof.
  intros Hm. apply wp_bind, wp_get_fm. destruct (initialized_inotify (fm h)) eqn:Hinit; simpl; [|by apply wp_ret].
  apply wp_bind, wp_modify_fm, wp_bind, wp_get_fm, wp_bind. simpl.
  set (m0 := set_inotify false (io_watch (fm h)) (buflen (fm h)) (fm h)).
  set (order := hash_order _ _).
  eapply wp_mono; [apply (wp_for_each _ (λ todo h', client h' = client h ∧ ∃ ws, fm h' = set_watches ws m0 ∧
    ∀ a, match watches (fm h) !! a, ws !! a with
         | Some w, Some w' => w' = dead_watch ∨ w' = w ∧ a ∈ todo.*2
         | None, None => True | _, _ => False end))|].
  - intros [p a] todo h1 Hsuf (Hc1 & ws & Hm1 & Hws). simpl.
    assert (∃ w, ws !! a = Some w) as (w & Hw).
    { assert ((p, a) ∈ order) as Hin by (destruct Hsuf as [pre ->]; apply elem_of_app; right; left).
      apply elem_of_hash_order in Hin. simpl in Hin. destruct (inv_path _ Hm _ _ Hin) as (w & Hw & _).
      specialize (Hws a). rewrite Hw in Hws. destruct (ws !! a); [eauto|done]. }
    apply wp_bind, (wp_the_watch _ w); [by rewrite Hm1|]. apply wp_bind, wp_syscall.
    apply (wp_put_watch _ w); [by simpl; rewrite Hm1|]. simpl. split; [done|].
    exists (<[a := dead_watch]> ws). rewrite Hm1. split; [done|]. intros b. specialize (Hws b).
    destruct (decide (b = a)) as [->|Hne].
    + rewrite lookup_insert_eq, Hw in *. destruct (watches (fm h) !! a); auto.
    + rewrite lookup_insert_ne by done. destruct (watches (fm h) !! b), (ws !! b); try done.
      destruct Hws as [|[? Hin]]; [by left|]. right. split; [done|]. simpl in Hin.
      by apply elem_of_cons in Hin as [|].
  - simpl. split; [done|]. exists (watches (fm h)). split; [done|]. intros a.
    destruct (watches (fm h) !! a) as [w|] eqn:Hw; [|done]. right. split; [done|].
    destruct (inv_watch _ Hm _ _ Hw (inv_open _ Hm Hinit _ _ Hw)) as (p & _ & Hp).
    apply (list_elem_of_fmap_2 snd _ (p, a)). by apply elem_of_hash_order.
  - intros [] h1 (Hc1 & ws & Hm1 & Hws). apply wp_bind, wp_modify_fm, wp_syscall. simpl. rewrite Hm1.
    assert (ws = (λ _, dead_watch) <$> watches (fm h)) as ->.
    { apply map_eq. intros a. specialize (Hws a). rewrite lookup_fmap.
      destruct (watches (fm h) !! a), (ws !! a); try done. simpl. by destruct Hws as [->|[_ ?%elem_of_nil]]. }
    split_and!; try done. by eapply fm_inv_ext; [apply (fm_inv_closed _ Hm)|..].
Qed.

(** *** Reading the kernel's events *)

(** The bytes that the kernel writes. *)
Definition encode32 (x : Z) : list Z :=
  [x `mod` 256; (x `div` 2 ^ 8) `mod` 256; (x `div` 2 ^ 16) `mod` 256; (x `div` 2 ^ 24) `mod` 256]%Z.
Fixpoint encode_name (s : string) : list Z :=
  match s with EmptyString => [] | String c s => Z.of_N (N_of_ascii c) :: encode_name s end.
Definition encode_event (ev : inotify_event) : list Z :=
  encode32 (u32 (i_wd ev)) ++ encode32 (i_mask ev) ++ encode32 (i_cookie ev) ++ encode32 (i_len ev) ++
  encode_name (i_name ev) ++ replicate (Z.to_nat (i_len ev) - String.length (i_name ev)) 0%Z.

Fixpoint encode_events (evs : list inotify_event) : list Z :=
  match evs with [] => [] | ev :: evs => encode_event ev ++ encode_events evs end.

(** An event as inotify(7) has it: the name has a NUL and padding behind it. *)
Definition event_ok (ev : inotify_event) : Prop :=
  (- 2 ^ 31 ≤ i_wd ev < 2 ^ 31)%Z ∧ (0 ≤ i_mask ev < 2 ^ 32)%Z ∧ (0 ≤ i_cookie ev < 2 ^ 32)%Z ∧
  (0 ≤ i_len ev < 2 ^ 32)%Z ∧ sall (λ c, negb (ascii_eqb c "000"%char)) (i_name ev) ∧
  (i_len ev = 0%Z ∧ i_name ev = "" ∨ (Z.of_nat (String.length (i_name ev)) < i_len ev)%Z).

Lemma encode_decode32 x : (0 ≤ x < 2 ^ 32)%Z → foldr (λ b acc, b + 256 * acc)%Z 0%Z (encode32 x) = x.
Proof. intros ?. simpl. Z.to_euclidean_division_equations; lia. Qed.
Lemma le32_encode x rest : (0 ≤ x < 2 ^ 32)%Z → le32 (encode32 x ++ rest) = x.
Proof. intros ?. unfold le32. rewrite take_app_length' by done. by apply encode_decode32. Qed.
Lemma i32_u32 z : (- 2 ^ 31 ≤ z < 2 ^ 31)%Z → i32 (u32 z) = z.
Proof. intros. unfold i32, u32. Z.to_euclidean_division_equations; lia. Qed.

Lemma length_encode_name s : length (encode_name s) = String.length s.
Proof. induction s; simpl; auto. Qed.
Lemma name_of_encoded s n :
  sall (λ c, negb (ascii_eqb c "000"%char)) s →
  name_of_bytes (encode_name s ++ replicate n 0%Z) = s.
Proof.
  intros Hs. induction s as [|c s IH]; simpl; [by destruct n|].
  simpl in Hs. apply andb_True in Hs as [Hc Hs]. destruct (Z.eqb_spec (Z.of_N (N_of_ascii c)) 0) as [E|_].
  - exfalso. assert (c = "000"%char) as ->; [|done].
    rewrite <- (Ascii.ascii_N_embedding c). by replace (N_of_ascii c) with 0%N by lia.
  - rewrite N2Z.id, IH by done. f_equal. apply Ascii.ascii_N_embedding.
Qed.

Lemma event_at_encoded ev rest : event_ok ev → event_at (encode_event ev ++ rest) = Some (ev, rest).
Proof.
  intros (Hwd & Hm & Hck & Hlen & Hname & Hfit). unfold event_at, encode_event.
  set (nm := encode_name _ ++ _). rewrite <- !app_assoc.
  assert (Z.to_nat (i_len ev) = length nm) as Hbytes.
  { unfold nm. rewrite length_app, length_replicate, length_encode_name. destruct Hfit as [[-> ->]|]; simpl; lia. }
  change (drop 12 _) with (encode32 (i_len ev) ++ nm ++ rest).
  change (drop 8 _) with (encode32 (i_cookie ev) ++ encode32 (i_len ev) ++ nm ++ rest).
  change (drop 4 _) with (encode32 (i_mask ev) ++ encode32 (i_cookie ev) ++ encode32 (i_len ev) ++ nm ++ rest).
  rewrite !le32_encode by (done || apply u32_range). rewrite i32_u32 by done.
  rewrite decide_True by (rewrite !length_app; simpl; lia).
  rewrite Hbytes. change (drop (16 + ?n) _) with (drop n (nm ++ rest)). change (drop 16 _) with (nm ++ rest).
  rewrite drop_app_length, take_app_length. unfold nm. rewrite name_of_encoded by done. by destruct ev.
Qed.

(** What the monitor queues for an event of the kernel. *)
Definition known m (ev : inotify_event) : bool := bool_decide (is_Some (wd_to_watch m !! i_wd ev)).
Definition event_info (ev : inotify_event) : FileMonitorEventInfo :=
  {| e_wd := i_wd ev; e_event := event_of_mask (i_mask ev);
     e_path := if (0 <? i_len ev)%Z then Some (i_name ev) else None |}.
Definition infos m (evs : list inotify_event) : list FileMonitorEventInfo :=
  event_info <$> filter (λ ev, known m ev ∧ event_of_mask (i_mask ev) ≠ CK_FILE_MONITOR_EVENT_NONE) evs.
Definition ignored m (evs : list inotify_event) : list Z :=
  i_wd <$> filter (λ ev, known m ev ∧ has_bits (i_mask ev) IN_IGNORED) evs.
Definition nonempty {A} (l : list A) : bool := match l with [] => false | _ => true end.
Definition queued m (evs : list inotify_event) : CkFileMonitor U :=
  set_removals (remove_idle_id m || nonempty (ignored m evs)) (remove_events m ++ ignored m evs)
    (set_events (events_idle_id m || nonempty (infos m evs)) (notify_events m ++ infos m evs) m).

Lemma queued_nil m : queued m [] = m.
Proof. destruct m. unfold queued. simpl. by rewrite !app_nil_r, !orb_false_r. Qed.

Lemma infos_one m ev :
  infos m [ev] = if known m ev && negb (event_of_mask (i_mask ev) =? CK_FILE_MONITOR_EVENT_NONE)%Z then [event_info ev] else [].
Proof.
  unfold infos. rewrite filter_cons, filter_nil. destruct (known m ev), (Z.eqb_spec (event_of_mask (i_mask ev)) CK_FILE_MONITOR_EVENT_NONE);
    case_decide as Hd; simpl in *; done || naive_solver.
Qed.
Lemma ignored_one m ev : ignored m [ev] = if known m ev && has_bits (i_mask ev) IN_IGNORED then [i_wd ev] else [].
Proof.
  unfold ignored. rewrite filter_cons, filter_nil. destruct (known m ev), (has_bits (i_mask ev) IN_IGNORED);
    case_decide as Hd; simpl in *; done || naive_solver.
Qed.

Lemma handle_known ev h :
  known (fm h) ev = true →
  handle_inotify_event ev h = Some (tt, {| fm := queued (fm h) [ev]; kern := kern h; client := client h |}).
Proof.
  intros Hk. unfold handle_inotify_event, queued. rewrite infos_one, ignored_one, Hk. simpl.
  destruct h as [m k c]; destruct m; simpl in *.
  destruct (event_of_mask (i_mask ev) =? CK_FILE_MONITOR_EVENT_NONE)%Z, (has_bits (i_mask ev) IN_IGNORED); simpl;
    by rewrite ?app_nil_r, ?orb_false_r, ?orb_true_r.
Qed.

Lemma queued_app m evs1 evs2 : queued (queued m evs1) evs2 = queued m (evs1 ++ evs2).
Proof.
  assert (∀ l, infos (queued m evs1) l = infos m l) as Hi by done.
  assert (∀ l, ignored (queued m evs1) l = ignored m l) as Hg by done.
  unfold queued at 1. rewrite Hi, Hg. unfold queued, infos, ignored. simpl.
  rewrite !filter_app, !fmap_app, <- !app_assoc, <- !orb_assoc. unfold set_removals, set_events. simpl.
  f_equal; [f_equal|f_equal].
  all: by destruct (filter _ evs1), (filter _ evs2).
Qed.

Lemma scan_buffer_events evs fuel h :
  Forall event_ok evs → length (encode_events evs) ≤ fuel →
  scan_buffer fuel (encode_events evs) h =
    Some (tt, {| fm := queued (fm h) evs; kern := kern h; client := client h |}).
Proof.
  intros Hok. revert fuel h. induction Hok as [|ev evs Hev _ IH]; intros fuel h Hfuel.
  - rewrite queued_nil. by destruct h, fuel.
  - change (encode_events (ev :: evs)) with (encode_event ev ++ encode_events evs) in *. rewrite length_app in Hfuel.
    assert (16 ≤ length (encode_event ev)) as H16.
    { unfold encode_event. rewrite !length_app. simpl. lia. }
    destruct fuel as [|fuel]; [lia|].
    assert (scan_buffer (S fuel) (encode_event ev ++ encode_events evs) =
      match event_at (encode_event ev ++ encode_events evs) with
      | None => prog_abort
      | Some (ev, rest) =>
          known ← get_fm (λ m, wd_to_watch m !! i_wd ev);
          (match known with None => mret tt | Some _ => handle_inotify_event ev end);;
          scan_buffer fuel rest
      end :> prog (host U K C) unit) as -> by (by destruct (encode_event ev); [simpl in H16; lia|]).
    rewrite event_at_encoded by done.
    assert ((match wd_to_watch (fm h) !! i_wd ev with None => mret tt | Some _ => handle_inotify_event ev end) h =
      Some (tt, {| fm := queued (fm h) [ev]; kern := kern h; client := client h |})) as Hhandle.
    { destruct (wd_to_watch (fm h) !! i_wd ev) eqn:Hwd.
      - apply handle_known. unfold known. rewrite Hwd. by apply bool_decide_eq_true.
      - assert (known (fm h) ev = false) as Hk by (unfold known; rewrite Hwd; by apply bool_decide_eq_false; intros []).
        unfold queued. rewrite infos_one, ignored_one, Hk. destruct h as [[] ? ?]. simpl.
        by rewrite !app_nil_r, !orb_false_r. }
    unfold_prog. simpl. rewrite Hhandle. rewrite IH by lia. simpl.
    by rewrite (queued_app _ [ev]).
Qed.
End operations.
