(* ===== verification/FileMonitorPolicy.v ===== *)
(** * The file monitor: what its clients can rely on.

    The buffer stays within its bounds, callbacks that keep to [considerate] are
    safe, an event that the kernel reports is told exactly to those who asked
    for it. *)

From stdpp Require Import fin_maps.
From S2P Require Import Prelude FileMonitor FileMonitorFacts.

(** ** The buffer *)

Definition buffer_len (len : Z) : Prop := ∃ k, (0 ≤ k ≤ 5)%Z ∧ len = (DEFAULT_NOTIFY_BUFLEN * 2 ^ k)%Z.
Definition answered (r : read_result) : bool := match r with R_interrupted => false | _ => true end.

Lemma double_buffer k :
  (0 ≤ k ≤ 5)%Z → u32 (Z.shiftl (DEFAULT_NOTIFY_BUFLEN * 2 ^ k) 1) = (DEFAULT_NOTIFY_BUFLEN * 2 ^ (k + 1))%Z.
Proof. intros ?. assert (k = 0 ∨ k = 1 ∨ k = 2 ∨ k = 3 ∨ k = 4 ∨ k = 5)%Z as Hk by lia. by naive_solver. Qed.

Lemma fill_buffer_from reads k :
  (0 ≤ k ≤ 5)%Z →
  match fill_buffer reads (DEFAULT_NOTIFY_BUFLEN * 2 ^ k) with
  | None => (Z.of_nat (length (filter answered reads)) ≤ 5 - k)%Z
  | Some (ErrorCancel, len) => buffer_len len
  | Some (Filled b, len) => b ≠ [] ∧ R_bytes b ∈ reads ∧ buffer_len len
  end.
Proof.
  revert k. induction reads as [|r reads IH]; intros k Hk; simpl; [lia|].
  destruct r as [[|x b]| |]; simpl.
  - rewrite double_buffer by done.
    destruct (decide (k = 5)%Z) as [->|Hne]; [by exists 5%Z|].
    assert ((MAX_NOTIFY_BUFLEN <? DEFAULT_NOTIFY_BUFLEN * 2 ^ (k + 1))%Z = false) as ->.
    { assert (k = 0 ∨ k = 1 ∨ k = 2 ∨ k = 3 ∨ k = 4)%Z as Hk' by lia. by naive_solver. }
    specialize (IH (k + 1)%Z ltac:(lia)). destruct (fill_buffer reads _) as [[[b|] len]|]; [|done|lia].
    destruct IH as (? & ? & ?). split_and!; [done|by right|done].
  - split_and!; [done|left|by exists k].
  - specialize (IH k Hk).
    destruct (fill_buffer reads _) as [[[b|] len]|]; [|done..]. destruct IH as (? & ? & ?). split_and!; [done|by right|done].
  - by exists k.
Qed.

(** The loop that fills the buffer starts at 1024 bytes and doubles at most five
    times: the buffer never exceeds 32768 bytes and [u32] does not wrap.  Six
    answers of [read], however often it is interrupted, end the loop, with bytes
    or with an error. *)
Theorem read_buffer_bounded reads :
  match fill_buffer reads DEFAULT_NOTIFY_BUFLEN with
  | None => length (filter answered reads) ≤ 5
  | Some (o, len) => (1024 ≤ len ≤ MAX_NOTIFY_BUFLEN)%Z ∧ match o with Filled b => b ≠ [] ∧ R_bytes b ∈ reads | ErrorCancel => True end
  end.
Proof.
  assert (∀ len, buffer_len len → (1024 ≤ len ≤ MAX_NOTIFY_BUFLEN)%Z) as Hlen.
  { intros len (k & Hk & ->). assert (k = 0 ∨ k = 1 ∨ k = 2 ∨ k = 3 ∨ k = 4 ∨ k = 5)%Z as Hk' by lia.
    by destruct Hk' as [->|[->|[->|[->|[->| ->]]]]]. }
  pose proof (fill_buffer_from reads 0 ltac:(lia)) as H. change (_ * 2 ^ 0)%Z with DEFAULT_NOTIFY_BUFLEN in H.
  destruct (fill_buffer reads _) as [[[b|] len]|]; [|by auto|lia]. destruct H as (? & ? & ?). auto.
Qed.

(** ** Masks *)

(** The kernel reports one of these at a time. *)
Definition kernel_events : list Z :=
  [IN_ACCESS; IN_MODIFY; IN_ATTRIB; IN_MOVED_FROM; IN_MOVED_TO; IN_CREATE; IN_DELETE; IN_DELETE_SELF; IN_MOVE_SELF].

(** A client is told of the kernel's event [i] exactly if the monitor asked the
    kernel for [i] on behalf of that client's mask. *)
Theorem asked_is_told mask i :
  i ∈ kernel_events →
  has_bits mask (event_of_mask i) = has_bits (our_event_mask_to_inotify_mask mask) i.
Proof.
  unfold our_event_mask_to_inotify_mask, or_if. intros Hi.
  destruct (has_bits mask CK_FILE_MONITOR_EVENT_ACCESS) eqn:E1, (has_bits mask CK_FILE_MONITOR_EVENT_CREATE) eqn:E2,
    (has_bits mask CK_FILE_MONITOR_EVENT_DELETE) eqn:E3, (has_bits mask CK_FILE_MONITOR_EVENT_CHANGE) eqn:E4;
  repeat (apply elem_of_cons in Hi as [->|Hi]; [first [exact E1|exact E2|exact E3|exact E4]|]);
  by apply elem_of_nil in Hi.
Qed.

(** ** Telling the clients *)

Section emission.
Context {U K C : Type} {IN : Inotify K} {HO : HashOrder}.
Variable notify_func : U → Z → cstr → prog (host U K C) unit.
Variable g_build_filename : string → string → string.
Implicit Types (m : CkFileMonitor U) (h : host U K C) (a : positive).

Lemma cells_after_suffix c l r : cells_after c l = Some r → ∃ pre, l = pre ++ r.
Proof.
  revert r. induction l as [|[c' i] l IH]; simpl; [done|]. intros r. case_decide.
  - intros [= <-]. by exists [(c', i)].
  - intros [pre ->]%IH. by exists ((c', i) :: pre).
Qed.
Lemma cells_after_here c id pre l :
  NoDup (pre ++ (c, id) :: l).*1 → cells_after c (pre ++ (c, id) :: l) = Some l.
Proof.
  intros Hnd. rewrite fmap_app in Hnd. apply NoDup_app in Hnd as (_ & Hpre & _).
  rewrite cells_after_app; [simpl; by rewrite decide_True|]. intros Hc. destruct (Hpre c Hc). left.
Qed.

(** *** Callbacks that spare the notification they are called for *)

(** [I]: the clients' own invariant; it does not speak of the queues. *)
Context (I : host U K C → Prop).
Definition considerate : Prop :=
  ∀ u ev p h a c id n, I h → cell_at (fm h) a c id → notifies (fm h) !! id = Some n → n_func n = Some u →
  wp (notify_func u ev p) (λ _ h', I h' ∧ notify_events (fm h') = notify_events (fm h) ∧ spares a c (fm h) (fm h')) h.
Hypothesis callbacks : considerate.
Hypothesis I_inv : ∀ h, I h → fm_inv (fm h).
Hypothesis I_queue : ∀ h b l, I h → I {| fm := set_events b l (fm h); kern := kern h; client := client h |}.

Lemma deliver_safe a e c id h :
  I h → cell_at (fm h) a c id →
  wp (deliver notify_func g_build_filename a e id)
    (λ _ h', I h' ∧ notify_events (fm h') = notify_events (fm h) ∧ spares a c (fm h) (fm h')) h.
Proof using callbacks.
  intros Hh Hcell. apply wp_bind, wp_get_fm. destruct (notifies (fm h) !! id) as [n|] eqn:Hid.
  2: { apply wp_ret. auto using spares_refl. }
  destruct (has_bits (n_mask n) (e_event e)); [|apply wp_ret; auto using spares_refl].
  destruct (n_func n) as [u|] eqn:Hu; [|apply wp_ret; auto using spares_refl].
  destruct Hcell as (w & Hw & Hin). apply wp_bind, (wp_the_watch _ w); [done|]. eapply callbacks; eauto. by exists w.
Qed.

Lemma emit_to_safe fuel a e l h :
  length l ≤ fuel → I h → (l ≠ [] → ∃ w pre, watches (fm h) !! a = Some w ∧ w_notifies w = pre ++ l) →
  wp (emit_to notify_func g_build_filename fuel a e l)
    (λ _ h', I h' ∧ notify_events (fm h') = notify_events (fm h)) h.
Proof using callbacks I_inv.
  revert l h. induction fuel as [|fuel IH]; intros [|[c id] l] h Hfuel Hh Hl; simpl in *; try lia; try done.
  destruct Hl as (w & pre & Hw & Hcells); [done|].
  assert (cell_at (fm h) a c id) as Hcell.
  { exists w. split; [done|]. rewrite Hcells. apply elem_of_app. right. left. }
  apply wp_bind. eapply wp_mono; [by eapply deliver_safe|]. intros [] h1 (Hh1 & Hq1 & Hspare).
  destruct (inv_nodup _ (I_inv _ Hh) _ _ Hw) as [Hnd _]. rewrite Hcells in Hnd.
  destruct (Hspare w l) as (w1 & l1 & Hw1 & Hl1 & Hsub); [done|by rewrite Hcells, cells_after_here|].
  apply wp_bind. unfold next_cell. apply wp_bind, (wp_the_watch _ w1); [done|]. rewrite Hl1. apply wp_ret.
  eapply wp_mono; [apply IH|].
  - apply sublist_length in Hsub. lia.
  - done.
  - intros _. destruct (cells_after_suffix _ _ _ Hl1) as [pre1 Hpre1]. by exists w1, pre1.
  - intros [] h2 (? & Hq2). split; [done|]. by rewrite Hq2, Hq1.
Qed.

Lemma emit_event_safe e h :
  I h → wp (emit_event notify_func g_build_filename e) (λ _ h', I h' ∧ notify_events (fm h') = notify_events (fm h)) h.
Proof using callbacks I_inv.
  intros Hh. apply wp_bind, wp_get_fm. destruct (wd_to_watch (fm h) !! e_wd e) as [a|] eqn:Hwd; [|by apply wp_ret].
  destruct (inv_wd _ (I_inv _ Hh) _ _ Hwd) as (w & Hw & _). apply wp_bind, (wp_the_watch _ w); [done|].
  apply emit_to_safe; [lia|done|]. intros _. by exists w, [].
Qed.

Lemma emit_queue_safe fuel h :
  length (notify_events (fm h)) ≤ fuel → I h →
  wp (emit_queue notify_func g_build_filename fuel) (λ _ h', I h' ∧ notify_events (fm h') = []) h.
Proof using callbacks I_inv I_queue.
  revert h. induction fuel as [|fuel IH]; intros h Hfuel Hh; simpl; apply wp_bind, wp_get_fm;
    destruct (notify_events (fm h)) as [|e q] eqn:Hq; simpl in Hfuel; try lia; try (by apply wp_ret).
  apply wp_bind, wp_modify_fm, wp_bind. eapply wp_mono; [by apply emit_event_safe, I_queue|].
  intros [] h1 [Hh1 Hq1]. simpl in Hq1. apply IH; [rewrite Hq1; lia|done].
Qed.

(** As long as no callback removes the notification it is called for, the idle
    callback that tells the clients reads no freed memory, empties the queue and
    ends. *)
Theorem emission_safe h :
  I h → wp (emit_events_in_idle notify_func g_build_filename) (λ r h', r = false ∧ I h' ∧ notify_events (fm h') = []) h.
Proof using callbacks I_inv I_queue.
  intros Hh. apply wp_bind, wp_modify_fm, wp_bind, wp_get_fm, wp_bind.
  eapply wp_mono; [apply emit_queue_safe; [done|by apply I_queue]|]. intros [] h' [? ?]. by apply wp_ret.
Qed.
End emission.

(** *** Every input of the monitor *)

Section inputs.
Context {U K C : Type} {IN : Inotify K} {HO : HashOrder}.
Variable notify_func : U → Z → cstr → prog (host U K C) unit.
Variable g_build_filename : string → string → string.
Implicit Types (m : CkFileMonitor U) (h : host U K C) (a : positive).

(** What clients and the main loop ask of the monitor. *)
Inductive fm_input :=
| FAdd (path : string) (mask : Z) (f : option U)
| FRemove (id : Z)
| FData (reads : list read_result)
| FEvents
| FRemovals.

Definition serve (i : fm_input) : prog (host U K C) unit :=
  match i with
  | FAdd path mask f => ck_file_monitor_add_notify path mask f;; mret tt
  | FRemove id => ck_file_monitor_remove_notify id
  | FData reads => inotify_data_pending reads;; mret tt
  | FEvents => emit_events_in_idle notify_func g_build_filename;; mret tt
  | FRemovals => emit_removals_in_idle;; mret tt
  end.

(** The serial number does not wrap; the descriptor is watched only while inotify
    is set up, and the kernel writes whole events. *)
Definition input_fits (i : fm_input) h : Prop :=
  match i with
  | FAdd _ _ _ => (serial (fm h) + 1 < 2 ^ 32)%Z
  | FData reads => initialized_inotify (fm h) = true ∧
      match fill_buffer reads (buflen (fm h)) with
      | None => False
      | Some (ErrorCancel, _) => True
      | Some (Filled b, _) => ∃ evs, b = encode_events evs ∧ Forall event_ok evs
      end
  | _ => True
  end.

Lemma data_pending_filled reads evs len h :
  initialized_inotify (fm h) = true → fill_buffer reads (buflen (fm h)) = Some (Filled (encode_events evs), len) →
  Forall event_ok evs →
  inotify_data_pending reads h =
    Some (true, {| fm := queued (set_inotify true (io_watch (fm h)) len (fm h)) evs; kern := kern h; client := client h |}).
Proof.
  intros Hinit Hread Hok. unfold inotify_data_pending. unfold_prog. unfold get_fm, modify_fm. unfold_prog.
  rewrite Hinit. simpl. rewrite Hread, Hinit. by rewrite scan_buffer_events.
Qed.

(** The requests stay as they are, or inotify is closed. *)
Definition kept_or_closed m m' : Prop :=
  same_requests m m' ∨ initialized_inotify m' = false ∧ wd_to_watch m' = ∅.

Lemma data_pending_inv reads h :
  fm_inv (fm h) → input_fits (FData reads) h →
  wp (inotify_data_pending reads)
    (λ _ h', fm_inv (fm h') ∧ client h' = client h ∧ kept_or_closed (fm h) (fm h')) h.
Proof.
  intros Hm [Hinit Hread].
  destruct (fill_buffer reads (buflen (fm h))) as [[[b|] len]|] eqn:Hfill; [| |done].
  - destruct Hread as (evs & -> & Hok). unfold wp. rewrite (data_pending_filled _ evs len) by done.
    split_and!; [by eapply fm_inv_ext; [apply Hm|..]|done|]. left. simpl. split_and!; eauto.
  - unfold inotify_data_pending. apply wp_bind, wp_get_fm. rewrite Hinit. simpl.
    apply wp_bind, wp_get_fm. rewrite Hfill. apply wp_bind, wp_modify_fm, wp_bind.
    eapply wp_mono; [apply close_inotify_inv|].
    + simpl. by eapply fm_inv_ext; [apply Hm|..].
    + intros [] h' (? & Hc & ? & _ & _ & Htables). apply wp_ret. rewrite Hc. split_and!; [done..|].
      right. split; [done|]. by apply Htables.
Qed.

(** C21: What clients and the kernel ask of the monitor is served without a read of
    freed memory, and keeps the tables consistent, as long as callbacks spare
    their own notification. *)
Theorem file_monitor_safe i h :
  considerate notify_func (λ h, fm_inv (fm h)) → fm_inv (fm h) → input_fits i h →
  wp (serve i) (λ _ h', fm_inv (fm h')) h.
Proof.
  intros Hcalls Hm Hfit. destruct i as [path mask f|id|reads| |]; simpl in *.
  - apply wp_bind. eapply wp_mono; [by apply add_notify_inv|]. intros r h' (? & _). by apply wp_ret.
  - eapply wp_mono; [by apply remove_notify_inv|]. by intros [] h' (? & _).
  - apply wp_bind. eapply wp_mono; [by apply data_pending_inv|]. intros r h' (? & _). by apply wp_ret.
  - apply wp_bind. eapply wp_mono; [eapply (emission_safe _ _ (λ h, fm_inv (fm h)) Hcalls)|].
    + done.
    + intros h' b l Hh'. simpl. by eapply fm_inv_ext; [apply Hh'|..].
    + done.
    + intros r h' (_ & ? & _). by apply wp_ret.
  - apply wp_bind. eapply wp_mono; [by apply emit_removals_inv|]. intros r h' (_ & ? & _). by apply wp_ret.
Qed.
End inputs.

(** ** Who is told *)

Section told.
Context {U K C : Type} {IN : Inotify K} {HO : HashOrder}.
(** Callbacks that leave the monitor alone. *)
Variable act : U → Z → cstr → C → C.
Variable g_build_filename : string → string → string.
Implicit Types (m : CkFileMonitor U) (h : host U K C) (a : positive).

Definition passive (u : U) (ev : Z) (p : cstr) : prog (host U K C) unit :=
  λ h, Some (tt, {| fm := fm h; kern := kern h; client := act u ev p (client h) |}).

(** The notifications, from the newest one, whose mask has the event. *)
Definition told m w e (l : list (positive * Z)) : list (U * Z * cstr) :=
  omap (λ cell : positive * Z,
    n ← notifies m !! cell.2;
    if has_bits (n_mask n) (e_event e) then u ← n_func n; Some (u, e_event e, event_path g_build_filename w e) else None) l.
Definition deliveries m (e : FileMonitorEventInfo) : list (U * Z * cstr) :=
  default [] (a ← wd_to_watch m !! e_wd e; w ← watches m !! a; Some (told m w e (w_notifies w))).
Definition acts (l : list (U * Z * cstr)) (c : C) : C := foldl (λ c d, act d.1.1 d.1.2 d.2 c) c l.

Lemma emit_to_told fuel a w pre e l h :
  length l ≤ fuel → watches (fm h) !! a = Some w → w_notifies w = pre ++ l → NoDup (w_notifies w).*1 →
  emit_to passive g_build_filename fuel a e l h =
    Some (tt, {| fm := fm h; kern := kern h; client := acts (told (fm h) w e l) (client h) |}).
Proof.
  revert fuel pre h. induction l as [|[c id] l IH]; intros [|fuel] pre h Hfuel Hw Hcells Hnd; simpl in Hfuel; try lia;
    try by destruct h.
  simpl. assert (∃ cl, deliver passive g_build_filename a e id h = Some (tt, {| fm := fm h; kern := kern h; client := cl |}) ∧
    acts (told (fm h) w e l) cl = acts (told (fm h) w e ((c, id) :: l)) (client h)) as (cl & Hd & Hcl).
  { unfold deliver, get_fm, passive, the_watch. unfold_prog. unfold told; simpl.
    destruct (notifies (fm h) !! id) as [n|]; simpl; [|by exists (client h); destruct h].
    destruct (has_bits (n_mask n) (e_event e)); simpl; [|by exists (client h); destruct h].
    destruct (n_func n) as [u|]; simpl; [rewrite Hw; by eexists|by exists (client h); destruct h]. }
  unfold_prog. rewrite Hd. unfold next_cell, the_watch. unfold_prog. simpl. rewrite Hw.
  rewrite Hcells, cells_after_here by (by rewrite <- Hcells).
  rewrite (IH fuel (pre ++ [(c, id)])); simpl; [by rewrite Hcl|lia|done|by rewrite Hcells, <- app_assoc|done].
Qed.

Lemma emit_event_told e h :
  fm_inv (fm h) →
  emit_event passive g_build_filename e h =
    Some (tt, {| fm := fm h; kern := kern h; client := acts (deliveries (fm h) e) (client h) |}).
Proof.
  intros Hm. unfold emit_event, get_fm, deliveries, the_watch. unfold_prog.
  destruct (wd_to_watch (fm h) !! e_wd e) as [a|] eqn:Hwd; simpl; [|by destruct h].
  destruct (inv_wd _ Hm _ _ Hwd) as (w & Hw & _). rewrite Hw. simpl.
  by apply (emit_to_told _ a w []); [|done| |apply (inv_nodup _ Hm _ _ Hw)].
Qed.

Lemma emit_queue_told fuel h :
  length (notify_events (fm h)) ≤ fuel → fm_inv (fm h) →
  emit_queue passive g_build_filename fuel h =
    Some (tt, {| fm := set_events (events_idle_id (fm h)) [] (fm h); kern := kern h;
                 client := acts (notify_events (fm h) ≫= deliveries (fm h)) (client h) |}).
Proof.
  revert h. induction fuel as [|fuel IH]; intros h Hfuel Hm; simpl; unfold get_fm, modify_fm; unfold_prog;
    destruct (notify_events (fm h)) as [|e q] eqn:Hq; simpl in Hfuel; try lia.
  1,2: destruct h as [[] ? ?]; simpl in *; by subst.
  rewrite emit_event_told by (by eapply fm_inv_ext; [apply Hm|..]). rewrite IH; simpl.
  - change (deliveries (set_events _ _ _)) with (deliveries (fm h)). unfold acts. rewrite <- foldl_app. done.
  - lia.
  - by eapply fm_inv_ext; [apply Hm|..].
Qed.

(** The clients are told of the queued events in order, each of the
    notifications of the event's watch whose mask has the event once, the newest
    first, and nobody else. *)
Theorem emission_exact h :
  fm_inv (fm h) →
  emit_events_in_idle passive g_build_filename h =
    Some (false, {| fm := set_events false [] (fm h); kern := kern h;
                    client := acts (notify_events (fm h) ≫= deliveries (fm h)) (client h) |}).
Proof.
  intros Hm. unfold emit_events_in_idle, get_fm, modify_fm. unfold_prog. simpl.
  rewrite emit_queue_told; simpl; [done|lia|]. by eapply fm_inv_ext; [apply Hm|..].
Qed.

(** C22: From the kernel to the clients whose callbacks leave the monitor alone: the
    bytes of any number of events, read and told from the idle callback, lead to
    one call for each event, in the order of the events, of each notification of
    the event's watch whose mask has the event, the newest first, and to no other.
    This is for callbacks that change the client's own state only; one that adds
    or removes notifications, as that of ck-tty-idle-monitor.c (C19), changes
    whom the later events reach. *)
Theorem events_reach_clients reads evs len h :
  fm_inv (fm h) → initialized_inotify (fm h) = true → notify_events (fm h) = [] →
  Forall event_ok evs → fill_buffer reads (buflen (fm h)) = Some (Filled (encode_events evs), len) →
  ∃ m', (inotify_data_pending reads;; emit_events_in_idle passive g_build_filename) h =
    Some (false, {| fm := m'; kern := kern h;
                    client := acts (infos (fm h) evs ≫= deliveries (fm h)) (client h) |}) ∧ fm_inv m'.
Proof.
  intros Hm Hinit Hq Hok Hfill. unfold mbind at 1, prog_bind_inst, prog_mbind.
  rewrite (data_pending_filled _ evs len) by done.
  set (m1 := queued _ evs). assert (fm_inv m1) as Hm1 by (by eapply fm_inv_ext; [apply Hm|..]).
  rewrite emission_exact by done. eexists. simpl. rewrite Hq. split; [done|].
  by eapply fm_inv_ext; [apply Hm1|..].
Qed.

(** One who asked for an event is among them. *)
Lemma asked_for_it m a w e id n u :
  fm_inv m → wd_to_watch m !! e_wd e = Some a → watches m !! a = Some w → id ∈ (w_notifies w).*2 →
  notifies m !! id = Some n → n_func n = Some u → has_bits (n_mask n) (e_event e) = true →
  (u, e_event e, event_path g_build_filename w e) ∈ deliveries m e.
Proof.
  intros Hm Hwd Hw Hin Hid Hu Hmask. unfold deliveries. rewrite Hwd. simpl. rewrite Hw. simpl.
  apply list_elem_of_fmap in Hin as ((c & i) & -> & Hin). simpl in *. unfold told. apply list_elem_of_omap.
  exists (c, i). split; [done|]. simpl. rewrite Hid. simpl. by rewrite Hmask, Hu.
Qed.
End told.
