(* ===== verification/TtyIdle.v ===== *)
(** * The tty idle monitor: [src/ck-tty-idle-monitor.c].

    A monitor looks at the access time of its tty from a timer; when the tty has
    been idle for the threshold it asks the file monitor for the next access
    instead.  [host] has the one file monitor of the process, the clients' state
    is the [desk]: the tty idle monitors, the timers of the main loop and the
    "idle-hint-changed" signals. *)

From S2P Require Import Prelude FileMonitor.

(** ** State *)

Definition DEFAULT_THRESHOLD_SECONDS : Z := 30.

(** [CkTtyIdleMonitorPrivate]; the one file monitor is in [host], [file_monitor]
    says whether the pointer to it is set. *)
Record CkTtyIdleMonitor := {
  device : cstr;
  threshold : Z;
  timeout_id : Z;
  idle_hint : bool;
  file_monitor : bool;
  file_notify_id : Z
}.

(** [monitor_object]: whether the file monitor exists.  A source has the monitor
    that it is for and its interval in seconds. *)
Record desk := {
  ttys : gmap positive CkTtyIdleMonitor;
  monitor_object : bool;
  sources : gmap Z (positive * Z);
  next_source : Z;
  idle_changed : list (positive * bool)
}.

Definition set_ttys t d :=
  {| ttys := t; monitor_object := monitor_object d; sources := sources d; next_source := next_source d;
     idle_changed := idle_changed d |}.
Definition set_sources s n d :=
  {| ttys := ttys d; monitor_object := monitor_object d; sources := s; next_source := n; idle_changed := idle_changed d |}.
Definition set_monitor_object d :=
  {| ttys := ttys d; monitor_object := true; sources := sources d; next_source := next_source d;
     idle_changed := idle_changed d |}.
Definition emit_idle_changed t b d :=
  {| ttys := ttys d; monitor_object := monitor_object d; sources := sources d; next_source := next_source d;
     idle_changed := idle_changed d ++ [(t, b)] |}.

Definition with_device s m :=
  {| device := s; threshold := threshold m; timeout_id := timeout_id m; idle_hint := idle_hint m;
     file_monitor := file_monitor m; file_notify_id := file_notify_id m |}.
Definition with_threshold n m :=
  {| device := device m; threshold := n; timeout_id := timeout_id m; idle_hint := idle_hint m;
     file_monitor := file_monitor m; file_notify_id := file_notify_id m |}.
Definition with_timeout n m :=
  {| device := device m; threshold := threshold m; timeout_id := n; idle_hint := idle_hint m;
     file_monitor := file_monitor m; file_notify_id := file_notify_id m |}.
Definition with_hint b m :=
  {| device := device m; threshold := threshold m; timeout_id := timeout_id m; idle_hint := b;
     file_monitor := file_monitor m; file_notify_id := file_notify_id m |}.
Definition with_file_monitor m :=
  {| device := device m; threshold := threshold m; timeout_id := timeout_id m; idle_hint := idle_hint m;
     file_monitor := true; file_notify_id := file_notify_id m |}.
Definition with_notify_id n m :=
  {| device := device m; threshold := threshold m; timeout_id := timeout_id m; idle_hint := idle_hint m;
     file_monitor := file_monitor m; file_notify_id := n |}.

Section tty_idle.
Context {K : Type} {IN : Inotify K}.
Implicit Types (t : positive).
Abbreviation program := (prog (host positive K desk)).

Definition get_desk {A} (f : desk → A) : program A := prog_gets (λ h, f (client h)).
Definition modify_desk (f : desk → desk) : program unit :=
  prog_modify (λ h, {| fm := fm h; kern := kern h; client := f (client h) |}).

(** Reading and writing through a pointer to a monitor. *)
Definition the_tty t : program CkTtyIdleMonitor :=
  λ h, match ttys (client h) !! t with Some m => Some (m, h) | None => None end.
Definition modify_tty (f : CkTtyIdleMonitor → CkTtyIdleMonitor) t : program unit :=
  m ← the_tty t; modify_desk (λ d, set_ttys (<[t := f m]> (ttys d)) d).

(** GLib's timers: a new id, not 0. *)
Definition g_timeout_add_seconds (seconds : Z) t : program Z :=
  id ← get_desk next_source;
  modify_desk (λ d, set_sources (<[id := (t, seconds)]> (sources d)) (next_source d + 1) d);;
  mret id.
Definition g_source_remove (id : Z) : program unit :=
  modify_desk (λ d, set_sources (delete id (sources d)) (next_source d) d).

(** ** Operations *)

Definition tty_idle_monitor_set_idle_hint_internal t (hint : bool) : program bool :=
  m ← the_tty t;
  if Bool.eqb (idle_hint m) hint then mret false
  else modify_tty (with_hint hint) t;; modify_desk (emit_idle_changed t hint);; mret true.

Definition ck_tty_idle_monitor_set_device t (s : cstr) : program unit := modify_tty (with_device s) t.
Definition ck_tty_idle_monitor_set_threshold t (n : Z) : program unit := modify_tty (with_threshold n) t.

Definition remove_idle_hint_timeout t : program unit :=
  m ← the_tty t;
  if (0 <? timeout_id m)%Z then g_source_remove (timeout_id m);; modify_tty (with_timeout 0) t else mret tt.

(** The file monitor is created once. *)
Definition get_file_monitor : program unit :=
  created ← get_desk monitor_object;
  if created : bool then mret tt else ck_file_monitor_new;; modify_desk set_monitor_object.

(** A NULL path makes [inotify_add_watch] fail. *)
Definition monitor_add_watch t : program bool :=
  m ← the_tty t;
  (if file_monitor m then mret tt else get_file_monitor;; modify_tty with_file_monitor t);;
  id ← match device m with
       | None => mret 0%Z
       | Some path => ck_file_monitor_add_notify path CK_FILE_MONITOR_EVENT_ACCESS (Some t)
       end;
  modify_tty (with_notify_id id) t;;
  mret (0 <? id)%Z.

Definition monitor_remove_watch t : program unit :=
  m ← the_tty t;
  if file_monitor m && (0 <? file_notify_id m)%Z then ck_file_monitor_remove_notify (file_notify_id m) else mret tt.

Definition schedule_tty_check t (seconds : Z) : program unit :=
  m ← the_tty t;
  if (timeout_id m =? 0)%Z then id ← g_timeout_add_seconds seconds t; modify_tty (with_timeout id) t else mret tt.

(** [st_atime]: the access time that [g_stat] found, if it did; [now]: the clock.
    [time_t] has 64 bits, [guint] 32. *)
Definition check_tty_idle t (st_atime : option Z) (now : Z) : program bool :=
  modify_tty (with_timeout 0) t;;
  m ← the_tty t;
  match device m, st_atime with
  | None, _ | _, None => mret false
  | Some _, Some atime =>
      let last_access := if (now <? atime)%Z then now else atime in
      let idletime := i64 (now - last_access) in
      let is_idle := (threshold m <=? idletime)%Z in
      tty_idle_monitor_set_idle_hint_internal t is_idle;;
      (if is_idle then
         watched ← monitor_add_watch t;
         if watched : bool then mret tt else schedule_tty_check t (threshold m)
       else
         let remaining := u32 (threshold m - idletime) in
         if (0 <? remaining)%Z then schedule_tty_check t remaining
         else schedule_tty_check t (threshold m));;
      mret false
  end.

Definition add_idle_hint_timeout t : program unit := m ← the_tty t; schedule_tty_check t (threshold m).
Definition ck_tty_idle_monitor_stop t : program unit := remove_idle_hint_timeout t;; monitor_remove_watch t.
Definition ck_tty_idle_monitor_start t : program unit := ck_tty_idle_monitor_stop t;; add_idle_hint_timeout t.

(** The callback of the file monitor. *)
Definition file_access_cb t (event : Z) (path : cstr) : program unit :=
  tty_idle_monitor_set_idle_hint_internal t false;; ck_tty_idle_monitor_start t.

Definition ck_tty_idle_monitor_init : CkTtyIdleMonitor :=
  {| device := None; threshold := DEFAULT_THRESHOLD_SECONDS; timeout_id := 0; idle_hint := false;
     file_monitor := false; file_notify_id := 0 |}.

(** [t]: where the new object is. *)
Definition ck_tty_idle_monitor_new t (s : cstr) : program unit :=
  modify_desk (λ d, set_ttys (<[t := ck_tty_idle_monitor_init]> (ttys d)) d);; ck_tty_idle_monitor_set_device t s.

Definition ck_tty_idle_monitor_finalize t : program unit :=
  ck_tty_idle_monitor_stop t;; modify_desk (λ d, set_ttys (delete t (ttys d)) d).

(** The main loop dispatches a timer, which goes when the callback says FALSE. *)
Definition timer_fires (id : Z) (st_atime : option Z) (now : Z) : program unit :=
  s ← get_desk (λ d, sources d !! id);
  match s with
  | None => mret tt
  | Some (t, _) => again ← check_tty_idle t st_atime now; if again : bool then mret tt else g_source_remove id
  end.

(** ** What can happen *)

Inductive tty_input :=
| TNew (t : positive) (s : cstr)
| TSetDevice (t : positive) (s : cstr)
| TSetThreshold (t : positive) (n : Z)
| TStart (t : positive)
| TStop (t : positive)
| TFinalize (t : positive)
| TTimer (id : Z) (st_atime : option Z) (now : Z)
| TData (reads : list read_result)
| TRemovals
| TEvents.

Context {HO : HashOrder}.
Variable g_build_filename : string → string → string.

Definition tty_serve (i : tty_input) : program unit :=
  match i with
  | TNew t s => ck_tty_idle_monitor_new t s
  | TSetDevice t s => ck_tty_idle_monitor_set_device t s
  | TSetThreshold t n => ck_tty_idle_monitor_set_threshold t n
  | TStart t => ck_tty_idle_monitor_start t
  | TStop t => ck_tty_idle_monitor_stop t
  | TFinalize t => ck_tty_idle_monitor_finalize t
  | TTimer id st now => timer_fires id st now
  | TData reads => inotify_data_pending reads;; mret tt
  | TRemovals => emit_removals_in_idle;; mret tt
  | TEvents => emit_events_in_idle file_access_cb g_build_filename;; mret tt
  end.

Definition tty_start (k : K) : host positive K desk :=
  {| fm := ck_file_monitor_init; kern := k;
     client := {| ttys := ∅; monitor_object := false; sources := ∅; next_source := 1; idle_changed := [] |} |}.
End tty_idle.
