(* ===== verification/TtyIdleFacts.v ===== *)
(** * The tty idle monitor: its invariant and what its operations do.

    [tty_inv]: a monitor that waits for an access has no timer, every timer and
    every notification belongs to a live monitor. *)

From stdpp Require Import fin_maps.
From S2P Require Import Prelude FileMonitor FileMonitorFacts FileMonitorPolicy TtyIdle.

Section facts.
Context {K : Type} {IN : Inotify K} {HO : HashOrder}.
Implicit Types (t : positive) (h : host positive K desk) (m : CkTtyIdleMonitor) (d : desk).

(** ** The invariant *)

(** [x]: the source that is being dispatched; 0 for none. *)
Record tty_inv_but (x : Z) h : Prop := {
  ti_fm : fm_inv (fm h);
  ti_shut : initialized_inotify (fm h) = false → wd_to_watch (fm h) = ∅;
  ti_created : monitor_object (client h) = false → fm h = ck_file_monitor_init;
  ti_notify : initialized_inotify (fm h) = true → ∀ id n, notifies (fm h) !! id = Some n →
    n_mask n = CK_FILE_MONITOR_EVENT_ACCESS ∧
    ∃ t m, n_func n = Some t ∧ ttys (client h) !! t = Some m ∧ file_notify_id m = id ∧
      file_monitor m = true ∧ timeout_id m = 0%Z;
  ti_source : ∀ s t secs, sources (client h) !! s = Some (t, secs) →
    (0 < s < next_source (client h))%Z ∧ (s = x ∨ ∃ m, ttys (client h) !! t = Some m ∧ timeout_id m = s);
  ti_timeout : ∀ t m, ttys (client h) !! t = Some m → timeout_id m ≠ 0%Z →
    ∃ secs, sources (client h) !! timeout_id m = Some (t, secs);
  ti_next : (0 < next_source (client h))%Z
}.
Definition tty_inv : host positive K desk → Prop := tty_inv_but 0.

(** No notification is for [t]. *)
Definition not_watching t h : Prop :=
  initialized_inotify (fm h) = true → ∀ id n, notifies (fm h) !! id = Some n → n_func n ≠ Some t.

Lemma tty_inv_start (k : K) : tty_inv (tty_start k).
Proof.
  split; simpl; try done; try apply fm_inv_init; intros; simplify_map_eq.
Qed.

(** A monitor with a timer watches nothing. *)
Lemma timer_not_watching x t m h :
  tty_inv_but x h → ttys (client h) !! t = Some m → timeout_id m ≠ 0%Z → not_watching t h.
Proof.
  intros Hh Ht Htmo Hinit id n Hid Hf. destruct (ti_notify _ _ Hh Hinit _ _ Hid) as (_ & t' & m' & Ht' & Hm' & _ & _ & ?).
  by simplify_eq.
Qed.

(** A change of a monitor that keeps its timer and its notification. *)
Lemma tty_inv_update x t m m' h d' :
  tty_inv_but x h → ttys (client h) !! t = Some m →
  timeout_id m' = timeout_id m → file_notify_id m' = file_notify_id m → file_monitor m' = file_monitor m →
  ttys d' = <[t := m']> (ttys (client h)) → monitor_object d' = monitor_object (client h) →
  sources d' = sources (client h) → next_source d' = next_source (client h) →
  tty_inv_but x {| fm := fm h; kern := kern h; client := d' |}.
Proof.
  intros [Hf Hsh Hc Hn Hs Ht Hx] Hm Htm Hid Hfm Ed Em Es En.
  assert (∀ u mu (P : CkTtyIdleMonitor → Prop), ttys (client h) !! u = Some mu → P mu → (P m → P m') →
    ∃ mu', <[t := m']> (ttys (client h)) !! u = Some mu' ∧ P mu') as Hstay.
  { intros u mu P Hu HP Himp. destruct (decide (u = t)) as [->|]; simplify_map_eq; eauto. }
  split; simpl; rewrite ?Ed, ?Em, ?Es, ?En; try done.
  - intros Hinit id n Hl. destruct (Hn Hinit id n Hl) as (? & u & mu & ? & Hu & Hu1 & Hu2 & Hu3).
    split; [done|]. exists u.
    destruct (Hstay u mu (λ m, file_notify_id m = id ∧ file_monitor m = true ∧ timeout_id m = 0%Z)) as (mu' & ? & ?); eauto.
    rewrite Htm, Hid, Hfm. auto.
  - intros s u secs Hl. destruct (Hs _ _ _ Hl) as (? & [?|(mu & Hu & ?)]); [by auto|]. split; [done|]. right.
    apply (Hstay u mu (λ m, timeout_id m = s)); [done|done|]. by rewrite Htm.
  - intros u mu [[<- <-]|[Hne Hu]]%lookup_insert_Some; [rewrite Htm; by apply Ht|by apply Ht].
Qed.

(** A change of a monitor without a notification. *)
Lemma tty_inv_unwatched x t m m' h d' :
  tty_inv_but x h → ttys (client h) !! t = Some m → not_watching t h → timeout_id m' = timeout_id m →
  ttys d' = <[t := m']> (ttys (client h)) → monitor_object d' = monitor_object (client h) →
  sources d' = sources (client h) → next_source d' = next_source (client h) →
  tty_inv_but x {| fm := fm h; kern := kern h; client := d' |}.
Proof.
  intros [Hf Hsh Hc Hn Hs Ht Hx] Hm Hnw Htm Ed Em Es En.
  split; simpl; rewrite ?Ed, ?Em, ?Es, ?En; try done.
  - intros Hinit id n Hl. destruct (Hn Hinit id n Hl) as (? & u & mu & Hu & ?). split; [done|]. exists u, mu.
    split; [done|]. rewrite lookup_insert_ne; [done|]. intros <-. by eapply Hnw.
  - intros s u secs Hl. destruct (Hs _ _ _ Hl) as (? & [?|(mu & Hu & ?)]); [by auto|]. split; [done|]. right.
    destruct (decide (u = t)) as [->|]; [|exists mu; by rewrite lookup_insert_ne].
    simplify_eq. exists m'. by rewrite lookup_insert_eq.
  - intros u mu [[<- <-]|[Hne Hu]]%lookup_insert_Some; [rewrite Htm; by apply Ht|by apply Ht].
Qed.

(** A change of the file monitor: no new notification but for monitors that wait. *)
Definition waits d (id : Z) (n : FileMonitorNotify positive) : Prop :=
  n_mask n = CK_FILE_MONITOR_EVENT_ACCESS ∧
  ∃ t m, n_func n = Some t ∧ ttys d !! t = Some m ∧ file_notify_id m = id ∧ file_monitor m = true ∧ timeout_id m = 0%Z.

Lemma tty_inv_fm x h h' :
  tty_inv_but x h → fm_inv (fm h') → client h' = client h →
  initialized_inotify (fm h') = initialized_inotify (fm h) →
  (initialized_inotify (fm h) = false → fm h' = fm h) →
  (∀ id n, notifies (fm h') !! id = Some n → notifies (fm h) !! id = Some n ∨ waits (client h) id n) →
  tty_inv_but x h'.
Proof.
  intros [Hf Hsh Hc Hn Hs Ht Hx] Hf' Ec Ei Hshut Hnew. split; rewrite ?Ec, ?Ei; try done.
  - intros Hi. rewrite Hshut by done. auto.
  - intros Hobj. rewrite <- Hc by done. apply Hshut. by rewrite Hc.
  - intros Hi id n Hid. destruct (Hnew _ _ Hid) as [Hold|Hw]; [by apply Hn|exact Hw].
Qed.

(** ** The operations on one monitor *)

Lemma wp_the_tty t m (Q : CkTtyIdleMonitor → host positive K desk → Prop) h :
  ttys (client h) !! t = Some m → Q m h → wp (the_tty t) Q h.
Proof. unfold wp, the_tty. by intros ->. Qed.
Lemma wp_get_desk {A} (f : desk → A) (Q : A → host positive K desk → Prop) h : Q (f (client h)) h → wp (get_desk f) Q h.
Proof. done. Qed.
Lemma wp_modify_desk f (Q : unit → host positive K desk → Prop) h :
  Q tt {| fm := fm h; kern := kern h; client := f (client h) |} → wp (modify_desk f) Q h.
Proof. done. Qed.
Lemma wp_modify_tty f t m (Q : unit → host positive K desk → Prop) h :
  ttys (client h) !! t = Some m →
  Q tt {| fm := fm h; kern := kern h; client := set_ttys (<[t := f m]> (ttys (client h))) (client h) |} →
  wp (modify_tty f t) Q h.
Proof. intros Ht HQ. by apply wp_bind, (wp_the_tty _ m). Qed.

Definition hinted t m (hint : bool) d : desk :=
  if Bool.eqb (idle_hint m) hint then d else emit_idle_changed t hint (set_ttys (<[t := with_hint hint m]> (ttys d)) d).

Lemma set_idle_hint_run t m hint h :
  ttys (client h) !! t = Some m →
  tty_idle_monitor_set_idle_hint_internal t hint h =
    Some (negb (Bool.eqb (idle_hint m) hint), {| fm := fm h; kern := kern h; client := hinted t m hint (client h) |}).
Proof.
  intros Ht. unfold tty_idle_monitor_set_idle_hint_internal, modify_tty, modify_desk, the_tty, hinted. unfold_prog. rewrite Ht.
  destruct (Bool.eqb (idle_hint m) hint); [by destruct h|]. by rewrite Ht.
Qed.

Lemma hinted_tty t m hint d :
  ttys d !! t = Some m → ttys (hinted t m hint d) !! t = Some (with_hint hint m).
Proof.
  intros Ht. unfold hinted. destruct (Bool.eqb (idle_hint m) hint) eqn:E; [|by simpl; rewrite lookup_insert_eq].
  apply eqb_prop in E as <-. by destruct m.
Qed.
Lemma tty_inv_hinted x t m hint h :
  tty_inv_but x h → ttys (client h) !! t = Some m →
  tty_inv_but x {| fm := fm h; kern := kern h; client := hinted t m hint (client h) |}.
Proof.
  intros Hh Ht. unfold hinted. case_match; [by destruct h|]. by apply (tty_inv_update x t m (with_hint hint m)).
Qed.

(** The timer of [t], if it has one, is removed. *)
Definition untimed t m d : desk :=
  if (0 <? timeout_id m)%Z
  then set_ttys (<[t := with_timeout 0 m]> (ttys d)) (set_sources (delete (timeout_id m) (sources d)) (next_source d) d)
  else d.

Lemma remove_timeout_run t m h :
  ttys (client h) !! t = Some m →
  remove_idle_hint_timeout t h = Some (tt, {| fm := fm h; kern := kern h; client := untimed t m (client h) |}).
Proof.
  intros Ht. unfold remove_idle_hint_timeout, g_source_remove, modify_tty, modify_desk, the_tty, untimed. unfold_prog. rewrite Ht.
  destruct (0 <? timeout_id m)%Z; [|by destruct h]. simpl. by rewrite Ht.
Qed.

Lemma timeout_nonneg x t m h : tty_inv_but x h → ttys (client h) !! t = Some m → (0 ≤ timeout_id m)%Z.
Proof.
  intros Hh Ht. destruct (decide (timeout_id m = 0%Z)) as [->|Hne]; [done|].
  destruct (ti_timeout _ _ Hh _ _ Ht Hne) as (secs & Hs). pose proof (ti_source _ _ Hh _ _ _ Hs). lia.
Qed.

Lemma tty_inv_untimed x t m h :
  tty_inv_but x h → ttys (client h) !! t = Some m →
  tty_inv_but x {| fm := fm h; kern := kern h; client := untimed t m (client h) |} ∧
  ttys (untimed t m (client h)) !! t = Some (with_timeout 0 m).
Proof.
  intros Hh Ht. pose proof (timeout_nonneg _ _ _ _ Hh Ht) as Hnn. unfold untimed.
  destruct (Z.ltb_spec 0 (timeout_id m)) as [Hpos|Hle].
  2: { assert (timeout_id m = 0%Z) as Hz by lia. split; [by destruct h|]. rewrite Ht, <- Hz. by destruct m. }
  pose proof (timer_not_watching _ _ _ _ Hh Ht ltac:(lia)) as Hnw.
  destruct Hh as [Hf Hsh Hc Hn Hs Htm Hx]. split; [|by simpl; rewrite lookup_insert_eq]. split; simpl; try done.
  - intros Hinit id n Hl. destruct (Hn Hinit id n Hl) as (? & u & mu & Hu & Hlu & ?). split; [done|]. exists u, mu.
    split; [done|]. rewrite lookup_insert_ne; [done|]. intros <-. by eapply Hnw.
  - intros s u secs [Hne Hl]%lookup_delete_Some. destruct (Hs _ _ _ Hl) as (? & [?|(mu & Hu & ?)]); [by auto|].
    split; [done|]. right. exists mu. rewrite lookup_insert_ne; [done|]. intros <-. congruence.
  - intros u mu [[<- <-]|[Hne Hu]]%lookup_insert_Some Hnz; [done|]. destruct (Htm _ _ Hu Hnz) as (secs & Hsec).
    exists secs. rewrite lookup_delete_ne; [done|]. intros Heq. rewrite <- Heq in Hsec.
    destruct (Htm _ _ Ht ltac:(lia)) as (? & ?). congruence.
Qed.

(** The watch of [t], if it has one, is removed. *)
Lemma remove_notify_closed id h :
  initialized_inotify (fm h) = false → ck_file_monitor_remove_notify id h = Some (tt, h).
Proof. intros Hi. unfold ck_file_monitor_remove_notify, get_fm. unfold_prog. by rewrite Hi. Qed.

Lemma remove_watch_inv x t m h :
  tty_inv_but x h → ttys (client h) !! t = Some m →
  wp (monitor_remove_watch t)
    (λ _ h', tty_inv_but x h' ∧ client h' = client h ∧ serial (fm h') = serial (fm h) ∧ not_watching t h' ∧
      (initialized_inotify (fm h) = true → ∀ a c id, cell_at (fm h) a c id → id = file_notify_id m →
         file_monitor m = true → no_cell (fm h') a c)) h.
Proof.
  intros Hh Ht. apply wp_bind, (wp_the_tty _ m); [done|].
  destruct (initialized_inotify (fm h)) eqn:Hinit.
  2: { assert (not_watching t h) by (intros ?; congruence).
       case_match; [unfold wp; rewrite remove_notify_closed by done|apply wp_ret]; split_and!; done. }
  destruct (file_monitor m && (0 <? file_notify_id m)%Z) eqn:Hwatch.
  2: { apply wp_ret. split_and!; [done..| |].
       - intros _ id n Hid Hf. destruct (ti_notify _ _ Hh Hinit _ _ Hid) as (_ & t' & m' & ? & ? & <- & Hfm & _).
         simplify_eq. pose proof (inv_notify _ (ti_fm _ _ Hh) _ _ Hid). rewrite Hfm in Hwatch. simpl in Hwatch.
         apply Z.ltb_ge in Hwatch. lia.
       - intros _ a c id Hcell -> Hfm. rewrite Hfm in Hwatch. simpl in Hwatch. apply Z.ltb_ge in Hwatch.
         destruct (cell_notify _ _ _ _ (ti_fm _ _ Hh) Hcell) as (n & Hn & _).
         pose proof (inv_notify _ (ti_fm _ _ Hh) _ _ Hn). lia. }
  eapply wp_mono; [by apply remove_notify_inv, (ti_fm x)|].
  intros [] h' (Hf' & Hc' & Hs' & _ & Hi' & Hn' & _ & Hgone & Hwd'). specialize (Hn' Hinit). specialize (Hgone Hinit).
  split_and!; [|done|done| |].
  - apply (tty_inv_fm x h); [done|done|done|congruence|congruence|]. intros id n.
    rewrite Hn'. intros [_ ?]%lookup_delete_Some. by left.
  - intros _ id n Hid Hf. rewrite Hn' in Hid. apply lookup_delete_Some in Hid as [Hne Hid].
    destruct (ti_notify _ _ Hh Hinit _ _ Hid) as (_ & t' & m' & ? & ? & ? & _). by simplify_eq.
  - intros _ a c id Hcell -> _. by apply Hgone.
Qed.

Lemma stop_inv x t m h :
  tty_inv_but x h → ttys (client h) !! t = Some m →
  wp (ck_tty_idle_monitor_stop t)
    (λ _ h', tty_inv_but x h' ∧ client h' = untimed t m (client h) ∧ serial (fm h') = serial (fm h) ∧ not_watching t h' ∧
      (initialized_inotify (fm h) = true → ∀ a c id, cell_at (fm h) a c id → id = file_notify_id m →
         file_monitor m = true → no_cell (fm h') a c)) h.
Proof.
  intros Hh Ht. destruct (tty_inv_untimed _ _ _ _ Hh Ht) as [Hh1 Ht1].
  apply wp_bind. unfold wp at 1. rewrite (remove_timeout_run t m) by done.
  eapply wp_mono; [by apply (remove_watch_inv x t (with_timeout 0 m))|]. intros [] h' (? & ? & ? & ? & ?). by split_and!.
Qed.

(** A new timer, for a monitor that watches nothing. *)
Definition timed t m (secs : Z) d : desk :=
  if (timeout_id m =? 0)%Z
  then set_ttys (<[t := with_timeout (next_source d) m]> (ttys d))
         (set_sources (<[next_source d := (t, secs)]> (sources d)) (next_source d + 1) d)
  else d.

Lemma schedule_run t m secs h :
  ttys (client h) !! t = Some m →
  schedule_tty_check t secs h = Some (tt, {| fm := fm h; kern := kern h; client := timed t m secs (client h) |}).
Proof.
  intros Ht. unfold schedule_tty_check, g_timeout_add_seconds, modify_tty, modify_desk, get_desk, the_tty, timed.
  unfold_prog. rewrite Ht. destruct (timeout_id m =? 0)%Z; [|by destruct h]. simpl. by rewrite Ht.
Qed.

Lemma tty_inv_timed x t m secs h :
  tty_inv_but x h → ttys (client h) !! t = Some m → not_watching t h →
  tty_inv_but x {| fm := fm h; kern := kern h; client := timed t m secs (client h) |} ∧
  ∃ m', ttys (timed t m secs (client h)) !! t = Some m' ∧ timeout_id m' ≠ 0%Z.
Proof.
  intros Hh Ht Hnw. unfold timed. destruct (Z.eqb_spec (timeout_id m) 0) as [Hz|Hz].
  2: { split; [by destruct h|]. eauto. }
  destruct Hh as [Hf Hsh Hc Hn Hs Htm Hx]. split.
  2: { eexists. simpl. rewrite lookup_insert_eq. split; [done|]. simpl. lia. }
  split; simpl; try done; try lia.
  - intros Hinit id n Hl. destruct (Hn Hinit id n Hl) as (? & u & mu & Hu & Hlu & ?). split; [done|]. exists u, mu.
    split; [done|]. rewrite lookup_insert_ne; [done|]. intros <-. by eapply Hnw.
  - intros s u sc [[<- [= <- <-]]|[Hne Hl]]%lookup_insert_Some.
    + split; [lia|]. right. eexists. by rewrite lookup_insert_eq.
    + destruct (Hs _ _ _ Hl) as (? & [?|(mu & Hu & ?)]); [split; [lia|by left]|]. split; [lia|]. right.
      exists mu. rewrite lookup_insert_ne; [done|]. intros <-. simplify_eq. lia.
  - intros u mu [[<- <-]|[Hne Hu]]%lookup_insert_Some Hnz; [eexists; by rewrite lookup_insert_eq|].
    destruct (Htm _ _ Hu Hnz) as (sc & Hsc). exists sc. rewrite lookup_insert_ne; [done|].
    intros Heq. rewrite <- Heq in Hsc. destruct (Hs _ _ _ Hsc). lia.
Qed.

Lemma start_inv x t m h :
  tty_inv_but x h → ttys (client h) !! t = Some m →
  wp (ck_tty_idle_monitor_start t)
    (λ _ h', tty_inv_but x h' ∧ serial (fm h') = serial (fm h) ∧ not_watching t h' ∧
      (∃ m', ttys (client h') !! t = Some m' ∧ timeout_id m' ≠ 0%Z) ∧
      (initialized_inotify (fm h) = true → ∀ a c id, cell_at (fm h) a c id → id = file_notify_id m →
         file_monitor m = true → no_cell (fm h') a c)) h.
Proof.
  intros Hh Ht. apply wp_bind. eapply wp_mono; [by apply stop_inv|].
  intros [] h1 (Hh1 & Hc1 & Hs1 & Hnw1 & Hgone). destruct (tty_inv_untimed _ _ _ _ Hh Ht) as [_ Ht1]. rewrite <- Hc1 in Ht1.
  apply wp_bind, (wp_the_tty _ (with_timeout 0 m)); [done|]. unfold wp. rewrite (schedule_run t (with_timeout 0 m)) by done.
  simpl. destruct (tty_inv_timed x t (with_timeout 0 m) (threshold m) h1) as [? ?]; try done.
Qed.

(** *** Waiting for an access *)

Definition same_but_watch t m id d d' : Prop :=
  ttys d' = <[t := with_notify_id id (with_file_monitor m)]> (ttys d) ∧ sources d' = sources d ∧
  next_source d' = next_source d ∧ idle_changed d' = idle_changed d.

Definition opened : CkFileMonitor positive :=
  set_tables ∅ ∅ ∅ (set_notifies 1 ∅ (set_inotify true true DEFAULT_NOTIFY_BUFLEN ck_file_monitor_init)).
Lemma fm_inv_opened : fm_inv opened.
Proof. by split; simpl; intros; simplify_map_eq. Qed.

Lemma get_file_monitor_inv x h :
  tty_inv_but x h →
  wp get_file_monitor
    (λ _ h', tty_inv_but x h' ∧ serial (fm h') = serial (fm h) ∧
      (∀ t, not_watching t h → not_watching t h') ∧
      ttys (client h') = ttys (client h) ∧ sources (client h') = sources (client h) ∧
      next_source (client h') = next_source (client h) ∧ idle_changed (client h') = idle_changed (client h)) h.
Proof.
  intros Hh. apply wp_bind, wp_get_desk. destruct (monitor_object (client h)) eqn:Hobj.
  { apply wp_ret. split_and!; auto. }
  pose proof (ti_created _ _ Hh Hobj) as Hinit. destruct Hh as [Hf Hsh Hc Hn Hs Htm Hx].
  apply wp_bind. unfold ck_file_monitor_new. apply wp_bind, wp_modify_fm, wp_bind, wp_get_fm. simpl.
  apply wp_bind, wp_syscall. simpl. destruct (inotify_init (kern h)).1.
  - apply wp_modify_fm, wp_modify_desk. simpl. rewrite Hinit. split_and!; try done.
  - apply wp_ret, wp_modify_desk. simpl. rewrite Hinit. split_and!; try done.
Qed.

Lemma add_watch_inv x t m h :
  tty_inv_but x h → ttys (client h) !! t = Some m → timeout_id m = 0%Z → not_watching t h →
  (serial (fm h) + 1 < 2 ^ 32)%Z →
  wp (monitor_add_watch t)
    (λ r h', ∃ id, tty_inv_but x h' ∧ same_but_watch t m id (client h) (client h') ∧ r = (0 <? id)%Z ∧
      (r = false → not_watching t h') ∧
      (r = true → ∃ n, notifies (fm h') !! id = Some n ∧ n_func n = Some t ∧ n_watch n ≠ None)) h.
Proof.
  intros Hh Ht Htm Hnw Hser. apply wp_bind, (wp_the_tty _ m); [done|]. apply wp_bind.
  eapply (wp_mono _ (λ _ h', tty_inv_but x h' ∧ serial (fm h') = serial (fm h) ∧ not_watching t h' ∧
    ttys (client h') = <[t := with_file_monitor m]> (ttys (client h)) ∧ sources (client h') = sources (client h) ∧
    next_source (client h') = next_source (client h) ∧ idle_changed (client h') = idle_changed (client h))).
  { destruct (file_monitor m) eqn:Hfm.
    - apply wp_ret. split_and!; try done. by rewrite insert_id by (rewrite Ht; by destruct m; simpl in *; subst).
    - apply wp_bind. eapply wp_mono; [by apply get_file_monitor_inv|].
      intros [] h1 (Hh1 & Hs1 & Hnw1 & E1 & E2 & E3 & E4). specialize (Hnw1 _ Hnw). apply (wp_modify_tty _ _ m); [by rewrite E1|].
      simpl. rewrite E1, E2, E3, E4. split_and!; try done.
      apply (tty_inv_unwatched x t m (with_file_monitor m)); try done; by rewrite ?E1. }
  intros [] h1 (Hh1 & Hs1 & Hnw1 & E1 & E2 & E3 & E4).
  assert (ttys (client h1) !! t = Some (with_file_monitor m)) as Ht1 by (rewrite E1; apply lookup_insert_eq).
  apply wp_bind. destruct (device m) as [path|].
  2: { apply wp_ret, wp_bind, (wp_modify_tty _ _ (with_file_monitor m)), wp_ret; [done|]. exists 0%Z.
       split_and!; [|by unfold same_but_watch; simpl; rewrite E1, E2, E3, E4, insert_insert_eq|done..].
       by apply (tty_inv_unwatched x t (with_file_monitor m) (with_notify_id 0 (with_file_monitor m))). }
  eapply wp_mono; [apply add_notify_inv; [apply Hh1|lia]|].
  intros id h2 (Hf2 & Hc2 & _ & _ & Hi2 & Hshut2 & Hid).
  apply wp_bind, (wp_modify_tty _ _ (with_file_monitor m)), wp_ret; [by rewrite Hc2|]. exists id.
  set (d2 := set_ttys _ _).
  assert (same_but_watch t m id (client h) d2) as Hd.
  { unfold d2, same_but_watch; simpl. by rewrite Hc2, E1, E2, E3, E4, insert_insert_eq. }
  assert (tty_inv_but x {| fm := fm h1; kern := kern h1; client := d2 |}) as Hh1'.
  { apply (tty_inv_unwatched x t (with_file_monitor m) (with_notify_id id (with_file_monitor m))); unfold d2; simpl; by rewrite ?Hc2. }
  destruct Hid as [[-> Hn2]|[-> [a Hn2]]].
  - split_and!; [|done..| |done].
    + apply (tty_inv_fm x _ _ Hh1'); simpl; try done. intros id n. rewrite Hn2. by left.
    + intros _ Hi id n. simpl in *. rewrite Hn2. by apply Hnw1; rewrite <- Hi2.
  - assert (0 < serial (fm h1))%Z as Hpos by apply (inv_serial _ (ti_fm _ _ Hh1)).
    split_and!; [|done..| |].
    + apply (tty_inv_fm x _ _ Hh1'); simpl; try done. intros id n. rewrite Hn2.
      intros [[<- <-]|[_ ?]]%lookup_insert_Some; [right|by left]. split; [done|]. eexists t, _. split; [done|].
      unfold d2; simpl. rewrite lookup_insert_eq. by split_and!.
    + intros Hr%Z.ltb_ge. lia.
    + intros _. simpl. rewrite Hn2. eexists. by rewrite lookup_insert_eq.
Qed.
End facts.
