(* ===== verification/TtyIdlePolicy.v ===== *)
(** * The tty idle monitor: when a tty counts as idle, and what an access does.

    The check of the timer is exact and leaves the monitor armed.  The callback
    for an access restarts the monitor, which removes the notification that the
    file monitor is walking over: the file monitor then reads freed memory. *)

From stdpp Require Import fin_maps.
From S2P Require Import Prelude FileMonitor FileMonitorFacts FileMonitorPolicy TtyIdle TtyIdleFacts.

Section policy.
Context {K : Type} {IN : Inotify K} {HO : HashOrder}.
Variable g_build_filename : string → string → string.
Implicit Types (t : positive) (h : host positive K desk) (m : CkTtyIdleMonitor) (d : desk).

(** ** The check *)


(** [t] waits for the next access, or for a timer of so many seconds. *)
Definition waits_for_access t m h : Prop :=
  timeout_id m = 0%Z ∧ ∃ n, notifies (fm h) !! file_notify_id m = Some n ∧ n_func n = Some t ∧ n_watch n ≠ None.
Definition waits_for_timer t m (secs : Z) h : Prop :=
  timeout_id m ≠ 0%Z ∧ sources (client h) !! timeout_id m = Some (t, secs).

(** The hint is [idle]; [secs]: the timer of one that is not idle. *)
Definition checked (x : Z) t m (idle : bool) (secs : Z) h h' : Prop :=
  ∃ m', ttys (client h') = <[t := m']> (ttys (client h)) ∧ threshold m' = threshold m ∧ device m' = device m ∧
    idle_hint m' = idle ∧
    idle_changed (client h') = idle_changed (client h) ++ (if Bool.eqb (idle_hint m) idle then [] else [(t, idle)]) ∧
    (timeout_id m' = 0%Z ∨ timeout_id m' = next_source (client h)) ∧
    (∀ s, s ≠ next_source (client h) → s ≠ x → sources (client h') !! s = sources (client h) !! s) ∧
    if idle then waits_for_access t m' h' ∨ waits_for_timer t m' (threshold m) h'
    else waits_for_timer t m' secs h'.

Lemma hinted_fields t m hint d :
  ttys d !! t = Some m →
  ttys (hinted t m hint d) = <[t := with_hint hint m]> (ttys d) ∧ sources (hinted t m hint d) = sources d ∧
  next_source (hinted t m hint d) = next_source d ∧ monitor_object (hinted t m hint d) = monitor_object d ∧
  idle_changed (hinted t m hint d) = idle_changed d ++ (if Bool.eqb (idle_hint m) hint then [] else [(t, hint)]).
Proof.
  intros Ht. unfold hinted. destruct (Bool.eqb (idle_hint m) hint) eqn:E; simpl; [|done].
  apply eqb_prop in E as <-. rewrite app_nil_r, insert_id; [done|]. rewrite Ht. by destruct m.
Qed.

Lemma timed_fields t m secs d :
  ttys d !! t = Some m → timeout_id m = 0%Z → (0 < next_source d)%Z →
  ttys (timed t m secs d) = <[t := with_timeout (next_source d) m]> (ttys d) ∧
  sources (timed t m secs d) = <[next_source d := (t, secs)]> (sources d) ∧
  idle_changed (timed t m secs d) = idle_changed d.
Proof. intros Ht Hz ?. unfold timed. by rewrite Hz. Qed.

(** The idle time and the next timer as the code computes them. *)
Definition code_idle (atime now : Z) : Z := i64 (now - (if (now <? atime)%Z then now else atime)).
Definition code_remaining m (atime now : Z) : Z :=
  let remaining := u32 (threshold m - code_idle atime now) in
  if (0 <? remaining)%Z then remaining else threshold m.

Lemma check_body x t m path atime now h :
  tty_inv_but x h → ttys (client h) !! t = Some m → timeout_id m = 0%Z → not_watching t h →
  device m = Some path → (serial (fm h) + 1 < 2 ^ 32)%Z →
  wp (check_tty_idle t (Some atime) now) (λ r h', r = false ∧ tty_inv_but x h' ∧
    checked (next_source (client h)) t m (threshold m <=? code_idle atime now)%Z (code_remaining m atime now) h h') h.
Proof.
  intros Hh Ht Hz Hnw Hdev Hser. pose proof (ti_next _ _ Hh) as Hnext.
  apply wp_bind, (wp_modify_tty _ _ m); [done|].
  assert (with_timeout 0 m = m) as Hm by (destruct m; simpl in *; by subst). rewrite Hm, insert_id by done.
  assert ({| fm := fm h; kern := kern h; client := set_ttys (ttys (client h)) (client h) |} = h) as -> by by destruct h as [? ? []].
  apply wp_bind, (wp_the_tty _ m); [done|]. rewrite Hdev. cbv zeta. fold (code_idle atime now).
  apply wp_bind. unfold wp at 1. rewrite (set_idle_hint_run t m) by done.
  unfold checked. set (idle := (threshold m <=? code_idle atime now)%Z).
  destruct (hinted_fields t m idle (client h) Ht) as (F1 & F2 & F3 & F4 & F5).
  pose proof (tty_inv_hinted _ _ _ idle _ Hh Ht) as Hh1. set (h1 := {| fm := fm h; kern := kern h; client := hinted t m idle (client h) |}) in *.
  assert (ttys (client h1) !! t = Some (with_hint idle m)) as Ht1 by (simpl; rewrite F1; apply lookup_insert_eq).
  assert (not_watching t h1) as Hnw1 by done.
  apply wp_bind. destruct idle.
  - apply wp_bind. eapply wp_mono; [by apply (add_watch_inv x t (with_hint true m))|].
    intros r h2 (id & Hh2 & (G1 & G2 & G3 & G4) & -> & Hno & Hyes). set (m2 := with_notify_id id _) in *.
    assert (ttys (client h2) !! t = Some m2) as Ht2 by (rewrite G1; apply lookup_insert_eq).
    simpl in G1, G2, G3, G4. rewrite F1, insert_insert_eq in G1. rewrite F2 in G2. rewrite F3 in G3. rewrite F5 in G4.
    destruct (0 <? id)%Z.
    + apply wp_ret, wp_ret. split_and!; [done..|]. exists m2. split_and!; try done; [by left|by intros s _ _; rewrite G2|].
      left. split; [done|]. destruct (Hyes eq_refl) as (n & Hn). by exists n.
    + unfold wp at 1. rewrite (schedule_run t m2) by done. apply wp_ret.
      destruct (tty_inv_timed x t m2 (threshold m) h2 Hh2 Ht2 (Hno eq_refl)) as [Hh3 _].
      destruct (timed_fields t m2 (threshold m) (client h2) Ht2 Hz (ti_next _ _ Hh2)) as (T1 & T2 & T3).
      split_and!; [done..|]. simpl. rewrite T1, T2, T3, G1, insert_insert_eq, G2, G3, G4. eexists. split; [done|]. simpl.
      split_and!; try done; [by right|by intros s ? _; apply lookup_insert_ne|]. right. split; [simpl; lia|].
      simpl. rewrite T2, G3. apply lookup_insert_eq.
  - cbv zeta. assert ((if (0 <? u32 (threshold m - code_idle atime now))%Z
      then schedule_tty_check t (u32 (threshold m - code_idle atime now)) else schedule_tty_check t (threshold m)) =
      schedule_tty_check t (code_remaining m atime now)) as -> by (unfold code_remaining; cbv zeta; by destruct (0 <? u32 _)%Z).
    unfold wp at 1. rewrite (schedule_run t (with_hint false m)) by done. apply wp_ret.
    destruct (tty_inv_timed x t (with_hint false m) (code_remaining m atime now) h1 Hh1 Ht1 Hnw1) as [Hh2 _].
    destruct (timed_fields t (with_hint false m) (code_remaining m atime now) (client h1) Ht1 Hz (ti_next _ _ Hh1)) as (T1 & T2 & T3).
    split_and!; [done..|]. simpl in *. rewrite T1, T2, T3, F1, insert_insert_eq, F2, F3, F5. eexists. split; [done|]. simpl.
    split_and!; try done; [by right|by intros s ? _; apply lookup_insert_ne|]. split; [simpl; lia|].
    simpl. rewrite T2, F3. apply lookup_insert_eq.
Qed.

(** A dispatched timer: the monitor forgets it, the source goes afterwards. *)
Lemma timer_dispatched id t secs h :
  tty_inv h → sources (client h) !! id = Some (t, secs) →
  ∃ m, ttys (client h) !! t = Some m ∧ timeout_id m = id ∧ not_watching t h ∧
    tty_inv_but id {| fm := fm h; kern := kern h; client := set_ttys (<[t := with_timeout 0 m]> (ttys (client h))) (client h) |}.
Proof.
  intros Hh Hs. destruct (ti_source _ _ Hh _ _ _ Hs) as (Hpos & [Hid|(m & Ht & Hid)]); [lia|].
  pose proof (timer_not_watching _ _ _ _ Hh Ht ltac:(lia)) as Hnw. exists m. split_and!; try done.
  destruct Hh as [Hf Hsh Hc Hn Hsrc Htm Hx]. split; simpl; try done.
  - intros Hinit i n Hl. destruct (Hn Hinit i n Hl) as (? & u & mu & Hu & Hlu & ?). split; [done|]. exists u, mu.
    split; [done|]. rewrite lookup_insert_ne; [done|]. intros <-. by eapply Hnw.
  - intros s u sc Hl. destruct (Hsrc _ _ _ Hl) as (? & [?|(mu & Hu & Hmu)]); [lia|]. split; [done|].
    destruct (decide (u = t)) as [->|Hne]; [left; by simplify_eq|right; exists mu; by rewrite lookup_insert_ne].
  - intros u mu [[<- <-]|[Hne Hu]]%lookup_insert_Some Hnz; [done|by apply Htm].
Qed.

(** The source [id] goes: nobody refers to it any more. *)
Lemma source_removed id t m secs h :
  tty_inv_but id h → sources (client h) !! id = Some (t, secs) → ttys (client h) !! t = Some m → timeout_id m ≠ id →
  tty_inv {| fm := fm h; kern := kern h; client := set_sources (delete id (sources (client h))) (next_source (client h)) (client h) |}.
Proof.
  intros [Hf Hsh Hc Hn Hs Htm Hx] Hid Ht Hne. split; simpl; try done.
  - intros s u sc [Hs' Hl]%lookup_delete_Some. destruct (Hs _ _ _ Hl) as (? & [?|?]); [congruence|auto].
  - intros u mu Hu Hnz. destruct (Htm _ _ Hu Hnz) as (sc & Hsc). exists sc. rewrite lookup_delete_ne; [done|].
    intros Heq. rewrite <- Heq, Hid in Hsc. by simplify_eq.
Qed.

Lemma check_reset t st now m Q h :
  ttys (client h) !! t = Some m →
  wp (check_tty_idle t st now) Q
    {| fm := fm h; kern := kern h; client := set_ttys (<[t := with_timeout 0 m]> (ttys (client h))) (client h) |} →
  wp (check_tty_idle t st now) Q h.
Proof.
  intros Ht HQ. apply wp_bind, (wp_modify_tty _ _ m); [done|]. unfold wp, check_tty_idle in HQ. unfold_prog.
  unfold modify_tty, the_tty, modify_desk in *. unfold_prog. simpl in HQ. rewrite lookup_insert_eq in HQ. simpl in HQ.
  rewrite insert_insert_eq in HQ. exact HQ.
Qed.

Lemma timer_checked id t secs m path atime now h :
  tty_inv h → sources (client h) !! id = Some (t, secs) → ttys (client h) !! t = Some m → device m = Some path →
  (serial (fm h) + 1 < 2 ^ 32)%Z →
  wp (timer_fires id (Some atime) now)
    (λ _ h', tty_inv h' ∧ sources (client h') !! id = None ∧
      checked id t m (threshold m <=? code_idle atime now)%Z (code_remaining m atime now) h h') h.
Proof.
  intros Hh Hs Ht Hdev Hser. destruct (timer_dispatched _ _ _ _ Hh Hs) as (m0 & Ht0 & Hid & Hnw & Hh1). simplify_eq.
  pose proof (ti_source _ _ Hh _ _ _ Hs) as [Hpos _].
  apply wp_bind, wp_get_desk. rewrite Hs. apply wp_bind, (check_reset _ _ _ m); [done|].
  eapply wp_mono; [by apply (check_body (timeout_id m) t (with_timeout 0 m) path); try done; apply lookup_insert_eq|].
  intros r h2 (-> & Hh2 & (m' & G1 & G2 & G3 & G4 & G5 & G6 & G7 & G8)). simpl in *.
  apply wp_modify_desk. simpl. rewrite insert_insert_eq in G1. set (id := timeout_id m) in *.
  assert (sources (client h2) !! id = Some (t, secs)) as Hs2 by (by rewrite G7; [|lia|lia]).
  assert (timeout_id m' ≠ id) as Hnew by (destruct G6; lia).
  split; [apply (source_removed id t m' secs); try done; by rewrite G1, lookup_insert_eq|].
  split; [apply lookup_delete_eq|]. exists m'. simpl. split_and!; try done.
  - intros s Hsn Hne. rewrite lookup_delete_ne by done. by apply G7.
  - assert (∀ n, waits_for_timer t m' n h2 → waits_for_timer t m' n
      {| fm := fm h2; kern := kern h2; client := set_sources (delete id (sources (client h2))) (next_source (client h2)) (client h2) |}) as Hwait.
    { intros n [? ?]. split; [done|]. simpl. by rewrite lookup_delete_ne. }
    case_match; [destruct G8; auto|auto].
Qed.


(** When the tty cannot be found, a monitor stops for good: it has neither a timer
    nor a watch afterwards, and its hint stays what it was. *)
Theorem tty_check_gives_up id t secs now h :
  tty_inv h → sources (client h) !! id = Some (t, secs) →
  wp (timer_fires id None now)
    (λ _ h', fm h' = fm h ∧ idle_changed (client h') = idle_changed (client h) ∧ not_watching t h' ∧
      (∃ m, ttys (client h') !! t = Some m ∧ timeout_id m = 0%Z) ∧
      ∀ s n, sources (client h') !! s ≠ Some (t, n)) h.
Proof.
  intros Hh Hs. destruct (timer_dispatched _ _ _ _ Hh Hs) as (m & Ht & Hid & Hnw & Hh1).
  apply wp_bind, wp_get_desk. rewrite Hs. apply wp_bind, wp_bind, (wp_modify_tty _ _ m); [done|].
  apply wp_bind, (wp_the_tty _ (with_timeout 0 m)); [apply lookup_insert_eq|].
  assert (∀ Q : bool → host positive K desk → Prop, ∀ h, Q false h →
    wp (match device (with_timeout 0 m) with None | _ => mret false end) Q h) as Hret.
  { intros Q h' HQ. by destruct (device (with_timeout 0 m)). }
  apply Hret, wp_modify_desk. simpl. split_and!; [done..|by eexists; rewrite lookup_insert_eq|].
  intros s n [Hne Hl]%lookup_delete_Some. destruct (ti_source _ _ Hh _ _ _ Hl) as (Hpos & [?|(mu & Hu & ?)]); [lia|].
  by simplify_eq.
Qed.

(** ** An access *)

Definition tells h (e : FileMonitorEventInfo) : Prop := deliveries g_build_filename (fm h) e ≠ [].

(** The callback removes the cell that the file monitor stands at. *)
Lemma access_frees_cell t m a c id ev p h :
  tty_inv h → initialized_inotify (fm h) = true → cell_at (fm h) a c id →
  ttys (client h) !! t = Some m → file_notify_id m = id → file_monitor m = true →
  wp (file_access_cb t ev p) (λ _ h', no_cell (fm h') a c) h.
Proof.
  intros Hh Hinit Hcell Ht Hid Hfm. apply wp_bind. unfold wp at 1. rewrite (set_idle_hint_run t m) by done.
  pose proof (tty_inv_hinted _ _ _ false _ Hh Ht) as Hh1. pose proof (hinted_tty _ _ false _ Ht) as Ht1.
  eapply wp_mono; [eapply start_inv; [apply Hh1|apply Ht1]|].
  intros [] h2 (_ & _ & _ & _ & Hgone). by apply (Hgone Hinit a c id).
Qed.

Lemma next_cell_gone a c h : no_cell (fm h) a c → next_cell a c h = None.
Proof.
  intros Hno. unfold next_cell, the_watch. unfold_prog. destruct (watches (fm h) !! a) as [w|] eqn:Hw; [|done].
  by rewrite (Hno _ Hw).
Qed.

Lemma emit_to_access fuel a w pre e l h :
  tty_inv h → initialized_inotify (fm h) = true → length l ≤ fuel →
  watches (fm h) !! a = Some w → w_notifies w = pre ++ l →
  emit_to file_access_cb g_build_filename fuel a e l h =
    match told g_build_filename (fm h) w e l with [] => Some (tt, h) | _ => None end.
Proof.
  intros Hh Hinit. revert fuel pre. induction l as [|[c id] l IH]; intros [|fuel] pre Hfuel Hw Hcells;
    simpl in Hfuel; try lia; try done.
  destruct (inv_nodup _ (ti_fm _ _ Hh) _ _ Hw) as [Hnd _]. rewrite Hcells in Hnd.
  assert (cell_at (fm h) a c id) as Hcell.
  { exists w. split; [done|]. rewrite Hcells. apply elem_of_app. right. left. }
  destruct (cell_notify _ _ _ _ (ti_fm _ _ Hh) Hcell) as (n & Hn & _).
  destruct (ti_notify _ _ Hh Hinit _ _ Hn) as (_ & t & m & Hf & Ht & Hid & Hfm & _).
  simpl. unfold deliver, get_fm. unfold_prog. unfold told; simpl. rewrite Hn. simpl. rewrite Hf.
  destruct (has_bits (n_mask n) (e_event e)) eqn:Hmask; simpl.
  - unfold the_watch. rewrite Hw.
    destruct (wp_elim _ _ _ (access_frees_cell t m a c id (e_event e) (event_path g_build_filename w e) h Hh Hinit Hcell Ht Hid Hfm))
      as ([] & h' & -> & Hgone). by rewrite next_cell_gone.
  - assert (next_cell a c h = Some (l, h)) as ->.
    { unfold next_cell, the_watch. unfold_prog. rewrite Hw, Hcells, cells_after_here; done. }
    apply (IH fuel (pre ++ [(c, id)])); [lia|done|by rewrite Hcells, <- app_assoc].
Qed.

Lemma emit_event_access e h :
  tty_inv h →
  emit_event file_access_cb g_build_filename e h =
    match deliveries g_build_filename (fm h) e with [] => Some (tt, h) | _ => None end.
Proof.
  intros Hh. unfold emit_event, get_fm, deliveries, the_watch. unfold_prog.
  destruct (wd_to_watch (fm h) !! e_wd e) as [a|] eqn:Hwd; [|done].
  destruct (inv_wd _ (ti_fm _ _ Hh) _ _ Hwd) as (w & Hw & _). simpl. rewrite Hw. simpl.
  destruct (initialized_inotify (fm h)) eqn:Hinit; [|by rewrite (ti_shut _ _ Hh) in Hwd].
  by apply (emit_to_access _ a w []).
Qed.

Lemma tty_inv_events x b l h :
  tty_inv_but x h → tty_inv_but x {| fm := set_events b l (fm h); kern := kern h; client := client h |} ∨ monitor_object (client h) = false.
Proof.
  intros Hh. destruct (monitor_object (client h)) eqn:Hobj; [left|by right]. destruct Hh as [Hf Hsh Hc Hn Hs Ht Hx].
  split; simpl; try done; [by eapply fm_inv_ext; [apply Hf|..]|congruence].
Qed.

Lemma emit_queue_access fuel h :
  tty_inv h → length (notify_events (fm h)) ≤ fuel →
  match emit_queue file_access_cb g_build_filename fuel h with
  | None => Exists (tells h) (notify_events (fm h))
  | Some (_, h') => Forall (λ e, ¬ tells h e) (notify_events (fm h)) ∧
      h' = {| fm := set_events (events_idle_id (fm h)) [] (fm h); kern := kern h; client := client h |}
  end.
Proof.
  revert h. induction fuel as [|fuel IH]; intros h Hh Hfuel; simpl; unfold get_fm, modify_fm; unfold_prog;
    destruct (notify_events (fm h)) as [|e q] eqn:Hq; simpl in Hfuel; try lia.
  1,2: split; [done|]; destruct h as [[] ? ?]; simpl in *; by subst.
  destruct (tty_inv_events _ (events_idle_id (fm h)) q _ Hh) as [Hh1|Hobj].
  2: { by rewrite (ti_created _ _ Hh Hobj) in Hq. }
  rewrite emit_event_access by done. simpl.
  change (deliveries g_build_filename (set_events _ _ _) e) with (deliveries g_build_filename (fm h) e).
  destruct (deliveries g_build_filename (fm h) e) as [|d ds] eqn:Hd.
  2: { left. unfold tells. by rewrite Hd. }
  specialize (IH _ Hh1 ltac:(simpl; lia)). simpl in IH.
  destruct (emit_queue _ _ fuel _) as [[[] h']|].
  - destruct IH as [Hall ->]. split; [constructor; [by intros Hne; apply Hne|done]|done].
  - by right.
Qed.

Lemma emit_events_access h :
  tty_inv h →
  match emit_events_in_idle file_access_cb g_build_filename h with
  | None => Exists (tells h) (notify_events (fm h))
  | Some (_, h') => Forall (λ e, ¬ tells h e) (notify_events (fm h)) ∧ tty_inv h'
  end.
Proof.
  intros Hh. unfold emit_events_in_idle, modify_fm, get_fm. unfold_prog. simpl.
  destruct (tty_inv_events _ false (notify_events (fm h)) _ Hh) as [Hh1|Hobj].
  - pose proof (emit_queue_access (length (notify_events (fm h))) _ Hh1) as Hrun. simpl in Hrun. specialize (Hrun ltac:(lia)).
    destruct (emit_queue _ _ _ _) as [[[] h']|]; [|done]. destruct Hrun as [Hall ->]. split; [done|].
    destruct (tty_inv_events _ false [] _ Hh1) as [?|Hobj]; [done|].
    assert (set_events false [] (fm h) = fm h) as E by by rewrite (ti_created _ _ Hh Hobj).
    simpl. unfold set_events in E |- *. simpl in *. rewrite E. by destruct h.
  - pose proof (ti_created _ _ Hh Hobj) as Hfm. destruct h as [m k d]. simpl in *. subst m. by split.
Qed.

(** An access reaches a tty idle monitor only by a read of freed memory: the idle
    callback of the file monitor goes wrong exactly if one of the queued events
    is to be told to a tty idle monitor.  (The callback restarts the monitor,
    which removes its notification and with it the list cell that
    [emit_events_in_idle] is walking over.) *)
Lemma access_faults h :
  tty_inv h →
  emit_events_in_idle file_access_cb g_build_filename h = None ↔ Exists (tells h) (notify_events (fm h)).
Proof.
  intros Hh. pose proof (emit_events_access h Hh) as Hrun.
  destruct (emit_events_in_idle _ _ h) as [[r h']|]; [|done]. destruct Hrun as [Hall _]. split; [done|].
  intros (e & He & Htell)%Exists_exists. rewrite Forall_forall in Hall. by destruct (Hall e He).
Qed.

(** ** Reachable states *)

(** A new monitor gets an unused address, others are called while they live; the
    serial numbers do not wrap; the kernel writes whole events. *)
Definition tty_ok (i : tty_input) h : Prop :=
  match i with
  | TNew t _ => ttys (client h) !! t = None
  | TSetDevice t _ | TSetThreshold t _ | TStart t | TStop t | TFinalize t => is_Some (ttys (client h) !! t)
  | TTimer _ _ _ => (serial (fm h) + 1 < 2 ^ 32)%Z
  | TData reads => input_fits (FData reads) h
  | TRemovals | TEvents => True
  end.

Lemma tty_new_inv t s h :
  tty_inv h → ttys (client h) !! t = None → wp (ck_tty_idle_monitor_new t s) (λ _ h', tty_inv h') h.
Proof.
  intros [Hf Hsh Hc Hn Hs Ht Hx] Hfree.
  apply wp_bind, wp_modify_desk, (wp_modify_tty _ _ ck_tty_idle_monitor_init); [apply lookup_insert_eq|].
  simpl. rewrite insert_insert_eq. split; simpl; try done.
  - intros Hinit id n Hl. destruct (Hn Hinit id n Hl) as (? & u & mu & Hu & Hlu & ?). split; [done|]. exists u, mu.
    rewrite lookup_insert_ne; [done|]. intros <-. congruence.
  - intros sc u secs Hl. destruct (Hs _ _ _ Hl) as (? & [?|(mu & Hu & ?)]); [by auto|]. split; [done|]. right.
    exists mu. rewrite lookup_insert_ne; [done|]. intros <-. congruence.
  - intros u mu [[<- <-]|[Hne Hu]]%lookup_insert_Some; [done|by apply Ht].
Qed.

Lemma tty_finalize_inv t m h :
  tty_inv h → ttys (client h) !! t = Some m → wp (ck_tty_idle_monitor_finalize t) (λ _ h', tty_inv h') h.
Proof.
  intros Hh Ht. apply wp_bind. eapply wp_mono; [by apply stop_inv|]. intros [] h1 (Hh1 & Hc1 & _ & Hnw & _).
  destruct (tty_inv_untimed _ _ _ _ Hh Ht) as [_ Ht1]. rewrite <- Hc1 in Ht1.
  apply wp_modify_desk. destruct Hh1 as [Hf Hsh Hc Hn Hs Htm Hx]. split; simpl; try done.
  - intros Hinit id n Hl. destruct (Hn Hinit id n Hl) as (? & u & mu & Hu & Hlu & ?). split; [done|]. exists u, mu.
    rewrite lookup_delete_ne; [done|]. intros <-. by eapply Hnw.
  - intros sc u secs Hl. destruct (Hs _ _ _ Hl) as (? & [?|(mu & Hu & ?)]); [by auto|]. split; [done|]. right.
    exists mu. rewrite lookup_delete_ne; [done|]. intros <-. simplify_eq. simpl in *. lia.
  - intros u mu [_ Hu]%lookup_delete_Some. by apply Htm.
Qed.

Lemma tty_timer_inv id st now h :
  tty_inv h → (serial (fm h) + 1 < 2 ^ 32)%Z → wp (timer_fires id st now) (λ _ h', tty_inv h') h.
Proof.
  intros Hh Hser. destruct (sources (client h) !! id) as [[t secs]|] eqn:Hs.
  2: { apply wp_bind, wp_get_desk. rewrite Hs. by apply wp_ret. }
  destruct (timer_dispatched _ _ _ _ Hh Hs) as (m & Ht & Hid & Hnw & Hh1).
  assert (∀ st, device m = None ∨ st = None → wp (timer_fires id st now) (λ _ h', tty_inv h') h) as Hup.
  { intros st' Hno. pose proof (ti_source _ _ Hh _ _ _ Hs) as [Hpos _].
    apply wp_bind, wp_get_desk. rewrite Hs. apply wp_bind, wp_bind, (wp_modify_tty _ _ m); [done|].
    apply wp_bind, (wp_the_tty _ (with_timeout 0 m)); [apply lookup_insert_eq|]. simpl.
    assert (∀ k, match device m, st' with Some _, Some a => k a | _, _ => mret false end = mret false :> prog (host positive K desk) bool) as ->.
    { intros k. by destruct Hno as [->| ->]; [|destruct (device m)]. }
    apply wp_ret, wp_modify_desk. eapply (source_removed id t (with_timeout 0 m)); [done|done|apply lookup_insert_eq|simpl; lia]. }
  destruct (device m) as [path|] eqn:Hdev; [|by apply Hup; left]. destruct st as [atime|]; [|by apply Hup; right].
  eapply wp_mono; [by apply (timer_checked id t secs m path)|]. by intros [] h' (? & _).
Qed.

Lemma tty_inv_kept h h' :
  tty_inv h → monitor_object (client h) = true → fm_inv (fm h') → client h' = client h →
  kept_or_closed (fm h) (fm h') → tty_inv h'.
Proof.
  intros [Hf Hsh Hc Hn Hs Ht Hx] Hobj Hf' Ec Hkept. split; rewrite ?Ec; try done.
  - destruct Hkept as [(_ & Ei & _ & Hwd)|[_ ?]]; [|done]. rewrite Ei. intros Hi. apply map_empty. intros d.
    apply Hwd. by rewrite Hsh.
  - congruence.
  - destruct Hkept as [(_ & Ei & Hreq & _)|[-> _]]; [|done]. rewrite Ei. intros Hi id n' (n & Hid & -> & ->)%Hreq.
    by apply Hn.
Qed.

(** Nothing that can happen breaks the invariant; nothing but the idle callback
    for the events can go wrong. *)
Lemma tty_serve_inv i h :
  tty_inv h → tty_ok i h → i ≠ TEvents → wp (tty_serve g_build_filename i) (λ _ h', tty_inv h') h.
Proof.
  intros Hh Hok Hne. destruct i as [t s|t s|t n|t|t|t|id st now|reads| |]; simpl in *; try done.
  - by apply tty_new_inv.
  - destruct Hok as [m Ht]. apply (wp_modify_tty _ _ m); [done|]. by apply (tty_inv_update 0 t m (with_device s m)).
  - destruct Hok as [m Ht]. apply (wp_modify_tty _ _ m); [done|]. by apply (tty_inv_update 0 t m (with_threshold n m)).
  - destruct Hok as [m Ht]. eapply wp_mono; [by eapply start_inv|]. by intros [] h' (? & _).
  - destruct Hok as [m Ht]. eapply wp_mono; [by eapply stop_inv|]. by intros [] h' (? & _).
  - destruct Hok as [m Ht]. by eapply tty_finalize_inv.
  - by apply tty_timer_inv.
  - apply wp_bind. eapply wp_mono; [apply data_pending_inv; [apply (ti_fm _ _ Hh)|done]|].
    intros r h' (Hf' & Hc' & Hk). apply wp_ret. apply (tty_inv_kept h); try done.
    destruct (monitor_object (client h)) eqn:Hobj; [done|]. destruct Hok as [Hinit _].
    by rewrite (ti_created _ _ Hh Hobj) in Hinit.
  - apply wp_bind. destruct (monitor_object (client h)) eqn:Hobj.
    + eapply wp_mono; [apply emit_removals_inv, (ti_fm _ _ Hh)|]. intros r h' (_ & Hf' & Hc' & _ & Hk).
      apply wp_ret. apply (tty_inv_kept h); try done. by left.
    + pose proof (ti_created _ _ Hh Hobj) as Hfm. unfold wp. destruct h as [m k d]. simpl in *. subst m. exact Hh.
Qed.

Inductive tty_reachable : host positive K desk → Prop :=
| tty_reach_start k : tty_reachable (tty_start k)
| tty_reach_step i h h' : tty_reachable h → tty_ok i h → tty_serve g_build_filename i h = Some (tt, h') → tty_reachable h'.

Lemma reachable_inv h : tty_reachable h → tty_inv h.
Proof.
  induction 1 as [k|i h h' _ IH Hok Hrun]; [apply tty_inv_start|].
  assert (i = TEvents ∨ i ≠ TEvents) as [->|Hne] by (destruct i; auto).
  - simpl in Hrun. pose proof (emit_events_access h IH) as Hemit. unfold_prog.
    destruct (emit_events_in_idle _ _ h) as [[r h1]|]; [|done]. simplify_eq. apply Hemit.
  - pose proof (tty_serve_inv i h IH Hok Hne) as Hwp. unfold wp in Hwp. by rewrite Hrun in Hwp.
Qed.

(** C19: In every state that tty idle monitors can reach, whatever they and the kernel
    do: every operation is served, except that the idle callback of the file
    monitor reads freed memory exactly if one of the queued events is to be told
    to a tty idle monitor.  An access to an idle tty never reaches its monitor in
    another way: the callback restarts the monitor, which removes the
    notification, the list cell and the watch that the file monitor is walking
    over. *)
Theorem access_use_after_free i h :
  tty_reachable h → tty_ok i h →
  tty_serve g_build_filename i h = None ↔ i = TEvents ∧ Exists (tells h) (notify_events (fm h)).
Proof.
  intros Hr Hok. pose proof (reachable_inv h Hr) as Hh.
  assert (i = TEvents ∨ i ≠ TEvents) as [->|Hne] by (destruct i; auto).
  - rewrite <- (access_faults h Hh). simpl. unfold_prog.
    destruct (emit_events_in_idle _ _ h) as [[r h1]|]; split; try done. by intros [_ ?].
  - pose proof (tty_serve_inv i h Hh Hok Hne) as Hwp. unfold wp in Hwp.
    destruct (tty_serve g_build_filename i h); [split; [done|by intros [? _]]|done].
Qed.
End policy.
