(* ===== verification/TtyIdleRuns.v ===== *)
(** * Concrete runs of the file monitor and of a tty idle monitor. *)

From S2P Require Import Prelude FileMonitor FileMonitorFacts FileMonitorPolicy TtyIdle TtyIdleFacts TtyIdlePolicy.

(** A kernel in which every watched file is a new one: descriptors 1, 2, ... *)
#[local] Instance counting_kernel : Inotify Z :=
  {| inotify_init := λ k, (true, k); inotify_add_watch := λ _ _ k, (k, (k + 1)%Z);
     inotify_rm_watch := λ _ k, k; inotify_close := λ k, k |}.
#[local] Instance some_order : HashOrder :=
  {| hash_order := λ A _ m, map_to_list m; hash_order_perm := λ A _ m, reflexivity _ |}.
Definition join_path (p name : string) : string := p +:+ "/" +:+ name.

(** An event without a name. *)
Definition plain_event (wd mask : Z) : inotify_event := {| i_wd := wd; i_mask := mask; i_cookie := 0; i_len := 0; i_name := "" |}.
Definition data (evs : list inotify_event) : list read_result := [R_interrupted; R_bytes (encode_events evs)].

(** ** A tty that is accessed *)

Definition tty_host := host positive Z desk.
Fixpoint tty_run (l : list (@tty_input)) (h : tty_host) : option tty_host :=
  match l with
  | [] => Some h
  | i :: l => match tty_serve join_path i h with Some (_, h) => tty_run l h | None => None end
  end.
Definition run_or (l : list (@tty_input)) : tty_host := default (tty_start 1%Z) (tty_run l (tty_start 1%Z)).

Lemma tty_run_snoc l i h : tty_run (l ++ [i]) h = h' ← tty_run l h; r ← tty_serve join_path i h'; Some r.2.
Proof.
  revert h. induction l as [|j l IH]; intros h; simpl; [by destruct (tty_serve join_path i h) as [[? ?]|]|].
  destruct (tty_serve join_path j h) as [[? ?]|]; [apply IH|done].
Qed.
Lemma reach_snoc l i :
  tty_reachable join_path (run_or l) → tty_ok i (run_or l) →
  match tty_run (l ++ [i]) (tty_start 1%Z) with Some _ => true | None => false end = true → tty_reachable join_path (run_or (l ++ [i])).
Proof.
  intros Hl Hok. unfold run_or in *. rewrite tty_run_snoc. destruct (tty_run l (tty_start 1%Z)) as [h|]; [|done]. simpl in *.
  destruct (tty_serve join_path i h) as [[[] h']|] eqn:Hrun; [|done]. intros _. by eapply tty_reach_step.
Qed.

(** The monitor of tty2 starts at the time 100, its timer fires at 130: no access
    since 90.  It waits for an access, the kernel reports one. *)
Definition tty2 : positive := 1.
Definition until_timer : list (@tty_input) := ([] ++ [TNew tty2 (Some "/dev/tty2")]) ++ [TStart tty2].
Definition until_access : list (@tty_input) :=
  (until_timer ++ [TTimer 1 (Some 90%Z) 130%Z]) ++ [TData (data [plain_event 1 IN_ACCESS])].

Lemma access_ok evs h :
  initialized_inotify (fm h) = true → buflen (fm h) = 1024%Z → Forall event_ok evs → evs ≠ [] → 
  input_fits (U := positive) (K := Z) (C := desk) (FData (data evs)) h.
Proof.
  intros Hinit Hlen Hok Hne. split; [done|]. rewrite Hlen. unfold data. simpl.
  destruct evs as [|ev evs]; [done|]. change (encode_events (ev :: evs)) with (encode_event ev ++ encode_events evs).
  simpl. by exists (ev :: evs).
Qed.

Lemma until_timer_reachable : tty_reachable join_path (run_or until_timer).
Proof.
  apply reach_snoc; [apply reach_snoc; [apply tty_reach_start|vm_compute; reflexivity..]| |vm_compute; reflexivity].
  vm_compute. eauto.
Qed.
Lemma until_access_reachable : tty_reachable join_path (run_or until_access).
Proof.
  apply reach_snoc; [apply reach_snoc; [apply until_timer_reachable|vm_compute; reflexivity..]| |vm_compute; reflexivity].
  apply access_ok; [vm_compute; reflexivity..| |done].
  constructor; [|constructor]. unfold event_ok, plain_event; simpl. split_and!; try done. by left.
Qed.

Lemma access_use_after_free_witness :
  tty_serve join_path TEvents (run_or until_access) = None ∧
  idle_changed (client (run_or until_access)) = [(tty2, true)].
Proof.
  split; [|vm_compute; reflexivity].
  apply (access_use_after_free join_path TEvents (run_or until_access) until_access_reachable I).
  split; [reflexivity|]. apply Exists_exists. exists {| e_wd := 1; e_event := 2; e_path := None |}.
  split; [vm_compute; left|]. intros E. vm_compute in E. discriminate E.
Defined.



(** ** Clients that only take notes *)

Definition notes := list (string * Z * cstr).
Definition note_host := host string Z notes.
Definition note (u : string) (e : Z) (p : cstr) (c : notes) : notes := c ++ [(u, e, p)].
Definition note_start : note_host :=
  match ck_file_monitor_new {| fm := ck_file_monitor_init; kern := 1%Z; client := [] |} with
  | Some (_, h) => h
  | None => {| fm := ck_file_monitor_init; kern := 1%Z; client := [] |}
  end.
Definition note_serve (i : @fm_input string) : note_host → option (unit * note_host) :=
  serve (passive note) join_path i.
Fixpoint note_run (l : list (@fm_input string)) (h : note_host) : note_host :=
  match l with
  | [] => h
  | i :: l => match note_serve i h with Some (_, h) => note_run l h | None => h end
  end.

Lemma passive_considerate : considerate (passive (K := Z) note) (λ h, fm_inv (fm h)).
Proof. intros u ev p h a c id n Hh _ _ _. split_and!; [done..|apply spares_refl]. Qed.

(** Whatever the inputs, they keep the invariant. *)
Fixpoint notes_fit (l : list (@fm_input string)) (h : note_host) : Prop :=
  match l with
  | [] => True
  | i :: l => input_fits i h ∧ notes_fit l (note_run [i] h)
  end.
Lemma note_run_inv l h : fm_inv (fm h) → notes_fit l h → fm_inv (fm (note_run l h)).
Proof.
  revert h. induction l as [|i l IH]; intros h Hh; simpl; [done|]. intros [Hfit Hrest].
  destruct (wp_elim _ _ _ (file_monitor_safe _ join_path i h passive_considerate Hh Hfit)) as ([] & h' & Hrun & Hh').
  unfold note_serve in *. rewrite Hrun in *. by apply IH.
Qed.

Lemma note_start_inv : fm_inv (fm note_start).
Proof. by split; simpl; intros; simplify_map_eq. Qed.

(** Two clients on a directory, one for new files, one for changes. *)
Definition two_clients : note_host :=
  note_run [FAdd "/run/seats" CK_FILE_MONITOR_EVENT_CREATE (Some "creations");
            FAdd "/run/seats" (Z.lor CK_FILE_MONITOR_EVENT_CREATE CK_FILE_MONITOR_EVENT_CHANGE) (Some "everything")] note_start.
Definition created_then_changed : list inotify_event :=
  [{| i_wd := 1; i_mask := IN_CREATE; i_cookie := 0; i_len := 16; i_name := "seat0" |}; plain_event 1 IN_MODIFY].

Lemma created_then_changed_ok : Forall event_ok created_then_changed.
Proof. repeat constructor; unfold event_ok; simpl; (done || lia || by left). Qed.

Lemma two_clients_inv : fm_inv (fm two_clients).
Proof. apply note_run_inv; [apply note_start_inv|]. by vm_compute. Qed.

Lemma events_reach_clients_witness :
  acts note (infos (fm two_clients) created_then_changed ≫= deliveries join_path (fm two_clients)) [] =
    [("everything", CK_FILE_MONITOR_EVENT_CREATE, Some "/run/seats/seat0");
     ("creations", CK_FILE_MONITOR_EVENT_CREATE, Some "/run/seats/seat0");
     ("everything", CK_FILE_MONITOR_EVENT_CHANGE, Some "/run/seats")] ∧
  ∃ m', (inotify_data_pending (data created_then_changed);; emit_events_in_idle (passive note) join_path) two_clients =
    Some (false, {| fm := m'; kern := kern two_clients;
                    client := acts note (infos (fm two_clients) created_then_changed ≫= deliveries join_path (fm two_clients))
                                (client two_clients) |}) ∧ fm_inv m'.
Proof.
  split; [vm_compute; reflexivity|].
  apply (events_reach_clients note join_path (data created_then_changed) created_then_changed 1024 two_clients).
  - apply two_clients_inv.
  - vm_compute; reflexivity.
  - vm_compute; reflexivity.
  - apply created_then_changed_ok.
  - vm_compute; reflexivity.
Defined.

Lemma file_monitor_safe_witness :
  wp (note_serve (FData (data created_then_changed))) (λ _ h', fm_inv (fm h')) two_clients.
Proof.
  apply (file_monitor_safe (passive note) join_path (FData (data created_then_changed)) two_clients).
  - intros u ev p h a c id n Hh _ _ _. split_and!; [done..|apply spares_refl].
  - apply two_clients_inv.
  - split; [vm_compute; reflexivity|]. exists created_then_changed. split; [reflexivity|apply created_then_changed_ok].
Defined.

(** A file is deleted and made again: the kernel forgets the watch 1 and says so;
    before the idle callback has forgotten it too, the client asks for the path
    again and is put on the old watch, although the kernel has a new one, 2. *)
Definition recreated : note_host :=
  note_run [FAdd "/run/x" CK_FILE_MONITOR_EVENT_DELETE (Some "old");
            FData (data [plain_event 1 IN_DELETE_SELF; plain_event 1 IN_IGNORED]);
            FEvents;
            FAdd "/run/x" CK_FILE_MONITOR_EVENT_CHANGE (Some "new");
            FRemovals] note_start.

(** The new request was accepted and its notification is there, but without a
    watch: the kernel's events for the new file are dropped, and the watch that
    the kernel keeps for them is never removed. *)
Theorem recreated_file_unwatched :
  kern recreated = 3%Z ∧ client recreated = [("old", CK_FILE_MONITOR_EVENT_DELETE, Some "/run/x")] ∧
  (∃ n, notifies (fm recreated) !! 2%Z = Some n ∧ n_func n = Some "new" ∧ n_watch n = None) ∧
  watches (fm recreated) = ∅ ∧
  note_run [FData (data [plain_event 2 IN_MODIFY]); FEvents] recreated = recreated.
Proof.
  split; [vm_compute; reflexivity|]. split; [vm_compute; reflexivity|].
  split; [eexists; split; [vm_compute; reflexivity|done]|]. split; vm_compute; reflexivity.
Qed.
