(* ===== verification/EventLogger.v ===== *)
(** * The event logger: [src/ck-event-logger.c].

    The daemon pushes a copy of each event on a queue; a writer thread takes the
    events off the queue, looks whether the log file was replaced, and prints a
    line.  One step of the model is one call of the main thread or one part of
    the writer's loop; between the writer's look and its print, the file may be
    replaced.  A run is any interleaving of steps.

    Files have contents; a stream is a [FILE *], open on a file.  [None] is a use
    of a stream that was closed, or a failed assertion. *)

From S2P Require Import Prelude LogEvent LogLine.

Abbreviation log_event := (CkLogEvent cstr).

(** What the writer thread does next: [W_none] was never created. *)
Inductive writer_pc :=
| W_none
| W_pop
| W_print (event : log_event)
| W_exited.

(** What happened to an event that the writer took. *)
Inductive fate := Written (file : positive) | NotWritten.

(** [CkEventLoggerPrivate] ([None] on the queue: the event of type NONE that ends
    the writer), the files with their lines, the file at [log_filename], the
    streams that are open.  [pushed] and [done] are histories: the events ever
    queued and what became of those the writer took. *)
Record logger := {
  event_queue : list (option log_event);
  file : option positive;
  fd : positive;
  writer : writer_pc;
  files : gmap positive (list string);
  current : option positive;
  streams : gmap positive positive;
  next_stream : positive;
  finalizing : bool;
  pushed : list log_event;
  done : list (log_event * fate)
}.

Definition set_queue q l :=
  {| event_queue := q; file := file l; fd := fd l; writer := writer l; files := files l; current := current l;
     streams := streams l; next_stream := next_stream l; finalizing := finalizing l; pushed := pushed l; done := done l |}.
Definition set_writer w l :=
  {| event_queue := event_queue l; file := file l; fd := fd l; writer := w; files := files l; current := current l;
     streams := streams l; next_stream := next_stream l; finalizing := finalizing l; pushed := pushed l; done := done l |}.
Definition set_files fs c l :=
  {| event_queue := event_queue l; file := file l; fd := fd l; writer := writer l; files := fs; current := c;
     streams := streams l; next_stream := next_stream l; finalizing := finalizing l; pushed := pushed l; done := done l |}.
Definition set_stream f d ss n l :=
  {| event_queue := event_queue l; file := f; fd := d; writer := writer l; files := files l; current := current l;
     streams := ss; next_stream := n; finalizing := finalizing l; pushed := pushed l; done := done l |}.
Definition set_finalizing l :=
  {| event_queue := event_queue l; file := file l; fd := fd l; writer := writer l; files := files l; current := current l;
     streams := streams l; next_stream := next_stream l; finalizing := true; pushed := pushed l; done := done l |}.
Definition set_history p d l :=
  {| event_queue := event_queue l; file := file l; fd := fd l; writer := writer l; files := files l; current := current l;
     streams := streams l; next_stream := next_stream l; finalizing := finalizing l; pushed := p; done := d |}.

Abbreviation program := (prog logger).

(** ** Opening the log *)

(** What the system answers to [open_log_file]: how often [g_open] fails with
    ENFILE first, then whether each call succeeds.  Whether the file exists is
    the state's business. *)
Record open_env := {
  oe_mkdir : bool;
  oe_enfile : nat;
  oe_open : bool;
  oe_create : bool;
  oe_cloexec : bool;
  oe_fchown : bool;
  oe_fdopen : bool
}.

(** A file that is created is a new, empty one. *)
Definition create_log : program unit :=
  prog_modify (λ l, let f := fresh (dom (files l)) in set_files (<[f := []]> (files l)) (Some f) l).

(** The first [g_open], with its retries, and the creation; [None]: no file. *)
Fixpoint open_retry (enfile : nat) (oe : open_env) : program (option positive) :=
  match enfile with
  | S n => open_retry n oe
  | 0 =>
      c ← prog_gets current;
      match c with
      | Some f => mret (if oe_open oe then Some f else None)
      | None => if oe_create oe then create_log;; c ← prog_gets current; mret (if oe_open oe then c else None) else mret None
      end
  end.

(** [fdopen] gives a new stream on the opened file. *)
Definition open_log_file (oe : open_env) : program bool :=
  if negb (oe_mkdir oe) then mret false
  else
    opened ← open_retry (oe_enfile oe) oe;
    match opened with
    | None => mret false
    | Some f =>
        if negb (oe_cloexec oe) then mret false
        else if negb (oe_fchown oe) then mret false
        else if negb (oe_fdopen oe) then
          prog_modify (λ l, set_stream None (fd l) (streams l) (next_stream l) l);; mret false
        else
          prog_modify (λ l, set_stream (Some (next_stream l)) (next_stream l) (<[next_stream l := f]> (streams l))
                              (Pos.succ (next_stream l)) l);;
          mret true
    end.

(** [fclose] of a stream that is not open is undefined. *)
Definition fclose (s : positive) : program unit :=
  λ l, match streams l !! s with
       | Some _ => Some (tt, set_stream (file l) (fd l) (delete s (streams l)) (next_stream l) l)
       | None => None
       end.

Definition reopen_file_stream (oe : open_env) : program unit :=
  f ← prog_gets file;
  match f with None => mret tt | Some s => fclose s end;;
  open_log_file oe;;
  mret tt.

(** [fstat] of the old descriptor and the opening of the path for reading may
    fail for reasons of their own ([fstat_ok], [look_ok]); a descriptor whose
    stream was closed, and a path without a file, always fail. *)
Definition check_file_stream (fstat_ok look_ok : bool) (oe : open_env) : program unit :=
  old ← prog_gets (λ l, streams l !! fd l);
  new ← prog_gets current;
  match old with
  | None => reopen_file_stream oe
  | Some old_file =>
      if negb fstat_ok then reopen_file_stream oe
      else
        match new with
        | None => reopen_file_stream oe
        | Some new_file =>
            if negb look_ok then reopen_file_stream oe
            else if decide (old_file = new_file) then mret tt
            else reopen_file_stream oe
        end
  end.

(** ** Writing *)

(** [fprintf] to a stream that is not open is undefined. *)
Definition fprintf_line (s : positive) (ok : bool) (line : string) : program fate :=
  λ l, match streams l !! s with
       | None => None
       | Some f =>
           if ok then
             Some (Written f, set_files (<[f := default [] (files l !! f) ++ [line]]> (files l)) (current l) l)
           else Some (NotWritten, l)
       end.

(** [write_log_for_event] in two parts: what comes before the print ... *)
Definition write_log_check (ev : log_event) (fstat_ok look_ok : bool) (oe : open_env) : program unit :=
  match ck_log_event_to_string ev "" with
  | None => prog_abort
  | Some _ => check_file_stream fstat_ok look_ok oe
  end.
(** ... and the print, then [ck_log_event_free]. *)
Definition write_log_print (ev : log_event) (ok : bool) : program fate :=
  match ck_log_event_to_string ev "" with
  | None => prog_abort
  | Some line =>
      f ← prog_gets file;
      match f with
      | None => mret NotWritten
      | Some s => fprintf_line s ok line
      end
  end.

(** The writer's loop: the pop, which waits for the queue to have an element, ... *)
Definition writer_takes (fstat_ok look_ok : bool) (oe : open_env) : program unit :=
  l ← prog_get;
  match writer l, event_queue l with
  | W_pop, None :: q => prog_put (set_writer W_exited (set_queue q l))
  | W_pop, Some ev :: q =>
      prog_put (set_writer (W_print ev) (set_queue q l));; write_log_check ev fstat_ok look_ok oe
  | _, _ => mret tt
  end.
(** ... and the print. *)
Definition writer_prints (ok : bool) : program unit :=
  l ← prog_get;
  match writer l with
  | W_print ev =>
      r ← write_log_print ev ok;
      prog_modify (λ l, set_writer W_pop (set_history (pushed l) (done l ++ [(ev, r)]) l))
  | _ => mret tt
  end.

(** ** The main thread *)

(** [ck_log_event_copy] asserts that the type is one it knows. *)
Definition ck_event_logger_queue_event (ev : log_event) : program bool :=
  if loggable (event ev) then
    prog_modify (λ l, set_history (pushed l ++ [ev]) (done l) (set_queue (event_queue l ++ [Some ev]) l));; mret true
  else prog_abort.

Definition create_writer_thread (ok : bool) : program unit :=
  if ok then prog_modify (set_writer W_pop) else mret tt.

Definition ck_event_logger_constructor (thread_ok : bool) (oe : open_env) : program unit :=
  opened ← open_log_file oe;
  if opened : bool then create_writer_thread thread_ok else mret tt.

(** The NONE event; then the main thread waits for the writer to end
    ([finalizing]).  Joining a thread that was never created fails at once. *)
Definition destroy_writer_thread : program unit :=
  prog_modify (λ l, set_finalizing (set_queue (event_queue l ++ [None]) l)).

(** What [ck_event_logger_finalize] does when the join has returned. *)
Definition finalize_joined : program unit :=
  f ← prog_gets file;
  match f with None => mret tt | Some s => fclose s end.

(** ** Steps *)

(** Somebody else renames the log away or puts another file in its place. *)
Definition replace_log (c : option positive) : program unit :=
  prog_modify (λ l, set_files (match c with Some f => <[f := default [] (files l !! f)]> (files l) | None => files l end) c l).

Inductive logger_step :=
| S_queue (ev : log_event)
| S_finalize
| S_take (fstat_ok look_ok : bool) (oe : open_env)
| S_print (ok : bool)
| S_replace (c : option positive).

Definition logger_serve (s : logger_step) : program unit :=
  match s with
  | S_queue ev => ck_event_logger_queue_event ev;; mret tt
  | S_finalize => destroy_writer_thread
  | S_take fstat_ok look_ok oe => writer_takes fstat_ok look_ok oe
  | S_print ok => writer_prints ok
  | S_replace c => replace_log c
  end.

(** A new logger, before the constructor; [fs] and [c]: the files there are. *)
Definition ck_event_logger_init (fs : gmap positive (list string)) (c : option positive) : logger :=
  {| event_queue := []; file := None; fd := 1; writer := W_none; files := fs; current := c;
     streams := ∅; next_stream := 2; finalizing := false; pushed := []; done := [] |}.
