(* ===== verification/EventLoggerFacts.v ===== *)
(** * The event logger: no event is lost, the order is kept, and what goes wrong
    when the log cannot be opened again. *)

From stdpp Require Import fin_maps.
From S2P Require Import Prelude LogEvent LogLine EventLogger.

Implicit Types (l : logger) (s : logger_step).

(** ** Opening *)

(** Every answer is favourable. *)
Definition open_good (oe : open_env) : Prop :=
  oe_mkdir oe = true ∧ oe_open oe = true ∧ oe_create oe = true ∧ oe_cloexec oe = true ∧ oe_fchown oe = true ∧ oe_fdopen oe = true.

(** The streams: the descriptor is that of the stream, the log is a file. *)
Record streams_ok l : Prop := {
  so_fd : ∀ f, file l = Some f → fd l = f;
  so_none : file l = None → streams l !! fd l = None;
  so_next : ∀ f x, streams l !! f = Some x → (f < next_stream l)%positive;
  so_current : ∀ f, current l = Some f → is_Some (files l !! f)
}.

(** Only the files and the streams differ, and no file lost a line. *)
Record same_log l l' : Prop := {
  sl_queue : event_queue l' = event_queue l;
  sl_writer : writer l' = writer l;
  sl_finalizing : finalizing l' = finalizing l;
  sl_pushed : pushed l' = pushed l;
  sl_done : done l' = done l;
  sl_contents : ∀ f, default [] (files l' !! f) = default [] (files l !! f)
}.
Lemma same_log_refl l : same_log l l.
Proof. by split. Qed.
Lemma same_log_trans l1 l2 l3 : same_log l1 l2 → same_log l2 l3 → same_log l1 l3.
Proof. intros [] []. split; try congruence. Qed.

Lemma open_retry_spec n oe l :
  streams_ok l →
  ∃ r l', open_retry n oe l = Some (r, l') ∧ same_log l l' ∧ streams_ok l' ∧
    file l' = file l ∧ fd l' = fd l ∧ streams l' = streams l ∧ next_stream l' = next_stream l ∧
    (∀ f, r = Some f → current l' = Some f) ∧ (open_good oe → is_Some r).
Proof.
  intros Hl. induction n as [|n IH]; [|exact IH]. simpl. unfold_prog.
  destruct (current l) as [f|] eqn:Hc.
  - eexists _, l. split; [done|]. split; [apply same_log_refl|]. destruct (oe_open oe) eqn:Ho.
    + split_and!; try done. by intros g [= <-].
    + split_and!; try done. intros (_ & ? & _). congruence.
  - destruct (oe_create oe) eqn:Hcr.
    2: { eexists _, l. split; [done|]. split; [apply same_log_refl|]. split_and!; try done. intros (_ & _ & ? & _). congruence. }
    set (f := fresh (dom (files l))).
    assert (files l !! f = None) as Hfresh by apply not_elem_of_dom, is_fresh.
    eexists _, _. split; [done|]. split_and!; simpl; try done.
    + split; simpl; try done. intros g. destruct (decide (g = f)) as [->|]; [by rewrite lookup_insert_eq, Hfresh|by rewrite lookup_insert_ne].
    + destruct Hl as [Hf H0 Hn Hcur]. split; simpl; try done. intros g [= <-]. rewrite lookup_insert_eq. eauto.
    + intros g Hg. destruct (oe_open oe); congruence.
    + intros (_ & -> & _). eauto.
Qed.

(** The log is not opened, for a reason before [fdopen]. *)
Definition refused (oe : open_env) l : bool :=
  negb (oe_mkdir oe) ||
  match open_retry (oe_enfile oe) oe l with Some (Some _, _) => negb (oe_cloexec oe) || negb (oe_fchown oe) | _ => true end.

Definition stream_ok l : Prop := ∀ f, file l = Some f → is_Some (streams l !! f).
#[export] Instance stream_ok_dec l : Decision (stream_ok l).
Proof.
  unfold stream_ok. destruct (file l) as [f|]; [|by left]. destruct (streams l !! f) as [x|] eqn:Hx.
  - left. intros g [= <-]. by rewrite Hx.
  - right. intros H. destruct (H f eq_refl). congruence.
Defined.

Lemma open_log_spec oe l :
  streams_ok l → streams l !! fd l = None →
  ∃ r l', open_log_file oe l = Some (r, l') ∧ same_log l l' ∧ streams_ok l' ∧
    (if refused oe l then r = false ∧ file l' = file l ∧ streams l' = streams l else stream_ok l') ∧
    (open_good oe → r = true) ∧
    (r = true → ∃ f, file l' = Some (next_stream l) ∧ streams l' !! next_stream l = Some f ∧ current l' = Some f).
Proof.
  intros Hl Hclosed. destruct (open_retry_spec (oe_enfile oe) oe l Hl) as (r & l1 & Hrun & Hs & Hl1 & Hf & Hfd & Hst & Hn & Hcur & Hgood).
  unfold open_log_file, refused. destruct (oe_mkdir oe) eqn:E1; simpl.
  2: { eexists false, l. split_and!; try done. intros (? & _). congruence. }
  unfold_prog. rewrite Hrun. destruct r as [f|].
  2: { eexists false, l1. split_and!; try done. intros Hg. by destruct (Hgood Hg). }
  destruct (oe_cloexec oe) eqn:E2; simpl.
  2: { eexists false, l1. split_and!; try done. intros (_ & _ & _ & ? & _). congruence. }
  destruct (oe_fchown oe) eqn:E3; simpl.
  2: { eexists false, l1. split_and!; try done. intros (_ & _ & _ & _ & ? & _). congruence. }
  destruct (oe_fdopen oe) eqn:E4; simpl.
  2: { eexists false, _. split; [done|]. split_and!; try done.
       - by destruct Hs; split.
       - destruct Hl1. split; simpl; try done. intros _. by rewrite Hst, Hfd.
       - intros (_ & _ & _ & _ & _ & ?). congruence. }
  eexists true, _. split; [done|]. split_and!; try done.
  - by destruct Hs; split.
  - destruct Hl1 as [H1 H0 H2 H3]. split; simpl; try done; [by intros ? [= <-]|].
    intros g x [[<- _]|[_ Hg]]%lookup_insert_Some; [lia|]. specialize (H2 _ _ Hg). lia.
  - intros g [= <-]. simpl. rewrite lookup_insert_eq. eauto.
  - intros _. exists f. rewrite <- Hn. simpl. rewrite lookup_insert_eq. split_and!; auto.
Qed.

(** ** Looking for a replaced log *)

Definition replaced (fstat_ok look_ok : bool) l : bool :=
  match streams l !! fd l, current l with
  | Some old, Some new => negb fstat_ok || negb look_ok || bool_decide (old ≠ new)
  | _, _ => true
  end.

Lemma fclose_spec f l x :
  streams_ok l → streams l !! f = Some x → 
  ∃ l', fclose f l = Some (tt, l') ∧ same_log l l' ∧ streams_ok l' ∧ file l' = file l ∧ current l' = current l ∧
    files l' = files l ∧ streams l' = delete f (streams l).
Proof.
  intros [H1 H0 H2 H3] Hf. unfold fclose. rewrite Hf. eexists. split; [done|]. split_and!; try done.
  split; simpl; try done; [intros Hn; apply lookup_delete_None; auto|].
  intros g y [_ Hg]%lookup_delete_Some. by eapply H2.
Qed.

(** The stream is closed, the log opened; if the log is refused, [file] keeps
    pointing to the closed stream. *)
Lemma reopen_spec oe l :
  streams_ok l → stream_ok l →
  ∃ l0 l', reopen_file_stream oe l = Some (tt, l') ∧ same_log l l' ∧ streams_ok l' ∧
    same_log l l0 ∧ current l0 = current l ∧ files l0 = files l ∧
    (if refused oe l0 then file l' = file l ∧ ∀ f, file l' = Some f → streams l' !! f = None else stream_ok l') ∧
    (open_good oe → stream_ok l' ∧ ∃ f x, file l' = Some f ∧ streams l' !! f = Some x ∧ current l' = Some x).
Proof.
  intros Hl Hst. unfold reopen_file_stream. unfold_prog.
  assert (∃ l0, (match file l with None => λ l, Some (tt, l) | Some f => fclose f end) l = Some (tt, l0) ∧ same_log l l0 ∧
    streams_ok l0 ∧ file l0 = file l ∧ current l0 = current l ∧ files l0 = files l ∧ streams l0 !! fd l0 = None ∧
    ∀ f, file l = Some f → streams l0 !! f = None) as (l0 & -> & Hs0 & Hl0 & Hf0 & Hc0 & Hfs0 & Hcl0 & Hgone).
  { destruct (file l) as [f|] eqn:Hf.
    - destruct (Hst _ Hf) as [x Hx]. destruct (fclose_spec _ _ _ Hl Hx) as (l0 & ? & ? & ? & ? & ? & ? & Hdel).
      exists l0. assert (fd l0 = f) as Hfd by (by apply so_fd; congruence). rewrite Hfd, Hdel.
      split_and!; try done; try congruence; [apply lookup_delete_eq|]. intros g [= <-]. apply lookup_delete_eq.
    - exists l. split_and!; try done. by apply so_none. }
  destruct (open_log_spec oe l0 Hl0 Hcl0) as (r & l' & -> & Hs & Hl' & Hr & Hgood & Htrue). simpl.
  exists l0, l'. split; [done|]. split; [by eapply same_log_trans|]. split_and!; try done.
  - destruct (refused oe l0); [|done]. destruct Hr as (-> & Hf & Hstr). rewrite Hf, Hstr, Hf0. split; [done|]. apply Hgone.
  - intros Hg. destruct (Htrue (Hgood Hg)) as (x & H1 & H2 & H3). split; [|by exists (next_stream l0), x].
    intros f Hf. rewrite H1 in Hf. simplify_eq. by rewrite H2.
Qed.

Lemma refused_same oe l l' : current l' = current l → files l' = files l → refused oe l' = refused oe l.
Proof.
  intros Hc Hf. unfold refused. f_equal.
  assert (∀ n, match open_retry n oe l' with Some (Some _, _) => true | _ => false end =
    match open_retry n oe l with Some (Some _, _) => true | _ => false end) as Hsame.
  { induction n as [|n IH]; [|exact IH]. simpl. unfold_prog. rewrite Hc. destruct (current l); [by destruct (oe_open oe)|].
    destruct (oe_create oe); [|done]. simpl. by destruct (oe_open oe). }
  specialize (Hsame (oe_enfile oe)).
  by destruct (open_retry (oe_enfile oe) oe l') as [[[?|] ?]|], (open_retry (oe_enfile oe) oe l) as [[[?|] ?]|].
Qed.

(** The log is written to where it is now. *)
Definition attached l : Prop := ∃ f x, file l = Some f ∧ streams l !! f = Some x ∧ current l = Some x.

Lemma check_spec fstat_ok look_ok oe l :
  streams_ok l → stream_ok l →
  ∃ l', check_file_stream fstat_ok look_ok oe l = Some (tt, l') ∧ same_log l l' ∧ streams_ok l' ∧
    (if replaced fstat_ok look_ok l && refused oe l && bool_decide (file l ≠ None) then ¬ stream_ok l' else stream_ok l') ∧
    (open_good oe → stream_ok l' ∧ attached l').
Proof.
  intros Hl Hst.
  destruct (reopen_spec oe l Hl Hst) as (l0 & l' & Hrun & Hs & Hl' & Hs0 & Hc0 & Hf0 & Hr & Hgood).
  rewrite (refused_same _ _ _ Hc0 Hf0) in Hr.
  assert (if refused oe l && bool_decide (file l ≠ None) then ¬ stream_ok l' else stream_ok l') as Hreopen.
  { destruct (refused oe l); [|done]. destruct Hr as [Hf Hgone]. case_bool_decide as Hn; simpl.
    - intros Hok. destruct (file l) as [f|] eqn:Hfl; [|done]. destruct (Hok f Hf) as [x Hx]. by rewrite Hgone in Hx.
    - intros f Hf'. rewrite Hf in Hf'. congruence. }
  unfold check_file_stream, replaced. unfold_prog.
  destruct (streams l !! fd l) as [old|] eqn:Hold; [|by exists l'; rewrite Hrun].
  destruct fstat_ok; simpl; [|exists l'; by destruct (current l); rewrite Hrun].
  destruct (current l) as [new|] eqn:Hcur; [|by exists l'; rewrite Hrun].
  destruct look_ok; simpl; [|by exists l'; rewrite Hrun].
  destruct (decide (old = new)) as [->|Hne].
  - rewrite bool_decide_eq_false_2 by auto. simpl. exists l. split_and!; try done.
    intros _. split; [done|]. destruct (file l) as [f|] eqn:Hf; [|by rewrite (so_none l Hl) in Hold].
    exists f, new. split_and!; try done. by rewrite <- (so_fd l Hl f Hf).
  - rewrite bool_decide_eq_true_2 by done. simpl. by exists l'; rewrite Hrun.
Qed.

(** ** Reachable states *)

Section logger.
(** The files there are when the logger is created. *)
Context (fs0 : gmap positive (list string)).

(** A "%s" of a NULL seat id is undefined. *)
Definition printable (ev : log_event) : Prop := is_Some (ck_log_event_to_string ev "").
Definition step_ok s l : Prop :=
  match s with
  | S_queue ev => printable ev ∧ finalizing l = false
  | S_finalize => finalizing l = false
  | _ => True
  end.

(** A logger whose log could be opened and whose thread was created. *)
Inductive logger_reachable : logger → Prop :=
| logger_constructed c oe l :
    (∀ f, c = Some f → is_Some (fs0 !! f)) →
    ck_event_logger_constructor true oe (ck_event_logger_init fs0 c) = Some (tt, l) → writer l = W_pop →
    logger_reachable l
| logger_steps s l l' :
    logger_reachable l → step_ok s l → logger_serve s l = Some (tt, l') → logger_reachable l'.

(** ** The invariant *)

Definition in_hand l : list log_event := match writer l with W_print ev => [ev] | _ => [] end.
Definition line_of (ev : log_event) : string := default "" (ck_log_event_to_string ev "").
(** The lines that went to the file [f]. *)
Definition written_to (f : positive) (d : list (log_event * fate)) : list string :=
  omap (λ r, match r.2 with Written f' => if decide (f' = f) then Some (line_of r.1) else None | NotWritten => None end) d.

(** The events wait on the queue in the order in which they came, before the event
    that ends the writer. *)
Definition waiting l (evs : list log_event) : Prop :=
  event_queue l = (Some <$> evs) ++ (if finalizing l then match writer l with W_exited => [] | _ => [None] end else []) ∧
  pushed l = (done l).*1 ++ in_hand l ++ evs ∧
  (writer l = W_exited → evs = [] ∧ finalizing l = true).

Record logger_inv l : Prop := {
  li_queue : ∃ evs, waiting l evs;
  li_printable : Forall printable (pushed l);
  li_contents : ∀ f, default [] (files l !! f) = default [] (fs0 !! f) ++ written_to f (done l);
  li_streams : streams_ok l;
  li_stream : (∀ ev, writer l ≠ W_print ev) → stream_ok l;
  li_writer : writer l ≠ W_none
}.

Lemma printable_loggable ev : printable ev → loggable (event ev) = true.
Proof. intros [line Hline]. unfold ck_log_event_to_string in Hline. by destruct (event ev). Qed.

Lemma written_to_app f d1 d2 : written_to f (d1 ++ d2) = written_to f d1 ++ written_to f d2.
Proof. apply omap_app. Qed.

Lemma init_streams c : (∀ f, c = Some f → is_Some (fs0 !! f)) → streams_ok (ck_event_logger_init fs0 c).
Proof. intros Hc. split; simpl; try done; intros; simplify_map_eq. Qed.

Lemma constructor_log c thread_ok oe l :
  (∀ f, c = Some f → is_Some (fs0 !! f)) →
  ck_event_logger_constructor thread_ok oe (ck_event_logger_init fs0 c) = Some (tt, l) →
  event_queue l = [] ∧ pushed l = [] ∧ ∀ f, default [] (files l !! f) = default [] (fs0 !! f).
Proof.
  intros Hc Hrun. destruct (open_log_spec oe _ (init_streams c Hc) eq_refl) as (r & l1 & Hopen & [Q1 Q2 Q3 Q4 Q5 Q6] & _).
  unfold ck_event_logger_constructor in Hrun. unfold_prog. rewrite Hopen in Hrun.
  destruct r; [destruct thread_ok|]; injection Hrun as <-; by split_and!.
Qed.

Lemma constructed_inv c oe l :
  (∀ f, c = Some f → is_Some (fs0 !! f)) →
  ck_event_logger_constructor true oe (ck_event_logger_init fs0 c) = Some (tt, l) → writer l = W_pop → logger_inv l.
Proof.
  intros Hc Hrun Hw.
  destruct (open_log_spec oe _ (init_streams c Hc) eq_refl) as (r & l1 & Hopen & Hs & Hl1 & _ & _ & Htrue).
  unfold ck_event_logger_constructor in Hrun. unfold_prog. rewrite Hopen in Hrun. destruct r; simplify_eq.
  2: { destruct Hs as [_ Hwr _ _ _ _]. by rewrite Hwr in Hw. }
  injection Hrun as <-. destruct (Htrue eq_refl) as (f & H1 & H2 & H3). simpl in *. destruct Hs as [Q1 Q2 Q3 Q4 Q5 Q6]. simpl in *. split; simpl.
  - exists []. split_and!; simpl; rewrite ?Q1, ?Q3, ?Q4, ?Q5; done.
  - rewrite Q4. constructor.
  - intros g. by rewrite Q5, Q6, app_nil_r.
  - by destruct Hl1.
  - intros _ g Hg. simpl in *. rewrite H1 in Hg. simplify_eq. rewrite H2. eauto.
  - done.
Qed.

Lemma queue_inv ev l : logger_inv l → printable ev → finalizing l = false → 
  ∃ l', logger_serve (S_queue ev) l = Some (tt, l') ∧ logger_inv l'.
Proof.
  intros [(evs & Hq & Hp & Hx) Hpr Hcont Hstr Hst Hw] Hev Hfin. simpl. unfold ck_event_logger_queue_event.
  rewrite (printable_loggable _ Hev). eexists. split; [done|]. split; simpl; try done.
  - exists (evs ++ [ev]). split_and!; simpl.
    + rewrite Hfin in *. rewrite Hq, fmap_app. simpl. by rewrite !app_nil_r.
    + rewrite Hp. unfold in_hand; simpl. by rewrite <- !app_assoc.
    + intros Hex. destruct (Hx Hex). congruence.
  - apply Forall_app. by split; [|constructor].
  - by destruct Hstr.
Qed.

Lemma finalize_inv l : logger_inv l → finalizing l = false → 
  ∃ l', logger_serve S_finalize l = Some (tt, l') ∧ logger_inv l'.
Proof.
  intros [(evs & Hq & Hp & Hx) Hpr Hcont Hstr Hst Hw] Hfin. eexists. split; [done|]. split; simpl; try done.
  - exists evs. rewrite Hfin, app_nil_r in Hq. split_and!; simpl; [|done|].
    + rewrite Hq. destruct (writer l) eqn:E; try done. by destruct (Hx eq_refl) as [_ ?]; congruence.
    + intros Hex. by split; [apply Hx|].
  - by destruct Hstr.
Qed.

Lemma replace_inv c l : logger_inv l → ∃ l', logger_serve (S_replace c) l = Some (tt, l') ∧ logger_inv l'.
Proof.
  intros [Hq Hpr Hcont Hstr Hst Hw]. eexists. split; [done|]. split; simpl; try done.
  - intros f. rewrite <- Hcont. destruct c as [g|]; [|done].
    destruct (decide (f = g)) as [->|]; [by rewrite lookup_insert_eq|by rewrite lookup_insert_ne].
  - destruct Hstr as [H1 H0 H2 H3]. split; simpl; try done. intros f ->. rewrite lookup_insert_eq. eauto.
Qed.

(** What the writer is about to take. *)
Definition takes l (ev : log_event) : Prop := writer l = W_pop ∧ ∃ q, event_queue l = Some ev :: q.

(** The event that ends the writer. *)
Lemma take_none fstat_ok look_ok oe q l :
  logger_inv l → writer l = W_pop → event_queue l = None :: q →
  ∃ l', logger_serve (S_take fstat_ok look_ok oe) l = Some (tt, l') ∧ logger_inv l' ∧ writer l' = W_exited ∧
    pushed l' = pushed l ∧ done l' = done l.
Proof.
  intros [(evs & Hwait & Hp & Hx) Hpr Hcont Hstr Hst Hwr] Hw Hq. simpl. unfold writer_takes. unfold_prog. rewrite Hw, Hq.
  rewrite Hq, Hw in Hwait. destruct evs as [|ev evs]; [|done]. simpl in Hwait.
  destruct (finalizing l) eqn:Hfin; [|done]. injection Hwait as ->.
  eexists. split; [done|]. split_and!; [|done..]. split; simpl; try done.
  - exists []. split_and!; simpl; [by rewrite Hfin| |done]. rewrite Hp. unfold in_hand. simpl. by rewrite Hw.
  - by destruct Hstr.
  - intros _. apply Hst. by rewrite Hw.
Qed.

Lemma take_idle fstat_ok look_ok oe l :
  logger_inv l → (∀ ev, ¬ takes l ev) →
  ∃ l', logger_serve (S_take fstat_ok look_ok oe) l = Some (tt, l') ∧ logger_inv l'.
Proof.
  intros Hl Hno. simpl. unfold writer_takes. unfold_prog.
  destruct (writer l) eqn:Hw; try by exists l. destruct (event_queue l) as [|[ev|] q] eqn:Hq; [by exists l| |].
  { destruct (Hno ev). split; [done|]. by exists q. }
  destruct (take_none fstat_ok look_ok oe q l Hl Hw Hq) as (l' & Hrun & Hl' & _). exists l'. split; [|done].
  rewrite <- Hrun. simpl. unfold writer_takes. unfold_prog. by rewrite Hw, Hq.
Qed.

Lemma take_event fstat_ok look_ok oe ev l :
  logger_inv l → takes l ev →
  ∃ l', logger_serve (S_take fstat_ok look_ok oe) l = Some (tt, l') ∧ logger_inv l' ∧ writer l' = W_print ev ∧
    pushed l' = pushed l ∧ done l' = done l ∧ finalizing l' = finalizing l ∧ event_queue l' = tail (event_queue l) ∧
    (if replaced fstat_ok look_ok l && refused oe l && bool_decide (file l ≠ None) then ¬ stream_ok l' else stream_ok l') ∧
    (open_good oe → stream_ok l' ∧ attached l').
Proof.
  intros Hl [Hw [q Hq]]. destruct Hl as [(evs & Hwait & Hp & Hx) Hpr Hcont Hstr Hst Hwr].
  rewrite Hq, Hw in Hwait. destruct evs as [|ev' evs]; [by destruct (finalizing l)|]. injection Hwait as <- Hq'.
  set (l1 := set_writer (W_print ev) (set_queue q l)).
  assert (streams_ok l1) as Hstr1 by (by destruct Hstr). assert (stream_ok l1) as Hst1 by (apply Hst; by rewrite Hw).
  destruct (check_spec fstat_ok look_ok oe l1 Hstr1 Hst1) as (l' & Hrun & Hs & Hl' & Hok & Hgood).
  assert (printable ev) as [line Hline].
  { rewrite Forall_forall in Hpr. apply Hpr. rewrite Hp. apply elem_of_app. right. apply elem_of_app. right. left. }
  exists l'. simpl. unfold writer_takes, write_log_check. unfold_prog. rewrite Hw, Hq, Hline. split; [exact Hrun|].
  destruct Hs as [Q1 Q2 Q3 Q4 Q5 Q6]. simpl in *.
  assert (refused oe l1 = refused oe l) as Href by by apply refused_same. rewrite Href in Hok.
  split_and!; try done; try (by rewrite Hq). split; simpl; try done.
  - exists evs. split_and!; [|unfold in_hand|]; rewrite ?Q1, ?Q2, ?Q3, ?Q4, ?Q5; [done| |done].
    rewrite Hp. unfold in_hand. by rewrite Hw.
  - by rewrite Q4.
  - intros f. by rewrite Q5, Q6.
  - intros Hno. by destruct (Hno ev).
  - by rewrite Q2.
Qed.

Lemma print_idle ok l : (∀ ev, writer l ≠ W_print ev) → logger_serve (S_print ok) l = Some (tt, l).
Proof. intros Hno. simpl. unfold writer_prints. unfold_prog. destruct (writer l) as [| |ev|] eqn:Hw; try done. by destruct (Hno ev). Qed.

(** The print fails exactly if the stream was closed. *)
Lemma print_event ok ev l :
  logger_inv l → writer l = W_print ev →
  (¬ stream_ok l → logger_serve (S_print ok) l = None) ∧
  (stream_ok l → ∃ r l', logger_serve (S_print ok) l = Some (tt, l') ∧ logger_inv l' ∧ writer l' = W_pop ∧
     done l' = done l ++ [(ev, r)] ∧ pushed l' = pushed l ∧ finalizing l' = finalizing l ∧ event_queue l' = event_queue l ∧
     (ok = true → ∀ f x, file l = Some f → streams l !! f = Some x → r = Written x)).
Proof.
  intros Hl Hw. destruct Hl as [(evs & Hwait & Hp & Hx) Hpr Hcont Hstr Hst Hwr].
  assert (printable ev) as [line Hline].
  { rewrite Forall_forall in Hpr. apply Hpr. rewrite Hp. apply elem_of_app. right. apply elem_of_app. left.
    unfold in_hand. rewrite Hw. left. }
  simpl. unfold writer_prints, write_log_print, fprintf_line. unfold_prog. rewrite Hw, Hline.
  assert (∀ r l1, (∀ f, default [] (files l1 !! f) = default [] (files l !! f) ++ written_to f [(ev, r)]) →
    l1 = set_files (files l1) (current l) l → (∀ f, current l = Some f → is_Some (files l1 !! f)) → stream_ok l →
    logger_inv (set_writer W_pop (set_history (pushed l1) (done l1 ++ [(ev, r)]) l1))) as Hafter.
  { intros r l1 Hfiles E Hcur Hok. rewrite E. split; simpl; try done.
    - exists evs. split_and!; simpl; [by rewrite Hw in Hwait| |done].
      rewrite Hp, fmap_app. unfold in_hand. rewrite Hw. simpl. by rewrite <- app_assoc.
    - intros f. rewrite E in Hfiles. simpl in Hfiles. rewrite Hfiles, Hcont, written_to_app. by rewrite app_assoc.
    - destruct Hstr. by split. }
  destruct (file l) as [f|] eqn:Hf; simpl.
  2: { split; [intros Hn; destruct Hn; intros f Hf'; congruence|]. intros Hok. eexists NotWritten, _. split; [done|].
       split_and!; try done. apply (Hafter NotWritten l); try done; [|by destruct l|by destruct Hstr].
       intros f. by rewrite app_nil_r. }
  destruct (streams l !! f) as [x|] eqn:Hx'.
  2: { split; [done|]. intros Hok. destruct (Hok f Hf) as [? ?]. congruence. }
  split; [intros Hn; destruct Hn; intros g Hg; rewrite Hf in Hg; simplify_eq; by rewrite Hx'|]. intros Hok.
  destruct ok.
  - eexists (Written x), _. split; [done|]. split_and!; try done.
    2: { intros _ g y [= <-]. congruence. }
    apply (Hafter (Written x) (set_files (<[x:=default [] (files l !! x) ++ [line]]> (files l)) (current l) l)); try done.
    + intros g. unfold written_to; simpl. destruct (decide (x = g)) as [->|Hne].
      * rewrite lookup_insert_eq. unfold line_of. by rewrite Hline.
      * by rewrite lookup_insert_ne, app_nil_r.
    + intros g Hg. simpl. destruct (decide (x = g)) as [->|Hne]; [rewrite lookup_insert_eq; eauto|].
      rewrite lookup_insert_ne by done. by apply Hstr.
  - eexists NotWritten, _. split; [done|]. split_and!; try done.
    apply (Hafter NotWritten l); try done; [|by destruct l|by destruct Hstr]. intros g. by rewrite app_nil_r.
Qed.

Lemma take_total fstat_ok look_ok oe l :
  logger_inv l → ∃ l', logger_serve (S_take fstat_ok look_ok oe) l = Some (tt, l') ∧ logger_inv l'.
Proof.
  intros Hl. destruct (writer l) as [| |ev|] eqn:Hw.
  2: { destruct (event_queue l) as [|[ev|] q] eqn:Hq.
       2: { destruct (take_event fstat_ok look_ok oe ev l Hl) as (l1 & Hrun1 & ? & _); [split; eauto|]. by exists l1. }
       all: apply take_idle; [done|]; intros ev [_ [q' Hq']]; congruence. }
  all: apply take_idle; [done|]; intros ev' [Hw' _]; congruence.
Qed.

(** What the invariant says of the events. *)
Lemma log_counts l :
  logger_inv l → pushed l = (done l).*1 ++ in_hand l ++ omap id (event_queue l) ∧ (writer l = W_exited → (done l).*1 = pushed l).
Proof.
  intros [(evs & Hq & Hp & Hx) _ _ _ _ _].
  assert (omap id (event_queue l) = evs) as ->.
  { rewrite Hq, omap_app. replace (omap id (if finalizing l then _ else [])) with (@nil log_event).
    - rewrite app_nil_r. clear. induction evs as [|ev evs IH]; [done|]. simpl. by f_equal.
    - by destruct (finalizing l), (writer l). }
  split; [done|]. intros Hex. destruct (Hx Hex) as [-> _]. rewrite Hp. unfold in_hand. by rewrite Hex, !app_nil_r.
Qed.

Lemma logger_reachable_inv l : logger_reachable l → logger_inv l.
Proof.
  induction 1 as [c oe l Hc Hrun Hw|s l l' _ IH Hok Hrun]; [by eapply constructed_inv|].
  destruct s as [ev| |fstat_ok look_ok oe|ok|c].
  - destruct Hok as [Hev Hfin]. destruct (queue_inv ev l IH Hev Hfin) as (l1 & Hrun1 & ?). congruence.
  - destruct (finalize_inv l IH Hok) as (l1 & Hrun1 & ?). congruence.
  - destruct (take_total fstat_ok look_ok oe l IH) as (l1 & Hrun1 & ?). congruence.
  - destruct (writer l) as [| |ev|] eqn:Hw.
    3: { destruct (print_event ok ev l IH Hw) as [Hbad Hgood]. destruct (decide (stream_ok l)) as [Hst|Hst].
         - destruct (Hgood Hst) as (r & l1 & Hrun1 & ? & _). congruence.
         - rewrite Hbad in Hrun by done. congruence. }
    all: rewrite print_idle in Hrun by (intros; congruence); congruence.
  - destruct (replace_inv c l IH) as (l1 & Hrun1 & ?). congruence.
Qed.
End logger.
