(* ===== verification/EventLoggerPolicy.v ===== *)
(** * The event logger: what the log holds, what a refused log does, and the
    shutdown. *)

From S2P Require Import Prelude LogEvent LogLine EventLogger EventLoggerFacts.

Implicit Types (l : logger) (s : logger_step).

(** ** What the log holds *)

(** Nothing is lost, doubled or reordered: in every state of a logger that was
    opened, whatever the main thread, the writer and whoever replaces the log did,
    the events queued so far are those the writer finished, then the one in its
    hand, then those on the queue; every file holds the lines it had, followed by
    those of the events written to it, in order; and when the writer has ended,
    every event was handled. *)
Theorem log_accounting fs0 l :
  logger_reachable fs0 l →
  pushed l = (done l).*1 ++ in_hand l ++ omap id (event_queue l) ∧
  (∀ f, default [] (files l !! f) = default [] (fs0 !! f) ++ written_to f (done l)) ∧
  (writer l = W_exited → (done l).*1 = pushed l).
Proof.
  intros Hl%logger_reachable_inv. destruct (log_counts fs0 l Hl) as [Hp Hex]. split_and!; [done| |done]. apply Hl.
Qed.

(** ** The log is refused *)

Definition refuses (fstat_ok look_ok : bool) (oe : open_env) l : bool :=
  replaced fstat_ok look_ok l && refused oe l && bool_decide (file l ≠ None).

(** C34: Where the writer prints to a stream it has closed: taking an event never
    fails in a reachable state, and the print that follows uses a closed stream
    exactly when the log was replaced (or could not be looked at), there was a
    stream, and opening the log again was refused. *)
Theorem print_after_fclose fs0 fstat_ok look_ok oe ev l :
  logger_reachable fs0 l → takes l ev →
  ∃ l', logger_serve (S_take fstat_ok look_ok oe) l = Some (tt, l') ∧ writer l' = W_print ev ∧
    ∀ ok, logger_serve (S_print ok) l' = None ↔ refuses fstat_ok look_ok oe l = true.
Proof.
  intros Hl%logger_reachable_inv Htakes.
  destruct (take_event fs0 fstat_ok look_ok oe ev l Hl Htakes) as (l' & Hrun & Hl' & Hw & _ & _ & _ & _ & Hst & _).
  exists l'. split_and!; [done..|]. intros ok. destruct (print_event fs0 ok ev l' Hl' Hw) as [Hbad Hgood].
  fold (refuses fstat_ok look_ok oe l) in Hst. destruct (refuses fstat_ok look_ok oe l).
  - split; [done|]. intros _. by apply Hbad.
  - split; [|done]. intros Hnone. destruct (Hgood Hst) as (r & l2 & Hsome & _). congruence.
Qed.

(** Only the print fails. *)
Lemma step_fails_only_in_print fs0 s l :
  logger_reachable fs0 l → step_ok s l → logger_serve s l = None → ∃ ok ev, s = S_print ok ∧ writer l = W_print ev ∧ ¬ stream_ok l.
Proof.
  intros Hl%logger_reachable_inv Hok Hnone. destruct s as [ev| |fstat_ok look_ok oe|ok|c].
  - destruct Hok as [H1 H2]. destruct (queue_inv fs0 ev l Hl H1 H2) as (? & ? & _). congruence.
  - destruct (finalize_inv fs0 l Hl Hok) as (? & ? & _). congruence.
  - destruct (take_total fs0 fstat_ok look_ok oe l Hl) as (? & ? & _). congruence.
  - destruct (writer l) as [| |ev|] eqn:Hw; [rewrite print_idle in Hnone by (intros; congruence); congruence..| |
      rewrite print_idle in Hnone by (intros; congruence); congruence].
    exists ok, ev. split_and!; [done..|]. intros Hst. destruct (print_event fs0 ok ev l Hl Hw) as [_ Hgood].
    destruct (Hgood Hst) as (? & ? & ? & _). congruence.
  - destruct (replace_inv fs0 c l Hl) as (? & ? & _). congruence.
Qed.

(** ** The writer goes on *)

(** One turn of the writer's loop: others replace the log before it and between
    the look and the print. *)
Record turn := {
  before : list (option positive);
  answers : bool * bool * open_env;
  between : list (option positive);
  print_ok : bool
}.
Definition turn_steps (t : turn) : list logger_step :=
  let '(fstat_ok, look_ok, oe) := answers t in
  map S_replace (before t) ++ S_take fstat_ok look_ok oe :: map S_replace (between t) ++ [S_print (print_ok t)].
Definition turn_good (t : turn) : Prop := open_good (answers t).2.
Definition logger_run : list logger_step → program unit := for_each logger_serve.

Lemma logger_run_app ss1 ss2 l : logger_run (ss1 ++ ss2) l = (logger_run ss1;; logger_run ss2) l.
Proof.
  revert l. induction ss1 as [|s ss1 IH]; intros l; [done|]. unfold logger_run in *. simpl. unfold_prog.
  destruct (logger_serve s l) as [[[] l1]|]; [apply IH|done].
Qed.

(** Replacing the log leaves the writer, the queue and the streams alone. *)
Record same_logger l l' : Prop := {
  sr_queue : event_queue l' = event_queue l;
  sr_file : file l' = file l;
  sr_streams : streams l' = streams l;
  sr_writer : writer l' = writer l;
  sr_finalizing : finalizing l' = finalizing l;
  sr_pushed : pushed l' = pushed l;
  sr_done : done l' = done l
}.
Lemma replace_run fs0 cs l :
  logger_inv fs0 l → ∃ l', logger_run (map S_replace cs) l = Some (tt, l') ∧ logger_inv fs0 l' ∧ same_logger l l'.
Proof.
  revert l. induction cs as [|c cs IH]; intros l Hl; [exists l; split_and!; [done..|by split]|].
  destruct (replace_inv fs0 c l Hl) as (l1 & Hrun & Hl1). destruct (IH l1 Hl1) as (l2 & Hrun2 & Hl2 & Hs).
  exists l2. unfold logger_run in *. cbn [map for_each]. unfold_prog. rewrite Hrun. split_and!; [done..|].
  injection Hrun as <-. by destruct Hs.
Qed.

Lemma turn_run t fstat_ok look_ok oe l l1 l2 l3 l4 :
  answers t = (fstat_ok, look_ok, oe) →
  logger_run (map S_replace (before t)) l = Some (tt, l1) → logger_serve (S_take fstat_ok look_ok oe) l1 = Some (tt, l2) →
  logger_run (map S_replace (between t)) l2 = Some (tt, l3) → logger_serve (S_print (print_ok t)) l3 = Some (tt, l4) →
  logger_run (turn_steps t) l = Some (tt, l4).
Proof.
  intros Ha R1 R2 R3 R4. unfold turn_steps. rewrite Ha, logger_run_app. unfold_prog. rewrite R1.
  cbn [logger_run for_each]. unfold_prog. rewrite R2. fold logger_run. rewrite logger_run_app. unfold_prog. rewrite R3.
  cbn [logger_run for_each]. unfold_prog. by rewrite R4.
Qed.

(** What a turn does to the first event on the queue. *)
Lemma turn_event fs0 t ev q l :
  logger_inv fs0 l → turn_good t → writer l = W_pop → event_queue l = Some ev :: q →
  ∃ r l', logger_run (turn_steps t) l = Some (tt, l') ∧ logger_inv fs0 l' ∧ writer l' = W_pop ∧ event_queue l' = q ∧
    finalizing l' = finalizing l ∧ pushed l' = pushed l ∧ done l' = done l ++ [(ev, r)] ∧
    (print_ok t = true → ∃ x, r = Written x).
Proof.
  intros Hl Ht Hw Hq. unfold turn_good in Ht. destruct (answers t) as [[fstat_ok look_ok] oe] eqn:Ha. simpl in Ht.
  destruct (replace_run fs0 (before t) l Hl) as (l1 & R1 & Hl1 & [Q1 Q2 Q3 Q4 Q5 Q6 Q7]).
  assert (takes l1 ev) as Htakes by (split; [congruence|exists q; congruence]).
  destruct (take_event fs0 fstat_ok look_ok oe ev l1 Hl1 Htakes) as (l2 & R2 & Hl2 & Hw2 & P2 & D2 & F2 & E2 & _ & Hgood).
  destruct (Hgood Ht) as [Hst (f & x & Hf & Hx & _)].
  destruct (replace_run fs0 (between t) l2 Hl2) as (l3 & R3 & Hl3 & [S1 S2 S3 S4 S5 S6 S7]).
  assert (stream_ok l3) as Hst3 by (intros g; rewrite S2, S3; apply Hst).
  destruct (print_event fs0 (print_ok t) ev l3 Hl3) as [_ Hprint]; [congruence|].
  destruct (Hprint Hst3) as (r & l4 & R4 & Hl4 & Hw4 & D4 & P4 & F4 & E4 & Hwr).
  exists r, l4. split; [by eapply turn_run|].
  split_and!; try congruence; try done; [rewrite E4, S1, E2, Q1, Hq; done|].
  intros Hok. exists x. apply (Hwr Hok f x); congruence.
Qed.

(** What a turn does when the event that ends the writer is next. *)
Lemma turn_exits fs0 t q l :
  logger_inv fs0 l → writer l = W_pop → event_queue l = None :: q →
  ∃ l', logger_run (turn_steps t) l = Some (tt, l') ∧ logger_inv fs0 l' ∧ writer l' = W_exited ∧
    pushed l' = pushed l ∧ done l' = done l.
Proof.
  intros Hl Hw Hq. destruct (answers t) as [[fstat_ok look_ok] oe] eqn:Ha.
  destruct (replace_run fs0 (before t) l Hl) as (l1 & R1 & Hl1 & [Q1 Q2 Q3 Q4 Q5 Q6 Q7]).
  destruct (take_none fs0 fstat_ok look_ok oe q l1 Hl1) as (l2 & R2 & Hl2 & Hw2 & P2 & D2); [congruence..|].
  destruct (replace_run fs0 (between t) l2 Hl2) as (l3 & R3 & Hl3 & [S1 S2 S3 S4 S5 S6 S7]).
  exists l3. split; [|split_and!; congruence || done].
  eapply turn_run; [done..|]. apply print_idle. intros ev. rewrite S4, Hw2. done.
Qed.
Lemma turn_idle fs0 t l :
  logger_inv fs0 l → writer l = W_exited →
  ∃ l', logger_run (turn_steps t) l = Some (tt, l') ∧ logger_inv fs0 l' ∧ writer l' = W_exited ∧
    pushed l' = pushed l ∧ done l' = done l.
Proof.
  intros Hl Hw. destruct (answers t) as [[fstat_ok look_ok] oe] eqn:Ha.
  destruct (replace_run fs0 (before t) l Hl) as (l1 & R1 & Hl1 & [Q1 Q2 Q3 Q4 Q5 Q6 Q7]).
  assert (logger_serve (S_take fstat_ok look_ok oe) l1 = Some (tt, l1)) as R2.
  { simpl. unfold writer_takes. unfold_prog. by rewrite Q4, Hw. }
  destruct (replace_run fs0 (between t) l1 Hl1) as (l3 & R3 & Hl3 & [S1 S2 S3 S4 S5 S6 S7]).
  exists l3. split; [|split_and!; congruence || done].
  eapply turn_run; [done..|]. apply print_idle. intros ev. rewrite S4, Q4, Hw. done.
Qed.

Definition written (r : log_event * fate) : Prop := ∃ x, r.2 = Written x.

Lemma turns_drain fs0 ts l :
  logger_inv fs0 l → finalizing l = true → writer l = W_pop → Forall turn_good ts → length (event_queue l) ≤ length ts →
  ∃ d l', logger_run (concat (map turn_steps ts)) l = Some (tt, l') ∧ logger_inv fs0 l' ∧ writer l' = W_exited ∧
    pushed l' = pushed l ∧ done l' = done l ++ d ∧ (Forall (λ t, print_ok t = true) ts → Forall written d).
Proof.
  revert l. induction ts as [|t ts IH]; intros l Hl Hfin Hw Hgood Hlen.
  { destruct Hl as [(evs & Hq & _) _ _ _ _ _]. rewrite Hfin, Hw in Hq. rewrite Hq, length_app in Hlen. simpl in Hlen. lia. }
  apply Forall_cons in Hgood as [Ht Hgood]. simpl. rewrite logger_run_app. unfold_prog.
  destruct (event_queue l) as [|[ev|] q] eqn:Hq.
  - destruct Hl as [(evs & Hq' & _) _ _ _ _ _]. rewrite Hfin, Hw, Hq in Hq'. by destruct evs.
  - destruct (turn_event fs0 t ev q l Hl Ht Hw Hq) as (r & l1 & -> & Hl1 & Hw1 & Hq1 & Hf1 & Hp1 & Hd1 & Hwr).
    destruct (IH l1 Hl1 ltac:(congruence) Hw1 Hgood ltac:(rewrite Hq1; simpl in Hlen; lia))
      as (d & l2 & -> & Hl2 & Hw2 & Hp2 & Hd2 & Hok).
    exists ((ev, r) :: d), l2. split_and!; try congruence; try done.
    + by rewrite Hd2, Hd1, <- app_assoc.
    + intros [Hp Hps]%Forall_cons. constructor; [exact (Hwr Hp)|by apply Hok].
  - destruct (turn_exits fs0 t q l Hl Hw Hq) as (l1 & -> & Hl1 & Hw1 & Hp1 & Hd1).
    clear IH Hlen Hfin Hw Hq Hgood Ht. assert (∃ l2, logger_run (concat (map turn_steps ts)) l1 = Some (tt, l2) ∧
      logger_inv fs0 l2 ∧ writer l2 = W_exited ∧ pushed l2 = pushed l1 ∧ done l2 = done l1) as (l2 & -> & Hl2 & Hw2 & Hp2 & Hd2).
    { clear Hp1 Hd1 Hl. revert l1 Hl1 Hw1. induction ts as [|t' ts IH]; intros l1 Hl1 Hw1; [by exists l1|].
      destruct (turn_idle fs0 t' l1 Hl1 Hw1) as (l2 & R2 & Hl2 & Hw2 & Hp2 & Hd2).
      destruct (IH l2 Hl2 Hw2) as (l3 & R3 & Hl3 & Hw3 & Hp3 & Hd3). exists l3. simpl. rewrite logger_run_app. unfold_prog.
      rewrite R2. split_and!; congruence || done. }
    exists [], l2. split_and!; try congruence; try done. by rewrite app_nil_r; congruence.
Qed.

(** C35: Shutdown: once the main thread waits for the writer, as many turns of the
    writer's loop as there are elements on the queue end it, even if the log is
    replaced before and in the middle of every turn, as long as the log can be
    opened again. The events that were on the queue are handled in order, all of
    them written if the prints succeed, and the log is closed without fault. *)
Theorem shutdown_writes_everything fs0 ts l :
  logger_reachable fs0 l → finalizing l = true → writer l = W_pop → Forall turn_good ts →
  length (event_queue l) ≤ length ts →
  ∃ d l' l'', logger_run (concat (map turn_steps ts)) l = Some (tt, l') ∧ writer l' = W_exited ∧
    done l' = done l ++ d ∧ d.*1 = omap id (event_queue l) ∧
    (Forall (λ t, print_ok t = true) ts → Forall written d) ∧
    finalize_joined l' = Some (tt, l'').
Proof.
  intros Hl0 Hfin Hw Hgood Hlen. destruct (log_counts fs0 l (logger_reachable_inv fs0 l Hl0)) as [Hp _].
  pose proof (logger_reachable_inv fs0 l Hl0) as Hl.
  destruct (turns_drain fs0 ts l Hl Hfin Hw Hgood Hlen) as (d & l' & Hrun & Hl' & Hw' & Hp' & Hd & Hwr).
  destruct (log_counts fs0 l' Hl') as [_ Hex]. specialize (Hex Hw').
  assert (∃ l'', finalize_joined l' = Some (tt, l'')) as [l'' Hclose].
  { unfold finalize_joined. unfold_prog. destruct (file l') as [f|] eqn:Hf; [|by exists l'].
    destruct (li_stream fs0 l' Hl' ltac:(by rewrite Hw') f Hf) as [x Hx]. unfold fclose. rewrite Hx. by eexists. }
  exists d, l', l''. split_and!; try done. rewrite Hd, Hp', Hp, fmap_app in Hex. unfold in_hand in Hex. rewrite Hw in Hex.
  by apply app_inv_head in Hex.
Qed.

(** ** A log that could not be opened *)

Lemma no_writer_step s l l' :
  writer l = W_none → logger_serve s l = Some (tt, l') →
  writer l' = W_none ∧ done l' = done l ∧ (∀ f, default [] (files l' !! f) = default [] (files l !! f)) ∧
  ∃ evs, omap id (event_queue l') = omap id (event_queue l) ++ evs ∧ pushed l' = pushed l ++ evs.
Proof.
  intros Hw Hrun. destruct s as [ev| |fstat_ok look_ok oe|ok|c].
  - simpl in Hrun. unfold ck_event_logger_queue_event in Hrun. destruct (loggable (event ev)); [|done]. injection Hrun as <-.
    split_and!; [done..|]. exists [ev]. split; [exact (omap_app id (event_queue l) [Some ev])|done].
  - injection Hrun as <-. split_and!; [done..|]. exists []. split; [exact (omap_app id (event_queue l) [None])|by rewrite app_nil_r].
  - simpl in Hrun. unfold writer_takes in Hrun. unfold_prog. rewrite Hw in Hrun. injection Hrun as <-. split_and!; [done..|].
    exists []. by rewrite !app_nil_r.
  - rewrite (print_idle ok l) in Hrun by (by rewrite Hw). injection Hrun as <-. split_and!; [done..|]. exists []. by rewrite !app_nil_r.
  - injection Hrun as <-. split_and!; [done..| |exists []; by rewrite !app_nil_r]. intros f. simpl.
    destruct c as [g|]; [|done]. destruct (decide (f = g)) as [->|]; [by rewrite lookup_insert_eq|by rewrite lookup_insert_ne].
Qed.

(** When the log could not be opened, or the thread not created, there is no
    writer and none is ever created: whatever happens afterwards, nothing is
    written, and every event stays on the queue. *)
Theorem unopened_log_never_written fs0 c thread_ok oe ss l l' :
  (∀ f, c = Some f → is_Some (fs0 !! f)) →
  ck_event_logger_constructor thread_ok oe (ck_event_logger_init fs0 c) = Some (tt, l) → writer l = W_none →
  logger_run ss l = Some (tt, l') →
  writer l' = W_none ∧ omap id (event_queue l') = pushed l' ∧ ∀ f, default [] (files l' !! f) = default [] (fs0 !! f).
Proof.
  intros Hex Hc Hw. destruct (constructor_log fs0 c thread_ok oe l Hex Hc) as (Hq & Hp & Hf). clear Hc Hex.
  intros Hrun. apply (wlp_elim (logger_run ss) (λ _ l', writer l' = W_none ∧ omap id (event_queue l') = pushed l' ∧
    ∀ f, default [] (files l' !! f) = default [] (fs0 !! f)) l tt l'); [|done].
  apply wlp_for_each; [|by rewrite Hq, Hp]. clear. intros s l _ (Hw & Hq & Hf). unfold wlp.
  destruct (logger_serve s l) as [[[] l']|] eqn:Hrun; [|done].
  destruct (no_writer_step s l l' Hw Hrun) as (Hw' & _ & Hf' & evs & Hq' & Hp'). split_and!; [done|congruence|].
  intros f. by rewrite Hf', Hf.
Qed.

(** ** Concrete runs *)

(** There is no log at first. *)
Definition favourable : open_env :=
  {| oe_mkdir := true; oe_enfile := 2; oe_open := true; oe_create := true; oe_cloexec := true; oe_fchown := true; oe_fdopen := true |}.
Definition no_space : open_env :=
  {| oe_mkdir := true; oe_enfile := 0; oe_open := true; oe_create := false; oe_cloexec := true; oe_fchown := true; oe_fdopen := true |}.
Definition logger_or (m : option (unit * logger)) : logger := default (ck_event_logger_init ∅ None) (snd <$> m).
Definition started : logger := logger_or (ck_event_logger_constructor true favourable (ck_event_logger_init ∅ None)).

Lemma started_reachable : logger_reachable ∅ started.
Proof. apply (logger_constructed ∅ None favourable); [done|vm_compute; reflexivity..]. Qed.
Lemma step_reachable fs0 s l :
  logger_reachable fs0 l → step_ok s l → match logger_serve s l with Some _ => true | None => false end = true →
  logger_reachable fs0 (logger_or (logger_serve s l)).
Proof.
  intros Hl Hok. destruct (logger_serve s l) as [[[] l']|] eqn:Hrun; [|done]. intros _. by eapply logger_steps.
Qed.

(** An event waits, the log was renamed away. *)
Definition with_event : logger := logger_or (logger_serve (S_queue sample_event) started).
Definition log_gone : logger := logger_or (logger_serve (S_replace None) with_event).
Definition shutting_down : logger := logger_or (logger_serve S_finalize with_event).

Lemma with_event_reachable : logger_reachable ∅ with_event.
Proof.
  apply step_reachable; [apply started_reachable| |vm_compute; reflexivity]. split; [|reflexivity].
  unfold printable. vm_compute. eauto.
Qed.
Lemma log_gone_reachable : logger_reachable ∅ log_gone.
Proof. apply step_reachable; [apply with_event_reachable|done|vm_compute; reflexivity]. Qed.
Lemma shutting_down_reachable : logger_reachable ∅ shutting_down.
Proof. apply step_reachable; [apply with_event_reachable|vm_compute; reflexivity..]. Qed.

Lemma log_accounting_witness : pushed log_gone = [sample_event] ∧ omap id (event_queue log_gone) = [sample_event].
Proof.
  split; [|vm_compute; reflexivity].
  destruct (log_accounting ∅ log_gone log_gone_reachable) as [Hp _]. rewrite Hp. vm_compute. reflexivity.
Defined.

(** The log cannot be created again: the writer prints to the stream that it closed. *)
Lemma print_after_fclose_witness :
  ∃ l', logger_serve (S_take true true no_space) log_gone = Some (tt, l') ∧ logger_serve (S_print true) l' = None.
Proof.
  destruct (print_after_fclose ∅ true true no_space sample_event log_gone) as (l' & Hrun & _ & Hprint).
  - exact log_gone_reachable.
  - split; [vm_compute; reflexivity|]. exists []. vm_compute. reflexivity.
  - exists l'. split; [exact Hrun|]. apply Hprint. vm_compute. reflexivity.
Defined.

(** The log is renamed away before the first event is written; a new one is created. *)
Definition rotated : turn :=
  {| before := [None]; answers := (true, true, favourable); between := []; print_ok := true |}.
Lemma shutdown_writes_everything_witness :
  ∃ l', logger_run (concat (map turn_steps [rotated; rotated])) shutting_down = Some (tt, l') ∧ writer l' = W_exited ∧
    (done l').*1 = [sample_event].
Proof.
  destruct (shutdown_writes_everything ∅ [rotated; rotated] shutting_down) as (d & l' & _ & Hrun & Hw & Hd & Hev & _).
  - exact shutting_down_reachable.
  - vm_compute. reflexivity.
  - vm_compute. reflexivity.
  - repeat constructor.
  - vm_compute. lia.
  - exists l'. split; [exact Hrun|]. split; [exact Hw|]. rewrite Hd, fmap_app, Hev. vm_compute. reflexivity.
Defined.

Definition unopened : logger := logger_or (ck_event_logger_constructor true no_space (ck_event_logger_init ∅ None)).
Definition some_steps : list logger_step := [S_queue sample_event; S_finalize; S_take true true favourable].
Lemma unopened_log_never_written_witness :
  logger_run some_steps unopened = Some (tt, logger_or (logger_run some_steps unopened)) ∧
  omap id (event_queue (logger_or (logger_run some_steps unopened))) = [sample_event].
Proof.
  split; [vm_compute; reflexivity|].
  destruct (unopened_log_never_written ∅ None true no_space some_steps unopened (logger_or (logger_run some_steps unopened)))
    as (_ & Hq & _); [done|vm_compute; reflexivity..|]. rewrite Hq. vm_compute. reflexivity.
Defined.
