(* ===== verification/History.v ===== *)
(** * The history tool: [src/tools/ck-history.c].

    ck-history reads the log files of the event logger, newest file first, and
    prints a report.  Its state is the list of events and what was printed.
    [None] is an undefined "%s" of NULL, a failed assertion, or the end of the
    fuel of a loop; theorems say when none of them happens. *)

From stdpp Require Import sorting.
From S2P Require Import Prelude Scan LogEvent Regex LogLine.

Abbreviation log_event := (CkLogEvent cstr).

Inductive ReportType :=
| REPORT_TYPE_SUMMARY
| REPORT_TYPE_LAST
| REPORT_TYPE_LAST_COMPAT
| REPORT_TYPE_FREQUENT
| REPORT_TYPE_LOG.

Inductive RecordStatus :=
| RECORD_STATUS_CRASH
| RECORD_STATUS_DOWN
| RECORD_STATUS_NORMAL
| RECORD_STATUS_NOW
| RECORD_STATUS_REBOOT
| RECORD_STATUS_PHANTOM
| RECORD_STATUS_TIMECHANGE.
#[export] Instance RecordStatus_eq_dec : EqDecision RecordStatus.
Proof. solve_decision. Defined.

Definition MAX_LINE_LEN : nat := Eval vm_compute in N.to_nat 2048.
Definition USERNAME_MAX : nat := 24.

(** ** The system *)

(** The files, the users and the time: [fopen] gives the bytes of a file
    ([None]: it cannot be opened), [gzopen] those it decompresses to; [now] is
    the time when the [n]-th line of the report is made. *)
Class System := {
  fopen : string → option string;
  gzopen : string → option string;
  g_access : string → bool;
  getpwuid : Z → option string;
  getpwnam : string → option Z;
  ctime : Z → option string;
  now : nat → Z;
  g_time_val_from_iso8601 : string → option GTimeVal
}.

(** GLib: a hash table of integers is visited in any order; [g_list_sort] sorts. *)
Class GLib := {
  g_hash_table_foreach : gmap Z Z → list (Z * Z);
  g_hash_table_foreach_perm m : g_hash_table_foreach m ≡ₚ map_to_list m;
  g_list_sort : ∀ {A}, (A → A → Z) → list A → list A;
  g_list_sort_perm {A} (cmp : A → A → Z) l : g_list_sort cmp l ≡ₚ l;
  g_list_sort_sorted {A} (cmp : A → A → Z) l :
    (∀ x y, cmp x y ≤ 0 ∨ cmp y x ≤ 0)%Z → (∀ x y z, cmp x y ≤ 0 → cmp y z ≤ 0 → cmp x z ≤ 0)%Z →
    StronglySorted (λ x y, cmp x y ≤ 0)%Z (g_list_sort cmp l)
}.

(** ** Formatting *)

Fixpoint spaces (n : nat) : string := match n with 0 => "" | S n => String " " (spaces n) end.
(** ["%-w.ps"] and ["%ws"]. *)
Definition pad_right (w : nat) (s : string) : string := s +:+ spaces (w - String.length s).
Definition pad_left (w : nat) (s : string) : string := spaces (w - String.length s) +:+ s.
Definition fmt_s (w p : nat) (s : string) : string := pad_right w (stake p s).
(** ["%02d"]. *)
Definition fmt_02d (z : Z) : string :=
  let d := fmt_int z in if Nat.ltb (String.length d) 2 then "0" +:+ d else d.
Definition newline : string := String "010" "".

(** ** Reading the log files *)

(** [fgets (line, n + 1, stream)], of what is left of the file: the line and the rest. *)
Fixpoint fgets_go (n : nat) (s : string) : string * string :=
  match n, s with
  | S n, String c s =>
      if ascii_eqb c "010"%char then (newline, s)
      else let '(line, rest) := fgets_go n s in (String c line, rest)
  | _, _ => ("", s)
  end.
Definition fgets (n : nat) (s : string) : option (string * string) :=
  match s with EmptyString => None | _ => Some (fgets_go n s) end.

Record history := { all_events : list log_event; printed : list string }.
Abbreviation program := (prog history).

Section history.
Context `{GRegex} `{System} `{GLib}.

Definition parse_event_line (line : string) : option (option log_event) := ck_log_event_new_from_string (c_string line).

Definition since_ok (since : option GTimeVal) (ev : log_event) : bool :=
  match since with None => true | Some t => Z.geb (tv_sec (timestamp ev)) (tv_sec t) end.

(** The loop of [process_log_stream]. *)
Fixpoint stream_loop (fuel : nat) (since : option GTimeVal) (s : string) (events : list log_event) (hit_since : bool) :
    option (list log_event * bool) :=
  match fuel with
  | 0 => None
  | S fuel =>
      match fgets (MAX_LINE_LEN - 1) s with
      | None => Some (events, hit_since)
      | Some (line, s) =>
          parsed ← parse_event_line line;
          match parsed with
          | None => stream_loop fuel since s events hit_since
          | Some ev =>
              if since_ok since ev then stream_loop fuel since s (ev :: events) hit_since
              else stream_loop fuel since s events true
          end
      end
  end.
Definition process_log_stream (stream : string) (since : option GTimeVal) : program bool :=
  match stream_loop (S (String.length stream)) since stream [] false with
  | None => prog_abort
  | Some (events, hit_since) =>
      prog_modify (λ h, {| all_events := all_events h ++ events; printed := printed h |});;
      mret (negb hit_since)
  end.

(** The same loop, with [gzgets]. *)
Definition process_log_gzstream (stream : string) (since : option GTimeVal) : program bool :=
  process_log_stream stream since.

Definition g_str_has_prefix (s prefix : string) : bool :=
  match strip_prefix prefix s with Some _ => true | None => false end.

Definition process_log_file (filename : string) (since : option GTimeVal) : program bool :=
  if g_str_has_suffix filename ".gz" then
    match gzopen filename with
    | None => mret false
    | Some f => process_log_gzstream f since
    end
  else
    match fopen filename with
    | None => mret false
    | Some f => process_log_stream f since
    end.

Context (DEFAULT_LOG_FILENAME : string).

Definition log_filename (num : nat) : string := DEFAULT_LOG_FILENAME +:+ "." +:+ fmt_int (Z.of_nat num).
(** The loop of [get_log_file_list], which ends at the first number without a file. *)
Fixpoint rotated_files (fuel num : nat) : option (list string) :=
  match fuel with
  | 0 => None
  | S fuel =>
      let filename := log_filename num in
      if g_access filename then cons filename <$> rotated_files fuel (S num)
      else
        let filename_gz := filename +:+ ".gz" in
        if g_access filename_gz then cons filename_gz <$> rotated_files fuel (S num)
        else Some []
  end.
Definition get_log_file_list (fuel : nat) : option (list string) := cons DEFAULT_LOG_FILENAME <$> rotated_files fuel 1.

Fixpoint process_log_files (since : option GTimeVal) (files : list string) : program bool :=
  match files with
  | [] => mret true
  | filename :: files =>
      res ← process_log_file filename since;
      if res : bool then process_log_files since files else mret false
  end.
Definition process_logs (fuel : nat) (since : option GTimeVal) : program bool :=
  match get_log_file_list fuel with
  | None => prog_abort
  | Some files => process_log_files since files
  end.

(** ** Records *)

(** [event]: the one whose end is looked for. *)
Fixpoint find_first_matching_remove_event (events : list log_event) (event : CkLogSeatSessionEvent cstr) : option log_event :=
  match events with
  | [] => None
  | ev :: events =>
      match LogEvent.event ev with
      | EvSeatSessionRemoved e =>
          if bool_decide (ss_session_id e ≠ None ∧ ss_session_id event ≠ None ∧ ss_session_id e = ss_session_id event)
          then Some ev else find_first_matching_remove_event events event
      | EvSystemStart _ | EvSystemStop | EvSystemRestart => Some ev
      | _ => find_first_matching_remove_event events event
      end
  end.

Fixpoint find_first_matching_system_stop_event (events : list log_event) : option log_event :=
  match events with
  | [] => None
  | ev :: events =>
      match LogEvent.event ev with
      | EvSystemStop | EvSystemRestart => Some ev
      | _ => find_first_matching_system_stop_event events
      end
  end.

(** [int] to [uid_t]. *)
Definition get_user_name_for_uid (uid : Z) : cstr := getpwuid (u32 uid).
Definition get_uid_for_username (username : string) : Z :=
  match getpwnam username with Some pw_uid => i32 pw_uid | None => (-1)%Z end.

Definition without_dev (device : cstr) : cstr :=
  match device with
  | Some d => Some (if g_str_has_prefix d "/dev/" then sdrop 5 d else d)
  | None => None
  end.
(** The next three assert that the event is one that is printed. *)
Definition get_utline_for_event (ev : log_event) : option cstr :=
  match event ev with
  | EvSeatSessionAdded e =>
      Some (if bool_decide (or_empty (ss_session_x11_display_device e) ≠ "")
            then without_dev (ss_session_x11_display_device e) else without_dev (ss_session_display_device e))
  | EvSystemStart _ => Some (Some "system boot")
  | _ => None
  end.
Definition get_user_name_for_event (ev : log_event) : option cstr :=
  match event ev with
  | EvSeatSessionAdded e => Some (get_user_name_for_uid (i32 (ss_session_unix_user e)))
  | EvSystemStart _ => Some (Some "reboot")
  | _ => None
  end.
Definition get_host_for_event (ev : log_event) : option cstr :=
  match event ev with
  | EvSeatSessionAdded e =>
      Some (match ss_session_remote_host_name e with None => ss_session_x11_display e | Some name => Some name end)
  | EvSystemStart e => Some (kernel_release e)
  | _ => None
  end.

Definition get_event_record_status (remove_event : option log_event) : RecordStatus :=
  match remove_event with
  | None => RECORD_STATUS_NOW
  | Some ev =>
      match event ev with
      | EvSeatSessionRemoved _ => RECORD_STATUS_NORMAL
      | EvSystemStart _ => RECORD_STATUS_CRASH
      | EvSystemStop | EvSystemRestart => RECORD_STATUS_DOWN
      | _ => RECORD_STATUS_NOW
      end
  end.

(** [n]: how many lines were printed. *)
Definition get_duration (n : nat) (ev : log_event) (remove_event : option log_event) : string :=
  let ended := match remove_event with Some r => tv_sec (timestamp r) | None => now n end in
  let secs := i64 (ended - tv_sec (timestamp ev)) in
  let mins := i32 (Z.rem (Z.quot secs 60) 60) in
  let hours := i32 (Z.rem (Z.quot secs 3600) 24) in
  let days := i32 (Z.quot secs 86400) in
  if Z.gtb days 0 then "(" +:+ fmt_int days +:+ "+" +:+ fmt_02d hours +:+ ":" +:+ fmt_02d mins +:+ ")"
  else " (" +:+ fmt_02d hours +:+ ":" +:+ fmt_02d mins +:+ ")".

Definition g_print (line : string) : program unit :=
  prog_modify (λ h, {| all_events := all_events h; printed := printed h ++ [line] |}).
(** A "%s" of NULL is undefined, and so is [ctime] of a year that does not fit. *)
Definition the {A} (p : option A) : program A := match p with Some s => mret s | None => prog_abort end.
Definition or_blank (p : cstr) : string := match p with Some s => s | None => "" end.

(** The columns of a record up to the time of its start. *)
Definition record_head (legacy_compat : bool) (ev : log_event) (session_type session_id seat_id : cstr) : option string :=
  username ← get_user_name_for_event ev;
  utline ← get_utline_for_event ev;
  host ← get_host_for_event ev;
  added ← ctime (tv_sec (timestamp ev));
  user ← username;
  if legacy_compat then
    Some (fmt_s 8 8 user +:+ " " +:+ fmt_s 12 12 (or_blank utline) +:+ " " +:+ fmt_s 16 16 (or_blank host) +:+ " " +:+
          fmt_s 16 16 (stake 16 added))
  else
    type ← session_type; session ← session_id; seat ← seat_id; line ← utline;
    Some (fmt_s USERNAME_MAX USERNAME_MAX user +:+ " " +:+ pad_left 12 type +:+ " " +:+ fmt_s 10 10 session +:+ " " +:+
          fmt_s 7 7 seat +:+ " " +:+ fmt_s 12 12 line +:+ " " +:+ fmt_s 28 28 (or_blank host) +:+ " " +:+
          fmt_s 16 16 (stake 16 added)).

(** The columns of its end: the time and the duration.  The time is cut out of
    [ctime]'s text, which must be long enough. *)
Definition record_tail (n : nat) (ev : log_event) (status : RecordStatus) (remove_event : option log_event) : option (string * string) :=
  match status with
  | RECORD_STATUS_CRASH => Some ("- crash", get_duration n ev remove_event)
  | RECORD_STATUS_DOWN => Some ("- down ", get_duration n ev remove_event)
  | RECORD_STATUS_NOW => Some ("  still", "logged in")
  | RECORD_STATUS_PHANTOM => Some ("   gone", "- no logout")
  | RECORD_STATUS_REBOOT => Some ("", get_duration n ev remove_event)
  | RECORD_STATUS_TIMECHANGE => Some ("", "")
  | RECORD_STATUS_NORMAL =>
      removed ← remove_event;
      text ← ctime (tv_sec (timestamp removed));
      if Nat.leb 16 (String.length text) then Some (stake 7 ("- " +:+ sdrop 11 text), get_duration n ev remove_event)
      else None
  end.

(** [next]: the events after the record's. *)
Definition print_last_report_record (next : list log_event) (ev : log_event) (legacy_compat : bool) : program unit :=
  n ← prog_gets (λ h, length (printed h));
  let print status remove_event session_type session_id seat_id :=
    head ← the (record_head legacy_compat ev session_type session_id seat_id);
    '(removedtime, duration) ← the (record_tail n ev status remove_event);
    g_print (head +:+ " " +:+ fmt_s 7 7 removedtime +:+ " " +:+ fmt_s 12 12 duration +:+ newline) in
  match event ev with
  | EvSeatSessionAdded e =>
      let remove_event := find_first_matching_remove_event next e in
      print (get_event_record_status remove_event) remove_event (ss_session_type e) (ss_session_id e) (ss_seat_id e)
  | EvSystemStart _ =>
      print RECORD_STATUS_REBOOT (find_first_matching_system_stop_event next) (Some "") (Some "") (Some "")
  | _ => mret tt
  end.

(** ** Reports *)

(** The options that filter sessions. *)
Definition matches (uid : Z) (seat session_type : cstr) (e : CkLogSeatSessionEvent cstr) : bool :=
  negb (Z.geb uid 0 && bool_decide (ss_session_unix_user e ≠ u32 uid)) &&
  negb (bool_decide (seat ≠ None ∧ ss_seat_id e ≠ None ∧ ss_seat_id e ≠ seat)) &&
  negb (bool_decide (session_type ≠ None ∧ ss_session_type e ≠ None ∧ ss_session_type e ≠ session_type)).

(** The body of the loop; [next]: the events after [ev]. *)
Definition report_event (legacy_compat : bool) (uid : Z) (seat session_type : cstr) (ev : log_event) (next : list log_event) :
    program unit :=
  match event ev with
  | EvSeatSessionAdded e =>
      if matches uid seat session_type e then print_last_report_record next ev legacy_compat else mret tt
  | _ => print_last_report_record next ev legacy_compat
  end.
(** The last event first. *)
Fixpoint report_last_loop (legacy_compat : bool) (uid : Z) (seat session_type : cstr) (l : list log_event) : program unit :=
  match l with
  | [] => mret tt
  | ev :: next =>
      report_last_loop legacy_compat uid seat session_type next;;
      report_event legacy_compat uid seat session_type ev next
  end.
Definition log_begins : program unit :=
  l ← prog_gets all_events;
  match l with
  | [] => mret tt
  | oldest :: _ => text ← the (ctime (tv_sec (timestamp oldest))); g_print (newline +:+ "Log begins " +:+ text)
  end.
Definition generate_report_last (uid : Z) (seat session_type : cstr) : program unit :=
  l ← prog_gets all_events;
  report_last_loop false uid seat session_type l;;
  log_begins.
Definition generate_report_last_compat (uid : Z) (seat session_type : cstr) : program unit :=
  l ← prog_gets all_events;
  report_last_loop true uid seat session_type l;;
  log_begins.

(** The counts of the users; a count of 0 is NULL, that is, no entry. *)
Definition count_session (counts : gmap Z Z) (user : Z) : gmap Z Z :=
  let count := match counts !! user with Some val => if bool_decide (val = 0%Z) then 0%Z else val | None => 0%Z end in
  <[user := u32 (count + 1)]> counts.
Definition count_sessions (uid : Z) (seat session_type : cstr) (l : list log_event) : gmap Z Z :=
  foldl (λ counts ev,
    match event ev with
    | EvSeatSessionAdded e => if matches uid seat session_type e then count_session counts (ss_session_unix_user e) else counts
    | _ => counts
    end) ∅ l.
(** [CountData]: a user and a count. *)
Definition counts_compare (a b : Z * Z) : Z := if Z.ltb a.2 b.2 then 1 else if Z.gtb a.2 b.2 then -1 else 0.
Definition listify_counts (counts : gmap Z Z) : list (Z * Z) :=
  foldl (λ list kv, (i32 kv.1, kv.2) :: list) [] (g_hash_table_foreach counts).
Definition print_count (data : Z * Z) : program unit :=
  username ← the (get_user_name_for_uid data.1);
  g_print (pad_right USERNAME_MAX username +:+ " " +:+ fmt_unsigned data.2 +:+ newline).
Definition generate_report_frequent (uid : Z) (seat session_type : cstr) : program unit :=
  l ← prog_gets all_events;
  for_each print_count (g_list_sort counts_compare (listify_counts (count_sessions uid seat session_type l))).

Definition print_log_line (ev : log_event) : program unit :=
  line ← the (ck_log_event_to_string ev "");
  g_print (line +:+ newline).
Definition generate_report_log : program unit :=
  l ← prog_gets all_events;
  for_each print_log_line l.

Definition generate_report (report_type : ReportType) (uid : Z) (seat session_type : cstr) : program unit :=
  prog_modify (λ h, {| all_events := reverse (all_events h); printed := printed h |});;
  match report_type with
  | REPORT_TYPE_SUMMARY => mret tt
  | REPORT_TYPE_LAST => generate_report_last uid seat session_type
  | REPORT_TYPE_LAST_COMPAT => generate_report_last_compat uid seat session_type
  | REPORT_TYPE_FREQUENT => generate_report_frequent uid seat session_type
  | REPORT_TYPE_LOG => generate_report_log
  end.

(** ** The command *)

(** What the options parsed to; [None]: they did not parse. *)
Record options := {
  do_version : bool;
  report_last_compat : bool;
  report_last : bool;
  report_frequent : bool;
  report_log : bool;
  username : cstr;
  opt_seat : cstr;
  opt_session_type : cstr;
  opt_since : cstr
}.

Definition report_type_of (o : options) : ReportType :=
  if report_last_compat o then REPORT_TYPE_LAST_COMPAT
  else if report_last o then REPORT_TYPE_LAST
  else if report_frequent o then REPORT_TYPE_FREQUENT
  else if report_log o then REPORT_TYPE_LOG
  else REPORT_TYPE_SUMMARY.

(** The exit status; [argv0] and [version]: the text of --version. *)
Definition main (fuel : nat) (argv0 version : string) (parsed : option options) : program Z :=
  match parsed with
  | None => mret 1%Z
  | Some o =>
      if do_version o then g_print (argv0 +:+ " " +:+ version +:+ newline);; mret 1%Z
      else
        match opt_since o, (t ← opt_since o; g_time_val_from_iso8601 t) with
        | Some _, None => mret 1%Z
        | _, since =>
            let uid := match username o with Some name => get_uid_for_username name | None => (-1)%Z end in
            if bool_decide (username o ≠ None) && Z.eqb uid (-1) then mret 1%Z
            else
              process_logs fuel since;;
              generate_report (report_type_of o) uid (opt_seat o) (opt_session_type o);;
              mret 0%Z
        end
  end.
End history.

Definition no_history : history := {| all_events := []; printed := [] |}.
