(* ===== verification/HistoryFacts.v ===== *)
(** * The history tool: what it reads. *)

From stdpp Require Import sorting.
From S2P Require Import Prelude Scan LogEvent Regex LogLine History.

(** ** Lines *)

Lemma fgets_go_split n s : let '(line, rest) := fgets_go n s in s = line +:+ rest.
Proof.
  revert s. induction n as [|n IH]; intros s; [destruct s; reflexivity|]. destruct s as [|c s]; [done|]. simpl.
  destruct (ascii_eqb_spec c "010"%char) as [->|]; [done|]. specialize (IH s). destruct (fgets_go n s) as [line rest].
  by rewrite sapp_cons, IH.
Qed.

Lemma fgets_shrinks n s line rest : fgets (S n) s = Some (line, rest) → String.length rest < String.length s.
Proof.
  destruct s as [|c s]; [done|]. simpl. destruct (ascii_eqb c "010"%char); [intros [= <- <-]; lia|].
  pose proof (fgets_go_split n s) as Hs. destruct (fgets_go n s) as [l r]. intros [= <- <-]. rewrite Hs, slength_app. lia.
Qed.

(** What the calls of [fgets] return, up to the end of the file. *)
Fixpoint fgets_lines (fuel : nat) (s : string) : list string :=
  match fuel with
  | 0 => []
  | S fuel => match fgets (MAX_LINE_LEN - 1) s with None => [] | Some (line, s) => line :: fgets_lines fuel s end
  end.
Definition file_lines (s : string) : list string := fgets_lines (S (String.length s)) s.

Lemma max_line_pos : ∃ n, MAX_LINE_LEN - 1 = S n.
Proof. by eexists. Qed.

Lemma fgets_lines_fuel k1 k2 s : String.length s < k1 → String.length s < k2 → fgets_lines k1 s = fgets_lines k2 s.
Proof.
  destruct max_line_pos as [n Hn].
  revert k2 s. induction k1 as [|k1 IH]; intros k2 s H1 H2; [lia|]. destruct k2 as [|k2]; [lia|]. cbn [fgets_lines].
  rewrite Hn. destruct (fgets (S n) s) as [[line rest]|] eqn:Hf; [|done]. apply fgets_shrinks in Hf. f_equal. apply IH; lia.
Qed.

Lemma file_lines_cons s line rest : fgets (MAX_LINE_LEN - 1) s = Some (line, rest) → file_lines s = line :: file_lines rest.
Proof.
  destruct max_line_pos as [n Hn]. intros Hf. unfold file_lines at 1. cbn [fgets_lines]. rewrite Hf. f_equal.
  rewrite Hn in Hf. apply fgets_shrinks in Hf. apply fgets_lines_fuel; lia.
Qed.

(** A line that fits in the buffer is read whole. *)
Lemma fgets_line line rest n :
  sall (λ c, negb (ascii_eqb c "010"%char)) line → String.length line < n → 
  fgets n (line +:+ newline +:+ rest) = Some (line +:+ newline, rest).
Proof.
  intros Hl Hlen. assert (fgets_go n (line +:+ newline +:+ rest) = (line +:+ newline, rest)) as Hgo.
  { revert n Hlen. induction line as [|c line IH]; intros n Hlen; (destruct n as [|n]; [simpl in Hlen; lia|]); [done|].
    rewrite sapp_cons. simpl in Hl, Hlen. apply andb_True in Hl as [Hc Hl]. simpl. destruct (ascii_eqb c "010"%char); [done|].
    by rewrite IH by (done || lia). }
  unfold fgets. rewrite Hgo. by destruct line.
Qed.

(** The bytes that a list of lines is printed as. *)
Definition file_text (lines : list string) : string := foldr (λ line s, line +:+ newline +:+ s) "" lines.

(** Lines that can be read back: no newline or NUL, and not too long. *)
Definition line_ok (line : string) : Prop :=
  sall (λ c, negb (ascii_eqb c "010"%char)) line ∧ sall (λ c, negb (ascii_eqb c "000"%char)) line ∧
  String.length line < MAX_LINE_LEN - 1.

Lemma file_lines_text lines : Forall line_ok lines → file_lines (file_text lines) = map (λ line, line +:+ newline) lines.
Proof.
  induction 1 as [|line lines (H1 & _ & H3) _ IH]; [done|]. simpl. rewrite <- IH. apply file_lines_cons. by apply fgets_line.
Qed.

Section reading.
Context `{GRegex} `{System} `{GLib} (DEFAULT_LOG_FILENAME : string).

Definition parsed (line : string) : option log_event := default None (parse_event_line line).
Lemma parse_event_total line : parse_event_line line = Some (parsed line).
Proof. unfold parsed, parse_event_line. by destruct (parsed_line_ok (c_string line)) as (res & -> & _). Qed.
Lemma parsed_parsed_ok line ev : parsed line = Some ev → parsed_ok (event ev).
Proof.
  unfold parsed, parse_event_line. destruct (parsed_line_ok (c_string line)) as (res & -> & Hres). apply Hres.
Qed.

(** ** The events of a file *)

Definition file_events (s : string) : list log_event := omap parsed (file_lines s).

Lemma file_events_ok s : Forall (λ ev, parsed_ok (event ev)) (file_events s).
Proof. apply Forall_forall. intros ev (line & _ & Hl)%list_elem_of_omap. by eapply parsed_parsed_ok. Qed.

Lemma stream_loop_spec since fuel s events hit :
  String.length s < fuel →
  stream_loop fuel since s events hit =
  Some (reverse (filter (since_ok since) (omap parsed (fgets_lines fuel s))) ++ events,
        hit || existsb (λ ev, negb (since_ok since ev)) (omap parsed (fgets_lines fuel s))).
Proof.
  destruct max_line_pos as [n Hn].
  revert s events hit. induction fuel as [|fuel IH]; intros s events hit Hlen; [lia|]. cbn [stream_loop fgets_lines].
  rewrite Hn. destruct (fgets (S n) s) as [[line rest]|] eqn:Hf; [|simpl; by rewrite orb_false_r].
  apply fgets_shrinks in Hf. rewrite parse_event_total. cbn [mbind option_bind omap list_omap].
  destruct (parsed line) as [ev|]; [|apply IH; lia].
  rewrite filter_cons. cbn [existsb]. destruct (since_ok since ev); simpl.
  - rewrite IH by lia. by rewrite reverse_cons, <- app_assoc.
  - rewrite IH by lia. by rewrite orb_true_r.
Qed.

Lemma process_log_stream_run since s h :
  process_log_stream s since h =
  Some (negb (existsb (λ ev, negb (since_ok since ev)) (file_events s)),
        {| all_events := all_events h ++ reverse (filter (since_ok since) (file_events s)); printed := printed h |}).
Proof.
  unfold process_log_stream. rewrite stream_loop_spec by lia. rewrite app_nil_r. done.
Qed.

(** ** The files *)

Definition open_log (filename : string) : option string :=
  if g_str_has_suffix filename ".gz" then gzopen filename else fopen filename.

Lemma process_log_file_run since filename h :
  process_log_file filename since h =
  match open_log filename with Some s => process_log_stream s since h | None => Some (false, h) end.
Proof. unfold process_log_file, open_log. by destruct (g_str_has_suffix filename ".gz"), (gzopen filename), (fopen filename). Qed.

(** The newest file comes first; a log is chronological if no event is older than
    one before it. *)
Definition log_events (contents : list string) : list log_event := concat (map file_events (reverse contents)).
Definition not_after (a b : log_event) : Prop := (tv_sec (timestamp a) ≤ tv_sec (timestamp b))%Z.
Definition chronological (contents : list string) : Prop := StronglySorted not_after (log_events contents).

Lemma log_events_cons c cs : log_events (c :: cs) = log_events cs ++ file_events c.
Proof. unfold log_events. rewrite reverse_cons, map_app, concat_app. simpl. by rewrite app_nil_r. Qed.

(** Once an event is too old, so are all the events before it. *)
Lemma older_filtered since l1 l2 :
  StronglySorted not_after (l1 ++ l2) → existsb (λ ev, negb (since_ok since ev)) l2 = true → filter (since_ok since) l1 = [].
Proof.
  intros Hs (ev & Hev & Hold)%existsb_exists. apply elem_of_nil_inv. intros a [Ha Hin]%list_elem_of_filter.
  assert (not_after a ev) as Hle by (eapply (StronglySorted_app_1_elem_of not_after l1 l2); [done|done|by apply list_elem_of_In]).
  unfold since_ok, not_after in *. destruct since as [t|]; [|done]. rewrite Is_true_true, Z.geb_le in Ha.
  rewrite negb_true_iff, Z.geb_leb, Z.leb_gt in Hold. lia.
Qed.

Lemma process_log_files_run since files cs h :
  Forall2 (λ filename s, open_log filename = Some s) files cs → chronological cs →
  ∃ r, process_log_files since files h =
    Some (r, {| all_events := all_events h ++ reverse (filter (since_ok since) (log_events cs)); printed := printed h |}).
Proof.
  intros Hfiles. revert h. induction Hfiles as [|filename s files cs Hopen _ IH]; intros h Hchr.
  { exists true. simpl. rewrite app_nil_r. by destruct h. }
  cbn [process_log_files]. unfold_prog. rewrite process_log_file_run, Hopen, process_log_stream_run.
  unfold chronological in Hchr. rewrite log_events_cons in *. rewrite filter_app, reverse_app.
  destruct (existsb _ (file_events s)) eqn:Hhit.
  - exists false. rewrite (older_filtered since _ _ Hchr Hhit). by rewrite app_nil_r.
  - apply StronglySorted_app_1_l in Hchr. destruct (IH {| all_events := all_events h ++
      reverse (filter (since_ok since) (file_events s)); printed := printed h |} Hchr) as [r Hrun].
    exists r. simpl. rewrite Hrun. simpl. by rewrite <- app_assoc.
Qed.

(** Whatever the files are, reading them goes on to its end. *)
Lemma process_log_files_total since files h : ∃ r h', process_log_files since files h = Some (r, h') ∧ printed h' = printed h.
Proof.
  revert h. induction files as [|filename files IH]; intros h; [by exists true, h|].
  cbn [process_log_files]. unfold_prog. rewrite process_log_file_run.
  destruct (open_log filename) as [s|]; [|by eexists false, h]. rewrite process_log_stream_run.
  destruct (negb _); [|by eexists false, _]. destruct (IH {| all_events := all_events h ++
    reverse (filter (since_ok since) (file_events s)); printed := printed h |}) as (r & h' & -> & ?). by exists r, h'.
Qed.

(** The list of files ends at the first number [n] for which there is none. *)
Lemma rotated_files_total k num :
  (∃ n, num ≤ n < num + k ∧ g_access (log_filename DEFAULT_LOG_FILENAME n) = false ∧
     g_access (log_filename DEFAULT_LOG_FILENAME n +:+ ".gz") = false) →
  is_Some (rotated_files DEFAULT_LOG_FILENAME k num).
Proof.
  revert num. induction k as [|k IH]; intros num (n & Hn & Hno & Hnogz); [lia|]. cbn [rotated_files].
  destruct (decide (n = num)) as [->|]; [rewrite Hno, Hnogz; eauto|].
  destruct (IH (S num)) as [l Hl]; [exists n; split_and!; lia || done|]. rewrite Hl.
  repeat case_match; simpl; eauto.
Qed.
End reading.
