(* ===== verification/HistoryPolicy.v ===== *)
(** * The history tool: the reports are exact. *)

From stdpp Require Import sorting fin_maps.
From S2P Require Import Prelude Scan LogEvent Regex LogLine History HistoryFacts.

Section reports.
Context `{GRegex} `{System} `{GLib} (DEFAULT_LOG_FILENAME : string).

(** ** Reading *)

(** C33: Reading stops early without losing anything: for log files that can be
    opened and are chronological, what the tool has read, reversed for the report,
    is exactly the events of all the files, oldest first, that are not older than
    the given time, although it stops at the first file with an older event. *)
Theorem history_reads_log fuel since files cs :
  get_log_file_list DEFAULT_LOG_FILENAME fuel = Some files →
  Forall2 (λ filename s, open_log filename = Some s) files cs → chronological cs →
  ∃ r h, process_logs DEFAULT_LOG_FILENAME fuel since no_history = Some (r, h) ∧
    reverse (all_events h) = filter (since_ok since) (log_events cs) ∧ printed h = [].
Proof.
  intros Hlist Hfiles Hchr. unfold process_logs. rewrite Hlist.
  destruct (process_log_files_run since files cs no_history Hfiles Hchr) as [r Hrun]. eexists r, _. split; [exact Hrun|].
  simpl. by rewrite reverse_involutive.
Qed.

(** A log that cannot be opened ends the reading, and the log itself comes first:
    when it was renamed and not made again yet, no rotated file is read. *)
Theorem missing_log_hides_the_rotated fuel since files h :
  get_log_file_list DEFAULT_LOG_FILENAME fuel = Some files → open_log DEFAULT_LOG_FILENAME = None →
  process_logs DEFAULT_LOG_FILENAME fuel since h = Some (false, h).
Proof.
  intros Hlist Hno. unfold process_logs. rewrite Hlist. unfold get_log_file_list in Hlist.
  destruct (rotated_files DEFAULT_LOG_FILENAME fuel 1) as [rotated|]; [|done]. injection Hlist as <-.
  cbn [process_log_files]. unfold_prog. by rewrite process_log_file_run, Hno.
Qed.

(** Reading comes to its end if some number has no rotated file: the loop over the
    names stops there, no loop over lines runs out of fuel, and no line of any
    file reaches a failed assertion. *)
Theorem reading_terminates fuel since h n :
  1 ≤ n ≤ fuel → g_access (log_filename DEFAULT_LOG_FILENAME n) = false →
  g_access (log_filename DEFAULT_LOG_FILENAME n +:+ ".gz") = false →
  ∃ r h', process_logs DEFAULT_LOG_FILENAME fuel since h = Some (r, h') ∧ printed h' = printed h.
Proof.
  intros Hn Hno Hnogz. unfold process_logs, get_log_file_list.
  destruct (rotated_files_total DEFAULT_LOG_FILENAME fuel 1) as [files ->]; [exists n; split_and!; lia || done|].
  apply process_log_files_total.
Qed.

(** ** The end of a session *)

Definition ends (e : CkLogSeatSessionEvent cstr) (r : log_event) : bool :=
  match event r with
  | EvSeatSessionRemoved e' => bool_decide (ss_session_id e' ≠ None ∧ ss_session_id e' = ss_session_id e)
  | EvSystemStart _ | EvSystemStop | EvSystemRestart => true
  | _ => false
  end.
(** The status that an event which ends a session gives it. *)
Definition end_status (r : log_event) : RecordStatus :=
  match event r with
  | EvSeatSessionRemoved _ => RECORD_STATUS_NORMAL
  | EvSystemStart _ => RECORD_STATUS_CRASH
  | _ => RECORD_STATUS_DOWN
  end.
(** [r] is the first event of [next] that ends [e]. *)
Definition first_end (e : CkLogSeatSessionEvent cstr) (next : list log_event) (r : log_event) : Prop :=
  ∃ before after, next = before ++ r :: after ∧ Forall (λ ev, ends e ev = false) before ∧ ends e r = true.

Lemma find_remove_spec next e :
  match find_first_matching_remove_event next e with
  | None => Forall (λ ev, ends e ev = false) next
  | Some r => first_end e next r
  end.
Proof.
  induction next as [|ev next IH]; [constructor|].
  assert (find_first_matching_remove_event (ev :: next) e =
    if ends e ev then Some ev else find_first_matching_remove_event next e) as ->.
  { unfold ends. simpl. destruct (event ev); try done. do 2 case_bool_decide; try done; intuition congruence. }
  destruct (ends e ev) eqn:Hev; [by exists [], next|].
  destruct (find_first_matching_remove_event next e) as [r|]; [|by constructor].
  destruct IH as (before & after & -> & ? & ?). exists (ev :: before), after. by split_and!; [|constructor|].
Qed.

Lemma first_end_unique e next r1 r2 : first_end e next r1 → first_end e next r2 → r1 = r2.
Proof.
  induction next as [|ev next IH]; intros (b1 & a1 & E1 & N1 & Y1) (b2 & a2 & E2 & N2 & Y2); [by destruct b1|].
  destruct b1 as [|x1 b1], b2 as [|x2 b2]; injection E1 as -> ->; injection E2 as E2 E2'; subst; [done|..].
  - apply Forall_cons in N2 as [? _]. congruence.
  - apply Forall_cons in N1 as [? _]. congruence.
  - apply Forall_cons in N1 as [_ N1], N2 as [_ N2]. apply IH; [by exists b1, a1|by exists b2, a2].
Qed.

(** The status of a session's record: "still logged in" if and only if no later
    event ends the session, and otherwise what the first such event says: normal for
    the removal of this very session, crash for a system start, down for a stop or
    restart. *)
Theorem record_status_exact next e st :
  get_event_record_status (find_first_matching_remove_event next e) = st ↔
  (st = RECORD_STATUS_NOW ∧ Forall (λ ev, ends e ev = false) next) ∨ (∃ r, first_end e next r ∧ st = end_status r).
Proof.
  pose proof (find_remove_spec next e) as Hfind. destruct (find_first_matching_remove_event next e) as [r|].
  - assert (get_event_record_status (Some r) = end_status r) as ->.
    { destruct Hfind as (_ & _ & _ & _ & Hr). unfold ends, end_status, get_event_record_status in *. by destruct (event r). }
    split.
    + intros <-. right. by exists r.
    + intros [[_ Hnone]|(r' & Hr' & ->)]; [|f_equal; by eapply first_end_unique].
      destruct Hfind as (b & a & -> & _ & Hr). rewrite Forall_app, Forall_cons in Hnone. destruct Hnone as (_ & ? & _). congruence.
  - simpl. split; [intros <-; by left|]. intros [[-> _]|(r & (b & a & -> & _ & Hr) & _)]; [done|].
    rewrite Forall_app, Forall_cons in Hfind. destruct Hfind as (_ & ? & _). congruence.
Qed.

(** ** The last report *)

Definition reported (uid : Z) (seat session_type : cstr) (ev : log_event) : bool :=
  match event ev with
  | EvSeatSessionAdded e => matches uid seat session_type e
  | EvSystemStart _ => true
  | _ => false
  end.
(** The reported events with those after each, the latest first. *)
Fixpoint records (uid : Z) (seat session_type : cstr) (l : list log_event) : list (log_event * list log_event) :=
  match l with
  | [] => []
  | ev :: next => records uid seat session_type next ++ (if reported uid seat session_type ev then [(ev, next)] else [])
  end.

(** The line for a record, when [n] lines were printed. *)
Definition record_line (compat : bool) (n : nat) (ev : log_event) (next : list log_event) : option string :=
  let line status remove_event session_type session_id seat_id :=
    head ← record_head compat ev session_type session_id seat_id;
    '(removedtime, duration) ← record_tail n ev status remove_event;
    Some (head +:+ " " +:+ fmt_s 7 7 removedtime +:+ " " +:+ fmt_s 12 12 duration +:+ newline) in
  match event ev with
  | EvSeatSessionAdded e =>
      let remove_event := find_first_matching_remove_event next e in
      line (get_event_record_status remove_event) remove_event (ss_session_type e) (ss_session_id e) (ss_seat_id e)
  | EvSystemStart _ =>
      line RECORD_STATUS_REBOOT (find_first_matching_system_stop_event next) (Some "") (Some "") (Some "")
  | _ => None
  end.
Fixpoint record_lines (compat : bool) (n : nat) (rs : list (log_event * list log_event)) : option (list string) :=
  match rs with
  | [] => Some []
  | (ev, next) :: rs => line ← record_line compat n ev next; lines ← record_lines compat (S n) rs; Some (line :: lines)
  end.

Lemma report_event_run compat uid seat session_type ev next h :
  report_event compat uid seat session_type ev next h =
  if reported uid seat session_type ev then
    line ← record_line compat (length (printed h)) ev next;
    Some (tt, {| all_events := all_events h; printed := printed h ++ [line] |})
  else Some (tt, h).
Proof.
  unfold report_event, reported, print_last_report_record, record_line, the. unfold_prog.
  destruct (event ev) as [| | | |s| | | | | | |e| | | |]; try done; [|destruct (matches uid seat session_type e); [|done]].
  all: destruct (record_head compat ev _ _ _) as [head|]; [|done]; simpl; try done.
  match goal with |- context [record_tail ?a ?b ?c ?d] => by destruct (record_tail a b c d) as [[? ?]|] end.
Qed.

Lemma record_lines_app compat n rs1 rs2 :
  record_lines compat n (rs1 ++ rs2) =
  (l1 ← record_lines compat n rs1; l2 ← record_lines compat (n + length rs1) rs2; Some (l1 ++ l2)).
Proof.
  revert n. induction rs1 as [|[ev next] rs1 IH]; intros n; simpl.
  - rewrite Nat.add_0_r. by destruct (record_lines compat n rs2).
  - destruct (record_line compat n ev next); [|done]. simpl. rewrite IH, Nat.add_succ_r.
    destruct (record_lines compat (S n) rs1); [|done]. simpl. by destruct (record_lines compat (S (n + length rs1)) rs2).
Qed.
Lemma record_lines_length compat n rs lines : record_lines compat n rs = Some lines → length lines = length rs.
Proof.
  revert n lines. induction rs as [|[ev next] rs IH]; intros n lines; simpl; [by intros [= <-]|].
  intros (line & _ & (ls & Hls & [= <-])%bind_Some)%bind_Some. simpl. f_equal. by eapply IH.
Qed.

Lemma report_last_loop_run compat uid seat session_type l h :
  report_last_loop compat uid seat session_type l h =
  (lines ← record_lines compat (length (printed h)) (records uid seat session_type l);
   Some (tt, {| all_events := all_events h; printed := printed h ++ lines |})).
Proof.
  induction l as [|ev next IH]; simpl; [rewrite app_nil_r; by destruct h|]. unfold_prog. rewrite IH, record_lines_app.
  destruct (record_lines compat _ (records uid seat session_type next)) as [ls|] eqn:Hls; [|done]. simpl.
  apply record_lines_length in Hls.
  rewrite report_event_run. destruct (reported uid seat session_type ev); simpl; [|by rewrite app_nil_r].
  rewrite length_app, Hls. destruct (record_line compat _ ev next) as [line|]; [|done]. simpl. by rewrite <- app_assoc.
Qed.
(** [ctime] gives a text that is as long as documented, whatever the time. *)
Definition ctime_ok : Prop := ∀ t, ∃ text, ctime t = Some text ∧ 16 ≤ String.length text.
(** The user of a session has a name. *)
Definition user_known (ev : log_event) : Prop :=
  match event ev with EvSeatSessionAdded e => is_Some (getpwuid (u32 (i32 (ss_session_unix_user e)))) | _ => True end.
#[export] Instance user_known_dec ev : Decision (user_known ev).
Proof. unfold user_known. destruct (event ev); try by left. apply _. Defined.

Lemma record_tail_defined n ev status remove_event :
  ctime_ok → (status = RECORD_STATUS_NORMAL → is_Some remove_event) → is_Some (record_tail n ev status remove_event).
Proof.
  intros Htime Hnormal. destruct status; try by eexists. destruct Hnormal as [r ->]; [done|].
  cbn [record_tail mbind option_bind]. destruct (Htime (tv_sec (timestamp r))) as (text & -> & Hlen).
  cbn [mbind option_bind]. apply Nat.leb_le in Hlen. rewrite Hlen. by eexists.
Qed.

Lemma field_in_Some cls least p : field_in cls least p → is_Some p.
Proof. destruct p; [by eexists|done]. Qed.
Lemma utline_Some e : parsed_session_ok e → ∀ ts, ∃ line, get_utline_for_event {| event := EvSeatSessionAdded e; timestamp := ts |} = Some (Some line).
Proof.
  intros (_ & _ & _ & _ & [x Hx]%field_in_Some & [d Hd]%field_in_Some & _) ts. unfold get_utline_for_event. simpl.
  rewrite Hx, Hd. case_bool_decide; eexists; done.
Qed.

Lemma record_defined compat n ev next uid seat session_type :
  ctime_ok → parsed_ok (event ev) → reported uid seat session_type ev = true →
  is_Some (record_line compat n ev next) ↔ user_known ev.
Proof.
  intros Htime Hev Hrep. destruct ev as [u ts]. unfold reported, record_line, user_known in *. cbn [event] in *.
  destruct (Htime (tv_sec ts)) as (added & Hadded & _). destruct u as [| | | |s| | | | | | |e| | | |]; try done.
  - split; [done|]. intros _. destruct (record_tail_defined n {| event := EvSystemStart s; timestamp := ts |}
      RECORD_STATUS_REBOOT (find_first_matching_system_stop_event next) Htime) as [[removed duration] Htail]; [done|].
    unfold record_head. cbn. rewrite Hadded. destruct compat; simpl; eauto.
  - destruct (utline_Some e Hev ts) as [line Hline].
    destruct Hev as ([seat_id Hseat]%field_in_Some & [session_id Hsession]%field_in_Some & [type Htype]%field_in_Some & _).
    unfold record_head, get_user_name_for_event, get_host_for_event, get_user_name_for_uid. cbn [event timestamp].
    rewrite Hline, Hadded, Hseat, Hsession, Htype. cbn [mbind option_bind].
    destruct (getpwuid _) as [name|]; [|split; intros [? ?]; done]. split; [eauto|]. intros _.
    assert (is_Some (record_tail n {| event := EvSeatSessionAdded e; timestamp := ts |}
      (get_event_record_status (find_first_matching_remove_event next e)) (find_first_matching_remove_event next e))) as [[r d] Htail].
    { apply record_tail_defined; [done|]. by destruct (find_first_matching_remove_event next e). }
    destruct compat; simpl; rewrite Htail; simpl; eauto.
Qed.

Lemma records_reported uid seat session_type l :
  Forall (λ r, r.1 ∈ l ∧ reported uid seat session_type r.1 = true) (records uid seat session_type l).
Proof.
  induction l as [|ev l IH]; [constructor|]. simpl. apply Forall_app. split.
  - eapply Forall_impl; [exact IH|]. intros r [Hr ?]. split; [by right|done].
  - destruct (reported uid seat session_type ev) eqn:Hev; constructor; [split; [left|done]|constructor].
Qed.

Lemma record_lines_defined compat n rs uid seat session_type :
  ctime_ok → Forall (λ r, parsed_ok (event r.1) ∧ reported uid seat session_type r.1 = true) rs →
  match record_lines compat n rs with
  | None => Exists (λ r, ¬ user_known r.1) rs
  | Some _ => Forall (λ r, user_known r.1) rs
  end.
Proof.
  intros Htime Hrs. revert n. induction Hrs as [|[ev next] rs [Hok Hrep] _ IH]; intros n; [constructor|]. simpl in *.
  pose proof (record_defined compat n ev next uid seat session_type Htime Hok Hrep) as Hdef.
  destruct (record_line compat n ev next) as [line|]; simpl.
  - specialize (IH (S n)). destruct (record_lines compat (S n) rs); simpl; [constructor; [by apply Hdef; eauto|done]|by right].
  - left. simpl. intros Hknown. apply Hdef in Hknown. by destruct Hknown.
Qed.

Definition begins (l : list log_event) : list string :=
  match l with [] => [] | oldest :: _ => [newline +:+ "Log begins " +:+ default "" (ctime (tv_sec (timestamp oldest)))] end.
Definition last_report (compat : bool) : Z → cstr → cstr → prog history unit :=
  if compat then generate_report_last_compat else generate_report_last.

(** The last report, in both formats: for any events that were read, one line
    for every system start and every session that matches the options, the latest
    first, each with the status and the duration that the later events give it, then
    the line on the start of the log; the report comes to its end exactly if the
    user of every reported session still has a name. *)
Theorem last_report_exact compat uid seat session_type l :
  ctime_ok → Forall (λ ev, parsed_ok (event ev)) l →
  match last_report compat uid seat session_type {| all_events := l; printed := [] |} with
  | None => Exists (λ r, ¬ user_known r.1) (records uid seat session_type l)
  | Some (_, h) =>
      Forall (λ r, user_known r.1) (records uid seat session_type l) ∧
      ∃ lines, record_lines compat 0 (records uid seat session_type l) = Some lines ∧ printed h = lines ++ begins l
  end.
Proof.
  intros Htime Hl.
  assert (last_report compat uid seat session_type {| all_events := l; printed := [] |} =
    (report_last_loop compat uid seat session_type l;; log_begins) {| all_events := l; printed := [] |}) as ->
    by by destruct compat.
  assert (Forall (λ r, parsed_ok (event r.1) ∧ reported uid seat session_type r.1 = true) (records uid seat session_type l)) as Hrs.
  { eapply Forall_impl; [apply records_reported|]. intros r [Hin ?]. split; [|done]. rewrite Forall_forall in Hl. by apply Hl. }
  pose proof (record_lines_defined compat 0 _ uid seat session_type Htime Hrs) as Hdef.
  unfold_prog. rewrite report_last_loop_run. simpl.
  destruct (record_lines compat 0 (records uid seat session_type l)) as [lines|]; [|done]. simpl. unfold log_begins. unfold_prog.
  destruct l as [|oldest l]; simpl; [split; [done|]; exists lines; by rewrite app_nil_r|].
  destruct (Htime (tv_sec (timestamp oldest))) as (text & Htext & _). rewrite Htext. simpl. split; [done|]. by exists lines.
Qed.

(** ** The users by the number of their sessions *)

Definition session_of (uid : Z) (seat session_type : cstr) (user : Z) (ev : log_event) : bool :=
  match event ev with
  | EvSeatSessionAdded e => matches uid seat session_type e && bool_decide (ss_session_unix_user e = user)
  | _ => false
  end.
Definition sessions (uid : Z) (seat session_type : cstr) (user : Z) (l : list log_event) : Z :=
  Z.of_nat (length (filter (session_of uid seat session_type user) l)).

Lemma sessions_snoc uid seat session_type user l ev :
  sessions uid seat session_type user (l ++ [ev]) =
  (sessions uid seat session_type user l + if session_of uid seat session_type user ev then 1 else 0)%Z.
Proof.
  unfold sessions. rewrite filter_app, length_app, filter_cons, filter_nil.
  destruct (session_of uid seat session_type user ev); simpl; lia.
Qed.
Lemma sessions_bound uid seat session_type user l : (0 ≤ sessions uid seat session_type user l ≤ Z.of_nat (length l))%Z.
Proof. unfold sessions. pose proof (length_filter (session_of uid seat session_type user) l). lia. Qed.

Lemma count_session_lookup counts user n :
  (0 ≤ n < 2 ^ 32 - 1)%Z → counts !! user = (if decide (n = 0)%Z then None else Some n) →
  count_session counts user !! user = Some (n + 1)%Z.
Proof.
  intros Hn Hc. unfold count_session. rewrite lookup_insert_eq, Hc. f_equal.
  destruct (decide (n = 0)%Z) as [->|]; [done|]. rewrite bool_decide_eq_false_2 by done. rewrite u32_small; lia.
Qed.

Lemma count_sessions_lookup uid seat session_type l user :
  (Z.of_nat (length l) < 2 ^ 32)%Z →
  count_sessions uid seat session_type l !! user =
  let n := sessions uid seat session_type user l in if decide (n = 0)%Z then None else Some n.
Proof.
  revert user. induction l as [|ev l IH] using rev_ind; intros user Hlen; [done|].
  rewrite length_app in Hlen. simpl in Hlen. rewrite sessions_snoc. unfold count_sessions in *. rewrite foldl_app. simpl.
  pose proof (sessions_bound uid seat session_type user l) as Hb.
  unfold session_of. destruct (event ev) as [| | | |s| | | | | | |e| | | |];
    try (rewrite IH by lia; by rewrite Z.add_0_r).
  destruct (matches uid seat session_type e); simpl; [|rewrite IH by lia; by rewrite Z.add_0_r].
  case_bool_decide as Hu; [subst user|].
  - rewrite (count_session_lookup _ _ (sessions uid seat session_type (ss_session_unix_user e) l)) by (lia || apply IH; lia).
    rewrite decide_False by lia. done.
  - unfold count_session. rewrite lookup_insert_ne by done. rewrite IH by lia. by rewrite Z.add_0_r.
Qed.

Definition by_count : Z * Z → Z * Z → Prop := λ a b, (b.2 ≤ a.2)%Z.
Lemma sorted_by_count l : StronglySorted by_count (g_list_sort counts_compare l).
Proof.
  assert (∀ a b, (counts_compare a b ≤ 0)%Z ↔ by_count a b) as Hcmp.
  { intros a b. unfold counts_compare, by_count. destruct (Z.ltb_spec a.2 b.2); [lia|].
    rewrite Z.gtb_ltb. destruct (Z.ltb_spec b.2 a.2); lia. }
  pose proof (g_list_sort_sorted counts_compare l) as Hs.
  assert (StronglySorted (λ x y, counts_compare x y ≤ 0)%Z (g_list_sort counts_compare l)) as Hsorted.
  { apply Hs; intros *; rewrite !Hcmp; unfold by_count; lia. }
  clear Hs. induction Hsorted as [|a l' _ IH Ha]; constructor; [done|]. eapply Forall_impl; [exact Ha|]. intros b. apply Hcmp.
Qed.

Lemma listify_counts_perm counts : listify_counts counts ≡ₚ (λ kv, (i32 kv.1, kv.2)) <$> map_to_list counts.
Proof.
  unfold listify_counts. rewrite <- (g_hash_table_foreach_perm counts). generalize (g_hash_table_foreach counts). intros l.
  assert (∀ acc, foldl (λ list kv, (i32 kv.1, kv.2) :: list) acc l ≡ₚ ((λ kv : Z * Z, (i32 kv.1, kv.2)) <$> l) ++ acc) as Hl.
  { induction l as [|kv l IH]; intros acc; [done|]. simpl. rewrite IH. by rewrite Permutation_middle. }
  by rewrite Hl, app_nil_r.
Qed.

(** The line for a user. *)
Definition count_line (data : Z * Z) : option string :=
  (λ username, pad_right USERNAME_MAX username +:+ " " +:+ fmt_unsigned data.2 +:+ newline) <$> get_user_name_for_uid data.1.
Lemma print_counts_run rows h :
  for_each print_count rows h =
  (lines ← mapM count_line rows; Some (tt, {| all_events := all_events h; printed := printed h ++ lines |})).
Proof.
  revert h. induction rows as [|data rows IH]; intros h; [simpl; rewrite app_nil_r; by destruct h|].
  cbn [for_each]. unfold print_count, count_line, the, g_print. unfold_prog. simpl.
  destruct (get_user_name_for_uid data.1) as [name|]; [|done]. simpl. rewrite IH. simpl.
  fold count_line. destruct (mapM _ rows) as [lines|]; [|done]. simpl. by rewrite <- app_assoc.
Qed.

Lemma i32_inj u1 u2 : (0 ≤ u1 < 2 ^ 32)%Z → (0 ≤ u2 < 2 ^ 32)%Z → i32 u1 = i32 u2 → u1 = u2.
Proof.
  unfold i32. intros Hu1 Hu2 E. pose proof (Z.div_mod (u1 + 2 ^ 31) (2 ^ 32)). pose proof (Z.div_mod (u2 + 2 ^ 31) (2 ^ 32)). lia.
Qed.

(** The report of frequent users: for fewer than 2^32 events that were read,
    the rows are sorted by descending count, no user has two of them, a user has a
    row exactly if a session of the user matches the options, and the row's count is
    the number of these sessions; the rows are printed in this order, as long as
    every user has a name. *)
Theorem frequent_exact uid seat session_type l :
  (Z.of_nat (length l) < 2 ^ 32)%Z → Forall (λ ev, parsed_ok (event ev)) l →
  ∃ rows, StronglySorted by_count rows ∧ NoDup rows.*1 ∧
    (∀ user n, (0 ≤ user < 2 ^ 32)%Z → (i32 user, n) ∈ rows ↔ n = sessions uid seat session_type user l ∧ n ≠ 0%Z) ∧
    generate_report_frequent uid seat session_type {| all_events := l; printed := [] |} =
    (lines ← mapM count_line rows; Some (tt, {| all_events := l; printed := lines |})).
Proof.
  intros Hlen Hl. exists (g_list_sort counts_compare (listify_counts (count_sessions uid seat session_type l))).
  assert (∀ user n, count_sessions uid seat session_type l !! user = Some n → (0 ≤ user < 2 ^ 32)%Z) as Hrange.
  { intros user n Hc. rewrite count_sessions_lookup in Hc by done. cbv zeta in Hc. case_decide as Hn; [done|]. unfold sessions in Hn.
    destruct (filter _ l) as [|ev evs] eqn:Hf; [done|].
    assert (ev ∈ filter (session_of uid seat session_type user) l) as [Hev Hin]%list_elem_of_filter by (rewrite Hf; left).
    rewrite Forall_forall in Hl. specialize (Hl ev Hin). unfold session_of in Hev. destruct (event ev); try done.
    apply andb_True in Hev as [_ <-%bool_decide_unpack]. apply Hl. }
  split_and!; [apply sorted_by_count| | |exact (print_counts_run _ {| all_events := l; printed := [] |})].
  - rewrite g_list_sort_perm, listify_counts_perm, <- list_fmap_compose.
    apply NoDup_fmap_2_strong; [|apply NoDup_map_to_list]. intros [u1 n1] [u2 n2] Hk1%elem_of_map_to_list Hk2%elem_of_map_to_list E.
    simpl in E. apply i32_inj in E as ->; [congruence|by eapply Hrange..].
  - intros user n Hu. rewrite g_list_sort_perm, listify_counts_perm, list_elem_of_fmap. split.
    + intros ([u m] & [= E ->] & Hm%elem_of_map_to_list). apply i32_inj in E as ->; [|done|by eapply Hrange].
      rewrite count_sessions_lookup in Hm by done. cbv zeta in Hm. by case_decide; simplify_eq.
    + intros [-> Hn]. exists (user, sessions uid seat session_type user l). split; [done|]. apply elem_of_map_to_list.
      rewrite count_sessions_lookup by done. simpl. by rewrite decide_False.
Qed.

(** ** What the reports get wrong *)

(** A user whose id does not fit in an [int] is not filtered: every session is
    reported. *)
Theorem big_user_id_not_filtered name pw_uid e :
  getpwnam name = Some pw_uid → (2 ^ 31 ≤ pw_uid < 2 ^ 32 - 1)%Z →
  get_uid_for_username name ≠ (-1)%Z ∧ matches (get_uid_for_username name) None None e = true.
Proof.
  intros Hname Hbig. unfold get_uid_for_username. rewrite Hname.
  assert (i32 pw_uid = pw_uid - 2 ^ 32)%Z as ->.
  { unfold i32. pose proof (Z.div_mod (pw_uid + 2 ^ 31) (2 ^ 32)). pose proof (Z.mod_pos_bound (pw_uid + 2 ^ 31) (2 ^ 32)). lia. }
  split; [lia|]. unfold matches. rewrite Z.geb_leb, (proj2 (Z.leb_gt _ _)) by lia. simpl.
  repeat case_bool_decide; tauto.
Qed.

(** The uptime of a system that crashed goes on to the stop of a later one. *)
Theorem crashed_boot_runs_on before start after :
  Forall (λ ev, event ev ≠ EvSystemStop ∧ event ev ≠ EvSystemRestart) (before ++ [start]) →
  find_first_matching_system_stop_event (before ++ start :: after) = find_first_matching_system_stop_event after.
Proof.
  change (start :: after) with ([start] ++ after). rewrite (app_assoc before).
  generalize (before ++ [start]). intros l. induction 1 as [|ev l [H1' H2'] _ IH]; [done|]. simpl.
  destruct (event ev); done.
Qed.
End reports.
