(* ===== verification/LogPipeline.v ===== *)
(** * From the daemon's log to the report: what the event logger wrote is what the
    history tool reads. *)

From stdpp Require Import sorting.
From S2P Require Import Prelude Scan LogEvent Regex LogLine EventLogger EventLoggerFacts EventLoggerPolicy.
From S2P Require Import History HistoryFacts HistoryPolicy.

(** The events that were written to the file [f]. *)
Definition events_written (f : positive) (d : list (CkLogEvent cstr * fate)) : list (CkLogEvent cstr) :=
  omap (λ r, match r.2 with Written f' => if decide (f' = f) then Some r.1 else None | NotWritten => None end) d.

Lemma written_to_events f d : written_to f d = line_of <$> events_written f d.
Proof.
  induction d as [|[ev r] d IH]; [done|]. unfold written_to, events_written. simpl.
  destruct r as [f'|]; [|exact IH]. destruct (decide (f' = f)); [|exact IH]. simpl. f_equal. exact IH.
Qed.

(** An event whose line can be read back. *)
Definition readable (ev : CkLogEvent cstr) : Prop := time_ok (timestamp ev) ∧ union_ok (event ev) ∧ line_ok (line_of ev).

Section pipeline.
Context `{GRegex}.

Lemma line_read_back ev : printable ev → readable ev → parsed (line_of ev +:+ newline) = Some (read_back ev).
Proof.
  intros [line Hline] (Htime & Hok & _ & Hnul & _). unfold line_of in *. rewrite Hline in *. simpl in *.
  unfold parsed, parse_event_line. rewrite c_string_id.
  - by rewrite (printed_line_parses ev line newline Htime Hok (or_intror eq_refl) Hline).
  - by rewrite sall_app, andb_True.
Qed.

Lemma lines_read_back evs :
  Forall printable evs → Forall readable evs → file_events (file_text (line_of <$> evs)) = read_back <$> evs.
Proof.
  intros Hpr Hread. unfold file_events. rewrite file_lines_text.
  - induction evs as [|ev evs IH]; [done|]. apply Forall_cons in Hpr as [? ?], Hread as [? ?]. simpl.
    rewrite line_read_back by done. by f_equal; apply IH.
  - apply Forall_fmap. eapply Forall_impl; [exact Hread|]. intros ev (_ & _ & ?). done.
Qed.

Lemma events_written_sublist f d ev : ev ∈ events_written f d → ev ∈ d.*1.
Proof.
  intros ([ev' r] & Hin & Hr)%list_elem_of_omap. simpl in Hr. destruct r as [f'|]; [|done]. case_decide; [|done].
  injection Hr as ->. apply list_elem_of_fmap. by exists (ev, Written f').
Qed.

(** C23: From the daemon to the tool: in every reachable state of the logger,
    whatever replacements of the log there were, reading a file that was new gives
    back the events that were written to it, in order and up to what a round trip
    through a line loses, if their fields fit the patterns and their lines the
    buffer, without a newline. *)
Theorem logged_events_read_back fs0 l f :
  logger_reachable fs0 l → default [] (fs0 !! f) = [] → Forall readable (events_written f (done l)) →
  file_events (file_text (default [] (files l !! f))) = read_back <$> events_written f (done l).
Proof.
  intros Hl%logger_reachable_inv Hnew Hread. rewrite (li_contents fs0 l Hl), Hnew, app_nil_l, written_to_events.
  apply lines_read_back; [|done]. apply Forall_forall. intros ev Hev%events_written_sublist.
  pose proof (li_printable fs0 l Hl) as Hpr. rewrite Forall_forall in Hpr. apply Hpr.
  destruct (log_counts fs0 l Hl) as [-> _]. apply elem_of_app. by left.
Qed.
End pipeline.

(** ** Concrete runs *)

(** A new log was created after the old one was renamed; the event went there. *)
Definition taken : logger := logger_or (logger_serve (S_take true true favourable) log_gone).
Definition written_log : logger := logger_or (logger_serve (S_print true) taken).
Lemma written_log_reachable : logger_reachable ∅ written_log.
Proof.
  apply step_reachable; [apply step_reachable; [apply log_gone_reachable|..]|..]; first [exact I|vm_compute; reflexivity].
Qed.

Lemma readable_intro ev :
  time_ok (timestamp ev) && union_ok (event ev) && sall (λ c, negb (ascii_eqb c "010"%char)) (line_of ev) &&
  sall (λ c, negb (ascii_eqb c "000"%char)) (line_of ev) && Nat.ltb (String.length (line_of ev)) (MAX_LINE_LEN - 1) = true →
  readable ev.
Proof. rewrite !andb_true_iff, Nat.ltb_lt. intros ((((H1 & H2) & H3) & H4) & ?). by rewrite <- !Is_true_true in *. Qed.

Lemma logged_events_read_back_witness :
  current written_log = Some 2%positive ∧
  file_events (file_text (default [] (files written_log !! 2%positive))) = [read_back sample_event].
Proof.
  split; [vm_compute; reflexivity|].
  rewrite (logged_events_read_back ∅ written_log 2 written_log_reachable).
  - vm_compute. reflexivity.
  - reflexivity.
  - assert (events_written 2 (done written_log) = [sample_event]) as -> by (vm_compute; reflexivity).
    constructor; [|constructor]. apply readable_intro. vm_compute. reflexivity.
Defined.

(** Nothing is escaped: a newline in a field ends the line, and what follows is
    read as an event of its own. *)
Definition forged_stop : string := "1420070500.000 type=SYSTEM_STOP : ".
Definition with_newline : CkLogEvent cstr :=
  {| event := EvSeatDeviceAdded {| sd_seat_id := Some "Seat1"; sd_device_type := Some ("x" +:+ newline +:+ forged_stop);
                                   sd_device_id := Some "d" |};
     timestamp := {| tv_sec := 1420070400; tv_usec := 0 |} |}.
Theorem newline_forges_event :
  ∃ line, ck_log_event_to_string with_newline "" = Some line ∧
    map event (file_events (line +:+ newline)) = [EvSystemStop].
Proof. eexists. split; [vm_compute; reflexivity|]. vm_compute. reflexivity. Qed.

(** A line that is longer than the buffer is read in pieces; the rest of the boot
    arguments is read as an event. *)
Definition long_arguments : string := Eval vm_compute in String.concat "" (replicate 197 "argument0 ") +:+ "abcd " +:+ forged_stop.
Definition with_long_line : CkLogEvent cstr :=
  {| event := EvSystemStart {| kernel_release := Some "4.1"; boot_arguments := Some long_arguments |};
     timestamp := {| tv_sec := 1420070400; tv_usec := 0 |} |}.
Theorem long_line_forges_event :
  ∃ line, ck_log_event_to_string with_long_line "" = Some line ∧
    map type_of (map event (file_events (line +:+ newline))) = [CK_LOG_EVENT_SYSTEM_START; CK_LOG_EVENT_SYSTEM_STOP].
Proof. eexists. split; [vm_compute; reflexivity|]. vm_compute. reflexivity. Qed.

(** ** A reading of two log files *)

Definition HISTORY : string := "/var/log/ConsoleKit/history".
Definition at_time (t : Z) (u : CkLogUnion cstr) : CkLogEvent cstr := {| event := u; timestamp := {| tv_sec := t; tv_usec := 0 |} |}.
Definition session_with (id : string) (user : Z) : CkLogSeatSessionEvent cstr :=
  {| ss_seat_id := Some "Seat1"; ss_session_id := Some id; ss_session_type := Some "x11"; ss_session_x11_display := Some ":0";
     ss_session_x11_display_device := Some "/dev/tty7"; ss_session_display_device := Some "";
     ss_session_remote_host_name := Some ""; ss_session_is_local := true; ss_session_unix_user := user;
     ss_session_creation_time := Some "" |}.
(** A crash: the system starts, a session opens, the system starts again. *)
Definition rotated_log : list (CkLogEvent cstr) :=
  [at_time 100 (EvSystemStart {| kernel_release := Some "4.1"; boot_arguments := Some "quiet" |});
   at_time 160 (EvSeatSessionAdded (session_with "Session1" 1000))].
Definition recent_log : list (CkLogEvent cstr) :=
  [at_time 7000 (EvSystemStart {| kernel_release := Some "4.1"; boot_arguments := Some "quiet" |});
   at_time 7060 (EvSeatSessionAdded (session_with "Session2" 1000));
   at_time 7120 (EvSeatSessionAdded (session_with "Session3" 1001));
   at_time 7180 (EvSeatSessionRemoved (session_with "Session3" 1001));
   at_time 90000 EvSystemStop].
Definition text_of (evs : list (CkLogEvent cstr)) : string := file_text (line_of <$> evs).

#[local] Instance small_system : System :=
  {| fopen := λ f, if String.eqb f HISTORY then Some (text_of recent_log)
                   else if String.eqb f (HISTORY +:+ ".1") then Some (text_of rotated_log) else None;
     gzopen := λ _, None;
     g_access := λ f, String.eqb f (HISTORY +:+ ".1");
     getpwuid := λ u, if Z.eqb u 1000 then Some "ada" else if Z.eqb u 1001 then Some "bob" else None;
     getpwnam := λ n, if String.eqb n "ada" then Some 1000%Z else if String.eqb n "big" then Some 3000000000%Z else None;
     ctime := λ _, Some ("Thu Jan  1 00:00:00 1970" +:+ newline);
     now := λ _, 100000%Z;
     g_time_val_from_iso8601 := λ _, None |}.
Definition cmp_le {A} (cmp : A → A → Z) (x y : A) : Prop := (cmp x y ≤ 0)%Z.
#[local] Instance cmp_le_dec {A} (cmp : A → A → Z) : RelDecision (cmp_le cmp).
Proof. intros x y. unfold cmp_le. apply _. Defined.
#[local] Program Instance small_glib : GLib :=
  {| g_hash_table_foreach := map_to_list; g_list_sort := λ A cmp, merge_sort (cmp_le cmp) |}.
Next Obligation. done. Qed.
Next Obligation. intros. apply merge_sort_Permutation. Qed.
Next Obligation. intros A cmp l Htotal Htrans. apply StronglySorted_merge_sort; [exact Htrans|exact Htotal]. Qed.

Lemma records_chronological : chronological [text_of recent_log; text_of rotated_log].
Proof.
  assert (log_events [text_of recent_log; text_of rotated_log] = map read_back (rotated_log ++ recent_log)) as E
    by (vm_compute; reflexivity).
  unfold chronological. rewrite E. unfold not_after. repeat constructor; vm_compute; discriminate.
Qed.

(** Events since a time in the newest file: the rotated file is not needed. *)
Definition since_7100 : option GTimeVal := Some {| tv_sec := 7100; tv_usec := 0 |}.
Lemma history_reads_log_witness :
  ∃ r h, process_logs HISTORY 5 since_7100 no_history = Some (r, h) ∧
    reverse (all_events h) = map read_back (drop 2 recent_log).
Proof.
  destruct (history_reads_log HISTORY 5 since_7100 [HISTORY; HISTORY +:+ ".1"] [text_of recent_log; text_of rotated_log])
    as (r & h & Hrun & Hev & _).
  - vm_compute. reflexivity.
  - repeat constructor.
  - exact records_chronological.
  - exists r, h. split; [exact Hrun|]. rewrite Hev. vm_compute. reflexivity.
Defined.

(** The newest log was renamed away and not created yet. *)
Definition just_rotated : System :=
  {| fopen := λ f, if String.eqb f (HISTORY +:+ ".1") then Some (text_of recent_log) else None;
     gzopen := gzopen; g_access := g_access; getpwuid := getpwuid; getpwnam := getpwnam; ctime := ctime; now := now;
     g_time_val_from_iso8601 := g_time_val_from_iso8601 |}.
Lemma missing_log_hides_the_rotated_witness :
  @process_logs _ just_rotated HISTORY 5 None no_history = Some (false, no_history).
Proof.
  apply (@missing_log_hides_the_rotated _ just_rotated HISTORY 5 None [HISTORY; HISTORY +:+ ".1"] no_history);
    vm_compute; reflexivity.
Defined.

Definition read_log : list (CkLogEvent cstr) := map read_back (rotated_log ++ recent_log).
Lemma read_log_ok : Forall (λ ev, parsed_ok (event ev)) read_log.
Proof. repeat constructor; vm_compute; try done; eauto. Qed.
Lemma small_ctime_ok : ctime_ok.
Proof. intros t. exists ("Thu Jan  1 00:00:00 1970" +:+ newline). split; [reflexivity|]. vm_compute. lia. Qed.

Lemma reading_terminates_witness :
  ∃ r h, process_logs HISTORY 2 since_7100 no_history = Some (r, h) ∧ printed h = [].
Proof. apply (reading_terminates HISTORY 2 since_7100 no_history 2); [lia|vm_compute; reflexivity..]. Defined.

(** Four records, and the line "Log begins". *)
Lemma last_report_exact_witness :
  ∃ lines, record_lines true 0 (records (-1) None None read_log) = Some lines ∧ length lines = 5.
Proof.
  pose proof (last_report_exact true (-1) None None read_log small_ctime_ok read_log_ok) as Hreport.
  destruct (last_report true (-1) None None {| all_events := read_log; printed := [] |}) as [[[] h]|] eqn:Hrun.
  - destruct Hreport as (_ & lines & Hlines & _). exists lines. split; [exact Hlines|].
    assert (length (default [] (record_lines true 0 (records (-1) None None read_log))) = 5) as Hlen by (vm_compute; reflexivity).
    rewrite Hlines in Hlen. exact Hlen.
  - vm_compute in Hrun. discriminate Hrun.
Defined.

(** Two sessions of ada, one of bob. *)
Lemma frequent_exact_witness :
  ∃ rows, StronglySorted by_count rows ∧ (1000%Z, 2%Z) ∈ rows ∧ (1001%Z, 1%Z) ∈ rows.
Proof.
  destruct (frequent_exact (-1) None None read_log) as (rows & Hsorted & _ & Hrows & _).
  - vm_compute. reflexivity.
  - exact read_log_ok.
  - exists rows. split; [exact Hsorted|]. split.
    + apply (Hrows 1000%Z 2%Z); vm_compute; split; try done; reflexivity.
    + apply (Hrows 1001%Z 1%Z); vm_compute; split; try done; reflexivity.
Defined.
