(* ===== verification/ProcFs.v ===== *)
(** * What the Linux port finds out about processes: [src/ck-sysdeps-linux.c].

    The process information of /proc: the status line and the controlling
    terminal, the environment, the login session, the owner; the swap space; the
    wait for a console switch.  [None] is undefined behaviour: a NULL pointer
    followed, a buffer that is too small, or memory that was never written. *)

From S2P Require Import Prelude Scan Console.

(** ** The system *)

(** The contents of files, the targets of links, the device number and the owner
    that [stat] gives, what a [read] of 9999 bytes of /proc/tty/drivers gives, whether
    /sys/power/state names a sleep state. *)
Class Proc := {
  g_file_get_contents : string → option string;
  g_file_read_link : string → option string;
  st_rdev : string → option Z;
  st_uid : string → option Z;
  tty_drivers : option string;
  linux_supports_sleep_state : string → bool
}.

(** ** sscanf *)

(** The directives that the formats use; %lu and %Lu have 64 bits. *)
Inductive directive := D_space | D_char | D_int | D_long | D_ulong | D_skip_word | D_skip_unsigned.

(** %d and %ld: like [strtol], with at least one digit. *)
Definition scan_signed (s : string) : option (Z * string) :=
  let '(_, s1) := scan_sign (skip_space s) in
  let '(digits, rest) := sspan is_digit s1 in
  if String.eqb digits "" then None else Some ((strtol s).1, rest).

Fixpoint sscanf (format : list directive) (s : string) : list Z :=
  match format with
  | [] => []
  | D_space :: format => sscanf format (skip_space s)
  | D_char :: format => match s with String c s => Z.of_N (N_of_ascii c) :: sscanf format s | EmptyString => [] end
  | D_int :: format => match scan_signed s with Some (z, s) => i32 z :: sscanf format s | None => [] end
  | D_long :: format => match scan_signed s with Some (z, s) => z :: sscanf format s | None => [] end
  | D_ulong :: format => match scan_unsigned s with Some (z, s) => z :: sscanf format s | None => [] end
  | D_skip_word :: format =>
      let '(word, s) := sspan (λ c, negb (is_space c)) (skip_space s) in
      if String.eqb word "" then [] else sscanf format s
  | D_skip_unsigned :: format => match scan_unsigned s with Some (_, s) => sscanf format s | None => [] end
  end.

(** ** Terminals *)

Definition MAJOR_OF (d : Z) : Z := Z.land (Z.shiftr (u32 d) 8) 4095.
Definition MINOR_OF (d : Z) : Z := Z.lor (Z.land (u32 d) 255) (Z.shiftr (Z.land (u32 d) 4293918720) 12).

Record tty_map_node := { major_number : Z; minor_first : Z; minor_last : Z; tty_name : string; devfs_type : bool }.

(** [atoi]. *)
Definition atoi (s : string) : Z := i32 (strtol s).1.

Definition strip_percent_d (name : string) : string * bool :=
  let n := String.length name - 2 in
  if Nat.leb 3 (String.length name) && String.eqb (sdrop n name) "%d" then (stake n name, true) else (name, false).

(** The numbers after a driver's name: the major, and where the minors are. *)
Definition is_blank (c : ascii) : bool := ascii_eqb c " "%char.
Definition parse_major (p : string) : Z * string :=
  let p := (sspan is_blank p).2 in
  (u32 (atoi p), (sspan is_blank (sspan is_digit p).2).2).
(** One minor or a range; [None]: neither. *)
Definition parse_minors (p : string) : option (Z * Z) :=
  '(first, rest) ← scan_unsigned p;
  match rest' ← strip_prefix "-" rest; scan_unsigned rest' with
  | Some (last, _) => Some (u32 first, u32 last)
  | None => Some (u32 first, u32 first)
  end.

(** The loop of [load_drivers]: the latest driver is the first of the list.  A name
    that does not fit the 32 bytes is written past the end. *)
Fixpoint load_loop (fuel : nat) (p : string) (tty_map : list tty_map_node) : option (list tty_map_node) :=
  match fuel with
  | 0 => None
  | S fuel =>
      match after_first " /dev/" p with
      | None => Some tty_map
      | Some p =>
          let '(name, rest) := sspan (λ c, negb (is_blank c)) p in
          if String.eqb rest "" then load_loop fuel p tty_map
          else
            let '(name, devfs) := strip_percent_d name in
            let '(major, p) := parse_major rest in
            if Nat.leb 32 (String.length name) then None
            else
              match parse_minors p with
              | Some (first, last) =>
                  load_loop fuel p
                    ({| major_number := major; minor_first := first; minor_last := last; tty_name := name; devfs_type := devfs |} :: tty_map)
              | None => load_loop fuel p tty_map
              end
      end
  end.

Section proc.
Context `{Proc}.

Definition load_drivers : option (list tty_map_node) :=
  match tty_drivers with
  | None => Some []
  | Some buf => let buf := c_string buf in load_loop (S (String.length buf)) buf []
  end.

Definition covers (maj min : Z) (n : tty_map_node) : bool :=
  Z.eqb (major_number n) maj && Z.leb (minor_first n) min && Z.leb min (minor_last n).

(** The device of the name has these numbers. *)
Definition right_device (maj min : Z) (rdev : Z) : bool := Z.eqb min (MINOR_OF rdev) && Z.eqb maj (MAJOR_OF rdev).

Definition driver_name (maj min : Z) : option cstr :=
  tty_map ← load_drivers;
  match list_find (λ n, covers maj min n = true) tty_map with
  | None => Some None
  | Some (_, tmn) =>
      let tty := "/dev/" +:+ tty_name tmn +:+ fmt_int (i32 min) in
      match st_rdev tty with
      | Some rdev => Some (if right_device maj min rdev then Some tty else None)
      | None =>
          if devfs_type tmn then Some None
          else
            let tty := "/dev/" +:+ tty_name tmn in
            match st_rdev tty with
            | Some rdev => Some (if right_device maj min rdev then Some tty else None)
            | None => Some None
            end
      end
  end.

Definition link_name (maj min pid : Z) (name : string) : cstr :=
  tty ← g_file_read_link ("/proc/" +:+ fmt_int pid +:+ "/" +:+ name);
  rdev ← st_rdev tty;
  if right_device maj min rdev then Some tty else None.

(** ** The status of a process *)

(** [CkProcessStat], with the fields in the order in which they are scanned after
    the first four. *)
Record CkProcessStat := {
  pid : Z; cmd : string; state : Z; ppid : Z;
  pgrp : Z; session : Z; tty : Z; tpgid : Z;
  flags : Z; min_flt : Z; cmin_flt : Z; maj_flt : Z; cmaj_flt : Z;
  utime : Z; stime : Z; cutime : Z; cstime : Z;
  priority : Z; nice : Z; nlwp : Z; alarm : Z; start_time : Z; vsize : Z; rss : Z;
  rss_rlim : Z; start_code : Z; end_code : Z; start_stack : Z; kstk_esp : Z; kstk_eip : Z;
  wchan : Z; exit_signal : Z; processor : Z; rtprio : Z; sched : Z
}.

Definition ck_process_stat_get_ppid (st : CkProcessStat) : Z := ppid st.
Definition ck_process_stat_get_cmd (st : CkProcessStat) : string := cmd st.

Definition ck_process_stat_get_tty (st : CkProcessStat) : option cstr :=
  let dev := u32 (tty st) in
  if Z.eqb dev 0 then Some None
  else
    let dev_maj := MAJOR_OF dev in
    let dev_min := MINOR_OF dev in
    match link_name dev_maj dev_min (pid st) "tty" with
    | Some tty => Some (Some tty)
    | None =>
        by_driver ← driver_name dev_maj dev_min;
        match by_driver with
        | Some tty => Some (Some tty)
        | None =>
            match link_name dev_maj dev_min (pid st) "fd/2" with
            | Some tty => Some (Some tty)
            | None => Some (link_name dev_maj dev_min (pid st) "fd/255")
            end
        end
    end.

(** The text before the last [c] and the text after it ([strrchr]). *)
Fixpoint split_last (c : ascii) (s : string) : option (string * string) :=
  match s with
  | EmptyString => None
  | String d s =>
      match split_last c s with
      | Some (before, after) => Some (String d before, after)
      | None => if ascii_eqb d c then Some ("", s) else None
      end
  end.

Definition stat_format : list directive :=
  [D_char; D_space] ++
  concat (replicate 5 [D_int; D_space]) ++       (* ppid pgrp session tty tpgid *)
  concat (replicate 5 [D_ulong; D_space]) ++     (* flags min_flt cmin_flt maj_flt cmaj_flt *)
  concat (replicate 4 [D_ulong; D_space]) ++     (* utime stime cutime cstime *)
  concat (replicate 2 [D_long; D_space]) ++      (* priority nice *)
  [D_int; D_space] ++                            (* nlwp *)
  [D_long; D_space] ++                           (* alarm *)
  [D_ulong; D_space] ++                          (* start_time *)
  [D_ulong; D_space] ++                          (* vsize *)
  [D_long; D_space] ++                           (* rss *)
  concat (replicate 6 [D_ulong; D_space]) ++     (* rss_rlim start_code end_code start_stack kstk_esp kstk_eip *)
  concat (replicate 4 [D_skip_word; D_space]) ++
  [D_ulong; D_space] ++                          (* wchan *)
  concat (replicate 2 [D_skip_unsigned; D_space]) ++
  concat (replicate 2 [D_int; D_space]) ++       (* exit_signal processor *)
  [D_ulong; D_space; D_ulong].                   (* rtprio sched *)

(** What is not scanned keeps its value: 0, except for the last fields. *)
Definition stat2proc (p : Z) (S : string) : option CkProcessStat :=
  S ← after_first "(" (c_string S);
  '(name, rest) ← split_last ")"%char S;
  if String.eqb rest "" then None
  else
    let v := sscanf stat_format (sdrop 1 rest) in
    let field (i : nat) (dflt : Z) := nth i v dflt in
    Some {| pid := p; cmd := stake 15 name; state := field 0 0%Z; ppid := field 1 0%Z;
            pgrp := field 2 0%Z; session := field 3 0%Z; tty := field 4 0%Z; tpgid := field 5 0%Z;
            flags := field 6 0%Z; min_flt := field 7 0%Z; cmin_flt := field 8 0%Z; maj_flt := field 9 0%Z; cmaj_flt := field 10 0%Z;
            utime := field 11 0%Z; stime := field 12 0%Z; cutime := field 13 0%Z; cstime := field 14 0%Z;
            priority := field 15 0%Z; nice := field 16 0%Z;
            nlwp := if Z.eqb (field 17 0%Z) 0 then 1%Z else field 17 0%Z;
            alarm := field 18 0%Z; start_time := field 19 0%Z; vsize := field 20 0%Z; rss := field 21 0%Z;
            rss_rlim := field 22 0%Z; start_code := field 23 0%Z; end_code := field 24 0%Z; start_stack := field 25 0%Z;
            kstk_esp := field 26 0%Z; kstk_eip := field 27 0%Z; wchan := field 28 0%Z;
            exit_signal := field 29 0%Z; processor := field 30 0%Z;
            rtprio := field 31 (2 ^ 64 - 1)%Z; sched := field 32 (2 ^ 64 - 1)%Z |}.

(** [Some None]: FALSE. *)
Definition ck_process_stat_new_for_unix_pid (p : Z) : option (option CkProcessStat) :=
  if Z.leb p 1 then Some None
  else
    match g_file_get_contents ("/proc/" +:+ fmt_int p +:+ "/stat") with
    | Some contents => Some <$> stat2proc p contents
    | None => Some None
    end.

Definition ck_unix_pid_get_ppid (p : Z) : option Z :=
  if Z.leb p 1 then Some 0%Z
  else
    st ← ck_process_stat_new_for_unix_pid p;
    Some (match st with Some st => ck_process_stat_get_ppid st | None => (-1)%Z end).

Definition ck_unix_pid_get_uid (p : Z) : Z :=
  if Z.leb p 1 then 0%Z else match st_uid ("/proc/" +:+ fmt_unsigned (u32 p)) with Some uid => u32 (i32 uid) | None => (2 ^ 32 - 1)%Z end.

(** ** The environment *)

Definition environ_path (p : Z) : string := "/proc/" +:+ fmt_unsigned (u32 p) +:+ "/environ".

(** [g_strsplit (s, "=", 2)] of a string that is not empty; the second may be NULL. *)
Definition split_entry (s : string) : string * cstr :=
  let '(key, rest) := sspan (λ c, negb (ascii_eqb c "="%char)) s in
  match rest with EmptyString => (key, None) | String _ value => (key, Some value) end.

Fixpoint env_hash_loop (last_was_null : bool) (s : string) (hash : gmap string cstr) : gmap string cstr :=
  match s with
  | EmptyString => hash
  | String c rest =>
      if ascii_eqb c "000"%char then env_hash_loop true rest hash
      else
        let hash := if last_was_null then let '(key, value) := split_entry (c_string s) in <[key := value]> hash else hash in
        env_hash_loop false rest hash
  end.
Definition ck_unix_pid_get_env_hash (p : Z) : option (gmap string cstr) :=
  if Z.leb p 1 then None
  else
    contents ← g_file_get_contents (environ_path p);
    Some (env_hash_loop true contents ∅).

Fixpoint env_loop (last_was_null : bool) (prefix s : string) : cstr :=
  match s with
  | EmptyString => None
  | String c rest =>
      if ascii_eqb c "000"%char then env_loop true prefix rest
      else
        match (if last_was_null then strip_prefix prefix (c_string s) else None) with
        | Some value => Some value
        | None => env_loop false prefix rest
        end
  end.
Definition ck_unix_pid_get_env (p : Z) (var : string) : cstr :=
  if Z.leb p 1 then None
  else
    contents ← g_file_get_contents (environ_path p);
    env_loop true (var +:+ "=") contents.

(** [errno] is ERANGE: the digits do not fit. *)
Definition strtoul_overflows (s : string) : bool :=
  Z.leb (2 ^ 64) (Z.of_N (digits_value 0 (sspan is_digit (scan_sign (skip_space s)).2).1)).

Definition ck_unix_pid_get_login_session_id (p : Z) : option cstr :=
  if Z.leb p 1 then None
  else
    contents ← g_file_get_contents ("/proc/" +:+ fmt_unsigned (u32 p) +:+ "/sessionid");
    let contents := c_string contents in
    if String.eqb contents "" then None
    else
      let '(ulong_value, end_of_valid_ulong) := strtoul contents in
      if negb (String.eqb end_of_valid_ulong "") then None
      else if strtoul_overflows contents then None
      else if Z.eqb ulong_value (2 ^ 32 - 1) then None
      else Some (Some (fmt_unsigned ulong_value)).

(** ** Swap space *)

Fixpoint g_strsplit_set (delimiters : ascii → bool) (word s : string) : list string :=
  match s with
  | EmptyString => [word]
  | String c s =>
      if delimiters c then word :: g_strsplit_set delimiters "" s else g_strsplit_set delimiters (word +:+ String c "") s
  end.
(** An empty string has no words. *)
Definition split_words (delimiters : ascii → bool) (s : string) : list string :=
  if String.eqb s "" then [] else g_strsplit_set delimiters "" s.

Record meminfo := { active : Z; swap_free : Z; swap_total : Z }.

Definition meminfo_line (m : meminfo) (line : string) : meminfo :=
  let tokens := split_words (λ c, ascii_eqb c ":"%char || ascii_eqb c " "%char) line in
  let len := length tokens in
  if Nat.ltb 3 len then
    let name := nth 0 tokens "" in
    let value := u32 (atoi (nth (len - 2) tokens "")) in
    let m := if String.eqb name "SwapFree" then {| active := active m; swap_free := value; swap_total := swap_total m |} else m in
    if String.eqb name "SwapTotal" then {| active := active m; swap_free := swap_free m; swap_total := value |}
    else if String.eqb name "Active(anon)" then {| active := value; swap_free := swap_free m; swap_total := swap_total m |}
    else m
  else m.

(** The percentage: a quotient of 32-bit numbers. *)
Definition used_swap (m : meminfo) : Z :=
  if Z.eqb (swap_total m) 0 then 100
  else if Z.ltb 0 (swap_free m) && Z.ltb 0 (active m) then Z.div (u32 (active m * 100)) (swap_free m)
  else 0.
(** The first line is passed over; an empty file has none. *)
Definition linux_get_used_swap : option Z :=
  match g_file_get_contents "/proc/meminfo" with
  | None => Some 0%Z
  | Some contents =>
      match split_words (λ c, ascii_eqb c "010"%char) (c_string contents) with
      | [] => None
      | _ :: lines => Some (used_swap (foldl meminfo_line {| active := 0; swap_free := 0; swap_total := 0 |} lines))
      end
  end.
Definition linux_check_enough_swap : option bool := (λ used, Z.ltb used 98) <$> linux_get_used_swap.
Definition ck_system_can_suspend : bool := linux_supports_sleep_state "mem".
Definition ck_system_can_hibernate : option bool :=
  if linux_supports_sleep_state "disk" then linux_check_enough_swap else Some false.
Definition ck_system_can_hybrid_sleep : bool := linux_supports_sleep_state "disk" && linux_supports_sleep_state "mem".
End proc.

(** ** Console switches *)

(** The answers of [poll]: interrupted, an error, POLLPRI, something else. *)
Inductive poll_answer := P_interrupted | P_error | P_pri | P_other.
(** [None]: an error, which aborts the daemon, or poll never returns. *)
Fixpoint poll_vt_fd (answers : list poll_answer) : option bool :=
  match answers with
  | [] | P_error :: _ => None
  | P_pri :: _ => Some true
  | (P_interrupted | P_other) :: answers => poll_vt_fd answers
  end.

(** The answers of [read], with that of [lseek]. *)
Inductive read_answer := R_interrupted | R_error | R_bytes (data : string) (seek_ok : bool).

(** [sscanf (new_vt, "%31[a-z-A-Z]%d", unused, &vty_num) == 2].  The buffer after the
    data was not written: unless a NUL is among them, what the scan finds at
    their end is not known. *)
Definition parse_vt (data : string) : option (option Z) :=
  let text := c_string data in
  let at_end := if String.eqb text data then None else Some None in
  let '(name, rest) := sspan (λ c, is_alpha c || ascii_eqb c "-"%char) text in
  if String.eqb rest "" then at_end
  else if String.eqb name "" then Some None
  else
    match scan_signed rest with
    | None => Some None
    | Some (num, rest) => if String.eqb rest "" then (_ ← at_end; Some (Some (i32 num))) else Some (Some (i32 num))
    end.

Fixpoint read_from_vt_fd (answers : list read_answer) : option Z :=
  match answers with
  | [] | R_error :: _ => None
  | R_interrupted :: answers => read_from_vt_fd answers
  | R_bytes data seek_ok :: _ =>
      if String.eqb data "" then None
      else
        vty_num ← parse_vt (stake 30 data);
        Some (if (seek_ok : bool) then default (-1)%Z vty_num else (-1)%Z)
  end.

(** Whether a switch was seen, and the number of the console. *)
Definition ck_wait_for_console_switch (polls : list poll_answer) (reads : list read_answer) : option (option Z) :=
  ready ← poll_vt_fd polls;
  if (ready : bool) then new_vt ← read_from_vt_fd reads; Some (if Z.geb new_vt 0 then Some new_vt else None)
  else Some None.
