(* ===== verification/ProcFsFacts.v ===== *)
(** * What the Linux port finds out about processes: what it reads is what the
    kernel wrote. *)

From S2P Require Import Prelude Scan Console ProcFs.

(** ** Numbers *)

Lemma pretty_N_not_sign x : ∃ c s, pretty (x : N) = String c s ∧ is_digit c.
Proof.
  pose proof (pretty_N_digits x) as Hd. pose proof (pretty_N_nonempty x). destruct (pretty x) as [|c s] eqn:E; [done|].
  exists c, s. split; [done|]. by apply andb_True in Hd as [? _].
Qed.

Lemma scan_sign_digits s : sall is_digit s → scan_sign s = (false, s).
Proof.
  destruct s as [|c s]; [done|]. intros [Hc _]%andb_True. destruct (digit_not_space c Hc) as (_ & Hm & Hp). simpl.
  destruct (ascii_eqb_spec c "-"%char); [done|]. by destruct (ascii_eqb_spec c "+"%char).
Qed.
Lemma skip_space_digit c s : is_digit c → skip_space (String c s) = String c s.
Proof. intros Hc. destruct (digit_not_space c Hc) as (Hs & _ & _). unfold skip_space. simpl. by rewrite Hs. Qed.

(** A number that is printed is scanned back, whatever follows. *)
Lemma scan_signed_fmt z rest :
  (- 2 ^ 63 ≤ z < 2 ^ 63)%Z → shead is_digit rest = false → scan_signed (fmt_int z +:+ rest) = Some (z, rest).
Proof.
  intros Hz Hrest. unfold scan_signed.
  assert (∃ minus d, fmt_int z = (if minus : bool then "-" else "") +:+ d ∧ sall is_digit d ∧ d ≠ "" ∧
    z = (if minus then - Z.of_N (digits_value 0 d) else Z.of_N (digits_value 0 d))%Z) as (minus & d & E & Hd & Hne & Hv).
  { destruct z as [|p|p]; [exists false, "0"|exists false, (pretty (N.pos p))|exists true, (pretty (N.pos p))];
      rewrite ?pretty_N_value; split_and!; try done; apply pretty_N_digits || apply pretty_N_nonempty. }
  assert (skip_space (fmt_int z +:+ rest) = (if minus then "-" else "") +:+ (d +:+ rest) ∧
    scan_sign ((if minus then "-" else "") +:+ (d +:+ rest)) = (minus, d +:+ rest)) as [Hskip Hsign].
  { rewrite E, sapp_assoc. destruct d as [|c d]; [done|]. pose proof Hd as [Hc _]%andb_True. destruct minus.
    - done.
    - rewrite !sapp_nil_l, sapp_cons. split; [by apply skip_space_digit|].
      destruct (digit_not_space c Hc) as (_ & Hm & Hp). simpl.
      destruct (ascii_eqb_spec c "-"%char); [done|]. by destruct (ascii_eqb_spec c "+"%char). }
  unfold strtol. rewrite Hskip, Hsign, sspan_app by done. cbn [fst].
  destruct (String.eqb_spec d ""); [done|]. do 2 f_equal. rewrite <- Hv.
  destruct (Z.ltb_spec (2 ^ 63 - 1) z); [lia|]. by destruct (Z.ltb_spec z (- 2 ^ 63)); [lia|].
Qed.

(** ** The status line *)

(** "ppid pgrp session tty_nr tpgid", each with a space before it. *)
Definition stat_numbers (numbers : list Z) (rest : string) : string := foldr (λ z s, " " +:+ fmt_int z +:+ s) rest numbers.
(** The line of the kernel: the name of the command in parentheses, whatever it
    is, then the state and the numbers. *)
Definition stat_line (p : Z) (comm : string) (st : ascii) (numbers : list Z) (rest : string) : string :=
  fmt_int p +:+ " (" +:+ comm +:+ ") " +:+ String st (stat_numbers numbers rest).

Lemma split_last_none c s : no_char c s → split_last c s = None.
Proof.
  induction s as [|d s IH]; [done|]. intros [Hd Hs]%andb_True. simpl. rewrite IH by done. by destruct (ascii_eqb d c).
Qed.
Lemma split_last_app c s rest : no_char c rest → split_last c (s +:+ String c rest) = Some (s, rest).
Proof.
  intros Hrest. induction s as [|d s IH].
  - rewrite sapp_nil_l. simpl. rewrite split_last_none by done. by rewrite ascii_eqb_refl.
  - rewrite sapp_cons. simpl. by rewrite IH.
Qed.

Lemma fmt_int_no_char c z : is_digit c = false → c ≠ "-"%char → no_char c (fmt_int z).
Proof.
  intros Hc Hm.
  assert (∀ x : N, no_char c (pretty x)) as Hd.
  { intros x. eapply sall_impl; [|apply pretty_N_digits]. intros d Hd. destruct (ascii_eqb_spec d c) as [->|]; [|done].
    by rewrite Hc in Hd. }
  destruct z as [|p|p]; [|apply Hd|].
  - apply (Hd 0%N).
  - change (no_char c ("-" +:+ pretty (N.pos p))). apply no_char_app. split; [|apply Hd]. unfold no_char. simpl.
    destruct (ascii_eqb_spec "-"%char c); [by subst|done].
Qed.

Lemma stat_numbers_no_char c numbers rest :
  is_digit c = false → c ≠ "-"%char → c ≠ " "%char → no_char c rest → no_char c (stat_numbers numbers rest).
Proof.
  intros Hc Hm Hs Hrest. induction numbers as [|z numbers IH]; [done|]. simpl. rewrite !no_char_app.
  split_and!; [|by apply fmt_int_no_char|done]. unfold no_char. simpl. destruct (ascii_eqb_spec " "%char c); [by subst|done].
Qed.

Lemma skip_space_space s : skip_space (" " +:+ s) = skip_space s.
Proof. unfold skip_space. rewrite sapp_cons, sapp_nil_l. simpl. by destruct (sspan is_space s). Qed.
Lemma skip_space_idem s : skip_space (skip_space s) = skip_space s.
Proof.
  induction s as [|c s IH]; [done|]. unfold skip_space in *. simpl.
  destruct (is_space c) eqn:Hc; [by destruct (sspan is_space s)|]. simpl. by rewrite Hc.
Qed.
Lemma scan_signed_skip s : scan_signed (skip_space s) = scan_signed s.
Proof. unfold scan_signed, strtol. by rewrite skip_space_idem. Qed.

(** The conversions of numbers, one after the other. *)
Lemma sscanf_ints format numbers rest :
  Forall (λ z, (- 2 ^ 31 ≤ z < 2 ^ 31)%Z) numbers → shead is_digit rest = false →
  sscanf (concat (replicate (length numbers) [D_space; D_int]) ++ format) (stat_numbers numbers rest) = numbers ++ sscanf format rest.
Proof.
  intros Hnumbers Hrest. induction Hnumbers as [|z numbers Hz _ IH]; [done|].
  assert (shead is_digit (stat_numbers numbers rest) = false) as Hhead by (destruct numbers; [exact Hrest|reflexivity]).
  change (stat_numbers (z :: numbers) rest) with (" " +:+ fmt_int z +:+ stat_numbers numbers rest).
  cbn [length replicate concat app sscanf]. rewrite scan_signed_skip.
  assert (scan_signed (" " +:+ fmt_int z +:+ stat_numbers numbers rest) = scan_signed (fmt_int z +:+ stat_numbers numbers rest)) as ->.
  { unfold scan_signed, strtol. by rewrite skip_space_space. }
  rewrite scan_signed_fmt by (done || lia). rewrite i32_small by lia. by rewrite IH.
Qed.

(** What the tools use of a status line, whatever the name of the command is. *)
Definition status_is (st : CkProcessStat) (p : Z) (comm : string) (numbers : list Z) : Prop :=
  pid st = p ∧ cmd st = stake 15 comm ∧ [ppid st; pgrp st; session st; tty st; tpgid st] = numbers.

Lemma stat2proc_line p comm st numbers rest :
  (0 ≤ p)%Z → no_char "000"%char comm → length numbers = 5 → Forall (λ z, (- 2 ^ 31 ≤ z < 2 ^ 31)%Z) numbers →
  shead is_digit rest = false → no_char ")"%char rest → no_char "000"%char rest → st ≠ "000"%char → st ≠ ")"%char →
  ∃ P, stat2proc p (stat_line p comm st numbers rest) = Some P ∧ status_is P p comm numbers.
Proof.
  intros Hp Hcomm Hlen Hnumbers Hrest Hparen Hnul Hst0 Hstp. unfold stat2proc.
  assert (no_char ")"%char (stat_numbers numbers rest)) as Hnum by by apply stat_numbers_no_char.
  rewrite c_string_id.
  2: { unfold stat_line. change (no_char "000"%char (fmt_int p +:+ " (" +:+ comm +:+ ") " +:+ String st (stat_numbers numbers rest))).
       rewrite !no_char_app. split_and!; [by apply fmt_int_no_char|done|done|done|].
       change (negb (ascii_eqb st "000"%char) && sall (λ d, negb (ascii_eqb d "000"%char)) (stat_numbers numbers rest)).
       apply andb_True. split; [by destruct (ascii_eqb_spec st "000"%char)|]. by apply stat_numbers_no_char. }
  assert (after_first "(" (stat_line p comm st numbers rest) =
    Some (comm +:+ ") " +:+ String st (stat_numbers numbers rest))) as ->.
  { unfold stat_line. rewrite <- (sapp_assoc (fmt_int p) " (").
    change " (" with (" " +:+ "("). rewrite <- (sapp_assoc (fmt_int p)), (sapp_assoc _ "(").
    apply after_first_app. intros a b Hab Hb. assert (no_char "("%char (fmt_int p +:+ " ")) as Hno.
    { apply no_char_app. split; [by apply fmt_int_no_char|done]. }
    rewrite Hab, no_char_app in Hno. destruct Hno as [_ Hno]. destruct b as [|c b]; [done|]. rewrite sapp_cons. simpl.
    apply andb_True in Hno as [Hc _]. destruct (ascii_eqb_spec "("%char c) as [<-|]; [done|]. done. }
  cbn [mbind option_bind].
  change (") " +:+ String st (stat_numbers numbers rest)) with (String ")"%char (" " +:+ String st (stat_numbers numbers rest))).
  rewrite split_last_app.
  2: { rewrite no_char_app. split; [done|]. unfold no_char. simpl. apply andb_True.
       split; [by destruct (ascii_eqb_spec st ")"%char)|done]. }
  simpl (String.eqb _ _). eexists. split; [reflexivity|].
  assert (sscanf stat_format (sdrop 1 (" " +:+ String st (stat_numbers numbers rest))) =
    Z.of_N (N_of_ascii st) :: sscanf (concat (replicate (length numbers) [D_space; D_int]) ++ drop 11 stat_format) (stat_numbers numbers rest)) as E.
  { rewrite Hlen. reflexivity. }
  rewrite E, sscanf_ints by done.
  destruct numbers as [|n1 [|n2 [|n3 [|n4 [|n5 [|? ?]]]]]]; try done. 
Qed.

(** ** Device numbers *)

(** How the kernel makes a device number for user space ([new_encode_dev]). *)
Definition encode_dev (maj min : Z) : Z :=
  Z.lor (Z.lor (Z.land min 255) (Z.shiftl maj 8)) (Z.shiftl (Z.shiftr min 8) 20).

Lemma testbit_small z k i : (0 ≤ z < 2 ^ k)%Z → (k ≤ i)%Z → Z.testbit z i = false.
Proof.
  intros Hz Hk. destruct (decide (z = 0)%Z) as [->|]; [apply Z.bits_0|]. destruct (decide (0 ≤ k)%Z).
  - apply Z.bits_above_log2; [lia|]. apply Z.log2_lt_pow2; [lia|]. eapply Z.lt_le_trans; [apply Hz|]. apply Z.pow_le_mono_r; lia.
  - rewrite Z.pow_neg_r in Hz by lia. lia.
Qed.

(** A mask of ones, shifted. *)
Lemma testbit_mask k n i : (0 ≤ n)%Z → (0 ≤ k)%Z → (0 ≤ i)%Z →
  Z.testbit (Z.shiftl (Z.ones n) k) i = ((k <=? i) && (i <? k + n))%Z.
Proof.
  intros. rewrite Z.shiftl_spec by lia. destruct (Z.leb_spec k i); [|by apply Z.testbit_neg_r; lia].
  rewrite Z.testbit_ones_nonneg by lia. destruct (Z.ltb_spec (i - k) n), (Z.ltb_spec i (k + n)); done || lia.
Qed.
Lemma mask_255 : 255%Z = Z.shiftl (Z.ones 8) 0.
Proof. done. Qed.
Lemma mask_4095 : 4095%Z = Z.shiftl (Z.ones 12) 0.
Proof. done. Qed.
Lemma mask_minor : 4293918720%Z = Z.shiftl (Z.ones 12) 20.
Proof. done. Qed.
Lemma u32_mask z : u32 z = Z.land z (Z.shiftl (Z.ones 32) 0).
Proof. unfold u32. by rewrite <- Z.land_ones by lia. Qed.

(** The bits of a device number. *)
Lemma encode_bit maj min i : (0 ≤ i)%Z →
  Z.testbit (encode_dev maj min) i =
  (((i <? 8)%Z && Z.testbit min i) || ((8 <=? i)%Z && Z.testbit maj (i - 8))) || ((20 <=? i)%Z && Z.testbit min (i - 12)).
Proof.
  intros Hi. unfold encode_dev. rewrite mask_255, !Z.lor_spec, Z.land_spec, testbit_mask, !Z.shiftl_spec by lia.
  f_equal; [f_equal|].
  - rewrite andb_comm. f_equal. destruct (Z.leb_spec 0 i); [done|lia].
  - destruct (Z.leb_spec 8 i); [done|]. simpl. apply Z.testbit_neg_r. lia.
  - destruct (Z.leb_spec 20 i); simpl; [|apply Z.testbit_neg_r; lia]. rewrite Z.shiftr_spec by lia. f_equal. lia.
Qed.

Lemma encode_dev_decode maj min :
  (0 ≤ maj < 2 ^ 12)%Z → (0 ≤ min < 2 ^ 20)%Z → MAJOR_OF (encode_dev maj min) = maj ∧ MINOR_OF (encode_dev maj min) = min.
Proof.
  intros Hmaj Hmin. unfold MAJOR_OF, MINOR_OF. rewrite !u32_mask, mask_255, mask_4095, mask_minor.
  split; apply Z.bits_inj'; intros i Hi.
  - rewrite Z.land_spec, Z.shiftr_spec, Z.land_spec, !testbit_mask, encode_bit by lia.
    replace (i + 8 - 8)%Z with i by lia. destruct (Z.leb_spec 12 i) as [H12|H12].
    + rewrite (testbit_small maj 12 i) by lia. rewrite (proj2 (Z.ltb_ge i (0 + 12))) by lia. by rewrite !andb_false_r.
    + rewrite (proj2 (Z.ltb_ge (i + 8) 8)), (proj2 (Z.leb_le 8 (i + 8))), (proj2 (Z.leb_gt 20 (i + 8))), (proj2 (Z.leb_le 0 (i + 8))),
        (proj2 (Z.ltb_lt (i + 8) (0 + 32))), (proj2 (Z.leb_le 0 i)), (proj2 (Z.ltb_lt i (0 + 12))) by lia.
      by rewrite !andb_true_r, orb_false_r.
  - rewrite Z.lor_spec, Z.shiftr_spec, !Z.land_spec, !testbit_mask, !encode_bit by lia.
    replace (i + 12 - 12)%Z with i by lia.
    destruct (Z.leb_spec 20 i) as [H20|H20].
    + rewrite (testbit_small min 20 i), (proj2 (Z.ltb_ge i (0 + 8))), (proj2 (Z.ltb_ge (i + 12) (0 + 32))) by lia.
      by rewrite !andb_false_r.
    + destruct (Z.ltb_spec i 8) as [H8|H8].
      * rewrite (proj2 (Z.leb_gt 8 i)), (proj2 (Z.leb_gt 20 (i + 12))), (proj2 (Z.leb_le 0 i)),
          (proj2 (Z.ltb_lt i (0 + 32))), (proj2 (Z.ltb_lt i (0 + 8))) by lia.
        rewrite !andb_false_r, !andb_true_r, !orb_false_r. simpl. by rewrite ?andb_false_r, ?orb_false_r.
      * rewrite (proj2 (Z.ltb_ge i (0 + 8))), (proj2 (Z.ltb_ge (i + 12) 8)), (proj2 (Z.leb_le 20 (i + 12))), (proj2 (Z.leb_le 0 (i + 12))),
          (proj2 (Z.ltb_lt (i + 12) (0 + 32))), (proj2 (Z.ltb_lt (i + 12) (20 + 12))), (testbit_small maj 12 (i + 12 - 8)) by lia.
        by rewrite !andb_false_r, !andb_true_r.
Qed.

Lemma encode_dev_range maj min : (0 ≤ maj < 2 ^ 12)%Z → (0 ≤ min < 2 ^ 20)%Z → (0 ≤ encode_dev maj min < 2 ^ 32)%Z.
Proof.
  intros Hmaj Hmin. assert (encode_dev maj min = u32 (encode_dev maj min)) as ->; [|apply u32_range].
  rewrite u32_mask. apply Z.bits_inj'. intros i Hi. rewrite Z.land_spec, testbit_mask by lia.
  destruct (Z.ltb_spec i (0 + 32)) as [Hlt|Hge].
  - rewrite (proj2 (Z.leb_le 0 i)) by lia. by rewrite andb_true_r.
  - rewrite encode_bit by lia. rewrite (testbit_small maj 12 (i - 8)), (testbit_small min 20 (i - 12)) by lia.
    rewrite (proj2 (Z.ltb_ge i 8)) by lia. by rewrite !andb_false_r.
Qed.

(** ** The environment *)

(** The bytes of /proc/<pid>/environ: each entry ends with a NUL. *)
Definition nul : ascii := "000"%char.
Definition env_block (entries : list string) : string := foldr (λ e s, e +:+ String nul s) "" entries.
Definition entry_ok (e : string) : Prop := no_char nul e ∧ e ≠ "".

Lemma c_string_entry e s : no_char nul e → c_string (e +:+ String nul s) = e.
Proof.
  induction e as [|c e IH]; [done|]. intros [Hc He]%andb_True. rewrite sapp_cons. simpl. fold nul.
  destruct (ascii_eqb c nul); [done|]. by rewrite IH.
Qed.

Lemma env_loop_skip prefix e s : no_char nul e → env_loop false prefix (e +:+ String nul s) = env_loop true prefix s.
Proof.
  induction e as [|c e IH]; [done|]. intros [Hc He]%andb_True. rewrite sapp_cons. simpl. fold nul.
  destruct (ascii_eqb c nul); [done|]. by apply IH.
Qed.
Lemma env_loop_block prefix entries :
  Forall entry_ok entries → env_loop true prefix (env_block entries) = head (omap (strip_prefix prefix) entries).
Proof.
  induction 1 as [|e entries [Hnul Hne] _ IH]; [done|].
  assert (env_loop true prefix (env_block (e :: entries)) =
    match strip_prefix prefix e with Some v => Some v | None => env_loop true prefix (env_block entries) end) as ->.
  { change (env_block (e :: entries)) with (e +:+ String nul (env_block entries)).
    pose proof (c_string_entry e (env_block entries) Hnul) as Hc. destruct e as [|c e]; [done|].
    rewrite sapp_cons in *. cbn [env_loop]. fold nul. pose proof Hnul as [Hc' He]%andb_True.
    destruct (ascii_eqb c nul); [done|]. rewrite Hc. by rewrite env_loop_skip. }
  rewrite IH. simpl. by destruct (strip_prefix prefix e).
Qed.

Lemma env_hash_skip e s hash : no_char nul e → env_hash_loop false (e +:+ String nul s) hash = env_hash_loop true s hash.
Proof.
  revert hash. induction e as [|c e IH]; [done|]. intros hash [Hc He]%andb_True. rewrite sapp_cons. simpl. fold nul.
  destruct (ascii_eqb c nul); [done|]. by apply IH.
Qed.
Lemma env_hash_block entries hash :
  Forall entry_ok entries →
  env_hash_loop true (env_block entries) hash = foldl (λ h e, <[(split_entry e).1 := (split_entry e).2]> h) hash entries.
Proof.
  intros Hentries. revert hash. induction Hentries as [|e entries [Hnul Hne] _ IH]; intros hash; [done|]. simpl. rewrite <- IH.
  pose proof (c_string_entry e (env_block entries) Hnul) as Hc. destruct e as [|c e]; [done|].
  rewrite sapp_cons in *. cbn [env_hash_loop]. fold nul. pose proof Hnul as [Hc' He]%andb_True.
  destruct (ascii_eqb c nul); [done|]. rewrite Hc. destruct (split_entry (String c e)) as [key value]. by rewrite env_hash_skip.
Qed.

Lemma strip_prefix_split var e v :
  no_char "="%char var → strip_prefix (var +:+ "=") e = Some v ↔ split_entry e = (var, Some v).
Proof.
  intros Hvar. unfold split_entry. split.
  - intros ->%strip_prefix_Some. rewrite sapp_assoc, sspan_app by done. done.
  - destruct (sspan (λ c, negb (ascii_eqb c "="%char)) e) as [key rest] eqn:E. apply sspan_spec in E as (-> & _ & Hrest).
    destruct rest as [|c rest]; [done|]. intros [= -> ->]. simpl in Hrest.
    destruct (ascii_eqb_spec c "="%char) as [Heq|]; [rewrite Heq|done].
    change (var +:+ String "="%char v) with (var +:+ ("=" +:+ v)). by rewrite <- sapp_assoc, strip_prefix_app.
Qed.

Lemma split_entry_join var v : no_char "="%char var → split_entry (var +:+ "=" +:+ v) = (var, Some v).
Proof. intros Hvar. apply strip_prefix_split; [done|]. rewrite <- sapp_assoc. apply strip_prefix_app. Qed.

(** The first entry of a variable is the only one. *)
Lemma env_first_exact var entries value :
  no_char "="%char var → NoDup (map (λ e, (split_entry e).1) entries) →
  head (omap (strip_prefix (var +:+ "=")) entries) = Some value ↔ (var +:+ "=" +:+ value) ∈ entries.
Proof.
  intros Hvar. induction entries as [|e entries IH]; intros Hnd; [split; [done|]; intros Hin; by apply elem_of_nil in Hin|].
  simpl in Hnd. apply NoDup_cons in Hnd as [Hnotin Hnd]. simpl. rewrite elem_of_cons.
  destruct (strip_prefix (var +:+ "=") e) as [v|] eqn:Hv; simpl.
  - apply strip_prefix_Some in Hv as ->. rewrite sapp_assoc in *. split; [intros [= ->]; by left|].
    intros [Heq|Hin]; [by do 2 apply sapp_inj_l in Heq; subst|]. destruct Hnotin. rewrite split_entry_join by done.
    apply list_elem_of_fmap. exists (var +:+ "=" +:+ value). by rewrite split_entry_join.
  - rewrite <- IH by done. split; [by right|]. intros [<-|?]; [|done]. by rewrite <- sapp_assoc, strip_prefix_app in Hv.
Qed.

Lemma NoDup_map_inj {A B} (f : A → B) l x y : NoDup (map f l) → x ∈ l → y ∈ l → f x = f y → x = y.
Proof.
  intros Hnd [i Hi]%list_elem_of_lookup_1 [j Hj]%list_elem_of_lookup_1 E.
  assert (i = j) as ->; [|congruence].
  eapply (NoDup_lookup (map f l) i j (f x)); [done|..]; rewrite list_lookup_fmap; [by rewrite Hi|by rewrite Hj, E].
Qed.

Lemma env_foldl_lookup entries (hash : gmap string cstr) var :
  NoDup (map (λ e, (split_entry e).1) entries) →
  foldl (λ h e, <[(split_entry e).1 := (split_entry e).2]> h) hash entries !! var =
  match list_find (λ e, (split_entry e).1 = var) entries with Some (_, e) => Some (split_entry e).2 | None => hash !! var end.
Proof.
  revert hash. induction entries as [|e entries IH]; intros hash Hnd; [done|]. simpl. apply NoDup_cons in Hnd as [Hnotin Hnd].
  rewrite IH by done. destruct (decide ((split_entry e).1 = var)) as [<-|Hne].
  - destruct (list_find _ entries) as [[i e']|] eqn:Hf.
    + apply list_find_Some in Hf as (Hin & Heq & _). destruct Hnotin. rewrite <- Heq. apply list_elem_of_fmap.
      exists e'. split; [done|]. by eapply list_elem_of_lookup_2.
    + by rewrite lookup_insert_eq.
  - destruct (list_find _ entries) as [[i e']|]; [done|]. by rewrite lookup_insert_ne.
Qed.

(** ** The login session *)

Lemma login_id_text n :
  (0 ≤ n < 2 ^ 64)%Z → strtoul (fmt_unsigned n) = (n, "") ∧ strtoul_overflows (fmt_unsigned n) = false ∧ c_string (fmt_unsigned n) = fmt_unsigned n.
Proof.
  intros Hn. pose proof (fmt_unsigned_digits n) as Hd. pose proof (fmt_unsigned_nonempty n) as Hne. split_and!.
  - unfold strtoul. rewrite <- (sapp_nil_r (fmt_unsigned n)) at 1. rewrite scan_unsigned_digits by done. by rewrite strtoul_value_fmt.
  - unfold strtoul_overflows.
    assert (skip_space (fmt_unsigned n) = fmt_unsigned n) as ->.
    { destruct (fmt_unsigned n) as [|c s]; [done|]. pose proof Hd as [Hc _]%andb_True. by apply skip_space_digit. }
    rewrite scan_sign_digits by done. cbn [snd]. rewrite <- (sapp_nil_r (fmt_unsigned n)), sspan_app by done. cbn [fst].
    unfold fmt_unsigned. rewrite pretty_N_value, Z2N.id by lia. apply Z.leb_gt. lia.
  - apply c_string_id. eapply sall_impl; [|exact Hd]. intros c Hc. by destruct c as [[] [] [] [] [] [] [] []].
Qed.

Section terminal.
Context `{Proc}.

(** ** Terminals *)

Lemma link_name_right maj min p name t :
  link_name maj min p name = Some t → ∃ rdev, st_rdev t = Some rdev ∧ MAJOR_OF rdev = maj ∧ MINOR_OF rdev = min.
Proof.
  unfold link_name. intros (tty & _ & (rdev & Hrdev & Ht)%bind_Some)%bind_Some.
  destruct (right_device maj min rdev) eqn:Hr; [|done]. injection Ht as ->. exists rdev. split; [done|].
  unfold right_device in Hr. apply andb_true_iff in Hr as [?%Z.eqb_eq ?%Z.eqb_eq]. done.
Qed.
Lemma driver_name_right maj min t :
  driver_name maj min = Some (Some t) → ∃ rdev, st_rdev t = Some rdev ∧ MAJOR_OF rdev = maj ∧ MINOR_OF rdev = min.
Proof.
  assert (∀ s rdev, st_rdev s = Some rdev → (if right_device maj min rdev then Some s else None) = Some t →
    ∃ rdev, st_rdev t = Some rdev ∧ MAJOR_OF rdev = maj ∧ MINOR_OF rdev = min) as Hdone.
  { intros s rdev Hs. destruct (right_device maj min rdev) eqn:Hr; [|done]. intros [= <-]. exists rdev. split; [done|].
    unfold right_device in Hr. apply andb_true_iff in Hr as [?%Z.eqb_eq ?%Z.eqb_eq]. done. }
  unfold driver_name. intros (m & _ & Hm)%bind_Some. destruct (list_find _ m) as [[i tmn]|]; [|done].
  destruct (st_rdev (_ +:+ _ +:+ _)) as [rdev|] eqn:Hr; [injection Hm as Hm; by eapply Hdone|].
  destruct (devfs_type tmn); [done|]. destruct (st_rdev ("/dev/" +:+ tty_name tmn)) as [rdev|] eqn:Hr'; [injection Hm as Hm; by eapply Hdone|done].
Qed.

Lemma get_tty_right P t :
  ck_process_stat_get_tty P = Some (Some t) →
  ∃ rdev, st_rdev t = Some rdev ∧ MAJOR_OF rdev = MAJOR_OF (tty P) ∧ MINOR_OF rdev = MINOR_OF (tty P).
Proof.
  assert (∀ z, MAJOR_OF (u32 z) = MAJOR_OF z ∧ MINOR_OF (u32 z) = MINOR_OF z) as Hu.
  { intros z. unfold MAJOR_OF, MINOR_OF. assert (u32 (u32 z) = u32 z) as -> by (apply u32_small, u32_range). done. }
  unfold ck_process_stat_get_tty. destruct (Z.eqb (u32 (tty P)) 0); [done|]. destruct (Hu (tty P)) as [-> ->].
  destruct (link_name _ _ _ "tty") as [t'|] eqn:E1; [intros [= <-]; by eapply link_name_right|].
  intros (by_driver & E2 & Ht)%bind_Some. destruct by_driver as [t'|]; [injection Ht as ->; by eapply driver_name_right|].
  destruct (link_name _ _ _ "fd/2") as [t'|] eqn:E3; [injection Ht as ->; by eapply link_name_right|].
  injection Ht as Ht. by eapply link_name_right.
Qed.
End terminal.
