(* ===== verification/ProcFsPolicy.v ===== *)
(** * What the Linux port finds out about processes: the theorems, and the session
    information job on top of it. *)

From S2P Require Import Prelude Scan Console Collect ProcFs ProcFsFacts.

Section proc.
Context `{Proc}.

(** ** The status and the terminal *)

(** The kernel's files of a process. *)
Definition stat_path (p : Z) : string := "/proc/" +:+ fmt_int p +:+ "/stat".

(** What the kernel writes after the numbers that are used. *)
Definition rest_ok (rest : string) : Prop :=
  shead is_digit rest = false ∧ no_char ")"%char rest ∧ no_char "000"%char rest.

(** C36: The status of a process is read back whatever its command is called, with
    parentheses, spaces and numbers in it: for the line that the kernel writes, the
    process id, the parent and the name (cut to 15 bytes) are the kernel's, and a
    controlling terminal that is found is a device with the very numbers that the
    kernel encoded. *)
Theorem status_read_back p comm st pp pgrp session maj min tpgid rest :
  (1 < p)%Z → no_char "000"%char comm → st ≠ "000"%char → st ≠ ")"%char → rest_ok rest →
  Forall (λ z, (- 2 ^ 31 ≤ z < 2 ^ 31)%Z) [pp; pgrp; session; tpgid] → (0 ≤ maj < 2 ^ 12)%Z → (0 ≤ min < 2 ^ 20)%Z →
  g_file_get_contents (stat_path p) = Some (stat_line p comm st [pp; pgrp; session; i32 (encode_dev maj min); tpgid] rest) →
  ∃ P, ck_process_stat_new_for_unix_pid p = Some (Some P) ∧ ck_unix_pid_get_ppid p = Some pp ∧ pid P = p ∧
    ck_process_stat_get_cmd P = stake 15 comm ∧
    ∀ t, ck_process_stat_get_tty P = Some (Some t) → ∃ rdev, st_rdev t = Some rdev ∧ MAJOR_OF rdev = maj ∧ MINOR_OF rdev = min.
Proof.
  intros Hp Hcomm Hst0 Hstp (Hr1 & Hr2 & Hr3) Hnums Hmaj Hmin Hfile.
  assert (Forall (λ z, (- 2 ^ 31 ≤ z < 2 ^ 31)%Z) [pp; pgrp; session; i32 (encode_dev maj min); tpgid]) as Hall.
  { rewrite !Forall_cons in *. destruct Hnums as (? & ? & ? & ? & _). split_and!; try done; unfold i32;
      pose proof (Z.mod_pos_bound (encode_dev maj min + 2 ^ 31) (2 ^ 32)); lia. }
  destruct (stat2proc_line p comm st [pp; pgrp; session; i32 (encode_dev maj min); tpgid] rest ltac:(lia) Hcomm eq_refl Hall Hr1 Hr2 Hr3 Hst0 Hstp) as (P & HP & Hpid & Hcmd & Hfields).
  assert (ck_process_stat_new_for_unix_pid p = Some (Some P)) as Hnew.
  { unfold ck_process_stat_new_for_unix_pid. rewrite (proj2 (Z.leb_gt p 1)) by lia. fold (stat_path p). by rewrite Hfile, HP. }
  injection Hfields as Hpp _ _ Htty _. exists P. split_and!; try done.
  - unfold ck_unix_pid_get_ppid. rewrite (proj2 (Z.leb_gt p 1)) by lia. rewrite Hnew. simpl. unfold ck_process_stat_get_ppid. by rewrite Hpp.
  - intros t Ht. destruct (get_tty_right P t Ht) as (rdev & ? & Hmaj' & Hmin'). exists rdev. split; [done|].
    rewrite Hmaj', Hmin', Htty.
    assert (MAJOR_OF (i32 (encode_dev maj min)) = MAJOR_OF (encode_dev maj min) ∧
      MINOR_OF (i32 (encode_dev maj min)) = MINOR_OF (encode_dev maj min)) as [-> ->].
    { unfold MAJOR_OF, MINOR_OF. by rewrite u32_i32. }
    by apply encode_dev_decode.
Qed.

(** ** The environment *)

(** The two ways to look up a variable of a process agree, and are right: for an
    environment block without empty entries in which no variable has two entries,
    the direct search and the hash table give the same value, which is v exactly if
    the block has the entry "variable=v". *)
Theorem environment_lookups_agree p entries var hash :
  (1 < p)%Z → no_char "="%char var → Forall entry_ok entries → NoDup (map (λ e, (split_entry e).1) entries) →
  g_file_get_contents (environ_path p) = Some (env_block entries) →
  ck_unix_pid_get_env_hash p = Some hash →
  ck_unix_pid_get_env p var = (value ← hash !! var; value) ∧
  ∀ value, ck_unix_pid_get_env p var = Some value ↔ (var +:+ "=" +:+ value) ∈ entries.
Proof.
  intros Hp Hvar Hentries Hnd Hfile Hhash. unfold ck_unix_pid_get_env, ck_unix_pid_get_env_hash in *.
  rewrite (proj2 (Z.leb_gt p 1)), Hfile in * by lia. cbn [mbind option_bind] in *. injection Hhash as <-.
  rewrite env_loop_block, env_hash_block, env_foldl_lookup, lookup_empty by done.
  split; [|intros value; by apply env_first_exact].
  assert (∀ e, e ∈ entries → (split_entry e).1 = var → head (omap (strip_prefix (var +:+ "=")) entries) = (split_entry e).2) as Hkey.
  { intros e Hin Hvar'. destruct (split_entry e) as [key value] eqn:Hsplit. simpl in Hvar'. subst key. destruct value as [value|]; simpl.
    - apply env_first_exact; [done..|]. apply strip_prefix_split, strip_prefix_Some in Hsplit as ->; [|done]. by rewrite <- sapp_assoc.
    - destruct (head _) as [value|] eqn:Hh; [|done]. apply (env_first_exact var entries value Hvar Hnd) in Hh.
      assert (e = var +:+ "=" +:+ value) as ->; [|by rewrite split_entry_join in Hsplit].
      eapply (NoDup_map_inj (λ e, (split_entry e).1)); [exact Hnd|done..|]. by rewrite Hsplit, split_entry_join. }
  destruct (list_find _ entries) as [[i e]|] eqn:Hf; simpl.
  - apply list_find_Some in Hf as (Hin & Hvar' & _). apply Hkey; [|done]. by eapply list_elem_of_lookup_2.
  - destruct (head _) as [value|] eqn:Hh; [|done]. apply (env_first_exact var entries value Hvar Hnd) in Hh. apply list_find_None in Hf.
    rewrite Forall_forall in Hf. destruct (Hf _ Hh). by rewrite split_entry_join.
Qed.

(** ** The login session *)

Definition sessionid_path (p : Z) : string := "/proc/" +:+ fmt_unsigned (u32 p) +:+ "/sessionid".

(** The login session of a process is what the kernel says, unless it is unset
    (2^32 - 1). *)
Theorem login_session_exact p n :
  (1 < p)%Z → (0 ≤ n < 2 ^ 64)%Z → g_file_get_contents (sessionid_path p) = Some (fmt_unsigned n) →
  ck_unix_pid_get_login_session_id p = if Z.eqb n (2 ^ 32 - 1) then None else Some (Some (fmt_unsigned n)).
Proof.
  intros Hp Hn Hfile. unfold ck_unix_pid_get_login_session_id. rewrite (proj2 (Z.leb_gt p 1)) by lia.
  fold (sessionid_path p). rewrite Hfile. cbn [mbind option_bind]. destruct (login_id_text n Hn) as (H1 & H2 & H3).
  rewrite H3, H1, H2. by destruct (String.eqb_spec (fmt_unsigned n) ""); [by destruct (fmt_unsigned_nonempty n)|].
Qed.

(** ** Hibernation *)

(** When no swap space is left, all of it counts as free: the system may hibernate. *)
Theorem full_swap_counts_as_free contents m :
  g_file_get_contents "/proc/meminfo" = Some contents →
  m = foldl meminfo_line {| active := 0; swap_free := 0; swap_total := 0 |}
        (tail (split_words (λ c, ascii_eqb c "010"%char) (c_string contents))) →
  c_string contents ≠ "" → swap_total m ≠ 0%Z → swap_free m = 0%Z → linux_check_enough_swap = Some true.
Proof.
  intros Hfile Hm Hne Htotal Hfree. unfold linux_check_enough_swap, linux_get_used_swap. rewrite Hfile.
  destruct (split_words _ (c_string contents)) as [|line lines] eqn:Hlines.
  { unfold split_words in Hlines. destruct (String.eqb_spec (c_string contents) ""); [done|].
    assert (∀ s d w, g_strsplit_set d w s ≠ []) as Hsplit.
    { clear. induction s as [|c s IH]; intros d w; simpl; [done|]. destruct (d c); [done|apply IH]. }
    by apply Hsplit in Hlines. }
  simpl in *. rewrite <- Hm. unfold used_swap. destruct (Z.eqb_spec (swap_total m) 0); [done|]. by rewrite Hfree.
Qed.

(** ** The session information job *)

Context (pam : bool) (x11_server_pid x11_display_device : Z → Z → spawned).

Definition linux_process_tty (p : Z) : option cstr :=
  match ck_process_stat_new_for_unix_pid p with Some (Some P) => ck_process_stat_get_tty P | _ => None end.
Definition linux_processes : Processes :=
  {| HAVE_PAM := pam; process_tty := linux_process_tty; Collect.ck_unix_pid_get_env := ck_unix_pid_get_env;
     Collect.ck_unix_pid_get_login_session_id := ck_unix_pid_get_login_session_id;
     ck_get_x11_server_pid := x11_server_pid; ck_get_x11_display_device := x11_display_device |}.
#[local] Existing Instance linux_processes.

Definition asked_about (uid p : Z) : SessionInfo :=
  {| si_uid := uid; si_pid := p; si_login_session_id := None; si_vtnum := 0; si_display_device := None;
     si_x11_display_device := None; si_x11_display := None; si_x11_can_connect := false; si_remote_host_name := None;
     si_is_local := false; si_is_local_is_set := false |}.

Lemma fmt_int_unsigned n : (0 ≤ n < 2 ^ 32)%Z → fmt_int n = fmt_unsigned (u32 n).
Proof. intros Hn. rewrite u32_small by done. destruct n; [reflexivity|reflexivity|lia]. Qed.

(** A process of a console, as the kernel describes it. *)
Record console_process (p n login : Z) (entries : list string) (tmn : tty_map_node) : Prop := {
  cp_pid : (1 < p)%Z;
  cp_num : (0 < n < 64)%Z;
  cp_status : ∃ P, ck_process_stat_new_for_unix_pid p = Some (Some P) ∧ pid P = p ∧ tty P = encode_dev 4 n;
  cp_no_link : g_file_read_link ("/proc/" +:+ fmt_int p +:+ "/tty") = None;
  cp_driver : ∃ m i, load_drivers = Some m ∧ list_find (λ n', covers 4 n n' = true) m = Some (i, tmn) ∧ tty_name tmn = "tty";
  cp_device : st_rdev ("/dev/tty" +:+ fmt_int n) = Some (encode_dev 4 n);
  cp_environ : g_file_get_contents (environ_path p) = Some (env_block entries) ∧ Forall entry_ok entries;
  cp_no_display : head (omap (strip_prefix "DISPLAY=") entries) = None;
  cp_login : g_file_get_contents (sessionid_path p) = Some (fmt_unsigned login) ∧ (0 ≤ login < 2 ^ 32 - 1)%Z
}.

Lemma console_tty p n login entries tmn : console_process p n login entries tmn → process_tty p = Some (Some ("/dev/tty" +:+ fmt_int n)).
Proof.
  intros [Hp Hn (P & HP & Hpid & Htty) Hlink (m & i & Hm & Hfind & Hname) Hdev _ _ _]. simpl. unfold linux_process_tty. rewrite HP.
  destruct (encode_dev_decode 4 n) as [Hmaj Hmin]; [lia..|]. pose proof (encode_dev_range 4 n ltac:(lia) ltac:(lia)) as Hr.
  assert (link_name 4 n p "tty" = None) as Hl.
  { unfold link_name. change ("/" +:+ "tty") with "/tty". by rewrite Hlink. }
  unfold ck_process_stat_get_tty. rewrite Htty, u32_small, Hmaj, Hmin, Hpid, Hl by done.
  destruct (Z.eqb_spec (encode_dev 4 n) 0) as [E|]; [rewrite E in Hmaj; done|].
  unfold driver_name. rewrite Hm. cbn [mbind option_bind]. rewrite Hfind, Hname, i32_small by lia.
  change ("/dev/" +:+ "tty" +:+ fmt_int n) with ("/dev/tty" +:+ fmt_int n). rewrite Hdev. unfold right_device.
  by rewrite Hmaj, Hmin, !Z.eqb_refl.
Qed.

(** The session information job on a console: for a process whose files are the
    kernel's, the job finds the console's device, its number and the login
    session, and no X display. *)
Theorem console_process_collected uid p n login entries tmn :
  console_process p n login entries tmn →
  ∃ si, fill_session_info (asked_about uid p) = Some si ∧ si_display_device si = Some ("/dev/tty" +:+ fmt_int n) ∧
    si_vtnum si = n ∧ si_login_session_id si = Some (fmt_unsigned login) ∧ si_x11_display si = None ∧
    si_x11_display_device si = None.
Proof.
  intros Hcp. pose proof (console_tty _ _ _ _ _ Hcp) as Htty. destruct Hcp as [Hp Hn _ _ _ _ [Henv Hok] Hno [Hlogin Hrange]].
  assert (Collect.ck_unix_pid_get_env p "DISPLAY" = None) as Hdisplay.
  { simpl. unfold ck_unix_pid_get_env. rewrite (proj2 (Z.leb_gt p 1)) by lia. rewrite Henv. simpl. by rewrite env_loop_block. }
  assert (Collect.ck_unix_pid_get_login_session_id p = Some (Some (fmt_unsigned login))) as Hid.
  { simpl. unfold ck_unix_pid_get_login_session_id. rewrite (proj2 (Z.leb_gt p 1)) by lia. fold (sessionid_path p). rewrite Hlogin.
    cbn [mbind option_bind]. destruct (login_id_text login ltac:(lia)) as (H1 & H2 & H3). rewrite H3, H1, H2.
    destruct (String.eqb_spec (fmt_unsigned login) ""); [by destruct (fmt_unsigned_nonempty login)|]. simpl.
    destruct (Z.eqb_spec login (2 ^ 32 - 1)); [lia|done]. }
  assert (ck_get_console_num_from_device (Some ("/dev/tty" +:+ fmt_int n)) = Some n) as Hnum.
  { rewrite fmt_int_unsigned by lia. change ("/dev/tty" +:+ fmt_unsigned (u32 n)) with (ck_get_console_device_for_num n).
    apply console_num_device. lia. }
  assert (∀ si, si_x11_display_device si = None → si_display_device si = Some ("/dev/tty" +:+ fmt_int n) → get_vtnr si = n) as Hvt.
  { intros si Hx Hd. unfold get_vtnr. by rewrite Hx, Hd, Hnum. }
  unfold fill_session_info, asked_about. cbn [si_pid]. rewrite Htty. cbn [mbind option_bind].
  unfold fill_x11_info. cbn -[Collect.ck_unix_pid_get_env Collect.ck_unix_pid_get_login_session_id get_vtnr HAVE_PAM].
  rewrite Hdisplay. cbn -[Collect.ck_unix_pid_get_login_session_id get_vtnr HAVE_PAM].
  destruct (@HAVE_PAM linux_processes); cbn -[Collect.ck_unix_pid_get_login_session_id get_vtnr]; rewrite Hid.
  all: eexists; split; [reflexivity|]; cbn -[get_vtnr]; by rewrite Hvt.
Qed.
End proc.

(** ** Console switches *)

(** What the kernel gives to a reader after a switch to the console [n]. *)
Definition active_text (n : Z) : string := "tty" +:+ fmt_unsigned n +:+ String "010"%char "".

(** A switch is seen however often poll and read are interrupted before: the number
    is that of the new console. *)
Theorem console_switch_seen polls k n later more :
  Forall (λ a, a = P_interrupted ∨ a = P_other) polls → (0 ≤ n < 64)%Z →
  ck_wait_for_console_switch (polls ++ P_pri :: later) (replicate k R_interrupted ++ R_bytes (active_text n) true :: more) = Some (Some n).
Proof.
  intros Hpolls Hn. unfold ck_wait_for_console_switch.
  assert (poll_vt_fd (polls ++ P_pri :: later) = Some true) as ->.
  { induction Hpolls as [|a polls Ha _ IH]; [done|]. simpl. by destruct Ha as [-> | ->]. }
  cbn [mbind option_bind].
  assert (read_from_vt_fd (replicate k R_interrupted ++ R_bytes (active_text n) true :: more) = Some n) as ->.
  { induction k as [|k IH]; [|exact IH]. cbn [replicate app read_from_vt_fd].
    assert (∃ i, n = Z.of_nat i ∧ i < 64) as (i & -> & Hi) by (exists (Z.to_nat n); lia).
    do 64 (destruct i as [|i]; [reflexivity|]). lia. }
  cbn [mbind option_bind]. by rewrite (proj2 (Z.geb_le n 0)) by lia.
Qed.

(** ** A concrete process *)

Definition tty_drivers_text : string :=
  foldr (λ line s, line +:+ String "010"%char s) ""
    ["/dev/tty             /dev/tty        5       0 system:/dev/tty";
     "/dev/console         /dev/console    5       1 system:console";
     "/dev/vc/0            /dev/vc/0       4       0 system:vtmaster";
     "serial               /dev/ttyS       4 64-111 serial";
     "pty_slave            /dev/pts      136 0-1048575 pty:slave";
     "unknown              /dev/tty        4 1-63 console"].
Definition login_environ : list string := ["HOME=/root"; "TERM=linux"; "LANG=C"].
(** A login on the second console; the name of its command has parentheses. *)
#[local] Instance a_system : Proc :=
  {| g_file_get_contents := λ f,
       if String.eqb f "/proc/1234/stat" then Some (stat_line 1234 "lo) S 1 (gin" "S"%char [1; 1234; 1234; encode_dev 4 2; 1240]%Z " 4194560 10")
       else if String.eqb f "/proc/1234/environ" then Some (env_block login_environ)
       else if String.eqb f "/proc/1234/sessionid" then Some "3"
       else if String.eqb f "/proc/meminfo" then
         Some (foldr (λ line s, line +:+ String "010"%char s) ""
           ["MemTotal:       16000000 kB"; "Active(anon):   12000000 kB"; "SwapTotal:       4000000 kB"; "SwapFree:              0 kB"])
       else None;
     g_file_read_link := λ _, None;
     st_rdev := λ f, if String.eqb f "/dev/tty2" then Some (encode_dev 4 2) else None;
     st_uid := λ _, Some 0%Z;
     tty_drivers := Some tty_drivers_text;
     linux_supports_sleep_state := λ _, true |}.

Lemma status_read_back_witness :
  ∃ P, ck_process_stat_new_for_unix_pid 1234 = Some (Some P) ∧ ck_unix_pid_get_ppid 1234 = Some 1%Z ∧ cmd P = "lo) S 1 (gin".
Proof.
  destruct (status_read_back 1234 "lo) S 1 (gin" "S"%char 1 1234 1234 4 2 1240 " 4194560 10") as (P & H1 & H2 & _ & H4 & _).
  - lia.
  - done.
  - done.
  - done.
  - by split_and!.
  - repeat constructor; lia.
  - lia.
  - lia.
  - vm_compute. reflexivity.
  - exists P. split; [exact H1|]. split; [exact H2|exact H4].
Defined.

Lemma environment_lookups_agree_witness : ck_unix_pid_get_env 1234 "TERM" = Some "linux".
Proof.
  apply (environment_lookups_agree 1234 login_environ "TERM" (default ∅ (ck_unix_pid_get_env_hash 1234))).
  - lia.
  - done.
  - repeat constructor; done.
  - repeat constructor; vm_compute; set_solver.
  - vm_compute. reflexivity.
  - vm_compute. reflexivity.
  - right. left.
Defined.

(** With two entries for a variable the two functions disagree. *)
Example double_entry :
  env_loop true "A=" (env_block ["A=1"; "A=2"]) = Some "1" ∧
  env_hash_loop true (env_block ["A=1"; "A=2"]) ∅ !! "A" = Some (Some "2").
Proof. split; vm_compute; reflexivity. Qed.

Definition console_driver : tty_map_node :=
  {| major_number := 4; minor_first := 1; minor_last := 63; tty_name := "tty"; devfs_type := false |}.
Lemma login_is_console_process : console_process 1234 2 3 login_environ console_driver.
Proof.
  split.
  - lia.
  - lia.
  - eexists. split; [vm_compute; reflexivity|]. split; reflexivity.
  - reflexivity.
  - eexists _, 0. split; [vm_compute; reflexivity|]. split; vm_compute; reflexivity.
  - vm_compute. reflexivity.
  - split; [vm_compute; reflexivity|]. repeat constructor; done.
  - vm_compute. reflexivity.
  - split; [vm_compute; reflexivity|lia].
Qed.
Definition no_helper (_ _ : Z) : spawned := {| sp_run := false; sp_status := -1; sp_out := None |}.
Lemma console_process_collected_witness :
  ∃ si, @fill_session_info (linux_processes true no_helper no_helper) (asked_about 0 1234) = Some si ∧
    si_display_device si = Some "/dev/tty2" ∧ si_vtnum si = 2%Z ∧ si_login_session_id si = Some "3".
Proof.
  destruct (console_process_collected true no_helper no_helper 0 1234 2 3 login_environ console_driver login_is_console_process)
    as (si & H1 & H2 & H3 & H4 & _).
  exists si. split; [exact H1|]. split; [exact H2|]. split; [exact H3|exact H4].
Defined.

Lemma login_session_exact_witness : ck_unix_pid_get_login_session_id 1234 = Some (Some "3").
Proof. apply (login_session_exact 1234 3); [lia|lia|vm_compute; reflexivity]. Defined.
Lemma full_swap_counts_as_free_witness : ck_system_can_hibernate = Some true.
Proof.
  unfold ck_system_can_hibernate. simpl (linux_supports_sleep_state _).
  eapply full_swap_counts_as_free; [reflexivity|reflexivity|vm_compute; discriminate..|vm_compute; reflexivity].
Defined.
Lemma console_switch_seen_witness :
  ck_wait_for_console_switch [P_other; P_interrupted; P_pri] [R_interrupted; R_bytes (active_text 7) true] = Some (Some 7%Z).
Proof. apply (console_switch_seen [P_other; P_interrupted] 1 7 [] []); [constructor; [by right|constructor; [by left|constructor]]|lia]. Defined.
