(* ===== verification/Database.v ===== *)
(** * The database file: [ck_manager_dump] of [src/ck-manager.c].

    The manager writes what it knows into a key file whenever something changes,
    first to "database~", which is then renamed.  Here: the groups of the file,
    the section of the users, the writing.  The groups of one seat, session or
    leader are in [Seat], [SessionNew] and [Leader].  The key file is GLib's. *)

From S2P Require Import Prelude Scan Leader Session Seat Hooks SeatSessions Power Manager SessionNew.
From S2P Require Collect.

(** ** Key files *)

(** The groups in their order, with their keys in their order. *)
Abbreviation key_file := (list (string * list (string * string))).

(** GLib's: the form of a file and of its values. *)
Class KeyFiles := {
  g_key_file_is_group_name : string → bool;
  g_key_file_to_data : key_file → option string;
  g_key_file_load : string → option key_file;
  boolean_value : string → option bool;
  integer_value : string → option Z
}.

Definition key_char (c : ascii) : bool := is_alnum c || ascii_eqb c "_"%char || ascii_eqb c "-"%char.
Definition is_key_name (k : string) : bool := negb (String.eqb k "") && sall key_char k.
Definition plain_char (c : ascii) : bool := is_alnum c || ascii_eqb c " "%char.

(** Every name is one, no group and no key of a group comes twice. *)
Record key_file_ok `{KeyFiles} (kf : key_file) : Prop := {
  kf_groups : NoDup kf.*1;
  kf_names : Forall (λ g, g_key_file_is_group_name g.1 = true) kf;
  kf_keys : Forall (λ g, NoDup g.2.*1 ∧ Forall (λ k, is_key_name k = true) g.2.*1) kf
}.

(** What GLib documents. *)
Class KeyFileLaws {KF : KeyFiles} := {
  plain_group_law : ∀ s, s ≠ "" → sall plain_char s = true → g_key_file_is_group_name s = true;
  data_law : ∀ kf, key_file_ok kf → ∃ s, g_key_file_to_data kf = Some s ∧ g_key_file_load s = Some kf;
  boolean_law : ∀ b, boolean_value (bool_text b) = Some b;
  integer_law : ∀ z, (- 2 ^ 31 ≤ z < 2 ^ 31)%Z → integer_value (fmt_int z) = Some z
}.

Section key_file.
Context {KF : KeyFiles}.

(** [g_key_file_set_string] and the like: a name that is none changes nothing. *)
Fixpoint set_in_group (group key value : string) (kf : key_file) : key_file :=
  match kf with
  | [] => [(group, [(key, value)])]
  | (g, l) :: kf =>
      if String.eqb g group then (g, key_set key value l) :: kf
      else (g, l) :: set_in_group group key value kf
  end.
Definition g_key_file_set (group key value : string) (kf : key_file) : key_file :=
  if g_key_file_is_group_name group then set_in_group group key value kf else kf.

Fixpoint find_key (k : string) (l : list (string * string)) : cstr :=
  match l with [] => None | (k', v) :: l => if String.eqb k' k then Some v else find_key k l end.
Fixpoint find_group (g : string) (kf : key_file) : option (list (string * string)) :=
  match kf with [] => None | (g', l) :: kf => if String.eqb g' g then Some l else find_group g kf end.
Definition key_file_value (kf : key_file) (group key : string) : cstr := l ← find_group group kf; find_key key l.

(** Without a value, or with one of another form: FALSE and 0. *)
Definition g_key_file_get_boolean (kf : key_file) (group key : string) : bool :=
  default false (v ← key_file_value kf group key; boolean_value v).
Definition g_key_file_get_integer (kf : key_file) (group key : string) : Z :=
  default 0%Z (v ← key_file_value kf group key; integer_value v).

(** The group that a dump gives, written key by key. *)
Definition put_group (kf : key_file) (g : string * list (string * string)) : key_file :=
  foldl (λ kf e, g_key_file_set g.1 e.1 e.2 kf) kf g.2.
End key_file.

(** ** What is dumped *)

(** The sessions' own group, and what it tells. *)
Class DumpedSessions (W : Type) {HO : SessionOps W} := {
  session_dump : positive → W → string * list (string * string)
}.
Record dump_tells {W} {HO : SessionOps W} (x : W) (s : positive) (g : string * list (string * string)) : Prop := {
  dt_name : g.1 = "Session " +:+ printf_s (session_id s x);
  dt_uid : find_key "uid" g.2 = Some (fmt_int (i32 (session_get P_unix_user s x)));
  dt_active : find_key "is_active" g.2 = Some (bool_text (session_get P_active s x));
  dt_local : find_key "is_local" g.2 = Some (bool_text (session_get P_is_local s x));
  dt_keys : Forall (λ e, is_key_name e.1 = true) g.2 ∧ NoDup g.2.*1
}.
Class DumpedLaws (W : Type) {HO : SessionOps W} {HD : DumpedSessions W} := {
  session_dump_law : ∀ s x, session_live s x → dump_tells x s (session_dump s x)
}.

(** [dump_user_section] keeps its table by the address of a local variable: where
    that is in each call, what is there when the table is printed, and the
    order of the table. *)
Class Frames := {
  uid_address : nat → positive;
  stale_uid : positive → Z;
  pointer_order : ∀ {A}, gmap positive A → list (positive * A);
  pointer_order_perm : ∀ A (m : gmap positive A), pointer_order m ≡ₚ map_to_list m
}.

Section dump.
Context {W : Type} {HO : SessionOps W} {HM : ManagedSessions W} {HD : DumpedSessions W} {HH : HashOrder}.
Context {HHost : Host} {HEnv : Session.Env} {HF : Frames} {KF : KeyFiles}.
Implicit Types (r : registry W) (kf : key_file).

Definition join_ids (str id : string) : string := if String.eqb str "" then id else str +:+ ";" +:+ id.

(** A seat that is not there, or whose dump goes wrong, is a fault. *)
Definition dump_manager_seat_iter r (str : string) (e : string * positive) : option string :=
  w ← seat_objs r !! e.2; Some (join_ids str (s_id (seat w))).
Definition dump_state_seat_iter r kf (e : string * positive) : option key_file :=
  w ← seat_objs r !! e.2;
  g ← ck_seat_dump (enter_seat (m_sess r) w);
  Some (put_group kf g.1).
Definition dump_state_session_iter r kf (e : string * positive) : key_file :=
  put_group kf (session_dump e.2 (m_sess r)).
Definition dump_state_leader_iter r kf (e : string * positive) : option key_file :=
  l ← leader_objs r !! e.2; Some (put_group kf (ck_session_leader_dump l)).

(** A walk that stops at a fault. *)
Fixpoint fold_opt {A B} (f : A → B → option A) (a : A) (l : list B) : option A :=
  match l with [] => Some a | b :: l => a ← f a b; fold_opt f a l end.

(** [UserDataDump]. *)
Record UserDataDump := { ud_sessions : string; ud_is_local : bool }.

Definition collect_user_data_dump (x : W) (call : nat) (e : string * positive) (users : gmap positive UserDataDump) :
    gmap positive UserDataDump :=
  match session_is_real_user x e.2 with
  | Some (Some _) =>
      let uid := uid_address call in
      let data := default {| ud_sessions := ""; ud_is_local := false |} (users !! uid) in
      <[uid := {| ud_sessions := join_ids (ud_sessions data) e.1;
                  ud_is_local := ud_is_local data || session_get P_is_local e.2 x |}]> users
  | _ => users
  end.
Fixpoint collect_user_data (x : W) (call : nat) (l : list (string * positive)) (users : gmap positive UserDataDump) :
    gmap positive UserDataDump :=
  match l with
  | [] => users
  | e :: l => collect_user_data x (S call) l (collect_user_data_dump x call e users)
  end.
Definition dump_user_iter kf (e : positive * UserDataDump) : key_file :=
  put_group kf ("User " +:+ fmt_unsigned (stale_uid e.1),
                [("is_local", bool_text (ud_is_local e.2)); ("sessions", ud_sessions e.2)]).
Definition dump_user_section r kf : key_file :=
  foldl dump_user_iter kf (pointer_order (collect_user_data (m_sess r) 0 (hash_order (m_clock r) (m_sessions r)) ∅)).

(** The key file of [do_dump]. *)
Definition dump_key_file r : option key_file :=
  let seat_list := hash_order (m_clock r) (seats r) in
  str ← fold_opt (dump_manager_seat_iter r) "" seat_list;
  kf ← fold_opt (dump_state_seat_iter r) (put_group [] ("Seats", [("seats", str)])) seat_list;
  let kf := foldl (dump_state_session_iter r) kf (hash_order (m_clock r) (m_sessions r)) in
  kf ← fold_opt (dump_state_leader_iter r) kf (hash_order (m_clock r) (leaders r));
  Some (dump_user_section r kf).
End dump.

(** ** The file *)

(** The contents of "database" and of "database~". *)
Record database := { db_file : cstr; db_tmp : cstr }.

Inductive write_answer := Wrote (n : nat) | WriteAgain | WriteError.
Inductive close_answer := CloseOk | CloseAgain | CloseError.

(** The kernel's answers to the calls of one dump. *)
Record dump_calls := {
  mkdir_ok : bool;
  open_ok : bool;
  write_answers : list write_answer;
  close_answers : list close_answer;
  rename_ok : bool;
  unlink_ok : bool
}.

(** [write]: what is there before and after the bytes stays. *)
Definition overwrite (off : nat) (s content : string) : string :=
  stake off content +:+ s +:+ sdrop (off + String.length s) content.

(** The loop of [do_dump]: whether all was written, and the contents.  [None]:
    no more answers. *)
Fixpoint write_loop (answers : list write_answer) (off : nat) (rest content : string) : option (bool * string) :=
  if String.eqb rest "" then Some (true, content)
  else match answers with
       | [] => None
       | Wrote n :: answers =>
           let s := stake n rest in
           write_loop answers (off + String.length s) (sdrop n rest) (overwrite off s content)
       | WriteAgain :: answers => write_loop answers off rest content
       | WriteError :: _ => Some (false, content)
       end.

(** Without data there is nothing to write, which is no failure. *)
Definition do_dump (answers : list write_answer) (data : cstr) (content : string) : option (bool * string) :=
  match data with
  | Some str => write_loop answers 0 str content
  | None => Some (true, content)
  end.

Fixpoint close_loop (answers : list close_answer) : option bool :=
  match answers with
  | [] => None
  | CloseOk :: _ => Some true
  | CloseAgain :: answers => close_loop answers
  | CloseError :: _ => Some false
  end.

(** The label [error]. *)
Definition dump_error (c : dump_calls) (d : database) : database :=
  {| db_file := if unlink_ok c then None else db_file d; db_tmp := db_tmp d |}.

(** The file is opened without O_TRUNC. *)
Definition ck_manager_dump (c : dump_calls) (data : cstr) (d : database) : option database :=
  if negb (mkdir_ok c) then Some d
  else if negb (open_ok c) then Some (dump_error c d)
  else
    '(written, content) ← do_dump (write_answers c) data (default "" (db_tmp d));
    let d := {| db_file := db_file d; db_tmp := Some content |} in
    if negb (written : bool) then Some (dump_error c d)
    else
      closed ← close_loop (close_answers c);
      if negb closed then Some (dump_error c d)
      else if rename_ok c then Some {| db_file := db_tmp d; db_tmp := None |}
      else Some (dump_error c d).
