(* ===== verification/DatabaseFacts.v ===== *)
(** * Lemmas about the database file.

    What setting keys does to a key file, what the dump puts into it, and what
    the writing leaves on the disk. *)

From S2P Require Import Prelude Scan Leader Session Seat Hooks SeatSessions Power Manager SessionNew Database.
From S2P Require Collect.

(** ** Pieces of strings *)

Lemma stake_sdrop n s : stake n s +:+ sdrop n s = s.
Proof. revert s. induction n as [|n IH]; intros [|c s]; try done. simpl. by rewrite sapp_cons, IH. Qed.
Lemma stake_app a b : stake (String.length a) (a +:+ b) = a.
Proof. induction a as [|c a IH]; [by destruct b|]. rewrite sapp_cons. simpl. by rewrite IH. Qed.
Lemma sdrop_app a b n : sdrop (String.length a + n) (a +:+ b) = sdrop n b.
Proof. induction a as [|c a IH]; [done|]. rewrite sapp_cons. simpl. apply IH. Qed.
Lemma sdrop_sdrop n m s : sdrop n (sdrop m s) = sdrop (m + n) s.
Proof. revert s. induction m as [|m IH]; intros [|c s]; try done; [by destruct n|]. simpl. apply IH. Qed.
Lemma sdrop_all n s : String.length s ≤ n → sdrop n s = "".
Proof. revert s. induction n as [|n IH]; intros [|c s] H; simpl in *; try done; [lia|]. apply IH. lia. Qed.
Lemma sdrop_length n s : String.length (sdrop n s) = String.length s - n.
Proof. revert s. induction n as [|n IH]; intros [|c s]; simpl; done. Qed.

(** ** Groups and keys *)

Lemma decide_elem_cons {A} (k k1 : string) (l : list string) (a b : A) :
  (if decide (k ∈ k1 :: l) then a else b) = if decide (k = k1 ∨ k ∈ l) then a else b.
Proof. apply decide_ext. by rewrite elem_of_cons. Qed.

Section key_file.
Context {KF : KeyFiles}.
Implicit Types (kf : key_file) (l : list (string * string)).

Lemma find_key_set k k' v l :
  find_key k' (key_set k v l) = if String.eqb k k' then Some v else find_key k' l.
Proof.
  induction l as [|[k1 v1] l IH]; simpl.
  - destruct (String.eqb k k') eqn:E; done.
  - destruct (String.eqb_spec k1 k) as [->|Hne]; csimpl.
    + by destruct (String.eqb k k').
    + destruct (String.eqb_spec k1 k') as [->|Hne']; [|done]. destruct (String.eqb_spec k k'); congruence.
Qed.
Lemma key_set_keys k v l : (key_set k v l).*1 = if decide (k ∈ l.*1) then l.*1 else l.*1 ++ [k].
Proof.
  induction l as [|[k1 v1] l IH]; [|csimpl].
  - by rewrite decide_False by apply not_elem_of_nil.
  - destruct (String.eqb_spec k1 k) as [->|Hne]; csimpl.
    + by rewrite decide_elem_cons, decide_True by by left.
    + rewrite IH, decide_elem_cons. repeat case_decide; naive_solver.
Qed.
Lemma key_set_new k v l : k ∉ l.*1 → key_set k v l = l ++ [(k, v)].
Proof.
  induction l as [|[k1 v1] l IH]; [done|]. simpl. rewrite not_elem_of_cons. intros [Hne Hl].
  destruct (String.eqb_spec k1 k); [done|]. by rewrite IH.
Qed.
(** Keys set one after the other give the same list again. *)
Lemma key_set_all l l0 : NoDup (l0 ++ l).*1 → foldl (λ l e, key_set e.1 e.2 l) l0 l = l0 ++ l.
Proof.
  revert l0. induction l as [|[k v] l IH]; intros l0 Hnd; simpl; [by rewrite app_nil_r|].
  rewrite key_set_new.
  - rewrite IH; rewrite <- app_assoc; done.
  - rewrite fmap_app in Hnd. apply NoDup_app in Hnd as (_ & Hd & _). intros Hk. apply (Hd k Hk). left.
Qed.
Lemma key_set_nodup k v l : NoDup l.*1 → NoDup (key_set k v l).*1.
Proof.
  intros H. rewrite key_set_keys. case_decide; [done|]. apply NoDup_app. split_and!; [done| |apply NoDup_singleton].
  intros x Hx ->%list_elem_of_singleton. done.
Qed.
Lemma key_set_names k v l : is_key_name k = true → Forall (λ k, is_key_name k = true) l.*1 →
  Forall (λ k, is_key_name k = true) (key_set k v l).*1.
Proof. intros Hk H. rewrite key_set_keys. case_decide; [done|]. apply Forall_app. by repeat constructor. Qed.

(** The group a key is set in, and the others. *)
Lemma find_group_set g g' k v kf : find_group g' (set_in_group g k v kf) =
  if String.eqb g g' then Some (key_set k v (default [] (find_group g kf))) else find_group g' kf.
Proof.
  induction kf as [|[g1 l] kf IH]; simpl.
  - by destruct (String.eqb g g').
  - destruct (String.eqb_spec g1 g) as [->|Hne]; csimpl.
    + by destruct (String.eqb g g').
    + destruct (String.eqb_spec g1 g') as [->|Hne'].
      * destruct (String.eqb_spec g g'); [congruence|done].
      * rewrite IH. by destruct (String.eqb g g').
Qed.
Lemma set_in_group_groups g k v kf : (set_in_group g k v kf).*1 = if decide (g ∈ kf.*1) then kf.*1 else kf.*1 ++ [g].
Proof.
  induction kf as [|[g1 l] kf IH]; [|csimpl].
  - by rewrite decide_False by apply not_elem_of_nil.
  - destruct (String.eqb_spec g1 g) as [->|Hne]; csimpl.
    + by rewrite decide_elem_cons, decide_True by by left.
    + rewrite IH, decide_elem_cons. repeat case_decide; naive_solver.
Qed.
Lemma find_group_elem g kf : is_Some (find_group g kf) ↔ g ∈ kf.*1.
Proof.
  induction kf as [|[g1 l] kf IH]; simpl.
  - split; [by intros [??]|by intros ?%elem_of_nil].
  - rewrite elem_of_cons. destruct (String.eqb_spec g1 g) as [->|Hne]; [split; eauto|].
    rewrite IH. split; [by right|]. by intros [->|].
Qed.

Lemma set_ok group k v kf : is_key_name k = true → key_file_ok kf → key_file_ok (g_key_file_set group k v kf).
Proof.
  intros Hk [H1 H2 H3]. unfold g_key_file_set. destruct (g_key_file_is_group_name group) eqn:Hg; [|by split].
  split.
  - rewrite set_in_group_groups. case_decide; [done|]. apply NoDup_app.
    split_and!; [done| |apply NoDup_singleton]. by intros x Hx ->%list_elem_of_singleton.
  - clear H1 H3. induction H2 as [|[g1 l] kf Hn H2 IH]; simpl; [by repeat constructor|].
    destruct (String.eqb g1 group); by constructor.
  - clear H1 H2. induction H3 as [|[g1 l] kf [Hn Hl] H3 IH]; simpl.
    + repeat constructor; [by apply not_elem_of_nil|done].
    + destruct (String.eqb g1 group); constructor; try done. split; [by apply key_set_nodup|by apply key_set_names].
Qed.

Lemma put_group_ok kf g : Forall (λ e, is_key_name e.1 = true) g.2 → key_file_ok kf → key_file_ok (put_group kf g).
Proof.
  destruct g as [name l]. unfold put_group. simpl. intros Hl. revert kf.
  induction Hl as [|[k v] l Hk Hl IH]; intros kf Hok; [done|]. simpl. apply IH. by apply set_ok.
Qed.
Lemma put_group_other kf g g' : g.1 ≠ g' → find_group g' (put_group kf g) = find_group g' kf.
Proof.
  destruct g as [name l]. unfold put_group. simpl. intros Hne. revert kf.
  induction l as [|[k v] l IH]; intros kf; [done|]. simpl. rewrite IH. unfold g_key_file_set.
  destruct (g_key_file_is_group_name name); [|done]. rewrite find_group_set.
  by destruct (String.eqb_spec name g').
Qed.
Lemma put_group_fold name l kf : g_key_file_is_group_name name = true → l ≠ [] →
  find_group name (put_group kf (name, l)) =
  Some (foldl (λ l e, key_set e.1 e.2 l) (default [] (find_group name kf)) l).
Proof.
  intros Hn. unfold put_group. simpl. revert kf.
  induction l as [|[k v] l IH]; intros kf Hl; [done|]. simpl. unfold g_key_file_set at 2. rewrite Hn.
  destruct (decide (l = [])) as [->|Hne].
  - simpl. rewrite find_group_set. by rewrite String.eqb_refl.
  - rewrite IH by done. rewrite find_group_set, String.eqb_refl. done.
Qed.
(** A new group is what was given. *)
Lemma put_group_new name l kf : g_key_file_is_group_name name = true → l ≠ [] → NoDup l.*1 →
  find_group name kf = None → find_group name (put_group kf (name, l)) = Some l.
Proof. intros Hn Hl Hnd Hkf. rewrite put_group_fold by done. rewrite Hkf. simpl. by rewrite key_set_all. Qed.

(** The groups of sessions are the ones udev-acl looks for. *)
Definition session_group (g : string) : Prop := is_Some (strip_prefix "Session " g).

(** Both tell the same of sessions, and the second is well-formed if the first is. *)
Record same_sessions (kf kf' : key_file) : Prop := {
  ss_ok : key_file_ok kf → key_file_ok kf';
  ss_find : ∀ g, session_group g → find_group g kf' = find_group g kf
}.
#[export] Instance same_sessions_preorder : PreOrder same_sessions.
Proof.
  split; [by split|]. intros a b c [H1 H2] [H3 H4]. split; [auto|]. intros g Hg. rewrite H4, H2; done.
Qed.
Lemma put_group_same kf name l : ¬ session_group name → Forall (λ e, is_key_name e.1 = true) l →
  same_sessions kf (put_group kf (name, l)).
Proof.
  intros Hn Hl. split; [by apply put_group_ok|]. intros g Hg. apply put_group_other. simpl. by intros ->.
Qed.
Lemma fold_opt_same {B} (f : key_file → B → option key_file) (l : list B) kf kf' :
  (∀ kf b kf', f kf b = Some kf' → same_sessions kf kf') → fold_opt f kf l = Some kf' → same_sessions kf kf'.
Proof.
  intros Hf. revert kf. induction l as [|b l IH]; intros kf; simpl; [by intros [= ->]|].
  destruct (f kf b) as [kf1|] eqn:E; [|done]. simpl. intros H. etrans; [by eapply Hf|by apply IH].
Qed.
Lemma foldl_same {B} (f : key_file → B → key_file) (l : list B) kf :
  (∀ kf b, same_sessions kf (f kf b)) → same_sessions kf (foldl f kf l).
Proof. intros Hf. revert kf. induction l as [|b l IH]; intros kf; simpl; [done|]. etrans; [apply Hf|apply IH]. Qed.

(** Sessions with names of their own, one after the other. *)
Lemma sessions_put {B} (dump : B → string * list (string * string)) (l : list B) kf :
  NoDup (map (λ b, (dump b).1) l) →
  (∀ b, b ∈ l → g_key_file_is_group_name (dump b).1 = true ∧ (dump b).2 ≠ [] ∧ NoDup (dump b).2.*1 ∧
     Forall (λ e, is_key_name e.1 = true) (dump b).2 ∧ find_group (dump b).1 kf = None) →
  key_file_ok kf →
  let kf' := foldl (λ kf b, put_group kf (dump b)) kf l in
  key_file_ok kf' ∧ (∀ b, b ∈ l → find_group (dump b).1 kf' = Some (dump b).2) ∧
  ∀ g, (∀ b, b ∈ l → (dump b).1 ≠ g) → find_group g kf' = find_group g kf.
Proof.
  revert kf. induction l as [|b l IH]; intros kf Hnd Hl Hok; simpl.
  { split_and!; try done. by intros b ?%elem_of_nil. }
  apply NoDup_cons in Hnd as [Hb Hnd]. destruct (Hl b ltac:(left)) as (N1 & N2 & N3 & N4 & N5).
  destruct (IH (put_group kf (dump b))) as (H1 & H2 & H3).
  - done.
  - intros c Hc. destruct (Hl c ltac:(by right)) as (M1 & M2 & M3 & M4 & M5). split_and!; try done.
    rewrite put_group_other; [done|]. intros E. apply Hb. rewrite E. apply list_elem_of_fmap. eauto.
  - by apply put_group_ok.
  - split_and!; [done| |].
    + intros c [->|Hc]%elem_of_cons; [|by apply H2]. rewrite H3.
      * destruct (dump b) as [name kvs]. by apply put_group_new.
      * intros c Hc E. apply Hb. rewrite <- E. apply list_elem_of_fmap. eauto.
    + intros g Hg. rewrite H3 by (intros c Hc; apply Hg; by right). apply put_group_other. apply Hg. left.
Qed.
End key_file.

(** ** What the manager dumps *)

Section dump.
Context {W : Type} {HO : SessionOps W} {HM : ManagedSessions W} {HD : DumpedSessions W} {HDL : DumpedLaws W}.
Context {HH : HashOrder} {HHost : Host} {HEnv : Session.Env} {HF : Frames} {KF : KeyFiles} {HKL : KeyFileLaws}.
Implicit Types (r : registry W) (kf : key_file).

(** The tables lead to what is there, and seats have no devices (their dump is
    undefined else). *)
Record dumpable r : Prop := {
  da_sessions : ∀ id s, m_sessions r !! id = Some s →
    session_live s (m_sess r) ∧ session_id s (m_sess r) = Some id ∧ sall plain_char id = true;
  da_seats : ∀ sid p, seats r !! sid = Some p → ∃ w, seat_objs r !! p = Some w ∧ s_devices (seat w) = [];
  da_leaders : ∀ c l, leaders r !! c = Some l → is_Some (leader_objs r !! l)
}.

Lemma not_session_group name : strip_prefix "Session " name = None → ¬ session_group name.
Proof. intros H [? E]. congruence. Qed.
Lemma session_group_name g : session_group g → ∃ id, g = "Session " +:+ id.
Proof. intros [id Hid]. exists id. by apply strip_prefix_Some. Qed.
Lemma session_group_of id : session_group ("Session " +:+ id).
Proof. exists id. apply strip_prefix_app. Qed.

Lemma seat_dump_some (w : seat_world W) : s_devices (seat w) = [] →
  ∃ l w', ck_seat_dump w = Some (("Seat " +:+ s_id (seat w), l), w') ∧ Forall (λ e, is_key_name e.1 = true) l.
Proof.
  intros Hd. unfold ck_seat_dump, in_seat, walk. unfold_prog. rewrite Hd.
  destruct (active_session (seat w)); eexists _, _; (split; [done|]); repeat constructor.
Qed.
Lemma seat_iter_same r kf e kf' : (∀ sid p, seats r !! sid = Some p → ∃ w, seat_objs r !! p = Some w ∧ s_devices (seat w) = []) →
  seats r !! e.1 = Some e.2 → dump_state_seat_iter r kf e = Some kf' → same_sessions kf kf'.
Proof.
  intros Hs He. unfold dump_state_seat_iter. destruct (Hs _ _ He) as (w & -> & Hd). simpl.
  destruct (seat_dump_some (enter_seat (m_sess r) w) Hd) as (l & w' & -> & Hl). simpl. intros [= <-].
  apply put_group_same; [|done]. by apply not_session_group.
Qed.
Lemma leader_iter_same r kf e kf' : dump_state_leader_iter r kf e = Some kf' → same_sessions kf kf'.
Proof.
  unfold dump_state_leader_iter. destruct (leader_objs r !! e.2) as [l|]; [|done]. simpl. intros [= <-].
  apply put_group_same; [by apply not_session_group|]. repeat constructor.
Qed.
Lemma user_iter_same kf e : same_sessions kf (dump_user_iter kf e).
Proof. apply put_group_same; [by apply not_session_group|]. repeat constructor. Qed.

Lemma fold_opt_total {A B} (f : A → B → option A) (I : A → Prop) (l : list B) a :
  (∀ a b, b ∈ l → I a → ∃ a', f a b = Some a' ∧ I a') → I a → ∃ a', fold_opt f a l = Some a' ∧ I a'.
Proof.
  revert a. induction l as [|b l IH]; intros a Hf Ha; simpl; [eauto|].
  destruct (Hf a b ltac:(left) Ha) as (a' & -> & Ha'). simpl. apply IH; [|done].
  intros c y Hy. apply Hf. by right.
Qed.

(** The groups of the sessions: one for each session of the table, no others. *)
Definition sessions_told r kf : Prop :=
  (∀ id s, m_sessions r !! id = Some s → find_group ("Session " +:+ id) kf = Some (session_dump s (m_sess r)).2) ∧
  ∀ id, is_Some (find_group ("Session " +:+ id) kf) → is_Some (m_sessions r !! id).

Lemma session_dumps r kf : dumpable r → key_file_ok kf → (∀ g, session_group g → find_group g kf = None) →
  let kf' := foldl (dump_state_session_iter r) kf (hash_order (m_clock r) (m_sessions r)) in
  key_file_ok kf' ∧ sessions_told r kf'.
Proof.
  intros Hda Hok Hnew. set (l := hash_order (m_clock r) (m_sessions r)).
  assert (∀ e, e ∈ l → dump_tells (m_sess r) e.2 (session_dump e.2 (m_sess r)) ∧
            (session_dump e.2 (m_sess r)).1 = "Session " +:+ e.1 ∧ sall plain_char e.1 = true) as Hl.
  { intros [id s] He%elem_of_hash_order. destruct (da_sessions r Hda id s He) as (Hlive & Hid & Hp).
    pose proof (session_dump_law s (m_sess r) Hlive) as Ht. split_and!; [done| |done].
    simpl. by rewrite (dt_name _ _ _ Ht), Hid. }
  destruct (sessions_put (λ e : string * positive, session_dump e.2 (m_sess r)) l kf) as (H1 & H2 & H3); [| |done|].
  - rewrite (map_ext_in _ (λ e, "Session " +:+ e.1)).
    + rewrite <- (map_map fst (String.append "Session ")).
      apply NoDup_fmap; [|apply hash_order_nodup]. intros a b. apply sapp_inj_l.
    + intros e He. by apply Hl, list_elem_of_In.
  - intros e He. destruct (Hl e He) as ([_ Huid _ _ [Hk Hn]] & Hname & Hp).
    split_and!; [| |done|done|].
    + rewrite Hname. apply plain_group_law; [done|]. by rewrite sall_app, Hp.
    + intros E. by rewrite E in Huid.
    + rewrite Hname. apply Hnew, session_group_of.
  - intros kf'. split; [exact H1|]. split.
    + intros id s Hs. assert ((id, s) ∈ l) as He by by apply elem_of_hash_order.
      pose proof (H2 _ He) as E. simpl in E. destruct (Hl _ He) as (_ & Hname & _). simpl in Hname.
      rewrite Hname in E. exact E.
    + intros id [g Hg]. destruct (m_sessions r !! id) as [s|] eqn:E; [by eexists|].
      exfalso. unfold kf' in Hg. rewrite H3 in Hg.
      * rewrite Hnew in Hg; [done|]. apply session_group_of.
      * intros e He. destruct (Hl e He) as (_ & -> & _). intros Eq%sapp_inj_l.
        destruct e as [i s]. apply elem_of_hash_order in He. simpl in Eq. congruence.
Qed.

(** The dump's key file is well-formed and tells of every session of the table,
    and of no other, what the session says. *)
Lemma dump_key_file_tells r : dumpable r → ∃ kf, dump_key_file r = Some kf ∧ key_file_ok kf ∧ sessions_told r kf.
Proof.
  intros Hda. unfold dump_key_file. set (sl := hash_order (m_clock r) (seats r)).
  assert (∀ e, e ∈ sl → seats r !! e.1 = Some e.2) as Hsl by by intros [sid p] ?%elem_of_hash_order.
  destruct (fold_opt_total (dump_manager_seat_iter r) (λ _, True) sl "") as (str & -> & _); [|done|simpl].
  { intros a e He _. destruct (da_seats r Hda _ _ (Hsl e He)) as (w & Hw & _).
    unfold dump_manager_seat_iter. rewrite Hw. simpl. by eexists. }
  set (kf0 := put_group [] ("Seats", [("seats", str)])).
  destruct (fold_opt_total (dump_state_seat_iter r) (same_sessions kf0) sl kf0) as (kf1 & -> & H1); [|done|simpl].
  { intros kf e He Hkf. pose proof (Hsl e He) as He'. destruct (da_seats r Hda _ _ He') as (w & Hw & Hd).
    destruct (seat_dump_some (enter_seat (m_sess r) w) Hd) as (l & w' & E & Hl).
    assert (∃ kf', dump_state_seat_iter r kf e = Some kf') as [kf' Hkf'].
    { unfold dump_state_seat_iter. rewrite Hw. simpl. rewrite E. simpl. by eexists. }
    exists kf'. split; [done|]. etrans; [done|]. by apply (seat_iter_same r kf e kf' (da_seats r Hda)). }
  assert (same_sessions [] kf0) as H0.
  { apply put_group_same; [by apply not_session_group|]. repeat constructor. }
  assert (same_sessions [] kf1) as H01 by by etrans.
  destruct (session_dumps r kf1 Hda) as [H2 H3].
  { apply (ss_ok _ _ H01). split; constructor. }
  { intros g Hg. by rewrite (ss_find _ _ H01). }
  set (kf2 := foldl _ kf1 _) in *.
  destruct (fold_opt_total (dump_state_leader_iter r) (same_sessions kf2) (hash_order (m_clock r) (leaders r)) kf2)
    as (kf3 & -> & H4); [|done|simpl].
  { intros kf [c l] He%elem_of_hash_order Hkf. destruct (da_leaders r Hda c l He) as [L HL].
    assert (∃ kf', dump_state_leader_iter r kf (c, l) = Some kf') as [kf' Hkf'].
    { unfold dump_state_leader_iter. simpl. rewrite HL. simpl. by eexists. }
    exists kf'. split; [done|]. etrans; [done|]. by eapply leader_iter_same. }
  assert (same_sessions kf2 (dump_user_section r kf3)) as H5.
  { etrans; [exact H4|]. unfold dump_user_section. apply foldl_same. intros kf e. apply user_iter_same. }
  exists (dump_user_section r kf3). split; [done|]. split; [by apply (ss_ok _ _ H5)|].
  destruct H3 as [H6 H7]. split.
  - intros id s Hs. rewrite (ss_find _ _ H5) by apply session_group_of. by apply H6.
  - intros id Hi. apply H7. by rewrite <- (ss_find _ _ H5) by apply session_group_of.
Qed.
End dump.

(** ** The writing *)

Lemma overwrite_at a b s : overwrite (String.length a) s (a +:+ b) = a +:+ s +:+ sdrop (String.length s) b.
Proof. unfold overwrite. by rewrite stake_app, sdrop_app. Qed.

(** Whatever the kernel answers: a first part of the text is there, in front of
    what the file had beyond it; all of it, if the loop says so. *)
Lemma write_loop_wrote answers a b rest ok content :
  write_loop answers (String.length a) rest (a +:+ b) = Some (ok, content) →
  ∃ s todo, rest = s +:+ todo ∧ content = a +:+ s +:+ sdrop (String.length s) b ∧ (ok = true → todo = "").
Proof.
  revert a b rest. induction answers as [|w answers IH]; intros a b rest; simpl.
  - destruct (String.eqb_spec rest "") as [->|]; [|done]. intros [= <- <-]. by exists "", "".
  - destruct (String.eqb_spec rest "") as [->|Hne]; [intros [= <- <-]; by exists "", ""|].
    destruct w as [n| |].
    + rewrite overwrite_at. set (s := stake n rest). intros H.
      rewrite <- slength_app, <- sapp_assoc in H. apply IH in H as (s' & todo & Hd & -> & Hok).
      exists (s +:+ s'), todo. split_and!; [|by rewrite <- !sapp_assoc, sdrop_sdrop, slength_app|done].
      rewrite sapp_assoc, <- Hd. symmetry. apply stake_sdrop.
    + apply IH.
    + intros [= <- <-]. by exists "", rest.
Qed.

(** As many bytes as the answers bring. *)
Definition bytes_written (answers : list write_answer) : nat :=
  sum_list_with (λ w, match w with Wrote n => n | _ => 0 end) answers.

Lemma write_loop_total answers off rest content :
  WriteError ∉ answers → String.length rest ≤ bytes_written answers →
  ∃ content', write_loop answers off rest content = Some (true, content').
Proof.
  revert off rest content. induction answers as [|w answers IH]; intros off rest content Hne Hlen; simpl.
  - destruct rest; [by eexists|simpl in Hlen; lia].
  - destruct (String.eqb rest ""); [by eexists|]. apply not_elem_of_cons in Hne as [Hw Hne].
    unfold bytes_written in *. simpl in Hlen. destruct w as [n| |]; [| |done].
    + apply IH; [done|]. rewrite sdrop_length. lia.
    + by apply IH.
Qed.

Lemma do_dump_wrote answers str old ok content : do_dump answers (Some str) old = Some (ok, content) →
  ∃ s todo, str = s +:+ todo ∧ content = s +:+ sdrop (String.length s) old ∧ (ok = true → todo = "").
Proof. intros H. by apply (write_loop_wrote answers "" old str). Qed.

(** ** Reading it back *)

Section read.
Context {W : Type} {HO : SessionOps W} {HM : ManagedSessions W} {HD : DumpedSessions W} {HDL : DumpedLaws W}.
Context {KF : KeyFiles} {HKL : KeyFileLaws}.
Implicit Types (r : registry W) (kf : key_file).

(** A reader of the key file learns of each session whose it is, whether it is
    active and local, and there is no group of another session. *)
Definition reads_sessions r kf : Prop :=
  ∀ id, match m_sessions r !! id with
        | Some s =>
            let x := m_sess r in
            g_key_file_get_integer kf ("Session " +:+ id) "uid" = i32 (session_get P_unix_user s x) ∧
            g_key_file_get_boolean kf ("Session " +:+ id) "is_active" = session_get P_active s x ∧
            g_key_file_get_boolean kf ("Session " +:+ id) "is_local" = session_get P_is_local s x
        | None => find_group ("Session " +:+ id) kf = None
        end.

Lemma told_reads r kf : dumpable r → sessions_told r kf → reads_sessions r kf.
Proof.
  intros Hda [H1 H2] id. destruct (m_sessions r !! id) as [s|] eqn:E.
  - destruct (da_sessions r Hda id s E) as (Hlive & _ & _).
    pose proof (session_dump_law s (m_sess r) Hlive) as [_ Hu Ha Hl _].
    unfold g_key_file_get_integer, g_key_file_get_boolean, key_file_value. rewrite (H1 id s E). simpl.
    rewrite Hu, Ha, Hl. simpl. rewrite integer_law by apply i32_range. by rewrite !boolean_law.
  - destruct (find_group ("Session " +:+ id) kf) eqn:Ef; [|done]. exfalso.
    destruct (H2 id) as [s Hs]; [by eexists|]. congruence.
Qed.
End read.

(** ** The sessions of [Session] *)

Section store.
Context {HOS : Device.OS} {HEnv : Env} {K : Type} {HSkel : Skeleton K}.
Implicit Types (l : list (string * string)).

#[export] Instance store_dumped : DumpedSessions (store K) :=
  {| session_dump := λ s st, match tab st !! s with Some o => ck_session_dump (o_ses o) | None => ("", []) end |}.

(** Keys that are names, each once. *)
Definition keys_ok l : Prop := Forall (λ k, is_key_name k = true) l.*1 ∧ NoDup l.*1.
Lemma keys_set k v l : is_key_name k = true → keys_ok l → keys_ok (key_set k v l).
Proof. intros Hk [H1 H2]. split; [by apply key_set_names|by apply key_set_nodup]. Qed.
Lemma keys_given k v l : is_key_name k = true → keys_ok l → keys_ok (key_given k v l).
Proof. destruct v; [apply keys_set|done]. Qed.
Lemma keys_nonempty k v l : is_key_name k = true → keys_ok l → keys_ok (key_nonempty k v l).
Proof. destruct v as [[|c s]|]; [done|apply keys_set|done]. Qed.
Lemma find_key_given k k' v l : String.eqb k k' = false → find_key k' (key_given k v l) = find_key k' l.
Proof. intros H. destruct v; [|done]. simpl. by rewrite find_key_set, H. Qed.
Lemma find_key_nonempty k k' v l : String.eqb k k' = false → find_key k' (key_nonempty k v l) = find_key k' l.
Proof. intros H. destruct v as [[|c s]|]; [done| |done]. cbn [key_nonempty]. by rewrite find_key_set, H. Qed.

#[export] Instance store_dumped_laws : DumpedLaws (store K).
Proof.
  split. intros s st [o Ho]. simpl. rewrite Ho. simpl in *.
  split; simpl; unfold in_session; rewrite ?Ho; unfold ck_session_dump; cbn [fst snd].
  - done.
  - repeat first [rewrite find_key_set|rewrite find_key_nonempty by done|rewrite find_key_given by done]. done.
  - repeat first [rewrite find_key_set|rewrite find_key_nonempty by done|rewrite find_key_given by done]. done.
  - repeat first [rewrite find_key_set|rewrite find_key_nonempty by done|rewrite find_key_given by done]. done.
  - assert (∀ l, keys_ok l → Forall (λ e, is_key_name e.1 = true) l ∧ NoDup l.*1) as H.
    { intros l [H1 H2]. split; [|done]. by apply Forall_fmap in H1. }
    apply H. repeat first [apply keys_set; [done|]|apply keys_nonempty; [done|]|apply keys_given; [done|]].
    split; [by repeat constructor|]. apply (bool_decide_unpack _). done.
Qed.
End store.
