(* ===== verification/DatabasePolicy.v ===== *)
(** * What the database file says.

    A dump is all or nothing, up to what an earlier dump left in the temporary
    file; what it writes tells of the manager's sessions; concrete runs. *)

From S2P Require Import Prelude Scan Leader Session Seat SeatFacts Hooks SeatSessions Power Manager SessionNew.
From S2P Require Import ManagerFacts ManagerOps ManagerIds ManagerLogins ManagerRefines Database DatabaseFacts.
From S2P Require Collect.

(** ** The file after a dump *)

(** The old contents beyond a text that is written over them. *)
Definition left_over (str : string) (tmp : cstr) : string := sdrop (String.length str) (default "" tmp).

(** The kernel does all it is asked. *)
Record served (c : dump_calls) (str : string) : Prop := {
  sv_mkdir : mkdir_ok c = true;
  sv_open : open_ok c = true;
  sv_write : WriteError ∉ write_answers c;
  sv_bytes : String.length str ≤ bytes_written (write_answers c);
  sv_close : ∃ n l, close_answers c = replicate n CloseAgain ++ CloseOk :: l;
  sv_rename : rename_ok c = true
}.

Lemma close_loop_ok n l : close_loop (replicate n CloseAgain ++ CloseOk :: l) = Some true.
Proof. by induction n as [|n IH]. Qed.

Lemma dump_served c str d : served c str →
  ck_manager_dump c (Some str) d = Some {| db_file := Some (str +:+ left_over str (db_tmp d)); db_tmp := None |}.
Proof.
  intros [H1 H2 H3 H4 (n & l & H5) H6]. unfold ck_manager_dump. rewrite H1, H2. simpl.
  destruct (write_loop_total (write_answers c) 0 str (default "" (db_tmp d)) H3 H4) as [content E].
  rewrite E. simpl. rewrite H5, close_loop_ok. simpl. rewrite H6.
  apply do_dump_wrote in E as (s & todo & -> & -> & Ht). rewrite Ht by done. by rewrite sapp_nil_r.
Qed.

(** C17: Whatever the kernel answers, a dump leaves the database as it was (the
    directory cannot be made, or a failure whose unlink fails too), removes it,
    or replaces it by the complete text, followed by what the temporary file
    already held beyond that length.  A partial text never gets the name of
    the database. *)
Theorem dump_all_or_nothing c str d d' : ck_manager_dump c (Some str) d = Some d' →
  (db_file d' = db_file d ∧ (mkdir_ok c = false ∨ unlink_ok c = false)) ∨ (db_file d' = None ∧ unlink_ok c = true) ∨
  (db_file d' = Some (str +:+ left_over str (db_tmp d)) ∧ db_tmp d' = None).
Proof.
  unfold ck_manager_dump. destruct (mkdir_ok c); simpl; [|intros [= <-]; eauto].
  assert (∀ t, (db_file (dump_error c {| db_file := db_file d; db_tmp := t |}) = db_file d ∧
     (true = false ∨ unlink_ok c = false)) ∨
     (db_file (dump_error c {| db_file := db_file d; db_tmp := t |}) = None ∧ unlink_ok c = true)) as He.
  { intros t. unfold dump_error. destruct (unlink_ok c); simpl; eauto. }
  destruct (open_ok c); simpl; [|intros [= <-]; destruct (He (db_tmp d)) as [H|H]; destruct d; eauto].
  destruct (write_loop _ _ _ _) as [[ok content]|] eqn:E; [|done].
  apply do_dump_wrote in E as (s & todo & -> & -> & Ht). simpl.
  destruct ok; simpl; [|intros [= <-]; destruct (He (Some (s +:+ sdrop (String.length s) (default "" (db_tmp d))))); eauto].
  rewrite Ht by done. rewrite sapp_nil_r. set (t := s +:+ _).
  destruct (close_loop _) as [[]|]; simpl; [|intros [= <-]; destruct (He (Some t)); eauto|done].
  destruct (rename_ok c); intros [= <-]; [by right; right|destruct (He (Some t)); eauto].
Qed.

(** ** What it says *)

Section manager.
Context {W : Type} {HO : SessionOps W} {HM : ManagedSessions W} {HML : ManagedLaws W} {HD : DumpedSessions W}.
Context {HDL : DumpedLaws W} {HH : HashOrder} {HHost : Host} {HEnv : Session.Env} {HP : Collect.Processes}.
Context {HMH : ManagerHost} {HLib : LibexecDir} {HF : Frames} {KF : KeyFiles} {HKL : KeyFileLaws}.
Implicit Types (r : registry W) (kf : key_file).

Definition no_devices r : Prop := ∀ p w, seat_objs r !! p = Some w → s_devices (seat w) = [].

Lemma serial_name_plain prefix n : sall plain_char prefix = true → sall plain_char (serial_name prefix n) = true.
Proof.
  intros Hp. unfold serial_name. rewrite sall_app, Hp. simpl. apply Is_true_true.
  eapply sall_impl; [|apply pretty_N_digits]. intros c Hc. unfold plain_char, is_alnum.
  destruct (is_digit c); [|done]. by rewrite orb_true_r.
Qed.

Lemma reg_dumpable r : reg_inv r → no_devices r → dumpable r.
Proof.
  intros [[Hs _ _ _] Hl] Hd. split.
  - intros id s Hid. destruct (si_table r Hs id s Hid) as [H1 H2]. split_and!; [done|done|].
    destruct (li_open _ _ Hl id s Hid) as (l & L & HL & <-).
    destruct (li_serial _ _ Hl l L HL) as (n & _ & ->). by apply serial_name_plain.
  - intros sid p Hp. destruct (si_seats r Hs sid p Hp) as (w & Hw & _). exists w. split; [done|]. by eapply Hd.
  - intros c l Hc. destruct (li_listed _ _ Hl c l (or_introl Hc)) as (L & -> & _). by eexists.
Qed.

(** C18: In every state the manager can reach (with no devices on its seats), the
    dump has a text.  If the kernel does what it is asked and no temporary
    file was left that is longer, the database file then is that text, and a
    reader of it learns of each session the manager has whose it is, whether it is
    active and whether it is local; it tells of no other session. *)
Theorem database_tells_sessions proxy r : registry_reachable proxy r → no_devices r →
  ∃ kf str, dump_key_file r = Some kf ∧ g_key_file_to_data kf = Some str ∧
    ∀ c d, served c str → left_over str (db_tmp d) = "" →
      ∃ d' kf', ck_manager_dump c (Some str) d = Some d' ∧ db_tmp d' = None ∧ db_file d' = Some str ∧
        g_key_file_load str = Some kf' ∧ reads_sessions r kf'.
Proof.
  intros Hr Hd. pose proof (reg_dumpable r (reachable_reg proxy r Hr) Hd) as Hda.
  destruct (dump_key_file_tells r Hda) as (kf & Hkf & Hok & Ht). destruct (data_law kf Hok) as (str & Hs & Hload).
  exists kf, str. split_and!; [done|done|]. intros c d Hc Hl. rewrite (dump_served c str d Hc), Hl, sapp_nil_r.
  eexists _, kf. split_and!; try done. by apply told_reads.
Qed.
End manager.
