(* ===== verification/KeyFileText.v ===== *)
(** * A key file as text.

    A form of key files that satisfies [KeyFileLaws]: a line for each group and
    each key, line ends and backslashes of values escaped.  It is the instance
    of the concrete runs. *)

From S2P Require Import Prelude Scan Hooks SessionNew Database DatabaseFacts.

Definition lf : ascii := "010"%char.
Definition backslash : ascii := "\"%char.

(** ** Values *)

Fixpoint escape (s : string) : string :=
  match s with
  | EmptyString => ""
  | String c s =>
      if ascii_eqb c lf then String backslash (String "n" (escape s))
      else if ascii_eqb c backslash then String backslash (String backslash (escape s))
      else String c (escape s)
  end.
Fixpoint unescape (s : string) : string :=
  match s with
  | EmptyString => ""
  | String c s =>
      if ascii_eqb c backslash then
        match s with
        | EmptyString => ""
        | String d s => String (if ascii_eqb d "n"%char then lf else d) (unescape s)
        end
      else String c (unescape s)
  end.

Lemma unescape_escape s : unescape (escape s) = s.
Proof.
  induction s as [|c s IH]; [done|]. simpl. destruct (ascii_eqb_spec c lf) as [->|Hlf]; [by simpl; rewrite IH|].
  destruct (ascii_eqb_spec c backslash) as [->|Hb]; simpl; [by rewrite IH|].
  destruct (ascii_eqb_spec c backslash); [done|]. by rewrite IH.
Qed.
Lemma escape_no_lf s : no_char lf (escape s).
Proof.
  unfold no_char. induction s as [|c s IH]; [done|]. simpl. destruct (ascii_eqb_spec c lf); [by simpl|].
  destruct (ascii_eqb_spec c backslash) as [->|]; simpl; [done|]. destruct (ascii_eqb_spec c lf); done.
Qed.

(** ** The text *)

Definition group_line (g : string) : string := "[" +:+ g +:+ "]".
Definition key_line (e : string * string) : string := e.1 +:+ "=" +:+ escape e.2.
Definition group_lines (g : string * list (string * string)) : list string := group_line g.1 :: map key_line g.2.
Definition text_of (lines : list string) : string := foldr (λ l s, l +:+ String lf s) "" lines.
Definition to_text (kf : key_file) : string := text_of (kf ≫= group_lines).

Fixpoint split_text (line s : string) : list string :=
  match s with
  | EmptyString => if String.eqb line "" then [] else [line]
  | String c s => if ascii_eqb c lf then line :: split_text "" s else split_text (line +:+ String c "") s
  end.

Definition name_char (c : ascii) : bool :=
  negb (ascii_eqb c "["%char) && negb (ascii_eqb c "]"%char) && negb (ascii_eqb c lf).
Definition group_name (s : string) : bool := negb (String.eqb s "") && sall name_char s.

(** What has been read, the group being read last; a line of no form is an error. *)
Definition read_line (st : option (key_file * string)) (line : string) : option (key_file * string) :=
  '(kf, g) ← st;
  if String.eqb line "" then Some (kf, g)
  else match strip_prefix "[" line with
  | Some rest =>
      let '(name, rest) := sspan name_char rest in
      if String.eqb rest "]" then
        Some (match find_group name kf with Some _ => kf | None => kf ++ [(name, [])] end, name)
      else None
  | None =>
      let '(key, rest) := sspan key_char line in
      match strip_prefix "=" rest with
      | Some value => if bool_decide (kf = []) then None else Some (set_in_group g key (unescape value) kf, g)
      | None => None
      end
  end.
Definition of_text (s : string) : option key_file := fst <$> foldl read_line (Some ([], "")) (split_text "" s).

Lemma split_text_line line l s : no_char lf l → split_text line (l +:+ String lf s) = (line +:+ l) :: split_text "" s.
Proof.
  unfold no_char. revert line. induction l as [|c l IH]; intros line.
  - simpl. by rewrite sapp_nil_r.
  - rewrite sapp_cons. simpl. intros [Hc Hl]%andb_True. destruct (ascii_eqb c lf); [done|].
    rewrite IH by done. by rewrite sapp_assoc.
Qed.
Lemma split_text_of lines : Forall (no_char lf) lines → split_text "" (text_of lines) = lines.
Proof. induction 1 as [|l lines Hl _ IH]; [done|]. simpl. by rewrite split_text_line, IH. Qed.

Lemma name_no_lf s : group_name s = true → no_char lf s.
Proof.
  intros [_ H]%andb_true_iff. apply (sall_impl name_char); [|by rewrite H].
  intros c [_ Hc]%andb_True. done.
Qed.
Lemma key_no_lf s : is_key_name s = true → no_char lf s.
Proof.
  intros [_ H]%andb_true_iff. apply (sall_impl key_char); [|by rewrite H].
  intros c. by destruct c as [[] [] [] [] [] [] [] []].
Qed.

(** ** Reading what was written *)

Lemma set_in_last g k v l kf : g ∉ kf.*1 → set_in_group g k v (kf ++ [(g, l)]) = kf ++ [(g, key_set k v l)].
Proof.
  induction kf as [|[g1 l1] kf IH]; simpl; [by rewrite String.eqb_refl|]. rewrite not_elem_of_cons. intros [Hne Hn].
  destruct (String.eqb_spec g1 g); [congruence|]. by rewrite IH.
Qed.

Lemma read_key_line g k v l kf : g ∉ kf.*1 → is_key_name k = true →
  read_line (Some (kf ++ [(g, l)], g)) (key_line (k, v)) = Some (kf ++ [(g, key_set k v l)], g).
Proof.
  intros Hg [Hne Hk]%andb_true_iff. unfold key_line. simpl.
  assert (sspan key_char (k +:+ "=" +:+ escape v) = (k, "=" +:+ escape v)) as E.
  { apply sspan_app; [by rewrite Hk|done]. }
  assert (String.eqb (k +:+ "=" +:+ escape v) "" = false ∧ strip_prefix "[" (k +:+ "=" +:+ escape v) = None) as [E1 E2].
  { destruct k as [|c k]; [done|]. split; [done|]. apply andb_true_iff in Hk as [Hk _].
    by destruct c as [[] [] [] [] [] [] [] []]. }
  unfold read_line. simpl. simpl in E2. rewrite E1, E2, E. rewrite sapp_cons. rewrite ascii_eqb_refl, sapp_nil_l.
  rewrite bool_decide_eq_false_2 by by destruct kf. by rewrite unescape_escape, set_in_last.
Qed.
Lemma read_key_lines g l l0 kf : g ∉ kf.*1 → Forall (λ k, is_key_name k = true) l.*1 → NoDup (l0 ++ l).*1 →
  foldl read_line (Some (kf ++ [(g, l0)], g)) (map key_line l) = Some (kf ++ [(g, l0 ++ l)], g).
Proof.
  intros Hg. revert l0. induction l as [|[k v] l IH]; intros l0 Hk Hnd; [by rewrite app_nil_r|].
  apply Forall_cons in Hk as [Hk Hl]. cbn [map foldl]. rewrite read_key_line by done.
  rewrite key_set_new.
  - rewrite IH; rewrite <- ?app_assoc; done.
  - rewrite fmap_app in Hnd. apply NoDup_app in Hnd as (_ & Hd & _). intros Hin. apply (Hd k Hin). left.
Qed.
Lemma find_group_none g kf : g ∉ kf.*1 → find_group g kf = None.
Proof.
  intros H. destruct (find_group g kf) eqn:E; [|done]. exfalso. apply H, find_group_elem. by rewrite E.
Qed.
Lemma read_group_line g kf g0 : g ∉ kf.*1 → group_name g = true →
  read_line (Some (kf, g0)) (group_line g) = Some (kf ++ [(g, [])], g).
Proof.
  intros Hg [_ Hn]%andb_true_iff. unfold group_line, read_line.
  assert (String.eqb ("[" +:+ g +:+ "]") "" = false) as E1 by done.
  cbn [mbind option_bind]. rewrite E1, sapp_cons. change (strip_prefix "[" (String "[" ("" +:+ g +:+ "]"))) with (Some (g +:+ "]")). cbv iota beta.
  assert (sspan name_char (g +:+ "]") = (g, "]")) as -> by by apply sspan_app; [rewrite Hn|].
  simpl. by rewrite find_group_none.
Qed.

#[export] Instance text_key_files : KeyFiles :=
  {| g_key_file_is_group_name := group_name;
     g_key_file_to_data := λ kf, Some (to_text kf);
     g_key_file_load := of_text;
     boolean_value := λ s, if String.eqb s "true" then Some true else if String.eqb s "false" then Some false else None;
     integer_value := λ s, Some (strtol s).1 |}.

Lemma read_groups kf kf0 g0 : NoDup (kf0 ++ kf).*1 → Forall (λ g, group_name g.1 = true) kf →
  Forall (λ g, NoDup g.2.*1 ∧ Forall (λ k, is_key_name k = true) g.2.*1) kf →
  ∃ g1, foldl read_line (Some (kf0, g0)) (kf ≫= group_lines) = Some (kf0 ++ kf, g1).
Proof.
  revert kf0 g0. induction kf as [|[g l] kf IH]; intros kf0 g0 Hnd Hn Hk.
  { exists g0. by rewrite app_nil_r. }
  apply Forall_cons in Hn as [Hn Hns]. apply Forall_cons in Hk as [[Hl Hlk] Hks].
  assert (g ∉ kf0.*1) as Hg.
  { rewrite fmap_app in Hnd. apply NoDup_app in Hnd as (_ & Hd & _). intros Hin. apply (Hd g Hin). left. }
  change (((g, l) :: kf) ≫= group_lines) with (group_lines (g, l) ++ (kf ≫= group_lines)).
  rewrite foldl_app. change (group_lines (g, l)) with (group_line g :: map key_line l). cbn [foldl]. rewrite read_group_line by done.
  rewrite read_key_lines by done. simpl.
  destruct (IH (kf0 ++ [(g, l)]) g) as [g1 Hg1]; [by rewrite <- app_assoc|done|done|].
  exists g1. by rewrite Hg1, <- app_assoc.
Qed.

Lemma group_lines_no_lf kf : key_file_ok kf → Forall (no_char lf) (kf ≫= group_lines).
Proof.
  intros [_ Hn Hk]. induction Hn as [|[g l] kf Hg Hn IH]; [constructor|].
  apply Forall_cons in Hk as [[_ Hl] Hk].
  change (((g, l) :: kf) ≫= group_lines) with (group_lines (g, l) ++ (kf ≫= group_lines)).
  apply Forall_app. split; [|by apply IH]. constructor.
  - unfold group_line. apply no_char_app. split; [done|]. apply no_char_app. split; [|done]. by apply name_no_lf.
  - apply Forall_map. apply Forall_fmap in Hl. eapply Forall_impl; [exact Hl|]. intros [k v] Hkv.
    apply no_char_app. split; [by apply key_no_lf|]. apply no_char_app. split; [done|apply escape_no_lf].
Qed.

#[export] Instance text_key_file_laws : KeyFileLaws.
Proof.
  split.
  - intros s Hne Hs. simpl. unfold group_name. apply andb_true_iff. split; [by destruct s|].
    apply Is_true_true, (sall_impl plain_char); [|by rewrite Hs]. intros c. by destruct c as [[] [] [] [] [] [] [] []].
  - intros kf Hok. exists (to_text kf). split; [done|]. simpl. unfold of_text, to_text.
    rewrite split_text_of by by apply group_lines_no_lf. destruct Hok as [H1 H2 H3].
    destruct (read_groups kf [] "" H1 H2 H3) as [g1 ->]. done.
  - by intros [].
  - intros z Hz. simpl. by rewrite strtol_int by lia.
Qed.
