(* ===== verification/UdevAcl.v ===== *)
(** * The ACLs of devices: [src/tools/udev-acl.c].

    The tool that the seats' hook directory runs when the active session of a
    seat changes, and udev when a device appears: it gives the users of local
    active sessions access to the tagged devices, and takes it away.  Who they
    are it reads from the manager's database file.  The access control lists are
    libacl's, the list of devices is udev's. *)

From S2P Require Import Prelude Scan Database.

(** ** Access control lists *)

Inductive acl_tag :=
  ACL_UNDEFINED_TAG | ACL_USER_OBJ | ACL_USER | ACL_GROUP_OBJ | ACL_GROUP | ACL_MASK | ACL_OTHER.
#[export] Instance acl_tag_eq_dec : EqDecision acl_tag.
Proof. solve_decision. Defined.

(** An entry: its tag, the user or group, the permission bits. *)
Record acl_entry := { e_tag : acl_tag; e_qualifier : Z; e_permset : Z }.
Definition blank_entry : acl_entry := {| e_tag := ACL_UNDEFINED_TAG; e_qualifier := 0; e_permset := 0 |}.
Definition set_e_tag (t : acl_tag) (e : acl_entry) : acl_entry :=
  {| e_tag := t; e_qualifier := e_qualifier e; e_permset := e_permset e |}.
Definition set_e_qualifier (q : Z) (e : acl_entry) : acl_entry :=
  {| e_tag := e_tag e; e_qualifier := q; e_permset := e_permset e |}.
Definition add_e_perm (p : Z) (e : acl_entry) : acl_entry :=
  {| e_tag := e_tag e; e_qualifier := e_qualifier e; e_permset := Z.lor (e_permset e) p |}.
Definition ACL_READ_WRITE : Z := Z.lor 4 2.

(** libacl, on a list in memory and on the files.  [acl_change] stands for the
    calls that set a part of an entry; entries are known by descriptors. *)
Class LibAcl := {
  acl_t : Type;
  acl_files : Type;
  acl_entries : acl_t → gmap nat acl_entry;
  acl_order : acl_t → list nat;
  acl_get_qualifier : acl_t → nat → option Z;
  acl_create_entry : acl_t → option (acl_t * nat);
  acl_change : nat → (acl_entry → acl_entry) → acl_t → acl_t;
  acl_delete_entry : nat → acl_t → acl_t;
  acl_calc_mask : acl_t → acl_t;
  acl_get_file : string → acl_files → option acl_t;
  acl_set_file : string → acl_t → acl_files → option acl_files;
  acl_memory : bool;
  acl_settable : string → bool
}.

Definition acl_values `{LibAcl} (a : acl_t) : list acl_entry := (map_to_list (acl_entries a)).*2.

(** A list the file system takes ([acl_valid] of libacl): at most one entry of a
    kind, the three of the file mode, and a mask. *)
Definition entry_key (e : acl_entry) : acl_tag * Z :=
  (e_tag e, match e_tag e with ACL_USER | ACL_GROUP => e_qualifier e | _ => 0%Z end).
Record acl_base `{LibAcl} (a : acl_t) : Prop := {
  ab_once : ∀ h k e e', acl_entries a !! h = Some e → acl_entries a !! k = Some e' → entry_key e = entry_key e' → h = k;
  ab_tags : ∀ h e, acl_entries a !! h = Some e → e_tag e ≠ ACL_UNDEFINED_TAG;
  ab_mode : ∀ t, t ∈ [ACL_USER_OBJ; ACL_GROUP_OBJ; ACL_OTHER] → ∃ h e, acl_entries a !! h = Some e ∧ e_tag e = t
}.
Definition has_mask `{LibAcl} (a : acl_t) : Prop := ∃ h e, acl_entries a !! h = Some e ∧ e_tag e = ACL_MASK.

(** What the manual pages say: [acl_memory] is that no allocation fails,
    [acl_settable] that the file system takes the list. *)
Class LibAclLaws {HA : LibAcl} := {
  order_law : ∀ a h, h ∈ acl_order a ↔ is_Some (acl_entries a !! h);
  qualifier_law : ∀ a h e q, acl_entries a !! h = Some e → acl_get_qualifier a h = Some q → q = e_qualifier e;
  create_law : ∀ a a' h, acl_create_entry a = Some (a', h) →
    acl_entries a !! h = None ∧ acl_entries a' = <[h := blank_entry]> (acl_entries a);
  change_law : ∀ h f a, acl_entries (acl_change h f a) = alter f h (acl_entries a);
  delete_law : ∀ h a, acl_entries (acl_delete_entry h a) = delete h (acl_entries a);
  mask_keeps_law : ∀ a h e, e_tag e ≠ ACL_MASK → acl_entries (acl_calc_mask a) !! h = Some e ↔ acl_entries a !! h = Some e;
  mask_covers_law : ∀ a h e k m, acl_entries (acl_calc_mask a) !! h = Some e → e_tag e = ACL_USER →
    acl_entries (acl_calc_mask a) !! k = Some m → e_tag m = ACL_MASK → Z.land (e_permset e) (e_permset m) = e_permset e;
  mask_once_law : ∀ a h k e e', acl_entries (acl_calc_mask a) !! h = Some e → acl_entries (acl_calc_mask a) !! k = Some e' →
    e_tag e = ACL_MASK → e_tag e' = ACL_MASK →
    (∀ h k e e', acl_entries a !! h = Some e → acl_entries a !! k = Some e' → e_tag e = ACL_MASK → e_tag e' = ACL_MASK → h = k) →
    h = k;
  mask_there_law : ∀ a, has_mask (acl_calc_mask a);
  get_file_law : ∀ f s a, acl_get_file f s = Some a → acl_base a;
  set_file_law : ∀ f a s s', acl_set_file f a s = Some s' →
    (∃ a', acl_get_file f s' = Some a' ∧ acl_values a' ≡ₚ acl_values a) ∧ ∀ g, g ≠ f → acl_get_file g s' = acl_get_file g s;
  memory_law : acl_memory = true → (∀ a h e, acl_entries a !! h = Some e → e_tag e = ACL_USER → is_Some (acl_get_qualifier a h)) ∧
    ∀ a, is_Some (acl_create_entry a);
  settable_law : ∀ f a s, acl_settable f = true → is_Some (acl_get_file f s) → acl_base a → has_mask a → is_Some (acl_set_file f a s)
}.

Section acl.
Context {HA : LibAcl}.

(** The loop that looks for the ACL_USER entry of [uid]; [None]: an error. *)
Fixpoint locate (a : acl_t) (uid : Z) (l : list nat) : option (option nat) :=
  match l with
  | [] => Some None
  | h :: l =>
      if decide (e_tag <$> acl_entries a !! h = Some ACL_USER) then
        u ← acl_get_qualifier a h;
        if Z.eqb u uid then Some (Some h) else locate a uid l
      else locate a uid l
  end.

(** The label [update]. *)
Definition update_facl (filename : string) (a : acl_t) (s : acl_files) : Z * acl_files :=
  match acl_set_file filename (acl_calc_mask a) s with
  | Some s' => (0%Z, s')
  | None => ((-1)%Z, s)
  end.

Definition create_user_entry (uid : Z) (a : acl_t) : option (acl_t * nat) :=
  '(a, h) ← acl_create_entry a;
  Some (acl_change h (set_e_qualifier uid) (acl_change h (set_e_tag ACL_USER) a), h).

Definition set_facl (filename : string) (uid : Z) (add : bool) (s : acl_files) : Z * acl_files :=
  if Z.eqb uid 0 then (0%Z, s)
  else match acl_get_file filename s with
       | None => ((-1)%Z, s)
       | Some a =>
           match locate a uid (acl_order a) with
           | None => ((-1)%Z, s)
           | Some entry =>
               if negb add then
                 match entry with
                 | None => (0%Z, s)
                 | Some h => update_facl filename (acl_delete_entry h a) s
                 end
               else
                 match (match entry with Some h => Some (a, h) | None => create_user_entry uid a end) with
                 | None => ((-1)%Z, s)
                 | Some (a, h) => update_facl filename (acl_change h (add_e_perm ACL_READ_WRITE) a) s
                 end
           end
       end.
End acl.

(** ** The users of the database file *)

Definition uid_in_list (l : list Z) (uid : Z) : bool := existsb (Z.eqb uid) l.

Section users.
Context {KF : KeyFiles}.

(** The groups in their order; what is found is prepended. *)
Definition session_user (own_id : cstr) (kf : key_file) (l : list Z) (group : string) : list Z :=
  if negb (bool_decide (is_Some (strip_prefix "Session " group))) then l
  else if match own_id with Some id => g_str_has_suffix group id | None => false end then l
  else if negb (g_key_file_get_boolean kf group "is_local") then l
  else if negb (g_key_file_get_boolean kf group "is_active") then l
  else
    let u := u32 (g_key_file_get_integer kf group "uid") in
    if Z.ltb 0 u && negb (uid_in_list l u) then u :: l else l.

(** [None]: the file cannot be loaded. *)
Definition uids_with_local_active_session (own_id : cstr) (database : option key_file) : list Z :=
  match database with
  | None => []
  | Some kf => foldl (session_user own_id kf) [] kf.*1
  end.
End users.

(** ** What ConsoleKit says *)

Inductive acl_action := ACTION_NONE | ACTION_REMOVE | ACTION_ADD | ACTION_CHANGE.

Fixpoint getenv (env : list string) (name : string) : cstr :=
  match env with
  | [] => None
  | e :: env => match strip_prefix (name +:+ "=") e with Some v => Some v | None => getenv env name end
  end.

(** [uid_t u = strtoul (s, NULL, 10)]. *)
Definition parse_uid (s : string) : Z := u32 (strtoul s).1.

Definition is_true (s : string) : bool := String.eqb s "true".

(** [None]: the result is -1.  [Some None]: it is 0, but nothing was stored. *)
Definition consolekit_called (ck_action : cstr) (env : list string) :
    option (option (Z * Z * cstr * acl_action)) :=
  if negb (bool_decide (ck_action = Some "seat_active_session_changed")) then None
  else match getenv env "CK_SEAT_OLD_SESSION_ID", getenv env "CK_SEAT_SESSION_ID" with
  | None, None => None
  | None, Some _ =>
      s ← getenv env "CK_SEAT_SESSION_USER_UID";
      let u := parse_uid s in
      s ← getenv env "CK_SEAT_SESSION_IS_LOCAL";
      Some (if is_true s then Some (u, 0%Z, None, ACTION_ADD) else None)
  | Some _, None =>
      s ← getenv env "CK_SEAT_OLD_SESSION_USER_UID";
      let u := parse_uid s in
      s ← getenv env "CK_SEAT_OLD_SESSION_IS_LOCAL";
      if negb (is_true s) then Some None
      else
        old_session ← getenv env "CK_SEAT_OLD_SESSION_ID";
        Some (Some (u, 0%Z, Some old_session, ACTION_REMOVE))
  | Some _, Some _ =>
      s ← getenv env "CK_SEAT_OLD_SESSION_USER_UID";
      let u := parse_uid s in
      s ← getenv env "CK_SEAT_SESSION_USER_UID";
      let u2 := parse_uid s in
      s ← getenv env "CK_SEAT_OLD_SESSION_IS_LOCAL";
      s2 ← getenv env "CK_SEAT_SESSION_IS_LOCAL";
      if is_true s && is_true s2 then
        old_session ← getenv env "CK_SEAT_OLD_SESSION_ID";
        Some (Some (u, u2, Some old_session, if Z.eqb u u2 then ACTION_NONE else ACTION_CHANGE))
      else if is_true s then
        old_session ← getenv env "CK_SEAT_OLD_SESSION_ID";
        Some (Some (u, u2, Some old_session, ACTION_REMOVE))
      else if is_true s2 then Some (Some (u2, u2, None, ACTION_ADD))
      else Some None
  end.

(** ** The program *)

(** The options as [getopt_long] returns them; one it does not know is ignored. *)
Inductive acl_option := OptAction (arg : string) | OptDevice (arg : string) | OptUser (arg : string)
                      | OptDebug | OptHelp | OptUnknown.

(** The variables of [main] that options set. *)
Record acl_options := { o_action : option acl_action; o_device : cstr; o_uid : option Z }.

(** [None]: the help was printed. *)
Fixpoint read_options (l : list acl_option) (o : acl_options) : option acl_options :=
  match l with
  | [] => Some o
  | OptAction arg :: l =>
      read_options l {| o_action := Some (if String.eqb arg "remove" then ACTION_REMOVE else ACTION_ADD);
                        o_device := o_device o; o_uid := o_uid o |}
  | OptDevice arg :: l => read_options l {| o_action := o_action o; o_device := Some arg; o_uid := o_uid o |}
  | OptUser arg :: l => read_options l {| o_action := o_action o; o_device := o_device o; o_uid := Some (parse_uid arg) |}
  | OptDebug :: l | OptUnknown :: l => read_options l o
  | OptHelp :: _ => None
  end.

Section program.
Context {HA : LibAcl} {KF : KeyFiles}.

(** The tagged devices as udev lists them: one may have gone ([None]) or have no
    node.  The results of [set_facl] are ignored. *)
Definition apply_acl_to_devices (devices : list (option cstr)) (uid : Z) (add : bool) (s : acl_files) : acl_files :=
  foldl (λ s d, match d with Some (Some node) => (set_facl node uid add s).2 | _ => s end) s devices.

Definition remove_uid (devices : list (option cstr)) (database : option key_file) (uid : Z) (remove_session_id : cstr)
    (s : acl_files) : acl_files :=
  let l := uids_with_local_active_session remove_session_id database in
  if negb (uid_in_list l uid) then apply_acl_to_devices devices uid false s else s.

(** The branch for a device. *)
Definition set_device_acls (database : option key_file) (device : string) (action : acl_action) (s : acl_files) : acl_files :=
  let adding := match action with ACTION_ADD => true | _ => false end in
  let l := uids_with_local_active_session None database in
  foldl (λ s u, if adding || negb (uid_in_list l u) then (set_facl device u adding s).2 else s) s l.

(** [main]: the exit status and the files. *)
Definition main (options : list acl_option) (argument : cstr) (env : list string) (devices : list (option cstr))
    (database : option key_file) (s : acl_files) : Z * acl_files :=
  match read_options options {| o_action := None; o_device := None; o_uid := None |} with
  | None => (0%Z, s)
  | Some o =>
      let called :=
        match o_action o, o_device o, o_uid o with
        | None, None, None => consolekit_called argument env
        | _, _, _ => None
        end in
      let '(action, uid, uid2, remove_session_id) :=
        match called with
        | Some (Some (u, u2, old, a)) => (Some a, Some u, u2, old)
        | Some None => (o_action o, Some 0%Z, 0%Z, None)
        | None => (o_action o, o_uid o, 0%Z, None)
        end in
      match action with
      | None => (2%Z, s)
      | Some action =>
          match uid, o_device o with
          | Some _, Some _ => (3%Z, s)
          | Some uid, None =>
              match action with
              | ACTION_ADD => (0%Z, apply_acl_to_devices devices uid true s)
              | ACTION_REMOVE => (0%Z, remove_uid devices database uid remove_session_id s)
              | ACTION_CHANGE =>
                  (0%Z, apply_acl_to_devices devices uid2 true (remove_uid devices database uid remove_session_id s))
              | ACTION_NONE => (0%Z, s)
              end
          | None, Some device => (0%Z, set_device_acls database device action s)
          | None, None => (3%Z, s)
          end
      end
  end.
End program.
