(* ===== verification/UdevAclFacts.v ===== *)
(** * Lemmas about the ACLs of devices.

    What one call of [set_facl] does to the list of a file, what a round over
    the devices does, and whom the database file names. *)

From stdpp Require Import fin_maps.
From S2P Require Import Prelude Scan SessionNew Database DatabaseFacts UdevAcl.

(** ** Lists of files *)

Section acl.
Context {HA : LibAcl} {HAL : LibAclLaws}.
Implicit Types (a : acl_t) (s : acl_files) (e : acl_entry).

Lemma acl_values_elem a e : e ∈ acl_values a ↔ ∃ h, acl_entries a !! h = Some e.
Proof.
  unfold acl_values. rewrite list_elem_of_fmap. split.
  - intros ([h e'] & -> & H%elem_of_map_to_list). eauto.
  - intros [h H]. exists (h, e). split; [done|]. by apply elem_of_map_to_list.
Qed.

(** An entry of a user in the list of a file. *)
Definition user_entry s (f : string) (u p : Z) : Prop :=
  ∃ a, acl_get_file f s = Some a ∧ {| e_tag := ACL_USER; e_qualifier := u; e_permset := p |} ∈ acl_values a.
(** The mask takes nothing of it. *)
Definition unmasked s (f : string) (p : Z) : Prop :=
  ∀ a m, acl_get_file f s = Some a → m ∈ acl_values a → e_tag m = ACL_MASK → Z.land p (e_permset m) = p.
(** The user may read and write. *)
Definition granted s f u : Prop :=
  ∃ p, user_entry s f u p ∧ Z.land p ACL_READ_WRITE = ACL_READ_WRITE ∧ unmasked s f p.

(** Nothing stands in the way of changing the list of the file. *)
Definition workable s f : Prop := acl_memory = true ∧ acl_settable f = true ∧ is_Some (acl_get_file f s).

Lemma values_user a u p : {| e_tag := ACL_USER; e_qualifier := u; e_permset := p |} ∈ acl_values a ↔
  ∃ h e, acl_entries a !! h = Some e ∧ e_tag e = ACL_USER ∧ e_qualifier e = u ∧ e_permset e = p.
Proof.
  rewrite acl_values_elem. split.
  - intros [h H]. by eexists h, _.
  - intros (h & [t q p'] & H & H1 & H2 & H3). simpl in *. subst. by exists h.
Qed.

(** The mask keeps a list valid, or makes it so. *)
Lemma base_masked a : acl_base a → acl_base (acl_calc_mask a).
Proof.
  intros [H1 H2 H3].
  assert (∀ h e, e_tag e ≠ ACL_MASK → acl_entries (acl_calc_mask a) !! h = Some e → acl_entries a !! h = Some e) as Hk.
  { intros h e Hne. by apply mask_keeps_law. }
  split.
  - intros h k e e' He He' Heq. pose proof (f_equal fst Heq) as Ht. simpl in Ht.
    destruct (decide (e_tag e = ACL_MASK)) as [Hm|Hm].
    + eapply (mask_once_law a h k e e'); try done; [congruence|]. intros h0 k0 e0 e0' E0 E0' T0 T0'.
      apply (H1 _ _ _ _ E0 E0'). unfold entry_key. by rewrite T0, T0'.
    + apply (H1 h k e e'); [by apply Hk|apply Hk; [congruence|done]|done].
  - intros h e He Hu. apply (H2 h e); [|done]. apply Hk; [by rewrite Hu|done].
  - intros t Ht. destruct (H3 t Ht) as (h & e & He & Te). exists h, e. split; [|done]. apply mask_keeps_law; [|done].
    rewrite Te. intros ->. repeat (apply elem_of_cons in Ht as [Ht|Ht]; [done|]). by apply elem_of_nil in Ht.
Qed.

Lemma update_spec f a s : workable s f → acl_base a → ∃ s', update_facl f a s = (0%Z, s') ∧
  (∃ a', acl_get_file f s' = Some a' ∧ ∀ e, e ∈ acl_values a' ↔ e ∈ acl_values (acl_calc_mask a)) ∧
  ∀ g, g ≠ f → acl_get_file g s' = acl_get_file g s.
Proof.
  intros (_ & Hset & Hget) Hb. unfold update_facl.
  destruct (settable_law f (acl_calc_mask a) s Hset Hget (base_masked a Hb) (mask_there_law a)) as [s' E].
  rewrite E. exists s'. split; [done|]. destruct (set_file_law _ _ _ _ E) as [(a' & Ha' & Hp) Hg].
  split; [|done]. exists a'. split; [done|]. intros e. by rewrite Hp.
Qed.

(** Users keep their entries, and the mask covers them. *)
Lemma mask_users a u p :
  {| e_tag := ACL_USER; e_qualifier := u; e_permset := p |} ∈ acl_values (acl_calc_mask a) ↔
  {| e_tag := ACL_USER; e_qualifier := u; e_permset := p |} ∈ acl_values a.
Proof. rewrite !acl_values_elem. split; intros [h H]; exists h; by apply mask_keeps_law. Qed.

Lemma update_users f a s : workable s f → acl_base a → ∃ s', update_facl f a s = (0%Z, s') ∧
  (∀ u p, user_entry s' f u p ↔ {| e_tag := ACL_USER; e_qualifier := u; e_permset := p |} ∈ acl_values a) ∧
  (∀ u p, user_entry s' f u p → unmasked s' f p) ∧ is_Some (acl_get_file f s') ∧
  ∀ g, g ≠ f → acl_get_file g s' = acl_get_file g s.
Proof.
  intros Hw Hb. destruct (update_spec f a s Hw Hb) as (s' & E & (a' & Ha' & Hv) & Hg).
  exists s'. split_and!; [done| | |by eexists|done].
  - intros u p. rewrite <- mask_users, <- Hv. unfold user_entry. rewrite Ha'. naive_solver.
  - intros u p (a1 & Ha1 & Hu) a2 m Ha2 Hm Ht. simplify_eq. apply Hv in Hu, Hm.
    apply acl_values_elem in Hu as [h Hu]. apply acl_values_elem in Hm as [k Hm].
    exact (mask_covers_law a h _ k m Hu eq_refl Hm Ht).
Qed.

Lemma locate_spec a uid l : acl_memory = true → (∀ h, h ∈ l → is_Some (acl_entries a !! h)) →
  ∃ r, locate a uid l = Some r ∧
    match r with
    | Some h => ∃ e, acl_entries a !! h = Some e ∧ e_tag e = ACL_USER ∧ e_qualifier e = uid
    | None => ∀ h e, h ∈ l → acl_entries a !! h = Some e → e_tag e = ACL_USER → e_qualifier e ≠ uid
    end.
Proof.
  intros Hmem. induction l as [|h l IH]; intros Hl.
  { exists None. split; [done|]. by intros h e ?%elem_of_nil. }
  destruct IH as (r & Hr & Hs); [intros k Hk; apply Hl; by right|].
  destruct (Hl h ltac:(left)) as [e He]. cbn [locate]. rewrite He. cbn [fmap option_fmap option_map].
  destruct (decide (Some (e_tag e) = Some ACL_USER)) as [Ht|Hne].
  - injection Ht as Ht. destruct (proj1 (memory_law Hmem) a h e He Ht) as [q Hq]. rewrite Hq. simpl.
    pose proof (qualifier_law a h e q He Hq) as ->. destruct (Z.eqb_spec (e_qualifier e) uid) as [Hu|Hu].
    + exists (Some h). split; [done|]. by exists e.
    + exists r. split; [done|]. destruct r; [done|]. intros k e' [->|Hk]%elem_of_cons He'; [by simplify_eq|by eapply Hs].
  - exists r. split; [done|]. destruct r; [done|]. intros k e' [->|Hk]%elem_of_cons He' Ht'; [|by eapply Hs].
    simplify_eq. by rewrite Ht' in Hne.
Qed.

(** The other users' entries and the other files. *)
Record others_kept s s' (f : string) (uid : Z) : Prop := {
  ok_users : ∀ u p, u ≠ uid → user_entry s' f u p ↔ user_entry s f u p;
  ok_mask : ∀ u p, u ≠ uid → user_entry s' f u p → unmasked s f p → unmasked s' f p;
  ok_file : is_Some (acl_get_file f s');
  ok_files : ∀ g, g ≠ f → acl_get_file g s' = acl_get_file g s
}.

Lemma locate_file f s a uid : acl_memory = true → acl_get_file f s = Some a →
  ∃ r, locate a uid (acl_order a) = Some r ∧
    match r with
    | Some h => ∃ e, acl_entries a !! h = Some e ∧ e_tag e = ACL_USER ∧ e_qualifier e = uid ∧
        ∀ k e', acl_entries a !! k = Some e' → e_tag e' = ACL_USER → e_qualifier e' = uid → k = h
    | None => ∀ p, ¬ user_entry s f uid p
    end.
Proof.
  intros Hmem Ha. destruct (locate_spec a uid (acl_order a) Hmem) as (r & Hr & Hs).
  { intros h. apply order_law. }
  exists r. split; [done|]. destruct r as [h|].
  - destruct Hs as (e & He & Ht & Hq). exists e. split_and!; try done. intros k e' He' Ht' Hq'.
    apply (ab_once a (get_file_law f s a Ha) k h e' e He' He). unfold entry_key. by rewrite Ht, Ht', Hq, Hq'.
  - intros p (a' & Ha' & (h & e & He & Ht & Hq & _)%values_user). simplify_eq.
    apply (Hs h e); [apply order_law; by eexists|done|done|done].
Qed.

(** The entries of a list after one of them changed or went. *)
Lemma user_alter a h f u p : {| e_tag := ACL_USER; e_qualifier := u; e_permset := p |} ∈ acl_values (acl_change h f a) ↔
  ∃ k e, acl_entries a !! k = Some e ∧ (if decide (k = h) then f e else e) = {| e_tag := ACL_USER; e_qualifier := u; e_permset := p |}.
Proof.
  rewrite acl_values_elem. split.
  - intros [k H]. rewrite change_law in H. destruct (decide (k = h)) as [->|Hne].
    + rewrite lookup_alter_eq in H. apply fmap_Some in H as (e & He & ->). exists h, e. by rewrite decide_True.
    + rewrite lookup_alter_ne in H by done. eexists k, _. split; [done|]. by rewrite decide_False.
  - intros (k & e & He & Hf). exists k. rewrite change_law. destruct (decide (k = h)) as [->|Hne].
    + by rewrite lookup_alter_eq, He, <- Hf.
    + by rewrite lookup_alter_ne, He, Hf.
Qed.

(** The outcome of a change that touches the entries of one user only. *)
Lemma update_others f a0 a s uid : workable s f → acl_get_file f s = Some a0 → acl_base a →
  (∀ u p, u ≠ uid → {| e_tag := ACL_USER; e_qualifier := u; e_permset := p |} ∈ acl_values a ↔
     {| e_tag := ACL_USER; e_qualifier := u; e_permset := p |} ∈ acl_values a0) →
  ∃ s', update_facl f a s = (0%Z, s') ∧ others_kept s s' f uid ∧
    (∀ p, user_entry s' f uid p ↔ {| e_tag := ACL_USER; e_qualifier := uid; e_permset := p |} ∈ acl_values a) ∧
    ∀ u p, user_entry s' f u p → unmasked s' f p.
Proof.
  intros Hw Ha0 Hb Ho. destruct (update_users f a s Hw Hb) as (s' & E & H1 & H2 & H3 & H4). exists s'.
  split_and!; [done| |intros p; by apply H1|done]. split; try done.
  - intros u p Hne. rewrite H1, Ho by done. unfold user_entry. rewrite Ha0. naive_solver.
  - intros u p Hne Hu _. by apply (H2 u).
Qed.

Lemma rw_added p : Z.land (Z.lor p ACL_READ_WRITE) ACL_READ_WRITE = ACL_READ_WRITE.
Proof. apply Z.bits_inj'. intros i _. rewrite Z.land_spec, Z.lor_spec. by destruct (Z.testbit p i), (Z.testbit ACL_READ_WRITE i). Qed.

Lemma base_add_perm a h p : acl_base a → acl_base (acl_change h (add_e_perm p) a).
Proof.
  intros [H1 H2 H3].
  assert (∀ k e, acl_entries (acl_change h (add_e_perm p) a) !! k = Some e →
    ∃ e0, acl_entries a !! k = Some e0 ∧ entry_key e0 = entry_key e ∧ e_tag e0 = e_tag e) as Hk.
  { intros k e He. rewrite change_law in He. destruct (decide (k = h)) as [->|Hne].
    - rewrite lookup_alter_eq in He. apply fmap_Some in He as (e0 & He0 & ->). by exists e0.
    - rewrite lookup_alter_ne in He by done. by exists e. }
  split.
  - intros k k' e e' (e0 & E0 & K0 & _)%Hk (e1 & E1 & K1 & _)%Hk Heq. apply (H1 k k' e0 e1); congruence.
  - intros k e (e0 & E0 & _ & <-)%Hk. by apply (H2 k).
  - intros t Ht. destruct (H3 t Ht) as (k & e & He & Te). destruct (decide (k = h)) as [->|Hne].
    + exists h, (add_e_perm p e). split; [|done]. by rewrite change_law, lookup_alter_eq, He.
    + exists k, e. split; [|done]. by rewrite change_law, lookup_alter_ne.
Qed.

Lemma add_to_entry f a0 a h e s uid : workable s f → acl_get_file f s = Some a0 → acl_base a → acl_entries a !! h = Some e →
  e_tag e = ACL_USER → e_qualifier e = uid →
  (∀ k e', acl_entries a !! k = Some e' → e_tag e' = ACL_USER → e_qualifier e' = uid → k = h) →
  (∀ k e', k ≠ h → acl_entries a !! k = Some e' ↔ acl_entries a0 !! k = Some e') →
  (∀ e', acl_entries a0 !! h = Some e' → e_tag e' = ACL_USER → e_qualifier e' = uid) →
  ∃ s', update_facl f (acl_change h (add_e_perm ACL_READ_WRITE) a) s = (0%Z, s') ∧ others_kept s s' f uid ∧ granted s' f uid.
Proof.
  intros Hw Ha0 Hb He Ht Hq Huniq Hsame H0. set (f' := add_e_perm ACL_READ_WRITE).
  destruct (update_others f a0 (acl_change h f' a) s uid Hw Ha0) as (s' & E & Ho & Hu & Hm); [by apply base_add_perm| |].
  { intros u p Hne. rewrite user_alter, acl_values_elem. split.
    - intros (k & e' & He' & Hf). destruct (decide (k = h)) as [->|Hk].
      + unfold f', add_e_perm in Hf. by simplify_eq.
      + exists k. apply Hsame; [done|]. by rewrite <- Hf.
    - intros [k Hk]. destruct (decide (k = h)) as [->|Hkh].
      + exfalso. apply Hne. by apply (H0 _ Hk).
      + eexists k, _. split; [by apply Hsame|]. by rewrite decide_False. }
  exists s'. split_and!; [done|done|]. set (p := Z.lor (e_permset e) ACL_READ_WRITE).
  assert (user_entry s' f uid p) as Hp.
  { apply Hu, user_alter. exists h, e. split; [done|]. rewrite decide_True by done. unfold f', add_e_perm. by rewrite Ht, Hq. }
  exists p. split_and!; [done|apply rw_added|by apply (Hm uid)].
Qed.

(** Adding: the user is granted, whatever there was; nothing else changes. *)
Lemma set_facl_add f uid s : uid ≠ 0%Z → workable s f →
  ∃ s', set_facl f uid true s = (0%Z, s') ∧ others_kept s s' f uid ∧ granted s' f uid.
Proof.
  intros Hne Hw. pose proof Hw as (Hmem & _ & [a Ha]). unfold set_facl.
  rewrite (proj2 (Z.eqb_neq uid 0) Hne), Ha. destruct (locate_file f s a uid Hmem Ha) as (r & -> & Hr). simpl.
  pose proof (get_file_law f s a Ha) as Hb. destruct r as [h|].
  - destruct Hr as (e & He & Ht & Hq & Hu). apply (add_to_entry f a a h e); try done. intros e' He' _. by simplify_eq.
  - unfold create_user_entry. destruct (proj2 (memory_law Hmem) a) as [[a1 h] Hc]. rewrite Hc. simpl.
    destruct (create_law _ _ _ Hc) as [Hnone Hent]. set (a2 := acl_change h (set_e_qualifier uid) _).
    assert (acl_entries a2 = <[h := {| e_tag := ACL_USER; e_qualifier := uid; e_permset := 0 |}]> (acl_entries a)) as E2.
    { unfold a2. rewrite !change_law, Hent. by rewrite !alter_insert_eq. }
    apply (add_to_entry f a a2 h {| e_tag := ACL_USER; e_qualifier := uid; e_permset := 0 |}); try done.
    + destruct Hb as [B1 B2 B3]. split; rewrite E2.
      * assert (∀ k e, acl_entries a !! k = Some e → entry_key e ≠ (ACL_USER, uid)) as Hno.
        { intros k e He Hk. unfold entry_key in Hk. injection Hk as Tk Qk. rewrite Tk in Qk.
          apply (Hr (e_permset e)). exists a. split; [done|]. apply values_user. by exists k, e. }
        intros k k' e e' [[<- <-]|[_ Hk]]%lookup_insert_Some [[<- <-]|[_ Hk']]%lookup_insert_Some Heq; try done.
        -- by destruct (Hno _ _ Hk').
        -- by destruct (Hno _ _ Hk).
        -- by apply (B1 k k' e e').
      * intros k e [[<- <-]|[_ Hk]]%lookup_insert_Some; [done|by apply (B2 k)].
      * intros t Htt. destruct (B3 t Htt) as (k & e & He & Te). exists k, e. split; [|done].
        rewrite lookup_insert_ne; [done|]. intros <-. congruence.
    + by rewrite E2, lookup_insert_eq.
    + intros k e' He' Ht' Hq'. destruct (decide (k = h)) as [->|Hk]; [done|]. rewrite E2, lookup_insert_ne in He' by done.
      exfalso. apply (Hr (e_permset e')). exists a. split; [done|]. apply values_user. by exists k, e'.
    + intros k e' Hk. by rewrite E2, lookup_insert_ne.
    + intros e' He'. congruence.
Qed.

(** Removing: no entry of the user is left; nothing else changes. *)
Lemma set_facl_remove f uid s : uid ≠ 0%Z → workable s f →
  ∃ s', set_facl f uid false s = (0%Z, s') ∧ others_kept s s' f uid ∧ ∀ p, ¬ user_entry s' f uid p.
Proof.
  intros Hne Hw. pose proof Hw as (Hmem & _ & [a Ha]). unfold set_facl.
  rewrite (proj2 (Z.eqb_neq uid 0) Hne), Ha. destruct (locate_file f s a uid Hmem Ha) as (r & -> & Hr). simpl.
  destruct r as [h|]; [|exists s; split_and!; [done| |done]; split; [done|done|by eexists|done]].
  destruct Hr as (e & He & Ht & Hq & Hu).
  assert (∀ u p, {| e_tag := ACL_USER; e_qualifier := u; e_permset := p |} ∈ acl_values (acl_delete_entry h a) ↔
    u ≠ uid ∧ {| e_tag := ACL_USER; e_qualifier := u; e_permset := p |} ∈ acl_values a) as Hd.
  { intros u p. rewrite !acl_values_elem. split.
    - intros [k Hk]. rewrite delete_law in Hk. apply lookup_delete_Some in Hk as [Hkh Hk].
      split; [|eauto]. intros ->. apply Hkh. symmetry. by apply (Hu k _ Hk).
    - intros [Hne' [k Hk]]. exists k. rewrite delete_law, lookup_delete_ne; [done|]. intros <-. by simplify_eq. }
  destruct (update_others f a (acl_delete_entry h a) s uid Hw Ha) as (s' & E & Ho & Hu' & _).
  { destruct (get_file_law f s a Ha) as [B1 B2 B3]. split; rewrite delete_law.
    - intros k k' e1 e2 [_ H1]%lookup_delete_Some [_ H2]%lookup_delete_Some. by apply B1.
    - intros k e1 [_ H1]%lookup_delete_Some. by apply (B2 k).
    - intros t Htt. destruct (B3 t Htt) as (k & e1 & H1 & T1). exists k, e1. split; [|done].
      rewrite lookup_delete_ne; [done|]. intros <-. simplify_eq. rewrite Ht in Htt.
      repeat (apply elem_of_cons in Htt as [Htt|Htt]; [done|]). by apply elem_of_nil in Htt. }
  { intros u p Hne'. rewrite Hd. tauto. }
  exists s'. split_and!; [done|done|]. intros p [Hx _]%Hu'%Hd. done.
Qed.

(** ** All the devices *)

Lemma same_file s s' f u : acl_get_file f s' = acl_get_file f s →
  (∀ p, user_entry s' f u p ↔ user_entry s f u p) ∧ (granted s' f u ↔ granted s f u).
Proof. intros E. unfold granted, user_entry, unmasked. by rewrite E. Qed.
Lemma others_granted s s' f uid u : others_kept s s' f uid → u ≠ uid → granted s f u → granted s' f u.
Proof.
  intros [H1 H2 _ _] Hne (p & Hp & Hrw & Hm). exists p. assert (user_entry s' f u p) by by apply H1. eauto.
Qed.

(** The users with access to a file are those of [U]; root does not count. *)
Definition holds_acls s f (U : Z → Prop) : Prop :=
  ∀ u, u ≠ 0%Z → (U u → granted s f u) ∧ (¬ U u → ∀ p, ¬ user_entry s f u p).
Lemma holds_ext s f (U U' : Z → Prop) : (∀ u, u ≠ 0%Z → U u ↔ U' u) → holds_acls s f U → holds_acls s f U'.
Proof. intros E H u Hu. rewrite <- (E u Hu). by apply H. Qed.
Lemma holds_same s s' f U : acl_get_file f s' = acl_get_file f s → holds_acls s f U → holds_acls s' f U.
Proof. intros E H u Hu. destruct (same_file s s' f u E) as [H1 H2]. rewrite H2. setoid_rewrite H1. by apply H. Qed.

Definition changed (add : bool) (uid : Z) (U : Z → Prop) (u : Z) : Prop :=
  if add then u = uid ∨ U u else u ≠ uid ∧ U u.

Lemma set_facl_holds f uid add s U : workable s f →
  let s' := (set_facl f uid add s).2 in
  workable s' f ∧ (∀ g, g ≠ f → acl_get_file g s' = acl_get_file g s) ∧
  (holds_acls s f U → holds_acls s' f (changed add uid U)).
Proof.
  intros Hw. destruct (decide (uid = 0%Z)) as [->|Hne].
  { split_and!; [done|done|]. apply holds_ext. intros u Hu. unfold changed. destruct add; naive_solver. }
  assert (∃ s', set_facl f uid add s = (0%Z, s') ∧ others_kept s s' f uid ∧
    if add then granted s' f uid else ∀ p, ¬ user_entry s' f uid p) as (s' & -> & Ho & Hu).
  { destruct add; [by apply set_facl_add|by apply set_facl_remove]. }
  simpl. pose proof Ho as [H1 _ H3 H4]. destruct Hw as (Hm & Hs & _). split_and!; [by split_and!|done|].
  intros HU u Hu0. unfold changed. destruct (decide (u = uid)) as [->|Hu1].
  - destruct add; (split; [intros Hc|intros Hc p]); try done.
    + exfalso. apply Hc. by left.
    + by destruct Hc.
  - destruct (HU u Hu0) as [K1 K2]. split.
    + intros Hc. apply (others_granted s s' f uid); [done|done|]. apply K1. destruct add; naive_solver.
    + intros Hc p. rewrite H1 by done. apply K2. intros HUu. apply Hc. destruct add; naive_solver.
Qed.

(** The nodes of the devices udev lists. *)
Definition nodes (devices : list (option cstr)) : list string := omap (λ d : option cstr, mjoin d) devices.

Lemma apply_acl_step d devices uid add s : apply_acl_to_devices (d :: devices) uid add s =
  apply_acl_to_devices devices uid add (match d with Some (Some node) => (set_facl node uid add s).2 | _ => s end).
Proof. done. Qed.

Lemma changed_twice s f add uid U : holds_acls s f (changed add uid (changed add uid U)) → holds_acls s f (changed add uid U).
Proof. apply holds_ext. intros u _. unfold changed. destruct add; naive_solver. Qed.

Lemma apply_acl_holds devices uid add s U : (∀ f, f ∈ nodes devices → workable s f) →
  let s' := apply_acl_to_devices devices uid add s in
  (∀ f, workable s f → workable s' f) ∧ (∀ f, f ∉ nodes devices → acl_get_file f s' = acl_get_file f s) ∧
  ∀ f, f ∈ nodes devices → holds_acls s f U ∨ holds_acls s f (changed add uid U) → holds_acls s' f (changed add uid U).
Proof.
  revert s. induction devices as [|d devices IH]; intros s Hw; [by split_and!; try done; intros f ?%elem_of_nil|].
  rewrite apply_acl_step. destruct d as [[node|]|]; [|by apply IH..].
  change (nodes (Some (Some node) :: devices)) with (node :: nodes devices) in *.
  destruct (set_facl_holds node uid add s U) as (H1 & H2 & H3); [apply Hw; left|].
  destruct (set_facl_holds node uid add s (changed add uid U)) as (_ & _ & H3'); [apply Hw; left|].
  set (s1 := (set_facl node uid add s).2) in *.
  assert (∀ f, workable s f → workable s1 f) as Hw1.
  { intros f (Hm & Hs & Hg). destruct (decide (f = node)) as [->|Hne]; [done|]. split_and!; [done|done|]. by rewrite H2. }
  destruct (IH s1) as (K1 & K2 & K3); [intros f Hf; apply Hw1, Hw; by right|]. split_and!.
  - intros f Hf. by apply K1, Hw1.
  - intros f [Hne Hf]%not_elem_of_cons. by rewrite K2, H2.
  - intros f Hf HU. destruct (decide (f = node)) as [->|Hne].
    + assert (holds_acls s1 node (changed add uid U)) as Hn.
      { destruct HU as [HU|HU]; [by apply H3|by apply changed_twice, H3']. }
      destruct (decide (node ∈ nodes devices)) as [Hin|Hout]; [by apply K3; [|right]|].
      eapply holds_same; [by apply K2|done].
    + apply elem_of_cons in Hf as [Hf|Hf]; [done|]. apply K3; [done|].
      destruct HU as [HU|HU]; [left|right]; by (eapply holds_same; [apply H2|]).
Qed.
End acl.

(** ** The users of the database *)

Lemma uid_in_list_elem l u : uid_in_list l u = true ↔ u ∈ l.
Proof.
  unfold uid_in_list. rewrite existsb_exists. split.
  - intros (x & Hx & ->%Z.eqb_eq). by apply list_elem_of_In.
  - intros H. exists u. split; [by apply list_elem_of_In|apply Z.eqb_refl].
Qed.

Section users.
Context {KF : KeyFiles}.
Implicit Types kf : key_file.

(** The group of another session, which is local and active and [u]'s. *)
Definition names_user (own_id : cstr) kf (g : string) (u : Z) : Prop :=
  session_group g ∧ (∀ id, own_id = Some id → g_str_has_suffix g id = false) ∧
  g_key_file_get_boolean kf g "is_local" = true ∧ g_key_file_get_boolean kf g "is_active" = true ∧
  u = u32 (g_key_file_get_integer kf g "uid") ∧ (0 < u)%Z.

Lemma session_user_elem own_id kf l g u : u ∈ session_user own_id kf l g ↔ u ∈ l ∨ names_user own_id kf g u.
Proof.
  unfold session_user, names_user. set (v := u32 _).
  destruct (bool_decide_reflect (is_Some (strip_prefix "Session " g))) as [Hs|Hs]; simpl; [|tauto].
  assert ((∀ id, own_id = Some id → g_str_has_suffix g id = false) ↔
    match own_id with Some id => g_str_has_suffix g id | None => false end = false) as ->.
  { destruct own_id as [id|]; [|by split]. split; [by intros H; apply H|]. by intros H ? [= <-]. }
  destruct (match own_id with Some id => _ | None => _ end); [naive_solver|].
  destruct (g_key_file_get_boolean kf g "is_local"); simpl; [|naive_solver].
  destruct (g_key_file_get_boolean kf g "is_active"); simpl; [|naive_solver].
  destruct (Z.ltb_spec 0 v) as [Hv|Hv]; simpl; [|naive_solver lia].
  destruct (uid_in_list l v) eqn:E; simpl.
  - apply uid_in_list_elem in E. naive_solver.
  - rewrite elem_of_cons. naive_solver.
Qed.

Lemma uids_elem own_id kf u : u ∈ uids_with_local_active_session own_id (Some kf) ↔
  ∃ g, g ∈ kf.*1 ∧ names_user own_id kf g u.
Proof.
  unfold uids_with_local_active_session.
  assert (∀ gs l, u ∈ foldl (session_user own_id kf) l gs ↔ u ∈ l ∨ ∃ g, g ∈ gs ∧ names_user own_id kf g u) as H.
  { induction gs as [|g gs IH]; intros l; simpl.
    - split; [by left|]. intros [H|(g & H%elem_of_nil & _)]; done.
    - rewrite IH, session_user_elem. setoid_rewrite elem_of_cons. naive_solver. }
  rewrite H, elem_of_nil. naive_solver.
Qed.
End users.

(** No session's name ends with the name of another. *)
Lemma suffix_cons c s t : g_str_has_suffix (String c s) t = String.eqb (String c s) t || g_str_has_suffix s t.
Proof. done. Qed.
Lemma no_suffix_skip c s t : c ≠ "S"%char → g_str_has_suffix (String c s) (String "S" t) = g_str_has_suffix s (String "S" t).
Proof.
  intros Hc. rewrite suffix_cons. destruct (String.eqb_spec (String c s) (String "S" t)) as [E|]; [|done].
  injection E as ? _. done.
Qed.
Lemma digits_no_suffix d t : sall is_digit d → g_str_has_suffix d (String "S" t) = false.
Proof.
  induction d as [|c d IH]; [done|]. intros [Hc Hd]%andb_True. rewrite no_suffix_skip by by intros ->. by apply IH.
Qed.
Lemma session_suffix d d' : sall is_digit d → sall is_digit d' →
  g_str_has_suffix ("Session " +:+ ("Session" +:+ d)) ("Session" +:+ d') = bool_decide (d = d').
Proof.
  intros Hd Hd'. rewrite !sapp_cons, !sapp_nil_l. rewrite suffix_cons.
  match goal with |- String.eqb ?a ?b || ?x = _ => assert (String.eqb a b = false) as -> end.
  { apply String.eqb_neq. intros E. injection E as E. by rewrite <- E in Hd'. }
  rewrite orb_false_l. do 7 (rewrite no_suffix_skip by done). rewrite suffix_cons.
  do 6 (rewrite no_suffix_skip by done). rewrite digits_no_suffix by done. rewrite orb_false_r.
  destruct (bool_decide_reflect (d = d')) as [->|Hne]; [apply String.eqb_refl|].
  apply String.eqb_neq. intros E. injection E as E. done.
Qed.
