(* ===== verification/UdevAclPolicy.v ===== *)
(** * Who may use the devices.

    The environment that a seat gives its hook programs tells the tool which
    session became active; the database file tells it who else is; the lists of
    the devices follow the sessions. *)

From S2P Require Import Prelude Scan Session Seat SeatFacts SeatActivation Hooks Power Manager ManagerIds.
From S2P Require Import ManagerFacts ManagerOps ManagerLogins Database DatabaseFacts UdevAcl UdevAclFacts.

(** ** The environment *)

Lemma strip_prefix_both p n s : strip_prefix (p +:+ n) (p +:+ s) = strip_prefix n s.
Proof. induction p as [|c p IH]; [done|]. rewrite !sapp_cons. simpl. by rewrite ascii_eqb_refl. Qed.
Lemma strip_prefix_longer p n s : strip_prefix p s = None → strip_prefix (p +:+ n) s = None.
Proof.
  revert s. induction p as [|c p IH]; intros s; [done|]. rewrite sapp_cons. destruct s as [|d s]; [done|]. simpl.
  destruct (ascii_eqb c d); [apply IH|done].
Qed.
Lemma getenv_app env env' name : getenv (env ++ env') name =
  match getenv env name with Some v => Some v | None => getenv env' name end.
Proof. induction env as [|e env IH]; [done|]. simpl. by destruct (strip_prefix _ e). Qed.
Lemma getenv_none env name : Forall (λ e, strip_prefix (name +:+ "=") e = None) env → getenv env name = None.
Proof. induction 1 as [|e env He _ IH]; [done|]. simpl. by rewrite He. Qed.

Section env.
Context {W : Type} {HO : SessionOps W}.
Implicit Types x : W.

(** A variable is set unless its value is empty. *)
Definition variable (v : cstr) : cstr := match v with None | Some "" => None | Some s => Some s end.

Lemma getenv_same prefix name v : getenv (env_string prefix name v) (prefix +:+ name) = variable v.
Proof.
  destruct v as [[|c s]|]; [done| |done]. cbn [env_string getenv]. rewrite sapp_assoc, strip_prefix_both.
  by rewrite strip_prefix_both, strip_prefix_app.
Qed.
Lemma getenv_other prefix name name' v : (∀ s, strip_prefix (name +:+ "=") (name' +:+ "=" +:+ s) = None) →
  getenv (env_string prefix name' v) (prefix +:+ name) = None.
Proof.
  intros H. destruct v as [[|c s]|]; [done| |done]. cbn [env_string getenv].
  by rewrite sapp_assoc, strip_prefix_both, H.
Qed.

(** What the tool asks for. *)
Lemma session_env_get x s prefix :
  let env := session_env x (Some s) prefix in
  getenv env (prefix +:+ "ID") = variable (session_id s x) ∧
  getenv env (prefix +:+ "USER_UID") = Some (fmt_unsigned (u32 (session_get P_unix_user s x))) ∧
  getenv env (prefix +:+ "IS_LOCAL") = Some (if session_get P_is_local s x then "true" else "false").
Proof.
  intros env. unfold env, session_env. split_and!; rewrite !getenv_app.
  - rewrite getenv_same. destruct (variable (session_id s x)); [done|].
    rewrite !(getenv_other prefix "ID") by done. cbn [getenv]. by rewrite !sapp_assoc, !strip_prefix_both.
  - rewrite !(getenv_other prefix "USER_UID") by done. cbn [getenv]. by rewrite !sapp_assoc, !strip_prefix_both, strip_prefix_app.
  - rewrite !(getenv_other prefix "IS_LOCAL") by done. cbn [getenv].
    by rewrite !sapp_assoc, !strip_prefix_both, strip_prefix_app.
Qed.
Lemma session_env_prefix x s prefix : Forall (λ e, ∃ t, e = prefix +:+ t) (session_env x s prefix).
Proof.
  destruct s as [s|]; [|done]. unfold session_env.
  assert (∀ name v, Forall (λ e, ∃ t, e = prefix +:+ t) (env_string prefix name v)) as H.
  { intros name [[|c v]|]; simpl; repeat constructor. eauto. }
  repeat (apply Forall_app; split); try apply H; repeat constructor; eauto.
Qed.
Lemma other_session x s prefix name : (∀ t, strip_prefix (name +:+ "=") (prefix +:+ t) = None) →
  getenv (session_env x s prefix) name = None.
Proof.
  intros H. apply getenv_none. eapply Forall_impl; [apply (session_env_prefix x s prefix)|]. intros e [t ->]. apply H.
Qed.

(** The hook's environment: the daemon's own, then the seat's. *)
Definition hook_env (environ : list string) (sid : string) x (old new : option positive) : list string :=
  environ ++ ["CK_SEAT_ID=" +:+ sid] ++ session_env x old "CK_SEAT_OLD_SESSION_" ++ session_env x new "CK_SEAT_SESSION_".
(** The daemon's own has no variables of seats. *)
Definition environ_ok (environ : list string) : Prop := Forall (λ e, strip_prefix "CK_SEAT_" e = None) environ.

Lemma hook_env_old environ sid x old new name : environ_ok environ →
  getenv (hook_env environ sid x old new) ("CK_SEAT_OLD_SESSION_" +:+ name) =
  getenv (session_env x old "CK_SEAT_OLD_SESSION_") ("CK_SEAT_OLD_SESSION_" +:+ name).
Proof.
  intros He. unfold hook_env. rewrite !getenv_app, (getenv_none environ).
  - rewrite (getenv_none [_]) by by repeat constructor.
    rewrite (other_session x new) by done. by destruct (getenv _ _).
  - eapply Forall_impl; [exact He|]. intros e E. by apply (strip_prefix_longer "CK_SEAT_" ("OLD_SESSION_" +:+ name +:+ "=")).
Qed.
Lemma hook_env_new environ sid x old new name : environ_ok environ →
  getenv (hook_env environ sid x old new) ("CK_SEAT_SESSION_" +:+ name) =
  getenv (session_env x new "CK_SEAT_SESSION_") ("CK_SEAT_SESSION_" +:+ name).
Proof.
  intros He. unfold hook_env. rewrite !getenv_app, (getenv_none environ).
  - rewrite (getenv_none [_]) by by repeat constructor. by rewrite (other_session x old).
  - eapply Forall_impl; [exact He|]. intros e E. by apply (strip_prefix_longer "CK_SEAT_" ("SESSION_" +:+ name +:+ "=")).
Qed.
End env.

(** ** The decision *)

Section decision.
Context {W : Type} {HO : SessionOps W}.
Implicit Types x : W.

Definition user_of x (s : positive) : Z := u32 (session_get P_unix_user s x).
Definition is_local x (s : positive) : bool := session_get P_is_local s x.

Lemma parse_uid_fmt z : parse_uid (fmt_unsigned (u32 z)) = u32 z.
Proof.
  unfold parse_uid, strtoul. rewrite <- (sapp_nil_r (fmt_unsigned _)).
  rewrite scan_unsigned_digits by (try apply fmt_unsigned_digits; try apply fmt_unsigned_nonempty; done).
  pose proof (u32_range z). cbn [fst]. rewrite strtoul_value_fmt by lia. by apply u32_small.
Qed.

Lemma parse_user x s : parse_uid (fmt_unsigned (user_of x s)) = user_of x s.
Proof. apply parse_uid_fmt. Qed.

(** What the tool makes of a change of the active session. *)
Definition decision x (old new : option positive) : option (option (Z * Z * cstr * acl_action)) :=
  match old, new with
  | None, None => None
  | None, Some n => Some (if is_local x n then Some (user_of x n, 0%Z, None, ACTION_ADD) else None)
  | Some o, None => Some (if is_local x o then Some (user_of x o, 0%Z, session_id o x, ACTION_REMOVE) else None)
  | Some o, Some n =>
      Some (match is_local x o, is_local x n with
            | true, true => Some (user_of x o, user_of x n, session_id o x,
                                  if Z.eqb (user_of x o) (user_of x n) then ACTION_NONE else ACTION_CHANGE)
            | true, false => Some (user_of x o, user_of x n, session_id o x, ACTION_REMOVE)
            | false, true => Some (user_of x n, user_of x n, None, ACTION_ADD)
            | false, false => None
            end)
  end.

Definition named x (o : option positive) : Prop := ∀ s, o = Some s → ∃ id, session_id s x = Some id ∧ id ≠ "".

Lemma session_vars x s prefix : named x (Some s) →
  let env := session_env x (Some s) prefix in
  getenv env (prefix +:+ "ID") = session_id s x ∧ is_Some (session_id s x) ∧
  getenv env (prefix +:+ "USER_UID") = Some (fmt_unsigned (user_of x s)) ∧
  getenv env (prefix +:+ "IS_LOCAL") = Some (if is_local x s then "true" else "false").
Proof.
  intros Hn env. destruct (session_env_get x s prefix) as (H1 & H2 & H3). destruct (Hn s eq_refl) as (id & E & Hne).
  split_and!; [|by rewrite E|done|done]. unfold env. rewrite H1, E. by destruct id.
Qed.
Lemma is_true_bool (b : bool) : is_true (if b then "true" else "false") = b.
Proof. by destruct b. Qed.

Lemma called_exact environ sid x old new : environ_ok environ → named x old → named x new →
  consolekit_called (Some "seat_active_session_changed") (hook_env environ sid x old new) = decision x old new.
Proof.
  intros He Ho Hn. unfold consolekit_called. rewrite bool_decide_eq_true_2 by done. cbn [negb].
  set (env := hook_env environ sid x old new).
  assert (∀ n, getenv env ("CK_SEAT_OLD_SESSION_" +:+ n) =
    getenv (session_env x old "CK_SEAT_OLD_SESSION_") ("CK_SEAT_OLD_SESSION_" +:+ n)) as H1 by (intros; by apply hook_env_old).
  assert (∀ n, getenv env ("CK_SEAT_SESSION_" +:+ n) =
    getenv (session_env x new "CK_SEAT_SESSION_") ("CK_SEAT_SESSION_" +:+ n)) as H2 by (intros; by apply hook_env_new).
  pose proof (H1 "ID") as O1. pose proof (H1 "USER_UID") as O2. pose proof (H1 "IS_LOCAL") as O3.
  pose proof (H2 "ID") as N1. pose proof (H2 "USER_UID") as N2. pose proof (H2 "IS_LOCAL") as N3.
  clearbody env. clear H1 H2. cbv [String.append] in O1, O2, O3, N1, N2, N3. rewrite O1, O2, O3, N1, N2, N3.
  destruct old as [o|].
  - destruct (session_vars x o "CK_SEAT_OLD_SESSION_" Ho) as (V1 & [oid V0] & V2 & V3). cbv [String.append] in V1, V2, V3.
    rewrite V1, V2, V3, V0. destruct new as [n|].
    + destruct (session_vars x n "CK_SEAT_SESSION_" Hn) as (U1 & [nid U0] & U2 & U3). cbv [String.append] in U1, U2, U3.
      rewrite U1, U2, U3, U0. cbn [mbind option_bind decision]. rewrite !is_true_bool.
      rewrite !parse_user, V0. by destruct (is_local x o), (is_local x n).
    + cbn. rewrite is_true_bool. rewrite parse_user, V0. by destruct (is_local x o).
  - destruct new as [n|]; [|done].
    destruct (session_vars x n "CK_SEAT_SESSION_" Hn) as (U1 & [nid U0] & U2 & U3). cbv [String.append] in U1, U2, U3.
    rewrite U1, U2, U3, U0. cbn. rewrite is_true_bool. by rewrite parse_user.
Qed.
End decision.

(** ** The users of local active sessions *)

Section users.
Context {W : Type} {HO : SessionOps W} {HM : ManagedSessions W} {KF : KeyFiles}.
Implicit Types (r : registry W) (kf : key_file).

Definition session_name (id : string) : Prop := ∃ d, id = "Session" +:+ d ∧ sall is_digit d.
Definition names_ok r : Prop := ∀ id s, m_sessions r !! id = Some s → session_name id ∧ session_id s (m_sess r) = Some id.

(** A local session of the table that is marked active, and whose it is. *)
Definition active_user r (id : string) (s : positive) (u : Z) : Prop :=
  m_sessions r !! id = Some s ∧ is_local (m_sess r) s = true ∧ session_get P_active s (m_sess r) = true ∧
  u = user_of (m_sess r) s.

Lemma get_boolean_group kf g k : g_key_file_get_boolean kf g k = true → g ∈ kf.*1.
Proof.
  unfold g_key_file_get_boolean, key_file_value. intros H. apply find_group_elem.
  destruct (find_group g kf); [by eexists|done].
Qed.

Lemma database_users r kf own u : names_ok r → reads_sessions r kf → (∀ o, own = Some o → session_name o) →
  u ∈ uids_with_local_active_session own (Some kf) ↔ (0 < u)%Z ∧ ∃ id s, own ≠ Some id ∧ active_user r id s u.
Proof.
  intros Hn Hr Ho. rewrite uids_elem. split.
  - intros (g & Hg & (id & Hid) & Hsuf & Hl & Ha & Hu & Hpos). split; [done|].
    apply strip_prefix_Some in Hid as ->. specialize (Hr id). destruct (m_sessions r !! id) as [s|] eqn:E.
    + destruct Hr as (R1 & R2 & R3). exists id, s. split.
      * intros ->. destruct (Ho id eq_refl) as (d & -> & Hd). pose proof (Hsuf _ eq_refl) as Hf.
        rewrite session_suffix in Hf by done. by rewrite bool_decide_eq_true_2 in Hf.
      * split_and!; [done|unfold is_local; by rewrite <- R3|by rewrite <- R2|]. rewrite Hu, R1. unfold user_of. apply u32_i32.
    + apply find_group_elem in Hg as [? Hg]. congruence.
  - intros (Hpos & id & s & Hown & E & Hl & Ha & Hu). exists ("Session " +:+ id).
    pose proof (Hr id) as R. rewrite E in R. destruct R as (R1 & R2 & R3).
    assert (g_key_file_get_boolean kf ("Session " +:+ id) "is_local" = true) as Hloc by by rewrite R3.
    split; [by apply get_boolean_group in Hloc|]. split_and!; [apply session_group_of| |done|by rewrite R2| |done].
    + intros o Hoo. destruct (Ho o Hoo) as (d & -> & Hd). destruct (Hn id s E) as [(d' & -> & Hd') _].
      rewrite session_suffix by done. apply bool_decide_eq_false_2. intros ->. done.
    + rewrite R1, u32_i32. exact Hu.
Qed.

(** The manager's sessions have such names. *)
Lemma reg_names {HML : ManagedLaws W} {HHost : Host} {HEnv : Session.Env} {HMH : ManagerHost} r : reg_inv r → names_ok r.
Proof.
  intros [[Hs _ _ _] Hl] id s Hid. destruct (si_table r Hs id s Hid) as [_ H2]. split; [|done].
  destruct (li_open _ _ Hl id s Hid) as (l & L & HL & <-). destruct (li_serial _ _ Hl l L HL) as (n & _ & ->).
  exists (fmt_unsigned n). split; [done|apply fmt_unsigned_digits].
Qed.

(** The handler's view of a change: the old session keeps its name, which no
    other has; the new one is in the table and marked active. *)
Record switched r (old new : option positive) : Prop := {
  sw_names : names_ok r;
  sw_old : ∀ o, old = Some o → ∃ id, session_id o (m_sess r) = Some id ∧ session_name id ∧
    ∀ s, m_sessions r !! id = Some s → s = o;
  sw_new : ∀ n, new = Some n → ∃ id, m_sessions r !! id = Some n ∧ session_get P_active n (m_sess r) = true;
  sw_ne : ∀ s, old = Some s → new ≠ Some s
}.

(** Who had access before the change and who has after it: the users of the
    sessions that are not concerned, and of the one that left or came. *)
Definition bystander r (old new : option positive) (u : Z) : Prop :=
  ∃ id s, Some s ≠ old ∧ Some s ≠ new ∧ active_user r id s u.
Definition owner r (o : option positive) (u : Z) : Prop :=
  ∃ s, o = Some s ∧ is_local (m_sess r) s = true ∧ u = user_of (m_sess r) s.

Lemma switched_named r old new : switched r old new → named (m_sess r) old ∧ named (m_sess r) new.
Proof.
  intros [H1 H2 H3 _]. split.
  - intros o ->. destruct (H2 o eq_refl) as (id & E & (d & -> & _) & _). by exists ("Session" +:+ d).
  - intros n ->. destruct (H3 n eq_refl) as (id & E & _). destruct (H1 _ _ E) as [(d & -> & _) Hid].
    by exists ("Session" +:+ d).
Qed.

(** The sessions besides the old one. *)
Lemma remaining_users r kf o new u : switched r (Some o) new → reads_sessions r kf → u ≠ 0%Z →
  u ∈ uids_with_local_active_session (session_id o (m_sess r)) (Some kf) ↔ bystander r (Some o) new u ∨ owner r new u.
Proof.
  intros Hsw Hr Hu. destruct Hsw as [H1 H2 H3 H4]. destruct (H2 o eq_refl) as (oid & Eo & Ho & Huniq).
  rewrite (database_users r kf); [|done|done|intros ? E; rewrite Eo in E; by injection E as <-].
  rewrite Eo. split.
  - intros (_ & id & s & Hne & Ha). destruct (decide (Some s = new)) as [En|En].
    + right. exists s. destruct Ha as (_ & ? & _ & ?). by split_and!.
    + left. exists id, s. split_and!; [|done|done]. intros [= ->]. apply Hne.
      destruct Ha as (E & _). destruct (H1 _ _ E) as [_ E']. congruence.
  - intros H. assert (∀ s, 0 < user_of (m_sess r) s ∨ user_of (m_sess r) s = 0)%Z as Hpos.
    { intros s. unfold user_of. pose proof (u32_range (session_get P_unix_user s (m_sess r))). lia. }
    destruct H as [(id & s & Hso & Hsn & Ha)|(s & -> & Hl & Hus)].
    + split; [destruct Ha as (_ & _ & _ & ->); destruct (Hpos s); [done|congruence]|].
      exists id, s. split; [|done]. intros [= <-]. apply Hso. f_equal. apply Huniq. by destruct Ha.
    + split; [subst u; destruct (Hpos s); [done|congruence]|]. destruct (H3 s eq_refl) as (id & E & Ha).
      exists id, s. split; [|by split_and!]. intros [= <-]. pose proof (Huniq s E) as ->. by apply (H4 o).
Qed.
End users.

(** ** The lists follow the sessions *)

Section policy.
Context {W : Type} {HO : SessionOps W} {HM : ManagedSessions W} {KF : KeyFiles} {HA : LibAcl} {HAL : LibAclLaws}.
Implicit Types (r : registry W) (kf : key_file) (s : acl_files).

(** Every tagged device grants access to the users of [U], and to no others. *)
Definition devices_grant s (devices : list (option cstr)) (U : Z → Prop) : Prop :=
  ∀ f, f ∈ nodes devices → holds_acls s f U.
Definition devices_workable s (devices : list (option cstr)) : Prop := ∀ f, f ∈ nodes devices → workable s f.
Definition rest_kept s s' (devices : list (option cstr)) : Prop :=
  ∀ f, f ∉ nodes devices → acl_get_file f s' = acl_get_file f s.

Lemma grant_ext s devices (U U' : Z → Prop) : (∀ u, u ≠ 0%Z → U u ↔ U' u) → devices_grant s devices U → devices_grant s devices U'.
Proof. intros E H f Hf. eapply holds_ext; [exact E|by apply H]. Qed.

Lemma apply_grants devices uid add s U : devices_workable s devices → devices_grant s devices U →
  let s' := apply_acl_to_devices devices uid add s in
  devices_workable s' devices ∧ devices_grant s' devices (changed add uid U) ∧ rest_kept s s' devices.
Proof.
  intros Hw HU s'. destruct (apply_acl_holds devices uid add s U Hw) as (H1 & H2 & H3). split_and!.
  - intros f Hf. by apply H1, Hw.
  - intros f Hf. apply H3; [done|]. left. by apply HU.
  - exact H2.
Qed.

Lemma remove_grants devices r kf o new s : switched r (Some o) new → reads_sessions r kf →
  (∀ u, u ≠ 0%Z → owner r new u → u ≠ user_of (m_sess r) o) →
  devices_workable s devices → devices_grant s devices (λ u, bystander r (Some o) new u ∨ u = user_of (m_sess r) o) →
  let s' := remove_uid devices (Some kf) (user_of (m_sess r) o) (session_id o (m_sess r)) s in
  devices_workable s' devices ∧ devices_grant s' devices (bystander r (Some o) new) ∧ rest_kept s s' devices.
Proof.
  intros Hsw Hr Hnew Hw HU. unfold remove_uid. set (uo := user_of (m_sess r) o) in *.
  set (l := uids_with_local_active_session _ _).
  assert (uo ≠ 0%Z → uo ∈ l ↔ bystander r (Some o) new uo) as Hl.
  { intros H0. unfold l. rewrite (remaining_users r kf o new uo Hsw Hr H0).
    split; [|by left]. intros [H|H]; [done|]. by destruct (Hnew uo H0 H). }
  destruct (uid_in_list l uo) eqn:E; cbn [negb].
  - split_and!; [done| |done]. eapply grant_ext; [|exact HU]. intros u H0. split; [|by left].
    intros [H|H]; [done|]. subst u. apply Hl; [done|]. by apply uid_in_list_elem.
  - destruct (apply_grants devices uo false s _ Hw HU) as (H1 & H2 & H3). split_and!; [done| |done].
    eapply grant_ext; [|exact H2]. intros u H0. unfold changed. split; [naive_solver|]. intros Hb.
    split; [|by left]. intros ->. apply Hl in Hb; [|done]. apply uid_in_list_elem in Hb. congruence.
Qed.

Lemma main_called argument env devices database s :
  main [] argument env devices database s =
  match consolekit_called argument env with
  | None | Some None => (2%Z, s)
  | Some (Some (u, u2, old, ACTION_NONE)) => (0%Z, s)
  | Some (Some (u, u2, old, ACTION_REMOVE)) => (0%Z, remove_uid devices database u old s)
  | Some (Some (u, u2, old, ACTION_ADD)) => (0%Z, apply_acl_to_devices devices u true s)
  | Some (Some (u, u2, old, ACTION_CHANGE)) =>
      (0%Z, apply_acl_to_devices devices u2 true (remove_uid devices database u old s))
  end.
Proof. unfold main. simpl. by destruct (consolekit_called argument env) as [[[[[u u2] old] []]|]|]. Qed.

Lemma owner_some r n u : owner r (Some n) u ↔ is_local (m_sess r) n = true ∧ u = user_of (m_sess r) n.
Proof. unfold owner. naive_solver. Qed.
Lemma owner_none r u : owner r None u ↔ False.
Proof. unfold owner. naive_solver. Qed.

(** The same users, said in another way. *)
Ltac same_users H :=
  eapply grant_ext; [|exact H]; intros u _; unfold changed; rewrite ?owner_some, ?owner_none; naive_solver congruence.

(** Whether one of the two sessions is local. *)
Definition concerns_local r (old new : option positive) : bool :=
  match old with Some o => is_local (m_sess r) o | None => false end ||
  match new with Some n => is_local (m_sess r) n | None => false end.

(** C16: When the active session of a seat changes, and the database file tells of
    the manager's sessions, the hook program moves the devices' access lists from
    exactly the users who had access to exactly those who now should: the
    users of the other local active sessions, and of the new one if it is local.
    A user keeps access while another local active session is theirs.  The program
    fails (status 2) exactly if neither session is local, when there is nothing
    to do.  No other file is touched. *)
Theorem acls_follow_the_sessions environ sid r kf old new devices s :
  switched r old new → reads_sessions r kf → environ_ok environ → devices_workable s devices →
  devices_grant s devices (λ u, bystander r old new u ∨ owner r old u) →
  let '(rc, s') := main [] (Some "seat_active_session_changed") (hook_env environ sid (m_sess r) old new)
                        devices (Some kf) s in
  devices_grant s' devices (λ u, bystander r old new u ∨ owner r new u) ∧ devices_workable s' devices ∧
  rest_kept s s' devices ∧ rc = if concerns_local r old new then 0%Z else 2%Z.
Proof.
  intros Hsw Hr He Hw HU. destruct (switched_named r old new Hsw) as [No Nn].
  rewrite main_called, called_exact by done. unfold concerns_local, decision.
  destruct old as [o|]; [destruct (is_local (m_sess r) o) eqn:Lo|].
  - assert (devices_grant s devices (λ u, bystander r (Some o) new u ∨ u = user_of (m_sess r) o)) as HU' by same_users HU.
    pose proof (remove_grants devices r kf o new s Hsw Hr) as Hrem.
    destruct new as [n|]; [destruct (is_local (m_sess r) n) eqn:Ln|].
    + destruct (Z.eqb_spec (user_of (m_sess r) o) (user_of (m_sess r) n)) as [Eu|Eu].
      * split_and!; [same_users HU'|done..].
      * destruct Hrem as (K1 & K2 & K3); [by intros u _ [_ ->]%owner_some; congruence|done..|].
        destruct (apply_grants devices (user_of (m_sess r) n) true _ _ K1 K2) as (M1 & M2 & M3).
        split_and!; [same_users M2|done| |done]. intros f Hf. by rewrite M3, K3.
    + destruct Hrem as (K1 & K2 & K3); [by intros u _ [? _]%owner_some; congruence|done..|].
      split_and!; [same_users K2|done..].
    + destruct Hrem as (K1 & K2 & K3); [by intros u _ (? & ? & _)|done..|].
      split_and!; [same_users K2|done..].
  - destruct new as [n|]; [destruct (is_local (m_sess r) n) eqn:Ln|]; [|split_and!; [same_users HU|done..]..].
    destruct (apply_grants devices (user_of (m_sess r) n) true s _ Hw HU) as (M1 & M2 & M3).
    split_and!; [same_users M2|done..].
  - destruct new as [n|]; [destruct (is_local (m_sess r) n) eqn:Ln|]; [|split_and!; [same_users HU|done..]..].
    destruct (apply_grants devices (user_of (m_sess r) n) true s _ Hw HU) as (M1 & M2 & M3).
    split_and!; [same_users M2|done..].
Qed.

(** ** A device that appears or goes *)

(** The users of all local active sessions of the table. *)
Definition any_user r (u : Z) : Prop := ∃ id t, active_user r id t u.

Lemma add_all_holds f l s U : workable s f → holds_acls s f U →
  let s' := foldl (λ s u, (set_facl f u true s).2) s l in
  holds_acls s' f (λ u, u ∈ l ∨ U u) ∧ ∀ g, g ≠ f → acl_get_file g s' = acl_get_file g s.
Proof.
  revert s U. induction l as [|v l IH]; intros s U Hw HU; simpl.
  - split; [|done]. eapply holds_ext; [|exact HU]. intros u _. by rewrite elem_of_nil; naive_solver.
  - destruct (set_facl_holds f v true s U Hw) as (H1 & H2 & H3).
    destruct (IH _ _ H1 (H3 HU)) as [K1 K2]. split.
    + eapply holds_ext; [|exact K1]. intros u _. unfold changed. rewrite elem_of_cons. naive_solver.
    + intros g Hg. by rewrite K2, H2.
Qed.

(** When udev announces a device that gives nobody access yet, the program gives it
    to exactly the users of the local active sessions; no other file is touched. *)
Theorem new_device_acls r kf f s : names_ok r → reads_sessions r kf → workable s f → holds_acls s f (λ _, False) →
  let '(rc, s') := main [OptAction "add"; OptDevice f] None [] [] (Some kf) s in
  rc = 0%Z ∧ holds_acls s' f (any_user r) ∧ ∀ g, g ≠ f → acl_get_file g s' = acl_get_file g s.
Proof.
  intros Hn Hr Hw HU. change (main [OptAction "add"; OptDevice f] None [] [] (Some kf) s)
    with (0%Z, set_device_acls (Some kf) f ACTION_ADD s). cbv iota beta. unfold set_device_acls. cbn [orb].
  set (l := uids_with_local_active_session None (Some kf)).
  destruct (add_all_holds f l s _ Hw HU) as [H1 H2]. split_and!; [done| |done].
  eapply holds_ext; [|exact H1]. intros u Hu. unfold l. rewrite (database_users r kf None) by done. unfold any_user, active_user.
  split; [naive_solver|]. intros (id & t & E & Hl & Ha & ->). left. split; [|by exists id, t].
  unfold user_of in *. pose proof (u32_range (session_get P_unix_user t (m_sess r))). lia.
Qed.

(** With the action "remove" the program changes no access list of a device:
    it asks each user it found whether they are one of those it found. *)
Theorem remove_device_does_nothing f database s :
  main [OptAction "remove"; OptDevice f] None [] [] database s = (0%Z, s).
Proof.
  change (main _ _ _ _ _ _) with (0%Z, set_device_acls database f ACTION_REMOVE s). f_equal.
  unfold set_device_acls. cbn [orb]. set (l := uids_with_local_active_session None database).
  assert (∀ l', (∀ u, u ∈ l' → u ∈ l) →
    foldl (λ s u, if negb (uid_in_list l u) then (set_facl f u false s).2 else s) s l' = s) as H; [|by apply H].
  induction l' as [|u l' IH]; intros Hl; [done|]. simpl.
  rewrite (proj2 (uid_in_list_elem l u)) by (apply Hl; left). simpl. apply IH. intros v Hv. apply Hl. by right.
Qed.
End policy.
