(* ===== verification/AclText.v ===== *)
(** * Access control lists as maps.

    An instance of [LibAcl] that satisfies [LibAclLaws], for the concrete runs:
    lists and files are maps, nothing fails but a list that is not valid. *)

From stdpp Require Import fin_maps.
From S2P Require Import Prelude UdevAcl.

Abbreviation acl_map := (gmap nat acl_entry).

(** ** The mask *)

Definition masked_class (e : acl_entry) : bool :=
  match e_tag e with ACL_USER | ACL_GROUP_OBJ | ACL_GROUP => true | _ => false end.
Definition class_perms (l : list acl_entry) : Z :=
  foldr (λ e p, if masked_class e then Z.lor (e_permset e) p else p) 0%Z l.
Definition set_mask (p : Z) (e : acl_entry) : acl_entry :=
  if decide (e_tag e = ACL_MASK) then {| e_tag := ACL_MASK; e_qualifier := 0; e_permset := p |} else e.
Definition mask_of (a : acl_map) : Z := class_perms (map_to_list a).*2.
Definition no_mask (a : acl_map) : Prop := map_Forall (λ _ e, e_tag e ≠ ACL_MASK) a.
#[export] Instance no_mask_dec a : Decision (no_mask a).
Proof. unfold no_mask. apply _. Defined.
Definition calc_mask (a : acl_map) : acl_map :=
  if decide (no_mask a) then <[fresh (dom a) := {| e_tag := ACL_MASK; e_qualifier := 0; e_permset := mask_of a |}]> a
  else set_mask (mask_of a) <$> a.

Lemma fresh_none (a : acl_map) : a !! fresh (dom a) = None.
Proof. apply not_elem_of_dom, is_fresh. Qed.

Lemma calc_mask_keeps a h e : e_tag e ≠ ACL_MASK → calc_mask a !! h = Some e ↔ a !! h = Some e.
Proof.
  intros Hne. unfold calc_mask. case_decide.
  - rewrite lookup_insert_Some. pose proof (fresh_none a) as Hf. split.
    + intros [[_ <-]|[_ ?]]; [by destruct Hne|done].
    + intros He. right. split; [|done]. intros <-. congruence.
  - rewrite lookup_fmap, fmap_Some. unfold set_mask. split.
    + intros (e' & He' & ->). destruct (decide (e_tag e' = ACL_MASK)); [by destruct Hne|done].
    + intros He. exists e. by rewrite decide_False.
Qed.
Lemma calc_mask_masks a k m : calc_mask a !! k = Some m → e_tag m = ACL_MASK →
  e_permset m = mask_of a ∧ ((∃ m', a !! k = Some m' ∧ e_tag m' = ACL_MASK) ∨ no_mask a ∧ k = fresh (dom a)).
Proof.
  unfold calc_mask. case_decide as Hn.
  - intros [[<- <-]|[_ Hm]]%lookup_insert_Some Ht; [by split; [|right]|]. by destruct (Hn k m Hm).
  - rewrite lookup_fmap, fmap_Some. intros (m' & Hm' & ->). unfold set_mask.
    destruct (decide (e_tag m' = ACL_MASK)); [|done]. intros _. split; [done|left]. by exists m'.
Qed.
Lemma class_perms_covers l e : e ∈ l → masked_class e = true → Z.land (e_permset e) (class_perms l) = e_permset e.
Proof.
  intros He Hc. induction l as [|e' l IH]; [by apply elem_of_nil in He|]. simpl.
  apply elem_of_cons in He as [<-|He].
  - rewrite Hc. apply Z.bits_inj'. intros i _. rewrite Z.land_spec, Z.lor_spec. by destruct (Z.testbit (e_permset e) i).
  - specialize (IH He). destruct (masked_class e'); [|done]. apply Z.bits_inj'. intros i _.
    rewrite <- IH at 2. rewrite !Z.land_spec, Z.lor_spec.
    rewrite <- IH. rewrite Z.land_spec. destruct (Z.testbit (e_permset e) i), (Z.testbit (class_perms l) i), (Z.testbit (e_permset e') i); done.
Qed.

(** ** Validity *)

Definition valid_map (a : acl_map) : Prop :=
  map_Forall (λ h e, map_Forall (λ k e', entry_key e = entry_key e' → h = k) a) a ∧
  map_Forall (λ _ e, e_tag e ≠ ACL_UNDEFINED_TAG) a ∧
  Forall (λ t, ¬ map_Forall (λ _ e, e_tag e ≠ t) a) [ACL_USER_OBJ; ACL_GROUP_OBJ; ACL_OTHER].
#[export] Instance valid_map_dec a : Decision (valid_map a).
Proof. unfold valid_map. apply _. Defined.

Lemma some_entry (a : acl_map) t : ¬ map_Forall (λ _ e, e_tag e ≠ t) a ↔ ∃ h e, a !! h = Some e ∧ e_tag e = t.
Proof.
  split.
  - intros H. apply map_not_Forall in H as (h & e & He & Ht); [|apply _]. exists h, e. split; [done|].
    destruct (decide (e_tag e = t)); [done|by destruct Ht].
  - intros (h & e & He & Ht) H. by apply (H h e He).
Qed.

(** ** The instance *)

#[export] Instance map_acl : LibAcl :=
  {| acl_t := acl_map;
     acl_files := gmap string acl_map;
     acl_entries := λ a, a;
     acl_order := λ a, (map_to_list a).*1;
     acl_get_qualifier := λ a h, e_qualifier <$> a !! h;
     acl_create_entry := λ a, Some (<[fresh (dom a) := blank_entry]> a, fresh (dom a));
     acl_change := λ h f a, alter f h a;
     acl_delete_entry := λ h a, delete h a;
     acl_calc_mask := calc_mask;
     acl_get_file := λ f s, a ← s !! f; if decide (valid_map a) then Some a else None;
     acl_set_file := λ f a s, if decide (valid_map a) then Some (<[f := a]> s) else None;
     acl_memory := true;
     acl_settable := λ _, true |}.

Lemma valid_base (a : acl_map) : valid_map a ↔ @acl_base map_acl a.
Proof.
  split.
  - intros (H1 & H2 & H3). rewrite Forall_forall in H3. split.
    + intros h k e e' He He'. by apply (H1 h e He k e').
    + intros h e He. by apply (H2 h e).
    + intros t Ht. by apply some_entry, H3.
  - intros [H1 H2 H3]. split_and!.
    + intros h e He k e' He'. by apply H1.
    + intros h e He. by apply (H2 h).
    + apply Forall_forall. intros t Ht. by apply some_entry, H3.
Qed.

#[export] Instance map_acl_laws : LibAclLaws.
Proof.
  split; simpl.
  - intros a h. rewrite list_elem_of_fmap. split.
    + intros ([k e] & -> & H%elem_of_map_to_list). by eexists.
    + intros [e H]. exists (h, e). split; [done|]. by apply elem_of_map_to_list.
  - intros a h e q He. rewrite He. by intros [= <-].
  - intros a a' h [= <- <-]. split; [apply fresh_none|done].
  - done.
  - done.
  - apply calc_mask_keeps.
  - intros a h e k m He Ht Hm Htm. destruct (calc_mask_masks a k m Hm Htm) as [-> _].
    apply class_perms_covers; [|unfold masked_class; by rewrite Ht].
    apply (proj1 (calc_mask_keeps a h e ltac:(by rewrite Ht))) in He. apply list_elem_of_fmap. exists (h, e).
    split; [done|]. by apply elem_of_map_to_list.
  - intros a h k e e' He He' Ht Ht' Hone.
    destruct (calc_mask_masks a h e He Ht) as [_ [(m & Hm & Tm)|[Hn ->]]];
    destruct (calc_mask_masks a k e' He' Ht') as [_ [(m' & Hm' & Tm')|[Hn' ->]]]; try done.
    + by apply (Hone h k m m').
    + by destruct (Hn' h m Hm).
    + by destruct (Hn k m' Hm').
  - intros a. unfold has_mask. simpl. unfold calc_mask. case_decide as Hn.
    + eexists _, _. split; [apply lookup_insert_eq|done].
    + apply some_entry in Hn as (h & e & He & Te). exists h, (set_mask (mask_of a) e).
      rewrite lookup_fmap, He. split; [done|]. unfold set_mask. by rewrite decide_True.
  - intros f s a. destruct (s !! f) as [a'|]; [|done]. simpl. case_decide; [|done]. intros [= ->]. by apply valid_base.
  - intros f a s s'. case_decide; [|done]. intros [= <-]. split.
    + exists a. by rewrite lookup_insert_eq; simpl; rewrite decide_True.
    + intros g Hg. by rewrite lookup_insert_ne.
  - intros _. split; [|by eexists]. intros a h e He _. rewrite He. by eexists.
  - intros f a s _ _ Hb _. rewrite decide_True by by apply valid_base. by eexists.
Qed.
