(* ===== verification/UdevAclRuns.v ===== *)
(** * Concrete runs of the database and of the device lists.

    The manager of [ManagerRuns] opens a session; its dump is written, read by
    the tool, and a sound card is given to the user. *)

From S2P Require Import Prelude Scan Leader Device DeviceFacts Session Seat SeatFacts SeatActivation SeatSessions Hooks Power.
From S2P Require Import PowerRuns Manager ManagerFacts ManagerOps ManagerIds ManagerLogins ManagerRefines SessionNew.
From S2P Require SessionRuns Collect.
From S2P Require Import ManagerRuns Database DatabaseFacts DatabasePolicy KeyFileText UdevAcl UdevAclFacts AclText UdevAclPolicy.

#[local] Existing Instance SessionRuns.pstore_skeleton.
#[local] Existing Instance ManagerRuns.runs_os.
#[local] Existing Instance ManagerRuns.runs_settles.
#[local] Existing Instance ManagerRuns.runs_order.
#[local] Existing Instance ManagerRuns.runs_env.
#[local] Existing Instance ManagerRuns.runs_host.
#[local] Existing Instance ManagerRuns.runs_processes.
#[local] Existing Instance ManagerRuns.runs_hooks.
#[local] Existing Instance ManagerRuns.runs_manager.
#[local] Existing Instance ManagerRuns.runs_libexec.
#[local] Existing Instance ManagerRuns.runs_sessions.

(** The local variable is always at the same place; later the place holds 7. *)
#[local] Instance one_frame : Frames :=
  {| uid_address := λ _, 1%positive; stale_uid := λ _, 7%Z; pointer_order := λ A m, map_to_list m;
     pointer_order_perm := λ A m, reflexivity _ |}.

Definition text (r : reg) : option string := kf ← dump_key_file r; g_key_file_to_data kf.
Definition logout : list (@registry_input (store SessionRuns.pstore)) := login ++ [RClose false 3 the_cookie].

Example login_text : (r ← run login; text r) = Some (text_of [
  "[Seats]"; "seats=seat0"; "[Seat seat0]"; "kind=0"; "sessions=Session1"; "devices="; "active_session=Session1";
  "[Session Session1]"; "uid=1000"; "seat=seat0"; "service=unspecified"; "type=unspecified";
  "display_device=/dev/tty2"; "remote_host_name="; "is_active=true"; "is_local=true"; "XDG_RUNTIME_DIR=/run/user/1000";
  "creation_time=2024-01-01T00:00:00Z"; "[SessionLeader Session1]"; "session=Session1"; "uid=1000"; "pid=42";
  "service_name=:1.5"; "[User 7]"; "is_local=true"; "sessions=Session1"]).
Proof. vm_compute. reflexivity. Qed.
Example logout_text : (r ← run logout; text r) =
  Some (text_of ["[Seats]"; "seats=seat0"; "[Seat seat0]"; "kind=0"; "sessions="; "devices="]).
Proof. vm_compute. reflexivity. Qed.

(** ** A dump that fails, and its remains *)

Definition empty_disk : database := {| db_file := None; db_tmp := None |}.
Definition good_calls : dump_calls :=
  {| mkdir_ok := true; open_ok := true; write_answers := [Wrote 100; WriteAgain; Wrote 1000]; close_answers := [CloseAgain; CloseOk];
     rename_ok := true; unlink_ok := true |}.
Definition failing_close : dump_calls :=
  {| mkdir_ok := true; open_ok := true; write_answers := [Wrote 1000]; close_answers := [CloseError];
     rename_ok := true; unlink_ok := true |}.

Lemma dump_all_or_nothing_witness : ∃ d', ck_manager_dump failing_close (Some "new text") {| db_file := Some "old"; db_tmp := None |} = Some d' ∧
  ((db_file d' = Some "old" ∧ (mkdir_ok failing_close = false ∨ unlink_ok failing_close = false)) ∨
   (db_file d' = None ∧ unlink_ok failing_close = true) ∨
   (db_file d' = Some ("new text" +:+ left_over "new text" None) ∧ db_tmp d' = None)).
Proof.
  eexists. split; [reflexivity|].
  exact (dump_all_or_nothing failing_close "new text" {| db_file := Some "old"; db_tmp := None |} _ eq_refl).
Defined.

(** The text of a session's login is written but its file cannot be closed; the
    next dump, after the session's end, is written over it. *)
Definition after_both : option (list Z * nat) :=
  r1 ← run login; t1 ← text r1; d1 ← ck_manager_dump failing_close (Some t1) empty_disk;
  r2 ← run logout; t2 ← text r2; d2 ← ck_manager_dump good_calls (Some t2) d1;
  str ← db_file d2; kf ← g_key_file_load str;
  Some (uids_with_local_active_session None (Some kf), size (m_sessions r2)).

(** The temporary file of a dump that failed is neither removed nor truncated by
    the next one.  Then the database tells of a session that has ended as
    if it were local and active, although every call of the last dump succeeded,
    and the tool takes its user for one to whom devices are given. *)
Theorem ended_session_revived : after_both = Some ([1000%Z], 0).
Proof. vm_compute. reflexivity. Qed.

(** ** Witnesses *)

Definition plain_seats (r : reg) : bool := bool_decide (map_Forall (λ _ w, s_devices (seat w) = []) (seat_objs r)).
Lemma plain_seats_ok r : plain_seats r = true → no_devices r.
Proof. intros H%bool_decide_eq_true p w Hw. by apply (H p w). Qed.

Definition one_session (r : reg) : bool :=
  bool_decide (m_sessions r = {["Session1" := 1%positive]}) && session_get P_active 1 (m_sess r) &&
  session_get P_is_local 1 (m_sess r) && Z.eqb (session_get P_unix_user 1 (m_sess r)) 1000 && plain_seats r.
Lemma login_one : holds (λ r, one_session r = true) (run login).
Proof. vm_compute. reflexivity. Qed.

Lemma one_session_ok r : one_session r = true →
  m_sessions r = {["Session1" := 1%positive]} ∧ active_user r "Session1" 1 1000 ∧ no_devices r.
Proof.
  intros [[[[H1%bool_decide_eq_true H2]%andb_true_iff H3]%andb_true_iff H4%Z.eqb_eq]%andb_true_iff H5]%andb_true_iff.
  split_and!; [done| |by apply plain_seats_ok]. split_and!; [by rewrite H1|done|done|]. unfold user_of. by rewrite H4.
Qed.

Lemma database_tells_sessions_witness : ∃ r kf str d' kf', run login = Some r ∧ dump_key_file r = Some kf ∧
  ck_manager_dump good_calls (Some str) empty_disk = Some d' ∧ db_file d' = Some str ∧
  g_key_file_load str = Some kf' ∧ reads_sessions r kf'.
Proof.
  destruct (holds_elim _ _ login_one) as (r & E & H). apply one_session_ok in H as (_ & _ & H).
  destruct (database_tells_sessions true r (registry_run_reachable _ _ E) H) as (kf & str & H1 & H2 & H3).
  assert (holds (λ r, holds (λ str, (String.length str <=? 1000)%nat = true) (text r)) (run login)) as Hl.
  { vm_compute. reflexivity. }
  rewrite E in Hl. simpl in Hl. unfold text in Hl. rewrite H1 in Hl. simpl in Hl. simpl in H2. injection H2 as <-.
  destruct (H3 good_calls empty_disk) as (d' & kf' & K1 & K2 & K3 & K4 & K5).
  - split; [done|done|by repeat (apply not_elem_of_cons; split; [done|]); apply not_elem_of_nil| |by exists 1, []|done]. apply Nat.leb_le in Hl.
    simpl write_answers. unfold bytes_written. simpl. lia.
  - unfold left_over. apply sdrop_all, Nat.le_0_l.
  - exists r, kf, (to_text kf), d', kf'. split_and!; assumption.
Defined.

(** ** The sound card *)

Definition entry (t : acl_tag) (q p : Z) : acl_entry := {| e_tag := t; e_qualifier := q; e_permset := p |}.
Definition plain_list : acl_map := list_to_map [(0, entry ACL_USER_OBJ 0 6); (1, entry ACL_GROUP_OBJ 0 4); (2, entry ACL_OTHER 0 0)].
Definition sound_card : string := "/dev/snd/pcmC0D0p".
Definition dev : @acl_files map_acl := {[sound_card := plain_list]}.
Definition tagged : list (option cstr) := [None; Some (Some sound_card); Some None].

Lemma dev_workable f : f ∈ nodes tagged → workable (HA := map_acl) dev f.
Proof.
  intros Hf. assert (f = sound_card) as -> by by apply list_elem_of_singleton.
  split_and!; [done|done|]. eexists. vm_compute. reflexivity.
Qed.
Lemma dev_nobody f U : f ∈ nodes tagged → (∀ u, u ≠ 0%Z → ¬ U u) → holds_acls dev f U.
Proof.
  intros Hf HU u Hu. split; [intros H; by destruct (HU u Hu)|]. intros _ p (a & Ha & Hin).
  assert (f = sound_card) as -> by by apply list_elem_of_singleton.
  assert (acl_values (H := map_acl) plain_list = [entry ACL_OTHER 0 0; entry ACL_GROUP_OBJ 0 4; entry ACL_USER_OBJ 0 6]) as Hv
    by by vm_compute.
  assert (acl_get_file sound_card dev = Some plain_list) as Hp by by vm_compute.
  rewrite Hp in Ha. injection Ha as <-. rewrite Hv in Hin. repeat (apply elem_of_cons in Hin as [Hin|Hin]; [done|]).
  by apply elem_of_nil in Hin.
Qed.

(** The tool runs when the login becomes active: its user gets the card. *)
Lemma acls_follow_the_sessions_witness : ∃ r kf rc s', run login = Some r ∧ dump_key_file r = Some kf ∧
  main [] (Some "seat_active_session_changed") (hook_env ["PATH=/usr/bin"] "seat0" (m_sess r) None (Some 1%positive))
    tagged (Some kf) dev = (rc, s') ∧ rc = 0%Z ∧ granted s' sound_card 1000.
Proof.
  destruct (holds_elim _ _ login_one) as (r & E & H). apply one_session_ok in H as (Hm & Ha & Hd).
  pose proof (reachable_reg true r (registry_run_reachable _ _ E)) as Hreg.
  enough (∃ kf rc s', dump_key_file r = Some kf ∧
    main [] (Some "seat_active_session_changed") (hook_env ["PATH=/usr/bin"] "seat0" (m_sess r) None (Some 1%positive))
      tagged (Some kf) dev = (rc, s') ∧ rc = 0%Z ∧ granted s' sound_card 1000) as H by by destruct H as (kf & rc & s' & H); exists r, kf, rc, s'; split; [exact E|].
  clear E.
  pose proof (reg_dumpable r Hreg Hd) as Hda. destruct (dump_key_file_tells r Hda) as (kf & Hkf & Hok & Ht).
  assert (switched r None (Some 1%positive)) as Hsw.
  { split; [by apply reg_names|done| |done]. intros n [= <-]. exists "Session1". destruct Ha as (? & _ & ? & _). by split. }
  assert (∀ u, ¬ bystander r None (Some 1%positive) u) as Hno.
  { intros u (id & s & _ & Hne & Hin & _). rewrite Hm in Hin. apply lookup_singleton_Some in Hin as [_ <-]. done. }
  pose proof (acls_follow_the_sessions ["PATH=/usr/bin"] "seat0" r kf None (Some 1%positive) tagged dev Hsw
    (told_reads r kf Hda Ht) ltac:(by repeat constructor) dev_workable) as Hacl.
  revert Hacl. destruct (main _ _ _ _ _ _) as [rc s'] eqn:Emain. intros Hacl.
  destruct Hacl as (H1 & _ & _ & Hrc).
  { intros f Hf. apply dev_nobody; [done|]. intros u _ [Hb|Hb]; [by apply (Hno u)|]. by destruct Hb as (? & ? & _). }
  exists kf, rc, s'. destruct Ha as (_ & Hl & _ & Hu). split_and!; try assumption.
  - rewrite Hrc. unfold concerns_local. by rewrite Hl.
  - apply (H1 sound_card); [by left|done|]. right. by exists 1%positive.
Defined.

(** The card is plugged in while the session is active. *)
Lemma new_device_acls_witness : ∃ r kf rc s', run login = Some r ∧ dump_key_file r = Some kf ∧
  main [OptAction "add"; OptDevice sound_card] None [] [] (Some kf) dev = (rc, s') ∧ granted s' sound_card 1000.
Proof.
  destruct (holds_elim _ _ login_one) as (r & E & H). apply one_session_ok in H as (Hm & Ha & Hd).
  pose proof (reachable_reg true r (registry_run_reachable _ _ E)) as Hreg.
  enough (∃ kf rc s', dump_key_file r = Some kf ∧
    main [OptAction "add"; OptDevice sound_card] None [] [] (Some kf) dev = (rc, s') ∧ granted s' sound_card 1000) as H by by destruct H as (kf & rc & s' & H); exists r, kf, rc, s'; split; [exact E|].
  clear E.
  pose proof (reg_dumpable r Hreg Hd) as Hda. destruct (dump_key_file_tells r Hda) as (kf & Hkf & Hok & Ht).
  pose proof (new_device_acls r kf sound_card dev (reg_names r Hreg) (told_reads r kf Hda Ht) (dev_workable _ ltac:(by left))
    (dev_nobody sound_card (λ _, False) ltac:(by left) (λ u _ H, H))) as Hacl.
  revert Hacl. destruct (main _ _ _ _ _ _) as [rc s'] eqn:Emain. intros (_ & H1 & _).
  exists kf, rc, s'. split_and!; try assumption. apply (H1 1000%Z); [done|]. by exists "Session1", 1%positive.
Defined.
