(* ===== verification/Job.v ===== *)
(** * Jobs: [src/ck-job.c].

    A job is a child process whose two output channels are read line by line from
    the main loop; when both have ended the job waits for the child and says
    "completed" with its exit status.  Here: the operations, the interleaving of
    the two channels with the rest, and what a job promises to the session
    leaders that run it. *)

From S2P Require Import Prelude.

(** ** Data *)

(** [CkJobPrivate]; 0 is no watch and no child. *)
Record CkJob := {
  err_watch_id : Z;
  out_watch_id : Z;
  command : string;
  std_out : string;
  std_err : string;
  child_pid : Z
}.

(** The job ([None]: freed), the statuses it completed with, the children it
    waited for and those it killed. *)
Record job_world := {
  job : option CkJob;
  completed : list Z;
  waited : list Z;
  killed : list Z
}.

Definition upd_job (err out : Z) (o e : string) (pid : Z) (j : CkJob) : CkJob :=
  {| err_watch_id := err; out_watch_id := out; command := command j; std_out := o; std_err := e; child_pid := pid |}.
Definition set_watches (err out : Z) (j : CkJob) : CkJob := upd_job err out (std_out j) (std_err j) (child_pid j) j.
Definition set_output (o e : string) (j : CkJob) : CkJob := upd_job (err_watch_id j) (out_watch_id j) o e (child_pid j) j.
Definition set_child (pid : Z) (j : CkJob) : CkJob :=
  upd_job (err_watch_id j) (out_watch_id j) (std_out j) (std_err j) pid j.

(** What [waitpid] answers to each try; what [g_io_channel_read_line] gives. *)
Inductive wait_answer := Reaped (status : Z) | WaitInterrupted | WaitNoChild | WaitError.
Inductive read_answer := Line (s : string) | ReadEof | ReadError | ReadAgain.

Abbreviation job_prog := (prog job_world).

Definition get_job : job_prog CkJob :=
  λ w, match job w with Some j => Some (j, w) | None => None end.
Definition put_job (j : option CkJob) : job_prog unit :=
  prog_modify (λ w, {| job := j; completed := completed w; waited := waited w; killed := killed w |}).
Definition change_job (f : CkJob → CkJob) : job_prog unit := j ← get_job; put_job (Some (f j)).

(** ** Waiting *)

(** The loop [wait_again].  No more answers: it does not return.  Without a child,
    or after another error, the result is the variable as it was. *)
Fixpoint wait_on_child (uninitialised : Z) (answers : list wait_answer) : option Z :=
  match answers with
  | [] => None
  | Reaped status :: _ => Some status
  | WaitInterrupted :: answers => wait_on_child uninitialised answers
  | WaitNoChild :: _ | WaitError :: _ => Some uninitialised
  end.

(** [WEXITSTATUS]. *)
Definition wexitstatus (status : Z) : Z := Z.land (Z.shiftr status 8) 255.

Definition wait_on_job (uninitialised : Z) (answers : list wait_answer) : job_prog Z :=
  j ← get_job;
  prog_modify (λ w, {| job := job w; completed := completed w; waited := waited w ++ [child_pid j]; killed := killed w |});;
  match wait_on_child uninitialised answers with
  | None => prog_abort
  | Some status => change_job (set_child 0);; mret (wexitstatus status)
  end.

Definition maybe_complete_job (uninitialised : Z) (answers : list wait_answer) : job_prog unit :=
  j ← get_job;
  if Z.eqb (out_watch_id j) 0 && Z.eqb (err_watch_id j) 0 then
    status ← wait_on_job uninitialised answers;
    prog_modify (λ w, {| job := job w; completed := completed w ++ [status]; waited := waited w; killed := killed w |})
  else mret tt.

(** ** The channels *)

(** Whether the channel has ended. *)
Definition channel_finished (cond_in cond_hup : bool) (a : read_answer) : bool :=
  if cond_in then match a with ReadEof | ReadError => true | _ => false end else cond_hup.
Definition line_read (cond_in : bool) (a : read_answer) : string :=
  if cond_in then match a with Line s => s | _ => "" end else "".

(** The result says whether the watch stays. *)
Definition error_watch (cond_in cond_hup : bool) (a : read_answer) (uninitialised : Z) (answers : list wait_answer) :
    job_prog bool :=
  change_job (λ j, set_output (std_out j) (std_err j +:+ line_read cond_in a) j);;
  if channel_finished cond_in cond_hup a then
    change_job (λ j, set_watches 0 (out_watch_id j) j);;
    maybe_complete_job uninitialised answers;;
    mret false
  else mret true.
Definition out_watch (cond_in cond_hup : bool) (a : read_answer) (uninitialised : Z) (answers : list wait_answer) :
    job_prog bool :=
  change_job (λ j, set_output (std_out j +:+ line_read cond_in a) (std_err j) j);;
  if channel_finished cond_in cond_hup a then
    change_job (λ j, set_watches (err_watch_id j) 0 j);;
    maybe_complete_job uninitialised answers;;
    mret false
  else mret true.

(** ** Operations *)

Definition ck_job_init : CkJob :=
  {| err_watch_id := 0; out_watch_id := 0; command := ""; std_out := ""; std_err := ""; child_pid := 0 |}.
Definition ck_job_new : job_world := {| job := Some ck_job_init; completed := []; waited := []; killed := [] |}.

Definition ck_job_set_command (c : string) : job_prog unit :=
  change_job (λ j, {| err_watch_id := err_watch_id j; out_watch_id := out_watch_id j; command := c;
                      std_out := std_out j; std_err := std_err j; child_pid := child_pid j |}).
Definition ck_job_get_command : job_prog string := j ← get_job; mret (command j).
Definition ck_job_get_stdout : job_prog string := j ← get_job; mret (std_out j).

(** What became of the command: not parsed or not started ([None]), or the child
    and the ids of the two watches. *)
Definition ck_job_execute (spawn : string → option (Z * Z * Z)) : job_prog bool :=
  j ← get_job;
  match spawn (command j) with
  | None => mret false
  | Some (pid, out_id, err_id) =>
      change_job (set_child pid);;
      change_job (λ j, set_watches (err_watch_id j) out_id j);;
      change_job (λ j, set_watches err_id (out_watch_id j) j);;
      mret true
  end.

Definition ck_job_cancel (uninitialised : Z) (answers : list wait_answer) : job_prog bool :=
  j ← get_job;
  if Z.ltb 0 (child_pid j) then
    prog_modify (λ w, {| job := job w; completed := completed w; waited := waited w; killed := killed w ++ [child_pid j] |});;
    wait_on_job uninitialised answers;;
    mret true
  else mret false.

(** The watches are sources of the main loop: without an id they are gone. *)
Definition ck_job_finalize (uninitialised : Z) (answers : list wait_answer) : job_prog unit :=
  ck_job_cancel uninitialised answers;;
  change_job (λ j, if Z.ltb 0 (out_watch_id j) then set_watches (err_watch_id j) 0 j else j);;
  change_job (λ j, if Z.ltb 0 (err_watch_id j) then set_watches 0 (out_watch_id j) j else j);;
  put_job None.

(** ** A job and the main loop *)

(** What the main loop may do next: dispatch a watch that is installed. *)
Inductive channel := StdOut | StdErr.
Record wakeup := {
  wk_channel : channel;
  wk_in : bool;
  wk_hup : bool;
  wk_read : read_answer;
  wk_uninitialised : Z;
  wk_wait : list wait_answer
}.
Definition watched (c : channel) (j : CkJob) : bool :=
  match c with StdOut => negb (Z.eqb (out_watch_id j) 0) | StdErr => negb (Z.eqb (err_watch_id j) 0) end.
Definition dispatch (k : wakeup) : job_prog unit :=
  j ← get_job;
  if watched (wk_channel k) j then
    match wk_channel k with
    | StdOut => out_watch (wk_in k) (wk_hup k) (wk_read k) (wk_uninitialised k) (wk_wait k);; mret tt
    | StdErr => error_watch (wk_in k) (wk_hup k) (wk_read k) (wk_uninitialised k) (wk_wait k);; mret tt
    end
  else prog_abort.
Definition run_job (l : list wakeup) : job_prog unit := for_each dispatch l.

(** ** What a job does *)

(** What was read from a channel, and whether it ended. *)
Fixpoint read_from (c : channel) (l : list wakeup) : string :=
  match l with
  | [] => ""
  | k :: l => (match c, wk_channel k with
               | StdOut, StdOut | StdErr, StdErr => line_read (wk_in k) (wk_read k)
               | _, _ => ""
               end) +:+ read_from c l
  end.
Definition ends (c : channel) (k : wakeup) : bool :=
  match c, wk_channel k with
  | StdOut, StdOut | StdErr, StdErr => channel_finished (wk_in k) (wk_hup k) (wk_read k)
  | _, _ => false
  end.

(** The wakeups the main loop can give a job whose channels are still open as
    [out] and [err] say: none for a channel that ended; with the last end
    the child is waited for. *)
Fixpoint orderly (out err : bool) (l : list wakeup) : Prop :=
  match l with
  | [] => True
  | k :: l =>
      (match wk_channel k with StdOut => out | StdErr => err end) = true ∧
      let out' := out && negb (ends StdOut k) in
      let err' := err && negb (ends StdErr k) in
      (out' || err' = false → is_Some (wait_on_child (wk_uninitialised k) (wk_wait k))) ∧ orderly out' err' l
  end.
Fixpoint open_after (c : channel) (open : bool) (l : list wakeup) : bool :=
  match l with [] => open | k :: l => open_after c (open && negb (ends c k)) l end.

(** The status the child left, as the last wakeup learned it. *)
Definition final_status (l : list wakeup) : option Z :=
  k ← last l; wait_on_child (wk_uninitialised k) (wk_wait k).

(** A job whose child runs, before it completed. *)
Record running (pid : Z) (out err : bool) (o e : string) (w : job_world) : Prop := {
  rn_job : ∃ j, job w = Some j ∧ child_pid j = pid ∧ std_out j = o ∧ std_err j = e ∧
    watched StdOut j = out ∧ watched StdErr j = err;
  rn_completed : completed w = [];
  rn_waited : waited w = []
}.
(** A job that completed. *)
Record finished (pid status : Z) (o e : string) (w : job_world) : Prop := {
  fi_job : ∃ j, job w = Some j ∧ child_pid j = 0%Z ∧ std_out j = o ∧ std_err j = e ∧
    watched StdOut j = false ∧ watched StdErr j = false;
  fi_completed : completed w = [wexitstatus status];
  fi_waited : waited w = [pid]
}.

Lemma wp_get_job (Q : CkJob → job_world → Prop) w j : job w = Some j → Q j w → wp get_job Q w.
Proof. intros E H. unfold wp, get_job. by rewrite E. Qed.
Lemma wp_change_job f (Q : unit → job_world → Prop) w j : job w = Some j →
  Q tt {| job := Some (f j); completed := completed w; waited := waited w; killed := killed w |} → wp (change_job f) Q w.
Proof. intros E H. unfold change_job. apply wp_bind, (wp_get_job _ _ j E). by apply wp_modify. Qed.

Lemma wp_maybe_complete pid out err o e uninit answers w : running pid out err o e w →
  (out || err = false → is_Some (wait_on_child uninit answers)) →
  wp (maybe_complete_job uninit answers) (λ _ w', killed w' = killed w ∧
    if out || err then running pid out err o e w'
    else ∃ status, wait_on_child uninit answers = Some status ∧ finished pid status o e w') w.
Proof.
  intros [(j & Ej & Hpid & Ho & He & Hout & Herr) Hc Hw] Hans. unfold maybe_complete_job.
  apply wp_bind, (wp_get_job _ _ j Ej). simpl in Hout, Herr.
  assert (Z.eqb (out_watch_id j) 0 && Z.eqb (err_watch_id j) 0 = negb (out || err)) as ->.
  { rewrite <- Hout, <- Herr. by destruct (Z.eqb (out_watch_id j) 0), (Z.eqb (err_watch_id j) 0). }
  destruct (out || err) eqn:Eo; cbn [negb].
  - apply wp_ret. split; [done|]. split; [|done|done]. by exists j.
  - apply orb_false_iff in Eo as [-> ->]. destruct (Hans eq_refl) as [status Hs].
    unfold wait_on_job. apply wp_bind, wp_bind, (wp_get_job _ _ j Ej), wp_bind, wp_modify. rewrite Hs.
    apply wp_bind, (wp_change_job _ _ _ j); [done|]. apply wp_ret, wp_modify. split; [done|].
    exists status. split; [done|]. split; simpl; [|by rewrite Hc|by rewrite Hw, Hpid].
    exists (set_child 0 j). by split_and!.
Qed.

(** One wakeup. *)
Lemma wp_dispatch k pid out err o e w : running pid out err o e w → orderly out err [k] →
  let out' := out && negb (ends StdOut k) in
  let err' := err && negb (ends StdErr k) in
  let o' := o +:+ read_from StdOut [k] in
  let e' := e +:+ read_from StdErr [k] in
  wp (dispatch k) (λ _ w', killed w' = killed w ∧
    if out' || err' then running pid out' err' o' e' w'
    else ∃ status, wait_on_child (wk_uninitialised k) (wk_wait k) = Some status ∧ finished pid status o' e' w') w.
Proof.
  intros [(j & Ej & Hpid & Ho & He & Hout & Herr) Hc Hw] (Hopen & Hans & _) out' err' o' e'.
  unfold dispatch. apply wp_bind, (wp_get_job _ _ j Ej).
  assert (watched (wk_channel k) j = true) as -> by by destruct (wk_channel k); [rewrite Hout|rewrite Herr].
  unfold out', err', o', e', ends in *. cbn [read_from] in *. rewrite !sapp_nil_r in *.
  destruct (wk_channel k); rewrite sapp_nil_r; rewrite ?andb_true_r in *; apply wp_bind.
  - unfold out_watch. apply wp_bind, (wp_change_job _ _ _ j); [done|].
    destruct (channel_finished _ _ _); cbn [negb] in *; rewrite ?andb_false_r, ?andb_true_r in *.
    + apply wp_bind. eapply wp_change_job; [done|]. apply wp_bind.
      eapply wp_mono; [apply (wp_maybe_complete pid false err (o +:+ line_read (wk_in k) (wk_read k)) e)|].
      * split; [|done|done]. simpl. eexists. split_and!; try done. simpl. by rewrite Ho.
      * done.
      * intros [] w' Hw'. by apply wp_ret, wp_ret.
    + apply wp_ret, wp_ret. rewrite Hopen. split; [done|]. cbn [orb]. split; [|done|done]. simpl. eexists. split_and!; try done.
      * simpl. by rewrite Ho.
      * by rewrite <- Hopen.
  - unfold error_watch. apply wp_bind, (wp_change_job _ _ _ j); [done|].
    destruct (channel_finished _ _ _); cbn [negb] in *; rewrite ?andb_false_r, ?andb_true_r in *.
    + apply wp_bind. eapply wp_change_job; [done|]. apply wp_bind.
      eapply wp_mono; [apply (wp_maybe_complete pid out false o (e +:+ line_read (wk_in k) (wk_read k)))|].
      * split; [|done|done]. simpl. eexists. split_and!; try done. simpl. by rewrite He.
      * done.
      * intros [] w' Hw'. by apply wp_ret, wp_ret.
    + apply wp_ret, wp_ret. rewrite Hopen, orb_true_r. split; [done|]. split; [|done|done]. simpl. eexists. split_and!; try done.
      * simpl. by rewrite He.
      * by rewrite <- Hopen.
Qed.

(** The state after some wakeups. *)
Definition after (pid : Z) (out err : bool) (o e : string) (l : list wakeup) (w : job_world) : Prop :=
  let out' := open_after StdOut out l in
  let err' := open_after StdErr err l in
  let o' := o +:+ read_from StdOut l in
  let e' := e +:+ read_from StdErr l in
  if out' || err' then running pid out' err' o' e' w
  else ∃ status, final_status l = Some status ∧ finished pid status o' e' w.

Lemma read_from_cons c k l : read_from c (k :: l) = read_from c [k] +:+ read_from c l.
Proof. cbn [read_from]. by rewrite sapp_assoc. Qed.
Lemma orderly_closed k l : ¬ orderly false false (k :: l).
Proof. intros [H _]. by destruct (wk_channel k). Qed.

Lemma wp_run_job l pid out err o e w : out || err = true → running pid out err o e w → orderly out err l →
  wp (run_job l) (λ _ w', killed w' = killed w ∧ after pid out err o e l w') w.
Proof.
  revert out err o e w. induction l as [|k l IH]; intros out err o e w Hopen Hr Hl.
  - apply wp_ret. split; [done|]. unfold after. simpl. by rewrite Hopen, !sapp_nil_r.
  - destruct Hl as (H1 & H2 & H3). unfold run_job. cbn [for_each]. apply wp_bind.
    eapply wp_mono; [by apply (wp_dispatch k pid out err o e)|]. intros [] w1 [Hk Hw1]. cbn zeta in Hw1.
    unfold after. rewrite (read_from_cons StdOut), (read_from_cons StdErr). cbn [open_after]. rewrite <- !sapp_assoc.
    destruct (out && negb (ends StdOut k) || err && negb (ends StdErr k)) eqn:E.
    + eapply wp_mono; [by apply (IH _ _ _ _ _ E Hw1 H3)|]. intros [] w2 [Hk2 Hw2]. split; [by rewrite Hk2, Hk|].
      unfold after in Hw2. cbn zeta in Hw2. destruct (_ || _) eqn:E2 in Hw2; rewrite E2; [done|].
      destruct Hw2 as (status & Hs & Hf). exists status. split; [|done].
      destruct l as [|k' l]; [cbn [open_after] in E2; congruence|]. exact Hs.
    + apply orb_false_iff in E as [E1 E2]. rewrite E1, E2 in H3 |- *.
      destruct l as [|k' l]; [|by apply orderly_closed in H3].
      apply wp_ret. split; [done|]. cbn [open_after orb]. change (read_from StdOut []) with "". change (read_from StdErr []) with "".
      rewrite !sapp_nil_r. destruct Hw1 as (status & Hs & Hf). by exists status.
Qed.

(** ** What a job promises *)

(** A new job of the command, whose child is running. *)
Definition job_at (cmd : string) (pid out_id err_id : Z) : job_world :=
  {| job := Some {| err_watch_id := err_id; out_watch_id := out_id; command := cmd; std_out := ""; std_err := "";
                    child_pid := pid |}; completed := []; waited := []; killed := [] |}.
Lemma started_job {A} cmd spawn pid out_id err_id (m : job_prog A) : spawn cmd = Some (pid, out_id, err_id) →
  (ck_job_set_command cmd;; ck_job_execute spawn;; m) ck_job_new = m (job_at cmd pid out_id err_id).
Proof.
  intros Hsp. unfold ck_job_set_command, ck_job_execute, change_job, get_job, put_job. unfold_prog. simpl.
  by rewrite Hsp.
Qed.
Lemma running_at cmd pid out_id err_id : out_id ≠ 0%Z → err_id ≠ 0%Z → running pid true true "" "" (job_at cmd pid out_id err_id).
Proof.
  intros Ho%Z.eqb_neq He%Z.eqb_neq. split; [|done|done]. eexists. split; [done|]. simpl. by rewrite Ho, He.
Qed.

(** A job that was started and is left to the main loop for a while. *)
Lemma job_runs {A} cmd spawn pid out_id err_id l (m : job_prog A) :
  spawn cmd = Some (pid, out_id, err_id) → out_id ≠ 0%Z → err_id ≠ 0%Z → orderly true true l →
  ∃ w, (ck_job_set_command cmd;; ck_job_execute spawn;; run_job l;; m) ck_job_new = m w ∧ killed w = [] ∧
    after pid true true "" "" l w.
Proof.
  intros Hsp Ho He Hl. rewrite (started_job cmd spawn pid out_id err_id) by done.
  destruct (wp_elim _ _ _ (wp_run_job l pid true true "" "" _ eq_refl (running_at cmd pid out_id err_id Ho He) Hl))
    as ([] & w & Hrun & Hk & Hw).
  exists w. split_and!; [|done|done]. unfold mbind, prog_bind_inst, prog_mbind. by rewrite Hrun.
Qed.

(** [WEXITSTATUS] in numbers. *)
Lemma wexitstatus_div status : wexitstatus status = ((status / 2 ^ 8) mod 2 ^ 8)%Z.
Proof. unfold wexitstatus. change 255%Z with (Z.ones 8). by rewrite Z.land_ones, Z.shiftr_div_pow2 by lia. Qed.
Lemma run_job_snoc l k w : run_job (l ++ [k]) w = match run_job l w with Some (_, w') => dispatch k w' | None => None end.
Proof.
  revert w. unfold run_job, mbind, prog_bind_inst, prog_mbind. induction l as [|k' l IH]; intros w; cbn [for_each app];
    unfold mbind, prog_bind_inst, prog_mbind.
  - destruct (dispatch k w) as [[[] ?]|] eqn:E; cbn; by rewrite E.
  - destruct (dispatch k' w) as [[[] w']|]; [apply IH|done].
Qed.
Lemma job_collects cmd spawn pid out_id err_id l :
  spawn cmd = Some (pid, out_id, err_id) → out_id ≠ 0%Z → err_id ≠ 0%Z → orderly true true l →
  ∃ w, (ck_job_set_command cmd;; ck_job_execute spawn;; run_job l;; ck_job_get_stdout) ck_job_new
         = Some (read_from StdOut l, w) ∧ killed w = [] ∧
    if open_after StdOut true l || open_after StdErr true l
    then completed w = [] ∧ waited w = []
    else ∃ status, final_status l = Some status ∧ completed w = [wexitstatus status] ∧ waited w = [pid].
Proof.
  intros Hsp Ho He Hl. destruct (job_runs cmd spawn pid out_id err_id l ck_job_get_stdout Hsp Ho He Hl) as (w & -> & Hk & Hw).
  unfold after in Hw. cbn zeta in Hw. rewrite !sapp_nil_l in Hw. exists w.
  unfold ck_job_get_stdout, mbind, prog_bind_inst, prog_mbind, get_job. destruct (_ || _).
  - destruct Hw as [(j & Ej & _ & Hj & _) H1 H2]. rewrite Ej, Hj. by split_and!.
  - destruct Hw as (status & Hs & [(j & Ej & _ & Hj & _) H1 H2]). rewrite Ej, Hj. split_and!; try done. by exists status.
Qed.

(** ** The specification, in terms of what the outside world does *)

(** The lines of a channel, in the order they came: only a wakeup that says there
    is something to read brings one. *)
Definition line_of (c : channel) (k : wakeup) : list string :=
  match wk_channel k, wk_in k, wk_read k with
  | StdOut, true, Line s => match c with StdOut => [s] | StdErr => [] end
  | StdErr, true, Line s => match c with StdErr => [s] | StdOut => [] end
  | _, _, _ => []
  end.
Definition lines (c : channel) (l : list wakeup) : list string := l ≫= line_of c.

(** A channel ends with the end of its text, with an error, or when it hangs up
    with nothing to read. *)
Definition end_of (c : channel) (k : wakeup) : Prop :=
  wk_channel k = c ∧ (wk_in k = true ∧ (wk_read k = ReadEof ∨ wk_read k = ReadError) ∨ wk_in k = false ∧ wk_hup k = true).
#[export] Instance channel_eq_dec : EqDecision channel.
Proof. solve_decision. Defined.
#[export] Instance read_answer_eq_dec : EqDecision read_answer.
Proof. solve_decision. Defined.
#[export] Instance end_of_dec c k : Decision (end_of c k).
Proof. unfold end_of. solve_decision. Defined.

(** The main loop gives no wakeup for a channel that ended. *)
Definition served (l : list wakeup) : Prop :=
  ∀ l1 k l2, l = l1 ++ k :: l2 → ¬ Exists (end_of (wk_channel k)) l1.

(** [waitpid], interrupted any number of times, tells the status of the child; or
    it fails for another reason and the variable stays what it was. *)
Inductive waited_for (uninitialised : Z) : list wait_answer → Z → Prop :=
| wf_reaped status rest : waited_for uninitialised (Reaped status :: rest) status
| wf_no_child rest : waited_for uninitialised (WaitNoChild :: rest) uninitialised
| wf_error rest : waited_for uninitialised (WaitError :: rest) uninitialised
| wf_again rest status : waited_for uninitialised rest status → waited_for uninitialised (WaitInterrupted :: rest) status.

Lemma waited_for_loop u answers status : waited_for u answers status ↔ wait_on_child u answers = Some status.
Proof.
  split; [by induction 1|]. induction answers as [|[s| | |] answers IH]; simpl; intros H; try congruence; simplify_eq; constructor; auto.
Qed.
Lemma read_from_lines c l : read_from c l = foldr String.append "" (lines c l).
Proof.
  induction l as [|k l IH]; [done|]. unfold lines in *. cbn [read_from mbind list_bind]. rewrite foldr_app, IH. unfold line_of, line_read.
  destruct (wk_channel k), (wk_in k), (wk_read k), c; cbn [foldr]; by rewrite ?sapp_nil_l, ?sapp_nil_r.
Qed.
Lemma ends_end_of c k : ends c k = bool_decide (end_of c k).
Proof.
  apply eq_true_iff_eq. rewrite bool_decide_eq_true. unfold ends, end_of, channel_finished.
  destruct k as [ch i h r u ws], c, ch, i, r, h; simpl; naive_solver.
Qed.
Lemma open_after_ended c l open : open_after c open l = open && bool_decide (¬ Exists (end_of c) l).
Proof.
  revert open. induction l as [|k l IH]; intros open; cbn [open_after].
  - rewrite bool_decide_true; [by rewrite andb_true_r|]. by intros H%Exists_nil.
  - rewrite IH, ends_end_of, <- andb_assoc. f_equal. apply eq_true_iff_eq.
    rewrite andb_true_iff, negb_true_iff, bool_decide_eq_false, !bool_decide_eq_true, Exists_cons. tauto.
Qed.

(** What the last wakeup of [l] makes of the wait. *)
Definition ended (l : list wakeup) : Prop := Exists (end_of StdOut) l ∧ Exists (end_of StdErr) l.

Lemma still_open l : open_after StdOut true l || open_after StdErr true l = bool_decide (¬ ended l).
Proof.
  rewrite !open_after_ended. cbn [andb]. apply eq_true_iff_eq. rewrite orb_true_iff, !bool_decide_eq_true. unfold ended.
  destruct (decide (Exists (end_of StdOut) l)), (decide (Exists (end_of StdErr) l)); tauto.
Qed.
Lemma served_last l1 k l2 : served (l1 ++ k :: l2) → ended (l1 ++ [k]) → l2 = [].
Proof.
  intros Hs [Ho He]. destruct l2 as [|k' l2]; [done|]. exfalso. apply (Hs (l1 ++ [k]) k' l2); [by rewrite <- app_assoc|].
  by destruct (wk_channel k').
Qed.
Lemma open_after_snoc c l k : open_after c true l && negb (ends c k) = open_after c true (l ++ [k]).
Proof.
  rewrite !open_after_ended, ends_end_of. cbn [andb]. apply eq_true_iff_eq.
  rewrite andb_true_iff, negb_true_iff, bool_decide_eq_false, !bool_decide_eq_true, Exists_app, Exists_cons, Exists_nil. tauto.
Qed.
Lemma served_orderly l : served l →
  (∀ k, last l = Some k → ended l → is_Some (wait_on_child (wk_uninitialised k) (wk_wait k))) → orderly true true l.
Proof.
  intros Hs Hw. assert (∀ l2 l1, l = l1 ++ l2 → orderly (open_after StdOut true l1) (open_after StdErr true l1) l2) as H;
    [|by apply (H l [])].
  induction l2 as [|k l2 IH]; intros l1 ->; [done|]. cbn [orderly]. rewrite !open_after_snoc. split_and!.
  - pose proof (Hs l1 k l2 eq_refl) as Hk. by destruct (wk_channel k); rewrite open_after_ended, bool_decide_true.
  - rewrite still_open, bool_decide_eq_false. intros H%dec_stable. assert (l2 = []) as -> by by eapply served_last.
    apply Hw; [|done]. by rewrite last_snoc.
  - apply IH. by rewrite <- app_assoc.
Qed.
Lemma served_prefix l k : served (l ++ [k]) → served l ∧ ¬ ended l.
Proof.
  intros Hs. split.
  - intros l1 k' l2 ->. apply (Hs l1 k' (l2 ++ [k])). by rewrite <- app_assoc.
  - intros [Ho He]. apply (Hs l k []); [done|]. by destruct (wk_channel k).
Qed.

Lemma orderly_open l1 k l2 out err : orderly out err (l1 ++ k :: l2) →
  open_after (wk_channel k) (match wk_channel k with StdOut => out | StdErr => err end) l1 = true.
Proof.
  revert out err. induction l1 as [|k1 l1 IH]; intros out err; cbn [app orderly open_after]; [by intros [? _]|].
  intros (_ & _ & H%IH). by destruct (wk_channel k).
Qed.
Lemma orderly_served l : orderly true true l → served l.
Proof.
  intros Hl l1 k l2 ->. apply orderly_open in Hl. assert (open_after (wk_channel k) true l1 = true) as H by by destruct (wk_channel k).
  rewrite open_after_ended in H. cbn [andb] in H. by apply bool_decide_eq_true in H.
Qed.

(** A wait that never returns holds the daemon. *)
Lemma dispatch_stuck k pid out err o e w : running pid out err o e w →
  (out && negb (ends StdOut k)) || (err && negb (ends StdErr k)) = false →
  wait_on_child (wk_uninitialised k) (wk_wait k) = None → dispatch k w = None.
Proof.
  intros [(j & Ej & Hpid & Ho & He & Hout & Herr) Hc Hw] Hend Hwait. apply orb_false_iff in Hend as [H1 H2].
  unfold dispatch, ends in *. unfold mbind, prog_bind_inst, prog_mbind, get_job. rewrite Ej.
  destruct (wk_channel k); simpl in Hout, Herr |- *; subst out err; rewrite ?andb_true_r in *.
  - destruct (negb (Z.eqb (out_watch_id j) 0)) eqn:Ew; [|done]. cbn [andb] in H1. apply negb_false_iff in H1. apply negb_false_iff in H2.
    unfold out_watch, change_job, get_job, put_job. unfold_prog. rewrite Ej, H1. cbn [job].
    unfold maybe_complete_job, wait_on_job, get_job. unfold_prog. simpl. rewrite H2. simpl. by rewrite Hwait.
  - destruct (negb (Z.eqb (err_watch_id j) 0)) eqn:Ew; [|done]. cbn [andb] in H2. apply negb_false_iff in H1. apply negb_false_iff in H2.
    unfold error_watch, change_job, get_job, put_job. unfold_prog. rewrite Ej, H2. cbn [job].
    unfold maybe_complete_job, wait_on_job, get_job. unfold_prog. simpl. rewrite H1. simpl. by rewrite Hwait.
Qed.

(** C29: A job that was started, whatever its channels give and in whatever order
    the main loop serves them.  What it collected is the lines that came on its
    standard output.  While a channel has not ended (its end, an error, or a hang-up) it
    is served to the end, it has not said "completed" and has waited for no process.
    With the last of the two ends it waits for its child, once and for no other
    process, through all interruptions; and when that wait returns it says
    "completed" exactly once, with the bits 8 to 15 of the child's status (of a variable
    that was never set, if waitpid fails otherwise).  The one way to be stuck is a wait
    that never returns: a child that has closed its channels and runs on. *)
Theorem job_completes_once cmd spawn pid out_id err_id l :
  spawn cmd = Some (pid, out_id, err_id) → out_id ≠ 0%Z → err_id ≠ 0%Z → served l →
  let run := (ck_job_set_command cmd;; ck_job_execute spawn;; run_job l;; ck_job_get_stdout) ck_job_new in
  let collected := foldr String.append "" (lines StdOut l) in
  (¬ ended l → ∃ w, run = Some (collected, w) ∧ killed w = [] ∧ completed w = [] ∧ waited w = []) ∧
  (∀ k, last l = Some k → ended l →
     (∀ status, waited_for (wk_uninitialised k) (wk_wait k) status →
        ∃ w, run = Some (collected, w) ∧ killed w = [] ∧ completed w = [((status / 2 ^ 8) mod 2 ^ 8)%Z] ∧ waited w = [pid]) ∧
     ((∀ status, ¬ waited_for (wk_uninitialised k) (wk_wait k) status) → run = None)).
Proof.
  intros Hsp Ho He Hs run collected. unfold run, collected. clear run collected.
  assert (orderly true true l → ∃ w, (ck_job_set_command cmd;; ck_job_execute spawn;; run_job l;; ck_job_get_stdout) ck_job_new =
    Some (read_from StdOut l, w) ∧ killed w = [] ∧ (if bool_decide (¬ ended l) then completed w = [] ∧ waited w = []
      else ∃ status, final_status l = Some status ∧ completed w = [wexitstatus status] ∧ waited w = [pid])) as Hrun.
  { intros Hl. rewrite <- still_open. by eapply job_collects. }
  rewrite <- read_from_lines. split; [|intros k Hk Hend; split].
  - intros Hend. rewrite bool_decide_true in Hrun by done. apply Hrun, served_orderly; [done|]. by intros k _ H%Hend.
  - intros status Hst%waited_for_loop. rewrite bool_decide_false in Hrun by (intros H; by apply H).
    destruct Hrun as (w & H1 & H2 & status' & Hf & H3 & H4).
    { apply served_orderly; [done|]. intros k' Hk' _. rewrite Hk in Hk'. injection Hk' as <-. by eexists. }
    exists w. unfold final_status in Hf. rewrite Hk in Hf. cbn [mbind option_bind] in Hf. rewrite Hst in Hf. injection Hf as <-.
    by rewrite <- wexitstatus_div.
  - intros Hno. apply last_Some in Hk as [l' ->]. destruct (served_prefix l' k Hs) as [Hs' Hopen].
    rewrite (started_job cmd spawn pid out_id err_id) by done.
    assert (orderly true true l') as Hl' by (apply served_orderly; [done|by intros k' _ H%Hopen]).
    destruct (wp_elim _ _ _ (wp_run_job l' pid true true "" "" _ eq_refl (running_at cmd pid out_id err_id Ho He) Hl'))
      as ([] & w & Hrun' & _ & Hw).
    unfold after in Hw. cbn zeta in Hw. rewrite still_open, bool_decide_true in Hw by done.
    assert (run_job (l' ++ [k]) (job_at cmd pid out_id err_id) = None) as Hnone; [|by unfold mbind, prog_bind_inst, prog_mbind; rewrite Hnone].
    rewrite run_job_snoc, Hrun'. cbn beta iota. eapply dispatch_stuck; [exact Hw| |].
    + rewrite !open_after_snoc, still_open. apply bool_decide_false. intros H; by apply H.
    + destruct (wait_on_child _ _) as [st|] eqn:E; [|done]. by apply waited_for_loop, Hno in E.
Qed.

(** The end of a job: whatever it went through, finalizing leaves no child behind.
    A child that did not yet end is killed and waited for; no child is
    waited for twice, and the job is gone. *)
Theorem job_reaps_once cmd spawn pid out_id err_id l uninit answers :
  spawn cmd = Some (pid, out_id, err_id) → (0 < pid)%Z → out_id ≠ 0%Z → err_id ≠ 0%Z → orderly true true l →
  is_Some (wait_on_child uninit answers) →
  ∃ w, (ck_job_set_command cmd;; ck_job_execute spawn;; run_job l;; ck_job_finalize uninit answers) ck_job_new
         = Some (tt, w) ∧ job w = None ∧ waited w = [pid] ∧
    killed w = if open_after StdOut true l || open_after StdErr true l then [pid] else [].
Proof.
  intros Hsp Hpid Ho He Hl [st Hans].
  destruct (job_runs cmd spawn pid out_id err_id l (ck_job_finalize uninit answers) Hsp Ho He Hl) as (w & -> & Hk & Hw).
  unfold after in Hw. cbn zeta in Hw. unfold ck_job_finalize, ck_job_cancel, wait_on_job, change_job, get_job, put_job.
  destruct w as [jw cw ww kw]. simpl in Hk. subst kw. destruct (_ || _).
  - destruct Hw as [(j & Ej & Hp & _) H1 H2]. simpl in *. subst. unfold_prog. simpl.
    apply Z.ltb_lt in Hpid. rewrite Hpid. simpl. rewrite Hans. simpl. eexists. by split_and!.
  - destruct Hw as (status & _ & [(j & Ej & Hp & _) H1 H2]). simpl in *. subst. unfold_prog. simpl. rewrite Hp. simpl.
    eexists. by split_and!.
Qed.

(** ** What the status hides *)

(** The status of a child that exited with [c]; that of one killed by a signal
    is the signal, with 128 added for a core dump. *)
Definition exit_status (c : Z) : Z := Z.shiftl c 8.
Lemma wexitstatus_exit c : (0 ≤ c < 256)%Z → wexitstatus (exit_status c) = c.
Proof.
  intros Hc. unfold wexitstatus, exit_status. rewrite Z.shiftr_shiftl_r, Z.shiftr_0_r by lia.
  change 255%Z with (Z.ones 8). rewrite Z.land_ones by lia. by apply Z.mod_small.
Qed.
Lemma wexitstatus_signal s : (0 ≤ s < 256)%Z → wexitstatus s = 0%Z.
Proof. intros Hs. unfold wexitstatus. by rewrite Z.shiftr_div_pow2, Z.div_small by lia. Qed.

Definition wake (c : channel) (a : read_answer) (answers : list wait_answer) : wakeup :=
  {| wk_channel := c; wk_in := true; wk_hup := false; wk_read := a; wk_uninitialised := 0; wk_wait := answers |}.

Lemma no_lines_after l1 e l2 : served (l1 ++ e :: l2) → end_of StdOut e → lines StdOut l2 = [].
Proof.
  intros Hs He. assert (∀ k, k ∈ l2 → wk_channel k ≠ StdOut) as H.
  { intros k (l3 & l4 & ->)%list_elem_of_split Hk. apply (Hs (l1 ++ e :: l3) k l4); [by rewrite <- app_assoc|].
    rewrite Hk. apply Exists_app. right. by left. }
  unfold lines. clear Hs. induction l2 as [|k l2 IH]; [done|]. cbn [mbind list_bind]. rewrite IH by (intros k' Hk'; apply H; by right).
  rewrite app_nil_r. unfold line_of. specialize (H k ltac:(left)). by destruct (wk_channel k), (wk_in k), (wk_read k).
Qed.

(** C30: A job whose output cannot be read to its end says that all went well.  The
    read error [e] ends the channel for good, although nothing says that there is no
    more text; if the child is then killed by a signal (by SIGPIPE for instance, at
    the next thing it writes), the job completes with 0, since a signal leaves the bits of
    the exit status 0; and the lines that came before the error pass for the output. *)
Theorem truncated_output_succeeds cmd spawn pid out_id err_id l1 e l2 k signal :
  let l := l1 ++ e :: l2 in
  spawn cmd = Some (pid, out_id, err_id) → out_id ≠ 0%Z → err_id ≠ 0%Z → served l →
  wk_channel e = StdOut → wk_in e = true → wk_read e = ReadError → Exists (end_of StdErr) l →
  last l = Some k → waited_for (wk_uninitialised k) (wk_wait k) signal → (0 ≤ signal < 2 ^ 8)%Z →
  ∃ w, (ck_job_set_command cmd;; ck_job_execute spawn;; run_job l;; ck_job_get_stdout) ck_job_new
         = Some (foldr String.append "" (lines StdOut l1), w) ∧ completed w = [0%Z].
Proof.
  intros l Hsp Ho He Hs Hc Hin Hr Herr Hk Hw Hsig.
  assert (end_of StdOut e) as Hend by (split; [done|left; split; [done|by right]]).
  destruct (job_collects cmd spawn pid out_id err_id l Hsp Ho He) as (w & Hrun & _ & Hfin).
  { apply served_orderly; [done|]. intros k' Hk' _. rewrite Hk in Hk'. injection Hk' as <-. apply waited_for_loop in Hw. by eexists. }
  assert (ended l) as Hboth by (split; [apply Exists_app; right; by left|done]).
  rewrite still_open, bool_decide_false in Hfin by (intros H; by apply H).
  destruct Hfin as (status & Hf & H1 & _). unfold final_status in Hf. rewrite Hk in Hf. cbn [mbind option_bind] in Hf.
  apply waited_for_loop in Hw. rewrite Hw in Hf. injection Hf as <-. exists w. rewrite Hrun, H1, wexitstatus_signal by done.
  split; [|done]. rewrite read_from_lines. unfold lines, l. rewrite bind_app, bind_cons.
  fold (lines StdOut l2). rewrite (no_lines_after l1 e l2) by done. unfold line_of at 2. rewrite Hc, Hin, Hr. by rewrite !app_nil_r.
Qed.

(** ** Runs *)

(** A cancelled job keeps its watches: if it is still referred to when they end,
    it waits for process 0, which is any child of the daemon's group. *)
Example cancelled_job_waits_for_anyone :
  match (ck_job_execute (λ _, Some (7, 1, 2)%Z);; ck_job_cancel 0 [Reaped 15];;
         run_job [wake StdOut ReadEof []; wake StdErr ReadEof [WaitInterrupted; Reaped 256]]) ck_job_new with
  | Some (_, w) => waited w = [7; 0]%Z ∧ completed w = [1%Z]
  | None => False
  end.
Proof. vm_compute. done. Qed.

Definition orderly_run : list wakeup :=
  [wake StdErr ReadEof []; wake StdOut (Line "a = b") []; wake StdOut ReadAgain []; wake StdOut ReadEof [WaitInterrupted; Reaped 768]].
Definition cut_off : list wakeup :=
  [wake StdOut (Line "unix-user = 0") []; wake StdOut ReadError []; wake StdErr ReadEof [Reaped 13]].
Definition spawned (_ : string) : option (Z * Z * Z) := Some (7, 1, 2)%Z.
Lemma orderly_run_ok : orderly true true orderly_run.
Proof. vm_compute. split_and!; try done; eexists; reflexivity. Qed.
Lemma cut_off_ok : orderly true true cut_off.
Proof. vm_compute. split_and!; try done; eexists; reflexivity. Qed.

Lemma job_completes_once_witness : ∃ w,
  (ck_job_set_command "true";; ck_job_execute spawned;; run_job orderly_run;; ck_job_get_stdout) ck_job_new
    = Some ("a = b", w) ∧ completed w = [3%Z] ∧ waited w = [7%Z].
Proof.
  destruct (job_completes_once "true" spawned 7 1 2 orderly_run eq_refl ltac:(lia) ltac:(lia) (orderly_served _ orderly_run_ok))
    as [_ H].
  destruct (proj1 (H _ eq_refl ltac:(split; vm_compute; eauto 10)) 768%Z) as (w & H1 & _ & H2 & H3).
  - vm_compute. repeat constructor.
  - exists w. split_and!; [exact H1|exact H2|exact H3].
Defined.
Lemma job_reaps_once_witness : ∃ w,
  (ck_job_set_command "true";; ck_job_execute spawned;; run_job (take 2 orderly_run);; ck_job_finalize 0 [Reaped 15]) ck_job_new
    = Some (tt, w) ∧ waited w = [7%Z] ∧ killed w = [7%Z].
Proof.
  destruct (job_reaps_once "true" spawned 7 1 2 (take 2 orderly_run) 0 [Reaped 15] eq_refl ltac:(lia) ltac:(lia) ltac:(lia))
    as (w & H1 & _ & H2 & H3); [vm_compute; by split_and!|by eexists|].
  exists w. split_and!; [exact H1|exact H2|exact H3].
Defined.
Lemma truncated_output_succeeds_witness : ∃ w,
  (ck_job_set_command "true";; ck_job_execute spawned;; run_job cut_off;; ck_job_get_stdout) ck_job_new
    = Some ("unix-user = 0", w) ∧ completed w = [0%Z].
Proof.
  apply (truncated_output_succeeds "true" spawned 7 1 2 [wake StdOut (Line "unix-user = 0") []] (wake StdOut ReadError [])
    [wake StdErr ReadEof [Reaped 13]] (wake StdErr ReadEof [Reaped 13]) 13 eq_refl ltac:(lia) ltac:(lia)
    (orderly_served _ cut_off_ok) eq_refl eq_refl eq_refl); [|done|constructor|lia].
  right. right. left. split; [done|]. left. split; [done|by left].
Defined.
