(* ===== verification/RuntimeDir.v ===== *)
(** * Runtime directories: [src/ck-sysdeps-unix.c], [src/ck-sysdeps-linux.c] and
    [src/tools/ck-remove-directory.c].

    A user's sessions share a directory below RUNDIR/user that is theirs alone,
    new with their first session and gone with the last.  Here: the trees of
    these directories with what is mounted on them, the calls of the daemon, and
    the program that empties a directory as its user. *)

From S2P Require Import Prelude Scan.

(** ** Trees *)

(** Links are files: they are not followed. *)
#[warnings="-register-all"]
Inductive node :=
| File (owner mode : Z)
| Dir (owner mode : Z) (entries : list (string * node)).

Definition node_owner (n : node) : Z := match n with File o _ | Dir o _ _ => o end.
Definition set_owner (u : Z) (n : node) : node :=
  match n with File _ m => File u m | Dir _ m es => Dir u m es end.

(** What the kernel allows a user: to list and search a directory, to delete an
    entry of it. *)
Class Permissions := {
  may_list : Z → Z → Z → bool;
  may_delete : Z → Z → Z → Z → bool
}.

(** The system: the configured directory, the users' groups, whether the
    calls succeed. *)
Class RunHost := {
  RUNDIR : string;
  pw_gid : Z → option Z;
  base_mkdir_ok : bool;
  base_chown_ok : bool;
  remover_spawns : bool;
  chown_ok : bool;
  mount_ok : bool
}.

(** At each path what is mounted there, the last first; the last of the list is the
    directory itself. *)
Abbreviation run_fs := (gmap string (list node)).

(** ** ck-remove-directory *)

(** The entries one after the other, up to the first failure: what is left. *)
Definition unlink_list (f : node → option node) : list (string * node) → list (string * node) :=
  fix go es :=
    match es with
    | [] => []
    | (name, n) :: es => match f n with None => go es | Some n' => (name, n') :: es end
    end.

Section remove.
Context {HP : Permissions} {HR : RunHost}.

(** [nftw] with FTW_DEPTH and [unlink_cb], as user [u] in a directory of owner [o]
    and mode [m]: what is left of an entry.  The first failure ends the program.
    A directory that cannot be listed is given to [remove] as it is. *)
Fixpoint unlink_tree (u o m : Z) (n : node) : option node :=
  match n with
  | File fo _ => if may_delete u o m fo then None else Some n
  | Dir d_o d_m es =>
      let es := if may_list u d_o d_m then unlink_list (unlink_tree u d_o d_m) es else es in
      if bool_decide (es = []) && may_delete u o m d_o then None else Some (Dir d_o d_m es)
  end.

(** [remove_dest_dir]: as the user what is in the directory, as root the directory
    itself, which cannot go while something is mounted on it. *)
Definition remove_dest_dir (u : Z) (dest : string) (fs : run_fs) : run_fs :=
  match fs !! dest with
  | None | Some [] => fs
  | Some (n :: below) =>
      let n := match n with
               | File _ _ => n
               | Dir o m es => Dir o m (if may_list u o m then unlink_list (unlink_tree u o m) es else es)
               end in
      let empty := match n with File _ _ => true | Dir _ _ es => bool_decide (es = []) end in
      if empty && bool_decide (below = []) then delete dest fs else <[dest := n :: below]> fs
  end.

(** [main], which root runs; [become_user] ends it for an unknown user. *)
Definition ck_remove_directory (user_id : Z) (dest : string) (fs : run_fs) : run_fs :=
  match strip_prefix (RUNDIR +:+ "/user/") dest with
  | None => fs
  | Some _ =>
      match pw_gid (u32 user_id) with
      | None => fs
      | Some _ => remove_dest_dir (u32 user_id) dest fs
      end
  end.

(** ** The daemon *)

Definition get_rundir (uid : Z) : string := RUNDIR +:+ "/user" +:+ "/" +:+ fmt_int (i32 uid).
Definition create_rundir_base : bool := base_mkdir_ok && base_chown_ok.

(** The program's exit status is not asked for. *)
Definition remove_rundir (uid : Z) (dest : string) (fs : run_fs) : bool * run_fs :=
  if Z.ltb uid 1 then (false, fs)
  else if remover_spawns then (true, ck_remove_directory (i32 uid) dest fs) else (false, fs).

(** [g_mkdir_with_parents]: a directory that is there will do. *)
Definition mkdir_with_parents (dest : string) (fs : run_fs) : option run_fs :=
  match fs !! dest with
  | Some (Dir _ _ _ :: _) => Some fs
  | Some (File _ _ :: _) => None
  | _ => Some (<[dest := [Dir 0 448 []]]> fs)
  end.
Definition chown (dest : string) (u : Z) (fs : run_fs) : run_fs :=
  match fs !! dest with Some (n :: below) => <[dest := set_owner u n :: below]> fs | _ => fs end.

(** A new file system of the user, mode 0700, over the directory. *)
Definition ck_make_tmpfs (uid : Z) (dest : string) (fs : run_fs) : run_fs :=
  if mount_ok then <[dest := Dir uid 448 [] :: default [] (fs !! dest)]> fs else fs.
(** [umount2] with MNT_DETACH: the last thing mounted, if there is one. *)
Definition ck_remove_tmpfs (dest : string) (fs : run_fs) : run_fs :=
  match fs !! dest with Some (_ :: n :: below) => <[dest := n :: below]> fs | _ => fs end.

Definition ck_generate_runtime_dir_for_user (uid : Z) (fs : run_fs) : cstr * run_fs :=
  match pw_gid uid with
  | None => (None, fs)
  | Some _ =>
      if negb create_rundir_base then (None, fs)
      else
        let dest := get_rundir uid in
        let fs := if bool_decide (is_Some (fs !! dest)) then (remove_rundir uid dest fs).2 else fs in
        match mkdir_with_parents dest fs with
        | None => (None, fs)
        | Some fs =>
            if negb chown_ok then (None, fs)
            else (Some dest, ck_make_tmpfs uid dest (chown dest uid fs))
        end
  end.

Definition ck_remove_runtime_dir_for_user (uid : Z) (fs : run_fs) : run_fs :=
  let dest := get_rundir uid in
  (remove_rundir uid dest (ck_remove_tmpfs dest fs)).2.
End remove.

(** ** What a user can clear *)

(** What POSIX says of an owner whose directory is readable, writable and
    searchable for them. *)
Class PermissionLaws {HP : Permissions} := {
  owner_lists : ∀ u m, Z.land m 448 = 448%Z → may_list u u m = true;
  owner_deletes : ∀ u m o, Z.land m 448 = 448%Z → may_delete u u m o = true
}.

Fixpoint own_tree (u : Z) (n : node) : bool :=
  match n with
  | File o _ => true
  | Dir o m es => Z.eqb o u && Z.eqb (Z.land m 448) 448 && forallb (λ e, own_tree u e.2) es
  end.

Section node_induction.
Variable P : node → Prop.
Hypothesis HFile : ∀ o m, P (File o m).
Hypothesis HDir : ∀ o m es, Forall (λ e, P e.2) es → P (Dir o m es).
Fixpoint node_induction (n : node) : P n :=
  match n with
  | File o m => HFile o m
  | Dir o m es =>
      HDir o m es ((fix go es : Forall (λ e, P e.2) es :=
        match es with [] => Forall_nil_2 _ | e :: es => Forall_cons_2 _ _ _ (node_induction e.2) (go es) end) es)
  end.
End node_induction.

Section facts.
Context {HP : Permissions} {HPL : PermissionLaws} {HR : RunHost}.
Implicit Types (fs : run_fs) (n : node).

Lemma unlink_list_clears f es : Forall (λ e, f e.2 = None) es → unlink_list f es = [].
Proof. induction 1 as [|[name n] es Hn _ IH]; [done|]. simpl in *. by rewrite Hn. Qed.

Lemma own_tree_clears u n : own_tree u n = true → ∀ m, Z.land m 448 = 448%Z → unlink_tree u u m n = None.
Proof.
  induction n as [o fm|o dm es IH] using node_induction; intros Hown m Hm; simpl.
  - by rewrite owner_deletes.
  - simpl in Hown. apply andb_true_iff in Hown as [[->%Z.eqb_eq Hdm%Z.eqb_eq]%andb_true_iff Hes].
    rewrite owner_lists, unlink_list_clears, owner_deletes; try done.
    rewrite forallb_forall in Hes. rewrite Forall_forall in IH |- *. intros e He.
    apply IH; [done| |done]. by apply Hes, list_elem_of_In.
Qed.

(** ** One path at a time *)

Definition same_elsewhere (dest : string) fs fs' : Prop := ∀ p, p ≠ dest → fs' !! p = fs !! p.

Lemma remove_elsewhere uid dest fs : same_elsewhere dest fs (remove_rundir uid dest fs).2.
Proof.
  intros p Hp. unfold remove_rundir, ck_remove_directory, remove_dest_dir.
  destruct (Z.ltb uid 1); [done|]. destruct remover_spawns; [|done]. destruct (strip_prefix _ dest); [|done].
  destruct (pw_gid _); [|done]. simpl. destruct (fs !! dest) as [[|n below]|]; [done| |done].
  destruct (_ && _); [by rewrite lookup_delete_ne|by rewrite lookup_insert_ne].
Qed.

(** A user whose directories can be removed. *)
Definition known_user (uid : Z) : Prop := (0 < uid < 2 ^ 32)%Z ∧ is_Some (pw_gid uid) ∧ remover_spawns = true.

Lemma remove_known uid fs : known_user uid →
  (remove_rundir uid (get_rundir uid) fs).2 = remove_dest_dir uid (get_rundir uid) fs.
Proof.
  intros (Hr & [g Hg] & Hs). unfold remove_rundir. destruct (Z.ltb_spec uid 1); [lia|]. rewrite Hs. simpl.
  assert (u32 (i32 uid) = uid) as Hu by by rewrite u32_i32, u32_small by lia.
  unfold ck_remove_directory, get_rundir. rewrite <- !sapp_assoc.
  replace ((RUNDIR +:+ "/user") +:+ "/") with (RUNDIR +:+ "/user/") by by rewrite sapp_assoc.
  by rewrite strip_prefix_app, Hu, Hg.
Qed.

(** What is left of the entries of a directory that its user [u] clears. *)
Definition left_entries (u o m : Z) (es : list (string * node)) : list (string * node) :=
  if may_list u o m then unlink_list (unlink_tree u o m) es else es.

Lemma remove_dest_dir_at u dest fs o m es below : fs !! dest = Some (Dir o m es :: below) →
  remove_dest_dir u dest fs !! dest =
    if bool_decide (left_entries u o m es = []) && bool_decide (below = []) then None
    else Some (Dir o m (left_entries u o m es) :: below).
Proof.
  intros E. unfold remove_dest_dir. rewrite E. fold (left_entries u o m es). destruct (_ && _).
  - apply lookup_delete_eq.
  - apply lookup_insert_eq.
Qed.

(** ** What the daemon promises *)

(** What is there when the directory is made: nothing, or what the user could not clear. *)
Definition remains (u : Z) (old : option (list node)) : option (list node) :=
  match old with
  | Some (Dir o m es :: below) =>
      if bool_decide (left_entries u o m es = []) && bool_decide (below = []) then None
      else Some (Dir o m (left_entries u o m es) :: below)
  | _ => None
  end.
(** No file, and no path without anything. *)
Definition is_directory (old : option (list node)) : Prop :=
  match old with None | Some (Dir _ _ _ :: _) => True | _ => False end.

(** C31: When the system does what it is asked, a user's runtime directory belongs
    to them.  With a file system of its own it is new, empty and mode 0700, whatever
    there was; without one only if the user could clear all there was.  Else what
    could not be cleared is still there, below a directory that keeps the
    mode of its earlier life.  No other path changes. *)
Theorem generated_dir uid fs : known_user uid → create_rundir_base = true → chown_ok = true →
  is_directory (fs !! get_rundir uid) →
  ∃ fs' top below, ck_generate_runtime_dir_for_user uid fs = (Some (get_rundir uid), fs') ∧
    fs' !! get_rundir uid = Some (top :: below) ∧ node_owner top = uid ∧ same_elsewhere (get_rundir uid) fs fs' ∧
    match mount_ok, remains uid (fs !! get_rundir uid) with
    | false, Some (n :: rest) => top = set_owner uid n ∧ below = rest
    | _, _ => top = Dir uid 448 []
    end.
Proof.
  intros Hk Hb Hc Hd. pose proof Hk as (_ & [g Hg] & _). unfold ck_generate_runtime_dir_for_user. rewrite Hg, Hb, Hc. simpl.
  set (dest := get_rundir uid) in *.
  set (fs1 := if bool_decide (is_Some (fs !! dest)) then (remove_rundir uid dest fs).2 else fs).
  assert (fs1 !! dest = remains uid (fs !! dest) ∧ same_elsewhere dest fs fs1) as [E1 S1].
  { unfold fs1. destruct (fs !! dest) as [[|[o m|o m es] below]|] eqn:E; try done. simpl.
    split; [|apply remove_elsewhere]. unfold dest in *. rewrite remove_known by done. by apply remove_dest_dir_at. }
  clearbody fs1. unfold mkdir_with_parents, chown, ck_make_tmpfs. rewrite E1.
  assert (∀ fs2 l, same_elsewhere dest fs fs2 → same_elsewhere dest fs (<[dest := l]> fs2)) as Hset.
  { intros fs2 l H p Hp. rewrite lookup_insert_ne by done. by apply H. }
  destruct (remains uid (fs !! dest)) as [[|[o m|o m es] below]|] eqn:Er.
  1, 2: exfalso; destruct (fs !! dest) as [[|[? ?|? ? ?] ?]|]; try done; simpl in Er; by destruct (_ && _).
  - rewrite E1. destruct mount_ok; eexists _, _, _; (split; [done|]); rewrite !lookup_insert_eq; (split; [done|]);
      (split; [done|]); (split; [by auto|]); done.
  - rewrite !lookup_insert_eq. destruct mount_ok; eexists _, _, _; (split; [done|]); rewrite !lookup_insert_eq; (split; [done|]);
      (split; [done|]); (split; [by auto|]); done.
Qed.

(** What the daemon's [umount2] leaves to see at the path. *)
Definition uncovered (n : node) (below : list node) : list node := match below with [] => [n] | _ => below end.

Lemma uncover_at n below path fs : fs !! path = Some (n :: below) →
  ck_remove_tmpfs path fs !! path = Some (uncovered n below) ∧ same_elsewhere path fs (ck_remove_tmpfs path fs).
Proof.
  intros E. unfold ck_remove_tmpfs. rewrite E. destruct below as [|n' below]; [done|].
  split; [apply lookup_insert_eq|]. intros p Hp. by rewrite lookup_insert_ne.
Qed.

(** C32: What stays of a session: of all that is at the path the last mount is
    detached, and if that leaves one directory, not more, the user's removal takes
    from it what the user may delete and then, if nothing is left, the path; so
    the path is gone when one file system was mounted over an empty directory,
    whatever the user or anybody else put into it, and without a mount when all
    directories are the user's own.  This is for a user that the system knows
    and a remover that can be started; else the path stays, what was
    mounted last apart.  No other path changes. *)
Theorem runtime_dir_gone uid fs n below : fs !! get_rundir uid = Some (n :: below) →
  let path := get_rundir uid in
  let fs' := ck_remove_runtime_dir_for_user uid fs in
  (known_user uid → is_directory (Some (uncovered n below)) → fs' !! path = remains uid (Some (uncovered n below))) ∧
  (known_user uid →
     (∃ o m, below = [Dir o m []]) ∨ (below = [] ∧ ∃ m es, n = Dir uid m es ∧ own_tree uid n = true) →
     fs' !! path = None) ∧
  ((uid < 1)%Z ∨ remover_spawns = false ∨ pw_gid (u32 uid) = None → fs' !! path = Some (uncovered n below)) ∧
  same_elsewhere path fs fs'.
Proof.
  intros E path fs'. destruct (uncover_at n below path fs E) as [Eu Su].
  assert (known_user uid → is_directory (Some (uncovered n below)) → fs' !! path = remains uid (Some (uncovered n below))) as Hrem.
  { intros Hk Hd. unfold fs', ck_remove_runtime_dir_for_user. fold path. unfold path in *. rewrite remove_known by done.
    destruct (uncovered n below) as [|[o m|o m es] rest] eqn:Ec; try done. by rewrite (remove_dest_dir_at uid _ _ o m es rest). }
  split_and!; [exact Hrem| | |].
  - intros Hk [(o & m & ->)|(-> & m & es & -> & Hown)]; rewrite Hrem; try done; simpl.
    + assert (left_entries uid o m [] = []) as -> by by unfold left_entries; destruct (may_list uid o m). done.
    + simpl in Hown. apply andb_true_iff in Hown as [[_ Hm%Z.eqb_eq]%andb_true_iff Hes]. unfold left_entries.
      rewrite owner_lists, unlink_list_clears; [done| |done]. apply Forall_forall. intros e He.
      rewrite forallb_forall in Hes. apply own_tree_clears; [|done]. by apply Hes, list_elem_of_In.
  - intros Hno. rewrite <- Eu. unfold fs', ck_remove_runtime_dir_for_user, remove_rundir. fold path.
    destruct (Z.ltb_spec uid 1) as [|H1]; [done|]. destruct remover_spawns eqn:Hs; [|done].
    unfold ck_remove_directory. rewrite u32_i32. destruct Hno as [|[|Hno]]; [lia|done|]. rewrite Hno.
    by destruct (strip_prefix _ _).
  - intros q Hq. unfold fs', ck_remove_runtime_dir_for_user. fold path. rewrite remove_elsewhere by done. by apply Su.
Qed.
End facts.

(** ** A system that does what it is asked *)

(** The permissions of POSIX without groups: root may do everything; elsewhere the
    bits of the owner or of the others, and the sticky bit. *)
Section posix.
Definition class_bits (u o m b : Z) : bool :=
  Z.eqb u 0 || (if Z.eqb u o then Z.eqb (Z.land m (Z.shiftl b 6)) (Z.shiftl b 6) else Z.eqb (Z.land m b) b).
#[local] Instance posix : Permissions := {|
  may_list u o m := class_bits u o m 5;
  may_delete u o m fo := class_bits u o m 3 && (negb (Z.testbit m 9) || Z.eqb u 0 || Z.eqb u o || Z.eqb u fo)
|}.

Lemma owner_bits u m b : Z.land m 448 = 448%Z → Z.land 448 (Z.shiftl b 6) = Z.shiftl b 6 → class_bits u u m b = true.
Proof.
  intros Hm Hb. unfold class_bits. rewrite Z.eqb_refl, <- Hb, Z.land_assoc, Hm, Hb, Z.eqb_refl. apply orb_true_r.
Qed.

#[local] Instance posix_laws : PermissionLaws.
Proof.
  split; intros; cbn [may_list may_delete posix]; rewrite owner_bits by done; [done|].
  by rewrite Z.eqb_refl, !orb_true_r.
Qed.

#[local] Instance run_host : RunHost := {|
  RUNDIR := "/run"; pw_gid u := if bool_decide (u = 1000%Z) then Some 1000%Z else None;
  base_mkdir_ok := true; base_chown_ok := true; remover_spawns := true; chown_ok := true; mount_ok := false
|}.

(** A directory of the user with a file, a directory root left there with
    another file, and the mode the user set. *)
Definition left_behind : run_fs :=
  {["/run/user/1000" := [Dir 1000 511 [("bus", File 1000 511); ("sudo", Dir 0 493 [("log", File 0 420)]); ("x", File 1000 420)]]]}.

(** Without a file system of its own the next session's directory is not new: what root
    left is there, all after it too, and the mode is not 0700. *)
Example root_left_files :
  (ck_generate_runtime_dir_for_user 1000 left_behind).2 !! "/run/user/1000" =
    Some [Dir 1000 511 [("sudo", Dir 0 493 [("log", File 0 420)]); ("x", File 1000 420)]].
Proof. by vm_compute. Qed.

(** The program itself trusts the prefix of the path: it removes what is behind
    a [..] too, here a directory of root that is not below /run/user. *)
Example prefix_is_not_containment :
  ck_remove_directory 1000 "/run/user/../lock" {["/run/user/../lock" := [Dir 0 493 []]]} = ∅.
Proof. by vm_compute. Qed.

Lemma known_1000 : known_user 1000.
Proof. split; [lia|]. split; [by eexists|done]. Qed.

Lemma generated_dir_witness :
  ∃ fs' top below, ck_generate_runtime_dir_for_user 1000 left_behind = (Some "/run/user/1000", fs') ∧
    fs' !! "/run/user/1000" = Some (top :: below) ∧ node_owner top = 1000%Z ∧
    same_elsewhere "/run/user/1000" left_behind fs' ∧
    top = Dir 1000 511 [("sudo", Dir 0 493 [("log", File 0 420)]); ("x", File 1000 420)] ∧ below = [].
Proof.
  assert (remains 1000 (left_behind !! get_rundir 1000) =
    Some [Dir 1000 511 [("sudo", Dir 0 493 [("log", File 0 420)]); ("x", File 1000 420)]]) as E by by vm_compute.
  assert (get_rundir 1000 = "/run/user/1000") as Ed by by vm_compute.
  pose proof (generated_dir 1000 left_behind known_1000 eq_refl eq_refl) as H.
  rewrite E, Ed in H. apply H. by vm_compute.
Defined.

(** One system of the user over the directory that the daemon made. *)
Lemma runtime_dir_gone_witness :
  let tree := Dir 1000 448 [("bus", File 1000 511); ("d", Dir 7 0 [("f", File 0 420)])] in
  let fs : run_fs := {["/run/user/1000" := [tree; Dir 0 493 []]]} in
  ck_remove_runtime_dir_for_user 1000 fs !! "/run/user/1000" = None ∧
  same_elsewhere "/run/user/1000" fs (ck_remove_runtime_dir_for_user 1000 fs).
Proof.
  intros tree fs. assert (get_rundir 1000 = "/run/user/1000") as Ed by by vm_compute.
  assert (fs !! get_rundir 1000 = Some [tree; Dir 0 493 []]) as E by by vm_compute.
  pose proof (runtime_dir_gone 1000 fs tree [Dir 0 493 []] E) as (_ & H & _ & Hs). rewrite Ed in H, Hs.
  split; [|exact Hs]. apply (H known_1000). left. by exists 0%Z, 493%Z.
Defined.
End posix.
