(* ===== verification/Connector.v ===== *)
(** * The connector: [src/libck-connector/ck-connector.c].

    The library through which a login program opens its session: a counted
    object with a private connection to the bus, the cookie of the session and what
    it asked of it.  The bus, and the daemon behind it, is the class [Bus]; its
    states are an argument. *)

From S2P Require Import Prelude Leader.

(** ** What is passed *)

Inductive dbus_type := DBUS_TYPE_INVALID | DBUS_TYPE_STRING | DBUS_TYPE_BOOLEAN | DBUS_TYPE_INT32.

(** What a pointer of the caller points to: a string or NULL, or a number (a
    [dbus_bool_t], a [uid_t]). *)
Inductive pointee := PString (s : cstr) | PInt (z : Z).
(** The variable arguments. *)
Inductive vararg := CharPtr (s : cstr) | ValuePtr (v : pointee).

Definition parameter_lookup : list (string * dbus_type) :=
  [("display-device", DBUS_TYPE_STRING); ("x11-display-device", DBUS_TYPE_STRING);
   ("x11-display", DBUS_TYPE_STRING); ("remote-host-name", DBUS_TYPE_STRING);
   ("session-type", DBUS_TYPE_STRING); ("session-service", DBUS_TYPE_STRING);
   ("is-local", DBUS_TYPE_BOOLEAN); ("unix-user", DBUS_TYPE_INT32)].

Fixpoint lookup_from (table : list (string * dbus_type)) (name : string) : dbus_type :=
  match table with
  | [] => DBUS_TYPE_INVALID
  | (n, t) :: table => if String.eqb name n then t else lookup_from table name
  end.
Definition lookup_parameter_type (name : string) : dbus_type := lookup_from parameter_lookup name.

(** The calls, with the session or the arguments they carry. *)
Inductive call :=
| OpenSession
| OpenSessionWithParameters (parameters : list (string * gvariant))
| GetSessionForCookie (cookie : string)
| GetXDGRuntimeDir (ssid : string)
| CloseSession (cookie : string).

(** What comes back: an error, or no error and no reply either; or a message with
    its argument. *)
Inductive dbus_args := ArgString (s : string) | ArgPath (s : string) | ArgBool (b : bool) | ArgOther.
Inductive dbus_reply := NoReply (error : cstr) | Reply (args : dbus_args).

(** A [DBusError *]: NULL, or an error, set or not. *)
Abbreviation dbus_error := (option cstr).

(** libdbus and what is behind it.  [malloc] says whether memory is there the next
    time it is needed, [check_is_valid_utf8] what libdbus accepts as a string. *)
Class Bus (D : Type) := {
  malloc : D → bool * D;
  check_is_valid_utf8 : string → bool;
  wrong_args_message : string;
  dbus_bus_get_private : D → (positive + cstr) * D;
  send_with_reply_and_block : positive → call → D → dbus_reply * D;
  dbus_connection_close : positive → D → D
}.

(** ** State *)

Record CkConnector := {
  refcount : Z;
  cookie : cstr;
  ssid : cstr;
  runtime_dir : cstr;
  session_created : bool;
  connection : option positive
}.

(** The connectors in memory, and the bus. *)
Record client (D : Type) := { connectors : gmap positive CkConnector; bus : D }.
Arguments connectors {D} c.
Arguments bus {D} c.

Definition set_refcount (z : Z) (c : CkConnector) : CkConnector :=
  {| refcount := z; cookie := cookie c; ssid := ssid c; runtime_dir := runtime_dir c;
     session_created := session_created c; connection := connection c |}.
Definition set_session (s : cstr) (created : bool) (c : CkConnector) : CkConnector :=
  {| refcount := refcount c; cookie := s; ssid := ssid c; runtime_dir := runtime_dir c;
     session_created := created; connection := connection c |}.
Definition set_ssid (s : cstr) (c : CkConnector) : CkConnector :=
  {| refcount := refcount c; cookie := cookie c; ssid := s; runtime_dir := runtime_dir c;
     session_created := session_created c; connection := connection c |}.
Definition set_known_dir (dir : cstr) (c : CkConnector) : CkConnector :=
  {| refcount := refcount c; cookie := cookie c; ssid := ssid c; runtime_dir := dir;
     session_created := session_created c; connection := connection c |}.
Definition set_connection (k : option positive) (c : CkConnector) : CkConnector :=
  {| refcount := refcount c; cookie := cookie c; ssid := ssid c; runtime_dir := runtime_dir c;
     session_created := session_created c; connection := k |}.

Section connector.
Context {D : Type} {HB : Bus D}.

(** ** Memory, the bus, errors *)

Definition on_bus {A} (f : D → A * D) : prog (client D) A :=
  λ w, let '(a, d) := f (bus w) in Some (a, {| connectors := connectors w; bus := d |}).
Definition alloc : prog (client D) bool := on_bus malloc.

(** Reading and writing a connector; a freed one must not be. *)
Definition get_connector (p : positive) : prog (client D) CkConnector :=
  λ w, match connectors w !! p with Some c => Some (c, w) | None => None end.
Definition put_connector (p : positive) (f : CkConnector → CkConnector) : prog (client D) unit :=
  λ w, match connectors w !! p with
       | Some c => Some (tt, {| connectors := <[p := f c]> (connectors w); bus := bus w |})
       | None => None
       end.

Definition calloc : prog (client D) positive :=
  λ w, let p := fresh (dom (connectors w)) in
       let c := {| refcount := 1; cookie := None; ssid := None; runtime_dir := None; session_created := false;
                   connection := None |} in
       Some (p, {| connectors := <[p := c]> (connectors w); bus := bus w |}).
Definition free (p : positive) : prog (client D) unit :=
  λ w, Some (tt, {| connectors := delete p (connectors w); bus := bus w |}).

(** libdbus forbids a call without a connection. *)
Definition send (connection : option positive) (m : call) : prog (client D) dbus_reply :=
  match connection with Some k => on_bus (send_with_reply_and_block k m) | None => prog_abort end.

(** libdbus forbids a second error over the first. *)
Definition dbus_set_error (error : dbus_error) (message : string) : prog (client D) dbus_error :=
  match error with
  | None => mret None
  | Some None => mret (Some (Some message))
  | Some (Some _) => prog_abort
  end.
Definition dbus_error_is_set (error : dbus_error) : bool :=
  match error with Some (Some _) => true | _ => false end.

(** ** Life *)

Definition ck_connector_new : prog (client D) (option positive) :=
  b ← alloc;
  if negb b then mret None
  else p ← calloc; mret (Some p).

Definition _ck_connector_free (p : positive) : prog (client D) unit :=
  c ← get_connector p;
  match connection c with
  | Some k => on_bus (λ d, (tt, dbus_connection_close k d))
  | None => mret tt
  end;;
  free p.

Definition ck_connector_unref (connector : option positive) : prog (client D) unit :=
  match connector with
  | None => mret tt
  | Some p =>
      c ← get_connector p;
      put_connector p (λ c, set_refcount (refcount c - 1) c);;
      if Z.eqb (refcount c - 1) 0 then _ck_connector_free p else mret tt
  end.

Definition ck_connector_ref (connector : option positive) : prog (client D) (option positive) :=
  match connector with
  | None => mret None
  | Some p => c ← get_connector p; put_connector p (λ c, set_refcount (refcount c + 1) c);; mret (Some p)
  end.

(** ** Opening a session *)

(** A pointer of another type is not read as what it points to. *)
Definition append_value (type : dbus_type) (value : pointee) : option (option gvariant) :=
  match type, value with
  | DBUS_TYPE_STRING, PString (Some s) => Some (if check_is_valid_utf8 s then Some (GvString s) else None)
  | DBUS_TYPE_STRING, PString None => Some None
  | DBUS_TYPE_BOOLEAN, PInt z => Some (if Z.eqb z 0 then Some (GvBool false) else if Z.eqb z 1 then Some (GvBool true) else None)
  | DBUS_TYPE_INT32, PInt z => Some (Some (GvInt (i32 z)))
  | _, _ => None
  end.

(** The six calls for one parameter: containers opened, name and value appended,
    containers closed.  [None]: one of them failed. *)
Definition add_param_basic (name : string) (type : dbus_type) (value : pointee) : prog (client D) (option gvariant) :=
  match type with
  | DBUS_TYPE_INVALID => mret None
  | _ =>
      b1 ← alloc; if negb b1 then mret None else
      b2 ← alloc; if negb b2 then mret None else
      b3 ← alloc; if negb b3 then mret None else
      match append_value type value with
      | None => prog_abort
      | Some None => mret None
      | Some (Some v) =>
          b4 ← alloc; if negb b4 then mret None else
          b5 ← alloc; if negb b5 then mret None else
          b6 ← alloc; if negb b6 then mret None else mret (Some v)
      end
  end.

(** The loop over names and values, which a NULL ends: the parameters, or nothing
    after a failure.  Arguments that nobody passed must not be read. *)
Fixpoint add_parameters (error : dbus_error) (name : cstr) (var_args : list vararg) :
    prog (client D) (dbus_error * option (list (string * gvariant))) :=
  match name, var_args with
  | None, _ => mret (error, Some [])
  | Some name, ValuePtr value :: var_args =>
      match lookup_parameter_type name with
      | DBUS_TYPE_INVALID =>
          error ← dbus_set_error error ("Unknown parameter: " +:+ name); mret (error, None)
      | type =>
          res ← add_param_basic name type value;
          match res, var_args with
          | None, _ => error ← dbus_set_error error ("Error adding parameter: " +:+ name); mret (error, None)
          | Some v, CharPtr next :: var_args =>
              '(error, ps) ← add_parameters error next var_args;
              mret (error, (λ ps, (name, v) :: ps) <$> ps)
          | Some _, _ => prog_abort
          end
      end
  | Some _, _ => prog_abort
  end.

(** The connection of the connector is replaced, also by none. *)
Definition connect (p : positive) (error : dbus_error) : prog (client D) (dbus_error * option positive) :=
  r ← on_bus dbus_bus_get_private;
  match r with
  | inl k => put_connector p (set_connection (Some k));; mret (error, Some k)
  | inr m =>
      put_connector p (set_connection None);;
      error ← match m with Some m => dbus_set_error error ("Unable to open session: " +:+ m) | None => mret error end;
      mret (error, None)
  end.

(** From the call to the end: without a reply and an error the cookie is
    not initialised. *)
Definition read_cookie (p k : positive) (m : call) (error : dbus_error) : prog (client D) (dbus_error * bool) :=
  r ← send (Some k) m;
  match r with
  | NoReply (Some m) => error ← dbus_set_error error ("Unable to open session: " +:+ m); mret (error, false)
  | NoReply None => prog_abort
  | Reply (ArgString s) =>
      b ← alloc;
      if negb b then put_connector p (λ c, set_session None (session_created c) c);; mret (error, false)
      else put_connector p (set_session (Some s) true);; mret (error, true)
  | Reply _ =>
      error ← dbus_set_error error ("Unable to open session: " +:+ wrong_args_message); mret (error, false)
  end.

Definition ck_connector_open_session (connector : option positive) (error : dbus_error) :
    prog (client D) (dbus_error * bool) :=
  match connector with
  | None => mret (error, false)
  | Some p =>
      if dbus_error_is_set error then mret (error, false) else
      '(error, k) ← connect p error;
      match k with
      | None => mret (error, false)
      | Some k => b ← alloc; if negb b then mret (error, false) else read_cookie p k OpenSession error
      end
  end.

Definition ck_connector_open_session_with_parameters_valist (connector : option positive) (error : dbus_error)
    (first_parameter_name : cstr) (var_args : list vararg) : prog (client D) (dbus_error * bool) :=
  match connector with
  | None => mret (error, false)
  | Some p =>
      '(error, k) ← connect p error;
      match k with
      | None => mret (error, false)
      | Some k =>
          b1 ← alloc; if negb b1 then mret (error, false) else
          b2 ← alloc; if negb b2 then mret (error, false) else
          '(error, ps) ← add_parameters error first_parameter_name var_args;
          match ps with
          | None => mret (error, false)
          | Some ps =>
              b3 ← alloc; if negb b3 then mret (error, false) else
              read_cookie p k (OpenSessionWithParameters ps) error
          end
      end
  end.

Definition ck_connector_open_session_with_parameters (connector : option positive) (error : dbus_error)
    (first_parameter_name : cstr) (var_args : list vararg) : prog (client D) (dbus_error * bool) :=
  match connector with
  | None => mret (error, false)
  | Some _ =>
      if dbus_error_is_set error then mret (error, false)
      else ck_connector_open_session_with_parameters_valist connector error first_parameter_name var_args
  end.

Definition ck_connector_open_session_for_user (connector : option positive) (user : Z) (display_device x11_display : cstr)
    (error : dbus_error) : prog (client D) (dbus_error * bool) :=
  match connector, display_device with
  | Some _, Some _ =>
      if dbus_error_is_set error then mret (error, false)
      else ck_connector_open_session_with_parameters connector error (Some "display-device")
             [ValuePtr (PString display_device); CharPtr (Some "x11-display"); ValuePtr (PString x11_display);
              CharPtr (Some "unix-user"); ValuePtr (PInt user); CharPtr None]
  | _, _ => mret (error, false)
  end.

(** ** What is known of the session *)

Definition ck_connector_get_cookie (connector : option positive) : prog (client D) cstr :=
  match connector with
  | None => mret None
  | Some p => c ← get_connector p; mret (if session_created c then cookie c else None)
  end.

(** [dbus_message_get_args] into the caller's error, then an error of one's own: the
    former has set it already if there was a reply. *)
Definition wrong_args (r : dbus_reply) (error : dbus_error) (what : string) : prog (client D) dbus_error :=
  match r, error with
  | Reply _, Some _ => prog_abort
  | _, _ => dbus_set_error error (what +:+ ": (null)")
  end.

Definition ck_connector_get_ssid (connector : option positive) (error : dbus_error) : prog (client D) (dbus_error * bool) :=
  match connector with
  | None => mret (error, false)
  | Some p =>
      c ← get_connector p;
      match session_created c, cookie c with
      | true, Some ck =>
          b1 ← alloc; if negb b1 then mret (error, false) else
          b2 ← alloc; if negb b2 then mret (error, false) else
          r ← send (connection c) (GetSessionForCookie ck);
          match r with
          | NoReply (Some m) =>
              error ← dbus_set_error error ("Unable to get session for cookie: " +:+ m +:+ ", no reply from dbus");
              mret (error, false)
          | Reply (ArgPath s) =>
              b ← alloc;
              put_connector p (set_ssid (if (b : bool) then Some s else None));; mret (error, b)
          | _ => error ← wrong_args r error "Unable to get session for cookie"; mret (error, false)
          end
      | _, _ => mret (error, false)
      end
  end.

(** The session's path is there. *)
Definition fetch_runtime_dir (p : positive) (error : dbus_error) : prog (client D) (dbus_error * cstr) :=
  b1 ← alloc;
  c ← get_connector p;
  match ssid c with
  | Some s =>
      if negb b1 then mret (error, runtime_dir c) else
      r ← send (connection c) (GetXDGRuntimeDir s);
      match r with
      | NoReply (Some m) =>
          error ← dbus_set_error error ("Unable to get runtime dir for session: " +:+ m); mret (error, runtime_dir c)
      | Reply (ArgString dir) =>
          b ← alloc;
          put_connector p (set_known_dir (if (b : bool) then Some dir else None));;
          c ← get_connector p; mret (error, runtime_dir c)
      | _ => error ← wrong_args r error "Unable to get runtime dir for session"; mret (error, runtime_dir c)
      end
  | None => prog_abort
  end.

Definition ck_connector_get_runtime_dir (connector : option positive) (error : dbus_error) :
    prog (client D) (dbus_error * cstr) :=
  match connector with
  | None => mret (error, None)
  | Some p =>
      c ← get_connector p;
      match session_created c, cookie c, runtime_dir c with
      | false, _, _ | _, None, _ => mret (error, None)
      | _, _, Some dir => mret (error, Some dir)
      | _, _, None =>
          match ssid c with
          | Some _ => fetch_runtime_dir p error
          | None =>
              '(error, b) ← ck_connector_get_ssid connector error;
              if negb b then mret (error, None) else fetch_runtime_dir p error
          end
      end
  end.

(** ** Closing it *)

Definition ck_connector_close_session (connector : option positive) (error : dbus_error) :
    prog (client D) (dbus_error * bool) :=
  match connector with
  | None => mret (error, false)
  | Some p =>
      if dbus_error_is_set error then mret (error, false) else
      c ← get_connector p;
      match session_created c, cookie c with
      | true, Some ck =>
          b1 ← alloc; if negb b1 then mret (error, false) else
          b2 ← alloc; if negb b2 then mret (error, false) else
          r ← send (connection c) (CloseSession ck);
          match r with
          | NoReply (Some m) => error ← dbus_set_error error ("Unable to close session: " +:+ m); mret (error, false)
          | NoReply None => prog_abort
          | Reply (ArgBool true) => put_connector p (λ c, set_session (cookie c) false c);; mret (error, true)
          | Reply (ArgBool false) => mret (error, false)
          | Reply _ =>
              error ← dbus_set_error error ("Unable to close session: " +:+ wrong_args_message); mret (error, false)
          end
      | _, _ => error ← dbus_set_error error "Unable to close session: no session open"; mret (error, false)
      end
  end.
End connector.
