(* ===== verification/ConnectorFacts.v ===== *)
(** * What the connector keeps, whatever is asked of it. *)

From S2P Require Import Prelude Scan Leader Connector.

Lemma bind_inv {S A B} (m : prog S A) (f : A → prog S B) s b s' :
  (m ≫= f) s = Some (b, s') → ∃ a s1, m s = Some (a, s1) ∧ f a s1 = Some (b, s').
Proof. unfold mbind, prog_bind_inst, prog_mbind. destruct (m s) as [[a s1]|]; [eauto|done]. Qed.

(** ** The requests of a program that holds one reference *)

Inductive request :=
| Open (error : dbus_error)
| OpenWith (error : dbus_error) (first_parameter_name : cstr) (var_args : list vararg)
| OpenForUser (user : Z) (display_device x11_display : cstr) (error : dbus_error)
| GetCookie
| GetRuntimeDir (error : dbus_error)
| Close (error : dbus_error).

Definition opens (r : request) : bool :=
  match r with Open _ | OpenWith _ _ _ | OpenForUser _ _ _ _ => true | _ => false end.

Section facts.
Context {D : Type} {HB : Bus D}.
Implicit Types (w : client D) (c : CkConnector) (d : D).

Definition run_request (p : positive) (r : request) : prog (client D) unit :=
  match r with
  | Open e => ck_connector_open_session (Some p) e;; mret tt
  | OpenWith e name args => ck_connector_open_session_with_parameters (Some p) e name args;; mret tt
  | OpenForUser u dev x e => ck_connector_open_session_for_user (Some p) u dev x e;; mret tt
  | GetCookie => ck_connector_get_cookie (Some p);; mret tt
  | GetRuntimeDir e => ck_connector_get_runtime_dir (Some p) e;; mret tt
  | Close e => ck_connector_close_session (Some p) e;; mret tt
  end.

(** ** Properties of one connector and the bus *)

Section one.
Context (p : positive) (others : gmap positive CkConnector).

(** The connector [p] satisfies [I], the others are as they were. *)
Definition at_connector (I : CkConnector → D → Prop) w : Prop :=
  ∃ c, connectors w = <[p := c]> others ∧ I c (bus w).

(** What a call and the answer to it may change. *)
Class Answered (I : CkConnector → D → Prop) : Prop := {
  kept_malloc : ∀ c d, I c d → I c (malloc d).2;
  kept_send : ∀ c k m d, I c d → I c (send_with_reply_and_block k m d).2;
  kept_ssid : ∀ c s d, I c d → I (set_ssid s c) d;
  kept_dir : (∀ c d, I c d → is_Some (runtime_dir c)) ∨ (∀ c dir d, I c d → I (set_known_dir dir c) d)
}.
(** What opening and closing a session may change. *)
Class SessionKept (I : CkConnector → D → Prop) : Prop :=
  kept_session : ∀ c s b d, I c d → I (set_session s b c) d.

Lemma wlp_get (I : CkConnector → D → Prop) Q w :
  at_connector I w → (∀ c, I c (bus w) → connectors w = <[p := c]> others → Q c w) → wlp (get_connector p) Q w.
Proof. intros (c & Ec & Hc) HQ. unfold wlp, get_connector. rewrite Ec, lookup_insert_eq. by apply HQ. Qed.

Lemma wlp_put (I J : CkConnector → D → Prop) f (Q : unit → client D → Prop) w :
  at_connector I w → (∀ c, I c (bus w) → connectors w = <[p := c]> others → J (f c) (bus w)) →
  (∀ w', at_connector J w' → Q tt w') → wlp (put_connector p f) Q w.
Proof.
  intros (c & Ec & Hc) HJ HQ. unfold wlp, put_connector. rewrite Ec, lookup_insert_eq. apply HQ. exists (f c).
  split; [by rewrite insert_insert_eq|]. by apply HJ.
Qed.

Lemma wlp_on_bus {A} (I J : CkConnector → D → Prop) (f : D → A * D) (Q : A → client D → Prop) w :
  at_connector I w → (∀ c d, I c d → J c (f d).2) → (∀ a w', at_connector J w' → Q a w') → wlp (on_bus f) Q w.
Proof.
  intros (c & Ec & Hc) HJ HQ. unfold wlp, on_bus. destruct (f (bus w)) as [a d] eqn:E. apply HQ. exists c.
  split; [done|]. specialize (HJ _ _ Hc). by rewrite E in HJ.
Qed.

Lemma wlp_error error m (Q : dbus_error → client D → Prop) w : (∀ e, Q e w) → wlp (dbus_set_error error m) Q w.
Proof. intros HQ. unfold wlp, dbus_set_error. by destruct error as [[?|]|]; try apply HQ. Qed.

Context (I : CkConnector → D → Prop) {HA : Answered I} {HS : SessionKept I}.
Abbreviation ok := (λ _, at_connector I).

Lemma wlp_alloc (Q : bool → client D → Prop) w :
  at_connector I w → (∀ b w', at_connector I w' → Q b w') → wlp alloc Q w.
Proof. intros Hw HQ. eapply wlp_on_bus; [done| |done]. apply kept_malloc. Qed.
Lemma wlp_send (Q : dbus_reply → client D → Prop) k m w :
  at_connector I w → (∀ r w', at_connector I w' → Q r w') → wlp (send k m) Q w.
Proof.
  intros Hw HQ. unfold send. destruct k as [k|]; [|done]. eapply wlp_on_bus; [done| |done]. intros. by apply kept_send.
Qed.
Lemma wlp_new_session s (b : CkConnector → bool) (Q : unit → client D → Prop) w : at_connector I w →
  (∀ w', at_connector I w' → Q tt w') → wlp (put_connector p (λ c, set_session (s c) (b c) c)) Q w.
Proof. intros Hw HQ. eapply wlp_put; [done| |done]. intros. by apply kept_session. Qed.
Lemma wlp_new_ssid s (Q : unit → client D → Prop) w : at_connector I w →
  (∀ w', at_connector I w' → Q tt w') → wlp (put_connector p (set_ssid s)) Q w.
Proof. intros Hw HQ. eapply wlp_put; [done| |done]. intros. by apply kept_ssid. Qed.
Lemma wlp_look (Q : CkConnector → client D → Prop) w :
  at_connector I w → (∀ c, I c (bus w) → Q c w) → wlp (get_connector p) Q w.
Proof. intros Hw HQ. eapply wlp_get; [done|]. eauto. Qed.

Lemma wlp_ret {A} (a : A) (Q : A → client D → Prop) w : Q a w → wlp (mret a) Q w.
Proof. done. Qed.
Lemma wlp_abort {A} (Q : A → client D → Prop) w : wlp prog_abort Q w.
Proof. done. Qed.

Ltac wlps := repeat (
  (apply wlp_ret; by auto) || apply wlp_abort || apply wlp_bind ||
  (apply wlp_error; intros) || (apply wlp_alloc; [assumption|intros]) || (apply wlp_send; [assumption|intros]) ||
  (apply wlp_new_session; [assumption|intros]) || (apply wlp_new_ssid; [assumption|intros]) ||
  (apply wlp_look; [assumption|intros]) ||
  match goal with |- wlp (match ?x with _ => _ end) _ _ => destruct x end).

Lemma kept_wrong_args r error m (Q : dbus_error → client D → Prop) w : (∀ e, Q e w) → wlp (wrong_args r error m) Q w.
Proof. intros HQ. unfold wrong_args. by destruct r, error; first [by apply wlp_error|done]. Qed.

Lemma kept_read_cookie k m error w : at_connector I w → wlp (read_cookie p k m error) ok w.
Proof. intros Hw. unfold read_cookie. wlps. Qed.
Lemma kept_cookie w : at_connector I w → wlp (ck_connector_get_cookie (Some p)) ok w.
Proof. intros Hw. unfold ck_connector_get_cookie. wlps. Qed.
Lemma kept_close error w : at_connector I w → wlp (ck_connector_close_session (Some p) error) ok w.
Proof. intros Hw. unfold ck_connector_close_session. wlps. Qed.
Lemma kept_get_ssid error w : at_connector I w → wlp (ck_connector_get_ssid (Some p) error) ok w.
Proof. intros Hw. unfold ck_connector_get_ssid. wlps; apply kept_wrong_args; intros; by wlps. Qed.

Lemma kept_add_param name type value w : at_connector I w → wlp (add_param_basic name type value) ok w.
Proof. intros Hw. unfold add_param_basic. destruct type; wlps. Qed.
Lemma kept_add_parameters n : ∀ args error name w, length args ≤ n → at_connector I w →
  wlp (add_parameters error name args) ok w.
Proof.
  induction n as [|n IH]; intros args error name w Hn Hw; destruct name as [name|], args as [|[?|value] args]; try done;
    [by simpl in Hn; lia|]. simpl in Hn. cbn [add_parameters].
  destruct (lookup_parameter_type name) eqn:E; [by wlps| | |]; (apply wlp_bind; eapply wlp_mono; [by apply kept_add_param|]);
    intros [v|] w' Hw'; (destruct args as [|[next|?] args]; [by wlps| |by wlps]); try (by wlps);
    (apply wlp_bind; eapply wlp_mono; [apply IH; [simpl in Hn; lia|done]|]); intros [e ps] w'' Hw''; by wlps.
Qed.

Lemma kept_fetch error w : (∀ c dir d, I c d → I (set_known_dir dir c) d) → at_connector I w →
  wlp (fetch_runtime_dir p error) ok w.
Proof.
  intros Hdir Hw. unfold fetch_runtime_dir. wlps.
  all: try (apply kept_wrong_args; intros; by wlps).
  eapply wlp_put; [done| |]; [intros; by apply Hdir|]. intros. by wlps.
Qed.
Lemma kept_runtime_dir error w : at_connector I w → wlp (ck_connector_get_runtime_dir (Some p) error) ok w.
Proof.
  intros Hw. unfold ck_connector_get_runtime_dir. apply wlp_bind, wlp_look; [done|]. intros c Hc.
  destruct (session_created c), (cookie c), (runtime_dir c) as [dir|] eqn:Ed; try by wlps.
  destruct kept_dir as [Hd|Hd]; [destruct (Hd _ _ Hc); congruence|]. destruct (ssid c); [by apply kept_fetch|].
  apply wlp_bind. eapply wlp_mono; [by apply kept_get_ssid|]. intros [e b] w' Hw'. destruct b; [by apply kept_fetch|by wlps].
Qed.

(** ** Opening, when the connection has been replaced *)

(** What a new connection, or the failure to get one, makes of [J]. *)
Definition connected (J : CkConnector → D → Prop) : Prop :=
  ∀ c d, J c d → match dbus_bus_get_private d with
                 | (inl k, d) => I (set_connection (Some k) c) d
                 | (inr _, d) => I (set_connection None c) d
                 end.

Lemma wlp_connect J error (Q : dbus_error * option positive → client D → Prop) w : connected J →
  at_connector J w → (∀ e k w', at_connector I w' → Q (e, k) w') → wlp (connect p error) Q w.
Proof.
  intros HJ (c & Ec & Hc) HQ. unfold connect. apply wlp_bind. unfold wlp at 1, on_bus. specialize (HJ _ _ Hc).
  destruct (dbus_bus_get_private (bus w)) as [[k|m] d]; apply wlp_bind.
  - eapply (wlp_put (λ c' d', I (set_connection (Some k) c') d')); [by exists c|done|].
    intros w' Hw'. apply wlp_ret, HQ, Hw'.
  - eapply (wlp_put (λ c' d', I (set_connection None c') d')); [by exists c|done|].
    intros w' Hw'. apply wlp_bind. destruct m; [apply wlp_error; intros|apply wlp_ret]; apply wlp_ret, HQ, Hw'.
Qed.

Lemma at_mono (J K : CkConnector → D → Prop) w : (∀ c d, J c d → K c d) → at_connector J w → at_connector K w.
Proof. intros H (c & Ec & Hc). exists c. auto. Qed.

Section opening.
Context (J : CkConnector → D → Prop) (HJI : ∀ c d, J c d → I c d) (HJ : connected J).

Lemma wlp_open error w : at_connector J w → wlp (ck_connector_open_session (Some p) error) ok w.
Proof.
  intros Hw. unfold ck_connector_open_session. destruct (dbus_error_is_set error); [by eapply at_mono|].
  apply wlp_bind. eapply wlp_connect; [done..|]. intros e [k|] w1 H1; [|done].
  apply wlp_bind, wlp_alloc; [done|]. intros [|] w2 H2; [|done]. by apply kept_read_cookie.
Qed.
Lemma wlp_open_with error name args w : at_connector J w →
  wlp (ck_connector_open_session_with_parameters (Some p) error name args) ok w.
Proof.
  intros Hw. unfold ck_connector_open_session_with_parameters.
  destruct (dbus_error_is_set error); [by eapply at_mono|]. unfold ck_connector_open_session_with_parameters_valist.
  apply wlp_bind. eapply wlp_connect; [done..|]. intros e [k|] w1 H1; [|done].
  apply wlp_bind, wlp_alloc; [done|]. intros [|] w2 H2; [|done]. apply wlp_bind, wlp_alloc; [done|].
  intros [|] w3 H3; [|done]. apply wlp_bind. eapply wlp_mono; [by eapply kept_add_parameters|].
  intros [e3 [ps|]] w4 H4; [|done]. apply wlp_bind, wlp_alloc; [done|]. intros [|] w5 H5; [|done]. by apply kept_read_cookie.
Qed.
End opening.

(** A request that opens goes from [J] to [I], any other keeps [I]. *)
Lemma wlp_request J r w : (∀ c d, J c d → I c d) → (opens r = true → connected J) → at_connector J w →
  wlp (run_request p r) ok w.
Proof.
  intros HJI HJ Hw. assert (at_connector I w) as Hi by by eapply at_mono. destruct r; apply wlp_bind.
  - eapply wlp_mono; [by apply (wlp_open J); auto|]. done.
  - eapply wlp_mono; [by apply (wlp_open_with J); auto|]. done.
  - destruct display_device; [|done]. unfold ck_connector_open_session_for_user.
    destruct (dbus_error_is_set error); [done|]. eapply wlp_mono; [by apply (wlp_open_with J); auto|]. done.
  - eapply wlp_mono; [by apply kept_cookie|]. done.
  - eapply wlp_mono; [by apply kept_runtime_dir|]. done.
  - eapply wlp_mono; [by apply kept_close|]. done.
Qed.
End one.
End facts.
