(* ===== verification/ConnectorPolicy.v ===== *)
(** * What the connector promises: parameters, connections, the runtime directory. *)

From S2P Require Import Prelude Scan Leader Connector ConnectorFacts.

(** ** Parameters *)

(** The names and values before the NULL. *)
Inductive passed : cstr → list vararg → list (string * pointee) → Prop :=
| passed_end args : passed None args []
| passed_more name value next args l :
    passed next args l → passed (Some name) (ValuePtr value :: CharPtr next :: args) ((name, value) :: l).

(** The same parameter for the bus: of the type of its name, and a name the daemon knows. *)
Definition same_parameter `{Bus D} (a : string * pointee) (b : string * gvariant) : Prop :=
  b.1 = a.1 ∧ append_value (lookup_parameter_type a.1) a.2 = Some (Some b.2).

(** Every parameter of the connector is one of the daemon's, and none that it skips or renames. *)
Lemma parameter_known name : lookup_parameter_type name ≠ DBUS_TYPE_INVALID →
  is_Some (Leader.lookup_parameter_type name) ∧
  String.eqb name "id" = false ∧ String.eqb name "cookie" = false ∧ String.eqb name "user" = false.
Proof.
  unfold lookup_parameter_type, parameter_lookup. cbn [lookup_from]. intros H.
  repeat match type of H with
  | context [String.eqb name ?n] => destruct (String.eqb_spec name n); [subst; vm_compute; eauto|]
  end. done.
Qed.

Lemma save_same `{Bus D} a b o : same_parameter a b → save_parameter o b = <[b.1 := b.2]> o.
Proof.
  destruct a as [name value], b as [name' v]. intros [E Hv]. cbn [fst snd] in *. subst name'.
  destruct (parameter_known name) as ([t Et] & E1 & E2 & E3); [by intros E; rewrite E in Hv|].
  unfold save_parameter. by rewrite E1, E2, Et, E3.
Qed.

Lemma save_all `{Bus D} l ps : Forall2 same_parameter l ps → ∀ o,
  save_parameters o ps = list_to_map (reverse ps) ∪ o.
Proof.
  induction 1 as [|a b l ps Hab _ IH]; intros o; [by change (o = ∅ ∪ o); rewrite (left_id_L ∅ (∪))|].
  unfold save_parameters in *. cbn [foldl]. rewrite (save_same a b) by done. rewrite IH, reverse_cons, list_to_map_app.
  destruct b as [k v]. cbn [fst snd]. rewrite <- (assoc_L (∪)). f_equal.
  change (list_to_map [(k, v)]) with (<[k := v]> (∅ : gmap string gvariant)).
  by rewrite <- insert_union_l, (left_id_L ∅ (∪)).
Qed.

Section parameters.
Context {D : Type} {HB : Bus D}.

Lemma add_param_value name type value (w w' : client D) v :
  add_param_basic name type value w = Some (Some v, w') → append_value type value = Some (Some v).
Proof.
  unfold add_param_basic, mbind, prog_bind_inst, prog_mbind, mret, prog_ret_inst, prog_mret.
  destruct type; [done|..]; intros H; repeat (case_match; simplify_eq; try done).
Qed.

Lemma add_parameters_passed n : ∀ args error name (w w' : client D) error' ps, length args ≤ n →
  add_parameters error name args w = Some ((error', Some ps), w') →
  ∃ l, passed name args l ∧ Forall2 same_parameter l ps ∧ error' = error.
Proof.
  induction n as [|n IH]; intros args error name w w' error' ps Hn; destruct name as [name|].
  2, 4: (destruct args; intros H; cbn in H; injection H as <- <- <-; exists []; repeat constructor).
  1: destruct args; [done|by simpl in Hn; lia].
  destruct args as [|[s|value] args]; [done..|]. cbn [add_parameters]. intros H.
  assert (∃ v w1 next rest error1 ps1, append_value (lookup_parameter_type name) value = Some (Some v) ∧
    args = CharPtr next :: rest ∧ add_parameters error next rest w1 = Some ((error1, ps1), w') ∧
    (error', Some ps) = (error1, (λ ps, (name, v) :: ps) <$> ps1)) as
    (v & w1 & next & rest & error1 & [ps1|] & Hv & -> & Hrest & [= -> ->]).
  { destruct (lookup_parameter_type name) eqn:Et;
      [by apply bind_inv in H as (? & ? & _ & H); injection H|..];
      (apply bind_inv in H as ([v|] & w1 & Hp & H);
        [|by apply bind_inv in H as (? & ? & _ & H); destruct args as [|[]]; injection H]);
      (destruct args as [|[next|?] rest]; [done| |done]);
      apply bind_inv in H as ([error1 ps1] & w2 & Hr & H); injection H as <- <- <-;
      exists v, w1, next, rest, error1, ps1; (split; [by eapply add_param_value|done]). }
  apply IH in Hrest as (l & Hl & Hall & ->); [|simpl in Hn; lia].
  exists ((name, value) :: l). split; [by constructor|]. split; [|done]. by constructor.
Qed.

Lemma get_inv p c others (w : client D) c' w' : connectors w = <[p := c]> others →
  get_connector p w = Some (c', w') → c' = c ∧ w' = w.
Proof. intros E. unfold get_connector. rewrite E, lookup_insert_eq. by intros [= -> ->]. Qed.
Lemma put_inv p c others f (w w' : client D) : connectors w = <[p := c]> others →
  put_connector p f w = Some (tt, w') → w' = {| connectors := <[p := f c]> others; bus := bus w |}.
Proof. intros E. unfold put_connector. rewrite E, lookup_insert_eq, insert_insert_eq. by intros [= <-]. Qed.

Lemma read_cookie_opens p k m error (w w' : client D) error' :
  read_cookie p k m error w = Some ((error', true), w') →
  ∃ d d' s c, send_with_reply_and_block k m d = (Reply (ArgString s), d') ∧
    connectors w' !! p = Some c ∧ session_created c = true ∧ cookie c = Some s.
Proof.
  unfold read_cookie. intros H. apply bind_inv in H as (r & w1 & Hs & H).
  assert (∃ d', send_with_reply_and_block k m (bus w) = (r, d')) as [d' E].
  { cbn in Hs. unfold on_bus in Hs. destruct (send_with_reply_and_block _ _ _). injection Hs as -> _. eauto. }
  exists (bus w), d'. destruct r as [[?|]|[s| | |]];
    [by apply bind_inv in H as (? & ? & _ & H)|done| |by apply bind_inv in H as (? & ? & _ & H)..].
  apply bind_inv in H as ([|] & w2 & _ & H); apply bind_inv in H as ([] & w3 & Hp & H); [|done]. injection H as _ ->.
  unfold put_connector in Hp. destruct (connectors w2 !! p) as [c|]; [|done]. injection Hp as <-. eexists s, _.
  split; [done|]. cbn [connectors]. rewrite lookup_insert_eq. done.
Qed.

(** What the caller passed is what is sent, and the cookie is the answer. *)
Lemma open_with_spec p error name args (w w' : client D) error' :
  ck_connector_open_session_with_parameters (Some p) error name args w = Some ((error', true), w') →
  ∃ l ps k d d' s c, passed name args l ∧ Forall2 same_parameter l ps ∧
    send_with_reply_and_block k (OpenSessionWithParameters ps) d = (Reply (ArgString s), d') ∧
    connectors w' !! p = Some c ∧ session_created c = true ∧ cookie c = Some s.
Proof.
  unfold ck_connector_open_session_with_parameters. destruct (dbus_error_is_set error); [done|].
  unfold ck_connector_open_session_with_parameters_valist. intros H.
  apply bind_inv in H as ([e1 [k|]] & w1 & _ & H); [|done]. apply bind_inv in H as ([|] & w2 & _ & H); [|done].
  apply bind_inv in H as ([|] & w3 & _ & H); [|done]. apply bind_inv in H as ([e2 [ps|]] & w4 & Hps & H); [|done].
  apply bind_inv in H as ([|] & w5 & _ & H); [|done].
  apply (add_parameters_passed _ _ _ _ _ _ _ _ (reflexivity _)) in Hps as (l & Hl & Hall & _).
  apply read_cookie_opens in H as (d & d' & s & c & Hsend & Hc & Hcreated & Hcookie).
  by exists l, ps, k, d, d', s, c.
Qed.

Lemma leader_takes_over l ps leader : Forall2 same_parameter l ps →
  override_parameters (ck_session_leader_set_override_parameters (Some ps) leader) = list_to_map (reverse ps).
Proof.
  intros H. change (save_parameters ∅ ps = list_to_map (reverse ps)). by rewrite (save_all l ps), (right_id_L ∅ (∪)).
Qed.

(** C24: A session that is opened with parameters has them all: what the caller passed
    before the NULL, each under its name and in its type, is what the connector
    sends, the cookie is the daemon's answer to exactly that call, and the daemon's
    session leader takes over each of them, the last of a name.  So a name that
    only one of the two tables knows never opens a session. *)
Theorem parameters_reach_leader p error name args (w w' : client D) error' :
  ck_connector_open_session_with_parameters (Some p) error name args w = Some ((error', true), w') →
  ∃ l ps k d d' s c, passed name args l ∧ Forall2 same_parameter l ps ∧
    send_with_reply_and_block k (OpenSessionWithParameters ps) d = (Reply (ArgString s), d') ∧
    connectors w' !! p = Some c ∧ session_created c = true ∧ cookie c = Some s ∧
    ∀ leader, override_parameters (ck_session_leader_set_override_parameters (Some ps) leader) = list_to_map (reverse ps).
Proof.
  intros H. apply open_with_spec in H as (l & ps & k & d & d' & s & c & H). exists l, ps, k, d, d', s, c.
  destruct H as (Hl & Hall & Hsend & Hc). split_and!; try apply Hc; try done. intros leader. by eapply leader_takes_over.
Qed.
End parameters.

(** ** Connections *)

(** What the bus promises about private connections. *)
Class BusLaws (D : Type) {HB : Bus D} := {
  connections : D → gset positive;
  connections_malloc : ∀ d, connections (malloc d).2 = connections d;
  connections_send : ∀ k m d, connections (send_with_reply_and_block k m d).2 = connections d;
  connections_new : ∀ d k d', dbus_bus_get_private d = (inl k, d') →
    (k ∉ connections d) ∧ connections d' = {[k]} ∪ connections d;
  connections_failed : ∀ d m d', dbus_bus_get_private d = (inr m, d') → connections d' = connections d;
  connections_close : ∀ k d, connections (dbus_connection_close k d) = connections d ∖ {[k]}
}.

Section connections.
Context {D : Type} {HB : Bus D} {HL : BusLaws D}.

(** At most [n] connections were left behind since there were [before]. *)
Definition left_behind (before : gset positive) (n : nat) (d : D) : Prop :=
  ∃ left, connections d = left ∪ before ∧ left ## before ∧ size left ≤ n.

(** After [n] openings: one of the connections is the connector's. *)
Definition owns (before : gset positive) (n : nat) (c : CkConnector) (d : D) : Prop :=
  refcount c = 1%Z ∧
  match connection c with
  | Some k => (k ∉ before) ∧ k ∈ connections d ∧ 0 < n ∧ left_behind before (pred n) (dbus_connection_close k d)
  | None => left_behind before (pred n) d
  end.

Lemma left_behind_same before n d d' : connections d' = connections d → left_behind before n d → left_behind before n d'.
Proof. intros E (left & Ed & H). exists left. by rewrite E. Qed.

#[export] Instance owns_session before n : SessionKept (owns before n).
Proof. by intros c s b d H. Qed.
#[export] Instance owns_answered before n : Answered (owns before n).
Proof.
  assert (∀ c d d', connections d' = connections d → owns before n c d → owns before n c d') as H.
  { intros c d d' E [Hr H]. split; [done|]. destruct (connection c) as [k|]; [|by eapply left_behind_same].
    rewrite E. destruct H as (? & ? & ? & H). split_and!; try done. eapply left_behind_same, H.
    by rewrite !connections_close, E. }
  split.
  - intros c d. apply H, connections_malloc.
  - intros c k m d. apply H, connections_send.
  - done.
  - right. done.
Qed.

(** Whoever forgets the connection leaves one more behind. *)
Lemma owns_forgotten before n c d : owns before n c d → left_behind before n d.
Proof.
  intros [_ H]. destruct (connection c) as [k|]; [|destruct H as (l & ? & ? & ?); exists l; split_and!; try done; lia].
  destruct H as (Hb & Hc & Hn & l & El & Hdis & Hsize). rewrite connections_close in El. exists (l ∪ {[k]}). split_and!.
  - rewrite <- (assoc_L (∪)), (comm_L (∪) {[k]}), (assoc_L (∪)), <- El, difference_union_L. set_solver.
  - set_solver.
  - rewrite size_union_alt. etrans; [apply Nat.add_le_mono_l, (subseteq_size _ {[k]}); set_solver|].
    rewrite size_singleton. lia.
Qed.

Lemma owns_more before n c d : owns before n c d → owns before (S n) c d.
Proof.
  assert (∀ d, left_behind before (pred n) d → left_behind before n d) as Hm.
  { intros d' (l & ? & ? & ?). exists l. split_and!; try done. lia. }
  intros [Hr H]. split; [done|]. destruct (connection c) as [k|]; [|by apply Hm].
  destruct H as (? & ? & ? & H). split_and!; try done; [lia|by apply Hm].
Qed.

Lemma owns_open before n : connected (owns before (S n)) (owns before n).
Proof.
  intros c d H. apply owns_forgotten in H as Hf. destruct H as [Hr _].
  destruct (dbus_bus_get_private d) as [[k|m] d'] eqn:E.
  - apply connections_new in E as [Hk Ed]. split; [done|]. cbn [connection set_connection].
    destruct Hf as (left & El & Hdis & Hsize). split_and!; [set_solver|set_solver|lia|].
    exists left. rewrite connections_close, Ed, El. split_and!; [set_solver|done|done].
  - apply connections_failed in E. split; [done|]. by apply (left_behind_same _ _ d).
Qed.

Definition openings (rs : list request) : nat := length (filter (λ r, opens r = true) rs).

Lemma wlp_requests p others before rs : ∀ n w, at_connector p others (owns before n) w →
  wlp (for_each (run_request p) rs) (λ _, at_connector p others (owns before (openings rs + n))) w.
Proof.
  induction rs as [|r rs IH]; intros n w Hw; [done|]. apply wlp_bind.
  set (n1 := if opens r then S n else n). replace (openings (r :: rs) + n) with (openings rs + n1).
  - eapply wlp_mono; [apply (wlp_request p others (owns before n1) (owns before n))|]; [| |done|].
    + unfold n1. destruct (opens r); [apply owns_more|done].
    + unfold n1. intros ->. apply owns_open.
    + intros [] w1 Hw1. by apply IH.
  - unfold n1, openings. rewrite filter_cons. destruct (opens r) eqn:E; case_decide; try congruence; simpl; lia.
Qed.

Lemma new_connector (w w' : client D) c : ck_connector_new w = Some (c, w') →
  match c with
  | None => connectors w' = connectors w ∧ connections (bus w') = connections (bus w)
  | Some p => connectors w !! p = None ∧ at_connector p (connectors w) (owns (connections (bus w)) 0) w'
  end.
Proof.
  unfold ck_connector_new. intros H. apply bind_inv in H as (b & w1 & Ha & H).
  unfold alloc, on_bus in Ha. pose proof (connections_malloc (bus w)) as Hm.
  destruct (malloc (bus w)) as [b' d]. injection Ha as -> <-. simpl in Hm. destruct b; [|by injection H as <- <-].
  apply bind_inv in H as (p & w2 & Hc & [= <- ->]). injection Hc as Ep <-. cbn [connectors bus] in *. rewrite Ep. split.
  - apply not_elem_of_dom. rewrite <- Ep. apply is_fresh.
  - eexists. split; [done|]. split; [done|]. exists ∅. cbn [bus]. rewrite Hm, (left_id_L ∅ (∪)). by split_and!.
Qed.

Lemma last_unref p others before n (w w' : client D) : others !! p = None → at_connector p others (owns before n) w →
  ck_connector_unref (Some p) w = Some (tt, w') → connectors w' = others ∧ left_behind before (pred n) (bus w').
Proof.
  intros Hfresh (c & Ec & Hr & Hc) H. unfold ck_connector_unref in H.
  apply bind_inv in H as (c1 & w3 & Hg & H). apply (get_inv _ _ _ _ _ _ Ec) in Hg as [-> ->].
  apply bind_inv in H as ([] & w4 & Hp & H). apply (put_inv _ _ _ _ _ _ Ec) in Hp as ->. rewrite Hr in H.
  change (Z.eqb (1 - 1) 0) with true in H. unfold _ck_connector_free in H. apply bind_inv in H as (c2 & w5 & Hg & H).
  apply (get_inv p (set_refcount (1 - 1) c) others) in Hg as [-> ->]; [|by rewrite <- Hr]. cbn [connection set_refcount] in H.
  destruct (connection c) as [k|]; cbn in H; injection H as <-; cbn [connectors bus]; rewrite delete_insert_id by done;
    (split; [done|]); [apply Hc|done].
Qed.

(** C25: Whatever is asked of a connector, in any order, when its last reference goes
    it is gone from memory, all other connectors are as they were, and the
    connections to the bus are those of before, with at most one more for every
    opening after the first: for these, and the sessions behind them, nobody has a
    handle.  After a single opening nothing is left. *)
Theorem connector_leaves_nothing (w w0 w1 w2 : client D) p rs :
  ck_connector_new w = Some (Some p, w0) → for_each (run_request p) rs w0 = Some (tt, w1) →
  ck_connector_unref (Some p) w1 = Some (tt, w2) →
  connectors w2 = connectors w ∧ left_behind (connections (bus w)) (pred (openings rs)) (bus w2).
Proof.
  intros Hnew Hrs Hunref. apply new_connector in Hnew as [Hfresh H0]. apply (wlp_requests _ _ _ rs) in H0.
  eapply wlp_elim in H0; [|done]. rewrite Nat.add_0_r in H0. by eapply last_unref.
Qed.
End connections.

(** ** The runtime directory *)

Section runtime_dir.
Context {D : Type} {HB : Bus D}.

Definition knows (dir : string) (c : CkConnector) (d : D) : Prop := runtime_dir c = Some dir.
#[local] Instance knows_session dir : SessionKept (knows dir).
Proof. by intros c s b d H. Qed.
#[local] Instance knows_answered dir : Answered (knows dir).
Proof. split; try done. left. intros c d E. by eexists. Qed.

(** A directory that the connector has once told is what it tells for ever:
    whatever sessions, of whatever users, it closes and opens in between, the
    daemon is not asked again. *)
Theorem runtime_dir_is_kept p dir rs c (w w' : client D) error : connectors w !! p = Some c → runtime_dir c = Some dir →
  for_each (run_request p) rs w = Some (tt, w') →
  ∃ c', connectors w' !! p = Some c' ∧ runtime_dir c' = Some dir ∧
    ck_connector_get_runtime_dir (Some p) error w' =
      Some ((error, if session_created c' && bool_decide (is_Some (cookie c')) then Some dir else None), w').
Proof.
  intros Hp Hdir Hrs. assert (at_connector p (delete p (connectors w)) (knows dir) w) as H0.
  { exists c. by rewrite insert_delete_id. }
  eapply (wlp_for_each (run_request p) (at_connector p (delete p (connectors w)) (knows dir)) rs) in H0.
  - eapply wlp_elim in H0 as (c' & Ec & Hc); [|done]. exists c'. rewrite Ec, lookup_insert_eq. split_and!; try done.
    unfold ck_connector_get_runtime_dir, mbind, prog_bind_inst, prog_mbind, get_connector. rewrite Ec, lookup_insert_eq, Hc.
    by destruct (session_created c'), (cookie c').
  - intros r v _ Hv. apply (wlp_request p (delete p (connectors w)) (knows dir) (knows dir)); [done| |done].
    intros _ c1 d Hc1. unfold knows in *. by destruct (dbus_bus_get_private d) as [[?|?] ?].
Qed.
End runtime_dir.
