(* ===== verification/PamConnector.v ===== *)
(** * The PAM module: [src/pam-ck-connector/pam-ck-connector.c].

    A login program loads it; it opens a session through the connector and keeps
    the connector in a static variable, so that the end of the process ends the
    session. *)

From S2P Require Import Prelude Scan Leader Connector.

Definition PAM_SUCCESS : Z := 0.
Definition PAM_IGNORE : Z := 25.

(** What PAM knows of a login: NULL also when it refuses to tell. *)
Record pam_items := { PAM_USER : cstr; PAM_TTY : cstr; PAM_RHOST : cstr }.

(** The environment of a login can be full, and users have numbers. *)
Class Pam := { putenv_ok : string → bool; getpwnam : string → option Z }.

(** The process: the connectors and the bus, the static variables, the environment
    that PAM prepares for the session. *)
Record login_program (D : Type) := {
  lib : client D;
  ckc : option positive;
  opt_debug : bool;
  opt_nox11 : bool;
  pam_env : gmap string string
}.
Arguments lib {D} l.
Arguments ckc {D} l.
Arguments opt_debug {D} l.
Arguments opt_nox11 {D} l.
Arguments pam_env {D} l.

(** The parameters of the session. *)
Record registration := {
  uid : Z;
  display_device : string;
  x11_display : string;
  x11_display_device : string;
  remote_host_name : string;
  is_local : bool
}.

Definition has_char (c : ascii) (s : string) : bool := negb (sall (λ d, negb (ascii_eqb d c)) s).
(** NULL and the empty string count as missing. *)
Definition present (s : cstr) : option string := match s with None | Some "" => None | Some s => Some s end.

Section pam.
Context {D : Type} {HB : Bus D} {HP : Pam}.

Definition set_lib (c : client D) (l : login_program D) : login_program D :=
  {| lib := c; ckc := ckc l; opt_debug := opt_debug l; opt_nox11 := opt_nox11 l; pam_env := pam_env l |}.
Definition set_ckc (p : option positive) (l : login_program D) : login_program D :=
  {| lib := lib l; ckc := p; opt_debug := opt_debug l; opt_nox11 := opt_nox11 l; pam_env := pam_env l |}.
Definition set_options (debug nox11 : bool) (l : login_program D) : login_program D :=
  {| lib := lib l; ckc := ckc l; opt_debug := debug; opt_nox11 := nox11; pam_env := pam_env l |}.
Definition set_env (e : gmap string string) (l : login_program D) : login_program D :=
  {| lib := lib l; ckc := ckc l; opt_debug := opt_debug l; opt_nox11 := opt_nox11 l; pam_env := e |}.

(** A call of the library. *)
Definition on_lib {A} (m : prog (client D) A) : prog (login_program D) A :=
  λ l, match m (lib l) with Some (a, c) => Some (a, set_lib c l) | None => None end.

(** [_parse_pam_args]: [nox11] stays set once it was given. *)
Definition parse_pam_arg (o : bool * bool) (arg : string) : bool * bool :=
  if String.eqb arg "debug" then (true, o.2) else if String.eqb arg "nox11" then (o.1, true) else o.
Definition _parse_pam_args (argv : list string) : prog (login_program D) unit :=
  prog_modify (λ l, let o := foldl parse_pam_arg (false, opt_nox11 l) argv in set_options o.1 o.2 l).

Definition pam_getenv (name : string) : prog (login_program D) cstr := prog_gets (λ l, pam_env l !! name).
(** [pam_putenv] of "NAME=value". *)
Definition pam_putenv (s : string) : prog (login_program D) bool :=
  if negb (putenv_ok s) then mret false
  else
    let '(name, rest) := sspan (λ c, negb (ascii_eqb c "="%char)) s in
    prog_modify (λ l, set_env (<[name := sdrop 1 rest]> (pam_env l)) l);; mret true.

Definition _util_name_to_uid (username : string) : Z := default (2 ^ 32 - 1)%Z (getpwnam username).

(** The terminal and the display: a terminal with a colon is a display.  Without
    memory for the path, or without displays, the login is not registered. *)
Definition choose_display (tty : string) : prog (login_program D) (option (string * cstr)) :=
  if has_char ":"%char tty then
    nox11 ← prog_gets opt_nox11;
    mret (if (nox11 : bool) then None else Some ("", Some tty))
  else match strip_prefix "/dev/" tty with
       | Some _ => mret (Some (tty, None))
       | None => b ← on_lib alloc; mret (if (b : bool) then Some ("/dev/" +:+ tty, None) else None)
       end.

(** CKCON_X11_DISPLAY_DEVICE, or the terminal of XDG_VTNR; the memory for its path
    is used unchecked. *)
Definition choose_x11_device : prog (login_program D) cstr :=
  s ← pam_getenv "CKCON_X11_DISPLAY_DEVICE";
  match s with
  | Some s => mret (Some s)
  | None =>
      vtnr ← pam_getenv "XDG_VTNR";
      match vtnr with
      | None => mret None
      | Some s => b ← on_lib alloc; if negb b then prog_abort else mret (Some ("/dev/tty" +:+ s))
      end
  end.

(** What [pam_sm_open_session] finds out before it opens the session. *)
Definition collect_registration (h : pam_items) : prog (login_program D) (option registration) :=
  match present (PAM_USER h), present (PAM_TTY h) with
  | Some user, Some tty =>
      r ← choose_display tty;
      match r with
      | None => mret None
      | Some (display, x11) =>
          let rhost := present (PAM_RHOST h) in
          ck_tty ← pam_getenv "CKCON_TTY";
          ck_x11 ← pam_getenv "CKCON_X11_DISPLAY";
          device ← choose_x11_device;
          let uid := _util_name_to_uid user in
          if Z.eqb uid (2 ^ 32 - 1) then mret None
          else mret (Some {|
            uid := uid;
            display_device := default display ck_tty;
            x11_display := default "" (match ck_x11 with Some s => Some s | None => x11 end);
            x11_display_device := default "" device;
            remote_host_name := default "" rhost;
            is_local := bool_decide (rhost = None)
          |})
      end
  | _, _ => mret None
  end.

(** The arguments after the first name. *)
Definition registration_args (r : registration) : list vararg :=
  [ValuePtr (PInt (uid r));
   CharPtr (Some "display-device"); ValuePtr (PString (Some (display_device r)));
   CharPtr (Some "x11-display"); ValuePtr (PString (Some (x11_display r)));
   CharPtr (Some "x11-display-device"); ValuePtr (PString (Some (x11_display_device r)));
   CharPtr (Some "remote-host-name"); ValuePtr (PString (Some (remote_host_name r)));
   CharPtr (Some "is-local"); ValuePtr (PInt (if is_local r then 1 else 0)); CharPtr None].

(** The session is ended the hard way. *)
Definition tear_down : prog (login_program D) Z :=
  c ← prog_gets ckc;
  on_lib (ck_connector_unref c);;
  prog_modify (set_ckc None);;
  mret PAM_IGNORE.

(** [snprintf] into the buffer of 256 bytes, of which 255 are given to it. *)
Definition to_buf (s : string) : string := stake 254 s.

(** After the session is open: the environment. *)
Definition publish_session (error : dbus_error) : prog (login_program D) Z :=
  c ← prog_gets ckc;
  cookie ← on_lib (ck_connector_get_cookie c);
  b ← pam_putenv (to_buf ("XDG_SESSION_COOKIE=" +:+ default "(null)" cookie));
  if negb b then tear_down
  else
    '(_, runtime_dir) ← on_lib (ck_connector_get_runtime_dir c error);
    match runtime_dir with
    | None => mret PAM_SUCCESS
    | Some dir =>
        b ← pam_putenv (to_buf ("XDG_RUNTIME_DIR=" +:+ dir));
        if negb b then tear_down else mret PAM_SUCCESS
    end.

Definition pam_sm_open_session (h : pam_items) (argv : list string) : prog (login_program D) Z :=
  _parse_pam_args argv;;
  registered ← prog_gets ckc;
  match registered with
  | Some _ => mret PAM_IGNORE
  | None =>
      c ← on_lib ck_connector_new;
      prog_modify (set_ckc c);;
      match c with
      | None => mret PAM_IGNORE
      | Some _ =>
          r ← collect_registration h;
          match r with
          | None => mret PAM_IGNORE
          | Some r =>
              '(error, res) ← on_lib (ck_connector_open_session_with_parameters c (Some None) (Some "unix-user")
                                        (registration_args r));
              if negb res then mret PAM_IGNORE else publish_session error
          end
      end
  end.

Definition pam_sm_close_session : prog (login_program D) Z :=
  c ← prog_gets ckc;
  match c with
  | None => mret PAM_SUCCESS
  | Some _ => on_lib (ck_connector_unref c);; prog_modify (set_ckc None);; mret PAM_SUCCESS
  end.
End pam.
