(* ===== verification/PamPolicy.v ===== *)
(** * What a login program gets from the PAM module. *)

From S2P Require Import Prelude Scan Leader Connector ConnectorFacts ConnectorPolicy PamConnector.

(** ** A login that ends leaves nothing *)

Section life.
Context {D : Type} {HB : Bus D} {HL : BusLaws D} {HP : Pam}.
Implicit Types (l : login_program D).

Lemma wlp_on_lib {A} (m : prog (client D) A) (Q : A → login_program D → Prop) l :
  wlp m (λ a c, Q a (set_lib c l)) (lib l) → wlp (on_lib m) Q l.
Proof. unfold wlp, on_lib. by destruct (m (lib l)) as [[a c]|]. Qed.
Lemma wlp_get_of {A} (f : login_program D → A) (Q : A → login_program D → Prop) l : Q (f l) l → wlp (prog_gets f) Q l.
Proof. done. Qed.
Lemma wlp_change f (Q : unit → login_program D → Prop) l : Q tt (f l) → wlp (prog_modify f) Q l.
Proof. done. Qed.

Section one.
Context (p : positive) (others : gmap positive CkConnector) (before : gset positive).

(** The connector of the module, after [n] openings. *)
Definition registered (n : nat) l : Prop := ckc l = Some p ∧ at_connector p others (owns before n) (lib l).
Definition clean l : Prop := ckc l = None ∧ connectors (lib l) = others ∧ connections (bus (lib l)) = before.

Lemma registered_lib n c l : at_connector p others (owns before n) c → registered n l → registered n (set_lib c l).
Proof. by intros ? [? ?]. Qed.

Lemma registered_alloc n (Q : bool → login_program D → Prop) l :
  registered n l → (∀ b l', registered n l' → Q b l') → wlp (on_lib alloc) Q l.
Proof.
  intros Hl HQ. apply wlp_on_lib. eapply (wlp_alloc p others (owns before n)); [apply Hl|]. intros b c Hc. by apply HQ, registered_lib.
Qed.

Lemma registered_putenv n s (Q : bool → login_program D → Prop) l :
  registered n l → (∀ b l', registered n l' → Q b l') → wlp (pam_putenv s) Q l.
Proof.
  intros [Hp Hl] HQ. unfold pam_putenv. destruct (putenv_ok s); [|by apply HQ]. cbn [negb].
  destruct (sspan _ _) as [name rest]. apply wlp_bind, wlp_change. by apply HQ.
Qed.

Lemma registered_collect n h l : registered n l → wlp (collect_registration h) (λ _, registered n) l.
Proof.
  intros Hl. unfold collect_registration. destruct (present (PAM_USER h)), (present (PAM_TTY h)) as [tty|]; try done.
  apply wlp_bind. eapply (wlp_mono _ (λ _, registered n)).
  { unfold choose_display. destruct (has_char _ tty); [by apply wlp_bind, wlp_get_of|].
    destruct (strip_prefix _ tty); [done|]. apply wlp_bind, (registered_alloc n); [done|]. by intros b l1 H1. }
  intros [[display x11]|] l1 H1; [|done]. apply wlp_bind, wlp_get_of, wlp_bind, wlp_get_of, wlp_bind.
  eapply (wlp_mono _ (λ _, registered n)).
  { unfold choose_x11_device. apply wlp_bind, wlp_get_of. destruct (pam_env l1 !! _); [done|].
    apply wlp_bind, wlp_get_of. destruct (pam_env l1 !! _); [|done]. apply wlp_bind, (registered_alloc n); [done|].
    by intros [|] l2 H2. }
  intros dev l2 H2. by destruct (Z.eqb _ _).
Qed.

Context (Hfresh : others !! p = None).

Lemma wlp_unref n l (Q : unit → login_program D → Prop) : registered (S n) l →
  (∀ c, connectors c = others → left_behind before n (bus c) → Q tt (set_lib c l)) →
  wlp (on_lib (ck_connector_unref (Some p))) Q l.
Proof.
  intros [Hp Hl] HQ. apply wlp_on_lib. unfold wlp. destruct (ck_connector_unref (Some p) (lib l)) as [[[] c]|] eqn:E; [|done].
  apply (last_unref p others before (S n)) in E as [Ec Eb]; auto.
Qed.

Lemma nothing_left d : left_behind before 0 d → connections d = before.
Proof.
  intros (left & E & _ & Hs). rewrite E. assert (left = ∅) as -> by (apply leibniz_equiv, size_empty_iff; lia). apply (left_id_L ∅ (∪)).
Qed.

Lemma clean_tear_down l : registered 1 l → wlp tear_down (λ _, clean) l.
Proof.
  intros Hl. unfold tear_down. apply wlp_bind, wlp_get_of. rewrite (proj1 Hl). apply wlp_bind, (wlp_unref 0); [done|].
  intros c Ec Eb. apply wlp_bind, wlp_change. split; [done|]. split; [done|]. by apply nothing_left.
Qed.

Lemma wlp_publish error l : registered 1 l → wlp (publish_session error) (λ _ l', clean l' ∨ registered 1 l') l.
Proof.
  intros Hl. unfold publish_session. apply wlp_bind, wlp_get_of. rewrite (proj1 Hl).
  apply wlp_bind, wlp_on_lib. eapply wlp_mono; [apply (kept_cookie p others (owns before 1)), Hl|].
  intros cookie c Hc. apply wlp_bind, (registered_putenv 1); [by apply registered_lib|].
  intros [|] l1 H1; [|eapply wlp_mono; [by apply clean_tear_down|by auto]]. cbn [negb].
  apply wlp_bind, wlp_on_lib. eapply wlp_mono; [apply (kept_runtime_dir p others (owns before 1)), H1|].
  intros [e [dir|]] c1 Hc1; [|right; by apply registered_lib]. apply wlp_bind, (registered_putenv 1); [by apply registered_lib|].
  intros [|] l2 H2; [by right|]. eapply wlp_mono; [by apply clean_tear_down|by auto].
Qed.
End one.

Lemma registered_more p others before n l : registered p others before n l → registered p others before (S n) l.
Proof. intros [Hp Hl]. split; [done|]. eapply at_mono, Hl. intros c d. apply owns_more. Qed.

(** Either there is no connector, and all is as it was, or there is one, which has
    opened at most once. *)
Definition one_or_none (others : gmap positive CkConnector) (before : gset positive) l : Prop :=
  clean others before l ∨ ∃ p, others !! p = None ∧ registered p others before 1 l.

Lemma wlp_pam_open h argv l : ckc l = None →
  wlp (pam_sm_open_session h argv) (λ _, one_or_none (connectors (lib l)) (connections (bus (lib l)))) l.
Proof.
  intros Hl. unfold pam_sm_open_session. apply wlp_bind, wlp_change, wlp_bind, wlp_get_of. cbn [ckc set_options]. rewrite Hl.
  apply wlp_bind, wlp_on_lib. cbn [lib set_options]. set (others := connectors (lib l)). set (before := connections (bus (lib l))).
  unfold wlp at 1. destruct (ck_connector_new (lib l)) as [[c w]|] eqn:E; [|done]. apply new_connector in E.
  apply wlp_bind, wlp_change. destruct c as [p|]; [|by left]. destruct E as [Hfresh Hat].
  assert (∀ l', registered p others before 0 l' → one_or_none others before l') as H0.
  { intros l' Hl'. right. exists p. split; [done|]. by apply registered_more. }
  apply wlp_bind. eapply wlp_mono; [by apply registered_collect|]. intros [r|] l1 H1; [|by apply H0].
  apply wlp_bind, wlp_on_lib. eapply wlp_mono.
  { apply (wlp_open_with p others (owns before 1) (owns before 0)); [intros c d; apply owns_more|apply owns_open|apply H1]. }
  intros [e b] w2 H2. assert (registered p others before 1 (set_lib w2 l1)) as Hr by (split; [apply H1|done]).
  destruct b; [|by right; exists p]. eapply wlp_mono; [by apply wlp_publish|]. intros ? l3 [H3|H3]; [by left|by right; exists p].
Qed.

(** A login leaves nothing behind when it ends: whatever became of the opening
    of its session, after the closing the process holds no connector more and no
    connection more than before, and it can log in again. *)
Theorem login_leaves_nothing h argv l r l1 r2 l2 : ckc l = None →
  pam_sm_open_session h argv l = Some (r, l1) → pam_sm_close_session l1 = Some (r2, l2) →
  r2 = PAM_SUCCESS ∧ ckc l2 = None ∧ connectors (lib l2) = connectors (lib l) ∧
  connections (bus (lib l2)) = connections (bus (lib l)).
Proof.
  intros Hl Hopen Hclose. eapply wlp_elim in Hopen; [|by apply wlp_pam_open].
  assert (wlp pam_sm_close_session (λ r l', r = PAM_SUCCESS ∧ clean (connectors (lib l)) (connections (bus (lib l))) l') l1) as H.
  { unfold pam_sm_close_session. apply wlp_bind, wlp_get_of. destruct Hopen as [H1|(p & Hf & H1)].
    - by rewrite (proj1 H1).
    - rewrite (proj1 H1). apply wlp_bind, (wlp_unref p (connectors (lib l)) (connections (bus (lib l))) Hf 0); [done|].
      intros c Ec Eb. apply wlp_bind, wlp_change. split; [done|]. split; [done|]. split; [done|]. by apply nothing_left. }
  eapply wlp_elim in H; [|done]. destruct H as [-> (E1 & E2 & E3)]. done.
Qed.
End life.

(** ** One login in the life of a process *)

Section once.
Context {D : Type} {HB : Bus D} {HP : Pam}.
Implicit Types (l : login_program D).

Lemma same_ckc_lib {A} c (m : prog (client D) A) l : ckc l = c → wlp (on_lib m) (λ _ l', ckc l' = c) l.
Proof. intros Hl. apply wlp_on_lib. unfold wlp. by destruct (m (lib l)) as [[? ?]|]. Qed.
Lemma same_ckc_putenv c s l : ckc l = c → wlp (pam_putenv s) (λ _ l', ckc l' = c) l.
Proof. intros Hl. unfold pam_putenv. destruct (putenv_ok s); [|done]. cbn [negb]. by destruct (sspan _ _). Qed.

Lemma same_ckc_collect c h l : ckc l = c → wlp (collect_registration h) (λ _ l', ckc l' = c) l.
Proof.
  intros Hl. unfold collect_registration. destruct (present (PAM_USER h)), (present (PAM_TTY h)) as [tty|]; try done.
  apply wlp_bind. eapply (wlp_mono _ (λ _ l, ckc l = c)).
  { unfold choose_display. destruct (has_char _ tty); [by apply wlp_bind, wlp_get_of|].
    destruct (strip_prefix _ tty); [done|]. apply wlp_bind. eapply wlp_mono; [by apply same_ckc_lib|done]. }
  intros [[display x11]|] l1 H1; [|done]. apply wlp_bind, wlp_get_of, wlp_bind, wlp_get_of, wlp_bind.
  eapply (wlp_mono _ (λ _ l, ckc l = c)).
  { unfold choose_x11_device. apply wlp_bind, wlp_get_of. destruct (pam_env l1 !! _); [done|].
    apply wlp_bind, wlp_get_of. destruct (pam_env l1 !! _); [|done]. apply wlp_bind.
    eapply wlp_mono; [by apply same_ckc_lib|]. by intros [|]. }
  intros dev l2 H2. by destruct (Z.eqb _ _).
Qed.

Lemma same_ckc_publish c e l : (∀ s, putenv_ok s = true) → ckc l = c → wlp (publish_session e) (λ _ l', ckc l' = c) l.
Proof.
  intros Hput Hl. unfold publish_session. apply wlp_bind, wlp_get_of, wlp_bind. eapply wlp_mono; [by apply same_ckc_lib|].
  assert (∀ s l, ckc l = c → wlp (pam_putenv s) (λ b l', b = true ∧ ckc l' = c) l) as Hb.
  { intros s l' H. unfold pam_putenv. rewrite Hput. cbn [negb]. by destruct (sspan _ _). }
  intros cookie l1 H1. apply wlp_bind. eapply wlp_mono; [by apply Hb|]. intros ? l2 [-> H2]. apply wlp_bind.
  eapply wlp_mono; [by apply same_ckc_lib|]. intros [e' [dir|]] l3 H3; [|done]. apply wlp_bind.
  eapply wlp_mono; [by apply Hb|]. by intros ? l4 [-> H4].
Qed.

Lemma first_login h argv l : ckc l = None → (∀ s, putenv_ok s = true) → (malloc (bus (lib l))).1 = true →
  wlp (pam_sm_open_session h argv) (λ _ l', is_Some (ckc l')) l.
Proof.
  intros Hl Hput Hm. unfold pam_sm_open_session. apply wlp_bind, wlp_change, wlp_bind, wlp_get_of. cbn [ckc set_options].
  rewrite Hl. apply wlp_bind, wlp_on_lib. cbn [lib set_options]. unfold ck_connector_new. apply wlp_bind.
  unfold wlp at 1, alloc, on_bus. destruct (malloc (bus (lib l))) as [b d]. simpl in Hm. subst b. cbn [negb].
  apply wlp_bind. unfold wlp at 1, calloc. apply wlp_ret, wlp_bind, wlp_change.
  set (p := fresh _). assert (∀ l', ckc l' = Some p → is_Some (ckc l')) as Hsome by by intros l' ->.
  apply wlp_bind. eapply wlp_mono; [by apply (same_ckc_collect (Some p))|]. intros [r|] l1 H1; [|by apply Hsome].
  apply wlp_bind. eapply wlp_mono; [by apply (same_ckc_lib (Some p))|]. intros [e b] l2 H2. destruct b; [|by apply Hsome].
  eapply wlp_mono; [by apply (same_ckc_publish (Some p))|]. intros ? l3. apply Hsome.
Qed.

(** The logins that follow in the same process. *)
Fixpoint log_in (attempts : list (pam_items * list string)) : prog (login_program D) (list Z) :=
  match attempts with
  | [] => mret []
  | (h, argv) :: attempts => r ← pam_sm_open_session h argv; rs ← log_in attempts; mret (r :: rs)
  end.

(** C27: A process registers one login: as long as it does not close a session, every
    further login is ignored, nothing is asked of the daemon and nothing put into
    its environment.  It is so also when the first one failed and no session is
    open: an unknown user, a daemon that refused. *)
Theorem one_registration h argv l r l' attempts : ckc l = None → (∀ s, putenv_ok s = true) →
  (malloc (bus (lib l))).1 = true → pam_sm_open_session h argv l = Some (r, l') →
  ∃ l'', log_in attempts l' = Some (replicate (length attempts) PAM_IGNORE, l'') ∧
    lib l'' = lib l' ∧ ckc l'' = ckc l' ∧ pam_env l'' = pam_env l'.
Proof.
  intros Hl Hput Hm Hopen. eapply (wlp_elim _ (λ _ l, is_Some (ckc l))) in Hopen as [p Hp]; [|by apply first_login]. revert l' Hp.
  induction attempts as [|[h' argv'] attempts IH]; intros l' Hp; [by exists l'|]. cbn [log_in].
  set (l1 := set_options (foldl parse_pam_arg (false, opt_nox11 l') argv').1 (foldl parse_pam_arg (false, opt_nox11 l') argv').2 l').
  assert (pam_sm_open_session h' argv' l' = Some (PAM_IGNORE, l1)) as E.
  { cbv [pam_sm_open_session _parse_pam_args mbind prog_bind_inst prog_mbind prog_modify prog_gets].
    cbn [ckc set_options]. by rewrite Hp. }
  destruct (IH l1 Hp) as (l'' & E' & H). exists l''. split; [|done]. unfold mbind at 1, prog_bind_inst, prog_mbind. rewrite E.
  unfold mbind, prog_bind_inst, prog_mbind. by rewrite E'.
Qed.
End once.

(** ** What a successful login means *)

Section success.
Context {D : Type} {HB : Bus D} {HP : Pam}.
Implicit Types (l : login_program D).

Lemma lib_inv {A} (m : prog (client D) A) l a l' : on_lib m l = Some (a, l') →
  ∃ c, m (lib l) = Some (a, c) ∧ l' = set_lib c l.
Proof. unfold on_lib. destruct (m (lib l)) as [[a' c]|]; [|done]. intros [= -> <-]. eauto. Qed.

(** The environment is read, not written, before the session is open. *)
Definition tty_path (tty : string) : string :=
  if has_char ":"%char tty then "" else match strip_prefix "/dev/" tty with Some _ => tty | None => "/dev/" +:+ tty end.

(** What is registered, from what PAM says. *)
Definition registers (h : pam_items) (env : gmap string string) (r : registration) : Prop :=
  ∃ user tty, present (PAM_USER h) = Some user ∧ present (PAM_TTY h) = Some tty ∧ getpwnam user = Some (uid r) ∧
    display_device r = default (tty_path tty) (env !! "CKCON_TTY") ∧
    x11_display r = default (if has_char ":"%char tty then tty else "") (env !! "CKCON_X11_DISPLAY") ∧
    remote_host_name r = default "" (present (PAM_RHOST h)) ∧
    is_local r = bool_decide (present (PAM_RHOST h) = None).

Lemma collected h l r l' : collect_registration h l = Some (Some r, l') →
  registers h (pam_env l) r ∧ ckc l' = ckc l ∧ pam_env l' = pam_env l.
Proof.
  unfold collect_registration. destruct (present (PAM_USER h)) as [user|] eqn:Eu; [|done].
  destruct (present (PAM_TTY h)) as [tty|] eqn:Et; [|done]. intros H. apply bind_inv in H as (o & l1 & Hd & H).
  destruct o as [[display x11]|]; [|done].
  assert (display = tty_path tty ∧ x11 = (if has_char ":"%char tty then Some tty else None) ∧ ckc l1 = ckc l ∧ pam_env l1 = pam_env l)
    as (Ed & Ex & Ec & Ee).
  { unfold choose_display, tty_path in *. destruct (has_char _ tty).
    - apply bind_inv in Hd as (nox & l2 & Hn & Hd). injection Hn as <- <-. destruct (opt_nox11 l); [done|]. by injection Hd as <- <- <-.
    - destruct (strip_prefix _ tty); [by injection Hd as <- <- <-|]. apply bind_inv in Hd as (b & l2 & Ha & Hd).
      apply lib_inv in Ha as (c & _ & ->). destruct b; [|done]. by injection Hd as <- <- <-. }
  apply bind_inv in H as (t & l2 & Hg & H). injection Hg as <- <-.
  apply bind_inv in H as (x & l2 & Hg & H). injection Hg as <- <-. apply bind_inv in H as (dev & l2 & Hdev & H).
  assert (ckc l2 = ckc l1 ∧ pam_env l2 = pam_env l1) as [Ec2 Ee2].
  { unfold choose_x11_device in Hdev. apply bind_inv in Hdev as (t & l3 & Hg & Hdev). injection Hg as <- <-.
    destruct (pam_env l1 !! "CKCON_X11_DISPLAY_DEVICE"); [by injection Hdev as _ <-|].
    apply bind_inv in Hdev as (v & l3 & Hg & Hdev). injection Hg as <- <-.
    destruct (pam_env l1 !! "XDG_VTNR"); [|by injection Hdev as _ <-]. apply bind_inv in Hdev as (b & l3 & Ha & Hdev).
    apply lib_inv in Ha as (c & _ & ->). destruct b; [|done]. by injection Hdev as _ <-. }
  destruct (Z.eqb_spec (_util_name_to_uid user) (2 ^ 32 - 1)) as [|Hu]; [done|]. injection H as <- <-.
  split; [|split; congruence]. exists user, tty. cbn. rewrite Ee, Ed, Ex. unfold _util_name_to_uid in *.
  destruct (getpwnam user) as [u|]; [|done]. split_and!; try done.
  by destruct (pam_env l !! "CKCON_X11_DISPLAY"), (has_char ":"%char tty).
Qed.
(** The six parameters as the daemon gets them. *)
Definition sent_parameters (r : registration) : list (string * gvariant) :=
  [("unix-user", GvInt (i32 (uid r))); ("display-device", GvString (display_device r));
   ("x11-display", GvString (x11_display r)); ("x11-display-device", GvString (x11_display_device r));
   ("remote-host-name", GvString (remote_host_name r)); ("is-local", GvBool (is_local r))].

Lemma registration_sent r ps pars : passed (Some "unix-user") (registration_args r) ps →
  Forall2 same_parameter ps pars → pars = sent_parameters r.
Proof.
  unfold registration_args. intros H.
  repeat match goal with H : passed _ _ _ |- _ => inversion_clear H end. intros H.
  do 6 (destruct (Forall2_cons_inv_l _ _ _ _ H) as ([? ?] & ? & [? ?] & Hrest & ->); clear H; rename Hrest into H).
  apply Forall2_nil_inv_l in H as ->.
  cbn [fst snd] in *. subst.
  repeat match goal with
  | H : append_value ?t (PString (Some ?s)) = _ |- _ =>
      change t with DBUS_TYPE_STRING in H; cbn in H; destruct (check_is_valid_utf8 s); [injection H as <-|done]
  | H : append_value _ (PInt (uid _)) = _ |- _ => injection H as <-
  end.
  unfold sent_parameters. destruct (is_local r); match goal with H : append_value _ _ = _ |- _ => injection H as <- end; done.
Qed.

Lemma putenv_inv s l l' : pam_putenv s l = Some (true, l') →
  l' = set_env (<[(sspan (λ c, negb (ascii_eqb c "="%char)) s).1 := sdrop 1 (sspan (λ c, negb (ascii_eqb c "="%char)) s).2]>
    (pam_env l)) l.
Proof.
  unfold pam_putenv. destruct (putenv_ok s); [|done]. cbn [negb].
  destruct (sspan _ s) as [name rest]. intros H. by injection H as <-.
Qed.
Lemma putenv_same_lib s b l l' : pam_putenv s l = Some (b, l') → lib l' = lib l ∧ ckc l' = ckc l.
Proof.
  unfold pam_putenv. destruct (putenv_ok s); [|by intros [= _ <-]]. cbn [negb].
  destruct (sspan _ s) as [name rest]. intros H. by injection H as _ <-.
Qed.
Lemma stake_beyond a n b : stake (String.length a + n) (a +:+ b) = a +:+ stake n b.
Proof. induction a as [|c a IH]; [done|]. rewrite sapp_cons. simpl. by rewrite IH. Qed.

Definition open_with_cookie (s : string) (c : CkConnector) (d : D) : Prop := session_created c = true ∧ cookie c = Some s.
#[local] Instance open_with_cookie_answered s : Answered (open_with_cookie s).
Proof. split; try done. right. done. Qed.

Lemma published e p others s l l' : ckc l = Some p → at_connector p others (open_with_cookie s) (lib l) →
  publish_session e l = Some (PAM_SUCCESS, l') →
  ckc l' = Some p ∧ at_connector p others (open_with_cookie s) (lib l') ∧
  pam_env l' !! "XDG_SESSION_COOKIE" = Some (stake 235 s).
Proof.
  intros Hp (c & Ec & Hcreated & Hcookie) H. unfold publish_session in H.
  apply bind_inv in H as (? & ? & Hg & H). injection Hg as <- <-. rewrite Hp in H.
  assert (∀ l1, tear_down l1 ≠ Some (PAM_SUCCESS, l')) as Htear.
  { intros l1 E. unfold tear_down in E. apply bind_inv in E as (? & ? & _ & E). apply bind_inv in E as (? & ? & _ & E).
    apply bind_inv in E as (? & ? & _ & E). by injection E. }
  apply bind_inv in H as (ck & l1 & Hck & H). apply lib_inv in Hck as (w1 & Hck & ->).
  unfold ck_connector_get_cookie in Hck. apply bind_inv in Hck as (c1 & w2 & Hg & Hck).
  apply (get_inv _ _ _ _ _ _ Ec) in Hg as [-> ->]. rewrite Hcreated, Hcookie in Hck. injection Hck as <- <-.
  apply bind_inv in H as (b & l2 & Hput & H). destruct b; [|by destruct (Htear l2)].
  cbn [default] in Hput. unfold to_buf in Hput.
  rewrite (stake_beyond "XDG_SESSION_COOKIE=" 235) in Hput. apply putenv_inv in Hput as ->.
  change (sspan _ _) with ("XDG_SESSION_COOKIE", "=" +:+ stake 235 s) in H. cbn [fst snd] in H.
  change (sdrop 1 ("=" +:+ stake 235 s)) with (stake 235 s) in H.
  cbn [negb] in H. apply bind_inv in H as ([e' dir] & l3 & Hdir & H). apply lib_inv in Hdir as (w3 & Hdir & ->).
  eapply (wlp_elim _ (λ _, at_connector p others (open_with_cookie s))) in Hdir.
  2: { apply (kept_runtime_dir p others (open_with_cookie s)). by exists c. }
  destruct dir as [dir|].
  - apply bind_inv in H as ([|] & l4 & Hput & H); [|by destruct (Htear l4)]. injection H as <-. unfold to_buf in Hput.
    rewrite (stake_beyond "XDG_RUNTIME_DIR=" 238) in Hput. apply putenv_inv in Hput as ->.
    change (sspan _ _) with ("XDG_RUNTIME_DIR", "=" +:+ stake 238 dir). split; [done|]. split; [done|].
    cbn [pam_env set_env fst]. rewrite lookup_insert_ne by done. cbn [pam_env set_lib set_env]. apply lookup_insert_eq.
  - injection H as <-. split; [done|]. split; [done|]. cbn [pam_env set_lib set_env]. apply lookup_insert_eq.
Qed.
(** C26: A login that succeeds has a session, and it is the one PAM describes: the
    daemon was asked with six parameters, its session leader gets the number of the
    user, the terminal or the display, and local exactly if PAM names no remote
    host; the connector of the process holds the cookie the daemon gave for
    that call, and the environment of the login has it, if it has no more than 235
    characters. *)
Theorem login_registers h argv l l' : ckc l = None → pam_sm_open_session h argv l = Some (PAM_SUCCESS, l') →
  ∃ r k d d' s p c, registers h (pam_env l) r ∧
    send_with_reply_and_block k (OpenSessionWithParameters (sent_parameters r)) d = (Reply (ArgString s), d') ∧
    (∀ leader, override_parameters (ck_session_leader_set_override_parameters (Some (sent_parameters r)) leader) =
       list_to_map (sent_parameters r)) ∧
    ckc l' = Some p ∧ connectors (lib l') !! p = Some c ∧ session_created c = true ∧ cookie c = Some s ∧
    pam_env l' !! "XDG_SESSION_COOKIE" = Some (stake 235 s).
Proof.
  intros Hl H. unfold pam_sm_open_session in H. apply bind_inv in H as ([] & l1 & Hargs & H).
  assert (ckc l1 = None ∧ pam_env l1 = pam_env l) as [El Ee] by (by injection Hargs as <-). clear Hargs.
  apply bind_inv in H as (? & ? & Hg & H). injection Hg as <- <-. rewrite El in H.
  apply bind_inv in H as (c & l2 & Hnew & H). apply lib_inv in Hnew as (w2 & _ & ->).
  apply bind_inv in H as ([] & l3 & Hset & H). injection Hset as <-. destruct c as [p|]; [|done].
  apply bind_inv in H as ([r|] & l4 & Hcol & H); [|done]. apply collected in Hcol as (Hr & Ep & Ee4).
  apply bind_inv in H as ([e b] & l5 & Hopen & H). apply lib_inv in Hopen as (w5 & Hopen & ->). destruct b; [|done].
  apply open_with_spec in Hopen as (ps & pars & k & d & d' & s & c & Hps & Hall & Hsend & Hc & Hcreated & Hcookie).
  assert (pars = sent_parameters r) as -> by by eapply registration_sent.
  apply (published _ p (delete p (connectors w5)) s) in H as (Hp & (c' & Ec & Hcr & Hck) & Henv).
  - exists r, k, d, d', s, p, c'. split_and!; try done.
    + cbn [pam_env set_ckc set_lib] in Hr. by rewrite Ee in Hr.
    + rewrite Ec. apply lookup_insert_eq.
  - done.
  - exists c. split; [|done]. by rewrite insert_delete_id.
Qed.
End success.
