(* ===== verification/LaunchSession.v ===== *)
(** * A program in a session of its own: [src/tools/ck-launch-session.c]. *)

From S2P Require Import Prelude Scan Leader Connector ConnectorFacts ConnectorPolicy.

(** How a process goes on: it becomes a program, exits, or reads through NULL. *)
Inductive process_end :=
| Becomes (file : string) (argv : list string) (environ : gmap string string)
| Exits (code : Z)
| Crashes.

(** The file system, as [execvp] and [g_file_test] see it. *)
Class Executables := { exec_ok : string → bool; is_executable : string → bool; _PATH_BSHELL : string }.

Section launch.
Context {D : Type} {HB : Bus D} {HE : Executables}.

Definition check_shell (shell : cstr) : bool :=
  match shell with None | Some "" => false | Some s => is_executable s end.

(** [exit]: the low byte is what a parent gets. *)
Definition exit_process (status : Z) : process_end := Exits (Z.land status 255).

(** The end of [main]: the command, or a shell when the list is empty.  GLib leaves
    NULL when there was no argument at all. *)
Definition exec_command (command : option (list string)) (environ : gmap string string) : process_end :=
  match command with
  | None => Crashes
  | Some (file :: args) => if exec_ok file then Becomes file (file :: args) environ else Exits 1
  | Some [] =>
      let shell := environ !! "SHELL" in
      let shell := if check_shell shell then default "" shell else _PATH_BSHELL in
      if exec_ok shell then Becomes shell [shell] environ else Exits 1
  end.

(** The opening of the session; the call with a service has no NULL at its end. *)
Definition open_launched (p : positive) (service : cstr) : prog (client D) (dbus_error * bool) :=
  match service with
  | None => ck_connector_open_session (Some p) (Some None)
  | Some _ => ck_connector_open_session_with_parameters (Some p) (Some None) (Some "session-service")
                [ValuePtr (PString service)]
  end.

(** The child's part of the environment. *)
Definition session_environ (p : positive) (error : dbus_error) (environ : gmap string string) :
    prog (client D) (gmap string string) :=
  cookie ← ck_connector_get_cookie (Some p);
  match cookie with
  | None => prog_abort
  | Some s =>
      '(_, runtime_dir) ← ck_connector_get_runtime_dir (Some p) error;
      let environ := <["XDG_SESSION_COOKIE" := s]> environ in
      mret (match runtime_dir with Some dir => <["XDG_RUNTIME_DIR" := dir]> environ | None => environ end)
  end.

(** [main] after the options: this process, and the child if there is one, whose
    wait status is [forked]. *)
Definition main (service : cstr) (command : option (list string)) (forked : option Z) (environ : gmap string string) :
    prog (client D) (process_end * option process_end) :=
  c ← ck_connector_new;
  match c with
  | None => mret (exec_command command environ, None)
  | Some p =>
      '(error, ret) ← open_launched p service;
      if negb ret then mret (exec_command command environ, None)
      else match forked with
           | None => mret (exec_command command environ, None)
           | Some status =>
               environ ← session_environ p error environ;
               mret (exit_process status, Some (exec_command command environ))
           end
  end.

(** ** What becomes of it *)

Lemma passed_not_ended name value l : ¬ passed (Some name) [ValuePtr value] l.
Proof. intros H. by inversion H. Qed.

(** With a service there is never a session: the only defined runs are those in
    which nothing was opened, and the command runs outside of any session.
    In all others the program reads an argument it was not given. *)
Theorem service_never_opens service command forked environ w r w' :
  main (Some service) command forked environ w = Some (r, w') → r = (exec_command command environ, None).
Proof.
  unfold main. intros H. apply bind_inv in H as ([p|] & w1 & _ & H); [|by injection H].
  apply bind_inv in H as ([e b] & w2 & Hopen & H). destruct b; [|by injection H].
  apply open_with_spec in Hopen as (l & ps & k & d & d' & s & c & Hl & _). by apply passed_not_ended in Hl.
Qed.

(** The wait status of a process that exits, and of one that a signal ends. *)
Definition exited (code : Z) : Z := Z.shiftl code 8.
Definition killed (signal : Z) (core : bool) : Z := Z.lor signal (if core then 128 else 0).

(** What the command returns is lost: whenever it exits, with whatever code, the
    launcher exits with success; only a signal shows in its exit code. *)
Theorem exit_code_lost command environ w parent child w' code : (0 ≤ code < 256)%Z →
  main None command (Some (exited code)) environ w = Some ((parent, Some child), w') → parent = Exits 0.
Proof.
  intros Hcode. unfold main. intros H. apply bind_inv in H as ([p|] & w1 & _ & H); [|done].
  apply bind_inv in H as ([e b] & w2 & _ & H). destruct b; [|done]. cbn [negb] in H.
  apply bind_inv in H as (env' & w3 & _ & H). injection H as <- _ _. unfold exit_process, exited. f_equal.
  change 255%Z with (Z.ones 8). rewrite Z.land_ones, Z.shiftl_mul_pow2 by done. by apply Z.mod_mul.
Qed.
End launch.
