(* ===== verification/ConnectorRuns.v ===== *)
(** * A bus with a daemon behind it, and the runs of the connector's users on it. *)

From S2P Require Import Prelude Scan Leader Connector ConnectorFacts ConnectorPolicy PamConnector PamPolicy LaunchSession.

(** ** The daemon *)

(** A session: its cookie, the connection that opened it, its user. *)
Record small_bus := {
  open_connections : gset positive;
  sessions : list (string * (positive * Z));
  reachable : bool;
  memory : bool
}.

Definition with_connections (s : gset positive) (d : small_bus) : small_bus :=
  {| open_connections := s; sessions := sessions d; reachable := reachable d; memory := memory d |}.
Definition with_sessions (l : list (string * (positive * Z))) (d : small_bus) : small_bus :=
  {| open_connections := open_connections d; sessions := l; reachable := reachable d; memory := memory d |}.

Definition find_session (f : string → string) (key : string) (d : small_bus) : option (string * (positive * Z)) :=
  List.find (λ s, String.eqb (f s.1) key) (sessions d).
Definition ssid_of (cookie : string) : string := "/Session-" +:+ cookie.

Definition open_in_daemon (k : positive) (user : Z) (d : small_bus) : dbus_reply * small_bus :=
  let cookie := "cookie" +:+ pretty (N.of_nat (length (sessions d))) in
  (Reply (ArgString cookie), with_sessions ((cookie, (k, user)) :: sessions d) d).

#[export] Instance small_bus_bus : Bus small_bus := {|
  malloc d := (memory d, d);
  check_is_valid_utf8 := sall (λ c, N.ltb (N_of_ascii c) 128);
  wrong_args_message := "Argument has the wrong type";
  dbus_bus_get_private d :=
    if reachable d
    then let k := fresh (open_connections d) in (inl k, with_connections ({[k]} ∪ open_connections d) d)
    else (inr (Some "no such file"), d);
  send_with_reply_and_block k m d :=
    match m with
    | OpenSession => open_in_daemon k 0 d
    | OpenSessionWithParameters ps =>
        let o := save_parameters ∅ ps in
        open_in_daemon k (match o !! "unix-user" with Some (GvInt u) => u | _ => 0%Z end) d
    | GetSessionForCookie s =>
        match find_session (λ c, c) s d with
        | Some s => (Reply (ArgPath (ssid_of s.1)), d)
        | None => (NoReply (Some "Unable to find session for cookie"), d)
        end
    | GetXDGRuntimeDir path =>
        match find_session ssid_of path d with
        | Some s => (Reply (ArgString ("/run/user/" +:+ pretty (Z.to_N (s.2).2))), d)
        | None => (NoReply (Some "No such object"), d)
        end
    | CloseSession s =>
        match find_session (λ c, c) s d with
        | Some _ => (Reply (ArgBool true), with_sessions (List.filter (λ t, negb (String.eqb t.1 s)) (sessions d)) d)
        | None => (NoReply (Some "Unable to find session for cookie"), d)
        end
    end;
  dbus_connection_close k d :=
    with_sessions (List.filter (λ s, negb (Pos.eqb (s.2).1 k)) (sessions d)) (with_connections (open_connections d ∖ {[k]}) d)
|}.

#[export] Instance small_bus_laws : BusLaws small_bus.
Proof.
  refine {| connections := open_connections |}; try done.
  - intros k m d. destruct m; simpl; try done; by destruct (find_session _ _ d).
  - intros d k d'. simpl. destruct (reachable d); [|done]. intros [= <- <-]. split; [apply is_fresh|done].
  - intros d m d'. simpl. destruct (reachable d); [done|]. by intros [= _ <-].
Defined.

Definition empty_bus : small_bus := {| open_connections := ∅; sessions := []; reachable := true; memory := true |}.
Definition idle_client : client small_bus := {| connectors := ∅; bus := empty_bus |}.
Definition no_error : dbus_error := Some None.

Definition final {S A} (r : option (A * S)) (s : S) : S := match r with Some (_, s) => s | None => s end.

(** ** The connector *)

Definition new_client : client small_bus := final (ck_connector_new idle_client) idle_client.
Definition user_args : list vararg :=
  [ValuePtr (PInt 1000); CharPtr (Some "display-device"); ValuePtr (PString (Some "/dev/tty7")); CharPtr None].
Definition opened : option ((dbus_error * bool) * client small_bus) :=
  ck_connector_open_session_with_parameters (Some 1%positive) no_error (Some "unix-user") user_args new_client.

Lemma parameters_reach_leader_witness :
  opened = Some ((no_error, true), final opened new_client) ∧
  ∃ l ps, passed (Some "unix-user") user_args l ∧ Forall2 same_parameter l ps ∧
    ∀ leader, override_parameters (ck_session_leader_set_override_parameters (Some ps) leader) = list_to_map (reverse ps).
Proof.
  assert (opened = Some ((no_error, true), final opened new_client)) as E by (vm_compute; reflexivity).
  split; [exact E|]. destruct (parameters_reach_leader _ _ _ _ _ _ _ E) as (l & ps & _ & _ & _ & _ & _ & Hl & Hall & _ & _ & _ & _ & Hleader).
  exists l, ps. split; [exact Hl|]. split; [exact Hall|exact Hleader].
Defined.

(** A client that changes users. *)
Definition two_users : list request :=
  [OpenForUser 1000 (Some "/dev/tty7") (Some ":0") no_error; GetRuntimeDir no_error; Close no_error;
   OpenForUser 1001 (Some "/dev/tty8") (Some ":1") no_error].
Definition after_two_users : client small_bus := final (for_each (run_request 1) two_users new_client) new_client.
Definition after_unref : client small_bus := final (ck_connector_unref (Some 1%positive) after_two_users) after_two_users.

Lemma connector_leaves_nothing_witness :
  connectors after_unref = connectors idle_client ∧
  left_behind (connections (bus idle_client)) (pred (openings two_users)) (bus after_unref).
Proof.
  apply (connector_leaves_nothing idle_client new_client after_two_users after_unref 1 two_users); vm_compute; reflexivity.
Defined.
(** The first of two connections does stay open. *)
Example connection_lost : size (open_connections (bus after_unref)) = 1.
Proof. by vm_compute. Qed.
(** A second opening that is not preceded by a closing leaves a session that no
    process knows: here the one of user 1000. *)
Example session_lost :
  sessions (bus (final ((for_each (run_request 1) [OpenForUser 1000 (Some "/dev/tty7") (Some "") no_error;
                                                    OpenForUser 1001 (Some "/dev/tty7") (Some "") no_error];;
                         ck_connector_unref (Some 1%positive)) new_client) new_client)) = [("cookie0", (1%positive, 1000%Z))].
Proof. by vm_compute. Qed.
(** No display, which the documentation allows, opens no session. *)
Example no_display_refused :
  ck_connector_open_session_for_user (Some 1%positive) 1000 (Some "/dev/tty7") None no_error new_client =
    Some ((Some (Some "Error adding parameter: x11-display"), false),
          final (connect 1 no_error new_client) new_client).
Proof. by vm_compute. Qed.

Definition one_user : client small_bus := final (for_each (run_request 1) (take 2 two_users) new_client) new_client.
Lemma runtime_dir_is_kept_witness :
  ∃ c', connectors after_two_users !! 1%positive = Some c' ∧ runtime_dir c' = Some "/run/user/1000" ∧
    ck_connector_get_runtime_dir (Some 1%positive) no_error after_two_users =
      Some ((no_error, if session_created c' && bool_decide (is_Some (cookie c')) then Some "/run/user/1000" else None),
            after_two_users).
Proof.
  destruct (connectors one_user !! 1%positive) as [c|] eqn:Ec; [|vm_compute in Ec; discriminate Ec].
  apply (runtime_dir_is_kept 1 "/run/user/1000" (drop 2 two_users) c one_user); [exact Ec| |].
  - vm_compute in Ec. injection Ec as <-. reflexivity.
  - vm_compute. reflexivity.
Defined.
(** The session is that of user 1001. *)
Example other_users_dir :
  (λ r, r.1.2) <$> ck_connector_get_runtime_dir (Some 1%positive) no_error after_two_users = Some (Some "/run/user/1000") ∧
  sessions (bus after_two_users) = [("cookie0", (2%positive, 1001%Z))].
Proof. by vm_compute. Qed.

(** ** The PAM module *)

#[export] Instance two_accounts : Pam := {|
  putenv_ok _ := true;
  getpwnam name := if String.eqb name "alice" then Some 1000%Z else if String.eqb name "bob" then Some 1001%Z else None
|}.
Definition idle_login : login_program small_bus :=
  {| lib := idle_client; ckc := None; opt_debug := false; opt_nox11 := false; pam_env := {["XDG_VTNR" := "7"]} |}.
Definition alice : pam_items := {| PAM_USER := Some "alice"; PAM_TTY := Some "tty7"; PAM_RHOST := None |}.
Definition mallory : pam_items := {| PAM_USER := Some "mallory"; PAM_TTY := Some "ssh"; PAM_RHOST := Some "elsewhere" |}.
Definition remote_bob : pam_items := {| PAM_USER := Some "bob"; PAM_TTY := Some "ssh"; PAM_RHOST := Some "elsewhere" |}.

Definition alice_in : login_program small_bus := final (pam_sm_open_session alice [] idle_login) idle_login.
Definition alice_out : login_program small_bus := final (pam_sm_close_session alice_in) alice_in.

Lemma login_registers_witness :
  pam_sm_open_session alice [] idle_login = Some (PAM_SUCCESS, alice_in) ∧
  ∃ r p c, registers alice (pam_env idle_login) r ∧ ckc alice_in = Some p ∧ connectors (lib alice_in) !! p = Some c ∧
    session_created c = true.
Proof.
  assert (pam_sm_open_session alice [] idle_login = Some (PAM_SUCCESS, alice_in)) as E by (vm_compute; reflexivity).
  split; [exact E|].
  destruct (login_registers alice [] idle_login alice_in eq_refl E) as (r & _ & _ & _ & _ & p & c & Hr & _ & _ & Hp & Hc & Hs & _).
  exists r, p, c. split; [exact Hr|]. split; [exact Hp|]. split; [exact Hc|exact Hs].
Defined.
Example alice_env :
  pam_env alice_in !! "XDG_RUNTIME_DIR" = Some "/run/user/1000" ∧ pam_env alice_in !! "XDG_SESSION_COOKIE" = Some "cookie0".
Proof. by vm_compute. Qed.

Lemma login_leaves_nothing_witness :
  PAM_SUCCESS = PAM_SUCCESS ∧ ckc alice_out = None ∧ connectors (lib alice_out) = connectors (lib idle_login) ∧
  connections (bus (lib alice_out)) = connections (bus (lib idle_login)).
Proof.
  apply (login_leaves_nothing alice [] idle_login PAM_SUCCESS alice_in PAM_SUCCESS alice_out); vm_compute; reflexivity.
Defined.

(** After an unknown user nobody can log in, although no session was ever opened. *)
Definition mallory_refused : login_program small_bus := final (pam_sm_open_session mallory [] idle_login) idle_login.
Lemma one_registration_witness :
  ∃ l'', log_in [(alice, []); (remote_bob, [])] mallory_refused = Some ([PAM_IGNORE; PAM_IGNORE], l'') ∧
    lib l'' = lib mallory_refused ∧ ckc l'' = ckc mallory_refused ∧ pam_env l'' = pam_env mallory_refused.
Proof.
  apply (one_registration mallory [] idle_login PAM_IGNORE mallory_refused [(alice, []); (remote_bob, [])]).
  - reflexivity.
  - reflexivity.
  - reflexivity.
  - vm_compute. reflexivity.
Defined.
Example nobody_logged_in : sessions (bus (lib mallory_refused)) = [].
Proof. by vm_compute. Qed.

(** ** The launcher *)

#[export] Instance all_executable : Executables := {|
  exec_ok _ := true; is_executable _ := true; _PATH_BSHELL := "/bin/sh"
|}.
Definition unreachable : client small_bus :=
  {| connectors := ∅; bus := {| open_connections := ∅; sessions := []; reachable := false; memory := true |} |}.

Lemma service_never_opens_witness :
  (Becomes "startx" ["startx"] ∅, @None process_end) = (exec_command (Some ["startx"]) ∅, None) ∧
  main (Some "lightdm") (Some ["startx"]) (Some 0%Z) ∅ idle_client = None.
Proof.
  split; [|vm_compute; reflexivity].
  apply (service_never_opens "lightdm" (Some ["startx"]) (Some 0%Z) ∅ unreachable _
    (final (main (Some "lightdm") (Some ["startx"]) (Some 0%Z) ∅ unreachable) unreachable)).
  vm_compute. reflexivity.
Defined.

Definition failing_run := main None (Some ["false"]) (Some (exited 1)) ∅ idle_client.
Lemma exit_code_lost_witness : ∃ parent child w', failing_run = Some ((parent, Some child), w') ∧ parent = Exits 0.
Proof.
  destruct failing_run as [[[parent [child|]] w']|] eqn:E; [|vm_compute in E; discriminate E..].
  exists parent, child, w'. split; [reflexivity|].
  apply (exit_code_lost (Some ["false"]) ∅ idle_client parent child w' 1); [lia|exact E].
Defined.

(** Without a command there is no shell: NULL is read. *)
Example no_command_crashes :
  (λ r, r.1) <$> main None None (Some 11%Z) ∅ idle_client = Some (Exits 11, Some Crashes).
Proof. by vm_compute. Qed.
