(* ===== verification/ConsoleFd.v ===== *)
(** * Descriptors of consoles: the rest of [src/ck-sysdeps-unix.c], as built for Linux,
    and the active console of [src/ck-sysdeps-linux.c].

    The daemon needs some console to ask the kernel about the others.  The kernel
    is the class [ConsoleKernel]; its states are an argument. *)

From S2P Require Import Prelude.

(** [open] for reading, or for writing only; a terminal; the active console that
    VT_GETSTATE tells;
    the two requests for a switch.  Errors are the values of errno. *)
Class ConsoleKernel (S : Type) := {
  open_tty : string → bool → S → (Z + Z) * S;
  close_fd : Z → S → S;
  isatty : Z → S → bool;
  vt_getstate : Z → S → option Z;
  vt_waitactive : Z → Z → S → option Z * S;
  vt_activate : Z → Z → S → option Z * S
}.

(** What the process knows of itself, and of the other end of a socket. *)
Class Credentials := {
  getresuid : option Z;
  getresgid_ok : bool;
  getuid : Z;
  getsockopt_peercred : Z → option (Z * Z)
}.

Section console.
Context {S : Type} {HK : ConsoleKernel S}.

Definition ck_fd_is_a_console (fd : Z) (s : S) : bool := isatty fd s && bool_decide (is_Some (vt_getstate fd s)).

(** The first [open], the second one for writing; again while the terminal is
    closing, [fuel] times. *)
Fixpoint ck_open_a_console (fuel : nat) (fnam : string) (s : S) : outcome (Z * S) :=
  match fuel with
  | 0 => Fault OutOfFuel
  | Datatypes.S fuel =>
      let '(r, s) := open_tty fnam false s in
      let '(r, s) := match r with
                     | inr errno => if Z.eqb errno EACCES then open_tty fnam true s else (r, s)
                     | inl _ => (r, s)
                     end in
      match r with
      | inr errno => if Z.eqb errno EIO then ck_open_a_console fuel fnam s else Done ((-1)%Z, s)
      | inl fd => if ck_fd_is_a_console fd s then Done (fd, s) else Done ((-1)%Z, close_fd fd s)
      end
  end.

(** The paths in turn, then the standard descriptors. *)
Definition _PATH_TTY : string := "/dev/tty".
Definition _PATH_CONSOLE : string := "/dev/console".
Definition console_paths : list string := [_PATH_TTY; "/dev/tty"; "/dev/tty0"; _PATH_CONSOLE; "/dev/console"].
Definition standard_fd (s : S) : Z :=
  if ck_fd_is_a_console 0 s then 0 else if ck_fd_is_a_console 1 s then 1 else if ck_fd_is_a_console 2 s then 2 else 3.
Fixpoint open_first (fuel : nat) (paths : list string) (s : S) : outcome (Z * S) :=
  match paths with
  | [] => Done (standard_fd s, s)
  | fnam :: paths =>
      '(fd, s) ← ck_open_a_console fuel fnam s;
      if Z.leb 0 fd then Done (fd, s) else open_first fuel paths s
  end.
Definition ck_get_a_console_fd (fuel : nat) (s : S) : outcome (Z * S) := open_first fuel console_paths s.

(** The wait, again after each signal. *)
Fixpoint ck_wait_for_active_console_num (fuel : nat) (console_fd num : Z) (s : S) : outcome (bool * S) :=
  if Z.eqb console_fd (-1) then Fault Aborted
  else match fuel with
       | 0 => Fault OutOfFuel
       | Datatypes.S fuel =>
           let '(r, s) := vt_waitactive console_fd num s in
           match r with
           | None => Done (true, s)
           | Some errno => if Z.eqb errno EINTR then ck_wait_for_active_console_num fuel console_fd num s else Done (false, s)
           end
       end.
Definition ck_activate_console_num (console_fd num : Z) (s : S) : outcome (bool * S) :=
  if Z.eqb console_fd (-1) then Fault Aborted
  else let '(r, s) := vt_activate console_fd num s in Done (bool_decide (r = None), s).

(** The active console, 0 after a failure. *)
Definition ck_get_active_console_num (console_fd : Z) (s : S) : outcome (bool * Z) :=
  if Z.eqb console_fd (-1) then Fault Aborted
  else Done (match vt_getstate console_fd s with Some active => (true, active) | None => (false, 0%Z) end).

(** The console [ck_vt_monitor_init] starts with: none if there is no descriptor of
    a console, 0 if that does not tell. *)
Definition initial_active_num (fuel : nat) (s : S) : outcome (option Z * S) :=
  '(fd, s) ← ck_get_a_console_fd fuel s;
  if Z.eqb fd (-1) then Done (None, s)
  else '(res, active) ← ck_get_active_console_num fd s; Done (Some (if (res : bool) then active else 0%Z), s).
End console.

Section credentials.
Context {HC : Credentials}.
Definition ck_is_root_user : bool :=
  let ruid := match getresuid with Some u => if getresgid_ok then u else getuid | None => getuid end in
  Z.eqb ruid 0.
(** Process and user; both unknown after a failure. *)
Definition ck_get_socket_peer_credentials (socket_fd : Z) : bool * (Z * Z) :=
  match getsockopt_peercred socket_fd with Some (pid, uid) => (true, (pid, uid)) | None => (false, ((-1)%Z, u32 (-1))) end.
End credentials.

(** ** What is opened stays open only if it is returned *)

Class ConsoleLaws (S : Type) {HK : ConsoleKernel S} := {
  descriptors : S → gset Z;
  open_new : ∀ f b s fd s', open_tty f b s = (inl fd, s') →
    (0 ≤ fd)%Z ∧ (fd ∉ descriptors s) ∧ descriptors s' = {[fd]} ∪ descriptors s;
  open_failed : ∀ f b s e s', open_tty f b s = (inr e, s') → descriptors s' = descriptors s;
  close_one : ∀ fd s, descriptors (close_fd fd s) = descriptors s ∖ {[fd]};
  (** how often a terminal can still be found closing *)
  closing : S → nat;
  closing_eio : ∀ f b s s', open_tty f b s = (inr EIO, s') → closing s' < closing s;
  closing_open : ∀ f b s r s', open_tty f b s = (r, s') → closing s' ≤ closing s;
  closing_close : ∀ fd s, closing (close_fd fd s) = closing s
}.

Section facts.
Context {S : Type} {HK : ConsoleKernel S} {HL : ConsoleLaws S}.

(** The outcome of one path. *)
Definition opened_or_not (s : S) (fd : Z) (s' : S) : Prop :=
  (fd = -1)%Z ∧ descriptors s' = descriptors s ∨
  (0 ≤ fd)%Z ∧ (fd ∉ descriptors s) ∧ descriptors s' = {[fd]} ∪ descriptors s ∧ ck_fd_is_a_console fd s' = true.

Lemma open_a_console_spec fuel : ∀ fnam s, closing s < fuel →
  ∃ fd s', ck_open_a_console fuel fnam s = Done (fd, s') ∧ opened_or_not s fd s' ∧ closing s' ≤ closing s.
Proof.
  induction fuel as [|fuel IH]; intros fnam s Hs; [lia|]. simpl.
  assert (∃ r s1, (let '(r, s0) := open_tty fnam false s in
      match r with inr e => if Z.eqb e EACCES then open_tty fnam true s0 else (r, s0) | inl _ => (r, s0) end) = (r, s1) ∧
    closing s1 ≤ closing s ∧
    match r with
    | inl fd => (0 ≤ fd)%Z ∧ (fd ∉ descriptors s) ∧ descriptors s1 = {[fd]} ∪ descriptors s
    | inr e => descriptors s1 = descriptors s ∧ (e = EIO → closing s1 < closing s)
    end) as (r & s1 & E & Hc & Hr).
  { destruct (open_tty fnam false s) as [[fd|e] s0] eqn:E0.
    - exists (inl fd), s0. pose proof (closing_open _ _ _ _ _ E0). apply open_new in E0. done.
    - pose proof (closing_open _ _ _ _ _ E0) as H0. pose proof (open_failed _ _ _ _ _ E0) as D0.
      destruct (Z.eqb_spec e EACCES) as [->|He].
      + destruct (open_tty fnam true s0) as [r s1] eqn:E1. exists r, s1. split; [done|].
        pose proof (closing_open _ _ _ _ _ E1). split; [lia|]. rewrite <- D0. destruct r as [fd|e]; [by eapply open_new|].
        split; [by eapply open_failed|]. intros ->. apply closing_eio in E1. lia.
      + exists (inr e), s0. split_and!; try done. intros ->. by apply closing_eio in E0. }
  destruct (open_tty fnam false s) as [r0 s0]. rewrite E. destruct r as [fd|e].
  - destruct Hr as (Hpos & Hnew & Ed). destruct (ck_fd_is_a_console fd s1) eqn:Econ; eexists _, _; (split; [done|]).
    + split; [right; done|done].
    + rewrite closing_close. split; [left; split; [done|]|done]. rewrite close_one, Ed. set_solver.
  - destruct Hr as [Ed He]. destruct (Z.eqb_spec e EIO) as [->|Hne].
    + specialize (He eq_refl). destruct (IH fnam s1) as (fd & s2 & E2 & H2 & Hc2); [lia|]. exists fd, s2.
      split; [done|]. split; [|lia]. unfold opened_or_not in *. by rewrite Ed in H2.
    + exists (-1)%Z, s1. split; [done|]. split; [by left|done].
Qed.

Lemma open_first_spec paths : ∀ fuel s, closing s < fuel →
  ∃ fd s', open_first fuel paths s = Done (fd, s') ∧
    (opened_or_not s fd s' ∧ (0 ≤ fd)%Z ∨ fd = standard_fd s' ∧ descriptors s' = descriptors s).
Proof.
  induction paths as [|fnam paths IH]; intros fuel s Hs; [exists (standard_fd s), s; auto|].
  destruct (open_a_console_spec fuel fnam s Hs) as (fd & s1 & E & H & Hc).
  cbn [open_first]. unfold mbind, outcome_bind. rewrite E. destruct (Z.leb_spec 0 fd) as [Hpos|Hneg].
  - exists fd, s1. split; [done|]. by left.
  - destruct (IH fuel s1) as (fd' & s2 & E2 & H2); [lia|]. exists fd', s2. split; [done|].
    assert (descriptors s1 = descriptors s) as Ed by (destruct H as [[_ ?]|(? & _)]; [done|lia]).
    unfold opened_or_not in *. by rewrite Ed in H2.
Qed.

(** C28: The search for a console ends, if terminals do not stay closing for ever,
    and keeps nothing open but what it returns: a new descriptor of a console, or
    one of the first three that is a console.  When there is none, it does not
    say so: it returns 3, which is whatever the process has open there, or nothing. *)
Theorem console_fd_found fuel s : closing s < fuel →
  ∃ fd s', ck_get_a_console_fd fuel s = Done (fd, s') ∧
    (ck_fd_is_a_console fd s' = true ∧
       ((fd ∉ descriptors s) ∧ descriptors s' = {[fd]} ∪ descriptors s ∨ (0 ≤ fd < 3)%Z ∧ descriptors s' = descriptors s) ∨
     fd = 3%Z ∧ descriptors s' = descriptors s ∧ ∀ i, (0 ≤ i < 3)%Z → ck_fd_is_a_console i s' = false).
Proof.
  intros Hs. destruct (open_first_spec console_paths fuel s Hs) as (fd & s' & E & H). exists fd, s'. split; [done|].
  destruct H as [[[[-> _]|(_ & Hnew & Ed & Hcon)] Hpos]|[-> Ed]]; [done|by auto|].
  unfold standard_fd. destruct (ck_fd_is_a_console 0 s') eqn:E0; [left; split; [done|right; split; [lia|done]]|].
  destruct (ck_fd_is_a_console 1 s') eqn:E1; [left; split; [done|right; split; [lia|done]]|].
  destruct (ck_fd_is_a_console 2 s') eqn:E2; [left; split; [done|right; split; [lia|done]]|].
  right. split_and!; [done|done|]. intros i Hi. by assert (i = 0 ∨ i = 1 ∨ i = 2)%Z as [->|[->| ->]] by lia.
Qed.
End facts.

Section monitor.
Context {S : Type} {HK : ConsoleKernel S} {HL : ConsoleLaws S}.

(** The VT monitor never learns that there is no console: it always starts, with
    the console the kernel says is active, or with 0; its own test for a failure
    cannot succeed. *)
Theorem monitor_always_starts fuel (s : S) : closing s < fuel →
  ∃ fd s' active, ck_get_a_console_fd fuel s = Done (fd, s') ∧ fd ≠ (-1)%Z ∧
    initial_active_num fuel s = Done (Some active, s') ∧ active = default 0%Z (vt_getstate fd s').
Proof.
  intros Hs. destruct (open_first_spec console_paths fuel s Hs) as (fd & s' & E & H). exists fd, s'.
  assert (fd ≠ (-1)%Z) as Hfd.
  { destruct H as [[_ Hpos]|[-> _]]; [lia|]. unfold standard_fd. repeat (destruct (ck_fd_is_a_console _ s'); [lia|]). lia. }
  unfold initial_active_num, ck_get_a_console_fd, ck_get_active_console_num. rewrite E. cbn [mbind outcome_bind].
  apply Z.eqb_neq in Hfd as Hneq. rewrite Hneq. exists (default 0%Z (vt_getstate fd s')). split; [done|]. split; [done|].
  by destruct (vt_getstate fd s').
Qed.
End monitor.

(** ** A kernel *)

(** Which paths open, and are consoles; the open descriptors, and which are consoles;
    a terminal that is closing for some time. *)
Record small_kernel := {
  terminals : gmap string bool;
  open_fds : gmap Z bool;
  still_closing : nat
}.
Definition fresh_fd (s : small_kernel) : Z := (1 + foldr Z.max 2 (map_to_list (open_fds s)).*1)%Z.
Definition with_fds (m : gmap Z bool) (s : small_kernel) : small_kernel :=
  {| terminals := terminals s; open_fds := m; still_closing := still_closing s |}.

#[local] Instance small_kernel_console : ConsoleKernel small_kernel := {|
  open_tty f b s :=
    match still_closing s with
    | S n => (inr EIO, {| terminals := terminals s; open_fds := open_fds s; still_closing := n |})
    | 0 => match terminals s !! f with
           | Some c => (inl (fresh_fd s), with_fds (<[fresh_fd s := c]> (open_fds s)) s)
           | None => (inr (if b then 2%Z else EACCES), s)
           end
    end;
  close_fd fd s := with_fds (delete fd (open_fds s)) s;
  isatty fd s := bool_decide (is_Some (open_fds s !! fd));
  vt_getstate fd s := match open_fds s !! fd with Some true => Some 7%Z | _ => None end;
  vt_waitactive fd num s := (None, s);
  vt_activate fd num s := (None, s)
|}.

Lemma fresh_fd_new s : (2 < fresh_fd s)%Z ∧ (fresh_fd s ∉ dom (open_fds s)).
Proof.
  assert (∀ l, (2 ≤ foldr Z.max 2 l)%Z ∧ ∀ x, x ∈ l → (x ≤ foldr Z.max 2 l)%Z) as H.
  { induction l as [|y l [IH1 IH2]]; simpl; [split; [lia|by intros x Hx%not_elem_of_nil]|].
    split; [lia|]. intros x [->|Hx%IH2]%elem_of_cons; lia. }
  destruct (H (map_to_list (open_fds s)).*1) as [H1 H2]. unfold fresh_fd. split; [lia|].
  intros [b Hb]%elem_of_dom. specialize (H2 (1 + foldr Z.max 2 (map_to_list (open_fds s)).*1)%Z).
  enough (1 + foldr Z.max 2 (map_to_list (open_fds s)).*1 ≤ foldr Z.max 2 (map_to_list (open_fds s)).*1)%Z by lia.
  apply H2, list_elem_of_fmap. by exists (1 + foldr Z.max 2 (map_to_list (open_fds s)).*1, b)%Z; rewrite elem_of_map_to_list.
Qed.

#[local] Instance small_kernel_laws : ConsoleLaws small_kernel.
Proof.
  refine {| descriptors s := dom (open_fds s); closing := still_closing |}.
  - intros f b s fd s'. simpl. destruct (still_closing s); [|done]. destruct (terminals s !! f); [|done].
    intros [= <- <-]. destruct (fresh_fd_new s). split; [lia|]. split; [done|]. simpl. apply dom_insert_L.
  - intros f b s e s'. simpl. destruct (still_closing s); [|by intros [= _ <-]]. destruct (terminals s !! f); [done|].
    by intros [= _ <-].
  - intros fd s. simpl. apply dom_delete_L.
  - intros f b s s'. simpl. destruct (still_closing s) as [|n] eqn:E; [|intros [= <-]; simpl; lia].
    destruct (terminals s !! f); [done|]. by destruct b.
  - intros f b s r s'. simpl. destruct (still_closing s) as [|n] eqn:E; [|intros [= _ <-]; simpl; lia].
    destruct (terminals s !! f); intros [= _ <-]; simpl; lia.
  - done.
Defined.

(** The first terminal is closing twice and is not a console, the third path is. *)
Definition some_console : small_kernel :=
  {| terminals := {["/dev/tty" := false; "/dev/tty0" := true]}; open_fds := {[0%Z := false; 1%Z := false]}; still_closing := 2 |}.
Lemma console_fd_found_witness :
  ∃ fd s', ck_get_a_console_fd 3 some_console = Done (fd, s') ∧
    (ck_fd_is_a_console fd s' = true ∧
       ((fd ∉ descriptors some_console) ∧ descriptors s' = {[fd]} ∪ descriptors some_console ∨
        (0 ≤ fd < 3)%Z ∧ descriptors s' = descriptors some_console) ∨
     fd = 3%Z ∧ descriptors s' = descriptors some_console ∧ ∀ i, (0 ≤ i < 3)%Z → ck_fd_is_a_console i s' = false).
Proof. apply (console_fd_found 3 some_console). simpl. lia. Defined.
Example some_console_found :
  (λ r, match r with Done (fd, s) => bool_decide (fd = 3%Z ∧ descriptors s = {[0; 1; 3]}%Z) | _ => false end)
    (ck_get_a_console_fd 3 some_console) = true.
Proof. by vm_compute. Qed.

(** A process without any terminal gets 3 although nothing is open there. *)
Example no_console_three :
  (λ r, match r with Done (fd, s) => Some (fd, elements (descriptors s)) | _ => None end)
    (ck_get_a_console_fd 1 {| terminals := ∅; open_fds := ∅; still_closing := 0 |}) = Some (3%Z, []).
Proof. by vm_compute. Qed.

Lemma monitor_always_starts_witness :
  ∃ fd s' active, ck_get_a_console_fd 3 some_console = Done (fd, s') ∧ fd ≠ (-1)%Z ∧
    initial_active_num 3 some_console = Done (Some active, s') ∧ active = default 0%Z (vt_getstate fd s').
Proof. apply (monitor_always_starts 3 some_console). simpl. lia. Defined.
