(* ===== verification/ProcessGroup.v ===== *)
(** * Process groups: [src/ck-process-group.c], as built with cgmanager.

    A session's leader is put into a control group named after the session, so
    that the session of any of its descendants can be told.  cgmanager is the class
    [CgManager]; its states are an argument. *)

From S2P Require Import Prelude.

(** The calls of cgmanager; an answer other than 0 is an error. *)
Class CgManager (S : Type) := {
  connection_opens : bool;
  proxy_made : bool;
  cgmanager_create_sync : string → string → S → bool * S;
  cgmanager_chown_sync : string → string → Z → Z → S → bool * S;
  cgmanager_move_pid_abs_sync : string → string → Z → S → bool * S;
  cgmanager_get_pid_cgroup_abs_sync : string → Z → S → option cstr
}.
Class Users := { getpwuid : Z → option (Z * Z) }.

Section groups.
Context {S : Type} {HC : CgManager S} {HU : Users}.

(** [ck_process_group_backend_init]: whether there is a proxy. *)
Definition ck_process_group_backend_init : bool := connection_opens && proxy_made.

(** The one object, made at the first call; a failed initialisation is not tried again. *)
Definition ck_process_group_get (manager : option bool) : option bool :=
  match manager with Some _ => manager | None => Some ck_process_group_backend_init end.

Definition ck_process_group_create (cgmanager_proxy : bool) (process : Z) (ssid : string) (unix_user : Z) (s : S) : bool * S :=
  if negb cgmanager_proxy then (false, s)
  else
    let '(created, s) := cgmanager_create_sync "all" ssid s in
    if negb created then (false, s)
    else match getpwuid unix_user with
         | None => (false, s)
         | Some (pw_uid, pw_gid) =>
             let '(owned, s) := cgmanager_chown_sync "all" ssid pw_uid pw_gid s in
             if negb owned then (false, s)
             else
               let '(moved, s) := cgmanager_move_pid_abs_sync "all" ssid process s in
               if (moved : bool) then (true, s)
               else (true, (cgmanager_move_pid_abs_sync "cpuacct" ssid process s).2)
         end.

Definition ck_process_group_get_ssid (cgmanager_proxy : bool) (process : Z) (s : S) : cstr :=
  if negb cgmanager_proxy then None
  else match cgmanager_get_pid_cgroup_abs_sync "cpuacct" process s with
       | None => None
       | Some g_ssid => if decide (g_ssid = Some "/") then None else g_ssid
       end.
End groups.

(** ** What is created is found again *)

(** The group of each process, for the controller cpuacct; creating and giving away
    a group moves nobody. *)
Class CgLaws (S : Type) {HC : CgManager S} := {
  cpuacct : S → Z → option cstr;
  get_group : ∀ p s, cgmanager_get_pid_cgroup_abs_sync "cpuacct" p s = cpuacct s p;
  create_moves_none : ∀ c g s q, cpuacct (cgmanager_create_sync c g s).2 q = cpuacct s q;
  chown_moves_none : ∀ c g u v s q, cpuacct (cgmanager_chown_sync c g u v s).2 q = cpuacct s q;
  move_one : ∀ c g p s, c = "all" ∨ c = "cpuacct" →
    let '(moved, s') := cgmanager_move_pid_abs_sync c g p s in
    ∀ q, cpuacct s' q = if (moved : bool) then (if Z.eqb q p then Some (Some g) else cpuacct s q) else cpuacct s q
}.

Section facts.
Context {S : Type} {HC : CgManager S} {HU : Users} {HL : CgLaws S}.

Definition session_of (s : S) (p : Z) : cstr := ck_process_group_get_ssid true p s.

(** A group that was created tells the session: its leader is found in it, every
    other process where it was.  The one exception is a leader that could not be
    moved, which is reported as a success: it is found where it was before.  And a
    failure leaves every process where it was. *)
Theorem group_tells_session p ssid u (s : S) : ssid ≠ "/" →
  let '(ok, s') := ck_process_group_create true p ssid u s in
  (∀ q, q ≠ p → session_of s' q = session_of s q) ∧
  (session_of s' p = Some ssid ∧ ok = true ∨ session_of s' p = session_of s p) ∧
  (ok = false → session_of s' p = session_of s p).
Proof.
  intros Hssid. assert (∀ (s s' : S) q, cpuacct s' q = cpuacct s q → session_of s' q = session_of s q) as Hsame.
  { intros s1 s2 q E. unfold session_of, ck_process_group_get_ssid. by rewrite !get_group, E. }
  assert (∀ s' : S, cpuacct s' p = Some (Some ssid) → session_of s' p = Some ssid) as Hin.
  { intros s' E. unfold session_of, ck_process_group_get_ssid. rewrite get_group, E. cbn [negb]. by rewrite decide_False by congruence. }
  unfold ck_process_group_create. cbn [negb].
  pose proof (create_moves_none "all" ssid s) as E1. destruct (cgmanager_create_sync "all" ssid s) as [[|] s1]; simpl in E1.
  2: { split_and!; eauto using Hsame. }
  cbn [negb]. destruct (getpwuid u) as [[pu pg]|]; [|split_and!; eauto using Hsame].
  pose proof (chown_moves_none "all" ssid pu pg s1) as E2.
  destruct (cgmanager_chown_sync _ _ _ _ s1) as [[|] s2]; simpl in E2; setoid_rewrite E1 in E2; [|split_and!; eauto using Hsame].
  cbn [negb].
  pose proof (move_one "all" ssid p s2 (or_introl eq_refl)) as E3.
  destruct (cgmanager_move_pid_abs_sync "all" ssid p s2) as [[|] s3]; setoid_rewrite E2 in E3.
  { pose proof (E3 p) as Ep. rewrite Z.eqb_refl in Ep. split_and!; [|left; by auto|done].
    intros q Hq. apply Hsame. rewrite E3. by apply Z.eqb_neq in Hq as ->. }
  pose proof (move_one "cpuacct" ssid p s3 (or_intror eq_refl)) as E4.
  destruct (cgmanager_move_pid_abs_sync "cpuacct" ssid p s3) as [[|] s4]; setoid_rewrite E3 in E4; cbn [snd].
  - pose proof (E4 p) as Ep. rewrite Z.eqb_refl in Ep. split_and!; [|left; by auto|done].
    intros q Hq. apply Hsame. rewrite E4. by apply Z.eqb_neq in Hq as ->.
  - split_and!; [by auto|right; by auto|done].
Qed.
End facts.

(** ** A cgmanager *)

(** Who is where; processes that are gone cannot be moved. *)
Record groups := { group_of : gmap Z string; alive : Z → bool }.
#[local] Instance groups_manager : CgManager groups := {|
  connection_opens := true; proxy_made := true;
  cgmanager_create_sync _ _ s := (true, s);
  cgmanager_chown_sync _ _ _ _ s := (true, s);
  cgmanager_move_pid_abs_sync c g p s :=
    if alive s p then (true, {| group_of := <[p := g]> (group_of s); alive := alive s |}) else (false, s);
  cgmanager_get_pid_cgroup_abs_sync _ p s := Some (Some (default "/" (group_of s !! p)))
|}.
#[local] Instance groups_users : Users := {| getpwuid u := if Z.eqb u 1000 then Some (1000, 1000)%Z else None |}.
#[local] Instance groups_laws : CgLaws groups.
Proof.
  refine {| cpuacct s p := Some (Some (default "/" (group_of s !! p))) |}; try done.
  intros c g p s _. simpl. destruct (alive s p); [|done]. intros q. simpl. destruct (Z.eqb_spec q p) as [->|Hq].
  - by rewrite lookup_insert_eq.
  - by rewrite lookup_insert_ne.
Defined.
Definition some_groups : groups := {| group_of := ∅; alive p := Z.eqb p 500 |}.

Lemma group_tells_session_witness :
  session_of (ck_process_group_create true 500 "/Session1" 1000 some_groups).2 500 = Some "/Session1" ∧ true = true ∨
  session_of (ck_process_group_create true 500 "/Session1" 1000 some_groups).2 500 = session_of some_groups 500.
Proof. refine (proj1 (proj2 (group_tells_session 500 "/Session1" 1000 some_groups _))). discriminate. Defined.
(** The leader is gone: nothing is moved, and the creation succeeds. *)
Example gone_leader : (ck_process_group_create true 501 "/Session1" 1000 some_groups).1 = true ∧
  session_of (ck_process_group_create true 501 "/Session1" 1000 some_groups).2 501 = None.
Proof. by vm_compute. Qed.
