(* ===== verification/SystemLog.v ===== *)
(** * Start and stop of the system in the log: [src/tools/ck-log-system-start.c],
    [ck-log-system-restart.c] and [ck-log-system-stop.c].

    Three programs that append one event to the log the daemon writes. *)

From S2P Require Import Prelude Scan LogEvent Regex LogLine Collect EventLogger EventLoggerFacts History HistoryFacts LogPipeline.

(** The system: whether the directory can be made, ENFILE for some time, and
    whether each further call succeeds; the kernel's name and command line. *)
Class LogHost := {
  mkdir_ok : bool;
  enfile : nat;
  open_ok : bool;
  create_ok : bool;
  cloexec_ok : bool;
  fdopen_ok : bool;
  fprintf_ok : bool;
  uname_release : cstr;
  kernel_cmdline : option string
}.

Section tools.
Context {HH : LogHost}.

(** The lines of the log; [None]: there is no file. *)
Abbreviation log_state := (option (list string)).

(** [open] of the file: it is created if it is not there.  The loop over ENFILE
    needs one round more than there are such answers. *)
Fixpoint open_existing (fuel busy : nat) (log : log_state) : outcome (bool * log_state) :=
  match fuel with
  | 0 => Fault OutOfFuel
  | S fuel =>
      match busy with
      | S busy => open_existing fuel busy log
      | 0 =>
          match log with
          | Some _ => Done (open_ok, log)
          | None => if create_ok then Done (open_ok, Some []) else Done (false, None)
          end
      end
  end.

(** [open_log_file]: only the program for the start makes the directory.  The owner
    of the file may stay another. *)
Definition open_log_file (make_directory : bool) (fuel : nat) (log : log_state) : outcome (bool * log_state) :=
  if make_directory && negb mkdir_ok then Done (false, log)
  else match open_existing fuel enfile log with
       | Fault f => Fault f
       | Done (opened, log) => Done (opened && cloexec_ok && fdopen_ok, log)
       end.

(** [write_log_for_event] and the end of [main]: the exit code and the log.  A
    record that is not written is no failure. *)
Definition write_log_for_event (make_directory : bool) (fuel : nat) (ev : CkLogEvent cstr) (log : log_state) :
    outcome (Z * log_state) :=
  match ck_log_event_to_string ev "" with
  | None => Fault Aborted
  | Some line =>
      match open_log_file make_directory fuel log with
      | Fault f => Fault f
      | Done (false, log) => Done (1%Z, log)
      | Done (true, log) => Done (0%Z, if fprintf_ok then (λ lines, lines ++ [line]) <$> log else log)
      end
  end.

Definition get_boot_arguments : cstr := strip_end <$> kernel_cmdline.

(** The three programs at the time [now]. *)
Definition start_event (now : GTimeVal) : CkLogEvent cstr :=
  {| event := EvSystemStart {| kernel_release := uname_release; boot_arguments := get_boot_arguments |}; timestamp := now |}.
Definition restart_event (now : GTimeVal) : CkLogEvent cstr := {| event := EvSystemRestart; timestamp := now |}.
Definition stop_event (now : GTimeVal) : CkLogEvent cstr := {| event := EvSystemStop; timestamp := now |}.
Definition log_system_start (fuel : nat) (now : GTimeVal) := write_log_for_event true fuel (start_event now).
Definition log_system_restart (fuel : nat) (now : GTimeVal) := write_log_for_event false fuel (restart_event now).
Definition log_system_stop (fuel : nat) (now : GTimeVal) := write_log_for_event false fuel (stop_event now).

(** ** What the history tool finds *)

Lemma open_existing_ends fuel busy log : busy < fuel →
  open_existing fuel busy log = Done (match log with
    | Some _ => (open_ok, log)
    | None => if create_ok then (open_ok, Some []) else (false, None)
    end).
Proof.
  revert busy. induction fuel as [|fuel IH]; intros busy H; [lia|]. simpl. destruct busy as [|busy]; [|apply IH; lia].
  by destruct log, create_ok.
Qed.

(** The system lets a program write. *)
Definition writable (make_directory : bool) (log : log_state) : Prop :=
  (make_directory = true → mkdir_ok = true) ∧ (log = None → create_ok = true) ∧
  open_ok = true ∧ cloexec_ok = true ∧ fdopen_ok = true ∧ fprintf_ok = true.

Lemma written_line d fuel ev log : enfile < fuel → writable d log → printable ev →
  write_log_for_event d fuel ev log = Done (0%Z, Some (default [] log ++ [line_of ev])).
Proof.
  intros Hfuel (Hd & Hc & Ho & Hcl & Hfd & Hpr) [line Hline]. unfold write_log_for_event, open_log_file, line_of.
  rewrite Hline, (open_existing_ends fuel enfile log Hfuel).
  destruct d; [rewrite Hd by done|]; cbn [andb negb]; (destruct log as [lines|]; [|rewrite Hc by done]);
    cbn [mbind outcome_bind]; by rewrite Ho, Hcl, Hfd, Hpr.
Qed.

Lemma system_printable now : printable (start_event now) ∧ printable (restart_event now) ∧ printable (stop_event now).
Proof. split_and!; by eexists. Qed.

Context `{GRegex}.

(** The log of a system that started, and is stopped or restarted, is read as
    that: each of the programs ends after as many attempts as the system is short
    of descriptors, says success, and the history tool then reads the events it read
    before and one more, with the kernel and its command line as they were, if the
    lines can be read at all. *)
Theorem system_event_read_back fuel now evs ev d run log :
  (d, run, ev) ∈ [(true, log_system_start, start_event now); (false, log_system_restart, restart_event now);
                  (false, log_system_stop, stop_event now)] →
  enfile < fuel → writable d log → default [] log = line_of <$> evs → Forall printable evs → Forall readable evs →
  readable ev →
  ∃ lines, run fuel now log = Done (0%Z, Some lines) ∧
    file_events (file_text lines) = (read_back <$> evs) ++ [read_back ev].
Proof.
  intros Hrun Hfuel Hw Hlog Hpr Hread Hev.
  assert (printable ev ∧ run fuel now log = write_log_for_event d fuel ev log) as [Hp ->].
  { destruct (system_printable now) as (H1 & H2 & H3).
    apply elem_of_cons in Hrun as [[= -> -> ->]|Hrun]; [done|]. apply elem_of_cons in Hrun as [[= -> -> ->]|Hrun]; [done|].
    by apply list_elem_of_singleton in Hrun as [= -> -> ->]. }
  eexists. split; [by apply written_line|]. rewrite Hlog.
  replace ((line_of <$> evs) ++ [line_of ev]) with (line_of <$> (evs ++ [ev])) by by rewrite fmap_app.
  rewrite lines_read_back; [by rewrite fmap_app|by apply Forall_app_2; [|constructor]..].
Qed.
End tools.

(** ** A system that starts *)

#[local] Instance booted : LogHost := {|
  mkdir_ok := true; enfile := 2; open_ok := true; create_ok := true; cloexec_ok := true; fdopen_ok := true; fprintf_ok := true;
  uname_release := Some "6.1.0"; kernel_cmdline := Some ("root=/dev/sda1 ro" +:+ newline)
|}.
Definition boot_time : GTimeVal := {| tv_sec := 1420070400; tv_usec := 5000 |}.

Lemma system_event_read_back_witness :
  ∃ lines, log_system_start 3 boot_time None = Done (0%Z, Some lines) ∧
    file_events (file_text lines) = [read_back (start_event boot_time)].
Proof.
  apply (system_event_read_back 3 boot_time [] (start_event boot_time) true log_system_start None).
  - left.
  - unfold enfile, booted. lia.
  - split_and!; done.
  - reflexivity.
  - constructor.
  - constructor.
  - apply readable_intro. vm_compute. reflexivity.
Defined.
Example boot_arguments_read : event <$> file_events (file_text [line_of (start_event boot_time)]) =
  [EvSystemStart {| kernel_release := Some "6.1.0"; boot_arguments := Some "root=/dev/sda1 ro" |}].
Proof. by vm_compute. Qed.
