(* ===== verification/X11Tools.v ===== *)
(** * The helpers of the session information job: [src/tools/ck-get-x11-server-pid.c] and
    [src/tools/ck-get-x11-display-device.c].

    Both connect to an X display and ask for the process of the server; the second
    finds its terminal, from /proc or from a property of the root window.  What
    they print is what [Collect] reads. *)

From S2P Require Import Prelude Scan Console Collect ProcFs ConsoleFd.

(** The answer to [XGetWindowProperty] of the property XFree86_VT. *)
Record vt_property := {
  type_is_integer : bool;
  return_format : Z;
  return_count : Z;
  bytes_left : Z;
  vt_value : Z
}.

(** A display: the connection, the property if the server has such an atom. *)
Record x_display := { connection_number : Z; XFree86_VT : option (option vt_property) }.

Class XServers := { XOpenDisplay : string → option x_display }.

Section tools.
Context {HX : XServers} {HC : Credentials} {HP : Proc}.

(** How a tool ends: the wait status its parent gets, and what it printed. *)
Definition tool_exits (code : Z) (out : string) : spawned :=
  {| sp_run := true; sp_status := Z.shiftl code 8; sp_out := Some out |}.

Definition print_line (s : string) : string := s +:+ String "010"%char "".

(** Only a display of this host has a process: DISPLAY that starts with a colon, or has none. *)
Definition server_display_init (DISPLAY : cstr) : option x_display :=
  match DISPLAY with
  | None => None
  | Some name =>
      if negb (shead (λ c, ascii_eqb c ":"%char) name) && negb (sall (λ c, negb (ascii_eqb c ":"%char)) name) then None
      else XOpenDisplay name
  end.

Definition server_pid_main (DISPLAY : cstr) : spawned :=
  match server_display_init DISPLAY with
  | None => tool_exits 1 ""
  | Some xdisplay =>
      let fd := connection_number xdisplay in
      if Z.ltb 0 fd then
        let '(res, (pid, _)) := ck_get_socket_peer_credentials fd in
        tool_exits 0 (if res && Z.ltb 0 pid then print_line (fmt_int pid) else "")
      else tool_exits 1 ""
  end.
(** The terminal of the process; [None]: the reading of its status goes wrong. *)
Definition get_tty_for_pid (pid : Z) : option cstr :=
  st ← ck_process_stat_new_for_unix_pid pid;
  match st with None => Some None | Some st => ck_process_stat_get_tty st end.

Definition display_init (DISPLAY display_name : cstr) : option x_display :=
  match (match display_name with Some d => Some d | None => DISPLAY end) with
  | None => None
  | Some name => XOpenDisplay name
  end.

Definition get_tty_for_display (xdisplay : x_display) : cstr :=
  match XFree86_VT xdisplay with
  | None | Some None => None
  | Some (Some r) =>
      if type_is_integer r && Z.eqb (return_format r) 32 && Z.eqb (return_count r) 1 && Z.eqb (bytes_left r) 0 &&
         Z.ltb 0 (vt_value r)
      then Some ("/dev/tty" +:+ fmt_int (vt_value r)) else None
  end.

(** The option --display, if it was given; a failed parse of the options is not looked at. *)
Definition display_device_main (DISPLAY display : cstr) : option spawned :=
  match display_init DISPLAY display with
  | None => Some (tool_exits 1 "")
  | Some xdisplay =>
      let fd := connection_number xdisplay in
      if Z.ltb 0 fd then
        let '(res, (pid, _)) := ck_get_socket_peer_credentials fd in
        if res && Z.ltb 0 pid then
          device ← get_tty_for_pid pid;
          let device := match device with Some d => Some d | None => get_tty_for_display xdisplay end in
          Some (tool_exits 0 (match device with Some d => print_line d | None => "" end))
        else Some (tool_exits 0 "")
      else Some (tool_exits 1 "")
  end.
(** ** The job that runs them *)

(** A server on this host: the display is local, its process is [pid]. *)
Definition local_server (name : string) (pid uid : Z) : Prop :=
  (sall (λ c, negb (ascii_eqb c ":"%char)) name ∨ shead (λ c, ascii_eqb c ":"%char) name) ∧ (0 < pid < 2 ^ 31)%Z ∧
  ∃ x, XOpenDisplay name = Some x ∧ (0 < connection_number x)%Z ∧
    getsockopt_peercred (connection_number x) = Some (pid, uid).

Lemma scan_printed_pid pid : (0 < pid < 2 ^ 31)%Z → scan_pid (print_line (fmt_int pid)) = Some pid.
Proof.
  intros Hp. unfold scan_pid, print_line. rewrite fmt_int_nonneg by lia. rewrite scan_unsigned_digits.
  - cbn [mbind option_bind]. rewrite strtoul_value_fmt by lia. by rewrite u32_small by lia.
  - apply fmt_unsigned_digits.
  - apply fmt_unsigned_nonempty.
  - done.
Qed.

Lemma server_pid_prints name pid uid : local_server name pid uid →
  server_pid_main (Some name) = tool_exits 0 (print_line (fmt_int pid)).
Proof.
  intros (Hlocal & Hpid & x & Hx & Hfd & Hcred). unfold server_pid_main, server_display_init.
  assert (negb (shead (λ c, ascii_eqb c ":"%char) name) && negb (sall (λ c, negb (ascii_eqb c ":"%char)) name) = false) as ->.
  { destruct Hlocal as [H|H]; apply Is_true_true in H; rewrite H; [apply andb_false_r|done]. }
  rewrite Hx. destruct (Z.ltb_spec 0 (connection_number x)); [|lia]. unfold ck_get_socket_peer_credentials. rewrite Hcred.
  cbn [andb]. by destruct (Z.ltb_spec 0 pid); [|lia].
Qed.
End tools.

(** ** The environment of the helpers *)

Definition allowed_env_vars : list string :=
  ["DISPLAY"; "XAUTHORITY"; "XAUTHLOCALHOSTNAME"; "SSH_CLIENT"; "SSH_CONNECTION"; "SSH_TTY"; "HOME"].
(** [get_filtered_environment]; a table that could not be read has nothing in it. *)
Definition get_filtered_environment (hash : option (gmap string cstr)) : list string :=
  "PATH=/bin:/usr/bin" ::
  omap (λ var, hash ← hash; value ← hash !! var; val ← value; Some (var +:+ "=" +:+ val)) allowed_env_vars.

(** [setuid_child_setup_func]: whether the helper is run at all; else it exits with 1. *)
Definition setuid_child_setup_func (pw_gid : Z → option Z) (setgid_ok setuid_ok : bool) (uid : Z) : bool :=
  bool_decide (is_Some (pw_gid uid)) && setgid_ok && setuid_ok.

(** [main] of the job, which root runs with options that GLib parsed: its exit code
    and its output. *)
Definition collect_main {HS : Processes} (user_id process_id : Z) (x11_display_device : cstr) : Z * string :=
  if Z.ltb user_id 0 then (1%Z, "")
  else if Z.ltb process_id 2 then (1%Z, "")
  else let '(out, ret) := collect_session_info user_id process_id x11_display_device in
       (if (ret : bool) then 0%Z else 1%Z, out).

(** What a program finds in its environment. *)
Definition env_value (env : list string) (var : string) : cstr := head (omap (strip_prefix (var +:+ "=")) env).

Definition filtered (hash : option (gmap string cstr)) (var : string) : cstr :=
  hash ← hash; value ← hash !! var; val ← value; Some (var +:+ "=" +:+ val).
Lemma other_vars hash vars : (∀ var v, var ∈ vars → strip_prefix "DISPLAY=" (var +:+ "=" +:+ v) = None) →
  omap (strip_prefix "DISPLAY=") (omap (filtered hash) vars) = [].
Proof.
  induction vars as [|var vars IH]; intros H; [done|]. cbn [omap list_omap].
  destruct (filtered hash var) as [s|] eqn:E; [|apply IH; intros; apply H; by right].
  unfold filtered in E. destruct hash as [h|]; [|done]. simpl in E. destruct (h !! var) as [[v|]|]; try done.
  injection E as <-. cbn [omap list_omap]. rewrite H by left. apply IH. intros. apply H. by right.
Qed.

(** The helper finds the DISPLAY of the process, or none if that has none. *)
Lemma filtered_display hash : env_value (get_filtered_environment hash) "DISPLAY" = (h ← hash; v ← h !! "DISPLAY"; v).
Proof.
  unfold env_value. change ("DISPLAY" +:+ "=") with "DISPLAY=".
  assert (∀ rest, omap (strip_prefix "DISPLAY=") (omap (filtered hash) ("DISPLAY" :: rest)) =
    (match filtered hash "DISPLAY" with Some s => omap (strip_prefix "DISPLAY=") [s] | None => [] end) ++
    omap (strip_prefix "DISPLAY=") (omap (filtered hash) rest)) as Hcons.
  { intros rest. cbn [omap list_omap]. destruct (filtered hash "DISPLAY") as [s|]; [|done]. cbn [omap list_omap].
    by destruct (strip_prefix _ s). }
  change (head (omap (strip_prefix "DISPLAY=") (omap (filtered hash) ("DISPLAY" :: tail allowed_env_vars))) =
    (h ← hash; v ← h !! "DISPLAY"; v)).
  rewrite Hcons, other_vars, app_nil_r.
  - unfold filtered. destruct hash as [h|]; [|done]. cbn [mbind option_bind]. destruct (h !! "DISPLAY") as [[v|]|]; try done.
  - intros var v Hin. unfold allowed_env_vars in Hin. cbn [tail] in Hin.
    repeat (apply elem_of_cons in Hin as [->|Hin]; [done|]). by apply not_elem_of_nil in Hin.
Qed.

Section job.
Context {HX : XServers} {HC : Credentials} {HP : Proc} (pam : bool) (tty_of : Z → option cstr)
  (env_of : Z → string → cstr) (login_of : Z → option cstr).

(** The job's processes, with these helpers, run in the environment of the process. *)
Definition with_tools : Processes :=
  {| HAVE_PAM := pam; process_tty := tty_of; Collect.ck_unix_pid_get_env := env_of;
     Collect.ck_unix_pid_get_login_session_id := login_of;
     ck_get_x11_server_pid _ pid := server_pid_main (env_of pid "DISPLAY");
     ck_get_x11_display_device _ pid :=
       default {| sp_run := true; sp_status := 139; sp_out := None |} (display_device_main (env_of pid "DISPLAY") None) |}.
#[local] Existing Instance with_tools.

(** The job and its helper agree on the X server: what the helper prints for a
    display of this host the job reads back as the process of the server, and for a
    display the helper does not reach the job knows that it cannot connect. *)
Theorem server_pid_read_back si name : env_of (si_pid si) "DISPLAY" = Some name →
  (∀ pid uid, local_server name pid uid → get_x11_server_pid si = (true, pid)) ∧
  (server_display_init (Some name) = None → get_x11_server_pid si = (false, 0%Z)).
Proof.
  intros Henv. unfold get_x11_server_pid. cbn [ck_get_x11_server_pid with_tools]. rewrite Henv. split.
  - intros pid uid Hs. rewrite (server_pid_prints _ _ _ Hs). cbn -[print_line scan_pid fmt_int].
    destruct Hs as (_ & Hp & _). by rewrite scan_printed_pid.
  - intros E. unfold server_pid_main. by rewrite E.
Qed.
End job.

(** ** Terminals *)

Lemma strip_printed s : sall (λ c, negb (is_space c)) s → g_strstrip (print_line s) = s.
Proof.
  intros Hs. unfold g_strstrip, print_line.
  assert (∀ s, sall (λ c, negb (is_space c)) s → strip_end (s +:+ String "010"%char "") = s) as Hend.
  { clear. induction s as [|c s IH]; [done|]. rewrite sapp_cons. simpl. rewrite andb_True. intros [Hc Hs].
    rewrite IH by done. destruct s; [|done]. by destruct (is_space c). }
  destruct s as [|c s]; [done|]. rewrite sapp_cons. simpl in Hs. apply andb_True in Hs as [Hc Hs].
  assert (skip_space (String c (s +:+ String "010"%char "")) = String c (s +:+ String "010"%char "")) as E.
  { unfold skip_space. simpl. by destruct (is_space c). }
  rewrite E, <- sapp_cons. apply Hend. simpl. by rewrite andb_True.
Qed.

Section terminals.
Context {HX : XServers}.

(** A server that says which terminal it is on is believed: the name that is
    printed for terminal [n], stripped as the job strips it, is the device whose
    number the console functions give back as [n]; a property of any other form
    gives none. *)
Theorem vt_property_read_back x r : XFree86_VT x = Some (Some r) →
  if type_is_integer r && Z.eqb (return_format r) 32 && Z.eqb (return_count r) 1 && Z.eqb (bytes_left r) 0 && Z.ltb 0 (vt_value r)
  then (vt_value r < 2 ^ 32)%Z → ∃ device, get_tty_for_display x = Some device ∧
    ck_get_console_num_from_device (Some (g_strstrip (print_line device))) = Some (vt_value r)
  else get_tty_for_display x = None.
Proof.
  intros E. unfold get_tty_for_display. rewrite E. destruct (_ && Z.ltb 0 (vt_value r)) eqn:Hok; [|done].
  apply andb_true_iff in Hok as [_ Hpos%Z.ltb_lt]. intros Hmax. eexists. split; [done|].
  rewrite fmt_int_nonneg by lia. rewrite strip_printed.
  - change ("/dev/tty" +:+ fmt_unsigned (vt_value r)) with ("/dev/tty" +:+ fmt_unsigned (vt_value r)).
    rewrite <- (u32_small (vt_value r)) at 1 by lia.
    change ("/dev/tty" +:+ fmt_unsigned (u32 (vt_value r))) with (ck_get_console_device_for_num (vt_value r)).
    apply console_num_device. lia.
  - rewrite sall_app, andb_True. split; [done|]. eapply sall_impl; [|apply fmt_unsigned_digits].
    intros c Hc. by destruct (digit_not_space c Hc) as [-> _].
Qed.
End terminals.

(** ** A server on the first display *)

Definition seventh : vt_property :=
  {| type_is_integer := true; return_format := 32; return_count := 1; bytes_left := 0; vt_value := 7 |}.
Definition first_x : x_display := {| connection_number := 5; XFree86_VT := Some (Some seventh) |}.
#[local] Instance first_display : XServers := {|
  XOpenDisplay name := if String.eqb name ":0" then Some first_x else None
|}.
#[local] Instance first_credentials : Credentials := {|
  getresuid := Some 0%Z; getresgid_ok := true; getuid := 0; getsockopt_peercred fd := if Z.eqb fd 5 then Some (812, 0)%Z else None
|}.
#[local] Instance no_proc : Proc := {|
  g_file_get_contents _ := None; g_file_read_link _ := None; st_rdev _ := None; st_uid _ := None; tty_drivers := None;
  linux_supports_sleep_state _ := false
|}.
Definition asked : SessionInfo :=
  {| si_uid := 1000; si_pid := 900; si_login_session_id := None; si_vtnum := 0; si_display_device := None;
     si_x11_display_device := None; si_x11_display := None; si_x11_can_connect := false; si_remote_host_name := None;
     si_is_local := false; si_is_local_is_set := false |}.
Definition x_env (pid : Z) (var : string) : cstr := Some ":0".

Lemma server_pid_read_back_witness :
  @get_x11_server_pid (with_tools false (λ _, None) x_env (λ _, None)) asked = (true, 812%Z).
Proof.
  apply (server_pid_read_back false (λ _, None) x_env (λ _, None) asked ":0" eq_refl) with (uid := 0%Z).
  split; [right; reflexivity|]. split; [lia|]. eexists. split; [reflexivity|]. split; [reflexivity|reflexivity].
Defined.
Lemma vt_property_read_back_witness :
  ∃ device, get_tty_for_display first_x = Some device ∧ ck_get_console_num_from_device (Some (g_strstrip (print_line device))) = Some 7%Z.
Proof. refine (vt_property_read_back first_x seventh eq_refl _). reflexivity. Defined.
