(* ===== verification/LibConsoleKit.v ===== *)
(** * The client library: [src/libconsolekit/libconsolekit.c] and [sd-compat.c].

    What programs ask the daemon about seats and sessions, and the same questions
    under the names of systemd.  The bus and the daemon behind it are the class
    [Remote].  Module [ListSessions]: [src/tools/list-sessions.c], which asks the
    same daemon without the library. *)

From S2P Require Import Prelude.
From S2P Require Scan Leader Hooks.

(** The values of the interfaces; paths are not strings. *)
Inductive gval := VString (s : string) | VPath (s : string) | VBool (b : bool) | VUint (z : Z) | VPaths (l : list string).
Inductive vtype := T_s | T_o | T_b | T_u | T_ao.
Definition value_type (v : gval) : vtype :=
  match v with VString _ => T_s | VPath _ => T_o | VBool _ => T_b | VUint _ => T_u | VPaths _ => T_ao end.

Inductive interface := CK_MANAGER_NAME | CK_SEAT_NAME | CK_SESSION_NAME.
#[export] Instance interface_eq_dec : EqDecision interface.
Proof. solve_decision. Defined.

(** A proxy or the error; an answer or the error; a property the proxy has loaded. *)
Class Remote := {
  new_proxy : string → interface → option string;
  remote_call : string → interface → string → list gval → string + gval;
  cached_property : string → interface → string → option gval
}.

Inductive gerror := INVALID_INPUT (message : string) | REMOTE_ERROR (message : string).

(** What a function returns: a number or a boolean, what it stored, the error it set. *)
Record lib_answer (A : Type) := { ret : Z; out : option A; gerr : option gerror }.
Arguments ret {A} _.
Arguments out {A} _.
Arguments gerr {A} _.
Definition TRUE : Z := 1.
Definition FALSE : Z := 0.
Definition CK_MANAGER_PATH : string := "/org/freedesktop/ConsoleKit/Manager".

Section client.
Context {HR : Remote}.

(** [None]: the value has not the type it is read at, or is written through NULL. *)
Abbreviation result A := (option (lib_answer A)).

Definition fails {A} (r : Z) (e : gerror) : result A := Some {| ret := r; out := None; gerr := Some e |}.
Definition invalid {A} (r : Z) (message : string) : result A := fails r (INVALID_INPUT message).

(** The common part: a proxy, a call, the first value of the answer. *)
Definition query {A} (path : string) (i : interface) (method : string) (args : list gval) (no_proxy no_answer : Z)
    (get : gval → option A) (r : A → Z) : result A :=
  match new_proxy path i with
  | Some m => fails no_proxy (REMOTE_ERROR m)
  | None =>
      match remote_call path i method args with
      | inl m => fails no_answer (REMOTE_ERROR m)
      | inr v => a ← get v; Some {| ret := r a; out := Some a; gerr := None |}
      end
  end.
Definition get_s (v : gval) : option string := match v with VString s => Some s | _ => None end.
Definition get_o (v : gval) : option string := match v with VPath s => Some s | _ => None end.
Definition get_b (v : gval) : option bool := match v with VBool b => Some b | _ => None end.
Definition get_u (v : gval) : option Z := match v with VUint z => Some z | _ => None end.
Definition get_ao (v : gval) : option (list string) := match v with VPaths l => Some l | _ => None end.
Definition gboolean (b : bool) : Z := if b then TRUE else FALSE.
Definition count (l : list string) : Z := Z.of_nat (length l).
Definition success {A} (a : A) : Z := TRUE.

(** ** Seats *)

Definition lib_consolekit_seat_get_active (ck : bool) (seat : cstr) (session uid : bool) : result (string * option Z) :=
  if negb ck then invalid FALSE "Invalid LibConsoleKit" else
  match seat with
  | None => invalid FALSE "Seat must not be NULL"
  | Some seat =>
      if negb session then invalid FALSE "Session must not be NULL" else
      r ← query seat CK_SEAT_NAME "GetActiveSession" [] FALSE FALSE get_o success;
      match out r with
      | None => Some {| ret := ret r; out := None; gerr := gerr r |}
      | Some s =>
          if negb uid then Some {| ret := TRUE; out := Some (s, None); gerr := None |}
          else
            u ← query s CK_SESSION_NAME "GetUnixUser" [] FALSE FALSE get_u success;
            Some {| ret := ret u; out := Some (s, out u); gerr := gerr u |}
      end
  end.

(** Where [sessions] is to be stored is used unchecked by the two functions of the
    manager. *)
Definition lib_consolekit_uid_get_sessions (ck : bool) (uid : Z) (sessions : bool) : result (list string) :=
  if negb ck then invalid (-1) "Invalid LibConsoleKit"
  else query CK_MANAGER_PATH CK_MANAGER_NAME "GetSessionsForUnixUser" [VUint uid] FALSE (-1)
         (λ v, if sessions then get_ao v else None) count.
Definition lib_consolekit_get_sessions (ck sessions : bool) : result (list string) :=
  if negb ck then invalid (-1) "Invalid LibConsoleKit"
  else query CK_MANAGER_PATH CK_MANAGER_NAME "GetSessions" [] FALSE (-1) (λ v, if sessions then get_ao v else None) count.
Definition lib_consolekit_seat_get_sessions (ck : bool) (seat : cstr) (sessions : bool) : result (list string) :=
  if negb ck then invalid (-1) "Invalid LibConsoleKit" else
  match seat with
  | None => invalid (-1) "Seat must not be NULL"
  | Some seat =>
      if negb sessions then invalid (-1) "Sessions must not be NULL"
      else query seat CK_SEAT_NAME "GetSessions" [] (-1) (-1) get_ao count
  end.

Definition lib_consolekit_seat_can_multi_session (ck : bool) (seat : cstr) : result bool :=
  if negb ck then invalid FALSE "Invalid LibConsoleKit" else
  match seat with
  | None => invalid FALSE "Seat must not be NULL"
  | Some seat => query seat CK_SEAT_NAME "CanActivateSessions" [] FALSE FALSE get_b gboolean
  end.
(** A property that is not there is FALSE, and no error. *)
Definition lib_consolekit_seat_can_graphical (ck : bool) (seat : cstr) : result bool :=
  if negb ck then invalid FALSE "Invalid LibConsoleKit" else
  match seat with
  | None => invalid FALSE "Seat must not be NULL"
  | Some seat =>
      match new_proxy seat CK_SEAT_NAME with
      | Some m => fails FALSE (REMOTE_ERROR m)
      | None =>
          match cached_property seat CK_SEAT_NAME "CanGraphical" with
          | None => Some {| ret := FALSE; out := None; gerr := None |}
          | Some v => b ← get_b v; Some {| ret := gboolean b; out := Some b; gerr := None |}
          end
      end
  end.

(** ** Sessions *)

Definition lib_consolekit_session_is_active (ck : bool) (session : cstr) : result bool :=
  if negb ck then invalid FALSE "Invalid LibConsoleKit" else
  match session with
  | None => invalid FALSE "Session must not be NULL"
  | Some session => query session CK_SESSION_NAME "IsActive" [] FALSE FALSE get_b gboolean
  end.
Definition lib_consolekit_session_is_remote (ck : bool) (session : cstr) : result bool :=
  if negb ck then invalid FALSE "Invalid LibConsoleKit" else
  match session with
  | None => invalid FALSE "Session must not be NULL"
  | Some session => query session CK_SESSION_NAME "IsLocal" [] TRUE TRUE get_b (λ is_local, gboolean (negb is_local))
  end.

(** The functions that store one value of a session. *)
Definition session_get {A} (ck : bool) (session : cstr) (stored : bool) (name method : string) (get : gval → option A) : result A :=
  if negb ck then invalid FALSE "Invalid LibConsoleKit" else
  match session with
  | None => invalid FALSE "Session must not be NULL"
  | Some session =>
      if negb stored then invalid FALSE (name +:+ " must not be NULL")
      else query session CK_SESSION_NAME method [] FALSE FALSE get success
  end.
Definition lib_consolekit_session_get_uid ck session uid := session_get ck session uid "uid" "GetUnixUser" get_u.
Definition lib_consolekit_session_get_seat (ck : bool) (session : cstr) (seat : bool) : result string :=
  if negb ck then invalid FALSE "Invalid LibConsoleKit"
  else if negb seat then invalid FALSE "Seat must not be NULL"
  else session_get ck session seat "Seat" "GetSeatId" get_o.
Definition lib_consolekit_session_get_service ck session service := session_get ck session service "service" "GetSessionService" get_s.
Definition lib_consolekit_session_get_type ck session type := session_get ck session type "type" "GetSessionType" get_s.
Definition lib_consolekit_session_get_class ck session c := session_get ck session c "session_class" "GetSessionClass" get_s.
Definition lib_consolekit_session_get_state ck session state := session_get ck session state "state" "GetSessionState" get_s.
Definition lib_consolekit_session_get_display ck session display := session_get ck session display "Display" "GetX11Display" get_s.
Definition lib_consolekit_session_get_remote_host ck session host := session_get ck session host "remote_host" "GetRemoteHostName" get_s.
Definition lib_consolekit_session_get_vt ck session vt := session_get ck session vt "vt" "GetVTNr" get_u.

(** The device of the display, else the terminal.  What is stored after a failure
    of the second call is not there any more ([out] is what may be read). *)
Definition lib_consolekit_session_get_tty (ck : bool) (session : cstr) (tty : bool) : result string :=
  r ← session_get ck session tty "tty" "GetX11DisplayDevice" get_s;
  match out r, session with
  | Some "", Some session =>
      match remote_call session CK_SESSION_NAME "GetDisplayDevice" [] with
      | inl m => fails FALSE (REMOTE_ERROR m)
      | inr v => s ← get_s v; Some {| ret := TRUE; out := Some s; gerr := None |}
      end
  | _, _ => Some r
  end.

Definition lib_consolekit_pid_get_session (ck : bool) (pid : Z) (session : bool) : result string :=
  if negb ck then invalid FALSE "Invalid LibConsoleKit"
  else if negb session then invalid FALSE "Session must not be NULL"
  else query CK_MANAGER_PATH CK_MANAGER_NAME "GetSessionByPID" [VUint (u32 pid)] FALSE FALSE get_o success.

(** ** The names of systemd *)

Definition ENXIO : Z := 6.
(** Each asks with a new object and looks at the error alone. *)
Definition sd {A} (on_error : Z) (r : lib_answer A → Z) (a : result A) : option (Z * option A) :=
  a ← a; Some (match gerr a with Some _ => (on_error, out a) | None => (r a, out a) end).

Definition sd_session_get_class session c := sd (- ENXIO) (λ _, 0%Z) (lib_consolekit_session_get_class true session c).
Definition sd_session_get_seat session seat := sd (- ENXIO) (λ _, 0%Z) (lib_consolekit_session_get_seat true session seat).
Definition sd_session_get_type session type := sd (- ENXIO) (λ _, 0%Z) (lib_consolekit_session_get_type true session type).
Definition sd_session_get_state session state := sd (- ENXIO) (λ _, 0%Z) (lib_consolekit_session_get_state true session state).
Definition sd_session_get_uid session uid := sd (- ENXIO) (λ _, 0%Z) (lib_consolekit_session_get_uid true session uid).
Definition sd_session_get_service session service := sd (- ENXIO) (λ _, 0%Z) (lib_consolekit_session_get_service true session service).
(** Its error is freed by hand and again at the end of the function. *)
Definition sd_session_get_display session display : option (Z * option string) :=
  a ← lib_consolekit_session_get_display true session display;
  match gerr a with Some _ => None | None => Some (0%Z, out a) end.
Definition sd_pid_get_session pid session := sd (- ENXIO) ret (lib_consolekit_pid_get_session true pid session).
Definition sd_uid_get_sessions uid (require_active : Z) sessions := sd (- ENXIO) ret (lib_consolekit_uid_get_sessions true uid sessions).
Definition sd_seat_can_graphical seat := sd FALSE ret (lib_consolekit_seat_can_graphical true seat).
Definition sd_seat_can_multi_session seat := sd FALSE ret (lib_consolekit_seat_can_multi_session true seat).
Definition sd_seat_get_sessions seat sessions := sd FALSE ret (lib_consolekit_seat_get_sessions true seat sessions).
Definition sd_get_sessions sessions := sd (- ENXIO) ret (lib_consolekit_get_sessions true sessions).
End client.

(** ** The daemon's interfaces *)

(** The methods the library and list-sessions call, as org.freedesktop.ConsoleKit.Manager.xml, Seat.xml and
    Session.xml declare them: the arguments and the first value of the answer. *)
Definition declared (i : interface) (method : string) : option (list vtype * vtype) :=
  match i with
  | CK_MANAGER_NAME =>
      if bool_decide (method ∈ ["GetSessions"; "GetSeats"]) then Some ([], T_ao)
      else if String.eqb method "GetSessionsForUnixUser" then Some ([T_u], T_ao)
      else if String.eqb method "GetSessionByPID" then Some ([T_u], T_o)
      else None
  | CK_SEAT_NAME =>
      if String.eqb method "GetSessions" then Some ([], T_ao)
      else if String.eqb method "GetActiveSession" then Some ([], T_o)
      else if String.eqb method "CanActivateSessions" then Some ([], T_b)
      else None
  | CK_SESSION_NAME =>
      if bool_decide (method ∈ ["GetSessionService"; "GetSessionType"; "GetSessionClass"; "GetSessionState"; "GetX11Display";
                                "GetX11DisplayDevice"; "GetDisplayDevice"; "GetRemoteHostName"; "GetLoginSessionId";
                                "GetCreationTime"; "GetIdleSinceHint"; "GetXDGRuntimeDir"]) then Some ([], T_s)
      else if bool_decide (method ∈ ["GetUnixUser"; "GetVTNr"]) then Some ([], T_u)
      else if bool_decide (method ∈ ["IsActive"; "IsLocal"]) then Some ([], T_b)
      else if String.eqb method "GetSeatId" then Some ([], T_o)
      else None
  end.

(** A daemon answers only what is declared, in the declared type. *)
Class Conforms {HR : Remote} := {
  conforms : ∀ path i method args v, remote_call path i method args = inr v →
    declared i method = Some (value_type <$> args, value_type v);
  property_conforms : ∀ path v, cached_property path CK_SEAT_NAME "CanGraphical" = Some v → value_type v = T_b;
  vt_conforms : ∀ path v, cached_property path CK_SESSION_NAME "VTNr" = Some v → value_type v = T_u
}.

Section daemon.
Context {HR : Remote} {HC : Conforms}.

(** An answer: an error or a value, never both or neither. *)
Definition lib_answered {A} (r : option (lib_answer A)) : Prop := ∃ a, r = Some a ∧ (gerr a = None ↔ is_Some (out a)).

Lemma lib_answered_fails {A} r e : lib_answered (A := A) (fails r e).
Proof. eexists. split; [done|]. split; [done|by intros [? ?]]. Qed.
Lemma lib_answered_query {A} path i method args t n1 n2 (get : gval → option A) r :
  declared i method = Some (value_type <$> args, t) → (∀ v, value_type v = t → is_Some (get v)) →
  lib_answered (query path i method args n1 n2 get r).
Proof.
  intros Hd Hget. unfold query. destruct (new_proxy path i); [apply lib_answered_fails|].
  destruct (remote_call path i method args) as [m|v] eqn:E; [apply lib_answered_fails|]. apply conforms in E.
  destruct (Hget v) as [a Ha]; [congruence|]. rewrite Ha. eexists. split; [done|]. by split.
Qed.
Lemma get_ok v :
  (value_type v = T_s → is_Some (get_s v)) ∧ (value_type v = T_o → is_Some (get_o v)) ∧ (value_type v = T_b → is_Some (get_b v)) ∧
  (value_type v = T_u → is_Some (get_u v)) ∧ (value_type v = T_ao → is_Some (get_ao v)).
Proof. destruct v; split_and!; try done; by eexists. Qed.

Lemma lib_answered_session {A} session name method t (get : gval → option A) :
  declared CK_SESSION_NAME method = Some ([], t) → (∀ v, value_type v = t → is_Some (get v)) →
  lib_answered (session_get true session true name method get).
Proof. intros Hd Hget. unfold session_get. destruct session; [by eapply lib_answered_query|apply lib_answered_fails]. Qed.

Ltac by_declaration := first [eapply lib_answered_session|eapply lib_answered_query]; [vm_compute; reflexivity|apply get_ok].

(** The library asks only what the daemon's interfaces declare, and reads each
    answer in the declared type: whatever a conforming daemon answers, every
    function returns, and sets an error or stores a value, never both and never
    neither, also for seats and sessions that are NULL. *)
Theorem client_total seat session uid pid :
  lib_answered (lib_consolekit_seat_get_sessions true seat true) ∧ lib_answered (lib_consolekit_get_sessions true true) ∧
  lib_answered (lib_consolekit_uid_get_sessions true uid true) ∧ lib_answered (lib_consolekit_seat_can_multi_session true seat) ∧
  lib_answered (lib_consolekit_session_is_active true session) ∧ lib_answered (lib_consolekit_session_is_remote true session) ∧
  lib_answered (lib_consolekit_session_get_uid true session true) ∧ lib_answered (lib_consolekit_session_get_seat true session true) ∧
  lib_answered (lib_consolekit_session_get_service true session true) ∧ lib_answered (lib_consolekit_session_get_type true session true) ∧
  lib_answered (lib_consolekit_session_get_class true session true) ∧ lib_answered (lib_consolekit_session_get_state true session true) ∧
  lib_answered (lib_consolekit_session_get_display true session true) ∧
  lib_answered (lib_consolekit_session_get_remote_host true session true) ∧
  lib_answered (lib_consolekit_session_get_tty true session true) ∧ lib_answered (lib_consolekit_session_get_vt true session true) ∧
  lib_answered (lib_consolekit_pid_get_session true pid true).
Proof.
  split_and!; try by_declaration; try (destruct seat; [by_declaration|apply lib_answered_fails]);
    try (destruct session; [by_declaration|apply lib_answered_fails]).
  unfold lib_consolekit_session_get_tty.
  assert (lib_answered (session_get true session true "tty" "GetX11DisplayDevice" get_s)) as (a & -> & Ha) by by_declaration.
  cbn [mbind option_bind]. destruct (out a) as [[|]|] eqn:Eo, session as [session|]; try (eexists; split; [done|by rewrite Eo]).
  destruct (remote_call session CK_SESSION_NAME "GetDisplayDevice" []) as [m|v] eqn:E; [apply lib_answered_fails|].
  apply conforms in E. assert (declared CK_SESSION_NAME "GetDisplayDevice" = Some ([], T_s)) as Hd by (vm_compute; reflexivity).
  destruct (proj1 (get_ok v)) as [s Hs]; [congruence|]. rewrite Hs.
  eexists. split; [done|]. by split.
Qed.
End daemon.

(** ** Against systemd's promises *)

Section compat.
Context {HR : Remote}.

(** What the headers of systemd say: a number below 0 is a failure.  [sd_seat_get_sessions]
    says 0 sessions instead, [sd_session_get_display] does not survive a failure. *)
Lemma failures seat session m p : new_proxy p CK_SEAT_NAME = Some m → seat = Some p →
  new_proxy session CK_SESSION_NAME = Some m →
  sd_seat_get_sessions seat true = Some (0%Z, None) ∧ sd_session_get_display (Some session) true = None ∧
  sd_session_get_class (Some session) true = Some ((-6)%Z, None).
Proof.
  intros H1 -> H2. unfold sd_seat_get_sessions, sd_session_get_display, sd_session_get_class, sd,
    lib_consolekit_seat_get_sessions, lib_consolekit_session_get_display, lib_consolekit_session_get_class, session_get, query.
  cbn [negb]. by rewrite H1, H2.
Qed.
(** Without a bus there are no sessions, says one function, while others fail. *)
Lemma no_bus_no_sessions m uid : new_proxy CK_MANAGER_PATH CK_MANAGER_NAME = Some m →
  lib_consolekit_uid_get_sessions true uid true = fails 0 (REMOTE_ERROR m).
Proof. intros H. unfold lib_consolekit_uid_get_sessions, query. cbn [negb]. by rewrite H. Qed.
End compat.

(** ** The list of the sessions *)

Module ListSessions.

(** The user database: the name and the gecos field of a user. *)
Class Passwd := { getpwuid : Z → option (string * cstr) }.

Section listing.
Context {HR : Remote} {HP : Passwd}.

(** A variable holds a value, NULL included, or, [None], nothing that may be read;
    without an answer of the right type it stays what it was. *)
Definition get_value {A} (path method : string) (get : gval → option A) (val : option A) : option A :=
  match remote_call path CK_SESSION_NAME method [] with
  | inl _ => val
  | inr v => match get v with None => val | a => a end
  end.
Definition get_property {A} (path property : string) (get : gval → option A) (val : option A) : option A :=
  match cached_property path CK_SESSION_NAME property with
  | None => val
  | Some v => match get v with None => val | a => a end
  end.
Definition some_text (get : gval → option string) (v : gval) : option cstr := Some <$> get v.
Definition get_uint (path method : string) := get_value path method get_u.
Definition get_uint_property (path property : string) := get_property path property get_u.
Definition get_path (path method : string) := get_value path method (some_text get_o).
Definition get_string (path method : string) := get_value path method (some_text get_s).
Definition get_boolean (path method : string) := get_value path method get_b.

Definition g_ascii_toupper (c : ascii) : ascii :=
  if is_lower c then Ascii.ascii_of_N (N_of_ascii c - 32) else c.
Definition capitalized (name : string) : string :=
  match name with EmptyString => "" | String c name => String (g_ascii_toupper c) name end.
(** The first field of gecos, each ["&"] replaced by the capitalized name. *)
Definition get_real_name (uid : Z) : cstr :=
  '(pw_name, pw_gecos) ← getpwuid uid;
  gecos ← pw_gecos;
  if String.eqb gecos "" then None
  else Some (String.concat (capitalized pw_name) (Leader.split_at "&"%char (hd "" (Leader.split_at ","%char gecos)))).

(** The last part that is not empty; NULL for NULL. *)
Definition g_path_get_basename (path : cstr) : cstr :=
  p ← path;
  Some (if String.eqb p "" then "." else default "/" (last (filter (λ t, t ≠ "") (Leader.split_at "/"%char p)))).

Definition endl : string := String "010"%char "".
Definition tab : string := String "009"%char "".
Definition quoted (v : cstr) : string := "'" +:+ Hooks.printf_s v +:+ "'".
Definition truth (b : bool) : string := if b then "TRUE" else "FALSE".
Definition field (name value : string) : string := endl +:+ tab +:+ name +:+ " = " +:+ value.

(** What is printed of a session; [None]: a variable is used that was never set.
    The number of the user is printed as a signed one. *)
Definition list_session (ssid : string) : option string :=
  match new_proxy ssid CK_SESSION_NAME with
  | Some m => Some ("error creating proxy, " +:+ m)
  | None =>
      uid ← get_uint ssid "GetUnixUser" (Some 0%Z);
      sid ← get_path ssid "GetSeatId" (Some None);
      lsid ← get_string ssid "GetLoginSessionId" (Some None);
      session_type ← get_string ssid "GetSessionType" (Some None);
      session_class ← get_string ssid "GetSessionClass" (Some None);
      session_state ← get_string ssid "GetSessionState" (Some None);
      session_service ← get_string ssid "GetSessionService" (Some None);
      x11_display ← get_string ssid "GetX11Display" (Some None);
      x11_display_device ← get_string ssid "GetX11DisplayDevice" (Some None);
      display_device ← get_string ssid "GetDisplayDevice" (Some None);
      remote_host_name ← get_string ssid "GetRemoteHostName" (Some None);
      is_active ← get_boolean ssid "IsActive" None;
      is_local ← get_boolean ssid "IsLocal" None;
      creation_time ← get_string ssid "GetCreationTime" (Some None);
      idle_since_hint ← get_string ssid "GetIdleSinceHint" (Some None);
      runtime_dir ← get_string ssid "GetXDGRuntimeDir" None;
      vtnum ← get_uint_property ssid "VTNr" (Some (u32 (-1)));
      Some (Hooks.printf_s (g_path_get_basename (Some ssid)) +:+ ":" +:+
        String.concat "" [
          field "unix-user" ("'" +:+ Scan.fmt_int (i32 uid) +:+ "'"); field "realname" (quoted (get_real_name uid));
          field "seat" (quoted (g_path_get_basename sid)); field "session-type" (quoted session_type);
          field "session-class" (quoted session_class); field "session-state" (quoted session_state);
          field "session-service" (quoted session_service); field "active" (truth is_active);
          field "x11-display" (quoted x11_display); field "x11-display-device" (quoted x11_display_device);
          field "display-device" (quoted display_device); field "remote-host-name" (quoted remote_host_name);
          field "is-local" (truth is_local); field "on-since" (quoted creation_time);
          field "login-session-id" (quoted lsid); field "XDG_RUNTIME_DIR" (quoted runtime_dir);
          (if Z.eqb vtnum 0 then "" else field "VTNr" ("'" +:+ Scan.fmt_unsigned vtnum +:+ "'"));
          (match idle_since_hint with
           | None | Some "" => ""
           | Some hint => field "idle-since-hint" (quoted (Some hint))
           end)] +:+ endl)
  end.

(** One after the other. *)
Fixpoint print_all (f : string → option string) (l : list string) : option string :=
  match l with
  | [] => Some ""
  | x :: l => text ← f x; rest ← print_all f l; Some (text +:+ rest)
  end.
Definition walk (path : string) (i : interface) (method : string) (f : string → option string) : option string :=
  match new_proxy path i with
  | Some m => Some ("error creating proxy, " +:+ m)
  | None =>
      match remote_call path i method [] with
      | inl _ => Some ""
      | inr v => l ← get_ao v; print_all f l
      end
  end.
Definition list_sessions (sid : string) : option string := walk sid CK_SEAT_NAME "GetSessions" list_session.
Definition list_seats : option string := walk CK_MANAGER_PATH CK_MANAGER_NAME "GetSeats" list_sessions.

(** [options]: what was parsed, [connection]: the error of the bus. *)
Definition main (argv0 version : string) (options : option bool) (connection : option string) : option (Z * string) :=
  match options, connection with
  | None, _ => Some (1%Z, "")
  | Some true, _ => Some (1%Z, argv0 +:+ " " +:+ version +:+ endl)
  | Some false, Some _ => Some (1%Z, "")
  | Some false, None => text ← list_seats; Some (0%Z, text)
  end.

(** ** What the list says *)

(** The sessions that are asked about: those of the seats that answer. *)
Definition listed (path : string) (i : interface) (method : string) : list string :=
  match new_proxy path i, remote_call path i method [] with
  | None, inr (VPaths l) => l
  | _, _ => []
  end.
Definition shown (session : string) : Prop :=
  ∃ seat, seat ∈ listed CK_MANAGER_PATH CK_MANAGER_NAME "GetSeats" ∧ session ∈ listed seat CK_SEAT_NAME "GetSessions".
Definition answers (path method : string) : Prop := ∃ v, remote_call path CK_SESSION_NAME method [] = inr v.

Context {HC : Conforms}.

(** A variable with an initial value is always set, one without by an answer. *)
Lemma get_value_init {A} path method (get : gval → option A) a : is_Some (get_value path method get (Some a)).
Proof. unfold get_value. destruct (remote_call _ _ _ _) as [m|v]; [by eexists|]. destruct (get v); by eexists. Qed.
Lemma get_property_init {A} path property (get : gval → option A) a : is_Some (get_property path property get (Some a)).
Proof. unfold get_property. destruct (cached_property _ _ _) as [v|]; [|by eexists]. destruct (get v); by eexists. Qed.
Lemma get_value_answers {A} path method t (get : gval → option A) :
  declared CK_SESSION_NAME method = Some ([], t) → (∀ v, value_type v = t → is_Some (get v)) →
  is_Some (get_value path method get None) ↔ answers path method.
Proof.
  intros Hd Hget. unfold get_value, answers. destruct (remote_call _ _ _ _) as [m|v] eqn:E.
  - split; [by intros [? [=]]|by intros [? [=]]].
  - split; [by eexists|intros _]. destruct (Hget v) as [a ->]; [apply conforms in E; congruence|by eexists].
Qed.

Lemma bind_set {A B} (o : option A) (f : A → option B) (P : Prop) :
  is_Some o → (∀ a, is_Some (f a) ↔ P) → is_Some (o ≫= f) ↔ P.
Proof. intros [a ->] H. apply H. Qed.
Lemma bind_if {A B} (o : option A) (f : A → option B) (P Q : Prop) :
  (is_Some o ↔ P) → (∀ a, is_Some (f a) ↔ Q) → is_Some (o ≫= f) ↔ P ∧ Q.
Proof.
  intros HPo HQ. destruct o as [a|]; cbn [mbind option_bind].
  - rewrite HQ, <- HPo. split; [by split; [eexists|]|by intros [_ ?]].
  - rewrite <- HPo. split; [by intros [? [=]]|by intros [[? [=]] _]].
Qed.

(** Three of the variables of a report have no initial value. *)
Definition reportable (session : string) : Prop := new_proxy session CK_SESSION_NAME = None →
  answers session "IsActive" ∧ answers session "IsLocal" ∧ answers session "GetXDGRuntimeDir".
Lemma list_session_defined session : is_Some (list_session session) ↔ reportable session.
Proof.
  unfold list_session, reportable. destruct (new_proxy session CK_SESSION_NAME) as [m|]; [by split; [|by eexists]|].
  trans (answers session "IsActive" ∧ answers session "IsLocal" ∧ answers session "GetXDGRuntimeDir"); [|by split; auto].
  do 11 (apply bind_set; [apply get_value_init|intros ?]).
  apply bind_if; [eapply get_value_answers; [vm_compute; reflexivity|apply get_ok]|intros ?].
  apply bind_if; [eapply get_value_answers; [vm_compute; reflexivity|apply get_ok]|intros ?].
  do 2 (apply bind_set; [apply get_value_init|intros ?]).
  trans (answers session "GetXDGRuntimeDir" ∧ True); [|tauto].
  apply bind_if.
  - eapply get_value_answers; [vm_compute; reflexivity|]. intros v Hv. unfold some_text.
    destruct (proj1 (get_ok v) Hv) as [x ->]. by eexists.
  - intros ?. apply bind_set; [apply get_property_init|]. intros ?. split; [done|by eexists].
Qed.

Lemma print_all_defined f l : is_Some (print_all f l) ↔ ∀ x, x ∈ l → is_Some (f x).
Proof.
  induction l as [|x l IH]; cbn [print_all]; [split; [intros _ x Hx; by apply elem_of_nil in Hx|by eexists]|].
  trans (is_Some (f x) ∧ ∀ y, y ∈ l → is_Some (f y)).
  - apply bind_if; [done|]. intros t. trans ((∀ y, y ∈ l → is_Some (f y)) ∧ True); [|tauto].
    apply bind_if; [done|]. intros u. split; [done|by eexists].
  - split; [intros [Hx Hl] y [->|Hy]%elem_of_cons; auto|]. intros H. split; [apply H; left|]. intros y Hy. apply H. by right.
Qed.
Lemma print_all_part f l text x :
  print_all f l = Some text → x ∈ l → ∃ a t b, f x = Some t ∧ text = a +:+ t +:+ b.
Proof.
  revert text. induction l as [|y l IH]; intros text H Hx; [by apply elem_of_nil in Hx|]. cbn [print_all] in H.
  destruct (f y) as [t|] eqn:Ef; [|done]. cbn [mbind option_bind] in H. destruct (print_all f l) as [rest|]; [|done].
  injection H as <-. apply elem_of_cons in Hx as [->|Hx]; [by exists "", t, rest|].
  destruct (IH rest eq_refl Hx) as (a & u & b & -> & ->). exists (t +:+ a), u, b. by rewrite !sapp_assoc.
Qed.

Lemma walk_spec path i method f :
  declared i method = Some ([], T_ao) →
  (is_Some (walk path i method f) ↔ ∀ x, x ∈ listed path i method → is_Some (f x)) ∧
  (∀ text x, walk path i method f = Some text → x ∈ listed path i method → ∃ a t b, f x = Some t ∧ text = a +:+ t +:+ b).
Proof.
  intros Hd. unfold walk, listed. assert (∀ x : string, x ∉ []) as Hno by apply not_elem_of_nil.
  destruct (new_proxy path i) as [m|]; [split; [split; [by intros _ x Hx%Hno|by eexists]|by intros ? x ? Hx%Hno]|].
  destruct (remote_call path i method []) as [m|v] eqn:E;
    [split; [split; [by intros _ x Hx%Hno|by eexists]|by intros ? x ? Hx%Hno]|].
  apply conforms in E. destruct v; try (cbn in E; congruence). cbn [get_ao mbind option_bind].
  split; [apply print_all_defined|intros text x; apply print_all_part].
Qed.

(** The list reads only variables that were set exactly if every session of a seat
    that has a proxy says whether it is active, whether it is local and its
    directory: a session that is closed after its seat named it makes the program
    read what it never set.  Else the program ends well, and the report of every
    session of every seat is in what it prints. *)
Theorem listing_defined argv0 version :
  (is_Some (main argv0 version (Some false) None) ↔ ∀ session, shown session → reportable session) ∧
  (∀ code text session, main argv0 version (Some false) None = Some (code, text) → shown session →
     code = 0%Z ∧ ∃ a report b, list_session session = Some report ∧ text = a +:+ report +:+ b).
Proof.
  assert (declared CK_MANAGER_NAME "GetSeats" = Some ([], T_ao)) as Hm by (vm_compute; reflexivity).
  assert (declared CK_SEAT_NAME "GetSessions" = Some ([], T_ao)) as Hs by (vm_compute; reflexivity).
  destruct (walk_spec CK_MANAGER_PATH CK_MANAGER_NAME "GetSeats" list_sessions Hm) as [Hdef Hpart]. unfold main. split.
  - trans (is_Some list_seats ∧ True); [apply bind_if; [done|intros ?; split; [done|by eexists]]|].
    unfold list_seats. rewrite Hdef. split.
    + intros [H _] session (seat & H1 & H2). apply list_session_defined.
      by apply (proj1 (walk_spec seat CK_SEAT_NAME "GetSessions" list_session Hs)); [apply H|].
    + intros H. split; [|done]. intros seat Hseat. apply (walk_spec _ _ _ _ Hs). intros session Hsession.
      apply list_session_defined, H. by exists seat.
  - intros code text session H (seat & H1 & H2). fold list_seats in Hpart.
    destruct list_seats as [t|]; [|done]. injection H as <- <-. split; [done|].
    destruct (Hpart t seat eq_refl H1) as (a & t1 & b & E1 & ->).
    destruct (proj2 (walk_spec seat CK_SEAT_NAME "GetSessions" list_session Hs) t1 session E1 H2) as (c & r & d & E & ->).
    exists (a +:+ c), r, (d +:+ b). split; [done|]. by rewrite !sapp_assoc.
Qed.
End listing.

(** A daemon with a seat and a session, which may be closed meanwhile; its user
    has the gecos field ["& Miller,,,"]. *)
Definition small_daemon (open : bool) : Remote := {|
  new_proxy _ _ := None;
  remote_call path i method args :=
    match i with
    | CK_MANAGER_NAME => if String.eqb method "GetSeats" then inr (VPaths ["/org/Seat1"]) else inl "unknown"
    | CK_SEAT_NAME => if String.eqb method "GetSessions" then inr (VPaths ["/org/Session1"]) else inl "unknown"
    | CK_SESSION_NAME =>
        if negb open then inl "gone" else
        match declared CK_SESSION_NAME method with
        | Some ([], T_s) => inr (VString method)
        | Some ([], T_o) => inr (VPath "/org/Seat1")
        | Some ([], T_b) => inr (VBool (String.eqb method "IsActive"))
        | Some ([], T_u) => inr (VUint 1000)
        | _ => inl "unknown"
        end
    end;
  cached_property _ _ _ := None
|}.
Definition jane : Passwd := {| getpwuid _ := Some ("jane", Some "& Miller,,,") |}.

Example jane_listed :
  option_map (λ r, String.substring 0 71 r.2) (@main (small_daemon true) jane "list" "1" (Some false) None) =
    Some ("Session1:" +:+ field "unix-user" "'1000'" +:+ field "realname" "'Jane Miller'" +:+ field "seat" "'Seat1'").
Proof. vm_compute. reflexivity. Qed.
Example jane_gone : @main (small_daemon false) jane "list" "1" (Some false) None = None.
Proof. vm_compute. reflexivity. Qed.
End ListSessions.
